(* ===== verification/_CoqProject ===== *)
-Q . S2P
Prelude.v
Endian.v
GoNet.v
GoStrings.v
GoStrconv.v
MountInfo.v
GoPath.v
OS.v
Mounts.v
CTypes.v
Layout.v
BpfMap.v
Helpers.v
HelperDefs.v
Tracing.v
KernelTypes.v
HelperTypes.v
ReachedTypes1.v
ReachedTypes2.v
ReachedTypes3.v
ReachedTypes4.v
Enums.v
TypeGraph.v
Connect4.v
Socket.v
Context.v
Loader.v
Main.v
HelperUse.v
GoSet.v
Manager.v
ManagerSpec.v
System.v
Controller.v
ControllerSpec.v
Closed.v
Informer.v
InformerRun.v
Resources.v
Running.v
RunningInv.v
RunningSpec.v
RunningProgress.v
RunningLive.v
EndToEnd.v
Served.v
