(* ===== verification/Prelude.v ===== *)
(** * eproxy: a verification of the agent and of its eBPF program

    eproxy replaces kube-proxy for ClusterIP services.  An agent in Go watches
    the services and endpoint slices of a Kubernetes cluster and writes them to
    two BPF hash maps; an eBPF program in C, attached to the [connect4] hook of
    a cgroup, reads the maps on every IPv4 [connect] and rewrites the
    destination to one of the service's endpoints.

    ** The parts and how they interact

    - src/ebpf/src/service.c: the program.  Its types are in kernel/common.h,
      kernel/socket.h and kernel/vmlinux.h, its macros and helpers in
      headers/bpf_endian.h, bpf_helpers.h, bpf_helper_defs.h (and
      bpf_tracing.h, which comes with them).
    - src/pkg/bpf/types.go, map.go: the Go types of the map keys and values,
      and wrappers around the maps.
    - src/pkg/manager: the service manager, which turns a service and a slice
      into map entries, and keeps its own table of services.
    - src/pkg/utils: port and address conversions, and a set type.
    - src/pkg/kubernetes/controller: the work queue of events and the worker
      that calls the manager.
    - src/pkg/kubernetes/informers: the watched objects and their stores, and
      their registration with client-go's informer factory.
    - src/pkg/mountinfo, src/pkg/cgroups, src/pkg/bpf/bpffs_linux.go: are the
      BPF and the cgroup2 file systems mounted, and if not, mount them.
    - src/pkg/bpf/bpf.go: load the program, attach it, hand out its maps.
    - src/cmd/eproxy/main.go, src/pkg/utils/signals: start-up, the polling loop
      and the end of the process.

    ** The files

    - Prelude: machine words, bytes, the monad of Go calls ([GoM]: state,
      results and panics), automation.
    - Endian (module [Endian]): bpf_endian.h for both byte orders, and
      [LittleEndianPort] of utils.go.
    - GoNet, GoStrings, GoStrconv, GoPath: the parts of Go's net,
      encoding/binary, strings, strconv, bufio and path/filepath the agent calls
      ([ParseIP], [To4], [Uint32], [Split], [ParseInt], [Scan], [Dir], [Clean]),
      and [IPString2Int32].
    - MountInfo: the parser of /proc/self/mountinfo.
    - OS: the calls of the operating system as an interface ([OS], [OSSpec])
      with the instance [simfs], a tree of paths with devices.
    - Mounts: [IsMountFS], bpffs_linux.go and pkg/cgroups.
    - CTypes: the layout of C types (structs, packed or not, unions, arrays,
      pointers, bit fields), and when one type starts with another.
    - KernelTypes: the interface of eBPF programs in vmlinux.h, contexts and
      enumerations.  HelperTypes: the structs helpers take or return, with what
      they embed.  ReachedTypes1 to ReachedTypes4: what chains of pointers lead
      to from there.  Enums: the enumerations that are types of their members.
      TypeGraph: all of them in one table ([declared], [reaches], through
      pointers to pointers too).
    - Socket: the macros of socket.h and the kernel's enumerators of the same
      names.
    - Layout: structs as bytes, with C's alignment and with the packed encoding
      of the Go map library; the structs of common.h and types.go.
    - BpfMap: the maps as an interface ([MapOps], [MapSpec]), since the kernel
      and the map library are not in the sources; [hmap] is an instance with a
      capacity.  The wrappers of map.go.
    - Helpers, HelperDefs, HelperUse: bpf_helpers.h, the 180 declarations of
      bpf_helper_defs.h and the calls service.c makes.
    - Tracing: bpf_tracing.h.
    - Connect4: [connect4] with an abstract load balancer it refines.
    - Context: the context of [connect4] as the bytes of the kernel's struct.
    - Loader: bpf.go over an interface of the eBPF library ([EbpfOps],
      [EbpfSpec]), and what the compiled service.c holds (two maps, its format
      strings as a third, the program); [sim_lib] is an instance.
    - Main: main.go and pkg/utils/signals as two goroutines that interleave,
      and how the process ends ([ending]): an exit code, or a signal it does not
      listen to.
    - GoSet: src/pkg/utils/set, with the order of a Go [range] as an argument.
    - Manager, ManagerSpec: src/pkg/manager.  [ServiceManager] is the record of
      the Go struct plus a heap for the shared [*Service] objects; every method
      is one definition.  [live] is the set of states the controller reaches.
    - System: the manager and the program over the same maps.
    - Controller, ControllerSpec: src/pkg/kubernetes/controller over an
      interface of client-go's work queue ([QueueOps], [QueueSpec]), with
      [wqueue] as an instance; and the path from an event to a connection.
    - Closed: the manager over maps that [main] has closed, where every
      operation fails: what the handler does then ([handle_closed]).
    - Informer: the accessors, the conversions and the delta processing of
      src/pkg/kubernetes/informers, at both object types, over interfaces of
      client-go's store ([IndexerOps], [IndexerSpec]) and of the controller
      with its queue of deltas ([CacheOps], [CacheSpec], with [fifo]).
    - InformerRun: [Run] of an informer as the steps of a goroutine, with the
      invariant [good].
    - Resources: informer.go, the constructors of both informers, the part of
      [NewController] that touches them, and main.go from [NewResources] to the
      loop, over interfaces of the informer factory ([FactoryOps],
      [FactorySpec], with [table]) and of label selectors ([LabelOps],
      [LabelSpec], with [requirement]).
    - Running: the agent after start-up: the goroutines of Main and
      InformerRun, [BaseController.Run] and its worker, as steps in any order
      over one state ([running], [step], [exec]).  The worker holds the pointers
      the listers return ([Looked], [Found]) and reads the objects through them,
      so it sees what an informer has made of them since, and it goes on when the
      maps are closed.  RunningInv: the invariant
      [inv] of its reachable states and the steps of a worker as a relation
      ([moved]).  RunningSpec: its theorems.  RunningProgress: how many steps the
      worker has left ([effort]).  RunningLive: invariants of the manager in the
      running agent.
    - EndToEnd: from the objects the API server sends to the destination of a
      connection, through all of the above.  Served: the same for an agent with
      one service, in any versions, the slices of which it serves.

    ** What the theorems show

    - The program: every run allows the connection and either leaves it alone
      or sends it to a stored backend of the matched service
      ([connect4_safe]); on maps that represent a table it is the abstract
      balancer ([connect4_refines_lb]), in which port 0 is a port and no wildcard
      ([port_zero_is_no_wildcard]), fair over the random words
      ([slot_index_fair]); its trace lines are accepted by the helper; in
      memory it changes the address and the port only
      ([connect4_context_bytes]).
    - Start and end: what mounting does on each state of the host
      ([checkOrMountDefaultLocations_outcome], [cgroup_root_mounted]), the
      order of [LoadAndAttach], whose errors they are, what is left after them
      and when it ends the process ([LoadAndAttach_outcome]); the process ends
      within six steps of the stop channel's closing ([stop_terminates]), and
      the running agent only by a signal or by a panic of the handler, with exit
      code 0 only after closing the program ([agent_process_ends]).
    - The mountinfo parser: a round trip with the kernel's format, what it
      accepts and refuses, line by line.
    - The interface: the bytes Go writes are the bytes C reads
      ([go_c_layout_agree]), keys are not confused, and the byte-order macros
      and their Go counterpart agree.
    - The manager: what [AppendService], [DeleteService], [UpdateService],
      [NewService] and the callbacks do to the maps on each branch, and an
      invariant of the reachable states.
    - The controller: what the worker does on each outcome, and that an event
      on a fresh agent makes connections reach the endpoints
      ([event_to_connection]); its loop ends once the queue is shut down
      ([drain_terminates]).
    - The informers: their stores hold the converted objects of the deltas
      ([Process_updates_store]); main.go wires the custom informers to the
      controller before they start ([main_wire_outcome]).
    - The running agent, in every interleaving: no change of a slice is lost
      ([no_update_lost]), the worker keeps up with the events and rests only
      when every slice is handled, delayed or about to be queued
      ([agent_catches_up]), workers start after both first lists
      ([workers_after_first_lists]), the dynamic types the source relies on
      hold ([agent_well_typed]), only the handler can panic, and only on the
      objects it looked up ([only_handler_crashes]), the workers end after the
      stop, before or after the maps are closed ([shutdown_drains]); the two
      encodings of a worker agree ([worker_steps_refine]); and one run goes from
      the first lists to a connection ([agent_serves]).
    - One service, in any versions with one port each, in every interleaving
      without tombstones: once the worker rests, connections to the service are
      balanced over the ready addresses of the slice in the store
      ([resting_agent_serves]).
    - End to end, in every interleaving: [connect4] on the agent's maps sends
      connections only from cluster addresses of services to ready addresses of
      slices, at target ports of the slice's own service
      ([connections_reach_listed_endpoints]).
    - Where the code does not do what it means to, the theorem states what it
      does: all services get id 1 ([agent_service_ids_are_one]), so one captures
      another's connections; ports share slots; deleting a service with
      endpoints panics; deleted slices are requeued forever; the callbacks use
      a swapped key; the next event of a slice whose service is stored ends the
      agent ([served_slice_event_crashes], and [update_crashes_agent] as a run);
      an informer can clear a slice under the handler, which then publishes the
      service without endpoints ([cleared_slice_published]).
    - The headers: helper numbers, signatures and documented results are
      consistent and agree with the kernel's enumeration; the flags of a helper
      can be combined; the socket casts keep the members all sockets share
      ([skc_casts_keep_common]); the types programs reach from a helper by
      following pointers are declared and laid out, or in a list of incomplete
      ones ([helper_pointers_stay_declared]); the printing and tracing macros
      expand to what they should.

    ** Bounds, fuel and assumptions

    - [find_free] runs with fuel 65534, the number of iterations of the loop
      [for i := 1; i < 65535; i++], and [assign_id_terminates] shows that it is
      enough.  [runWorker] has no bound in the code: its theorems are about any
      number of steps ([worked]), and on a queue that is shut down
      [drain_terminates] gives the fuel that is enough.  [expand] of Socket has
      fuel 2, enough for every macro of the header ([macros_expand]).
    - Counts and ports are truncated to 16 bits as in the code; the theorems
      that need it assume fewer than 65536 endpoints (of the manager's service,
      or of every slice the API server sends).
    - Go ranges over sets in an arbitrary order: the order is an argument, and
      theorems hold for all orders of the set's members ([go_orders] says so of
      the steps of a run; theorems without it hold for any list).
    - The random word of [bpf_get_prandom_u32] is an argument of [connect4].
    - The state of the operating system is passed from call to call: nothing
      else mounts or unmounts between two calls of the agent.  The mounting
      theorems assume that the directories above the mount point are not on a
      file system of the same type already, where the agent could not see the
      mount; the mount point itself need not exist.
    - A worker takes at most six steps for an item, seven with its return
      ([agent_catches_up], [shutdown_drains]).
    - The assumptions on code outside the sources are the classes [MapSpec],
      [QueueSpec], [KeyFuncSpec], [IndexerSpec], [CacheSpec], [FactorySpec],
      [LabelSpec], [OSSpec] and [EbpfSpec], each with an instance.

    ** Not modelled

    The Kubernetes clients are parameters of the construction; the profiler's
    server, which shares nothing with the rest, is left out, and so are the
    constants of defaults.go nothing reads and the stubs for other systems.
    vmlinux.h has 90,000 lines of kernel types: those in the interface of eBPF
    programs and helpers and those that pointers lead to from there are
    modelled; the others, which only the kernel's own functions use, are not,
    and neither are the signatures of function pointers, which a program cannot
    call.  Locks are not modelled:
    the manager is only called by the one worker that main.go starts, and the
    queue and the stores lock themselves; the two fields of an informer that
    are read without a lock are listed as a finding.  The handler reads each
    object it holds a pointer to in one step: what it would see of an object an
    informer is clearing at that very moment, part of it old and part cleared, is
    not modelled, and neither is the race detector's view of such reads.
    Logging has no effect except for fatal and panicking calls, which are
    outcomes. *)

From Stdlib Require Import ZArith Lia String Ascii.
From stdpp Require Import base gmap strings list sorting.

Local Open Scope Z_scope.

(** ** Machine words

    A [w]-bit unsigned integer is a [Z] in [0, 2^w); every C or Go operation
    that can leave the range wraps explicitly. *)

Declare Scope word_scope.
Delimit Scope word_scope with word.

Definition uwrap (w x : Z) : Z := x mod 2 ^ w.

Abbreviation u8 x := (uwrap 8 x) (only parsing).
Abbreviation u16 x := (uwrap 16 x) (only parsing).
Abbreviation u32 x := (uwrap 32 x) (only parsing).
Abbreviation u64 x := (uwrap 64 x) (only parsing).

Definition in_u (w x : Z) : Prop := 0 <= x < 2 ^ w.

#[export] Instance in_u_dec w x : Decision (in_u w x).
Proof. unfold in_u. apply _. Defined.

(** Shifts in a register of width [w]. *)
Definition shl (w x n : Z) : Z := uwrap w (Z.shiftl x n).
Definition shr (x n : Z) : Z := Z.shiftr x n.

Notation "x <<[ w ] n" := (shl w x n) (at level 38, left associativity) : word_scope.
Notation "x >> n" := (shr x n) (at level 38, left associativity) : word_scope.
Notation "x .| y" := (Z.lor x y) (at level 46, left associativity) : word_scope.
Notation "x .& y" := (Z.land x y) (at level 39, left associativity) : word_scope.

Lemma uwrap_in_u w x : 0 <= w -> in_u w (uwrap w x).
Proof. intros ?. apply Z.mod_pos_bound. apply Z.pow_pos_nonneg; lia. Qed.

Lemma uwrap_small w x : in_u w x -> uwrap w x = x.
Proof. intros. by apply Z.mod_small. Qed.

Lemma in_u_mono w w' x : 0 <= w <= w' -> in_u w x -> in_u w' x.
Proof.
  intros Hw [H0 H1]. split; [lia|]. eapply Z.lt_le_trans; [exact H1|].
  apply Z.pow_le_mono_r; lia.
Qed.

Lemma testbit_uwrap w x i :
  0 <= w -> Z.testbit (uwrap w x) i = (i <? w) && Z.testbit x i.
Proof.
  intros ?. unfold uwrap. destruct (Z.ltb_spec i w).
  - destruct (Z.ltb_spec i 0); [by rewrite !Z.testbit_neg_r|].
    rewrite Z.mod_pow2_bits_low by lia. done.
  - rewrite Z.mod_pow2_bits_high by lia. done.
Qed.

Lemma testbit_in_u w x i : in_u w x -> w <= i -> Z.testbit x i = false.
Proof.
  intros Hx Hi. destruct (Z.ltb_spec w 0).
  - destruct Hx. rewrite Z.pow_neg_r in * by lia. lia.
  - rewrite <- (uwrap_small w x) by done. rewrite testbit_uwrap by lia.
    destruct (Z.ltb_spec i w); [lia|done].
Qed.

Lemma in_u_lor w x y : 0 <= w -> in_u w x -> in_u w y -> in_u w (Z.lor x y).
Proof.
  intros Hw Hx Hy. rewrite <- (uwrap_small w x), <- (uwrap_small w y) by done.
  replace (Z.lor _ _) with (uwrap w (Z.lor x y)); [by apply uwrap_in_u|].
  apply Z.bits_inj'. intros i Hi.
  rewrite Z.lor_spec, !testbit_uwrap, Z.lor_spec by lia. by destruct (i <? w).
Qed.

Create HintDb words discriminated.
#[export] Hint Resolve uwrap_in_u in_u_lor : words.
#[export] Hint Extern 1 (0 <= _) => lia : words.
#[export] Hint Extern 2 (in_u _ _) => (unfold in_u; lia) : words.

(** [bits_at i] reduces an equality of words to the equality of their bits
    and rewrites the bit of every operation of the models. *)
Ltac word_bits :=
  repeat first
    [ rewrite Z.lor_spec | rewrite Z.land_spec | rewrite testbit_uwrap by lia
    | rewrite Z.shiftl_spec by lia | rewrite Z.shiftr_spec by lia ].

Ltac split_ltb :=
  repeat match goal with
  | |- context [?a <? ?b] => destruct (Z.ltb_spec a b); try lia
  end.

(** ** Bytes in memory

    A byte is a [Z] in [0, 256). [le_bytes n x] are the [n] low bytes of [x],
    least significant first; [of_le] reads them back. *)

Fixpoint le_bytes (n : nat) (x : Z) : list Z :=
  match n with
  | O => []
  | S n' => uwrap 8 x :: le_bytes n' (shr x 8)
  end.

Fixpoint of_le (bs : list Z) : Z :=
  match bs with
  | [] => 0
  | b :: bs' => b + 256 * of_le bs'
  end.

Inductive byte_order := LittleEndian | BigEndian.

#[export] Instance byte_order_eq_dec : EqDecision byte_order.
Proof. solve_decision. Defined.

(** The bytes of an [n]-byte integer in the memory of a host of order [bo]. *)
Definition mem_bytes (bo : byte_order) (n : nat) (x : Z) : list Z :=
  match bo with
  | LittleEndian => le_bytes n x
  | BigEndian => rev (le_bytes n x)
  end.

Definition of_mem (bo : byte_order) (bs : list Z) : Z :=
  match bo with
  | LittleEndian => of_le bs
  | BigEndian => of_le (rev bs)
  end.

Definition is_byte (b : Z) : Prop := in_u 8 b.

#[export] Instance is_byte_dec b : Decision (is_byte b).
Proof. unfold is_byte. apply _. Defined.

Lemma length_le_bytes n x : length (le_bytes n x) = n.
Proof. revert x. induction n; simpl; intros; [done|]. by rewrite IHn. Qed.

Lemma length_mem_bytes bo n x : length (mem_bytes bo n x) = n.
Proof. destruct bo; simpl; rewrite ?length_rev; apply length_le_bytes. Qed.

Lemma le_bytes_are_bytes n x : Forall is_byte (le_bytes n x).
Proof.
  revert x. induction n; simpl; intros; constructor; [|done].
  apply uwrap_in_u. lia.
Qed.

Lemma of_le_le_bytes n x : of_le (le_bytes n x) = uwrap (8 * Z.of_nat n) x.
Proof.
  revert x. induction n as [|n IH]; intros x; cbn [le_bytes of_le].
  - unfold uwrap. change (2 ^ (8 * Z.of_nat 0)) with 1. by rewrite Z.mod_1_r.
  - rewrite IH. unfold uwrap, shr. rewrite Z.shiftr_div_pow2 by lia.
    replace (8 * Z.of_nat (S n)) with (8 + 8 * Z.of_nat n) by lia.
    rewrite Z.pow_add_r by lia. change (2 ^ 8) with 256.
    rewrite Z.rem_mul_r by (try apply Z.pow_pos_nonneg; lia). done.
Qed.

Lemma of_le_bound bs : Forall is_byte bs -> in_u (8 * Z.of_nat (length bs)) (of_le bs).
Proof.
  unfold in_u. induction 1 as [|b bs Hb _ IH]; cbn [of_le length]; [done|].
  replace (8 * Z.of_nat (S (length bs))) with (8 + 8 * Z.of_nat (length bs)) by lia.
  rewrite Z.pow_add_r by lia. unfold is_byte, in_u in Hb.
  change (2 ^ 8) with 256 in *. lia.
Qed.

Lemma le_bytes_of_le bs : Forall is_byte bs -> le_bytes (length bs) (of_le bs) = bs.
Proof.
  induction 1 as [|b bs Hb Hbs IH]; cbn [of_le length le_bytes]; [done|].
  unfold is_byte, in_u in Hb. change (2 ^ 8) with 256 in Hb. f_equal.
  - unfold uwrap. change (2 ^ 8) with 256. symmetry.
    apply Z.mod_unique_pos with (of_le bs); lia.
  - unfold shr. rewrite Z.shiftr_div_pow2 by lia. change (2 ^ 8) with 256.
    replace ((b + 256 * of_le bs) / 256) with (of_le bs); [done|].
    apply Z.div_unique_pos with b; lia.
Qed.

Lemma of_mem_mem_bytes bo n x : of_mem bo (mem_bytes bo n x) = uwrap (8 * Z.of_nat n) x.
Proof. destruct bo; simpl; rewrite ?rev_involutive; apply of_le_le_bytes. Qed.

Lemma le_bytes_inj n x y :
  in_u (8 * Z.of_nat n) x -> in_u (8 * Z.of_nat n) y ->
  le_bytes n x = le_bytes n y -> x = y.
Proof.
  intros Hx Hy E. apply (f_equal of_le) in E.
  rewrite !of_le_le_bytes, !uwrap_small in E by done. done.
Qed.

(** ** Go's errors, panics and effectful calls

    An [error] value is compared by identity in the sources, so the sentinel
    errors are constructors of their own. *)

Inductive error :=
  | StopIteration
  | RemoveItem
  | ErrKeyNotExist
  | ErrMapFull
  | ErrNotFound
  | ErrMsg (msg : string)
  | ErrSyntax                                    (* strconv.ErrSyntax *)
  | ErrRange                                     (* strconv.ErrRange *)
  | ErrTooLong                                   (* bufio.ErrTooLong *)
  | Errno (n : Z)                                (* a failed system call *)
  | NumError (func num : string) (err : error)   (* *strconv.NumError *)
  | PathError (op path : string) (err : error)   (* *fs.PathError *)
  | FmtError (wraps : bool) (msg : string) (err : error).
    (* fmt.Errorf of a message that ends in an error, as %w or as %s *)

#[export] Instance error_eq_dec : EqDecision error.
Proof. solve_decision. Defined.

(** [errors.Is]: the error or one it wraps, compared by identity. *)
Fixpoint errors_Is (e target : error) : bool :=
  bool_decide (e = target) ||
  match e with
  | NumError _ _ err | PathError _ _ err | FmtError true _ err => errors_Is err target
  | _ => false
  end.

(** Why a goroutine stopped. *)
Inductive panic :=
  | NilDereference
  | IndexOutOfRange
  | NilMapWrite
  | CloseOfClosedChannel
  | Exit (code : Z)
  | PanicValue (err : error)   (* panic(err) *)
  | LogPanic (err : error)
  | LogFatal (msg : string).

#[export] Instance panic_eq_dec : EqDecision panic.
Proof. solve_decision. Defined.

Inductive outcome (A : Type) :=
  | Returns (a : A)
  | Panics (p : panic).
Arguments Returns {A} _.
Arguments Panics {A} _.

(** A call that reads and writes a state [St]: the state reached is kept when
    the call panics, since the effects on the kernel's maps stay. *)
Definition GoM (St A : Type) : Type := St -> outcome A * St.

Definition ret {St A} (a : A) : GoM St A := fun s => (Returns a, s).

Definition bind {St A B} (m : GoM St A) (k : A -> GoM St B) : GoM St B :=
  fun s => match m s with
           | (Returns a, s') => k a s'
           | (Panics p, s') => (Panics p, s')
           end.

Definition panics {St A} (p : panic) : GoM St A := fun s => (Panics p, s).
Definition get {St} : GoM St St := fun s => (Returns s, s).
Definition put {St} (s : St) : GoM St unit := fun _ => (Returns tt, s).
Definition modify {St} (f : St -> St) : GoM St unit := fun s => (Returns tt, f s).

Declare Scope go_scope.
Delimit Scope go_scope with go.
Notation "'let!' x ':=' m 'in' k" := (bind m (fun x => k))
  (at level 10, x binder, m at level 100, k at level 200) : go_scope.
Notation "m ;;; k" := (bind m (fun _ => k))
  (at level 199, right associativity) : go_scope.

Section GoM_laws.
Context {St : Type}.

Lemma bind_ret_l {A B} (a : A) (k : A -> GoM St B) s : bind (ret a) k s = k a s.
Proof. done. Qed.

Lemma bind_returns {A B} (m : GoM St A) (k : A -> GoM St B) s a s' :
  m s = (Returns a, s') -> bind m k s = k a s'.
Proof. intros E. unfold bind. by rewrite E. Qed.

Lemma bind_panics {A B} (m : GoM St A) (k : A -> GoM St B) s p s' :
  m s = (Panics p, s') -> bind m k s = (Panics p, s').
Proof. intros E. unfold bind. by rewrite E. Qed.

(** [ensures P m Q]: from a state satisfying [P], the call [m] ends, by
    returning or by panicking, in an outcome and state that satisfy [Q]. *)
Definition ensures {A} (P : St -> Prop) (m : GoM St A)
    (Q : outcome A -> St -> Prop) : Prop :=
  forall s, P s -> Q (m s).1 (m s).2.

Lemma ensures_bind {A B} (P : St -> Prop) (m : GoM St A) (k : A -> GoM St B)
    (R : A -> St -> Prop) (Q : outcome B -> St -> Prop) :
  ensures P m (fun o s => match o with
                          | Returns a => R a s
                          | Panics p => Q (Panics p) s
                          end) ->
  (forall a, ensures (R a) (k a) Q) ->
  ensures P (bind m k) Q.
Proof.
  intros Hm Hk s Hs. specialize (Hm s Hs). unfold bind.
  destruct (m s) as [[a|p] s'] eqn:E; simpl in *; [|done]. by apply Hk.
Qed.

(** A call preserves [I] when every outcome, panics included, leaves it. *)
Definition preserves {A} (I : St -> Prop) (m : GoM St A) : Prop :=
  ensures I m (fun _ => I).

Lemma preserves_bind {A B} (I : St -> Prop) (m : GoM St A) (k : A -> GoM St B) :
  preserves I m -> (forall a, preserves I (k a)) -> preserves I (bind m k).
Proof.
  intros Hm Hk. apply ensures_bind with (R := fun _ => I); [|done].
  intros s Hs. specialize (Hm s Hs). by destruct (m s) as [[|] ?].
Qed.

Lemma preserves_ret {A} (I : St -> Prop) (a : A) : preserves I (ret a).
Proof. by intros s. Qed.

Lemma preserves_panics {A} (I : St -> Prop) p : preserves I (panics (A := A) p).
Proof. by intros s. Qed.

Lemma preserves_get {A} (I : St -> Prop) (k : St -> GoM St A) :
  (forall s, preserves I (k s)) -> preserves I (bind get k).
Proof. intros Hk. apply preserves_bind; [by intros s|done]. Qed.
End GoM_laws.

Create HintDb go discriminated.
#[export] Hint Resolve preserves_bind preserves_ret preserves_panics preserves_get : go.

(** Closes an equation between closed terms by evaluating both sides. *)
Ltac by_vm :=
  lazymatch goal with |- _ = ?b => vm_cast_no_check (eq_refl b) end.

(** ** Lists *)

Lemma elem_of_list_insert {A} (i : nat) (x y : A) (l : list A) : y ∈ <[i := x]> l -> y = x \/ y ∈ l.
Proof.
  intros [j Hj]%list_elem_of_lookup. apply list_lookup_insert_Some in Hj as [(_ & -> & _)|[_ Hj]];
    [by left|right]. by eapply list_elem_of_lookup_2.
Qed.

(** ** Strings with separators *)

Definition ch_slash : ascii := "/"%char.

Fixpoint no_char (c : ascii) (s : string) : bool :=
  match s with
  | EmptyString => true
  | String c' s' => negb (Ascii.eqb c' c) && no_char c s'
  end.

Definition no_slash (s : string) : bool := no_char ch_slash s.

(** A text up to its first slash determines the two parts. *)
Lemma slash_join_inj a a' b b' :
  no_slash a = true -> no_slash a' = true ->
  (a ++ "/" ++ b)%string = (a' ++ "/" ++ b')%string -> a = a' /\ b = b'.
Proof.
  unfold no_slash. revert a'. induction a as [|c a IH]; intros [|c' a'] Ha Ha' E; cbn in *.
  - by simplify_eq.
  - injection E as <- _. by vm_compute in Ha'.
  - injection E as -> _. by vm_compute in Ha.
  - simplify_eq. apply andb_true_iff in Ha as [_ Ha]. apply andb_true_iff in Ha' as [_ Ha'].
    destruct (IH a') as [-> ->]; done.
Qed.
