(* ===== verification/Endian.v ===== *)
(** * Byte order: src/ebpf/src/headers/bpf_endian.h and the port swap of
    src/pkg/utils/utils.go

    The macros of bpf_endian.h are modelled with the widths C computes them
    in: an operand narrower than [int] is promoted to 32 bits before a shift,
    which [___bpf_mvb] relies on for the 16-bit swap. *)

From Stdlib Require Import ZArith Lia.
From stdpp Require Import base list.
From S2P Require Import Prelude.

Local Open Scope Z_scope.
Local Open Scope word_scope.

Module Endian.

(** ** The swap macros *)

(** The width in which C evaluates a shift of an operand of [b] bits. *)
Definition promoted (b : Z) : Z := Z.max b 32.

Definition bpf_mvb (x b n m : Z) : Z :=
  ((uwrap b x <<[promoted b] (b - (n + 1) * 8)) >> (b - 8)) <<[promoted b] (m * 8).

Definition bpf_swab16 (x : Z) : Z :=
  uwrap 16 (bpf_mvb x 16 0 1 .| bpf_mvb x 16 1 0).

Definition bpf_swab32 (x : Z) : Z :=
  uwrap 32 (bpf_mvb x 32 0 3 .| bpf_mvb x 32 1 2 .| bpf_mvb x 32 2 1 .| bpf_mvb x 32 3 0).

Definition bpf_swab64 (x : Z) : Z :=
  uwrap 64 (bpf_mvb x 64 0 7 .| bpf_mvb x 64 1 6 .| bpf_mvb x 64 2 5 .| bpf_mvb x 64 3 4
            .| bpf_mvb x 64 4 3 .| bpf_mvb x 64 5 2 .| bpf_mvb x 64 6 1 .| bpf_mvb x 64 7 0).

(** The compiler's [__builtin_bswapN]: the bytes of the operand, reversed. *)
Definition bswap (n : nat) (x : Z) : Z := of_le (rev (le_bytes n x)).

(** ** The conversions, chosen by the byte order of the target and by whether
    the compiler knows the operand ([__builtin_constant_p]) *)

Definition bpf_htons (bo : byte_order) (constant_p : bool) (x : Z) : Z :=
  match bo with
  | LittleEndian => if constant_p then bpf_swab16 x else bswap 2 x
  | BigEndian => x
  end.

Definition bpf_ntohs (bo : byte_order) (constant_p : bool) (x : Z) : Z :=
  match bo with
  | LittleEndian => if constant_p then bpf_swab16 x else bswap 2 x
  | BigEndian => x
  end.

Definition bpf_htonl (bo : byte_order) (constant_p : bool) (x : Z) : Z :=
  match bo with
  | LittleEndian => if constant_p then bpf_swab32 x else bswap 4 x
  | BigEndian => x
  end.

Definition bpf_ntohl (bo : byte_order) (constant_p : bool) (x : Z) : Z :=
  match bo with
  | LittleEndian => if constant_p then bpf_swab32 x else bswap 4 x
  | BigEndian => x
  end.

Definition bpf_cpu_to_be64 (bo : byte_order) (constant_p : bool) (x : Z) : Z :=
  match bo with
  | LittleEndian => if constant_p then bpf_swab64 x else bswap 8 x
  | BigEndian => x
  end.

Definition bpf_be64_to_cpu (bo : byte_order) (constant_p : bool) (x : Z) : Z :=
  match bo with
  | LittleEndian => if constant_p then bpf_swab64 x else bswap 8 x
  | BigEndian => x
  end.

(** ** [LittleEndianPort] of pkg/utils/utils.go (all operands are [uint16]) *)
Definition LittleEndianPort (port : Z) : Z :=
  let h := port .& 0xff in
  let l := port >> 8 in
  (h <<[16] 8) .| l.

(** ** Bit-level lemmas *)

(** The bit [i] of the reversal of [n] bytes is bit [i mod 8] of byte
    [n - 1 - i / 8]. *)
Lemma testbit_byte_cons b x i :
  is_byte b -> 0 <= i ->
  Z.testbit (b + 256 * x) i = if i <? 8 then Z.testbit b i else Z.testbit x (i - 8).
Proof.
  intros Hb Hi.
  replace (b + 256 * x) with (Z.lor b (Z.shiftl x 8)).
  - rewrite Z.lor_spec, Z.shiftl_spec by lia. destruct (Z.ltb_spec i 8).
    + rewrite (Z.testbit_neg_r x) by lia. apply orb_false_r.
    + rewrite (testbit_in_u 8) by (done || lia). done.
  - enough (Z.land b (Z.shiftl x 8) = 0) as E.
    { pose proof (Z.add_lor_land b (Z.shiftl x 8)) as E'. rewrite E in E'.
      rewrite (Z.shiftl_mul_pow2 x) in E' by lia. change (2 ^ 8) with 256 in E'.
      rewrite Z.shiftl_mul_pow2 by lia. change (2 ^ 8) with 256. lia. }
    apply Z.bits_inj'. intros j Hj. rewrite Z.land_spec, Z.shiftl_spec, Z.bits_0 by lia.
    destruct (Z.ltb_spec j 8).
    + rewrite (Z.testbit_neg_r x) by lia. apply andb_false_r.
    + by rewrite (testbit_in_u 8 b) by (done || lia).
Qed.

Lemma bpf_mvb_bit x b n m i :
  (b = 32 \/ b = 64) -> 0 <= n -> 0 <= m -> (n + 1) * 8 <= b -> (m + 1) * 8 <= b -> 0 <= i ->
  Z.testbit (bpf_mvb x b n m) i =
  (m * 8 <=? i) && (i <? (m + 1) * 8) && Z.testbit x (i - m * 8 + n * 8).
Proof.
  intros Hb Hn Hm Hn8 Hm8 Hi. unfold bpf_mvb, shl, shr.
  assert (promoted b = b) as -> by (unfold promoted; lia).
  rewrite testbit_uwrap, Z.shiftl_spec by lia.
  destruct (Z.leb_spec (m * 8) i); [|by rewrite Z.testbit_neg_r, andb_false_r by lia].
  rewrite Z.shiftr_spec, testbit_uwrap, Z.shiftl_spec, testbit_uwrap by lia.
  destruct (Z.ltb_spec i ((m + 1) * 8)); cbn [andb].
  - split_ltb. cbn [andb]. f_equal. lia.
  - split_ltb; done.
Qed.

(** The bit [i] of a byte string is bit [i mod 8] of its byte [i / 8]. *)
Lemma testbit_of_le bs i :
  Forall is_byte bs -> 0 <= i ->
  Z.testbit (of_le bs) i = Z.testbit (nth (Z.to_nat (i / 8)) bs 0) (i mod 8).
Proof.
  intros Hbs. revert i. induction Hbs as [|b bs Hb Hbs IH]; intros i Hi.
  - cbn. destruct (Z.to_nat (i / 8)); by rewrite !Z.bits_0.
  - cbn [of_le]. rewrite testbit_byte_cons by done. destruct (Z.ltb_spec i 8).
    + rewrite Z.div_small, Z.mod_small by lia. done.
    + rewrite IH by lia.
      replace i with (i - 8 + 1 * 8) at 3 4 by lia.
      rewrite Z.div_add, Z.mod_add by lia.
      assert (0 <= (i - 8) / 8) by (apply Z.div_pos; lia).
      by replace (Z.to_nat ((i - 8) / 8 + 1)) with (S (Z.to_nat ((i - 8) / 8))) by lia.
Qed.

Lemma nth_le_bytes n x k :
  (k < n)%nat -> nth k (le_bytes n x) 0 = uwrap 8 (x >> (8 * Z.of_nat k)).
Proof.
  revert x k. induction n as [|n IH]; intros x k Hk; [lia|].
  destruct k as [|k]; cbn [le_bytes nth]; [by rewrite Z.mul_0_r|].
  rewrite IH by lia. unfold shr. rewrite Z.shiftr_shiftr by lia. do 2 f_equal. lia.
Qed.

(** Bit [i] of [bswap n x] is the bit at the same place of the mirrored byte. *)
Lemma bswap_bit n x i :
  0 <= i ->
  Z.testbit (bswap n x) i =
  (i <? 8 * Z.of_nat n) && Z.testbit x (8 * (Z.of_nat n - 1 - i / 8) + i mod 8).
Proof.
  intros Hi. unfold bswap.
  assert (0 <= i mod 8 < 8) by (apply Z.mod_pos_bound; lia).
  assert (i = 8 * (i / 8) + i mod 8) by (apply Z.div_mod; lia).
  rewrite testbit_of_le by (try apply Forall_rev; auto using le_bytes_are_bytes).
  destruct (Z.ltb_spec i (8 * Z.of_nat n)).
  - rewrite rev_nth; rewrite length_le_bytes; [|lia].
    rewrite nth_le_bytes by lia. unfold shr.
    rewrite testbit_uwrap, Z.shiftr_spec by lia.
    destruct (Z.ltb_spec (i mod 8) 8); [|lia]. cbn [andb]. f_equal. lia.
  - rewrite nth_overflow by (rewrite length_rev, length_le_bytes; lia).
    by rewrite Z.bits_0.
Qed.

(** Byte [k] of a word, used to split a bit position into a byte and a place. *)
Ltac at_byte i k :=
  assert (i / 8 = k) by (symmetry; apply Z.div_unique_pos with (i - 8 * k); lia);
  assert (i mod 8 = i - 8 * k) by (symmetry; apply Z.mod_unique_pos with k; lia).

(** Decide every comparison of the goal by arithmetic. *)
Ltac split_cmp :=
  repeat match goal with
  | |- context [?a <=? ?b] => destruct (Z.leb_spec a b); try lia
  | |- context [?a <? ?b] => destruct (Z.ltb_spec a b); try lia
  end.

Lemma byte_index i n : 0 <= i < 8 * n -> exists k, 0 <= k < n /\ 8 * k <= i < 8 * k + 8.
Proof.
  intros Hi. exists (i / 8).
  pose proof (Z.mod_pos_bound i 8 ltac:(lia)). pose proof (Z.div_mod i 8 ltac:(lia)). lia.
Qed.

Lemma bpf_swab32_bswap x : bpf_swab32 x = bswap 4 x.
Proof.
  apply Z.bits_inj'. intros i Hi. unfold bpf_swab32.
  rewrite testbit_uwrap, !Z.lor_spec, !bpf_mvb_bit, bswap_bit by lia.
  change (8 * Z.of_nat 4) with 32. destruct (Z.ltb_spec i 32); [|done].
  destruct (byte_index i 4) as (k & Hk & Hik); [lia|]. at_byte i k.
  assert (k = 0 \/ k = 1 \/ k = 2 \/ k = 3) as [-> | [-> | [-> | ->]]] by lia.
  all: split_cmp; cbn [andb orb]; rewrite ?orb_false_r; f_equal; lia.
Qed.

Lemma bpf_swab64_bswap x : bpf_swab64 x = bswap 8 x.
Proof.
  apply Z.bits_inj'. intros i Hi. unfold bpf_swab64.
  rewrite testbit_uwrap, !Z.lor_spec, !bpf_mvb_bit, bswap_bit by lia.
  change (8 * Z.of_nat 8) with 64. destruct (Z.ltb_spec i 64); [|done].
  destruct (byte_index i 8) as (k & Hk & Hik); [lia|]. at_byte i k.
  assert (k = 0 \/ k = 1 \/ k = 2 \/ k = 3 \/ k = 4 \/ k = 5 \/ k = 6 \/ k = 7)
    as [-> | [-> | [-> | [-> | [-> | [-> | [-> | ->]]]]]]] by lia.
  all: split_cmp; cbn [andb orb]; rewrite ?orb_false_r; f_equal; lia.
Qed.

(** The 16-bit macro leaves the high byte in the promoted register; the outer
    cast removes it. *)
Lemma bpf_swab16_bswap x : bpf_swab16 x = bswap 2 x.
Proof.
  apply Z.bits_inj'. intros i Hi. unfold bpf_swab16, bpf_mvb, shl, shr.
  change (promoted 16) with 32.
  rewrite bswap_bit, testbit_uwrap, Z.lor_spec by lia.
  change (8 * Z.of_nat 2) with 16. destruct (Z.ltb_spec i 16); [|done].
  rewrite !testbit_uwrap, !Z.shiftl_spec by lia.
  destruct (byte_index i 2) as (k & Hk & Hik); [lia|]. at_byte i k.
  assert (k = 0 \/ k = 1) as [-> | ->] by lia.
  - rewrite (Z.testbit_neg_r (Z.shiftr _ _)) by lia.
    rewrite Z.shiftr_spec, testbit_uwrap, Z.shiftl_spec, testbit_uwrap by lia.
    split_cmp; cbn [andb orb]; f_equal; lia.
  - rewrite !Z.shiftr_spec, !testbit_uwrap, !Z.shiftl_spec, !testbit_uwrap by lia.
    split_cmp; cbn [andb orb]; rewrite ?orb_false_r; f_equal; lia.
Qed.

(** ** Byte strings of swapped words *)

Lemma le_bytes_bswap n x : le_bytes n (bswap n x) = rev (le_bytes n x).
Proof.
  unfold bswap. rewrite <- (length_le_bytes n x) at 1. rewrite <- length_rev.
  apply le_bytes_of_le, Forall_rev, le_bytes_are_bytes.
Qed.

Lemma bswap_in_u n x : in_u (8 * Z.of_nat n) (bswap n x).
Proof.
  unfold bswap. rewrite <- (length_le_bytes n x) at 1. rewrite <- length_rev.
  apply of_le_bound, Forall_rev, le_bytes_are_bytes.
Qed.

Lemma bswap_involutive n x : in_u (8 * Z.of_nat n) x -> bswap n (bswap n x) = x.
Proof.
  intros Hx. unfold bswap at 1. rewrite le_bytes_bswap, rev_involutive, of_le_le_bytes.
  by apply uwrap_small.
Qed.

Lemma bpf_htons_le c x : bpf_htons LittleEndian c x = bswap 2 x.
Proof. destruct c; [apply bpf_swab16_bswap|done]. Qed.

Lemma bpf_htonl_le c x : bpf_htonl LittleEndian c x = bswap 4 x.
Proof. destruct c; [apply bpf_swab32_bswap|done]. Qed.

Lemma bpf_cpu_to_be64_le c x : bpf_cpu_to_be64 LittleEndian c x = bswap 8 x.
Proof. destruct c; [apply bpf_swab64_bswap|done]. Qed.

Lemma LittleEndianPort_bswap port : in_u 16 port -> LittleEndianPort port = bswap 2 port.
Proof.
  intros Hp. apply Z.bits_inj'. intros i Hi. unfold LittleEndianPort, shl, shr.
  rewrite bswap_bit, Z.lor_spec, testbit_uwrap, Z.shiftl_spec, Z.shiftr_spec by lia.
  change 0xff with (Z.ones 8). change (8 * Z.of_nat 2) with 16.
  destruct (Z.ltb_spec i 16); cbn [andb].
  - destruct (byte_index i 2) as (k & Hk & Hik); [lia|]. at_byte i k.
    assert (k = 0 \/ k = 1) as [-> | ->] by lia.
    + rewrite Z.testbit_neg_r by lia. cbn [orb]. f_equal. lia.
    + rewrite Z.land_spec, Z.ones_spec_low, andb_true_r by lia.
      rewrite (testbit_in_u 16 port (i + 8)), orb_false_r by (done || lia). f_equal. lia.
  - by rewrite (testbit_in_u 16) by (done || lia).
Qed.

(** ** Properties *)

(** C38. The host-to-network conversions put the most significant byte first in
    memory, whatever the byte order of the target and whether the operand is a
    compile-time constant. *)
Theorem bpf_hton_network_order (bo : byte_order) (c : bool) (x : Z) :
  mem_bytes bo 2 (bpf_htons bo c x) = rev (le_bytes 2 x) /\
  mem_bytes bo 4 (bpf_htonl bo c x) = rev (le_bytes 4 x) /\
  mem_bytes bo 8 (bpf_cpu_to_be64 bo c x) = rev (le_bytes 8 x).
Proof.
  destruct bo; [|done].
  rewrite bpf_htons_le, bpf_htonl_le, bpf_cpu_to_be64_le.
  repeat split; apply le_bytes_bswap.
Qed.

(** Converting to network order and back is the identity on words of the width
    converted, for both byte orders and for any mix of constant and computed
    operands. *)
Theorem bpf_ntoh_hton (bo : byte_order) (c c' : bool) (x16 x32 x64 : Z) :
  in_u 16 x16 -> in_u 32 x32 -> in_u 64 x64 ->
  bpf_ntohs bo c (bpf_htons bo c' x16) = x16 /\
  bpf_ntohl bo c (bpf_htonl bo c' x32) = x32 /\
  bpf_be64_to_cpu bo c (bpf_cpu_to_be64 bo c' x64) = x64.
Proof.
  intros H16 H32 H64. destruct bo; [|done].
  change (bpf_ntohs LittleEndian c) with (bpf_htons LittleEndian c).
  change (bpf_ntohl LittleEndian c) with (bpf_htonl LittleEndian c).
  change (bpf_be64_to_cpu LittleEndian c) with (bpf_cpu_to_be64 LittleEndian c).
  rewrite !bpf_htons_le, !bpf_htonl_le, !bpf_cpu_to_be64_le.
  repeat split; by apply bswap_involutive.
Qed.

Lemma bpf_ntoh_hton_witness :
  bpf_ntohs LittleEndian true (bpf_htons LittleEndian false 8080) = 8080.
Proof.
  apply (bpf_ntoh_hton LittleEndian true false 8080 3232249858 1); by vm_compute.
Defined.

(** The agent's [LittleEndianPort] computes what the C side calls [bpf_htons]
    on the little-endian targets the agent is built for. *)
Theorem LittleEndianPort_is_htons (c : bool) (port : Z) :
  in_u 16 port -> LittleEndianPort port = bpf_htons LittleEndian c port.
Proof. intros Hp. rewrite bpf_htons_le. by apply LittleEndianPort_bswap. Qed.

Lemma LittleEndianPort_is_htons_witness :
  LittleEndianPort 80 = 20480 /\ LittleEndianPort 80 = bpf_htons LittleEndian true 80.
Proof. split; [done|]. apply LittleEndianPort_is_htons. by vm_compute. Defined.

End Endian.
