(* ===== verification/GoNet.v ===== *)
(** * IPv4 addresses: what the sources use of Go's [net] and
    [encoding/binary], and [IPString2Int32] of src/pkg/utils/utils.go

    [net.ParseIP], [IP.To4] and [binary.LittleEndian.Uint32] belong to the Go
    standard library; they are modelled with the behaviour of the toolchain of
    go.mod (go1.21): an address text with a dot before any colon is a dotted
    quad without leading zeros, one with a colon is an IPv6 text with at most
    one "::" and an optional trailing dotted quad; a zone makes [ParseIP] fail.
    A string is the list of its bytes. *)

From Stdlib Require Import ZArith Lia String Ascii.
From stdpp Require Import base list strings.
From S2P Require Import Prelude Endian.
Import Endian.

Local Open Scope Z_scope.

Module GoNet.

Definition bytes_of (s : string) : list Z :=
  map (fun c => Z.of_nat (nat_of_ascii c)) (list_ascii_of_string s).

Definition ch_dot : Z := 46.
Definition ch_colon : Z := 58.
Definition ch_percent : Z := 37.
Definition ch_0 : Z := 48.

Definition is_digit (c : Z) : bool := (48 <=? c) && (c <=? 57).

(** ** Dotted quads *)

(** The loop of [parseIPv4]: [prev] is the byte before the cursor ([None] at
    the start), [fields] the octets already stored, [val] and [digLen] the
    octet being read. *)
Fixpoint parseIPv4_loop (s : list Z) (prev : option Z) (fields : list Z) (val : Z)
    (digLen : nat) : option (list Z) :=
  match s with
  | [] => if (length fields <? 3)%nat then None else Some (fields ++ [val])
  | c :: rest =>
      if is_digit c then
        if (digLen =? 1)%nat && (val =? 0) then None
        else
          let val := val * 10 + c - ch_0 in
          if 255 <? val then None
          else parseIPv4_loop rest (Some c) fields val (S digLen)
      else if c =? ch_dot then
        if match prev with None => true | Some p => p =? ch_dot end
           || match rest with [] => true | _ => false end
        then None
        else if (length fields =? 3)%nat then None
        else parseIPv4_loop rest (Some c) (fields ++ [val]) 0 0
      else None
  end.

Definition parseIPv4 (s : list Z) : option (list Z) := parseIPv4_loop s None [] 0 0.

(** ** IPv6 texts *)

Definition hex_value (c : Z) : option Z :=
  if is_digit c then Some (c - 48)
  else if (97 <=? c) && (c <=? 102) then Some (c - 97 + 10)
  else if (65 <=? c) && (c <=? 70) then Some (c - 65 + 10)
  else None.

(** The hex number at the head of [s]: the value, the number of digits and
    what follows; [None] on overflow of 16 bits. *)
Fixpoint hex_group (s : list Z) (acc : Z) (off : nat) : option (Z * nat * list Z) :=
  match s with
  | [] => Some (acc, off, [])
  | c :: rest =>
      match hex_value c with
      | None => Some (acc, off, s)
      | Some d =>
          let acc := acc * 16 + d in
          if 65535 <? acc then None else hex_group rest acc (S off)
      end
  end.

(** The loop over groups.  [ip] are the bytes read so far, [ellipsis] where
    "::" was seen; the fuel is the number of 16-bit groups still possible. *)
Fixpoint parseIPv6_loop (groups : nat) (s : list Z) (ip : list Z) (ellipsis : option nat)
    : option (list Z * option nat * list Z) :=
  match groups with
  | O => Some (ip, ellipsis, s)
  | S groups' =>
      match hex_group s 0 0 with
      | None | Some (_, O, _) => None
      | Some (acc, _, after) =>
          match after with
          | 46 :: _ =>
              if match ellipsis with None => negb (length ip =? 12)%nat | Some _ => false end
                 || (16 <? length ip + 4)%nat
              then None
              else match parseIPv4 s with
                   | None => None
                   | Some ip4 => Some (ip ++ ip4, ellipsis, [])
                   end
          | _ =>
              let ip := ip ++ [Z.shiftr acc 8; Z.land acc 255] in
              match after with
              | [] => Some (ip, ellipsis, [])
              | c :: rest =>
                  if negb (c =? ch_colon) then None
                  else match rest with
                       | [] => None
                       | c' :: rest' =>
                           if c' =? ch_colon then
                             match ellipsis with
                             | Some _ => None
                             | None =>
                                 match rest' with
                                 | [] => Some (ip, Some (length ip), [])
                                 | _ => parseIPv6_loop groups' rest' ip (Some (length ip))
                                 end
                             end
                           else parseIPv6_loop groups' rest ip ellipsis
                       end
              end
          end
      end
  end.

Definition expand_ellipsis (ip : list Z) (ellipsis : option nat) : option (list Z) :=
  if (length ip <? 16)%nat then
    match ellipsis with
    | None => None
    | Some e => Some (take e ip ++ repeat 0 (16 - length ip) ++ drop e ip)
    end
  else match ellipsis with Some _ => None | None => Some ip end.

Definition parseIPv6 (s : list Z) : option (list Z) :=
  let start :=
    match s with
    | 58 :: 58 :: [] => inl (repeat 0 16)
    | 58 :: 58 :: rest => inr (rest, Some O)
    | _ => inr (s, None)
    end in
  match start with
  | inl ip => Some ip
  | inr (s, ellipsis) =>
      match parseIPv6_loop 8 s [] ellipsis with
      | Some (ip, ellipsis, []) => expand_ellipsis ip ellipsis
      | _ => None
      end
  end.

(** ** net.ParseIP: 16 bytes or nil *)

Definition v4InV6Prefix : list Z := repeat 0 10 ++ [255; 255].

Fixpoint parseAddr (s cursor : list Z) : option (list Z) :=
  match cursor with
  | [] => None
  | c :: rest =>
      if c =? ch_dot then option_map (fun ip4 => v4InV6Prefix ++ ip4) (parseIPv4 s)
      else if c =? ch_colon then
        (* a zone, even a well-formed one, makes ParseIP return nil *)
        if existsb (Z.eqb ch_percent) s then None else parseIPv6 s
      else if c =? ch_percent then None
      else parseAddr s rest
  end.

Definition ParseIP (s : string) : option (list Z) := parseAddr (bytes_of s) (bytes_of s).

(** [IP.To4]; a nil IP has no bytes. *)
Definition To4 (ip : option (list Z)) : option (list Z) :=
  match ip with
  | Some bs =>
      if (length bs =? 4)%nat then Some bs
      else if (length bs =? 16)%nat && bool_decide (take 12 bs = v4InV6Prefix)
      then Some (drop 12 bs)
      else None
  | None => None
  end.

(** [binary.LittleEndian.Uint32] indexes its argument's fourth byte first. *)
Definition LittleEndian_Uint32 (b : option (list Z)) : outcome Z :=
  let b := default [] b in
  if (length b <? 4)%nat then Panics IndexOutOfRange else Returns (of_le (take 4 b)).

(** ** IPString2Int32 of pkg/utils/utils.go *)

(** [binary.Read] of a big-endian uint32 from a buffer holding [b]. *)
Definition BigEndian_Read32 (b : list Z) : option Z :=
  if (length b <? 4)%nat then None else Some (of_le (rev (take 4 b))).

Definition IPString2Int32 (ip : string) : Z :=
  match ParseIP ip with
  | None => 0
  | Some IP =>
      match BigEndian_Read32 (default [] (To4 (Some IP))) with
      | None => 0
      | Some ipret => ipret
      end
  end.

Example parse_v4 : To4 (ParseIP "192.168.56.2") = Some [192; 168; 56; 2].
Proof. reflexivity. Qed.
Example parse_v6 : To4 (ParseIP "fe80::8cee:d1ff:feb6:123d") = None /\
  ParseIP "fe80::8cee:d1ff:feb6:123d" =
  Some [254; 128; 0; 0; 0; 0; 0; 0; 140; 238; 209; 255; 254; 182; 18; 61].
Proof. split; reflexivity. Qed.
Example parse_mapped : To4 (ParseIP "::ffff:10.1.2.3") = Some [10; 1; 2; 3].
Proof. reflexivity. Qed.
Example parse_bad : ParseIP "None" = None /\ ParseIP "10.1.2" = None /\
  ParseIP "10.01.2.3" = None /\ ParseIP "1:2:3:4:5:6:7:8:9" = None.
Proof. repeat split; reflexivity. Qed.

(** ** Printing dotted quads, for the round trip *)

Definition string_of (bs : list Z) : string :=
  string_of_list_ascii (map (fun b => ascii_of_nat (Z.to_nat b)) bs).

Definition octet_text (n : Z) : list Z :=
  if n <? 10 then [ch_0 + n]
  else if n <? 100 then [ch_0 + n / 10; ch_0 + n mod 10]
  else [ch_0 + n / 100; ch_0 + n / 10 mod 10; ch_0 + n mod 10].

Definition dotted_bytes (a b c d : Z) : list Z :=
  octet_text a ++ ch_dot :: octet_text b ++ ch_dot :: octet_text c ++ ch_dot :: octet_text d.

Definition dotted_quad (a b c d : Z) : string := string_of (dotted_bytes a b c d).

(** ** Lemmas *)

Lemma bytes_of_string_of bs : Forall is_byte bs -> bytes_of (string_of bs) = bs.
Proof.
  intros Hbs. unfold bytes_of, string_of. rewrite list_ascii_of_string_of_list_ascii, map_map.
  induction Hbs as [|b bs Hb Hbs IH]; cbn; [done|]. f_equal; [|done].
  unfold is_byte, in_u in Hb. change (2 ^ 8) with 256 in Hb.
  rewrite nat_ascii_embedding by lia. lia.
Qed.

Lemma div_mod_digit n k : 0 <= n -> 0 < k -> 0 <= n / k /\ k * (n / k) <= n < k * (n / k) + k.
Proof.
  intros. pose proof (Z.mod_pos_bound n k ltac:(lia)). pose proof (Z.div_mod n k ltac:(lia)).
  split; [apply Z.div_pos; lia|lia].
Qed.

Lemma is_digit_true d : 0 <= d <= 9 -> is_digit (ch_0 + d) = true.
Proof. intros. unfold is_digit, ch_0. split_cmp; done. Qed.

(** One digit of an octet. *)
Lemma parseIPv4_digit d rest prev fields val digLen :
  0 <= d <= 9 -> 0 <= val -> (digLen = 0%nat \/ 0 < val) -> val * 10 + d <= 255 ->
  parseIPv4_loop (ch_0 + d :: rest) prev fields val digLen =
  parseIPv4_loop rest (Some (ch_0 + d)) fields (val * 10 + d) (S digLen).
Proof.
  intros Hd Hv Hlen Hle. cbn [parseIPv4_loop]. rewrite is_digit_true by done.
  assert ((digLen =? 1)%nat && (val =? 0) = false) as ->.
  { destruct (Nat.eqb_spec digLen 1), (Z.eqb_spec val 0); try done; lia. }
  unfold ch_0. replace (val * 10 + (48 + d) - 48) with (val * 10 + d) by lia.
  destruct (Z.ltb_spec 255 (val * 10 + d)); [lia|done].
Qed.

(** Reading an octet leaves its value and a digit before the cursor. *)
Lemma parseIPv4_octet n rest prev fields :
  0 <= n <= 255 ->
  exists d k, 0 <= d <= 9 /\
  parseIPv4_loop (octet_text n ++ rest) prev fields 0 0 =
  parseIPv4_loop rest (Some (ch_0 + d)) fields n (S k).
Proof.
  intros Hn. unfold octet_text.
  pose proof (div_mod_digit n 10 ltac:(lia) ltac:(lia)).
  pose proof (Z.mod_pos_bound n 10 ltac:(lia)). pose proof (Z.div_mod n 10 ltac:(lia)).
  destruct (Z.ltb_spec n 10); [|destruct (Z.ltb_spec n 100)]; cbn [app].
  - exists n, 0%nat. split; [lia|]. rewrite parseIPv4_digit by lia. f_equal; lia.
  - exists (n mod 10), 1%nat. split; [lia|]. rewrite !parseIPv4_digit by lia. f_equal; lia.
  - pose proof (div_mod_digit n 100 ltac:(lia) ltac:(lia)).
    pose proof (Z.mod_pos_bound (n / 10) 10 ltac:(lia)).
    pose proof (Z.div_mod (n / 10) 10 ltac:(lia)).
    assert (n / 10 / 10 = n / 100) by (rewrite Z.div_div by lia; done).
    exists (n mod 10), 2%nat. split; [lia|]. rewrite !parseIPv4_digit by lia. f_equal; lia.
Qed.

(** A dot after a digit stores the octet. *)
Lemma parseIPv4_dot d c rest fields val k :
  0 <= d <= 9 -> (length fields < 3)%nat ->
  parseIPv4_loop (ch_dot :: c :: rest) (Some (ch_0 + d)) fields val k =
  parseIPv4_loop (c :: rest) (Some ch_dot) (fields ++ [val]) 0 0.
Proof.
  intros Hd Hf. unfold ch_dot, ch_0. remember (c :: rest) as r eqn:Er.
  cbn [parseIPv4_loop]. change (is_digit 46) with false. cbn match.
  change (46 =? ch_dot) with true. cbn match.
  destruct (Z.eqb_spec (48 + d) ch_dot) as [E|_]; [unfold ch_dot in E; lia|].
  subst r. cbn [orb]. destruct (Nat.eqb_spec (length fields) 3); [lia|done].
Qed.

Lemma octet_text_cons n : exists c l, octet_text n = c :: l.
Proof. unfold octet_text. repeat case_match; eauto. Qed.

Lemma parse_dotted a b c d :
  0 <= a <= 255 -> 0 <= b <= 255 -> 0 <= c <= 255 -> 0 <= d <= 255 ->
  parseIPv4 (dotted_bytes a b c d) = Some [a; b; c; d].
Proof.
  intros Ha Hb Hc Hd. unfold parseIPv4, dotted_bytes.
  destruct (parseIPv4_octet a (ch_dot :: octet_text b ++ ch_dot :: octet_text c ++ ch_dot :: octet_text d)
    None [] Ha) as (da & ka & Hda & ->).
  destruct (octet_text_cons b) as (b1 & lb & Eb). rewrite Eb. cbn [app].
  rewrite parseIPv4_dot by (done || simpl; lia). change (b1 :: lb ++ ?l) with ((b1 :: lb) ++ l).
  rewrite <- Eb.
  destruct (parseIPv4_octet b (ch_dot :: octet_text c ++ ch_dot :: octet_text d)
    (Some ch_dot) ([] ++ [a]) Hb) as (db & kb & Hdb & ->).
  destruct (octet_text_cons c) as (c1 & lc & Ec). rewrite Ec. cbn [app].
  rewrite parseIPv4_dot by (done || simpl; lia). change (c1 :: lc ++ ?l) with ((c1 :: lc) ++ l).
  rewrite <- Ec.
  destruct (parseIPv4_octet c (ch_dot :: octet_text d)
    (Some ch_dot) ([a] ++ [b]) Hc) as (dc & kc & Hdc & ->).
  destruct (octet_text_cons d) as (d1 & ld & Ed). rewrite Ed. cbn [app].
  rewrite parseIPv4_dot by (done || simpl; lia). rewrite <- Ed.
  rewrite <- (app_nil_r (octet_text d)).
  destruct (parseIPv4_octet d [] (Some ch_dot) ([a; b] ++ [c]) Hd) as (dd & kd & Hdd & ->).
  done.
Qed.

(** The first byte that decides between the two syntaxes is the first dot. *)
Lemma parseAddr_dotted s pre rest :
  Forall (fun c => is_digit c = true) pre ->
  parseAddr s (pre ++ ch_dot :: rest) = option_map (fun ip4 => v4InV6Prefix ++ ip4) (parseIPv4 s).
Proof.
  induction 1 as [|c pre Hc Hpre IH]; cbn [app parseAddr]; [done|].
  unfold is_digit in Hc. unfold ch_dot, ch_colon, ch_percent.
  destruct (Z.eqb_spec c 46), (Z.eqb_spec c 58), (Z.eqb_spec c 37); subst; done.
Qed.

Lemma octet_text_digits n : 0 <= n <= 255 -> Forall (fun c => is_digit c = true) (octet_text n).
Proof.
  intros Hn. unfold octet_text.
  pose proof (div_mod_digit n 10 ltac:(lia) ltac:(lia)).
  pose proof (div_mod_digit n 100 ltac:(lia) ltac:(lia)).
  pose proof (Z.mod_pos_bound n 10 ltac:(lia)).
  pose proof (Z.mod_pos_bound (n / 10) 10 ltac:(lia)).
  destruct (Z.ltb_spec n 10); [|destruct (Z.ltb_spec n 100)];
    repeat constructor; apply is_digit_true; lia.
Qed.

Lemma octet_text_bytes n : 0 <= n <= 255 -> Forall is_byte (octet_text n).
Proof.
  intros Hn. eapply Forall_impl; [by apply octet_text_digits|].
  intros c Hc. unfold is_digit in Hc. unfold is_byte, in_u. lia.
Qed.

Lemma ParseIP_dotted a b c d :
  0 <= a <= 255 -> 0 <= b <= 255 -> 0 <= c <= 255 -> 0 <= d <= 255 ->
  ParseIP (dotted_quad a b c d) = Some (v4InV6Prefix ++ [a; b; c; d]).
Proof.
  intros Ha Hb Hc Hd. unfold ParseIP, dotted_quad.
  rewrite bytes_of_string_of.
  - unfold dotted_bytes at 2. rewrite parseAddr_dotted by by apply octet_text_digits.
    by rewrite parse_dotted.
  - assert (is_byte ch_dot) by by vm_compute. unfold dotted_bytes.
    repeat (apply Forall_app; split; [by apply octet_text_bytes|constructor; [done|]]).
    by apply octet_text_bytes.
Qed.

(** ** Properties *)

(** For every dotted quad [a.b.c.d]: the address parses, the value the agent
    stores for it has the bytes a, b, c, d in that order in the memory of a
    little-endian host (network order), and [IPString2Int32] is that value
    with its bytes swapped. *)
Theorem dotted_quad_network_order (a b c d : Z) :
  0 <= a <= 255 -> 0 <= b <= 255 -> 0 <= c <= 255 -> 0 <= d <= 255 ->
  exists v, LittleEndian_Uint32 (To4 (ParseIP (dotted_quad a b c d))) = Returns v /\
    in_u 32 v /\ le_bytes 4 v = [a; b; c; d] /\
    IPString2Int32 (dotted_quad a b c d) = bswap 4 v.
Proof.
  intros Ha Hb Hc Hd. exists (of_le [a; b; c; d]).
  assert (Forall is_byte [a; b; c; d]) as Hbs by (repeat constructor; unfold in_u; lia).
  unfold IPString2Int32. rewrite ParseIP_dotted by done. split_and!.
  - done.
  - exact (of_le_bound [a; b; c; d] Hbs).
  - exact (le_bytes_of_le [a; b; c; d] Hbs).
  - unfold bswap. change 4%nat with (length [a; b; c; d]).
    by rewrite (le_bytes_of_le [a; b; c; d] Hbs).
Qed.

Lemma dotted_quad_network_order_witness :
  exists v, LittleEndian_Uint32 (To4 (ParseIP (dotted_quad 10 96 0 10))) = Returns v /\
    in_u 32 v /\ le_bytes 4 v = [10; 96; 0; 10] /\
    IPString2Int32 (dotted_quad 10 96 0 10) = bswap 4 v.
Proof. apply dotted_quad_network_order; lia. Defined.

End GoNet.
