(* ===== verification/GoStrings.v ===== *)
(** * The strings functions of Go the agent calls

    [Split] is [strings.Split] for a separator that is not empty, [Join] is
    [strings.Join]; both are used by the controller (keys) and by the mountinfo
    parser. *)

From Stdlib Require Import ZArith Lia String Ascii.
From stdpp Require Import base list strings.
From S2P Require Import Prelude.

Local Open Scope string_scope.

Module GoStrings.

#[local] Arguments String.append : simpl nomatch.

Definition snoc (s : string) (c : ascii) : string := s ++ String c "".

(** The scan of [strings.Split]: [cur] is the piece read so far, [skip] counts
    the characters of a separator still to be passed over. *)
Fixpoint split_scan (sep : string) (skip : nat) (cur s : string) : list string :=
  match s with
  | "" => [cur]
  | String c rest =>
      match skip with
      | S k => split_scan sep k cur rest
      | O =>
          if String.prefix sep s then cur :: split_scan sep (String.length sep - 1) "" rest
          else split_scan sep O (snoc cur c) rest
      end
  end.

Definition Split (s sep : string) : list string := split_scan sep 0 "" s.

Fixpoint Join (elems : list string) (sep : string) : string :=
  match elems with
  | [] => ""
  | [e] => e
  | e :: rest => e ++ sep ++ Join rest sep
  end.

(** ** Lemmas *)

Lemma app_assoc_str (a b c : string) : (a ++ b) ++ c = a ++ (b ++ c).
Proof. induction a as [|x a IH]; cbn; [done|]. by rewrite IH. Qed.

Lemma app_nil_str (a : string) : a ++ "" = a.
Proof. induction a as [|x a IH]; cbn; [done|]. by rewrite IH. Qed.

Lemma length_app_str (a b : string) :
  String.length (a ++ b) = (String.length a + String.length b)%nat.
Proof. induction a as [|x a IH]; cbn; [done|]. by rewrite IH. Qed.

Lemma snoc_app (a : string) c b : snoc a c ++ b = a ++ String c b.
Proof. unfold snoc. by rewrite app_assoc_str. Qed.

Lemma split_scan_cons sep skip cur s : exists e rest, split_scan sep skip cur s = e :: rest.
Proof.
  revert skip cur. induction s as [|c s IH]; intros skip cur; cbn [split_scan]; [eauto|].
  destruct skip; [|apply IH]. destruct (String.prefix sep (String c s)); eauto.
Qed.

Lemma prefix_split (sep s : string) : String.prefix sep s = true -> exists t, s = sep ++ t.
Proof.
  revert s. induction sep as [|c sep IH]; intros s; [eauto|].
  destruct s as [|d s]; [done|]. cbn. destruct (ascii_dec c d) as [->|]; [|done].
  intros (t & ->)%IH. by exists t.
Qed.

Lemma split_scan_skip sep p cur s :
  split_scan sep (String.length p) cur (p ++ s) = split_scan sep 0 cur s.
Proof. induction p as [|c p IH]; cbn; [done|apply IH]. Qed.

(** What is joined is what was split. *)
Lemma Join_split_scan (sep cur s : string) :
  sep <> "" -> Join (split_scan sep 0 cur s) sep = cur ++ s.
Proof.
  intros Hsep. destruct sep as [|c0 sep]; [done|]. clear Hsep.
  remember (String.length s) as n eqn:Hn. revert cur s Hn.
  induction (lt_wf n) as [n _ IH]. intros cur s ->.
  destruct s as [|c s]; cbn [split_scan]; [by rewrite app_nil_str|].
  destruct (String.prefix (String c0 sep) (String c s)) eqn:Hp.
  - apply prefix_split in Hp as (t & Ht). cbn in Ht. injection Ht as -> ->.
    replace (String.length (String c0 sep) - 1)%nat with (String.length sep) by (cbn; lia).
    rewrite split_scan_skip.
    destruct (split_scan_cons (String c0 sep) 0 "" t) as (e & rest & E).
    cbn [Join]. rewrite E. rewrite <- E.
    rewrite (IH (String.length t)); [done| |done]. cbn. rewrite length_app_str. lia.
  - rewrite (IH (String.length s)); [apply snoc_app|cbn; lia|done].
Qed.

(** A separator that is one character. *)
Lemma split_scan_piece (c : ascii) cur a s :
  no_char c a = true ->
  split_scan (String c "") 0 cur (a ++ String c s) =
  (cur ++ a) :: split_scan (String c "") 0 "" s.
Proof.
  revert cur. induction a as [|x a IH]; intros cur Ha; cbn [append].
  - rewrite app_nil_str. cbn [split_scan String.prefix]. destruct (ascii_dec c c); [|done].
    by destruct s.
  - cbn in Ha. apply andb_true_iff in Ha as [Hx Ha].
    cbn [split_scan String.prefix]. destruct (ascii_dec c x) as [->|Hne].
    + by rewrite Ascii.eqb_refl in Hx.
    + rewrite IH by done. by rewrite snoc_app.
Qed.

Lemma split_scan_last (c : ascii) cur a :
  no_char c a = true -> split_scan (String c "") 0 cur a = [cur ++ a].
Proof.
  revert cur. induction a as [|x a IH]; intros cur Ha; [by rewrite app_nil_str|].
  cbn in Ha. apply andb_true_iff in Ha as [Hx Ha].
  cbn [split_scan String.prefix]. destruct (ascii_dec c x) as [->|Hne].
  - by rewrite Ascii.eqb_refl in Hx.
  - rewrite IH by done. by rewrite snoc_app.
Qed.

(** A separator of any length.  [sep_free sep s t]: no occurrence of [sep] in
    [s ++ t] starts inside [s]. *)
Fixpoint sep_free (sep s t : string) : bool :=
  match s with
  | "" => true
  | String _ rest => negb (String.prefix sep (s ++ t)) && sep_free sep rest t
  end.

Lemma sep_free_app sep a b t :
  sep_free sep (a ++ b) t = sep_free sep a (b ++ t) && sep_free sep b t.
Proof.
  induction a as [|c a IH]; [done|]. cbn [String.append sep_free].
  rewrite IH. rewrite andb_assoc. cbn [String.append]. by rewrite app_assoc_str.
Qed.

Lemma sep_free_head c sep a t : no_char c a = true -> sep_free (String c sep) a t = true.
Proof.
  induction a as [|x a IH]; [done|]. cbn. intros [Hx Ha]%andb_true_iff.
  rewrite IH by done. destruct (ascii_dec c x) as [->|]; [|done].
  by rewrite Ascii.eqb_refl in Hx.
Qed.

Lemma prefix_app (sep t : string) : String.prefix sep (sep ++ t) = true.
Proof.
  induction sep as [|c sep IH]; cbn; [by destruct t|]. by destruct (ascii_dec c c).
Qed.

Lemma split_scan_sep c sep cur l r :
  sep_free (String c sep) l (String c sep ++ r) = true ->
  split_scan (String c sep) 0 cur (l ++ String c sep ++ r) =
  (cur ++ l) :: split_scan (String c sep) 0 "" r.
Proof.
  revert cur. induction l as [|x l IH]; intros cur Hl.
  - rewrite app_nil_str. cbn [String.append split_scan].
    pose proof (prefix_app (String c sep) r) as Hp. cbn [String.append] in Hp. rewrite Hp.
    replace (String.length (String c sep) - 1)%nat with (String.length sep) by (cbn; lia).
    by rewrite split_scan_skip.
  - cbn [sep_free] in Hl. apply andb_true_iff in Hl as [Hx%negb_true_iff Hl].
    cbn [String.append split_scan] in *. rewrite Hx. rewrite IH by done. by rewrite snoc_app.
Qed.

Lemma split_scan_free sep cur s :
  sep_free sep s "" = true -> split_scan sep 0 cur s = [cur ++ s].
Proof.
  revert cur. induction s as [|x s IH]; intros cur Hs; [by rewrite app_nil_str|].
  cbn [sep_free] in Hs. apply andb_true_iff in Hs as [Hx%negb_true_iff Hs].
  rewrite app_nil_str in Hx. cbn [split_scan]. rewrite Hx. rewrite IH by done.
  by rewrite snoc_app.
Qed.

(** What is split is what was joined, when the separator is one character that
    the pieces do not contain. *)
Lemma Split_Join c (f : string) (fs : list string) :
  Forall (fun p => no_char c p = true) (f :: fs) ->
  Split (Join (f :: fs) (String c "")) (String c "") = f :: fs.
Proof.
  unfold Split. revert f. induction fs as [|g fs IH]; intros f Hfs;
    apply Forall_cons in Hfs as [Hf Hfs].
  - cbn [Join]. by apply split_scan_last.
  - cbn [Join] in *. cbn [String.append]. rewrite split_scan_piece by done. f_equal. by apply IH.
Qed.

Lemma Split_nonempty s sep : exists e rest, Split s sep = e :: rest.
Proof. apply split_scan_cons. Qed.

End GoStrings.
