(* ===== verification/GoStrconv.v ===== *)
(** * The part of Go's strconv and bufio the mountinfo parser calls

    [ParseInt] is [strconv.ParseInt(s, 10, 64)] with the overflow checks of its
    [ParseUint] loop; [FormatInt] is the decimal numeral the kernel prints.
    [Scan] is a [bufio.Scanner] with [bufio.ScanLines] run to its end. *)

From Stdlib Require Import ZArith Lia String Ascii DecimalString DecimalPos DecimalN DecimalZ.
From stdpp Require Import base list strings.
From S2P Require Import Prelude GoStrings.
Import GoStrings.

Local Open Scope Z_scope.

Module GoStrconv.

#[local] Arguments String.append : simpl nomatch.

(** ** strconv.ParseInt *)

Definition maxUint64 : Z := 2 ^ 64 - 1.
(** The smallest value whose product with the base overflows. *)
Definition cutoff : Z := maxUint64 / 10 + 1.

Definition byte_of (c : ascii) : Z := Z.of_N (N_of_ascii c).

(** [lower] of strconv sets the bit that separates the cases. *)
Definition lower (c : ascii) : Z := Z.lor (byte_of c) 32.

Definition digit_of (c : ascii) : option Z :=
  if (48 <=? byte_of c) && (byte_of c <=? 57) then Some (byte_of c - 48)
  else if (97 <=? lower c) && (lower c <=? 122) then Some (lower c - 97 + 10)
  else None.

Fixpoint ParseUint_loop (s : string) (n : Z) : error + Z :=
  match s with
  | EmptyString => inr n
  | String c rest =>
      match digit_of c with
      | None => inl ErrSyntax
      | Some d =>
          if 10 <=? d then inl ErrSyntax
          else if cutoff <=? n then inl ErrRange
          else
            let n := u64 (n * 10) in
            let n1 := u64 (n + d) in
            if (n1 <? n) || (maxUint64 <? n1) then inl ErrRange
            else ParseUint_loop rest n1
      end
  end.

Definition ParseUint (s : string) : error + Z :=
  match s with
  | EmptyString => inl ErrSyntax
  | _ => ParseUint_loop s 0
  end.

Definition parse_error (s : string) (e : error) : error := NumError "ParseInt" s e.

Definition int_of_magnitude (s0 : string) (neg : bool) (un : Z) : error + Z :=
  let cutoff := 2 ^ 63 in
  if negb neg && (cutoff <=? un) then inl (parse_error s0 ErrRange)
  else if neg && (cutoff <? un) then inl (parse_error s0 ErrRange)
  else inr (if neg then - un else un).

Definition parse_magnitude (s0 : string) (neg : bool) (s : string) : error + Z :=
  match ParseUint s with
  | inl ErrRange => int_of_magnitude s0 neg maxUint64
  | inl e => inl (parse_error s0 e)
  | inr un => int_of_magnitude s0 neg un
  end.

Definition ParseInt (s : string) : error + Z :=
  match s with
  | EmptyString => inl (parse_error s ErrSyntax)
  | String c rest =>
      if Ascii.eqb c "+" then parse_magnitude s false rest
      else if Ascii.eqb c "-" then parse_magnitude s true rest
      else parse_magnitude s false s
  end.

(** ** Decimal numerals *)

Definition FormatInt (z : Z) : string := NilEmpty.string_of_int (Z.to_int z).

Definition in_int64 (z : Z) : Prop := - 2 ^ 63 <= z < 2 ^ 63.

#[export] Instance in_int64_dec z : Decision (in_int64 z).
Proof. unfold in_int64. apply _. Defined.

(** The specification: a numeral is a non-empty text of decimal digits, and its
    value is read from left to right. *)
Definition is_digit (c : ascii) : bool := (48 <=? byte_of c) && (byte_of c <=? 57).

Fixpoint all_digits (s : string) : bool :=
  match s with
  | EmptyString => true
  | String c rest => is_digit c && all_digits rest
  end.

Fixpoint digits_value (s : string) (n : Z) : Z :=
  match s with
  | EmptyString => n
  | String c rest => digits_value rest (10 * n + (byte_of c - 48))
  end.

(** [numeral s neg ds]: [s] is [ds] with an optional sign in front. *)
Definition numeral (s : string) (neg : bool) (ds : string) : Prop :=
  ds <> EmptyString /\ all_digits ds = true /\
  (neg = false /\ (s = ds \/ s = String "+" ds) \/ neg = true /\ s = String "-" ds).

Definition signed (neg : bool) (n : Z) : Z := if neg then - n else n.

(** ** Lemmas *)

Lemma byte_of_bound c : 0 <= byte_of c < 256.
Proof. unfold byte_of. pose proof (N_ascii_bounded c). lia. Qed.

Lemma digit_of_digit c : is_digit c = true -> digit_of c = Some (byte_of c - 48).
Proof. unfold is_digit, digit_of. by intros ->. Qed.

Lemma digit_of_other c :
  is_digit c = false -> digit_of c = None \/ exists d, digit_of c = Some d /\ 10 <= d.
Proof.
  unfold is_digit, digit_of. intros ->. destruct (_ && _) eqn:E; [right|by left].
  eexists. split; [done|]. apply andb_true_iff in E as [E _]. apply Z.leb_le in E. lia.
Qed.

Lemma is_digit_range c : is_digit c = true -> 0 <= byte_of c - 48 <= 9.
Proof.
  unfold is_digit. intros [H1 H2]%andb_true_iff.
  apply Z.leb_le in H1. apply Z.leb_le in H2. lia.
Qed.

Lemma digits_value_ge s n : all_digits s = true -> 0 <= n -> n <= digits_value s n.
Proof.
  revert n. induction s as [|c s IH]; intros n Hs Hn; cbn in *; [lia|].
  apply andb_true_iff in Hs as [Hc%is_digit_range Hs].
  specialize (IH (10 * n + (byte_of c - 48)) Hs). lia.
Qed.

(** The loop with its overflow checks computes the value exactly when it fits. *)
Lemma ParseUint_loop_digits s n :
  all_digits s = true -> 0 <= n <= maxUint64 ->
  ParseUint_loop s n =
    if digits_value s n <=? maxUint64 then inr (digits_value s n) else inl ErrRange.
Proof.
  revert n. induction s as [|c s IH]; intros n Hs Hn; cbn [ParseUint_loop digits_value].
  - destruct (Z.leb_spec n maxUint64); [done|lia].
  - cbn in Hs. apply andb_true_iff in Hs as [Hc Hs].
    rewrite (digit_of_digit c Hc). apply is_digit_range in Hc.
    set (d := byte_of c - 48) in *.
    destruct (Z.leb_spec 10 d); [lia|].
    pose proof (digits_value_ge s (10 * n + d) Hs) as Hge.
    change maxUint64 with 18446744073709551615 in *.
    change cutoff with 1844674407370955162.
    destruct (Z.leb_spec 1844674407370955162 n) as [Hcut|Hcut].
    + destruct (Z.leb_spec (digits_value s (10 * n + d)) 18446744073709551615); [|done].
      lia.
    + assert (n * 10 <= 18446744073709551615) as Hm by lia.
      rewrite (uwrap_small 64 (n * 10)) by (unfold in_u; lia).
      destruct (Z.leb_spec (n * 10 + d) 18446744073709551615) as [Hfit|Hfit].
      * rewrite (uwrap_small 64 (n * 10 + d)) by (unfold in_u; lia).
        destruct (Z.ltb_spec (n * 10 + d) (n * 10)); [lia|].
        destruct (Z.ltb_spec 18446744073709551615 (n * 10 + d)); [lia|]. cbn [orb].
        replace (10 * n + d) with (n * 10 + d) by lia. apply IH; [done|lia].
      * assert (uwrap 64 (n * 10 + d) = n * 10 + d - 2 ^ 64) as ->.
        { symmetry. apply Z.mod_unique_pos with 1; lia. }
        destruct (Z.ltb_spec (n * 10 + d - 2 ^ 64) (n * 10)); [|lia].
        destruct (Z.leb_spec (digits_value s (10 * n + d)) 18446744073709551615); [lia|done].
Qed.

(** A text with another character is refused, whatever the value before it. *)
Lemma ParseUint_loop_inr s n v : ParseUint_loop s n = inr v -> all_digits s = true.
Proof.
  revert n. induction s as [|c s IH]; intros n; cbn [ParseUint_loop all_digits]; [done|].
  destruct (is_digit c) eqn:Hc.
  - rewrite (digit_of_digit c Hc). intros E.
    repeat (destruct (_ <=? _) in E; [done|]). destruct (_ || _) in E; [done|]. by eapply IH.
  - destruct (digit_of_other c Hc) as [-> | (d & -> & Hd)]; [done|].
    destruct (Z.leb_spec 10 d); [done|lia].
Qed.

Lemma ParseUint_loop_error s n e :
  ParseUint_loop s n = inl e -> e = ErrSyntax \/ e = ErrRange.
Proof.
  revert n. induction s as [|c s IH]; intros n E; cbn [ParseUint_loop] in E; [done|].
  destruct (digit_of c); [|injection E as <-; by left].
  destruct (10 <=? z); [injection E as <-; by left|].
  destruct (cutoff <=? n); [injection E as <-; by right|].
  destruct (_ || _); [injection E as <-; by right|]. by eapply IH.
Qed.

Lemma int_of_magnitude_inr s0 neg un v :
  0 <= un -> int_of_magnitude s0 neg un = inr v <-> v = signed neg un /\ in_int64 v.
Proof.
  intros Hun. unfold int_of_magnitude, in_int64, signed.
  destruct neg; cbn [negb andb].
  - destruct (Z.ltb_spec (2 ^ 63) un); split; intros E; try done; try lia.
    + injection E as <-. lia.
    + f_equal. lia.
  - destruct (Z.leb_spec (2 ^ 63) un); split; intros E; try done; try lia.
    + injection E as <-. lia.
    + f_equal. lia.
Qed.

Lemma parse_magnitude_inr s0 neg s v :
  parse_magnitude s0 neg s = inr v <->
  s <> EmptyString /\ all_digits s = true /\ v = signed neg (digits_value s 0) /\ in_int64 v.
Proof.
  unfold parse_magnitude, ParseUint.
  destruct s as [|c s]; [split; [done|by intros [? _]]|]. set (s' := String c s).
  assert (0 <= maxUint64) by done.
  destruct (all_digits s') eqn:Hs.
  - rewrite ParseUint_loop_digits by (done || unfold maxUint64; lia).
    pose proof (digits_value_ge s' 0 Hs).
    destruct (Z.leb_spec (digits_value s' 0) maxUint64).
    + rewrite int_of_magnitude_inr by lia. split; [by intros []|by intros (_ & _ & ? & ?)].
    + split; [|intros (_ & _ & -> & Hi); exfalso; revert Hi;
        unfold in_int64, signed, maxUint64 in *; destruct neg; lia].
      unfold int_of_magnitude. by destruct neg.
  - destruct (ParseUint_loop s' 0) as [e|un] eqn:E.
    + split; [|by intros (_ & ? & _)]. destruct e; try done. by destruct neg.
    + by rewrite (ParseUint_loop_inr _ _ _ E) in Hs.
Qed.

Lemma is_digit_not_sign c : is_digit c = true -> Ascii.eqb c "+" = false /\ Ascii.eqb c "-" = false.
Proof.
  intros Hc. split; apply Ascii.eqb_neq; intros ->; by vm_compute in Hc.
Qed.

(** [ParseInt] accepts exactly the signed decimal numerals of int64 values. *)
Lemma ParseInt_inr s v :
  ParseInt s = inr v <->
  exists neg ds, numeral s neg ds /\ v = signed neg (digits_value ds 0) /\ in_int64 v.
Proof.
  unfold ParseInt, numeral. destruct s as [|c s].
  { split; [done|]. by intros (neg & ds & (Hne & _ & [[_ [<-|?]]|[_ ?]]) & _). }
  destruct (Ascii.eqb_spec c "+") as [->|Hp]; [|destruct (Ascii.eqb_spec c "-") as [->|Hm]].
  - rewrite parse_magnitude_inr. split.
    + intros (? & ? & ? & ?). exists false, s. naive_solver.
    + intros (neg & ds & (Hne & Hd & [[-> [<-|E]]|[-> E]]) & ?); simplify_eq; done.
  - rewrite parse_magnitude_inr. split.
    + intros (? & ? & ? & ?). exists true, s. naive_solver.
    + intros (neg & ds & (Hne & Hd & [[-> [<-|E]]|[-> E]]) & ?); simplify_eq; done.
  - rewrite parse_magnitude_inr. split.
    + intros (? & ? & ? & ?). exists false, (String c s). naive_solver.
    + intros (neg & ds & (Hne & Hd & [[-> [<-|E]]|[-> E]]) & ?); simplify_eq; try done.
Qed.

(** A failed [ParseInt] is a syntax or a range error that names the text. *)
Lemma ParseInt_inl s e :
  ParseInt s = inl e -> e = parse_error s ErrSyntax \/ e = parse_error s ErrRange.
Proof.
  assert (forall neg ds, parse_magnitude s neg ds = inl e ->
    e = parse_error s ErrSyntax \/ e = parse_error s ErrRange) as Hm.
  { intros neg ds. unfold parse_magnitude, int_of_magnitude, ParseUint.
    destruct ds as [|c ds]; [intros E; injection E as <-; by left|].
    destruct (ParseUint_loop _ _) as [e'|un] eqn:E'.
    - apply ParseUint_loop_error in E' as [->| ->]; [intros E; injection E as <-; by left|].
      destruct neg; intros E; injection E as <-; by right.
    - repeat (destruct (_ && _); [intros E; injection E as <-; by right|]). done. }
  unfold ParseInt. destruct s as [|c s]; [intros E; injection E as <-; by left|].
  destruct (Ascii.eqb c "+"); [apply Hm|]. destruct (Ascii.eqb c "-"); apply Hm.
Qed.

(** *** Printing *)

Lemma digits_of_uint u : all_digits (NilEmpty.string_of_uint u) = true.
Proof. by induction u. Qed.

Lemma digits_value_acc u p :
  digits_value (NilEmpty.string_of_uint u) (Zpos p) = Zpos (Pos.of_uint_acc u p).
Proof.
  revert p. induction u; intros p; cbn [NilEmpty.string_of_uint digits_value Pos.of_uint_acc];
    [done|..].
  all: rewrite <- IHu; f_equal; unfold byte_of; vm_compute (Z.of_N _ - 48); lia.
Qed.

Lemma digits_value_uint u :
  digits_value (NilEmpty.string_of_uint u) 0 = Z.of_N (Pos.of_uint u).
Proof.
  induction u; cbn [NilEmpty.string_of_uint digits_value Pos.of_uint]; [done|..].
  1: exact IHu.
  all: cbn [Z.of_N]; rewrite <- digits_value_acc; by f_equal.
Qed.

Lemma string_of_uint_nonempty u : u <> Decimal.Nil -> NilEmpty.string_of_uint u <> EmptyString.
Proof. by destruct u. Qed.

Lemma FormatInt_numeral z :
  exists neg ds, numeral (FormatInt z) neg ds /\ z = signed neg (digits_value ds 0).
Proof.
  unfold FormatInt, numeral. pose proof (DecimalZ.of_to z) as Hz.
  destruct (Z.to_int z) as [u|u] eqn:E; cbn [NilEmpty.string_of_int].
  - exists false, (NilEmpty.string_of_uint u). rewrite digits_of_uint, digits_value_uint.
    assert (u <> Decimal.Nil).
    { intros ->. destruct z; cbn in E; simplify_eq; by eapply Unsigned.to_uint_nonnil. }
    pose proof (string_of_uint_nonempty u). cbn in Hz. naive_solver.
  - exists true, (NilEmpty.string_of_uint u). rewrite digits_of_uint, digits_value_uint.
    assert (u <> Decimal.Nil).
    { intros ->. destruct z; cbn in E; simplify_eq; by eapply Unsigned.to_uint_nonnil. }
    pose proof (string_of_uint_nonempty u). cbn in Hz. unfold signed.
    split; [naive_solver|]. rewrite <- Hz. unfold Z.of_uint. lia.
Qed.

(** Parsing a printed number gives it back. *)
Lemma ParseInt_FormatInt z : in_int64 z -> ParseInt (FormatInt z) = inr z.
Proof.
  intros Hz. apply ParseInt_inr.
  destruct (FormatInt_numeral z) as (neg & ds & Hn & E). eauto.
Qed.

(** A character that is no digit and no sign does not occur in a numeral. *)
Lemma numeral_no_char c s neg ds :
  is_digit c = false -> c <> "+"%char -> c <> "-"%char -> numeral s neg ds -> no_char c s = true.
Proof.
  intros Hc Hp Hm (_ & Hd & Hs).
  assert (no_char c ds = true) as Hds.
  { clear Hs. induction ds as [|x ds IH]; [done|]. cbn in *.
    apply andb_true_iff in Hd as [Hx Hd]. rewrite IH by done.
    destruct (Ascii.eqb_spec x c) as [->|]; [congruence|done]. }
  apply not_eq_sym, Ascii.eqb_neq in Hp. apply not_eq_sym, Ascii.eqb_neq in Hm.
  destruct Hs as [[_ [->| ->]]|[_ ->]]; cbn [no_char]; by rewrite ?Hp, ?Hm, ?Hds.
Qed.

Lemma FormatInt_no_char c z :
  is_digit c = false -> c <> "+"%char -> c <> "-"%char -> no_char c (FormatInt z) = true.
Proof.
  intros. destruct (FormatInt_numeral z) as (neg & ds & Hn & _). by eapply numeral_no_char.
Qed.

Lemma FormatInt_not_dash z : FormatInt z <> "-"%string.
Proof.
  destruct (FormatInt_numeral z) as (neg & ds & (Hne & Hd & Hs) & _).
  intros E. rewrite E in Hs. destruct Hs as [[_ [<-|?]]|[_ ?]]; by simplify_eq.
Qed.

(** ** bufio.Scanner with ScanLines

    A reader is its content and how it ends: an error, or nothing for io.EOF.
    The buffer of a scanner holds at most [MaxScanTokenSize] bytes; a scan
    stops when it is full and holds no newline. *)

Record Reader := mkReader { data : string; read_err : option error }.

Definition MaxScanTokenSize : Z := 64 * 1024.

Definition ch_newline : ascii := Ascii.ascii_of_nat 10.
Definition ch_return : ascii := Ascii.ascii_of_nat 13.

Fixpoint dropCR (s : string) : string :=
  match s with
  | EmptyString => EmptyString
  | String c EmptyString => if Ascii.eqb c ch_return then EmptyString else s
  | String c rest => String c (dropCR rest)
  end.

(** [cur] is the line read so far, [len] its length; the second component says
    whether the scan stopped at a line that is too long. *)
Fixpoint scan_lines (cur : string) (len : Z) (rest : string) : list string * bool :=
  if MaxScanTokenSize <=? len then ([], true)
  else match rest with
       | EmptyString =>
           match cur with
           | EmptyString => ([], false)
           | _ => ([dropCR cur], false)
           end
       | String c rest' =>
           if Ascii.eqb c ch_newline then
             let (tokens, long) := scan_lines EmptyString 0 rest' in (dropCR cur :: tokens, long)
           else scan_lines (snoc cur c) (len + 1) rest'
       end.

(** The tokens a scanner hands out and the error it reports at the end. *)
Definition Scan (r : Reader) : list string * option error :=
  let (tokens, long) := scan_lines EmptyString 0 (data r) in
  (tokens, if long then Some ErrTooLong else read_err r).

Definition newline : string := String ch_newline EmptyString.

Definition str_len (s : string) : Z := Z.of_nat (String.length s).

Fixpoint ends_with (c : ascii) (s : string) : bool :=
  match s with
  | EmptyString => false
  | String x EmptyString => Ascii.eqb x c
  | String _ rest => ends_with c rest
  end.

Lemma dropCR_id s : ends_with ch_return s = false -> dropCR s = s.
Proof.
  induction s as [|c s IH]; [done|]. cbn. destruct s as [|d s].
  - by intros ->.
  - intros H. by rewrite IH.
Qed.

Lemma scan_lines_line l cur len rest :
  no_char ch_newline l = true -> 0 <= len -> len + str_len l < MaxScanTokenSize ->
  scan_lines cur len (l ++ newline ++ rest)%string =
    let (tokens, long) := scan_lines EmptyString 0 rest in
    (dropCR (cur ++ l)%string :: tokens, long).
Proof.
  revert cur len. induction l as [|c l IH]; intros cur len Hl Hpos Hlen.
  - cbn [String.append newline scan_lines]. rewrite app_nil_str.
    unfold str_len in Hlen. cbn in Hlen.
    destruct (Z.leb_spec MaxScanTokenSize len); [lia|]. by rewrite Ascii.eqb_refl.
  - unfold str_len in *. cbn [String.length] in Hlen. cbn [String.append scan_lines].
    cbn in Hl. apply andb_true_iff in Hl as [Hc%negb_true_iff Hl]. rewrite Hc.
    destruct (Z.leb_spec MaxScanTokenSize len); [lia|].
    rewrite IH by (done || lia). by rewrite snoc_app.
Qed.

Definition scannable (l : string) : Prop :=
  no_char ch_newline l = true /\ ends_with ch_return l = false /\ str_len l < MaxScanTokenSize.

(** A file of complete lines, none of them too long, is scanned into them. *)
Lemma Scan_lines ls e :
  Forall scannable ls ->
  Scan (mkReader (foldr (fun l acc => l ++ newline ++ acc)%string EmptyString ls) e) = (ls, e).
Proof.
  unfold Scan. cbn [data read_err]. intros H.
  replace (scan_lines _ _ _) with (ls, false); [done|].
  induction H as [|l ls (Hl & Hr & Hlen) _ IH]; [done|]. cbn [foldr].
  rewrite scan_lines_line by (done || lia). rewrite <- IH. cbn [String.append].
  by rewrite dropCR_id.
Qed.

End GoStrconv.
