(* ===== verification/MountInfo.v ===== *)
(** * Mount information: src/pkg/mountinfo/mountinfo.go

    The parser of /proc/self/mountinfo: one line per mount, six fields and
    optional ones in front of the separator " - ", three fields behind it. *)

From Stdlib Require Import ZArith Lia String Ascii.
From stdpp Require Import base list strings.
From S2P Require Import Prelude GoStrings GoStrconv.
Import GoStrings GoStrconv.

Local Open Scope Z_scope.
Local Open Scope string_scope.

Module MountInfo.

#[local] Arguments String.append : simpl nomatch.

Definition mountInfoFilepath : string := "/proc/self/mountinfo".

Record MountInfo := mkMountInfo {
  MountID : Z;               (* int64 *)
  ParentID : Z;              (* int64 *)
  StDev : string;
  Root : string;
  MountPoint : string;
  MountOptions : string;
  OptionalFields : list string;
  FilesystemType : string;
  MountSource : string;
  SuperOptions : string
}.

Definition invalid_separator (raw : string) : error :=
  ErrMsg ("invalid mountinfo entry which has more that one '-' separator: " ++ raw).
Definition invalid_entry (raw : string) : error :=
  ErrMsg ("invalid mountinfo entry: " ++ raw).

(** The body of the loop, after the two splits.  The slices are indexed at
    0..5 and 0..2; the optional fields are those from index 6 on. *)
Definition parse_fields (mountInfoLeft mountInfoRight : list string)
    : outcome (error + MountInfo) :=
  match mountInfoLeft, mountInfoRight with
  | l0 :: l1 :: l2 :: l3 :: l4 :: l5 :: optionalFields, r0 :: r1 :: r2 :: _ =>
      match ParseInt l0 with
      | inl err => Returns (inl err)
      | inr mountID =>
          match ParseInt l1 with
          | inl err => Returns (inl err)
          | inr parentID =>
              Returns (inr (mkMountInfo mountID parentID l2 l3 l4 l5 optionalFields r0 r1 r2))
          end
      end
  | _, _ => Panics IndexOutOfRange
  end.

Definition parse_entry (mountInfoRaw : string) : outcome (error + MountInfo) :=
  match Split mountInfoRaw " - " with
  | [sep0; sep1] =>
      let mountInfoLeft := Split sep0 " " in
      let mountInfoRight := Split sep1 " " in
      if (length mountInfoLeft <? 6)%nat then Returns (inl (invalid_entry mountInfoRaw))
      else if negb (length mountInfoRight =? 3)%nat then Returns (inl (invalid_entry mountInfoRaw))
      else parse_fields mountInfoLeft mountInfoRight
  | _ => Returns (inl (invalid_separator mountInfoRaw))
  end.

(** The loop over the scanner's tokens; [result] is the slice built so far. *)
Fixpoint parse_entries (tokens : list string) (result : list MountInfo)
    : outcome (error + list MountInfo) :=
  match tokens with
  | [] => Returns (inr result)
  | raw :: rest =>
      match parse_entry raw with
      | Panics p => Panics p
      | Returns (inl err) => Returns (inl err)
      | Returns (inr mi) => parse_entries rest (result ++ [mi])
      end
  end.

Definition parseMountInfoFile (r : Reader) : outcome (error + list MountInfo) :=
  let (tokens, scan_err) := Scan r in
  match parse_entries tokens [] with
  | Returns (inr result) =>
      match scan_err with
      | Some err => Returns (inl err)
      | None => Returns (inr result)
      end
  | o => o
  end.

(** [os.Open] is an argument: it gives an error or the content of the file. *)
Definition GetMountInfo (os_Open : string -> error + Reader) : outcome (error + list MountInfo) :=
  match os_Open mountInfoFilepath with
  | inl err =>
      Returns (inl (FmtError false ("failed to open mount information at "
                                    ++ mountInfoFilepath ++ ": ") err))
  | inr fMounts => parseMountInfoFile fMounts
  end.

(** ** The specification: lines as texts

    [entry_text id parent m] is the line of [m] whose two numbers are written
    [id] and [parent]. *)
Definition left_fields (id parent : string) (m : MountInfo) : list string :=
  id :: parent :: StDev m :: Root m :: MountPoint m :: MountOptions m :: OptionalFields m.
Definition right_fields (m : MountInfo) : list string :=
  [FilesystemType m; MountSource m; SuperOptions m].

Definition entry_text (id parent : string) (m : MountInfo) : string :=
  Join (left_fields id parent m) " " ++ " - " ++ Join (right_fields m) " ".

(** The line the kernel prints. *)
Definition print_entry (m : MountInfo) : string :=
  entry_text (FormatInt (MountID m)) (FormatInt (ParentID m)) m.

(** Entries as the kernel prints them: blanks are escaped, no field but the
    last two could be read as the separator. *)
Definition field_ok (f : string) : Prop := no_char " " f = true /\ no_char ch_newline f = true.

Record printable (m : MountInfo) : Prop := {
  id_ok : in_int64 (MountID m);
  parent_ok : in_int64 (ParentID m);
  left_ok : Forall (fun f => field_ok f /\ f <> "-")
    (StDev m :: Root m :: MountPoint m :: MountOptions m :: OptionalFields m);
  fstype_ok : field_ok (FilesystemType m);
  source_ok : field_ok (MountSource m);
  source_not_dash : MountSource m <> "-";
  super_ok : field_ok (SuperOptions m);
  super_end : ends_with ch_return (SuperOptions m) = false
}.

(** [accepts raw m]: the line is one of [m], with numerals of its ids. *)
Definition accepts (raw : string) (m : MountInfo) : Prop :=
  exists id parent,
    raw = entry_text id parent m /\
    ParseInt id = inr (MountID m) /\ ParseInt parent = inr (ParentID m).

(** ** Lemmas *)

Lemma parse_entry_returns raw : exists r, parse_entry raw = Returns r.
Proof.
  unfold parse_entry. destruct (Split raw " - ") as [|l [|r [|]]]; try (by eexists).
  destruct (Nat.ltb_spec (length (Split l " ")) 6) as [|Hl]; [by eexists|].
  destruct (Nat.eqb_spec (length (Split r " ")) 3) as [Hr|]; [|by eexists]. cbn [negb].
  unfold parse_fields.
  destruct (Split l " ") as [|l0 [|l1 [|l2 [|l3 [|l4 [|l5 opt]]]]]]; cbn in Hl; try lia.
  destruct (Split r " ") as [|r0 [|r1 [|r2 rest]]]; cbn in Hr; try lia.
  destruct (ParseInt l0); [by eexists|]. destruct (ParseInt l1); by eexists.
Qed.

Lemma parse_entry_accepts raw m : parse_entry raw = Returns (inr m) -> accepts raw m.
Proof.
  unfold parse_entry, accepts. pose proof (Join_split_scan " - " "" raw) as Hraw.
  unfold Split in *. destruct (split_scan " - " 0 "" raw) as [|l [|r [|]]]; try done.
  cbn [Join] in Hraw. specialize (Hraw ltac:(done)).
  pose proof (Join_split_scan " " "" l ltac:(done)) as Hl.
  pose proof (Join_split_scan " " "" r ltac:(done)) as Hr.
  destruct (Nat.ltb_spec (length (split_scan " " 0 "" l)) 6) as [|_]; [done|].
  destruct (Nat.eqb_spec (length (split_scan " " 0 "" r)) 3) as [Hlen|]; [|done]. cbn [negb].
  unfold parse_fields.
  destruct (split_scan " " 0 "" l) as [|l0 [|l1 [|l2 [|l3 [|l4 [|l5 opt]]]]]]; try done.
  destruct (split_scan " " 0 "" r) as [|r0 [|r1 [|r2 [|]]]]; try done.
  destruct (ParseInt l0) eqn:E0; [done|]. destruct (ParseInt l1) eqn:E1; [done|].
  intros E; injection E as <-. exists l0, l1. cbn [MountID ParentID].
  split; [|done]. unfold entry_text, left_fields, right_fields. cbn [StDev Root MountPoint
    MountOptions OptionalFields FilesystemType MountSource SuperOptions].
  rewrite Hl, Hr. symmetry. exact Hraw.
Qed.

(** Fields joined by blanks do not contain the separator " - ". *)
Lemma prefix_dash f t :
  no_char " " f = true -> f <> "-" -> String.prefix "-" t = false ->
  String.prefix "- " (f ++ t) = false.
Proof.
  intros Hf Hne Ht. destruct f as [|c f]; cbn [String.append].
  - destruct t as [|x t]; [done|]. cbn [String.prefix] in *. by destruct (ascii_dec "-" x); destruct t.
  - cbn [String.prefix]. destruct (ascii_dec "-" c) as [<-|]; [|done].
    destruct f as [|d f]; [done|]. cbn in Hf. apply andb_true_iff in Hf as [Hd%negb_true_iff _].
    apply Ascii.eqb_neq in Hd. cbn [String.append String.prefix].
    by destruct (ascii_dec " " d) as [<-|].
Qed.

Lemma sep_free_blank t : sep_free " - " " " t = negb (String.prefix "- " t).
Proof. cbn. by rewrite andb_true_r. Qed.

Lemma sep_free_Join f fs t :
  Forall (fun g => no_char " " g = true) (f :: fs) -> Forall (fun g => g <> "-") fs ->
  String.prefix "-" t = false -> sep_free " - " (Join (f :: fs) " ") t = true.
Proof.
  revert f. induction fs as [|g fs IH]; intros f Hf Hne Ht; apply Forall_cons in Hf as [Hf Hfs].
  - by apply sep_free_head.
  - change (Join (f :: g :: fs) " ") with (f ++ " " ++ Join (g :: fs) " ").
    apply Forall_cons in Hne as [Hg Hne].
    rewrite !sep_free_app, sep_free_head, sep_free_blank, IH by done.
    rewrite andb_true_r. apply negb_true_iff.
    apply Forall_cons in Hfs as [Hgb Hfs]. destruct fs as [|h fs]; cbn [Join].
    + by apply prefix_dash.
    + rewrite app_assoc_str. by apply prefix_dash.
Qed.

(** At the end of the line a dash is no separator. *)
Lemma prefix_dash_end f : no_char " " f = true -> String.prefix "- " f = false.
Proof.
  destruct f as [|c [|d f]]; 
    [done|cbn [String.prefix]; by destruct (ascii_dec "-" c)|].
  cbn [no_char String.prefix]. intros [_ [Hd _]%andb_true_iff]%andb_true_iff. apply negb_true_iff, Ascii.eqb_neq in Hd.
  destruct (ascii_dec "-" c); [|done]. by destruct (ascii_dec " " d) as [<-|].
Qed.

Lemma sep_free_right a b c :
  no_char " " a = true -> no_char " " b = true -> no_char " " c = true -> b <> "-" ->
  sep_free " - " (Join [a; b; c] " ") "" = true.
Proof.
  intros Ha Hb Hc Hne. cbn [Join].
  rewrite !sep_free_app, !sep_free_blank, !sep_free_head by done.
  rewrite !app_nil_str, (prefix_dash_end c), prefix_dash by done. done.
Qed.

Lemma field_blank f : field_ok f -> no_char " " f = true.
Proof. by intros []. Qed.

Lemma printable_left m :
  printable m -> Forall (fun f => no_char " " f = true)
    (left_fields (FormatInt (MountID m)) (FormatInt (ParentID m)) m).
Proof.
  intros Hm. unfold left_fields. do 2 (constructor; [by apply FormatInt_no_char|]).
  eapply Forall_impl; [apply left_ok; exact Hm|]. by intros f [[] _].
Qed.

Lemma printable_left_dash m :
  printable m -> Forall (fun f => f <> "-")
    (tail (left_fields (FormatInt (MountID m)) (FormatInt (ParentID m)) m)).
Proof.
  intros Hm. cbn [tail left_fields]. constructor; [apply FormatInt_not_dash|].
  eapply Forall_impl; [apply left_ok; exact Hm|]. by intros f [_ ?].
Qed.

(** The two splits of a line whose left fields are as the kernel prints them. *)
Lemma split_entry m rest :
  printable m ->
  Split (Join (left_fields (FormatInt (MountID m)) (FormatInt (ParentID m)) m) " " ++ " - " ++ rest)
    " - " =
  Join (left_fields (FormatInt (MountID m)) (FormatInt (ParentID m)) m) " " :: Split rest " - ".
Proof.
  intros Hm. unfold Split. rewrite split_scan_sep; [done|].
  apply sep_free_Join; [by apply printable_left|by apply printable_left_dash|done].
Qed.

Lemma split_left m :
  printable m ->
  Split (Join (left_fields (FormatInt (MountID m)) (FormatInt (ParentID m)) m) " ") " " =
  left_fields (FormatInt (MountID m)) (FormatInt (ParentID m)) m.
Proof. intros Hm. by apply Split_Join, printable_left. Qed.

Lemma split_right m :
  printable m -> Split (Join (right_fields m) " ") " " = right_fields m.
Proof.
  intros Hm. apply Split_Join. repeat constructor; apply field_blank; by destruct Hm.
Qed.

Lemma parse_print m : printable m -> parse_entry (print_entry m) = Returns (inr m).
Proof.
  intros Hm. unfold parse_entry, print_entry, entry_text. rewrite split_entry by done.
  unfold Split at 1. rewrite split_scan_free.
  2:{ apply sep_free_right; try apply field_blank; by destruct Hm. }
  rewrite (split_left m Hm). cbn [String.append]. rewrite (split_right m Hm).
  cbn [length left_fields right_fields Nat.ltb Nat.leb Nat.eqb negb parse_fields].
  rewrite !ParseInt_FormatInt by (by destruct Hm). by destruct m.
Qed.

(** The line of a mount whose source is a dash is refused. *)
Lemma parse_dash m :
  printable m -> exists rest, Split (print_entry (mkMountInfo (MountID m) (ParentID m) (StDev m)
    (Root m) (MountPoint m) (MountOptions m) (OptionalFields m) (FilesystemType m) "-"
    (SuperOptions m))) " - " =
  Join (left_fields (FormatInt (MountID m)) (FormatInt (ParentID m)) m) " "
    :: FilesystemType m :: rest /\ rest <> [].
Proof.
  intros Hm. unfold print_entry, entry_text.
  exists (Split (SuperOptions m) " - "). split.
  - etransitivity; [exact (split_entry m _ Hm)|]. f_equal. unfold Split.
    cbn [right_fields Join FilesystemType MountSource SuperOptions].
    change (" " ++ "-" ++ " " ++ SuperOptions m) with (" - " ++ SuperOptions m).
    rewrite split_scan_sep; [done|]. apply sep_free_head, field_blank. by destruct Hm.
  - by destruct (Split_nonempty (SuperOptions m) " - ") as (e & rest & ->).
Qed.

Lemma parse_entry_dash m :
  printable m -> let raw := print_entry (mkMountInfo (MountID m) (ParentID m) (StDev m) (Root m)
    (MountPoint m) (MountOptions m) (OptionalFields m) (FilesystemType m) "-" (SuperOptions m)) in
  parse_entry raw = Returns (inl (invalid_separator raw)).
Proof.
  intros Hm raw. destruct (parse_dash m Hm) as (rest & Hs & Hne). fold raw in Hs.
  unfold parse_entry. rewrite Hs. by destruct rest.
Qed.

(** The loop stops at the first line that is refused. *)
Lemma parse_entries_inr tokens acc ms :
  parse_entries tokens acc = Returns (inr ms) <->
  exists ms', ms = (acc ++ ms')%list /\ Forall2 (fun raw m => parse_entry raw = Returns (inr m)) tokens ms'.
Proof.
  revert acc. induction tokens as [|raw rest IH]; intros acc; cbn [parse_entries].
  - split.
    + intros E; injection E as <-. exists []. by rewrite app_nil_r.
    + intros (ms' & -> & H%Forall2_nil_inv_l). by rewrite H, app_nil_r.
  - destruct (parse_entry raw) as [[e|m]|p] eqn:E.
    + split; [done|]. intros (ms' & _ & H). inversion H; congruence.
    + rewrite IH. split.
      * intros (ms' & -> & H). exists (m :: ms'). rewrite <- app_assoc. eauto.
      * intros (ms' & -> & H). inversion H as [|? m' ? ms'' Hm Hrest]; subst.
        rewrite E in Hm. injection Hm as <-. exists ms''. by rewrite <- app_assoc.
    + split; [done|]. intros (ms' & _ & H). inversion H; congruence.
Qed.

Lemma parse_entries_inl tokens acc e :
  parse_entries tokens acc = Returns (inl e) <->
  exists before raw after ms, tokens = (before ++ raw :: after)%list /\
    Forall2 (fun raw m => parse_entry raw = Returns (inr m)) before ms /\
    parse_entry raw = Returns (inl e).
Proof.
  revert acc. induction tokens as [|raw rest IH]; intros acc; cbn [parse_entries].
  - split; [done|]. by intros ([|] & ? & ? & ? & ? & _).
  - destruct (parse_entry_returns raw) as [[e'|m] E]; rewrite E.
    + split.
      * intros H; injection H as <-. by exists [], raw, rest, [].
      * intros ([|raw' before] & raw1 & after & ms & Ht & Hb & He); cbn in Ht; simplify_eq.
        -- by rewrite E in He; simplify_eq.
        -- inversion Hb; congruence.
    + rewrite IH. split.
      * intros (before & raw' & after & ms & -> & Hb & He).
        exists (raw :: before), raw', after, (m :: ms). by repeat constructor.
      * intros ([|raw' before] & raw1 & after & ms & Ht & Hb & He); cbn in Ht; simplify_eq.
        -- congruence.
        -- inversion Hb; subst. by eauto 8.
Qed.

Lemma parse_entries_returns tokens acc : exists r, parse_entries tokens acc = Returns r.
Proof.
  revert acc. induction tokens as [|raw rest IH]; intros acc; cbn [parse_entries]; [by eexists|].
  destruct (parse_entry_returns raw) as [[e|m] ->]; [by eexists|apply IH].
Qed.

(** The lines the kernel prints can be scanned. *)
Lemma no_char_app c a b : no_char c (a ++ b) = no_char c a && no_char c b.
Proof.
  induction a as [|x a IH]; [done|]. cbn [String.append no_char]. by rewrite IH, andb_assoc.
Qed.

Lemma no_char_Join c sep fs :
  no_char c sep = true -> Forall (fun f => no_char c f = true) fs -> no_char c (Join fs sep) = true.
Proof.
  intros Hsep. induction 1 as [|f fs Hf Hfs IH]; [done|].
  destruct fs as [|g fs]; [done|].
  change (Join (f :: g :: fs) sep) with (f ++ sep ++ Join (g :: fs) sep).
  by rewrite !no_char_app, Hf, Hsep, IH.
Qed.

Lemma ends_with_app c a s : c <> " "%char -> ends_with c (a ++ " " ++ s) = ends_with c s.
Proof.
  intros Hc. induction a as [|x a IH].
  - cbn. destruct s; [|done]. by apply not_eq_sym, Ascii.eqb_neq in Hc.
  - cbn [String.append ends_with] in *. rewrite <- IH. by destruct a.
Qed.

Lemma field_newline f : field_ok f -> no_char ch_newline f = true.
Proof. by intros []. Qed.

Lemma print_entry_scannable m :
  printable m -> str_len (print_entry m) < MaxScanTokenSize -> scannable (print_entry m).
Proof.
  intros Hm Hlen. split; [|split; [|done]]; unfold print_entry, entry_text.
  - rewrite !no_char_app, !no_char_Join; try done.
    + repeat constructor; apply field_newline; by destruct Hm.
    + unfold left_fields. do 2 (constructor; [by apply FormatInt_no_char|]).
      eapply Forall_impl; [apply left_ok; exact Hm|]. by intros f [[] _].
  - cbn [Join right_fields].
    rewrite <- !app_assoc_str, app_assoc_str, ends_with_app by done. by destruct Hm.
Qed.

(** ** Properties *)

(** The file the kernel prints for a list of mounts. *)
Definition print_file (ms : list MountInfo) : string :=
  foldr (fun l acc => l ++ newline ++ acc) "" (map print_entry ms).

(** C32. Parsing the file printed for any mounts gives exactly these mounts, in
    order, with all their optional fields. *)
Theorem parse_print_file (ms : list MountInfo) :
  Forall (fun m => printable m /\ str_len (print_entry m) < MaxScanTokenSize) ms ->
  parseMountInfoFile (mkReader (print_file ms) None) = Returns (inr ms).
Proof.
  intros Hms. unfold parseMountInfoFile, print_file. rewrite Scan_lines.
  - assert (parse_entries (map print_entry ms) [] = Returns (inr ms)) as ->; [|done].
    apply parse_entries_inr. exists ms. split; [done|].
    induction Hms as [|m ms [Hm _] _ IH]; constructor; [by apply parse_print|done].
  - apply Forall_map. eapply Forall_impl; [exact Hms|].
    intros m [Hm Hlen]. by apply print_entry_scannable.
Qed.

(** A bind mount with two optional fields and the root of a BPF file system. *)
Definition ex_mounts : list MountInfo :=
  [mkMountInfo 36 35 "98:0" "/mnt1" "/mnt2" "rw,noatime" ["master:1"; "shared:7"] "ext3"
     "/dev/root" "rw,errors=continue";
   mkMountInfo (2 ^ 63 - 1) (-1) "0:31" "/" "/sys/fs/bpf" "rw" [] "bpf" "bpf" "rw,mode=700"].

Lemma parse_print_file_witness :
  parseMountInfoFile (mkReader (print_file ex_mounts) None) = Returns (inr ex_mounts).
Proof.
  apply parse_print_file.
  repeat constructor; try (by vm_compute); intros E; discriminate E.
Defined.

(** C33. The parser never indexes out of range.  A result has one entry per line, in
    order, and every character of the line is in its entry; an error is that of
    the first line refused or, when no line is, the scanner's. *)
Theorem parseMountInfoFile_outcome (r : Reader) :
  match parseMountInfoFile r with
  | Panics _ => False
  | Returns (inr ms) => (Scan r).2 = None /\ Forall2 accepts (Scan r).1 ms
  | Returns (inl e) =>
      (exists before raw after ms, (Scan r).1 = (before ++ raw :: after)%list /\
         Forall2 accepts before ms /\ parse_entry raw = Returns (inl e)) \/
      (exists ms, (Scan r).2 = Some e /\ Forall2 accepts (Scan r).1 ms)
  end.
Proof.
  unfold parseMountInfoFile. destruct (Scan r) as [tokens scan_err]. cbn [fst snd].
  assert (forall ls ms, Forall2 (fun raw m => parse_entry raw = Returns (inr m)) ls ms ->
    Forall2 accepts ls ms) as Hacc.
  { intros ls ms H. eapply Forall2_impl; [exact H|]. apply parse_entry_accepts. }
  destruct (parse_entries_returns tokens []) as [[e|ms] E]; rewrite E.
  - left. apply parse_entries_inl in E as (before & raw & after & ms & -> & Hb & He). eauto 8.
  - apply parse_entries_inr in E as (ms' & -> & H). cbn [app].
    destruct scan_err; [right|]; eauto.
Qed.

(** A mount whose source is a dash, which the kernel prints as it is, makes the
    parser refuse the whole file. *)
Theorem dash_source_refused (r : Reader) (m : MountInfo) :
  printable m ->
  print_entry (mkMountInfo (MountID m) (ParentID m) (StDev m) (Root m) (MountPoint m)
    (MountOptions m) (OptionalFields m) (FilesystemType m) "-" (SuperOptions m)) ∈ (Scan r).1 ->
  exists e, parseMountInfoFile r = Returns (inl e).
Proof.
  intros Hm Hin. unfold parseMountInfoFile. destruct (Scan r) as [tokens scan_err].
  destruct (parse_entries_returns tokens []) as [[e|ms] E]; rewrite E; [by eexists|].
  apply parse_entries_inr in E as (ms' & _ & H). cbn [fst] in Hin.
  apply list_elem_of_lookup in Hin as (i & Hi).
  eapply Forall2_lookup_l in H as (m' & _ & Hm'); [|exact Hi].
  by rewrite (parse_entry_dash m Hm) in Hm'.
Qed.

Lemma dash_source_refused_witness :
  exists e, parseMountInfoFile (mkReader (print_file ex_mounts ++ "40 35 0:40 / /tmp rw - tmpfs - rw")
    None) = Returns (inl e).
Proof.
  apply dash_source_refused with (mkMountInfo 40 35 "0:40" "/" "/tmp" "rw" [] "tmpfs" "tmpfs" "rw").
  - repeat constructor; try (by vm_compute); intros E; discriminate E.
  - apply list_elem_of_lookup. exists 2%nat. by_vm.
Defined.

End MountInfo.
