(* ===== verification/GoPath.v ===== *)
(** * The part of Go's path/filepath the agent calls, on Unix

    [Clean] works on the components of a path: empty components and "." are
    dropped, ".." removes the component before it. *)

From Stdlib Require Import String Ascii.
From stdpp Require Import base list strings.
From S2P Require Import Prelude GoStrings.
Import GoStrings.

Local Open Scope string_scope.

Module GoPath.

#[local] Arguments String.append : simpl nomatch.

Definition rooted (path : string) : bool :=
  match path with
  | String c _ => Ascii.eqb c ch_slash
  | EmptyString => false
  end.

(** [kept] are the components kept so far, the last one first. *)
Fixpoint clean_components (root : bool) (comps kept : list string) : list string :=
  match comps with
  | [] => rev kept
  | c :: rest =>
      if String.eqb c "" || String.eqb c "." then clean_components root rest kept
      else if String.eqb c ".." then
        match kept with
        | [] => clean_components root rest (if root then [] else [c])
        | k :: kept' =>
            if String.eqb k ".." then clean_components root rest (c :: kept)
            else clean_components root rest kept'
        end
      else clean_components root rest (c :: kept)
  end.

Definition Clean (path : string) : string :=
  let out := Join (clean_components (rooted path) (Split path "/") []) "/" in
  if rooted path then "/" ++ out
  else if String.eqb out "" then "." else out.

(** The path up to its last slash, that slash included. *)
Fixpoint upto_last_slash (path : string) : string :=
  match path with
  | EmptyString => EmptyString
  | String c rest =>
      let d := upto_last_slash rest in
      if negb (String.eqb d "") || Ascii.eqb c ch_slash then String c d else EmptyString
  end.

Definition Dir (path : string) : string := Clean (upto_last_slash path).

Fixpoint JoinPath (elem : list string) : string :=
  match elem with
  | [] => ""
  | e :: rest => if String.eqb e "" then JoinPath rest else Clean (Join elem "/")
  end.

(** The examples of the package's documentation. *)
Example Clean_examples :
  map Clean ["a/c"; "a//c"; "a/c/."; "a/c/b/.."; "/../a/c"; "/../a/b/../././/c"; ""; "../../a"]
  = ["a/c"; "a/c"; "a/c"; "a/c"; "/a/c"; "/a/c"; "."; "../../a"].
Proof. reflexivity. Qed.

Example Dir_examples :
  map Dir ["/foo/bar/baz.js"; "/foo/bar/baz"; "/foo/bar/baz/"; "/"; ""; "dev.txt"; "../todo.txt"]
  = ["/foo/bar"; "/foo/bar"; "/foo/bar/baz"; "/"; "."; "."; ".."].
Proof. reflexivity. Qed.

Example Join_examples :
  map JoinPath [["a"; "b"; "c"]; ["a"; "b/c"]; ["a"; "../../../xyz"]; ["a"; ""]; [""; ""]]
  = ["a/b/c"; "a/b/c"; "../../xyz"; "a"; ""].
Proof. reflexivity. Qed.

End GoPath.
