(* ===== verification/OS.v ===== *)
(** * The operating system, as an interface

    The calls of the os and unix packages that the mounting code makes.  The
    kernel is not in the sources: [OS] lists its calls, [OSSpec] what their
    manual pages promise about mounting, and [simfs] is an instance, a tree of
    paths with a device and a file-system type each. *)

From Stdlib Require Import ZArith Lia String Ascii.
From stdpp Require Import base gmap strings list.
From S2P Require Import Prelude GoStrings GoPath.
Import GoStrings GoPath.

Local Open Scope Z_scope.

Module OS.

(** What the agent reads of a file: is it a directory, the device it is on. *)
Class OS (W : Type) := {
  ENOENT : Z;
  BPF_FS_MAGIC : Z;
  CGROUP2_SUPER_MAGIC : Z;
  unix_Lstat : W -> string -> Z + Z;       (* an errno, or [st_dev] *)
  unix_Statfs : W -> string -> Z + Z;      (* an errno, or [f_type] *)
  stat_IsDir : W -> string -> Z + bool;    (* stat(2): an errno, or whether it is a directory *)
  os_MkdirAll : string -> Z -> W -> option error * W;
  unix_Mount : string -> string -> string -> Z -> string -> W -> option Z * W;
    (* source, target, type, flags, data; an errno *)
  unix_NameToHandleAt : W -> string -> Z + list Z  (* an errno, or the bytes of the handle *)
}.

Section os.
Context {W : Type} `{!OS W}.

(** [os.Stat] wraps the errno; [os.IsNotExist] looks into the wrapper. *)
Definition os_Stat (w : W) (path : string) : error + bool :=
  match stat_IsDir w path with
  | inl n => inl (PathError "stat" path (Errno n))
  | inr isdir => inr isdir
  end.

Definition os_IsNotExist (e : error) : bool :=
  match e with
  | PathError _ _ e' => bool_decide (e' = Errno ENOENT)
  | _ => bool_decide (e = Errno ENOENT)
  end.

(** A path that is the root of a mount, seen by its device. *)
Definition mount_point (w : W) (path : string) : Prop :=
  exists d d', unix_Lstat w path = inr d /\ unix_Lstat w (Dir path) = inr d' /\ d <> d'.

(** The path is [tgt] or a path under it. *)
Definition below (tgt path : string) : bool :=
  String.eqb path tgt || String.prefix (tgt ++ "/") path.

(** The directory [k] levels above a path. *)
Definition up (k : nat) (path : string) : string := Nat.iter k Dir path.

(** The nearest directory at or above the path that can be found is on a file
    system of type [t]. *)
Definition nearest_fs (w : W) (path : string) (t : Z) : Prop :=
  exists k, (forall j, (j < k)%nat -> exists e, unix_Statfs w (up j path) = inl e) /\
    unix_Statfs w (up k path) = inr t.

(** [mount(2)] attaches a file system of the given type to the target: the
    target is then on a device of its own, unless its parent is on a file
    system of the same type already (the mounts of a type may share their
    device).  The path to the target is resolved through the parent.  A
    directory that is created is on the file system of the directory it is
    created in. *)
Class OSSpec (magic : string -> Z) : Prop := {
  mount_success w src tgt fstype w' t :
    unix_Mount src tgt fstype 0 "" w = (None, w') -> below tgt (Dir tgt) = false ->
    unix_Statfs w (Dir tgt) = inr t -> t <> magic fstype ->
    mount_point w' tgt /\ unix_Statfs w' tgt = inr (magic fstype);
  mount_parent w src tgt fstype w' :
    unix_Mount src tgt fstype 0 "" w = (None, w') -> exists t, unix_Statfs w (Dir tgt) = inr t;
  mount_failure w src tgt fstype flags opts w' e :
    unix_Mount src tgt fstype flags opts w = (Some e, w') -> w' = w;
  mount_elsewhere w src tgt fstype flags opts w' p :
    unix_Mount src tgt fstype flags opts w = (None, w') -> below tgt p = false ->
    unix_Lstat w' p = unix_Lstat w p /\ unix_Statfs w' p = unix_Statfs w p;
  mkdir_success w p mode w' :
    os_MkdirAll p mode w = (None, w') -> stat_IsDir w' p = inr true;
  mkdir_keeps_lstat w p mode q d :
    unix_Lstat w q = inr d -> unix_Lstat (os_MkdirAll p mode w).2 q = inr d;
  mkdir_keeps_statfs w p mode q t :
    unix_Statfs w q = inr t -> unix_Statfs (os_MkdirAll p mode w).2 q = inr t;
  mkdir_statfs w p mode q t :
    unix_Statfs (os_MkdirAll p mode w).2 q = inr t -> nearest_fs w q t;
  bpf_magic : magic "bpf" = BPF_FS_MAGIC;
  cgroup2_magic : magic "cgroup2" = CGROUP2_SUPER_MAGIC
}.
End os.

(** ** An instance: a tree of paths *)

Record node := mkNode { n_isdir : bool; n_dev : Z; n_fstype : Z }.

Record simfs := mkSimfs {
  nodes : gmap string node;
  handles : gmap string (list Z)
}.

Definition sim_magic (fstype : string) : Z :=
  if String.eqb fstype "bpf" then 0xcafe4a11
  else if String.eqb fstype "cgroup2" then 0x63677270
  else 0.

Definition sim_node (w : simfs) (path : string) : Z + node :=
  match nodes w !! path with
  | Some n => inr n
  | None => inl 2
  end.

Definition on_node {A} (f : node -> A) (r : Z + node) : Z + A :=
  match r with inl e => inl e | inr n => inr (f n) end.

(** A device no file is on. *)
Definition fresh_dev (w : simfs) : Z :=
  1 + foldr (fun kn m => Z.max (n_dev kn.2) m) 0 (map_to_list (nodes w)).

(** The directories from the root down to a path: the path at each slash. *)
Fixpoint ancestors (fuel : nat) (path : string) : list string :=
  match fuel with
  | O => [path]
  | S f => if String.eqb (Dir path) path then [path] else ancestors f (Dir path) ++ [path]
  end.

(** Missing directories are created from the root down; each is on the file
    system of the directory above it. *)
Definition mkdir_one (acc : option error * simfs) (path : string) : option error * simfs :=
  let (e, w) := acc in
  match e with
  | Some _ => acc
  | None =>
      match nodes w !! path with
      | Some n => if n_isdir n then acc else (Some (PathError "mkdir" path (Errno 20)), w)
      | None =>
          match nodes w !! Dir path with
          | Some n =>
              (None, mkSimfs (<[path := mkNode true (n_dev n) (n_fstype n)]> (nodes w))
                             (handles w))
          | None => (Some (PathError "mkdir" path (Errno 2)), w)
          end
      end
  end.

Definition sim_mkdirall (path : string) (mode : Z) (w : simfs) : option error * simfs :=
  fold_left mkdir_one (ancestors (String.length path) path) (None, w).

Definition sim_mount (src tgt fstype : string) (flags : Z) (opts : string) (w : simfs)
    : option Z * simfs :=
  match nodes w !! Dir tgt ≫= (fun _ => nodes w !! tgt) with
  | Some n =>
      if n_isdir n then
        if (sim_magic fstype =? 0) then (Some 19, w)
        else (None, mkSimfs
               (<[tgt := mkNode true (fresh_dev w) (sim_magic fstype)]>
                  (filter (fun '(p, _) => below tgt p = false) (nodes w)))
               (handles w))
      else (Some 20, w)
  | None => (Some 2, w)
  end.

#[export] Instance simfs_OS : OS simfs := {
  ENOENT := 2;
  BPF_FS_MAGIC := 0xcafe4a11;
  CGROUP2_SUPER_MAGIC := 0x63677270;
  unix_Lstat w p := on_node n_dev (sim_node w p);
  unix_Statfs w p := on_node n_fstype (sim_node w p);
  stat_IsDir w p := on_node n_isdir (sim_node w p);
  os_MkdirAll := sim_mkdirall;
  unix_Mount := sim_mount;
  unix_NameToHandleAt w p := match handles w !! p with Some h => inr h | None => inl 2 end
}.

(** *** The instance satisfies the interface *)

Lemma fresh_dev_fresh w p n : nodes w !! p = Some n -> n_dev n <> fresh_dev w.
Proof.
  intros Hn. apply elem_of_map_to_list in Hn. unfold fresh_dev.
  enough (n_dev n <= foldr (fun kn m => Z.max (n_dev kn.2) m) 0 (map_to_list (nodes w))) by lia.
  induction (map_to_list (nodes w)) as [|kn l IH]; [by apply not_elem_of_nil in Hn|].
  apply elem_of_cons in Hn as [<-|Hn]; cbn [foldr snd]; [lia|].
  specialize (IH Hn). lia.
Qed.

Lemma below_self tgt : below tgt tgt = true.
Proof. unfold below. by rewrite String.eqb_refl. Qed.

Lemma sim_mount_elsewhere (w : simfs) tgt n p :
  below tgt p = false ->
  (<[tgt := n]> (filter (fun '(q, _) => below tgt q = false) (nodes w))) !! p = nodes w !! p.
Proof.
  intros Hp. assert (tgt <> p) by (intros ->; by rewrite below_self in Hp).
  rewrite lookup_insert_ne by done. apply option_eq. intros m.
  rewrite map_lookup_filter_Some. naive_solver.
Qed.

Lemma mkdir_one_keeps e w p q n :
  nodes w !! q = Some n -> nodes (mkdir_one (e, w) p).2 !! q = Some n.
Proof.
  intros Hq. unfold mkdir_one. destruct e; [done|].
  destruct (nodes w !! p) as [np|] eqn:Hp; [by destruct (n_isdir np)|].
  destruct (nodes w !! Dir p); [|done]. cbn.
  rewrite lookup_insert_ne; [done|]. intros ->. congruence.
Qed.

Lemma mkdirs_keep ps e w q n :
  nodes w !! q = Some n -> nodes (fold_left mkdir_one ps (e, w)).2 !! q = Some n.
Proof.
  revert e w. induction ps as [|p ps IH]; intros e w Hq; [done|].
  cbn [fold_left]. destruct (mkdir_one (e, w) p) as [e' w'] eqn:E. apply IH.
  pose proof (mkdir_one_keeps e w p q n Hq) as H. by rewrite E in H.
Qed.

(** What there is of the new tree is the old one, or was created in it. *)
Definition grown (w w' : simfs) : Prop :=
  (forall q n, nodes w !! q = Some n -> nodes w' !! q = Some n) /\
  forall q n', nodes w' !! q = Some n' -> exists k n,
    (forall j, (j < k)%nat -> nodes w !! up j q = None) /\
    nodes w !! up k q = Some n /\ n_fstype n = n_fstype n'.

Lemma up_up j k q : up j (up k q) = up (j + k) q.
Proof. unfold up. by rewrite Nat.iter_add. Qed.

Lemma grown_refl w : grown w w.
Proof. split; [done|]. intros q n H. exists 0%nat, n. split_and!; [lia|done..]. Qed.

Lemma grown_trans w1 w2 w3 : grown w1 w2 -> grown w2 w3 -> grown w1 w3.
Proof.
  intros [K1 G1] [K2 G2]. split; [by intros q n ?%K1%K2|].
  intros q n3 (k2 & n2 & N2 & H2 & E2)%G2. apply G1 in H2 as (k1 & n1 & N1 & H1 & E1).
  exists (k1 + k2)%nat, n1. rewrite up_up in H1. split_and!; [|done|congruence].
  intros j Hj. destruct (decide (j < k2)%nat) as [Hlt|Hge].
  - apply N2 in Hlt. destruct (nodes w1 !! up j q) as [n|] eqn:E; [|done]. apply K1 in E. congruence.
  - specialize (N1 (j - k2)%nat ltac:(lia)). rewrite up_up in N1.
    by replace (j - k2 + k2)%nat with j in N1 by lia.
Qed.

Lemma mkdir_one_grown e w p : grown w (mkdir_one (e, w) p).2.
Proof.
  split; [intros q n; apply mkdir_one_keeps|].
  unfold mkdir_one. destruct e; [apply grown_refl|].
  destruct (nodes w !! p) as [np|] eqn:Hp; [destruct (n_isdir np); apply grown_refl|].
  destruct (nodes w !! Dir p) as [nd|] eqn:Hd; [|apply grown_refl]. cbn [snd nodes].
  intros q n'. rewrite lookup_insert. case_decide as E; [|apply grown_refl].
  subst q. intros [= <-]. exists 1%nat, nd. split_and!; [|done|done].
  intros j Hj. by replace j with 0%nat by lia.
Qed.

Lemma mkdirs_grown ps e w : grown w (fold_left mkdir_one ps (e, w)).2.
Proof.
  revert e w. induction ps as [|p ps IH]; intros e w; [apply grown_refl|].
  cbn [fold_left]. eapply grown_trans; [apply (mkdir_one_grown e w p)|].
  destruct (mkdir_one (e, w) p) as [e' w']. apply IH.
Qed.

Lemma ancestors_last fuel p : exists ps, ancestors fuel p = (ps ++ [p])%list.
Proof.
  destruct fuel; cbn [ancestors]; [by exists []|].
  destruct (String.eqb (Dir p) p); [by exists []|by eexists].
Qed.

Lemma mkdir_one_isdir acc p w' :
  mkdir_one acc p = (None, w') -> exists n, nodes w' !! p = Some n /\ n_isdir n = true.
Proof.
  destruct acc as [e w]. unfold mkdir_one. destruct e; [done|].
  destruct (nodes w !! p) as [np|] eqn:Hp.
  - destruct (n_isdir np) eqn:Hd; [|done]. intros E; injection E as <-. eauto.
  - destruct (nodes w !! Dir p); [|done]. intros E; injection E as <-. cbn.
    rewrite lookup_insert_eq. eauto.
Qed.

#[export] Instance simfs_spec : OSSpec (W := simfs) sim_magic.
Proof.
  constructor.
  - intros w src tgt fstype w' t. cbn [unix_Mount simfs_OS]. unfold sim_mount.
    destruct (_ ≫= _) as [n|]; [|done]. destruct (n_isdir n); [|done].
    destruct (sim_magic fstype =? 0); [done|]. intros E Hb Hst Hne; injection E as <-.
    cbn [unix_Statfs unix_Lstat simfs_OS] in *. unfold mount_point, sim_node in *.
    cbn [unix_Lstat simfs_OS nodes] in *. unfold sim_node. cbn [nodes].
    rewrite (sim_mount_elsewhere w tgt _ (Dir tgt)), lookup_insert_eq by done.
    destruct (nodes w !! Dir tgt) as [nd|] eqn:Hd; [|done]. split; [|done].
    exists (fresh_dev w), (n_dev nd). split_and!; [done|done|].
    apply not_eq_sym. by eapply fresh_dev_fresh.
  - intros w src tgt fstype w'. cbn [unix_Mount unix_Statfs simfs_OS]. unfold sim_mount, sim_node.
    destruct (nodes w !! Dir tgt) as [nd|]; [|done]. intros _. by eexists.
  - intros w src tgt fstype flags opts w' e. cbn [unix_Mount simfs_OS]. unfold sim_mount.
    destruct (_ ≫= _) as [n|]; [|by intros [= _ <-]].
    destruct (n_isdir n); [|by intros [= _ <-]].
    destruct (sim_magic fstype =? 0); [by intros [= _ <-]|done].
  - intros w src tgt fstype flags opts w' p. cbn [unix_Mount simfs_OS]. unfold sim_mount.
    destruct (_ ≫= _) as [n|]; [|done]. destruct (n_isdir n); [|done].
    destruct (sim_magic fstype =? 0); [done|]. intros E Hb; injection E as <-.
    cbn [unix_Statfs unix_Lstat simfs_OS]. unfold sim_node. cbn [nodes].
    by rewrite sim_mount_elsewhere.
  - intros w p mode w'. cbn [os_MkdirAll stat_IsDir simfs_OS]. unfold sim_mkdirall.
    destruct (ancestors_last (String.length p) p) as (ps & ->). rewrite fold_left_app. cbn.
    intros (n & Hn & Hd)%mkdir_one_isdir. unfold sim_node. rewrite Hn. cbn. by rewrite Hd.
  - intros w p mode q d. cbn [os_MkdirAll unix_Lstat simfs_OS]. unfold sim_mkdirall, sim_node.
    destruct (nodes w !! q) as [n|] eqn:Hn; [|done].
    by rewrite (mkdirs_keep _ _ _ _ _ Hn).
  - intros w p mode q t. cbn [os_MkdirAll unix_Statfs simfs_OS]. unfold sim_mkdirall, sim_node.
    destruct (nodes w !! q) as [n|] eqn:Hn; [|done].
    by rewrite (mkdirs_keep _ _ _ _ _ Hn).
  - intros w p mode q t. cbn [os_MkdirAll unix_Statfs simfs_OS]. unfold sim_mkdirall, sim_node.
    destruct (nodes _ !! q) as [n'|] eqn:Hn; [|done]. intros [= <-].
    apply (proj2 (mkdirs_grown _ _ _)) in Hn as (k & n & Hnone & Hk & Ht).
    exists k. cbn [unix_Statfs simfs_OS]. unfold sim_node. split; [|by rewrite Hk, <- Ht].
    intros j Hj. rewrite (Hnone j Hj). by eexists.
  - done.
  - done.
Qed.

End OS.
