(* ===== verification/Mounts.v ===== *)
(** * Mounting: src/pkg/mountinfo/mountinfo_linux.go,
    src/pkg/bpf/bpffs_linux.go and src/pkg/cgroups

    Before it loads the program, the agent makes sure that the BPF file system
    and a cgroup2 hierarchy are mounted.  The functions are over the interface
    of the operating system of OS.v; those of pkg/cgroups also read and write
    the two variables of their package. *)

From Stdlib Require Import ZArith Lia String Ascii.
From stdpp Require Import base gmap strings list.
From S2P Require Import Prelude GoStrings GoPath OS.
Import GoStrings GoPath OS.

Local Open Scope string_scope.
Local Open Scope Z_scope.
Local Open Scope go_scope.

Module Mounts.

(** ** The paths of src/pkg/defaults/defaults.go *)

Definition BPFFSRoot : string := "/sys/fs/bpf".
Definition BPFFSRootFallback : string := "/run/eproxy/bpffs".
Definition DefaultCgroupRoot : string := "/run/eproxy/cgroupv2".

Section mounts.
Context {W : Type} `{!OS W}.

(** A call of the operating system. *)
Definition call {A} (f : W -> A * W) : GoM W A := fun w => let (a, w') := f w in (Returns a, w').

(** ** mountinfo_linux.go *)

Definition FilesystemTypeBPFFS : Z := BPF_FS_MAGIC.
Definition FilesystemTypeCgroup2 : Z := CGROUP2_SUPER_MAGIC.

(** Is the path a mount point, and if so, of the given type? *)
Definition IsMountFS (w : W) (mntType : Z) (path : string) : bool * bool * option error :=
  match unix_Lstat w path with
  | inl err =>
      if errors_Is (Errno err) (Errno ENOENT) then (false, false, None)
      else (false, false, Some (PathError "lstat" path (Errno err)))
  | inr st_Dev =>
      let parent := Dir path in
      match unix_Lstat w parent with
      | inl err => (false, false, Some (PathError "lstat" parent (Errno err)))
      | inr pst_Dev =>
          if st_Dev =? pst_Dev then (false, false, None)
          else
            match unix_Statfs w path with
            | inl err => (true, false, Some (PathError "statfs" path (Errno err)))
            | inr fst_Type => (true, fst_Type =? mntType, None)
            end
      end
  end.

(** ** bpffs_linux.go *)

Definition EProxyPath : string := JoinPath [BPFFSRoot; "eproxy"].

(** The mode of the directories, octal 0755. *)
Definition mode_755 : Z := 7 * 64 + 5 * 8 + 5.

Definition MkdirBPF (path : string) : GoM W (option error) := call (os_MkdirAll path mode_755).

Definition not_a_directory (path : string) : error :=
  ErrMsg (path ++ " is a file which is not a directory").

Definition mount_root : GoM W (option error) :=
  let! e := call (unix_Mount BPFFSRoot BPFFSRoot "bpf" 0 "") in
  match e with
  | Some n => ret (Some (FmtError true ("failed to mount " ++ BPFFSRoot ++ ": ") (Errno n)))
  | None => MkdirBPF (JoinPath [BPFFSRoot; "eproxy"]) ;;; ret None
  end.

Definition mountFS (printWarning : bool) : GoM W (option error) :=
  let! w := get in
  match os_Stat w BPFFSRoot with
  | inl err =>
      if os_IsNotExist err then
        let! e := MkdirBPF BPFFSRoot in
        match e with
        | Some err => ret (Some (FmtError true "unable to create bpf mount directory: " err))
        | None => mount_root
        end
      else ret (Some (FmtError true ("failed to stat the mount path " ++ BPFFSRoot ++ ": ") err))
  | inr IsDir => if negb IsDir then ret (Some (not_a_directory BPFFSRoot)) else mount_root
  end.

Definition checkOrMountDefaultLocations : GoM W (option error) :=
  let! w := get in
  match IsMountFS w FilesystemTypeBPFFS BPFFSRoot with
  | (_, _, Some err) => ret (Some err)
  | (mounted, bpffsInstance, None) =>
      if negb mounted then mountFS false
      else if negb bpffsInstance then
        let! w := get in
        match IsMountFS w FilesystemTypeBPFFS BPFFSRoot with
        | (_, _, Some err) => ret (Some err)
        | (cMounted, cBpffsInstance, None) =>
            if negb cMounted then
              let! e := mountFS false in
              match e with
              | Some err => ret (Some err)
              | None => ret None
              end
            else if negb cBpffsInstance then
              panics (LogFatal (BPFFSRootFallback
                                ++ " is mounted but has a different filesystem than BPFFS"))
            else ret None
        end
      else ret None
  end.

(** An error is only logged. *)
Definition CheckOrMountBtfFS : GoM W unit :=
  let! err := checkOrMountDefaultLocations in ret tt.

(** ** cgroups.go and cgroups_linux.go

    The package's variables, besides the state of the system. *)

Record Host := mkHost {
  world : W;
  cgroupRoot : string;
  cgrpMountOnce : bool  (* whether the sync.Once has run *)
}.

Definition initial_host (w : W) : Host := mkHost w DefaultCgroupRoot false.

Definition on_world {A} (m : GoM W A) : GoM Host A :=
  fun h => let (o, w) := m (world h) in (o, mkHost w (cgroupRoot h) (cgrpMountOnce h)).

Definition setCgroupRoot (path : string) : GoM Host unit :=
  modify (fun h => mkHost (world h) path (cgrpMountOnce h)).

Definition GetCgroupRoot (h : Host) : string := cgroupRoot h.

Definition mount_cgroup2 (root : string) : GoM Host (option error) :=
  let! e := on_world (call (unix_Mount "none" root "cgroup2" 0 "")) in
  match e with
  | Some n => ret (Some (FmtError false ("failed to mount " ++ root ++ ": ") (Errno n)))
  | None => ret None
  end.

Definition mountCgroup : GoM Host (option error) :=
  let! h := get in
  let root := cgroupRoot h in
  match os_Stat (world h) root with
  | inl err =>
      if os_IsNotExist err then
        let! e := on_world (call (os_MkdirAll root mode_755)) in
        match e with
        | Some err => ret (Some (FmtError false "Unable to create cgroup mount directory: " err))
        | None => mount_cgroup2 root
        end
      else ret (Some (FmtError false ("Failed to stat the mount path " ++ root ++ ": ") err))
  | inr IsDir => if negb IsDir then ret (Some (not_a_directory root)) else mount_cgroup2 root
  end.

Definition cgrpCheckOrMountLocation (root : string) : GoM Host (option error) :=
  setCgroupRoot root ;;;
  let! h := get in
  match IsMountFS (world h) FilesystemTypeCgroup2 root with
  | (_, _, Some err) => ret (Some err)
  | (mounted, cgroupInstance, None) =>
      if negb mounted then mountCgroup
      else if negb cgroupInstance then
        ret (Some (ErrMsg ("Mount in the custom directory " ++ root
                           ++ " has a different filesystem than cgroup2")))
      else ret None
  end.

(** [sync.Once]: the function runs on the first call only, which counts as done
    even when it panics. *)
Definition once_Do (f : GoM Host unit) : GoM Host unit :=
  fun h =>
    if cgrpMountOnce h then (Returns tt, h)
    else let (o, h') := f h in (o, mkHost (world h') (cgroupRoot h') true).

Definition CheckOrMountCgrpFS (mapRoot : string) : GoM Host unit :=
  once_Do (
    let! h := get in
    let mapRoot := if String.eqb mapRoot "" then cgroupRoot h else mapRoot in
    let! err := cgrpCheckOrMountLocation mapRoot in ret tt).

(** The id of a cgroup is the first eight bytes of its file handle; slicing a
    shorter handle panics. *)
Definition GetCgroupID (bo : byte_order) (cgroupPath : string) : GoM W (Z * option error) :=
  let! w := get in
  match unix_NameToHandleAt w cgroupPath with
  | inl err => ret (0, Some (FmtError true "NameToHandleAt failed: " (Errno err)))
  | inr handle =>
      if (length handle <? 8)%nat then panics IndexOutOfRange
      else ret (of_mem bo (take 8 handle), None)
  end.

End mounts.
Arguments Host : clear implicits.
Arguments mkHost {W} _ _ _.

(** ** Lemmas *)

Section mount_lemmas.
Context {W : Type} `{!OS W} {magic : string -> Z} `{!OSSpec magic}.

Lemma errors_Is_Errno n m : errors_Is (Errno n) (Errno m) = bool_decide (n = m).
Proof. cbn. rewrite orb_false_r. apply bool_decide_ext. split; congruence. Qed.

Lemma IsMountFS_mounted (w : W) t p :
  IsMountFS w t p = (true, true, None) <-> mount_point w p /\ unix_Statfs w p = inr t.
Proof.
  unfold IsMountFS, mount_point. split.
  - destruct (unix_Lstat w p) as [e|d] eqn:Hd; [by destruct (errors_Is _ _)|].
    destruct (unix_Lstat w (Dir p)) as [e|d'] eqn:Hd'; [done|].
    destruct (Z.eqb_spec d d'); [done|]. destruct (unix_Statfs w p) as [e|t'] eqn:Ht; [done|].
    destruct (Z.eqb_spec t' t) as [->|]; [|done]. naive_solver.
  - intros [(d & d' & -> & -> & Hne) ->]. destruct (Z.eqb_spec d d'); [done|].
    by rewrite Z.eqb_refl.
Qed.

(** The target of a successful mount is a mount of the type, and stays one when
    directories are created. *)
Lemma mount_mounts (w : W) src root fstype w' t :
  unix_Mount src root fstype 0 "" w = (None, w') -> below root (Dir root) = false ->
  unix_Statfs w (Dir root) = inr t -> t <> magic fstype ->
  IsMountFS w' (magic fstype) root = (true, true, None).
Proof. intros. apply IsMountFS_mounted. by eapply mount_success. Qed.

Lemma mkdir_keeps_mounted (w : W) p mode t root :
  IsMountFS w t root = (true, true, None) ->
  IsMountFS (os_MkdirAll p mode w).2 t root = (true, true, None).
Proof.
  rewrite !IsMountFS_mounted. intros [(d & d' & Hd & Hd' & Hne) Ht]. split.
  - exists d, d'. split_and!; [..|done]; by apply (mkdir_keeps_lstat (magic := magic)).
  - by apply (mkdir_keeps_statfs (magic := magic)).
Qed.

Definition bpffs_ready (w : W) : Prop := IsMountFS w FilesystemTypeBPFFS BPFFSRoot = (true, true, None).

(** The nearest directory above the root that exists, if any, is on a file
    system of another type. *)
Definition parent_differs (w : W) (root fstype : string) : Prop :=
  ~ nearest_fs w (Dir root) (magic fstype).

Lemma mkdir_keeps_parent (w : W) p mode root fstype :
  parent_differs w root fstype -> parent_differs (os_MkdirAll p mode w).2 root fstype.
Proof.
  intros Hp (k & Hnone & Hk). apply Hp.
  apply (mkdir_statfs (magic := magic)) in Hk as (k' & Hnone' & Hk').
  exists (k' + k)%nat. unfold up in *. rewrite Nat.iter_add. split; [|done].
  intros j Hj. destruct (decide (j < k)%nat) as [Hlt|Hge].
  - destruct (Hnone j Hlt) as [e He].
    destruct (unix_Statfs w (Nat.iter j Dir (Dir root))) as [e'|t] eqn:E; [by eexists|].
    apply (mkdir_keeps_statfs (magic := magic) w p mode) in E. congruence.
  - destruct (Hnone' (j - k)%nat) as [e He]; [lia|]. rewrite <- Nat.iter_add in He.
    replace (j - k + k)%nat with j in He by lia. by exists e.
Qed.

(** What a mount at the root finds in the directory above it. *)
Lemma parent_differs_mount (w : W) src root fstype w' :
  parent_differs w root fstype -> unix_Mount src root fstype 0 "" w = (None, w') ->
  exists t, unix_Statfs w (Dir root) = inr t /\ t <> magic fstype.
Proof.
  intros Hp Hm. destruct (mount_parent (magic := magic) _ _ _ _ _ Hm) as [t Ht].
  exists t. split; [done|]. intros ->. apply Hp. exists 0%nat. split; [lia|done].
Qed.

Lemma mount_root_outcome (w : W) :
  parent_differs w BPFFSRoot "bpf" ->
  match mount_root w with
  | (Returns None, w') => bpffs_ready w'
  | (Returns (Some e), w') => w' = w
  | (Panics _, _) => False
  end.
Proof.
  intros Hp. unfold mount_root, bind, call.
  destruct (unix_Mount BPFFSRoot BPFFSRoot "bpf" 0 "" w) as [[n|] w'] eqn:Hm; cbn.
  - by eapply (mount_failure (magic := magic)).
  - destruct (parent_differs_mount _ _ _ _ _ Hp Hm) as (t & Ht & Hne). unfold MkdirBPF, call. destruct (os_MkdirAll _ _ w') as [e w''] eqn:Hk. cbn.
    unfold bpffs_ready, FilesystemTypeBPFFS. rewrite <- (bpf_magic (magic := magic)).
    apply (f_equal snd) in Hk. cbn [snd] in Hk. subst w''. apply mkdir_keeps_mounted. by eapply mount_mounts.
Qed.

Lemma mountFS_outcome (w : W) b :
  parent_differs w BPFFSRoot "bpf" ->
  match mountFS b w with
  | (Returns None, w') => bpffs_ready w'
  | (Returns (Some e), w') => True
  | (Panics _, _) => False
  end.
Proof.
  intros Hp. unfold mountFS. unfold bind at 1, get.
  assert (forall w0, parent_differs w0 BPFFSRoot "bpf" -> match mount_root w0 with
    | (Returns None, w') => bpffs_ready w' | (Returns (Some e), w') => True
    | (Panics _, _) => False end) as Hroot.
  { intros w0 H0. pose proof (mount_root_outcome w0 H0) as H.
    by destruct (mount_root w0) as [[[]|] ?]. }
  destruct (os_Stat w BPFFSRoot) as [err|[]]; cbn [negb]; [|by apply Hroot|done].
  destruct (os_IsNotExist err); [|done].
  unfold bind, MkdirBPF, call.
  destruct (os_MkdirAll BPFFSRoot mode_755 w) as [[e|] w'] eqn:Hk; cbn; [done|].
  apply Hroot. apply (f_equal snd) in Hk. cbn [snd] in Hk. subst w'.
  by apply mkdir_keeps_parent.
Qed.

Lemma mountFS_returns (w : W) b : exists e w', mountFS b w = (Returns e, w').
Proof.
  assert (forall w0, exists e w', mount_root w0 = (Returns e, w')) as Hroot.
  { intros w0. unfold mount_root, bind, call, MkdirBPF, call, ret.
    destruct (unix_Mount _ _ _ _ _ _) as [[n|] w1]; [eauto|].
    destruct (os_MkdirAll _ _ _). eauto. }
  unfold mountFS. unfold bind at 1, get.
  destruct (os_Stat w BPFFSRoot) as [err|[]]; cbn [negb]; unfold ret; [|by apply Hroot|eauto].
  destruct (os_IsNotExist err); [|eauto]. unfold bind, MkdirBPF, call.
  destruct (os_MkdirAll _ _ _) as [[e|] w1]; eauto.
Qed.

(** The four cases of [checkOrMountDefaultLocations]. *)
Lemma check_error (w : W) m i e :
  IsMountFS w FilesystemTypeBPFFS BPFFSRoot = (m, i, Some e) ->
  checkOrMountDefaultLocations w = (Returns (Some e), w).
Proof. intros E. unfold checkOrMountDefaultLocations, bind, get. by rewrite E. Qed.

Lemma check_ready (w : W) :
  bpffs_ready w -> checkOrMountDefaultLocations w = (Returns None, w).
Proof. intros E. unfold checkOrMountDefaultLocations, bind, get. by rewrite E. Qed.

Lemma check_other (w : W) :
  IsMountFS w FilesystemTypeBPFFS BPFFSRoot = (true, false, None) ->
  checkOrMountDefaultLocations w = (Panics (LogFatal (BPFFSRootFallback
    ++ " is mounted but has a different filesystem than BPFFS")), w).
Proof. intros E. unfold checkOrMountDefaultLocations, bind, get. rewrite E. cbn. by rewrite E. Qed.

Lemma check_absent (w : W) i :
  IsMountFS w FilesystemTypeBPFFS BPFFSRoot = (false, i, None) ->
  checkOrMountDefaultLocations w = mountFS false w.
Proof. intros E. unfold checkOrMountDefaultLocations, bind, get. by rewrite E. Qed.

Definition cgroup_ready (w : W) (root : string) : Prop :=
  IsMountFS w FilesystemTypeCgroup2 root = (true, true, None).

Lemma mount_cgroup2_outcome (h : Host W) root :
  parent_differs (world h) root "cgroup2" -> below root (Dir root) = false ->
  match mount_cgroup2 root h with
  | (Returns None, h') => cgroupRoot h' = cgroupRoot h /\ cgroup_ready (world h') root
  | (Returns (Some e), h') => cgroupRoot h' = cgroupRoot h
  | (Panics _, _) => False
  end.
Proof.
  intros Hp Hb. unfold mount_cgroup2, bind, on_world, call.
  destruct (unix_Mount "none" root "cgroup2" 0 "" (world h)) as [[n|] w'] eqn:Hm; cbn; [done|].
  destruct (parent_differs_mount _ _ _ _ _ Hp Hm) as (t & Ht & Hne).
  split; [done|]. unfold cgroup_ready, FilesystemTypeCgroup2.
  rewrite <- (cgroup2_magic (magic := magic)). by eapply mount_mounts.
Qed.

Lemma mountCgroup_outcome (h : Host W) :
  parent_differs (world h) (cgroupRoot h) "cgroup2" ->
  below (cgroupRoot h) (Dir (cgroupRoot h)) = false ->
  match mountCgroup h with
  | (Returns None, h') => cgroupRoot h' = cgroupRoot h /\ cgroup_ready (world h') (cgroupRoot h)
  | (Returns (Some e), h') => cgroupRoot h' = cgroupRoot h
  | (Panics _, _) => False
  end.
Proof.
  intros Hp Hb. unfold mountCgroup. unfold bind at 1, get.
  destruct (os_Stat (world h) (cgroupRoot h)) as [err|[]]; cbn [negb];
    [|by apply mount_cgroup2_outcome|done].
  destruct (os_IsNotExist err); [|done]. unfold bind, on_world, call.
  destruct (os_MkdirAll (cgroupRoot h) mode_755 (world h)) as [[e|] w'] eqn:Hk; cbn; [done|].
  apply (f_equal snd) in Hk. cbn [snd] in Hk. subst w'.
  by apply (mount_cgroup2_outcome (mkHost _ (cgroupRoot h) (cgrpMountOnce h)) (cgroupRoot h));
    [apply mkdir_keeps_parent|].
Qed.

(** The package variable is set before anything else, and never again. *)
Lemma cgrpCheckOrMountLocation_root root (h : Host W) :
  match cgrpCheckOrMountLocation root h with
  | (Returns _, h') => cgroupRoot h' = root
  | (Panics _, _) => False
  end.
Proof.
  unfold cgrpCheckOrMountLocation, setCgroupRoot, modify. unfold bind at 1 2, get.
  cbn [world]. destruct (IsMountFS _ _ _) as [[m i] [e|]]; [done|].
  destruct m; cbn [negb]; [by destruct i|].
  unfold mountCgroup, mount_cgroup2, bind, get, on_world, call. cbn [world cgroupRoot].
  destruct (os_Stat _ _) as [e|[]]; cbn [negb]; [|..|done].
  - destruct (os_IsNotExist e); [|done]. destruct (os_MkdirAll _ _ _) as [[e'|] w']; [done|].
    cbn [world cgroupRoot]. by destruct (unix_Mount _ _ _ _ _ _) as [[n|] w''].
  - by destruct (unix_Mount _ _ _ _ _ _) as [[n|] w''].
Qed.

Lemma cgrpCheckOrMountLocation_ready root (h : Host W) :
  parent_differs (world h) root "cgroup2" -> below root (Dir root) = false ->
  match cgrpCheckOrMountLocation root h with
  | (Returns None, h') => cgroup_ready (world h') root
  | _ => True
  end.
Proof.
  intros Hp Hb. unfold cgrpCheckOrMountLocation, setCgroupRoot, modify. unfold bind at 1 2, get.
  cbn [world]. destruct (IsMountFS _ _ _) as [[m i] [e|]] eqn:E; [done|].
  destruct m; cbn [negb].
  - destruct i; cbn [negb]; [exact E|done].
  - pose proof (mountCgroup_outcome (mkHost (world h) root (cgrpMountOnce h)) Hp Hb) as H.
    by destruct (mountCgroup _) as [[[e|]|] h']; [|apply H|].
Qed.

End mount_lemmas.

(** ** Properties *)

(** [IsMountFS] tells a mount point of the type, a mount point of another type
    and no mount point apart, and every error names the call that failed. *)
Theorem IsMountFS_spec {W} `{!OS W} (w : W) (t : Z) (p : string) :
  match IsMountFS w t p with
  | (true, true, None) => mount_point w p /\ unix_Statfs w p = inr t
  | (true, false, None) => mount_point w p /\ exists t', unix_Statfs w p = inr t' /\ t' <> t
  | (false, false, None) =>
      unix_Lstat w p = inl ENOENT \/
      exists d, unix_Lstat w p = inr d /\ unix_Lstat w (Dir p) = inr d
  | (false, false, Some e) => exists q n, e = PathError "lstat" q (Errno n) /\
      unix_Lstat w q = inl n /\ (q = p /\ n <> ENOENT \/ q = Dir p)
  | (true, false, Some e) => exists n, e = PathError "statfs" p (Errno n) /\
      mount_point w p /\ unix_Statfs w p = inl n
  | (_, true, _) => False
  end.
Proof.
  unfold IsMountFS, mount_point.
  destruct (unix_Lstat w p) as [e|d] eqn:Hd.
  { rewrite errors_Is_Errno. case_bool_decide as He; [left; congruence|].
    exists p, e. naive_solver. }
  destruct (unix_Lstat w (Dir p)) as [e|d'] eqn:Hd'; [exists (Dir p), e; naive_solver|].
  destruct (Z.eqb_spec d d') as [->|Hne]; [right; by exists d'|].
  destruct (unix_Statfs w p) as [e|t'] eqn:Ht; [exists e; naive_solver|].
  destruct (Z.eqb_spec t' t) as [->|]; naive_solver.
Qed.

(** C19. What [checkOrMountDefaultLocations] does on each state of the root: with a
    BPF file system mounted it changes nothing, so it does not create the
    directory for the pins either; with another file system mounted it exits,
    and never mounts at the fallback; with none it mounts one or reports an
    error, and after a success a second call finds the mount, when the nearest
    directory above the root is not on a BPF file system itself. *)
Theorem checkOrMountDefaultLocations_outcome {W} `{!OS W} {magic : string -> Z}
    `{!OSSpec magic} (w : W) :
  parent_differs (magic := magic) w BPFFSRoot "bpf" ->
  match IsMountFS w FilesystemTypeBPFFS BPFFSRoot with
  | (_, _, Some e) => checkOrMountDefaultLocations w = (Returns (Some e), w)
  | (true, true, None) =>
      checkOrMountDefaultLocations w = (Returns None, w) /\ CheckOrMountBtfFS w = (Returns tt, w)
  | (true, false, None) => exists msg, checkOrMountDefaultLocations w = (Panics (LogFatal msg), w)
  | (false, _, None) =>
      match checkOrMountDefaultLocations w with
      | (Returns None, w') =>
          bpffs_ready w' /\ checkOrMountDefaultLocations w' = (Returns None, w')
      | (Returns (Some _), _) => True
      | (Panics _, _) => False
      end
  end.
Proof.
  intros Hp. pose proof (mountFS_outcome w false Hp) as Hm.
  destruct (IsMountFS w _ _) as [[[] []] [e|]] eqn:E; try by eapply check_error.
  - split; [by apply check_ready|]. unfold CheckOrMountBtfFS.
    by rewrite (bind_returns _ _ _ _ _ (check_ready w E)).
  - eexists. by apply check_other.
  - rewrite (check_absent w true E). destruct (mountFS false w) as [[[e|]|] w']; try done.
    split; [done|by apply check_ready].
  - rewrite (check_absent w false E). destruct (mountFS false w) as [[[e|]|] w']; try done.
    split; [done|by apply check_ready].
Qed.

(** A host whose /sys/fs/bpf is a plain directory of sysfs. *)
Definition ex_tree : simfs :=
  mkSimfs {[ "/" := mkNode true 1 0xef53; "/sys" := mkNode true 20 0x62656572;
             "/sys/fs" := mkNode true 20 0x62656572; "/sys/fs/bpf" := mkNode true 20 0x62656572;
             "/run" := mkNode true 25 0x01021994 ]} ∅.

Lemma checkOrMountDefaultLocations_outcome_witness :
  let w' := (checkOrMountDefaultLocations ex_tree).2 in
  bpffs_ready w' /\ checkOrMountDefaultLocations w' = (Returns None, w').
Proof.
  assert (parent_differs (magic := sim_magic) ex_tree BPFFSRoot "bpf") as Hp.
  { intros ([|k] & Hnone & Hk); [by vm_compute in Hk|].
    destruct (Hnone 0%nat) as [e He]; [lia|]. by vm_compute in He. }
  pose proof (checkOrMountDefaultLocations_outcome ex_tree Hp) as H.
  assert (IsMountFS ex_tree FilesystemTypeBPFFS BPFFSRoot = (false, false, None)) as E by by_vm.
  assert ((checkOrMountDefaultLocations ex_tree).1 = Returns None) as Er by by_vm.
  rewrite E in H. destruct (checkOrMountDefaultLocations ex_tree) as [o w'].
  cbn [fst snd] in *. rewrite Er in H. exact H.
Defined.

(** The cgroup file system is looked for, and mounted, by the first call only,
    at the path given or at the default one; a later call changes nothing,
    whatever its path and whether or not the first one succeeded. *)
Theorem CheckOrMountCgrpFS_once {W} `{!OS W} (h : Host W) (p q : string) :
  let h1 := (CheckOrMountCgrpFS p h).2 in
  CheckOrMountCgrpFS p h = (Returns tt, h1) /\
  CheckOrMountCgrpFS q h1 = (Returns tt, h1) /\
  (if cgrpMountOnce h then h1 = h
   else GetCgroupRoot h1 = if String.eqb p "" then cgroupRoot h else p).
Proof.
  unfold CheckOrMountCgrpFS, once_Do. destruct (cgrpMountOnce h) eqn:Hd.
  { cbn [snd]. by rewrite Hd. }
  unfold bind, get. set (root := if String.eqb p "" then _ else _).
  pose proof (cgrpCheckOrMountLocation_root root h) as H.
  destruct (cgrpCheckOrMountLocation root h) as [[e|] h']; [|done]. cbn in *. by subst.
Qed.

(** C21. On a host where nothing above the path is on a cgroup2 file system (the
    nearest directory that exists decides; the path itself need not exist) and
    the path is not its own parent: when the location was reported mounted, a
    cgroup2 file system is mounted at the path that [GetCgroupRoot] gives from
    then on; the call never panics, and [CheckOrMountCgrpFS] returns in the same
    way when it failed. *)
Theorem cgroup_root_mounted {W} `{!OS W} {magic : string -> Z} `{!OSSpec magic} (h : Host W)
    (p : string) :
  let root := if String.eqb p "" then cgroupRoot h else p in
  parent_differs (magic := magic) (world h) root "cgroup2" -> below root (Dir root) = false ->
  cgrpMountOnce h = false ->
  match cgrpCheckOrMountLocation root h with
  | (Returns e, h') =>
      CheckOrMountCgrpFS p h = (Returns tt, mkHost (world h') root true) /\
      (e = None -> cgroup_ready (world h') root)
  | (Panics _, _) => False
  end.
Proof.
  intros root Hp Hb Hd. unfold CheckOrMountCgrpFS, once_Do, bind at 1, get. rewrite Hd.
  fold root. pose proof (cgrpCheckOrMountLocation_root root h) as Hroot.
  pose proof (cgrpCheckOrMountLocation_ready (magic := magic) root h Hp Hb) as Hready.
  unfold bind. destruct (cgrpCheckOrMountLocation root h) as [[e|] h'] eqn:E; [|done].
  unfold ret. rewrite Hroot. split; [done|]. intros ->. exact Hready.
Qed.

(** A host where the agent never ran: /run is a tmpfs without /run/eproxy. *)
Definition ex_run : simfs :=
  mkSimfs {[ "/" := mkNode true 1 0xef53; "/run" := mkNode true 25 0x01021994 ]} ∅.

Lemma ex_run_differs : parent_differs (magic := sim_magic) ex_run DefaultCgroupRoot "cgroup2".
Proof.
  intros (k & Hnone & Hk). destruct k as [|[|k]]; [by vm_compute in Hk..|].
  destruct (Hnone 1%nat) as [e He]; [lia|]. by vm_compute in He.
Qed.

Lemma cgroup_root_mounted_witness :
  let h := initial_host ex_run in
  let h' := (cgrpCheckOrMountLocation DefaultCgroupRoot h).2 in
  CheckOrMountCgrpFS "" h = (Returns tt, mkHost (world h') DefaultCgroupRoot true) /\
  cgroup_ready (world h') DefaultCgroupRoot.
Proof.
  pose proof (cgroup_root_mounted (magic := sim_magic) (initial_host ex_run) "" ex_run_differs
    ltac:(by_vm) ltac:(by_vm)) as H.
  change (cgroupRoot (initial_host ex_run)) with DefaultCgroupRoot in H.
  assert ((cgrpCheckOrMountLocation DefaultCgroupRoot (initial_host ex_run)).1 = Returns None)
    as Er by by_vm.
  cbv zeta. change (if String.eqb "" "" then DefaultCgroupRoot else "") with DefaultCgroupRoot in H.
  destruct (cgrpCheckOrMountLocation DefaultCgroupRoot (initial_host ex_run)) as [o h'].
  cbn [fst snd] in *. rewrite Er in H. destruct H as [H1 H2]. exact (conj H1 (H2 eq_refl)).
Defined.

End Mounts.
