(* ===== verification/CTypes.v ===== *)
(** * Layout of C types

    The types vmlinux.h declares, structs, unions, arrays, pointers and bit
    fields, and where a compiler for x86-64 or BPF places their parts: every
    scalar is aligned to its size, a bit field does not cross the boundary of its
    unit, the members of a union start together, those of a packed struct follow
    one another.  Positions and sizes are in bits. *)

From Stdlib Require Import ZArith Lia String.
From stdpp Require Import base list strings pretty.
From S2P Require Import Prelude.

Local Open Scope Z_scope.

Module CTypes.

(** A scalar has a size in bytes; a pointer says how many stars it has and what
    is behind the last one, a struct or union by name or, with the empty name,
    anything else; [Bits s w] is a bit
    field of [w] bits in a unit of [s] bytes, [Pad s w] one without a name, which
    holds nothing and does not align its struct, and which starts a new unit when
    it has no bits.  An aggregate is packed or not.  An anonymous member has the
    empty name. *)
Inductive cty :=
  | Scalar (s : Z)
  | Pointer (stars : nat) (to : string)
  | Bits (s w : Z)
  | Pad (s w : Z)
  | Array (n : nat) (t : cty)
  | Aggregate (packed : bool) (ms : list (string * cty))
  | Union (ms : list (string * cty)).

Notation Struct := (Aggregate false).
Notation Packed := (Aggregate true).
Notation PtrTo := (Pointer 1).

(** Induction over the members as well. *)
Section induction.
Variable P : cty -> Prop.
Hypothesis Hscalar : forall s, P (Scalar s).
Hypothesis Hptr : forall n to, P (Pointer n to).
Hypothesis Hbits : forall s w, P (Bits s w).
Hypothesis Hpad : forall s w, P (Pad s w).
Hypothesis Harray : forall n t, P t -> P (Array n t).
Hypothesis Hstruct : forall p ms, Forall (fun m => P m.2) ms -> P (Aggregate p ms).
Hypothesis Hunion : forall ms, Forall (fun m => P m.2) ms -> P (Union ms).

Fixpoint cty_ind_members (t : cty) : P t :=
  let fix all (ms : list (string * cty)) : Forall (fun m => P m.2) ms :=
    match ms with
    | [] => Forall_nil_2 _
    | m :: ms' => Forall_cons_2 _ m ms' (cty_ind_members m.2) (all ms')
    end in
  match t with
  | Scalar s => Hscalar s
  | Pointer n to => Hptr n to
  | Bits s w => Hbits s w
  | Pad s w => Hpad s w
  | Array n t' => Harray n t' (cty_ind_members t')
  | Aggregate p ms => Hstruct p ms (all ms)
  | Union ms => Hunion ms (all ms)
  end.
End induction.

(** ** Size and alignment *)

Definition round_up (x a : Z) : Z := (x + a - 1) / a * a.

Fixpoint calign (t : cty) : Z :=
  match t with
  | Scalar s | Bits s _ => 8 * s
  | Pointer _ _ => 64
  | Pad _ _ => 8
  | Array _ t' => calign t'
  | Aggregate packed ms => if packed then 8 else foldr (fun m a => Z.max (calign m.2) a) 8 ms
  | Union ms => foldr (fun m a => Z.max (calign m.2) a) 8 ms
  end.

(** The position of a member of a struct, or of a packed one, after [pos] bits. *)
Definition place_in (packed : bool) (pos : Z) (t : cty) : Z :=
  match t with
  | Bits s w => if packed || (pos mod (8 * s) + w <=? 8 * s) then pos else round_up pos (8 * s)
  | Pad s w =>
      if w =? 0 then round_up pos (8 * s)
      else if packed || (pos mod (8 * s) + w <=? 8 * s) then pos else round_up pos (8 * s)
  | _ => round_up pos (if packed then 8 else calign t)
  end.

Fixpoint csize (t : cty) : Z :=
  match t with
  | Scalar s => 8 * s
  | Pointer _ _ => 64
  | Bits _ w | Pad _ w => w
  | Array n t' => Z.of_nat n * csize t'
  | Aggregate packed ms =>
      round_up (fold_left (fun pos m => place_in packed pos m.2 + csize m.2) ms 0) (calign t)
  | Union ms => round_up (foldr (fun m a => Z.max (csize m.2) a) 0 ms) (calign t)
  end.

Definition sizeof (t : cty) : Z := csize t / 8.

(** ** The scalars of a type and where they are *)

Record leaf := mkLeaf {
  l_path : string;
  l_off : Z;
  l_bits : Z;
  l_unit : Z  (* bytes of the scalar or of the unit of the bit field *)
}.

Definition sub_path (path name : string) : string :=
  if String.eqb name "" then path
  else if String.eqb path "" then name
  else (path ++ "." ++ name)%string.

Definition index_path (path : string) (i : nat) : string := (path ++ "[" ++ pretty i ++ "]")%string.

Fixpoint leaves (path : string) (off : Z) (t : cty) : list leaf :=
  match t with
  | Scalar s => [mkLeaf path off (8 * s) s]
  | Pointer _ _ => [mkLeaf path off 64 8]
  | Bits s w => [mkLeaf path off w s]
  | Pad _ _ => []
  | Array n t' =>
      concat (map (fun i => leaves (index_path path i) (off + Z.of_nat i * csize t') t') (seq 0 n))
  | Aggregate packed ms =>
      (fix go (pos : Z) (ms : list (string * cty)) : list leaf :=
         match ms with
         | [] => []
         | m :: ms' =>
             leaves (sub_path path m.1) (off + place_in packed pos m.2) m.2
               ++ go (place_in packed pos m.2 + csize m.2) ms'
         end) 0 ms
  | Union ms => concat (map (fun m => leaves (sub_path path m.1) off m.2) ms)
  end.

(** The members of a struct from position [pos] on. *)
Fixpoint struct_leaves (packed : bool) (path : string) (off pos : Z) (ms : list (string * cty)) : list leaf :=
  match ms with
  | [] => []
  | m :: ms' =>
      leaves (sub_path path m.1) (off + place_in packed pos m.2) m.2
        ++ struct_leaves packed path off (place_in packed pos m.2 + csize m.2) ms'
  end.

Definition struct_end (packed : bool) (pos : Z) (ms : list (string * cty)) : Z :=
  fold_left (fun pos m => place_in packed pos m.2 + csize m.2) ms pos.

(** [offsetof], in bytes. *)
Definition offset_of (path : string) (t : cty) : option Z :=
  l ← List.find (fun l => String.eqb (l_path l) path) (leaves "" 0 t); Some (l_off l / 8).

(** ** Well-formed types *)

Definition scalar_size (s : Z) : bool := bool_decide (s ∈ [1; 2; 4; 8]).

Fixpoint wf (t : cty) : bool :=
  match t with
  | Scalar s => scalar_size s
  | Pointer _ _ => true
  | Bits s w => scalar_size s && (0 <? w) && (w <=? 8 * s)
  | Pad s w => scalar_size s && (0 <=? w) && (w <=? 8 * s)
  | Array _ t' => wf t' && match t' with Bits _ _ | Pad _ _ => false | _ => true end
  | Aggregate _ ms | Union ms => forallb (fun m => wf m.2) ms
  end.

Fixpoint has_union (t : cty) : bool :=
  match t with
  | Array _ t' => has_union t'
  | Aggregate _ ms => existsb (fun m => has_union m.2) ms
  | Union _ => true
  | _ => false
  end.

Fixpoint has_packed (t : cty) : bool :=
  match t with
  | Array _ t' => has_packed t'
  | Aggregate packed ms => packed || existsb (fun m => has_packed m.2) ms
  | Union ms => existsb (fun m => has_packed m.2) ms
  | _ => false
  end.

(** The structs and unions the pointers of a type lead to, after all their stars. *)
Fixpoint pointees (t : cty) : list string :=
  match t with
  | Pointer _ to => if String.eqb to "" then [] else [to]
  | Array _ t' => pointees t'
  | Aggregate _ ms | Union ms => concat (map (fun m => pointees m.2) ms)
  | _ => []
  end.

Definition is_bits (t : cty) : bool := match t with Bits _ _ | Pad _ _ => true | _ => false end.

(** A scalar is aligned to its size; a bit field is inside its unit. *)
Definition aligned (l : leaf) : Prop := l_off l mod (8 * l_unit l) + l_bits l <= 8 * l_unit l.

Definition inside (lo hi : Z) (l : leaf) : Prop := lo <= l_off l /\ l_off l + l_bits l <= hi.

(** The leaves follow one another between [lo] and [hi]. *)
Fixpoint ordered (lo : Z) (ls : list leaf) (hi : Z) : Prop :=
  match ls with
  | [] => lo <= hi
  | l :: ls' => lo <= l_off l /\ ordered (l_off l + l_bits l) ls' hi
  end.

(** ** Lemmas *)

Lemma round_up_bounds x a : 0 < a -> x <= round_up x a < x + a.
Proof.
  intros Ha. unfold round_up. pose proof (Z.div_mod (x + a - 1) a ltac:(lia)).
  pose proof (Z.mod_pos_bound (x + a - 1) a Ha). lia.
Qed.

Lemma round_up_divide x a : (a | round_up x a).
Proof. unfold round_up. apply Z.divide_factor_r. Qed.

Definition good_align (a : Z) : Prop := a = 8 \/ a = 16 \/ a = 32 \/ a = 64.

Lemma good_align_max a b : good_align a -> good_align b -> good_align (Z.max a b).
Proof. unfold good_align. lia. Qed.

Lemma good_align_divide a b : good_align a -> good_align b -> a <= b -> (a | b).
Proof.
  intros [->|[->|[->| ->]]] [->|[->|[->| ->]]] Hle; try lia; by apply Z.mod_divide.
Qed.

Lemma scalar_size_spec s : scalar_size s = true -> good_align (8 * s).
Proof.
  unfold scalar_size, good_align. intros H%bool_decide_eq_true.
  rewrite !elem_of_cons in H. destruct H as [->|[->|[->|[->|H]]]]; try lia.
  by apply not_elem_of_nil in H.
Qed.

Definition member : Type := string * cty.

Lemma wf_members (ms : list member) :
  forallb (fun m => wf m.2) ms = true <-> Forall (fun m => wf m.2 = true) ms.
Proof. rewrite forallb_forall, Forall_forall. by setoid_rewrite <- list_elem_of_In. Qed.

Definition max_align (ms : list member) : Z := foldr (fun m a => Z.max (calign m.2) a) 8 ms.

Lemma calign_good t : wf t = true -> good_align (calign t).
Proof.
  assert (forall ms : list member, Forall (fun m => wf m.2 = true -> good_align (calign m.2)) ms ->
    forallb (fun m => wf m.2) ms = true -> good_align (max_align ms)) as Hms.
  { intros ms H Hwf%wf_members. unfold max_align. induction H as [|m ms Hm _ IH].
    - unfold good_align. cbn. lia.
    - apply Forall_cons in Hwf as [Hw Hwf]. cbn [foldr]. apply good_align_max; auto. }
  induction t using cty_ind_members; cbn [wf calign]; intros Hwf.
  - by apply scalar_size_spec.
  - by right; right; right.
  - apply andb_true_iff in Hwf as [[Hs _]%andb_true_iff _]. by apply scalar_size_spec.
  - by left.
  - apply andb_true_iff in Hwf as [Hwf _]. auto.
  - destruct p; [by left|by apply Hms].
  - by apply Hms.
Qed.

Lemma good_align_pos a : good_align a -> 8 <= a.
Proof. unfold good_align. lia. Qed.

Lemma max_align_member (ms : list member) m :
  Forall (fun m => wf m.2 = true) ms -> m ∈ ms -> (calign m.2 | max_align ms).
Proof.
  intros Hwf Hm. apply good_align_divide.
  - apply calign_good. rewrite Forall_forall in Hwf. auto.
  - apply (calign_good (Union ms)). by apply wf_members.
  - clear Hwf. induction ms as [|m' ms IH]; [by apply not_elem_of_nil in Hm|].
    apply elem_of_cons in Hm as [->|Hm]; cbn [max_align foldr]; [lia|].
    specialize (IH Hm). unfold max_align in IH. lia.
Qed.

Lemma place_ge p pos t : wf t = true -> pos <= place_in p pos t.
Proof.
  intros Hwf. pose proof (calign_good t Hwf) as Ha%good_align_pos.
  assert (forall a, 8 <= a -> pos <= round_up pos a) as Hr by (intros a ?; apply round_up_bounds; lia).
  assert (pos <= round_up pos (if p then 8 else calign t)) as Hd by (apply Hr; destruct p; lia).
  destruct t; try exact Hd; cbn [place_in wf] in *;
    apply andb_true_iff in Hwf as [[Hs%scalar_size_spec%good_align_pos _]%andb_true_iff _];
    pose proof (Hr _ Hs); repeat case_match; lia.
Qed.

Lemma struct_end_ge p (ms : list member) pos :
  Forall (fun m => wf m.2 = true -> 0 <= csize m.2) ms -> Forall (fun m => wf m.2 = true) ms ->
  pos <= struct_end p pos ms.
Proof.
  intros H. revert pos. induction H as [|m ms Hm _ IH]; intros pos Hwf; [by cbn|].
  apply Forall_cons in Hwf as [Hw Hwf]. unfold struct_end in *. cbn [fold_left].
  specialize (Hm Hw). pose proof (place_ge p pos m.2 Hw).
  etransitivity; [|by apply IH]. lia.
Qed.

Lemma csize_nonneg t : wf t = true -> 0 <= csize t.
Proof.
  induction t using cty_ind_members; cbn [wf]; intros Hwf.
  - apply scalar_size_spec, good_align_pos in Hwf. cbn [csize]. lia.
  - cbn [csize]. lia.
  - apply andb_true_iff in Hwf as [[_ Hw]%andb_true_iff _]. apply Z.ltb_lt in Hw. cbn [csize]. lia.
  - apply andb_true_iff in Hwf as [[_ Hw]%andb_true_iff _]. apply Z.leb_le in Hw. cbn [csize]. lia.
  - apply andb_true_iff in Hwf as [Hwf _]. cbn [csize]. specialize (IHt Hwf). nia.
  - pose proof (calign_good (Aggregate p ms) Hwf) as Ha%good_align_pos. cbn [csize].
    transitivity (struct_end p 0 ms); [|apply round_up_bounds; lia].
    apply struct_end_ge; [|by apply wf_members]. done.
  - pose proof (calign_good (Union ms) Hwf) as Ha%good_align_pos. cbn [csize].
    transitivity (foldr (fun m a => Z.max (csize m.2) a) 0 ms); [|apply round_up_bounds; lia].
    clear. induction ms; cbn [foldr]; lia.
Qed.

Lemma struct_end_wf_ge p (ms : list member) pos :
  Forall (fun m => wf m.2 = true) ms -> pos <= struct_end p pos ms.
Proof.
  intros Hwf. apply struct_end_ge; [|done]. eapply Forall_impl; [exact Hwf|].
  intros m Hm _. by apply csize_nonneg.
Qed.

Lemma csize_multiple t : wf t = true -> is_bits t = false -> (calign t | csize t).
Proof.
  induction t using cty_ind_members; cbn [wf is_bits calign csize]; intros Hwf Hb; try done.
  - apply andb_true_iff in Hwf as [Hwf Ht]. apply Z.divide_mul_r, IHt; [done|]. by destruct t.
  - apply round_up_divide.
  - apply round_up_divide.
Qed.

Lemma leaves_Aggregate p path off ms :
  leaves path off (Aggregate p ms) = struct_leaves p path off 0 ms.
Proof.
  cbn [leaves]. generalize 0 as pos. induction ms as [|m ms IH]; intros pos; [done|].
  cbn [struct_leaves]. f_equal. apply IH.
Qed.

(** *** Leaves lie inside *)

Lemma inside_mono lo hi lo' hi' l : lo' <= lo -> hi <= hi' -> inside lo hi l -> inside lo' hi' l.
Proof. unfold inside. lia. Qed.

Lemma Forall_inside_mono lo hi lo' hi' ls :
  lo' <= lo -> hi <= hi' -> Forall (inside lo hi) ls -> Forall (inside lo' hi') ls.
Proof. intros H1 H2 H. eapply Forall_impl; [exact H|]. intros l. by apply inside_mono. Qed.

Lemma struct_leaves_inside p (ms : list member) path off pos :
  Forall (fun m => wf m.2 = true -> forall p o, Forall (inside o (o + csize m.2)) (leaves p o m.2)) ms ->
  Forall (fun m => wf m.2 = true) ms ->
  Forall (inside (off + pos) (off + struct_end p pos ms)) (struct_leaves p path off pos ms).
Proof.
  intros H. revert pos. induction H as [|m ms Hm _ IH]; intros pos Hwf; [constructor|].
  apply Forall_cons in Hwf as [Hw Hwf]. cbn [struct_leaves]. apply Forall_app.
  pose proof (place_ge p pos m.2 Hw). pose proof (csize_nonneg m.2 Hw).
  pose proof (struct_end_wf_ge p ms (place_in p pos m.2 + csize m.2) Hwf).
  unfold struct_end in *. cbn [fold_left]. split.
  - eapply Forall_inside_mono; [..|apply (Hm Hw)]; lia.
  - eapply Forall_inside_mono; [..|apply (IH (place_in p pos m.2 + csize m.2) Hwf)]; lia.
Qed.

Lemma max_size_member (ms : list member) m :
  m ∈ ms -> csize m.2 <= foldr (fun m a => Z.max (csize m.2) a) 0 ms.
Proof.
  induction ms as [|m' ms IH]; intros Hm; [by apply not_elem_of_nil in Hm|].
  apply elem_of_cons in Hm as [->|Hm]; cbn [foldr]; [lia|]. specialize (IH Hm). lia.
Qed.

Lemma leaves_inside t path off :
  wf t = true -> Forall (inside off (off + csize t)) (leaves path off t).
Proof.
  revert path off. induction t using cty_ind_members; intros path off Hwf.
  - cbn. constructor; [|constructor]. unfold inside. cbn. lia.
  - cbn. constructor; [|constructor]. unfold inside. cbn. lia.
  - cbn. constructor; [|constructor]. unfold inside. cbn. lia.
  - constructor.
  - cbn [wf leaves csize] in *. apply andb_true_iff in Hwf as [Hwf _].
    pose proof (csize_nonneg t Hwf) as Hn. apply Forall_concat, Forall_map, Forall_forall.
    intros i Hi%elem_of_seq. eapply Forall_inside_mono; [..|by apply IHt]; nia.
  - rewrite leaves_Aggregate. cbn [wf csize] in *.
    pose proof (calign_good (Aggregate p ms) Hwf) as Ha%good_align_pos.
    apply wf_members in Hwf.
    pose proof (round_up_bounds (struct_end p 0 ms) (calign (Aggregate p ms)) ltac:(lia)).
    eapply Forall_inside_mono; [| |apply (struct_leaves_inside p ms path off 0); [|done]].
    + lia.
    + unfold struct_end in *. lia.
    + eapply Forall_impl; [exact H|]. cbn. auto.
  - pose proof (calign_good (Union ms) Hwf) as Ha%good_align_pos.
    cbn [wf leaves csize] in *. apply wf_members in Hwf.
    pose proof (round_up_bounds (foldr (fun m a => Z.max (csize m.2) a) 0 ms)
      (calign (Union ms)) ltac:(lia)).
    apply Forall_concat, Forall_map, Forall_forall. intros m Hm.
    rewrite Forall_forall in H, Hwf. pose proof (max_size_member ms m Hm).
    eapply Forall_inside_mono; [..|by apply (H m Hm), Hwf]; lia.
Qed.

(** *** Leaves are aligned *)

(** A leaf of a member, at a place the compiler chose inside an aligned type. *)
Definition fits (off : Z) (t : cty) : Prop :=
  match t with
  | Bits s w => off mod (8 * s) + w <= 8 * s
  | Pad _ _ => True
  | _ => (calign t | off)
  end.

Lemma fits_place a off pos t :
  wf t = true -> (calign t | a) -> (a | off) -> fits (off + place_in false pos t) t.
Proof.
  intros Hwf Ha Hoff. assert (calign t | off) as Ho by by etransitivity.
  destruct t; cbn [fits]; try done;
    try (apply Z.divide_add_r; [done|]; cbn [place_in]; apply round_up_divide).
  cbn [wf calign place_in orb] in *. apply andb_true_iff in Hwf as [[Hs Hw]%andb_true_iff Hle].
  apply scalar_size_spec, good_align_pos in Hs. apply Z.leb_le in Hle.
  destruct Ho as [k ->]. rewrite (Z.add_comm (k * (8 * s))), Z.mod_add by lia.
  destruct (Z.leb_spec (pos mod (8 * s) + w) (8 * s)); [lia|].
  destruct (round_up_divide pos (8 * s)) as [j ->]. rewrite Z.mod_mul by lia. lia.
Qed.

Lemma fits_weaken off t : wf t = true -> (calign t | off) -> fits off t.
Proof.
  intros Hwf Ho. destruct t; try done. cbn [wf calign fits] in *.
  apply andb_true_iff in Hwf as [[Hs Hw]%andb_true_iff Hle].
  apply scalar_size_spec, good_align_pos in Hs. apply Z.leb_le in Hle.
  destruct Ho as [k ->]. rewrite Z.mod_mul by lia. lia.
Qed.

(** The members of a struct that is not packed and has no packed part. *)
Definition aligned_below (m : member) : Prop :=
  forall p o, wf m.2 = true -> has_packed m.2 = false -> fits o m.2 -> Forall aligned (leaves p o m.2).

Lemma has_packed_members (ms : list member) :
  existsb (fun m => has_packed m.2) ms = false <-> Forall (fun m => has_packed m.2 = false) ms.
Proof.
  induction ms as [|m ms IH]; [done|]. cbn [existsb]. rewrite orb_false_iff, Forall_cons, IH. done.
Qed.

Lemma struct_leaves_aligned (ms all : list member) path off pos :
  Forall aligned_below ms -> Forall (fun m => has_packed m.2 = false) ms ->
  Forall (fun m => wf m.2 = true) ms -> (forall m, m ∈ ms -> m ∈ all) ->
  Forall (fun m => wf m.2 = true) all -> (max_align all | off) ->
  Forall aligned (struct_leaves false path off pos ms).
Proof.
  intros H. revert pos. induction H as [|m ms Hm _ IH]; intros pos Hpk Hwf Hin Hall Hoff; [constructor|].
  apply Forall_cons in Hwf as [Hw Hwf]. apply Forall_cons in Hpk as [Hp Hpk].
  cbn [struct_leaves]. apply Forall_app. split.
  - apply Hm, (fits_place (max_align all)); [done..| |done].
    apply max_align_member; [done|]. apply Hin. by left.
  - apply IH; try done. intros m' Hm'. apply Hin. by right.
Qed.

Lemma leaves_aligned t path off :
  wf t = true -> has_packed t = false -> fits off t -> Forall aligned (leaves path off t).
Proof.
  revert path off.
  assert (forall s p o, 0 < s -> (8 * s | o) -> Forall aligned [mkLeaf p o (8 * s) s]) as Hleaf.
  { intros s p o Hs [k ->]. constructor; [|constructor]. unfold aligned. cbn. rewrite Z.mod_mul by lia. lia. }
  induction t using cty_ind_members; intros path off Hwf Hpk Hf.
  - apply scalar_size_spec, good_align_pos in Hwf. apply Hleaf; [lia|exact Hf].
  - by apply (Hleaf 8).
  - cbn in *. by constructor.
  - constructor.
  - cbn [wf leaves has_packed] in *. apply andb_true_iff in Hwf as [Hwf Hb].
    assert (is_bits t = false) as Ht by by destruct t.
    apply Forall_concat, Forall_map, Forall_forall. intros i _.
    apply IHt; [done..|]. apply fits_weaken; [done|]. apply Z.divide_add_r; [exact Hf|].
    by apply Z.divide_mul_r, csize_multiple.
  - rewrite leaves_Aggregate. cbn [wf has_packed] in *. apply wf_members in Hwf.
    destruct p; [done|]. apply has_packed_members in Hpk. by apply (struct_leaves_aligned ms ms).
  - cbn [wf leaves has_packed] in *. apply wf_members in Hwf. apply has_packed_members in Hpk.
    apply Forall_concat, Forall_map, Forall_forall. intros m Hm.
    rewrite Forall_forall in H, Hwf, Hpk. apply (H m Hm); [by apply Hwf|by apply Hpk|].
    apply fits_weaken; [by apply Hwf|]. etransitivity; [|exact Hf].
    apply (max_align_member ms m); [by apply Forall_forall|done].
Qed.

(** *** Without unions, leaves do not overlap *)

Lemma ordered_lower a' a ls b : a' <= a -> ordered a ls b -> ordered a' ls b.
Proof. intros Ha. destruct ls; cbn [ordered]; [lia|]. intros [H1 H2]. split; [lia|done]. Qed.

Lemma ordered_app a ls b b' ls' c :
  ordered a ls b -> ordered b' ls' c -> b <= b' -> ordered a (ls ++ ls') c.
Proof.
  revert a. induction ls as [|l ls IH]; intros a H1 H2 Hb; cbn [ordered app] in *.
  - eapply ordered_lower; [|exact H2]. lia.
  - destruct H1 as [H1 H3]. split; [done|]. by eapply IH.
Qed.

Lemma ordered_weaken a ls b c : ordered a ls b -> b <= c -> ordered a ls c.
Proof.
  revert a. induction ls as [|l ls IH]; intros a; cbn [ordered]; [lia|].
  intros [H1 H2] Hc. split; [done|]. by eapply IH.
Qed.

Lemma struct_leaves_ordered p (ms : list member) path off pos :
  Forall (fun m => wf m.2 = true -> has_union m.2 = false ->
            forall p o, ordered o (leaves p o m.2) (o + csize m.2)) ms ->
  Forall (fun m => wf m.2 = true) ms -> existsb (fun m => has_union m.2) ms = false ->
  ordered (off + pos) (struct_leaves p path off pos ms) (off + struct_end p pos ms).
Proof.
  intros H. revert pos. induction H as [|m ms Hm _ IH]; intros pos Hwf Hu; [by cbn; lia|].
  apply Forall_cons in Hwf as [Hw Hwf]. cbn in Hu. apply orb_false_iff in Hu as [Hu Hus].
  cbn [struct_leaves]. unfold struct_end in *. cbn [fold_left].
  pose proof (place_ge p pos m.2 Hw).
  apply (ordered_app _ _ (off + place_in p pos m.2 + csize m.2) (off + (place_in p pos m.2 + csize m.2)));
    [|by apply IH|lia].
  eapply ordered_lower; [|by apply (Hm Hw Hu)]. lia.
Qed.

Lemma array_leaves_ordered t n path off k :
  0 <= csize t -> (forall p o, ordered o (leaves p o t) (o + csize t)) ->
  ordered (off + Z.of_nat k * csize t)
    (concat (map (fun i => leaves (index_path path i) (off + Z.of_nat i * csize t) t) (seq k n)))
    (off + Z.of_nat (k + n) * csize t).
Proof.
  intros Hn Ht. revert k. induction n as [|n IH]; intros k; cbn [seq map concat ordered].
  - rewrite Nat.add_0_r. lia.
  - replace (k + S n)%nat with (S k + n)%nat by lia.
    eapply ordered_app; [apply Ht|apply IH|lia].
Qed.

Lemma leaves_ordered t path off :
  wf t = true -> has_union t = false -> ordered off (leaves path off t) (off + csize t).
Proof.
  revert path off. induction t using cty_ind_members; intros path off Hwf Hu; cbn [wf has_union] in *.
  - cbn. lia.
  - cbn. lia.
  - cbn. lia.
  - apply (csize_nonneg (Pad s w)) in Hwf. cbn in *. lia.
  - apply andb_true_iff in Hwf as [Hwf _]. pose proof (csize_nonneg t Hwf).
    cbn [leaves csize]. pose proof (array_leaves_ordered t n path off 0 ltac:(done)) as Ha.
    cbn [Z.of_nat Nat.add] in Ha. rewrite Z.mul_0_l, Z.add_0_r in Ha. apply Ha. auto.
  - rewrite leaves_Aggregate. cbn [csize].
    pose proof (calign_good (Aggregate p ms) Hwf) as Ha%good_align_pos. apply wf_members in Hwf.
    pose proof (round_up_bounds (struct_end p 0 ms) (calign (Aggregate p ms)) ltac:(lia)).
    eapply ordered_weaken.
    + pose proof (struct_leaves_ordered p ms path off 0) as Ho. rewrite Z.add_0_r in Ho.
      apply Ho; [|done|done]. eapply Forall_impl; [exact H|]. cbn. auto.
    + unfold struct_end in *. lia.
  - done.
Qed.

(** *** A well-formed type is laid out well *)

(** Every scalar of the type, array elements and bit fields included, lies
    inside the type and, unless a part is packed, is aligned to its size and, for
    bit fields, does not cross its unit; the size is a multiple of the alignment, so that arrays of the type
    are aligned too; and without unions the scalars follow one another without
    overlapping. *)
Definition laid_out (t : cty) : Prop :=
  Forall (inside 0 (csize t)) (leaves "" 0 t) /\
  (has_packed t = false -> Forall aligned (leaves "" 0 t)) /\
  (calign t | csize t) /\
  (has_union t = false -> ordered 0 (leaves "" 0 t) (csize t)).

(** A type for a variable, which a bit field is not. *)
Definition complete (t : cty) : bool := wf t && negb (is_bits t).

Lemma complete_laid_out t : complete t = true -> laid_out t.
Proof.
  intros [Hwf Hb%negb_true_iff]%andb_true_iff. unfold laid_out. split_and!.
  - by apply (leaves_inside t "" 0).
  - intros Hp. apply leaves_aligned; [done..|]. apply fits_weaken; [done|]. apply Z.divide_0_r.
  - by apply csize_multiple.
  - by apply leaves_ordered.
Qed.

Lemma complete_table (table : list member) name t :
  forallb (fun nt => complete nt.2) table = true -> (name, t) ∈ table -> complete t = true.
Proof. intros H Hin. rewrite forallb_forall in H. apply list_elem_of_In in Hin. exact (H _ Hin). Qed.

(** *** First members *)

(** [t] starts with [u]: the first member, or its first member, and so on. *)
Inductive starts_with : cty -> cty -> Prop :=
  | starts_refl t : starts_with t t
  | starts_first p name m ms u : starts_with m u -> starts_with (Aggregate p ((name, m) :: ms)) u.

Lemma place_0 p t : wf t = true -> place_in p 0 t = 0.
Proof.
  intros Hwf. pose proof (calign_good t Hwf) as Ha%good_align_pos.
  assert (forall a, 8 <= a -> round_up 0 a = 0) as Hr.
  { intros a ?. unfold round_up. rewrite Z.div_small by lia. done. }
  assert (round_up 0 (if p then 8 else calign t) = 0) as Hd by (apply Hr; destruct p; lia).
  destruct t; try exact Hd; cbn [place_in wf] in *;
    apply andb_true_iff in Hwf as [[Hs%scalar_size_spec%good_align_pos _]%andb_true_iff _];
    rewrite (Hr _ Hs); by repeat case_match.
Qed.

(** A pointer to [t] can be used as a pointer to [u]: the scalars of [u] are the
    first ones of [t], at the same positions. *)
Lemma starts_with_leaves t u path off :
  starts_with t u -> wf t = true ->
  exists path' rest, leaves path off t = leaves path' off u ++ rest.
Proof.
  intros Hs. revert path. induction Hs as [t|p name m ms u Hs IH]; intros path Hwf.
  - exists path, []. by rewrite app_nil_r.
  - cbn [wf] in Hwf. apply andb_true_iff in Hwf as [Hw _]. cbn [snd] in Hw.
    rewrite leaves_Aggregate. cbn [struct_leaves fst snd]. rewrite (place_0 p m Hw), Z.add_0_r.
    destruct (IH (sub_path path name) Hw) as (path' & rest & ->).
    exists path'. eexists. by rewrite <- app_assoc.
Qed.

Lemma starts_with_size t u : starts_with t u -> wf t = true -> csize u <= csize t.
Proof.
  induction 1 as [t|p name m ms u Hs IH]; intros Hwf; [done|].
  pose proof (calign_good _ Hwf) as Ha%good_align_pos.
  cbn [wf] in Hwf. pose proof Hwf as [Hw _]%andb_true_iff. apply wf_members, Forall_cons in Hwf as [_ Hms].
  cbn [snd] in Hw. specialize (IH Hw). cbn [csize fold_left fst snd]. rewrite (place_0 p m Hw), Z.add_0_l.
  pose proof (struct_end_wf_ge p ms (csize m) Hms) as Hend. unfold struct_end in Hend.
  etransitivity; [exact IH|]. etransitivity; [exact Hend|]. apply round_up_bounds. lia.
Qed.

End CTypes.
