(* ===== verification/Layout.v ===== *)
(** * Shared data layout: src/ebpf/src/kernel/common.h and
    src/pkg/bpf/types.go

    The eBPF program and the agent exchange keys and values of two BPF maps as
    raw bytes: the C side reads the structs of common.h, the Go side hands the
    structs of types.go to the map library, which writes the fields one after
    the other in the host's byte order.  This file models both layouts and
    shows that they are the same bytes. *)

From Stdlib Require Import ZArith Lia String.
From stdpp Require Import base list strings countable gmap.
From S2P Require Import Prelude.

Local Open Scope Z_scope.

Module Layout.

(** ** Struct layout

    Every field of the structs is an unsigned scalar whose alignment is its
    size. *)

Record field := mkField { f_name : string; f_size : nat }.

Definition align_up (off al : nat) : nat := ((off + al - 1) / al * al)%nat.

(** The C compiler's placement: each field at the next multiple of its
    alignment. *)
Fixpoint c_offsets (off : nat) (fs : list field) : list nat :=
  match fs with
  | [] => []
  | f :: fs' => let o := align_up off (f_size f) in o :: c_offsets (o + f_size f) fs'
  end.

Fixpoint c_end (off : nat) (fs : list field) : nat :=
  match fs with
  | [] => off
  | f :: fs' => c_end (align_up off (f_size f) + f_size f) fs'
  end.

Definition c_align (fs : list field) : nat := foldr (fun f m => Nat.max (f_size f) m) 1%nat fs.

Definition c_sizeof (fs : list field) : nat := align_up (c_end 0 fs) (c_align fs).

(** The memory image of a zero-initialised struct whose fields are then set. *)
Fixpoint c_fields (bo : byte_order) (off : nat) (fs : list field) (vs : list Z) : list Z :=
  match fs, vs with
  | f :: fs', v :: vs' =>
      let o := align_up off (f_size f) in
      repeat 0 (o - off) ++ mem_bytes bo (f_size f) v ++ c_fields bo (o + f_size f) fs' vs'
  | _, _ => []
  end.

Definition c_encode (bo : byte_order) (fs : list field) (vs : list Z) : list Z :=
  c_fields bo 0 fs vs ++ repeat 0 (c_sizeof fs - c_end 0 fs).

(** Reading the fields back from a struct in memory. *)
Definition c_decode (bo : byte_order) (fs : list field) (bs : list Z) : list Z :=
  zip_with (fun f o => of_mem bo (take (f_size f) (drop o bs))) fs (c_offsets 0 fs).

(** The Go side: the fields in order, with no padding between them. *)
Definition go_encode (bo : byte_order) (fs : list field) (vs : list Z) : list Z :=
  concat (zip_with (fun f v => mem_bytes bo (f_size f) v) fs vs).

(** ** The structs of common.h *)

Record lb4_key := mk_lb4_key {
  key_address : Z;  (* __be32: service virtual IPv4 address *)
  key_dport : Z;    (* __be16: L4 port *)
  key_proto : Z;    (* __u8: L4 protocol *)
  key_pad : Z       (* __u8 *)
}.

Record lb4_backend := mk_lb4_backend {
  backend_address : Z;  (* __be32 *)
  backend_port : Z;     (* __be16 *)
  backend_proto : Z;    (* __u8 *)
  backend_pad : Z       (* __u8 *)
}.

Record lb4_service := mk_lb4_service {
  service_id : Z;  (* __u16 *)
  count : Z        (* __u16 *)
}.

Definition lb4_key_fields : list field :=
  [mkField "address" 4; mkField "dport" 2; mkField "proto" 1; mkField "pad" 1].
Definition lb4_backend_fields : list field :=
  [mkField "address" 4; mkField "port" 2; mkField "proto" 1; mkField "pad" 1].
Definition lb4_service_fields : list field :=
  [mkField "service_id" 2; mkField "count" 2].
(** The key type of the backends map is a plain [__u32]. *)
Definition backend_id_fields : list field := [mkField "backend_id" 4].

Definition lb4_key_values (k : lb4_key) : list Z :=
  [key_address k; key_dport k; key_proto k; key_pad k].
Definition lb4_backend_values (b : lb4_backend) : list Z :=
  [backend_address b; backend_port b; backend_proto b; backend_pad b].
Definition lb4_service_values (s : lb4_service) : list Z := [service_id s; count s].

(** ** The structs of types.go *)

Record Service4Key := mkService4Key {
  ServiceIP : Z;    (* uint32 *)
  ServicePort : Z;  (* uint16 *)
  Proto : Z;        (* uint8 *)
  Pad : Z           (* uint8 *)
}.

Record Service4Value := mkService4Value {
  ServiceID : Z;  (* uint16 *)
  Count : Z       (* uint16 *)
}.

Record Endpoint4Key := mkEndpoint4Key {
  EndpointID : Z  (* uint32: 16 bits of service id, 16 bits of endpoint id *)
}.

Record Endpoint4Value := mkEndpoint4Value {
  EndpointIP : Z;      (* uint32 *)
  EndpointPort : Z;    (* uint16 *)
  EndpointProto : Z;   (* uint8 *)
  EndpointPad : Z      (* uint8 *)
}.

Definition Service4Key_fields : list field :=
  [mkField "ServiceIP" 4; mkField "ServicePort" 2; mkField "Proto" 1; mkField "Pad" 1].
Definition Service4Value_fields : list field :=
  [mkField "ServiceID" 2; mkField "Count" 2].
Definition Endpoint4Key_fields : list field := [mkField "EndpointID" 4].
Definition Endpoint4Value_fields : list field :=
  [mkField "EndpointIP" 4; mkField "EndpointPort" 2; mkField "Proto" 1; mkField "Pad" 1].

Definition Service4Key_values (k : Service4Key) : list Z :=
  [ServiceIP k; ServicePort k; Proto k; Pad k].
Definition Service4Value_values (v : Service4Value) : list Z := [ServiceID v; Count v].
Definition Endpoint4Key_values (k : Endpoint4Key) : list Z := [EndpointID k].
Definition Endpoint4Value_values (v : Endpoint4Value) : list Z :=
  [EndpointIP v; EndpointPort v; EndpointProto v; EndpointPad v].

(** [ParseProto] of types.go; the protocol names are those of the Kubernetes
    core API. *)
Definition ParseProto (proto : string) : Z :=
  if decide (proto = "TCP"%string) then 6
  else if decide (proto = "UDP"%string) then 17
  else if decide (proto = "SCTP"%string) then 132
  else 0.

(** ** What each side reads of the other's bytes *)

Definition key_of_go (k : Service4Key) : lb4_key :=
  mk_lb4_key (ServiceIP k) (ServicePort k) (Proto k) (Pad k).
Definition service_of_go (v : Service4Value) : lb4_service :=
  mk_lb4_service (ServiceID v) (Count v).
Definition backend_of_go (v : Endpoint4Value) : lb4_backend :=
  mk_lb4_backend (EndpointIP v) (EndpointPort v) (EndpointProto v) (EndpointPad v).

(** ** Decidable equality and countability of the map keys *)

#[export] Instance lb4_key_eq_dec : EqDecision lb4_key.
Proof. solve_decision. Defined.

#[export] Instance lb4_key_countable : Countable lb4_key.
Proof.
  refine (inj_countable'
    (fun k => (key_address k, key_dport k, key_proto k, key_pad k))
    (fun '(a, p, q, d) => mk_lb4_key a p q d) _).
  by intros [].
Defined.

#[export] Instance lb4_service_eq_dec : EqDecision lb4_service.
Proof. solve_decision. Defined.
#[export] Instance lb4_backend_eq_dec : EqDecision lb4_backend.
Proof. solve_decision. Defined.

(** ** Ranges *)

Definition in_fields (fs : list field) (vs : list Z) : Prop :=
  Forall2 (fun f v => in_u (8 * Z.of_nat (f_size f)) v) fs vs.

#[export] Instance in_fields_dec fs vs : Decision (in_fields fs vs).
Proof. unfold in_fields. apply _. Defined.

(** ** Lemmas on placement *)

Lemma align_up_ge off al : (0 < al)%nat -> (off <= align_up off al)%nat.
Proof.
  intros Hal. unfold align_up.
  pose proof (Nat.div_mod_eq (off + al - 1) al).
  pose proof (Nat.mod_upper_bound (off + al - 1) al). lia.
Qed.

(** The fields of a struct, read where the compiler placed them, are the
    values written, whatever surrounds the struct. *)
Lemma c_fields_decode bo fs vs pre suf off :
  Forall (fun f => (0 < f_size f)%nat) fs -> in_fields fs vs -> length pre = off ->
  zip_with (fun f o => of_mem bo (take (f_size f) (drop o (pre ++ c_fields bo off fs vs ++ suf))))
    fs (c_offsets off fs) = vs.
Proof.
  intros Hsz Hin. revert off pre Hsz.
  induction Hin as [|f v fs vs Hv Hin IH]; intros off pre Hsz Hpre; [done|].
  apply Forall_cons in Hsz as [Hf Hsz].
  pose proof (align_up_ge off (f_size f) Hf) as Hge.
  cbn [c_offsets c_fields zip_with]. set (o := align_up off (f_size f)) in *.
  set (padding := repeat 0 (o - off)).
  assert (length (pre ++ padding) = o) as Hlen.
  { unfold padding. rewrite length_app, repeat_length. lia. }
  f_equal.
  - rewrite <- !app_assoc, (app_assoc pre), drop_app_length' by done.
    rewrite take_app_length' by (by rewrite length_mem_bytes).
    rewrite of_mem_mem_bytes. by apply uwrap_small.
  - specialize (IH (o + f_size f)%nat ((pre ++ padding) ++ mem_bytes bo (f_size f) v) Hsz).
    rewrite <- !app_assoc in *. apply IH.
    rewrite app_assoc, length_app, length_mem_bytes. lia.
Qed.

Lemma c_decode_encode bo fs vs :
  Forall (fun f => (0 < f_size f)%nat) fs -> in_fields fs vs ->
  c_decode bo fs (c_encode bo fs vs) = vs.
Proof. intros Hsz Hin. by apply (c_fields_decode bo fs vs []). Qed.

Lemma lb4_key_encode_inj bo k k' :
  in_fields lb4_key_fields (lb4_key_values k) ->
  in_fields lb4_key_fields (lb4_key_values k') ->
  c_encode bo lb4_key_fields (lb4_key_values k) =
  c_encode bo lb4_key_fields (lb4_key_values k') -> k = k'.
Proof.
  intros Hk Hk' E. apply (f_equal (c_decode bo lb4_key_fields)) in E.
  assert (Forall (fun f => (0 < f_size f)%nat) lb4_key_fields) as Hsz
    by (repeat constructor; simpl; lia).
  rewrite !c_decode_encode in E by done. destruct k, k'. unfold lb4_key_values in E.
  simpl in E. by simplify_eq.
Qed.

(** ** Properties *)

(** A struct written in memory and read back field by field is unchanged, for
    any field list of positive sizes, padding included, in both byte orders. *)
Theorem struct_roundtrip (bo : byte_order) (fs : list field) (vs : list Z) :
  Forall (fun f => (0 < f_size f)%nat) fs -> in_fields fs vs ->
  c_decode bo fs (c_encode bo fs vs) = vs.
Proof. apply c_decode_encode. Qed.

Lemma struct_roundtrip_witness :
  c_decode BigEndian [mkField "a" 1; mkField "b" 4; mkField "c" 2]
    (c_encode BigEndian [mkField "a" 1; mkField "b" 4; mkField "c" 2] [7; 3232249858; 80])
  = [7; 3232249858; 80].
Proof.
  apply struct_roundtrip.
  - repeat constructor; simpl; lia.
  - repeat constructor; by vm_compute.
Defined.

(** C34. The bytes the agent writes for the keys and values of both maps are the
    memory images of the structs the eBPF program reads them as, in both byte
    orders and for all field values. *)
Theorem go_c_layout_agree (bo : byte_order) (k : Service4Key) (v : Service4Value)
    (ek : Endpoint4Key) (ev : Endpoint4Value) :
  go_encode bo Service4Key_fields (Service4Key_values k)
    = c_encode bo lb4_key_fields (lb4_key_values (key_of_go k)) /\
  go_encode bo Service4Value_fields (Service4Value_values v)
    = c_encode bo lb4_service_fields (lb4_service_values (service_of_go v)) /\
  go_encode bo Endpoint4Key_fields (Endpoint4Key_values ek)
    = c_encode bo backend_id_fields [EndpointID ek] /\
  go_encode bo Endpoint4Value_fields (Endpoint4Value_values ev)
    = c_encode bo lb4_backend_fields (lb4_backend_values (backend_of_go ev)).
Proof.
  unfold go_encode, c_encode. cbn -[mem_bytes]. rewrite !app_nil_r. done.
Qed.

(** Two in-range service keys have the same bytes only if they are equal: a
    lookup of the hash map, which compares bytes, is a lookup by key. *)
Theorem lb4_key_bytes_injective (bo : byte_order) (k k' : lb4_key) :
  in_fields lb4_key_fields (lb4_key_values k) ->
  in_fields lb4_key_fields (lb4_key_values k') ->
  (c_encode bo lb4_key_fields (lb4_key_values k) =
   c_encode bo lb4_key_fields (lb4_key_values k') <-> k = k').
Proof.
  intros Hk Hk'. split; [|by intros ->]. by apply lb4_key_encode_inj.
Qed.

Lemma lb4_key_bytes_injective_witness :
  c_encode LittleEndian lb4_key_fields (lb4_key_values (mk_lb4_key 174325770 20480 6 0)) =
  c_encode LittleEndian lb4_key_fields (lb4_key_values (mk_lb4_key 174325770 20480 17 0))
  <-> mk_lb4_key 174325770 20480 6 0 = mk_lb4_key 174325770 20480 17 0.
Proof.
  apply lb4_key_bytes_injective; repeat constructor; by vm_compute.
Defined.

End Layout.
