(* ===== verification/BpfMap.v ===== *)
(** * BPF hash maps: the interface between the agent and the eBPF program

    The two maps of src/ebpf/src/service.c live in the kernel; the agent
    reaches them through the map library, the program through
    [bpf_map_lookup_elem].  Neither the kernel nor the library is part of the
    sources, so the maps are an interface: the operations the sources call and
    the behaviour their documentation promises (a lookup returns the last
    value written for the key or nothing, an update with [UpdateAny] creates
    or replaces, a deletion of a missing key is [ErrKeyNotExist], a map holds
    at most [max_entries] keys).  [hmap] is an instance, which shows that the
    promises can be kept and runs the examples.

    The second half models src/pkg/bpf/map.go, the typed wrappers. *)

From Stdlib Require Import ZArith Lia String.
From stdpp Require Import base gmap list strings.
From S2P Require Import Prelude Layout.
Import Layout.

Local Open Scope Z_scope.

Module BpfMap.

(** ** The interface *)

Class MapOps (K V M : Type) := {
  map_lookup : M -> K -> option V;
  map_update : M -> K -> V -> error + M;
  map_delete : M -> K -> error + M;
  map_room : M -> nat
}.

Class MapSpec (K V M : Type) `{EqDecision K} `{!MapOps K V M} : Prop := {
  lookup_after_update m k v m' : map_update m k v = inr m' ->
    forall k', map_lookup m' k' = if decide (k = k') then Some v else map_lookup m k';
  update_accepted m k v :
    is_Some (map_lookup m k) \/ (0 < map_room m)%nat -> exists m', map_update m k v = inr m';
  room_after_update m k v m' : map_update m k v = inr m' ->
    map_room m' = match map_lookup m k with Some _ => map_room m | None => pred (map_room m) end;
  lookup_after_delete m k m' : map_delete m k = inr m' ->
    forall k', map_lookup m' k' = if decide (k = k') then None else map_lookup m k';
  delete_missing m k : map_lookup m k = None -> map_delete m k = inl ErrKeyNotExist;
  delete_present m k : is_Some (map_lookup m k) -> exists m', map_delete m k = inr m';
  room_after_delete m k m' : map_delete m k = inr m' -> (map_room m <= map_room m')%nat
}.

(** ** Consequences every client uses *)

Section consequences.
Context {K V M : Type} `{EqDecision K} `{!MapOps K V M} `{!MapSpec K V M}.

Lemma lookup_update_eq (m m' : M) (k : K) (v : V) :
  map_update m k v = inr m' -> map_lookup m' k = Some v.
Proof. intros E. rewrite (lookup_after_update m k v m') by done. by case_decide. Qed.

Lemma lookup_update_ne (m m' : M) (k k' : K) (v : V) :
  map_update m k v = inr m' -> k <> k' -> map_lookup m' k' = map_lookup m k'.
Proof. intros E Hne. rewrite (lookup_after_update m k v m') by done. by case_decide. Qed.

Lemma lookup_delete_ne (m m' : M) (k k' : K) :
  map_delete m k = inr m' -> k <> k' -> map_lookup m' k' = map_lookup m k'.
Proof. intros E Hne. rewrite (lookup_after_delete m k m') by done. by case_decide. Qed.

(** A deletion that succeeds had something to delete. *)
Lemma delete_was_present (m m' : M) (k : K) :
  map_delete m k = inr m' -> is_Some (map_lookup m k).
Proof.
  intros E. destruct (map_lookup m k) eqn:L; [by eexists|].
  rewrite delete_missing in E by done. done.
Qed.

(** *** Sequences of updates *)

(** The updates in order, up to the first that fails. *)
Fixpoint write_all (m : M) (ws : list (K * V)) : error + M :=
  match ws with
  | [] => inr m
  | (k, v) :: ws' =>
      match map_update m k v with
      | inl err => inl err
      | inr m' => write_all m' ws'
      end
  end.

(** The last value written for [k], or what was there. *)
Definition after_writes (ws : list (K * V)) (old : K -> option V) (k : K) : option V :=
  fold_left (fun acc '(k', v) => if decide (k' = k) then Some v else acc) ws (old k).

Lemma after_writes_app ws1 ws2 old k :
  after_writes (ws1 ++ ws2) old k = after_writes ws2 (after_writes ws1 old) k.
Proof. unfold after_writes. apply fold_left_app. Qed.

Lemma after_writes_other ws old k : k ∉ ws.*1 -> after_writes ws old k = old k.
Proof.
  unfold after_writes. generalize (old k). induction ws as [|[k' v] ws IH]; intros a Hk; [done|].
  cbn. rewrite decide_False by (intros ->; apply Hk; by left). apply IH.
  intros Hin. apply Hk. by right.
Qed.

(** A key written once holds the value written. *)
Lemma after_writes_in ws old k v :
  NoDup ws.*1 -> (k, v) ∈ ws -> after_writes ws old k = Some v.
Proof.
  intros Hnd Hin. apply list_elem_of_split in Hin as (ws1 & ws2 & ->).
  rewrite after_writes_app. change ((k, v) :: ws2) with ([(k, v)] ++ ws2).
  rewrite after_writes_app.
  rewrite after_writes_other.
  - unfold after_writes. cbn. by rewrite decide_True.
  - rewrite fmap_app, fmap_cons in Hnd. apply NoDup_app in Hnd as (_ & _ & Hnd).
    by apply NoDup_cons in Hnd as [? _].
Qed.

(** A map with room for as many keys as there are writes accepts them. *)
Lemma write_all_accepted ws m :
  (length ws <= map_room m)%nat ->
  exists m', write_all m ws = inr m' /\
    (forall k, map_lookup m' k = after_writes ws (map_lookup m) k) /\
    (map_room m <= map_room m' + length ws)%nat.
Proof.
  revert m. induction ws as [|[k v] ws IH]; intros m Hroom; cbn [length write_all] in *.
  { exists m. split_and!; [done|done|lia]. }
  destruct (update_accepted m k v) as [m1 E1]; [right; lia|]. rewrite E1.
  pose proof (room_after_update _ _ _ _ E1) as Hr1.
  destruct (IH m1) as (m' & E & Hl & Hr).
  { destruct (map_lookup m k); lia. }
  exists m'. split_and!; [done| |destruct (map_lookup m k); lia].
  intros k'. rewrite Hl. change ((k, v) :: ws) with ([(k, v)] ++ ws).
  rewrite after_writes_app. unfold after_writes. f_equal. cbn.
  apply (lookup_after_update _ _ _ _ E1).
Qed.

Lemma write_all_app m ws1 ws2 :
  write_all m (ws1 ++ ws2) =
  match write_all m ws1 with inl err => inl err | inr m' => write_all m' ws2 end.
Proof.
  revert m. induction ws1 as [|[k v] ws1 IH]; intros m; cbn; [done|].
  destruct (map_update m k v); [done|apply IH].
Qed.
End consequences.

(** ** An instance: a finite map with a capacity *)

Record hmap (K V : Type) `{Countable K} := mk_hmap {
  entries : gmap K V;
  max_entries : nat
}.
Arguments mk_hmap {K V _ _} _ _.
Arguments entries {K V _ _} _.
Arguments max_entries {K V _ _} _.

Section instance.
Context {K V : Type} `{Countable K}.

#[export] Instance hmap_ops : MapOps K V (hmap K V) := {
  map_lookup m k := entries m !! k;
  map_update m k v :=
    match entries m !! k with
    | Some _ => inr (mk_hmap (<[k := v]> (entries m)) (max_entries m))
    | None =>
        if (size (entries m) <? max_entries m)%nat
        then inr (mk_hmap (<[k := v]> (entries m)) (max_entries m))
        else inl ErrMapFull
    end;
  map_delete m k :=
    match entries m !! k with
    | Some _ => inr (mk_hmap (delete k (entries m)) (max_entries m))
    | None => inl ErrKeyNotExist
    end;
  map_room m := (max_entries m - size (entries m))%nat
}.

#[export] Instance hmap_spec : MapSpec K V (hmap K V).
Proof.
  split; simpl; intros m k.
  - intros v m' E k'. rewrite <- lookup_insert.
    by repeat case_match; simplify_eq.
  - intros v Hk. destruct (entries m !! k); [by eexists|].
    destruct Hk as [[? ?]|Hroom]; [done|].
    destruct (Nat.ltb_spec (size (entries m)) (max_entries m)); [by eexists|lia].
  - intros v m' E. repeat case_match; simplify_eq; cbn [entries max_entries].
    + rewrite map_size_insert_Some by by eexists. lia.
    + rewrite map_size_insert_None by done. lia.
  - intros m' E k'. rewrite <- lookup_delete. by case_match; simplify_eq.
  - intros E. by rewrite E.
  - intros [v E]. rewrite E. by eexists.
  - intros m' E. repeat case_match; simplify_eq; cbn [entries max_entries].
    rewrite map_size_delete_Some by by eexists. lia.
Qed.

(** A freshly created map of the given capacity. *)
Definition hmap_new (max : nat) : hmap K V := mk_hmap ∅ max.
End instance.

(** ** The wrappers of pkg/bpf/map.go

    The interfaces [ServiceMap] and [EndpointMap] of types.go have three
    implementations: [Service] over a real map, [Endpoint], whose methods do
    nothing, and [emptyMap], whose methods only log. *)

Section wrappers.
Context {M : Type} `{!MapOps lb4_key lb4_service M} `{!MapSpec lb4_key lb4_service M}.

Record Service := mkService { ipv6 : bool; service_map : M }.

Definition IsIpv6 (s : Service) : bool := ipv6 s.

(** The error of [Lookup] is dropped: a missing key leaves the zero value. *)
Definition LookUpElemSerivceMap (s : Service) (key : lb4_key) : lb4_service :=
  match map_lookup (service_map s) key with
  | Some value => value
  | None => mk_lb4_service 0 0
  end.

Definition DeleteElemSerivceMap (s : Service) (key : lb4_key) : option error * Service :=
  match map_delete (service_map s) key with
  | inl err => (Some err, s)
  | inr m => (None, mkService (ipv6 s) m)
  end.

Definition UpdateElemSerivceMap (s : Service) (key : lb4_key) (value : lb4_service)
    : option error * Service :=
  match map_update (service_map s) key value with
  | inl err => (Some err, s)
  | inr m => (None, mkService (ipv6 s) m)
  end.

(** What a lookup returns after an update or a deletion of a key that was
    there: the value written, the zero value, and the old value for every
    other key. *)
Theorem service_wrapper_lookup (s s' s'' : Service) (k k' : lb4_key) (v : lb4_service) :
  UpdateElemSerivceMap s k v = (None, s') ->
  DeleteElemSerivceMap s' k = (None, s'') ->
  LookUpElemSerivceMap s' k = v /\
  LookUpElemSerivceMap s'' k = mk_lb4_service 0 0 /\
  (k <> k' -> LookUpElemSerivceMap s'' k' = LookUpElemSerivceMap s k').
Proof.
  unfold UpdateElemSerivceMap, DeleteElemSerivceMap, LookUpElemSerivceMap.
  destruct (map_update (service_map s) k v) as [|m1] eqn:Eu; intros Hu; simplify_eq.
  cbn [service_map ipv6].
  destruct (map_delete m1 k) as [|m2] eqn:Ed; intros Hd; simplify_eq.
  cbn [service_map ipv6]. split_and!.
  - by rewrite (lookup_update_eq _ _ _ _ Eu).
  - rewrite (lookup_after_delete _ _ _ Ed). by case_decide.
  - intros Hne. by rewrite (lookup_delete_ne _ _ _ _ Ed Hne), (lookup_update_ne _ _ _ _ _ Eu Hne).
Qed.
End wrappers.

(** *** [Endpoint]: its methods do not reach the map *)

Section endpoint_wrapper.
Context {M : Type} `{!MapOps Z lb4_backend M}.

Record Endpoint := mkEndpoint { ep_ipv6 : bool; endpoint_map : M }.

(** An interface value, nil or a backend. *)
Definition LookUpElemEndpointMap (e : Endpoint) (key : Z) : option lb4_backend := None.
Definition DeleteElemEndpointMap (e : Endpoint) (key : Z) : option error * Endpoint := (None, e).
Definition UpdateElemEndpointMap (e : Endpoint) (key : Z) (value : lb4_backend)
    : option error * Endpoint := (None, e).

(** Updates through the wrapper report success and are lost. *)
Lemma endpoint_wrapper_loses_updates (e : Endpoint) (k : Z) (v : lb4_backend) :
  exists e', UpdateElemEndpointMap e k v = (None, e') /\ endpoint_map e' = endpoint_map e /\
    LookUpElemEndpointMap e' k = None.
Proof. by exists e. Qed.
End endpoint_wrapper.

(** *** [emptyMap]: each method logs an error and returns nil *)

Definition empty_LookUpElemSerivceMap (key : lb4_key) : option lb4_service * list string :=
  (None, ["EndpointMap looks up empty map"%string]).
Definition empty_DeleteElemSerivceMap (key : lb4_key) : option error * list string :=
  (None, ["EndpointMap deletes empty map"%string]).
Definition empty_UpdateElemSerivceMap (key : lb4_key) (value : lb4_service)
    : option error * list string :=
  (None, ["EndpointMap updates empty map"%string]).
Definition empty_LookUpElemEndpointMap (key : Z) : option lb4_backend * list string :=
  (None, ["EndpointMap looks up empty map"%string]).
Definition empty_DeleteElemEndpointMap (key : Z) : option error * list string :=
  (None, ["EndpointMap deletes empty map"%string]).
Definition empty_UpdateElemEndpointMap (key : Z) (value : lb4_backend)
    : option error * list string :=
  (None, ["EndpointMap updates empty map"%string]).

Definition example_key : lb4_key := mk_lb4_key 1 2 6 0.
Definition example_map (m : gmap lb4_key lb4_service) : Service :=
  mkService false (mk_hmap m 4).

Lemma service_wrapper_lookup_witness :
  LookUpElemSerivceMap (example_map {[example_key := mk_lb4_service 1 3]}) example_key
  = mk_lb4_service 1 3.
Proof.
  refine (proj1 (service_wrapper_lookup (example_map ∅)
    (example_map {[example_key := mk_lb4_service 1 3]}) (example_map ∅)
    example_key example_key (mk_lb4_service 1 3) _ _)).
  - by_vm.
  - by_vm.
Defined.

End BpfMap.
