(* ===== verification/Helpers.v ===== *)
(** * Helper declarations and the macros of src/ebpf/src/headers/bpf_helpers.h

    A BPF helper is declared in bpf_helper_defs.h as a static function pointer
    whose value is the helper's number; calling it compiles to a [call] of that
    number with the arguments in registers r1 to r5.  This file has the type of
    declarations, the calling convention, and the macros of bpf_helpers.h; the
    declarations themselves are in HelperDefs. *)

From Stdlib Require Import ZArith Lia String Ascii.
From stdpp Require Import base list strings.
From S2P Require Import Prelude Layout.
Import Layout.

Local Open Scope Z_scope.

Module Helpers.

(** ** Declarations *)

(** The C types the declarations use. *)
Inductive ctype :=
  | Void | Char | Int | Long | ULong
  | U16 | U32 | U64 | S32 | S64 | Be16 | Be32 | Wsum
  | Struct (name : string)
  | Ptr (is_const : bool) (t : ctype).

#[export] Instance ctype_eq_dec : EqDecision ctype.
Proof. solve_decision. Defined.

(** What the "Returns" section of a declaration's comment promises. *)
Inductive returns_doc :=
  | Nothing             (* the helper returns no value *)
  | Value               (* a value, no failure documented *)
  | Zero                (* always 0 *)
  | Flag                (* 0 or 1 *)
  | ValueOrZero         (* 0 stands for failure or absence *)
  | ZeroOrNegative      (* 0 on success, a negative error on failure *)
  | PositiveOrNegative  (* a strictly positive value, or a negative error *)
  | CountOrNegative     (* a value that is not negative, or a negative error *)
  | FlagOrNegative      (* 0 or 1, or a negative error *)
  | CodeOrNegative      (* 0 on success, a positive code, or a negative error *)
  | Verdict             (* one of the named program return codes *)
  | Pointer             (* a pointer *)
  | PointerOrNull.      (* a pointer, NULL on failure *)

#[export] Instance returns_doc_eq_dec : EqDecision returns_doc.
Proof. solve_decision. Defined.

Record helper := mk_helper {
  h_name : string;
  h_id : Z;                        (* the value of the function pointer *)
  h_ret : ctype;
  h_params : list (ctype * string);
  h_variadic : bool;
  h_returns : returns_doc;
  h_errnos : list string;          (* the errors named in "Returns" *)
  h_consts : list string           (* the constants named in the comment *)
}.

(** Promises that include a negative error. *)
Definition fails_negative (d : returns_doc) : bool :=
  match d with
  | ZeroOrNegative | PositiveOrNegative | CountOrNegative | FlagOrNegative | CodeOrNegative => true
  | _ => false
  end.

(** *** Types in registers *)

(** Width in bytes on the 64-bit BPF target; [None] for types that are not
    passed in a register. *)
Definition width (t : ctype) : option nat :=
  match t with
  | Void | Struct _ => None
  | Char => Some 1%nat
  | U16 | Be16 => Some 2%nat
  | Int | U32 | S32 | Be32 | Wsum => Some 4%nat
  | Long | ULong | U64 | S64 | Ptr _ _ => Some 8%nat
  end.

Definition is_signed (t : ctype) : bool :=
  match t with
  | Char | Int | Long | S32 | S64 => true
  | _ => false
  end.

Definition is_pointer (t : ctype) : bool := match t with Ptr _ _ => true | _ => false end.

(** The values of a type. *)
Definition ctype_value (t : ctype) (v : Z) : bool :=
  match width t with
  | None => false
  | Some n =>
      let bits := 8 * Z.of_nat n in
      if is_signed t then (- 2 ^ (bits - 1) <=? v) && (v <? 2 ^ (bits - 1))
      else (0 <=? v) && (v <? 2 ^ bits)
  end.

(** ** Calls *)

Inductive operand :=
  | Reg (r : nat)          (* a register the compiler has the value in *)
  | Imm (v : Z)            (* an immediate *)
  | StrAddr (s : string)   (* the address of a static string *)
  | ArrAddr (a : list Z).  (* the address of an array of 64-bit words *)

Inductive insn :=
  | Mov (dst : nat) (src : operand)
  | Call (imm : Z).

Definition max_args : nat := 5.

Definition arity_ok (h : helper) (nargs : nat) : bool :=
  let fixed := length (h_params h) in
  if h_variadic h then (fixed <=? nargs)%nat else (fixed =? nargs)%nat.

(** The call of a helper: argument [i] in r[i + 1], then [call id].  More than
    five arguments cannot be passed. *)
Definition compile_call (h : helper) (args : list operand) : option (list insn) :=
  if arity_ok h (length args) && (length args <=? max_args)%nat
  then Some (imap (fun i a => Mov (S i) a) args ++ [Call (h_id h)])
  else None.

(** ** bpf_helpers.h *)

Inductive libbpf_pin_type := LIBBPF_PIN_NONE | LIBBPF_PIN_BY_NAME.
Inductive libbpf_tristate := TRI_NO | TRI_YES | TRI_MODULE.

Definition tristate_value (t : libbpf_tristate) : Z :=
  match t with TRI_NO => 0 | TRI_YES => 1 | TRI_MODULE => 2 end.

(** [struct bpf_map_def]: five [unsigned int]s. *)
Record bpf_map_def := mk_map_def {
  def_type : Z;
  def_key_size : Z;
  def_value_size : Z;
  def_max_entries : Z;
  def_map_flags : Z
}.

(** [(((a) << 16) + ((b) << 8) + ((c) > 255 ? 255 : (c)))]. *)
Definition KERNEL_VERSION (a b c : Z) : Z :=
  Z.shiftl a 16 + Z.shiftl b 8 + (if 255 <? c then 255 else c).

(** [offsetof] and [container_of] for member [i] of a struct. *)
Definition offsetof (fs : list field) (i : nat) : nat := nth i (c_offsets 0 fs) 0%nat.
Definition container_of (ptr : Z) (fs : list field) (i : nat) : Z := ptr - Z.of_nat (offsetof fs i).

(** [bpf_tail_call_static]: a slot that is not a compile-time constant reaches
    [__bpf_unreachable], which does not compile. *)
Definition bpf_tail_call_static (ctx map : operand) (slot : option Z) : option (list insn) :=
  match slot with
  | None => None
  | Some slot => Some [Mov 1 ctx; Mov 2 map; Mov 3 (Imm slot); Call 12]
  end.

(** *** Argument counting *)

(** [___bpf_nth(_, _1, ..., _9, _a, _b, _c, N, ...)] is [N], the fourteenth
    argument. *)
Definition bpf_nth {A} (args : list A) : option A := args !! 13%nat.

(** [___bpf_narg]: the arguments push the numbers to the right.  With more than
    twelve arguments the macro expands to one of them, which is not a number. *)
Definition bpf_narg {A} (args : list A) : option nat :=
  match bpf_nth (None :: map (fun _ => None) args ++
                 map Some [12; 11; 10; 9; 8; 7; 6; 5; 4; 3; 2; 1; 0]%nat) with
  | Some (Some n) => Some n
  | _ => None
  end.

(** *** Filling an array *)

(** [arr[p] = x] in an array of [unsigned long long]; outside the array it is
    undefined. *)
Definition assign (arr : list Z) (p : nat) (x : Z) : option (list Z) :=
  if (p <? length arr)%nat then Some (<[p := uwrap 64 x]> arr) else None.

(** [___bpf_fill0] to [___bpf_fill12]; the wrong number of arguments does not
    expand. *)
Fixpoint bpf_fill_n (n : nat) (arr : list Z) (p : nat) (args : list Z) : option (list Z) :=
  match n, args with
  | O, [] => Some arr
  | 1%nat, [x] => assign arr p x
  | S n', x :: args' =>
      match assign arr p x with
      | Some arr' => bpf_fill_n n' arr' (p + 1) args'
      | None => None
      end
  | _, _ => None
  end.

Definition bpf_fill (arr : list Z) (args : list Z) : option (list Z) :=
  match bpf_narg args with
  | Some n => bpf_fill_n n arr 0 args
  | None => None
  end.

(** The array [___param] the printing macros declare and fill; its initial
    contents are indeterminate. *)
Definition fill_params (junk : nat -> Z) (args : list Z) : option (list Z) :=
  match bpf_narg args with
  | Some n => bpf_fill (map junk (seq 0 n)) args
  | None => None
  end.

(** [sizeof] of a string literal counts the terminating NUL. *)
Definition sizeof_str (s : string) : Z := Z.of_nat (String.length s) + 1.

Section printk.
Context (trace_printk trace_vprintk seq_printf snprintf : helper) (junk : nat -> Z).

(** [__bpf_printk]: the arguments follow the format. *)
Definition bpf_printk_direct (fmt : string) (args : list Z) : helper * list operand :=
  (trace_printk, [StrAddr fmt; Imm (sizeof_str fmt)] ++ map Imm args).

(** [__bpf_vprintk]: the arguments go through an array. *)
Definition bpf_vprintk (fmt : string) (args : list Z) : option (helper * list operand) :=
  match fill_params junk args with
  | Some params =>
      Some (trace_vprintk, [StrAddr fmt; Imm (sizeof_str fmt); ArrAddr params;
                            Imm (8 * Z.of_nat (length params))])
  | None => None
  end.

(** [___bpf_pick_printk]: nine times [__bpf_vprintk], then four times
    [__bpf_printk]; [true] stands for the latter. *)
Definition bpf_pick_printk (args : list Z) : option bool :=
  match bpf_nth (None :: map (fun _ => None) args ++
                 map Some [false; false; false; false; false; false; false; false; false;
                           true; true; true; true]) with
  | Some (Some b) => Some b
  | _ => None
  end.

Definition bpf_printk (fmt : string) (args : list Z) : option (helper * list operand) :=
  match bpf_pick_printk args with
  | Some true => Some (bpf_printk_direct fmt args)
  | Some false => bpf_vprintk fmt args
  | None => None
  end.

Definition BPF_SEQ_PRINTF (seq : operand) (fmt : string) (args : list Z)
    : option (helper * list operand) :=
  match fill_params junk args with
  | Some params =>
      Some (seq_printf, [seq; StrAddr fmt; Imm (sizeof_str fmt); ArrAddr params;
                         Imm (8 * Z.of_nat (length params))])
  | None => None
  end.

Definition BPF_SNPRINTF (out : operand) (out_size : Z) (fmt : string) (args : list Z)
    : option (helper * list operand) :=
  match fill_params junk args with
  | Some params =>
      Some (snprintf, [out; Imm out_size; StrAddr fmt; ArrAddr params;
                       Imm (8 * Z.of_nat (length params))])
  | None => None
  end.
End printk.

(** ** Lemmas *)

(** The arguments of [___bpf_nth] push its candidates to the right. *)
Lemma bpf_nth_pushed {A B} (args : list A) (tail : list B) :
  length tail = 13%nat ->
  match bpf_nth (None :: map (fun _ => None) args ++ map Some tail) with
  | Some (Some x) => Some x
  | _ => None
  end = if (length args <=? 12)%nat then tail !! (12 - length args)%nat else None.
Proof.
  intros Htail. assert (forall x (l : list (option B)), bpf_nth (x :: l) = l !! 12%nat) as -> by done.
  destruct (Nat.leb_spec (length args) 12) as [Hle|Hgt].
  - rewrite lookup_app_r by (rewrite length_map; lia). rewrite length_map, list_lookup_fmap.
    by destruct (tail !! _).
  - rewrite lookup_app_l by (rewrite length_map; lia). rewrite list_lookup_fmap.
    by destruct (args !! 12%nat).
Qed.

Lemma bpf_narg_spec {A} (args : list A) :
  bpf_narg args = if (length args <=? 12)%nat then Some (length args) else None.
Proof.
  unfold bpf_narg. rewrite bpf_nth_pushed by done.
  do 13 (destruct args as [|? args]; [done|]). done.
Qed.

Lemma bpf_pick_printk_spec args :
  bpf_pick_printk args =
  if (length args <=? 12)%nat then Some (length args <=? 3)%nat else None.
Proof.
  unfold bpf_pick_printk. rewrite bpf_nth_pushed by done.
  do 13 (destruct args as [|? args]; [done|]). done.
Qed.

(** The fill macros store the arguments from position [p] on. *)
Lemma bpf_fill_n_spec args pre post :
  length post = length args ->
  bpf_fill_n (length args) (pre ++ post) (length pre) args = Some (pre ++ map (uwrap 64) args).
Proof.
  revert pre post. induction args as [|x args IH]; intros pre post Hlen.
  { destruct post; [|done]. by cbn. }
  destruct post as [|y post]; [done|]. cbn [length] in *.
  assert (assign (pre ++ y :: post) (length pre) x = Some (pre ++ uwrap 64 x :: post)) as Ha.
  { unfold assign. rewrite length_app. cbn [length].
    destruct (Nat.ltb_spec (length pre) (length pre + S (length post))); [|lia].
    rewrite insert_app_r_alt by lia. by rewrite Nat.sub_diag. }
  destruct args as [|x' args].
  - destruct post; [|done]. cbn [length bpf_fill_n]. by rewrite Ha.
  - cbn [length bpf_fill_n] in *. rewrite Ha.
    replace (pre ++ uwrap 64 x :: post) with ((pre ++ [uwrap 64 x]) ++ post) by by rewrite <- app_assoc.
    replace (length pre + 1)%nat with (length (pre ++ [uwrap 64 x])) by (rewrite length_app; cbn; lia).
    rewrite IH by lia. by rewrite <- app_assoc.
Qed.

Lemma fill_params_spec junk args :
  fill_params junk args =
  if (length args <=? 12)%nat then Some (map (uwrap 64) args) else None.
Proof.
  unfold fill_params, bpf_fill. rewrite bpf_narg_spec.
  destruct (length args <=? 12)%nat; [|done].
  apply (bpf_fill_n_spec args [] (map junk (seq 0 (length args)))).
  by rewrite length_map, length_seq.
Qed.

Lemma compile_call_some h args :
  is_Some (compile_call h args) <-> arity_ok h (length args) = true /\ (length args <= max_args)%nat.
Proof.
  unfold compile_call. destruct (arity_ok h (length args)) eqn:E; cbn [andb].
  - destruct (Nat.leb_spec (length args) max_args).
    + split; [done|]. intros _. by eexists.
    + split; [by intros [? [=]]|]. intros [_ ?]. lia.
  - split; [by intros [? [=]]|]. by intros [[=] _].
Qed.

(** ** Properties of the macros *)

(** The filling macro stores exactly its arguments, in order, in an array of as
    many words, for up to twelve of them; with more it does not expand. *)
Theorem bpf_fill_copies (arr args : list Z) :
  length arr = length args ->
  bpf_fill arr args = if (length args <=? 12)%nat then Some (map (uwrap 64) args) else None.
Proof.
  intros Hlen. unfold bpf_fill. rewrite bpf_narg_spec. destruct (length args <=? 12)%nat; [|done].
  by apply (bpf_fill_n_spec args [] arr).
Qed.

Lemma bpf_fill_copies_witness : bpf_fill [7; 7; 7] [10; -1; 30] = Some [10; 2 ^ 64 - 1; 30].
Proof. exact (bpf_fill_copies [7; 7; 7] [10; -1; 30] eq_refl). Defined.

(** [KERNEL_VERSION] orders versions lexicographically when the minor number is
    below 256, the patch level counting as 255 when it is above. *)
Theorem KERNEL_VERSION_order (a b c a' b' c' : Z) :
  0 <= b < 256 -> 0 <= b' < 256 -> 0 <= c -> 0 <= c' ->
  KERNEL_VERSION a b c <= KERNEL_VERSION a' b' c' <->
  a < a' \/ (a = a' /\ (b < b' \/ (b = b' /\ Z.min c 255 <= Z.min c' 255))).
Proof.
  intros Hb Hb' Hc Hc'. unfold KERNEL_VERSION. rewrite !Z.shiftl_mul_pow2 by lia.
  change (2 ^ 16) with 65536. change (2 ^ 8) with 256.
  destruct (Z.ltb_spec 255 c), (Z.ltb_spec 255 c'); lia.
Qed.

Lemma KERNEL_VERSION_order_witness :
  KERNEL_VERSION 5 4 300 <= KERNEL_VERSION 5 10 0 <->
  5 < 5 \/ (5 = 5 /\ (4 < 10 \/ (4 = 10 /\ Z.min 300 255 <= Z.min 0 255))).
Proof. apply KERNEL_VERSION_order; lia. Defined.

End Helpers.
