(* ===== verification/HelperDefs.v ===== *)
(** * The helper declarations: src/ebpf/src/headers/bpf_helper_defs.h

    One definition per declaration: its name and number, its C signature, what
    the "Returns" section of its comment promises with the errors it names, and
    the constants its comment refers to, in order of appearance.  The numbers
    are checked against [enum bpf_func_id] of src/ebpf/src/kernel/vmlinux.h,
    the kernel the program is built for. *)

From Stdlib Require Import ZArith Lia String.
From stdpp Require Import base list list_numbers strings.
From S2P Require Import Prelude Helpers.
Import Helpers.

Local Open Scope Z_scope.
Local Open Scope string_scope.

Module HelperDefs.

Definition bpf_map_lookup_elem : helper :=
  mk_helper "bpf_map_lookup_elem" 1 (Ptr false Void)
    [(Ptr false Void, "map"); (Ptr true Void, "key")] false PointerOrNull [] [].
Definition bpf_map_update_elem : helper :=
  mk_helper "bpf_map_update_elem" 2 Long
    [(Ptr false Void, "map"); (Ptr true Void, "key"); (Ptr true Void, "value"); (U64, "flags")] false
    ZeroOrNegative [] ["BPF_NOEXIST"; "BPF_EXIST"; "BPF_ANY"; "BPF_MAP_TYPE_ARRAY"; "BPF_MAP_TYPE_PERCPU_ARRAY"].
Definition bpf_map_delete_elem : helper :=
  mk_helper "bpf_map_delete_elem" 3 Long
    [(Ptr false Void, "map"); (Ptr true Void, "key")] false ZeroOrNegative [] [].
Definition bpf_probe_read : helper :=
  mk_helper "bpf_probe_read" 4 Long
    [(Ptr false Void, "dst"); (U32, "size"); (Ptr true Void, "unsafe_ptr")] false
    ZeroOrNegative [] [].
Definition bpf_ktime_get_ns : helper :=
  mk_helper "bpf_ktime_get_ns" 5 U64
    [] false Value [] ["CLOCK_MONOTONIC"].
Definition bpf_trace_printk : helper :=
  mk_helper "bpf_trace_printk" 6 Long
    [(Ptr true Char, "fmt"); (U32, "fmt_size")] true
    CountOrNegative [] ["TIF_NEED_RESCHED"; "PREEMPT_NEED_RESCHED"].
Definition bpf_get_prandom_u32 : helper :=
  mk_helper "bpf_get_prandom_u32" 7 U32
    [] false Value [] [].
Definition bpf_get_smp_processor_id : helper :=
  mk_helper "bpf_get_smp_processor_id" 8 U32
    [] false Value [] [].
Definition bpf_skb_store_bytes : helper :=
  mk_helper "bpf_skb_store_bytes" 9 Long
    [(Ptr false (Struct "__sk_buff"), "skb"); (U32, "offset"); (Ptr true Void, "from");
     (U32, "len"); (U64, "flags")] false
    ZeroOrNegative [] ["BPF_F_RECOMPUTE_CSUM"; "BPF_F_INVALIDATE_HASH"].
Definition bpf_l3_csum_replace : helper :=
  mk_helper "bpf_l3_csum_replace" 10 Long
    [(Ptr false (Struct "__sk_buff"), "skb"); (U32, "offset"); (U64, "from"); (U64, "to");
     (U64, "size")] false ZeroOrNegative [] [].
Definition bpf_l4_csum_replace : helper :=
  mk_helper "bpf_l4_csum_replace" 11 Long
    [(Ptr false (Struct "__sk_buff"), "skb"); (U32, "offset"); (U64, "from"); (U64, "to");
     (U64, "flags")] false
    ZeroOrNegative [] ["BPF_F_MARK_MANGLED_0"; "BPF_F_MARK_ENFORCE"; "CSUM_MANGLED_0"; "BPF_F_PSEUDO_HDR"].
Definition bpf_tail_call : helper :=
  mk_helper "bpf_tail_call" 12 Long
    [(Ptr false Void, "ctx"); (Ptr false Void, "prog_array_map"); (U32, "index")] false
    ZeroOrNegative [] ["BPF_MAP_TYPE_PROG_ARRAY"; "MAX_TAIL_CALL_CNT"].
Definition bpf_clone_redirect : helper :=
  mk_helper "bpf_clone_redirect" 13 Long
    [(Ptr false (Struct "__sk_buff"), "skb"); (U32, "ifindex"); (U64, "flags")] false
    ZeroOrNegative [] ["BPF_F_INGRESS"].
Definition bpf_get_current_pid_tgid : helper :=
  mk_helper "bpf_get_current_pid_tgid" 14 U64
    [] false Value [] [].
Definition bpf_get_current_uid_gid : helper :=
  mk_helper "bpf_get_current_uid_gid" 15 U64
    [] false Value [] [].
Definition bpf_get_current_comm : helper :=
  mk_helper "bpf_get_current_comm" 16 Long
    [(Ptr false Void, "buf"); (U32, "size_of_buf")] false ZeroOrNegative [] [].
Definition bpf_get_cgroup_classid : helper :=
  mk_helper "bpf_get_cgroup_classid" 17 U32
    [(Ptr false (Struct "__sk_buff"), "skb")] false ValueOrZero [] ["CONFIG_CGROUP_NET_CLASSID"].
Definition bpf_skb_vlan_push : helper :=
  mk_helper "bpf_skb_vlan_push" 18 Long
    [(Ptr false (Struct "__sk_buff"), "skb"); (Be16, "vlan_proto"); (U16, "vlan_tci")] false
    ZeroOrNegative [] ["ETH_P_8021Q"; "ETH_P_8021AD"].
Definition bpf_skb_vlan_pop : helper :=
  mk_helper "bpf_skb_vlan_pop" 19 Long
    [(Ptr false (Struct "__sk_buff"), "skb")] false ZeroOrNegative [] [].
Definition bpf_skb_get_tunnel_key : helper :=
  mk_helper "bpf_skb_get_tunnel_key" 20 Long
    [(Ptr false (Struct "__sk_buff"), "skb"); (Ptr false (Struct "bpf_tunnel_key"), "key");
     (U32, "size"); (U64, "flags")] false ZeroOrNegative [] ["BPF_F_TUNINFO_IPV6"].
Definition bpf_skb_set_tunnel_key : helper :=
  mk_helper "bpf_skb_set_tunnel_key" 21 Long
    [(Ptr false (Struct "__sk_buff"), "skb"); (Ptr false (Struct "bpf_tunnel_key"), "key");
     (U32, "size"); (U64, "flags")] false
    ZeroOrNegative [] ["BPF_F_TUNINFO_IPV6"; "BPF_F_ZERO_CSUM_TX"; "BPF_F_DONT_FRAGMENT"; "BPF_F_SEQ_NUMBER"].
Definition bpf_perf_event_read : helper :=
  mk_helper "bpf_perf_event_read" 22 U64
    [(Ptr false Void, "map"); (U64, "flags")] false
    CountOrNegative [] ["BPF_MAP_TYPE_PERF_EVENT_ARRAY"; "BPF_F_INDEX_MASK"; "BPF_F_CURRENT_CPU"].
Definition bpf_redirect : helper :=
  mk_helper "bpf_redirect" 23 Long
    [(U32, "ifindex"); (U64, "flags")] false
    Verdict [] ["BPF_F_INGRESS"; "XDP_REDIRECT"; "XDP_ABORTED"; "TC_ACT_REDIRECT"; "TC_ACT_SHOT"].
Definition bpf_get_route_realm : helper :=
  mk_helper "bpf_get_route_realm" 24 U32
    [(Ptr false (Struct "__sk_buff"), "skb")] false ValueOrZero [] ["CONFIG_IP_ROUTE_CLASSID"].
Definition bpf_perf_event_output : helper :=
  mk_helper "bpf_perf_event_output" 25 Long
    [(Ptr false Void, "ctx"); (Ptr false Void, "map"); (U64, "flags"); (Ptr false Void, "data");
     (U64, "size")] false
    ZeroOrNegative [] ["BPF_MAP_TYPE_PERF_EVENT_ARRAY"; "PERF_SAMPLE_RAW"; "PERF_TYPE_SOFTWARE";
     "PERF_COUNT_SW_BPF_OUTPUT"; "BPF_F_INDEX_MASK"; "BPF_F_CURRENT_CPU"].
Definition bpf_skb_load_bytes : helper :=
  mk_helper "bpf_skb_load_bytes" 26 Long
    [(Ptr true Void, "skb"); (U32, "offset"); (Ptr false Void, "to"); (U32, "len")] false
    ZeroOrNegative [] [].
Definition bpf_get_stackid : helper :=
  mk_helper "bpf_get_stackid" 27 Long
    [(Ptr false Void, "ctx"); (Ptr false Void, "map"); (U64, "flags")] false
    CountOrNegative [] ["BPF_MAP_TYPE_STACK_TRACE"; "BPF_F_SKIP_FIELD_MASK"; "BPF_F_USER_STACK";
     "BPF_F_FAST_STACK_CMP"; "BPF_F_REUSE_STACKID"; "PERF_MAX_STACK_DEPTH"].
Definition bpf_csum_diff : helper :=
  mk_helper "bpf_csum_diff" 28 S64
    [(Ptr false Be32, "from"); (U32, "from_size"); (Ptr false Be32, "to"); (U32, "to_size");
     (Wsum, "seed")] false CountOrNegative [] [].
Definition bpf_skb_get_tunnel_opt : helper :=
  mk_helper "bpf_skb_get_tunnel_opt" 29 Long
    [(Ptr false (Struct "__sk_buff"), "skb"); (Ptr false Void, "opt"); (U32, "size")] false
    Value [] [].
Definition bpf_skb_set_tunnel_opt : helper :=
  mk_helper "bpf_skb_set_tunnel_opt" 30 Long
    [(Ptr false (Struct "__sk_buff"), "skb"); (Ptr false Void, "opt"); (U32, "size")] false
    ZeroOrNegative [] [].
Definition bpf_skb_change_proto : helper :=
  mk_helper "bpf_skb_change_proto" 31 Long
    [(Ptr false (Struct "__sk_buff"), "skb"); (Be16, "proto"); (U64, "flags")] false
    ZeroOrNegative [] [].
Definition bpf_skb_change_type : helper :=
  mk_helper "bpf_skb_change_type" 32 Long
    [(Ptr false (Struct "__sk_buff"), "skb"); (U32, "type")] false
    ZeroOrNegative [] ["PACKET_HOST"; "BPF_F_INGRESS"; "PACKET_BROADCAST"; "PACKET_MULTICAST"; "PACKET_OTHERHOST"].
Definition bpf_skb_under_cgroup : helper :=
  mk_helper "bpf_skb_under_cgroup" 33 Long
    [(Ptr false (Struct "__sk_buff"), "skb"); (Ptr false Void, "map"); (U32, "index")] false
    FlagOrNegative [] ["BPF_MAP_TYPE_CGROUP_ARRAY"].
Definition bpf_get_hash_recalc : helper :=
  mk_helper "bpf_get_hash_recalc" 34 U32
    [(Ptr false (Struct "__sk_buff"), "skb")] false Value [] ["BPF_F_INVALIDATE_HASH"].
Definition bpf_get_current_task : helper :=
  mk_helper "bpf_get_current_task" 35 U64
    [] false Pointer [] [].
Definition bpf_probe_write_user : helper :=
  mk_helper "bpf_probe_write_user" 36 Long
    [(Ptr false Void, "dst"); (Ptr true Void, "src"); (U32, "len")] false ZeroOrNegative [] [].
Definition bpf_current_task_under_cgroup : helper :=
  mk_helper "bpf_current_task_under_cgroup" 37 Long
    [(Ptr false Void, "map"); (U32, "index")] false
    FlagOrNegative [] ["BPF_MAP_TYPE_CGROUP_ARRAY"].
Definition bpf_skb_change_tail : helper :=
  mk_helper "bpf_skb_change_tail" 38 Long
    [(Ptr false (Struct "__sk_buff"), "skb"); (U32, "len"); (U64, "flags")] false
    ZeroOrNegative [] [].
Definition bpf_skb_pull_data : helper :=
  mk_helper "bpf_skb_pull_data" 39 Long
    [(Ptr false (Struct "__sk_buff"), "skb"); (U32, "len")] false ZeroOrNegative [] [].
Definition bpf_csum_update : helper :=
  mk_helper "bpf_csum_update" 40 S64
    [(Ptr false (Struct "__sk_buff"), "skb"); (Wsum, "csum")] false CountOrNegative [] [].
Definition bpf_set_hash_invalid : helper :=
  mk_helper "bpf_set_hash_invalid" 41 Void
    [(Ptr false (Struct "__sk_buff"), "skb")] false Nothing [] [].
Definition bpf_get_numa_node_id : helper :=
  mk_helper "bpf_get_numa_node_id" 42 Long
    [] false Value [] ["SO_ATTACH_REUSEPORT_EBPF"].
Definition bpf_skb_change_head : helper :=
  mk_helper "bpf_skb_change_head" 43 Long
    [(Ptr false (Struct "__sk_buff"), "skb"); (U32, "len"); (U64, "flags")] false
    ZeroOrNegative [] [].
Definition bpf_xdp_adjust_head : helper :=
  mk_helper "bpf_xdp_adjust_head" 44 Long
    [(Ptr false (Struct "xdp_md"), "xdp_md"); (Int, "delta")] false ZeroOrNegative [] [].
Definition bpf_probe_read_str : helper :=
  mk_helper "bpf_probe_read_str" 45 Long
    [(Ptr false Void, "dst"); (U32, "size"); (Ptr true Void, "unsafe_ptr")] false
    PositiveOrNegative [] [].
Definition bpf_get_socket_cookie : helper :=
  mk_helper "bpf_get_socket_cookie" 46 U64
    [(Ptr false Void, "ctx")] false ValueOrZero [] [].
Definition bpf_get_socket_uid : helper :=
  mk_helper "bpf_get_socket_uid" 47 U32
    [(Ptr false (Struct "__sk_buff"), "skb")] false Value [] [].
Definition bpf_set_hash : helper :=
  mk_helper "bpf_set_hash" 48 Long
    [(Ptr false (Struct "__sk_buff"), "skb"); (U32, "hash")] false Zero [] [].
Definition bpf_setsockopt : helper :=
  mk_helper "bpf_setsockopt" 49 Long
    [(Ptr false Void, "bpf_socket"); (Int, "level"); (Int, "optname"); (Ptr false Void, "optval");
     (Int, "optlen")] false
    ZeroOrNegative [] ["BPF_PROG_TYPE_SOCK_OPS"; "BPF_CGROUP_INET4_CONNECT"; "BPF_CGROUP_INET6_CONNECT";
     "SOL_SOCKET"; "SO_RCVBUF"; "SO_SNDBUF"; "SO_MAX_PACING_RATE"; "SO_PRIORITY";
     "SO_RCVLOWAT"; "SO_MARK"; "SO_BINDTODEVICE"; "SO_KEEPALIVE"; "IPPROTO_TCP";
     "TCP_CONGESTION"; "TCP_BPF_IW"; "TCP_BPF_SNDCWND_CLAMP"; "TCP_SAVE_SYN"; "TCP_KEEPIDLE";
     "TCP_KEEPINTVL"; "TCP_KEEPCNT"; "TCP_SYNCNT"; "TCP_USER_TIMEOUT"; "TCP_NOTSENT_LOWAT";
     "IPPROTO_IP"; "IP_TOS"; "IPPROTO_IPV6"; "IPV6_TCLASS"].
Definition bpf_skb_adjust_room : helper :=
  mk_helper "bpf_skb_adjust_room" 50 Long
    [(Ptr false (Struct "__sk_buff"), "skb"); (S32, "len_diff"); (U32, "mode"); (U64, "flags")] false
    ZeroOrNegative [] ["BPF_F_ADJ_ROOM_NO_CSUM_RESET"; "BPF_ADJ_ROOM_MAC"; "BPF_ADJ_ROOM_NET";
     "BPF_F_ADJ_ROOM_FIXED_GSO"; "BPF_F_ADJ_ROOM_ENCAP_L3_IPV4";
     "BPF_F_ADJ_ROOM_ENCAP_L3_IPV6"; "BPF_F_ADJ_ROOM_ENCAP_L4_GRE";
     "BPF_F_ADJ_ROOM_ENCAP_L4_UDP"; "BPF_F_ADJ_ROOM_ENCAP_L2"; "BPF_F_ADJ_ROOM_ENCAP_L2_ETH"].
Definition bpf_redirect_map : helper :=
  mk_helper "bpf_redirect_map" 51 Long
    [(Ptr false Void, "map"); (U32, "key"); (U64, "flags")] false
    Verdict [] ["XDP_TX"; "XDP_REDIRECT"].
Definition bpf_sk_redirect_map : helper :=
  mk_helper "bpf_sk_redirect_map" 52 Long
    [(Ptr false (Struct "__sk_buff"), "skb"); (Ptr false Void, "map"); (U32, "key"); (U64, "flags")] false
    Verdict [] ["BPF_MAP_TYPE_SOCKMAP"; "BPF_F_INGRESS"; "SK_PASS"; "SK_DROP"].
Definition bpf_sock_map_update : helper :=
  mk_helper "bpf_sock_map_update" 53 Long
    [(Ptr false (Struct "bpf_sock_ops"), "skops"); (Ptr false Void, "map");
     (Ptr false Void, "key"); (U64, "flags")] false
    ZeroOrNegative [] ["BPF_NOEXIST"; "BPF_EXIST"; "BPF_ANY"].
Definition bpf_xdp_adjust_meta : helper :=
  mk_helper "bpf_xdp_adjust_meta" 54 Long
    [(Ptr false (Struct "xdp_md"), "xdp_md"); (Int, "delta")] false ZeroOrNegative [] [].
Definition bpf_perf_event_read_value : helper :=
  mk_helper "bpf_perf_event_read_value" 55 Long
    [(Ptr false Void, "map"); (U64, "flags"); (Ptr false (Struct "bpf_perf_event_value"), "buf");
     (U32, "buf_size")] false
    ZeroOrNegative [] ["BPF_MAP_TYPE_PERF_EVENT_ARRAY"; "BPF_F_INDEX_MASK"; "BPF_F_CURRENT_CPU"].
Definition bpf_perf_prog_read_value : helper :=
  mk_helper "bpf_perf_prog_read_value" 56 Long
    [(Ptr false (Struct "bpf_perf_event_data"), "ctx");
     (Ptr false (Struct "bpf_perf_event_value"), "buf"); (U32, "buf_size")] false
    ZeroOrNegative [] [].
Definition bpf_getsockopt : helper :=
  mk_helper "bpf_getsockopt" 57 Long
    [(Ptr false Void, "bpf_socket"); (Int, "level"); (Int, "optname"); (Ptr false Void, "optval");
     (Int, "optlen")] false
    ZeroOrNegative [] ["BPF_PROG_TYPE_SOCK_OPS"; "BPF_CGROUP_INET4_CONNECT"; "BPF_CGROUP_INET6_CONNECT";
     "IPPROTO_TCP"; "TCP_CONGESTION"; "IPPROTO_IP"; "IP_TOS"; "IPPROTO_IPV6"; "IPV6_TCLASS"].
Definition bpf_override_return : helper :=
  mk_helper "bpf_override_return" 58 Long
    [(Ptr false (Struct "pt_regs"), "regs"); (U64, "rc")] false
    Zero [] ["CONFIG_BPF_KPROBE_OVERRIDE"; "ALLOW_ERROR_INJECTION"].
Definition bpf_sock_ops_cb_flags_set : helper :=
  mk_helper "bpf_sock_ops_cb_flags_set" 59 Long
    [(Ptr false (Struct "bpf_sock_ops"), "bpf_sock"); (Int, "argval")] false
    CountOrNegative ["EINVAL"] ["BPF_PROG_TYPE_SOCK_OPS"; "BPF_SOCK_OPS_RTO_CB_FLAG"; "BPF_SOCK_OPS_RETRANS_CB_FLAG";
     "BPF_SOCK_OPS_STATE_CB_FLAG"; "BPF_SOCK_OPS_RTT_CB_FLAG"].
Definition bpf_msg_redirect_map : helper :=
  mk_helper "bpf_msg_redirect_map" 60 Long
    [(Ptr false (Struct "sk_msg_md"), "msg"); (Ptr false Void, "map"); (U32, "key"); (U64, "flags")] false
    Verdict [] ["SK_PASS"; "BPF_MAP_TYPE_SOCKMAP"; "BPF_F_INGRESS"; "SK_DROP"].
Definition bpf_msg_apply_bytes : helper :=
  mk_helper "bpf_msg_apply_bytes" 61 Long
    [(Ptr false (Struct "sk_msg_md"), "msg"); (U32, "bytes")] false Zero [] [].
Definition bpf_msg_cork_bytes : helper :=
  mk_helper "bpf_msg_cork_bytes" 62 Long
    [(Ptr false (Struct "sk_msg_md"), "msg"); (U32, "bytes")] false Zero [] [].
Definition bpf_msg_pull_data : helper :=
  mk_helper "bpf_msg_pull_data" 63 Long
    [(Ptr false (Struct "sk_msg_md"), "msg"); (U32, "start"); (U32, "end"); (U64, "flags")] false
    ZeroOrNegative [] ["BPF_PROG_TYPE_SK_MSG"].
Definition bpf_bind : helper :=
  mk_helper "bpf_bind" 64 Long
    [(Ptr false (Struct "bpf_sock_addr"), "ctx"); (Ptr false (Struct "sockaddr"), "addr");
     (Int, "addr_len")] false ZeroOrNegative [] ["AF_INET"; "AF_INET6"].
Definition bpf_xdp_adjust_tail : helper :=
  mk_helper "bpf_xdp_adjust_tail" 65 Long
    [(Ptr false (Struct "xdp_md"), "xdp_md"); (Int, "delta")] false ZeroOrNegative [] [].
Definition bpf_skb_get_xfrm_state : helper :=
  mk_helper "bpf_skb_get_xfrm_state" 66 Long
    [(Ptr false (Struct "__sk_buff"), "skb"); (U32, "index");
     (Ptr false (Struct "bpf_xfrm_state"), "xfrm_state"); (U32, "size"); (U64, "flags")] false
    ZeroOrNegative [] ["CONFIG_XFRM"].
Definition bpf_get_stack : helper :=
  mk_helper "bpf_get_stack" 67 Long
    [(Ptr false Void, "ctx"); (Ptr false Void, "buf"); (U32, "size"); (U64, "flags")] false
    CountOrNegative [] ["BPF_F_SKIP_FIELD_MASK"; "BPF_F_USER_STACK"; "BPF_F_USER_BUILD_ID"; "PERF_MAX_STACK_DEPTH"].
Definition bpf_skb_load_bytes_relative : helper :=
  mk_helper "bpf_skb_load_bytes_relative" 68 Long
    [(Ptr true Void, "skb"); (U32, "offset"); (Ptr false Void, "to"); (U32, "len");
     (U32, "start_header")] false ZeroOrNegative [] ["BPF_HDR_START_MAC"; "BPF_HDR_START_NET"].
Definition bpf_fib_lookup : helper :=
  mk_helper "bpf_fib_lookup" 69 Long
    [(Ptr false Void, "ctx"); (Ptr false (Struct "bpf_fib_lookup"), "params"); (Int, "plen");
     (U32, "flags")] false
    CodeOrNegative [] ["BPF_FIB_LOOKUP_DIRECT"; "BPF_FIB_LOOKUP_OUTPUT"; "BPF_FIB_LKUP_RET_"].
Definition bpf_sock_hash_update : helper :=
  mk_helper "bpf_sock_hash_update" 70 Long
    [(Ptr false (Struct "bpf_sock_ops"), "skops"); (Ptr false Void, "map");
     (Ptr false Void, "key"); (U64, "flags")] false
    ZeroOrNegative [] ["BPF_NOEXIST"; "BPF_EXIST"; "BPF_ANY"].
Definition bpf_msg_redirect_hash : helper :=
  mk_helper "bpf_msg_redirect_hash" 71 Long
    [(Ptr false (Struct "sk_msg_md"), "msg"); (Ptr false Void, "map"); (Ptr false Void, "key");
     (U64, "flags")] false
    Verdict [] ["SK_PASS"; "BPF_MAP_TYPE_SOCKHASH"; "BPF_F_INGRESS"; "SK_DROP"].
Definition bpf_sk_redirect_hash : helper :=
  mk_helper "bpf_sk_redirect_hash" 72 Long
    [(Ptr false (Struct "__sk_buff"), "skb"); (Ptr false Void, "map"); (Ptr false Void, "key");
     (U64, "flags")] false
    Verdict [] ["SK_PASS"; "BPF_MAP_TYPE_SOCKHASH"; "BPF_F_INGRESS"; "SK_DROP"].
Definition bpf_lwt_push_encap : helper :=
  mk_helper "bpf_lwt_push_encap" 73 Long
    [(Ptr false (Struct "__sk_buff"), "skb"); (U32, "type"); (Ptr false Void, "hdr"); (U32, "len")] false
    ZeroOrNegative [] ["BPF_LWT_ENCAP_SEG6"; "BPF_LWT_ENCAP_SEG6_INLINE"; "BPF_LWT_ENCAP_IP";
     "LWT_BPF_MAX_HEADROOM"; "BPF_PROG_TYPE_LWT_IN"; "BPF_PROG_TYPE_LWT_XMIT"].
Definition bpf_lwt_seg6_store_bytes : helper :=
  mk_helper "bpf_lwt_seg6_store_bytes" 74 Long
    [(Ptr false (Struct "__sk_buff"), "skb"); (U32, "offset"); (Ptr true Void, "from");
     (U32, "len")] false ZeroOrNegative [] [].
Definition bpf_lwt_seg6_adjust_srh : helper :=
  mk_helper "bpf_lwt_seg6_adjust_srh" 75 Long
    [(Ptr false (Struct "__sk_buff"), "skb"); (U32, "offset"); (S32, "delta")] false
    ZeroOrNegative [] [].
Definition bpf_lwt_seg6_action : helper :=
  mk_helper "bpf_lwt_seg6_action" 76 Long
    [(Ptr false (Struct "__sk_buff"), "skb"); (U32, "action"); (Ptr false Void, "param");
     (U32, "param_len")] false
    ZeroOrNegative [] ["SEG6_LOCAL_ACTION_END_X"; "SEG6_LOCAL_ACTION_END_T"; "SEG6_LOCAL_ACTION_END_B6";
     "SEG6_LOCAL_ACTION_END_B6_ENCAP"].
Definition bpf_rc_repeat : helper :=
  mk_helper "bpf_rc_repeat" 77 Long
    [(Ptr false Void, "ctx")] false Zero [] ["CONFIG_BPF_LIRC_MODE2"].
Definition bpf_rc_keydown : helper :=
  mk_helper "bpf_rc_keydown" 78 Long
    [(Ptr false Void, "ctx"); (U32, "protocol"); (U64, "scancode"); (U32, "toggle")] false
    Zero [] ["CONFIG_BPF_LIRC_MODE2"].
Definition bpf_skb_cgroup_id : helper :=
  mk_helper "bpf_skb_cgroup_id" 79 U64
    [(Ptr false (Struct "__sk_buff"), "skb")] false ValueOrZero [] ["CONFIG_SOCK_CGROUP_DATA"].
Definition bpf_get_current_cgroup_id : helper :=
  mk_helper "bpf_get_current_cgroup_id" 80 U64
    [] false Value [] [].
Definition bpf_get_local_storage : helper :=
  mk_helper "bpf_get_local_storage" 81 (Ptr false Void)
    [(Ptr false Void, "map"); (U64, "flags")] false Pointer [] ["BPF_ATOMIC"].
Definition bpf_sk_select_reuseport : helper :=
  mk_helper "bpf_sk_select_reuseport" 82 Long
    [(Ptr false (Struct "sk_reuseport_md"), "reuse"); (Ptr false Void, "map");
     (Ptr false Void, "key"); (U64, "flags")] false
    ZeroOrNegative [] ["SO_REUSEPORT"; "BPF_MAP_TYPE_REUSEPORT_SOCKARRAY"].
Definition bpf_skb_ancestor_cgroup_id : helper :=
  mk_helper "bpf_skb_ancestor_cgroup_id" 83 U64
    [(Ptr false (Struct "__sk_buff"), "skb"); (Int, "ancestor_level")] false ValueOrZero [] [].
Definition bpf_sk_lookup_tcp : helper :=
  mk_helper "bpf_sk_lookup_tcp" 84 (Ptr false (Struct "bpf_sock"))
    [(Ptr false Void, "ctx"); (Ptr false (Struct "bpf_sock_tuple"), "tuple"); (U32, "tuple_size");
     (U64, "netns"); (U64, "flags")] false PointerOrNull [] ["CONFIG_NET"].
Definition bpf_sk_lookup_udp : helper :=
  mk_helper "bpf_sk_lookup_udp" 85 (Ptr false (Struct "bpf_sock"))
    [(Ptr false Void, "ctx"); (Ptr false (Struct "bpf_sock_tuple"), "tuple"); (U32, "tuple_size");
     (U64, "netns"); (U64, "flags")] false PointerOrNull [] ["CONFIG_NET"].
Definition bpf_sk_release : helper :=
  mk_helper "bpf_sk_release" 86 Long
    [(Ptr false Void, "sock")] false ZeroOrNegative [] [].
Definition bpf_map_push_elem : helper :=
  mk_helper "bpf_map_push_elem" 87 Long
    [(Ptr false Void, "map"); (Ptr true Void, "value"); (U64, "flags")] false
    ZeroOrNegative [] ["BPF_EXIST"].
Definition bpf_map_pop_elem : helper :=
  mk_helper "bpf_map_pop_elem" 88 Long
    [(Ptr false Void, "map"); (Ptr false Void, "value")] false ZeroOrNegative [] [].
Definition bpf_map_peek_elem : helper :=
  mk_helper "bpf_map_peek_elem" 89 Long
    [(Ptr false Void, "map"); (Ptr false Void, "value")] false ZeroOrNegative [] [].
Definition bpf_msg_push_data : helper :=
  mk_helper "bpf_msg_push_data" 90 Long
    [(Ptr false (Struct "sk_msg_md"), "msg"); (U32, "start"); (U32, "len"); (U64, "flags")] false
    ZeroOrNegative [] ["BPF_PROG_TYPE_SK_MSG"].
Definition bpf_msg_pop_data : helper :=
  mk_helper "bpf_msg_pop_data" 91 Long
    [(Ptr false (Struct "sk_msg_md"), "msg"); (U32, "start"); (U32, "len"); (U64, "flags")] false
    ZeroOrNegative [] ["ENOMEM"].
Definition bpf_rc_pointer_rel : helper :=
  mk_helper "bpf_rc_pointer_rel" 92 Long
    [(Ptr false Void, "ctx"); (S32, "rel_x"); (S32, "rel_y")] false
    Zero [] ["CONFIG_BPF_LIRC_MODE2"].
Definition bpf_spin_lock : helper :=
  mk_helper "bpf_spin_lock" 93 Long
    [(Ptr false (Struct "bpf_spin_lock"), "lock")] false
    Zero [] ["BPF_MAP_TYPE_HASH"; "BPF_MAP_TYPE_ARRAY"; "BPF_LD_ABS"; "BPF_LD_IND"; "BPF_MAP_LOOKUP_ELEM";
     "BPF_MAP_UPDATE_ELEM"].
Definition bpf_spin_unlock : helper :=
  mk_helper "bpf_spin_unlock" 94 Long
    [(Ptr false (Struct "bpf_spin_lock"), "lock")] false Zero [] [].
Definition bpf_sk_fullsock : helper :=
  mk_helper "bpf_sk_fullsock" 95 (Ptr false (Struct "bpf_sock"))
    [(Ptr false (Struct "bpf_sock"), "sk")] false PointerOrNull [] [].
Definition bpf_tcp_sock : helper :=
  mk_helper "bpf_tcp_sock" 96 (Ptr false (Struct "bpf_tcp_sock"))
    [(Ptr false (Struct "bpf_sock"), "sk")] false PointerOrNull [] [].
Definition bpf_skb_ecn_set_ce : helper :=
  mk_helper "bpf_skb_ecn_set_ce" 97 Long
    [(Ptr false (Struct "__sk_buff"), "skb")] false Flag [] ["CE"; "ECT"].
Definition bpf_get_listener_sock : helper :=
  mk_helper "bpf_get_listener_sock" 98 (Ptr false (Struct "bpf_sock"))
    [(Ptr false (Struct "bpf_sock"), "sk")] false PointerOrNull [] ["TCP_LISTEN"].
Definition bpf_skc_lookup_tcp : helper :=
  mk_helper "bpf_skc_lookup_tcp" 99 (Ptr false (Struct "bpf_sock"))
    [(Ptr false Void, "ctx"); (Ptr false (Struct "bpf_sock_tuple"), "tuple"); (U32, "tuple_size");
     (U64, "netns"); (U64, "flags")] false PointerOrNull [] ["CONFIG_NET"].
Definition bpf_tcp_check_syncookie : helper :=
  mk_helper "bpf_tcp_check_syncookie" 100 Long
    [(Ptr false Void, "sk"); (Ptr false Void, "iph"); (U32, "iph_len");
     (Ptr false (Struct "tcphdr"), "th"); (U32, "th_len")] false ZeroOrNegative [] [].
Definition bpf_sysctl_get_name : helper :=
  mk_helper "bpf_sysctl_get_name" 101 Long
    [(Ptr false (Struct "bpf_sysctl"), "ctx"); (Ptr false Char, "buf"); (ULong, "buf_len");
     (U64, "flags")] false CountOrNegative ["E2BIG"] ["BPF_F_SYSCTL_BASE_NAME"].
Definition bpf_sysctl_get_current_value : helper :=
  mk_helper "bpf_sysctl_get_current_value" 102 Long
    [(Ptr false (Struct "bpf_sysctl"), "ctx"); (Ptr false Char, "buf"); (ULong, "buf_len")] false
    CountOrNegative ["E2BIG"; "EINVAL"] [].
Definition bpf_sysctl_get_new_value : helper :=
  mk_helper "bpf_sysctl_get_new_value" 103 Long
    [(Ptr false (Struct "bpf_sysctl"), "ctx"); (Ptr false Char, "buf"); (ULong, "buf_len")] false
    CountOrNegative ["E2BIG"; "EINVAL"] [].
Definition bpf_sysctl_set_new_value : helper :=
  mk_helper "bpf_sysctl_set_new_value" 104 Long
    [(Ptr false (Struct "bpf_sysctl"), "ctx"); (Ptr true Char, "buf"); (ULong, "buf_len")] false
    ZeroOrNegative ["E2BIG"; "EINVAL"] [].
Definition bpf_strtol : helper :=
  mk_helper "bpf_strtol" 105 Long
    [(Ptr true Char, "buf"); (ULong, "buf_len"); (U64, "flags"); (Ptr false Long, "res")] false
    PositiveOrNegative ["EINVAL"; "ERANGE"] [].
Definition bpf_strtoul : helper :=
  mk_helper "bpf_strtoul" 106 Long
    [(Ptr true Char, "buf"); (ULong, "buf_len"); (U64, "flags"); (Ptr false ULong, "res")] false
    PositiveOrNegative ["EINVAL"; "ERANGE"] [].
Definition bpf_sk_storage_get : helper :=
  mk_helper "bpf_sk_storage_get" 107 (Ptr false Void)
    [(Ptr false Void, "map"); (Ptr false Void, "sk"); (Ptr false Void, "value"); (U64, "flags")] false
    PointerOrNull [] ["BPF_MAP_TYPE_SK_STORAGE"; "BPF_SK_STORAGE_GET_F_CREATE"].
Definition bpf_sk_storage_delete : helper :=
  mk_helper "bpf_sk_storage_delete" 108 Long
    [(Ptr false Void, "map"); (Ptr false Void, "sk")] false
    ZeroOrNegative ["ENOENT"; "EINVAL"] [].
Definition bpf_send_signal : helper :=
  mk_helper "bpf_send_signal" 109 Long
    [(U32, "sig")] false ZeroOrNegative ["EBUSY"; "EINVAL"; "EPERM"; "EAGAIN"] [].
Definition bpf_tcp_gen_syncookie : helper :=
  mk_helper "bpf_tcp_gen_syncookie" 110 S64
    [(Ptr false Void, "sk"); (Ptr false Void, "iph"); (U32, "iph_len");
     (Ptr false (Struct "tcphdr"), "th"); (U32, "th_len")] false
    CountOrNegative ["EINVAL"; "ENOENT"; "EOPNOTSUPP"; "EPROTONOSUPPORT"] [].
Definition bpf_skb_output : helper :=
  mk_helper "bpf_skb_output" 111 Long
    [(Ptr false Void, "ctx"); (Ptr false Void, "map"); (U64, "flags"); (Ptr false Void, "data");
     (U64, "size")] false
    ZeroOrNegative [] ["BPF_MAP_TYPE_PERF_EVENT_ARRAY"; "PERF_SAMPLE_RAW"; "PERF_TYPE_SOFTWARE";
     "PERF_COUNT_SW_BPF_OUTPUT"; "BPF_F_INDEX_MASK"; "BPF_F_CURRENT_CPU"].
Definition bpf_probe_read_user : helper :=
  mk_helper "bpf_probe_read_user" 112 Long
    [(Ptr false Void, "dst"); (U32, "size"); (Ptr true Void, "unsafe_ptr")] false
    ZeroOrNegative [] [].
Definition bpf_probe_read_kernel : helper :=
  mk_helper "bpf_probe_read_kernel" 113 Long
    [(Ptr false Void, "dst"); (U32, "size"); (Ptr true Void, "unsafe_ptr")] false
    ZeroOrNegative [] [].
Definition bpf_probe_read_user_str : helper :=
  mk_helper "bpf_probe_read_user_str" 114 Long
    [(Ptr false Void, "dst"); (U32, "size"); (Ptr true Void, "unsafe_ptr")] false
    PositiveOrNegative [] [].
Definition bpf_probe_read_kernel_str : helper :=
  mk_helper "bpf_probe_read_kernel_str" 115 Long
    [(Ptr false Void, "dst"); (U32, "size"); (Ptr true Void, "unsafe_ptr")] false
    PositiveOrNegative [] [].
Definition bpf_tcp_send_ack : helper :=
  mk_helper "bpf_tcp_send_ack" 116 Long
    [(Ptr false Void, "tp"); (U32, "rcv_nxt")] false ZeroOrNegative [] [].
Definition bpf_send_signal_thread : helper :=
  mk_helper "bpf_send_signal_thread" 117 Long
    [(U32, "sig")] false ZeroOrNegative ["EBUSY"; "EINVAL"; "EPERM"; "EAGAIN"] [].
Definition bpf_jiffies64 : helper :=
  mk_helper "bpf_jiffies64" 118 U64
    [] false Value [] [].
Definition bpf_read_branch_records : helper :=
  mk_helper "bpf_read_branch_records" 119 Long
    [(Ptr false (Struct "bpf_perf_event_data"), "ctx"); (Ptr false Void, "buf"); (U32, "size");
     (U64, "flags")] false CountOrNegative ["EINVAL"; "ENOENT"] ["BPF_F_GET_BRANCH_RECORDS_SIZE"].
Definition bpf_get_ns_current_pid_tgid : helper :=
  mk_helper "bpf_get_ns_current_pid_tgid" 120 Long
    [(U64, "dev"); (U64, "ino"); (Ptr false (Struct "bpf_pidns_info"), "nsdata"); (U32, "size")] false
    ZeroOrNegative ["EINVAL"; "ENOENT"] [].
Definition bpf_xdp_output : helper :=
  mk_helper "bpf_xdp_output" 121 Long
    [(Ptr false Void, "ctx"); (Ptr false Void, "map"); (U64, "flags"); (Ptr false Void, "data");
     (U64, "size")] false
    ZeroOrNegative [] ["BPF_MAP_TYPE_PERF_EVENT_ARRAY"; "PERF_SAMPLE_RAW"; "PERF_TYPE_SOFTWARE";
     "PERF_COUNT_SW_BPF_OUTPUT"; "BPF_F_INDEX_MASK"; "BPF_F_CURRENT_CPU"].
Definition bpf_get_netns_cookie : helper :=
  mk_helper "bpf_get_netns_cookie" 122 U64
    [(Ptr false Void, "ctx")] false Value [] [].
Definition bpf_get_current_ancestor_cgroup_id : helper :=
  mk_helper "bpf_get_current_ancestor_cgroup_id" 123 U64
    [(Int, "ancestor_level")] false ValueOrZero [] [].
Definition bpf_sk_assign : helper :=
  mk_helper "bpf_sk_assign" 124 Long
    [(Ptr false Void, "ctx"); (Ptr false Void, "sk"); (U64, "flags")] false
    ZeroOrNegative ["EINVAL"; "ENOENT"; "ENETUNREACH"; "EOPNOTSUPP"; "ESOCKTNOSUPPORT"] ["BPF_PROG_TYPE_SCHED_CLS"; "BPF_PROG_TYPE_SCHED_ACT"].
Definition bpf_ktime_get_boot_ns : helper :=
  mk_helper "bpf_ktime_get_boot_ns" 125 U64
    [] false Value [] ["CLOCK_BOOTTIME"].
Definition bpf_seq_printf : helper :=
  mk_helper "bpf_seq_printf" 126 Long
    [(Ptr false (Struct "seq_file"), "m"); (Ptr true Char, "fmt"); (U32, "fmt_size");
     (Ptr true Void, "data"); (U32, "data_len")] false
    ZeroOrNegative ["EBUSY"; "EINVAL"; "E2BIG"; "EOVERFLOW"] [].
Definition bpf_seq_write : helper :=
  mk_helper "bpf_seq_write" 127 Long
    [(Ptr false (Struct "seq_file"), "m"); (Ptr true Void, "data"); (U32, "len")] false
    ZeroOrNegative ["EOVERFLOW"] [].
Definition bpf_sk_cgroup_id : helper :=
  mk_helper "bpf_sk_cgroup_id" 128 U64
    [(Ptr false Void, "sk")] false ValueOrZero [] ["CONFIG_SOCK_CGROUP_DATA"].
Definition bpf_sk_ancestor_cgroup_id : helper :=
  mk_helper "bpf_sk_ancestor_cgroup_id" 129 U64
    [(Ptr false Void, "sk"); (Int, "ancestor_level")] false ValueOrZero [] [].
Definition bpf_ringbuf_output : helper :=
  mk_helper "bpf_ringbuf_output" 130 Long
    [(Ptr false Void, "ringbuf"); (Ptr false Void, "data"); (U64, "size"); (U64, "flags")] false
    ZeroOrNegative [] ["BPF_RB_NO_WAKEUP"; "BPF_RB_FORCE_WAKEUP"].
Definition bpf_ringbuf_reserve : helper :=
  mk_helper "bpf_ringbuf_reserve" 131 (Ptr false Void)
    [(Ptr false Void, "ringbuf"); (U64, "size"); (U64, "flags")] false PointerOrNull [] [].
Definition bpf_ringbuf_submit : helper :=
  mk_helper "bpf_ringbuf_submit" 132 Void
    [(Ptr false Void, "data"); (U64, "flags")] false
    Nothing [] ["BPF_RB_NO_WAKEUP"; "BPF_RB_FORCE_WAKEUP"].
Definition bpf_ringbuf_discard : helper :=
  mk_helper "bpf_ringbuf_discard" 133 Void
    [(Ptr false Void, "data"); (U64, "flags")] false
    Nothing [] ["BPF_RB_NO_WAKEUP"; "BPF_RB_FORCE_WAKEUP"].
Definition bpf_ringbuf_query : helper :=
  mk_helper "bpf_ringbuf_query" 134 U64
    [(Ptr false Void, "ringbuf"); (U64, "flags")] false
    ValueOrZero [] ["BPF_RB_AVAIL_DATA"; "BPF_RB_RING_SIZE"; "BPF_RB_CONS_POS"; "BPF_RB_PROD_POS"].
Definition bpf_csum_level : helper :=
  mk_helper "bpf_csum_level" 135 Long
    [(Ptr false (Struct "__sk_buff"), "skb"); (U64, "level")] false
    CountOrNegative ["EACCES"] ["BPF_F_ADJ_ROOM_NO_CSUM_RESET"; "BPF_CSUM_LEVEL_DEC"; "BPF_CSUM_LEVEL_INC";
     "BPF_CSUM_LEVEL_RESET"; "BPF_CSUM_LEVEL_QUERY"].
Definition bpf_skc_to_tcp6_sock : helper :=
  mk_helper "bpf_skc_to_tcp6_sock" 136 (Ptr false (Struct "tcp6_sock"))
    [(Ptr false Void, "sk")] false PointerOrNull [] [].
Definition bpf_skc_to_tcp_sock : helper :=
  mk_helper "bpf_skc_to_tcp_sock" 137 (Ptr false (Struct "tcp_sock"))
    [(Ptr false Void, "sk")] false PointerOrNull [] [].
Definition bpf_skc_to_tcp_timewait_sock : helper :=
  mk_helper "bpf_skc_to_tcp_timewait_sock" 138 (Ptr false (Struct "tcp_timewait_sock"))
    [(Ptr false Void, "sk")] false PointerOrNull [] [].
Definition bpf_skc_to_tcp_request_sock : helper :=
  mk_helper "bpf_skc_to_tcp_request_sock" 139 (Ptr false (Struct "tcp_request_sock"))
    [(Ptr false Void, "sk")] false PointerOrNull [] [].
Definition bpf_skc_to_udp6_sock : helper :=
  mk_helper "bpf_skc_to_udp6_sock" 140 (Ptr false (Struct "udp6_sock"))
    [(Ptr false Void, "sk")] false PointerOrNull [] [].
Definition bpf_get_task_stack : helper :=
  mk_helper "bpf_get_task_stack" 141 Long
    [(Ptr false (Struct "task_struct"), "task"); (Ptr false Void, "buf"); (U32, "size");
     (U64, "flags")] false
    CountOrNegative [] ["BPF_F_SKIP_FIELD_MASK"; "BPF_F_USER_STACK"; "BPF_F_USER_BUILD_ID"; "PERF_MAX_STACK_DEPTH"].
Definition bpf_load_hdr_opt : helper :=
  mk_helper "bpf_load_hdr_opt" 142 Long
    [(Ptr false (Struct "bpf_sock_ops"), "skops"); (Ptr false Void, "searchby_res"); (U32, "len");
     (U64, "flags")] false
    PositiveOrNegative ["EINVAL"; "ENOMSG"; "ENOENT"; "ENOSPC"; "EFAULT"; "EPERM"] ["BPF_PROG_TYPE_SOCK_OPS"; "BPF_LOAD_HDR_OPT_TCP_SYN"].
Definition bpf_store_hdr_opt : helper :=
  mk_helper "bpf_store_hdr_opt" 143 Long
    [(Ptr false (Struct "bpf_sock_ops"), "skops"); (Ptr true Void, "from"); (U32, "len");
     (U64, "flags")] false
    ZeroOrNegative ["EINVAL"; "ENOSPC"; "EEXIST"; "EFAULT"; "EPERM"] ["BPF_SOCK_OPS_WRITE_HDR_OPT_CB"].
Definition bpf_reserve_hdr_opt : helper :=
  mk_helper "bpf_reserve_hdr_opt" 144 Long
    [(Ptr false (Struct "bpf_sock_ops"), "skops"); (U32, "len"); (U64, "flags")] false
    ZeroOrNegative ["EINVAL"; "ENOSPC"; "EPERM"] ["BPF_SOCK_OPS_WRITE_HDR_OPT_CB"; "BPF_SOCK_OPS_HDR_OPT_LEN_CB"].
Definition bpf_inode_storage_get : helper :=
  mk_helper "bpf_inode_storage_get" 145 (Ptr false Void)
    [(Ptr false Void, "map"); (Ptr false Void, "inode"); (Ptr false Void, "value"); (U64, "flags")] false
    PointerOrNull [] ["BPF_MAP_TYPE_INODE_STORAGE"; "BPF_LOCAL_STORAGE_GET_F_CREATE"].
Definition bpf_inode_storage_delete : helper :=
  mk_helper "bpf_inode_storage_delete" 146 Int
    [(Ptr false Void, "map"); (Ptr false Void, "inode")] false ZeroOrNegative ["ENOENT"] [].
Definition bpf_d_path : helper :=
  mk_helper "bpf_d_path" 147 Long
    [(Ptr false (Struct "path"), "path"); (Ptr false Char, "buf"); (U32, "sz")] false
    PositiveOrNegative [] [].
Definition bpf_copy_from_user : helper :=
  mk_helper "bpf_copy_from_user" 148 Long
    [(Ptr false Void, "dst"); (U32, "size"); (Ptr true Void, "user_ptr")] false
    ZeroOrNegative [] [].
Definition bpf_snprintf_btf : helper :=
  mk_helper "bpf_snprintf_btf" 149 Long
    [(Ptr false Char, "str"); (U32, "str_size"); (Ptr false (Struct "btf_ptr"), "ptr");
     (U32, "btf_ptr_size"); (U64, "flags")] false
    CountOrNegative [] ["BTF_F_COMPACT"; "BTF_F_NONAME"; "BTF_F_PTR_RAW"; "BTF_F_ZERO"].
Definition bpf_seq_printf_btf : helper :=
  mk_helper "bpf_seq_printf_btf" 150 Long
    [(Ptr false (Struct "seq_file"), "m"); (Ptr false (Struct "btf_ptr"), "ptr");
     (U32, "ptr_size"); (U64, "flags")] false ZeroOrNegative [] [].
Definition bpf_skb_cgroup_classid : helper :=
  mk_helper "bpf_skb_cgroup_classid" 151 U64
    [(Ptr false (Struct "__sk_buff"), "skb")] false ValueOrZero [] [].
Definition bpf_redirect_neigh : helper :=
  mk_helper "bpf_redirect_neigh" 152 Long
    [(U32, "ifindex"); (Ptr false (Struct "bpf_redir_neigh"), "params"); (Int, "plen");
     (U64, "flags")] false Verdict [] ["TC_ACT_REDIRECT"; "TC_ACT_SHOT"].
Definition bpf_per_cpu_ptr : helper :=
  mk_helper "bpf_per_cpu_ptr" 153 (Ptr false Void)
    [(Ptr true Void, "percpu_ptr"); (U32, "cpu")] false PointerOrNull [] [].
Definition bpf_this_cpu_ptr : helper :=
  mk_helper "bpf_this_cpu_ptr" 154 (Ptr false Void)
    [(Ptr true Void, "percpu_ptr")] false Pointer [] [].
Definition bpf_redirect_peer : helper :=
  mk_helper "bpf_redirect_peer" 155 Long
    [(U32, "ifindex"); (U64, "flags")] false Verdict [] ["TC_ACT_REDIRECT"; "TC_ACT_SHOT"].
Definition bpf_task_storage_get : helper :=
  mk_helper "bpf_task_storage_get" 156 (Ptr false Void)
    [(Ptr false Void, "map"); (Ptr false (Struct "task_struct"), "task");
     (Ptr false Void, "value"); (U64, "flags")] false
    PointerOrNull [] ["BPF_MAP_TYPE_TASK_STORAGE"; "BPF_LOCAL_STORAGE_GET_F_CREATE"].
Definition bpf_task_storage_delete : helper :=
  mk_helper "bpf_task_storage_delete" 157 Long
    [(Ptr false Void, "map"); (Ptr false (Struct "task_struct"), "task")] false
    ZeroOrNegative ["ENOENT"] [].
Definition bpf_get_current_task_btf : helper :=
  mk_helper "bpf_get_current_task_btf" 158 (Ptr false (Struct "task_struct"))
    [] false Pointer [] [].
Definition bpf_bprm_opts_set : helper :=
  mk_helper "bpf_bprm_opts_set" 159 Long
    [(Ptr false (Struct "linux_binprm"), "bprm"); (U64, "flags")] false
    ZeroOrNegative ["EINVAL"] ["BPF_F_BPRM_SECUREEXEC"; "AT_SECURE"].
Definition bpf_ktime_get_coarse_ns : helper :=
  mk_helper "bpf_ktime_get_coarse_ns" 160 U64
    [] false Value [] ["CLOCK_MONOTONIC_COARSE"].
Definition bpf_ima_inode_hash : helper :=
  mk_helper "bpf_ima_inode_hash" 161 Long
    [(Ptr false (Struct "inode"), "inode"); (Ptr false Void, "dst"); (U32, "size")] false
    CountOrNegative ["EOPNOTSUP"; "EINVAL"] [].
Definition bpf_sock_from_file : helper :=
  mk_helper "bpf_sock_from_file" 162 (Ptr false (Struct "socket"))
    [(Ptr false (Struct "file"), "file")] false PointerOrNull [] [].
Definition bpf_check_mtu : helper :=
  mk_helper "bpf_check_mtu" 163 Long
    [(Ptr false Void, "ctx"); (U32, "ifindex"); (Ptr false U32, "mtu_len"); (S32, "len_diff");
     (U64, "flags")] false
    CodeOrNegative [] ["BPF_MTU_CHK_SEGS"; "BPF_MTU_CHK_RET_FRAG_NEEDED"; "BPF_MTU_CHK_RET_SEGS_TOOBIG"].
Definition bpf_for_each_map_elem : helper :=
  mk_helper "bpf_for_each_map_elem" 164 Long
    [(Ptr false Void, "map"); (Ptr false Void, "callback_fn"); (Ptr false Void, "callback_ctx");
     (U64, "flags")] false CountOrNegative ["EINVAL"] [].
Definition bpf_snprintf : helper :=
  mk_helper "bpf_snprintf" 165 Long
    [(Ptr false Char, "str"); (U32, "str_size"); (Ptr true Char, "fmt"); (Ptr false U64, "data");
     (U32, "data_len")] false PositiveOrNegative ["EBUSY"] [].
Definition bpf_sys_bpf : helper :=
  mk_helper "bpf_sys_bpf" 166 Long
    [(U32, "cmd"); (Ptr false Void, "attr"); (U32, "attr_size")] false Value [] [].
Definition bpf_btf_find_by_name_kind : helper :=
  mk_helper "bpf_btf_find_by_name_kind" 167 Long
    [(Ptr false Char, "name"); (Int, "name_sz"); (U32, "kind"); (Int, "flags")] false Value [] [].
Definition bpf_sys_close : helper :=
  mk_helper "bpf_sys_close" 168 Long
    [(U32, "fd")] false Value [] [].
Definition bpf_timer_init : helper :=
  mk_helper "bpf_timer_init" 169 Long
    [(Ptr false (Struct "bpf_timer"), "timer"); (Ptr false Void, "map"); (U64, "flags")] false
    ZeroOrNegative ["EBUSY"; "EINVAL"; "EPERM"] [].
Definition bpf_timer_set_callback : helper :=
  mk_helper "bpf_timer_set_callback" 170 Long
    [(Ptr false (Struct "bpf_timer"), "timer"); (Ptr false Void, "callback_fn")] false
    ZeroOrNegative ["EINVAL"; "EPERM"] [].
Definition bpf_timer_start : helper :=
  mk_helper "bpf_timer_start" 171 Long
    [(Ptr false (Struct "bpf_timer"), "timer"); (U64, "nsecs"); (U64, "flags")] false
    ZeroOrNegative ["EINVAL"] [].
Definition bpf_timer_cancel : helper :=
  mk_helper "bpf_timer_cancel" 172 Long
    [(Ptr false (Struct "bpf_timer"), "timer")] false FlagOrNegative ["EINVAL"; "EDEADLK"] [].
Definition bpf_get_func_ip : helper :=
  mk_helper "bpf_get_func_ip" 173 U64
    [(Ptr false Void, "ctx")] false Value [] [].
Definition bpf_get_attach_cookie : helper :=
  mk_helper "bpf_get_attach_cookie" 174 U64
    [(Ptr false Void, "ctx")] false ValueOrZero [] [].
Definition bpf_task_pt_regs : helper :=
  mk_helper "bpf_task_pt_regs" 175 Long
    [(Ptr false (Struct "task_struct"), "task")] false Pointer [] [].
Definition bpf_get_branch_snapshot : helper :=
  mk_helper "bpf_get_branch_snapshot" 176 Long
    [(Ptr false Void, "entries"); (U32, "size"); (U64, "flags")] false
    CountOrNegative ["EINVAL"; "ENOENT"] [].
Definition bpf_trace_vprintk : helper :=
  mk_helper "bpf_trace_vprintk" 177 Long
    [(Ptr true Char, "fmt"); (U32, "fmt_size"); (Ptr true Void, "data"); (U32, "data_len")] false
    CountOrNegative [] [].
Definition bpf_skc_to_unix_sock : helper :=
  mk_helper "bpf_skc_to_unix_sock" 178 (Ptr false (Struct "unix_sock"))
    [(Ptr false Void, "sk")] false PointerOrNull [] [].
Definition bpf_kallsyms_lookup_name : helper :=
  mk_helper "bpf_kallsyms_lookup_name" 179 Long
    [(Ptr true Char, "name"); (Int, "name_sz"); (Int, "flags"); (Ptr false U64, "res")] false
    ZeroOrNegative ["EINVAL"; "ENOENT"; "EPERM"] [].
Definition bpf_find_vma : helper :=
  mk_helper "bpf_find_vma" 180 Long
    [(Ptr false (Struct "task_struct"), "task"); (U64, "addr"); (Ptr false Void, "callback_fn");
     (Ptr false Void, "callback_ctx"); (U64, "flags")] false
    ZeroOrNegative ["ENOENT"; "EBUSY"; "EINVAL"] [].

(** All of them, in the order of the file. *)
Definition helper_table : list helper :=
  [bpf_map_lookup_elem; bpf_map_update_elem; bpf_map_delete_elem; bpf_probe_read;
   bpf_ktime_get_ns; bpf_trace_printk; bpf_get_prandom_u32; bpf_get_smp_processor_id;
   bpf_skb_store_bytes; bpf_l3_csum_replace; bpf_l4_csum_replace; bpf_tail_call;
   bpf_clone_redirect; bpf_get_current_pid_tgid; bpf_get_current_uid_gid;
   bpf_get_current_comm; bpf_get_cgroup_classid; bpf_skb_vlan_push; bpf_skb_vlan_pop;
   bpf_skb_get_tunnel_key; bpf_skb_set_tunnel_key; bpf_perf_event_read; bpf_redirect;
   bpf_get_route_realm; bpf_perf_event_output; bpf_skb_load_bytes; bpf_get_stackid;
   bpf_csum_diff; bpf_skb_get_tunnel_opt; bpf_skb_set_tunnel_opt; bpf_skb_change_proto;
   bpf_skb_change_type; bpf_skb_under_cgroup; bpf_get_hash_recalc; bpf_get_current_task;
   bpf_probe_write_user; bpf_current_task_under_cgroup; bpf_skb_change_tail;
   bpf_skb_pull_data; bpf_csum_update; bpf_set_hash_invalid; bpf_get_numa_node_id;
   bpf_skb_change_head; bpf_xdp_adjust_head; bpf_probe_read_str; bpf_get_socket_cookie;
   bpf_get_socket_uid; bpf_set_hash; bpf_setsockopt; bpf_skb_adjust_room; bpf_redirect_map;
   bpf_sk_redirect_map; bpf_sock_map_update; bpf_xdp_adjust_meta; bpf_perf_event_read_value;
   bpf_perf_prog_read_value; bpf_getsockopt; bpf_override_return; bpf_sock_ops_cb_flags_set;
   bpf_msg_redirect_map; bpf_msg_apply_bytes; bpf_msg_cork_bytes; bpf_msg_pull_data; bpf_bind;
   bpf_xdp_adjust_tail; bpf_skb_get_xfrm_state; bpf_get_stack; bpf_skb_load_bytes_relative;
   bpf_fib_lookup; bpf_sock_hash_update; bpf_msg_redirect_hash; bpf_sk_redirect_hash;
   bpf_lwt_push_encap; bpf_lwt_seg6_store_bytes; bpf_lwt_seg6_adjust_srh; bpf_lwt_seg6_action;
   bpf_rc_repeat; bpf_rc_keydown; bpf_skb_cgroup_id; bpf_get_current_cgroup_id;
   bpf_get_local_storage; bpf_sk_select_reuseport; bpf_skb_ancestor_cgroup_id;
   bpf_sk_lookup_tcp; bpf_sk_lookup_udp; bpf_sk_release; bpf_map_push_elem; bpf_map_pop_elem;
   bpf_map_peek_elem; bpf_msg_push_data; bpf_msg_pop_data; bpf_rc_pointer_rel; bpf_spin_lock;
   bpf_spin_unlock; bpf_sk_fullsock; bpf_tcp_sock; bpf_skb_ecn_set_ce; bpf_get_listener_sock;
   bpf_skc_lookup_tcp; bpf_tcp_check_syncookie; bpf_sysctl_get_name;
   bpf_sysctl_get_current_value; bpf_sysctl_get_new_value; bpf_sysctl_set_new_value;
   bpf_strtol; bpf_strtoul; bpf_sk_storage_get; bpf_sk_storage_delete; bpf_send_signal;
   bpf_tcp_gen_syncookie; bpf_skb_output; bpf_probe_read_user; bpf_probe_read_kernel;
   bpf_probe_read_user_str; bpf_probe_read_kernel_str; bpf_tcp_send_ack;
   bpf_send_signal_thread; bpf_jiffies64; bpf_read_branch_records;
   bpf_get_ns_current_pid_tgid; bpf_xdp_output; bpf_get_netns_cookie;
   bpf_get_current_ancestor_cgroup_id; bpf_sk_assign; bpf_ktime_get_boot_ns; bpf_seq_printf;
   bpf_seq_write; bpf_sk_cgroup_id; bpf_sk_ancestor_cgroup_id; bpf_ringbuf_output;
   bpf_ringbuf_reserve; bpf_ringbuf_submit; bpf_ringbuf_discard; bpf_ringbuf_query;
   bpf_csum_level; bpf_skc_to_tcp6_sock; bpf_skc_to_tcp_sock; bpf_skc_to_tcp_timewait_sock;
   bpf_skc_to_tcp_request_sock; bpf_skc_to_udp6_sock; bpf_get_task_stack; bpf_load_hdr_opt;
   bpf_store_hdr_opt; bpf_reserve_hdr_opt; bpf_inode_storage_get; bpf_inode_storage_delete;
   bpf_d_path; bpf_copy_from_user; bpf_snprintf_btf; bpf_seq_printf_btf;
   bpf_skb_cgroup_classid; bpf_redirect_neigh; bpf_per_cpu_ptr; bpf_this_cpu_ptr;
   bpf_redirect_peer; bpf_task_storage_get; bpf_task_storage_delete; bpf_get_current_task_btf;
   bpf_bprm_opts_set; bpf_ktime_get_coarse_ns; bpf_ima_inode_hash; bpf_sock_from_file;
   bpf_check_mtu; bpf_for_each_map_elem; bpf_snprintf; bpf_sys_bpf; bpf_btf_find_by_name_kind;
   bpf_sys_close; bpf_timer_init; bpf_timer_set_callback; bpf_timer_start; bpf_timer_cancel;
   bpf_get_func_ip; bpf_get_attach_cookie; bpf_task_pt_regs; bpf_get_branch_snapshot;
   bpf_trace_vprintk; bpf_skc_to_unix_sock; bpf_kallsyms_lookup_name; bpf_find_vma].

(** [enum bpf_func_id] of src/ebpf/src/kernel/vmlinux.h. *)
Definition bpf_func_id : list (string * Z) :=
  [("BPF_FUNC_unspec", 0); ("BPF_FUNC_map_lookup_elem", 1); ("BPF_FUNC_map_update_elem", 2);
   ("BPF_FUNC_map_delete_elem", 3); ("BPF_FUNC_probe_read", 4); ("BPF_FUNC_ktime_get_ns", 5);
   ("BPF_FUNC_trace_printk", 6); ("BPF_FUNC_get_prandom_u32", 7);
   ("BPF_FUNC_get_smp_processor_id", 8); ("BPF_FUNC_skb_store_bytes", 9);
   ("BPF_FUNC_l3_csum_replace", 10); ("BPF_FUNC_l4_csum_replace", 11);
   ("BPF_FUNC_tail_call", 12); ("BPF_FUNC_clone_redirect", 13);
   ("BPF_FUNC_get_current_pid_tgid", 14); ("BPF_FUNC_get_current_uid_gid", 15);
   ("BPF_FUNC_get_current_comm", 16); ("BPF_FUNC_get_cgroup_classid", 17);
   ("BPF_FUNC_skb_vlan_push", 18); ("BPF_FUNC_skb_vlan_pop", 19);
   ("BPF_FUNC_skb_get_tunnel_key", 20); ("BPF_FUNC_skb_set_tunnel_key", 21);
   ("BPF_FUNC_perf_event_read", 22); ("BPF_FUNC_redirect", 23);
   ("BPF_FUNC_get_route_realm", 24); ("BPF_FUNC_perf_event_output", 25);
   ("BPF_FUNC_skb_load_bytes", 26); ("BPF_FUNC_get_stackid", 27); ("BPF_FUNC_csum_diff", 28);
   ("BPF_FUNC_skb_get_tunnel_opt", 29); ("BPF_FUNC_skb_set_tunnel_opt", 30);
   ("BPF_FUNC_skb_change_proto", 31); ("BPF_FUNC_skb_change_type", 32);
   ("BPF_FUNC_skb_under_cgroup", 33); ("BPF_FUNC_get_hash_recalc", 34);
   ("BPF_FUNC_get_current_task", 35); ("BPF_FUNC_probe_write_user", 36);
   ("BPF_FUNC_current_task_under_cgroup", 37); ("BPF_FUNC_skb_change_tail", 38);
   ("BPF_FUNC_skb_pull_data", 39); ("BPF_FUNC_csum_update", 40);
   ("BPF_FUNC_set_hash_invalid", 41); ("BPF_FUNC_get_numa_node_id", 42);
   ("BPF_FUNC_skb_change_head", 43); ("BPF_FUNC_xdp_adjust_head", 44);
   ("BPF_FUNC_probe_read_str", 45); ("BPF_FUNC_get_socket_cookie", 46);
   ("BPF_FUNC_get_socket_uid", 47); ("BPF_FUNC_set_hash", 48); ("BPF_FUNC_setsockopt", 49);
   ("BPF_FUNC_skb_adjust_room", 50); ("BPF_FUNC_redirect_map", 51);
   ("BPF_FUNC_sk_redirect_map", 52); ("BPF_FUNC_sock_map_update", 53);
   ("BPF_FUNC_xdp_adjust_meta", 54); ("BPF_FUNC_perf_event_read_value", 55);
   ("BPF_FUNC_perf_prog_read_value", 56); ("BPF_FUNC_getsockopt", 57);
   ("BPF_FUNC_override_return", 58); ("BPF_FUNC_sock_ops_cb_flags_set", 59);
   ("BPF_FUNC_msg_redirect_map", 60); ("BPF_FUNC_msg_apply_bytes", 61);
   ("BPF_FUNC_msg_cork_bytes", 62); ("BPF_FUNC_msg_pull_data", 63); ("BPF_FUNC_bind", 64);
   ("BPF_FUNC_xdp_adjust_tail", 65); ("BPF_FUNC_skb_get_xfrm_state", 66);
   ("BPF_FUNC_get_stack", 67); ("BPF_FUNC_skb_load_bytes_relative", 68);
   ("BPF_FUNC_fib_lookup", 69); ("BPF_FUNC_sock_hash_update", 70);
   ("BPF_FUNC_msg_redirect_hash", 71); ("BPF_FUNC_sk_redirect_hash", 72);
   ("BPF_FUNC_lwt_push_encap", 73); ("BPF_FUNC_lwt_seg6_store_bytes", 74);
   ("BPF_FUNC_lwt_seg6_adjust_srh", 75); ("BPF_FUNC_lwt_seg6_action", 76);
   ("BPF_FUNC_rc_repeat", 77); ("BPF_FUNC_rc_keydown", 78); ("BPF_FUNC_skb_cgroup_id", 79);
   ("BPF_FUNC_get_current_cgroup_id", 80); ("BPF_FUNC_get_local_storage", 81);
   ("BPF_FUNC_sk_select_reuseport", 82); ("BPF_FUNC_skb_ancestor_cgroup_id", 83);
   ("BPF_FUNC_sk_lookup_tcp", 84); ("BPF_FUNC_sk_lookup_udp", 85);
   ("BPF_FUNC_sk_release", 86); ("BPF_FUNC_map_push_elem", 87); ("BPF_FUNC_map_pop_elem", 88);
   ("BPF_FUNC_map_peek_elem", 89); ("BPF_FUNC_msg_push_data", 90);
   ("BPF_FUNC_msg_pop_data", 91); ("BPF_FUNC_rc_pointer_rel", 92); ("BPF_FUNC_spin_lock", 93);
   ("BPF_FUNC_spin_unlock", 94); ("BPF_FUNC_sk_fullsock", 95); ("BPF_FUNC_tcp_sock", 96);
   ("BPF_FUNC_skb_ecn_set_ce", 97); ("BPF_FUNC_get_listener_sock", 98);
   ("BPF_FUNC_skc_lookup_tcp", 99); ("BPF_FUNC_tcp_check_syncookie", 100);
   ("BPF_FUNC_sysctl_get_name", 101); ("BPF_FUNC_sysctl_get_current_value", 102);
   ("BPF_FUNC_sysctl_get_new_value", 103); ("BPF_FUNC_sysctl_set_new_value", 104);
   ("BPF_FUNC_strtol", 105); ("BPF_FUNC_strtoul", 106); ("BPF_FUNC_sk_storage_get", 107);
   ("BPF_FUNC_sk_storage_delete", 108); ("BPF_FUNC_send_signal", 109);
   ("BPF_FUNC_tcp_gen_syncookie", 110); ("BPF_FUNC_skb_output", 111);
   ("BPF_FUNC_probe_read_user", 112); ("BPF_FUNC_probe_read_kernel", 113);
   ("BPF_FUNC_probe_read_user_str", 114); ("BPF_FUNC_probe_read_kernel_str", 115);
   ("BPF_FUNC_tcp_send_ack", 116); ("BPF_FUNC_send_signal_thread", 117);
   ("BPF_FUNC_jiffies64", 118); ("BPF_FUNC_read_branch_records", 119);
   ("BPF_FUNC_get_ns_current_pid_tgid", 120); ("BPF_FUNC_xdp_output", 121);
   ("BPF_FUNC_get_netns_cookie", 122); ("BPF_FUNC_get_current_ancestor_cgroup_id", 123);
   ("BPF_FUNC_sk_assign", 124); ("BPF_FUNC_ktime_get_boot_ns", 125);
   ("BPF_FUNC_seq_printf", 126); ("BPF_FUNC_seq_write", 127); ("BPF_FUNC_sk_cgroup_id", 128);
   ("BPF_FUNC_sk_ancestor_cgroup_id", 129); ("BPF_FUNC_ringbuf_output", 130);
   ("BPF_FUNC_ringbuf_reserve", 131); ("BPF_FUNC_ringbuf_submit", 132);
   ("BPF_FUNC_ringbuf_discard", 133); ("BPF_FUNC_ringbuf_query", 134);
   ("BPF_FUNC_csum_level", 135); ("BPF_FUNC_skc_to_tcp6_sock", 136);
   ("BPF_FUNC_skc_to_tcp_sock", 137); ("BPF_FUNC_skc_to_tcp_timewait_sock", 138);
   ("BPF_FUNC_skc_to_tcp_request_sock", 139); ("BPF_FUNC_skc_to_udp6_sock", 140);
   ("BPF_FUNC_get_task_stack", 141); ("BPF_FUNC_load_hdr_opt", 142);
   ("BPF_FUNC_store_hdr_opt", 143); ("BPF_FUNC_reserve_hdr_opt", 144);
   ("BPF_FUNC_inode_storage_get", 145); ("BPF_FUNC_inode_storage_delete", 146);
   ("BPF_FUNC_d_path", 147); ("BPF_FUNC_copy_from_user", 148); ("BPF_FUNC_snprintf_btf", 149);
   ("BPF_FUNC_seq_printf_btf", 150); ("BPF_FUNC_skb_cgroup_classid", 151);
   ("BPF_FUNC_redirect_neigh", 152); ("BPF_FUNC_bpf_per_cpu_ptr", 153);
   ("BPF_FUNC_bpf_this_cpu_ptr", 154); ("BPF_FUNC_redirect_peer", 155);
   ("__BPF_FUNC_MAX_ID", 156); ("__BPF_BYTEDANCE_FUNC_MIN_ID", 1073741823);
   ("BPF_FUNC_unsafe_helper", 1073741824); ("__BPF_BYTEDANCE_FUNC_MAX_ID", 1073741825)].

Local Close Scope string_scope.

(** ** Calls by number *)

(** The kernel finds a helper by the number in the [call] instruction. *)
Definition resolve (imm : Z) : option helper :=
  List.find (fun h => h_id h =? imm) helper_table.

Definition enum_value (name : string) : option Z :=
  snd <$> List.find (fun e => String.eqb e.1 name) bpf_func_id.

(** The enumerator of a helper: "BPF_FUNC_" and the name without its "bpf_"
    prefix, or with it. *)
Definition func_id_of (h : helper) : option Z :=
  match enum_value ("BPF_FUNC_" ++ String.substring 4 (String.length (h_name h)) (h_name h))%string with
  | Some v => Some v
  | None => enum_value ("BPF_FUNC_" ++ h_name h)%string
  end.

Lemma helper_table_forall (P : helper -> bool) :
  forallb P helper_table = true -> forall h, h ∈ helper_table -> P h = true.
Proof. intros E h Hh. rewrite forallb_forall in E. apply E. by apply list_elem_of_In. Qed.

Lemma helper_ids : map h_id helper_table = seqZ 1 180.
Proof. by_vm. Qed.

(** With distinct numbers, the search stops at the element itself. *)
Lemma find_unique (l : list helper) (h : helper) :
  NoDup (map h_id l) -> h ∈ l -> List.find (fun h' => h_id h' =? h_id h) l = Some h.
Proof.
  induction l as [|x l IH]; cbn [map List.find]; intros Hnd Hh; [by apply not_elem_of_nil in Hh|].
  apply NoDup_cons in Hnd as [Hx Hnd]. apply elem_of_cons in Hh as [->|Hh].
  - by rewrite Z.eqb_refl.
  - destruct (Z.eqb_spec (h_id x) (h_id h)) as [E|_]; [|by apply IH].
    destruct Hx. rewrite E. apply list_elem_of_fmap. by exists h.
Qed.

Lemma helper_resolve h : h ∈ helper_table <-> resolve (h_id h) = Some h.
Proof.
  split.
  - apply find_unique. rewrite helper_ids. apply NoDup_seqZ.
  - intros Hr. apply list_elem_of_In. by apply (find_some _ _ Hr).
Qed.

(** ** Properties of the declarations *)

(** The declared numbers are 1 to 180 without gap or repetition, the names are
    all different, and a number finds exactly the declaration that has it. *)
Theorem helper_numbers_resolve :
  map h_id helper_table = seqZ 1 180 /\ NoDup (map h_name helper_table) /\
  forall h, h ∈ helper_table <-> resolve (h_id h) = Some h.
Proof.
  split_and!; [exact helper_ids| |exact helper_resolve].
  apply (bool_decide_eq_true_1 _). by_vm.
Qed.

(** Every declared helper can be called: it has at most five parameters, each
    of a type that fits a register, and a call with as many arguments compiles
    to moves into r1, r2, ... and a [call] of its number. *)
Theorem helpers_fit_registers (h : helper) (args : list operand) :
  h ∈ helper_table -> length args = length (h_params h) ->
  compile_call h args = Some (imap (fun i a => Mov (S i) a) args ++ [Call (h_id h)]) /\
  (forall t name, (t, name) ∈ h_params h -> exists n, width t = Some n /\ (n <= 8)%nat).
Proof.
  intros Hh Hlen.
  pose proof (helper_table_forall (fun h => (length (h_params h) <=? 5)%nat &&
    forallb (fun p => match width p.1 with Some n => (n <=? 8)%nat | None => false end) (h_params h))
    ltac:(by_vm) h Hh) as E.
  apply andb_true_iff in E as [Hn Hw]. apply Nat.leb_le in Hn. split.
  - unfold compile_call, arity_ok. rewrite Hlen, Nat.leb_refl, Nat.eqb_refl.
    apply Nat.leb_le in Hn. unfold max_args. rewrite Hn. by destruct (h_variadic h).
  - intros t name Hin. rewrite forallb_forall in Hw.
    specialize (Hw (t, name) ltac:(by apply list_elem_of_In)). cbn in Hw.
    destruct (width t) as [n|]; [|done]. exists n. split; [done|]. by apply Nat.leb_le.
Qed.

Lemma helpers_fit_registers_witness :
  compile_call bpf_map_lookup_elem [Reg 6; Reg 7] = Some [Mov 1 (Reg 6); Mov 2 (Reg 7); Call 1].
Proof.
  refine (proj1 (helpers_fit_registers bpf_map_lookup_elem [Reg 6; Reg 7] _ eq_refl)).
  unfold helper_table. by left.
Defined.

(** The kernel's enumeration knows the helpers below its maximum, 156, by the
    numbers the header gives them, and does not know the others. *)
Theorem kernel_knows_helpers (h : helper) :
  h ∈ helper_table -> func_id_of h = if h_id h <? 156 then Some (h_id h) else None.
Proof.
  intros Hh. apply (bool_decide_eq_true_1 _).
  by apply (helper_table_forall (fun h => bool_decide
    (func_id_of h = if h_id h <? 156 then Some (h_id h) else None)) ltac:(by_vm) h Hh).
Qed.

Lemma kernel_knows_helpers_witness : func_id_of bpf_redirect_peer = Some 155.
Proof.
  apply (kernel_knows_helpers bpf_redirect_peer). apply list_elem_of_In.
  apply (find_some (fun h => h_id h =? 155)). by_vm.
Defined.

(** Helpers documented to return a negative error are declared with a type
    that has negative values, with one exception, [bpf_perf_event_read], whose
    [__u64] result is never below zero.  NULL is documented only for
    pointer types, "nothing" exactly for [void], and error names
    only where a negative error is documented. *)
Theorem documented_errors_representable (h : helper) :
  h ∈ helper_table ->
  (fails_negative (h_returns h) = true ->
     (exists v, ctype_value (h_ret h) v = true /\ v < 0) <-> h <> bpf_perf_event_read) /\
  (h_returns h = PointerOrNull -> is_pointer (h_ret h) = true) /\
  (h_returns h = Nothing <-> h_ret h = Void) /\
  (h_errnos h <> [] -> fails_negative (h_returns h) = true).
Proof.
  intros Hh.
  pose proof (helper_table_forall (fun h =>
    implb (fails_negative (h_returns h))
      (Bool.eqb (ctype_value (h_ret h) (-1)) (negb (h_id h =? 22))) &&
    implb (bool_decide (h_returns h = PointerOrNull)) (is_pointer (h_ret h)) &&
    Bool.eqb (bool_decide (h_returns h = Nothing)) (bool_decide (h_ret h = Void)) &&
    implb (negb (bool_decide (h_errnos h = []))) (fails_negative (h_returns h)))
    ltac:(by_vm) h Hh) as E.
  apply andb_true_iff in E as [E Eerr]. apply andb_true_iff in E as [E Evoid]. apply andb_true_iff in E as [Eneg Eptr].
  assert (h_id h = 22 <-> h = bpf_perf_event_read) as H22.
  { split; [|by intros ->]. intros Eid.
    apply helper_resolve in Hh. rewrite Eid in Hh.
    assert (resolve 22 = Some bpf_perf_event_read) as E22 by by_vm. congruence. }
  split_and!.
  - intros Hf. rewrite Hf in Eneg. cbn in Eneg. apply Bool.eqb_prop in Eneg.
    rewrite <- H22. rewrite <- Z.eqb_neq, <- negb_true_iff, <- Eneg. split.
    + intros (v & Hv & Hneg). unfold ctype_value in *. destruct (width (h_ret h)) as [n|]; [|done].
      destruct (is_signed (h_ret h)).
      * assert (0 < 2 ^ (8 * Z.of_nat n - 1)) by (apply andb_true_iff in Hv as [?%Z.leb_le _]; lia).
        apply andb_true_iff. split; [apply Z.leb_le|apply Z.ltb_lt]; lia.
      * apply andb_true_iff in Hv as [?%Z.leb_le _]. lia.
    + intros Hv. exists (-1). split; [done|lia].
  - intros Hp. rewrite bool_decide_eq_true_2 in Eptr by done. done.
  - apply Bool.eqb_prop in Evoid.
    rewrite <- (bool_decide_eq_true (h_returns h = Nothing)),
      <- (bool_decide_eq_true (h_ret h = Void)). by rewrite Evoid.
  - intros He. by rewrite bool_decide_eq_false_2 in Eerr by done.
Qed.

Lemma documented_errors_representable_witness :
  ~ exists v, ctype_value (h_ret bpf_perf_event_read) v = true /\ v < 0.
Proof.
  intros Hv. apply (documented_errors_representable bpf_perf_event_read) in Hv; try done.
  apply list_elem_of_In. apply (find_some (fun h => h_id h =? 22)). by_vm.
Defined.

(** [bpf_tail_call_static] emits what a call of [bpf_tail_call] with the same
    arguments compiles to. *)
Theorem bpf_tail_call_static_call (ctx map : operand) (slot : Z) :
  bpf_tail_call_static ctx map (Some slot) = compile_call bpf_tail_call [ctx; map; Imm slot].
Proof. done. Qed.

(** C39. [bpf_printk] with up to twelve arguments compiles to one helper call that
    fits the registers: [bpf_trace_printk] with the arguments themselves for up
    to three, [bpf_trace_vprintk] with the address and size of an array that
    holds them above.  With more arguments it does not expand. *)
Theorem bpf_printk_compiles (junk : nat -> Z) (fmt : string) (args : list Z) :
  match bpf_printk bpf_trace_printk bpf_trace_vprintk junk fmt args with
  | Some (h, ops) =>
      (length args <= 12)%nat /\ is_Some (compile_call h ops) /\
      if (length args <=? 3)%nat
      then h = bpf_trace_printk /\ ops = [StrAddr fmt; Imm (sizeof_str fmt)] ++ map Imm args
      else h = bpf_trace_vprintk /\
        ops = [StrAddr fmt; Imm (sizeof_str fmt); ArrAddr (map (uwrap 64) args);
               Imm (8 * Z.of_nat (length args))]
  | None => (12 < length args)%nat
  end.
Proof.
  unfold bpf_printk. rewrite bpf_pick_printk_spec.
  destruct (Nat.leb_spec (length args) 12); [|done].
  destruct (Nat.leb_spec (length args) 3).
  - split_and!; [done| |done|done]. apply compile_call_some. unfold arity_ok, max_args. cbn.
    rewrite length_map. split; [by destruct (length args)|lia].
  - unfold bpf_vprintk. rewrite fill_params_spec.
    destruct (Nat.leb_spec (length args) 12); [|lia].
    split_and!; [done| |done|by rewrite length_map]. by eexists.
Qed.

End HelperDefs.
