(* ===== verification/Tracing.v ===== *)
(** * Tracing macros: src/ebpf/src/headers/bpf_tracing.h

    The choice of the target architecture, the register accessors
    [PT_REGS_*] and [PT_REGS_*_CORE] of every target, the macros that read a
    return address, and the argument casts behind [BPF_PROG], [BPF_KPROBE] and
    [BPF_KRETPROBE].  The register structure of the kernel the program is built
    for is [struct pt_regs] of src/ebpf/src/kernel/vmlinux.h. *)

From Stdlib Require Import ZArith Lia String.
From stdpp Require Import base list sets strings.
From S2P Require Import Prelude Layout Helpers.
Import Layout Helpers.

Local Open Scope string_scope.
Local Open Scope list_scope.

Module Tracing.

(** ** The target *)

Inductive target := x86 | s390 | arm | arm64 | mips | powerpc | sparc | riscv.

#[export] Instance target_eq_dec : EqDecision target.
Proof. solve_decision. Defined.

(** The macros the compiler and the command line define, and the value of
    [__riscv_xlen]. *)
Record cpp_env := mk_env { defined : string -> bool; riscv_xlen : Z }.

(** The first branch of an [#if]/[#elif] chain whose condition holds. *)
Fixpoint first_defined (env : cpp_env) (chain : list (string * target)) : option target :=
  match chain with
  | [] => None
  | (macro, t) :: rest => if defined env macro then Some t else first_defined env rest
  end.

(** [__TARGET_ARCH_*] decides; without it, what the compiler says. *)
Definition bpf_target (env : cpp_env) : option target :=
  match first_defined env
    [("__TARGET_ARCH_x86", x86); ("__TARGET_ARCH_s390", s390); ("__TARGET_ARCH_arm", arm);
     ("__TARGET_ARCH_arm64", arm64); ("__TARGET_ARCH_mips", mips);
     ("__TARGET_ARCH_powerpc", powerpc); ("__TARGET_ARCH_sparc", sparc);
     ("__TARGET_ARCH_riscv", riscv)] with
  | Some t => Some t
  | None =>
      match first_defined env
        [("__x86_64__", x86); ("__s390__", s390); ("__arm__", arm); ("__aarch64__", arm64);
         ("__mips__", mips); ("__powerpc__", powerpc); ("__sparc__", sparc)] with
      | Some t => Some t
      | None => if defined env "__riscv" && Z.eqb (riscv_xlen env) 64 then Some riscv else None
      end
  end.

(** ** Register accessors *)

Inductive pt_reg := PARM1 | PARM2 | PARM3 | PARM4 | PARM5 | RET | FP | RC | SP | IP.

(** Where an accessor reads: a member of the register structure, an element of
    a member array (by number or by enumerator), or nothing (the constant 0).
    An accessor that the target does not define is [None]. *)
Inductive location :=
  | Field (member : string)
  | Index (member : string) (index : string)
  | Constant0.

#[export] Instance pt_reg_eq_dec : EqDecision pt_reg.
Proof. solve_decision. Defined.
#[export] Instance location_eq_dec : EqDecision location.
Proof. solve_decision. Defined.

Definition PT_REGS_x86_kernel (m : pt_reg) : option location :=
  match m with
  | PARM1 => Some (Field "di")
  | PARM2 => Some (Field "si")
  | PARM3 => Some (Field "dx")
  | PARM4 => Some (Field "cx")
  | PARM5 => Some (Field "r8")
  | RET => Some (Field "sp")
  | FP => Some (Field "bp")
  | RC => Some (Field "ax")
  | SP => Some (Field "sp")
  | IP => Some (Field "ip")
  end.

Definition PT_REGS_x86_kernel_CORE (m : pt_reg) : option location :=
  match m with
  | PARM1 => Some (Field "di")
  | PARM2 => Some (Field "si")
  | PARM3 => Some (Field "dx")
  | PARM4 => Some (Field "cx")
  | PARM5 => Some (Field "r8")
  | RET => Some (Field "sp")
  | FP => Some (Field "bp")
  | RC => Some (Field "ax")
  | SP => Some (Field "sp")
  | IP => Some (Field "ip")
  end.

Definition PT_REGS_i386 (m : pt_reg) : option location :=
  match m with
  | PARM1 => Some (Field "eax")
  | PARM2 => Some (Field "edx")
  | PARM3 => Some (Field "ecx")
  | PARM4 => Some Constant0
  | PARM5 => Some Constant0
  | RET => Some (Field "esp")
  | FP => Some (Field "ebp")
  | RC => Some (Field "eax")
  | SP => Some (Field "esp")
  | IP => Some (Field "eip")
  end.

Definition PT_REGS_i386_CORE (m : pt_reg) : option location :=
  match m with
  | PARM1 => Some (Field "eax")
  | PARM2 => Some (Field "edx")
  | PARM3 => Some (Field "ecx")
  | PARM4 => Some Constant0
  | PARM5 => Some Constant0
  | RET => Some (Field "esp")
  | FP => Some (Field "ebp")
  | RC => Some (Field "eax")
  | SP => Some (Field "esp")
  | IP => Some (Field "eip")
  end.

Definition PT_REGS_x86_64_user (m : pt_reg) : option location :=
  match m with
  | PARM1 => Some (Field "rdi")
  | PARM2 => Some (Field "rsi")
  | PARM3 => Some (Field "rdx")
  | PARM4 => Some (Field "rcx")
  | PARM5 => Some (Field "r8")
  | RET => Some (Field "rsp")
  | FP => Some (Field "rbp")
  | RC => Some (Field "rax")
  | SP => Some (Field "rsp")
  | IP => Some (Field "rip")
  end.

Definition PT_REGS_x86_64_user_CORE (m : pt_reg) : option location :=
  match m with
  | PARM1 => Some (Field "rdi")
  | PARM2 => Some (Field "rsi")
  | PARM3 => Some (Field "rdx")
  | PARM4 => Some (Field "rcx")
  | PARM5 => Some (Field "r8")
  | RET => Some (Field "rsp")
  | FP => Some (Field "rbp")
  | RC => Some (Field "rax")
  | SP => Some (Field "rsp")
  | IP => Some (Field "rip")
  end.

Definition PT_REGS_s390 (m : pt_reg) : option location :=
  match m with
  | PARM1 => Some (Index "gprs" "2")
  | PARM2 => Some (Index "gprs" "3")
  | PARM3 => Some (Index "gprs" "4")
  | PARM4 => Some (Index "gprs" "5")
  | PARM5 => Some (Index "gprs" "6")
  | RET => Some (Index "gprs" "14")
  | FP => Some (Index "gprs" "11")
  | RC => Some (Index "gprs" "2")
  | SP => Some (Index "gprs" "15")
  | IP => Some (Field "psw.addr")
  end.

Definition PT_REGS_s390_CORE (m : pt_reg) : option location :=
  match m with
  | PARM1 => Some (Index "gprs" "2")
  | PARM2 => Some (Index "gprs" "3")
  | PARM3 => Some (Index "gprs" "4")
  | PARM4 => Some (Index "gprs" "5")
  | PARM5 => Some (Index "gprs" "6")
  | RET => Some (Index "gprs" "14")
  | FP => Some (Index "gprs" "11")
  | RC => Some (Index "gprs" "2")
  | SP => Some (Index "gprs" "15")
  | IP => Some (Field "psw.addr")
  end.

Definition PT_REGS_arm (m : pt_reg) : option location :=
  match m with
  | PARM1 => Some (Index "uregs" "0")
  | PARM2 => Some (Index "uregs" "1")
  | PARM3 => Some (Index "uregs" "2")
  | PARM4 => Some (Index "uregs" "3")
  | PARM5 => Some (Index "uregs" "4")
  | RET => Some (Index "uregs" "14")
  | FP => Some (Index "uregs" "11")
  | RC => Some (Index "uregs" "0")
  | SP => Some (Index "uregs" "13")
  | IP => Some (Index "uregs" "12")
  end.

Definition PT_REGS_arm_CORE (m : pt_reg) : option location :=
  match m with
  | PARM1 => Some (Index "uregs" "0")
  | PARM2 => Some (Index "uregs" "1")
  | PARM3 => Some (Index "uregs" "2")
  | PARM4 => Some (Index "uregs" "3")
  | PARM5 => Some (Index "uregs" "4")
  | RET => Some (Index "uregs" "14")
  | FP => Some (Index "uregs" "11")
  | RC => Some (Index "uregs" "0")
  | SP => Some (Index "uregs" "13")
  | IP => Some (Index "uregs" "12")
  end.

Definition PT_REGS_arm64 (m : pt_reg) : option location :=
  match m with
  | PARM1 => Some (Index "regs" "0")
  | PARM2 => Some (Index "regs" "1")
  | PARM3 => Some (Index "regs" "2")
  | PARM4 => Some (Index "regs" "3")
  | PARM5 => Some (Index "regs" "4")
  | RET => Some (Index "regs" "30")
  | FP => Some (Index "regs" "29")
  | RC => Some (Index "regs" "0")
  | SP => Some (Field "sp")
  | IP => Some (Field "pc")
  end.

Definition PT_REGS_arm64_CORE (m : pt_reg) : option location :=
  match m with
  | PARM1 => Some (Index "regs" "0")
  | PARM2 => Some (Index "regs" "1")
  | PARM3 => Some (Index "regs" "2")
  | PARM4 => Some (Index "regs" "3")
  | PARM5 => Some (Index "regs" "4")
  | RET => Some (Index "regs" "30")
  | FP => Some (Index "regs" "29")
  | RC => Some (Index "regs" "0")
  | SP => Some (Field "sp")
  | IP => Some (Field "pc")
  end.

Definition PT_REGS_mips (m : pt_reg) : option location :=
  match m with
  | PARM1 => Some (Index "regs" "4")
  | PARM2 => Some (Index "regs" "5")
  | PARM3 => Some (Index "regs" "6")
  | PARM4 => Some (Index "regs" "7")
  | PARM5 => Some (Index "regs" "8")
  | RET => Some (Index "regs" "31")
  | FP => Some (Index "regs" "30")
  | RC => Some (Index "regs" "2")
  | SP => Some (Index "regs" "29")
  | IP => Some (Field "cp0_epc")
  end.

Definition PT_REGS_mips_CORE (m : pt_reg) : option location :=
  match m with
  | PARM1 => Some (Index "regs" "4")
  | PARM2 => Some (Index "regs" "5")
  | PARM3 => Some (Index "regs" "6")
  | PARM4 => Some (Index "regs" "7")
  | PARM5 => Some (Index "regs" "8")
  | RET => Some (Index "regs" "31")
  | FP => Some (Index "regs" "30")
  | RC => Some (Index "regs" "2")
  | SP => Some (Index "regs" "29")
  | IP => Some (Field "cp0_epc")
  end.

Definition PT_REGS_powerpc (m : pt_reg) : option location :=
  match m with
  | PARM1 => Some (Index "gpr" "3")
  | PARM2 => Some (Index "gpr" "4")
  | PARM3 => Some (Index "gpr" "5")
  | PARM4 => Some (Index "gpr" "6")
  | PARM5 => Some (Index "gpr" "7")
  | RC => Some (Index "gpr" "3")
  | SP => Some (Field "sp")
  | IP => Some (Field "nip")
  | RET | FP => None
  end.

Definition PT_REGS_powerpc_CORE (m : pt_reg) : option location :=
  match m with
  | PARM1 => Some (Index "gpr" "3")
  | PARM2 => Some (Index "gpr" "4")
  | PARM3 => Some (Index "gpr" "5")
  | PARM4 => Some (Index "gpr" "6")
  | PARM5 => Some (Index "gpr" "7")
  | RC => Some (Index "gpr" "3")
  | SP => Some (Field "sp")
  | IP => Some (Field "nip")
  | RET | FP => None
  end.

Definition PT_REGS_sparc (arch64 : bool) (m : pt_reg) : option location :=
  match m with
  | PARM1 => Some (Index "u_regs" "UREG_I0")
  | PARM2 => Some (Index "u_regs" "UREG_I1")
  | PARM3 => Some (Index "u_regs" "UREG_I2")
  | PARM4 => Some (Index "u_regs" "UREG_I3")
  | PARM5 => Some (Index "u_regs" "UREG_I4")
  | RET => Some (Index "u_regs" "UREG_I7")
  | RC => Some (Index "u_regs" "UREG_I0")
  | SP => Some (Index "u_regs" "UREG_FP")
  | IP => Some (Field (if arch64 then "tpc" else "pc"))
  | FP => None
  end.

Definition PT_REGS_sparc_CORE (arch64 : bool) (m : pt_reg) : option location :=
  match m with
  | PARM1 => Some (Index "u_regs" "UREG_I0")
  | PARM2 => Some (Index "u_regs" "UREG_I1")
  | PARM3 => Some (Index "u_regs" "UREG_I2")
  | PARM4 => Some (Index "u_regs" "UREG_I3")
  | PARM5 => Some (Index "u_regs" "UREG_I4")
  | RET => Some (Index "u_regs" "UREG_I7")
  | RC => Some (Index "u_regs" "UREG_I0")
  | SP => Some (Index "u_regs" "UREG_FP")
  | IP => Some (Field (if arch64 then "tpc" else "pc"))
  | FP => None
  end.

Definition PT_REGS_riscv (m : pt_reg) : option location :=
  match m with
  | PARM1 => Some (Field "a0")
  | PARM2 => Some (Field "a1")
  | PARM3 => Some (Field "a2")
  | PARM4 => Some (Field "a3")
  | PARM5 => Some (Field "a4")
  | RET => Some (Field "ra")
  | FP => Some (Field "s5")
  | RC => Some (Field "a5")
  | SP => Some (Field "sp")
  | IP => Some (Field "epc")
  end.

Definition PT_REGS_riscv_CORE (m : pt_reg) : option location :=
  match m with
  | PARM1 => Some (Field "a0")
  | PARM2 => Some (Field "a1")
  | PARM3 => Some (Field "a2")
  | PARM4 => Some (Field "a3")
  | PARM5 => Some (Field "a4")
  | RET => Some (Field "ra")
  | FP => Some (Field "fp")
  | RC => Some (Field "a5")
  | SP => Some (Field "sp")
  | IP => Some (Field "epc")
  end.

(** *** The kernel's register structure *)

(** The members of [struct pt_regs], each a [long unsigned int]. *)
Definition pt_regs_members : list string :=
  ["r15"; "r14"; "r13"; "r12"; "bp"; "bx"; "r11"; "r10"; "r9"; "r8";
   "ax"; "cx"; "dx"; "si"; "di"; "orig_ax"; "ip"; "cs";
   "flags"; "sp"; "ss"].

Definition pt_regs_fields : list field := map (fun r => mkField r 8) pt_regs_members.

(** The accessors in force: [core] selects the [_CORE] variants. *)
Definition PT_REGS (env : cpp_env) (core : bool) (m : pt_reg) : option location :=
  let pick (plain core_variant : pt_reg -> option location) :=
    if core then core_variant m else plain m in
  match bpf_target env with
  | Some x86 =>
      if defined env "__KERNEL__" || defined env "__VMLINUX_H__"
      then pick PT_REGS_x86_kernel PT_REGS_x86_kernel_CORE
      else if defined env "__i386__" then pick PT_REGS_i386 PT_REGS_i386_CORE
      else pick PT_REGS_x86_64_user PT_REGS_x86_64_user_CORE
  | Some s390 => pick PT_REGS_s390 PT_REGS_s390_CORE
  | Some arm => pick PT_REGS_arm PT_REGS_arm_CORE
  | Some arm64 => pick PT_REGS_arm64 PT_REGS_arm64_CORE
  | Some mips => pick PT_REGS_mips PT_REGS_mips_CORE
  | Some powerpc => pick PT_REGS_powerpc PT_REGS_powerpc_CORE
  | Some sparc => pick (PT_REGS_sparc (defined env "__arch64__"))
                    (PT_REGS_sparc_CORE (defined env "__arch64__"))
  | Some riscv => pick PT_REGS_riscv PT_REGS_riscv_CORE
  | None => None
  end.

(** *** Return addresses *)

(** How a return address is obtained: from a member of the structure, or by
    reading kernel memory at a register's value plus an offset. *)
Inductive ret_ip :=
  | InRegister (r : location)
  | InMemory (r : location) (offset : Z).

Definition through (r : option location) (f : location -> ret_ip) : option ret_ip := f <$> r.

Definition BPF_KPROBE_READ_RET_IP (env : cpp_env) (sizeof_ip : Z) : option ret_ip :=
  match bpf_target env with
  | Some powerpc => Some (InRegister (Field "link"))
  | Some sparc => through (PT_REGS env false RET) InRegister
  | Some _ => through (PT_REGS env false RET) (fun r => InMemory r 0)
  | None => None
  end.

Definition BPF_KRETPROBE_READ_RET_IP (env : cpp_env) (sizeof_ip : Z) : option ret_ip :=
  match bpf_target env with
  | Some powerpc | Some sparc => BPF_KPROBE_READ_RET_IP env sizeof_ip
  | Some _ => through (PT_REGS env false FP) (fun r => InMemory r sizeof_ip)
  | None => None
  end.

(** ** Argument casts *)

(** The expressions the wrappers pass to the program's body. *)
Inductive cast_arg :=
  | Ctx               (* ctx *)
  | CtxIndex (i : nat) (* the word ctx[i], as a pointer *)
  | CtxReg (m : pt_reg). (* an accessor applied to ctx, as a pointer *)

(** [___bpf_ctx_cast0] to [___bpf_ctx_cast12]: each drops an argument and adds
    its own expression behind those of the one before. *)
Fixpoint bpf_ctx_cast_n {A} (n : nat) (args : list A) : option (list cast_arg) :=
  match n, args with
  | O, [] => Some [Ctx]
  | S n', _ :: args' =>
      match bpf_ctx_cast_n n' args' with
      | Some l => Some (l ++ [CtxIndex n'])
      | None => None
      end
  | _, _ => None
  end.

Definition bpf_ctx_cast {A} (args : list A) : option (list cast_arg) :=
  match bpf_narg args with
  | Some n => bpf_ctx_cast_n n args
  | None => None
  end.

Definition parm (n : nat) : option pt_reg :=
  [PARM1; PARM2; PARM3; PARM4; PARM5] !! n.

(** [___bpf_kprobe_args0] to [___bpf_kprobe_args5]; there is no sixth. *)
Fixpoint bpf_kprobe_args_n {A} (n : nat) (args : list A) : option (list cast_arg) :=
  match n, args with
  | O, [] => Some [Ctx]
  | S n', _ :: args' =>
      match bpf_kprobe_args_n n' args', parm n' with
      | Some l, Some m => Some (l ++ [CtxReg m])
      | _, _ => None
      end
  | _, _ => None
  end.

Definition bpf_kprobe_args {A} (args : list A) : option (list cast_arg) :=
  match bpf_narg args with
  | Some n => bpf_kprobe_args_n n args
  | None => None
  end.

(** [___bpf_kretprobe_args0] and [___bpf_kretprobe_args1]. *)
Definition bpf_kretprobe_args {A} (args : list A) : option (list cast_arg) :=
  match bpf_narg args with
  | Some O => Some [Ctx]
  | Some 1%nat => Some [Ctx; CtxReg RC]
  | _ => None
  end.

(** [BPF_PROG], [BPF_KPROBE] and [BPF_KRETPROBE] define a function of the
    context alone that calls the body with the casts. *)
Inductive prog_kind := BPF_PROG | BPF_KPROBE | BPF_KRETPROBE.

Definition wrapper_call {A} (k : prog_kind) (args : list A) : option (list cast_arg) :=
  match k with
  | BPF_PROG => bpf_ctx_cast args
  | BPF_KPROBE => bpf_kprobe_args args
  | BPF_KRETPROBE => bpf_kretprobe_args args
  end.

(** *** Evaluation *)

Section eval.
Context (env : cpp_env) (ctx : Z) (word : nat -> Z) (read : location -> Z).

(** The word a cast yields: [word] reads the context as an array, [read] a
    location of the register structure. *)
Definition eval_cast (a : cast_arg) : option Z :=
  match a with
  | Ctx => Some ctx
  | CtxIndex i => Some (word i)
  | CtxReg m => read <$> PT_REGS env false m
  end.

Fixpoint eval_casts (l : list cast_arg) : option (list Z) :=
  match l with
  | [] => Some []
  | a :: l' =>
      match eval_cast a, eval_casts l' with
      | Some v, Some vs => Some (v :: vs)
      | _, _ => None
      end
  end.

Definition run_wrapper {A} (k : prog_kind) (args : list A) : option (list Z) :=
  match wrapper_call k args with Some l => eval_casts l | None => None end.
End eval.

(** ** Lemmas *)

Lemma bpf_ctx_cast_n_spec {A} (args : list A) :
  bpf_ctx_cast_n (length args) args = Some (Ctx :: map CtxIndex (seq 0 (length args))).
Proof.
  induction args as [|a args IH]; [done|]. cbn [length bpf_ctx_cast_n]. rewrite IH.
  by rewrite seq_S, map_app.
Qed.

Lemma bpf_kprobe_args_n_spec {A} (args : list A) :
  bpf_kprobe_args_n (length args) args =
  if (length args <=? 5)%nat
  then Some (Ctx :: map CtxReg (take (length args) [PARM1; PARM2; PARM3; PARM4; PARM5]))
  else None.
Proof.
  induction args as [|a args IH]; [done|]. cbn [length bpf_kprobe_args_n]. rewrite IH. clear IH.
  do 5 (destruct args as [|? args]; [done|]). cbn [length].
  destruct (Nat.leb_spec (S (S (S (S (S (length args)))))) 5); [|done].
  destruct args; cbn in *; [done|lia].
Qed.

Lemma eval_casts_map env ctx word read l vs :
  Forall2 (fun a v => eval_cast env ctx word read a = Some v) l vs ->
  eval_casts env ctx word read l = Some vs.
Proof. induction 1 as [|a v l vs Ha _ IH]; [done|]. cbn. by rewrite Ha, IH. Qed.

(** ** Properties *)

(** [BPF_PROG] passes the context and its first words, in order and one per
    declared argument, for up to twelve arguments, and does not expand for
    more. *)
Theorem BPF_PROG_arguments {A} (env : cpp_env) (ctx : Z) (word : nat -> Z) (read : location -> Z)
    (args : list A) :
  run_wrapper env ctx word read BPF_PROG args =
  if (length args <=? 12)%nat then Some (ctx :: map word (seq 0 (length args))) else None.
Proof.
  unfold run_wrapper, wrapper_call, bpf_ctx_cast. rewrite bpf_narg_spec.
  destruct (length args <=? 12)%nat; [|done]. rewrite bpf_ctx_cast_n_spec.
  apply eval_casts_map. constructor; [done|].
  induction (seq 0 (length args)) as [|i l IH]; [by constructor|]. by constructor.
Qed.

(** On the kernel the program is built for (x86 with vmlinux.h), [BPF_KPROBE]
    passes the context and the registers di, si, dx, cx, r8 of the C calling
    convention, one per declared argument, for up to five; [BPF_KRETPROBE]
    passes the context and at most the return value, ax. *)
Theorem x86_probe_arguments {A} (env : cpp_env) (ctx : Z) (word : nat -> Z)
    (read : location -> Z) (args : list A) :
  defined env "__TARGET_ARCH_x86" = true -> defined env "__VMLINUX_H__" = true ->
  run_wrapper env ctx word read BPF_KPROBE args =
    (if (length args <=? 5)%nat
     then Some (ctx :: map (fun r => read (Field r)) (take (length args) ["di"; "si"; "dx"; "cx"; "r8"]))
     else None) /\
  run_wrapper env ctx word read BPF_KRETPROBE args =
    (if (length args <=? 1)%nat
     then Some (ctx :: map (fun r => read (Field r)) (take (length args) ["ax"]))
     else None).
Proof.
  intros Htgt Hvm.
  assert (forall m, PT_REGS env false m = PT_REGS_x86_kernel m) as Hregs.
  { intros m. unfold PT_REGS, bpf_target. cbn [first_defined]. rewrite Htgt. cbv iota.
    by rewrite Hvm, orb_true_r. }
  unfold run_wrapper, wrapper_call. split.
  - unfold bpf_kprobe_args. rewrite bpf_narg_spec.
    destruct (Nat.leb_spec (length args) 12).
    + rewrite bpf_kprobe_args_n_spec. destruct (Nat.leb_spec (length args) 5); [|done].
      apply eval_casts_map. constructor; [done|].
      do 6 (destruct args as [|? args];
        [cbn; repeat constructor; cbn; by rewrite Hregs|]). cbn in *. lia.
    + destruct (Nat.leb_spec (length args) 5); [lia|done].
  - unfold bpf_kretprobe_args. rewrite bpf_narg_spec.
    destruct args as [|? [|? args]]; cbn; [done|by rewrite Hregs|].
    by destruct (length args <=? 10)%nat.
Qed.

Definition ex_env : cpp_env :=
  mk_env (fun m => String.eqb m "__TARGET_ARCH_x86" || String.eqb m "__VMLINUX_H__") 0.

Lemma x86_probe_arguments_witness :
  run_wrapper ex_env 7 (fun _ => 0%Z) (fun r => if decide (r = Field "si") then 5 else 9)%Z
    BPF_KPROBE [tt; tt] = Some [7; 9; 5]%Z.
Proof.
  exact (proj1 (x86_probe_arguments ex_env 7 (fun _ => 0%Z)
    (fun r => if decide (r = Field "si") then 5 else 9)%Z [tt; tt] eq_refl eq_refl)).
Defined.

(** With vmlinux.h on x86, every accessor names a member of the kernel's
    [struct pt_regs], at the offset its position gives; the five argument
    accessors name five different ones. *)
Theorem x86_accessors_are_members (m : pt_reg) :
  exists r i, PT_REGS_x86_kernel m = Some (Field r) /\ pt_regs_members !! i = Some r /\
    offsetof pt_regs_fields i = (8 * i)%nat /\
    (forall m', m <> m' -> m ∈ [PARM1; PARM2; PARM3; PARM4; PARM5] ->
       m' ∈ [PARM1; PARM2; PARM3; PARM4; PARM5] -> PT_REGS_x86_kernel m' <> Some (Field r)).
Proof.
  destruct m; cbn;
    [exists "di", 14%nat | exists "si", 13%nat | exists "dx", 12%nat | exists "cx", 11%nat
    |exists "r8", 9%nat | exists "sp", 19%nat | exists "bp", 4%nat | exists "ax", 10%nat
    |exists "sp", 19%nat | exists "ip", 16%nat];
    (split_and!; [done..|]); intros [] Hne H1 H2; try done; set_solver.
Qed.

(** The [_CORE] accessors read the same locations as the plain ones, for every
    target and accessor but one: on riscv the plain frame pointer is s5 and the
    [_CORE] one is fp. *)
Theorem core_accessors_agree (env : cpp_env) (m : pt_reg) :
  PT_REGS env true m = PT_REGS env false m \/
  (bpf_target env = Some riscv /\ m = FP /\
   PT_REGS env false m = Some (Field "s5") /\ PT_REGS env true m = Some (Field "fp")).
Proof.
  unfold PT_REGS. destruct (bpf_target env) as [[]|]; try (by left; destruct m).
  destruct m; auto.
Qed.

(** On every target that is recognised, both return-address macros use only
    accessors that the target defines. *)
Theorem return_address_defined (env : cpp_env) (sizeof_ip : Z) :
  is_Some (bpf_target env) <->
  is_Some (BPF_KPROBE_READ_RET_IP env sizeof_ip) /\ is_Some (BPF_KRETPROBE_READ_RET_IP env sizeof_ip).
Proof.
  unfold BPF_KRETPROBE_READ_RET_IP, BPF_KPROBE_READ_RET_IP, PT_REGS.
  destruct (bpf_target env) as [t|].
  - split; intros _; [|by eexists]. destruct t; repeat case_match; split; by eexists.
  - split; [by intros [? [=]]|]. by intros [[? [=]] _].
Qed.

End Tracing.
