(* ===== verification/KernelTypes.v ===== *)
(** * Kernel types: the types of src/ebpf/src/kernel/vmlinux.h that eBPF
    programs and helpers exchange

    The contexts of the program types, the structs helpers take by pointer, the
    argument of bpf(2), and the enumerations of map types, program types, attach
    types, commands and flags, as the header declares them. *)

From Stdlib Require Import ZArith Lia String.
From stdpp Require Import base gmap list strings.
From S2P Require Import Prelude CTypes Layout Helpers HelperDefs Tracing.
Import CTypes.

Local Open Scope string_scope.
Local Open Scope Z_scope.

Module KernelTypes.

(** ** Scalars *)

Definition U8 : cty := Scalar 1.
Definition U16 : cty := Scalar 2.
Definition U32 : cty := Scalar 4.
Definition U64 : cty := Scalar 8.
(** A pointer to anything but a struct or union, or pointers to them. *)
Definition Ptr : cty := PtrTo "".

(** ** Structs and unions *)

Definition struct_pt_regs : cty :=
  Struct
    [("r15", U64); ("r14", U64); ("r13", U64); ("r12", U64); ("bp", U64); ("bx", U64);
     ("r11", U64); ("r10", U64); ("r9", U64); ("r8", U64); ("ax", U64); ("cx", U64);
     ("dx", U64); ("si", U64); ("di", U64); ("orig_ax", U64); ("ip", U64); ("cs", U64);
     ("flags", U64); ("sp", U64); ("ss", U64)].

Definition struct_path : cty :=
  Struct
    [("mnt", PtrTo "struct vfsmount"); ("dentry", PtrTo "struct dentry")].

Definition struct_sockaddr : cty :=
  Struct
    [("sa_family", U16); ("sa_data", Array 14 U8)].

Definition struct_tcphdr : cty :=
  Struct
    [("source", U16); ("dest", U16); ("seq", U32); ("ack_seq", U32); ("res1", Bits 2 4);
     ("doff", Bits 2 4); ("fin", Bits 2 1); ("syn", Bits 2 1); ("rst", Bits 2 1);
     ("psh", Bits 2 1); ("ack", Bits 2 1); ("urg", Bits 2 1); ("ece", Bits 2 1);
     ("cwr", Bits 2 1); ("window", U16); ("check", U16); ("urg_ptr", U16)].

Definition struct_bpf_insn : cty :=
  Struct
    [("code", U8); ("dst_reg", Bits 1 4); ("src_reg", Bits 1 4); ("off", U16); ("imm", U32)].

Definition struct_bpf_cgroup_storage_key : cty :=
  Struct
    [("cgroup_inode_id", U64); ("attach_type", U32)].

Definition union_bpf_attr : cty :=
  Union
    [("", Struct [("map_type", U32); ("key_size", U32); ("value_size", U32);
     ("max_entries", U32); ("map_flags", U32); ("inner_map_fd", U32); ("numa_node", U32);
     ("map_name", Array 16 U8); ("map_ifindex", U32); ("btf_fd", U32); ("btf_key_type_id", U32);
     ("btf_value_type_id", U32)]); ("", Struct [("map_fd", U32); ("key", U64); ("", Union
     [("value", U64); ("next_key", U64)]); ("flags", U64)]); ("", Struct [("prog_type", U32);
     ("insn_cnt", U32); ("insns", U64); ("license", U64); ("log_level", U32); ("log_size", U32);
     ("log_buf", U64); ("kern_version", U32); ("prog_flags", U32); ("prog_name", Array 16 U8);
     ("prog_ifindex", U32); ("expected_attach_type", U32); ("prog_btf_fd", U32);
     ("func_info_rec_size", U32); ("func_info", U64); ("func_info_cnt", U32);
     ("line_info_rec_size", U32); ("line_info", U64); ("line_info_cnt", U32)]); ("", Struct
     [("pathname", U64); ("bpf_fd", U32); ("file_flags", U32)]); ("", Struct
     [("target_fd", U32); ("attach_bpf_fd", U32); ("attach_type", U32); ("attach_flags", U32)]);
     ("test", Struct [("prog_fd", U32); ("retval", U32); ("data_size_in", U32);
     ("data_size_out", U32); ("data_in", U64); ("data_out", U64); ("repeat", U32);
     ("duration", U32); ("ctx_size_in", U32); ("ctx_size_out", U32); ("ctx_in", U64);
     ("ctx_out", U64)]); ("", Struct [("", Union [("start_id", U32); ("prog_id", U32);
     ("map_id", U32); ("btf_id", U32)]); ("next_id", U32); ("open_flags", U32)]);
     ("info", Struct [("bpf_fd", U32); ("info_len", U32); ("info", U64)]); ("query", Struct
     [("target_fd", U32); ("attach_type", U32); ("query_flags", U32); ("attach_flags", U32);
     ("prog_ids", U64); ("prog_cnt", U32)]); ("raw_tracepoint", Struct [("name", U64);
     ("prog_fd", U32)]); ("", Struct [("btf", U64); ("btf_log_buf", U64); ("btf_size", U32);
     ("btf_log_size", U32); ("btf_log_level", U32)]); ("task_fd_query", Struct [("pid", U32);
     ("fd", U32); ("flags", U32); ("buf_len", U32); ("buf", U64); ("prog_id", U32);
     ("fd_type", U32); ("probe_offset", U64); ("probe_addr", U64)])].

Definition struct_bpf_func_info : cty :=
  Struct
    [("insn_off", U32); ("type_id", U32)].

Definition struct_bpf_line_info : cty :=
  Struct
    [("insn_off", U32); ("file_name_off", U32); ("line_off", U32); ("line_col", U32)].

Definition struct_bpf_perf_event_value : cty :=
  Struct
    [("counter", U64); ("enabled", U64); ("running", U64)].

Definition struct_bpf_perf_event_data : cty :=
  Struct
    [("regs", struct_pt_regs); ("sample_period", U64); ("addr", U64)].

Definition struct_bpf_raw_tracepoint_args : cty :=
  Struct
    [("args", Array 0 U64)].

Definition struct_bpf_prog_info : cty :=
  Struct
    [("type", U32); ("id", U32); ("tag", Array 8 U8); ("jited_prog_len", U32);
     ("xlated_prog_len", U32); ("jited_prog_insns", U64); ("xlated_prog_insns", U64);
     ("load_time", U64); ("created_by_uid", U32); ("nr_map_ids", U32); ("map_ids", U64);
     ("name", Array 16 U8); ("ifindex", U32); ("gpl_compatible", Bits 4 1); ("netns_dev", U64);
     ("netns_ino", U64); ("nr_jited_ksyms", U32); ("nr_jited_func_lens", U32);
     ("jited_ksyms", U64); ("jited_func_lens", U64); ("btf_id", U32);
     ("func_info_rec_size", U32); ("func_info", U64); ("nr_func_info", U32);
     ("nr_line_info", U32); ("line_info", U64); ("jited_line_info", U64);
     ("nr_jited_line_info", U32); ("line_info_rec_size", U32);
     ("jited_line_info_rec_size", U32); ("nr_prog_tags", U32); ("prog_tags", U64);
     ("run_time_ns", U64); ("run_cnt", U64)].

Definition struct_bpf_map_info : cty :=
  Struct
    [("type", U32); ("id", U32); ("key_size", U32); ("value_size", U32); ("max_entries", U32);
     ("map_flags", U32); ("name", Array 16 U8); ("ifindex", U32); ("netns_dev", U64);
     ("netns_ino", U64); ("btf_id", U32); ("btf_key_type_id", U32); ("btf_value_type_id", U32)].

Definition struct_bpf_btf_info : cty :=
  Struct
    [("btf", U64); ("btf_size", U32); ("id", U32)].

Definition struct_bpf_spin_lock : cty :=
  Struct
    [("val", U32)].

Definition struct_bpf_lpm_trie_key : cty :=
  Struct
    [("prefixlen", U32); ("data", Array 0 U8)].

Definition struct_bpf_stack_build_id : cty :=
  Struct
    [("status", U32); ("build_id", Array 20 U8); ("", Union [("offset", U64); ("ip", U64)])].

Definition struct_bpf_flow_keys : cty :=
  Struct
    [("nhoff", U16); ("thoff", U16); ("addr_proto", U16); ("is_frag", U8);
     ("is_first_frag", U8); ("is_encap", U8); ("ip_proto", U8); ("n_proto", U16);
     ("sport", U16); ("dport", U16); ("", Union [("", Struct [("ipv4_src", U32);
     ("ipv4_dst", U32)]); ("", Struct [("ipv6_src", Array 4 U32); ("ipv6_dst", Array 4 U32)])]);
     ("flags", U32); ("flow_label", U32)].

Definition struct_bpf_sock : cty :=
  Struct
    [("bound_dev_if", U32); ("family", U32); ("type", U32); ("protocol", U32); ("mark", U32);
     ("priority", U32); ("src_ip4", U32); ("src_ip6", Array 4 U32); ("src_port", U32);
     ("dst_port", U32); ("dst_ip4", U32); ("dst_ip6", Array 4 U32); ("state", U32)].

Definition struct___sk_buff : cty :=
  Struct
    [("len", U32); ("pkt_type", U32); ("mark", U32); ("queue_mapping", U32); ("protocol", U32);
     ("vlan_present", U32); ("vlan_tci", U32); ("vlan_proto", U32); ("priority", U32);
     ("ingress_ifindex", U32); ("ifindex", U32); ("tc_index", U32); ("cb", Array 5 U32);
     ("hash", U32); ("tc_classid", U32); ("data", U32); ("data_end", U32); ("napi_id", U32);
     ("family", U32); ("remote_ip4", U32); ("local_ip4", U32); ("remote_ip6", Array 4 U32);
     ("local_ip6", Array 4 U32); ("remote_port", U32); ("local_port", U32); ("data_meta", U32);
     ("", Union [("flow_keys", PtrTo "struct bpf_flow_keys")]); ("tstamp", U64);
     ("wire_len", U32); ("gso_segs", U32); ("", Union [("sk", PtrTo "struct bpf_sock")])].

Definition struct_bpf_cgroup_dev_ctx : cty :=
  Struct
    [("access_type", U32); ("major", U32); ("minor", U32)].

Definition struct_bpf_sysctl : cty :=
  Struct
    [("write", U32); ("file_pos", U32)].

Definition struct_bpf_tunnel_key : cty :=
  Struct
    [("tunnel_id", U32); ("", Union [("remote_ipv4", U32); ("remote_ipv6", Array 4 U32)]);
     ("tunnel_tos", U8); ("tunnel_ttl", U8); ("tunnel_ext", U16); ("tunnel_label", U32)].

Definition struct_bpf_xfrm_state : cty :=
  Struct
    [("reqid", U32); ("spi", U32); ("family", U16); ("ext", U16); ("", Union
     [("remote_ipv4", U32); ("remote_ipv6", Array 4 U32)])].

Definition struct_bpf_tcp_sock : cty :=
  Struct
    [("snd_cwnd", U32); ("srtt_us", U32); ("rtt_min", U32); ("snd_ssthresh", U32);
     ("rcv_nxt", U32); ("snd_nxt", U32); ("snd_una", U32); ("mss_cache", U32);
     ("ecn_flags", U32); ("rate_delivered", U32); ("rate_interval_us", U32);
     ("packets_out", U32); ("retrans_out", U32); ("total_retrans", U32); ("segs_in", U32);
     ("data_segs_in", U32); ("segs_out", U32); ("data_segs_out", U32); ("lost_out", U32);
     ("sacked_out", U32); ("bytes_received", U64); ("bytes_acked", U64); ("dsack_dups", U32);
     ("delivered", U32); ("delivered_ce", U32); ("icsk_retransmits", U32)].

Definition struct_bpf_sock_tuple : cty :=
  Struct
    [("", Union [("ipv4", Struct [("saddr", U32); ("daddr", U32); ("sport", U16);
     ("dport", U16)]); ("ipv6", Struct [("saddr", Array 4 U32); ("daddr", Array 4 U32);
     ("sport", U16); ("dport", U16)])])].

Definition struct_bpf_xdp_sock : cty :=
  Struct
    [("queue_id", U32)].

Definition struct_sk_msg_md : cty :=
  Struct
    [("", Union [("data", Ptr)]); ("", Union [("data_end", Ptr)]); ("family", U32);
     ("remote_ip4", U32); ("local_ip4", U32); ("remote_ip6", Array 4 U32);
     ("local_ip6", Array 4 U32); ("remote_port", U32); ("local_port", U32); ("size", U32)].

Definition struct_sk_reuseport_md : cty :=
  Struct
    [("", Union [("data", Ptr)]); ("", Union [("data_end", Ptr)]); ("len", U32);
     ("eth_protocol", U32); ("ip_protocol", U32); ("bind_inany", U32); ("hash", U32)].

Definition struct_bpf_sock_addr : cty :=
  Struct
    [("user_family", U32); ("user_ip4", U32); ("user_ip6", Array 4 U32); ("user_port", U32);
     ("family", U32); ("type", U32); ("protocol", U32); ("msg_src_ip4", U32);
     ("msg_src_ip6", Array 4 U32); ("", Union [("sk", PtrTo "struct bpf_sock")])].

Definition struct_bpf_sock_ops : cty :=
  Struct
    [("op", U32); ("", Union [("args", Array 4 U32); ("reply", U32);
     ("replylong", Array 4 U32)]); ("family", U32); ("remote_ip4", U32); ("local_ip4", U32);
     ("remote_ip6", Array 4 U32); ("local_ip6", Array 4 U32); ("remote_port", U32);
     ("local_port", U32); ("is_fullsock", U32); ("snd_cwnd", U32); ("srtt_us", U32);
     ("bpf_sock_ops_cb_flags", U32); ("state", U32); ("rtt_min", U32); ("snd_ssthresh", U32);
     ("rcv_nxt", U32); ("snd_nxt", U32); ("snd_una", U32); ("mss_cache", U32);
     ("ecn_flags", U32); ("rate_delivered", U32); ("rate_interval_us", U32);
     ("packets_out", U32); ("retrans_out", U32); ("total_retrans", U32); ("segs_in", U32);
     ("data_segs_in", U32); ("segs_out", U32); ("data_segs_out", U32); ("lost_out", U32);
     ("sacked_out", U32); ("sk_txhash", U32); ("bytes_received", U64); ("bytes_acked", U64);
     ("", Union [("sk", PtrTo "struct bpf_sock")]); ("", Union [("skb_data", Ptr)]); ("", Union
     [("skb_data_end", Ptr)]); ("skb_len", U32); ("skb_tcp_flags", U32)].

Definition struct_bpf_fib_lookup : cty :=
  Struct
    [("family", U8); ("l4_protocol", U8); ("sport", U16); ("dport", U16); ("tot_len", U16);
     ("ifindex", U32); ("", Union [("tos", U8); ("flowinfo", U32); ("rt_metric", U32)]);
     ("", Union [("ipv4_src", U32); ("ipv6_src", Array 4 U32)]); ("", Union [("ipv4_dst", U32);
     ("ipv6_dst", Array 4 U32)]); ("h_vlan_proto", U16); ("h_vlan_TCI", U16);
     ("smac", Array 6 U8); ("dmac", Array 6 U8)].

Definition struct_bpf_redir_neigh : cty :=
  Struct
    [("nh_family", U32); ("", Union [("ipv4_nh", U32); ("ipv6_nh", Array 4 U32)])].

(** The types by name. *)
Definition kernel_types : list (string * cty) :=
    [("struct pt_regs", struct_pt_regs); ("struct path", struct_path);
     ("struct sockaddr", struct_sockaddr); ("struct tcphdr", struct_tcphdr);
     ("struct bpf_insn", struct_bpf_insn);
     ("struct bpf_cgroup_storage_key", struct_bpf_cgroup_storage_key);
     ("union bpf_attr", union_bpf_attr); ("struct bpf_func_info", struct_bpf_func_info);
     ("struct bpf_line_info", struct_bpf_line_info);
     ("struct bpf_perf_event_value", struct_bpf_perf_event_value);
     ("struct bpf_perf_event_data", struct_bpf_perf_event_data);
     ("struct bpf_raw_tracepoint_args", struct_bpf_raw_tracepoint_args);
     ("struct bpf_prog_info", struct_bpf_prog_info);
     ("struct bpf_map_info", struct_bpf_map_info); ("struct bpf_btf_info", struct_bpf_btf_info);
     ("struct bpf_spin_lock", struct_bpf_spin_lock);
     ("struct bpf_lpm_trie_key", struct_bpf_lpm_trie_key);
     ("struct bpf_stack_build_id", struct_bpf_stack_build_id);
     ("struct bpf_flow_keys", struct_bpf_flow_keys); ("struct bpf_sock", struct_bpf_sock);
     ("struct __sk_buff", struct___sk_buff);
     ("struct bpf_cgroup_dev_ctx", struct_bpf_cgroup_dev_ctx);
     ("struct bpf_sysctl", struct_bpf_sysctl); ("struct bpf_tunnel_key", struct_bpf_tunnel_key);
     ("struct bpf_xfrm_state", struct_bpf_xfrm_state);
     ("struct bpf_tcp_sock", struct_bpf_tcp_sock);
     ("struct bpf_sock_tuple", struct_bpf_sock_tuple);
     ("struct bpf_xdp_sock", struct_bpf_xdp_sock); ("struct sk_msg_md", struct_sk_msg_md);
     ("struct sk_reuseport_md", struct_sk_reuseport_md);
     ("struct bpf_sock_addr", struct_bpf_sock_addr);
     ("struct bpf_sock_ops", struct_bpf_sock_ops);
     ("struct bpf_fib_lookup", struct_bpf_fib_lookup);
     ("struct bpf_redir_neigh", struct_bpf_redir_neigh)].

(** ** Enumerations

    Their enumerators with the values the header gives. *)

Definition enum : Type := list (string * Z).

Definition enum_bpf_map_type : enum :=
    [("BPF_MAP_TYPE_UNSPEC", 0); ("BPF_MAP_TYPE_HASH", 1); ("BPF_MAP_TYPE_ARRAY", 2);
     ("BPF_MAP_TYPE_PROG_ARRAY", 3); ("BPF_MAP_TYPE_PERF_EVENT_ARRAY", 4);
     ("BPF_MAP_TYPE_PERCPU_HASH", 5); ("BPF_MAP_TYPE_PERCPU_ARRAY", 6);
     ("BPF_MAP_TYPE_STACK_TRACE", 7); ("BPF_MAP_TYPE_CGROUP_ARRAY", 8);
     ("BPF_MAP_TYPE_LRU_HASH", 9); ("BPF_MAP_TYPE_LRU_PERCPU_HASH", 10);
     ("BPF_MAP_TYPE_LPM_TRIE", 11); ("BPF_MAP_TYPE_ARRAY_OF_MAPS", 12);
     ("BPF_MAP_TYPE_HASH_OF_MAPS", 13); ("BPF_MAP_TYPE_DEVMAP", 14);
     ("BPF_MAP_TYPE_SOCKMAP", 15); ("BPF_MAP_TYPE_CPUMAP", 16); ("BPF_MAP_TYPE_XSKMAP", 17);
     ("BPF_MAP_TYPE_SOCKHASH", 18); ("BPF_MAP_TYPE_CGROUP_STORAGE", 19);
     ("BPF_MAP_TYPE_REUSEPORT_SOCKARRAY", 20); ("BPF_MAP_TYPE_PERCPU_CGROUP_STORAGE", 21);
     ("BPF_MAP_TYPE_QUEUE", 22); ("BPF_MAP_TYPE_STACK", 23); ("BPF_MAP_TYPE_SK_STORAGE", 24);
     ("BPF_MAP_TYPE_DEVMAP_HASH", 25)].

Definition enum_bpf_prog_type : enum :=
    [("BPF_PROG_TYPE_UNSPEC", 0); ("BPF_PROG_TYPE_SOCKET_FILTER", 1);
     ("BPF_PROG_TYPE_KPROBE", 2); ("BPF_PROG_TYPE_SCHED_CLS", 3);
     ("BPF_PROG_TYPE_SCHED_ACT", 4); ("BPF_PROG_TYPE_TRACEPOINT", 5); ("BPF_PROG_TYPE_XDP", 6);
     ("BPF_PROG_TYPE_PERF_EVENT", 7); ("BPF_PROG_TYPE_CGROUP_SKB", 8);
     ("BPF_PROG_TYPE_CGROUP_SOCK", 9); ("BPF_PROG_TYPE_LWT_IN", 10);
     ("BPF_PROG_TYPE_LWT_OUT", 11); ("BPF_PROG_TYPE_LWT_XMIT", 12);
     ("BPF_PROG_TYPE_SOCK_OPS", 13); ("BPF_PROG_TYPE_SK_SKB", 14);
     ("BPF_PROG_TYPE_CGROUP_DEVICE", 15); ("BPF_PROG_TYPE_SK_MSG", 16);
     ("BPF_PROG_TYPE_RAW_TRACEPOINT", 17); ("BPF_PROG_TYPE_CGROUP_SOCK_ADDR", 18);
     ("BPF_PROG_TYPE_LWT_SEG6LOCAL", 19); ("BPF_PROG_TYPE_LIRC_MODE2", 20);
     ("BPF_PROG_TYPE_SK_REUSEPORT", 21); ("BPF_PROG_TYPE_FLOW_DISSECTOR", 22);
     ("BPF_PROG_TYPE_CGROUP_SYSCTL", 23); ("BPF_PROG_TYPE_RAW_TRACEPOINT_WRITABLE", 24);
     ("BPF_PROG_TYPE_CGROUP_SOCKOPT", 25)].

Definition enum_bpf_attach_type : enum :=
    [("BPF_CGROUP_INET_INGRESS", 0); ("BPF_CGROUP_INET_EGRESS", 1);
     ("BPF_CGROUP_INET_SOCK_CREATE", 2); ("BPF_CGROUP_SOCK_OPS", 3);
     ("BPF_SK_SKB_STREAM_PARSER", 4); ("BPF_SK_SKB_STREAM_VERDICT", 5);
     ("BPF_CGROUP_DEVICE", 6); ("BPF_SK_MSG_VERDICT", 7); ("BPF_CGROUP_INET4_BIND", 8);
     ("BPF_CGROUP_INET6_BIND", 9); ("BPF_CGROUP_INET4_CONNECT", 10);
     ("BPF_CGROUP_INET6_CONNECT", 11); ("BPF_CGROUP_INET4_POST_BIND", 12);
     ("BPF_CGROUP_INET6_POST_BIND", 13); ("BPF_CGROUP_UDP4_SENDMSG", 14);
     ("BPF_CGROUP_UDP6_SENDMSG", 15); ("BPF_LIRC_MODE2", 16); ("BPF_FLOW_DISSECTOR", 17);
     ("BPF_CGROUP_SYSCTL", 18); ("BPF_CGROUP_UDP4_RECVMSG", 19);
     ("BPF_CGROUP_UDP6_RECVMSG", 20); ("BPF_CGROUP_GETSOCKOPT", 21);
     ("BPF_CGROUP_SETSOCKOPT", 22); ("BPF_TRACE_RAW_TP", 23); ("BPF_TRACE_FENTRY", 24);
     ("BPF_TRACE_FEXIT", 25); ("BPF_MODIFY_RETURN", 26); ("BPF_LSM_MAC", 27);
     ("BPF_TRACE_ITER", 28); ("BPF_CGROUP_INET4_GETPEERNAME", 29);
     ("BPF_CGROUP_INET6_GETPEERNAME", 30); ("BPF_CGROUP_INET4_GETSOCKNAME", 31);
     ("BPF_CGROUP_INET6_GETSOCKNAME", 32); ("BPF_XDP_DEVMAP", 33);
     ("BPF_CGROUP_INET_SOCK_RELEASE", 34); ("__MAX_BPF_ATTACH_TYPE", 35)].

Definition enum_BPF_F_INDEX_MASK : enum :=
    [("BPF_F_INDEX_MASK", 4294967295); ("BPF_F_CURRENT_CPU", 4294967295);
     ("BPF_F_CTXLEN_MASK", 0)].

Definition enum_bpf_task_fd_type : enum :=
    [("BPF_FD_TYPE_RAW_TRACEPOINT", 0); ("BPF_FD_TYPE_TRACEPOINT", 1);
     ("BPF_FD_TYPE_KPROBE", 2); ("BPF_FD_TYPE_KRETPROBE", 3); ("BPF_FD_TYPE_UPROBE", 4);
     ("BPF_FD_TYPE_URETPROBE", 5)].

Definition enum_xdp_action : enum :=
    [("XDP_ABORTED", 0); ("XDP_DROP", 1); ("XDP_PASS", 2); ("XDP_TX", 3); ("XDP_REDIRECT", 4)].

Definition enum_bpf_cmd : enum :=
    [("BPF_MAP_CREATE", 0); ("BPF_MAP_LOOKUP_ELEM", 1); ("BPF_MAP_UPDATE_ELEM", 2);
     ("BPF_MAP_DELETE_ELEM", 3); ("BPF_MAP_GET_NEXT_KEY", 4); ("BPF_PROG_LOAD", 5);
     ("BPF_OBJ_PIN", 6); ("BPF_OBJ_GET", 7); ("BPF_PROG_ATTACH", 8); ("BPF_PROG_DETACH", 9);
     ("BPF_PROG_TEST_RUN", 10); ("BPF_PROG_GET_NEXT_ID", 11); ("BPF_MAP_GET_NEXT_ID", 12);
     ("BPF_PROG_GET_FD_BY_ID", 13); ("BPF_MAP_GET_FD_BY_ID", 14);
     ("BPF_OBJ_GET_INFO_BY_FD", 15); ("BPF_PROG_QUERY", 16); ("BPF_RAW_TRACEPOINT_OPEN", 17);
     ("BPF_BTF_LOAD", 18); ("BPF_BTF_GET_FD_BY_ID", 19); ("BPF_TASK_FD_QUERY", 20);
     ("BPF_MAP_LOOKUP_AND_DELETE_ELEM", 21); ("BPF_MAP_FREEZE", 22);
     ("BPF_BTF_GET_NEXT_ID", 23)].

Definition enum_BPF_ANY : enum :=
    [("BPF_ANY", 0); ("BPF_NOEXIST", 1); ("BPF_EXIST", 2); ("BPF_F_LOCK", 4)].

Definition enum_bpf_stack_build_id_status : enum :=
    [("BPF_STACK_BUILD_ID_EMPTY", 0); ("BPF_STACK_BUILD_ID_VALID", 1);
     ("BPF_STACK_BUILD_ID_IP", 2)].

Definition enum_BPF_F_SKIP_FIELD_MASK : enum :=
    [("BPF_F_SKIP_FIELD_MASK", 255); ("BPF_F_USER_STACK", 256); ("BPF_F_FAST_STACK_CMP", 512);
     ("BPF_F_REUSE_STACKID", 1024); ("BPF_F_USER_BUILD_ID", 2048)].

Definition enum_BPF_F_SYSCTL_BASE_NAME : enum :=
    [("BPF_F_SYSCTL_BASE_NAME", 1)].

Definition enum_bpf_ret_code : enum :=
    [("BPF_OK", 0); ("BPF_DROP", 2); ("BPF_REDIRECT", 7); ("BPF_LWT_REROUTE", 128)].

Definition enum_BPF_F_RECOMPUTE_CSUM : enum :=
    [("BPF_F_RECOMPUTE_CSUM", 1); ("BPF_F_INVALIDATE_HASH", 2)].

Definition enum_BPF_F_HDR_FIELD_MASK : enum :=
    [("BPF_F_HDR_FIELD_MASK", 15)].

Definition enum_BPF_F_PSEUDO_HDR : enum :=
    [("BPF_F_PSEUDO_HDR", 16); ("BPF_F_MARK_MANGLED_0", 32); ("BPF_F_MARK_ENFORCE", 64)].

Definition enum_BPF_F_INGRESS : enum :=
    [("BPF_F_INGRESS", 1)].

Definition enum_BPF_F_TUNINFO_IPV6 : enum :=
    [("BPF_F_TUNINFO_IPV6", 1)].

Definition enum_BPF_F_ZERO_CSUM_TX : enum :=
    [("BPF_F_ZERO_CSUM_TX", 2); ("BPF_F_DONT_FRAGMENT", 4); ("BPF_F_SEQ_NUMBER", 8)].

Definition enum_BPF_F_ADJ_ROOM_FIXED_GSO : enum :=
    [("BPF_F_ADJ_ROOM_FIXED_GSO", 1); ("BPF_F_ADJ_ROOM_ENCAP_L3_IPV4", 2);
     ("BPF_F_ADJ_ROOM_ENCAP_L3_IPV6", 4); ("BPF_F_ADJ_ROOM_ENCAP_L4_GRE", 8);
     ("BPF_F_ADJ_ROOM_ENCAP_L4_UDP", 16)].

Definition enum_BPF_ADJ_ROOM_ENCAP_L2_MASK : enum :=
    [("BPF_ADJ_ROOM_ENCAP_L2_MASK", 255); ("BPF_ADJ_ROOM_ENCAP_L2_SHIFT", 56)].

Definition enum_bpf_adj_room_mode : enum :=
    [("BPF_ADJ_ROOM_NET", 0); ("BPF_ADJ_ROOM_MAC", 1)].

Definition enum_bpf_hdr_start_off : enum :=
    [("BPF_HDR_START_MAC", 0); ("BPF_HDR_START_NET", 1)].

Definition enum_bpf_lwt_encap_mode : enum :=
    [("BPF_LWT_ENCAP_SEG6", 0); ("BPF_LWT_ENCAP_SEG6_INLINE", 1); ("BPF_LWT_ENCAP_IP", 2)].

Definition enum_sk_action : enum :=
    [("SK_DROP", 0); ("SK_PASS", 1)].

Definition enum_BPF_SOCK_OPS_RTO_CB_FLAG : enum :=
    [("BPF_SOCK_OPS_RTO_CB_FLAG", 1); ("BPF_SOCK_OPS_RETRANS_CB_FLAG", 2);
     ("BPF_SOCK_OPS_STATE_CB_FLAG", 4); ("BPF_SOCK_OPS_RTT_CB_FLAG", 8);
     ("BPF_SOCK_OPS_PARSE_ALL_HDR_OPT_CB_FLAG", 16);
     ("BPF_SOCK_OPS_PARSE_UNKNOWN_HDR_OPT_CB_FLAG", 32);
     ("BPF_SOCK_OPS_WRITE_HDR_OPT_CB_FLAG", 64); ("BPF_SOCK_OPS_ALL_CB_FLAGS", 127)].

Definition enum_BPF_SOCK_OPS_VOID : enum :=
    [("BPF_SOCK_OPS_VOID", 0); ("BPF_SOCK_OPS_TIMEOUT_INIT", 1); ("BPF_SOCK_OPS_RWND_INIT", 2);
     ("BPF_SOCK_OPS_TCP_CONNECT_CB", 3); ("BPF_SOCK_OPS_ACTIVE_ESTABLISHED_CB", 4);
     ("BPF_SOCK_OPS_PASSIVE_ESTABLISHED_CB", 5); ("BPF_SOCK_OPS_NEEDS_ECN", 6);
     ("BPF_SOCK_OPS_BASE_RTT", 7); ("BPF_SOCK_OPS_RTO_CB", 8); ("BPF_SOCK_OPS_RETRANS_CB", 9);
     ("BPF_SOCK_OPS_STATE_CB", 10); ("BPF_SOCK_OPS_TCP_LISTEN_CB", 11);
     ("BPF_SOCK_OPS_RTT_CB", 12); ("BPF_SOCK_OPS_PARSE_HDR_OPT_CB", 13);
     ("BPF_SOCK_OPS_HDR_OPT_LEN_CB", 14); ("BPF_SOCK_OPS_WRITE_HDR_OPT_CB", 15)].

Definition enum_BPF_LOAD_HDR_OPT_TCP_SYN : enum :=
    [("BPF_LOAD_HDR_OPT_TCP_SYN", 1)].

Definition enum_BPF_FIB_LOOKUP_DIRECT : enum :=
    [("BPF_FIB_LOOKUP_DIRECT", 1); ("BPF_FIB_LOOKUP_OUTPUT", 2)].

Definition enum_BPF_FIB_LKUP_RET_SUCCESS : enum :=
    [("BPF_FIB_LKUP_RET_SUCCESS", 0); ("BPF_FIB_LKUP_RET_BLACKHOLE", 1);
     ("BPF_FIB_LKUP_RET_UNREACHABLE", 2); ("BPF_FIB_LKUP_RET_PROHIBIT", 3);
     ("BPF_FIB_LKUP_RET_NOT_FWDED", 4); ("BPF_FIB_LKUP_RET_FWD_DISABLED", 5);
     ("BPF_FIB_LKUP_RET_UNSUPP_LWT", 6); ("BPF_FIB_LKUP_RET_NO_NEIGH", 7);
     ("BPF_FIB_LKUP_RET_FRAG_NEEDED", 8)].

Definition enum_BPF_SK_STORAGE_GET_F_CREATE : enum :=
    [("BPF_SK_STORAGE_GET_F_CREATE", 1)].

Definition kernel_enums : list enum :=
    [enum_bpf_map_type; enum_bpf_prog_type; enum_bpf_attach_type; enum_BPF_F_INDEX_MASK;
     enum_bpf_task_fd_type; enum_xdp_action; enum_bpf_cmd; enum_BPF_ANY;
     enum_bpf_stack_build_id_status; enum_BPF_F_SKIP_FIELD_MASK; enum_BPF_F_SYSCTL_BASE_NAME;
     enum_bpf_ret_code; enum_BPF_F_RECOMPUTE_CSUM; enum_BPF_F_HDR_FIELD_MASK;
     enum_BPF_F_PSEUDO_HDR; enum_BPF_F_INGRESS; enum_BPF_F_TUNINFO_IPV6;
     enum_BPF_F_ZERO_CSUM_TX; enum_BPF_F_ADJ_ROOM_FIXED_GSO; enum_BPF_ADJ_ROOM_ENCAP_L2_MASK;
     enum_bpf_adj_room_mode; enum_bpf_hdr_start_off; enum_bpf_lwt_encap_mode; enum_sk_action;
     enum_BPF_SOCK_OPS_RTO_CB_FLAG; enum_BPF_SOCK_OPS_VOID; enum_BPF_LOAD_HDR_OPT_TCP_SYN;
     enum_BPF_FIB_LOOKUP_DIRECT; enum_BPF_FIB_LKUP_RET_SUCCESS;
     enum_BPF_SK_STORAGE_GET_F_CREATE].

(** ** Properties of the layouts *)

Lemma kernel_types_complete : forallb (fun nt => complete nt.2) kernel_types = true.
Proof. by_vm. Qed.

(** Sizes the kernel's interface fixes. *)
Example kernel_sizes :
  map sizeof [struct_pt_regs; struct_tcphdr; struct_bpf_insn; struct_bpf_sock_addr;
              struct_bpf_tunnel_key; struct_bpf_sock_tuple; struct_bpf_fib_lookup]
  = [168; 20; 8; 72; 28; 36; 64].
Proof. by_vm. Qed.

Lemma kernel_layout (name : string) (t : cty) : (name, t) ∈ kernel_types -> laid_out t.
Proof. intros Hin. exact (complete_laid_out t (complete_table _ _ _ kernel_types_complete Hin)). Qed.

(** The registers the tracing macros read are the members of the kernel's
    [struct pt_regs], at the same offsets. *)
Lemma pt_regs_agree :
  map (fun l => Layout.mkField (l_path l) (Z.to_nat (l_bits l / 8))) (leaves "" 0 struct_pt_regs)
    = Tracing.pt_regs_fields /\
  map (fun l => Z.to_nat (l_off l / 8)) (leaves "" 0 struct_pt_regs)
    = Layout.c_offsets 0 Tracing.pt_regs_fields.
Proof. split; by_vm. Qed.

(** ** Flags of the helpers *)

Definition enum_value (name : string) : option Z :=
  e ← List.find (fun e => String.eqb e.1 name) (concat kernel_enums); Some e.2.

(** The flags a helper's comment names that this kernel knows.  The two names of
    perf event indices stand for a part of the word, not for a flag. *)
Definition is_flag (name : string) : bool :=
  String.prefix "BPF_F_" name
  && negb (String.eqb name "BPF_F_INDEX_MASK") && negb (String.eqb name "BPF_F_CURRENT_CPU").

Definition flags_of (h : Helpers.helper) : list Z :=
  omap (fun n => if is_flag n then enum_value n else None) (Helpers.h_consts h).

Definition disjoint_flags (fs : list Z) : bool :=
  bool_decide (NoDup fs) && forallb (fun a => forallb (fun b => (a =? b) || (Z.land a b =? 0)) fs) fs.

Lemma land_fold_lor (cs : list Z) (f : Z) :
  (forall c, c ∈ cs -> c = f \/ Z.land c f = 0) ->
  Z.land (foldr Z.lor 0 cs) f = if decide (f ∈ cs) then f else 0.
Proof.
  induction cs as [|c cs IH]; intros H; cbn [foldr].
  - rewrite decide_False by apply not_elem_of_nil. done.
  - rewrite Z.land_lor_distr_l, IH by (intros c' Hc'; apply H; by right).
    destruct (H c) as [->|E]; [by left| |].
    + rewrite Z.land_diag, (decide_True (P := f ∈ f :: cs)) by (by left).
      case_decide; [by rewrite Z.lor_diag|by rewrite Z.lor_0_r].
    + rewrite E, Z.lor_0_l. destruct (decide (f ∈ cs)) as [Hf|Hf].
      * by rewrite decide_True by (by right).
      * destruct (decide (f ∈ c :: cs)) as [[->|]%elem_of_cons|]; [|done|done].
        by rewrite Z.land_diag in E.
Qed.

(** The flags of a helper can be combined: whichever are or-ed together, each of
    them is read back from the word, and no other. *)
Theorem helper_flags_combine (h : Helpers.helper) (chosen : list Z) (f : Z) :
  h ∈ HelperDefs.helper_table -> (forall c, c ∈ chosen -> c ∈ flags_of h) -> f ∈ flags_of h ->
  Z.land (foldr Z.lor 0 chosen) f = if decide (f ∈ chosen) then f else 0.
Proof.
  intros Hh Hc Hf. apply land_fold_lor. intros c Hin.
  assert (forallb (fun h => disjoint_flags (flags_of h)) HelperDefs.helper_table = true) as H by by_vm.
  rewrite forallb_forall in H. apply list_elem_of_In in Hh. specialize (H h Hh).
  apply andb_true_iff in H as [_ H]. rewrite forallb_forall in H.
  specialize (H c (proj1 (list_elem_of_In _ _) (Hc c Hin))). rewrite forallb_forall in H.
  specialize (H f (proj1 (list_elem_of_In _ _) Hf)). apply orb_true_iff in H as [H|H].
  - left. by apply Z.eqb_eq.
  - right. by apply Z.eqb_eq.
Qed.

Lemma helper_flags_combine_witness :
  Z.land (foldr Z.lor 0 [64; 16]) 64 = if decide (64 ∈ [64; 16]) then 64 else 0.
Proof.
  apply (helper_flags_combine HelperDefs.bpf_l4_csum_replace).
  - apply list_elem_of_lookup. exists 10%nat. by_vm.
  - replace (flags_of HelperDefs.bpf_l4_csum_replace) with [32; 64; 16] by by_vm.
    intros c. rewrite !elem_of_cons. tauto.
  - apply list_elem_of_lookup. exists 1%nat. by_vm.
Defined.

End KernelTypes.
