(* ===== verification/HelperTypes.v ===== *)
(** * The types helpers name: src/ebpf/src/kernel/vmlinux.h

    The structs the declarations of bpf_helper_defs.h point to or return, with
    every struct, union and typedef they embed, as vmlinux.h declares them:
    tasks, files, sockets and the locks, lists and counters inside them.  The
    contexts of the program types are in KernelTypes. *)

From Stdlib Require Import ZArith String.
From stdpp Require Import base list strings.
From S2P Require Import Prelude CTypes KernelTypes.
Import CTypes KernelTypes.

Local Open Scope string_scope.
Local Open Scope Z_scope.

Module HelperTypes.

(** An enumeration without large values is an [unsigned int]. *)
Definition Enum : cty := U32.

Definition typedef___kernel_sa_family_t : cty := U16.
Definition typedef_sa_family_t : cty := typedef___kernel_sa_family_t.
Definition typedef___u16 : cty := U16.
Definition typedef___be16 : cty := typedef___u16.
Definition typedef___u32 : cty := U32.
Definition typedef___be32 : cty := typedef___u32.
Definition typedef___sum16 : cty := typedef___u16.
Definition typedef___u8 : cty := U8.
Definition typedef___s16 : cty := U16.
Definition typedef___s32 : cty := U32.
Definition typedef___u64 : cty := U64.
Definition typedef_bpf_user_pt_regs_t : cty := struct_pt_regs.

Definition struct_llist_node : cty :=
  Struct
    [("next", PtrTo "struct llist_node")].

Definition struct_callback_head : cty :=
  Struct
    [("next", PtrTo "struct callback_head"); ("func", Ptr)].

Definition typedef_atomic_t : cty :=
  Struct
    [("counter", U32)].

Definition typedef_u8 : cty := typedef___u8.
Definition typedef_u16 : cty := typedef___u16.

Definition struct_qspinlock : cty :=
  Struct
    [("", Union [("val", typedef_atomic_t); ("", Struct [("locked", typedef_u8);
     ("pending", typedef_u8)]); ("", Struct [("locked_pending", typedef_u16);
     ("tail", typedef_u16)])])].

Definition typedef_arch_spinlock_t : cty := struct_qspinlock.

Definition struct_raw_spinlock : cty :=
  Struct
    [("raw_lock", typedef_arch_spinlock_t)].

Definition struct_spinlock : cty :=
  Struct
    [("", Union [("rlock", struct_raw_spinlock)])].

Definition typedef_spinlock_t : cty := struct_spinlock.
Definition typedef___s64 : cty := U64.
Definition typedef_s64 : cty := typedef___s64.

Definition typedef_atomic64_t : cty :=
  Struct
    [("counter", typedef_s64)].

Definition typedef_atomic_long_t : cty := typedef_atomic64_t.
Definition typedef_fmode_t : cty := U32.

Definition struct_optimistic_spin_queue : cty :=
  Struct
    [("tail", typedef_atomic_t)].

Definition struct_list_head : cty :=
  Struct
    [("next", PtrTo "struct list_head"); ("prev", PtrTo "struct list_head")].

Definition struct_mutex : cty :=
  Struct
    [("owner", typedef_atomic_long_t); ("wait_lock", typedef_spinlock_t);
     ("osq", struct_optimistic_spin_queue); ("wait_list", struct_list_head)].

Definition typedef___kernel_loff_t : cty := U64.
Definition typedef_loff_t : cty := typedef___kernel_loff_t.

Definition struct_qrwlock : cty :=
  Struct
    [("", Union [("cnts", typedef_atomic_t); ("", Struct [("wlocked", typedef_u8);
     ("__lstate", Array 3 typedef_u8)])]); ("wait_lock", typedef_arch_spinlock_t)].

Definition typedef_arch_rwlock_t : cty := struct_qrwlock.

Definition typedef_rwlock_t : cty :=
  Struct
    [("raw_lock", typedef_arch_rwlock_t)].

Definition typedef___kernel_uid32_t : cty := U32.
Definition typedef_uid_t : cty := typedef___kernel_uid32_t.

Definition typedef_kuid_t : cty :=
  Struct
    [("val", typedef_uid_t)].

Definition struct_fown_struct : cty :=
  Struct
    [("lock", typedef_rwlock_t); ("pid", PtrTo "struct pid"); ("pid_type", Enum);
     ("uid", typedef_kuid_t); ("euid", typedef_kuid_t); ("signum", U32)].

Definition struct_file_ra_state : cty :=
  Struct
    [("start", U64); ("size", U32); ("async_size", U32); ("ra_pages", U32);
     ("mmap_miss", U32); ("prev_pos", typedef_loff_t)].

Definition typedef_u64 : cty := typedef___u64.
Definition typedef_u32 : cty := typedef___u32.
Definition typedef_errseq_t : cty := typedef_u32.

Definition struct_file : cty :=
  Struct
    [("f_u", Union [("fu_llist", struct_llist_node); ("fu_rcuhead", struct_callback_head)]);
     ("f_path", struct_path); ("f_inode", PtrTo "struct inode");
     ("f_op", PtrTo "struct file_operations"); ("f_lock", typedef_spinlock_t);
     ("f_write_hint", Enum); ("f_count", typedef_atomic_long_t); ("f_flags", U32);
     ("f_mode", typedef_fmode_t); ("f_pos_lock", struct_mutex); ("f_pos", typedef_loff_t);
     ("f_owner", struct_fown_struct); ("f_cred", PtrTo "struct cred");
     ("f_ra", struct_file_ra_state); ("f_version", typedef_u64); ("f_security", Ptr);
     ("private_data", Ptr); ("f_ep_links", struct_list_head);
     ("f_tfile_llink", struct_list_head); ("f_mapping", PtrTo "struct address_space");
     ("f_wb_err", typedef_errseq_t); ("f_sb_err", typedef_errseq_t)].

Definition typedef_umode_t : cty := U16.
Definition typedef___kernel_gid32_t : cty := U32.
Definition typedef_gid_t : cty := typedef___kernel_gid32_t.

Definition typedef_kgid_t : cty :=
  Struct
    [("val", typedef_gid_t)].

Definition typedef___kernel_dev_t : cty := typedef_u32.
Definition typedef_dev_t : cty := typedef___kernel_dev_t.
Definition typedef_time64_t : cty := typedef___s64.

Definition struct_timespec64 : cty :=
  Struct
    [("tv_sec", typedef_time64_t); ("tv_nsec", U64)].

Definition typedef_blkcnt_t : cty := typedef_u64.
Definition typedef_raw_spinlock_t : cty := struct_raw_spinlock.

Definition struct_rw_semaphore : cty :=
  Struct
    [("count", typedef_atomic_long_t); ("owner", typedef_atomic_long_t);
     ("osq", struct_optimistic_spin_queue); ("wait_lock", typedef_raw_spinlock_t);
     ("wait_list", struct_list_head)].

Definition struct_hlist_node : cty :=
  Struct
    [("next", PtrTo "struct hlist_node"); ("pprev", Pointer 2 "struct hlist_node")].

Definition struct_hlist_head : cty :=
  Struct
    [("first", PtrTo "struct hlist_node")].

Definition typedef_gfp_t : cty := U32.

Definition struct_xarray : cty :=
  Struct
    [("xa_lock", typedef_spinlock_t); ("xa_flags", typedef_gfp_t); ("xa_head", Ptr)].

Definition struct_rb_root : cty :=
  Struct
    [("rb_node", PtrTo "struct rb_node")].

Definition struct_rb_root_cached : cty :=
  Struct
    [("rb_root", struct_rb_root); ("rb_leftmost", PtrTo "struct rb_node")].

Definition struct_address_space : cty :=
  Struct
    [("host", PtrTo "struct inode"); ("i_pages", struct_xarray); ("gfp_mask", typedef_gfp_t);
     ("i_mmap_writable", typedef_atomic_t); ("i_mmap", struct_rb_root_cached);
     ("i_mmap_rwsem", struct_rw_semaphore); ("nrpages", U64); ("nrexceptional", U64);
     ("writeback_index", U64); ("a_ops", PtrTo "struct address_space_operations");
     ("flags", U64); ("wb_err", typedef_errseq_t); ("private_lock", typedef_spinlock_t);
     ("private_list", struct_list_head); ("private_data", Ptr)].

Definition struct_inode : cty :=
  Struct
    [("i_mode", typedef_umode_t); ("i_opflags", U16); ("i_uid", typedef_kuid_t);
     ("i_gid", typedef_kgid_t); ("i_flags", U32); ("i_acl", PtrTo "struct posix_acl");
     ("i_default_acl", PtrTo "struct posix_acl"); ("i_op", PtrTo "struct inode_operations");
     ("i_sb", PtrTo "struct super_block"); ("i_mapping", PtrTo "struct address_space");
     ("i_security", Ptr); ("i_ino", U64); ("", Union [("i_nlink", U32); ("__i_nlink", U32)]);
     ("i_rdev", typedef_dev_t); ("i_size", typedef_loff_t); ("i_atime", struct_timespec64);
     ("i_mtime", struct_timespec64); ("i_ctime", struct_timespec64);
     ("i_lock", typedef_spinlock_t); ("i_bytes", U16); ("i_blkbits", typedef_u8);
     ("i_write_hint", typedef_u8); ("i_blocks", typedef_blkcnt_t); ("i_state", U64);
     ("i_rwsem", struct_rw_semaphore); ("dirtied_when", U64); ("dirtied_time_when", U64);
     ("i_hash", struct_hlist_node); ("i_io_list", struct_list_head);
     ("i_wb", PtrTo "struct bdi_writeback"); ("i_wb_frn_winner", U32);
     ("i_wb_frn_avg_time", typedef_u16); ("i_wb_frn_history", typedef_u16);
     ("i_lru", struct_list_head); ("i_sb_list", struct_list_head);
     ("i_wb_list", struct_list_head); ("", Union [("i_dentry", struct_hlist_head);
     ("i_rcu", struct_callback_head)]); ("i_version", typedef_atomic64_t);
     ("i_sequence", typedef_atomic64_t); ("i_count", typedef_atomic_t);
     ("i_dio_count", typedef_atomic_t); ("i_writecount", typedef_atomic_t);
     ("i_readcount", typedef_atomic_t); ("", Union [("i_fop", PtrTo "struct file_operations");
     ("free_inode", Ptr)]); ("i_flctx", PtrTo "struct file_lock_context");
     ("i_data", struct_address_space); ("i_devices", struct_list_head); ("", Union
     [("i_pipe", PtrTo "struct pipe_inode_info"); ("i_bdev", PtrTo "struct block_device");
     ("i_cdev", PtrTo "struct cdev"); ("i_link", Ptr); ("i_dir_seq", U32)]);
     ("i_generation", typedef___u32); ("i_fsnotify_mask", typedef___u32);
     ("i_fsnotify_marks", PtrTo "struct fsnotify_mark_connector"); ("i_private", Ptr)].

Definition typedef___kernel_ulong_t : cty := U64.

Definition struct_rlimit : cty :=
  Struct
    [("rlim_cur", typedef___kernel_ulong_t); ("rlim_max", typedef___kernel_ulong_t)].

Definition struct_linux_binprm : cty :=
  Struct
    [("vma", PtrTo "struct vm_area_struct"); ("vma_pages", U64);
     ("mm", PtrTo "struct mm_struct"); ("p", U64); ("argmin", U64);
     ("called_set_creds", Bits 4 1); ("cap_elevated", Bits 4 1); ("secureexec", Bits 4 1);
     ("called_exec_mmap", Bits 4 1); ("recursion_depth", U32); ("file", PtrTo "struct file");
     ("cred", PtrTo "struct cred"); ("unsafe", U32); ("per_clear", U32); ("argc", U32);
     ("envc", U32); ("filename", Ptr); ("interp", Ptr); ("interp_flags", U32);
     ("interp_data", U32); ("loader", U64); ("exec", U64); ("rlim_stack", struct_rlimit);
     ("buf", Array 256 U8)].

Definition typedef___kernel_size_t : cty := typedef___kernel_ulong_t.
Definition typedef_size_t : cty := typedef___kernel_size_t.

Definition struct_seq_file : cty :=
  Struct
    [("buf", Ptr); ("size", typedef_size_t); ("from", typedef_size_t);
     ("count", typedef_size_t); ("pad_until", typedef_size_t); ("index", typedef_loff_t);
     ("read_pos", typedef_loff_t); ("version", typedef_u64); ("lock", struct_mutex);
     ("op", PtrTo "struct seq_operations___2"); ("poll_event", U32);
     ("file", PtrTo "struct file"); ("private", Ptr)].

Definition typedef_socket_state : cty := Enum.

Definition struct_wait_queue_head : cty :=
  Struct
    [("lock", typedef_spinlock_t); ("head", struct_list_head)].

Definition typedef_wait_queue_head_t : cty := struct_wait_queue_head.

Definition struct_socket_wq : cty :=
  Struct
    [("wait", typedef_wait_queue_head_t); ("fasync_list", PtrTo "struct fasync_struct");
     ("flags", U64); ("rcu", struct_callback_head); ("", Pad 8 64)].

Definition struct_socket : cty :=
  Struct
    [("state", typedef_socket_state); ("type", U16); ("flags", U64);
     ("file", PtrTo "struct file"); ("sk", PtrTo "struct sock");
     ("ops", PtrTo "struct proto_ops"); ("", Pad 8 64); ("", Pad 8 64); ("", Pad 8 64);
     ("wq", struct_socket_wq)].

Definition struct_thread_info : cty :=
  Struct
    [("flags", U64); ("status", typedef_u32)].

Definition struct_refcount_struct : cty :=
  Struct
    [("refs", typedef_atomic_t)].

Definition typedef_refcount_t : cty := struct_refcount_struct.

Definition struct_load_weight : cty :=
  Struct
    [("weight", U64); ("inv_weight", typedef_u32)].

Definition struct_rb_node : cty :=
  Struct
    [("__rb_parent_color", U64); ("rb_right", PtrTo "struct rb_node");
     ("rb_left", PtrTo "struct rb_node")].

Definition struct_sched_statistics : cty :=
  Struct
    [("wait_start", typedef_u64); ("wait_max", typedef_u64); ("wait_count", typedef_u64);
     ("wait_sum", typedef_u64); ("iowait_count", typedef_u64); ("iowait_sum", typedef_u64);
     ("sleep_start", typedef_u64); ("sleep_max", typedef_u64);
     ("sum_sleep_runtime", typedef_s64); ("block_start", typedef_u64);
     ("block_max", typedef_u64); ("exec_max", typedef_u64); ("slice_max", typedef_u64);
     ("nr_migrations_cold", typedef_u64); ("nr_failed_migrations_affine", typedef_u64);
     ("nr_failed_migrations_running", typedef_u64); ("nr_failed_migrations_hot", typedef_u64);
     ("nr_forced_migrations", typedef_u64); ("nr_wakeups", typedef_u64);
     ("nr_wakeups_sync", typedef_u64); ("nr_wakeups_migrate", typedef_u64);
     ("nr_wakeups_local", typedef_u64); ("nr_wakeups_remote", typedef_u64);
     ("nr_wakeups_affine", typedef_u64); ("nr_wakeups_affine_attempts", typedef_u64);
     ("nr_wakeups_passive", typedef_u64); ("nr_wakeups_idle", typedef_u64)].

Definition struct_util_est : cty :=
  Struct
    [("enqueued", U32); ("ewma", U32)].

Definition struct_sched_avg : cty :=
  Struct
    [("last_update_time", typedef_u64); ("load_sum", typedef_u64);
     ("runnable_sum", typedef_u64); ("util_sum", typedef_u32);
     ("period_contrib", typedef_u32); ("load_avg", U64); ("runnable_avg", U64);
     ("util_avg", U64); ("util_est", struct_util_est)].

Definition struct_sched_entity : cty :=
  Struct
    [("load", struct_load_weight); ("run_node", struct_rb_node);
     ("group_node", struct_list_head); ("on_rq", U32); ("exec_start", typedef_u64);
     ("sum_exec_runtime", typedef_u64); ("vruntime", typedef_u64);
     ("prev_sum_exec_runtime", typedef_u64); ("nr_migrations", typedef_u64);
     ("statistics", struct_sched_statistics); ("depth", U32);
     ("parent", PtrTo "struct sched_entity"); ("cfs_rq", PtrTo "struct cfs_rq");
     ("my_q", PtrTo "struct cfs_rq"); ("runnable_weight", U64); ("", Pad 8 64);
     ("", Pad 8 64); ("", Pad 8 64); ("avg", struct_sched_avg)].

Definition struct_sched_rt_entity : cty :=
  Struct
    [("run_list", struct_list_head); ("timeout", U64); ("watchdog_stamp", U64);
     ("time_slice", U32); ("on_rq", U16); ("on_list", U16);
     ("back", PtrTo "struct sched_rt_entity")].

Definition typedef_ktime_t : cty := typedef_s64.

Definition struct_timerqueue_node : cty :=
  Struct
    [("node", struct_rb_node); ("expires", typedef_ktime_t)].

Definition struct_hrtimer : cty :=
  Struct
    [("node", struct_timerqueue_node); ("_softexpires", typedef_ktime_t); ("function", Ptr);
     ("base", PtrTo "struct hrtimer_clock_base"); ("state", typedef_u8);
     ("is_rel", typedef_u8); ("is_soft", typedef_u8); ("is_hard", typedef_u8)].

Definition struct_sched_dl_entity : cty :=
  Struct
    [("rb_node", struct_rb_node); ("dl_runtime", typedef_u64); ("dl_deadline", typedef_u64);
     ("dl_period", typedef_u64); ("dl_bw", typedef_u64); ("dl_density", typedef_u64);
     ("runtime", typedef_s64); ("deadline", typedef_u64); ("flags", U32);
     ("dl_throttled", Bits 4 1); ("dl_boosted", Bits 4 1); ("dl_yielded", Bits 4 1);
     ("dl_non_contending", Bits 4 1); ("dl_overrun", Bits 4 1); ("dl_timer", struct_hrtimer);
     ("inactive_timer", struct_hrtimer)].

Definition struct_cpumask : cty :=
  Struct
    [("bits", Array 8 U64)].

Definition typedef_cpumask_t : cty := struct_cpumask.

Definition struct_sched_info : cty :=
  Struct
    [("pcount", U64); ("run_delay", U64); ("last_arrival", U64); ("last_queued", U64)].

Definition struct_plist_node : cty :=
  Struct
    [("prio", U32); ("prio_list", struct_list_head); ("node_list", struct_list_head)].

Definition struct_vmacache : cty :=
  Struct
    [("seqnum", typedef_u64); ("vmas", Array 4 (PtrTo "struct vm_area_struct"))].

Definition struct_task_rss_stat : cty :=
  Struct
    [("events", U32); ("count", Array 4 U32)].

Definition typedef___kernel_clockid_t : cty := U32.
Definition typedef_clockid_t : cty := typedef___kernel_clockid_t.

Definition struct_restart_block : cty :=
  Struct
    [("fn", Ptr); ("", Union [("futex", Struct [("uaddr", Ptr); ("val", typedef_u32);
     ("flags", typedef_u32); ("bitset", typedef_u32); ("time", typedef_u64);
     ("uaddr2", Ptr)]); ("nanosleep", Struct [("clockid", typedef_clockid_t); ("type", Enum);
     ("", Union [("rmtp", PtrTo "struct __kernel_timespec");
     ("compat_rmtp", PtrTo "struct old_timespec32")]); ("expires", typedef_u64)]);
     ("poll", Struct [("ufds", PtrTo "struct pollfd"); ("nfds", U32); ("has_timeout", U32);
     ("tv_sec", U64); ("tv_nsec", U64)])])].

Definition typedef___kernel_pid_t : cty := U32.
Definition typedef_pid_t : cty := typedef___kernel_pid_t.

Definition struct_prev_cputime : cty :=
  Struct
    [("utime", typedef_u64); ("stime", typedef_u64); ("lock", typedef_raw_spinlock_t)].

Definition struct_seqcount : cty :=
  Struct
    [("sequence", U32)].

Definition typedef_seqcount_t : cty := struct_seqcount.

Definition struct_vtime : cty :=
  Struct
    [("seqcount", typedef_seqcount_t); ("starttime", U64); ("state", Enum);
     ("utime", typedef_u64); ("stime", typedef_u64); ("gtime", typedef_u64)].

Definition struct_timerqueue_head : cty :=
  Struct
    [("rb_root", struct_rb_root_cached)].

Definition struct_posix_cputimer_base : cty :=
  Struct
    [("nextevt", typedef_u64); ("tqhead", struct_timerqueue_head)].

Definition struct_posix_cputimers : cty :=
  Struct
    [("bases", Array 3 struct_posix_cputimer_base); ("timers_active", U32);
     ("expiry_active", U32)].

Definition struct_sysv_sem : cty :=
  Struct
    [("undo_list", PtrTo "struct sem_undo_list")].

Definition struct_sysv_shm : cty :=
  Struct
    [("shm_clist", struct_list_head)].

Definition typedef_sigset_t : cty :=
  Struct
    [("sig", Array 1 U64)].

Definition struct_sigpending : cty :=
  Struct
    [("list", struct_list_head); ("signal", typedef_sigset_t)].

Definition struct_seccomp : cty :=
  Struct
    [("mode", U32); ("filter", PtrTo "struct seccomp_filter")].

Definition struct_wake_q_node : cty :=
  Struct
    [("next", PtrTo "struct wake_q_node")].

Definition struct_task_io_accounting : cty :=
  Struct
    [("rchar", typedef_u64); ("wchar", typedef_u64); ("syscr", typedef_u64);
     ("syscw", typedef_u64); ("read_bytes", typedef_u64); ("write_bytes", typedef_u64);
     ("cancelled_write_bytes", typedef_u64)].

Definition typedef_nodemask_t : cty :=
  Struct
    [("bits", Array 1 U64)].

Definition struct_arch_tlbflush_unmap_batch : cty :=
  Struct
    [("cpumask", struct_cpumask)].

Definition typedef_bool : cty := U8.

Definition struct_tlbflush_unmap_batch : cty :=
  Struct
    [("arch", struct_arch_tlbflush_unmap_batch); ("flush_required", typedef_bool);
     ("writable", typedef_bool)].

Definition struct_page_frag : cty :=
  Struct
    [("page", PtrTo "struct page"); ("offset", typedef___u32); ("size", typedef___u32)].

Definition struct_desc_struct : cty :=
  Struct
    [("limit0", typedef_u16); ("base0", typedef_u16); ("base1", Bits 2 8); ("type", Bits 2 4);
     ("s", Bits 2 1); ("dpl", Bits 2 2); ("p", Bits 2 1); ("limit1", Bits 2 4);
     ("avl", Bits 2 1); ("l", Bits 2 1); ("d", Bits 2 1); ("g", Bits 2 1);
     ("base2", Bits 2 8)].

Definition typedef_mm_segment_t : cty :=
  Struct
    [("seg", U64)].

Definition struct_fregs_state : cty :=
  Struct
    [("cwd", typedef_u32); ("swd", typedef_u32); ("twd", typedef_u32); ("fip", typedef_u32);
     ("fcs", typedef_u32); ("foo", typedef_u32); ("fos", typedef_u32);
     ("st_space", Array 20 typedef_u32); ("status", typedef_u32)].

Definition struct_fxregs_state : cty :=
  Struct
    [("cwd", typedef_u16); ("swd", typedef_u16); ("twd", typedef_u16); ("fop", typedef_u16);
     ("", Union [("", Struct [("rip", typedef_u64); ("rdp", typedef_u64)]); ("", Struct
     [("fip", typedef_u32); ("fcs", typedef_u32); ("foo", typedef_u32);
     ("fos", typedef_u32)])]); ("mxcsr", typedef_u32); ("mxcsr_mask", typedef_u32);
     ("st_space", Array 32 typedef_u32); ("xmm_space", Array 64 typedef_u32);
     ("padding", Array 12 typedef_u32); ("", Union [("padding1", Array 12 typedef_u32);
     ("sw_reserved", Array 12 typedef_u32)])].

Definition struct_swregs_state : cty :=
  Struct
    [("cwd", typedef_u32); ("swd", typedef_u32); ("twd", typedef_u32); ("fip", typedef_u32);
     ("fcs", typedef_u32); ("foo", typedef_u32); ("fos", typedef_u32);
     ("st_space", Array 20 typedef_u32); ("ftop", typedef_u8); ("changed", typedef_u8);
     ("lookahead", typedef_u8); ("no_update", typedef_u8); ("rm", typedef_u8);
     ("alimit", typedef_u8); ("info", PtrTo "struct math_emu_info");
     ("entry_eip", typedef_u32)].

Definition struct_xstate_header : cty :=
  Struct
    [("xfeatures", typedef_u64); ("xcomp_bv", typedef_u64);
     ("reserved", Array 6 typedef_u64)].

Definition struct_xregs_state : cty :=
  Struct
    [("i387", struct_fxregs_state); ("header", struct_xstate_header);
     ("extended_state_area", Array 0 typedef_u8)].

Definition union_fpregs_state : cty :=
  Union
    [("fsave", struct_fregs_state); ("fxsave", struct_fxregs_state);
     ("soft", struct_swregs_state); ("xsave", struct_xregs_state);
     ("__padding", Array 4096 typedef_u8)].

Definition struct_fpu : cty :=
  Struct
    [("last_cpu", U32); ("avx512_timestamp", U64); ("", Pad 8 64); ("", Pad 8 64);
     ("", Pad 8 64); ("", Pad 8 64); ("", Pad 8 64); ("", Pad 8 64);
     ("state", union_fpregs_state)].

Definition struct_thread_struct : cty :=
  Struct
    [("tls_array", Array 3 struct_desc_struct); ("sp", U64); ("es", U16); ("ds", U16);
     ("fsindex", U16); ("gsindex", U16); ("fsbase", U64); ("gsbase", U64);
     ("ptrace_bps", Array 4 (PtrTo "struct perf_event")); ("debugreg6", U64);
     ("ptrace_dr7", U64); ("cr2", U64); ("trap_nr", U64); ("error_code", U64);
     ("io_bitmap_ptr", Ptr); ("iopl", U64); ("io_bitmap_max", U32);
     ("addr_limit", typedef_mm_segment_t); ("sig_on_uaccess_err", Bits 4 1);
     ("uaccess_err", Bits 4 1); ("", Pad 8 64); ("", Pad 8 64); ("", Pad 8 64);
     ("fpu", struct_fpu)].

Definition struct_task_struct : cty :=
  Struct
    [("thread_info", struct_thread_info); ("state", U64); ("stack", Ptr);
     ("usage", typedef_refcount_t); ("flags", U32); ("ptrace", U32);
     ("wake_entry", struct_llist_node); ("on_cpu", U32); ("cpu", U32); ("wakee_flips", U32);
     ("wakee_flip_decay_ts", U64); ("last_wakee", PtrTo "struct task_struct");
     ("recent_used_cpu", U32); ("wake_cpu", U32); ("on_rq", U32); ("prio", U32);
     ("static_prio", U32); ("normal_prio", U32); ("rt_priority", U32);
     ("sched_class", PtrTo "struct sched_class"); ("se", struct_sched_entity);
     ("rt", struct_sched_rt_entity); ("sched_task_group", PtrTo "struct task_group");
     ("dl", struct_sched_dl_entity); ("preempt_notifiers", struct_hlist_head);
     ("btrace_seq", U32); ("policy", U32); ("nr_cpus_allowed", U32);
     ("cpus_ptr", PtrTo "struct cpumask"); ("cpus_mask", typedef_cpumask_t);
     ("sched_info", struct_sched_info); ("tasks", struct_list_head);
     ("pushable_tasks", struct_plist_node); ("pushable_dl_tasks", struct_rb_node);
     ("mm", PtrTo "struct mm_struct"); ("active_mm", PtrTo "struct mm_struct");
     ("vmacache", struct_vmacache); ("rss_stat", struct_task_rss_stat); ("exit_state", U32);
     ("exit_code", U32); ("exit_signal", U32); ("pdeath_signal", U32); ("jobctl", U64);
     ("personality", U32); ("sched_reset_on_fork", Bits 4 1);
     ("sched_contributes_to_load", Bits 4 1); ("sched_migrated", Bits 4 1);
     ("sched_remote_wakeup", Bits 4 1); ("sched_psi_wake_requeue", Bits 4 1); ("", Pad 8 27);
     ("in_execve", Bits 4 1); ("in_iowait", Bits 4 1); ("restore_sigmask", Bits 4 1);
     ("in_user_fault", Bits 4 1); ("no_cgroup_migration", Bits 4 1); ("frozen", Bits 4 1);
     ("use_memdelay", Bits 4 1); ("in_memstall", Bits 4 1); ("atomic_flags", U64);
     ("restart_block", struct_restart_block); ("pid", typedef_pid_t); ("tgid", typedef_pid_t);
     ("stack_canary", U64); ("real_parent", PtrTo "struct task_struct");
     ("parent", PtrTo "struct task_struct"); ("children", struct_list_head);
     ("sibling", struct_list_head); ("group_leader", PtrTo "struct task_struct");
     ("ptraced", struct_list_head); ("ptrace_entry", struct_list_head);
     ("thread_pid", PtrTo "struct pid"); ("pid_links", Array 4 struct_hlist_node);
     ("thread_group", struct_list_head); ("thread_node", struct_list_head);
     ("vfork_done", PtrTo "struct completion"); ("set_child_tid", Ptr);
     ("clear_child_tid", Ptr); ("utime", typedef_u64); ("stime", typedef_u64);
     ("gtime", typedef_u64); ("prev_cputime", struct_prev_cputime); ("vtime", struct_vtime);
     ("burst_credit", Ptr); ("tick_dep_mask", typedef_atomic_t); ("nvcsw", U64);
     ("nivcsw", U64); ("start_time", typedef_u64); ("real_start_time", typedef_u64);
     ("min_flt", U64); ("maj_flt", U64); ("posix_cputimers", struct_posix_cputimers);
     ("ptracer_cred", PtrTo "struct cred"); ("real_cred", PtrTo "struct cred");
     ("cred", PtrTo "struct cred"); ("cached_requested_key", PtrTo "struct key");
     ("comm", Array 16 U8); ("nameidata", PtrTo "struct nameidata");
     ("sysvsem", struct_sysv_sem); ("sysvshm", struct_sysv_shm); ("last_switch_count", U64);
     ("last_switch_time", U64); ("fs", PtrTo "struct fs_struct");
     ("files", PtrTo "struct files_struct"); ("io_uring", PtrTo "struct io_uring_task");
     ("nsproxy", PtrTo "struct nsproxy"); ("signal", PtrTo "struct signal_struct");
     ("sighand", PtrTo "struct sighand_struct"); ("blocked", typedef_sigset_t);
     ("real_blocked", typedef_sigset_t); ("saved_sigmask", typedef_sigset_t);
     ("pending", struct_sigpending); ("sas_ss_sp", U64); ("sas_ss_size", typedef_size_t);
     ("sas_ss_flags", U32); ("task_works", PtrTo "struct callback_head");
     ("audit_context", PtrTo "struct audit_context"); ("loginuid", typedef_kuid_t);
     ("sessionid", U32); ("seccomp", struct_seccomp); ("parent_exec_id", typedef_u64);
     ("self_exec_id", typedef_u64); ("alloc_lock", typedef_spinlock_t);
     ("pi_lock", typedef_raw_spinlock_t); ("wake_q", struct_wake_q_node);
     ("pi_waiters", struct_rb_root_cached); ("pi_top_task", PtrTo "struct task_struct");
     ("pi_blocked_on", PtrTo "struct rt_mutex_waiter"); ("journal_info", Ptr);
     ("bio_list", PtrTo "struct bio_list"); ("plug", PtrTo "struct blk_plug");
     ("reclaim_state", PtrTo "struct reclaim_state");
     ("backing_dev_info", PtrTo "struct backing_dev_info");
     ("io_context", PtrTo "struct io_context");
     ("capture_control", PtrTo "struct capture_control"); ("ptrace_message", U64);
     ("last_siginfo", PtrTo "struct kernel_siginfo"); ("ioac", struct_task_io_accounting);
     ("psi_flags", U32); ("acct_rss_mem1", typedef_u64); ("acct_vm_mem1", typedef_u64);
     ("acct_timexpd", typedef_u64); ("mems_allowed", typedef_nodemask_t);
     ("mems_allowed_seq", typedef_seqcount_t); ("cpuset_mem_spread_rotor", U32);
     ("cpuset_slab_spread_rotor", U32); ("cgroups", PtrTo "struct css_set");
     ("cg_list", struct_list_head); ("closid", typedef_u32); ("rmid", typedef_u32);
     ("robust_list", PtrTo "struct robust_list_head");
     ("compat_robust_list", PtrTo "struct compat_robust_list_head");
     ("pi_state_list", struct_list_head); ("pi_state_cache", PtrTo "struct futex_pi_state");
     ("futex_exit_mutex", struct_mutex); ("futex_state", U32);
     ("perf_event_ctxp", Array 2 (PtrTo "struct perf_event_context"));
     ("perf_event_mutex", struct_mutex); ("perf_event_list", struct_list_head);
     ("mempolicy", PtrTo "struct mempolicy"); ("il_prev", U16); ("pref_node_fork", U16);
     ("numa_scan_seq", U32); ("numa_scan_period", U32); ("numa_scan_period_max", U32);
     ("numa_preferred_nid", U32); ("numa_migrate_retry", U64); ("node_stamp", typedef_u64);
     ("last_task_numa_placement", typedef_u64); ("last_sum_exec_runtime", typedef_u64);
     ("numa_work", struct_callback_head); ("numa_group", PtrTo "struct numa_group");
     ("numa_faults", Ptr); ("total_numa_faults", U64); ("numa_faults_locality", Array 3 U64);
     ("numa_pages_migrated", U64); ("rseq", PtrTo "struct rseq"); ("rseq_sig", typedef_u32);
     ("rseq_event_mask", U64); ("tlb_ubc", struct_tlbflush_unmap_batch); ("", Union
     [("rcu_users", typedef_refcount_t); ("rcu", struct_callback_head)]);
     ("splice_pipe", PtrTo "struct pipe_inode_info"); ("task_frag", struct_page_frag);
     ("delays", PtrTo "struct task_delay_info"); ("nr_dirtied", U32);
     ("nr_dirtied_pause", U32); ("dirty_paused_when", U64); ("timer_slack_ns", typedef_u64);
     ("default_timer_slack_ns", typedef_u64); ("curr_ret_stack", U32);
     ("curr_ret_depth", U32); ("ret_stack", PtrTo "struct ftrace_ret_stack");
     ("ftrace_timestamp", U64); ("trace_overrun", typedef_atomic_t);
     ("tracing_graph_pause", typedef_atomic_t); ("trace", U64); ("trace_recursion", U64);
     ("memcg_in_oom", PtrTo "struct mem_cgroup"); ("memcg_oom_gfp_mask", typedef_gfp_t);
     ("memcg_oom_order", U32); ("memcg_nr_pages_over_high", U32);
     ("active_memcg", PtrTo "struct mem_cgroup");
     ("throttle_queue", PtrTo "struct request_queue"); ("utask", PtrTo "struct uprobe_task");
     ("sequential_io", U32); ("sequential_io_avg", U32); ("pagefault_disabled", U32);
     ("oom_reaper_list", PtrTo "struct task_struct");
     ("stack_vm_area", PtrTo "struct vm_struct"); ("stack_refcount", typedef_refcount_t);
     ("patch_state", U32); ("security", Ptr); ("mce_vaddr", Ptr);
     ("mce_kflags", typedef___u64); ("mce_addr", typedef_u64); ("mce_ripv", Bits 8 1);
     ("mce_whole_page", Bits 8 1); ("__mce_reserved", Bits 8 62);
     ("mce_kill_me", struct_callback_head); ("mce_count", U32); ("", Pad 8 64);
     ("", Pad 8 64); ("", Pad 8 64); ("", Pad 8 64); ("", Pad 8 64); ("", Pad 8 64);
     ("thread", struct_thread_struct)].

Definition typedef___addrpair : cty := typedef___u64.
Definition typedef___portpair : cty := typedef___u32.

Definition typedef_possible_net_t : cty :=
  Struct
    [("net", PtrTo "struct net")].

Definition struct_in6_addr : cty :=
  Struct
    [("in6_u", Union [("u6_addr8", Array 16 typedef___u8);
     ("u6_addr16", Array 8 typedef___be16); ("u6_addr32", Array 4 typedef___be32)])].

Definition struct_hlist_nulls_node : cty :=
  Struct
    [("next", PtrTo "struct hlist_nulls_node");
     ("pprev", Pointer 2 "struct hlist_nulls_node")].

Definition struct_sock_common : cty :=
  Struct
    [("", Union [("skc_addrpair", typedef___addrpair); ("", Struct
     [("skc_daddr", typedef___be32); ("skc_rcv_saddr", typedef___be32)])]); ("", Union
     [("skc_hash", U32); ("skc_u16hashes", Array 2 typedef___u16)]); ("", Union
     [("skc_portpair", typedef___portpair); ("", Struct [("skc_dport", typedef___be16);
     ("skc_num", typedef___u16)])]); ("skc_family", U16); ("skc_state", U8);
     ("skc_reuse", Bits 1 4); ("skc_reuseport", Bits 1 1); ("skc_ipv6only", Bits 1 1);
     ("skc_net_refcnt", Bits 1 1); ("skc_bound_dev_if", U32); ("", Union
     [("skc_bind_node", struct_hlist_node); ("skc_portaddr_node", struct_hlist_node)]);
     ("skc_prot", PtrTo "struct proto"); ("skc_net", typedef_possible_net_t);
     ("skc_v6_daddr", struct_in6_addr); ("skc_v6_rcv_saddr", struct_in6_addr);
     ("skc_cookie", typedef_atomic64_t); ("", Union [("skc_flags", U64);
     ("skc_listener", PtrTo "struct sock");
     ("skc_tw_dr", PtrTo "struct inet_timewait_death_row")]);
     ("skc_dontcopy_begin", Array 0 U32); ("", Union [("skc_node", struct_hlist_node);
     ("skc_nulls_node", struct_hlist_nulls_node)]); ("skc_tx_queue_mapping", U16);
     ("skc_rx_queue_mapping", U16); ("", Union [("skc_incoming_cpu", U32);
     ("skc_rcv_wnd", typedef_u32); ("skc_tw_rcv_nxt", typedef_u32)]);
     ("skc_refcnt", typedef_refcount_t); ("skc_dontcopy_end", Array 0 U32); ("", Union
     [("skc_rxhash", typedef_u32); ("skc_window_clamp", typedef_u32);
     ("skc_tw_snd_nxt", typedef_u32)])].

Definition struct_timer_list : cty :=
  Struct
    [("entry", struct_hlist_node); ("expires", U64); ("function", Ptr);
     ("flags", typedef_u32)].

Definition struct_request_sock : cty :=
  Struct
    [("__req_common", struct_sock_common); ("dl_next", PtrTo "struct request_sock");
     ("mss", typedef_u16); ("num_retrans", typedef_u8); ("cookie_ts", Bits 1 1);
     ("num_timeout", Bits 1 7); ("ts_recent", typedef_u32); ("rsk_timer", struct_timer_list);
     ("rsk_ops", PtrTo "struct request_sock_ops"); ("sk", PtrTo "struct sock");
     ("saved_syn", PtrTo "struct saved_syn"); ("secid", typedef_u32);
     ("peer_secid", typedef_u32)].

Definition struct_inet_request_sock : cty :=
  Struct
    [("req", struct_request_sock); ("snd_wscale", Bits 2 4); ("rcv_wscale", Bits 2 4);
     ("tstamp_ok", Bits 2 1); ("sack_ok", Bits 2 1); ("wscale_ok", Bits 2 1);
     ("ecn_ok", Bits 2 1); ("acked", Bits 2 1); ("no_srccheck", Bits 2 1);
     ("smc_ok", Bits 2 1); ("ir_mark", typedef_u32); ("", Union
     [("ireq_opt", PtrTo "struct ip_options_rcu"); ("", Struct
     [("ipv6_opt", PtrTo "struct ipv6_txoptions"); ("pktopts", PtrTo "struct sk_buff")])])].

Definition struct_tcp_request_sock : cty :=
  Struct
    [("req", struct_inet_request_sock); ("af_specific", PtrTo "struct tcp_request_sock_ops");
     ("snt_synack", typedef_u64); ("tfo_listener", typedef_bool); ("txhash", typedef_u32);
     ("rcv_isn", typedef_u32); ("snt_isn", typedef_u32); ("ts_off", typedef_u32);
     ("last_oow_ack_time", typedef_u32); ("tfo_info", typedef_u32);
     ("tcpi_csent_syn_stamp", typedef_u64); ("tcpi_srcv_syn_stamp", typedef_u64);
     ("tcpi_crcv_synack_stamp", typedef_u64); ("tcpi_srcv_ack_stamp", typedef_u64);
     ("rcv_nxt", typedef_u32)].

Definition typedef_socket_lock_t : cty :=
  Struct
    [("slock", typedef_spinlock_t); ("owned", U32); ("wq", typedef_wait_queue_head_t)].

Definition struct_sk_buff_head : cty :=
  Struct
    [("next", PtrTo "struct sk_buff"); ("prev", PtrTo "struct sk_buff");
     ("qlen", typedef___u32); ("lock", typedef_spinlock_t)].

Definition typedef_netdev_features_t : cty := typedef_u64.

Definition struct_sock_cgroup_data : cty :=
  Struct
    [("", Union [("", Struct [("is_data", Bits 1 1); ("no_refcnt", Bits 1 1);
     ("unused", Bits 1 6); ("padding", typedef_u8); ("prioidx", typedef_u16);
     ("classid", typedef_u32)]); ("val", typedef_u64)])].

Definition struct_sock : cty :=
  Struct
    [("__sk_common", struct_sock_common); ("sk_lock", typedef_socket_lock_t);
     ("sk_drops", typedef_atomic_t); ("sk_rcvlowat", U32);
     ("sk_error_queue", struct_sk_buff_head); ("sk_rx_skb_cache", PtrTo "struct sk_buff");
     ("sk_receive_queue", struct_sk_buff_head); ("sk_backlog", Struct
     [("rmem_alloc", typedef_atomic_t); ("len", U32); ("head", PtrTo "struct sk_buff");
     ("tail", PtrTo "struct sk_buff")]); ("sk_forward_alloc", U32); ("sk_ll_usec", U32);
     ("sk_napi_id", U32); ("sk_rcvbuf", U32); ("sk_filter", PtrTo "struct sk_filter");
     ("", Union [("sk_wq", PtrTo "struct socket_wq");
     ("sk_wq_raw", PtrTo "struct socket_wq")]);
     ("sk_policy", Array 2 (PtrTo "struct xfrm_policy"));
     ("sk_rx_dst", PtrTo "struct dst_entry"); ("sk_dst_cache", PtrTo "struct dst_entry");
     ("sk_omem_alloc", typedef_atomic_t); ("sk_sndbuf", U32); ("sk_wmem_queued", U32);
     ("sk_wmem_alloc", typedef_refcount_t); ("sk_tsq_flags", U64); ("", Union
     [("sk_send_head", PtrTo "struct sk_buff"); ("tcp_rtx_queue", struct_rb_root)]);
     ("sk_tx_skb_cache", PtrTo "struct sk_buff"); ("sk_write_queue", struct_sk_buff_head);
     ("sk_peek_off", typedef___s32); ("sk_write_pending", U32);
     ("sk_dst_pending_confirm", typedef___u32); ("sk_pacing_status", typedef_u32);
     ("sk_sndtimeo", U64); ("sk_timer", struct_timer_list); ("sk_priority", typedef___u32);
     ("sk_mark", typedef___u32); ("sk_pacing_rate", U64); ("sk_max_pacing_rate", U64);
     ("sk_frag", struct_page_frag); ("sk_route_caps", typedef_netdev_features_t);
     ("sk_route_nocaps", typedef_netdev_features_t);
     ("sk_route_forced_caps", typedef_netdev_features_t); ("sk_gso_type", U32);
     ("sk_gso_max_size", U32); ("sk_allocation", typedef_gfp_t); ("sk_txhash", typedef___u32);
     ("__sk_flags_offset", Array 0 U32); ("sk_padding", Bits 4 1); ("sk_kern_sock", Bits 4 1);
     ("sk_no_check_tx", Bits 4 1); ("sk_no_check_rx", Bits 4 1); ("sk_userlocks", Bits 4 4);
     ("sk_protocol", Bits 4 8); ("sk_type", Bits 4 16); ("sk_gso_max_segs", typedef_u16);
     ("sk_pacing_shift", typedef_u8); ("sk_lingertime", U64);
     ("sk_prot_creator", PtrTo "struct proto"); ("sk_callback_lock", typedef_rwlock_t);
     ("sk_err", U32); ("sk_err_soft", U32); ("sk_ack_backlog", typedef_u32);
     ("sk_max_ack_backlog", typedef_u32); ("sk_uid", typedef_kuid_t);
     ("sk_peer_pid", PtrTo "struct pid"); ("sk_peer_cred", PtrTo "struct cred");
     ("sk_rcvtimeo", U64); ("sk_stamp", typedef_ktime_t); ("sk_tsflags", typedef_u16);
     ("sk_shutdown", typedef_u8); ("sk_tskey", typedef_u32); ("sk_zckey", typedef_atomic_t);
     ("sk_clockid", typedef_u8); ("sk_txtime_deadline_mode", Bits 1 1);
     ("sk_txtime_report_errors", Bits 1 1); ("sk_txtime_unused", Bits 1 6);
     ("sk_socket", PtrTo "struct socket"); ("sk_user_data", Ptr); ("sk_security", Ptr);
     ("sk_cgrp_data", struct_sock_cgroup_data); ("sk_memcg", PtrTo "struct mem_cgroup");
     ("sk_state_change", Ptr); ("sk_data_ready", Ptr); ("sk_write_space", Ptr);
     ("sk_error_report", Ptr); ("sk_backlog_rcv", Ptr); ("sk_destruct", Ptr);
     ("sk_reuseport_cb", PtrTo "struct sock_reuseport");
     ("sk_bpf_storage", PtrTo "struct bpf_sk_storage"); ("sk_rcu", struct_callback_head);
     ("tcpa_priv1", Ptr); ("tcpa_priv2", Ptr); ("tcpa_priv3", Ptr);
     ("tcpa_priv4", typedef_u32)].

Definition struct_inet_cork : cty :=
  Struct
    [("flags", U32); ("addr", typedef___be32); ("opt", PtrTo "struct ip_options");
     ("fragsize", U32); ("length", U32); ("dst", PtrTo "struct dst_entry");
     ("tx_flags", typedef_u8); ("ttl", typedef___u8); ("tos", typedef___s16);
     ("priority", U8); ("gso_size", typedef___u16); ("transmit_time", typedef_u64);
     ("mark", typedef_u32)].

Definition typedef___be64 : cty := typedef___u64.

Definition struct_flowi_tunnel : cty :=
  Struct
    [("tun_id", typedef___be64)].

Definition struct_flowi_common : cty :=
  Struct
    [("flowic_oif", U32); ("flowic_iif", U32); ("flowic_mark", typedef___u32);
     ("flowic_tos", typedef___u8); ("flowic_scope", typedef___u8);
     ("flowic_proto", typedef___u8); ("flowic_flags", typedef___u8);
     ("flowic_secid", typedef___u32); ("flowic_uid", typedef_kuid_t);
     ("flowic_tun_key", struct_flowi_tunnel); ("flowic_multipath_hash", typedef___u32)].

Definition typedef___le16 : cty := typedef___u16.

Definition union_flowi_uli : cty :=
  Union
    [("ports", Struct [("dport", typedef___be16); ("sport", typedef___be16)]);
     ("icmpt", Struct [("type", typedef___u8); ("code", typedef___u8)]); ("dnports", Struct
     [("dport", typedef___le16); ("sport", typedef___le16)]); ("spi", typedef___be32);
     ("gre_key", typedef___be32); ("mht", Struct [("type", typedef___u8)])].

Definition struct_flowi4 : cty :=
  Struct
    [("__fl_common", struct_flowi_common); ("saddr", typedef___be32);
     ("daddr", typedef___be32); ("uli", union_flowi_uli)].

Definition struct_flowi6 : cty :=
  Struct
    [("__fl_common", struct_flowi_common); ("daddr", struct_in6_addr);
     ("saddr", struct_in6_addr); ("flowlabel", typedef___be32); ("uli", union_flowi_uli);
     ("mp_hash", typedef___u32)].

Definition struct_flowidn : cty :=
  Struct
    [("__fl_common", struct_flowi_common); ("daddr", typedef___le16);
     ("saddr", typedef___le16); ("uli", union_flowi_uli)].

Definition struct_flowi : cty :=
  Struct
    [("u", Union [("__fl_common", struct_flowi_common); ("ip4", struct_flowi4);
     ("ip6", struct_flowi6); ("dn", struct_flowidn)])].

Definition struct_inet_cork_full : cty :=
  Struct
    [("base", struct_inet_cork); ("fl", struct_flowi)].

Definition struct_inet_sock : cty :=
  Struct
    [("sk", struct_sock); ("pinet6", PtrTo "struct ipv6_pinfo");
     ("inet_saddr", typedef___be32); ("uc_ttl", typedef___s16); ("cmsg_flags", typedef___u16);
     ("inet_sport", typedef___be16); ("inet_id", typedef___u16);
     ("inet_opt", PtrTo "struct ip_options_rcu"); ("rx_dst_ifindex", U32);
     ("tos", typedef___u8); ("min_ttl", typedef___u8); ("mc_ttl", typedef___u8);
     ("pmtudisc", typedef___u8); ("recverr", Bits 1 1); ("is_icsk", Bits 1 1);
     ("freebind", Bits 1 1); ("hdrincl", Bits 1 1); ("mc_loop", Bits 1 1);
     ("transparent", Bits 1 1); ("mc_all", Bits 1 1); ("nodefrag", Bits 1 1);
     ("bind_address_no_port", Bits 1 1); ("defer_connect", Bits 1 1);
     ("rcv_tos", typedef___u8); ("convert_csum", typedef___u8); ("uc_index", U32);
     ("mc_index", U32); ("mc_addr", typedef___be32);
     ("mc_list", PtrTo "struct ip_mc_socklist"); ("cork", struct_inet_cork_full)].

Definition struct_fastopen_queue : cty :=
  Struct
    [("rskq_rst_head", PtrTo "struct request_sock");
     ("rskq_rst_tail", PtrTo "struct request_sock"); ("lock", typedef_spinlock_t);
     ("qlen", U32); ("max_qlen", U32); ("ctx", PtrTo "struct tcp_fastopen_context")].

Definition struct_request_sock_queue : cty :=
  Struct
    [("rskq_lock", typedef_spinlock_t); ("rskq_defer_accept", typedef_u8);
     ("synflood_warned", typedef_u32); ("qlen", typedef_atomic_t);
     ("young", typedef_atomic_t); ("rskq_accept_head", PtrTo "struct request_sock");
     ("rskq_accept_tail", PtrTo "struct request_sock"); ("fastopenq", struct_fastopen_queue)].

Definition struct_inet_connection_sock : cty :=
  Struct
    [("icsk_inet", struct_inet_sock); ("icsk_accept_queue", struct_request_sock_queue);
     ("icsk_bind_hash", PtrTo "struct inet_bind_bucket"); ("icsk_timeout", U64);
     ("icsk_retransmit_timer", struct_timer_list); ("icsk_delack_timer", struct_timer_list);
     ("icsk_rto", typedef___u32); ("icsk_rto_min", typedef___u32);
     ("icsk_delack_max", typedef___u32); ("icsk_pmtu_cookie", typedef___u32);
     ("icsk_ca_ops", PtrTo "struct tcp_congestion_ops");
     ("icsk_af_ops", PtrTo "struct inet_connection_sock_af_ops");
     ("icsk_ulp_ops", PtrTo "struct tcp_ulp_ops"); ("icsk_ulp_data", Ptr);
     ("icsk_clean_acked", Ptr); ("icsk_listen_portaddr_node", struct_hlist_node);
     ("icsk_sync_mss", Ptr); ("icsk_ca_state", Bits 1 6); ("icsk_ca_setsockopt", Bits 1 1);
     ("icsk_ca_dst_locked", Bits 1 1); ("icsk_retransmits", typedef___u8);
     ("icsk_pending", typedef___u8); ("icsk_backoff", typedef___u8);
     ("icsk_syn_retries", typedef___u8); ("icsk_probes_out", typedef___u8);
     ("icsk_ext_hdr_len", typedef___u16); ("icsk_ack", Struct [("pending", typedef___u8);
     ("quick", typedef___u8); ("pingpong", typedef___u8); ("blocked", typedef___u8);
     ("ato", typedef___u32); ("timeout", U64); ("lrcvtime", typedef___u32);
     ("last_seg_size", typedef___u16); ("rcv_mss", typedef___u16)]); ("icsk_mtup", Struct
     [("enabled", U32); ("search_high", U32); ("search_low", U32); ("probe_size", U32);
     ("probe_timestamp", typedef_u32)]); ("icsk_probes_tstamp", typedef_u32);
     ("icsk_user_timeout", typedef_u32); ("icsk_ca_priv", Array 32 typedef_u64)].

Definition struct_tcp_rack : cty :=
  Struct
    [("mstamp", typedef_u64); ("rtt_us", typedef_u32); ("end_seq", typedef_u32);
     ("last_delivered", typedef_u32); ("reo_wnd_steps", typedef_u8);
     ("reo_wnd_persist", Bits 1 5); ("dsack_seen", Bits 1 1); ("advanced", Bits 1 1)].

Definition struct_minmax_sample : cty :=
  Struct
    [("t", typedef_u32); ("v", typedef_u32)].

Definition struct_minmax : cty :=
  Struct
    [("s", Array 3 struct_minmax_sample)].

Definition struct_tcp_options_received : cty :=
  Struct
    [("ts_recent_stamp", U32); ("ts_recent", typedef_u32); ("rcv_tsval", typedef_u32);
     ("rcv_tsecr", typedef_u32); ("saw_tstamp", Bits 2 1); ("tstamp_ok", Bits 2 1);
     ("dsack", Bits 2 1); ("wscale_ok", Bits 2 1); ("sack_ok", Bits 2 3);
     ("smc_ok", Bits 2 1); ("snd_wscale", Bits 2 4); ("rcv_wscale", Bits 2 4);
     ("saw_unknown", Bits 1 1); ("unused", Bits 1 7); ("num_sacks", typedef_u8);
     ("user_mss", typedef_u16); ("mss_clamp", typedef_u16)].

Definition struct_tcp_sack_block : cty :=
  Struct
    [("start_seq", typedef_u32); ("end_seq", typedef_u32)].

Definition struct_tcp_sock : cty :=
  Struct
    [("inet_conn", struct_inet_connection_sock); ("tcp_header_len", typedef_u16);
     ("gso_segs", typedef_u16); ("pred_flags", typedef___be32);
     ("bytes_received", typedef_u64); ("segs_in", typedef_u32); ("data_segs_in", typedef_u32);
     ("rcv_nxt", typedef_u32); ("copied_seq", typedef_u32); ("rcv_wup", typedef_u32);
     ("snd_nxt", typedef_u32); ("segs_out", typedef_u32); ("data_segs_out", typedef_u32);
     ("bytes_sent", typedef_u64); ("bytes_acked", typedef_u64); ("dsack_dups", typedef_u32);
     ("snd_una", typedef_u32); ("snd_sml", typedef_u32); ("rcv_tstamp", typedef_u32);
     ("lsndtime", typedef_u32); ("last_oow_ack_time", typedef_u32);
     ("compressed_ack_rcv_nxt", typedef_u32); ("tsoffset", typedef_u32);
     ("tsq_node", struct_list_head); ("tsorted_sent_queue", struct_list_head);
     ("snd_wl1", typedef_u32); ("snd_wnd", typedef_u32); ("max_window", typedef_u32);
     ("mss_cache", typedef_u32); ("window_clamp", typedef_u32); ("rcv_ssthresh", typedef_u32);
     ("rack", struct_tcp_rack); ("advmss", typedef_u16); ("compressed_ack", typedef_u8);
     ("tlp_retrans", Bits 1 1); ("unused_1", Bits 1 7); ("fast_ack_mode", Bits 1 2);
     ("app_disable_frto", Bits 1 1); ("unused1", Bits 1 5); ("chrono_start", typedef_u32);
     ("chrono_stat", Array 3 typedef_u32); ("chrono_type", Bits 1 2);
     ("rate_app_limited", Bits 1 1); ("fastopen_connect", Bits 1 1);
     ("fastopen_no_cookie", Bits 1 1); ("is_sack_reneg", Bits 1 1); ("unused", Bits 1 2);
     ("nonagle", Bits 1 4); ("thin_lto", Bits 1 1); ("recvmsg_inq", Bits 1 1);
     ("repair", Bits 1 1); ("frto", Bits 1 1); ("repair_queue", typedef_u8);
     ("save_syn", Bits 1 2); ("syn_data", Bits 1 1); ("syn_fastopen", Bits 1 1);
     ("syn_fastopen_exp", Bits 1 1); ("syn_fastopen_ch", Bits 1 1);
     ("syn_data_acked", Bits 1 1); ("is_cwnd_limited", Bits 1 1); ("tfo_info", typedef_u32);
     ("tcpi_csent_syn_stamp", typedef_u64); ("tcpi_srcv_syn_stamp", typedef_u64);
     ("tcpi_crcv_synack_stamp", typedef_u64); ("tcpi_srcv_ack_stamp", typedef_u64);
     ("tcpi_firstdata_stamp", typedef_u64); ("tcpi_probe0_times", typedef_u32);
     ("tlp_high_seq", typedef_u32); ("tcp_tx_delay", typedef_u32);
     ("tcp_wstamp_ns", typedef_u64); ("tcp_clock_cache", typedef_u64);
     ("tcp_mstamp", typedef_u64); ("srtt_us", typedef_u32); ("max_srtt_us", typedef_u32);
     ("mdev_us", typedef_u32); ("mdev_max_us", typedef_u32); ("rttvar_us", typedef_u32);
     ("rtt_seq", typedef_u32); ("rtt_min", struct_minmax); ("rto_min_thresh", typedef_u32);
     ("rto_max_thresh", typedef_u32); ("packets_out", typedef_u32);
     ("retrans_out", typedef_u32); ("max_packets_out", typedef_u32);
     ("max_packets_seq", typedef_u32); ("urg_data", typedef_u16); ("ecn_flags", typedef_u8);
     ("keepalive_probes", typedef_u8); ("reordering", typedef_u32);
     ("reord_seen", typedef_u32); ("snd_up", typedef_u32);
     ("rx_opt", struct_tcp_options_received); ("snd_ssthresh", typedef_u32);
     ("snd_cwnd", typedef_u32); ("snd_cwnd_cnt", typedef_u32);
     ("snd_cwnd_clamp", typedef_u32); ("snd_cwnd_used", typedef_u32);
     ("snd_cwnd_stamp", typedef_u32); ("prior_cwnd", typedef_u32);
     ("prr_delivered", typedef_u32); ("prr_out", typedef_u32); ("delivered", typedef_u32);
     ("delivered_ce", typedef_u32); ("lost", typedef_u32); ("app_limited", typedef_u32);
     ("first_tx_mstamp", typedef_u64); ("delivered_mstamp", typedef_u64);
     ("rate_delivered", typedef_u32); ("rate_interval_us", typedef_u32);
     ("rcv_wnd", typedef_u32); ("write_seq", typedef_u32); ("notsent_lowat", typedef_u32);
     ("pushed_seq", typedef_u32); ("lost_out", typedef_u32); ("sacked_out", typedef_u32);
     ("pacing_timer", struct_hrtimer); ("compressed_ack_timer", struct_hrtimer);
     ("lost_skb_hint", PtrTo "struct sk_buff");
     ("retransmit_skb_hint", PtrTo "struct sk_buff"); ("out_of_order_queue", struct_rb_root);
     ("ooo_last_skb", PtrTo "struct sk_buff");
     ("duplicate_sack", Array 1 struct_tcp_sack_block);
     ("selective_acks", Array 4 struct_tcp_sack_block);
     ("recv_sack_cache", Array 4 struct_tcp_sack_block);
     ("highest_sack", PtrTo "struct sk_buff"); ("lost_cnt_hint", U32);
     ("prior_ssthresh", typedef_u32); ("high_seq", typedef_u32);
     ("retrans_stamp", typedef_u32); ("undo_marker", typedef_u32); ("undo_retrans", U32);
     ("bytes_retrans", typedef_u64); ("total_retrans", typedef_u32); ("urg_seq", typedef_u32);
     ("keepalive_time", U32); ("keepalive_intvl", U32); ("linger2", U32);
     ("bpf_sock_ops_cb_flags", typedef_u8); ("rcv_ooopack", typedef_u32);
     ("rcv_rtt_last_tsecr", typedef_u32); ("rcv_rtt_est", Struct [("rtt_us", typedef_u32);
     ("seq", typedef_u32); ("time", typedef_u64)]); ("rcvq_space", Struct
     [("space", typedef_u32); ("seq", typedef_u32); ("time", typedef_u64)]);
     ("mtu_probe", Struct [("probe_seq_start", typedef_u32); ("probe_seq_end", typedef_u32)]);
     ("mtu_info", typedef_u32); ("af_specific", PtrTo "struct tcp_sock_af_ops");
     ("md5sig_info", PtrTo "struct tcp_md5sig_info");
     ("fastopen_req", PtrTo "struct tcp_fastopen_request");
     ("fastopen_rsk", PtrTo "struct request_sock"); ("saved_syn", PtrTo "struct saved_syn");
     ("trace_opt", Struct [("tcp_trace_opt_calls", typedef_u32);
     ("tcp_trace_opt_ctx", typedef_u8)]); ("tcp_toa_ip", typedef___be32);
     ("tcp_toa_port", typedef___be16)].

Definition struct_inet_timewait_sock : cty :=
  Struct
    [("__tw_common", struct_sock_common); ("tw_mark", typedef___u32); ("tw_substate", U8);
     ("tw_rcv_wscale", U8); ("tw_sport", typedef___be16); ("tw_kill", Bits 4 1);
     ("tw_transparent", Bits 4 1); ("tw_flowlabel", Bits 4 20); ("tw_pad", Bits 4 2);
     ("tw_tos", Bits 4 8); ("tw_txhash", typedef_u32); ("tw_priority", typedef_u32);
     ("tw_timer", struct_timer_list); ("tw_tb", PtrTo "struct inet_bind_bucket")].

Definition struct_tcp_timewait_sock : cty :=
  Struct
    [("tw_sk", struct_inet_timewait_sock); ("tw_rcv_wnd", typedef_u32);
     ("tw_ts_offset", typedef_u32); ("tw_ts_recent", typedef_u32);
     ("tw_last_oow_ack_time", typedef_u32); ("tw_ts_recent_stamp", U32);
     ("tw_tx_delay", typedef_u32); ("tw_md5_key", PtrTo "struct tcp_md5sig_key")].

Definition typedef_wait_queue_func_t : cty := Ptr.

Definition struct_wait_queue_entry : cty :=
  Struct
    [("flags", U32); ("private", Ptr); ("func", typedef_wait_queue_func_t);
     ("entry", struct_list_head)].

Definition typedef_wait_queue_entry_t : cty := struct_wait_queue_entry.

Definition struct_unix_sock : cty :=
  Struct
    [("sk", struct_sock); ("addr", PtrTo "struct unix_address"); ("path", struct_path);
     ("iolock", struct_mutex); ("bindlock", struct_mutex); ("peer", PtrTo "struct sock");
     ("link", struct_list_head); ("inflight", typedef_atomic_long_t);
     ("lock", typedef_spinlock_t); ("gc_flags", U64); ("", Pad 8 64); ("", Pad 8 64);
     ("", Pad 8 64); ("", Pad 8 64); ("", Pad 8 64); ("peer_wq", struct_socket_wq);
     ("peer_wake", typedef_wait_queue_entry_t); ("", Pad 8 64); ("", Pad 8 64);
     ("", Pad 8 64)].

(** The types by name. *)
Definition helper_types : list (string * cty) :=
    [("struct llist_node", struct_llist_node); ("struct callback_head", struct_callback_head);
     ("atomic_t", typedef_atomic_t); ("struct qspinlock", struct_qspinlock);
     ("struct raw_spinlock", struct_raw_spinlock); ("struct spinlock", struct_spinlock);
     ("atomic64_t", typedef_atomic64_t);
     ("struct optimistic_spin_queue", struct_optimistic_spin_queue);
     ("struct list_head", struct_list_head); ("struct mutex", struct_mutex);
     ("struct qrwlock", struct_qrwlock); ("rwlock_t", typedef_rwlock_t);
     ("kuid_t", typedef_kuid_t); ("struct fown_struct", struct_fown_struct);
     ("struct file_ra_state", struct_file_ra_state); ("struct file", struct_file);
     ("kgid_t", typedef_kgid_t); ("struct timespec64", struct_timespec64);
     ("struct rw_semaphore", struct_rw_semaphore); ("struct hlist_node", struct_hlist_node);
     ("struct hlist_head", struct_hlist_head); ("struct xarray", struct_xarray);
     ("struct rb_root", struct_rb_root); ("struct rb_root_cached", struct_rb_root_cached);
     ("struct address_space", struct_address_space); ("struct inode", struct_inode);
     ("struct rlimit", struct_rlimit); ("struct linux_binprm", struct_linux_binprm);
     ("struct seq_file", struct_seq_file); ("struct wait_queue_head", struct_wait_queue_head);
     ("struct socket_wq", struct_socket_wq); ("struct socket", struct_socket);
     ("struct thread_info", struct_thread_info);
     ("struct refcount_struct", struct_refcount_struct);
     ("struct load_weight", struct_load_weight); ("struct rb_node", struct_rb_node);
     ("struct sched_statistics", struct_sched_statistics);
     ("struct util_est", struct_util_est); ("struct sched_avg", struct_sched_avg);
     ("struct sched_entity", struct_sched_entity);
     ("struct sched_rt_entity", struct_sched_rt_entity);
     ("struct timerqueue_node", struct_timerqueue_node); ("struct hrtimer", struct_hrtimer);
     ("struct sched_dl_entity", struct_sched_dl_entity); ("struct cpumask", struct_cpumask);
     ("struct sched_info", struct_sched_info); ("struct plist_node", struct_plist_node);
     ("struct vmacache", struct_vmacache); ("struct task_rss_stat", struct_task_rss_stat);
     ("struct restart_block", struct_restart_block);
     ("struct prev_cputime", struct_prev_cputime); ("struct seqcount", struct_seqcount);
     ("struct vtime", struct_vtime); ("struct timerqueue_head", struct_timerqueue_head);
     ("struct posix_cputimer_base", struct_posix_cputimer_base);
     ("struct posix_cputimers", struct_posix_cputimers); ("struct sysv_sem", struct_sysv_sem);
     ("struct sysv_shm", struct_sysv_shm); ("sigset_t", typedef_sigset_t);
     ("struct sigpending", struct_sigpending); ("struct seccomp", struct_seccomp);
     ("struct wake_q_node", struct_wake_q_node);
     ("struct task_io_accounting", struct_task_io_accounting);
     ("nodemask_t", typedef_nodemask_t);
     ("struct arch_tlbflush_unmap_batch", struct_arch_tlbflush_unmap_batch);
     ("struct tlbflush_unmap_batch", struct_tlbflush_unmap_batch);
     ("struct page_frag", struct_page_frag); ("struct desc_struct", struct_desc_struct);
     ("mm_segment_t", typedef_mm_segment_t); ("struct fregs_state", struct_fregs_state);
     ("struct fxregs_state", struct_fxregs_state);
     ("struct swregs_state", struct_swregs_state);
     ("struct xstate_header", struct_xstate_header);
     ("struct xregs_state", struct_xregs_state); ("union fpregs_state", union_fpregs_state);
     ("struct fpu", struct_fpu); ("struct thread_struct", struct_thread_struct);
     ("struct task_struct", struct_task_struct); ("possible_net_t", typedef_possible_net_t);
     ("struct in6_addr", struct_in6_addr);
     ("struct hlist_nulls_node", struct_hlist_nulls_node);
     ("struct sock_common", struct_sock_common); ("struct timer_list", struct_timer_list);
     ("struct request_sock", struct_request_sock);
     ("struct inet_request_sock", struct_inet_request_sock);
     ("struct tcp_request_sock", struct_tcp_request_sock);
     ("socket_lock_t", typedef_socket_lock_t); ("struct sk_buff_head", struct_sk_buff_head);
     ("struct sock_cgroup_data", struct_sock_cgroup_data); ("struct sock", struct_sock);
     ("struct inet_cork", struct_inet_cork); ("struct flowi_tunnel", struct_flowi_tunnel);
     ("struct flowi_common", struct_flowi_common); ("union flowi_uli", union_flowi_uli);
     ("struct flowi4", struct_flowi4); ("struct flowi6", struct_flowi6);
     ("struct flowidn", struct_flowidn); ("struct flowi", struct_flowi);
     ("struct inet_cork_full", struct_inet_cork_full); ("struct inet_sock", struct_inet_sock);
     ("struct fastopen_queue", struct_fastopen_queue);
     ("struct request_sock_queue", struct_request_sock_queue);
     ("struct inet_connection_sock", struct_inet_connection_sock);
     ("struct tcp_rack", struct_tcp_rack); ("struct minmax_sample", struct_minmax_sample);
     ("struct minmax", struct_minmax);
     ("struct tcp_options_received", struct_tcp_options_received);
     ("struct tcp_sack_block", struct_tcp_sack_block); ("struct tcp_sock", struct_tcp_sock);
     ("struct inet_timewait_sock", struct_inet_timewait_sock);
     ("struct tcp_timewait_sock", struct_tcp_timewait_sock);
     ("struct wait_queue_entry", struct_wait_queue_entry);
     ("struct unix_sock", struct_unix_sock)].

Lemma helper_types_complete : forallb (fun nt => complete nt.2) helper_types = true.
Proof. by_vm. Qed.

End HelperTypes.
