(* ===== verification/ReachedTypes1.v ===== *)
(** * The types behind pointers, part 1: src/ebpf/src/kernel/vmlinux.h

    What the pointers in the types of KernelTypes and HelperTypes point to, with
    what these types embed. *)

From Stdlib Require Import ZArith String.
From stdpp Require Import base list strings.
From S2P Require Import Prelude CTypes KernelTypes HelperTypes.
Import CTypes KernelTypes HelperTypes.

Local Open Scope string_scope.
Local Open Scope Z_scope.

Module ReachedTypes1.

Definition struct_vfsmount : cty :=
  Struct
    [("mnt_root", PtrTo "struct dentry"); ("mnt_sb", PtrTo "struct super_block");
     ("mnt_flags", U32)].

Definition struct_hlist_bl_node : cty :=
  Struct
    [("next", PtrTo "struct hlist_bl_node"); ("pprev", Pointer 2 "struct hlist_bl_node")].

Definition struct_qstr : cty :=
  Struct
    [("", Union [("", Struct [("hash", typedef_u32); ("len", typedef_u32)]);
     ("hash_len", typedef_u64)]); ("name", Ptr)].

Definition struct_lockref : cty :=
  Struct
    [("", Union [("lock_count", typedef___u64); ("", Struct [("lock", typedef_spinlock_t);
     ("count", U32)])])].

Definition struct_dentry : cty :=
  Struct
    [("d_flags", U32); ("d_seq", typedef_seqcount_t); ("d_hash", struct_hlist_bl_node);
     ("d_parent", PtrTo "struct dentry"); ("d_name", struct_qstr);
     ("d_inode", PtrTo "struct inode"); ("d_iname", Array 32 U8);
     ("d_lockref", struct_lockref); ("d_op", PtrTo "struct dentry_operations");
     ("d_sb", PtrTo "struct super_block"); ("d_time", U64); ("d_fsdata", Ptr); ("", Union
     [("d_lru", struct_list_head); ("d_wait", PtrTo "struct wait_queue_head")]);
     ("d_child", struct_list_head); ("d_subdirs", struct_list_head); ("d_u", Union
     [("d_alias", struct_hlist_node); ("d_in_lookup_hash", struct_hlist_bl_node);
     ("d_rcu", struct_callback_head)])].

Definition struct_file_operations : cty :=
  Struct
    [("owner", PtrTo "struct module"); ("llseek", Ptr); ("read", Ptr); ("write", Ptr);
     ("read_iter", Ptr); ("write_iter", Ptr); ("iopoll", Ptr); ("iterate", Ptr);
     ("iterate_shared", Ptr); ("poll", Ptr); ("unlocked_ioctl", Ptr); ("compat_ioctl", Ptr);
     ("mmap", Ptr); ("mmap_supported_flags", U64); ("open", Ptr); ("flush", Ptr);
     ("release", Ptr); ("fsync", Ptr); ("fasync", Ptr); ("lock", Ptr); ("sendpage", Ptr);
     ("get_unmapped_area", Ptr); ("check_flags", Ptr); ("flock", Ptr); ("splice_write", Ptr);
     ("splice_read", Ptr); ("setlease", Ptr); ("fallocate", Ptr); ("show_fdinfo", Ptr);
     ("copy_file_range", Ptr); ("remap_file_range", Ptr); ("fadvise", Ptr)].

Definition struct_upid : cty :=
  Struct
    [("nr", U32); ("ns", PtrTo "struct pid_namespace")].

Definition struct_pid : cty :=
  Struct
    [("count", typedef_refcount_t); ("level", U32); ("tasks", Array 4 struct_hlist_head);
     ("wait_pidfd", typedef_wait_queue_head_t); ("rcu", struct_callback_head);
     ("numbers", Array 1 struct_upid)].

Definition struct_kernel_cap_struct : cty :=
  Struct
    [("cap", Array 2 typedef___u32)].

Definition typedef_kernel_cap_t : cty := struct_kernel_cap_struct.

Definition struct_cred : cty :=
  Struct
    [("usage", typedef_atomic_t); ("uid", typedef_kuid_t); ("gid", typedef_kgid_t);
     ("suid", typedef_kuid_t); ("sgid", typedef_kgid_t); ("euid", typedef_kuid_t);
     ("egid", typedef_kgid_t); ("fsuid", typedef_kuid_t); ("fsgid", typedef_kgid_t);
     ("securebits", U32); ("cap_inheritable", typedef_kernel_cap_t);
     ("cap_permitted", typedef_kernel_cap_t); ("cap_effective", typedef_kernel_cap_t);
     ("cap_bset", typedef_kernel_cap_t); ("cap_ambient", typedef_kernel_cap_t);
     ("jit_keyring", U8); ("session_keyring", PtrTo "struct key");
     ("process_keyring", PtrTo "struct key"); ("thread_keyring", PtrTo "struct key");
     ("request_key_auth", PtrTo "struct key"); ("security", Ptr);
     ("user", PtrTo "struct user_struct"); ("user_ns", PtrTo "struct user_namespace");
     ("group_info", PtrTo "struct group_info"); ("", Union [("non_rcu", U32);
     ("rcu", struct_callback_head)])].

Definition struct_posix_acl_entry : cty :=
  Struct
    [("e_tag", U16); ("e_perm", U16); ("", Union [("e_uid", typedef_kuid_t);
     ("e_gid", typedef_kgid_t)])].

Definition struct_posix_acl : cty :=
  Struct
    [("a_refcount", typedef_refcount_t); ("a_rcu", struct_callback_head); ("a_count", U32);
     ("a_entries", Array 0 struct_posix_acl_entry)].

Definition struct_inode_operations : cty :=
  Struct
    [("lookup", Ptr); ("get_link", Ptr); ("permission", Ptr); ("get_acl", Ptr);
     ("readlink", Ptr); ("create", Ptr); ("link", Ptr); ("unlink", Ptr); ("symlink", Ptr);
     ("mkdir", Ptr); ("rmdir", Ptr); ("mknod", Ptr); ("rename", Ptr); ("setattr", Ptr);
     ("getattr", Ptr); ("listxattr", Ptr); ("fiemap", Ptr); ("update_time", Ptr);
     ("atomic_open", Ptr); ("tmpfile", Ptr); ("set_acl", Ptr); ("", Pad 8 64); ("", Pad 8 64);
     ("", Pad 8 64)].

Definition struct_hlist_bl_head : cty :=
  Struct
    [("first", PtrTo "struct hlist_bl_node")].

Definition typedef_qsize_t : cty := U64.

Definition struct_mem_dqinfo : cty :=
  Struct
    [("dqi_format", PtrTo "struct quota_format_type"); ("dqi_fmt_id", U32);
     ("dqi_dirty_list", struct_list_head); ("dqi_flags", U64); ("dqi_bgrace", U32);
     ("dqi_igrace", U32); ("dqi_max_spc_limit", typedef_qsize_t);
     ("dqi_max_ino_limit", typedef_qsize_t); ("dqi_priv", Ptr)].

Definition struct_quota_info : cty :=
  Struct
    [("flags", U32); ("dqio_sem", struct_rw_semaphore);
     ("files", Array 3 (PtrTo "struct inode")); ("info", Array 3 struct_mem_dqinfo);
     ("ops", Array 3 (PtrTo "struct quota_format_ops"))].

Definition struct_rcu_sync : cty :=
  Struct
    [("gp_state", U32); ("gp_count", U32); ("gp_wait", typedef_wait_queue_head_t);
     ("cb_head", struct_callback_head)].

Definition struct_rcuwait : cty :=
  Struct
    [("task", PtrTo "struct task_struct")].

Definition struct_percpu_rw_semaphore : cty :=
  Struct
    [("rss", struct_rcu_sync); ("read_count", Ptr); ("rw_sem", struct_rw_semaphore);
     ("writer", struct_rcuwait); ("readers_block", U32)].

Definition struct_sb_writers : cty :=
  Struct
    [("frozen", U32); ("wait_unfrozen", typedef_wait_queue_head_t);
     ("rw_sem", Array 3 struct_percpu_rw_semaphore)].

Definition typedef_uuid_t : cty :=
  Struct
    [("b", Array 16 typedef___u8)].

Definition struct_shrinker : cty :=
  Struct
    [("count_objects", Ptr); ("scan_objects", Ptr); ("batch", U64); ("seeks", U32);
     ("flags", U32); ("list", struct_list_head); ("id", U32);
     ("nr_deferred", PtrTo "atomic64_t")].

Definition struct_list_lru : cty :=
  Struct
    [("node", PtrTo "struct list_lru_node"); ("list", struct_list_head); ("shrinker_id", U32);
     ("memcg_aware", typedef_bool)].

Definition typedef_work_func_t : cty := Ptr.

Definition struct_work_struct : cty :=
  Struct
    [("data", typedef_atomic_long_t); ("entry", struct_list_head);
     ("func", typedef_work_func_t)].

Definition struct_super_block : cty :=
  Struct
    [("s_list", struct_list_head); ("s_dev", typedef_dev_t); ("s_blocksize_bits", U8);
     ("s_blocksize", U64); ("s_maxbytes", typedef_loff_t);
     ("s_type", PtrTo "struct file_system_type"); ("s_op", PtrTo "struct super_operations");
     ("dq_op", PtrTo "struct dquot_operations"); ("s_qcop", PtrTo "struct quotactl_ops");
     ("s_export_op", PtrTo "struct export_operations"); ("s_flags", U64); ("s_iflags", U64);
     ("s_magic", U64); ("s_root", PtrTo "struct dentry"); ("s_umount", struct_rw_semaphore);
     ("s_count", U32); ("s_active", typedef_atomic_t); ("s_security", Ptr);
     ("s_xattr", Pointer 2 "struct xattr_handler"); ("s_roots", struct_hlist_bl_head);
     ("s_mounts", struct_list_head); ("s_bdev", PtrTo "struct block_device");
     ("s_bdi", PtrTo "struct backing_dev_info"); ("s_mtd", PtrTo "struct mtd_info");
     ("s_instances", struct_hlist_node); ("s_quota_types", U32);
     ("s_dquot", struct_quota_info); ("s_writers", struct_sb_writers); ("s_fs_info", Ptr);
     ("s_time_gran", typedef_u32); ("s_time_min", typedef_time64_t);
     ("s_time_max", typedef_time64_t); ("s_fsnotify_mask", typedef___u32);
     ("s_fsnotify_marks", PtrTo "struct fsnotify_mark_connector"); ("s_id", Array 32 U8);
     ("s_uuid", typedef_uuid_t); ("s_max_links", U32); ("s_mode", typedef_fmode_t);
     ("s_vfs_rename_mutex", struct_mutex); ("s_subtype", Ptr);
     ("s_d_op", PtrTo "struct dentry_operations"); ("cleancache_poolid", U32);
     ("s_shrink", struct_shrinker); ("s_remove_count", typedef_atomic_long_t);
     ("s_fsnotify_inode_refs", typedef_atomic_long_t); ("s_readonly_remount", U32);
     ("s_wb_err", typedef_errseq_t); ("s_dio_done_wq", PtrTo "struct workqueue_struct");
     ("s_pins", struct_hlist_head); ("s_user_ns", PtrTo "struct user_namespace");
     ("s_dentry_lru", struct_list_lru); ("s_inode_lru", struct_list_lru);
     ("rcu", struct_callback_head); ("destroy_work", struct_work_struct);
     ("s_sync_lock", struct_mutex); ("s_stack_depth", U32); ("", Pad 8 64); ("", Pad 8 64);
     ("", Pad 8 64); ("", Pad 8 64); ("", Pad 8 64); ("", Pad 8 64); ("", Pad 8 64);
     ("s_inode_list_lock", typedef_spinlock_t); ("s_inodes", struct_list_head);
     ("s_inode_wblist_lock", typedef_spinlock_t); ("s_inodes_wb", struct_list_head);
     ("", Pad 8 64); ("", Pad 8 64)].

Definition struct_percpu_counter : cty :=
  Struct
    [("lock", typedef_raw_spinlock_t); ("count", typedef_s64); ("list", struct_list_head);
     ("counters", Ptr)].

Definition struct_fprop_local_percpu : cty :=
  Struct
    [("events", struct_percpu_counter); ("period", U32); ("lock", typedef_raw_spinlock_t)].

Definition struct_delayed_work : cty :=
  Struct
    [("work", struct_work_struct); ("timer", struct_timer_list);
     ("wq", PtrTo "struct workqueue_struct"); ("cpu", U32)].

Definition struct_percpu_ref : cty :=
  Struct
    [("count", typedef_atomic_long_t); ("percpu_count_ptr", U64); ("release", Ptr);
     ("confirm_switch", Ptr); ("force_atomic", Bits 1 1); ("allow_reinit", Bits 1 1);
     ("rcu", struct_callback_head)].

Definition struct_bdi_writeback : cty :=
  Struct
    [("bdi", PtrTo "struct backing_dev_info"); ("state", U64); ("last_old_flush", U64);
     ("b_dirty", struct_list_head); ("b_io", struct_list_head);
     ("b_more_io", struct_list_head); ("b_dirty_time", struct_list_head);
     ("list_lock", typedef_spinlock_t); ("stat", Array 4 struct_percpu_counter);
     ("congested", PtrTo "struct bdi_writeback_congested"); ("bw_time_stamp", U64);
     ("dirtied_stamp", U64); ("written_stamp", U64); ("write_bandwidth", U64);
     ("avg_write_bandwidth", U64); ("dirty_ratelimit", U64);
     ("balanced_dirty_ratelimit", U64); ("completions", struct_fprop_local_percpu);
     ("dirty_exceeded", U32); ("start_all_reason", Enum); ("work_lock", typedef_spinlock_t);
     ("work_list", struct_list_head); ("dwork", struct_delayed_work); ("dirty_sleep", U64);
     ("bdi_node", struct_list_head); ("refcnt", struct_percpu_ref);
     ("memcg_completions", struct_fprop_local_percpu);
     ("memcg_css", PtrTo "struct cgroup_subsys_state");
     ("blkcg_css", PtrTo "struct cgroup_subsys_state"); ("memcg_node", struct_list_head);
     ("blkcg_node", struct_list_head); ("b_attached", struct_list_head);
     ("offline_node", struct_list_head); ("", Union [("release_work", struct_work_struct);
     ("rcu", struct_callback_head)])].

Definition struct_file_lock_context : cty :=
  Struct
    [("flc_lock", typedef_spinlock_t); ("flc_flock", struct_list_head);
     ("flc_posix", struct_list_head); ("flc_lease", struct_list_head)].

Definition struct_address_space_operations : cty :=
  Struct
    [("writepage", Ptr); ("readpage", Ptr); ("writepages", Ptr); ("set_page_dirty", Ptr);
     ("readpages", Ptr); ("write_begin", Ptr); ("write_end", Ptr); ("bmap", Ptr);
     ("invalidatepage", Ptr); ("releasepage", Ptr); ("freepage", Ptr); ("direct_IO", Ptr);
     ("migratepage", Ptr); ("isolate_page", Ptr); ("putback_page", Ptr);
     ("launder_page", Ptr); ("is_partially_uptodate", Ptr); ("is_dirty_writeback", Ptr);
     ("error_remove_page", Ptr); ("swap_activate", Ptr); ("swap_deactivate", Ptr)].

Definition struct_pipe_inode_info : cty :=
  Struct
    [("mutex", struct_mutex); ("wait", typedef_wait_queue_head_t); ("nrbufs", U32);
     ("curbuf", U32); ("buffers", U32); ("readers", U32); ("writers", U32); ("files", U32);
     ("waiting_writers", U32); ("r_counter", U32); ("w_counter", U32);
     ("tmp_page", PtrTo "struct page"); ("fasync_readers", PtrTo "struct fasync_struct");
     ("fasync_writers", PtrTo "struct fasync_struct"); ("bufs", PtrTo "struct pipe_buffer");
     ("user", PtrTo "struct user_struct")].

Definition struct_block_device : cty :=
  Struct
    [("bd_dev", typedef_dev_t); ("bd_openers", U32); ("bd_inode", PtrTo "struct inode");
     ("bd_super", PtrTo "struct super_block"); ("bd_mutex", struct_mutex);
     ("bd_claiming", Ptr); ("bd_holder", Ptr); ("bd_holders", U32);
     ("bd_write_holder", typedef_bool); ("bd_holder_disks", struct_list_head);
     ("bd_contains", PtrTo "struct block_device"); ("bd_block_size", U32);
     ("bd_partno", typedef_u8); ("bd_part", PtrTo "struct hd_struct"); ("bd_part_count", U32);
     ("bd_invalidated", U32); ("bd_disk", PtrTo "struct gendisk");
     ("bd_queue", PtrTo "struct request_queue"); ("bd_bdi", PtrTo "struct backing_dev_info");
     ("bd_list", struct_list_head); ("bd_private", U64); ("bd_fsfreeze_count", U32);
     ("bd_fsfreeze_mutex", struct_mutex)].

Definition struct_kref : cty :=
  Struct
    [("refcount", typedef_refcount_t)].

Definition struct_kobject : cty :=
  Struct
    [("name", Ptr); ("entry", struct_list_head); ("parent", PtrTo "struct kobject");
     ("kset", PtrTo "struct kset"); ("ktype", PtrTo "struct kobj_type");
     ("sd", PtrTo "struct kernfs_node"); ("kref", struct_kref);
     ("state_initialized", Bits 4 1); ("state_in_sysfs", Bits 4 1);
     ("state_add_uevent_sent", Bits 4 1); ("state_remove_uevent_sent", Bits 4 1);
     ("uevent_suppress", Bits 4 1)].

Definition struct_cdev : cty :=
  Struct
    [("kobj", struct_kobject); ("owner", PtrTo "struct module");
     ("ops", PtrTo "struct file_operations"); ("list", struct_list_head);
     ("dev", typedef_dev_t); ("count", U32)].

Definition typedef___kernel_fsid_t : cty :=
  Struct
    [("val", Array 2 U32)].

Definition struct_fsnotify_mark_connector : cty :=
  Struct
    [("lock", typedef_spinlock_t); ("type", U16); ("flags", U16);
     ("fsid", typedef___kernel_fsid_t); ("", Union
     [("obj", Pointer 2 "struct fsnotify_mark_connector");
     ("destroy_next", PtrTo "struct fsnotify_mark_connector")]); ("list", struct_hlist_head)].

Definition typedef_pgprotval_t : cty := U64.

Definition struct_pgprot : cty :=
  Struct
    [("pgprot", typedef_pgprotval_t)].

Definition typedef_pgprot_t : cty := struct_pgprot.

Definition struct_vm_userfaultfd_ctx : cty :=
  Struct
    [("ctx", PtrTo "struct userfaultfd_ctx")].

Definition struct_vm_area_struct : cty :=
  Struct
    [("vm_start", U64); ("vm_end", U64); ("vm_next", PtrTo "struct vm_area_struct");
     ("vm_prev", PtrTo "struct vm_area_struct"); ("vm_rb", struct_rb_node);
     ("rb_subtree_gap", U64); ("vm_mm", PtrTo "struct mm_struct");
     ("vm_page_prot", typedef_pgprot_t); ("vm_flags", U64); ("shared", Struct
     [("rb", struct_rb_node); ("rb_subtree_last", U64)]);
     ("anon_vma_chain", struct_list_head); ("anon_vma", PtrTo "struct anon_vma");
     ("vm_ops", PtrTo "struct vm_operations_struct"); ("vm_pgoff", U64);
     ("vm_file", PtrTo "struct file"); ("vm_private_data", Ptr);
     ("swap_readahead_info", typedef_atomic_long_t); ("vm_policy", PtrTo "struct mempolicy");
     ("vm_userfaultfd_ctx", struct_vm_userfaultfd_ctx)].

Definition struct_mm_rss_stat : cty :=
  Struct
    [("count", Array 4 typedef_atomic_long_t)].

Definition typedef_s16 : cty := typedef___s16.

Definition typedef_mm_context_t : cty :=
  Struct
    [("ctx_id", typedef_u64); ("tlb_gen", typedef_atomic64_t);
     ("ldt_usr_sem", struct_rw_semaphore); ("ldt", PtrTo "struct ldt_struct");
     ("ia32_compat", U16); ("lock", struct_mutex); ("vdso", Ptr);
     ("vdso_image", PtrTo "struct vdso_image"); ("perf_rdpmc_allowed", typedef_atomic_t);
     ("pkey_allocation_map", typedef_u16); ("execute_only_pkey", typedef_s16);
     ("bd_addr", Ptr)].

Definition struct_uprobes_state : cty :=
  Struct
    [("xol_area", PtrTo "struct xol_area")].

Definition struct_mm_struct : cty :=
  Struct
    [("", Struct [("mmap", PtrTo "struct vm_area_struct"); ("mm_rb", struct_rb_root);
     ("vmacache_seqnum", typedef_u64); ("get_unmapped_area", Ptr); ("mmap_base", U64);
     ("mmap_legacy_base", U64); ("mmap_compat_base", U64); ("mmap_compat_legacy_base", U64);
     ("task_size", U64); ("highest_vm_end", U64); ("pgd", PtrTo "pgd_t");
     ("membarrier_state", typedef_atomic_t); ("mm_users", typedef_atomic_t);
     ("mm_count", typedef_atomic_t); ("pgtables_bytes", typedef_atomic_long_t);
     ("map_count", U32); ("page_table_lock", typedef_spinlock_t);
     ("mmap_sem", struct_rw_semaphore); ("mmlist", struct_list_head); ("hiwater_rss", U64);
     ("hiwater_vm", U64); ("total_vm", U64); ("locked_vm", U64);
     ("pinned_vm", typedef_atomic64_t); ("data_vm", U64); ("exec_vm", U64); ("stack_vm", U64);
     ("def_flags", U64); ("arg_lock", typedef_spinlock_t); ("start_code", U64);
     ("end_code", U64); ("start_data", U64); ("end_data", U64); ("start_brk", U64);
     ("brk", U64); ("start_stack", U64); ("arg_start", U64); ("arg_end", U64);
     ("env_start", U64); ("env_end", U64); ("saved_auxv", Array 46 U64);
     ("rss_stat", struct_mm_rss_stat); ("binfmt", PtrTo "struct linux_binfmt");
     ("context", typedef_mm_context_t); ("flags", U64);
     ("core_state", PtrTo "struct core_state"); ("ioctx_lock", typedef_spinlock_t);
     ("ioctx_table", PtrTo "struct kioctx_table"); ("owner", PtrTo "struct task_struct");
     ("user_ns", PtrTo "struct user_namespace"); ("exe_file", PtrTo "struct file");
     ("mmu_notifier_mm", PtrTo "struct mmu_notifier_mm"); ("numa_next_scan", U64);
     ("numa_scan_offset", U64); ("numa_scan_seq", U32);
     ("tlb_flush_pending", typedef_atomic_t); ("tlb_flush_batched", typedef_bool);
     ("uprobes_state", struct_uprobes_state); ("hugetlb_usage", typedef_atomic_long_t);
     ("async_put_work", struct_work_struct)]); ("cpu_bitmap", Array 0 U64)].

Definition struct_seq_operations___2 : cty :=
  Struct
    [("start", Ptr); ("stop", Ptr); ("next", Ptr); ("show", Ptr)].

Definition struct_proto_ops : cty :=
  Struct
    [("family", U32); ("owner", PtrTo "struct module"); ("release", Ptr); ("bind", Ptr);
     ("connect", Ptr); ("socketpair", Ptr); ("accept", Ptr); ("getname", Ptr); ("poll", Ptr);
     ("ioctl", Ptr); ("compat_ioctl", Ptr); ("gettstamp", Ptr); ("listen", Ptr);
     ("shutdown", Ptr); ("setsockopt", Ptr); ("getsockopt", Ptr); ("compat_setsockopt", Ptr);
     ("compat_getsockopt", Ptr); ("sendmsg", Ptr); ("recvmsg", Ptr); ("mmap", Ptr);
     ("sendpage", Ptr); ("splice_read", Ptr); ("set_peek_off", Ptr); ("peek_len", Ptr);
     ("read_sock", Ptr); ("sendpage_locked", Ptr); ("sendmsg_locked", Ptr);
     ("set_rcvlowat", Ptr)].

Definition struct_fasync_struct : cty :=
  Struct
    [("fa_lock", typedef_rwlock_t); ("magic", U32); ("fa_fd", U32);
     ("fa_next", PtrTo "struct fasync_struct"); ("fa_file", PtrTo "struct file");
     ("fa_rcu", struct_callback_head)].

Definition struct_sched_class : cty :=
  Struct
    [("next", PtrTo "struct sched_class"); ("enqueue_task", Ptr); ("dequeue_task", Ptr);
     ("yield_task", Ptr); ("yield_to_task", Ptr); ("check_preempt_curr", Ptr);
     ("pick_next_task", Ptr); ("put_prev_task", Ptr); ("set_next_task", Ptr);
     ("balance", Ptr); ("select_task_rq", Ptr); ("migrate_task_rq", Ptr); ("task_woken", Ptr);
     ("set_cpus_allowed", Ptr); ("rq_online", Ptr); ("rq_offline", Ptr); ("task_tick", Ptr);
     ("task_fork", Ptr); ("task_dead", Ptr); ("switched_from", Ptr); ("switched_to", Ptr);
     ("prio_changed", Ptr); ("get_rr_interval", Ptr); ("update_curr", Ptr);
     ("task_change_group", Ptr)].

Definition struct_cfs_rq : cty :=
  Struct
    [("load", struct_load_weight); ("nr_running", U32); ("h_nr_running", U32);
     ("idle_nr_running", U32); ("idle_h_nr_running", U32); ("exec_clock", typedef_u64);
     ("min_vruntime", typedef_u64); ("tasks_timeline", struct_rb_root_cached);
     ("curr", PtrTo "struct sched_entity"); ("next", PtrTo "struct sched_entity");
     ("last", PtrTo "struct sched_entity"); ("skip", PtrTo "struct sched_entity");
     ("nr_spread_over", U32); ("", Pad 8 64); ("", Pad 8 64); ("", Pad 8 64);
     ("avg", struct_sched_avg); ("removed", Struct [("lock", typedef_raw_spinlock_t);
     ("nr", U32); ("load_avg", U64); ("util_avg", U64); ("runnable_avg", U64); ("", Pad 8 64);
     ("", Pad 8 64); ("", Pad 8 64); ("", Pad 8 64)]); ("tg_load_avg_contrib", U64);
     ("propagate", U64); ("prop_runnable_sum", U64); ("h_load", U64);
     ("last_h_load_update", typedef_u64); ("h_load_next", PtrTo "struct sched_entity");
     ("rq", PtrTo "struct rq"); ("on_list", U32); ("leaf_cfs_rq_list", struct_list_head);
     ("tg", PtrTo "struct task_group"); ("idle", U32); ("runtime_enabled", U32);
     ("runtime_remaining", typedef_s64); ("throttled_clock", typedef_u64);
     ("throttled_clock_pelt", typedef_u64); ("throttled_clock_pelt_time", typedef_u64);
     ("throttled", U32); ("throttle_count", U32); ("throttled_list", struct_list_head);
     ("", Pad 8 64); ("", Pad 8 64); ("", Pad 8 64); ("", Pad 8 64); ("", Pad 8 64)].

Definition struct_rcu_work : cty :=
  Struct
    [("work", struct_work_struct); ("rcu", struct_callback_head);
     ("wq", PtrTo "struct workqueue_struct")].

Definition struct_cgroup_subsys_state : cty :=
  Struct
    [("cgroup", PtrTo "struct cgroup"); ("ss", PtrTo "struct cgroup_subsys");
     ("refcnt", struct_percpu_ref); ("sibling", struct_list_head);
     ("children", struct_list_head); ("rstat_css_node", struct_list_head); ("id", U32);
     ("flags", U32); ("serial_nr", typedef_u64); ("online_cnt", typedef_atomic_t);
     ("destroy_work", struct_work_struct); ("destroy_rwork", struct_rcu_work);
     ("parent", PtrTo "struct cgroup_subsys_state")].

Definition struct_cfs_bandwidth : cty :=
  Struct
    [("lock", typedef_raw_spinlock_t); ("period", typedef_ktime_t); ("quota", typedef_u64);
     ("runtime", typedef_u64); ("burst", typedef_u64); ("hierarchical_quota", typedef_s64);
     ("idle", typedef_u8); ("period_active", typedef_u8); ("slack_started", typedef_u8);
     ("period_timer", struct_hrtimer); ("slack_timer", struct_hrtimer);
     ("throttled_cfs_rq", struct_list_head); ("nr_periods", U32); ("nr_throttled", U32);
     ("throttled_time", typedef_u64)].

Definition struct_task_group : cty :=
  Struct
    [("css", struct_cgroup_subsys_state); ("se", Pointer 2 "struct sched_entity");
     ("cfs_rq", Pointer 2 "struct cfs_rq"); ("shares", U64); ("idle", U32); ("", Pad 8 64);
     ("", Pad 8 64); ("", Pad 8 64); ("", Pad 8 64); ("", Pad 8 64); ("", Pad 8 64);
     ("load_avg", typedef_atomic_long_t); ("rcu", struct_callback_head);
     ("list", struct_list_head); ("parent", PtrTo "struct task_group");
     ("siblings", struct_list_head); ("children", struct_list_head);
     ("autogroup", PtrTo "struct autogroup"); ("cfs_bandwidth", struct_cfs_bandwidth);
     ("", Pad 8 64); ("", Pad 8 64)].

Definition struct_hrtimer_clock_base : cty :=
  Struct
    [("cpu_base", PtrTo "struct hrtimer_cpu_base"); ("index", U32);
     ("clockid", typedef_clockid_t); ("seq", typedef_seqcount_t);
     ("running", PtrTo "struct hrtimer"); ("active", struct_timerqueue_head);
     ("get_time", Ptr); ("offset", typedef_ktime_t)].

Definition typedef___kernel_time64_t : cty := U64.

Definition struct___kernel_timespec : cty :=
  Struct
    [("tv_sec", typedef___kernel_time64_t); ("tv_nsec", U64)].

Definition typedef_s32 : cty := typedef___s32.
Definition typedef_old_time32_t : cty := typedef_s32.

Definition struct_old_timespec32 : cty :=
  Struct
    [("tv_sec", typedef_old_time32_t); ("tv_nsec", typedef_s32)].

Definition struct_pollfd : cty :=
  Struct
    [("fd", U32); ("events", U16); ("revents", U16)].

Definition struct_completion : cty :=
  Struct
    [("done", U32); ("wait", typedef_wait_queue_head_t)].

Definition typedef_int32_t : cty := typedef_s32.
Definition typedef_key_serial_t : cty := typedef_int32_t.
Definition typedef_uint32_t : cty := typedef_u32.
Definition typedef_key_perm_t : cty := typedef_uint32_t.

Definition struct_keyring_index_key : cty :=
  Struct
    [("hash", U64); ("", Union [("", Struct [("desc_len", typedef_u16);
     ("desc", Array 6 U8)]); ("x", U64)]); ("type", PtrTo "struct key_type");
     ("domain_tag", PtrTo "struct key_tag"); ("description", Ptr)].

Definition union_key_payload : cty :=
  Union
    [("rcu_data0", Ptr); ("data", Array 4 Ptr)].

Definition struct_assoc_array : cty :=
  Struct
    [("root", PtrTo "struct assoc_array_ptr"); ("nr_leaves_on_tree", U64)].

Definition struct_key : cty :=
  Struct
    [("usage", typedef_refcount_t); ("serial", typedef_key_serial_t); ("", Union
     [("graveyard_link", struct_list_head); ("serial_node", struct_rb_node)]);
     ("sem", struct_rw_semaphore); ("user", PtrTo "struct key_user"); ("security", Ptr);
     ("", Union [("expiry", typedef_time64_t); ("revoked_at", typedef_time64_t)]);
     ("last_used_at", typedef_time64_t); ("uid", typedef_kuid_t); ("gid", typedef_kgid_t);
     ("perm", typedef_key_perm_t); ("quotalen", U16); ("datalen", U16); ("state", U16);
     ("flags", U64); ("", Union [("index_key", struct_keyring_index_key); ("", Struct
     [("hash", U64); ("len_desc", U64); ("type", PtrTo "struct key_type");
     ("domain_tag", PtrTo "struct key_tag"); ("description", Ptr)])]); ("", Union
     [("payload", union_key_payload); ("", Struct [("name_link", struct_list_head);
     ("keys", struct_assoc_array)])]); ("restrict_link", PtrTo "struct key_restriction")].

Definition struct_path___2 : cty :=
  Struct
    [("mnt", PtrTo "struct vfsmount___2"); ("dentry", PtrTo "struct dentry___2")].

Definition struct_delayed_call : cty :=
  Struct
    [("fn", Ptr); ("arg", Ptr)].

Definition struct_saved : cty :=
  Struct
    [("link", struct_path___2); ("done", struct_delayed_call); ("name", Ptr); ("seq", U32)].

Definition struct_nameidata : cty :=
  Struct
    [("path", struct_path___2); ("last", struct_qstr); ("root", struct_path___2);
     ("inode", PtrTo "struct inode___2"); ("flags", U32); ("seq", U32); ("m_seq", U32);
     ("r_seq", U32); ("last_type", U32); ("depth", U32); ("total_link_count", U32);
     ("stack", PtrTo "struct saved"); ("internal", Array 2 struct_saved);
     ("name", PtrTo "struct filename"); ("saved", PtrTo "struct nameidata");
     ("link_inode", PtrTo "struct inode___2"); ("root_seq", U32); ("dfd", U32)].

Definition struct_sem_undo_list : cty :=
  Struct
    [("refcnt", typedef_refcount_t); ("lock", typedef_spinlock_t);
     ("list_proc", struct_list_head)].

Definition struct_fs_struct : cty :=
  Struct
    [("users", U32); ("lock", typedef_spinlock_t); ("seq", typedef_seqcount_t);
     ("umask", U32); ("in_exec", U32); ("root", struct_path); ("pwd", struct_path)].

Definition struct_fdtable : cty :=
  Struct
    [("max_fds", U32); ("fd", Pointer 2 "struct file"); ("close_on_exec", Ptr);
     ("open_fds", Ptr); ("full_fds_bits", Ptr); ("rcu", struct_callback_head)].

Definition struct_files_struct : cty :=
  Struct
    [("count", typedef_atomic_t); ("resize_in_progress", typedef_bool);
     ("resize_wait", typedef_wait_queue_head_t); ("fdt", PtrTo "struct fdtable");
     ("fdtab", struct_fdtable); ("", Pad 8 64); ("", Pad 8 64); ("", Pad 8 64);
     ("", Pad 8 64); ("file_lock", typedef_spinlock_t); ("next_fd", U32);
     ("close_on_exec_init", Array 1 U64); ("open_fds_init", Array 1 U64);
     ("full_fds_bits_init", Array 1 U64); ("fd_array", Array 64 (PtrTo "struct file"));
     ("", Pad 8 64); ("", Pad 8 64); ("", Pad 8 64); ("", Pad 8 64)].

Definition struct_io_identity : cty :=
  Struct
    [("files", PtrTo "struct files_struct"); ("mm", PtrTo "struct mm_struct");
     ("blkcg_css", PtrTo "struct cgroup_subsys_state"); ("creds", PtrTo "struct cred");
     ("nsproxy", PtrTo "struct nsproxy"); ("fs", PtrTo "struct fs_struct"); ("fsize", U64);
     ("loginuid", typedef_kuid_t); ("sessionid", U32); ("count", typedef_refcount_t)].

Definition struct_io_uring_task : cty :=
  Struct
    [("xa", struct_xarray); ("wait", struct_wait_queue_head); ("last", PtrTo "struct file");
     ("inflight", struct_percpu_counter); ("__identity", struct_io_identity);
     ("identity", PtrTo "struct io_identity"); ("in_idle", typedef_atomic_t);
     ("sqpoll", typedef_bool)].

Definition struct_nsproxy : cty :=
  Struct
    [("count", typedef_atomic_t); ("uts_ns", PtrTo "struct uts_namespace");
     ("ipc_ns", PtrTo "struct ipc_namespace"); ("mnt_ns", PtrTo "struct mnt_namespace");
     ("pid_ns_for_children", PtrTo "struct pid_namespace"); ("net_ns", PtrTo "struct net");
     ("cgroup_ns", PtrTo "struct cgroup_namespace")].

Definition struct_cpu_itimer : cty :=
  Struct
    [("expires", typedef_u64); ("incr", typedef_u64)].

Definition struct_task_cputime_atomic : cty :=
  Struct
    [("utime", typedef_atomic64_t); ("stime", typedef_atomic64_t);
     ("sum_exec_runtime", typedef_atomic64_t)].

Definition struct_thread_group_cputimer : cty :=
  Struct
    [("cputime_atomic", struct_task_cputime_atomic)].

Definition typedef_seqlock_t : cty :=
  Struct
    [("seqcount", struct_seqcount); ("lock", typedef_spinlock_t)].

Definition struct_pacct_struct : cty :=
  Struct
    [("ac_flag", U32); ("ac_exitcode", U64); ("ac_mem", U64); ("ac_utime", typedef_u64);
     ("ac_stime", typedef_u64); ("ac_minflt", U64); ("ac_majflt", U64)].

Definition struct_signal_struct : cty :=
  Struct
    [("sigcnt", typedef_refcount_t); ("live", typedef_atomic_t); ("nr_threads", U32);
     ("thread_head", struct_list_head); ("wait_chldexit", typedef_wait_queue_head_t);
     ("curr_target", PtrTo "struct task_struct"); ("shared_pending", struct_sigpending);
     ("multiprocess", struct_hlist_head); ("group_exit_code", U32); ("notify_count", U32);
     ("group_exit_task", PtrTo "struct task_struct"); ("group_stop_count", U32);
     ("flags", U32); ("is_child_subreaper", Bits 4 1); ("has_child_subreaper", Bits 4 1);
     ("posix_timer_id", U32); ("posix_timers", struct_list_head);
     ("real_timer", struct_hrtimer); ("it_real_incr", typedef_ktime_t);
     ("it", Array 2 struct_cpu_itimer); ("cputimer", struct_thread_group_cputimer);
     ("posix_cputimers", struct_posix_cputimers); ("pids", Array 4 (PtrTo "struct pid"));
     ("tick_dep_mask", typedef_atomic_t); ("tty_old_pgrp", PtrTo "struct pid");
     ("leader", U32); ("tty", PtrTo "struct tty_struct");
     ("autogroup", PtrTo "struct autogroup"); ("stats_lock", typedef_seqlock_t);
     ("utime", typedef_u64); ("stime", typedef_u64); ("cutime", typedef_u64);
     ("cstime", typedef_u64); ("gtime", typedef_u64); ("cgtime", typedef_u64);
     ("prev_cputime", struct_prev_cputime); ("nvcsw", U64); ("nivcsw", U64); ("cnvcsw", U64);
     ("cnivcsw", U64); ("min_flt", U64); ("maj_flt", U64); ("cmin_flt", U64);
     ("cmaj_flt", U64); ("inblock", U64); ("oublock", U64); ("cinblock", U64);
     ("coublock", U64); ("maxrss", U64); ("cmaxrss", U64);
     ("ioac", struct_task_io_accounting); ("sum_sched_runtime", U64);
     ("rlim", Array 16 struct_rlimit); ("pacct", struct_pacct_struct);
     ("stats", PtrTo "struct taskstats"); ("audit_tty", U32);
     ("tty_audit_buf", PtrTo "struct tty_audit_buf"); ("oom_flag_origin", typedef_bool);
     ("oom_score_adj", U16); ("oom_score_adj_min", U16); ("oom_mm", PtrTo "struct mm_struct");
     ("cred_guard_mutex", struct_mutex); ("exec_update_lock", struct_rw_semaphore)].

Definition typedef___sighandler_t : cty := Ptr.
Definition typedef___sigrestore_t : cty := Ptr.

Definition struct_sigaction : cty :=
  Struct
    [("sa_handler", typedef___sighandler_t); ("sa_flags", U64);
     ("sa_restorer", typedef___sigrestore_t); ("sa_mask", typedef_sigset_t)].

Definition struct_k_sigaction : cty :=
  Struct
    [("sa", struct_sigaction)].

Definition struct_sighand_struct : cty :=
  Struct
    [("siglock", typedef_spinlock_t); ("count", typedef_refcount_t);
     ("signalfd_wqh", typedef_wait_queue_head_t); ("action", Array 64 struct_k_sigaction)].

Definition struct_audit_cap_data : cty :=
  Struct
    [("permitted", typedef_kernel_cap_t); ("inheritable", typedef_kernel_cap_t); ("", Union
     [("fE", U32); ("effective", typedef_kernel_cap_t)]); ("ambient", typedef_kernel_cap_t);
     ("rootid", typedef_kuid_t)].

Definition struct_audit_names : cty :=
  Struct
    [("list", struct_list_head); ("name", PtrTo "struct filename"); ("name_len", U32);
     ("hidden", typedef_bool); ("ino", U64); ("dev", typedef_dev_t);
     ("mode", typedef_umode_t); ("uid", typedef_kuid_t); ("gid", typedef_kgid_t);
     ("rdev", typedef_dev_t); ("osid", typedef_u32); ("fcap", struct_audit_cap_data);
     ("fcap_ver", U32); ("type", U8); ("should_free", typedef_bool)].

Definition typedef___kernel_mqd_t : cty := U32.
Definition typedef_mqd_t : cty := typedef___kernel_mqd_t.
Definition typedef___kernel_long_t : cty := U64.

Definition struct_mq_attr : cty :=
  Struct
    [("mq_flags", typedef___kernel_long_t); ("mq_maxmsg", typedef___kernel_long_t);
     ("mq_msgsize", typedef___kernel_long_t); ("mq_curmsgs", typedef___kernel_long_t);
     ("__reserved", Array 4 typedef___kernel_long_t)].

Definition struct_audit_proctitle : cty :=
  Struct
    [("len", U32); ("value", Ptr)].

Definition struct_audit_context : cty :=
  Struct
    [("dummy", U32); ("in_syscall", U32); ("state", Enum); ("current_state", Enum);
     ("serial", U32); ("major", U32); ("ctime", struct_timespec64); ("argv", Array 4 U64);
     ("return_code", U64); ("prio", typedef_u64); ("return_valid", U32);
     ("preallocated_names", Array 5 struct_audit_names); ("name_count", U32);
     ("names_list", struct_list_head); ("filterkey", Ptr); ("pwd", struct_path);
     ("aux", PtrTo "struct audit_aux_data"); ("aux_pids", PtrTo "struct audit_aux_data");
     ("sockaddr", PtrTo "struct __kernel_sockaddr_storage"); ("sockaddr_len", typedef_size_t);
     ("pid", typedef_pid_t); ("ppid", typedef_pid_t); ("uid", typedef_kuid_t);
     ("euid", typedef_kuid_t); ("suid", typedef_kuid_t); ("fsuid", typedef_kuid_t);
     ("gid", typedef_kgid_t); ("egid", typedef_kgid_t); ("sgid", typedef_kgid_t);
     ("fsgid", typedef_kgid_t); ("personality", U64); ("arch", U32);
     ("target_pid", typedef_pid_t); ("target_auid", typedef_kuid_t);
     ("target_uid", typedef_kuid_t); ("target_sessionid", U32); ("target_sid", typedef_u32);
     ("target_comm", Array 16 U8); ("trees", PtrTo "struct audit_tree_refs");
     ("first_trees", PtrTo "struct audit_tree_refs"); ("killed_trees", struct_list_head);
     ("tree_count", U32); ("type", U32); ("", Union [("socketcall", Struct [("nargs", U32);
     ("args", Array 6 U64)]); ("ipc", Struct [("uid", typedef_kuid_t);
     ("gid", typedef_kgid_t); ("mode", typedef_umode_t); ("osid", typedef_u32);
     ("has_perm", U32); ("perm_uid", typedef_uid_t); ("perm_gid", typedef_gid_t);
     ("perm_mode", typedef_umode_t); ("qbytes", U64)]); ("mq_getsetattr", Struct
     [("mqdes", typedef_mqd_t); ("mqstat", struct_mq_attr)]); ("mq_notify", Struct
     [("mqdes", typedef_mqd_t); ("sigev_signo", U32)]); ("mq_sendrecv", Struct
     [("mqdes", typedef_mqd_t); ("msg_len", typedef_size_t); ("msg_prio", U32);
     ("abs_timeout", struct_timespec64)]); ("mq_open", Struct [("oflag", U32);
     ("mode", typedef_umode_t); ("attr", struct_mq_attr)]); ("capset", Struct
     [("pid", typedef_pid_t); ("cap", struct_audit_cap_data)]); ("mmap", Struct [("fd", U32);
     ("flags", U32)]); ("execve", Struct [("argc", U32)]); ("module", Struct
     [("name", Ptr)])]); ("fds", Array 2 U32); ("proctitle", struct_audit_proctitle)].

Definition struct_seccomp_filter : cty :=
  Struct
    [("usage", typedef_refcount_t); ("log", typedef_bool);
     ("prev", PtrTo "struct seccomp_filter"); ("prog", PtrTo "struct bpf_prog");
     ("notif", PtrTo "struct notification"); ("notify_lock", struct_mutex)].

Definition struct_rt_mutex_waiter : cty :=
  Struct
    [("tree_entry", struct_rb_node); ("pi_tree_entry", struct_rb_node);
     ("task", PtrTo "struct task_struct"); ("lock", PtrTo "struct rt_mutex"); ("prio", U32);
     ("deadline", typedef_u64)].

Definition struct_bio_list : cty :=
  Struct
    [("head", PtrTo "struct bio"); ("tail", PtrTo "struct bio")].

Definition struct_blk_plug : cty :=
  Struct
    [("mq_list", struct_list_head); ("cb_list", struct_list_head); ("rq_count", U16);
     ("multiple_queues", typedef_bool); ("nowait", typedef_bool)].

Definition struct_reclaim_state : cty :=
  Struct
    [("reclaimed_slab", U64)].

Definition struct_backing_dev_info : cty :=
  Struct
    [("id", typedef_u64); ("rb_node", struct_rb_node); ("bdi_list", struct_list_head);
     ("ra_pages", U64); ("io_pages", U64); ("congested_fn", Ptr); ("congested_data", Ptr);
     ("name", Ptr); ("refcnt", struct_kref); ("capabilities", U32); ("min_ratio", U32);
     ("max_ratio", U32); ("max_prop_frac", U32);
     ("tot_write_bandwidth", typedef_atomic_long_t); ("wb", struct_bdi_writeback);
     ("wb_list", struct_list_head); ("cgwb_tree", struct_xarray);
     ("cgwb_congested_tree", struct_rb_root); ("cgwb_release_mutex", struct_mutex);
     ("wb_switch_rwsem", struct_rw_semaphore); ("wb_waitq", typedef_wait_queue_head_t);
     ("dev", PtrTo "struct device"); ("dev_name", Array 64 U8);
     ("owner", PtrTo "struct device"); ("laptop_mode_wb_timer", struct_timer_list);
     ("debug_dir", PtrTo "struct dentry")].

Definition struct_io_context : cty :=
  Struct
    [("refcount", typedef_atomic_long_t); ("active_ref", typedef_atomic_t);
     ("nr_tasks", typedef_atomic_t); ("lock", typedef_spinlock_t); ("ioprio", U16);
     ("nr_batch_requests", U32); ("last_waited", U64); ("icq_tree", struct_xarray);
     ("icq_hint", PtrTo "struct io_cq"); ("icq_list", struct_hlist_head);
     ("release_work", struct_work_struct)].

Definition struct_capture_control : cty :=
  Struct
    [("cc", PtrTo "struct compact_control"); ("page", PtrTo "struct page")].

Definition typedef___kernel_timer_t : cty := U32.

Definition union_sigval : cty :=
  Union
    [("sival_int", U32); ("sival_ptr", Ptr)].

Definition typedef_sigval_t : cty := union_sigval.
Definition typedef___kernel_clock_t : cty := typedef___kernel_long_t.

Definition union___sifields : cty :=
  Union
    [("_kill", Struct [("_pid", typedef___kernel_pid_t); ("_uid", typedef___kernel_uid32_t)]);
     ("_timer", Struct [("_tid", typedef___kernel_timer_t); ("_overrun", U32);
     ("_sigval", typedef_sigval_t); ("_sys_private", U32)]); ("_rt", Struct
     [("_pid", typedef___kernel_pid_t); ("_uid", typedef___kernel_uid32_t);
     ("_sigval", typedef_sigval_t)]); ("_sigchld", Struct [("_pid", typedef___kernel_pid_t);
     ("_uid", typedef___kernel_uid32_t); ("_status", U32);
     ("_utime", typedef___kernel_clock_t); ("_stime", typedef___kernel_clock_t)]);
     ("_sigfault", Struct [("_addr", Ptr); ("", Union [("_addr_lsb", U16);
     ("_addr_bnd", Struct [("_dummy_bnd", Array 8 U8); ("_lower", Ptr); ("_upper", Ptr)]);
     ("_addr_pkey", Struct [("_dummy_pkey", Array 8 U8); ("_pkey", typedef___u32)])])]);
     ("_sigpoll", Struct [("_band", U64); ("_fd", U32)]); ("_sigsys", Struct
     [("_call_addr", Ptr); ("_syscall", U32); ("_arch", U32)])].

Definition struct_kernel_siginfo : cty :=
  Struct
    [("", Struct [("si_signo", U32); ("si_errno", U32); ("si_code", U32);
     ("_sifields", union___sifields)])].

Definition struct_css_set : cty :=
  Struct
    [("subsys", Array 12 (PtrTo "struct cgroup_subsys_state"));
     ("refcount", typedef_refcount_t); ("dom_cset", PtrTo "struct css_set");
     ("dfl_cgrp", PtrTo "struct cgroup"); ("nr_tasks", U32); ("tasks", struct_list_head);
     ("mg_tasks", struct_list_head); ("dying_tasks", struct_list_head);
     ("task_iters", struct_list_head); ("e_cset_node", Array 12 struct_list_head);
     ("threaded_csets", struct_list_head); ("threaded_csets_node", struct_list_head);
     ("hlist", struct_hlist_node); ("cgrp_links", struct_list_head);
     ("mg_preload_node", struct_list_head); ("mg_node", struct_list_head);
     ("mg_src_cgrp", PtrTo "struct cgroup"); ("mg_dst_cgrp", PtrTo "struct cgroup");
     ("mg_dst_cset", PtrTo "struct css_set"); ("dead", typedef_bool);
     ("callback_head", struct_callback_head)].

Definition struct_robust_list : cty :=
  Struct
    [("next", PtrTo "struct robust_list")].

Definition struct_robust_list_head : cty :=
  Struct
    [("list", struct_robust_list); ("futex_offset", U64);
     ("list_op_pending", PtrTo "struct robust_list")].

Definition typedef_compat_uptr_t : cty := typedef_u32.

Definition struct_compat_robust_list : cty :=
  Struct
    [("next", typedef_compat_uptr_t)].

Definition typedef_compat_long_t : cty := typedef_s32.

Definition struct_compat_robust_list_head : cty :=
  Struct
    [("list", struct_compat_robust_list); ("futex_offset", typedef_compat_long_t);
     ("list_op_pending", typedef_compat_uptr_t)].

Definition struct_rt_mutex : cty :=
  Struct
    [("wait_lock", typedef_raw_spinlock_t); ("waiters", struct_rb_root_cached);
     ("owner", PtrTo "struct task_struct")].

Definition union_futex_key : cty :=
  Union
    [("shared", Struct [("i_seq", typedef_u64); ("pgoff", U64); ("offset", U32)]);
     ("private", Struct [("", Union [("mm", PtrTo "struct mm_struct");
     ("__tmp", typedef_u64)]); ("address", U64); ("offset", U32)]); ("both", Struct
     [("ptr", typedef_u64); ("word", U64); ("offset", U32)])].

Definition struct_futex_pi_state : cty :=
  Struct
    [("list", struct_list_head); ("pi_mutex", struct_rt_mutex);
     ("owner", PtrTo "struct task_struct"); ("refcount", typedef_refcount_t);
     ("key", union_futex_key)].

Definition struct_perf_event_groups : cty :=
  Struct
    [("tree", struct_rb_root); ("index", typedef_u64)].

Definition struct_perf_event_context : cty :=
  Struct
    [("pmu", PtrTo "struct pmu"); ("lock", typedef_raw_spinlock_t); ("mutex", struct_mutex);
     ("active_ctx_list", struct_list_head); ("pinned_groups", struct_perf_event_groups);
     ("flexible_groups", struct_perf_event_groups); ("event_list", struct_list_head);
     ("pinned_active", struct_list_head); ("flexible_active", struct_list_head);
     ("nr_events", U32); ("nr_active", U32); ("is_active", U32); ("nr_stat", U32);
     ("nr_freq", U32); ("rotate_disable", U32); ("rotate_necessary", U32);
     ("refcount", typedef_refcount_t); ("task", PtrTo "struct task_struct");
     ("time", typedef_u64); ("timestamp", typedef_u64);
     ("parent_ctx", PtrTo "struct perf_event_context"); ("parent_gen", typedef_u64);
     ("generation", typedef_u64); ("pin_count", U32); ("nr_cgroups", U32);
     ("task_ctx_data", Ptr); ("callback_head", struct_callback_head)].

Definition struct_mempolicy : cty :=
  Struct
    [("refcnt", typedef_atomic_t); ("mode", U16); ("flags", U16); ("v", Union
     [("preferred_node", U16); ("nodes", typedef_nodemask_t)]); ("w", Union
     [("cpuset_mems_allowed", typedef_nodemask_t); ("user_nodemask", typedef_nodemask_t)])].

Definition struct_numa_group : cty :=
  Struct
    [("refcount", typedef_refcount_t); ("lock", typedef_spinlock_t); ("nr_tasks", U32);
     ("gid", typedef_pid_t); ("active_nodes", U32); ("rcu", struct_callback_head);
     ("total_faults", U64); ("max_faults_cpu", U64); ("faults_cpu", Ptr);
     ("faults", Array 0 U64)].

Definition struct_rseq : cty :=
  Struct
    [("cpu_id_start", typedef___u32); ("cpu_id", typedef___u32); ("rseq_cs", Union
     [("ptr64", typedef___u64); ("ptr", typedef___u64)]); ("flags", typedef___u32);
     ("", Pad 8 64)].

Definition typedef_pgtable_t : cty := PtrTo "struct page".

Definition struct_page : cty :=
  Struct
    [("flags", U64); ("", Union [("", Struct [("lru", struct_list_head);
     ("mapping", PtrTo "struct address_space"); ("index", U64); ("private", U64)]);
     ("", Struct [("dma_addr", Array 2 U64)]); ("", Struct [("", Union
     [("slab_list", struct_list_head); ("", Struct [("next", PtrTo "struct page");
     ("pages", U32); ("pobjects", U32)])]); ("slab_cache", PtrTo "struct kmem_cache");
     ("freelist", Ptr); ("", Union [("s_mem", Ptr); ("counters", U64); ("", Struct
     [("inuse", Bits 4 16); ("objects", Bits 4 15); ("frozen", Bits 4 1)])])]); ("", Struct
     [("compound_head", U64); ("compound_dtor", U8); ("compound_order", U8);
     ("compound_mapcount", typedef_atomic_t)]); ("", Struct [("_compound_pad_1", U64);
     ("_compound_pad_2", U64); ("deferred_list", struct_list_head)]); ("", Struct
     [("_pt_pad_1", U64); ("pmd_huge_pte", typedef_pgtable_t); ("_pt_pad_2", U64); ("", Union
     [("pt_mm", PtrTo "struct mm_struct"); ("pt_frag_refcount", typedef_atomic_t)]);
     ("ptl", typedef_spinlock_t)]); ("", Struct [("pgmap", PtrTo "struct dev_pagemap");
     ("zone_device_data", Ptr)]); ("callback_head", struct_callback_head)]); ("", Union
     [("_mapcount", typedef_atomic_t); ("page_type", U32); ("active", U32); ("units", U32)]);
     ("_refcount", typedef_atomic_t); ("memcg_data", U64)].

Definition struct_task_delay_info : cty :=
  Struct
    [("lock", typedef_raw_spinlock_t); ("flags", U32); ("blkio_start", typedef_u64);
     ("blkio_delay", typedef_u64); ("swapin_delay", typedef_u64);
     ("blkio_count", typedef_u32); ("swapin_count", typedef_u32);
     ("freepages_start", typedef_u64); ("freepages_delay", typedef_u64);
     ("thrashing_start", typedef_u64); ("thrashing_delay", typedef_u64);
     ("freepages_count", typedef_u32); ("thrashing_count", typedef_u32)].

Definition struct_ftrace_ret_stack : cty :=
  Struct
    [("ret", U64); ("func", U64); ("calltime", U64); ("subtime", U64); ("retp", Ptr)].

Definition struct_mem_cgroup_id : cty :=
  Struct
    [("id", U32); ("ref", typedef_refcount_t)].

Definition struct_page_counter : cty :=
  Struct
    [("usage", typedef_atomic_long_t); ("min", U64); ("low", U64); ("max", U64);
     ("parent", PtrTo "struct page_counter"); ("emin", U64);
     ("min_usage", typedef_atomic_long_t); ("children_min_usage", typedef_atomic_long_t);
     ("elow", U64); ("low_usage", typedef_atomic_long_t);
     ("children_low_usage", typedef_atomic_long_t); ("watermark", U64); ("failcnt", U64)].

Definition struct_vmpressure : cty :=
  Struct
    [("scanned", U64); ("reclaimed", U64); ("tree_scanned", U64); ("tree_reclaimed", U64);
     ("sr_lock", typedef_spinlock_t); ("events", struct_list_head);
     ("events_lock", struct_mutex); ("work", struct_work_struct)].

Definition struct_cgroup_file : cty :=
  Struct
    [("kn", PtrTo "struct kernfs_node"); ("notified_at", U64);
     ("notify_timer", struct_timer_list)].

Definition struct_mem_cgroup_thresholds : cty :=
  Struct
    [("primary", PtrTo "struct mem_cgroup_threshold_ary");
     ("spare", PtrTo "struct mem_cgroup_threshold_ary")].

Definition struct_memcg_padding : cty :=
  Struct
    [("x", Array 0 U8)].

Definition struct_fprop_global : cty :=
  Struct
    [("events", struct_percpu_counter); ("period", U32); ("sequence", typedef_seqcount_t)].

Definition struct_wb_domain : cty :=
  Struct
    [("lock", typedef_spinlock_t); ("completions", struct_fprop_global);
     ("period_timer", struct_timer_list); ("period_time", U64); ("dirty_limit_tstamp", U64);
     ("dirty_limit", U64)].

Definition struct_wb_completion : cty :=
  Struct
    [("cnt", typedef_atomic_t); ("waitq", PtrTo "struct wait_queue_head")].

Definition struct_memcg_cgwb_frn : cty :=
  Struct
    [("bdi_id", typedef_u64); ("memcg_id", U32); ("at", typedef_u64);
     ("done", struct_wb_completion)].

Definition struct_deferred_split : cty :=
  Struct
    [("split_queue_lock", typedef_spinlock_t); ("split_queue", struct_list_head);
     ("split_queue_len", U64)].

Definition struct_mem_cgroup : cty :=
  Struct
    [("css", struct_cgroup_subsys_state); ("id", struct_mem_cgroup_id);
     ("memory", struct_page_counter); ("swap", struct_page_counter);
     ("memsw", struct_page_counter); ("kmem", struct_page_counter);
     ("tcpmem", struct_page_counter); ("high", U64); ("high_work", struct_work_struct);
     ("soft_limit", U64); ("vmpressure", struct_vmpressure); ("use_hierarchy", typedef_bool);
     ("oom_group", typedef_bool); ("oom_lock", typedef_bool); ("under_oom", U32);
     ("swappiness", U32); ("oom_kill_disable", U32); ("events_file", struct_cgroup_file);
     ("events_local_file", struct_cgroup_file); ("wmark_low_event", struct_cgroup_file);
     ("swap_events_file", struct_cgroup_file); ("thresholds_lock", struct_mutex);
     ("thresholds", struct_mem_cgroup_thresholds);
     ("memsw_thresholds", struct_mem_cgroup_thresholds); ("oom_notify", struct_list_head);
     ("move_charge_at_immigrate", U64); ("move_lock", typedef_spinlock_t);
     ("move_lock_flags", U64); ("_pad1_", struct_memcg_padding);
     ("moving_account", typedef_atomic_t); ("move_lock_task", PtrTo "struct task_struct");
     ("vmstats_local", PtrTo "struct memcg_vmstats_percpu");
     ("vmstats_percpu", PtrTo "struct memcg_vmstats_percpu"); ("", Pad 8 64); ("", Pad 8 64);
     ("", Pad 8 64); ("", Pad 8 64); ("_pad2_", struct_memcg_padding);
     ("vmstats", Array 36 typedef_atomic_long_t);
     ("vmevents", Array 85 typedef_atomic_long_t);
     ("memory_events", Array 7 typedef_atomic_long_t);
     ("memory_events_local", Array 7 typedef_atomic_long_t); ("socket_pressure", U64);
     ("tcpmem_active", typedef_bool); ("tcpmem_pressure", U32); ("kmemcg_id", U32);
     ("kmem_state", Enum); ("objcg", PtrTo "struct obj_cgroup");
     ("objcg_list", struct_list_head); ("last_scanned_node", U32);
     ("scan_nodes", typedef_nodemask_t); ("numainfo_events", typedef_atomic_t);
     ("numainfo_updating", typedef_atomic_t); ("cgwb_list", struct_list_head);
     ("cgwb_domain", struct_wb_domain); ("cgwb_frn", Array 4 struct_memcg_cgwb_frn);
     ("event_list", struct_list_head); ("event_list_lock", typedef_spinlock_t);
     ("deferred_split_queue", struct_deferred_split);
     ("mem_reclaim_work", struct_work_struct); ("reclaim_failures", U32);
     ("watermark_scale_factor", U32); ("watermark", Array 2 U64);
     ("wmark_lock", typedef_spinlock_t);
     ("nodeinfo", Array 0 (PtrTo "struct mem_cgroup_per_node")); ("", Pad 8 64);
     ("", Pad 8 64); ("", Pad 8 64); ("", Pad 8 64)].

Definition struct_blk_integrity : cty :=
  Struct
    [("profile", PtrTo "struct blk_integrity_profile"); ("flags", U8); ("tuple_size", U8);
     ("interval_exp", U8); ("tag_size", U8)].

Definition struct_blk_rq_stat : cty :=
  Struct
    [("mean", typedef_u64); ("min", typedef_u64); ("max", typedef_u64);
     ("nr_samples", typedef_u32); ("batch", typedef_u64)].

Definition struct_queue_limits : cty :=
  Struct
    [("bounce_pfn", U64); ("seg_boundary_mask", U64); ("virt_boundary_mask", U64);
     ("max_hw_sectors", U32); ("max_dev_sectors", U32); ("chunk_sectors", U32);
     ("max_sectors", U32); ("max_segment_size", U32); ("physical_block_size", U32);
     ("logical_block_size", U32); ("alignment_offset", U32); ("io_min", U32); ("io_opt", U32);
     ("max_discard_sectors", U32); ("max_hw_discard_sectors", U32);
     ("max_write_same_sectors", U32); ("max_write_zeroes_sectors", U32);
     ("discard_granularity", U32); ("discard_alignment", U32); ("max_segments", U16);
     ("max_integrity_segments", U16); ("max_discard_segments", U16); ("misaligned", U8);
     ("discard_misaligned", U8); ("raid_partial_stripes_expensive", U8); ("zoned", Enum)].

Definition struct_bsg_class_device : cty :=
  Struct
    [("class_dev", PtrTo "struct device"); ("minor", U32);
     ("queue", PtrTo "struct request_queue"); ("ops", PtrTo "struct bsg_ops")].

Definition struct_mempool_s : cty :=
  Struct
    [("lock", typedef_spinlock_t); ("min_nr", U32); ("curr_nr", U32); ("elements", Ptr);
     ("pool_data", Ptr); ("alloc", Ptr); ("free", Ptr); ("wait", typedef_wait_queue_head_t)].

Definition typedef_mempool_t : cty := struct_mempool_s.

Definition struct_bio_set : cty :=
  Struct
    [("bio_slab", PtrTo "struct kmem_cache"); ("front_pad", U32);
     ("bio_pool", typedef_mempool_t); ("bvec_pool", typedef_mempool_t);
     ("bio_integrity_pool", typedef_mempool_t); ("bvec_integrity_pool", typedef_mempool_t);
     ("rescue_lock", typedef_spinlock_t); ("rescue_list", struct_bio_list);
     ("rescue_work", struct_work_struct);
     ("rescue_workqueue", PtrTo "struct workqueue_struct")].

Definition struct_request_queue : cty :=
  Struct
    [("last_merge", PtrTo "struct request"); ("elevator", PtrTo "struct elevator_queue");
     ("stats", PtrTo "struct blk_queue_stats"); ("rq_qos", PtrTo "struct rq_qos");
     ("make_request_fn", Ptr); ("dma_drain_needed", Ptr);
     ("mq_ops", PtrTo "struct blk_mq_ops"); ("queue_ctx", PtrTo "struct blk_mq_ctx");
     ("nr_queues", U32); ("queue_depth", U32);
     ("queue_hw_ctx", Pointer 2 "struct blk_mq_hw_ctx"); ("nr_hw_queues", U32);
     ("backing_dev_info", PtrTo "struct backing_dev_info"); ("queuedata", Ptr);
     ("queue_flags", U64); ("pm_only", typedef_atomic_t); ("id", U32);
     ("bounce_gfp", typedef_gfp_t); ("queue_lock", typedef_spinlock_t);
     ("kobj", struct_kobject); ("mq_kobj", PtrTo "struct kobject");
     ("integrity", struct_blk_integrity); ("dev", PtrTo "struct device"); ("rpm_status", U32);
     ("nr_pending", U32); ("nr_requests", U64); ("dma_drain_size", U32);
     ("dma_drain_buffer", Ptr); ("dma_pad_mask", U32); ("dma_alignment", U32);
     ("rq_timeout", U32); ("poll_nsec", U32); ("poll_cb", PtrTo "struct blk_stat_callback");
     ("poll_stat", Array 16 struct_blk_rq_stat); ("timeout", struct_timer_list);
     ("timeout_work", struct_work_struct); ("icq_list", struct_list_head);
     ("blkcg_pols", Array 1 U64); ("root_blkg", PtrTo "struct blkcg_gq");
     ("blkg_list", struct_list_head); ("limits", struct_queue_limits);
     ("required_elevator_features", U32); ("sg_timeout", U32); ("sg_reserved_size", U32);
     ("node", U32); ("blk_trace", PtrTo "struct blk_trace");
     ("blk_trace_mutex", struct_mutex); ("fq", PtrTo "struct blk_flush_queue");
     ("requeue_list", struct_list_head); ("requeue_lock", typedef_spinlock_t);
     ("requeue_work", struct_delayed_work); ("sysfs_lock", struct_mutex);
     ("sysfs_dir_lock", struct_mutex); ("unused_hctx_list", struct_list_head);
     ("unused_hctx_lock", typedef_spinlock_t); ("mq_freeze_depth", U32);
     ("bsg_dev", struct_bsg_class_device); ("td", PtrTo "struct throtl_data");
     ("callback_head", struct_callback_head); ("mq_freeze_wq", typedef_wait_queue_head_t);
     ("mq_freeze_lock", struct_mutex); ("q_usage_counter", struct_percpu_ref);
     ("tag_set", PtrTo "struct blk_mq_tag_set"); ("tag_set_list", struct_list_head);
     ("bio_split", struct_bio_set); ("debugfs_dir", PtrTo "struct dentry");
     ("sched_debugfs_dir", PtrTo "struct dentry");
     ("rqos_debugfs_dir", PtrTo "struct dentry"); ("mq_sysfs_init_done", typedef_bool);
     ("cmd_size", typedef_size_t); ("release_work", struct_work_struct);
     ("write_hints", Array 5 typedef_u64)].

Definition struct_arch_uprobe_task : cty :=
  Struct
    [("saved_scratch_register", U64); ("saved_trap_nr", U32); ("saved_tf", U32)].

Definition struct_uprobe_task : cty :=
  Struct
    [("state", Enum); ("", Union [("", Struct [("autask", struct_arch_uprobe_task);
     ("vaddr", U64)]); ("", Struct [("dup_xol_work", struct_callback_head);
     ("dup_xol_addr", U64)])]); ("active_uprobe", PtrTo "struct uprobe"); ("xol_vaddr", U64);
     ("return_instances", PtrTo "struct return_instance"); ("depth", U32)].

Definition typedef_phys_addr_t : cty := typedef_u64.

Definition struct_vm_struct : cty :=
  Struct
    [("next", PtrTo "struct vm_struct"); ("addr", Ptr); ("size", U64); ("flags", U64);
     ("pages", Pointer 2 "struct page"); ("nr_pages", U32);
     ("phys_addr", typedef_phys_addr_t); ("caller", Ptr)].

Definition typedef_local_t : cty :=
  Struct
    [("a", typedef_atomic_long_t)].

Definition typedef_local64_t : cty :=
  Struct
    [("a", typedef_local_t)].

Definition struct_perf_event_attr : cty :=
  Struct
    [("type", typedef___u32); ("size", typedef___u32); ("config", typedef___u64); ("", Union
     [("sample_period", typedef___u64); ("sample_freq", typedef___u64)]);
     ("sample_type", typedef___u64); ("read_format", typedef___u64); ("disabled", Bits 8 1);
     ("inherit", Bits 8 1); ("pinned", Bits 8 1); ("exclusive", Bits 8 1);
     ("exclude_user", Bits 8 1); ("exclude_kernel", Bits 8 1); ("exclude_hv", Bits 8 1);
     ("exclude_idle", Bits 8 1); ("mmap", Bits 8 1); ("comm", Bits 8 1); ("freq", Bits 8 1);
     ("inherit_stat", Bits 8 1); ("enable_on_exec", Bits 8 1); ("task", Bits 8 1);
     ("watermark", Bits 8 1); ("precise_ip", Bits 8 2); ("mmap_data", Bits 8 1);
     ("sample_id_all", Bits 8 1); ("exclude_host", Bits 8 1); ("exclude_guest", Bits 8 1);
     ("exclude_callchain_kernel", Bits 8 1); ("exclude_callchain_user", Bits 8 1);
     ("mmap2", Bits 8 1); ("comm_exec", Bits 8 1); ("use_clockid", Bits 8 1);
     ("context_switch", Bits 8 1); ("write_backward", Bits 8 1); ("namespaces", Bits 8 1);
     ("ksymbol", Bits 8 1); ("bpf_event", Bits 8 1); ("aux_output", Bits 8 1);
     ("__reserved_1", Bits 8 32); ("", Union [("wakeup_events", typedef___u32);
     ("wakeup_watermark", typedef___u32)]); ("bp_type", typedef___u32); ("", Union
     [("bp_addr", typedef___u64); ("kprobe_func", typedef___u64);
     ("uprobe_path", typedef___u64); ("config1", typedef___u64)]); ("", Union
     [("bp_len", typedef___u64); ("kprobe_addr", typedef___u64);
     ("probe_offset", typedef___u64); ("config2", typedef___u64)]);
     ("branch_sample_type", typedef___u64); ("sample_regs_user", typedef___u64);
     ("sample_stack_user", typedef___u32); ("clockid", typedef___s32);
     ("sample_regs_intr", typedef___u64); ("aux_watermark", typedef___u32);
     ("sample_max_stack", typedef___u16); ("__reserved_2", typedef___u16)].

Definition struct_hw_perf_event_extra : cty :=
  Struct
    [("config", typedef_u64); ("reg", U32); ("alloc", U32); ("idx", U32)].

Definition struct_arch_hw_breakpoint : cty :=
  Struct
    [("address", U64); ("mask", U64); ("len", typedef_u8); ("type", typedef_u8)].

Definition struct_hw_perf_event : cty :=
  Struct
    [("", Union [("", Struct [("config", typedef_u64); ("last_tag", typedef_u64);
     ("config_base", U64); ("event_base", U64); ("event_base_rdpmc", U32); ("idx", U32);
     ("last_cpu", U32); ("flags", U32); ("extra_reg", struct_hw_perf_event_extra);
     ("branch_reg", struct_hw_perf_event_extra)]); ("", Struct [("hrtimer", struct_hrtimer)]);
     ("", Struct [("tp_list", struct_list_head)]); ("", Struct [("pwr_acc", typedef_u64);
     ("ptsc", typedef_u64)]); ("", Struct [("info", struct_arch_hw_breakpoint);
     ("bp_list", struct_list_head)]); ("", Struct [("iommu_bank", typedef_u8);
     ("iommu_cntr", typedef_u8); ("padding", typedef_u16); ("conf", typedef_u64);
     ("conf1", typedef_u64)])]); ("target", PtrTo "struct task_struct");
     ("addr_filters", Ptr); ("addr_filters_gen", U64); ("state", U32);
     ("prev_count", typedef_local64_t); ("sample_period", typedef_u64); ("", Union
     [("", Struct [("last_period", typedef_u64); ("period_left", typedef_local64_t)]);
     ("", Struct [("saved_metric", typedef_u64); ("saved_slots", typedef_u64)])]);
     ("interrupts_seq", typedef_u64); ("interrupts", typedef_u64);
     ("freq_time_stamp", typedef_u64); ("freq_count_stamp", typedef_u64)].

Definition struct_irq_work : cty :=
  Struct
    [("flags", U64); ("llnode", struct_llist_node); ("func", Ptr)].

Definition struct_perf_addr_filters_head : cty :=
  Struct
    [("list", struct_list_head); ("lock", typedef_raw_spinlock_t); ("nr_file_filters", U32)].

Definition typedef_perf_overflow_handler_t : cty := Ptr.
Definition typedef_ftrace_func_t : cty := Ptr.

Definition struct_ftrace_ops_hash : cty :=
  Struct
    [("notrace_hash", PtrTo "struct ftrace_hash");
     ("filter_hash", PtrTo "struct ftrace_hash"); ("regex_lock", struct_mutex)].

Definition struct_ftrace_ops : cty :=
  Struct
    [("func", typedef_ftrace_func_t); ("next", PtrTo "struct ftrace_ops"); ("flags", U64);
     ("private", Ptr); ("saved_func", typedef_ftrace_func_t);
     ("local_hash", struct_ftrace_ops_hash); ("func_hash", PtrTo "struct ftrace_ops_hash");
     ("old_hash", struct_ftrace_ops_hash); ("trampoline", U64); ("trampoline_size", U64)].

Definition struct_perf_event : cty :=
  Struct
    [("event_entry", struct_list_head); ("sibling_list", struct_list_head);
     ("active_list", struct_list_head); ("group_node", struct_rb_node);
     ("group_index", typedef_u64); ("migrate_entry", struct_list_head);
     ("hlist_entry", struct_hlist_node); ("active_entry", struct_list_head);
     ("nr_siblings", U32); ("event_caps", U32); ("group_caps", U32);
     ("group_leader", PtrTo "struct perf_event"); ("pmu", PtrTo "struct pmu");
     ("pmu_private", Ptr); ("state", Enum); ("attach_state", U32);
     ("count", typedef_local64_t); ("child_count", typedef_atomic64_t);
     ("total_time_enabled", typedef_u64); ("total_time_running", typedef_u64);
     ("tstamp", typedef_u64); ("shadow_ctx_time", typedef_u64);
     ("attr", struct_perf_event_attr); ("header_size", typedef_u16);
     ("id_header_size", typedef_u16); ("read_size", typedef_u16);
     ("hw", struct_hw_perf_event); ("ctx", PtrTo "struct perf_event_context");
     ("refcount", typedef_atomic_long_t); ("child_total_time_enabled", typedef_atomic64_t);
     ("child_total_time_running", typedef_atomic64_t); ("child_mutex", struct_mutex);
     ("child_list", struct_list_head); ("parent", PtrTo "struct perf_event"); ("oncpu", U32);
     ("cpu", U32); ("owner_entry", struct_list_head); ("owner", PtrTo "struct task_struct");
     ("mmap_mutex", struct_mutex); ("mmap_count", typedef_atomic_t);
     ("rb", PtrTo "struct ring_buffer"); ("rb_entry", struct_list_head); ("rcu_batches", U64);
     ("rcu_pending", U32); ("waitq", typedef_wait_queue_head_t);
     ("fasync", PtrTo "struct fasync_struct"); ("pending_wakeup", U32); ("pending_kill", U32);
     ("pending_disable", U32); ("pending", struct_irq_work);
     ("event_limit", typedef_atomic_t); ("addr_filters", struct_perf_addr_filters_head);
     ("addr_filter_ranges", PtrTo "struct perf_addr_filter_range"); ("addr_filters_gen", U64);
     ("aux_event", PtrTo "struct perf_event"); ("destroy", Ptr);
     ("callback_head", struct_callback_head); ("ns", PtrTo "struct pid_namespace");
     ("id", typedef_u64); ("clock", Ptr);
     ("overflow_handler", typedef_perf_overflow_handler_t); ("overflow_handler_context", Ptr);
     ("orig_overflow_handler", typedef_perf_overflow_handler_t);
     ("prog", PtrTo "struct bpf_prog"); ("tp_event", PtrTo "struct trace_event_call");
     ("filter", PtrTo "struct event_filter"); ("ftrace_ops", struct_ftrace_ops);
     ("cgrp", PtrTo "struct perf_cgroup"); ("sb_list", struct_list_head)].

Definition struct_math_emu_info : cty :=
  Struct
    [("___orig_eip", U64); ("regs", PtrTo "struct pt_regs")].

Definition typedef_slab_flags_t : cty := U32.

Definition struct_proto : cty :=
  Struct
    [("close", Ptr); ("pre_connect", Ptr); ("connect", Ptr); ("disconnect", Ptr);
     ("accept", Ptr); ("ioctl", Ptr); ("init", Ptr); ("destroy", Ptr); ("shutdown", Ptr);
     ("setsockopt", Ptr); ("getsockopt", Ptr); ("keepalive", Ptr); ("compat_setsockopt", Ptr);
     ("compat_getsockopt", Ptr); ("compat_ioctl", Ptr); ("sendmsg", Ptr); ("recvmsg", Ptr);
     ("sendpage", Ptr); ("bind", Ptr); ("backlog_rcv", Ptr); ("release_cb", Ptr);
     ("hash", Ptr); ("unhash", Ptr); ("rehash", Ptr); ("get_port", Ptr); ("inuse_idx", U32);
     ("stream_memory_free", Ptr); ("stream_memory_read", Ptr); ("enter_memory_pressure", Ptr);
     ("leave_memory_pressure", Ptr); ("memory_allocated", PtrTo "atomic64_t");
     ("sockets_allocated", PtrTo "struct percpu_counter"); ("memory_pressure", Ptr);
     ("sysctl_mem", Ptr); ("sysctl_wmem", Ptr); ("sysctl_rmem", Ptr);
     ("sysctl_wmem_offset", typedef_u32); ("sysctl_rmem_offset", typedef_u32);
     ("max_header", U32); ("no_autobind", typedef_bool); ("slab", PtrTo "struct kmem_cache");
     ("obj_size", U32); ("slab_flags", typedef_slab_flags_t); ("useroffset", U32);
     ("usersize", U32); ("orphan_count", PtrTo "struct percpu_counter");
     ("rsk_prot", PtrTo "struct request_sock_ops");
     ("twsk_prot", PtrTo "struct timewait_sock_ops"); ("h", Union
     [("hashinfo", PtrTo "struct inet_hashinfo"); ("udp_table", PtrTo "struct udp_table");
     ("raw_hash", PtrTo "struct raw_hashinfo"); ("smc_hash", PtrTo "struct smc_hashinfo")]);
     ("owner", PtrTo "struct module"); ("name", Array 32 U8); ("node", struct_list_head);
     ("diag_destroy", Ptr)].

Definition struct_idr : cty :=
  Struct
    [("idr_rt", struct_xarray); ("idr_base", U32); ("idr_next", U32)].

Definition struct_ns_common : cty :=
  Struct
    [("stashed", typedef_atomic_long_t); ("ops", PtrTo "struct proc_ns_operations");
     ("inum", U32)].

Definition struct_ctl_table_header : cty :=
  Struct
    [("", Union [("", Struct [("ctl_table", PtrTo "struct ctl_table"); ("used", U32);
     ("count", U32); ("nreg", U32)]); ("rcu", struct_callback_head)]);
     ("unregistering", PtrTo "struct completion");
     ("ctl_table_arg", PtrTo "struct ctl_table"); ("root", PtrTo "struct ctl_table_root");
     ("set", PtrTo "struct ctl_table_set"); ("parent", PtrTo "struct ctl_dir");
     ("node", PtrTo "struct ctl_node"); ("inodes", struct_hlist_head)].

Definition struct_ctl_dir : cty :=
  Struct
    [("header", struct_ctl_table_header); ("root", struct_rb_root)].

Definition struct_ctl_table_set : cty :=
  Struct
    [("is_seen", Ptr); ("dir", struct_ctl_dir)].

Definition struct_netns_core : cty :=
  Struct
    [("sysctl_hdr", PtrTo "struct ctl_table_header"); ("sysctl_somaxconn", U32);
     ("sock_inuse", Ptr); ("prot_inuse", PtrTo "struct prot_inuse")].

Definition struct_netns_mib : cty :=
  Struct
    [("tcp_statistics", PtrTo "struct tcp_mib");
     ("ip_statistics", PtrTo "struct ipstats_mib");
     ("net_statistics", PtrTo "struct linux_mib"); ("udp_statistics", PtrTo "struct udp_mib");
     ("udplite_statistics", PtrTo "struct udp_mib");
     ("icmp_statistics", PtrTo "struct icmp_mib");
     ("icmpmsg_statistics", PtrTo "struct icmpmsg_mib");
     ("proc_net_devsnmp6", PtrTo "struct proc_dir_entry");
     ("udp_stats_in6", PtrTo "struct udp_mib"); ("udplite_stats_in6", PtrTo "struct udp_mib");
     ("ipv6_statistics", PtrTo "struct ipstats_mib");
     ("icmpv6_statistics", PtrTo "struct icmpv6_mib");
     ("icmpv6msg_statistics", PtrTo "struct icmpv6msg_mib");
     ("xfrm_statistics", PtrTo "struct linux_xfrm_mib")].

Definition struct_netns_packet : cty :=
  Struct
    [("sklist_lock", struct_mutex); ("sklist", struct_hlist_head)].

Definition struct_netns_unix : cty :=
  Struct
    [("sysctl_max_dgram_qlen", U32); ("ctl", PtrTo "struct ctl_table_header")].

Definition struct_netns_nexthop : cty :=
  Struct
    [("rb_root", struct_rb_root); ("devhash", PtrTo "struct hlist_head"); ("seq", U32);
     ("last_id_allocated", typedef_u32)].

Definition struct_local_ports : cty :=
  Struct
    [("lock", typedef_seqlock_t); ("range", Array 2 U32); ("warned", typedef_bool)].

Definition struct_inet_timewait_death_row : cty :=
  Struct
    [("tw_count", typedef_atomic_t); ("", Pad 8 64); ("", Pad 8 64); ("", Pad 8 64);
     ("", Pad 8 64); ("", Pad 8 64); ("", Pad 8 64); ("", Pad 8 64);
     ("hashinfo", PtrTo "struct inet_hashinfo"); ("sysctl_max_tw_buckets", U32);
     ("", Pad 8 64); ("", Pad 8 64); ("", Pad 8 64); ("", Pad 8 64); ("", Pad 8 64);
     ("", Pad 8 64)].

Definition struct_ping_group_range : cty :=
  Struct
    [("lock", typedef_seqlock_t); ("range", Array 2 typedef_kgid_t)].

Definition typedef_siphash_key_t : cty :=
  Struct
    [("key", Array 2 typedef_u64)].

Definition struct_netns_ipv4 : cty :=
  Struct
    [("forw_hdr", PtrTo "struct ctl_table_header");
     ("frags_hdr", PtrTo "struct ctl_table_header");
     ("ipv4_hdr", PtrTo "struct ctl_table_header");
     ("route_hdr", PtrTo "struct ctl_table_header");
     ("xfrm4_hdr", PtrTo "struct ctl_table_header");
     ("devconf_all", PtrTo "struct ipv4_devconf");
     ("devconf_dflt", PtrTo "struct ipv4_devconf"); ("ra_chain", PtrTo "struct ip_ra_chain");
     ("ra_mutex", struct_mutex); ("rules_ops", PtrTo "struct fib_rules_ops");
     ("fib_has_custom_rules", typedef_bool); ("fib_rules_require_fldissect", U32);
     ("fib_main", PtrTo "struct fib_table"); ("fib_default", PtrTo "struct fib_table");
     ("fib_has_custom_local_routes", typedef_bool); ("fib_num_tclassid_users", U32);
     ("fib_table_hash", PtrTo "struct hlist_head"); ("fib_offload_disabled", typedef_bool);
     ("fibnl", PtrTo "struct sock"); ("icmp_sk", Pointer 2 "struct sock");
     ("mc_autojoin_sk", PtrTo "struct sock"); ("peers", PtrTo "struct inet_peer_base");
     ("tcp_sk", Pointer 2 "struct sock"); ("fqdir", PtrTo "struct fqdir");
     ("iptable_filter", PtrTo "struct xt_table"); ("iptable_mangle", PtrTo "struct xt_table");
     ("iptable_raw", PtrTo "struct xt_table"); ("arptable_filter", PtrTo "struct xt_table");
     ("iptable_security", PtrTo "struct xt_table"); ("nat_table", PtrTo "struct xt_table");
     ("sysctl_icmp_echo_ignore_all", U32); ("sysctl_icmp_echo_ignore_broadcasts", U32);
     ("sysctl_icmp_ignore_bogus_error_responses", U32); ("sysctl_icmp_ratelimit", U32);
     ("sysctl_icmp_ratemask", U32); ("sysctl_icmp_errors_use_inbound_ifaddr", U32);
     ("ip_local_ports", struct_local_ports); ("sysctl_tcp_ecn", U32);
     ("sysctl_tcp_ecn_fallback", U32); ("sysctl_ip_default_ttl", U32);
     ("sysctl_ip_no_pmtu_disc", U32); ("sysctl_ip_fwd_use_pmtu", U32);
     ("sysctl_ip_fwd_update_priority", U32); ("sysctl_ip_nonlocal_bind", U32);
     ("sysctl_ip_dynaddr", U32); ("sysctl_ip_early_demux", U32);
     ("sysctl_raw_l3mdev_accept", U32); ("sysctl_tcp_early_demux", U32);
     ("sysctl_udp_early_demux", U32); ("sysctl_fwmark_reflect", U32);
     ("sysctl_tcp_fwmark_accept", U32); ("sysctl_tcp_l3mdev_accept", U32);
     ("sysctl_tcp_mtu_probing", U32); ("sysctl_tcp_mtu_probe_floor", U32);
     ("sysctl_tcp_base_mss", U32); ("sysctl_tcp_min_snd_mss", U32);
     ("sysctl_tcp_probe_threshold", U32); ("sysctl_tcp_probe_interval", typedef_u32);
     ("sysctl_tcp_keepalive_time", U32); ("sysctl_tcp_keepalive_probes", U32);
     ("sysctl_tcp_keepalive_intvl", U32); ("sysctl_tcp_syn_retries", U32);
     ("sysctl_tcp_synack_retries", U32); ("sysctl_tcp_syncookies", U32);
     ("sysctl_tcp_reordering", U32); ("sysctl_tcp_retries1", U32);
     ("sysctl_tcp_retries2", U32); ("sysctl_tcp_orphan_retries", U32);
     ("sysctl_tcp_fin_timeout", U32); ("sysctl_tcp_notsent_lowat", U32);
     ("sysctl_tcp_tw_reuse", U32); ("sysctl_tcp_sack", U32);
     ("sysctl_tcp_window_scaling", U32); ("sysctl_tcp_timestamps", U32);
     ("sysctl_tcp_early_retrans", U32); ("sysctl_tcp_recovery", U32);
     ("sysctl_tcp_thin_linear_timeouts", U32); ("sysctl_tcp_slow_start_after_idle", U32);
     ("sysctl_tcp_retrans_collapse", U32); ("sysctl_tcp_stdurg", U32);
     ("sysctl_tcp_rfc1337", U32); ("sysctl_tcp_abort_on_overflow", U32);
     ("sysctl_tcp_fack", U32); ("sysctl_tcp_max_reordering", U32); ("sysctl_tcp_dsack", U32);
     ("sysctl_tcp_app_win", U32); ("sysctl_tcp_adv_win_scale", U32); ("sysctl_tcp_frto", U32);
     ("sysctl_tcp_nometrics_save", U32); ("sysctl_tcp_moderate_rcvbuf", U32);
     ("sysctl_tcp_tso_win_divisor", U32); ("sysctl_tcp_workaround_signed_windows", U32);
     ("sysctl_tcp_limit_output_bytes", U32); ("sysctl_tcp_challenge_ack_limit", U32);
     ("sysctl_tcp_min_tso_segs", U32); ("sysctl_tcp_min_rtt_wlen", U32);
     ("sysctl_tcp_autocorking", U32); ("sysctl_tcp_invalid_ratelimit", U32);
     ("sysctl_tcp_pacing_ss_ratio", U32); ("sysctl_tcp_pacing_ca_ratio", U32);
     ("sysctl_tcp_wmem", Array 3 U32); ("sysctl_tcp_rmem", Array 3 U32);
     ("sysctl_tcp_comp_sack_nr", U32); ("sysctl_tcp_init_cwnd", U32);
     ("sysctl_tcp_loss_init_cwnd", U32); ("sysctl_tcp_handshake_ts", U32);
     ("sysctl_tcp_tw_timeout", U32); ("sysctl_tcp_comp_sack_delay_ns", U64); ("", Pad 8 64);
     ("", Pad 8 64); ("", Pad 8 64); ("", Pad 8 64); ("", Pad 8 64);
     ("tcp_death_row", struct_inet_timewait_death_row); ("sysctl_max_syn_backlog", U32);
     ("sysctl_tcp_fastopen", U32);
     ("tcp_congestion_control", PtrTo "struct tcp_congestion_ops");
     ("tcp_fastopen_ctx", PtrTo "struct tcp_fastopen_context");
     ("tcp_fastopen_ctx_lock", typedef_spinlock_t);
     ("sysctl_tcp_fastopen_blackhole_timeout", U32);
     ("tfo_active_disable_times", typedef_atomic_t); ("tfo_active_disable_stamp", U64);
     ("sysctl_udp_wmem_min", U32); ("sysctl_udp_rmem_min", U32);
     ("sysctl_udp_l3mdev_accept", U32); ("sysctl_igmp_max_memberships", U32);
     ("sysctl_igmp_max_msf", U32); ("sysctl_igmp_llm_reports", U32); ("sysctl_igmp_qrv", U32);
     ("ping_group_range", struct_ping_group_range); ("dev_addr_genid", typedef_atomic_t);
     ("sysctl_local_reserved_ports", Ptr); ("sysctl_ip_prot_sock", U32);
     ("mr_tables", struct_list_head); ("mr_rules_ops", PtrTo "struct fib_rules_ops");
     ("sysctl_fib_multipath_use_neigh", U32); ("sysctl_fib_multipath_hash_policy", U32);
     ("notifier_ops", PtrTo "struct fib_notifier_ops"); ("fib_seq", U32);
     ("ipmr_notifier_ops", PtrTo "struct fib_notifier_ops"); ("ipmr_seq", U32);
     ("rt_genid", typedef_atomic_t); ("ip_id_key", typedef_siphash_key_t)].

Definition struct_netns_sysctl_ipv6 : cty :=
  Struct
    [("hdr", PtrTo "struct ctl_table_header"); ("route_hdr", PtrTo "struct ctl_table_header");
     ("icmp_hdr", PtrTo "struct ctl_table_header");
     ("frags_hdr", PtrTo "struct ctl_table_header");
     ("xfrm6_hdr", PtrTo "struct ctl_table_header"); ("bindv6only", U32);
     ("flush_delay", U32); ("ip6_rt_max_size", U32); ("ip6_rt_gc_min_interval", U32);
     ("ip6_rt_gc_timeout", U32); ("ip6_rt_gc_interval", U32); ("ip6_rt_gc_elasticity", U32);
     ("ip6_rt_mtu_expires", U32); ("ip6_rt_min_advmss", U32); ("multipath_hash_policy", U32);
     ("flowlabel_consistency", U32); ("auto_flowlabels", U32); ("icmpv6_time", U32);
     ("icmpv6_echo_ignore_all", U32); ("icmpv6_echo_ignore_multicast", U32);
     ("icmpv6_echo_ignore_anycast", U32); ("icmpv6_ratemask", Array 4 U64);
     ("icmpv6_ratemask_ptr", Ptr); ("anycast_src_echo_reply", U32); ("ip_nonlocal_bind", U32);
     ("fwmark_reflect", U32); ("idgen_retries", U32); ("idgen_delay", U32);
     ("flowlabel_state_ranges", U32); ("flowlabel_reflect", U32); ("max_dst_opts_cnt", U32);
     ("max_hbh_opts_cnt", U32); ("max_dst_opts_len", U32); ("max_hbh_opts_len", U32);
     ("seg6_flowlabel", U32); ("skip_notify_on_dev_down", typedef_bool)].

Definition struct_dst_ops : cty :=
  Struct
    [("family", U16); ("gc_thresh", U32); ("gc", Ptr); ("check", Ptr);
     ("default_advmss", Ptr); ("mtu", Ptr); ("cow_metrics", Ptr); ("destroy", Ptr);
     ("ifdown", Ptr); ("negative_advice", Ptr); ("link_failure", Ptr); ("update_pmtu", Ptr);
     ("redirect", Ptr); ("local_out", Ptr); ("neigh_lookup", Ptr); ("confirm_neigh", Ptr);
     ("kmem_cachep", PtrTo "struct kmem_cache"); ("pcpuc_entries", struct_percpu_counter);
     ("", Pad 8 64); ("", Pad 8 64); ("", Pad 8 64)].

Definition struct_netns_ipv6 : cty :=
  Struct
    [("sysctl", struct_netns_sysctl_ipv6); ("devconf_all", PtrTo "struct ipv6_devconf");
     ("devconf_dflt", PtrTo "struct ipv6_devconf"); ("peers", PtrTo "struct inet_peer_base");
     ("fqdir", PtrTo "struct fqdir"); ("ip6table_filter", PtrTo "struct xt_table");
     ("ip6table_mangle", PtrTo "struct xt_table"); ("ip6table_raw", PtrTo "struct xt_table");
     ("ip6table_security", PtrTo "struct xt_table");
     ("ip6table_nat", PtrTo "struct xt_table"); ("fib6_null_entry", PtrTo "struct fib6_info");
     ("ip6_null_entry", PtrTo "struct rt6_info");
     ("rt6_stats", PtrTo "struct rt6_statistics"); ("ip6_fib_timer", struct_timer_list);
     ("fib_table_hash", PtrTo "struct hlist_head");
     ("fib6_main_tbl", PtrTo "struct fib6_table"); ("fib6_walkers", struct_list_head);
     ("", Pad 8 64); ("", Pad 8 64); ("ip6_dst_ops", struct_dst_ops);
     ("fib6_walker_lock", typedef_rwlock_t); ("fib6_gc_lock", typedef_spinlock_t);
     ("ip6_rt_gc_expire", U32); ("ip6_rt_last_gc", U64);
     ("fib6_rules_require_fldissect", U32); ("fib6_has_custom_rules", typedef_bool);
     ("ip6_prohibit_entry", PtrTo "struct rt6_info");
     ("ip6_blk_hole_entry", PtrTo "struct rt6_info");
     ("fib6_local_tbl", PtrTo "struct fib6_table");
     ("fib6_rules_ops", PtrTo "struct fib_rules_ops"); ("icmp_sk", Pointer 2 "struct sock");
     ("ndisc_sk", PtrTo "struct sock"); ("tcp_sk", PtrTo "struct sock");
     ("igmp_sk", PtrTo "struct sock"); ("mc_autojoin_sk", PtrTo "struct sock");
     ("mr6_tables", struct_list_head); ("mr6_rules_ops", PtrTo "struct fib_rules_ops");
     ("dev_addr_genid", typedef_atomic_t); ("fib6_sernum", typedef_atomic_t);
     ("seg6_data", PtrTo "struct seg6_pernet_data");
     ("notifier_ops", PtrTo "struct fib_notifier_ops");
     ("ip6mr_notifier_ops", PtrTo "struct fib_notifier_ops"); ("ipmr_seq", U32);
     ("ip6addrlbl_table", Struct [("head", struct_hlist_head); ("lock", typedef_spinlock_t);
     ("seq", typedef_u32)]); ("", Pad 8 64)].

Definition struct_netns_sysctl_lowpan : cty :=
  Struct
    [("frags_hdr", PtrTo "struct ctl_table_header")].

Definition struct_netns_ieee802154_lowpan : cty :=
  Struct
    [("sysctl", struct_netns_sysctl_lowpan); ("fqdir", PtrTo "struct fqdir")].

Definition struct_netns_sctp : cty :=
  Struct
    [("sctp_statistics", PtrTo "struct sctp_mib");
     ("proc_net_sctp", PtrTo "struct proc_dir_entry");
     ("sysctl_header", PtrTo "struct ctl_table_header"); ("ctl_sock", PtrTo "struct sock");
     ("local_addr_list", struct_list_head); ("addr_waitq", struct_list_head);
     ("addr_wq_timer", struct_timer_list); ("auto_asconf_splist", struct_list_head);
     ("addr_wq_lock", typedef_spinlock_t); ("local_addr_lock", typedef_spinlock_t);
     ("rto_initial", U32); ("rto_min", U32); ("rto_max", U32); ("rto_alpha", U32);
     ("rto_beta", U32); ("max_burst", U32); ("cookie_preserve_enable", U32);
     ("sctp_hmac_alg", Ptr); ("valid_cookie_life", U32); ("sack_timeout", U32);
     ("hb_interval", U32); ("max_retrans_association", U32); ("max_retrans_path", U32);
     ("max_retrans_init", U32); ("pf_retrans", U32); ("pf_enable", U32);
     ("sndbuf_policy", U32); ("rcvbuf_policy", U32); ("default_auto_asconf", U32);
     ("addip_enable", U32); ("addip_noauth", U32); ("prsctp_enable", U32);
     ("reconf_enable", U32); ("auth_enable", U32); ("intl_enable", U32); ("ecn_enable", U32);
     ("scope_policy", U32); ("rwnd_upd_shift", U32); ("max_autoclose", U64)].

Definition struct_netns_dccp : cty :=
  Struct
    [("v4_ctl_sk", PtrTo "struct sock"); ("v6_ctl_sk", PtrTo "struct sock")].

Definition struct_netns_nf : cty :=
  Struct
    [("proc_netfilter", PtrTo "struct proc_dir_entry");
     ("queue_handler", PtrTo "struct nf_queue_handler");
     ("nf_loggers", Array 13 (PtrTo "struct nf_logger"));
     ("nf_log_dir_header", PtrTo "struct ctl_table_header");
     ("hooks_ipv4", Array 5 (PtrTo "struct nf_hook_entries"));
     ("hooks_ipv6", Array 5 (PtrTo "struct nf_hook_entries"));
     ("hooks_arp", Array 3 (PtrTo "struct nf_hook_entries"));
     ("hooks_bridge", Array 5 (PtrTo "struct nf_hook_entries"));
     ("hooks_decnet", Array 7 (PtrTo "struct nf_hook_entries"));
     ("defrag_ipv4", typedef_bool); ("defrag_ipv6", typedef_bool)].

Definition struct_netns_xt : cty :=
  Struct
    [("tables", Array 13 struct_list_head); ("notrack_deprecated_warning", typedef_bool);
     ("clusterip_deprecated_warning", typedef_bool);
     ("broute_table", PtrTo "struct ebt_table"); ("frame_filter", PtrTo "struct ebt_table");
     ("frame_nat", PtrTo "struct ebt_table")].

Definition struct_nf_generic_net : cty :=
  Struct
    [("timeout", U32)].

Definition struct_nf_tcp_net : cty :=
  Struct
    [("timeouts", Array 14 U32); ("tcp_loose", U32); ("tcp_be_liberal", U32);
     ("tcp_max_retrans", U32)].

Definition struct_nf_udp_net : cty :=
  Struct
    [("timeouts", Array 2 U32)].

Definition struct_nf_icmp_net : cty :=
  Struct
    [("timeout", U32)].

Definition struct_nf_dccp_net : cty :=
  Struct
    [("dccp_loose", U32); ("dccp_timeout", Array 10 U32)].

Definition struct_nf_sctp_net : cty :=
  Struct
    [("timeouts", Array 10 U32)].

Definition struct_nf_gre_net : cty :=
  Struct
    [("keymap_list", struct_list_head); ("timeouts", Array 2 U32)].

Definition struct_nf_ip_net : cty :=
  Struct
    [("generic", struct_nf_generic_net); ("tcp", struct_nf_tcp_net);
     ("udp", struct_nf_udp_net); ("icmp", struct_nf_icmp_net); ("icmpv6", struct_nf_icmp_net);
     ("dccp", struct_nf_dccp_net); ("sctp", struct_nf_sctp_net); ("gre", struct_nf_gre_net)].

Definition struct_netns_ct : cty :=
  Struct
    [("count", typedef_atomic_t); ("expect_count", U32);
     ("ecache_dwork", struct_delayed_work); ("ecache_dwork_pending", typedef_bool);
     ("auto_assign_helper_warned", typedef_bool);
     ("sysctl_header", PtrTo "struct ctl_table_header"); ("sysctl_log_invalid", U32);
     ("sysctl_events", U32); ("sysctl_acct", U32); ("sysctl_auto_assign_helper", U32);
     ("sysctl_tstamp", U32); ("sysctl_checksum", U32); ("pcpu_lists", PtrTo "struct ct_pcpu");
     ("stat", PtrTo "struct ip_conntrack_stat");
     ("nf_conntrack_event_cb", PtrTo "struct nf_ct_event_notifier");
     ("nf_expect_event_cb", PtrTo "struct nf_exp_event_notifier");
     ("nf_ct_proto", struct_nf_ip_net); ("labels_used", U32)].

Definition struct_netns_nftables : cty :=
  Struct
    [("tables", struct_list_head); ("commit_list", struct_list_head);
     ("module_list", struct_list_head); ("commit_mutex", struct_mutex); ("base_seq", U32);
     ("gencursor", typedef_u8); ("validate_state", typedef_u8)].

Definition struct_netns_nf_frag : cty :=
  Struct
    [("fqdir", PtrTo "struct fqdir")].

Definition struct_xfrm_policy_hash : cty :=
  Struct
    [("table", PtrTo "struct hlist_head"); ("hmask", U32); ("dbits4", typedef_u8);
     ("sbits4", typedef_u8); ("dbits6", typedef_u8); ("sbits6", typedef_u8)].

Definition struct_xfrm_policy_hthresh : cty :=
  Struct
    [("work", struct_work_struct); ("lock", typedef_seqlock_t); ("lbits4", typedef_u8);
     ("rbits4", typedef_u8); ("lbits6", typedef_u8); ("rbits6", typedef_u8)].

Definition struct_netns_xfrm : cty :=
  Struct
    [("state_all", struct_list_head); ("state_bydst", PtrTo "struct hlist_head");
     ("state_bysrc", PtrTo "struct hlist_head"); ("state_byspi", PtrTo "struct hlist_head");
     ("state_hmask", U32); ("state_num", U32); ("state_hash_work", struct_work_struct);
     ("policy_all", struct_list_head); ("policy_byidx", PtrTo "struct hlist_head");
     ("policy_idx_hmask", U32); ("policy_inexact", Array 3 struct_hlist_head);
     ("policy_bydst", Array 3 struct_xfrm_policy_hash); ("policy_count", Array 6 U32);
     ("policy_hash_work", struct_work_struct); ("policy_hthresh", struct_xfrm_policy_hthresh);
     ("inexact_bins", struct_list_head); ("nlsk", PtrTo "struct sock");
     ("nlsk_stash", PtrTo "struct sock"); ("sysctl_aevent_etime", typedef_u32);
     ("sysctl_aevent_rseqth", typedef_u32); ("sysctl_larval_drop", U32);
     ("sysctl_acq_expires", typedef_u32); ("sysctl_hdr", PtrTo "struct ctl_table_header");
     ("", Pad 8 64); ("", Pad 8 64); ("", Pad 8 64); ("", Pad 8 64); ("", Pad 8 64);
     ("xfrm4_dst_ops", struct_dst_ops); ("xfrm6_dst_ops", struct_dst_ops);
     ("xfrm_state_lock", typedef_spinlock_t);
     ("xfrm_state_hash_generation", typedef_seqcount_t);
     ("xfrm_policy_lock", typedef_spinlock_t); ("xfrm_cfg_mutex", struct_mutex);
     ("", Pad 8 64); ("", Pad 8 64)].

Definition struct_netns_mpls : cty :=
  Struct
    [("ip_ttl_propagate", U32); ("default_ttl", U32); ("platform_labels", typedef_size_t);
     ("platform_label", Pointer 2 "struct mpls_route");
     ("ctl", PtrTo "struct ctl_table_header")].

Definition struct_netns_can : cty :=
  Struct
    [("proc_dir", PtrTo "struct proc_dir_entry");
     ("pde_version", PtrTo "struct proc_dir_entry");
     ("pde_stats", PtrTo "struct proc_dir_entry");
     ("pde_reset_stats", PtrTo "struct proc_dir_entry");
     ("pde_rcvlist_all", PtrTo "struct proc_dir_entry");
     ("pde_rcvlist_fil", PtrTo "struct proc_dir_entry");
     ("pde_rcvlist_inv", PtrTo "struct proc_dir_entry");
     ("pde_rcvlist_sff", PtrTo "struct proc_dir_entry");
     ("pde_rcvlist_eff", PtrTo "struct proc_dir_entry");
     ("pde_rcvlist_err", PtrTo "struct proc_dir_entry");
     ("bcmproc_dir", PtrTo "struct proc_dir_entry");
     ("rx_alldev_list", PtrTo "struct can_dev_rcv_lists");
     ("rcvlists_lock", typedef_spinlock_t); ("stattimer", struct_timer_list);
     ("pkg_stats", PtrTo "struct can_pkg_stats");
     ("rcv_lists_stats", PtrTo "struct can_rcv_lists_stats");
     ("cgw_list", struct_hlist_head)].

Definition struct_netns_xdp : cty :=
  Struct
    [("lock", struct_mutex); ("list", struct_hlist_head)].

Definition struct_net : cty :=
  Struct
    [("passive", typedef_refcount_t); ("count", typedef_refcount_t);
     ("rules_mod_lock", typedef_spinlock_t); ("dev_unreg_count", U32); ("dev_base_seq", U32);
     ("ifindex", U32); ("nsid_lock", typedef_spinlock_t); ("fnhe_genid", typedef_atomic_t);
     ("list", struct_list_head); ("exit_list", struct_list_head);
     ("cleanup_list", struct_llist_node); ("key_domain", PtrTo "struct key_tag");
     ("user_ns", PtrTo "struct user_namespace"); ("ucounts", PtrTo "struct ucounts");
     ("netns_ids", struct_idr); ("ns", struct_ns_common); ("dev_base_head", struct_list_head);
     ("proc_net", PtrTo "struct proc_dir_entry");
     ("proc_net_stat", PtrTo "struct proc_dir_entry"); ("sysctls", struct_ctl_table_set);
     ("rtnl", PtrTo "struct sock"); ("genl_sock", PtrTo "struct sock");
     ("uevent_sock", PtrTo "struct uevent_sock");
     ("dev_name_head", PtrTo "struct hlist_head");
     ("dev_index_head", PtrTo "struct hlist_head"); ("hash_mix", typedef_u32);
     ("loopback_dev", PtrTo "struct net_device"); ("rules_ops", struct_list_head);
     ("core", struct_netns_core); ("mib", struct_netns_mib); ("packet", struct_netns_packet);
     ("unx", struct_netns_unix); ("nexthop", struct_netns_nexthop); ("", Pad 8 64);
     ("ipv4", struct_netns_ipv4); ("ipv6", struct_netns_ipv6);
     ("ieee802154_lowpan", struct_netns_ieee802154_lowpan); ("sctp", struct_netns_sctp);
     ("dccp", struct_netns_dccp); ("nf", struct_netns_nf); ("xt", struct_netns_xt);
     ("ct", struct_netns_ct); ("nft", struct_netns_nftables);
     ("nf_frag", struct_netns_nf_frag);
     ("nf_frag_frags_hdr", PtrTo "struct ctl_table_header"); ("nfnl", PtrTo "struct sock");
     ("nfnl_stash", PtrTo "struct sock"); ("nfnl_acct_list", struct_list_head);
     ("nfct_timeout_list", struct_list_head); ("wext_nlevents", struct_sk_buff_head);
     ("gen", PtrTo "struct net_generic"); ("flow_dissector_prog", PtrTo "struct bpf_prog");
     ("", Pad 8 64); ("", Pad 8 64); ("", Pad 8 64); ("", Pad 8 64); ("", Pad 8 64);
     ("xfrm", struct_netns_xfrm); ("ipvs", PtrTo "struct netns_ipvs");
     ("mpls", struct_netns_mpls); ("can", struct_netns_can); ("xdp", struct_netns_xdp);
     ("crypto_nlsk", PtrTo "struct sock"); ("diag_nlsk", PtrTo "struct sock"); ("", Pad 8 64);
     ("", Pad 8 64); ("", Pad 8 64); ("", Pad 8 64); ("", Pad 8 64); ("", Pad 8 64);
     ("", Pad 8 64)].

Definition struct_request_sock_ops : cty :=
  Struct
    [("family", U32); ("obj_size", U32); ("slab", PtrTo "struct kmem_cache");
     ("slab_name", Ptr); ("rtx_syn_ack", Ptr); ("send_ack", Ptr); ("send_reset", Ptr);
     ("destructor", Ptr); ("syn_ack_timeout", Ptr)].

Definition struct_saved_syn : cty :=
  Struct
    [("mac_hdrlen", typedef_u32); ("network_hdrlen", typedef_u32);
     ("tcp_hdrlen", typedef_u32); ("data", Array 0 typedef_u8)].

Definition struct_ip_options : cty :=
  Struct
    [("faddr", typedef___be32); ("nexthop", typedef___be32); ("optlen", U8); ("srr", U8);
     ("rr", U8); ("ts", U8); ("is_strictroute", Bits 1 1); ("srr_is_hit", Bits 1 1);
     ("is_changed", Bits 1 1); ("rr_needaddr", Bits 1 1); ("ts_needtime", Bits 1 1);
     ("ts_needaddr", Bits 1 1); ("router_alert", U8); ("cipso", U8); ("__pad2", U8);
     ("__data", Array 0 U8)].

Definition struct_ip_options_rcu : cty :=
  Struct
    [("rcu", struct_callback_head); ("opt", struct_ip_options)].

Definition struct_ipv6_txoptions : cty :=
  Struct
    [("refcnt", typedef_refcount_t); ("tot_len", U32); ("opt_flen", typedef___u16);
     ("opt_nflen", typedef___u16); ("hopopt", PtrTo "struct ipv6_opt_hdr");
     ("dst0opt", PtrTo "struct ipv6_opt_hdr"); ("srcrt", PtrTo "struct ipv6_rt_hdr");
     ("dst1opt", PtrTo "struct ipv6_opt_hdr"); ("rcu", struct_callback_head)].

Definition typedef___wsum : cty := typedef___u32.
Definition typedef_sk_buff_data_t : cty := U32.

Definition struct_sk_buff : cty :=
  Struct
    [("", Union [("", Struct [("next", PtrTo "struct sk_buff");
     ("prev", PtrTo "struct sk_buff"); ("", Union [("dev", PtrTo "struct net_device");
     ("dev_scratch", U64)])]); ("rbnode", struct_rb_node); ("list", struct_list_head)]);
     ("", Union [("sk", PtrTo "struct sock"); ("ip_defrag_offset", U32)]); ("", Union
     [("tstamp", typedef_ktime_t); ("skb_mstamp_ns", typedef_u64)]); ("cb", Array 64 U8);
     ("", Union [("", Struct [("_skb_refdst", U64); ("destructor", Ptr)]);
     ("tcp_tsorted_anchor", struct_list_head)]); ("_nfct", U64); ("len", U32);
     ("data_len", U32); ("mac_len", typedef___u16); ("hdr_len", typedef___u16);
     ("queue_mapping", typedef___u16); ("__cloned_offset", Array 0 typedef___u8);
     ("cloned", Bits 1 1); ("nohdr", Bits 1 1); ("fclone", Bits 1 2); ("peeked", Bits 1 1);
     ("head_frag", Bits 1 1); ("pfmemalloc", Bits 1 1); ("active_extensions", typedef___u8);
     ("headers_start", Array 0 typedef___u32); ("__pkt_type_offset", Array 0 typedef___u8);
     ("pkt_type", Bits 1 3); ("ignore_df", Bits 1 1); ("nf_trace", Bits 1 1);
     ("ip_summed", Bits 1 2); ("ooo_okay", Bits 1 1); ("l4_hash", Bits 1 1);
     ("sw_hash", Bits 1 1); ("wifi_acked_valid", Bits 1 1); ("wifi_acked", Bits 1 1);
     ("no_fcs", Bits 1 1); ("encapsulation", Bits 1 1); ("encap_hdr_csum", Bits 1 1);
     ("csum_valid", Bits 1 1); ("__pkt_vlan_present_offset", Array 0 typedef___u8);
     ("vlan_present", Bits 1 1); ("csum_complete_sw", Bits 1 1); ("csum_level", Bits 1 2);
     ("csum_not_inet", Bits 1 1); ("dst_pending_confirm", Bits 1 1);
     ("ndisc_nodetype", Bits 1 2); ("ipvs_property", Bits 1 1);
     ("inner_protocol_type", Bits 1 1); ("remcsum_offload", Bits 1 1);
     ("offload_fwd_mark", Bits 1 1); ("offload_l3_fwd_mark", Bits 1 1);
     ("tc_skip_classify", Bits 1 1); ("tc_at_ingress", Bits 1 1); ("redirected", Bits 1 1);
     ("from_ingress", Bits 1 1); ("tc_index", typedef___u16); ("", Union
     [("csum", typedef___wsum); ("", Struct [("csum_start", typedef___u16);
     ("csum_offset", typedef___u16)])]); ("priority", typedef___u32); ("skb_iif", U32);
     ("hash", typedef___u32); ("vlan_proto", typedef___be16); ("vlan_tci", typedef___u16);
     ("", Union [("napi_id", U32); ("sender_cpu", U32)]); ("secmark", typedef___u32);
     ("", Union [("mark", typedef___u32); ("reserved_tailroom", typedef___u32)]); ("", Union
     [("inner_protocol", typedef___be16); ("inner_ipproto", typedef___u8)]);
     ("inner_transport_header", typedef___u16); ("inner_network_header", typedef___u16);
     ("inner_mac_header", typedef___u16); ("protocol", typedef___be16);
     ("transport_header", typedef___u16); ("network_header", typedef___u16);
     ("mac_header", typedef___u16); ("headers_end", Array 0 typedef___u32);
     ("tail", typedef_sk_buff_data_t); ("end", typedef_sk_buff_data_t); ("head", Ptr);
     ("data", Ptr); ("truesize", U32); ("users", typedef_refcount_t);
     ("tcpa_skb_priv", Array 32 U8); ("extensions", PtrTo "struct skb_ext")].

Definition struct_tcp_request_sock_ops : cty :=
  Struct
    [("mss_clamp", typedef_u16); ("req_md5_lookup", Ptr); ("calc_md5_hash", Ptr);
     ("init_req", Ptr); ("cookie_init_seq", Ptr); ("route_req", Ptr); ("init_seq", Ptr);
     ("init_ts_off", Ptr); ("send_synack", Ptr)].

Definition struct_sk_filter : cty :=
  Struct
    [("refcnt", typedef_refcount_t); ("rcu", struct_callback_head);
     ("prog", PtrTo "struct bpf_prog")].

Definition struct_xfrm_mark : cty :=
  Struct
    [("v", typedef___u32); ("m", typedef___u32)].

Definition typedef_xfrm_address_t : cty :=
  Union
    [("a4", typedef___be32); ("a6", Array 4 typedef___be32); ("in6", struct_in6_addr)].

Definition struct_xfrm_selector : cty :=
  Struct
    [("daddr", typedef_xfrm_address_t); ("saddr", typedef_xfrm_address_t);
     ("dport", typedef___be16); ("dport_mask", typedef___be16); ("sport", typedef___be16);
     ("sport_mask", typedef___be16); ("family", typedef___u16); ("prefixlen_d", typedef___u8);
     ("prefixlen_s", typedef___u8); ("proto", typedef___u8); ("ifindex", U32);
     ("user", typedef___kernel_uid32_t)].

Definition struct_xfrm_lifetime_cfg : cty :=
  Struct
    [("soft_byte_limit", typedef___u64); ("hard_byte_limit", typedef___u64);
     ("soft_packet_limit", typedef___u64); ("hard_packet_limit", typedef___u64);
     ("soft_add_expires_seconds", typedef___u64); ("hard_add_expires_seconds", typedef___u64);
     ("soft_use_expires_seconds", typedef___u64);
     ("hard_use_expires_seconds", typedef___u64)].

Definition struct_xfrm_lifetime_cur : cty :=
  Struct
    [("bytes", typedef___u64); ("packets", typedef___u64); ("add_time", typedef___u64);
     ("use_time", typedef___u64)].

Definition struct_xfrm_policy_walk_entry : cty :=
  Struct
    [("all", struct_list_head); ("dead", typedef_u8)].

Definition struct_xfrm_policy_queue : cty :=
  Struct
    [("hold_queue", struct_sk_buff_head); ("hold_timer", struct_timer_list);
     ("timeout", U64)].

Definition struct_xfrm_id : cty :=
  Struct
    [("daddr", typedef_xfrm_address_t); ("spi", typedef___be32); ("proto", typedef___u8)].

Definition struct_xfrm_tmpl : cty :=
  Struct
    [("id", struct_xfrm_id); ("saddr", typedef_xfrm_address_t); ("encap_family", U16);
     ("reqid", typedef_u32); ("mode", typedef_u8); ("share", typedef_u8);
     ("optional", typedef_u8); ("allalgs", typedef_u8); ("aalgos", typedef_u32);
     ("ealgos", typedef_u32); ("calgos", typedef_u32)].

Definition struct_xfrm_policy : cty :=
  Struct
    [("xp_net", typedef_possible_net_t); ("bydst", struct_hlist_node);
     ("byidx", struct_hlist_node); ("lock", typedef_rwlock_t); ("refcnt", typedef_refcount_t);
     ("pos", typedef_u32); ("timer", struct_timer_list); ("genid", typedef_atomic_t);
     ("priority", typedef_u32); ("index", typedef_u32); ("if_id", typedef_u32);
     ("mark", struct_xfrm_mark); ("selector", struct_xfrm_selector);
     ("lft", struct_xfrm_lifetime_cfg); ("curlft", struct_xfrm_lifetime_cur);
     ("walk", struct_xfrm_policy_walk_entry); ("polq", struct_xfrm_policy_queue);
     ("bydst_reinsert", typedef_bool); ("type", typedef_u8); ("action", typedef_u8);
     ("flags", typedef_u8); ("xfrm_nr", typedef_u8); ("family", typedef_u16);
     ("security", PtrTo "struct xfrm_sec_ctx"); ("xfrm_vec", Array 6 struct_xfrm_tmpl);
     ("bydst_inexact_list", struct_hlist_node); ("rcu", struct_callback_head)].

Definition struct_dst_entry : cty :=
  Struct
    [("dev", PtrTo "struct net_device"); ("ops", PtrTo "struct dst_ops"); ("_metrics", U64);
     ("expires", U64); ("xfrm", PtrTo "struct xfrm_state"); ("input", Ptr); ("output", Ptr);
     ("flags", U16); ("obsolete", U16); ("header_len", U16); ("trailer_len", U16);
     ("__refcnt", typedef_atomic_t); ("__use", U32); ("lastuse", U64);
     ("lwtstate", PtrTo "struct lwtunnel_state"); ("callback_head", struct_callback_head);
     ("error", U16); ("__pad", U16); ("tclassid", typedef___u32)].

Definition struct_sock_reuseport : cty :=
  Struct
    [("rcu", struct_callback_head); ("max_socks", typedef_u16); ("num_socks", typedef_u16);
     ("synq_overflow_ts", U32); ("reuseport_id", U32); ("bind_inany", Bits 4 1);
     ("has_conns", Bits 4 1); ("prog", PtrTo "struct bpf_prog");
     ("socks", Array 0 (PtrTo "struct sock"))].

Definition struct_bpf_sk_storage : cty :=
  Struct
    [("cache", Array 16 (PtrTo "struct bpf_sk_storage_data")); ("list", struct_hlist_head);
     ("sk", PtrTo "struct sock"); ("rcu", struct_callback_head);
     ("lock", typedef_raw_spinlock_t)].

Definition struct_in6_pktinfo : cty :=
  Struct
    [("ipi6_addr", struct_in6_addr); ("ipi6_ifindex", U32)].

Definition struct_inet6_cork : cty :=
  Struct
    [("opt", PtrTo "struct ipv6_txoptions"); ("hop_limit", typedef_u8);
     ("tclass", typedef_u8)].

Definition struct_ipv6_pinfo : cty :=
  Struct
    [("saddr", struct_in6_addr); ("sticky_pktinfo", struct_in6_pktinfo);
     ("daddr_cache", PtrTo "struct in6_addr"); ("saddr_cache", PtrTo "struct in6_addr");
     ("flow_label", typedef___be32); ("frag_size", typedef___u32); ("__unused_1", Bits 2 7);
     ("hop_limit", Bits 2 9); ("mc_loop", Bits 2 1); ("__unused_2", Bits 2 6);
     ("mcast_hops", Bits 2 9); ("ucast_oif", U32); ("mcast_oif", U32); ("rxopt", Union
     [("bits", Struct [("srcrt", Bits 2 1); ("osrcrt", Bits 2 1); ("rxinfo", Bits 2 1);
     ("rxoinfo", Bits 2 1); ("rxhlim", Bits 2 1); ("rxohlim", Bits 2 1);
     ("hopopts", Bits 2 1); ("ohopopts", Bits 2 1); ("dstopts", Bits 2 1);
     ("odstopts", Bits 2 1); ("rxflow", Bits 2 1); ("rxtclass", Bits 2 1);
     ("rxpmtu", Bits 2 1); ("rxorigdstaddr", Bits 2 1); ("recvfragsize", Bits 2 1)]);
     ("all", typedef___u16)]); ("recverr", Bits 2 1); ("sndflow", Bits 2 1);
     ("repflow", Bits 2 1); ("pmtudisc", Bits 2 3); ("padding", Bits 2 1);
     ("srcprefs", Bits 2 3); ("dontfrag", Bits 2 1); ("autoflowlabel", Bits 2 1);
     ("autoflowlabel_set", Bits 2 1); ("mc_all", Bits 2 1); ("rtalert_isolate", Bits 2 1);
     ("min_hopcount", typedef___u8); ("tclass", typedef___u8);
     ("rcv_flowinfo", typedef___be32); ("dst_cookie", typedef___u32);
     ("rx_dst_cookie", typedef___u32); ("ipv6_mc_list", PtrTo "struct ipv6_mc_socklist");
     ("ipv6_ac_list", PtrTo "struct ipv6_ac_socklist");
     ("ipv6_fl_list", PtrTo "struct ipv6_fl_socklist");
     ("opt", PtrTo "struct ipv6_txoptions"); ("pktoptions", PtrTo "struct sk_buff");
     ("rxpmtu", PtrTo "struct sk_buff"); ("cork", struct_inet6_cork)].

Definition struct_in_addr : cty :=
  Struct
    [("s_addr", typedef___be32)].

Definition struct_ip_mreqn : cty :=
  Struct
    [("imr_multiaddr", struct_in_addr); ("imr_address", struct_in_addr);
     ("imr_ifindex", U32)].

Definition struct_ip_mc_socklist : cty :=
  Struct
    [("next_rcu", PtrTo "struct ip_mc_socklist"); ("multi", struct_ip_mreqn); ("sfmode", U32);
     ("sflist", PtrTo "struct ip_sf_socklist"); ("rcu", struct_callback_head)].

Definition struct_tcp_fastopen_context : cty :=
  Struct
    [("key", Array 2 typedef_siphash_key_t); ("num", U32); ("rcu", struct_callback_head)].

Definition struct_inet_bind_bucket : cty :=
  Struct
    [("ib_net", typedef_possible_net_t); ("l3mdev", U32); ("port", U16); ("fastreuse", U8);
     ("fastreuseport", U8); ("fastuid", typedef_kuid_t);
     ("fast_v6_rcv_saddr", struct_in6_addr); ("fast_rcv_saddr", typedef___be32);
     ("fast_sk_family", U16); ("fast_ipv6_only", typedef_bool); ("node", struct_hlist_node);
     ("owners", struct_hlist_head)].

Definition struct_tcp_congestion_ops : cty :=
  Struct
    [("list", struct_list_head); ("key", typedef_u32); ("flags", typedef_u32); ("init", Ptr);
     ("release", Ptr); ("ssthresh", Ptr); ("cong_avoid", Ptr); ("set_state", Ptr);
     ("cwnd_event", Ptr); ("in_ack_event", Ptr); ("undo_cwnd", Ptr); ("pkts_acked", Ptr);
     ("tso_segs", Ptr); ("sndbuf_expand", Ptr); ("skb_marked_lost", Ptr);
     ("cong_control", Ptr); ("get_info", Ptr); ("name", Array 16 U8);
     ("owner", PtrTo "struct module")].

Definition struct_inet_connection_sock_af_ops : cty :=
  Struct
    [("queue_xmit", Ptr); ("send_check", Ptr); ("rebuild_header", Ptr);
     ("sk_rx_dst_set", Ptr); ("conn_request", Ptr); ("syn_recv_sock", Ptr);
     ("net_header_len", typedef_u16); ("net_frag_header_len", typedef_u16);
     ("sockaddr_len", typedef_u16); ("setsockopt", Ptr); ("getsockopt", Ptr);
     ("compat_setsockopt", Ptr); ("compat_getsockopt", Ptr); ("addr2sockaddr", Ptr);
     ("mtu_reduced", Ptr)].

Definition struct_tcp_ulp_ops : cty :=
  Struct
    [("list", struct_list_head); ("init", Ptr); ("update", Ptr); ("release", Ptr);
     ("get_info", Ptr); ("get_info_size", Ptr); ("name", Array 16 U8);
     ("owner", PtrTo "struct module")].

Definition struct_tcp_sock_af_ops : cty :=
  Struct
    [("md5_lookup", Ptr); ("calc_md5_hash", Ptr); ("md5_parse", Ptr)].

Definition struct_tcp_md5sig_info : cty :=
  Struct
    [("head", struct_hlist_head); ("rcu", struct_callback_head)].

Definition typedef___le64 : cty := typedef___u64.
Definition typedef___s8 : cty := U8.
Definition typedef_s8 : cty := typedef___s8.

Definition struct_tcp_fastopen_cookie : cty :=
  Struct
    [("val", Array 2 typedef___le64); ("len", typedef_s8); ("exp", typedef_bool)].

Definition struct_tcp_fastopen_request : cty :=
  Struct
    [("cookie", struct_tcp_fastopen_cookie); ("data", PtrTo "struct msghdr");
     ("size", typedef_size_t); ("copied", U32); ("uarg", PtrTo "struct ubuf_info")].

Definition union_tcp_md5_addr : cty :=
  Union
    [("a4", struct_in_addr); ("a6", struct_in6_addr)].

Definition struct_tcp_md5sig_key : cty :=
  Struct
    [("node", struct_hlist_node); ("keylen", typedef_u8); ("family", typedef_u8);
     ("addr", union_tcp_md5_addr); ("prefixlen", typedef_u8); ("key", Array 80 typedef_u8);
     ("rcu", struct_callback_head)].

Definition struct_sockaddr_un : cty :=
  Struct
    [("sun_family", typedef___kernel_sa_family_t); ("sun_path", Array 108 U8)].

Definition struct_unix_address : cty :=
  Struct
    [("refcnt", typedef_refcount_t); ("len", U32); ("hash", U32);
     ("name", Array 0 struct_sockaddr_un)].

(** The types by name. *)
Definition reached_types1 : list (string * cty) :=
    [("struct vfsmount", struct_vfsmount); ("struct hlist_bl_node", struct_hlist_bl_node);
     ("struct qstr", struct_qstr); ("struct lockref", struct_lockref);
     ("struct dentry", struct_dentry); ("struct file_operations", struct_file_operations);
     ("struct upid", struct_upid); ("struct pid", struct_pid);
     ("struct kernel_cap_struct", struct_kernel_cap_struct); ("struct cred", struct_cred);
     ("struct posix_acl_entry", struct_posix_acl_entry);
     ("struct posix_acl", struct_posix_acl);
     ("struct inode_operations", struct_inode_operations);
     ("struct hlist_bl_head", struct_hlist_bl_head); ("struct mem_dqinfo", struct_mem_dqinfo);
     ("struct quota_info", struct_quota_info); ("struct rcu_sync", struct_rcu_sync);
     ("struct rcuwait", struct_rcuwait);
     ("struct percpu_rw_semaphore", struct_percpu_rw_semaphore);
     ("struct sb_writers", struct_sb_writers); ("uuid_t", typedef_uuid_t);
     ("struct shrinker", struct_shrinker); ("struct list_lru", struct_list_lru);
     ("struct work_struct", struct_work_struct); ("struct super_block", struct_super_block);
     ("struct percpu_counter", struct_percpu_counter);
     ("struct fprop_local_percpu", struct_fprop_local_percpu);
     ("struct delayed_work", struct_delayed_work); ("struct percpu_ref", struct_percpu_ref);
     ("struct bdi_writeback", struct_bdi_writeback);
     ("struct file_lock_context", struct_file_lock_context);
     ("struct address_space_operations", struct_address_space_operations);
     ("struct pipe_inode_info", struct_pipe_inode_info);
     ("struct block_device", struct_block_device); ("struct kref", struct_kref);
     ("struct kobject", struct_kobject); ("struct cdev", struct_cdev);
     ("__kernel_fsid_t", typedef___kernel_fsid_t);
     ("struct fsnotify_mark_connector", struct_fsnotify_mark_connector);
     ("struct pgprot", struct_pgprot);
     ("struct vm_userfaultfd_ctx", struct_vm_userfaultfd_ctx);
     ("struct vm_area_struct", struct_vm_area_struct);
     ("struct mm_rss_stat", struct_mm_rss_stat); ("mm_context_t", typedef_mm_context_t);
     ("struct uprobes_state", struct_uprobes_state); ("struct mm_struct", struct_mm_struct);
     ("struct seq_operations___2", struct_seq_operations___2);
     ("struct proto_ops", struct_proto_ops); ("struct fasync_struct", struct_fasync_struct);
     ("struct sched_class", struct_sched_class); ("struct cfs_rq", struct_cfs_rq);
     ("struct rcu_work", struct_rcu_work);
     ("struct cgroup_subsys_state", struct_cgroup_subsys_state);
     ("struct cfs_bandwidth", struct_cfs_bandwidth); ("struct task_group", struct_task_group);
     ("struct hrtimer_clock_base", struct_hrtimer_clock_base);
     ("struct __kernel_timespec", struct___kernel_timespec);
     ("struct old_timespec32", struct_old_timespec32); ("struct pollfd", struct_pollfd);
     ("struct completion", struct_completion);
     ("struct keyring_index_key", struct_keyring_index_key);
     ("union key_payload", union_key_payload); ("struct assoc_array", struct_assoc_array);
     ("struct key", struct_key); ("struct path___2", struct_path___2);
     ("struct delayed_call", struct_delayed_call); ("struct saved", struct_saved);
     ("struct nameidata", struct_nameidata); ("struct sem_undo_list", struct_sem_undo_list);
     ("struct fs_struct", struct_fs_struct); ("struct fdtable", struct_fdtable);
     ("struct files_struct", struct_files_struct); ("struct io_identity", struct_io_identity);
     ("struct io_uring_task", struct_io_uring_task); ("struct nsproxy", struct_nsproxy);
     ("struct cpu_itimer", struct_cpu_itimer);
     ("struct task_cputime_atomic", struct_task_cputime_atomic);
     ("struct thread_group_cputimer", struct_thread_group_cputimer);
     ("seqlock_t", typedef_seqlock_t); ("struct pacct_struct", struct_pacct_struct);
     ("struct signal_struct", struct_signal_struct); ("struct sigaction", struct_sigaction);
     ("struct k_sigaction", struct_k_sigaction);
     ("struct sighand_struct", struct_sighand_struct);
     ("struct audit_cap_data", struct_audit_cap_data);
     ("struct audit_names", struct_audit_names); ("struct mq_attr", struct_mq_attr);
     ("struct audit_proctitle", struct_audit_proctitle);
     ("struct audit_context", struct_audit_context);
     ("struct seccomp_filter", struct_seccomp_filter);
     ("struct rt_mutex_waiter", struct_rt_mutex_waiter); ("struct bio_list", struct_bio_list);
     ("struct blk_plug", struct_blk_plug); ("struct reclaim_state", struct_reclaim_state);
     ("struct backing_dev_info", struct_backing_dev_info);
     ("struct io_context", struct_io_context);
     ("struct capture_control", struct_capture_control); ("union sigval", union_sigval);
     ("union __sifields", union___sifields); ("struct kernel_siginfo", struct_kernel_siginfo);
     ("struct css_set", struct_css_set); ("struct robust_list", struct_robust_list);
     ("struct robust_list_head", struct_robust_list_head);
     ("struct compat_robust_list", struct_compat_robust_list);
     ("struct compat_robust_list_head", struct_compat_robust_list_head);
     ("struct rt_mutex", struct_rt_mutex); ("union futex_key", union_futex_key);
     ("struct futex_pi_state", struct_futex_pi_state);
     ("struct perf_event_groups", struct_perf_event_groups);
     ("struct perf_event_context", struct_perf_event_context);
     ("struct mempolicy", struct_mempolicy); ("struct numa_group", struct_numa_group);
     ("struct rseq", struct_rseq); ("struct page", struct_page);
     ("struct task_delay_info", struct_task_delay_info);
     ("struct ftrace_ret_stack", struct_ftrace_ret_stack);
     ("struct mem_cgroup_id", struct_mem_cgroup_id);
     ("struct page_counter", struct_page_counter); ("struct vmpressure", struct_vmpressure);
     ("struct cgroup_file", struct_cgroup_file);
     ("struct mem_cgroup_thresholds", struct_mem_cgroup_thresholds);
     ("struct memcg_padding", struct_memcg_padding);
     ("struct fprop_global", struct_fprop_global); ("struct wb_domain", struct_wb_domain);
     ("struct wb_completion", struct_wb_completion);
     ("struct memcg_cgwb_frn", struct_memcg_cgwb_frn);
     ("struct deferred_split", struct_deferred_split);
     ("struct mem_cgroup", struct_mem_cgroup); ("struct blk_integrity", struct_blk_integrity);
     ("struct blk_rq_stat", struct_blk_rq_stat); ("struct queue_limits", struct_queue_limits);
     ("struct bsg_class_device", struct_bsg_class_device);
     ("struct mempool_s", struct_mempool_s); ("struct bio_set", struct_bio_set);
     ("struct request_queue", struct_request_queue);
     ("struct arch_uprobe_task", struct_arch_uprobe_task);
     ("struct uprobe_task", struct_uprobe_task); ("struct vm_struct", struct_vm_struct);
     ("local_t", typedef_local_t); ("local64_t", typedef_local64_t);
     ("struct perf_event_attr", struct_perf_event_attr);
     ("struct hw_perf_event_extra", struct_hw_perf_event_extra);
     ("struct arch_hw_breakpoint", struct_arch_hw_breakpoint);
     ("struct hw_perf_event", struct_hw_perf_event); ("struct irq_work", struct_irq_work);
     ("struct perf_addr_filters_head", struct_perf_addr_filters_head);
     ("struct ftrace_ops_hash", struct_ftrace_ops_hash);
     ("struct ftrace_ops", struct_ftrace_ops); ("struct perf_event", struct_perf_event);
     ("struct math_emu_info", struct_math_emu_info); ("struct proto", struct_proto);
     ("struct idr", struct_idr); ("struct ns_common", struct_ns_common);
     ("struct ctl_table_header", struct_ctl_table_header); ("struct ctl_dir", struct_ctl_dir);
     ("struct ctl_table_set", struct_ctl_table_set); ("struct netns_core", struct_netns_core);
     ("struct netns_mib", struct_netns_mib); ("struct netns_packet", struct_netns_packet);
     ("struct netns_unix", struct_netns_unix); ("struct netns_nexthop", struct_netns_nexthop);
     ("struct local_ports", struct_local_ports);
     ("struct inet_timewait_death_row", struct_inet_timewait_death_row);
     ("struct ping_group_range", struct_ping_group_range);
     ("siphash_key_t", typedef_siphash_key_t); ("struct netns_ipv4", struct_netns_ipv4);
     ("struct netns_sysctl_ipv6", struct_netns_sysctl_ipv6);
     ("struct dst_ops", struct_dst_ops); ("struct netns_ipv6", struct_netns_ipv6);
     ("struct netns_sysctl_lowpan", struct_netns_sysctl_lowpan);
     ("struct netns_ieee802154_lowpan", struct_netns_ieee802154_lowpan);
     ("struct netns_sctp", struct_netns_sctp); ("struct netns_dccp", struct_netns_dccp);
     ("struct netns_nf", struct_netns_nf); ("struct netns_xt", struct_netns_xt);
     ("struct nf_generic_net", struct_nf_generic_net);
     ("struct nf_tcp_net", struct_nf_tcp_net); ("struct nf_udp_net", struct_nf_udp_net);
     ("struct nf_icmp_net", struct_nf_icmp_net); ("struct nf_dccp_net", struct_nf_dccp_net);
     ("struct nf_sctp_net", struct_nf_sctp_net); ("struct nf_gre_net", struct_nf_gre_net);
     ("struct nf_ip_net", struct_nf_ip_net); ("struct netns_ct", struct_netns_ct);
     ("struct netns_nftables", struct_netns_nftables);
     ("struct netns_nf_frag", struct_netns_nf_frag);
     ("struct xfrm_policy_hash", struct_xfrm_policy_hash);
     ("struct xfrm_policy_hthresh", struct_xfrm_policy_hthresh);
     ("struct netns_xfrm", struct_netns_xfrm); ("struct netns_mpls", struct_netns_mpls);
     ("struct netns_can", struct_netns_can); ("struct netns_xdp", struct_netns_xdp);
     ("struct net", struct_net); ("struct request_sock_ops", struct_request_sock_ops);
     ("struct saved_syn", struct_saved_syn); ("struct ip_options", struct_ip_options);
     ("struct ip_options_rcu", struct_ip_options_rcu);
     ("struct ipv6_txoptions", struct_ipv6_txoptions); ("struct sk_buff", struct_sk_buff);
     ("struct tcp_request_sock_ops", struct_tcp_request_sock_ops);
     ("struct sk_filter", struct_sk_filter); ("struct xfrm_mark", struct_xfrm_mark);
     ("xfrm_address_t", typedef_xfrm_address_t);
     ("struct xfrm_selector", struct_xfrm_selector);
     ("struct xfrm_lifetime_cfg", struct_xfrm_lifetime_cfg);
     ("struct xfrm_lifetime_cur", struct_xfrm_lifetime_cur);
     ("struct xfrm_policy_walk_entry", struct_xfrm_policy_walk_entry);
     ("struct xfrm_policy_queue", struct_xfrm_policy_queue);
     ("struct xfrm_id", struct_xfrm_id); ("struct xfrm_tmpl", struct_xfrm_tmpl);
     ("struct xfrm_policy", struct_xfrm_policy); ("struct dst_entry", struct_dst_entry);
     ("struct sock_reuseport", struct_sock_reuseport);
     ("struct bpf_sk_storage", struct_bpf_sk_storage);
     ("struct in6_pktinfo", struct_in6_pktinfo); ("struct inet6_cork", struct_inet6_cork);
     ("struct ipv6_pinfo", struct_ipv6_pinfo); ("struct in_addr", struct_in_addr);
     ("struct ip_mreqn", struct_ip_mreqn); ("struct ip_mc_socklist", struct_ip_mc_socklist);
     ("struct tcp_fastopen_context", struct_tcp_fastopen_context);
     ("struct inet_bind_bucket", struct_inet_bind_bucket);
     ("struct tcp_congestion_ops", struct_tcp_congestion_ops);
     ("struct inet_connection_sock_af_ops", struct_inet_connection_sock_af_ops);
     ("struct tcp_ulp_ops", struct_tcp_ulp_ops);
     ("struct tcp_sock_af_ops", struct_tcp_sock_af_ops);
     ("struct tcp_md5sig_info", struct_tcp_md5sig_info);
     ("struct tcp_fastopen_cookie", struct_tcp_fastopen_cookie);
     ("struct tcp_fastopen_request", struct_tcp_fastopen_request);
     ("union tcp_md5_addr", union_tcp_md5_addr);
     ("struct tcp_md5sig_key", struct_tcp_md5sig_key);
     ("struct sockaddr_un", struct_sockaddr_un);
     ("struct unix_address", struct_unix_address)].

Lemma reached_types1_complete : forallb (fun nt => complete nt.2) reached_types1 = true.
Proof. by_vm. Qed.

End ReachedTypes1.
