(* ===== verification/ReachedTypes2.v ===== *)
(** * The types behind pointers, part 2: src/ebpf/src/kernel/vmlinux.h

    What the pointers in the types of ReachedTypes1 point to, with what these
    types embed. *)

From Stdlib Require Import ZArith String.
From stdpp Require Import base list strings.
From S2P Require Import Prelude CTypes KernelTypes HelperTypes ReachedTypes1.
Import CTypes KernelTypes HelperTypes ReachedTypes1.

Local Open Scope string_scope.
Local Open Scope Z_scope.

Module ReachedTypes2.

Definition struct_dentry_operations : cty :=
  Struct
    [("d_revalidate", Ptr); ("d_weak_revalidate", Ptr); ("d_hash", Ptr); ("d_compare", Ptr);
     ("d_delete", Ptr); ("d_init", Ptr); ("d_release", Ptr); ("d_prune", Ptr);
     ("d_iput", Ptr); ("d_dname", Ptr); ("d_automount", Ptr); ("d_manage", Ptr);
     ("d_real", Ptr); ("", Pad 8 64); ("", Pad 8 64); ("", Pad 8 64)].

Definition struct_module_kobject : cty :=
  Struct
    [("kobj", struct_kobject); ("mod", PtrTo "struct module");
     ("drivers_dir", PtrTo "struct kobject"); ("mp", PtrTo "struct module_param_attrs");
     ("kobj_completion", PtrTo "struct completion")].

Definition struct_latch_tree_node : cty :=
  Struct
    [("node", Array 2 struct_rb_node)].

Definition struct_mod_tree_node : cty :=
  Struct
    [("mod", PtrTo "struct module"); ("node", struct_latch_tree_node)].

Definition struct_module_layout : cty :=
  Struct
    [("base", Ptr); ("size", U32); ("text_size", U32); ("ro_size", U32);
     ("ro_after_init_size", U32); ("mtn", struct_mod_tree_node)].

Definition struct_mod_arch_specific : cty :=
  Struct
    [("num_orcs", U32); ("orc_unwind_ip", Ptr); ("orc_unwind", PtrTo "struct orc_entry")].

Definition struct_mod_kallsyms : cty :=
  Struct
    [("symtab", PtrTo "struct elf64_sym"); ("num_symtab", U32); ("strtab", Ptr);
     ("typetab", Ptr)].

Definition struct_module : cty :=
  Struct
    [("state", Enum); ("list", struct_list_head); ("name", Array 56 U8);
     ("mkobj", struct_module_kobject); ("modinfo_attrs", PtrTo "struct module_attribute");
     ("version", Ptr); ("srcversion", Ptr); ("holders_dir", PtrTo "struct kobject");
     ("syms", PtrTo "struct kernel_symbol"); ("crcs", Ptr); ("num_syms", U32);
     ("param_lock", struct_mutex); ("kp", PtrTo "struct kernel_param"); ("num_kp", U32);
     ("num_gpl_syms", U32); ("gpl_syms", PtrTo "struct kernel_symbol"); ("gpl_crcs", Ptr);
     ("using_gplonly_symbols", typedef_bool); ("sig_ok", typedef_bool);
     ("async_probe_requested", typedef_bool);
     ("gpl_future_syms", PtrTo "struct kernel_symbol"); ("gpl_future_crcs", Ptr);
     ("num_gpl_future_syms", U32); ("num_exentries", U32);
     ("extable", PtrTo "struct exception_table_entry"); ("init", Ptr); ("", Pad 8 64);
     ("", Pad 8 64); ("", Pad 8 64); ("", Pad 8 64); ("", Pad 8 64);
     ("core_layout", struct_module_layout); ("init_layout", struct_module_layout);
     ("arch", struct_mod_arch_specific); ("taints", U64); ("num_bugs", U32);
     ("bug_list", struct_list_head); ("bug_table", PtrTo "struct bug_entry");
     ("kallsyms", PtrTo "struct mod_kallsyms"); ("core_kallsyms", struct_mod_kallsyms);
     ("sect_attrs", PtrTo "struct module_sect_attrs");
     ("notes_attrs", PtrTo "struct module_notes_attrs"); ("args", Ptr); ("percpu", Ptr);
     ("percpu_size", U32); ("num_tracepoints", U32); ("tracepoints_ptrs", Ptr);
     ("num_srcu_structs", U32); ("srcu_struct_ptrs", Pointer 2 "struct srcu_struct");
     ("num_bpf_raw_events", U32); ("bpf_raw_events", PtrTo "struct bpf_raw_event_map");
     ("jump_entries", PtrTo "struct jump_entry"); ("num_jump_entries", U32);
     ("num_trace_bprintk_fmt", U32); ("trace_bprintk_fmt_start", Ptr);
     ("trace_events", Pointer 2 "struct trace_event_call"); ("num_trace_events", U32);
     ("trace_evals", Pointer 2 "struct trace_eval_map"); ("num_trace_evals", U32);
     ("num_ftrace_callsites", U32); ("ftrace_callsites", Ptr); ("klp", typedef_bool);
     ("klp_alive", typedef_bool); ("klp_info", PtrTo "struct klp_modinfo");
     ("source_list", struct_list_head); ("target_list", struct_list_head); ("exit", Ptr);
     ("refcnt", typedef_atomic_t); ("ei_funcs", PtrTo "struct error_injection_entry");
     ("num_ei_funcs", U32); ("", Pad 8 64); ("", Pad 8 64); ("", Pad 8 64)].

Definition struct_pid_namespace : cty :=
  Struct
    [("kref", struct_kref); ("idr", struct_idr); ("rcu", struct_callback_head);
     ("pid_allocated", U32); ("child_reaper", PtrTo "struct task_struct");
     ("pid_cachep", PtrTo "struct kmem_cache"); ("level", U32);
     ("parent", PtrTo "struct pid_namespace"); ("proc_mnt", PtrTo "struct vfsmount");
     ("proc_self", PtrTo "struct dentry"); ("proc_thread_self", PtrTo "struct dentry");
     ("bacct", PtrTo "struct fs_pin"); ("user_ns", PtrTo "struct user_namespace");
     ("ucounts", PtrTo "struct ucounts"); ("proc_work", struct_work_struct);
     ("pid_gid", typedef_kgid_t); ("hide_pid", U32); ("reboot", U32);
     ("ns", struct_ns_common)].

Definition struct_ratelimit_state : cty :=
  Struct
    [("lock", typedef_raw_spinlock_t); ("interval", U32); ("burst", U32); ("printed", U32);
     ("missed", U32); ("begin", U64); ("flags", U64)].

Definition struct_user_struct : cty :=
  Struct
    [("__count", typedef_refcount_t); ("processes", typedef_atomic_t);
     ("sigpending", typedef_atomic_t); ("fanotify_listeners", typedef_atomic_t);
     ("epoll_watches", typedef_atomic_long_t); ("mq_bytes", U64); ("locked_shm", U64);
     ("unix_inflight", U64); ("pipe_bufs", typedef_atomic_long_t);
     ("uidhash_node", struct_hlist_node); ("uid", typedef_kuid_t);
     ("locked_vm", typedef_atomic_long_t); ("ratelimit", struct_ratelimit_state)].

Definition struct_uid_gid_extent : cty :=
  Struct
    [("first", typedef_u32); ("lower_first", typedef_u32); ("count", typedef_u32)].

Definition struct_uid_gid_map : cty :=
  Struct
    [("nr_extents", typedef_u32); ("", Union [("extent", Array 5 struct_uid_gid_extent);
     ("", Struct [("forward", PtrTo "struct uid_gid_extent");
     ("reverse", PtrTo "struct uid_gid_extent")])])].

Definition struct_user_namespace : cty :=
  Struct
    [("uid_map", struct_uid_gid_map); ("gid_map", struct_uid_gid_map);
     ("projid_map", struct_uid_gid_map); ("count", typedef_atomic_t);
     ("parent", PtrTo "struct user_namespace"); ("level", U32); ("owner", typedef_kuid_t);
     ("group", typedef_kgid_t); ("ns", struct_ns_common); ("flags", U64);
     ("keyring_name_list", struct_list_head); ("user_keyring_register", PtrTo "struct key");
     ("keyring_sem", struct_rw_semaphore); ("work", struct_work_struct);
     ("set", struct_ctl_table_set); ("sysctls", PtrTo "struct ctl_table_header");
     ("ucounts", PtrTo "struct ucounts"); ("ucount_max", Array 9 U32)].

Definition struct_group_info : cty :=
  Struct
    [("usage", typedef_atomic_t); ("ngroups", U32); ("gid", Array 0 typedef_kgid_t)].

Definition struct_lock_class_key : cty := Struct [].

Definition struct_file_system_type : cty :=
  Struct
    [("name", Ptr); ("fs_flags", U32); ("init_fs_context", Ptr);
     ("parameters", PtrTo "struct fs_parameter_description"); ("mount", Ptr);
     ("kill_sb", Ptr); ("owner", PtrTo "struct module");
     ("next", PtrTo "struct file_system_type"); ("fs_supers", struct_hlist_head);
     ("s_lock_key", struct_lock_class_key); ("s_umount_key", struct_lock_class_key);
     ("s_vfs_rename_key", struct_lock_class_key);
     ("s_writers_key", Array 3 struct_lock_class_key); ("i_lock_key", struct_lock_class_key);
     ("i_mutex_key", struct_lock_class_key); ("i_mutex_dir_key", struct_lock_class_key)].

Definition struct_super_operations : cty :=
  Struct
    [("alloc_inode", Ptr); ("destroy_inode", Ptr); ("free_inode", Ptr); ("dirty_inode", Ptr);
     ("write_inode", Ptr); ("drop_inode", Ptr); ("evict_inode", Ptr); ("put_super", Ptr);
     ("sync_fs", Ptr); ("freeze_super", Ptr); ("freeze_fs", Ptr); ("thaw_super", Ptr);
     ("unfreeze_fs", Ptr); ("statfs", Ptr); ("remount_fs", Ptr); ("umount_begin", Ptr);
     ("show_options", Ptr); ("show_devname", Ptr); ("show_path", Ptr); ("show_stats", Ptr);
     ("quota_read", Ptr); ("quota_write", Ptr); ("get_dquots", Ptr);
     ("bdev_try_to_free_page", Ptr); ("nr_cached_objects", Ptr);
     ("free_cached_objects", Ptr)].

Definition struct_dquot_operations : cty :=
  Struct
    [("write_dquot", Ptr); ("alloc_dquot", Ptr); ("destroy_dquot", Ptr);
     ("acquire_dquot", Ptr); ("release_dquot", Ptr); ("mark_dirty", Ptr); ("write_info", Ptr);
     ("get_reserved_space", Ptr); ("get_projid", Ptr); ("get_inode_usage", Ptr);
     ("get_next_id", Ptr)].

Definition struct_quotactl_ops : cty :=
  Struct
    [("quota_on", Ptr); ("quota_off", Ptr); ("quota_enable", Ptr); ("quota_disable", Ptr);
     ("quota_sync", Ptr); ("set_info", Ptr); ("get_dqblk", Ptr); ("get_nextdqblk", Ptr);
     ("set_dqblk", Ptr); ("get_state", Ptr); ("rm_xquota", Ptr)].

Definition struct_export_operations : cty :=
  Struct
    [("encode_fh", Ptr); ("fh_to_dentry", Ptr); ("fh_to_parent", Ptr); ("get_name", Ptr);
     ("get_parent", Ptr); ("commit_metadata", Ptr); ("get_uuid", Ptr); ("map_blocks", Ptr);
     ("commit_blocks", Ptr)].

Definition struct_xattr_handler : cty :=
  Struct
    [("name", Ptr); ("prefix", Ptr); ("flags", U32); ("list", Ptr); ("get", Ptr);
     ("set", Ptr)].

Definition struct_quota_format_type : cty :=
  Struct
    [("qf_fmt_id", U32); ("qf_ops", PtrTo "struct quota_format_ops");
     ("qf_owner", PtrTo "struct module"); ("qf_next", PtrTo "struct quota_format_type")].

Definition struct_quota_format_ops : cty :=
  Struct
    [("check_quota_file", Ptr); ("read_file_info", Ptr); ("write_file_info", Ptr);
     ("free_file_info", Ptr); ("read_dqblk", Ptr); ("commit_dqblk", Ptr);
     ("release_dqblk", Ptr); ("get_next_id", Ptr)].

Definition struct_workqueue_struct : cty :=
  Struct
    [("pwqs", struct_list_head); ("list", struct_list_head); ("mutex", struct_mutex);
     ("work_color", U32); ("flush_color", U32); ("nr_pwqs_to_flush", typedef_atomic_t);
     ("first_flusher", PtrTo "struct wq_flusher"); ("flusher_queue", struct_list_head);
     ("flusher_overflow", struct_list_head); ("maydays", struct_list_head);
     ("rescuer", PtrTo "struct worker"); ("nr_drainers", U32); ("saved_max_active", U32);
     ("unbound_attrs", PtrTo "struct workqueue_attrs");
     ("dfl_pwq", PtrTo "struct pool_workqueue"); ("wq_dev", PtrTo "struct wq_device");
     ("name", Array 24 U8); ("rcu", struct_callback_head); ("", Pad 8 64); ("", Pad 8 64);
     ("", Pad 8 64); ("", Pad 8 64); ("", Pad 8 64); ("flags", U32);
     ("cpu_pwqs", PtrTo "struct pool_workqueue");
     ("numa_pwq_tbl", Array 0 (PtrTo "struct pool_workqueue")); ("", Pad 8 64);
     ("", Pad 8 64); ("", Pad 8 64); ("", Pad 8 64); ("", Pad 8 64); ("", Pad 8 64)].

Definition struct_list_lru_one : cty :=
  Struct
    [("list", struct_list_head); ("nr_items", U64)].

Definition struct_list_lru_node : cty :=
  Struct
    [("lock", typedef_spinlock_t); ("lru", struct_list_lru_one);
     ("memcg_lrus", PtrTo "struct list_lru_memcg"); ("nr_items", U64); ("", Pad 8 64);
     ("", Pad 8 64)].

Definition struct_bdi_writeback_congested : cty :=
  Struct
    [("state", U64); ("refcnt", typedef_refcount_t);
     ("__bdi", PtrTo "struct backing_dev_info"); ("blkcg_id", U32);
     ("rb_node", struct_rb_node)].

Definition struct_pipe_buffer : cty :=
  Struct
    [("page", PtrTo "struct page"); ("offset", U32); ("len", U32);
     ("ops", PtrTo "struct pipe_buf_operations"); ("flags", U32); ("private", U64)].

Definition typedef_sector_t : cty := typedef_u64.

Definition struct_dev_links_info : cty :=
  Struct
    [("suppliers", struct_list_head); ("consumers", struct_list_head); ("status", Enum)].

Definition struct_pm_message : cty :=
  Struct
    [("event", U32)].

Definition typedef_pm_message_t : cty := struct_pm_message.

Definition struct_dev_pm_info : cty :=
  Struct
    [("power_state", typedef_pm_message_t); ("can_wakeup", Bits 4 1);
     ("async_suspend", Bits 4 1); ("in_dpm_list", Bits 1 1); ("is_prepared", Bits 1 1);
     ("is_suspended", Bits 1 1); ("is_noirq_suspended", Bits 1 1);
     ("is_late_suspended", Bits 1 1); ("no_pm", Bits 1 1); ("early_init", Bits 1 1);
     ("direct_complete", Bits 1 1); ("driver_flags", typedef_u32);
     ("lock", typedef_spinlock_t); ("entry", struct_list_head);
     ("completion", struct_completion); ("wakeup", PtrTo "struct wakeup_source");
     ("wakeup_path", Bits 1 1); ("syscore", Bits 1 1); ("no_pm_callbacks", Bits 1 1);
     ("must_resume", Bits 4 1); ("may_skip_resume", Bits 4 1);
     ("suspend_timer", struct_hrtimer); ("timer_expires", typedef_u64);
     ("work", struct_work_struct); ("wait_queue", typedef_wait_queue_head_t);
     ("wakeirq", PtrTo "struct wake_irq"); ("usage_count", typedef_atomic_t);
     ("child_count", typedef_atomic_t); ("disable_depth", Bits 4 3);
     ("idle_notification", Bits 4 1); ("request_pending", Bits 4 1);
     ("deferred_resume", Bits 4 1); ("needs_force_resume", Bits 4 1);
     ("runtime_auto", Bits 4 1); ("ignore_children", Bits 1 1); ("no_callbacks", Bits 4 1);
     ("irq_safe", Bits 4 1); ("use_autosuspend", Bits 4 1); ("timer_autosuspends", Bits 4 1);
     ("memalloc_noio", Bits 4 1); ("links_count", U32); ("request", Enum);
     ("runtime_status", Enum); ("runtime_error", U32); ("autosuspend_delay", U32);
     ("last_busy", typedef_u64); ("active_time", typedef_u64);
     ("suspended_time", typedef_u64); ("accounting_timestamp", typedef_u64);
     ("subsys_data", PtrTo "struct pm_subsys_data"); ("set_latency_tolerance", Ptr);
     ("qos", PtrTo "struct dev_pm_qos")].

Definition struct_dev_archdata : cty :=
  Struct
    [("iommu", Ptr)].

Definition struct_device : cty :=
  Struct
    [("kobj", struct_kobject); ("parent", PtrTo "struct device");
     ("p", PtrTo "struct device_private"); ("init_name", Ptr);
     ("type", PtrTo "struct device_type"); ("bus", PtrTo "struct bus_type");
     ("driver", PtrTo "struct device_driver"); ("platform_data", Ptr); ("driver_data", Ptr);
     ("mutex", struct_mutex); ("links", struct_dev_links_info); ("power", struct_dev_pm_info);
     ("pm_domain", PtrTo "struct dev_pm_domain"); ("msi_domain", PtrTo "struct irq_domain");
     ("pins", PtrTo "struct dev_pin_info"); ("msi_lock", typedef_raw_spinlock_t);
     ("msi_list", struct_list_head); ("dma_ops", PtrTo "struct dma_map_ops");
     ("dma_mask", Ptr); ("coherent_dma_mask", typedef_u64); ("bus_dma_mask", typedef_u64);
     ("dma_pfn_offset", U64); ("dma_parms", PtrTo "struct device_dma_parameters");
     ("dma_pools", struct_list_head); ("archdata", struct_dev_archdata);
     ("of_node", PtrTo "struct device_node"); ("fwnode", PtrTo "struct fwnode_handle");
     ("numa_node", U32); ("devt", typedef_dev_t); ("id", typedef_u32);
     ("devres_lock", typedef_spinlock_t); ("devres_head", struct_list_head);
     ("class", PtrTo "struct class"); ("groups", Pointer 2 "struct attribute_group");
     ("release", Ptr); ("iommu_group", PtrTo "struct iommu_group");
     ("iommu_fwspec", PtrTo "struct iommu_fwspec");
     ("iommu_param", PtrTo "struct iommu_param"); ("offline_disabled", Bits 1 1);
     ("offline", Bits 1 1); ("of_node_reused", Bits 1 1)].

Definition struct_hd_struct : cty :=
  Struct
    [("start_sect", typedef_sector_t); ("nr_sects", typedef_sector_t);
     ("nr_sects_seq", typedef_seqcount_t); ("alignment_offset", typedef_sector_t);
     ("discard_alignment", U32); ("__dev", struct_device);
     ("holder_dir", PtrTo "struct kobject"); ("policy", U32); ("partno", U32);
     ("info", PtrTo "struct partition_meta_info"); ("stamp", U64);
     ("dkstats", PtrTo "struct disk_stats"); ("ref", struct_percpu_ref);
     ("rcu_work", struct_rcu_work)].

Definition struct_lockdep_map : cty := Struct [].

Definition struct_gendisk : cty :=
  Struct
    [("major", U32); ("first_minor", U32); ("minors", U32); ("disk_name", Array 32 U8);
     ("devnode", Ptr); ("events", U16); ("event_flags", U16);
     ("part_tbl", PtrTo "struct disk_part_tbl"); ("part0", struct_hd_struct);
     ("fops", PtrTo "struct block_device_operations");
     ("queue", PtrTo "struct request_queue"); ("private_data", Ptr); ("flags", U32);
     ("lookup_sem", struct_rw_semaphore); ("slave_dir", PtrTo "struct kobject");
     ("random", PtrTo "struct timer_rand_state"); ("sync_io", typedef_atomic_t);
     ("ev", PtrTo "struct disk_events"); ("integrity_kobj", struct_kobject); ("node_id", U32);
     ("bb", PtrTo "struct badblocks"); ("lockdep_map", struct_lockdep_map)].

Definition struct_kset : cty :=
  Struct
    [("list", struct_list_head); ("list_lock", typedef_spinlock_t); ("kobj", struct_kobject);
     ("uevent_ops", PtrTo "struct kset_uevent_ops")].

Definition struct_kobj_type : cty :=
  Struct
    [("release", Ptr); ("sysfs_ops", PtrTo "struct sysfs_ops");
     ("default_attrs", Pointer 2 "struct attribute");
     ("default_groups", Pointer 2 "struct attribute_group"); ("child_ns_type", Ptr);
     ("namespace", Ptr); ("get_ownership", Ptr)].

Definition struct_kernfs_elem_dir : cty :=
  Struct
    [("subdirs", U64); ("children", struct_rb_root); ("root", PtrTo "struct kernfs_root")].

Definition struct_kernfs_elem_symlink : cty :=
  Struct
    [("target_kn", PtrTo "struct kernfs_node")].

Definition struct_kernfs_elem_attr : cty :=
  Struct
    [("ops", PtrTo "struct kernfs_ops"); ("open", PtrTo "struct kernfs_open_node");
     ("size", typedef_loff_t); ("notify_next", PtrTo "struct kernfs_node")].

Definition union_kernfs_node_id : cty :=
  Union
    [("", Struct [("ino", typedef_u32); ("generation", typedef_u32)]); ("id", typedef_u64)].

Definition struct_kernfs_node : cty :=
  Struct
    [("count", typedef_atomic_t); ("active", typedef_atomic_t);
     ("parent", PtrTo "struct kernfs_node"); ("name", Ptr); ("rb", struct_rb_node);
     ("ns", Ptr); ("hash", U32); ("", Union [("dir", struct_kernfs_elem_dir);
     ("symlink", struct_kernfs_elem_symlink); ("attr", struct_kernfs_elem_attr)]);
     ("priv", Ptr); ("id", union_kernfs_node_id); ("flags", U16); ("mode", typedef_umode_t);
     ("iattr", PtrTo "struct kernfs_iattrs")].

Definition struct_anon_vma : cty :=
  Struct
    [("root", PtrTo "struct anon_vma"); ("rwsem", struct_rw_semaphore);
     ("refcount", typedef_atomic_t); ("degree", U32); ("parent", PtrTo "struct anon_vma");
     ("rb_root", struct_rb_root_cached)].

Definition struct_vm_operations_struct : cty :=
  Struct
    [("open", Ptr); ("close", Ptr); ("split", Ptr); ("mremap", Ptr); ("fault", Ptr);
     ("huge_fault", Ptr); ("map_pages", Ptr); ("pagesize", Ptr); ("page_mkwrite", Ptr);
     ("pfn_mkwrite", Ptr); ("access", Ptr); ("name", Ptr); ("set_policy", Ptr);
     ("get_policy", Ptr); ("find_special_page", Ptr)].

Definition struct_userfaultfd_ctx : cty :=
  Struct
    [("fault_pending_wqh", typedef_wait_queue_head_t);
     ("fault_wqh", typedef_wait_queue_head_t); ("fd_wqh", typedef_wait_queue_head_t);
     ("event_wqh", typedef_wait_queue_head_t); ("refile_seq", struct_seqcount);
     ("refcount", typedef_refcount_t); ("flags", U32); ("features", U32); ("state", Enum);
     ("released", typedef_bool); ("mmap_changing", typedef_bool);
     ("mm", PtrTo "struct mm_struct___2")].

Definition typedef_pgdval_t : cty := U64.

Definition typedef_pgd_t : cty :=
  Struct
    [("pgd", typedef_pgdval_t)].

Definition struct_linux_binfmt : cty :=
  Struct
    [("lh", struct_list_head); ("module", PtrTo "struct module"); ("load_binary", Ptr);
     ("load_shlib", Ptr); ("core_dump", Ptr); ("min_coredump", U64)].

Definition struct_ldt_struct : cty :=
  Struct
    [("entries", PtrTo "struct desc_struct"); ("nr_entries", U32); ("slot", U32)].

Definition struct_vdso_image : cty :=
  Struct
    [("data", Ptr); ("size", U64); ("alt", U64); ("alt_len", U64); ("sym_vvar_start", U64);
     ("sym_vvar_page", U64); ("sym_pvclock_page", U64); ("sym_hvclock_page", U64);
     ("sym_VDSO32_NOTE_MASK", U64); ("sym___kernel_sigreturn", U64);
     ("sym___kernel_rt_sigreturn", U64); ("sym___kernel_vsyscall", U64);
     ("sym_int80_landing_pad", U64)].

Definition struct_core_thread : cty :=
  Struct
    [("task", PtrTo "struct task_struct"); ("next", PtrTo "struct core_thread")].

Definition struct_core_state : cty :=
  Struct
    [("nr_threads", typedef_atomic_t); ("dumper", struct_core_thread);
     ("startup", struct_completion)].

Definition struct_kioctx_table : cty :=
  Struct
    [("rcu", struct_callback_head); ("nr", U32); ("table", Array 0 (PtrTo "struct kioctx"))].

Definition struct_mmu_notifier_mm : cty :=
  Struct
    [("list", struct_hlist_head); ("lock", typedef_spinlock_t)].

Definition struct_vm_special_mapping : cty :=
  Struct
    [("name", Ptr); ("pages", Pointer 2 "struct page"); ("fault", Ptr); ("mremap", Ptr)].

Definition struct_xol_area : cty :=
  Struct
    [("wq", typedef_wait_queue_head_t); ("slot_count", typedef_atomic_t); ("bitmap", Ptr);
     ("xol_mapping", struct_vm_special_mapping); ("pages", Array 2 (PtrTo "struct page"));
     ("vaddr", U64)].

Definition struct_rt_prio_array : cty :=
  Struct
    [("bitmap", Array 2 U64); ("queue", Array 100 struct_list_head)].

Definition struct_plist_head : cty :=
  Struct
    [("node_list", struct_list_head)].

Definition struct_rt_rq : cty :=
  Struct
    [("active", struct_rt_prio_array); ("rt_nr_running", U32); ("rr_nr_running", U32);
     ("highest_prio", Struct [("curr", U32); ("next", U32)]); ("rt_nr_migratory", U64);
     ("rt_nr_total", U64); ("overloaded", U32); ("pushable_tasks", struct_plist_head);
     ("rt_queued", U32); ("rt_throttled", U32); ("rt_time", typedef_u64);
     ("rt_runtime", typedef_u64); ("rt_runtime_lock", typedef_raw_spinlock_t)].

Definition struct_dl_rq : cty :=
  Struct
    [("root", struct_rb_root_cached); ("dl_nr_running", U64); ("earliest_dl", Struct
     [("curr", typedef_u64); ("next", typedef_u64)]); ("dl_nr_migratory", U64);
     ("overloaded", U32); ("pushable_dl_tasks_root", struct_rb_root_cached);
     ("running_bw", typedef_u64); ("this_bw", typedef_u64); ("extra_bw", typedef_u64);
     ("bw_ratio", typedef_u64)].

Definition typedef_cpu_stop_fn_t : cty := Ptr.

Definition struct_cpu_stop_work : cty :=
  Struct
    [("list", struct_list_head); ("fn", typedef_cpu_stop_fn_t); ("arg", Ptr);
     ("done", PtrTo "struct cpu_stop_done")].

Definition typedef_smp_call_func_t : cty := Ptr.

Definition struct___call_single_data : cty :=
  Struct
    [("llist", struct_llist_node); ("func", typedef_smp_call_func_t); ("info", Ptr);
     ("flags", U32)].

Definition typedef_call_single_data_t : cty := struct___call_single_data.

Definition struct_llist_head : cty :=
  Struct
    [("first", PtrTo "struct llist_node")].

Definition struct_rq : cty :=
  Struct
    [("lock", typedef_raw_spinlock_t); ("nr_running", U32); ("nr_numa_running", U32);
     ("nr_preferred_running", U32); ("numa_migrate_on", U32); ("last_load_update_tick", U64);
     ("last_blocked_load_update_tick", U64); ("has_blocked_load", U32);
     ("nohz_tick_stopped", U32); ("nohz_flags", typedef_atomic_t); ("nr_load_updates", U64);
     ("nr_switches", typedef_u64); ("", Pad 8 64); ("", Pad 8 64); ("", Pad 8 64);
     ("", Pad 8 64); ("", Pad 8 64); ("", Pad 8 64); ("", Pad 8 64); ("cfs", struct_cfs_rq);
     ("rt", struct_rt_rq); ("dl", struct_dl_rq); ("leaf_cfs_rq_list", struct_list_head);
     ("tmp_alone_branch", PtrTo "struct list_head"); ("nr_uninterruptible", U64);
     ("curr", PtrTo "struct task_struct"); ("idle", PtrTo "struct task_struct");
     ("stop", PtrTo "struct task_struct"); ("next_balance", U64);
     ("prev_mm", PtrTo "struct mm_struct"); ("clock_update_flags", U32);
     ("clock", typedef_u64); ("", Pad 8 64); ("", Pad 8 64); ("", Pad 8 64);
     ("clock_task", typedef_u64); ("clock_pelt", typedef_u64); ("lost_idle_time", U64);
     ("nr_iowait", typedef_atomic_t); ("membarrier_state", U32);
     ("rd", PtrTo "struct root_domain"); ("sd", PtrTo "struct sched_domain");
     ("cpu_capacity", U64); ("cpu_capacity_orig", U64);
     ("balance_callback", PtrTo "struct callback_head"); ("idle_balance", U8);
     ("misfit_task_load", U64); ("active_balance", U32); ("push_cpu", U32);
     ("active_balance_work", struct_cpu_stop_work); ("cpu", U32); ("online", U32);
     ("cfs_tasks", struct_list_head); ("", Pad 8 64); ("", Pad 8 64); ("", Pad 8 64);
     ("", Pad 8 64); ("avg_rt", struct_sched_avg); ("avg_dl", struct_sched_avg);
     ("idle_stamp", typedef_u64); ("avg_idle", typedef_u64); ("wake_stamp", U64);
     ("wake_avg_idle", typedef_u64); ("max_idle_balance_cost", typedef_u64);
     ("prev_steal_time", typedef_u64); ("calc_load_update", U64); ("calc_load_active", U64);
     ("hrtick_csd_pending", U32); ("", Pad 8 64); ("", Pad 8 64); ("", Pad 8 64);
     ("hrtick_csd", typedef_call_single_data_t); ("hrtick_timer", struct_hrtimer);
     ("hrtick_time", typedef_ktime_t); ("rq_sched_info", struct_sched_info);
     ("rq_cpu_time", U64); ("yld_count", U32); ("sched_count", U32); ("sched_goidle", U32);
     ("ttwu_count", U32); ("ttwu_local", U32); ("wake_list", struct_llist_head);
     ("idle_state", PtrTo "struct cpuidle_state"); ("", Pad 8 64); ("", Pad 8 64);
     ("", Pad 8 64); ("", Pad 8 64); ("", Pad 8 64)].

Definition struct_task_cputime : cty :=
  Struct
    [("stime", typedef_u64); ("utime", typedef_u64); ("sum_exec_runtime", U64)].

Definition struct_cgroup_base_stat : cty :=
  Struct
    [("cputime", struct_task_cputime)].

Definition struct_psi_group : cty :=
  Struct
    [("avgs_lock", struct_mutex); ("pcpu", PtrTo "struct psi_group_cpu");
     ("avg_total", Array 6 typedef_u64); ("avg_last_update", typedef_u64);
     ("avg_next_update", typedef_u64); ("avgs_work", struct_delayed_work);
     ("total", Array 12 typedef_u64); ("avg", Array 18 U64);
     ("poll_task", PtrTo "struct task_struct"); ("poll_timer", struct_timer_list);
     ("poll_wait", typedef_wait_queue_head_t); ("poll_wakeup", typedef_atomic_t);
     ("trigger_lock", struct_mutex); ("triggers", struct_list_head);
     ("nr_triggers", Array 6 typedef_u32); ("poll_states", typedef_u32);
     ("poll_min_period", typedef_u64); ("polling_total", Array 6 typedef_u64);
     ("polling_next_update", typedef_u64); ("polling_until", typedef_u64)].

Definition struct_cgroup_bpf : cty :=
  Struct
    [("effective", Array 35 (PtrTo "struct bpf_prog_array"));
     ("progs", Array 35 struct_list_head); ("flags", Array 35 typedef_u32);
     ("inactive", PtrTo "struct bpf_prog_array"); ("refcnt", struct_percpu_ref);
     ("release_work", struct_work_struct)].

Definition struct_cgroup_freezer_state : cty :=
  Struct
    [("freeze", typedef_bool); ("e_freeze", U32); ("nr_frozen_descendants", U32);
     ("nr_frozen_tasks", U32)].

Definition struct_cgroup : cty :=
  Struct
    [("self", struct_cgroup_subsys_state); ("flags", U64); ("id", U32); ("level", U32);
     ("max_depth", U32); ("nr_descendants", U32); ("nr_dying_descendants", U32);
     ("max_descendants", U32); ("nr_populated_csets", U32);
     ("nr_populated_domain_children", U32); ("nr_populated_threaded_children", U32);
     ("nr_threaded_children", U32); ("kn", PtrTo "struct kernfs_node");
     ("procs_file", struct_cgroup_file); ("events_file", struct_cgroup_file);
     ("subtree_control", typedef_u16); ("subtree_ss_mask", typedef_u16);
     ("old_subtree_control", typedef_u16); ("old_subtree_ss_mask", typedef_u16);
     ("subsys", Array 12 (PtrTo "struct cgroup_subsys_state"));
     ("root", PtrTo "struct cgroup_root"); ("cset_links", struct_list_head);
     ("e_csets", Array 12 struct_list_head); ("dom_cgrp", PtrTo "struct cgroup");
     ("old_dom_cgrp", PtrTo "struct cgroup"); ("rstat_cpu", PtrTo "struct cgroup_rstat_cpu");
     ("rstat_css_list", struct_list_head); ("last_bstat", struct_cgroup_base_stat);
     ("bstat", struct_cgroup_base_stat); ("prev_cputime", struct_prev_cputime);
     ("pidlists", struct_list_head); ("pidlist_mutex", struct_mutex);
     ("offline_waitq", typedef_wait_queue_head_t); ("release_agent_work", struct_work_struct);
     ("psi", struct_psi_group); ("bpf", struct_cgroup_bpf);
     ("congestion_count", typedef_atomic_t); ("freezer", struct_cgroup_freezer_state);
     ("ancestor_ids", Array 0 U32)].

Definition struct_cgroup_subsys : cty :=
  Struct
    [("css_alloc", Ptr); ("css_online", Ptr); ("css_offline", Ptr); ("css_released", Ptr);
     ("css_free", Ptr); ("css_reset", Ptr); ("css_rstat_flush", Ptr);
     ("css_extra_stat_show", Ptr); ("can_attach", Ptr); ("cancel_attach", Ptr);
     ("attach", Ptr); ("post_attach", Ptr); ("can_fork", Ptr); ("cancel_fork", Ptr);
     ("fork", Ptr); ("exit", Ptr); ("release", Ptr); ("bind", Ptr); ("early_init", Bits 1 1);
     ("implicit_on_dfl", Bits 1 1); ("threaded", Bits 1 1); ("broken_hierarchy", Bits 1 1);
     ("warned_broken_hierarchy", Bits 1 1); ("id", U32); ("name", Ptr); ("legacy_name", Ptr);
     ("root", PtrTo "struct cgroup_root"); ("css_idr", struct_idr);
     ("cfts", struct_list_head); ("dfl_cftypes", PtrTo "struct cftype");
     ("legacy_cftypes", PtrTo "struct cftype"); ("depends_on", U32)].

Definition struct_autogroup : cty :=
  Struct
    [("kref", struct_kref); ("tg", PtrTo "struct task_group"); ("lock", struct_rw_semaphore);
     ("id", U64); ("nice", U32)].

Definition struct_hrtimer_cpu_base : cty :=
  Struct
    [("lock", typedef_raw_spinlock_t); ("cpu", U32); ("active_bases", U32);
     ("clock_was_set_seq", U32); ("hres_active", Bits 4 1); ("in_hrtirq", Bits 4 1);
     ("hang_detected", Bits 4 1); ("softirq_activated", Bits 4 1); ("nr_events", U32);
     ("nr_retries", U16); ("nr_hangs", U16); ("max_hang_time", U32);
     ("expires_next", typedef_ktime_t); ("next_timer", PtrTo "struct hrtimer");
     ("softirq_expires_next", typedef_ktime_t);
     ("softirq_next_timer", PtrTo "struct hrtimer");
     ("clock_base", Array 8 struct_hrtimer_clock_base)].

Definition struct_key_user : cty :=
  Struct
    [("node", struct_rb_node); ("cons_lock", struct_mutex); ("lock", typedef_spinlock_t);
     ("usage", typedef_refcount_t); ("nkeys", typedef_atomic_t); ("nikeys", typedef_atomic_t);
     ("uid", typedef_kuid_t); ("qnkeys", U32); ("qnbytes", U32)].

Definition typedef_request_key_actor_t : cty := Ptr.

Definition struct_key_type : cty :=
  Struct
    [("name", Ptr); ("def_datalen", typedef_size_t); ("flags", U32); ("vet_description", Ptr);
     ("preparse", Ptr); ("free_preparse", Ptr); ("instantiate", Ptr); ("update", Ptr);
     ("match_preparse", Ptr); ("match_free", Ptr); ("revoke", Ptr); ("destroy", Ptr);
     ("describe", Ptr); ("read", Ptr); ("request_key", typedef_request_key_actor_t);
     ("lookup_restriction", Ptr); ("asym_query", Ptr); ("asym_eds_op", Ptr);
     ("asym_verify_signature", Ptr); ("link", struct_list_head);
     ("lock_class", struct_lock_class_key)].

Definition struct_key_tag : cty :=
  Struct
    [("rcu", struct_callback_head); ("usage", typedef_refcount_t); ("removed", typedef_bool)].

Definition typedef_key_restrict_link_func_t : cty := Ptr.

Definition struct_key_restriction : cty :=
  Struct
    [("check", typedef_key_restrict_link_func_t); ("key", PtrTo "struct key");
     ("keytype", PtrTo "struct key_type")].

Definition struct_vfsmount___2 : cty :=
  Struct
    [("mnt_root", PtrTo "struct dentry___2"); ("mnt_sb", PtrTo "struct super_block___2");
     ("mnt_flags", U32)].

Definition struct_dentry___2 : cty :=
  Struct
    [("d_flags", U32); ("d_seq", typedef_seqcount_t); ("d_hash", struct_hlist_bl_node);
     ("d_parent", PtrTo "struct dentry___2"); ("d_name", struct_qstr);
     ("d_inode", PtrTo "struct inode___2"); ("d_iname", Array 32 U8);
     ("d_lockref", struct_lockref); ("d_op", PtrTo "struct dentry_operations___2");
     ("d_sb", PtrTo "struct super_block___2"); ("d_time", U64); ("d_fsdata", Ptr); ("", Union
     [("d_lru", struct_list_head); ("d_wait", PtrTo "struct wait_queue_head")]);
     ("d_child", struct_list_head); ("d_subdirs", struct_list_head); ("d_u", Union
     [("d_alias", struct_hlist_node); ("d_in_lookup_hash", struct_hlist_bl_node);
     ("d_rcu", struct_callback_head)])].

Definition struct_address_space___2 : cty :=
  Struct
    [("host", PtrTo "struct inode___2"); ("i_pages", struct_xarray);
     ("gfp_mask", typedef_gfp_t); ("i_mmap_writable", typedef_atomic_t);
     ("i_mmap", struct_rb_root_cached); ("i_mmap_rwsem", struct_rw_semaphore);
     ("nrpages", U64); ("nrexceptional", U64); ("writeback_index", U64);
     ("a_ops", PtrTo "struct address_space_operations___2"); ("flags", U64);
     ("wb_err", typedef_errseq_t); ("private_lock", typedef_spinlock_t);
     ("private_list", struct_list_head); ("private_data", Ptr)].

Definition struct_inode___2 : cty :=
  Struct
    [("i_mode", typedef_umode_t); ("i_opflags", U16); ("i_uid", typedef_kuid_t);
     ("i_gid", typedef_kgid_t); ("i_flags", U32); ("i_acl", PtrTo "struct posix_acl");
     ("i_default_acl", PtrTo "struct posix_acl");
     ("i_op", PtrTo "struct inode_operations___2"); ("i_sb", PtrTo "struct super_block___2");
     ("i_mapping", PtrTo "struct address_space___2"); ("i_security", Ptr); ("i_ino", U64);
     ("", Union [("i_nlink", U32); ("__i_nlink", U32)]); ("i_rdev", typedef_dev_t);
     ("i_size", typedef_loff_t); ("i_atime", struct_timespec64);
     ("i_mtime", struct_timespec64); ("i_ctime", struct_timespec64);
     ("i_lock", typedef_spinlock_t); ("i_bytes", U16); ("i_blkbits", typedef_u8);
     ("i_write_hint", typedef_u8); ("i_blocks", typedef_blkcnt_t); ("i_state", U64);
     ("i_rwsem", struct_rw_semaphore); ("dirtied_when", U64); ("dirtied_time_when", U64);
     ("i_hash", struct_hlist_node); ("i_io_list", struct_list_head);
     ("i_wb", PtrTo "struct bdi_writeback"); ("i_wb_frn_winner", U32);
     ("i_wb_frn_avg_time", typedef_u16); ("i_wb_frn_history", typedef_u16);
     ("i_lru", struct_list_head); ("i_sb_list", struct_list_head);
     ("i_wb_list", struct_list_head); ("", Union [("i_dentry", struct_hlist_head);
     ("i_rcu", struct_callback_head)]); ("i_version", typedef_atomic64_t);
     ("i_sequence", typedef_atomic64_t); ("i_count", typedef_atomic_t);
     ("i_dio_count", typedef_atomic_t); ("i_writecount", typedef_atomic_t);
     ("i_readcount", typedef_atomic_t); ("", Union
     [("i_fop", PtrTo "struct file_operations___2"); ("free_inode", Ptr)]);
     ("i_flctx", PtrTo "struct file_lock_context"); ("i_data", struct_address_space___2);
     ("i_devices", struct_list_head); ("", Union
     [("i_pipe", PtrTo "struct pipe_inode_info___2");
     ("i_bdev", PtrTo "struct block_device___2"); ("i_cdev", PtrTo "struct cdev");
     ("i_link", Ptr); ("i_dir_seq", U32)]); ("i_generation", typedef___u32);
     ("i_fsnotify_mask", typedef___u32);
     ("i_fsnotify_marks", PtrTo "struct fsnotify_mark_connector"); ("i_private", Ptr)].

Definition struct_filename : cty :=
  Struct
    [("name", Ptr); ("uptr", Ptr); ("refcnt", U32); ("aname", PtrTo "struct audit_names");
     ("iname", Array 0 U8)].

Definition struct_new_utsname : cty :=
  Struct
    [("sysname", Array 65 U8); ("nodename", Array 65 U8); ("release", Array 65 U8);
     ("version", Array 65 U8); ("machine", Array 65 U8); ("domainname", Array 65 U8)].

Definition struct_uts_namespace : cty :=
  Struct
    [("kref", struct_kref); ("name", struct_new_utsname);
     ("user_ns", PtrTo "struct user_namespace"); ("ucounts", PtrTo "struct ucounts");
     ("ns", struct_ns_common)].

Definition typedef_rht_hashfn_t : cty := Ptr.
Definition typedef_rht_obj_hashfn_t : cty := Ptr.
Definition typedef_rht_obj_cmpfn_t : cty := Ptr.

Definition struct_rhashtable_params : cty :=
  Struct
    [("nelem_hint", typedef_u16); ("key_len", typedef_u16); ("key_offset", typedef_u16);
     ("head_offset", typedef_u16); ("max_size", U32); ("min_size", typedef_u16);
     ("automatic_shrinking", typedef_bool); ("hashfn", typedef_rht_hashfn_t);
     ("obj_hashfn", typedef_rht_obj_hashfn_t); ("obj_cmpfn", typedef_rht_obj_cmpfn_t)].

Definition struct_rhashtable : cty :=
  Struct
    [("tbl", PtrTo "struct bucket_table"); ("key_len", U32); ("max_elems", U32);
     ("p", struct_rhashtable_params); ("rhlist", typedef_bool);
     ("run_work", struct_work_struct); ("mutex", struct_mutex); ("lock", typedef_spinlock_t);
     ("nelems", typedef_atomic_t)].

Definition struct_ipc_ids : cty :=
  Struct
    [("in_use", U32); ("seq", U16); ("rwsem", struct_rw_semaphore); ("ipcs_idr", struct_idr);
     ("max_idx", U32); ("last_idx", U32); ("next_id", U32); ("key_ht", struct_rhashtable)].

Definition typedef_notifier_fn_t : cty := Ptr.

Definition struct_notifier_block : cty :=
  Struct
    [("notifier_call", typedef_notifier_fn_t); ("next", PtrTo "struct notifier_block");
     ("priority", U32)].

Definition struct_ipc_namespace : cty :=
  Struct
    [("count", typedef_refcount_t); ("ids", Array 3 struct_ipc_ids);
     ("sem_ctls", Array 4 U32); ("used_sems", U32); ("msg_ctlmax", U32); ("msg_ctlmnb", U32);
     ("msg_ctlmni", U32); ("msg_bytes", typedef_atomic_t); ("msg_hdrs", typedef_atomic_t);
     ("shm_ctlmax", typedef_size_t); ("shm_ctlall", typedef_size_t); ("shm_tot", U64);
     ("shm_ctlmni", U32); ("shm_rmid_forced", U32); ("ipcns_nb", struct_notifier_block);
     ("mq_mnt", PtrTo "struct vfsmount"); ("mq_queues_count", U32); ("mq_queues_max", U32);
     ("mq_msg_max", U32); ("mq_msgsize_max", U32); ("mq_msg_default", U32);
     ("mq_msgsize_default", U32); ("user_ns", PtrTo "struct user_namespace");
     ("ucounts", PtrTo "struct ucounts"); ("ns", struct_ns_common)].

Definition struct_mnt_namespace : cty :=
  Struct
    [("count", typedef_atomic_t); ("ns", struct_ns_common); ("root", PtrTo "struct mount");
     ("list", struct_list_head); ("user_ns", PtrTo "struct user_namespace");
     ("ucounts", PtrTo "struct ucounts"); ("seq", typedef_u64);
     ("poll", typedef_wait_queue_head_t); ("event", typedef_u64); ("mounts", U32);
     ("pending_mounts", U32)].

Definition struct_cgroup_namespace : cty :=
  Struct
    [("count", typedef_refcount_t); ("ns", struct_ns_common);
     ("user_ns", PtrTo "struct user_namespace"); ("ucounts", PtrTo "struct ucounts");
     ("root_cset", PtrTo "struct css_set")].

Definition struct_ld_semaphore : cty :=
  Struct
    [("count", typedef_atomic_long_t); ("wait_lock", typedef_raw_spinlock_t);
     ("wait_readers", U32); ("read_wait", struct_list_head);
     ("write_wait", struct_list_head)].

Definition typedef_tcflag_t : cty := U32.
Definition typedef_cc_t : cty := U8.
Definition typedef_speed_t : cty := U32.

Definition struct_ktermios : cty :=
  Struct
    [("c_iflag", typedef_tcflag_t); ("c_oflag", typedef_tcflag_t);
     ("c_cflag", typedef_tcflag_t); ("c_lflag", typedef_tcflag_t); ("c_line", typedef_cc_t);
     ("c_cc", Array 19 typedef_cc_t); ("c_ispeed", typedef_speed_t);
     ("c_ospeed", typedef_speed_t)].

Definition struct_winsize : cty :=
  Struct
    [("ws_row", U16); ("ws_col", U16); ("ws_xpixel", U16); ("ws_ypixel", U16)].

Definition struct_tty_struct : cty :=
  Struct
    [("magic", U32); ("kref", struct_kref); ("dev", PtrTo "struct device");
     ("driver", PtrTo "struct tty_driver"); ("ops", PtrTo "struct tty_operations");
     ("index", U32); ("ldisc_sem", struct_ld_semaphore); ("ldisc", PtrTo "struct tty_ldisc");
     ("atomic_write_lock", struct_mutex); ("legacy_mutex", struct_mutex);
     ("throttle_mutex", struct_mutex); ("termios_rwsem", struct_rw_semaphore);
     ("winsize_mutex", struct_mutex); ("ctrl_lock", typedef_spinlock_t);
     ("flow_lock", typedef_spinlock_t); ("termios", struct_ktermios);
     ("termios_locked", struct_ktermios); ("termiox", PtrTo "struct termiox");
     ("name", Array 64 U8); ("pgrp", PtrTo "struct pid"); ("session", PtrTo "struct pid");
     ("flags", U64); ("count", U32); ("winsize", struct_winsize); ("stopped", Bits 8 1);
     ("flow_stopped", Bits 8 1); ("", Pad 8 30); ("unused", Bits 8 62); ("hw_stopped", U32);
     ("ctrl_status", Bits 8 8); ("packet", Bits 8 1); ("", Pad 8 23);
     ("unused_ctrl", Bits 8 55); ("receive_room", U32); ("flow_change", U32);
     ("link", PtrTo "struct tty_struct"); ("fasync", PtrTo "struct fasync_struct");
     ("write_wait", typedef_wait_queue_head_t); ("read_wait", typedef_wait_queue_head_t);
     ("hangup_work", struct_work_struct); ("disc_data", Ptr); ("driver_data", Ptr);
     ("files_lock", typedef_spinlock_t); ("tty_files", struct_list_head); ("closing", U32);
     ("write_buf", Ptr); ("write_cnt", U32); ("SAK_work", struct_work_struct);
     ("port", PtrTo "struct tty_port")].

Definition struct_taskstats : cty :=
  Struct
    [("version", typedef___u16); ("ac_exitcode", typedef___u32); ("ac_flag", typedef___u8);
     ("ac_nice", typedef___u8); ("cpu_count", typedef___u64);
     ("cpu_delay_total", typedef___u64); ("blkio_count", typedef___u64);
     ("blkio_delay_total", typedef___u64); ("swapin_count", typedef___u64);
     ("swapin_delay_total", typedef___u64); ("cpu_run_real_total", typedef___u64);
     ("cpu_run_virtual_total", typedef___u64); ("ac_comm", Array 32 U8);
     ("ac_sched", typedef___u8); ("ac_pad", Array 3 typedef___u8); ("", Pad 8 0);
     ("ac_uid", typedef___u32); ("ac_gid", typedef___u32); ("ac_pid", typedef___u32);
     ("ac_ppid", typedef___u32); ("ac_btime", typedef___u32); ("ac_etime", typedef___u64);
     ("ac_utime", typedef___u64); ("ac_stime", typedef___u64); ("ac_minflt", typedef___u64);
     ("ac_majflt", typedef___u64); ("coremem", typedef___u64); ("virtmem", typedef___u64);
     ("hiwater_rss", typedef___u64); ("hiwater_vm", typedef___u64);
     ("read_char", typedef___u64); ("write_char", typedef___u64);
     ("read_syscalls", typedef___u64); ("write_syscalls", typedef___u64);
     ("read_bytes", typedef___u64); ("write_bytes", typedef___u64);
     ("cancelled_write_bytes", typedef___u64); ("nvcsw", typedef___u64);
     ("nivcsw", typedef___u64); ("ac_utimescaled", typedef___u64);
     ("ac_stimescaled", typedef___u64); ("cpu_scaled_run_real_total", typedef___u64);
     ("freepages_count", typedef___u64); ("freepages_delay_total", typedef___u64);
     ("thrashing_count", typedef___u64); ("thrashing_delay_total", typedef___u64)].

Definition struct_tty_audit_buf : cty :=
  Struct
    [("mutex", struct_mutex); ("dev", typedef_dev_t); ("icanon", Bits 4 1);
     ("valid", typedef_size_t); ("data", Ptr)].

Definition struct_audit_aux_data : cty :=
  Struct
    [("next", PtrTo "struct audit_aux_data"); ("type", U32)].

Definition struct___kernel_sockaddr_storage : cty :=
  Struct
    [("", Union [("", Struct [("ss_family", typedef___kernel_sa_family_t);
     ("__data", Array 126 U8)]); ("__align", Ptr)])].

Definition struct_audit_tree_refs : cty :=
  Struct
    [("next", PtrTo "struct audit_tree_refs"); ("c", Array 31 (PtrTo "struct audit_chunk"))].

Definition struct_sock_filter : cty :=
  Struct
    [("code", typedef___u16); ("jt", typedef___u8); ("jf", typedef___u8);
     ("k", typedef___u32)].

Definition struct_bpf_prog : cty :=
  Struct
    [("pages", typedef_u16); ("jited", Bits 2 1); ("jit_requested", Bits 2 1);
     ("gpl_compatible", Bits 2 1); ("cb_access", Bits 2 1); ("dst_needed", Bits 2 1);
     ("blinded", Bits 2 1); ("is_func", Bits 2 1); ("kprobe_override", Bits 2 1);
     ("has_callchain_buf", Bits 2 1); ("enforce_expected_attach_type", Bits 2 1);
     ("type", Enum); ("expected_attach_type", Enum); ("len", typedef_u32);
     ("jited_len", typedef_u32); ("tag", Array 8 typedef_u8);
     ("aux", PtrTo "struct bpf_prog_aux"); ("orig_prog", PtrTo "struct sock_fprog_kern");
     ("bpf_func", Ptr); ("", Union [("insns", Array 0 struct_sock_filter);
     ("insnsi", Array 0 struct_bpf_insn)])].

Definition struct_semaphore : cty :=
  Struct
    [("lock", typedef_raw_spinlock_t); ("count", U32); ("wait_list", struct_list_head)].

Definition struct_notification : cty :=
  Struct
    [("request", struct_semaphore); ("next_id", typedef_u64);
     ("notifications", struct_list_head); ("wqh", typedef_wait_queue_head_t)].

Definition typedef_blk_status_t : cty := typedef_u8.

Definition struct_bvec_iter : cty :=
  Struct
    [("bi_sector", typedef_sector_t); ("bi_size", U32); ("bi_idx", U32);
     ("bi_bvec_done", U32)].

Definition struct_bio_issue : cty :=
  Struct
    [("value", typedef_u64)].

Definition struct_bio_vec : cty :=
  Struct
    [("bv_page", PtrTo "struct page"); ("bv_len", U32); ("bv_offset", U32)].

Definition struct_bio : cty :=
  Struct
    [("bi_next", PtrTo "struct bio"); ("bi_disk", PtrTo "struct gendisk"); ("bi_opf", U32);
     ("bi_flags", U16); ("bi_ioprio", U16); ("bi_write_hint", U16);
     ("bi_status", typedef_blk_status_t); ("bi_partno", typedef_u8);
     ("bi_iter", struct_bvec_iter); ("__bi_remaining", typedef_atomic_t); ("bi_end_io", Ptr);
     ("bi_private", Ptr); ("bi_blkg", PtrTo "struct blkcg_gq");
     ("bi_issue", struct_bio_issue); ("bi_start", struct_bio_issue);
     ("bi_iocost_cost", typedef_u64); ("", Union
     [("bi_integrity", PtrTo "struct bio_integrity_payload")]); ("bi_vcnt", U16);
     ("bi_max_vecs", U16); ("__bi_cnt", typedef_atomic_t);
     ("bi_io_vec", PtrTo "struct bio_vec"); ("bi_pool", PtrTo "struct bio_set");
     ("bi_inline_vecs", Array 0 struct_bio_vec)].

Definition struct_io_cq : cty :=
  Struct
    [("q", PtrTo "struct request_queue"); ("ioc", PtrTo "struct io_context"); ("", Union
     [("q_node", struct_list_head); ("__rcu_icq_cache", PtrTo "struct kmem_cache")]);
     ("", Union [("ioc_node", struct_hlist_node); ("__rcu_head", struct_callback_head)]);
     ("flags", U32)].

Definition struct_compact_control : cty :=
  Struct
    [("freepages", struct_list_head); ("migratepages", struct_list_head);
     ("nr_freepages", U32); ("nr_migratepages", U32); ("free_pfn", U64); ("migrate_pfn", U64);
     ("fast_start_pfn", U64); ("zone", PtrTo "struct zone"); ("total_migrate_scanned", U64);
     ("total_free_scanned", U64); ("fast_search_fail", U16); ("search_order", U16);
     ("gfp_mask", typedef_gfp_t); ("order", U32); ("migratetype", U32); ("alloc_flags", U32);
     ("classzone_idx", U32); ("mode", Enum); ("ignore_skip_hint", typedef_bool);
     ("no_set_skip_hint", typedef_bool); ("ignore_block_suitable", typedef_bool);
     ("direct_compaction", typedef_bool); ("whole_zone", typedef_bool);
     ("contended", typedef_bool); ("rescan", typedef_bool)].

Definition struct_pmu : cty :=
  Struct
    [("entry", struct_list_head); ("module", PtrTo "struct module");
     ("dev", PtrTo "struct device"); ("attr_groups", Pointer 2 "struct attribute_group");
     ("attr_update", Pointer 2 "struct attribute_group"); ("name", Ptr); ("type", U32);
     ("capabilities", U32); ("pmu_disable_count", Ptr);
     ("pmu_cpu_context", PtrTo "struct perf_cpu_context");
     ("exclusive_cnt", typedef_atomic_t); ("task_ctx_nr", U32); ("hrtimer_interval_ms", U32);
     ("nr_addr_filters", U32); ("pmu_enable", Ptr); ("pmu_disable", Ptr); ("event_init", Ptr);
     ("event_mapped", Ptr); ("event_unmapped", Ptr); ("add", Ptr); ("del", Ptr);
     ("start", Ptr); ("stop", Ptr); ("read", Ptr); ("start_txn", Ptr); ("commit_txn", Ptr);
     ("cancel_txn", Ptr); ("event_idx", Ptr); ("sched_task", Ptr);
     ("task_ctx_size", typedef_size_t); ("setup_aux", Ptr); ("free_aux", Ptr);
     ("addr_filters_validate", Ptr); ("addr_filters_sync", Ptr); ("aux_output_match", Ptr);
     ("filter_match", Ptr); ("check_period", Ptr)].

Definition struct_reciprocal_value : cty :=
  Struct
    [("m", typedef_u32); ("sh1", typedef_u8); ("sh2", typedef_u8)].

Definition struct_kmem_cache_order_objects : cty :=
  Struct
    [("x", U32)].

Definition struct_kmem_cache : cty :=
  Struct
    [("cpu_slab", PtrTo "struct kmem_cache_cpu"); ("flags", typedef_slab_flags_t);
     ("min_partial", U64); ("size", U32); ("object_size", U32);
     ("reciprocal_size", struct_reciprocal_value); ("offset", U32); ("cpu_partial", U32);
     ("oo", struct_kmem_cache_order_objects); ("max", struct_kmem_cache_order_objects);
     ("min", struct_kmem_cache_order_objects); ("allocflags", typedef_gfp_t);
     ("refcount", U32); ("ctor", Ptr); ("inuse", U32); ("align", U32); ("red_left_pad", U32);
     ("name", Ptr); ("list", struct_list_head); ("kobj", struct_kobject); ("random", U64);
     ("remote_node_defrag_ratio", U32); ("random_seq", Ptr); ("useroffset", U32);
     ("usersize", U32); ("node", Array 64 (PtrTo "struct kmem_cache_node"))].

Definition struct_vmem_altmap : cty :=
  Struct
    [("base_pfn", U64); ("end_pfn", U64); ("reserve", U64); ("free", U64); ("align", U64);
     ("alloc", U64)].

Definition typedef_resource_size_t : cty := typedef_phys_addr_t.

Definition struct_resource : cty :=
  Struct
    [("start", typedef_resource_size_t); ("end", typedef_resource_size_t); ("name", Ptr);
     ("flags", U64); ("desc", U64); ("parent", PtrTo "struct resource");
     ("sibling", PtrTo "struct resource"); ("child", PtrTo "struct resource")].

Definition struct_dev_pagemap : cty :=
  Struct
    [("altmap", struct_vmem_altmap); ("res", struct_resource);
     ("ref", PtrTo "struct percpu_ref"); ("internal_ref", struct_percpu_ref);
     ("done", struct_completion); ("type", Enum); ("flags", U32);
     ("ops", PtrTo "struct dev_pagemap_ops")].

Definition struct_mem_cgroup_threshold : cty :=
  Struct
    [("eventfd", PtrTo "struct eventfd_ctx"); ("threshold", U64)].

Definition struct_mem_cgroup_threshold_ary : cty :=
  Struct
    [("current_threshold", U32); ("size", U32);
     ("entries", Array 0 struct_mem_cgroup_threshold)].

Definition struct_memcg_vmstats_percpu : cty :=
  Struct
    [("stat", Array 36 U64); ("events", Array 85 U64); ("nr_page_events", U64);
     ("targets", Array 3 U64)].

Definition struct_obj_cgroup : cty :=
  Struct
    [("refcnt", struct_percpu_ref); ("memcg", PtrTo "struct mem_cgroup");
     ("nr_charged_bytes", typedef_atomic_t); ("", Union [("list", struct_list_head);
     ("rcu", struct_callback_head)])].

Definition struct_zone_reclaim_stat : cty :=
  Struct
    [("recent_rotated", Array 2 U64); ("recent_scanned", Array 2 U64)].

Definition struct_lruvec : cty :=
  Struct
    [("lists", Array 5 struct_list_head); ("reclaim_stat", struct_zone_reclaim_stat);
     ("inactive_age", typedef_atomic_long_t); ("refaults", U64); ("flags", U64);
     ("pgdat", PtrTo "struct pglist_data")].

Definition struct_mem_cgroup_reclaim_iter : cty :=
  Struct
    [("position", PtrTo "struct mem_cgroup"); ("generation", U32)].

Definition struct_mem_cgroup_per_node : cty :=
  Struct
    [("lruvec", struct_lruvec); ("lruvec_stat_local", PtrTo "struct lruvec_stat");
     ("lruvec_stat_cpu", PtrTo "struct batched_lruvec_stat");
     ("lruvec_stat", Array 33 typedef_atomic_long_t); ("lru_zone_size", Array 25 U64);
     ("iter", Array 13 struct_mem_cgroup_reclaim_iter);
     ("shrinker_map", PtrTo "struct memcg_shrinker_map"); ("tree_node", struct_rb_node);
     ("usage_in_excess", U64); ("on_tree", typedef_bool);
     ("memcg", PtrTo "struct mem_cgroup")].

Definition typedef_req_flags_t : cty := typedef___u32.

Definition struct_request : cty :=
  Struct
    [("q", PtrTo "struct request_queue"); ("mq_ctx", PtrTo "struct blk_mq_ctx");
     ("mq_hctx", PtrTo "struct blk_mq_hw_ctx"); ("cmd_flags", U32);
     ("rq_flags", typedef_req_flags_t); ("tag", U32); ("internal_tag", U32);
     ("__data_len", U32); ("__sector", typedef_sector_t); ("bio", PtrTo "struct bio");
     ("biotail", PtrTo "struct bio"); ("queuelist", struct_list_head); ("", Union
     [("hash", struct_hlist_node); ("ipi_list", struct_list_head)]); ("", Union
     [("rb_node", struct_rb_node); ("special_vec", struct_bio_vec); ("completion_data", Ptr);
     ("error_count", U32)]); ("", Union [("elv", Struct [("icq", PtrTo "struct io_cq");
     ("priv", Array 2 Ptr)]); ("flush", Struct [("seq", U32); ("list", struct_list_head);
     ("saved_end_io", Ptr)])]); ("rq_disk", PtrTo "struct gendisk");
     ("part", PtrTo "struct hd_struct"); ("alloc_time_ns", typedef_u64);
     ("start_time_ns", typedef_u64); ("io_start_time_ns", typedef_u64); ("wbt_flags", U16);
     ("stats_sectors", U16); ("nr_phys_segments", U16); ("nr_integrity_segments", U16);
     ("write_hint", U16); ("ioprio", U16); ("extra_len", U32); ("state", Enum);
     ("ref", typedef_refcount_t); ("timeout", U32); ("deadline", U64); ("", Union
     [("csd", struct___call_single_data); ("fifo_time", typedef_u64)]); ("end_io", Ptr);
     ("end_io_data", Ptr)].

Definition struct_elevator_queue : cty :=
  Struct
    [("type", PtrTo "struct elevator_type"); ("elevator_data", Ptr); ("kobj", struct_kobject);
     ("sysfs_lock", struct_mutex); ("registered", Bits 4 1);
     ("hash", Array 64 struct_hlist_head)].

Definition struct_blk_queue_stats : cty :=
  Struct
    [("callbacks", struct_list_head); ("lock", typedef_spinlock_t);
     ("enable_accounting", typedef_bool)].

Definition struct_rq_qos : cty :=
  Struct
    [("ops", PtrTo "struct rq_qos_ops"); ("q", PtrTo "struct request_queue"); ("id", Enum);
     ("next", PtrTo "struct rq_qos"); ("debugfs_dir", PtrTo "struct dentry")].

Definition struct_blk_mq_ops : cty :=
  Struct
    [("queue_rq", Ptr); ("commit_rqs", Ptr); ("get_budget", Ptr); ("put_budget", Ptr);
     ("timeout", Ptr); ("poll", Ptr); ("complete", Ptr); ("init_hctx", Ptr);
     ("exit_hctx", Ptr); ("init_request", Ptr); ("exit_request", Ptr);
     ("initialize_rq_fn", Ptr); ("cleanup_rq", Ptr); ("busy", Ptr); ("map_queues", Ptr);
     ("show_rq", Ptr)].

Definition struct_blk_mq_ctx : cty :=
  Struct
    [("", Struct [("lock", typedef_spinlock_t); ("rq_lists", Array 3 struct_list_head);
     ("", Pad 8 64)]); ("cpu", U32); ("index_hw", Array 3 U16);
     ("hctxs", Array 3 (PtrTo "struct blk_mq_hw_ctx")); ("rq_dispatched", Array 2 U64);
     ("rq_merged", U64); ("rq_completed", Array 2 U64);
     ("queue", PtrTo "struct request_queue"); ("ctxs", PtrTo "struct blk_mq_ctxs");
     ("kobj", struct_kobject); ("", Pad 8 64); ("", Pad 8 64); ("", Pad 8 64);
     ("", Pad 8 64)].

Definition typedef_cpumask_var_t : cty := Array 1 struct_cpumask.

Definition struct_sbitmap : cty :=
  Struct
    [("depth", U32); ("shift", U32); ("map_nr", U32); ("map", PtrTo "struct sbitmap_word")].

Definition struct_srcu_node : cty :=
  Struct
    [("lock", typedef_spinlock_t); ("srcu_have_cbs", Array 4 U64);
     ("srcu_data_have_cbs", Array 4 U64); ("srcu_gp_seq_needed_exp", U64);
     ("srcu_parent", PtrTo "struct srcu_node"); ("grplo", U32); ("grphi", U32)].

Definition struct_srcu_struct : cty :=
  Struct
    [("node", Array 33 struct_srcu_node); ("level", Array 3 (PtrTo "struct srcu_node"));
     ("srcu_cb_mutex", struct_mutex); ("lock", typedef_spinlock_t);
     ("srcu_gp_mutex", struct_mutex); ("srcu_idx", U32); ("srcu_gp_seq", U64);
     ("srcu_gp_seq_needed", U64); ("srcu_gp_seq_needed_exp", U64); ("srcu_last_gp_end", U64);
     ("sda", PtrTo "struct srcu_data"); ("srcu_barrier_seq", U64);
     ("srcu_barrier_mutex", struct_mutex); ("srcu_barrier_completion", struct_completion);
     ("srcu_barrier_cpu_cnt", typedef_atomic_t); ("work", struct_delayed_work)].

Definition struct_blk_mq_hw_ctx : cty :=
  Struct
    [("", Struct [("lock", typedef_spinlock_t); ("dispatch", struct_list_head);
     ("state", U64); ("", Pad 8 64); ("", Pad 8 64); ("", Pad 8 64); ("", Pad 8 64)]);
     ("run_work", struct_delayed_work); ("cpumask", typedef_cpumask_var_t); ("next_cpu", U32);
     ("next_cpu_batch", U32); ("flags", U64); ("sched_data", Ptr);
     ("queue", PtrTo "struct request_queue"); ("fq", PtrTo "struct blk_flush_queue");
     ("driver_data", Ptr); ("ctx_map", struct_sbitmap);
     ("dispatch_from", PtrTo "struct blk_mq_ctx"); ("dispatch_busy", U32); ("type", U16);
     ("nr_ctx", U16); ("ctxs", Pointer 2 "struct blk_mq_ctx");
     ("dispatch_wait_lock", typedef_spinlock_t);
     ("dispatch_wait", typedef_wait_queue_entry_t); ("wait_index", typedef_atomic_t);
     ("tags", PtrTo "struct blk_mq_tags"); ("sched_tags", PtrTo "struct blk_mq_tags");
     ("queued", U64); ("run", U64); ("dispatched", Array 7 U64); ("numa_node", U32);
     ("queue_num", U32); ("nr_active", typedef_atomic_t); ("cpuhp_dead", struct_hlist_node);
     ("kobj", struct_kobject); ("poll_considered", U64); ("poll_invoked", U64);
     ("poll_success", U64); ("debugfs_dir", PtrTo "struct dentry");
     ("sched_debugfs_dir", PtrTo "struct dentry"); ("hctx_list", struct_list_head);
     ("srcu", Array 0 struct_srcu_struct); ("", Pad 8 64); ("", Pad 8 64); ("", Pad 8 64);
     ("", Pad 8 64)].

Definition struct_blk_integrity_profile : cty :=
  Struct
    [("generate_fn", Ptr); ("verify_fn", Ptr); ("prepare_fn", Ptr); ("complete_fn", Ptr);
     ("name", Ptr)].

Definition struct_blk_stat_callback : cty :=
  Struct
    [("list", struct_list_head); ("timer", struct_timer_list);
     ("cpu_stat", PtrTo "struct blk_rq_stat"); ("bucket_fn", Ptr); ("buckets", U32);
     ("stat", PtrTo "struct blk_rq_stat"); ("timer_fn", Ptr); ("data", Ptr);
     ("rcu", struct_callback_head)].

Definition struct_u64_stats_sync : cty := Struct [].

Definition struct_blkg_iostat : cty :=
  Struct
    [("bytes", Array 3 typedef_u64); ("ios", Array 3 typedef_u64)].

Definition struct_blkg_iostat_set : cty :=
  Struct
    [("sync", struct_u64_stats_sync); ("cur", struct_blkg_iostat);
     ("last", struct_blkg_iostat)].

Definition struct_blkcg_gq : cty :=
  Struct
    [("q", PtrTo "struct request_queue"); ("q_node", struct_list_head);
     ("blkcg_node", struct_hlist_node); ("blkcg", PtrTo "struct blkcg");
     ("wb_congested", PtrTo "struct bdi_writeback_congested");
     ("parent", PtrTo "struct blkcg_gq"); ("refcnt", struct_percpu_ref);
     ("online", typedef_bool); ("iostat_cpu", PtrTo "struct blkg_iostat_set");
     ("iostat", struct_blkg_iostat_set); ("pd", Array 5 (PtrTo "struct blkg_policy_data"));
     ("async_bio_lock", typedef_spinlock_t); ("async_bios", struct_bio_list);
     ("async_bio_work", struct_work_struct); ("use_delay", typedef_atomic_t);
     ("delay_nsec", typedef_atomic64_t); ("delay_start", typedef_atomic64_t);
     ("last_delay", typedef_u64); ("last_use", U32); ("callback_head", struct_callback_head)].

Definition struct_blk_trace : cty :=
  Struct
    [("trace_state", U32); ("rchan", PtrTo "struct rchan"); ("sequence", Ptr);
     ("msg_data", Ptr); ("act_mask", typedef_u16); ("start_lba", typedef_u64);
     ("end_lba", typedef_u64); ("pid", typedef_u32); ("dev", typedef_u32);
     ("dir", PtrTo "struct dentry"); ("dropped_file", PtrTo "struct dentry");
     ("msg_file", PtrTo "struct dentry"); ("running_list", struct_list_head);
     ("dropped", typedef_atomic_t)].

Definition struct_blk_flush_queue : cty :=
  Struct
    [("flush_queue_delayed", Bits 4 1); ("flush_pending_idx", Bits 4 1);
     ("flush_running_idx", Bits 4 1); ("rq_status", typedef_blk_status_t);
     ("flush_pending_since", U64); ("flush_queue", Array 2 struct_list_head);
     ("flush_data_in_flight", struct_list_head); ("flush_rq", PtrTo "struct request");
     ("orig_rq", PtrTo "struct request"); ("key", struct_lock_class_key);
     ("mq_flush_lock", typedef_spinlock_t)].

Definition struct_bsg_ops : cty :=
  Struct
    [("check_proto", Ptr); ("fill_hdr", Ptr); ("complete_rq", Ptr); ("free_rq", Ptr)].

Definition struct_throtl_service_queue : cty :=
  Struct
    [("parent_sq", PtrTo "struct throtl_service_queue"); ("queued", Array 2 struct_list_head);
     ("nr_queued", Array 2 U32); ("pending_tree", struct_rb_root_cached); ("nr_pending", U32);
     ("first_pending_disptime", U64); ("pending_timer", struct_timer_list)].

Definition struct_latency_bucket : cty :=
  Struct
    [("total_latency", U64); ("samples", U32)].

Definition struct_avg_latency_bucket : cty :=
  Struct
    [("latency", U64); ("valid", typedef_bool)].

Definition struct_throtl_data : cty :=
  Struct
    [("service_queue", struct_throtl_service_queue); ("queue", PtrTo "struct request_queue");
     ("nr_queued", Array 2 U32); ("throtl_slice", U32); ("dispatch_work", struct_work_struct);
     ("limit_index", U32); ("limit_valid", Array 2 typedef_bool); ("low_upgrade_time", U64);
     ("low_downgrade_time", U64); ("scale", U32);
     ("tmp_buckets", Array 18 struct_latency_bucket);
     ("avg_buckets", Array 18 struct_avg_latency_bucket);
     ("latency_buckets", Array 2 (PtrTo "struct latency_bucket"));
     ("last_calculate_time", U64); ("filtered_latency", U64);
     ("track_bio_latency", typedef_bool)].

Definition struct_blk_mq_queue_map : cty :=
  Struct
    [("mq_map", Ptr); ("nr_queues", U32); ("queue_offset", U32)].

Definition struct_blk_mq_tag_set : cty :=
  Struct
    [("map", Array 3 struct_blk_mq_queue_map); ("nr_maps", U32);
     ("ops", PtrTo "struct blk_mq_ops"); ("nr_hw_queues", U32); ("queue_depth", U32);
     ("reserved_tags", U32); ("cmd_size", U32); ("numa_node", U32); ("timeout", U32);
     ("flags", U32); ("driver_data", Ptr); ("tags", Pointer 2 "struct blk_mq_tags");
     ("tag_list_lock", struct_mutex); ("tag_list", struct_list_head)].

Definition struct_arch_uprobe : cty :=
  Struct
    [("", Union [("insn", Array 16 typedef_u8); ("ixol", Array 16 typedef_u8)]);
     ("ops", PtrTo "struct uprobe_xol_ops"); ("", Union [("branch", Struct
     [("offs", typedef_s32); ("ilen", typedef_u8); ("opc1", typedef_u8)]); ("defparam", Struct
     [("fixups", typedef_u8); ("ilen", typedef_u8)]); ("push", Struct
     [("reg_offset", typedef_u8); ("ilen", typedef_u8)])])].

Definition struct_uprobe : cty :=
  Struct
    [("rb_node", struct_rb_node); ("ref", typedef_refcount_t);
     ("register_rwsem", struct_rw_semaphore); ("consumer_rwsem", struct_rw_semaphore);
     ("pending_list", struct_list_head); ("consumers", PtrTo "struct uprobe_consumer");
     ("inode", PtrTo "struct inode___2"); ("offset", typedef_loff_t);
     ("ref_ctr_offset", typedef_loff_t); ("flags", U64); ("arch", struct_arch_uprobe)].

Definition struct_return_instance : cty :=
  Struct
    [("uprobe", PtrTo "struct uprobe"); ("func", U64); ("stack", U64);
     ("orig_ret_vaddr", U64); ("chained", typedef_bool);
     ("next", PtrTo "struct return_instance")].

Definition struct_rb_irq_work : cty :=
  Struct
    [("work", struct_irq_work); ("waiters", typedef_wait_queue_head_t);
     ("full_waiters", typedef_wait_queue_head_t); ("waiters_pending", typedef_bool);
     ("full_waiters_pending", typedef_bool); ("wakeup_full", typedef_bool)].

Definition struct_ring_buffer : cty :=
  Struct
    [("flags", U32); ("cpus", U32); ("record_disabled", typedef_atomic_t);
     ("resize_disabled", typedef_atomic_t); ("cpumask", typedef_cpumask_var_t);
     ("reader_lock_key", PtrTo "struct lock_class_key"); ("mutex", struct_mutex);
     ("buffers", Pointer 2 "struct ring_buffer_per_cpu"); ("node", struct_hlist_node);
     ("clock", Ptr); ("irq_work", struct_rb_irq_work); ("time_stamp_abs", typedef_bool)].

Definition struct_perf_addr_filter_range : cty :=
  Struct
    [("start", U64); ("size", U64)].

Definition struct_trace_event : cty :=
  Struct
    [("node", struct_hlist_node); ("list", struct_list_head); ("type", U32);
     ("funcs", PtrTo "struct trace_event_functions")].

Definition struct_trace_event_call : cty :=
  Struct
    [("list", struct_list_head); ("class", PtrTo "struct trace_event_class"); ("", Union
     [("name", Ptr); ("tp", PtrTo "struct tracepoint")]); ("event", struct_trace_event);
     ("print_fmt", Ptr); ("filter", PtrTo "struct event_filter"); ("mod", Ptr); ("data", Ptr);
     ("flags", U32); ("perf_refcount", U32); ("perf_events", PtrTo "struct hlist_head");
     ("prog_array", PtrTo "struct bpf_prog_array"); ("perf_perm", Ptr)].

Definition struct_event_filter : cty :=
  Struct
    [("prog", PtrTo "struct prog_entry"); ("filter_string", Ptr)].

Definition struct_ftrace_hash : cty :=
  Struct
    [("size_bits", U64); ("buckets", PtrTo "struct hlist_head"); ("count", U64);
     ("flags", U64); ("rcu", struct_callback_head)].

Definition struct_perf_cgroup : cty :=
  Struct
    [("css", struct_cgroup_subsys_state); ("info", PtrTo "struct perf_cgroup_info")].

Definition struct_timewait_sock_ops : cty :=
  Struct
    [("twsk_slab", PtrTo "struct kmem_cache"); ("twsk_slab_name", Ptr);
     ("twsk_obj_size", U32); ("twsk_unique", Ptr); ("twsk_destructor", Ptr)].

Definition struct_hlist_nulls_head : cty :=
  Struct
    [("first", PtrTo "struct hlist_nulls_node")].

Definition struct_inet_listen_hashbucket : cty :=
  Struct
    [("lock", typedef_spinlock_t); ("count", U32); ("", Union [("head", struct_hlist_head);
     ("nulls_head", struct_hlist_nulls_head)])].

Definition struct_inet_hashinfo : cty :=
  Struct
    [("ehash", PtrTo "struct inet_ehash_bucket"); ("ehash_locks", PtrTo "struct spinlock");
     ("ehash_mask", U32); ("ehash_locks_mask", U32);
     ("bind_bucket_cachep", PtrTo "struct kmem_cache");
     ("bhash", PtrTo "struct inet_bind_hashbucket"); ("bhash_size", U32);
     ("lhash2_mask", U32); ("lhash2", PtrTo "struct inet_listen_hashbucket"); ("", Pad 8 64);
     ("listening_hash", Array 32 struct_inet_listen_hashbucket)].

Definition struct_udp_table : cty :=
  Struct
    [("hash", PtrTo "struct udp_hslot"); ("hash2", PtrTo "struct udp_hslot"); ("mask", U32);
     ("log", U32)].

Definition struct_raw_hashinfo : cty :=
  Struct
    [("lock", typedef_rwlock_t); ("ht", Array 256 struct_hlist_head)].

Definition struct_smc_hashinfo : cty :=
  Struct
    [("lock", typedef_rwlock_t); ("ht", struct_hlist_head)].

Definition struct_ucounts : cty :=
  Struct
    [("node", struct_hlist_node); ("ns", PtrTo "struct user_namespace");
     ("uid", typedef_kuid_t); ("count", U32); ("ucount", Array 9 typedef_atomic_t)].

Definition struct_proc_ns_operations : cty :=
  Struct
    [("name", Ptr); ("real_ns_name", Ptr); ("type", U32); ("get", Ptr); ("put", Ptr);
     ("install", Ptr); ("owner", Ptr); ("get_parent", Ptr)].

Definition typedef_proc_write_t : cty := Ptr.
Definition typedef_nlink_t : cty := typedef_u32.

Definition struct_proc_dir_entry : cty :=
  Struct
    [("in_use", typedef_atomic_t); ("refcnt", typedef_refcount_t);
     ("pde_openers", struct_list_head); ("pde_unload_lock", typedef_spinlock_t);
     ("pde_unload_completion", PtrTo "struct completion");
     ("proc_iops", PtrTo "struct inode_operations___2");
     ("proc_fops", PtrTo "struct file_operations___2");
     ("proc_dops", PtrTo "struct dentry_operations"); ("", Union
     [("seq_ops", PtrTo "struct seq_operations"); ("single_show", Ptr)]);
     ("write", typedef_proc_write_t); ("data", Ptr); ("state_size", U32); ("low_ino", U32);
     ("nlink", typedef_nlink_t); ("uid", typedef_kuid_t); ("gid", typedef_kgid_t);
     ("size", typedef_loff_t); ("parent", PtrTo "struct proc_dir_entry");
     ("subdir", struct_rb_root); ("subdir_node", struct_rb_node); ("name", Ptr);
     ("mode", typedef_umode_t); ("namelen", typedef_u8); ("inline_name", Array 0 U8)].

Definition struct_ctl_table : cty :=
  Struct
    [("procname", Ptr); ("data", Ptr); ("maxlen", U32); ("mode", typedef_umode_t);
     ("child", PtrTo "struct ctl_table"); ("proc_handler", Ptr);
     ("poll", PtrTo "struct ctl_table_poll"); ("extra1", Ptr); ("extra2", Ptr)].

Definition struct_ctl_table_root : cty :=
  Struct
    [("default_set", struct_ctl_table_set); ("lookup", Ptr); ("set_ownership", Ptr);
     ("permissions", Ptr)].

Definition struct_ctl_node : cty :=
  Struct
    [("node", struct_rb_node); ("header", PtrTo "struct ctl_table_header")].

Definition struct_uevent_sock : cty :=
  Struct
    [("list", struct_list_head); ("sk", PtrTo "struct sock")].

Definition struct_net_device_stats : cty :=
  Struct
    [("rx_packets", U64); ("tx_packets", U64); ("rx_bytes", U64); ("tx_bytes", U64);
     ("rx_errors", U64); ("tx_errors", U64); ("rx_dropped", U64); ("tx_dropped", U64);
     ("multicast", U64); ("collisions", U64); ("rx_length_errors", U64);
     ("rx_over_errors", U64); ("rx_crc_errors", U64); ("rx_frame_errors", U64);
     ("rx_fifo_errors", U64); ("rx_missed_errors", U64); ("tx_aborted_errors", U64);
     ("tx_carrier_errors", U64); ("tx_fifo_errors", U64); ("tx_heartbeat_errors", U64);
     ("tx_window_errors", U64); ("rx_compressed", U64); ("tx_compressed", U64)].

Definition struct_netdev_hw_addr_list : cty :=
  Struct
    [("list", struct_list_head); ("count", U32)].

Definition struct_netdev_tc_txq : cty :=
  Struct
    [("count", typedef_u16); ("offset", typedef_u16)].

Definition struct_net_device : cty :=
  Struct
    [("name", Array 16 U8); ("name_hlist", struct_hlist_node);
     ("ifalias", PtrTo "struct dev_ifalias"); ("mem_end", U64); ("mem_start", U64);
     ("base_addr", U64); ("irq", U32); ("state", U64); ("dev_list", struct_list_head);
     ("napi_list", struct_list_head); ("unreg_list", struct_list_head);
     ("close_list", struct_list_head); ("ptype_all", struct_list_head);
     ("ptype_specific", struct_list_head); ("adj_list", Struct [("upper", struct_list_head);
     ("lower", struct_list_head)]); ("features", typedef_netdev_features_t);
     ("hw_features", typedef_netdev_features_t);
     ("wanted_features", typedef_netdev_features_t);
     ("vlan_features", typedef_netdev_features_t);
     ("hw_enc_features", typedef_netdev_features_t);
     ("mpls_features", typedef_netdev_features_t);
     ("gso_partial_features", typedef_netdev_features_t); ("ifindex", U32); ("group", U32);
     ("stats", struct_net_device_stats); ("rx_dropped", typedef_atomic_long_t);
     ("tx_dropped", typedef_atomic_long_t); ("rx_nohandler", typedef_atomic_long_t);
     ("carrier_up_count", typedef_atomic_t); ("carrier_down_count", typedef_atomic_t);
     ("wireless_handlers", PtrTo "struct iw_handler_def");
     ("wireless_data", PtrTo "struct iw_public_data");
     ("netdev_ops", PtrTo "struct net_device_ops");
     ("ethtool_ops", PtrTo "struct ethtool_ops"); ("l3mdev_ops", PtrTo "struct l3mdev_ops");
     ("ndisc_ops", PtrTo "struct ndisc_ops"); ("xfrmdev_ops", PtrTo "struct xfrmdev_ops");
     ("header_ops", PtrTo "struct header_ops"); ("flags", U32); ("priv_flags", U32);
     ("gflags", U16); ("padded", U16); ("operstate", U8); ("link_mode", U8); ("if_port", U8);
     ("dma", U8); ("mtu", U32); ("min_mtu", U32); ("max_mtu", U32); ("type", U16);
     ("hard_header_len", U16); ("min_header_len", U8); ("needed_headroom", U16);
     ("needed_tailroom", U16); ("perm_addr", Array 32 U8); ("addr_assign_type", U8);
     ("addr_len", U8); ("upper_level", U8); ("lower_level", U8); ("neigh_priv_len", U16);
     ("dev_id", U16); ("dev_port", U16); ("addr_list_lock", typedef_spinlock_t);
     ("name_assign_type", U8); ("uc_promisc", typedef_bool);
     ("uc", struct_netdev_hw_addr_list); ("mc", struct_netdev_hw_addr_list);
     ("dev_addrs", struct_netdev_hw_addr_list); ("queues_kset", PtrTo "struct kset");
     ("promiscuity", U32); ("allmulti", U32); ("vlan_info", PtrTo "struct vlan_info");
     ("tipc_ptr", PtrTo "struct tipc_bearer"); ("atalk_ptr", Ptr);
     ("ip_ptr", PtrTo "struct in_device"); ("dn_ptr", PtrTo "struct dn_dev");
     ("ip6_ptr", PtrTo "struct inet6_dev"); ("ax25_ptr", Ptr);
     ("ieee80211_ptr", PtrTo "struct wireless_dev");
     ("ieee802154_ptr", PtrTo "struct wpan_dev"); ("mpls_ptr", PtrTo "struct mpls_dev");
     ("dev_addr", Ptr); ("_rx", PtrTo "struct netdev_rx_queue"); ("num_rx_queues", U32);
     ("real_num_rx_queues", U32); ("xdp_prog", PtrTo "struct bpf_prog");
     ("gro_flush_timeout", U64); ("rx_handler", Ptr); ("rx_handler_data", Ptr);
     ("miniq_ingress", PtrTo "struct mini_Qdisc");
     ("ingress_queue", PtrTo "struct netdev_queue");
     ("nf_hooks_ingress", PtrTo "struct nf_hook_entries"); ("broadcast", Array 32 U8);
     ("rx_cpu_rmap", PtrTo "struct cpu_rmap"); ("index_hlist", struct_hlist_node);
     ("", Pad 8 64); ("", Pad 8 64); ("_tx", PtrTo "struct netdev_queue");
     ("num_tx_queues", U32); ("real_num_tx_queues", U32); ("qdisc", PtrTo "struct Qdisc");
     ("qdisc_hash", Array 16 struct_hlist_head); ("tx_queue_len", U32);
     ("tx_global_lock", typedef_spinlock_t); ("watchdog_timeo", U32);
     ("xps_cpus_map", PtrTo "struct xps_dev_maps");
     ("xps_rxqs_map", PtrTo "struct xps_dev_maps");
     ("miniq_egress", PtrTo "struct mini_Qdisc"); ("watchdog_timer", struct_timer_list);
     ("pcpu_refcnt", Ptr); ("todo_list", struct_list_head);
     ("link_watch_list", struct_list_head); ("reg_state", Bits 4 8);
     ("dismantle", typedef_bool); ("rtnl_link_state", Bits 4 16);
     ("needs_free_netdev", typedef_bool); ("priv_destructor", Ptr);
     ("npinfo", PtrTo "struct netpoll_info"); ("nd_net", typedef_possible_net_t);
     ("ml_priv", Ptr); ("ml_priv_type", Enum); ("", Union
     [("lstats", PtrTo "struct pcpu_lstats"); ("tstats", PtrTo "struct pcpu_sw_netstats");
     ("dstats", PtrTo "struct pcpu_dstats")]); ("garp_port", PtrTo "struct garp_port");
     ("mrp_port", PtrTo "struct mrp_port"); ("dev", struct_device);
     ("sysfs_groups", Array 4 (PtrTo "struct attribute_group"));
     ("sysfs_rx_queue_group", PtrTo "struct attribute_group");
     ("rtnl_link_ops", PtrTo "struct rtnl_link_ops"); ("gso_max_size", U32);
     ("gso_max_segs", typedef_u16); ("dcbnl_ops", PtrTo "struct dcbnl_rtnl_ops");
     ("num_tc", typedef_s16); ("tc_to_txq", Array 16 struct_netdev_tc_txq);
     ("prio_tc_map", Array 16 typedef_u8); ("fcoe_ddp_xid", U32);
     ("priomap", PtrTo "struct netprio_map"); ("phydev", PtrTo "struct phy_device");
     ("sfp_bus", PtrTo "struct sfp_bus"); ("qdisc_tx_busylock_key", struct_lock_class_key);
     ("qdisc_running_key", struct_lock_class_key);
     ("qdisc_xmit_lock_key", struct_lock_class_key);
     ("addr_list_lock_key", struct_lock_class_key); ("proto_down", typedef_bool);
     ("wol_enabled", Bits 4 1); ("", Pad 8 64); ("", Pad 8 64); ("", Pad 8 64)].

Definition struct_prot_inuse : cty :=
  Struct
    [("val", Array 64 U32)].

Definition struct_tcp_mib : cty :=
  Struct
    [("mibs", Array 16 U64)].

Definition struct_ipstats_mib : cty :=
  Struct
    [("mibs", Array 39 typedef_u64); ("syncp", struct_u64_stats_sync)].

Definition struct_linux_mib : cty :=
  Struct
    [("mibs", Array 120 U64)].

Definition struct_udp_mib : cty :=
  Struct
    [("mibs", Array 9 U64)].

Definition struct_icmp_mib : cty :=
  Struct
    [("mibs", Array 28 U64)].

Definition struct_icmpmsg_mib : cty :=
  Struct
    [("mibs", Array 512 typedef_atomic_long_t)].

Definition struct_icmpv6_mib : cty :=
  Struct
    [("mibs", Array 6 U64)].

Definition struct_icmpv6msg_mib : cty :=
  Struct
    [("mibs", Array 512 typedef_atomic_long_t)].

Definition struct_linux_xfrm_mib : cty :=
  Struct
    [("mibs", Array 29 U64)].

Definition struct_ipv4_devconf : cty :=
  Struct
    [("sysctl", Ptr); ("data", Array 32 U32); ("state", Array 1 U64)].

Definition struct_ip_ra_chain : cty :=
  Struct
    [("next", PtrTo "struct ip_ra_chain"); ("sk", PtrTo "struct sock"); ("", Union
     [("destructor", Ptr); ("saved_sk", PtrTo "struct sock")]);
     ("rcu", struct_callback_head)].

Definition struct_fib_rules_ops : cty :=
  Struct
    [("family", U32); ("list", struct_list_head); ("rule_size", U32); ("addr_size", U32);
     ("unresolved_rules", U32); ("nr_goto_rules", U32); ("fib_rules_seq", U32);
     ("action", Ptr); ("suppress", Ptr); ("match", Ptr); ("configure", Ptr); ("delete", Ptr);
     ("compare", Ptr); ("fill", Ptr); ("nlmsg_payload", Ptr); ("flush_cache", Ptr);
     ("nlgroup", U32); ("policy", PtrTo "struct nla_policy");
     ("rules_list", struct_list_head); ("owner", PtrTo "struct module");
     ("fro_net", PtrTo "struct net"); ("rcu", struct_callback_head)].

Definition struct_fib_table : cty :=
  Struct
    [("tb_hlist", struct_hlist_node); ("tb_id", typedef_u32); ("tb_num_default", U32);
     ("rcu", struct_callback_head); ("tb_data", Ptr); ("__data", Array 0 U64)].

Definition struct_inet_peer_base : cty :=
  Struct
    [("rb_root", struct_rb_root); ("lock", typedef_seqlock_t); ("total", U32)].

Definition struct_fqdir : cty :=
  Struct
    [("high_thresh", U64); ("low_thresh", U64); ("timeout", U32); ("max_dist", U32);
     ("f", PtrTo "struct inet_frags"); ("net", PtrTo "struct net"); ("dead", typedef_bool);
     ("", Pad 8 64); ("", Pad 8 64); ("rhashtable", struct_rhashtable); ("", Pad 8 64);
     ("", Pad 8 64); ("", Pad 8 64); ("", Pad 8 64); ("", Pad 8 64); ("", Pad 8 64);
     ("", Pad 8 64); ("mem", typedef_atomic_long_t); ("destroy_work", struct_work_struct);
     ("", Pad 8 64); ("", Pad 8 64); ("", Pad 8 64)].

Definition typedef_u_int8_t : cty := typedef_u8.

Definition struct_xt_table : cty :=
  Struct
    [("list", struct_list_head); ("valid_hooks", U32);
     ("private", PtrTo "struct xt_table_info"); ("me", PtrTo "struct module");
     ("af", typedef_u_int8_t); ("priority", U32); ("table_init", Ptr); ("name", Array 32 U8)].

Definition struct_fib_notifier_ops : cty :=
  Struct
    [("family", U32); ("list", struct_list_head); ("fib_seq_read", Ptr); ("fib_dump", Ptr);
     ("owner", PtrTo "struct module"); ("rcu", struct_callback_head)].

Definition struct_ipv6_stable_secret : cty :=
  Struct
    [("initialized", typedef_bool); ("secret", struct_in6_addr)].

Definition struct_ipv6_devconf : cty :=
  Struct
    [("forwarding", typedef___s32); ("hop_limit", typedef___s32); ("mtu6", typedef___s32);
     ("accept_ra", typedef___s32); ("accept_redirects", typedef___s32);
     ("autoconf", typedef___s32); ("dad_transmits", typedef___s32);
     ("rtr_solicits", typedef___s32); ("rtr_solicit_interval", typedef___s32);
     ("rtr_solicit_max_interval", typedef___s32); ("rtr_solicit_delay", typedef___s32);
     ("force_mld_version", typedef___s32);
     ("mldv1_unsolicited_report_interval", typedef___s32);
     ("mldv2_unsolicited_report_interval", typedef___s32); ("use_tempaddr", typedef___s32);
     ("temp_valid_lft", typedef___s32); ("temp_prefered_lft", typedef___s32);
     ("regen_max_retry", typedef___s32); ("max_desync_factor", typedef___s32);
     ("max_addresses", typedef___s32); ("accept_ra_defrtr", typedef___s32);
     ("accept_ra_min_hop_limit", typedef___s32); ("accept_ra_pinfo", typedef___s32);
     ("ignore_routes_with_linkdown", typedef___s32); ("accept_ra_rtr_pref", typedef___s32);
     ("rtr_probe_interval", typedef___s32); ("accept_ra_rt_info_min_plen", typedef___s32);
     ("accept_ra_rt_info_max_plen", typedef___s32); ("proxy_ndp", typedef___s32);
     ("accept_source_route", typedef___s32); ("accept_ra_from_local", typedef___s32);
     ("optimistic_dad", typedef___s32); ("use_optimistic", typedef___s32);
     ("mc_forwarding", typedef___s32); ("disable_ipv6", typedef___s32);
     ("drop_unicast_in_l2_multicast", typedef___s32); ("accept_dad", typedef___s32);
     ("force_tllao", typedef___s32); ("ndisc_notify", typedef___s32);
     ("suppress_frag_ndisc", typedef___s32); ("accept_ra_mtu", typedef___s32);
     ("drop_unsolicited_na", typedef___s32); ("stable_secret", struct_ipv6_stable_secret);
     ("use_oif_addrs_only", typedef___s32); ("keep_addr_on_down", typedef___s32);
     ("seg6_enabled", typedef___s32); ("seg6_require_hmac", typedef___s32);
     ("enhanced_dad", typedef___u32); ("addr_gen_mode", typedef___u32);
     ("disable_policy", typedef___s32); ("ndisc_tclass", typedef___s32);
     ("sysctl_header", PtrTo "struct ctl_table_header")].

Definition struct_rt6key : cty :=
  Struct
    [("addr", struct_in6_addr); ("plen", U32)].

Definition struct_fib_nh_common : cty :=
  Struct
    [("nhc_dev", PtrTo "struct net_device"); ("nhc_oif", U32); ("nhc_scope", U8);
     ("nhc_family", typedef_u8); ("nhc_gw_family", typedef_u8); ("nhc_flags", U8);
     ("nhc_lwtstate", PtrTo "struct lwtunnel_state"); ("nhc_gw", Union
     [("ipv4", typedef___be32); ("ipv6", struct_in6_addr)]); ("nhc_weight", U32);
     ("nhc_upper_bound", typedef_atomic_t);
     ("nhc_pcpu_rth_output", Pointer 2 "struct rtable");
     ("nhc_rth_input", PtrTo "struct rtable");
     ("nhc_exceptions", PtrTo "struct fnhe_hash_bucket")].

Definition struct_fib6_nh : cty :=
  Struct
    [("nh_common", struct_fib_nh_common); ("last_probe", U64);
     ("rt6i_pcpu", Pointer 2 "struct rt6_info");
     ("rt6i_exception_bucket", PtrTo "struct rt6_exception_bucket")].

Definition struct_fib6_info : cty :=
  Struct
    [("fib6_table", PtrTo "struct fib6_table"); ("fib6_next", PtrTo "struct fib6_info");
     ("fib6_node", PtrTo "struct fib6_node"); ("", Union [("fib6_siblings", struct_list_head);
     ("nh_list", struct_list_head)]); ("fib6_nsiblings", U32);
     ("fib6_ref", typedef_refcount_t); ("expires", U64);
     ("fib6_metrics", PtrTo "struct dst_metrics"); ("fib6_dst", struct_rt6key);
     ("fib6_flags", typedef_u32); ("fib6_src", struct_rt6key);
     ("fib6_prefsrc", struct_rt6key); ("fib6_metric", typedef_u32);
     ("fib6_protocol", typedef_u8); ("fib6_type", typedef_u8); ("should_flush", Bits 1 1);
     ("dst_nocount", Bits 1 1); ("dst_nopolicy", Bits 1 1); ("dst_host", Bits 1 1);
     ("fib6_destroying", Bits 1 1); ("unused", Bits 1 3); ("rcu", struct_callback_head);
     ("nh", PtrTo "struct nexthop"); ("fib6_nh", Array 0 struct_fib6_nh)].

Definition struct_rt6_info : cty :=
  Struct
    [("dst", struct_dst_entry); ("from", PtrTo "struct fib6_info"); ("sernum", U32);
     ("rt6i_dst", struct_rt6key); ("rt6i_src", struct_rt6key);
     ("rt6i_gateway", struct_in6_addr); ("rt6i_idev", PtrTo "struct inet6_dev");
     ("rt6i_flags", typedef_u32); ("rt6i_uncached", struct_list_head);
     ("rt6i_uncached_list", PtrTo "struct uncached_list"); ("rt6i_nfheader_len", U16)].

Definition struct_rt6_statistics : cty :=
  Struct
    [("fib_nodes", typedef___u32); ("fib_route_nodes", typedef___u32);
     ("fib_rt_entries", typedef___u32); ("fib_rt_cache", typedef___u32);
     ("fib_discarded_routes", typedef___u32); ("fib_rt_alloc", typedef_atomic_t);
     ("fib_rt_uncache", typedef_atomic_t)].

Definition struct_fib6_node : cty :=
  Struct
    [("parent", PtrTo "struct fib6_node"); ("left", PtrTo "struct fib6_node");
     ("right", PtrTo "struct fib6_node"); ("subtree", PtrTo "struct fib6_node");
     ("leaf", PtrTo "struct fib6_info"); ("fn_bit", typedef___u16);
     ("fn_flags", typedef___u16); ("fn_sernum", U32); ("rr_ptr", PtrTo "struct fib6_info");
     ("rcu", struct_callback_head)].

Definition struct_fib6_table : cty :=
  Struct
    [("tb6_hlist", struct_hlist_node); ("tb6_id", typedef_u32);
     ("tb6_lock", typedef_spinlock_t); ("tb6_root", struct_fib6_node);
     ("tb6_peers", struct_inet_peer_base); ("flags", U32); ("fib_seq", U32)].

Definition struct_seg6_pernet_data : cty :=
  Struct
    [("lock", struct_mutex); ("tun_src", PtrTo "struct in6_addr");
     ("hmac_infos", struct_rhashtable)].

Definition struct_nf_queue_handler : cty :=
  Struct
    [("outfn", Ptr); ("nf_hook_drop", Ptr)].

Definition struct_nf_logger : cty :=
  Struct
    [("name", Ptr); ("type", Enum); ("logfn", Ptr); ("me", PtrTo "struct module")].

Definition struct_nf_hook_entry : cty :=
  Struct
    [("hook", Ptr); ("priv", Ptr)].

Definition struct_nf_hook_entries : cty :=
  Struct
    [("num_hook_entries", typedef_u16); ("hooks", Array 0 struct_nf_hook_entry)].

Definition struct_ct_pcpu : cty :=
  Struct
    [("lock", typedef_spinlock_t); ("unconfirmed", struct_hlist_nulls_head);
     ("dying", struct_hlist_nulls_head)].

Definition struct_ip_conntrack_stat : cty :=
  Struct
    [("found", U32); ("invalid", U32); ("ignore", U32); ("insert", U32);
     ("insert_failed", U32); ("drop", U32); ("early_drop", U32); ("error", U32);
     ("expect_new", U32); ("expect_create", U32); ("expect_delete", U32);
     ("search_restart", U32)].

Definition struct_nf_ct_event_notifier : cty :=
  Struct
    [("fcn", Ptr)].

Definition struct_nf_exp_event_notifier : cty :=
  Struct
    [("fcn", Ptr)].

Definition struct_net_generic : cty :=
  Struct
    [("", Union [("s", Struct [("len", U32); ("rcu", struct_callback_head)]);
     ("ptr", Array 0 Ptr)])].

Definition struct_ipv6_opt_hdr : cty :=
  Struct
    [("nexthdr", typedef___u8); ("hdrlen", typedef___u8)].

Definition struct_ipv6_rt_hdr : cty :=
  Struct
    [("nexthdr", typedef___u8); ("hdrlen", typedef___u8); ("type", typedef___u8);
     ("segments_left", typedef___u8)].

Definition struct_skb_ext : cty :=
  Struct
    [("refcnt", typedef_refcount_t); ("offset", Array 2 typedef_u8); ("chunks", typedef_u8);
     ("", Pad 8 0); ("data", Array 0 U8)].

Definition struct_xfrm_sec_ctx : cty :=
  Struct
    [("ctx_doi", typedef___u8); ("ctx_alg", typedef___u8); ("ctx_len", typedef___u16);
     ("ctx_sid", typedef___u32); ("ctx_str", Array 0 U8)].

Definition struct_xfrm_state_walk : cty :=
  Struct
    [("all", struct_list_head); ("state", typedef_u8); ("dying", typedef_u8);
     ("proto", typedef_u8); ("seq", typedef_u32);
     ("filter", PtrTo "struct xfrm_address_filter")].

Definition struct_xfrm_replay_state : cty :=
  Struct
    [("oseq", typedef___u32); ("seq", typedef___u32); ("bitmap", typedef___u32)].

Definition struct_xfrm_stats : cty :=
  Struct
    [("replay_window", typedef___u32); ("replay", typedef___u32);
     ("integrity_failed", typedef___u32)].

Definition struct_xfrm_state_offload : cty :=
  Struct
    [("dev", PtrTo "struct net_device"); ("offload_handle", U64); ("num_exthdrs", U32);
     ("flags", typedef_u8)].

Definition struct_xfrm_mode : cty :=
  Struct
    [("encap", typedef_u8); ("family", typedef_u8); ("flags", typedef_u8)].

Definition struct_xfrm_state : cty :=
  Struct
    [("xs_net", typedef_possible_net_t); ("", Union [("gclist", struct_hlist_node);
     ("bydst", struct_hlist_node)]); ("bysrc", struct_hlist_node);
     ("byspi", struct_hlist_node); ("refcnt", typedef_refcount_t);
     ("lock", typedef_spinlock_t); ("id", struct_xfrm_id); ("sel", struct_xfrm_selector);
     ("mark", struct_xfrm_mark); ("if_id", typedef_u32); ("tfcpad", typedef_u32);
     ("genid", typedef_u32); ("km", struct_xfrm_state_walk); ("props", Struct
     [("reqid", typedef_u32); ("mode", typedef_u8); ("replay_window", typedef_u8);
     ("aalgo", typedef_u8); ("ealgo", typedef_u8); ("calgo", typedef_u8);
     ("flags", typedef_u8); ("family", typedef_u16); ("saddr", typedef_xfrm_address_t);
     ("header_len", U32); ("trailer_len", U32); ("extra_flags", typedef_u32);
     ("smark", struct_xfrm_mark)]); ("lft", struct_xfrm_lifetime_cfg);
     ("aalg", PtrTo "struct xfrm_algo_auth"); ("ealg", PtrTo "struct xfrm_algo");
     ("calg", PtrTo "struct xfrm_algo"); ("aead", PtrTo "struct xfrm_algo_aead");
     ("geniv", Ptr); ("encap", PtrTo "struct xfrm_encap_tmpl");
     ("coaddr", PtrTo "xfrm_address_t"); ("tunnel", PtrTo "struct xfrm_state");
     ("tunnel_users", typedef_atomic_t); ("replay", struct_xfrm_replay_state);
     ("replay_esn", PtrTo "struct xfrm_replay_state_esn");
     ("preplay", struct_xfrm_replay_state);
     ("preplay_esn", PtrTo "struct xfrm_replay_state_esn");
     ("repl", PtrTo "struct xfrm_replay"); ("xflags", typedef_u32);
     ("replay_maxage", typedef_u32); ("replay_maxdiff", typedef_u32);
     ("rtimer", struct_timer_list); ("stats", struct_xfrm_stats);
     ("curlft", struct_xfrm_lifetime_cur); ("mtimer", struct_hrtimer);
     ("xso", struct_xfrm_state_offload); ("saved_tmo", U64); ("lastused", typedef_time64_t);
     ("xfrag", struct_page_frag); ("type", PtrTo "struct xfrm_type");
     ("inner_mode", struct_xfrm_mode); ("inner_mode_iaf", struct_xfrm_mode);
     ("outer_mode", struct_xfrm_mode); ("type_offload", PtrTo "struct xfrm_type_offload");
     ("security", PtrTo "struct xfrm_sec_ctx"); ("data", Ptr)].

Definition struct_lwtunnel_state : cty :=
  Struct
    [("type", typedef___u16); ("flags", typedef___u16); ("headroom", typedef___u16);
     ("refcnt", typedef_atomic_t); ("orig_output", Ptr); ("orig_input", Ptr);
     ("rcu", struct_callback_head); ("data", Array 0 typedef___u8)].

Definition struct_bpf_sk_storage_data : cty :=
  Struct
    [("smap", PtrTo "struct bpf_sk_storage_map"); ("data", Array 0 typedef_u8)].

Definition struct_ipv6_mc_socklist : cty :=
  Struct
    [("addr", struct_in6_addr); ("ifindex", U32); ("sfmode", U32);
     ("next", PtrTo "struct ipv6_mc_socklist"); ("sflock", typedef_rwlock_t);
     ("sflist", PtrTo "struct ip6_sf_socklist"); ("rcu", struct_callback_head)].

Definition struct_ipv6_ac_socklist : cty :=
  Struct
    [("acl_addr", struct_in6_addr); ("acl_ifindex", U32);
     ("acl_next", PtrTo "struct ipv6_ac_socklist")].

Definition struct_ipv6_fl_socklist : cty :=
  Struct
    [("next", PtrTo "struct ipv6_fl_socklist"); ("fl", PtrTo "struct ip6_flowlabel");
     ("rcu", struct_callback_head)].

Definition struct_ip_sf_socklist : cty :=
  Struct
    [("sl_max", U32); ("sl_count", U32); ("rcu", struct_callback_head);
     ("sl_addr", Array 0 typedef___be32)].

Definition struct_iov_iter : cty :=
  Struct
    [("type", U32); ("iov_offset", typedef_size_t); ("count", typedef_size_t); ("", Union
     [("iov", PtrTo "struct iovec"); ("kvec", PtrTo "struct kvec");
     ("bvec", PtrTo "struct bio_vec"); ("pipe", PtrTo "struct pipe_inode_info")]); ("", Union
     [("nr_segs", U64); ("", Struct [("idx", U32); ("start_idx", U32)])])].

Definition struct_msghdr : cty :=
  Struct
    [("msg_name", Ptr); ("msg_namelen", U32); ("msg_iter", struct_iov_iter);
     ("msg_control", Ptr); ("msg_controllen", typedef___kernel_size_t); ("msg_flags", U32);
     ("msg_iocb", PtrTo "struct kiocb")].

Definition struct_mmpin : cty :=
  Struct
    [("user", PtrTo "struct user_struct"); ("num_pg", U32)].

Definition struct_ubuf_info : cty :=
  Struct
    [("callback", Ptr); ("", Union [("", Struct [("desc", U64); ("ctx", Ptr)]); ("", Struct
     [("id", typedef_u32); ("len", typedef_u16); ("zerocopy", Bits 2 1);
     ("bytelen", typedef_u32)])]); ("refcnt", typedef_refcount_t); ("mmp", struct_mmpin)].

(** The types by name. *)
Definition reached_types2 : list (string * cty) :=
    [("struct dentry_operations", struct_dentry_operations);
     ("struct module_kobject", struct_module_kobject);
     ("struct latch_tree_node", struct_latch_tree_node);
     ("struct mod_tree_node", struct_mod_tree_node);
     ("struct module_layout", struct_module_layout);
     ("struct mod_arch_specific", struct_mod_arch_specific);
     ("struct mod_kallsyms", struct_mod_kallsyms); ("struct module", struct_module);
     ("struct pid_namespace", struct_pid_namespace);
     ("struct ratelimit_state", struct_ratelimit_state);
     ("struct user_struct", struct_user_struct);
     ("struct uid_gid_extent", struct_uid_gid_extent);
     ("struct uid_gid_map", struct_uid_gid_map);
     ("struct user_namespace", struct_user_namespace);
     ("struct group_info", struct_group_info);
     ("struct lock_class_key", struct_lock_class_key);
     ("struct file_system_type", struct_file_system_type);
     ("struct super_operations", struct_super_operations);
     ("struct dquot_operations", struct_dquot_operations);
     ("struct quotactl_ops", struct_quotactl_ops);
     ("struct export_operations", struct_export_operations);
     ("struct xattr_handler", struct_xattr_handler);
     ("struct quota_format_type", struct_quota_format_type);
     ("struct quota_format_ops", struct_quota_format_ops);
     ("struct workqueue_struct", struct_workqueue_struct);
     ("struct list_lru_one", struct_list_lru_one);
     ("struct list_lru_node", struct_list_lru_node);
     ("struct bdi_writeback_congested", struct_bdi_writeback_congested);
     ("struct pipe_buffer", struct_pipe_buffer);
     ("struct dev_links_info", struct_dev_links_info);
     ("struct pm_message", struct_pm_message); ("struct dev_pm_info", struct_dev_pm_info);
     ("struct dev_archdata", struct_dev_archdata); ("struct device", struct_device);
     ("struct hd_struct", struct_hd_struct); ("struct lockdep_map", struct_lockdep_map);
     ("struct gendisk", struct_gendisk); ("struct kset", struct_kset);
     ("struct kobj_type", struct_kobj_type);
     ("struct kernfs_elem_dir", struct_kernfs_elem_dir);
     ("struct kernfs_elem_symlink", struct_kernfs_elem_symlink);
     ("struct kernfs_elem_attr", struct_kernfs_elem_attr);
     ("union kernfs_node_id", union_kernfs_node_id);
     ("struct kernfs_node", struct_kernfs_node); ("struct anon_vma", struct_anon_vma);
     ("struct vm_operations_struct", struct_vm_operations_struct);
     ("struct userfaultfd_ctx", struct_userfaultfd_ctx); ("pgd_t", typedef_pgd_t);
     ("struct linux_binfmt", struct_linux_binfmt); ("struct ldt_struct", struct_ldt_struct);
     ("struct vdso_image", struct_vdso_image); ("struct core_thread", struct_core_thread);
     ("struct core_state", struct_core_state); ("struct kioctx_table", struct_kioctx_table);
     ("struct mmu_notifier_mm", struct_mmu_notifier_mm);
     ("struct vm_special_mapping", struct_vm_special_mapping);
     ("struct xol_area", struct_xol_area); ("struct rt_prio_array", struct_rt_prio_array);
     ("struct plist_head", struct_plist_head); ("struct rt_rq", struct_rt_rq);
     ("struct dl_rq", struct_dl_rq); ("struct cpu_stop_work", struct_cpu_stop_work);
     ("struct __call_single_data", struct___call_single_data);
     ("struct llist_head", struct_llist_head); ("struct rq", struct_rq);
     ("struct task_cputime", struct_task_cputime);
     ("struct cgroup_base_stat", struct_cgroup_base_stat);
     ("struct psi_group", struct_psi_group); ("struct cgroup_bpf", struct_cgroup_bpf);
     ("struct cgroup_freezer_state", struct_cgroup_freezer_state);
     ("struct cgroup", struct_cgroup); ("struct cgroup_subsys", struct_cgroup_subsys);
     ("struct autogroup", struct_autogroup);
     ("struct hrtimer_cpu_base", struct_hrtimer_cpu_base);
     ("struct key_user", struct_key_user); ("struct key_type", struct_key_type);
     ("struct key_tag", struct_key_tag); ("struct key_restriction", struct_key_restriction);
     ("struct vfsmount___2", struct_vfsmount___2); ("struct dentry___2", struct_dentry___2);
     ("struct address_space___2", struct_address_space___2);
     ("struct inode___2", struct_inode___2); ("struct filename", struct_filename);
     ("struct new_utsname", struct_new_utsname);
     ("struct uts_namespace", struct_uts_namespace);
     ("struct rhashtable_params", struct_rhashtable_params);
     ("struct rhashtable", struct_rhashtable); ("struct ipc_ids", struct_ipc_ids);
     ("struct notifier_block", struct_notifier_block);
     ("struct ipc_namespace", struct_ipc_namespace);
     ("struct mnt_namespace", struct_mnt_namespace);
     ("struct cgroup_namespace", struct_cgroup_namespace);
     ("struct ld_semaphore", struct_ld_semaphore); ("struct ktermios", struct_ktermios);
     ("struct winsize", struct_winsize); ("struct tty_struct", struct_tty_struct);
     ("struct taskstats", struct_taskstats); ("struct tty_audit_buf", struct_tty_audit_buf);
     ("struct audit_aux_data", struct_audit_aux_data);
     ("struct __kernel_sockaddr_storage", struct___kernel_sockaddr_storage);
     ("struct audit_tree_refs", struct_audit_tree_refs);
     ("struct sock_filter", struct_sock_filter); ("struct bpf_prog", struct_bpf_prog);
     ("struct semaphore", struct_semaphore); ("struct notification", struct_notification);
     ("struct bvec_iter", struct_bvec_iter); ("struct bio_issue", struct_bio_issue);
     ("struct bio_vec", struct_bio_vec); ("struct bio", struct_bio);
     ("struct io_cq", struct_io_cq); ("struct compact_control", struct_compact_control);
     ("struct pmu", struct_pmu); ("struct reciprocal_value", struct_reciprocal_value);
     ("struct kmem_cache_order_objects", struct_kmem_cache_order_objects);
     ("struct kmem_cache", struct_kmem_cache); ("struct vmem_altmap", struct_vmem_altmap);
     ("struct resource", struct_resource); ("struct dev_pagemap", struct_dev_pagemap);
     ("struct mem_cgroup_threshold", struct_mem_cgroup_threshold);
     ("struct mem_cgroup_threshold_ary", struct_mem_cgroup_threshold_ary);
     ("struct memcg_vmstats_percpu", struct_memcg_vmstats_percpu);
     ("struct obj_cgroup", struct_obj_cgroup);
     ("struct zone_reclaim_stat", struct_zone_reclaim_stat); ("struct lruvec", struct_lruvec);
     ("struct mem_cgroup_reclaim_iter", struct_mem_cgroup_reclaim_iter);
     ("struct mem_cgroup_per_node", struct_mem_cgroup_per_node);
     ("struct request", struct_request); ("struct elevator_queue", struct_elevator_queue);
     ("struct blk_queue_stats", struct_blk_queue_stats); ("struct rq_qos", struct_rq_qos);
     ("struct blk_mq_ops", struct_blk_mq_ops); ("struct blk_mq_ctx", struct_blk_mq_ctx);
     ("struct sbitmap", struct_sbitmap); ("struct srcu_node", struct_srcu_node);
     ("struct srcu_struct", struct_srcu_struct);
     ("struct blk_mq_hw_ctx", struct_blk_mq_hw_ctx);
     ("struct blk_integrity_profile", struct_blk_integrity_profile);
     ("struct blk_stat_callback", struct_blk_stat_callback);
     ("struct u64_stats_sync", struct_u64_stats_sync);
     ("struct blkg_iostat", struct_blkg_iostat);
     ("struct blkg_iostat_set", struct_blkg_iostat_set); ("struct blkcg_gq", struct_blkcg_gq);
     ("struct blk_trace", struct_blk_trace);
     ("struct blk_flush_queue", struct_blk_flush_queue); ("struct bsg_ops", struct_bsg_ops);
     ("struct throtl_service_queue", struct_throtl_service_queue);
     ("struct latency_bucket", struct_latency_bucket);
     ("struct avg_latency_bucket", struct_avg_latency_bucket);
     ("struct throtl_data", struct_throtl_data);
     ("struct blk_mq_queue_map", struct_blk_mq_queue_map);
     ("struct blk_mq_tag_set", struct_blk_mq_tag_set);
     ("struct arch_uprobe", struct_arch_uprobe); ("struct uprobe", struct_uprobe);
     ("struct return_instance", struct_return_instance);
     ("struct rb_irq_work", struct_rb_irq_work); ("struct ring_buffer", struct_ring_buffer);
     ("struct perf_addr_filter_range", struct_perf_addr_filter_range);
     ("struct trace_event", struct_trace_event);
     ("struct trace_event_call", struct_trace_event_call);
     ("struct event_filter", struct_event_filter); ("struct ftrace_hash", struct_ftrace_hash);
     ("struct perf_cgroup", struct_perf_cgroup);
     ("struct timewait_sock_ops", struct_timewait_sock_ops);
     ("struct hlist_nulls_head", struct_hlist_nulls_head);
     ("struct inet_listen_hashbucket", struct_inet_listen_hashbucket);
     ("struct inet_hashinfo", struct_inet_hashinfo); ("struct udp_table", struct_udp_table);
     ("struct raw_hashinfo", struct_raw_hashinfo);
     ("struct smc_hashinfo", struct_smc_hashinfo); ("struct ucounts", struct_ucounts);
     ("struct proc_ns_operations", struct_proc_ns_operations);
     ("struct proc_dir_entry", struct_proc_dir_entry); ("struct ctl_table", struct_ctl_table);
     ("struct ctl_table_root", struct_ctl_table_root); ("struct ctl_node", struct_ctl_node);
     ("struct uevent_sock", struct_uevent_sock);
     ("struct net_device_stats", struct_net_device_stats);
     ("struct netdev_hw_addr_list", struct_netdev_hw_addr_list);
     ("struct netdev_tc_txq", struct_netdev_tc_txq); ("struct net_device", struct_net_device);
     ("struct prot_inuse", struct_prot_inuse); ("struct tcp_mib", struct_tcp_mib);
     ("struct ipstats_mib", struct_ipstats_mib); ("struct linux_mib", struct_linux_mib);
     ("struct udp_mib", struct_udp_mib); ("struct icmp_mib", struct_icmp_mib);
     ("struct icmpmsg_mib", struct_icmpmsg_mib); ("struct icmpv6_mib", struct_icmpv6_mib);
     ("struct icmpv6msg_mib", struct_icmpv6msg_mib);
     ("struct linux_xfrm_mib", struct_linux_xfrm_mib);
     ("struct ipv4_devconf", struct_ipv4_devconf); ("struct ip_ra_chain", struct_ip_ra_chain);
     ("struct fib_rules_ops", struct_fib_rules_ops); ("struct fib_table", struct_fib_table);
     ("struct inet_peer_base", struct_inet_peer_base); ("struct fqdir", struct_fqdir);
     ("struct xt_table", struct_xt_table);
     ("struct fib_notifier_ops", struct_fib_notifier_ops);
     ("struct ipv6_stable_secret", struct_ipv6_stable_secret);
     ("struct ipv6_devconf", struct_ipv6_devconf); ("struct rt6key", struct_rt6key);
     ("struct fib_nh_common", struct_fib_nh_common); ("struct fib6_nh", struct_fib6_nh);
     ("struct fib6_info", struct_fib6_info); ("struct rt6_info", struct_rt6_info);
     ("struct rt6_statistics", struct_rt6_statistics); ("struct fib6_node", struct_fib6_node);
     ("struct fib6_table", struct_fib6_table);
     ("struct seg6_pernet_data", struct_seg6_pernet_data);
     ("struct nf_queue_handler", struct_nf_queue_handler);
     ("struct nf_logger", struct_nf_logger); ("struct nf_hook_entry", struct_nf_hook_entry);
     ("struct nf_hook_entries", struct_nf_hook_entries); ("struct ct_pcpu", struct_ct_pcpu);
     ("struct ip_conntrack_stat", struct_ip_conntrack_stat);
     ("struct nf_ct_event_notifier", struct_nf_ct_event_notifier);
     ("struct nf_exp_event_notifier", struct_nf_exp_event_notifier);
     ("struct net_generic", struct_net_generic); ("struct ipv6_opt_hdr", struct_ipv6_opt_hdr);
     ("struct ipv6_rt_hdr", struct_ipv6_rt_hdr); ("struct skb_ext", struct_skb_ext);
     ("struct xfrm_sec_ctx", struct_xfrm_sec_ctx);
     ("struct xfrm_state_walk", struct_xfrm_state_walk);
     ("struct xfrm_replay_state", struct_xfrm_replay_state);
     ("struct xfrm_stats", struct_xfrm_stats);
     ("struct xfrm_state_offload", struct_xfrm_state_offload);
     ("struct xfrm_mode", struct_xfrm_mode); ("struct xfrm_state", struct_xfrm_state);
     ("struct lwtunnel_state", struct_lwtunnel_state);
     ("struct bpf_sk_storage_data", struct_bpf_sk_storage_data);
     ("struct ipv6_mc_socklist", struct_ipv6_mc_socklist);
     ("struct ipv6_ac_socklist", struct_ipv6_ac_socklist);
     ("struct ipv6_fl_socklist", struct_ipv6_fl_socklist);
     ("struct ip_sf_socklist", struct_ip_sf_socklist); ("struct iov_iter", struct_iov_iter);
     ("struct msghdr", struct_msghdr); ("struct mmpin", struct_mmpin);
     ("struct ubuf_info", struct_ubuf_info)].

Lemma reached_types2_complete : forallb (fun nt => complete nt.2) reached_types2 = true.
Proof. by_vm. Qed.

End ReachedTypes2.
