(* ===== verification/ReachedTypes3.v ===== *)
(** * The types behind pointers, part 3: src/ebpf/src/kernel/vmlinux.h

    What the pointers in the types of ReachedTypes2 point to, with what these
    types embed. *)

From Stdlib Require Import ZArith String.
From stdpp Require Import base list strings.
From S2P Require Import Prelude CTypes KernelTypes HelperTypes ReachedTypes1 ReachedTypes2.
Import CTypes KernelTypes HelperTypes ReachedTypes1 ReachedTypes2.

Local Open Scope string_scope.
Local Open Scope Z_scope.

Module ReachedTypes3.

Definition struct_attribute_group : cty :=
  Struct
    [("name", Ptr); ("is_visible", Ptr); ("is_bin_visible", Ptr);
     ("attrs", Pointer 2 "struct attribute");
     ("bin_attrs", Pointer 2 "struct bin_attribute")].

Definition struct_attribute : cty :=
  Struct
    [("name", Ptr); ("mode", typedef_umode_t)].

Definition struct_module_attribute : cty :=
  Struct
    [("attr", struct_attribute); ("show", Ptr); ("store", Ptr); ("setup", Ptr); ("test", Ptr);
     ("free", Ptr)].

Definition struct_param_attribute : cty :=
  Struct
    [("mattr", struct_module_attribute); ("param", PtrTo "struct kernel_param")].

Definition struct_module_param_attrs : cty :=
  Struct
    [("num", U32); ("grp", struct_attribute_group);
     ("attrs", Array 0 struct_param_attribute)].

Definition struct_kernel_symbol : cty :=
  Struct
    [("value_offset", U32); ("name_offset", U32); ("namespace_offset", U32)].

Definition struct_kernel_param : cty :=
  Struct
    [("name", Ptr); ("mod", PtrTo "struct module"); ("ops", PtrTo "struct kernel_param_ops");
     ("perm", typedef_u16); ("level", typedef_s8); ("flags", typedef_u8); ("", Union
     [("arg", Ptr); ("str", PtrTo "struct kparam_string");
     ("arr", PtrTo "struct kparam_array")])].

Definition struct_exception_table_entry : cty :=
  Struct
    [("insn", U32); ("fixup", U32); ("handler", U32)].

Definition struct_orc_entry : cty :=
  Packed
    [("sp_offset", typedef_s16); ("bp_offset", typedef_s16); ("sp_reg", Bits 4 4);
     ("bp_reg", Bits 4 4); ("type", Bits 4 2); ("end", Bits 4 1)].

Definition struct_bug_entry : cty :=
  Struct
    [("bug_addr_disp", U32); ("file_disp", U32); ("line", U16); ("flags", U16)].

Definition typedef_Elf64_Word : cty := typedef___u32.
Definition typedef_Elf64_Half : cty := typedef___u16.
Definition typedef_Elf64_Addr : cty := typedef___u64.
Definition typedef_Elf64_Xword : cty := typedef___u64.

Definition struct_elf64_sym : cty :=
  Struct
    [("st_name", typedef_Elf64_Word); ("st_info", U8); ("st_other", U8);
     ("st_shndx", typedef_Elf64_Half); ("st_value", typedef_Elf64_Addr);
     ("st_size", typedef_Elf64_Xword)].

Definition struct_bin_attribute : cty :=
  Struct
    [("attr", struct_attribute); ("size", typedef_size_t); ("private", Ptr); ("read", Ptr);
     ("write", Ptr); ("mmap", Ptr)].

Definition struct_module_sect_attr : cty :=
  Struct
    [("battr", struct_bin_attribute); ("address", U64)].

Definition struct_module_sect_attrs : cty :=
  Struct
    [("grp", struct_attribute_group); ("nsections", U32);
     ("attrs", Array 0 struct_module_sect_attr)].

Definition struct_module_notes_attrs : cty :=
  Struct
    [("dir", PtrTo "struct kobject"); ("notes", U32);
     ("attrs", Array 0 struct_bin_attribute)].

Definition struct_bpf_raw_event_map : cty :=
  Struct
    [("tp", PtrTo "struct tracepoint"); ("bpf_func", Ptr); ("num_args", typedef_u32);
     ("writable_size", typedef_u32); ("", Pad 8 64)].

Definition struct_jump_entry : cty :=
  Struct
    [("code", typedef_s32); ("target", typedef_s32); ("key", U64)].

Definition struct_trace_eval_map : cty :=
  Struct
    [("system", Ptr); ("eval_string", Ptr); ("eval_value", U64)].

Definition typedef_Elf64_Off : cty := typedef___u64.

Definition struct_elf64_hdr : cty :=
  Struct
    [("e_ident", Array 16 U8); ("e_type", typedef_Elf64_Half);
     ("e_machine", typedef_Elf64_Half); ("e_version", typedef_Elf64_Word);
     ("e_entry", typedef_Elf64_Addr); ("e_phoff", typedef_Elf64_Off);
     ("e_shoff", typedef_Elf64_Off); ("e_flags", typedef_Elf64_Word);
     ("e_ehsize", typedef_Elf64_Half); ("e_phentsize", typedef_Elf64_Half);
     ("e_phnum", typedef_Elf64_Half); ("e_shentsize", typedef_Elf64_Half);
     ("e_shnum", typedef_Elf64_Half); ("e_shstrndx", typedef_Elf64_Half)].

Definition typedef_Elf64_Ehdr : cty := struct_elf64_hdr.

Definition struct_klp_modinfo : cty :=
  Struct
    [("hdr", typedef_Elf64_Ehdr); ("sechdrs", PtrTo "struct elf64_shdr"); ("secstrings", Ptr);
     ("symndx", U32)].

Definition struct_error_injection_entry : cty :=
  Struct
    [("addr", U64); ("etype", U32)].

Definition struct_fs_pin : cty :=
  Struct
    [("wait", typedef_wait_queue_head_t); ("done", U32); ("s_list", struct_hlist_node);
     ("m_list", struct_hlist_node); ("kill", Ptr)].

Definition struct_fs_parameter_description : cty :=
  Struct
    [("name", Array 16 U8); ("specs", PtrTo "struct fs_parameter_spec");
     ("enums", PtrTo "struct fs_parameter_enum")].

Definition struct_wq_flusher : cty :=
  Struct
    [("list", struct_list_head); ("flush_color", U32); ("done", struct_completion)].

Definition struct_worker : cty :=
  Struct
    [("", Union [("entry", struct_list_head); ("hentry", struct_hlist_node)]);
     ("current_work", PtrTo "struct work_struct"); ("current_func", typedef_work_func_t);
     ("current_pwq", PtrTo "struct pool_workqueue"); ("scheduled", struct_list_head);
     ("task", PtrTo "struct task_struct"); ("pool", PtrTo "struct worker_pool");
     ("node", struct_list_head); ("last_active", U64); ("flags", U32); ("id", U32);
     ("sleeping", U32); ("desc", Array 24 U8); ("rescue_wq", PtrTo "struct workqueue_struct");
     ("last_func", typedef_work_func_t)].

Definition struct_workqueue_attrs : cty :=
  Struct
    [("nice", U32); ("cpumask", typedef_cpumask_var_t); ("no_numa", typedef_bool)].

Definition struct_pool_workqueue : cty :=
  Struct
    [("pool", PtrTo "struct worker_pool"); ("wq", PtrTo "struct workqueue_struct");
     ("work_color", U32); ("flush_color", U32); ("refcnt", U32);
     ("nr_in_flight", Array 15 U32); ("nr_active", U32); ("max_active", U32);
     ("delayed_works", struct_list_head); ("pwqs_node", struct_list_head);
     ("mayday_node", struct_list_head); ("unbound_release_work", struct_work_struct);
     ("rcu", struct_callback_head); ("", Pad 8 64); ("", Pad 8 64); ("", Pad 8 64);
     ("", Pad 8 64); ("", Pad 8 64); ("", Pad 8 64); ("", Pad 8 64); ("", Pad 8 64)].

Definition struct_wq_device : cty :=
  Struct
    [("wq", PtrTo "struct workqueue_struct"); ("dev", struct_device)].

Definition struct_list_lru_memcg : cty :=
  Struct
    [("rcu", struct_callback_head); ("lru", Array 0 (PtrTo "struct list_lru_one"))].

Definition struct_pipe_buf_operations : cty :=
  Struct
    [("confirm", Ptr); ("release", Ptr); ("steal", Ptr); ("get", Ptr)].

Definition struct_klist : cty :=
  Struct
    [("k_lock", typedef_spinlock_t); ("k_list", struct_list_head); ("get", Ptr);
     ("put", Ptr)].

Definition struct_klist_node : cty :=
  Struct
    [("n_klist", Ptr); ("n_node", struct_list_head); ("n_ref", struct_kref)].

Definition struct_device_private : cty :=
  Struct
    [("klist_children", struct_klist); ("knode_parent", struct_klist_node);
     ("knode_driver", struct_klist_node); ("knode_bus", struct_klist_node);
     ("knode_class", struct_klist_node); ("deferred_probe", struct_list_head);
     ("async_driver", PtrTo "struct device_driver"); ("device", PtrTo "struct device");
     ("dead", Bits 1 1)].

Definition struct_device_type : cty :=
  Struct
    [("name", Ptr); ("groups", Pointer 2 "struct attribute_group"); ("uevent", Ptr);
     ("devnode", Ptr); ("release", Ptr); ("pm", PtrTo "struct dev_pm_ops")].

Definition struct_bus_type : cty :=
  Struct
    [("name", Ptr); ("dev_name", Ptr); ("dev_root", PtrTo "struct device");
     ("bus_groups", Pointer 2 "struct attribute_group");
     ("dev_groups", Pointer 2 "struct attribute_group");
     ("drv_groups", Pointer 2 "struct attribute_group"); ("match", Ptr); ("uevent", Ptr);
     ("probe", Ptr); ("remove", Ptr); ("shutdown", Ptr); ("online", Ptr); ("offline", Ptr);
     ("suspend", Ptr); ("resume", Ptr); ("num_vf", Ptr); ("dma_configure", Ptr);
     ("pm", PtrTo "struct dev_pm_ops"); ("iommu_ops", PtrTo "struct iommu_ops");
     ("p", PtrTo "struct subsys_private"); ("lock_key", struct_lock_class_key);
     ("need_parent_lock", typedef_bool)].

Definition struct_device_driver : cty :=
  Struct
    [("name", Ptr); ("bus", PtrTo "struct bus_type"); ("owner", PtrTo "struct module");
     ("mod_name", Ptr); ("suppress_bind_attrs", typedef_bool); ("probe_type", Enum);
     ("of_match_table", PtrTo "struct of_device_id");
     ("acpi_match_table", PtrTo "struct acpi_device_id"); ("probe", Ptr); ("remove", Ptr);
     ("shutdown", Ptr); ("suspend", Ptr); ("resume", Ptr);
     ("groups", Pointer 2 "struct attribute_group");
     ("dev_groups", Pointer 2 "struct attribute_group"); ("pm", PtrTo "struct dev_pm_ops");
     ("coredump", Ptr); ("p", PtrTo "struct driver_private")].

Definition struct_wakeup_source : cty :=
  Struct
    [("name", Ptr); ("id", U32); ("entry", struct_list_head); ("lock", typedef_spinlock_t);
     ("wakeirq", PtrTo "struct wake_irq"); ("timer", struct_timer_list);
     ("timer_expires", U64); ("total_time", typedef_ktime_t); ("max_time", typedef_ktime_t);
     ("last_time", typedef_ktime_t); ("start_prevent_time", typedef_ktime_t);
     ("prevent_sleep_time", typedef_ktime_t); ("event_count", U64); ("active_count", U64);
     ("relax_count", U64); ("expire_count", U64); ("wakeup_count", U64);
     ("dev", PtrTo "struct device"); ("active", Bits 1 1); ("autosleep_enabled", Bits 1 1)].

Definition struct_wake_irq : cty :=
  Struct
    [("dev", PtrTo "struct device"); ("status", U32); ("irq", U32); ("name", Ptr)].

Definition struct_pm_subsys_data : cty :=
  Struct
    [("lock", typedef_spinlock_t); ("refcount", U32); ("clock_list", struct_list_head);
     ("domain_data", PtrTo "struct pm_domain_data")].

Definition struct_pm_qos_constraints : cty :=
  Struct
    [("list", struct_plist_head); ("target_value", typedef_s32);
     ("default_value", typedef_s32); ("no_constraint_value", typedef_s32); ("type", Enum);
     ("notifiers", PtrTo "struct blocking_notifier_head")].

Definition struct_pm_qos_flags : cty :=
  Struct
    [("list", struct_list_head); ("effective_flags", typedef_s32)].

Definition struct_dev_pm_qos : cty :=
  Struct
    [("resume_latency", struct_pm_qos_constraints);
     ("latency_tolerance", struct_pm_qos_constraints); ("flags", struct_pm_qos_flags);
     ("resume_latency_req", PtrTo "struct dev_pm_qos_request");
     ("latency_tolerance_req", PtrTo "struct dev_pm_qos_request");
     ("flags_req", PtrTo "struct dev_pm_qos_request")].

Definition struct_dev_pm_ops : cty :=
  Struct
    [("prepare", Ptr); ("complete", Ptr); ("suspend", Ptr); ("resume", Ptr); ("freeze", Ptr);
     ("thaw", Ptr); ("poweroff", Ptr); ("restore", Ptr); ("suspend_late", Ptr);
     ("resume_early", Ptr); ("freeze_late", Ptr); ("thaw_early", Ptr); ("poweroff_late", Ptr);
     ("restore_early", Ptr); ("suspend_noirq", Ptr); ("resume_noirq", Ptr);
     ("freeze_noirq", Ptr); ("thaw_noirq", Ptr); ("poweroff_noirq", Ptr);
     ("restore_noirq", Ptr); ("runtime_suspend", Ptr); ("runtime_resume", Ptr);
     ("runtime_idle", Ptr)].

Definition struct_dev_pm_domain : cty :=
  Struct
    [("ops", struct_dev_pm_ops); ("detach", Ptr); ("activate", Ptr); ("sync", Ptr);
     ("dismiss", Ptr)].

Definition typedef_irq_hw_number_t : cty := U64.

Definition struct_irq_domain : cty :=
  Struct
    [("link", struct_list_head); ("name", Ptr); ("ops", PtrTo "struct irq_domain_ops");
     ("host_data", Ptr); ("flags", U32); ("mapcount", U32);
     ("fwnode", PtrTo "struct fwnode_handle"); ("bus_token", Enum);
     ("gc", PtrTo "struct irq_domain_chip_generic"); ("parent", PtrTo "struct irq_domain");
     ("hwirq_max", typedef_irq_hw_number_t); ("revmap_direct_max_irq", U32);
     ("revmap_size", U32); ("revmap_tree", struct_xarray);
     ("revmap_tree_mutex", struct_mutex); ("linear_revmap", Array 0 U32)].

Definition struct_dev_pin_info : cty :=
  Struct
    [("p", PtrTo "struct pinctrl"); ("default_state", PtrTo "struct pinctrl_state");
     ("init_state", PtrTo "struct pinctrl_state");
     ("sleep_state", PtrTo "struct pinctrl_state");
     ("idle_state", PtrTo "struct pinctrl_state")].

Definition struct_dma_map_ops : cty :=
  Struct
    [("alloc", Ptr); ("free", Ptr); ("mmap", Ptr); ("get_sgtable", Ptr); ("map_page", Ptr);
     ("unmap_page", Ptr); ("map_sg", Ptr); ("unmap_sg", Ptr); ("map_resource", Ptr);
     ("unmap_resource", Ptr); ("sync_single_for_cpu", Ptr); ("sync_single_for_device", Ptr);
     ("sync_sg_for_cpu", Ptr); ("sync_sg_for_device", Ptr); ("cache_sync", Ptr);
     ("dma_supported", Ptr); ("get_required_mask", Ptr); ("max_mapping_size", Ptr);
     ("get_merge_boundary", Ptr)].

Definition struct_device_dma_parameters : cty :=
  Struct
    [("max_segment_size", U32); ("segment_boundary_mask", U64)].

Definition typedef_phandle : cty := typedef_u32.

Definition struct_fwnode_handle : cty :=
  Struct
    [("secondary", PtrTo "struct fwnode_handle"); ("ops", PtrTo "struct fwnode_operations")].

Definition struct_device_node : cty :=
  Struct
    [("name", Ptr); ("phandle", typedef_phandle); ("full_name", Ptr);
     ("fwnode", struct_fwnode_handle); ("properties", PtrTo "struct property");
     ("deadprops", PtrTo "struct property"); ("parent", PtrTo "struct device_node");
     ("child", PtrTo "struct device_node"); ("sibling", PtrTo "struct device_node");
     ("_flags", U64); ("data", Ptr)].

Definition struct_class : cty :=
  Struct
    [("name", Ptr); ("owner", PtrTo "struct module");
     ("class_groups", Pointer 2 "struct attribute_group");
     ("dev_groups", Pointer 2 "struct attribute_group"); ("dev_kobj", PtrTo "struct kobject");
     ("dev_uevent", Ptr); ("devnode", Ptr); ("class_release", Ptr); ("dev_release", Ptr);
     ("shutdown_pre", Ptr); ("ns_type", PtrTo "struct kobj_ns_type_operations");
     ("namespace", Ptr); ("get_ownership", Ptr); ("pm", PtrTo "struct dev_pm_ops");
     ("p", PtrTo "struct subsys_private")].

Definition struct_blocking_notifier_head : cty :=
  Struct
    [("rwsem", struct_rw_semaphore); ("head", PtrTo "struct notifier_block")].

Definition struct_iommu_group : cty :=
  Struct
    [("kobj", struct_kobject); ("devices_kobj", PtrTo "struct kobject");
     ("devices", struct_list_head); ("mutex", struct_mutex);
     ("notifier", struct_blocking_notifier_head); ("iommu_data", Ptr);
     ("iommu_data_release", Ptr); ("name", Ptr); ("id", U32);
     ("default_domain", PtrTo "struct iommu_domain");
     ("domain", PtrTo "struct iommu_domain")].

Definition struct_iommu_fwspec : cty :=
  Struct
    [("ops", PtrTo "struct iommu_ops"); ("iommu_fwnode", PtrTo "struct fwnode_handle");
     ("iommu_priv", Ptr); ("flags", typedef_u32); ("num_ids", U32);
     ("ids", Array 1 typedef_u32)].

Definition struct_iommu_param : cty :=
  Struct
    [("lock", struct_mutex); ("fault_param", PtrTo "struct iommu_fault_param")].

Definition struct_partition_meta_info : cty :=
  Struct
    [("uuid", Array 37 U8); ("volname", Array 64 typedef_u8)].

Definition struct_disk_stats : cty :=
  Struct
    [("nsecs", Array 3 typedef_u64); ("sectors", Array 3 U64); ("ios", Array 3 U64);
     ("merges", Array 3 U64); ("io_ticks", U64); ("time_in_queue", U64);
     ("in_flight", Array 2 typedef_local_t)].

Definition struct_disk_part_tbl : cty :=
  Struct
    [("callback_head", struct_callback_head); ("len", U32);
     ("last_lookup", PtrTo "struct hd_struct"); ("part", Array 0 (PtrTo "struct hd_struct"))].

Definition struct_block_device_operations : cty :=
  Struct
    [("open", Ptr); ("release", Ptr); ("rw_page", Ptr); ("ioctl", Ptr); ("compat_ioctl", Ptr);
     ("check_events", Ptr); ("media_changed", Ptr); ("unlock_native_capacity", Ptr);
     ("revalidate_disk", Ptr); ("getgeo", Ptr); ("swap_slot_free_notify", Ptr);
     ("report_zones", Ptr); ("owner", PtrTo "struct module");
     ("pr_ops", PtrTo "struct pr_ops")].

Definition typedef_cycles_t : cty := U64.

Definition struct_timer_rand_state : cty :=
  Struct
    [("last_time", typedef_cycles_t); ("last_delta", U64); ("last_delta2", U64)].

Definition struct_disk_events : cty :=
  Struct
    [("node", struct_list_head); ("disk", PtrTo "struct gendisk");
     ("lock", typedef_spinlock_t); ("block_mutex", struct_mutex); ("block", U32);
     ("pending", U32); ("clearing", U32); ("poll_msecs", U64);
     ("dwork", struct_delayed_work)].

Definition struct_badblocks : cty :=
  Struct
    [("dev", PtrTo "struct device"); ("count", U32); ("unacked_exist", U32); ("shift", U32);
     ("page", Ptr); ("changed", U32); ("lock", typedef_seqlock_t);
     ("sector", typedef_sector_t); ("size", typedef_sector_t)].

Definition struct_kset_uevent_ops : cty :=
  Struct
    [("filter", Ptr); ("name", Ptr); ("uevent", Ptr)].

Definition struct_sysfs_ops : cty :=
  Struct
    [("show", Ptr); ("store", Ptr)].

Definition struct_kernfs_root : cty :=
  Struct
    [("kn", PtrTo "struct kernfs_node"); ("flags", U32); ("ino_idr", struct_idr);
     ("last_ino", typedef_u32); ("next_generation", typedef_u32);
     ("syscall_ops", PtrTo "struct kernfs_syscall_ops"); ("supers", struct_list_head);
     ("deactivate_waitq", typedef_wait_queue_head_t)].

Definition struct_kernfs_ops : cty :=
  Struct
    [("open", Ptr); ("release", Ptr); ("seq_show", Ptr); ("seq_start", Ptr);
     ("seq_next", Ptr); ("seq_stop", Ptr); ("read", Ptr);
     ("atomic_write_len", typedef_size_t); ("prealloc", typedef_bool); ("write", Ptr);
     ("poll", Ptr); ("mmap", Ptr)].

Definition struct_kernfs_open_node : cty :=
  Struct
    [("refcnt", typedef_atomic_t); ("event", typedef_atomic_t);
     ("poll", typedef_wait_queue_head_t); ("files", struct_list_head)].

Definition struct_simple_xattrs : cty :=
  Struct
    [("head", struct_list_head); ("lock", typedef_spinlock_t)].

Definition struct_kernfs_iattrs : cty :=
  Struct
    [("ia_uid", typedef_kuid_t); ("ia_gid", typedef_kgid_t); ("ia_atime", struct_timespec64);
     ("ia_mtime", struct_timespec64); ("ia_ctime", struct_timespec64);
     ("xattrs", struct_simple_xattrs)].

Definition struct_mm_struct___2 : cty :=
  Struct
    [("", Struct [("mmap", PtrTo "struct vm_area_struct___2"); ("mm_rb", struct_rb_root);
     ("vmacache_seqnum", typedef_u64); ("get_unmapped_area", Ptr); ("mmap_base", U64);
     ("mmap_legacy_base", U64); ("mmap_compat_base", U64); ("mmap_compat_legacy_base", U64);
     ("task_size", U64); ("highest_vm_end", U64); ("pgd", PtrTo "pgd_t");
     ("membarrier_state", typedef_atomic_t); ("mm_users", typedef_atomic_t);
     ("mm_count", typedef_atomic_t); ("pgtables_bytes", typedef_atomic_long_t);
     ("map_count", U32); ("page_table_lock", typedef_spinlock_t);
     ("mmap_sem", struct_rw_semaphore); ("mmlist", struct_list_head); ("hiwater_rss", U64);
     ("hiwater_vm", U64); ("total_vm", U64); ("locked_vm", U64);
     ("pinned_vm", typedef_atomic64_t); ("data_vm", U64); ("exec_vm", U64); ("stack_vm", U64);
     ("def_flags", U64); ("arg_lock", typedef_spinlock_t); ("start_code", U64);
     ("end_code", U64); ("start_data", U64); ("end_data", U64); ("start_brk", U64);
     ("brk", U64); ("start_stack", U64); ("arg_start", U64); ("arg_end", U64);
     ("env_start", U64); ("env_end", U64); ("saved_auxv", Array 46 U64);
     ("rss_stat", struct_mm_rss_stat); ("binfmt", PtrTo "struct linux_binfmt");
     ("context", typedef_mm_context_t); ("flags", U64);
     ("core_state", PtrTo "struct core_state___2"); ("ioctx_lock", typedef_spinlock_t);
     ("ioctx_table", PtrTo "struct kioctx_table"); ("owner", PtrTo "struct task_struct___2");
     ("user_ns", PtrTo "struct user_namespace___2"); ("exe_file", PtrTo "struct file___2");
     ("mmu_notifier_mm", PtrTo "struct mmu_notifier_mm"); ("numa_next_scan", U64);
     ("numa_scan_offset", U64); ("numa_scan_seq", U32);
     ("tlb_flush_pending", typedef_atomic_t); ("tlb_flush_batched", typedef_bool);
     ("uprobes_state", struct_uprobes_state); ("hugetlb_usage", typedef_atomic_long_t);
     ("async_put_work", struct_work_struct)]); ("cpu_bitmap", Array 0 U64)].

Definition struct_kioctx : cty :=
  Struct
    [("users", struct_percpu_ref); ("dead", typedef_atomic_t); ("reqs", struct_percpu_ref);
     ("user_id", U64); ("cpu", PtrTo "struct kioctx_cpu"); ("req_batch", U32);
     ("max_reqs", U32); ("nr_events", U32); ("mmap_base", U64); ("mmap_size", U64);
     ("ring_pages", Pointer 2 "struct page"); ("nr_pages", U64);
     ("free_rwork", struct_rcu_work); ("rq_wait", PtrTo "struct ctx_rq_wait"); ("", Pad 8 64);
     ("", Struct [("reqs_available", typedef_atomic_t); ("", Pad 8 64); ("", Pad 8 64);
     ("", Pad 8 64); ("", Pad 8 64); ("", Pad 8 64); ("", Pad 8 64); ("", Pad 8 64)]);
     ("", Struct [("ctx_lock", typedef_spinlock_t); ("active_reqs", struct_list_head);
     ("", Pad 8 64); ("", Pad 8 64); ("", Pad 8 64); ("", Pad 8 64); ("", Pad 8 64)]);
     ("", Struct [("ring_lock", struct_mutex); ("wait", typedef_wait_queue_head_t);
     ("", Pad 8 64)]); ("", Struct [("tail", U32); ("completed_events", U32);
     ("completion_lock", typedef_spinlock_t); ("", Pad 8 64); ("", Pad 8 64); ("", Pad 8 64);
     ("", Pad 8 64); ("", Pad 8 64); ("", Pad 8 64)]);
     ("internal_pages", Array 8 (PtrTo "struct page"));
     ("aio_ring_file", PtrTo "struct file"); ("id", U32); ("", Pad 8 64); ("", Pad 8 64);
     ("", Pad 8 64); ("", Pad 8 64); ("", Pad 8 64); ("", Pad 8 64)].

Definition struct_dl_bw : cty :=
  Struct
    [("lock", typedef_raw_spinlock_t); ("bw", typedef_u64); ("total_bw", typedef_u64)].

Definition struct_cpudl : cty :=
  Struct
    [("lock", typedef_raw_spinlock_t); ("size", U32); ("free_cpus", typedef_cpumask_var_t);
     ("elements", PtrTo "struct cpudl_item")].

Definition struct_cpupri_vec : cty :=
  Struct
    [("count", typedef_atomic_t); ("mask", typedef_cpumask_var_t)].

Definition struct_cpupri : cty :=
  Struct
    [("pri_to_cpu", Array 102 struct_cpupri_vec); ("cpu_to_pri", Ptr)].

Definition struct_root_domain : cty :=
  Struct
    [("refcount", typedef_atomic_t); ("rto_count", typedef_atomic_t);
     ("rcu", struct_callback_head); ("span", typedef_cpumask_var_t);
     ("online", typedef_cpumask_var_t); ("overload", U32); ("overutilized", U32);
     ("dlo_mask", typedef_cpumask_var_t); ("dlo_count", typedef_atomic_t);
     ("dl_bw", struct_dl_bw); ("cpudl", struct_cpudl); ("rto_push_work", struct_irq_work);
     ("rto_lock", typedef_raw_spinlock_t); ("rto_loop", U32); ("rto_cpu", U32);
     ("rto_loop_next", typedef_atomic_t); ("rto_loop_start", typedef_atomic_t);
     ("rto_mask", typedef_cpumask_var_t); ("cpupri", struct_cpupri);
     ("max_cpu_capacity", U64); ("pd", PtrTo "struct perf_domain")].

Definition struct_sched_domain : cty :=
  Struct
    [("parent", PtrTo "struct sched_domain"); ("child", PtrTo "struct sched_domain");
     ("groups", PtrTo "struct sched_group"); ("min_interval", U64); ("max_interval", U64);
     ("busy_factor", U32); ("imbalance_pct", U32); ("cache_nice_tries", U32);
     ("nohz_idle", U32); ("flags", U32); ("level", U32); ("last_balance", U64);
     ("balance_interval", U32); ("nr_balance_failed", U32);
     ("max_newidle_lb_cost", typedef_u64); ("next_decay_max_lb_cost", U64);
     ("avg_scan_cost", typedef_u64); ("lb_count", Array 3 U32); ("lb_failed", Array 3 U32);
     ("lb_balanced", Array 3 U32); ("lb_imbalance", Array 3 U32); ("lb_gained", Array 3 U32);
     ("lb_hot_gained", Array 3 U32); ("lb_nobusyg", Array 3 U32); ("lb_nobusyq", Array 3 U32);
     ("alb_count", U32); ("alb_failed", U32); ("alb_pushed", U32); ("sbe_count", U32);
     ("sbe_balanced", U32); ("sbe_pushed", U32); ("sbf_count", U32); ("sbf_balanced", U32);
     ("sbf_pushed", U32); ("ttwu_wake_remote", U32); ("ttwu_move_affine", U32);
     ("ttwu_move_balance", U32); ("name", Ptr); ("", Union [("private", Ptr);
     ("rcu", struct_callback_head)]); ("shared", PtrTo "struct sched_domain_shared");
     ("span_weight", U32); ("span", Array 0 U64)].

Definition struct_cpu_stop_done : cty :=
  Struct
    [("nr_todo", typedef_atomic_t); ("ret", U32); ("completion", struct_completion)].

Definition struct_cpuidle_state : cty :=
  Struct
    [("name", Array 16 U8); ("desc", Array 32 U8); ("flags", U32); ("exit_latency", U32);
     ("power_usage", U32); ("target_residency", U32); ("disabled", typedef_bool);
     ("enter", Ptr); ("enter_dead", Ptr); ("enter_s2idle", Ptr)].

Definition struct_cgroup_root : cty :=
  Struct
    [("kf_root", PtrTo "struct kernfs_root"); ("subsys_mask", U32); ("hierarchy_id", U32);
     ("cgrp", struct_cgroup); ("cgrp_ancestor_id_storage", U32);
     ("nr_cgrps", typedef_atomic_t); ("root_list", struct_list_head); ("flags", U32);
     ("cgroup_idr", struct_idr); ("release_agent_path", Array 4096 U8);
     ("name", Array 64 U8)].

Definition struct_cgroup_rstat_cpu : cty :=
  Struct
    [("bsync", struct_u64_stats_sync); ("bstat", struct_cgroup_base_stat);
     ("last_bstat", struct_cgroup_base_stat); ("updated_children", PtrTo "struct cgroup");
     ("updated_next", PtrTo "struct cgroup")].

Definition struct_psi_group_cpu : cty :=
  Struct
    [("seq", typedef_seqcount_t); ("tasks", Array 4 U32); ("state_mask", typedef_u32);
     ("times", Array 7 typedef_u32); ("state_start", typedef_u64);
     ("times_prev", Array 14 typedef_u32); ("", Pad 8 64)].

Definition struct_bpf_prog_array_item : cty :=
  Struct
    [("prog", PtrTo "struct bpf_prog");
     ("cgroup_storage", Array 2 (PtrTo "struct bpf_cgroup_storage"))].

Definition struct_bpf_prog_array : cty :=
  Struct
    [("rcu", struct_callback_head); ("items", Array 0 struct_bpf_prog_array_item)].

Definition struct_cftype : cty :=
  Struct
    [("name", Array 64 U8); ("private", U64); ("max_write_len", typedef_size_t);
     ("flags", U32); ("file_offset", U32); ("ss", PtrTo "struct cgroup_subsys");
     ("node", struct_list_head); ("kf_ops", PtrTo "struct kernfs_ops"); ("open", Ptr);
     ("release", Ptr); ("read_u64", Ptr); ("read_s64", Ptr); ("seq_show", Ptr);
     ("seq_start", Ptr); ("seq_next", Ptr); ("seq_stop", Ptr); ("write_u64", Ptr);
     ("write_s64", Ptr); ("write", Ptr); ("poll", Ptr)].

Definition struct_mem_dqinfo___2 : cty :=
  Struct
    [("dqi_format", PtrTo "struct quota_format_type___2"); ("dqi_fmt_id", U32);
     ("dqi_dirty_list", struct_list_head); ("dqi_flags", U64); ("dqi_bgrace", U32);
     ("dqi_igrace", U32); ("dqi_max_spc_limit", typedef_qsize_t);
     ("dqi_max_ino_limit", typedef_qsize_t); ("dqi_priv", Ptr)].

Definition struct_quota_info___2 : cty :=
  Struct
    [("flags", U32); ("dqio_sem", struct_rw_semaphore);
     ("files", Array 3 (PtrTo "struct inode___2")); ("info", Array 3 struct_mem_dqinfo___2);
     ("ops", Array 3 (PtrTo "struct quota_format_ops___2"))].

Definition struct_rcuwait___2 : cty :=
  Struct
    [("task", PtrTo "struct task_struct___2")].

Definition struct_percpu_rw_semaphore___2 : cty :=
  Struct
    [("rss", struct_rcu_sync); ("read_count", Ptr); ("rw_sem", struct_rw_semaphore);
     ("writer", struct_rcuwait___2); ("readers_block", U32)].

Definition struct_sb_writers___2 : cty :=
  Struct
    [("frozen", U32); ("wait_unfrozen", typedef_wait_queue_head_t);
     ("rw_sem", Array 3 struct_percpu_rw_semaphore___2)].

Definition struct_super_block___2 : cty :=
  Struct
    [("s_list", struct_list_head); ("s_dev", typedef_dev_t); ("s_blocksize_bits", U8);
     ("s_blocksize", U64); ("s_maxbytes", typedef_loff_t);
     ("s_type", PtrTo "struct file_system_type___2");
     ("s_op", PtrTo "struct super_operations___2");
     ("dq_op", PtrTo "struct dquot_operations___2");
     ("s_qcop", PtrTo "struct quotactl_ops___2");
     ("s_export_op", PtrTo "struct export_operations"); ("s_flags", U64); ("s_iflags", U64);
     ("s_magic", U64); ("s_root", PtrTo "struct dentry___2");
     ("s_umount", struct_rw_semaphore); ("s_count", U32); ("s_active", typedef_atomic_t);
     ("s_security", Ptr); ("s_xattr", Pointer 2 "struct xattr_handler");
     ("s_roots", struct_hlist_bl_head); ("s_mounts", struct_list_head);
     ("s_bdev", PtrTo "struct block_device___2"); ("s_bdi", PtrTo "struct backing_dev_info");
     ("s_mtd", PtrTo "struct mtd_info"); ("s_instances", struct_hlist_node);
     ("s_quota_types", U32); ("s_dquot", struct_quota_info___2);
     ("s_writers", struct_sb_writers___2); ("s_fs_info", Ptr); ("s_time_gran", typedef_u32);
     ("s_time_min", typedef_time64_t); ("s_time_max", typedef_time64_t);
     ("s_fsnotify_mask", typedef___u32);
     ("s_fsnotify_marks", PtrTo "struct fsnotify_mark_connector"); ("s_id", Array 32 U8);
     ("s_uuid", typedef_uuid_t); ("s_max_links", U32); ("s_mode", typedef_fmode_t);
     ("s_vfs_rename_mutex", struct_mutex); ("s_subtype", Ptr);
     ("s_d_op", PtrTo "struct dentry_operations___2"); ("cleancache_poolid", U32);
     ("s_shrink", struct_shrinker); ("s_remove_count", typedef_atomic_long_t);
     ("s_fsnotify_inode_refs", typedef_atomic_long_t); ("s_readonly_remount", U32);
     ("s_wb_err", typedef_errseq_t); ("s_dio_done_wq", PtrTo "struct workqueue_struct");
     ("s_pins", struct_hlist_head); ("s_user_ns", PtrTo "struct user_namespace___2");
     ("s_dentry_lru", struct_list_lru); ("s_inode_lru", struct_list_lru);
     ("rcu", struct_callback_head); ("destroy_work", struct_work_struct);
     ("s_sync_lock", struct_mutex); ("s_stack_depth", U32); ("", Pad 8 64); ("", Pad 8 64);
     ("", Pad 8 64); ("", Pad 8 64); ("", Pad 8 64); ("", Pad 8 64); ("", Pad 8 64);
     ("s_inode_list_lock", typedef_spinlock_t); ("s_inodes", struct_list_head);
     ("s_inode_wblist_lock", typedef_spinlock_t); ("s_inodes_wb", struct_list_head);
     ("", Pad 8 64); ("", Pad 8 64)].

Definition struct_dentry_operations___2 : cty :=
  Struct
    [("d_revalidate", Ptr); ("d_weak_revalidate", Ptr); ("d_hash", Ptr); ("d_compare", Ptr);
     ("d_delete", Ptr); ("d_init", Ptr); ("d_release", Ptr); ("d_prune", Ptr);
     ("d_iput", Ptr); ("d_dname", Ptr); ("d_automount", Ptr); ("d_manage", Ptr);
     ("d_real", Ptr); ("", Pad 8 64); ("", Pad 8 64); ("", Pad 8 64)].

Definition struct_inode_operations___2 : cty :=
  Struct
    [("lookup", Ptr); ("get_link", Ptr); ("permission", Ptr); ("get_acl", Ptr);
     ("readlink", Ptr); ("create", Ptr); ("link", Ptr); ("unlink", Ptr); ("symlink", Ptr);
     ("mkdir", Ptr); ("rmdir", Ptr); ("mknod", Ptr); ("rename", Ptr); ("setattr", Ptr);
     ("getattr", Ptr); ("listxattr", Ptr); ("fiemap", Ptr); ("update_time", Ptr);
     ("atomic_open", Ptr); ("tmpfile", Ptr); ("set_acl", Ptr); ("", Pad 8 64); ("", Pad 8 64);
     ("", Pad 8 64)].

Definition struct_file_operations___2 : cty :=
  Struct
    [("owner", PtrTo "struct module___2"); ("llseek", Ptr); ("read", Ptr); ("write", Ptr);
     ("read_iter", Ptr); ("write_iter", Ptr); ("iopoll", Ptr); ("iterate", Ptr);
     ("iterate_shared", Ptr); ("poll", Ptr); ("unlocked_ioctl", Ptr); ("compat_ioctl", Ptr);
     ("mmap", Ptr); ("mmap_supported_flags", U64); ("open", Ptr); ("flush", Ptr);
     ("release", Ptr); ("fsync", Ptr); ("fasync", Ptr); ("lock", Ptr); ("sendpage", Ptr);
     ("get_unmapped_area", Ptr); ("check_flags", Ptr); ("flock", Ptr); ("splice_write", Ptr);
     ("splice_read", Ptr); ("setlease", Ptr); ("fallocate", Ptr); ("show_fdinfo", Ptr);
     ("copy_file_range", Ptr); ("remap_file_range", Ptr); ("fadvise", Ptr)].

Definition struct_address_space_operations___2 : cty :=
  Struct
    [("writepage", Ptr); ("readpage", Ptr); ("writepages", Ptr); ("set_page_dirty", Ptr);
     ("readpages", Ptr); ("write_begin", Ptr); ("write_end", Ptr); ("bmap", Ptr);
     ("invalidatepage", Ptr); ("releasepage", Ptr); ("freepage", Ptr); ("direct_IO", Ptr);
     ("migratepage", Ptr); ("isolate_page", Ptr); ("putback_page", Ptr);
     ("launder_page", Ptr); ("is_partially_uptodate", Ptr); ("is_dirty_writeback", Ptr);
     ("error_remove_page", Ptr); ("swap_activate", Ptr); ("swap_deactivate", Ptr)].

Definition struct_pipe_inode_info___2 : cty :=
  Struct
    [("mutex", struct_mutex); ("wait", typedef_wait_queue_head_t); ("nrbufs", U32);
     ("curbuf", U32); ("buffers", U32); ("readers", U32); ("writers", U32); ("files", U32);
     ("waiting_writers", U32); ("r_counter", U32); ("w_counter", U32);
     ("tmp_page", PtrTo "struct page___2");
     ("fasync_readers", PtrTo "struct fasync_struct___2");
     ("fasync_writers", PtrTo "struct fasync_struct___2");
     ("bufs", PtrTo "struct pipe_buffer___2"); ("user", PtrTo "struct user_struct")].

Definition struct_block_device___2 : cty :=
  Struct
    [("bd_dev", typedef_dev_t); ("bd_openers", U32); ("bd_inode", PtrTo "struct inode___2");
     ("bd_super", PtrTo "struct super_block___2"); ("bd_mutex", struct_mutex);
     ("bd_claiming", Ptr); ("bd_holder", Ptr); ("bd_holders", U32);
     ("bd_write_holder", typedef_bool); ("bd_holder_disks", struct_list_head);
     ("bd_contains", PtrTo "struct block_device___2"); ("bd_block_size", U32);
     ("bd_partno", typedef_u8); ("bd_part", PtrTo "struct hd_struct"); ("bd_part_count", U32);
     ("bd_invalidated", U32); ("bd_disk", PtrTo "struct gendisk");
     ("bd_queue", PtrTo "struct request_queue"); ("bd_bdi", PtrTo "struct backing_dev_info");
     ("bd_list", struct_list_head); ("bd_private", U64); ("bd_fsfreeze_count", U32);
     ("bd_fsfreeze_mutex", struct_mutex)].

Definition struct_bucket_table : cty :=
  Struct
    [("size", U32); ("nest", U32); ("hash_rnd", typedef_u32); ("walkers", struct_list_head);
     ("rcu", struct_callback_head); ("future_tbl", PtrTo "struct bucket_table");
     ("dep_map", struct_lockdep_map); ("", Pad 8 64);
     ("buckets", Array 0 (PtrTo "struct rhash_lock_head"))].

Definition struct_mount : cty :=
  Struct
    [("mnt_hash", struct_hlist_node); ("mnt_parent", PtrTo "struct mount");
     ("mnt_mountpoint", PtrTo "struct dentry___2"); ("mnt", struct_vfsmount___2); ("", Union
     [("mnt_rcu", struct_callback_head); ("mnt_llist", struct_llist_node)]);
     ("mnt_pcp", PtrTo "struct mnt_pcp"); ("mnt_mounts", struct_list_head);
     ("mnt_child", struct_list_head); ("mnt_instance", struct_list_head);
     ("mnt_devname", Ptr); ("mnt_list", struct_list_head); ("mnt_expire", struct_list_head);
     ("mnt_share", struct_list_head); ("mnt_slave_list", struct_list_head);
     ("mnt_slave", struct_list_head); ("mnt_master", PtrTo "struct mount");
     ("mnt_ns", PtrTo "struct mnt_namespace"); ("mnt_mp", PtrTo "struct mountpoint");
     ("", Union [("mnt_mp_list", struct_hlist_node); ("mnt_umount", struct_hlist_node)]);
     ("mnt_umounting", struct_list_head);
     ("mnt_fsnotify_marks", PtrTo "struct fsnotify_mark_connector");
     ("mnt_fsnotify_mask", typedef___u32); ("mnt_id", U32); ("mnt_group_id", U32);
     ("mnt_expiry_mark", U32); ("mnt_pins", struct_hlist_head);
     ("mnt_stuck_children", struct_hlist_head)].

Definition struct_tty_driver : cty :=
  Struct
    [("magic", U32); ("kref", struct_kref); ("cdevs", Pointer 2 "struct cdev");
     ("owner", PtrTo "struct module"); ("driver_name", Ptr); ("name", Ptr);
     ("name_base", U32); ("major", U32); ("minor_start", U32); ("num", U32); ("type", U16);
     ("subtype", U16); ("init_termios", struct_ktermios); ("flags", U64);
     ("proc_entry", PtrTo "struct proc_dir_entry"); ("other", PtrTo "struct tty_driver");
     ("ttys", Pointer 2 "struct tty_struct"); ("ports", Pointer 2 "struct tty_port");
     ("termios", Pointer 2 "struct ktermios"); ("driver_state", Ptr);
     ("ops", PtrTo "struct tty_operations"); ("tty_drivers", struct_list_head)].

Definition struct_tty_operations : cty :=
  Struct
    [("lookup", Ptr); ("install", Ptr); ("remove", Ptr); ("open", Ptr); ("close", Ptr);
     ("shutdown", Ptr); ("cleanup", Ptr); ("write", Ptr); ("put_char", Ptr);
     ("flush_chars", Ptr); ("write_room", Ptr); ("chars_in_buffer", Ptr); ("ioctl", Ptr);
     ("compat_ioctl", Ptr); ("set_termios", Ptr); ("throttle", Ptr); ("unthrottle", Ptr);
     ("stop", Ptr); ("start", Ptr); ("hangup", Ptr); ("break_ctl", Ptr);
     ("flush_buffer", Ptr); ("set_ldisc", Ptr); ("wait_until_sent", Ptr); ("send_xchar", Ptr);
     ("tiocmget", Ptr); ("tiocmset", Ptr); ("resize", Ptr); ("set_termiox", Ptr);
     ("get_icount", Ptr); ("get_serial", Ptr); ("set_serial", Ptr); ("show_fdinfo", Ptr);
     ("proc_show", Ptr)].

Definition struct_tty_ldisc : cty :=
  Struct
    [("ops", PtrTo "struct tty_ldisc_ops"); ("tty", PtrTo "struct tty_struct")].

Definition struct_termiox : cty :=
  Struct
    [("x_hflag", typedef___u16); ("x_cflag", typedef___u16);
     ("x_rflag", Array 5 typedef___u16); ("x_sflag", typedef___u16)].

Definition struct_tty_buffer : cty :=
  Struct
    [("", Union [("next", PtrTo "struct tty_buffer"); ("free", struct_llist_node)]);
     ("used", U32); ("size", U32); ("commit", U32); ("read", U32); ("flags", U32);
     ("data", Array 0 U64)].

Definition struct_tty_bufhead : cty :=
  Struct
    [("head", PtrTo "struct tty_buffer"); ("work", struct_work_struct);
     ("lock", struct_mutex); ("priority", typedef_atomic_t); ("sentinel", struct_tty_buffer);
     ("free", struct_llist_head); ("mem_used", typedef_atomic_t); ("mem_limit", U32);
     ("tail", PtrTo "struct tty_buffer")].

Definition struct_tty_port : cty :=
  Struct
    [("buf", struct_tty_bufhead); ("tty", PtrTo "struct tty_struct");
     ("itty", PtrTo "struct tty_struct"); ("ops", PtrTo "struct tty_port_operations");
     ("client_ops", PtrTo "struct tty_port_client_operations"); ("lock", typedef_spinlock_t);
     ("blocked_open", U32); ("count", U32); ("open_wait", typedef_wait_queue_head_t);
     ("delta_msr_wait", typedef_wait_queue_head_t); ("flags", U64); ("iflags", U64);
     ("console", Bits 1 1); ("low_latency", Bits 1 1); ("mutex", struct_mutex);
     ("buf_mutex", struct_mutex); ("xmit_buf", Ptr); ("close_delay", U32);
     ("closing_wait", U32); ("drain_delay", U32); ("kref", struct_kref);
     ("client_data", Ptr)].

Definition struct_node___2 : cty :=
  Struct
    [("list", struct_list_head); ("owner", PtrTo "struct audit_tree"); ("index", U32)].

Definition struct_audit_chunk : cty :=
  Struct
    [("hash", struct_list_head); ("key", U64); ("mark", PtrTo "struct fsnotify_mark");
     ("trees", struct_list_head); ("count", U32); ("refs", typedef_atomic_long_t);
     ("head", struct_callback_head); ("owners", Array 0 struct_node___2)].

Definition struct_bpf_prog_aux : cty :=
  Struct
    [("refcnt", typedef_atomic_t); ("used_map_cnt", typedef_u32);
     ("max_ctx_offset", typedef_u32); ("max_pkt_offset", typedef_u32);
     ("max_tp_access", typedef_u32); ("stack_depth", typedef_u32); ("id", typedef_u32);
     ("func_cnt", typedef_u32); ("func_idx", typedef_u32); ("verifier_zext", typedef_bool);
     ("offload_requested", typedef_bool); ("func", Pointer 2 "struct bpf_prog");
     ("jit_data", Ptr); ("ksym_tnode", struct_latch_tree_node);
     ("ksym_lnode", struct_list_head); ("ops", PtrTo "struct bpf_prog_ops");
     ("used_maps", Pointer 2 "struct bpf_map"); ("prog", PtrTo "struct bpf_prog");
     ("user", PtrTo "struct user_struct"); ("load_time", typedef_u64);
     ("cgroup_storage", Array 2 (PtrTo "struct bpf_map")); ("name", Array 16 U8);
     ("security", Ptr); ("offload", PtrTo "struct bpf_prog_offload");
     ("btf", PtrTo "struct btf"); ("func_info", PtrTo "struct bpf_func_info");
     ("linfo", PtrTo "struct bpf_line_info"); ("jited_linfo", Ptr);
     ("func_info_cnt", typedef_u32); ("nr_linfo", typedef_u32); ("linfo_idx", typedef_u32);
     ("stats", PtrTo "struct bpf_prog_stats"); ("", Union [("work", struct_work_struct);
     ("rcu", struct_callback_head)])].

Definition struct_sock_fprog_kern : cty :=
  Struct
    [("len", typedef_u16); ("filter", PtrTo "struct sock_filter")].

Definition struct_bio_integrity_payload : cty :=
  Struct
    [("bip_bio", PtrTo "struct bio"); ("bip_iter", struct_bvec_iter); ("bip_slab", U16);
     ("bip_vcnt", U16); ("bip_max_vcnt", U16); ("bip_flags", U16);
     ("bio_iter", struct_bvec_iter); ("bip_work", struct_work_struct);
     ("bip_vec", PtrTo "struct bio_vec"); ("bip_inline_vecs", Array 0 struct_bio_vec)].

Definition struct_zone_padding : cty :=
  Struct
    [("x", Array 0 U8)].

Definition struct_free_area : cty :=
  Struct
    [("free_list", Array 5 struct_list_head); ("nr_free", U64)].

Definition struct_zone : cty :=
  Struct
    [("_watermark", Array 3 U64); ("watermark_boost", U64); ("nr_reserved_highatomic", U64);
     ("lowmem_reserve", Array 5 U64); ("node", U32);
     ("zone_pgdat", PtrTo "struct pglist_data"); ("pageset", PtrTo "struct per_cpu_pageset");
     ("zone_start_pfn", U64); ("managed_pages", typedef_atomic_long_t);
     ("spanned_pages", U64); ("present_pages", U64); ("name", Ptr);
     ("nr_isolate_pageblock", U64); ("span_seqlock", typedef_seqlock_t); ("initialized", U32);
     ("", Pad 8 64); ("", Pad 8 64); ("", Pad 8 64); ("_pad1_", struct_zone_padding);
     ("free_area", Array 11 struct_free_area); ("flags", U64); ("lock", typedef_spinlock_t);
     ("", Pad 8 64); ("", Pad 8 64); ("", Pad 8 64); ("", Pad 8 64); ("", Pad 8 64);
     ("_pad2_", struct_zone_padding); ("percpu_drift_mark", U64);
     ("compact_cached_free_pfn", U64); ("compact_cached_migrate_pfn", Array 2 U64);
     ("compact_init_migrate_pfn", U64); ("compact_init_free_pfn", U64);
     ("compact_considered", U32); ("compact_defer_shift", U32); ("compact_order_failed", U32);
     ("compact_blockskip_flush", typedef_bool); ("contiguous", typedef_bool); ("", Pad 8 0);
     ("_pad3_", struct_zone_padding); ("vm_stat", Array 12 typedef_atomic_long_t);
     ("vm_numa_stat", Array 6 typedef_atomic_long_t); ("", Pad 8 64); ("", Pad 8 64);
     ("", Pad 8 64); ("", Pad 8 64); ("", Pad 8 64); ("", Pad 8 64)].

Definition struct_perf_cpu_context : cty :=
  Struct
    [("ctx", struct_perf_event_context); ("task_ctx", PtrTo "struct perf_event_context");
     ("active_oncpu", U32); ("exclusive", U32); ("hrtimer_lock", typedef_raw_spinlock_t);
     ("hrtimer", struct_hrtimer); ("hrtimer_interval", typedef_ktime_t);
     ("hrtimer_active", U32); ("cgrp", PtrTo "struct perf_cgroup");
     ("cgrp_cpuctx_entry", struct_list_head); ("sched_cb_entry", struct_list_head);
     ("sched_cb_usage", U32); ("online", U32)].

Definition struct_kmem_cache_cpu : cty :=
  Struct
    [("freelist", Ptr); ("tid", U64); ("page", PtrTo "struct page");
     ("partial", PtrTo "struct page")].

Definition struct_kmem_cache_node : cty :=
  Struct
    [("list_lock", typedef_spinlock_t); ("nr_partial", U64); ("partial", struct_list_head);
     ("nr_slabs", typedef_atomic_long_t); ("total_objects", typedef_atomic_long_t);
     ("full", struct_list_head)].

Definition struct_dev_pagemap_ops : cty :=
  Struct
    [("page_free", Ptr); ("kill", Ptr); ("cleanup", Ptr); ("migrate_to_ram", Ptr)].

Definition struct_eventfd_ctx : cty :=
  Struct
    [("kref", struct_kref); ("wqh", typedef_wait_queue_head_t); ("count", typedef___u64);
     ("flags", U32); ("id", U32)].

Definition struct_zoneref : cty :=
  Struct
    [("zone", PtrTo "struct zone"); ("zone_idx", U32)].

Definition struct_zonelist : cty :=
  Struct
    [("_zonerefs", Array 321 struct_zoneref)].

Definition struct_pglist_data : cty :=
  Struct
    [("node_zones", Array 5 struct_zone); ("node_zonelists", Array 2 struct_zonelist);
     ("nr_zones", U32); ("node_size_lock", typedef_spinlock_t); ("node_start_pfn", U64);
     ("node_present_pages", U64); ("node_spanned_pages", U64); ("node_id", U32);
     ("kswapd_wait", typedef_wait_queue_head_t);
     ("pfmemalloc_wait", typedef_wait_queue_head_t); ("kswapd", PtrTo "struct task_struct");
     ("kswapd_order", U32); ("kswapd_classzone_idx", Enum); ("kswapd_failures", U32);
     ("kcompactd_max_order", U32); ("kcompactd_classzone_idx", Enum);
     ("kcompactd_wait", typedef_wait_queue_head_t); ("kcompactd", PtrTo "struct task_struct");
     ("totalreserve_pages", U64); ("min_unmapped_pages", U64); ("min_slab_pages", U64);
     ("", Pad 8 64); ("", Pad 8 64); ("", Pad 8 64); ("", Pad 8 64); ("", Pad 8 64);
     ("", Pad 8 64); ("_pad1_", struct_zone_padding); ("lru_lock", typedef_spinlock_t);
     ("deferred_split_queue", struct_deferred_split); ("__lruvec", struct_lruvec);
     ("flags", U64); ("_pad2_", struct_zone_padding);
     ("per_cpu_nodestats", PtrTo "struct per_cpu_nodestat");
     ("vm_stat", Array 33 typedef_atomic_long_t); ("", Pad 8 64); ("", Pad 8 64);
     ("", Pad 8 64); ("", Pad 8 64); ("", Pad 8 64); ("", Pad 8 64)].

Definition struct_lruvec_stat : cty :=
  Struct
    [("count", Array 33 U64)].

Definition struct_batched_lruvec_stat : cty :=
  Struct
    [("count", Array 33 typedef_s32)].

Definition struct_memcg_shrinker_map : cty :=
  Struct
    [("rcu", struct_callback_head); ("map", Array 0 U64)].

Definition struct_elevator_mq_ops : cty :=
  Struct
    [("init_sched", Ptr); ("exit_sched", Ptr); ("init_hctx", Ptr); ("exit_hctx", Ptr);
     ("depth_updated", Ptr); ("allow_merge", Ptr); ("bio_merge", Ptr); ("request_merge", Ptr);
     ("request_merged", Ptr); ("requests_merged", Ptr); ("limit_depth", Ptr);
     ("prepare_request", Ptr); ("finish_request", Ptr); ("insert_requests", Ptr);
     ("dispatch_request", Ptr); ("has_work", Ptr); ("completed_request", Ptr);
     ("requeue_request", Ptr); ("former_request", Ptr); ("next_request", Ptr);
     ("init_icq", Ptr); ("exit_icq", Ptr)].

Definition struct_elevator_type : cty :=
  Struct
    [("icq_cache", PtrTo "struct kmem_cache"); ("ops", struct_elevator_mq_ops);
     ("icq_size", typedef_size_t); ("icq_align", typedef_size_t);
     ("elevator_attrs", PtrTo "struct elv_fs_entry"); ("elevator_name", Ptr);
     ("elevator_alias", Ptr); ("elevator_features", U32);
     ("elevator_owner", PtrTo "struct module");
     ("queue_debugfs_attrs", PtrTo "struct blk_mq_debugfs_attr");
     ("hctx_debugfs_attrs", PtrTo "struct blk_mq_debugfs_attr");
     ("icq_cache_name", Array 22 U8); ("list", struct_list_head)].

Definition struct_rq_qos_ops : cty :=
  Struct
    [("throttle", Ptr); ("track", Ptr); ("merge", Ptr); ("issue", Ptr); ("requeue", Ptr);
     ("done", Ptr); ("done_bio", Ptr); ("cleanup", Ptr); ("queue_depth_changed", Ptr);
     ("exit", Ptr); ("debugfs_attrs", PtrTo "struct blk_mq_debugfs_attr")].

Definition struct_blk_mq_ctxs : cty :=
  Struct
    [("kobj", struct_kobject); ("queue_ctx", PtrTo "struct blk_mq_ctx")].

Definition struct_sbitmap_word : cty :=
  Struct
    [("depth", U64); ("", Pad 8 64); ("", Pad 8 64); ("", Pad 8 64); ("", Pad 8 64);
     ("", Pad 8 64); ("", Pad 8 64); ("", Pad 8 64); ("word", U64); ("", Pad 8 64);
     ("", Pad 8 64); ("", Pad 8 64); ("", Pad 8 64); ("", Pad 8 64); ("", Pad 8 64);
     ("", Pad 8 64); ("cleared", U64); ("swap_lock", typedef_spinlock_t); ("", Pad 8 64);
     ("", Pad 8 64); ("", Pad 8 64); ("", Pad 8 64); ("", Pad 8 64); ("", Pad 8 64)].

Definition struct_sbitmap_queue : cty :=
  Struct
    [("sb", struct_sbitmap); ("alloc_hint", Ptr); ("wake_batch", U32);
     ("wake_index", typedef_atomic_t); ("ws", PtrTo "struct sbq_wait_state");
     ("ws_active", typedef_atomic_t); ("round_robin", typedef_bool);
     ("min_shallow_depth", U32)].

Definition struct_blk_mq_tags : cty :=
  Struct
    [("nr_tags", U32); ("nr_reserved_tags", U32); ("active_queues", typedef_atomic_t);
     ("bitmap_tags", struct_sbitmap_queue); ("breserved_tags", struct_sbitmap_queue);
     ("rqs", Pointer 2 "struct request"); ("static_rqs", Pointer 2 "struct request");
     ("page_list", struct_list_head)].

Definition struct_rcu_segcblist : cty :=
  Struct
    [("head", PtrTo "struct callback_head");
     ("tails", Array 4 (Pointer 2 "struct callback_head")); ("gp_seq", Array 4 U64);
     ("len", typedef_atomic_long_t); ("len_lazy", U64); ("enabled", typedef_u8);
     ("offloaded", typedef_u8)].

Definition struct_srcu_data : cty :=
  Struct
    [("srcu_lock_count", Array 2 U64); ("srcu_unlock_count", Array 2 U64); ("", Pad 8 64);
     ("", Pad 8 64); ("", Pad 8 64); ("", Pad 8 64); ("lock", typedef_spinlock_t);
     ("srcu_cblist", struct_rcu_segcblist); ("srcu_gp_seq_needed", U64);
     ("srcu_gp_seq_needed_exp", U64); ("srcu_cblist_invoking", typedef_bool);
     ("delay_work", struct_timer_list); ("work", struct_work_struct);
     ("srcu_barrier_head", struct_callback_head); ("mynode", PtrTo "struct srcu_node");
     ("grpmask", U64); ("cpu", U32); ("ssp", PtrTo "struct srcu_struct"); ("", Pad 8 64)].

Definition struct_blkcg : cty :=
  Struct
    [("css", struct_cgroup_subsys_state); ("lock", typedef_spinlock_t);
     ("online_pin", typedef_refcount_t); ("blkg_tree", struct_xarray);
     ("blkg_hint", PtrTo "struct blkcg_gq"); ("blkg_list", struct_hlist_head);
     ("cpd", Array 5 (PtrTo "struct blkcg_policy_data"));
     ("all_blkcgs_node", struct_list_head); ("cgwb_list", struct_list_head)].

Definition struct_blkg_policy_data : cty :=
  Struct
    [("blkg", PtrTo "struct blkcg_gq"); ("plid", U32)].

Definition struct_rchan : cty :=
  Struct
    [("version", typedef_u32); ("subbuf_size", typedef_size_t); ("n_subbufs", typedef_size_t);
     ("alloc_size", typedef_size_t); ("cb", PtrTo "struct rchan_callbacks");
     ("kref", struct_kref); ("private_data", Ptr); ("last_toobig", typedef_size_t);
     ("buf", Pointer 2 "struct rchan_buf"); ("is_global", U32); ("list", struct_list_head);
     ("parent", PtrTo "struct dentry"); ("has_base_filename", U32);
     ("base_filename", Array 255 U8)].

Definition struct_uprobe_consumer : cty :=
  Struct
    [("handler", Ptr); ("ret_handler", Ptr); ("filter", Ptr);
     ("next", PtrTo "struct uprobe_consumer")].

Definition struct_uprobe_xol_ops : cty :=
  Struct
    [("emulate", Ptr); ("pre_xol", Ptr); ("post_xol", Ptr); ("abort", Ptr)].

Definition struct_ring_buffer_per_cpu : cty :=
  Struct
    [("cpu", U32); ("record_disabled", typedef_atomic_t);
     ("buffer", PtrTo "struct ring_buffer"); ("reader_lock", typedef_raw_spinlock_t);
     ("lock", typedef_arch_spinlock_t); ("lock_key", struct_lock_class_key);
     ("free_page", PtrTo "struct buffer_data_page"); ("nr_pages", U64);
     ("current_context", U32); ("pages", PtrTo "struct list_head");
     ("head_page", PtrTo "struct buffer_page"); ("tail_page", PtrTo "struct buffer_page");
     ("commit_page", PtrTo "struct buffer_page"); ("reader_page", PtrTo "struct buffer_page");
     ("lost_events", U64); ("last_overrun", U64); ("nest", U64);
     ("entries_bytes", typedef_local_t); ("entries", typedef_local_t);
     ("overrun", typedef_local_t); ("commit_overrun", typedef_local_t);
     ("dropped_events", typedef_local_t); ("committing", typedef_local_t);
     ("commits", typedef_local_t); ("pages_touched", typedef_local_t);
     ("pages_read", typedef_local_t); ("last_pages_touch", U64);
     ("shortest_full", typedef_size_t); ("read", U64); ("read_bytes", U64);
     ("write_stamp", typedef_u64); ("read_stamp", typedef_u64); ("nr_pages_to_update", U64);
     ("new_pages", struct_list_head); ("update_pages_work", struct_work_struct);
     ("update_done", struct_completion); ("irq_work", struct_rb_irq_work)].

Definition struct_trace_event_class : cty :=
  Struct
    [("system", Ptr); ("probe", Ptr); ("perf_probe", Ptr); ("reg", Ptr);
     ("define_fields", Ptr); ("get_fields", Ptr); ("fields", struct_list_head);
     ("raw_init", Ptr)].

Definition struct_static_key : cty :=
  Struct
    [("enabled", typedef_atomic_t); ("", Union [("type", U64);
     ("entries", PtrTo "struct jump_entry"); ("next", PtrTo "struct static_key_mod")])].

Definition struct_tracepoint : cty :=
  Struct
    [("name", Ptr); ("key", struct_static_key); ("regfunc", Ptr); ("unregfunc", Ptr);
     ("funcs", PtrTo "struct tracepoint_func")].

Definition typedef_trace_print_func : cty := Ptr.

Definition struct_trace_event_functions : cty :=
  Struct
    [("trace", typedef_trace_print_func); ("raw", typedef_trace_print_func);
     ("hex", typedef_trace_print_func); ("binary", typedef_trace_print_func)].

Definition struct_prog_entry : cty :=
  Struct
    [("target", U32); ("when_to_branch", U32); ("pred", PtrTo "struct filter_pred")].

Definition struct_perf_cgroup_info : cty :=
  Struct
    [("time", typedef_u64); ("timestamp", typedef_u64)].

Definition struct_inet_ehash_bucket : cty :=
  Struct
    [("chain", struct_hlist_nulls_head)].

Definition struct_inet_bind_hashbucket : cty :=
  Struct
    [("lock", typedef_spinlock_t); ("chain", struct_hlist_head)].

Definition struct_udp_hslot : cty :=
  Struct
    [("head", struct_hlist_head); ("count", U32); ("lock", typedef_spinlock_t)].

Definition struct_seq_operations : cty :=
  Struct
    [("start", Ptr); ("stop", Ptr); ("next", Ptr); ("show", Ptr)].

Definition struct_ctl_table_poll : cty :=
  Struct
    [("event", typedef_atomic_t); ("wait", typedef_wait_queue_head_t)].

Definition struct_dev_ifalias : cty :=
  Struct
    [("rcuhead", struct_callback_head); ("ifalias", Array 0 U8)].

Definition struct_iw_handler_def : cty :=
  Struct
    [("standard", Ptr); ("num_standard", typedef___u16); ("num_private", typedef___u16);
     ("num_private_args", typedef___u16); ("private", Ptr);
     ("private_args", PtrTo "struct iw_priv_args"); ("get_wireless_stats", Ptr)].

Definition struct_iw_public_data : cty :=
  Struct
    [("spy_data", PtrTo "struct iw_spy_data"); ("libipw", PtrTo "struct libipw_device")].

Definition struct_net_device_ops : cty :=
  Struct
    [("ndo_init", Ptr); ("ndo_uninit", Ptr); ("ndo_open", Ptr); ("ndo_stop", Ptr);
     ("ndo_start_xmit", Ptr); ("ndo_features_check", Ptr); ("ndo_select_queue", Ptr);
     ("ndo_change_rx_flags", Ptr); ("ndo_set_rx_mode", Ptr); ("ndo_set_mac_address", Ptr);
     ("ndo_validate_addr", Ptr); ("ndo_do_ioctl", Ptr); ("ndo_set_config", Ptr);
     ("ndo_change_mtu", Ptr); ("ndo_neigh_setup", Ptr); ("ndo_tx_timeout", Ptr);
     ("ndo_get_stats64", Ptr); ("ndo_has_offload_stats", Ptr); ("ndo_get_offload_stats", Ptr);
     ("ndo_get_stats", Ptr); ("ndo_vlan_rx_add_vid", Ptr); ("ndo_vlan_rx_kill_vid", Ptr);
     ("ndo_poll_controller", Ptr); ("ndo_netpoll_setup", Ptr); ("ndo_netpoll_cleanup", Ptr);
     ("ndo_set_vf_mac", Ptr); ("ndo_set_vf_vlan", Ptr); ("ndo_set_vf_rate", Ptr);
     ("ndo_set_vf_spoofchk", Ptr); ("ndo_set_vf_trust", Ptr); ("ndo_get_vf_config", Ptr);
     ("ndo_set_vf_link_state", Ptr); ("ndo_get_vf_stats", Ptr); ("ndo_set_vf_port", Ptr);
     ("ndo_get_vf_port", Ptr); ("ndo_set_vf_guid", Ptr); ("ndo_set_vf_rss_query_en", Ptr);
     ("ndo_setup_tc", Ptr); ("ndo_fcoe_enable", Ptr); ("ndo_fcoe_disable", Ptr);
     ("ndo_fcoe_ddp_setup", Ptr); ("ndo_fcoe_ddp_done", Ptr); ("ndo_fcoe_ddp_target", Ptr);
     ("ndo_fcoe_get_hbainfo", Ptr); ("ndo_fcoe_get_wwn", Ptr); ("ndo_rx_flow_steer", Ptr);
     ("ndo_add_slave", Ptr); ("ndo_del_slave", Ptr); ("ndo_fix_features", Ptr);
     ("ndo_set_features", Ptr); ("ndo_neigh_construct", Ptr); ("ndo_neigh_destroy", Ptr);
     ("ndo_fdb_add", Ptr); ("ndo_fdb_del", Ptr); ("ndo_fdb_dump", Ptr); ("ndo_fdb_get", Ptr);
     ("ndo_bridge_setlink", Ptr); ("ndo_bridge_getlink", Ptr); ("ndo_bridge_dellink", Ptr);
     ("ndo_change_carrier", Ptr); ("ndo_get_phys_port_id", Ptr);
     ("ndo_get_port_parent_id", Ptr); ("ndo_get_phys_port_name", Ptr);
     ("ndo_udp_tunnel_add", Ptr); ("ndo_udp_tunnel_del", Ptr); ("ndo_dfwd_add_station", Ptr);
     ("ndo_dfwd_del_station", Ptr); ("ndo_set_tx_maxrate", Ptr); ("ndo_get_iflink", Ptr);
     ("ndo_change_proto_down", Ptr); ("ndo_fill_metadata_dst", Ptr);
     ("ndo_set_rx_headroom", Ptr); ("ndo_bpf", Ptr); ("ndo_xdp_xmit", Ptr);
     ("ndo_xsk_wakeup", Ptr); ("ndo_get_devlink_port", Ptr); ("ndo_get_peer_dev", Ptr)].

Definition struct_ethtool_ops : cty :=
  Struct
    [("get_drvinfo", Ptr); ("get_regs_len", Ptr); ("get_regs", Ptr); ("get_wol", Ptr);
     ("set_wol", Ptr); ("get_msglevel", Ptr); ("set_msglevel", Ptr); ("nway_reset", Ptr);
     ("get_link", Ptr); ("get_eeprom_len", Ptr); ("get_eeprom", Ptr); ("set_eeprom", Ptr);
     ("get_coalesce", Ptr); ("set_coalesce", Ptr); ("get_ringparam", Ptr);
     ("set_ringparam", Ptr); ("get_pauseparam", Ptr); ("set_pauseparam", Ptr);
     ("self_test", Ptr); ("get_strings", Ptr); ("set_phys_id", Ptr);
     ("get_ethtool_stats", Ptr); ("begin", Ptr); ("complete", Ptr); ("get_priv_flags", Ptr);
     ("set_priv_flags", Ptr); ("get_sset_count", Ptr); ("get_rxnfc", Ptr); ("set_rxnfc", Ptr);
     ("flash_device", Ptr); ("reset", Ptr); ("get_rxfh_key_size", Ptr);
     ("get_rxfh_indir_size", Ptr); ("get_rxfh", Ptr); ("set_rxfh", Ptr);
     ("get_rxfh_context", Ptr); ("set_rxfh_context", Ptr); ("get_channels", Ptr);
     ("set_channels", Ptr); ("get_dump_flag", Ptr); ("get_dump_data", Ptr); ("set_dump", Ptr);
     ("get_ts_info", Ptr); ("get_module_info", Ptr); ("get_module_eeprom", Ptr);
     ("get_eee", Ptr); ("set_eee", Ptr); ("get_tunable", Ptr); ("set_tunable", Ptr);
     ("get_per_queue_coalesce", Ptr); ("set_per_queue_coalesce", Ptr);
     ("get_link_ksettings", Ptr); ("set_link_ksettings", Ptr); ("get_fecparam", Ptr);
     ("set_fecparam", Ptr); ("get_ethtool_phy_stats", Ptr)].

Definition struct_l3mdev_ops : cty :=
  Struct
    [("l3mdev_fib_table", Ptr); ("l3mdev_l3_rcv", Ptr); ("l3mdev_l3_out", Ptr);
     ("l3mdev_link_scope_lookup", Ptr)].

Definition struct_ndisc_ops : cty :=
  Struct
    [("is_useropt", Ptr); ("parse_options", Ptr); ("update", Ptr); ("opt_addr_space", Ptr);
     ("fill_addr_option", Ptr); ("prefix_rcv_add_addr", Ptr)].

Definition struct_xfrmdev_ops : cty :=
  Struct
    [("xdo_dev_state_add", Ptr); ("xdo_dev_state_delete", Ptr); ("xdo_dev_state_free", Ptr);
     ("xdo_dev_offload_ok", Ptr); ("xdo_dev_state_advance_esn", Ptr)].

Definition struct_header_ops : cty :=
  Struct
    [("create", Ptr); ("parse", Ptr); ("cache", Ptr); ("cache_update", Ptr);
     ("validate", Ptr); ("parse_protocol", Ptr)].

Definition struct_vlan_group : cty :=
  Struct
    [("nr_vlan_devs", U32); ("hlist", struct_hlist_node);
     ("vlan_devices_arrays", Array 16 (Pointer 2 "struct net_device"))].

Definition struct_vlan_info : cty :=
  Struct
    [("real_dev", PtrTo "struct net_device"); ("grp", struct_vlan_group);
     ("vid_list", struct_list_head); ("nr_vids", U32); ("rcu", struct_callback_head)].

Definition struct_in_device : cty :=
  Struct
    [("dev", PtrTo "struct net_device"); ("refcnt", typedef_refcount_t); ("dead", U32);
     ("ifa_list", PtrTo "struct in_ifaddr"); ("mc_list", PtrTo "struct ip_mc_list");
     ("mc_hash", Pointer 2 "struct ip_mc_list"); ("mc_count", U32);
     ("mc_tomb_lock", typedef_spinlock_t); ("mc_tomb", PtrTo "struct ip_mc_list");
     ("mr_v1_seen", U64); ("mr_v2_seen", U64); ("mr_maxdelay", U64); ("mr_qi", U64);
     ("mr_qri", U64); ("mr_qrv", U8); ("mr_gq_running", U8); ("mr_ifc_count", typedef_u32);
     ("mr_gq_timer", struct_timer_list); ("mr_ifc_timer", struct_timer_list);
     ("arp_parms", PtrTo "struct neigh_parms"); ("cnf", struct_ipv4_devconf);
     ("callback_head", struct_callback_head)].

Definition struct_ipv6_devstat : cty :=
  Struct
    [("proc_dir_entry", PtrTo "struct proc_dir_entry"); ("ipv6", PtrTo "struct ipstats_mib");
     ("icmpv6dev", PtrTo "struct icmpv6_mib_device");
     ("icmpv6msgdev", PtrTo "struct icmpv6msg_mib_device")].

Definition struct_inet6_dev : cty :=
  Struct
    [("dev", PtrTo "struct net_device"); ("addr_list", struct_list_head);
     ("mc_list", PtrTo "struct ifmcaddr6"); ("mc_tomb", PtrTo "struct ifmcaddr6");
     ("mc_lock", typedef_spinlock_t); ("mc_qrv", U8); ("mc_gq_running", U8);
     ("mc_ifc_count", U8); ("mc_dad_count", U8); ("mc_v1_seen", U64); ("mc_qi", U64);
     ("mc_qri", U64); ("mc_maxdelay", U64); ("mc_gq_timer", struct_timer_list);
     ("mc_ifc_timer", struct_timer_list); ("mc_dad_timer", struct_timer_list);
     ("ac_list", PtrTo "struct ifacaddr6"); ("lock", typedef_rwlock_t);
     ("refcnt", typedef_refcount_t); ("if_flags", typedef___u32); ("dead", U32);
     ("desync_factor", typedef_u32); ("rndid", Array 8 typedef_u8);
     ("tempaddr_list", struct_list_head); ("token", struct_in6_addr);
     ("nd_parms", PtrTo "struct neigh_parms"); ("cnf", struct_ipv6_devconf);
     ("stats", struct_ipv6_devstat); ("rs_timer", struct_timer_list);
     ("rs_interval", typedef___s32); ("rs_probes", typedef___u8); ("tstamp", U64);
     ("rcu", struct_callback_head)].

Definition struct_ieee80211_edmg : cty :=
  Struct
    [("channels", typedef_u8); ("bw_config", Enum)].

Definition struct_cfg80211_chan_def : cty :=
  Struct
    [("chan", PtrTo "struct ieee80211_channel"); ("width", Enum);
     ("center_freq1", typedef_u32); ("center_freq2", typedef_u32);
     ("edmg", struct_ieee80211_edmg)].

Definition struct_ieee80211_mcs_info : cty :=
  Struct
    [("rx_mask", Array 10 typedef_u8); ("rx_highest", typedef___le16);
     ("tx_params", typedef_u8); ("reserved", Array 3 typedef_u8)].

Definition typedef___le32 : cty := typedef___u32.

Definition struct_ieee80211_ht_cap : cty :=
  Packed
    [("cap_info", typedef___le16); ("ampdu_params_info", typedef_u8);
     ("mcs", struct_ieee80211_mcs_info); ("extended_ht_cap_info", typedef___le16);
     ("tx_BF_cap_info", typedef___le32); ("antenna_selection_info", typedef_u8)].

Definition struct_cfg80211_ibss_params : cty :=
  Struct
    [("ssid", Ptr); ("bssid", Ptr); ("chandef", struct_cfg80211_chan_def); ("ie", Ptr);
     ("ssid_len", typedef_u8); ("ie_len", typedef_u8); ("beacon_interval", typedef_u16);
     ("basic_rates", typedef_u32); ("channel_fixed", typedef_bool); ("privacy", typedef_bool);
     ("control_port", typedef_bool); ("control_port_over_nl80211", typedef_bool);
     ("userspace_handles_dfs", typedef_bool); ("mcast_rate", Array 4 U32);
     ("ht_capa", struct_ieee80211_ht_cap); ("ht_capa_mask", struct_ieee80211_ht_cap);
     ("wep_keys", PtrTo "struct key_params"); ("wep_tx_key", U32)].

Definition struct_cfg80211_crypto_settings : cty :=
  Struct
    [("wpa_versions", typedef_u32); ("cipher_group", typedef_u32);
     ("n_ciphers_pairwise", U32); ("ciphers_pairwise", Array 5 typedef_u32);
     ("n_akm_suites", U32); ("akm_suites", Array 2 typedef_u32);
     ("control_port", typedef_bool); ("control_port_ethertype", typedef___be16);
     ("control_port_no_encrypt", typedef_bool); ("control_port_over_nl80211", typedef_bool);
     ("wep_keys", PtrTo "struct key_params"); ("wep_tx_key", U32); ("psk", Ptr);
     ("sae_pwd", Ptr); ("sae_pwd_len", typedef_u8)].

Definition struct_ieee80211_vht_mcs_info : cty :=
  Struct
    [("rx_mcs_map", typedef___le16); ("rx_highest", typedef___le16);
     ("tx_mcs_map", typedef___le16); ("tx_highest", typedef___le16)].

Definition struct_ieee80211_vht_cap : cty :=
  Struct
    [("vht_cap_info", typedef___le32); ("supp_mcs", struct_ieee80211_vht_mcs_info)].

Definition struct_cfg80211_bss_select_adjust : cty :=
  Struct
    [("band", Enum); ("delta", typedef_s8)].

Definition struct_cfg80211_bss_selection : cty :=
  Struct
    [("behaviour", Enum); ("param", Union [("band_pref", Enum);
     ("adjust", struct_cfg80211_bss_select_adjust)])].

Definition struct_cfg80211_connect_params : cty :=
  Struct
    [("channel", PtrTo "struct ieee80211_channel");
     ("channel_hint", PtrTo "struct ieee80211_channel"); ("bssid", Ptr); ("bssid_hint", Ptr);
     ("ssid", Ptr); ("ssid_len", typedef_size_t); ("auth_type", Enum); ("ie", Ptr);
     ("ie_len", typedef_size_t); ("privacy", typedef_bool); ("mfp", Enum);
     ("crypto", struct_cfg80211_crypto_settings); ("key", Ptr); ("key_len", typedef_u8);
     ("key_idx", typedef_u8); ("flags", typedef_u32); ("bg_scan_period", U32);
     ("ht_capa", struct_ieee80211_ht_cap); ("ht_capa_mask", struct_ieee80211_ht_cap);
     ("vht_capa", struct_ieee80211_vht_cap); ("vht_capa_mask", struct_ieee80211_vht_cap);
     ("pbss", typedef_bool); ("bss_select", struct_cfg80211_bss_selection);
     ("prev_bssid", Ptr); ("fils_erp_username", Ptr);
     ("fils_erp_username_len", typedef_size_t); ("fils_erp_realm", Ptr);
     ("fils_erp_realm_len", typedef_size_t); ("fils_erp_next_seq_num", typedef_u16);
     ("fils_erp_rrk", Ptr); ("fils_erp_rrk_len", typedef_size_t); ("want_1x", typedef_bool);
     ("edmg", struct_ieee80211_edmg)].

Definition struct_wireless_dev : cty :=
  Struct
    [("wiphy", PtrTo "struct wiphy"); ("iftype", Enum); ("list", struct_list_head);
     ("netdev", PtrTo "struct net_device"); ("identifier", typedef_u32);
     ("mgmt_registrations", struct_list_head);
     ("mgmt_registrations_lock", typedef_spinlock_t); ("mtx", struct_mutex);
     ("use_4addr", typedef_bool); ("is_running", typedef_bool);
     ("address", Array 6 typedef_u8); ("ssid", Array 32 typedef_u8); ("ssid_len", typedef_u8);
     ("mesh_id_len", typedef_u8); ("mesh_id_up_len", typedef_u8);
     ("conn", PtrTo "struct cfg80211_conn");
     ("connect_keys", PtrTo "struct cfg80211_cached_keys"); ("conn_bss_type", Enum);
     ("conn_owner_nlportid", typedef_u32); ("disconnect_wk", struct_work_struct);
     ("disconnect_bssid", Array 6 typedef_u8); ("event_list", struct_list_head);
     ("event_lock", typedef_spinlock_t);
     ("current_bss", PtrTo "struct cfg80211_internal_bss");
     ("preset_chandef", struct_cfg80211_chan_def); ("chandef", struct_cfg80211_chan_def);
     ("ibss_fixed", typedef_bool); ("ibss_dfs_possible", typedef_bool); ("ps", typedef_bool);
     ("ps_timeout", U32); ("beacon_interval", U32); ("ap_unexpected_nlportid", typedef_u32);
     ("owner_nlportid", typedef_u32); ("nl_owner_dead", typedef_bool);
     ("cac_started", typedef_bool); ("cac_start_time", U64); ("cac_time_ms", U32);
     ("wext", Struct [("ibss", struct_cfg80211_ibss_params);
     ("connect", struct_cfg80211_connect_params);
     ("keys", PtrTo "struct cfg80211_cached_keys"); ("ie", Ptr); ("ie_len", typedef_size_t);
     ("bssid", Array 6 typedef_u8); ("prev_bssid", Array 6 typedef_u8);
     ("ssid", Array 32 typedef_u8); ("default_key", typedef_s8);
     ("default_mgmt_key", typedef_s8); ("prev_bssid_valid", typedef_bool)]);
     ("cqm_config", PtrTo "struct cfg80211_cqm_config"); ("pmsr_list", struct_list_head);
     ("pmsr_lock", typedef_spinlock_t); ("pmsr_free_wk", struct_work_struct)].

Definition struct_wpan_dev : cty :=
  Struct
    [("wpan_phy", PtrTo "struct wpan_phy"); ("iftype", U32); ("list", struct_list_head);
     ("netdev", PtrTo "struct net_device");
     ("header_ops", PtrTo "struct wpan_dev_header_ops");
     ("lowpan_dev", PtrTo "struct net_device"); ("identifier", typedef_u32);
     ("pan_id", typedef___le16); ("short_addr", typedef___le16);
     ("extended_addr", typedef___le64); ("bsn", typedef_atomic_t); ("dsn", typedef_atomic_t);
     ("min_be", typedef_u8); ("max_be", typedef_u8); ("csma_retries", typedef_u8);
     ("frame_retries", typedef_s8); ("lbt", typedef_bool); ("promiscuous_mode", typedef_bool);
     ("ackreq", typedef_bool)].

Definition struct_xdp_mem_info : cty :=
  Struct
    [("type", typedef_u32); ("id", typedef_u32)].

Definition struct_xdp_rxq_info : cty :=
  Struct
    [("dev", PtrTo "struct net_device"); ("queue_index", typedef_u32);
     ("reg_state", typedef_u32); ("mem", struct_xdp_mem_info); ("", Pad 8 64); ("", Pad 8 64);
     ("", Pad 8 64); ("", Pad 8 64); ("", Pad 8 64)].

Definition struct_netdev_rx_queue : cty :=
  Struct
    [("rps_map", PtrTo "struct rps_map");
     ("rps_flow_table", PtrTo "struct rps_dev_flow_table"); ("rps_single_flow_flags", U64);
     ("kobj", struct_kobject); ("dev", PtrTo "struct net_device"); ("", Pad 8 64);
     ("", Pad 8 64); ("", Pad 8 64); ("", Pad 8 64); ("xdp_rxq", struct_xdp_rxq_info);
     ("umem", PtrTo "struct xdp_umem"); ("", Pad 8 64); ("", Pad 8 64); ("", Pad 8 64);
     ("", Pad 8 64); ("", Pad 8 64); ("", Pad 8 64); ("", Pad 8 64)].

Definition struct_mini_Qdisc : cty :=
  Struct
    [("filter_list", PtrTo "struct tcf_proto");
     ("cpu_bstats", PtrTo "struct gnet_stats_basic_cpu");
     ("cpu_qstats", PtrTo "struct gnet_stats_queue"); ("rcu", struct_callback_head)].

Definition struct_dql : cty :=
  Struct
    [("num_queued", U32); ("adj_limit", U32); ("last_obj_cnt", U32); ("", Pad 8 64);
     ("", Pad 8 64); ("", Pad 8 64); ("", Pad 8 64); ("", Pad 8 64); ("", Pad 8 64);
     ("limit", U32); ("num_completed", U32); ("prev_ovlimit", U32); ("prev_num_queued", U32);
     ("prev_last_obj_cnt", U32); ("lowest_slack", U32); ("slack_start_time", U64);
     ("max_limit", U32); ("min_limit", U32); ("slack_hold_time", U32); ("", Pad 8 64);
     ("", Pad 8 64)].

Definition struct_netdev_queue : cty :=
  Struct
    [("dev", PtrTo "struct net_device"); ("qdisc", PtrTo "struct Qdisc");
     ("qdisc_sleeping", PtrTo "struct Qdisc"); ("kobj", struct_kobject); ("numa_node", U32);
     ("tx_maxrate", U64); ("trans_timeout", U64); ("sb_dev", PtrTo "struct net_device");
     ("umem", PtrTo "struct xdp_umem"); ("_xmit_lock", typedef_spinlock_t);
     ("xmit_lock_owner", U32); ("trans_start", U64); ("state", U64); ("", Pad 8 64);
     ("", Pad 8 64); ("", Pad 8 64); ("", Pad 8 64); ("", Pad 8 64); ("dql", struct_dql)].

Definition struct_cpu_rmap : cty :=
  Struct
    [("refcount", struct_kref); ("size", typedef_u16); ("used", typedef_u16); ("obj", Ptr);
     ("near", Array 0 (Struct [("index", typedef_u16); ("dist", typedef_u16)]))].

Definition struct_qdisc_skb_head : cty :=
  Struct
    [("head", PtrTo "struct sk_buff"); ("tail", PtrTo "struct sk_buff");
     ("qlen", typedef___u32); ("lock", typedef_spinlock_t)].

Definition struct_gnet_stats_basic_packed : cty :=
  Packed
    [("bytes", typedef___u64); ("packets", typedef___u32)].

Definition struct_gnet_stats_queue : cty :=
  Struct
    [("qlen", typedef___u32); ("backlog", typedef___u32); ("drops", typedef___u32);
     ("requeues", typedef___u32); ("overlimits", typedef___u32)].

Definition struct_Qdisc : cty :=
  Struct
    [("enqueue", Ptr); ("dequeue", Ptr); ("flags", U32); ("limit", typedef_u32);
     ("ops", PtrTo "struct Qdisc_ops"); ("stab", PtrTo "struct qdisc_size_table");
     ("hash", struct_hlist_node); ("handle", typedef_u32); ("parent", typedef_u32);
     ("dev_queue", PtrTo "struct netdev_queue");
     ("rate_est", PtrTo "struct net_rate_estimator");
     ("cpu_bstats", PtrTo "struct gnet_stats_basic_cpu");
     ("cpu_qstats", PtrTo "struct gnet_stats_queue"); ("padded", U32);
     ("refcnt", typedef_refcount_t); ("", Pad 8 64); ("", Pad 8 64); ("", Pad 8 64);
     ("gso_skb", struct_sk_buff_head); ("q", struct_qdisc_skb_head);
     ("bstats", struct_gnet_stats_basic_packed); ("running", typedef_seqcount_t);
     ("qstats", struct_gnet_stats_queue); ("state", U64);
     ("next_sched", PtrTo "struct Qdisc"); ("skb_bad_txq", struct_sk_buff_head);
     ("busylock", typedef_spinlock_t); ("seqlock", typedef_spinlock_t);
     ("empty", typedef_bool); ("rcu", struct_callback_head); ("", Pad 8 64); ("", Pad 8 64);
     ("", Pad 8 64); ("", Pad 8 64)].

Definition struct_xps_dev_maps : cty :=
  Struct
    [("rcu", struct_callback_head); ("attr_map", Array 0 (PtrTo "struct xps_map"))].

Definition struct_netpoll_info : cty :=
  Struct
    [("refcnt", typedef_refcount_t); ("dev_lock", struct_semaphore);
     ("txq", struct_sk_buff_head); ("tx_work", struct_delayed_work);
     ("netpoll", PtrTo "struct netpoll"); ("rcu", struct_callback_head)].

Definition struct_pcpu_lstats : cty :=
  Struct
    [("packets", typedef_u64); ("bytes", typedef_u64); ("syncp", struct_u64_stats_sync)].

Definition struct_pcpu_sw_netstats : cty :=
  Struct
    [("rx_packets", typedef_u64); ("rx_bytes", typedef_u64); ("tx_packets", typedef_u64);
     ("tx_bytes", typedef_u64); ("syncp", struct_u64_stats_sync)].

Definition struct_rtnl_link_ops : cty :=
  Struct
    [("list", struct_list_head); ("kind", Ptr); ("priv_size", typedef_size_t); ("setup", Ptr);
     ("netns_refund", typedef_bool); ("maxtype", U32); ("policy", PtrTo "struct nla_policy");
     ("validate", Ptr); ("newlink", Ptr); ("changelink", Ptr); ("dellink", Ptr);
     ("get_size", Ptr); ("fill_info", Ptr); ("get_xstats_size", Ptr); ("fill_xstats", Ptr);
     ("get_num_tx_queues", Ptr); ("get_num_rx_queues", Ptr); ("slave_maxtype", U32);
     ("slave_policy", PtrTo "struct nla_policy"); ("slave_changelink", Ptr);
     ("get_slave_size", Ptr); ("fill_slave_info", Ptr); ("get_link_net", Ptr);
     ("get_linkxstats_size", Ptr); ("fill_linkxstats", Ptr)].

Definition struct_dcbnl_rtnl_ops : cty :=
  Struct
    [("ieee_getets", Ptr); ("ieee_setets", Ptr); ("ieee_getmaxrate", Ptr);
     ("ieee_setmaxrate", Ptr); ("ieee_getqcn", Ptr); ("ieee_setqcn", Ptr);
     ("ieee_getqcnstats", Ptr); ("ieee_getpfc", Ptr); ("ieee_setpfc", Ptr);
     ("ieee_getapp", Ptr); ("ieee_setapp", Ptr); ("ieee_delapp", Ptr);
     ("ieee_peer_getets", Ptr); ("ieee_peer_getpfc", Ptr); ("getstate", Ptr);
     ("setstate", Ptr); ("getpermhwaddr", Ptr); ("setpgtccfgtx", Ptr); ("setpgbwgcfgtx", Ptr);
     ("setpgtccfgrx", Ptr); ("setpgbwgcfgrx", Ptr); ("getpgtccfgtx", Ptr);
     ("getpgbwgcfgtx", Ptr); ("getpgtccfgrx", Ptr); ("getpgbwgcfgrx", Ptr);
     ("setpfccfg", Ptr); ("getpfccfg", Ptr); ("setall", Ptr); ("getcap", Ptr);
     ("getnumtcs", Ptr); ("setnumtcs", Ptr); ("getpfcstate", Ptr); ("setpfcstate", Ptr);
     ("getbcncfg", Ptr); ("setbcncfg", Ptr); ("getbcnrp", Ptr); ("setbcnrp", Ptr);
     ("setapp", Ptr); ("getapp", Ptr); ("getfeatcfg", Ptr); ("setfeatcfg", Ptr);
     ("getdcbx", Ptr); ("setdcbx", Ptr); ("peer_getappinfo", Ptr); ("peer_getapptable", Ptr);
     ("cee_peer_getpg", Ptr); ("cee_peer_getpfc", Ptr); ("dcbnl_getbuffer", Ptr);
     ("dcbnl_setbuffer", Ptr)].

Definition struct_netprio_map : cty :=
  Struct
    [("rcu", struct_callback_head); ("priomap_len", typedef_u32);
     ("priomap", Array 0 typedef_u32)].

Definition struct_mdio_device : cty :=
  Struct
    [("dev", struct_device); ("bus", PtrTo "struct mii_bus"); ("modalias", Array 32 U8);
     ("bus_match", Ptr); ("device_free", Ptr); ("device_remove", Ptr); ("addr", U32);
     ("flags", U32); ("reset_gpio", PtrTo "struct gpio_desc");
     ("reset_ctrl", PtrTo "struct reset_control"); ("reset_assert_delay", U32);
     ("reset_deassert_delay", U32)].

Definition struct_phy_c45_device_ids : cty :=
  Struct
    [("devices_in_package", typedef_u32); ("device_ids", Array 8 typedef_u32)].

Definition typedef_phy_interface_t : cty := Enum.

Definition struct_phy_device : cty :=
  Struct
    [("mdio", struct_mdio_device); ("drv", PtrTo "struct phy_driver");
     ("phy_id", typedef_u32); ("c45_ids", struct_phy_c45_device_ids); ("is_c45", Bits 4 1);
     ("is_internal", Bits 4 1); ("is_pseudo_fixed_link", Bits 4 1);
     ("is_gigabit_capable", Bits 4 1); ("has_fixups", Bits 4 1); ("suspended", Bits 4 1);
     ("suspended_by_mdio_bus", Bits 4 1); ("sysfs_links", Bits 4 1);
     ("loopback_enabled", Bits 4 1); ("autoneg", Bits 4 1); ("link", Bits 4 1);
     ("autoneg_complete", Bits 4 1); ("interrupts", Bits 4 1); ("state", Enum);
     ("dev_flags", typedef_u32); ("interface", typedef_phy_interface_t); ("speed", U32);
     ("duplex", U32); ("pause", U32); ("asym_pause", U32); ("supported", Array 2 U64);
     ("advertising", Array 2 U64); ("lp_advertising", Array 2 U64); ("adv_old", Array 2 U64);
     ("eee_broken_modes", typedef_u32); ("irq", U32); ("priv", Ptr);
     ("state_queue", struct_delayed_work); ("lock", struct_mutex);
     ("phylink", PtrTo "struct phylink"); ("attached_dev", PtrTo "struct net_device");
     ("mdix", typedef_u8); ("mdix_ctrl", typedef_u8); ("phy_link_change", Ptr);
     ("adjust_link", Ptr)].

Definition struct_nla_policy : cty :=
  Struct
    [("type", typedef_u8); ("validation_type", typedef_u8); ("len", typedef_u16); ("", Union
     [("validation_data", Ptr); ("", Struct [("min", typedef_s16); ("max", typedef_s16)]);
     ("validate", Ptr); ("strict_start_type", typedef_u16)])].

Definition struct_inet_frags : cty :=
  Struct
    [("qsize", U32); ("constructor", Ptr); ("destructor", Ptr); ("frag_expire", Ptr);
     ("frags_cachep", PtrTo "struct kmem_cache"); ("frags_cache_name", Ptr);
     ("rhash_params", struct_rhashtable_params); ("refcnt", typedef_refcount_t);
     ("completion", struct_completion)].

Definition struct_xt_table_info : cty :=
  Struct
    [("size", U32); ("number", U32); ("initial_entries", U32); ("hook_entry", Array 5 U32);
     ("underflow", Array 5 U32); ("stacksize", U32); ("jumpstack", Ptr);
     ("entries", Array 0 U8)].

Definition struct_dst_metrics : cty :=
  Struct
    [("metrics", Array 17 typedef_u32); ("refcnt", typedef_refcount_t)].

Definition struct_nexthop : cty :=
  Struct
    [("rb_node", struct_rb_node); ("fi_list", struct_list_head);
     ("f6i_list", struct_list_head); ("grp_list", struct_list_head);
     ("net", PtrTo "struct net"); ("id", typedef_u32); ("protocol", typedef_u8);
     ("nh_flags", typedef_u8); ("is_group", typedef_bool); ("refcnt", typedef_refcount_t);
     ("rcu", struct_callback_head); ("", Union [("nh_info", PtrTo "struct nh_info");
     ("nh_grp", PtrTo "struct nh_group")])].

Definition struct_rtable : cty :=
  Struct
    [("dst", struct_dst_entry); ("rt_genid", U32); ("rt_flags", U32);
     ("rt_type", typedef___u16); ("rt_is_input", typedef___u8);
     ("rt_uses_gateway", typedef___u8); ("rt_iif", U32); ("rt_gw_family", typedef_u8);
     ("", Union [("rt_gw4", typedef___be32); ("rt_gw6", struct_in6_addr)]);
     ("rt_mtu_locked", Bits 4 1); ("rt_pmtu", Bits 4 31); ("rt_uncached", struct_list_head);
     ("rt_uncached_list", PtrTo "struct uncached_list")].

Definition struct_fnhe_hash_bucket : cty :=
  Struct
    [("chain", PtrTo "struct fib_nh_exception")].

Definition struct_rt6_exception_bucket : cty :=
  Struct
    [("chain", struct_hlist_head); ("depth", U32)].

Definition struct_uncached_list : cty :=
  Struct
    [("lock", typedef_spinlock_t); ("head", struct_list_head)].

Definition struct_xfrm_address_filter : cty :=
  Struct
    [("saddr", typedef_xfrm_address_t); ("daddr", typedef_xfrm_address_t);
     ("family", typedef___u16); ("splen", typedef___u8); ("dplen", typedef___u8)].

Definition struct_xfrm_algo_auth : cty :=
  Struct
    [("alg_name", Array 64 U8); ("alg_key_len", U32); ("alg_trunc_len", U32);
     ("alg_key", Array 0 U8)].

Definition struct_xfrm_algo : cty :=
  Struct
    [("alg_name", Array 64 U8); ("alg_key_len", U32); ("alg_key", Array 0 U8)].

Definition struct_xfrm_algo_aead : cty :=
  Struct
    [("alg_name", Array 64 U8); ("alg_key_len", U32); ("alg_icv_len", U32);
     ("alg_key", Array 0 U8)].

Definition struct_xfrm_encap_tmpl : cty :=
  Struct
    [("encap_type", typedef___u16); ("encap_sport", typedef___be16);
     ("encap_dport", typedef___be16); ("encap_oa", typedef_xfrm_address_t)].

Definition struct_xfrm_replay_state_esn : cty :=
  Struct
    [("bmp_len", U32); ("oseq", typedef___u32); ("seq", typedef___u32);
     ("oseq_hi", typedef___u32); ("seq_hi", typedef___u32); ("replay_window", typedef___u32);
     ("bmp", Array 0 typedef___u32)].

Definition struct_xfrm_replay : cty :=
  Struct
    [("advance", Ptr); ("check", Ptr); ("recheck", Ptr); ("notify", Ptr); ("overflow", Ptr)].

Definition struct_xfrm_type : cty :=
  Struct
    [("description", Ptr); ("owner", PtrTo "struct module"); ("proto", typedef_u8);
     ("flags", typedef_u8); ("init_state", Ptr); ("destructor", Ptr); ("input", Ptr);
     ("output", Ptr); ("reject", Ptr); ("hdr_offset", Ptr)].

Definition struct_xfrm_type_offload : cty :=
  Struct
    [("description", Ptr); ("owner", PtrTo "struct module"); ("proto", typedef_u8);
     ("encap", Ptr); ("input_tail", Ptr); ("xmit", Ptr)].

Definition struct_bpf_map_memory : cty :=
  Struct
    [("pages", typedef_u32); ("user", PtrTo "struct user_struct")].

Definition struct_bpf_map : cty :=
  Struct
    [("ops", PtrTo "struct bpf_map_ops"); ("inner_map_meta", PtrTo "struct bpf_map");
     ("security", Ptr); ("map_type", Enum); ("key_size", typedef_u32);
     ("value_size", typedef_u32); ("max_entries", typedef_u32); ("map_flags", typedef_u32);
     ("spin_lock_off", U32); ("id", typedef_u32); ("numa_node", U32);
     ("btf_key_type_id", typedef_u32); ("btf_value_type_id", typedef_u32);
     ("btf", PtrTo "struct btf"); ("memory", struct_bpf_map_memory);
     ("unpriv_array", typedef_bool); ("frozen", typedef_bool); ("", Pad 8 64); ("", Pad 8 64);
     ("", Pad 8 64); ("", Pad 8 64); ("refcnt", typedef_atomic_t);
     ("usercnt", typedef_atomic_t); ("work", struct_work_struct); ("name", Array 16 U8);
     ("", Pad 8 64)].

Definition struct_bpf_sk_storage_map : cty :=
  Struct
    [("map", struct_bpf_map); ("buckets", PtrTo "struct bucket___2");
     ("bucket_log", typedef_u32); ("elem_size", typedef_u16); ("cache_idx", typedef_u16);
     ("", Pad 8 64); ("", Pad 8 64); ("", Pad 8 64); ("", Pad 8 64); ("", Pad 8 64);
     ("", Pad 8 64)].

Definition struct_ip6_sf_socklist : cty :=
  Struct
    [("sl_max", U32); ("sl_count", U32); ("sl_addr", Array 0 struct_in6_addr)].

Definition struct_ip6_flowlabel : cty :=
  Struct
    [("next", PtrTo "struct ip6_flowlabel"); ("label", typedef___be32);
     ("users", typedef_atomic_t); ("dst", struct_in6_addr);
     ("opt", PtrTo "struct ipv6_txoptions"); ("linger", U64); ("rcu", struct_callback_head);
     ("share", typedef_u8); ("owner", Union [("pid", PtrTo "struct pid");
     ("uid", typedef_kuid_t)]); ("lastuse", U64); ("expires", U64);
     ("fl_net", PtrTo "struct net")].

Definition struct_iovec : cty :=
  Struct
    [("iov_base", Ptr); ("iov_len", typedef___kernel_size_t)].

Definition struct_kvec : cty :=
  Struct
    [("iov_base", Ptr); ("iov_len", typedef_size_t)].

Definition struct_kiocb : cty :=
  Struct
    [("ki_filp", PtrTo "struct file"); ("ki_pos", typedef_loff_t); ("ki_complete", Ptr);
     ("private", Ptr); ("ki_flags", U32); ("ki_hint", typedef_u16);
     ("ki_ioprio", typedef_u16); ("", Union [("ki_cookie", U32);
     ("ki_waitq", PtrTo "struct wait_page_queue")])].

(** The types by name. *)
Definition reached_types3 : list (string * cty) :=
    [("struct attribute_group", struct_attribute_group);
     ("struct attribute", struct_attribute);
     ("struct module_attribute", struct_module_attribute);
     ("struct param_attribute", struct_param_attribute);
     ("struct module_param_attrs", struct_module_param_attrs);
     ("struct kernel_symbol", struct_kernel_symbol);
     ("struct kernel_param", struct_kernel_param);
     ("struct exception_table_entry", struct_exception_table_entry);
     ("struct orc_entry", struct_orc_entry); ("struct bug_entry", struct_bug_entry);
     ("struct elf64_sym", struct_elf64_sym); ("struct bin_attribute", struct_bin_attribute);
     ("struct module_sect_attr", struct_module_sect_attr);
     ("struct module_sect_attrs", struct_module_sect_attrs);
     ("struct module_notes_attrs", struct_module_notes_attrs);
     ("struct bpf_raw_event_map", struct_bpf_raw_event_map);
     ("struct jump_entry", struct_jump_entry);
     ("struct trace_eval_map", struct_trace_eval_map); ("struct elf64_hdr", struct_elf64_hdr);
     ("struct klp_modinfo", struct_klp_modinfo);
     ("struct error_injection_entry", struct_error_injection_entry);
     ("struct fs_pin", struct_fs_pin);
     ("struct fs_parameter_description", struct_fs_parameter_description);
     ("struct wq_flusher", struct_wq_flusher); ("struct worker", struct_worker);
     ("struct workqueue_attrs", struct_workqueue_attrs);
     ("struct pool_workqueue", struct_pool_workqueue); ("struct wq_device", struct_wq_device);
     ("struct list_lru_memcg", struct_list_lru_memcg);
     ("struct pipe_buf_operations", struct_pipe_buf_operations);
     ("struct klist", struct_klist); ("struct klist_node", struct_klist_node);
     ("struct device_private", struct_device_private);
     ("struct device_type", struct_device_type); ("struct bus_type", struct_bus_type);
     ("struct device_driver", struct_device_driver);
     ("struct wakeup_source", struct_wakeup_source); ("struct wake_irq", struct_wake_irq);
     ("struct pm_subsys_data", struct_pm_subsys_data);
     ("struct pm_qos_constraints", struct_pm_qos_constraints);
     ("struct pm_qos_flags", struct_pm_qos_flags); ("struct dev_pm_qos", struct_dev_pm_qos);
     ("struct dev_pm_ops", struct_dev_pm_ops); ("struct dev_pm_domain", struct_dev_pm_domain);
     ("struct irq_domain", struct_irq_domain); ("struct dev_pin_info", struct_dev_pin_info);
     ("struct dma_map_ops", struct_dma_map_ops);
     ("struct device_dma_parameters", struct_device_dma_parameters);
     ("struct fwnode_handle", struct_fwnode_handle);
     ("struct device_node", struct_device_node); ("struct class", struct_class);
     ("struct blocking_notifier_head", struct_blocking_notifier_head);
     ("struct iommu_group", struct_iommu_group); ("struct iommu_fwspec", struct_iommu_fwspec);
     ("struct iommu_param", struct_iommu_param);
     ("struct partition_meta_info", struct_partition_meta_info);
     ("struct disk_stats", struct_disk_stats); ("struct disk_part_tbl", struct_disk_part_tbl);
     ("struct block_device_operations", struct_block_device_operations);
     ("struct timer_rand_state", struct_timer_rand_state);
     ("struct disk_events", struct_disk_events); ("struct badblocks", struct_badblocks);
     ("struct kset_uevent_ops", struct_kset_uevent_ops);
     ("struct sysfs_ops", struct_sysfs_ops); ("struct kernfs_root", struct_kernfs_root);
     ("struct kernfs_ops", struct_kernfs_ops);
     ("struct kernfs_open_node", struct_kernfs_open_node);
     ("struct simple_xattrs", struct_simple_xattrs);
     ("struct kernfs_iattrs", struct_kernfs_iattrs);
     ("struct mm_struct___2", struct_mm_struct___2); ("struct kioctx", struct_kioctx);
     ("struct dl_bw", struct_dl_bw); ("struct cpudl", struct_cpudl);
     ("struct cpupri_vec", struct_cpupri_vec); ("struct cpupri", struct_cpupri);
     ("struct root_domain", struct_root_domain); ("struct sched_domain", struct_sched_domain);
     ("struct cpu_stop_done", struct_cpu_stop_done);
     ("struct cpuidle_state", struct_cpuidle_state);
     ("struct cgroup_root", struct_cgroup_root);
     ("struct cgroup_rstat_cpu", struct_cgroup_rstat_cpu);
     ("struct psi_group_cpu", struct_psi_group_cpu);
     ("struct bpf_prog_array_item", struct_bpf_prog_array_item);
     ("struct bpf_prog_array", struct_bpf_prog_array); ("struct cftype", struct_cftype);
     ("struct mem_dqinfo___2", struct_mem_dqinfo___2);
     ("struct quota_info___2", struct_quota_info___2);
     ("struct rcuwait___2", struct_rcuwait___2);
     ("struct percpu_rw_semaphore___2", struct_percpu_rw_semaphore___2);
     ("struct sb_writers___2", struct_sb_writers___2);
     ("struct super_block___2", struct_super_block___2);
     ("struct dentry_operations___2", struct_dentry_operations___2);
     ("struct inode_operations___2", struct_inode_operations___2);
     ("struct file_operations___2", struct_file_operations___2);
     ("struct address_space_operations___2", struct_address_space_operations___2);
     ("struct pipe_inode_info___2", struct_pipe_inode_info___2);
     ("struct block_device___2", struct_block_device___2);
     ("struct bucket_table", struct_bucket_table); ("struct mount", struct_mount);
     ("struct tty_driver", struct_tty_driver);
     ("struct tty_operations", struct_tty_operations); ("struct tty_ldisc", struct_tty_ldisc);
     ("struct termiox", struct_termiox); ("struct tty_buffer", struct_tty_buffer);
     ("struct tty_bufhead", struct_tty_bufhead); ("struct tty_port", struct_tty_port);
     ("struct node___2", struct_node___2); ("struct audit_chunk", struct_audit_chunk);
     ("struct bpf_prog_aux", struct_bpf_prog_aux);
     ("struct sock_fprog_kern", struct_sock_fprog_kern);
     ("struct bio_integrity_payload", struct_bio_integrity_payload);
     ("struct zone_padding", struct_zone_padding); ("struct free_area", struct_free_area);
     ("struct zone", struct_zone); ("struct perf_cpu_context", struct_perf_cpu_context);
     ("struct kmem_cache_cpu", struct_kmem_cache_cpu);
     ("struct kmem_cache_node", struct_kmem_cache_node);
     ("struct dev_pagemap_ops", struct_dev_pagemap_ops);
     ("struct eventfd_ctx", struct_eventfd_ctx); ("struct zoneref", struct_zoneref);
     ("struct zonelist", struct_zonelist); ("struct pglist_data", struct_pglist_data);
     ("struct lruvec_stat", struct_lruvec_stat);
     ("struct batched_lruvec_stat", struct_batched_lruvec_stat);
     ("struct memcg_shrinker_map", struct_memcg_shrinker_map);
     ("struct elevator_mq_ops", struct_elevator_mq_ops);
     ("struct elevator_type", struct_elevator_type); ("struct rq_qos_ops", struct_rq_qos_ops);
     ("struct blk_mq_ctxs", struct_blk_mq_ctxs); ("struct sbitmap_word", struct_sbitmap_word);
     ("struct sbitmap_queue", struct_sbitmap_queue);
     ("struct blk_mq_tags", struct_blk_mq_tags);
     ("struct rcu_segcblist", struct_rcu_segcblist); ("struct srcu_data", struct_srcu_data);
     ("struct blkcg", struct_blkcg); ("struct blkg_policy_data", struct_blkg_policy_data);
     ("struct rchan", struct_rchan); ("struct uprobe_consumer", struct_uprobe_consumer);
     ("struct uprobe_xol_ops", struct_uprobe_xol_ops);
     ("struct ring_buffer_per_cpu", struct_ring_buffer_per_cpu);
     ("struct trace_event_class", struct_trace_event_class);
     ("struct static_key", struct_static_key); ("struct tracepoint", struct_tracepoint);
     ("struct trace_event_functions", struct_trace_event_functions);
     ("struct prog_entry", struct_prog_entry);
     ("struct perf_cgroup_info", struct_perf_cgroup_info);
     ("struct inet_ehash_bucket", struct_inet_ehash_bucket);
     ("struct inet_bind_hashbucket", struct_inet_bind_hashbucket);
     ("struct udp_hslot", struct_udp_hslot); ("struct seq_operations", struct_seq_operations);
     ("struct ctl_table_poll", struct_ctl_table_poll);
     ("struct dev_ifalias", struct_dev_ifalias);
     ("struct iw_handler_def", struct_iw_handler_def);
     ("struct iw_public_data", struct_iw_public_data);
     ("struct net_device_ops", struct_net_device_ops);
     ("struct ethtool_ops", struct_ethtool_ops); ("struct l3mdev_ops", struct_l3mdev_ops);
     ("struct ndisc_ops", struct_ndisc_ops); ("struct xfrmdev_ops", struct_xfrmdev_ops);
     ("struct header_ops", struct_header_ops); ("struct vlan_group", struct_vlan_group);
     ("struct vlan_info", struct_vlan_info); ("struct in_device", struct_in_device);
     ("struct ipv6_devstat", struct_ipv6_devstat); ("struct inet6_dev", struct_inet6_dev);
     ("struct ieee80211_edmg", struct_ieee80211_edmg);
     ("struct cfg80211_chan_def", struct_cfg80211_chan_def);
     ("struct ieee80211_mcs_info", struct_ieee80211_mcs_info);
     ("struct ieee80211_ht_cap", struct_ieee80211_ht_cap);
     ("struct cfg80211_ibss_params", struct_cfg80211_ibss_params);
     ("struct cfg80211_crypto_settings", struct_cfg80211_crypto_settings);
     ("struct ieee80211_vht_mcs_info", struct_ieee80211_vht_mcs_info);
     ("struct ieee80211_vht_cap", struct_ieee80211_vht_cap);
     ("struct cfg80211_bss_select_adjust", struct_cfg80211_bss_select_adjust);
     ("struct cfg80211_bss_selection", struct_cfg80211_bss_selection);
     ("struct cfg80211_connect_params", struct_cfg80211_connect_params);
     ("struct wireless_dev", struct_wireless_dev); ("struct wpan_dev", struct_wpan_dev);
     ("struct xdp_mem_info", struct_xdp_mem_info);
     ("struct xdp_rxq_info", struct_xdp_rxq_info);
     ("struct netdev_rx_queue", struct_netdev_rx_queue);
     ("struct mini_Qdisc", struct_mini_Qdisc); ("struct dql", struct_dql);
     ("struct netdev_queue", struct_netdev_queue); ("struct cpu_rmap", struct_cpu_rmap);
     ("struct qdisc_skb_head", struct_qdisc_skb_head);
     ("struct gnet_stats_basic_packed", struct_gnet_stats_basic_packed);
     ("struct gnet_stats_queue", struct_gnet_stats_queue); ("struct Qdisc", struct_Qdisc);
     ("struct xps_dev_maps", struct_xps_dev_maps);
     ("struct netpoll_info", struct_netpoll_info); ("struct pcpu_lstats", struct_pcpu_lstats);
     ("struct pcpu_sw_netstats", struct_pcpu_sw_netstats);
     ("struct rtnl_link_ops", struct_rtnl_link_ops);
     ("struct dcbnl_rtnl_ops", struct_dcbnl_rtnl_ops);
     ("struct netprio_map", struct_netprio_map); ("struct mdio_device", struct_mdio_device);
     ("struct phy_c45_device_ids", struct_phy_c45_device_ids);
     ("struct phy_device", struct_phy_device); ("struct nla_policy", struct_nla_policy);
     ("struct inet_frags", struct_inet_frags); ("struct xt_table_info", struct_xt_table_info);
     ("struct dst_metrics", struct_dst_metrics); ("struct nexthop", struct_nexthop);
     ("struct rtable", struct_rtable); ("struct fnhe_hash_bucket", struct_fnhe_hash_bucket);
     ("struct rt6_exception_bucket", struct_rt6_exception_bucket);
     ("struct uncached_list", struct_uncached_list);
     ("struct xfrm_address_filter", struct_xfrm_address_filter);
     ("struct xfrm_algo_auth", struct_xfrm_algo_auth); ("struct xfrm_algo", struct_xfrm_algo);
     ("struct xfrm_algo_aead", struct_xfrm_algo_aead);
     ("struct xfrm_encap_tmpl", struct_xfrm_encap_tmpl);
     ("struct xfrm_replay_state_esn", struct_xfrm_replay_state_esn);
     ("struct xfrm_replay", struct_xfrm_replay); ("struct xfrm_type", struct_xfrm_type);
     ("struct xfrm_type_offload", struct_xfrm_type_offload);
     ("struct bpf_map_memory", struct_bpf_map_memory); ("struct bpf_map", struct_bpf_map);
     ("struct bpf_sk_storage_map", struct_bpf_sk_storage_map);
     ("struct ip6_sf_socklist", struct_ip6_sf_socklist);
     ("struct ip6_flowlabel", struct_ip6_flowlabel); ("struct iovec", struct_iovec);
     ("struct kvec", struct_kvec); ("struct kiocb", struct_kiocb)].

Lemma reached_types3_complete : forallb (fun nt => complete nt.2) reached_types3 = true.
Proof. by_vm. Qed.

End ReachedTypes3.
