(* ===== verification/ReachedTypes4.v ===== *)
(** * The types behind pointers, part 4: src/ebpf/src/kernel/vmlinux.h

    What the pointers in the types of ReachedTypes3 point to, and so on until
    no pointer leads to another type. *)

From Stdlib Require Import ZArith String.
From stdpp Require Import base list strings.
From S2P Require Import Prelude CTypes KernelTypes HelperTypes ReachedTypes1 ReachedTypes2 ReachedTypes3.
Import CTypes KernelTypes HelperTypes ReachedTypes1 ReachedTypes2 ReachedTypes3.

Local Open Scope string_scope.
Local Open Scope Z_scope.

Module ReachedTypes4.

Definition struct_kernel_param_ops : cty :=
  Struct
    [("flags", U32); ("set", Ptr); ("get", Ptr); ("free", Ptr)].

Definition struct_kparam_string : cty :=
  Struct
    [("maxlen", U32); ("string", Ptr)].

Definition struct_kparam_array : cty :=
  Struct
    [("max", U32); ("elemsize", U32); ("num", Ptr); ("ops", PtrTo "struct kernel_param_ops");
     ("elem", Ptr)].

Definition struct_elf64_shdr : cty :=
  Struct
    [("sh_name", typedef_Elf64_Word); ("sh_type", typedef_Elf64_Word);
     ("sh_flags", typedef_Elf64_Xword); ("sh_addr", typedef_Elf64_Addr);
     ("sh_offset", typedef_Elf64_Off); ("sh_size", typedef_Elf64_Xword);
     ("sh_link", typedef_Elf64_Word); ("sh_info", typedef_Elf64_Word);
     ("sh_addralign", typedef_Elf64_Xword); ("sh_entsize", typedef_Elf64_Xword)].

Definition struct_fs_parameter_spec : cty :=
  Struct
    [("name", Ptr); ("opt", typedef_u8); ("type", Bits 4 8); ("flags", U16)].

Definition struct_fs_parameter_enum : cty :=
  Struct
    [("opt", typedef_u8); ("name", Array 14 U8); ("value", typedef_u8)].

Definition struct_ida : cty :=
  Struct
    [("xa", struct_xarray)].

Definition struct_worker_pool : cty :=
  Struct
    [("lock", typedef_spinlock_t); ("cpu", U32); ("node", U32); ("id", U32); ("flags", U32);
     ("watchdog_ts", U64); ("worklist", struct_list_head); ("nr_workers", U32);
     ("nr_idle", U32); ("idle_list", struct_list_head); ("idle_timer", struct_timer_list);
     ("mayday_timer", struct_timer_list); ("busy_hash", Array 64 struct_hlist_head);
     ("manager", PtrTo "struct worker"); ("workers", struct_list_head);
     ("detach_completion", PtrTo "struct completion"); ("worker_ida", struct_ida);
     ("attrs", PtrTo "struct workqueue_attrs"); ("hash_node", struct_hlist_node);
     ("refcnt", U32); ("", Pad 8 64); ("", Pad 8 64); ("", Pad 8 64);
     ("nr_running", typedef_atomic_t); ("rcu", struct_callback_head); ("", Pad 8 64);
     ("", Pad 8 64); ("", Pad 8 64); ("", Pad 8 64); ("", Pad 8 64)].

Definition struct_iommu_ops : cty :=
  Struct
    [("capable", Ptr); ("domain_alloc", Ptr); ("domain_free", Ptr); ("attach_dev", Ptr);
     ("detach_dev", Ptr); ("map", Ptr); ("unmap", Ptr); ("flush_iotlb_all", Ptr);
     ("iotlb_sync_map", Ptr); ("iotlb_sync", Ptr); ("iova_to_phys", Ptr); ("add_device", Ptr);
     ("remove_device", Ptr); ("device_group", Ptr); ("domain_get_attr", Ptr);
     ("domain_set_attr", Ptr); ("get_resv_regions", Ptr); ("put_resv_regions", Ptr);
     ("apply_resv_region", Ptr); ("domain_window_enable", Ptr);
     ("domain_window_disable", Ptr); ("of_xlate", Ptr); ("is_attach_deferred", Ptr);
     ("dev_has_feat", Ptr); ("dev_feat_enabled", Ptr); ("dev_enable_feat", Ptr);
     ("dev_disable_feat", Ptr); ("aux_attach_dev", Ptr); ("aux_detach_dev", Ptr);
     ("aux_get_pasid", Ptr); ("sva_bind", Ptr); ("sva_unbind", Ptr); ("sva_get_pasid", Ptr);
     ("page_response", Ptr); ("pgsize_bitmap", U64)].

Definition struct_subsys_private : cty :=
  Struct
    [("subsys", struct_kset); ("devices_kset", PtrTo "struct kset");
     ("interfaces", struct_list_head); ("mutex", struct_mutex);
     ("drivers_kset", PtrTo "struct kset"); ("klist_devices", struct_klist);
     ("klist_drivers", struct_klist); ("bus_notifier", struct_blocking_notifier_head);
     ("drivers_autoprobe", Bits 4 1); ("bus", PtrTo "struct bus_type");
     ("glue_dirs", struct_kset); ("class", PtrTo "struct class")].

Definition struct_of_device_id : cty :=
  Struct
    [("name", Array 32 U8); ("type", Array 32 U8); ("compatible", Array 128 U8);
     ("data", Ptr)].

Definition typedef_kernel_ulong_t : cty := U64.

Definition struct_acpi_device_id : cty :=
  Struct
    [("id", Array 9 typedef___u8); ("driver_data", typedef_kernel_ulong_t);
     ("cls", typedef___u32); ("cls_msk", typedef___u32)].

Definition struct_driver_private : cty :=
  Struct
    [("kobj", struct_kobject); ("klist_devices", struct_klist);
     ("knode_bus", struct_klist_node); ("mkobj", PtrTo "struct module_kobject");
     ("driver", PtrTo "struct device_driver")].

Definition struct_pm_domain_data : cty :=
  Struct
    [("list_node", struct_list_head); ("dev", PtrTo "struct device")].

Definition struct_pm_qos_flags_request : cty :=
  Struct
    [("node", struct_list_head); ("flags", typedef_s32)].

Definition struct_dev_pm_qos_request : cty :=
  Struct
    [("type", Enum); ("data", Union [("pnode", struct_plist_node);
     ("flr", struct_pm_qos_flags_request)]); ("dev", PtrTo "struct device")].

Definition struct_irq_domain_ops : cty :=
  Struct
    [("match", Ptr); ("select", Ptr); ("map", Ptr); ("unmap", Ptr); ("xlate", Ptr);
     ("alloc", Ptr); ("free", Ptr); ("activate", Ptr); ("deactivate", Ptr);
     ("translate", Ptr)].

Definition struct_irq_domain_chip_generic : cty :=
  Struct
    [("irqs_per_chip", U32); ("num_chips", U32); ("irq_flags_to_clear", U32);
     ("irq_flags_to_set", U32); ("gc_flags", Enum);
     ("gc", Array 0 (PtrTo "struct irq_chip_generic"))].

Definition struct_pinctrl : cty :=
  Struct
    [("node", struct_list_head); ("dev", PtrTo "struct device"); ("states", struct_list_head);
     ("state", PtrTo "struct pinctrl_state"); ("dt_maps", struct_list_head);
     ("users", struct_kref)].

Definition struct_pinctrl_state : cty :=
  Struct
    [("node", struct_list_head); ("name", Ptr); ("settings", struct_list_head)].

Definition struct_fwnode_operations : cty :=
  Struct
    [("get", Ptr); ("put", Ptr); ("device_is_available", Ptr); ("device_get_match_data", Ptr);
     ("property_present", Ptr); ("property_read_int_array", Ptr);
     ("property_read_string_array", Ptr); ("get_parent", Ptr); ("get_next_child_node", Ptr);
     ("get_named_child_node", Ptr); ("get_reference_args", Ptr);
     ("graph_get_next_endpoint", Ptr); ("graph_get_remote_endpoint", Ptr);
     ("graph_get_port_parent", Ptr); ("graph_parse_endpoint", Ptr)].

Definition struct_property : cty :=
  Struct
    [("name", Ptr); ("length", U32); ("value", Ptr); ("next", PtrTo "struct property")].

Definition struct_kobj_ns_type_operations : cty :=
  Struct
    [("type", Enum); ("current_may_mount", Ptr); ("grab_current_ns", Ptr);
     ("netlink_ns", Ptr); ("initial_ns", Ptr); ("drop_ns", Ptr)].

Definition typedef_iommu_fault_handler_t : cty := Ptr.
Definition typedef_dma_addr_t : cty := typedef_u64.

Definition struct_iommu_domain_geometry : cty :=
  Struct
    [("aperture_start", typedef_dma_addr_t); ("aperture_end", typedef_dma_addr_t);
     ("force_aperture", typedef_bool)].

Definition struct_iommu_domain : cty :=
  Struct
    [("type", U32); ("ops", PtrTo "struct iommu_ops"); ("pgsize_bitmap", U64);
     ("handler", typedef_iommu_fault_handler_t); ("handler_token", Ptr);
     ("geometry", struct_iommu_domain_geometry); ("iova_cookie", Ptr)].

Definition typedef_iommu_dev_fault_handler_t : cty := Ptr.

Definition struct_iommu_fault_param : cty :=
  Struct
    [("handler", typedef_iommu_dev_fault_handler_t); ("data", Ptr);
     ("faults", struct_list_head); ("lock", struct_mutex)].

Definition struct_pr_ops : cty :=
  Struct
    [("pr_register", Ptr); ("pr_reserve", Ptr); ("pr_release", Ptr); ("pr_preempt", Ptr);
     ("pr_clear", Ptr)].

Definition struct_kernfs_syscall_ops : cty :=
  Struct
    [("show_options", Ptr); ("mkdir", Ptr); ("rmdir", Ptr); ("rename", Ptr);
     ("show_path", Ptr)].

Definition struct_vm_area_struct___2 : cty :=
  Struct
    [("vm_start", U64); ("vm_end", U64); ("vm_next", PtrTo "struct vm_area_struct___2");
     ("vm_prev", PtrTo "struct vm_area_struct___2"); ("vm_rb", struct_rb_node);
     ("rb_subtree_gap", U64); ("vm_mm", PtrTo "struct mm_struct___2");
     ("vm_page_prot", typedef_pgprot_t); ("vm_flags", U64); ("shared", Struct
     [("rb", struct_rb_node); ("rb_subtree_last", U64)]);
     ("anon_vma_chain", struct_list_head); ("anon_vma", PtrTo "struct anon_vma");
     ("vm_ops", PtrTo "struct vm_operations_struct___2"); ("vm_pgoff", U64);
     ("vm_file", PtrTo "struct file___2"); ("vm_private_data", Ptr);
     ("swap_readahead_info", typedef_atomic_long_t); ("vm_policy", PtrTo "struct mempolicy");
     ("vm_userfaultfd_ctx", struct_vm_userfaultfd_ctx)].

Definition struct_core_thread___2 : cty :=
  Struct
    [("task", PtrTo "struct task_struct___2"); ("next", PtrTo "struct core_thread___2")].

Definition struct_core_state___2 : cty :=
  Struct
    [("nr_threads", typedef_atomic_t); ("dumper", struct_core_thread___2);
     ("startup", struct_completion)].

Definition struct_vmacache___2 : cty :=
  Struct
    [("seqnum", typedef_u64); ("vmas", Array 4 (PtrTo "struct vm_area_struct___2"))].

Definition struct_page_frag___2 : cty :=
  Struct
    [("page", PtrTo "struct page___2"); ("offset", typedef___u32); ("size", typedef___u32)].

Definition struct_thread_struct___2 : cty :=
  Struct
    [("tls_array", Array 3 struct_desc_struct); ("sp", U64); ("es", U16); ("ds", U16);
     ("fsindex", U16); ("gsindex", U16); ("fsbase", U64); ("gsbase", U64);
     ("ptrace_bps", Array 4 (PtrTo "struct perf_event___2")); ("debugreg6", U64);
     ("ptrace_dr7", U64); ("cr2", U64); ("trap_nr", U64); ("error_code", U64);
     ("io_bitmap_ptr", Ptr); ("iopl", U64); ("io_bitmap_max", U32);
     ("addr_limit", typedef_mm_segment_t); ("sig_on_uaccess_err", Bits 4 1);
     ("uaccess_err", Bits 4 1); ("", Pad 8 64); ("", Pad 8 64); ("", Pad 8 64);
     ("fpu", struct_fpu)].

Definition struct_task_struct___2 : cty :=
  Struct
    [("thread_info", struct_thread_info); ("state", U64); ("stack", Ptr);
     ("usage", typedef_refcount_t); ("flags", U32); ("ptrace", U32);
     ("wake_entry", struct_llist_node); ("on_cpu", U32); ("cpu", U32); ("wakee_flips", U32);
     ("wakee_flip_decay_ts", U64); ("last_wakee", PtrTo "struct task_struct___2");
     ("recent_used_cpu", U32); ("wake_cpu", U32); ("on_rq", U32); ("prio", U32);
     ("static_prio", U32); ("normal_prio", U32); ("rt_priority", U32);
     ("sched_class", PtrTo "struct sched_class"); ("se", struct_sched_entity);
     ("rt", struct_sched_rt_entity); ("sched_task_group", PtrTo "struct task_group");
     ("dl", struct_sched_dl_entity); ("preempt_notifiers", struct_hlist_head);
     ("btrace_seq", U32); ("policy", U32); ("nr_cpus_allowed", U32);
     ("cpus_ptr", PtrTo "struct cpumask"); ("cpus_mask", typedef_cpumask_t);
     ("sched_info", struct_sched_info); ("tasks", struct_list_head);
     ("pushable_tasks", struct_plist_node); ("pushable_dl_tasks", struct_rb_node);
     ("mm", PtrTo "struct mm_struct___2"); ("active_mm", PtrTo "struct mm_struct___2");
     ("vmacache", struct_vmacache___2); ("rss_stat", struct_task_rss_stat);
     ("exit_state", U32); ("exit_code", U32); ("exit_signal", U32); ("pdeath_signal", U32);
     ("jobctl", U64); ("personality", U32); ("sched_reset_on_fork", Bits 4 1);
     ("sched_contributes_to_load", Bits 4 1); ("sched_migrated", Bits 4 1);
     ("sched_remote_wakeup", Bits 4 1); ("sched_psi_wake_requeue", Bits 4 1); ("", Pad 8 27);
     ("in_execve", Bits 4 1); ("in_iowait", Bits 4 1); ("restore_sigmask", Bits 4 1);
     ("in_user_fault", Bits 4 1); ("no_cgroup_migration", Bits 4 1); ("frozen", Bits 4 1);
     ("use_memdelay", Bits 4 1); ("in_memstall", Bits 4 1); ("atomic_flags", U64);
     ("restart_block", struct_restart_block); ("pid", typedef_pid_t); ("tgid", typedef_pid_t);
     ("stack_canary", U64); ("real_parent", PtrTo "struct task_struct___2");
     ("parent", PtrTo "struct task_struct___2"); ("children", struct_list_head);
     ("sibling", struct_list_head); ("group_leader", PtrTo "struct task_struct___2");
     ("ptraced", struct_list_head); ("ptrace_entry", struct_list_head);
     ("thread_pid", PtrTo "struct pid___2"); ("pid_links", Array 4 struct_hlist_node);
     ("thread_group", struct_list_head); ("thread_node", struct_list_head);
     ("vfork_done", PtrTo "struct completion"); ("set_child_tid", Ptr);
     ("clear_child_tid", Ptr); ("utime", typedef_u64); ("stime", typedef_u64);
     ("gtime", typedef_u64); ("prev_cputime", struct_prev_cputime); ("vtime", struct_vtime);
     ("burst_credit", Ptr); ("tick_dep_mask", typedef_atomic_t); ("nvcsw", U64);
     ("nivcsw", U64); ("start_time", typedef_u64); ("real_start_time", typedef_u64);
     ("min_flt", U64); ("maj_flt", U64); ("posix_cputimers", struct_posix_cputimers);
     ("ptracer_cred", PtrTo "struct cred___2"); ("real_cred", PtrTo "struct cred___2");
     ("cred", PtrTo "struct cred___2"); ("cached_requested_key", PtrTo "struct key");
     ("comm", Array 16 U8); ("nameidata", PtrTo "struct nameidata");
     ("sysvsem", struct_sysv_sem); ("sysvshm", struct_sysv_shm); ("last_switch_count", U64);
     ("last_switch_time", U64); ("fs", PtrTo "struct fs_struct");
     ("files", PtrTo "struct files_struct"); ("io_uring", PtrTo "struct io_uring_task");
     ("nsproxy", PtrTo "struct nsproxy___2"); ("signal", PtrTo "struct signal_struct___2");
     ("sighand", PtrTo "struct sighand_struct"); ("blocked", typedef_sigset_t);
     ("real_blocked", typedef_sigset_t); ("saved_sigmask", typedef_sigset_t);
     ("pending", struct_sigpending); ("sas_ss_sp", U64); ("sas_ss_size", typedef_size_t);
     ("sas_ss_flags", U32); ("task_works", PtrTo "struct callback_head");
     ("audit_context", PtrTo "struct audit_context"); ("loginuid", typedef_kuid_t);
     ("sessionid", U32); ("seccomp", struct_seccomp); ("parent_exec_id", typedef_u64);
     ("self_exec_id", typedef_u64); ("alloc_lock", typedef_spinlock_t);
     ("pi_lock", typedef_raw_spinlock_t); ("wake_q", struct_wake_q_node);
     ("pi_waiters", struct_rb_root_cached); ("pi_top_task", PtrTo "struct task_struct___2");
     ("pi_blocked_on", PtrTo "struct rt_mutex_waiter"); ("journal_info", Ptr);
     ("bio_list", PtrTo "struct bio_list"); ("plug", PtrTo "struct blk_plug");
     ("reclaim_state", PtrTo "struct reclaim_state");
     ("backing_dev_info", PtrTo "struct backing_dev_info");
     ("io_context", PtrTo "struct io_context");
     ("capture_control", PtrTo "struct capture_control"); ("ptrace_message", U64);
     ("last_siginfo", PtrTo "struct kernel_siginfo"); ("ioac", struct_task_io_accounting);
     ("psi_flags", U32); ("acct_rss_mem1", typedef_u64); ("acct_vm_mem1", typedef_u64);
     ("acct_timexpd", typedef_u64); ("mems_allowed", typedef_nodemask_t);
     ("mems_allowed_seq", typedef_seqcount_t); ("cpuset_mem_spread_rotor", U32);
     ("cpuset_slab_spread_rotor", U32); ("cgroups", PtrTo "struct css_set___2");
     ("cg_list", struct_list_head); ("closid", typedef_u32); ("rmid", typedef_u32);
     ("robust_list", PtrTo "struct robust_list_head");
     ("compat_robust_list", PtrTo "struct compat_robust_list_head");
     ("pi_state_list", struct_list_head); ("pi_state_cache", PtrTo "struct futex_pi_state");
     ("futex_exit_mutex", struct_mutex); ("futex_state", U32);
     ("perf_event_ctxp", Array 2 (PtrTo "struct perf_event_context___2"));
     ("perf_event_mutex", struct_mutex); ("perf_event_list", struct_list_head);
     ("mempolicy", PtrTo "struct mempolicy"); ("il_prev", U16); ("pref_node_fork", U16);
     ("numa_scan_seq", U32); ("numa_scan_period", U32); ("numa_scan_period_max", U32);
     ("numa_preferred_nid", U32); ("numa_migrate_retry", U64); ("node_stamp", typedef_u64);
     ("last_task_numa_placement", typedef_u64); ("last_sum_exec_runtime", typedef_u64);
     ("numa_work", struct_callback_head); ("numa_group", PtrTo "struct numa_group");
     ("numa_faults", Ptr); ("total_numa_faults", U64); ("numa_faults_locality", Array 3 U64);
     ("numa_pages_migrated", U64); ("rseq", PtrTo "struct rseq"); ("rseq_sig", typedef_u32);
     ("rseq_event_mask", U64); ("tlb_ubc", struct_tlbflush_unmap_batch); ("", Union
     [("rcu_users", typedef_refcount_t); ("rcu", struct_callback_head)]);
     ("splice_pipe", PtrTo "struct pipe_inode_info___2"); ("task_frag", struct_page_frag___2);
     ("delays", PtrTo "struct task_delay_info"); ("nr_dirtied", U32);
     ("nr_dirtied_pause", U32); ("dirty_paused_when", U64); ("timer_slack_ns", typedef_u64);
     ("default_timer_slack_ns", typedef_u64); ("curr_ret_stack", U32);
     ("curr_ret_depth", U32); ("ret_stack", PtrTo "struct ftrace_ret_stack");
     ("ftrace_timestamp", U64); ("trace_overrun", typedef_atomic_t);
     ("tracing_graph_pause", typedef_atomic_t); ("trace", U64); ("trace_recursion", U64);
     ("memcg_in_oom", PtrTo "struct mem_cgroup"); ("memcg_oom_gfp_mask", typedef_gfp_t);
     ("memcg_oom_order", U32); ("memcg_nr_pages_over_high", U32);
     ("active_memcg", PtrTo "struct mem_cgroup");
     ("throttle_queue", PtrTo "struct request_queue"); ("utask", PtrTo "struct uprobe_task");
     ("sequential_io", U32); ("sequential_io_avg", U32); ("pagefault_disabled", U32);
     ("oom_reaper_list", PtrTo "struct task_struct___2");
     ("stack_vm_area", PtrTo "struct vm_struct___2"); ("stack_refcount", typedef_refcount_t);
     ("patch_state", U32); ("security", Ptr); ("mce_vaddr", Ptr);
     ("mce_kflags", typedef___u64); ("mce_addr", typedef_u64); ("mce_ripv", Bits 8 1);
     ("mce_whole_page", Bits 8 1); ("__mce_reserved", Bits 8 62);
     ("mce_kill_me", struct_callback_head); ("mce_count", U32); ("", Pad 8 64);
     ("", Pad 8 64); ("", Pad 8 64); ("", Pad 8 64); ("", Pad 8 64); ("", Pad 8 64);
     ("thread", struct_thread_struct___2)].

Definition struct_ns_common___2 : cty :=
  Struct
    [("stashed", typedef_atomic_long_t); ("ops", PtrTo "struct proc_ns_operations___2");
     ("inum", U32)].

Definition struct_user_namespace___2 : cty :=
  Struct
    [("uid_map", struct_uid_gid_map); ("gid_map", struct_uid_gid_map);
     ("projid_map", struct_uid_gid_map); ("count", typedef_atomic_t);
     ("parent", PtrTo "struct user_namespace___2"); ("level", U32); ("owner", typedef_kuid_t);
     ("group", typedef_kgid_t); ("ns", struct_ns_common___2); ("flags", U64);
     ("keyring_name_list", struct_list_head); ("user_keyring_register", PtrTo "struct key");
     ("keyring_sem", struct_rw_semaphore); ("work", struct_work_struct);
     ("set", struct_ctl_table_set); ("sysctls", PtrTo "struct ctl_table_header");
     ("ucounts", PtrTo "struct ucounts___2"); ("ucount_max", Array 9 U32)].

Definition struct_fown_struct___2 : cty :=
  Struct
    [("lock", typedef_rwlock_t); ("pid", PtrTo "struct pid___2"); ("pid_type", Enum);
     ("uid", typedef_kuid_t); ("euid", typedef_kuid_t); ("signum", U32)].

Definition struct_file___2 : cty :=
  Struct
    [("f_u", Union [("fu_llist", struct_llist_node); ("fu_rcuhead", struct_callback_head)]);
     ("f_path", struct_path___2); ("f_inode", PtrTo "struct inode___2");
     ("f_op", PtrTo "struct file_operations___2"); ("f_lock", typedef_spinlock_t);
     ("f_write_hint", Enum); ("f_count", typedef_atomic_long_t); ("f_flags", U32);
     ("f_mode", typedef_fmode_t); ("f_pos_lock", struct_mutex); ("f_pos", typedef_loff_t);
     ("f_owner", struct_fown_struct___2); ("f_cred", PtrTo "struct cred___2");
     ("f_ra", struct_file_ra_state); ("f_version", typedef_u64); ("f_security", Ptr);
     ("private_data", Ptr); ("f_ep_links", struct_list_head);
     ("f_tfile_llink", struct_list_head); ("f_mapping", PtrTo "struct address_space___2");
     ("f_wb_err", typedef_errseq_t); ("f_sb_err", typedef_errseq_t)].

Definition struct_kioctx_cpu : cty :=
  Struct
    [("reqs_available", U32)].

Definition struct_ctx_rq_wait : cty :=
  Struct
    [("comp", struct_completion); ("count", typedef_atomic_t)].

Definition struct_cpudl_item : cty :=
  Struct
    [("dl", typedef_u64); ("cpu", U32); ("idx", U32)].

Definition struct_perf_domain : cty :=
  Struct
    [("em_pd", PtrTo "struct em_perf_domain"); ("next", PtrTo "struct perf_domain");
     ("rcu", struct_callback_head)].

Definition struct_sched_group : cty :=
  Struct
    [("next", PtrTo "struct sched_group"); ("ref", typedef_atomic_t); ("group_weight", U32);
     ("sgc", PtrTo "struct sched_group_capacity"); ("asym_prefer_cpu", U32);
     ("cpumask", Array 0 U64)].

Definition struct_sched_domain_shared : cty :=
  Struct
    [("ref", typedef_atomic_t); ("nr_busy_cpus", typedef_atomic_t); ("has_idle_cores", U32)].

Definition struct_bpf_cgroup_storage : cty :=
  Struct
    [("", Union [("buf", PtrTo "struct bpf_storage_buffer"); ("percpu_buf", Ptr)]);
     ("map", PtrTo "struct bpf_cgroup_storage_map"); ("key", struct_bpf_cgroup_storage_key);
     ("list", struct_list_head); ("node", struct_rb_node); ("rcu", struct_callback_head)].

Definition struct_file_system_type___2 : cty :=
  Struct
    [("name", Ptr); ("fs_flags", U32); ("init_fs_context", Ptr);
     ("parameters", PtrTo "struct fs_parameter_description"); ("mount", Ptr);
     ("kill_sb", Ptr); ("owner", PtrTo "struct module___2");
     ("next", PtrTo "struct file_system_type___2"); ("fs_supers", struct_hlist_head);
     ("s_lock_key", struct_lock_class_key); ("s_umount_key", struct_lock_class_key);
     ("s_vfs_rename_key", struct_lock_class_key);
     ("s_writers_key", Array 3 struct_lock_class_key); ("i_lock_key", struct_lock_class_key);
     ("i_mutex_key", struct_lock_class_key); ("i_mutex_dir_key", struct_lock_class_key)].

Definition struct_super_operations___2 : cty :=
  Struct
    [("alloc_inode", Ptr); ("destroy_inode", Ptr); ("free_inode", Ptr); ("dirty_inode", Ptr);
     ("write_inode", Ptr); ("drop_inode", Ptr); ("evict_inode", Ptr); ("put_super", Ptr);
     ("sync_fs", Ptr); ("freeze_super", Ptr); ("freeze_fs", Ptr); ("thaw_super", Ptr);
     ("unfreeze_fs", Ptr); ("statfs", Ptr); ("remount_fs", Ptr); ("umount_begin", Ptr);
     ("show_options", Ptr); ("show_devname", Ptr); ("show_path", Ptr); ("show_stats", Ptr);
     ("quota_read", Ptr); ("quota_write", Ptr); ("get_dquots", Ptr);
     ("bdev_try_to_free_page", Ptr); ("nr_cached_objects", Ptr);
     ("free_cached_objects", Ptr)].

Definition struct_dquot_operations___2 : cty :=
  Struct
    [("write_dquot", Ptr); ("alloc_dquot", Ptr); ("destroy_dquot", Ptr);
     ("acquire_dquot", Ptr); ("release_dquot", Ptr); ("mark_dirty", Ptr); ("write_info", Ptr);
     ("get_reserved_space", Ptr); ("get_projid", Ptr); ("get_inode_usage", Ptr);
     ("get_next_id", Ptr)].

Definition struct_quotactl_ops___2 : cty :=
  Struct
    [("quota_on", Ptr); ("quota_off", Ptr); ("quota_enable", Ptr); ("quota_disable", Ptr);
     ("quota_sync", Ptr); ("set_info", Ptr); ("get_dqblk", Ptr); ("get_nextdqblk", Ptr);
     ("set_dqblk", Ptr); ("get_state", Ptr); ("rm_xquota", Ptr)].

Definition struct_quota_format_type___2 : cty :=
  Struct
    [("qf_fmt_id", U32); ("qf_ops", PtrTo "struct quota_format_ops___2");
     ("qf_owner", PtrTo "struct module___2");
     ("qf_next", PtrTo "struct quota_format_type___2")].

Definition struct_quota_format_ops___2 : cty :=
  Struct
    [("check_quota_file", Ptr); ("read_file_info", Ptr); ("write_file_info", Ptr);
     ("free_file_info", Ptr); ("read_dqblk", Ptr); ("commit_dqblk", Ptr);
     ("release_dqblk", Ptr); ("get_next_id", Ptr)].

Definition struct_kobject___2 : cty :=
  Struct
    [("name", Ptr); ("entry", struct_list_head); ("parent", PtrTo "struct kobject___2");
     ("kset", PtrTo "struct kset___2"); ("ktype", PtrTo "struct kobj_type___2");
     ("sd", PtrTo "struct kernfs_node___2"); ("kref", struct_kref);
     ("state_initialized", Bits 4 1); ("state_in_sysfs", Bits 4 1);
     ("state_add_uevent_sent", Bits 4 1); ("state_remove_uevent_sent", Bits 4 1);
     ("uevent_suppress", Bits 4 1)].

Definition struct_module_kobject___2 : cty :=
  Struct
    [("kobj", struct_kobject___2); ("mod", PtrTo "struct module___2");
     ("drivers_dir", PtrTo "struct kobject___2"); ("mp", PtrTo "struct module_param_attrs");
     ("kobj_completion", PtrTo "struct completion")].

Definition struct_mod_tree_node___2 : cty :=
  Struct
    [("mod", PtrTo "struct module___2"); ("node", struct_latch_tree_node)].

Definition struct_module_layout___2 : cty :=
  Struct
    [("base", Ptr); ("size", U32); ("text_size", U32); ("ro_size", U32);
     ("ro_after_init_size", U32); ("mtn", struct_mod_tree_node___2)].

Definition struct_module___2 : cty :=
  Struct
    [("state", Enum); ("list", struct_list_head); ("name", Array 56 U8);
     ("mkobj", struct_module_kobject___2);
     ("modinfo_attrs", PtrTo "struct module_attribute___2"); ("version", Ptr);
     ("srcversion", Ptr); ("holders_dir", PtrTo "struct kobject___2");
     ("syms", PtrTo "struct kernel_symbol"); ("crcs", Ptr); ("num_syms", U32);
     ("param_lock", struct_mutex); ("kp", PtrTo "struct kernel_param___2"); ("num_kp", U32);
     ("num_gpl_syms", U32); ("gpl_syms", PtrTo "struct kernel_symbol"); ("gpl_crcs", Ptr);
     ("using_gplonly_symbols", typedef_bool); ("sig_ok", typedef_bool);
     ("async_probe_requested", typedef_bool);
     ("gpl_future_syms", PtrTo "struct kernel_symbol"); ("gpl_future_crcs", Ptr);
     ("num_gpl_future_syms", U32); ("num_exentries", U32);
     ("extable", PtrTo "struct exception_table_entry"); ("init", Ptr); ("", Pad 8 64);
     ("", Pad 8 64); ("", Pad 8 64); ("", Pad 8 64); ("", Pad 8 64);
     ("core_layout", struct_module_layout___2); ("init_layout", struct_module_layout___2);
     ("arch", struct_mod_arch_specific); ("taints", U64); ("num_bugs", U32);
     ("bug_list", struct_list_head); ("bug_table", PtrTo "struct bug_entry");
     ("kallsyms", PtrTo "struct mod_kallsyms"); ("core_kallsyms", struct_mod_kallsyms);
     ("sect_attrs", PtrTo "struct module_sect_attrs");
     ("notes_attrs", PtrTo "struct module_notes_attrs"); ("args", Ptr); ("percpu", Ptr);
     ("percpu_size", U32); ("num_tracepoints", U32); ("tracepoints_ptrs", Ptr);
     ("num_srcu_structs", U32); ("srcu_struct_ptrs", Pointer 2 "struct srcu_struct");
     ("num_bpf_raw_events", U32); ("bpf_raw_events", PtrTo "struct bpf_raw_event_map");
     ("jump_entries", PtrTo "struct jump_entry"); ("num_jump_entries", U32);
     ("num_trace_bprintk_fmt", U32); ("trace_bprintk_fmt_start", Ptr);
     ("trace_events", Pointer 2 "struct trace_event_call___2"); ("num_trace_events", U32);
     ("trace_evals", Pointer 2 "struct trace_eval_map"); ("num_trace_evals", U32);
     ("num_ftrace_callsites", U32); ("ftrace_callsites", Ptr); ("klp", typedef_bool);
     ("klp_alive", typedef_bool); ("klp_info", PtrTo "struct klp_modinfo");
     ("source_list", struct_list_head); ("target_list", struct_list_head); ("exit", Ptr);
     ("refcnt", typedef_atomic_t); ("ei_funcs", PtrTo "struct error_injection_entry");
     ("num_ei_funcs", U32); ("", Pad 8 64); ("", Pad 8 64); ("", Pad 8 64)].

Definition typedef_pgtable_t___2 : cty := PtrTo "struct page___2".

Definition struct_page___2 : cty :=
  Struct
    [("flags", U64); ("", Union [("", Struct [("lru", struct_list_head);
     ("mapping", PtrTo "struct address_space___2"); ("index", U64); ("private", U64)]);
     ("", Struct [("dma_addr", Array 2 U64)]); ("", Struct [("", Union
     [("slab_list", struct_list_head); ("", Struct [("next", PtrTo "struct page___2");
     ("pages", U32); ("pobjects", U32)])]); ("slab_cache", PtrTo "struct kmem_cache");
     ("freelist", Ptr); ("", Union [("s_mem", Ptr); ("counters", U64); ("", Struct
     [("inuse", Bits 4 16); ("objects", Bits 4 15); ("frozen", Bits 4 1)])])]); ("", Struct
     [("compound_head", U64); ("compound_dtor", U8); ("compound_order", U8);
     ("compound_mapcount", typedef_atomic_t)]); ("", Struct [("_compound_pad_1", U64);
     ("_compound_pad_2", U64); ("deferred_list", struct_list_head)]); ("", Struct
     [("_pt_pad_1", U64); ("pmd_huge_pte", typedef_pgtable_t___2); ("_pt_pad_2", U64);
     ("", Union [("pt_mm", PtrTo "struct mm_struct___2");
     ("pt_frag_refcount", typedef_atomic_t)]); ("ptl", typedef_spinlock_t)]); ("", Struct
     [("pgmap", PtrTo "struct dev_pagemap___2"); ("zone_device_data", Ptr)]);
     ("callback_head", struct_callback_head)]); ("", Union [("_mapcount", typedef_atomic_t);
     ("page_type", U32); ("active", U32); ("units", U32)]); ("_refcount", typedef_atomic_t);
     ("memcg_data", U64)].

Definition struct_fasync_struct___2 : cty :=
  Struct
    [("fa_lock", typedef_rwlock_t); ("magic", U32); ("fa_fd", U32);
     ("fa_next", PtrTo "struct fasync_struct___2"); ("fa_file", PtrTo "struct file___2");
     ("fa_rcu", struct_callback_head)].

Definition struct_pipe_buffer___2 : cty :=
  Struct
    [("page", PtrTo "struct page___2"); ("offset", U32); ("len", U32);
     ("ops", PtrTo "struct pipe_buf_operations___2"); ("flags", U32); ("private", U64)].

Definition struct_rhash_lock_head : cty := Struct [].

Definition struct_mnt_pcp : cty :=
  Struct
    [("mnt_count", U32); ("mnt_writers", U32)].

Definition struct_mountpoint : cty :=
  Struct
    [("m_hash", struct_hlist_node); ("m_dentry", PtrTo "struct dentry___2");
     ("m_list", struct_hlist_head); ("m_count", U32)].

Definition struct_tty_ldisc_ops : cty :=
  Struct
    [("magic", U32); ("name", Ptr); ("num", U32); ("flags", U32); ("open", Ptr);
     ("close", Ptr); ("flush_buffer", Ptr); ("read", Ptr); ("write", Ptr); ("ioctl", Ptr);
     ("compat_ioctl", Ptr); ("set_termios", Ptr); ("poll", Ptr); ("hangup", Ptr);
     ("receive_buf", Ptr); ("write_wakeup", Ptr); ("dcd_change", Ptr); ("receive_buf2", Ptr);
     ("owner", PtrTo "struct module"); ("refcount", U32)].

Definition struct_tty_port_operations : cty :=
  Struct
    [("carrier_raised", Ptr); ("dtr_rts", Ptr); ("shutdown", Ptr); ("activate", Ptr);
     ("destruct", Ptr)].

Definition struct_tty_port_client_operations : cty :=
  Struct
    [("receive_buf", Ptr); ("write_wakeup", Ptr)].

Definition struct_fsnotify_mark : cty :=
  Struct
    [("mask", typedef___u32); ("refcnt", typedef_refcount_t);
     ("group", PtrTo "struct fsnotify_group"); ("g_list", struct_list_head);
     ("lock", typedef_spinlock_t); ("obj_list", struct_hlist_node);
     ("connector", PtrTo "struct fsnotify_mark_connector"); ("ignored_mask", typedef___u32);
     ("flags", U32)].

Definition struct_audit_tree : cty :=
  Struct
    [("count", typedef_refcount_t); ("goner", U32); ("root", PtrTo "struct audit_chunk");
     ("chunks", struct_list_head); ("rules", struct_list_head); ("list", struct_list_head);
     ("same_root", struct_list_head); ("head", struct_callback_head);
     ("pathname", Array 0 U8)].

Definition struct_bpf_prog_ops : cty :=
  Struct
    [("test_run", Ptr)].

Definition struct_bpf_prog_offload : cty :=
  Struct
    [("prog", PtrTo "struct bpf_prog"); ("netdev", PtrTo "struct net_device");
     ("offdev", PtrTo "struct bpf_offload_dev"); ("dev_priv", Ptr);
     ("offloads", struct_list_head); ("dev_state", typedef_bool);
     ("opt_failed", typedef_bool); ("jited_image", Ptr); ("jited_len", typedef_u32)].

Definition struct_btf_header : cty :=
  Struct
    [("magic", typedef___u16); ("version", typedef___u8); ("flags", typedef___u8);
     ("hdr_len", typedef___u32); ("type_off", typedef___u32); ("type_len", typedef___u32);
     ("str_off", typedef___u32); ("str_len", typedef___u32)].

Definition struct_btf : cty :=
  Struct
    [("data", Ptr); ("types", Pointer 2 "struct btf_type"); ("resolved_ids", Ptr);
     ("resolved_sizes", Ptr); ("strings", Ptr); ("nohdr_data", Ptr);
     ("hdr", struct_btf_header); ("nr_types", typedef_u32); ("types_size", typedef_u32);
     ("data_size", typedef_u32); ("refcnt", typedef_refcount_t); ("id", typedef_u32);
     ("rcu", struct_callback_head)].

Definition struct_bpf_prog_stats : cty :=
  Struct
    [("cnt", typedef_u64); ("nsecs", typedef_u64); ("syncp", struct_u64_stats_sync)].

Definition struct_per_cpu_pages : cty :=
  Struct
    [("count", U32); ("high", U32); ("batch", U32); ("lists", Array 3 struct_list_head)].

Definition struct_per_cpu_pageset : cty :=
  Struct
    [("pcp", struct_per_cpu_pages); ("expire", typedef_s8);
     ("vm_numa_stat_diff", Array 6 typedef_u16); ("stat_threshold", typedef_s8);
     ("vm_stat_diff", Array 12 typedef_s8)].

Definition struct_per_cpu_nodestat : cty :=
  Struct
    [("stat_threshold", typedef_s8); ("vm_node_stat_diff", Array 33 typedef_s8)].

Definition struct_elv_fs_entry : cty :=
  Struct
    [("attr", struct_attribute); ("show", Ptr); ("store", Ptr)].

Definition struct_blk_mq_debugfs_attr : cty :=
  Struct
    [("name", Ptr); ("mode", typedef_umode_t); ("show", Ptr); ("write", Ptr);
     ("seq_ops", PtrTo "struct seq_operations___2")].

Definition struct_sbq_wait_state : cty :=
  Struct
    [("wait_cnt", typedef_atomic_t); ("wait", typedef_wait_queue_head_t); ("", Pad 8 64);
     ("", Pad 8 64); ("", Pad 8 64); ("", Pad 8 64)].

Definition struct_blkcg_policy_data : cty :=
  Struct
    [("blkcg", PtrTo "struct blkcg"); ("plid", U32)].

Definition struct_rchan_callbacks : cty :=
  Struct
    [("subbuf_start", Ptr); ("buf_mapped", Ptr); ("buf_unmapped", Ptr);
     ("create_buf_file", Ptr); ("remove_buf_file", Ptr)].

Definition struct_rchan_buf : cty :=
  Struct
    [("start", Ptr); ("data", Ptr); ("offset", typedef_size_t);
     ("subbufs_produced", typedef_size_t); ("subbufs_consumed", typedef_size_t);
     ("chan", PtrTo "struct rchan"); ("read_wait", typedef_wait_queue_head_t);
     ("wakeup_work", struct_irq_work); ("dentry", PtrTo "struct dentry");
     ("kref", struct_kref); ("page_array", Pointer 2 "struct page"); ("page_count", U32);
     ("finalized", U32); ("padding", Ptr); ("prev_padding", typedef_size_t);
     ("bytes_consumed", typedef_size_t); ("early_bytes", typedef_size_t); ("cpu", U32);
     ("", Pad 8 64); ("", Pad 8 64); ("", Pad 8 64)].

Definition struct_buffer_data_page : cty :=
  Struct
    [("time_stamp", typedef_u64); ("commit", typedef_local_t); ("data", Array 0 U8)].

Definition struct_buffer_page : cty :=
  Struct
    [("list", struct_list_head); ("write", typedef_local_t); ("read", U32);
     ("entries", typedef_local_t); ("real_end", U64);
     ("page", PtrTo "struct buffer_data_page")].

Definition struct_static_key_mod : cty :=
  Struct
    [("next", PtrTo "struct static_key_mod"); ("entries", PtrTo "struct jump_entry");
     ("mod", PtrTo "struct module___2")].

Definition struct_tracepoint_func : cty :=
  Struct
    [("func", Ptr); ("data", Ptr); ("prio", U32)].

Definition typedef_filter_pred_fn_t : cty := Ptr.
Definition typedef_regex_match_func : cty := Ptr.

Definition struct_regex : cty :=
  Struct
    [("pattern", Array 256 U8); ("len", U32); ("field_len", U32);
     ("match", typedef_regex_match_func)].

Definition struct_filter_pred : cty :=
  Struct
    [("fn", typedef_filter_pred_fn_t); ("val", typedef_u64); ("regex", struct_regex);
     ("ops", Ptr); ("field", PtrTo "struct ftrace_event_field"); ("offset", U32);
     ("not", U32); ("op", U32)].

Definition struct_iw_priv_args : cty :=
  Struct
    [("cmd", typedef___u32); ("set_args", typedef___u16); ("get_args", typedef___u16);
     ("name", Array 16 U8)].

Definition typedef_u_char : cty := U8.

Definition struct_iw_quality : cty :=
  Struct
    [("qual", typedef___u8); ("level", typedef___u8); ("noise", typedef___u8);
     ("updated", typedef___u8)].

Definition struct_iw_spy_data : cty :=
  Struct
    [("spy_number", U32); ("spy_address", Array 48 typedef_u_char);
     ("spy_stat", Array 8 struct_iw_quality); ("spy_thr_low", struct_iw_quality);
     ("spy_thr_high", struct_iw_quality); ("spy_thr_under", Array 8 typedef_u_char)].

Definition struct_in_ifaddr : cty :=
  Struct
    [("hash", struct_hlist_node); ("ifa_next", PtrTo "struct in_ifaddr");
     ("ifa_dev", PtrTo "struct in_device"); ("callback_head", struct_callback_head);
     ("ifa_local", typedef___be32); ("ifa_address", typedef___be32);
     ("ifa_mask", typedef___be32); ("ifa_rt_priority", typedef___u32);
     ("ifa_broadcast", typedef___be32); ("ifa_scope", U8); ("ifa_prefixlen", U8);
     ("ifa_flags", typedef___u32); ("ifa_label", Array 16 U8);
     ("ifa_valid_lft", typedef___u32); ("ifa_preferred_lft", typedef___u32);
     ("ifa_cstamp", U64); ("ifa_tstamp", U64)].

Definition struct_ip_mc_list : cty :=
  Struct
    [("interface", PtrTo "struct in_device"); ("multiaddr", typedef___be32); ("sfmode", U32);
     ("sources", PtrTo "struct ip_sf_list"); ("tomb", PtrTo "struct ip_sf_list");
     ("sfcount", Array 2 U64); ("", Union [("next", PtrTo "struct ip_mc_list");
     ("next_rcu", PtrTo "struct ip_mc_list")]); ("next_hash", PtrTo "struct ip_mc_list");
     ("timer", struct_timer_list); ("users", U32); ("refcnt", typedef_refcount_t);
     ("lock", typedef_spinlock_t); ("tm_running", U8); ("reporter", U8);
     ("unsolicit_count", U8); ("loaded", U8); ("gsquery", U8); ("crcount", U8);
     ("rcu", struct_callback_head)].

Definition struct_neigh_parms : cty :=
  Struct
    [("net", typedef_possible_net_t); ("dev", PtrTo "struct net_device");
     ("list", struct_list_head); ("neigh_setup", Ptr); ("tbl", PtrTo "struct neigh_table");
     ("sysctl_table", Ptr); ("dead", U32); ("refcnt", typedef_refcount_t);
     ("callback_head", struct_callback_head); ("reachable_time", U32); ("data", Array 13 U32);
     ("data_state", Array 1 U64)].

Definition struct_ifmcaddr6 : cty :=
  Struct
    [("mca_addr", struct_in6_addr); ("idev", PtrTo "struct inet6_dev");
     ("next", PtrTo "struct ifmcaddr6"); ("mca_sources", PtrTo "struct ip6_sf_list");
     ("mca_tomb", PtrTo "struct ip6_sf_list"); ("mca_sfmode", U32); ("mca_crcount", U8);
     ("mca_sfcount", Array 2 U64); ("mca_timer", struct_timer_list); ("mca_flags", U32);
     ("mca_users", U32); ("mca_refcnt", typedef_refcount_t); ("mca_lock", typedef_spinlock_t);
     ("mca_cstamp", U64); ("mca_tstamp", U64)].

Definition struct_ifacaddr6 : cty :=
  Struct
    [("aca_addr", struct_in6_addr); ("aca_rt", PtrTo "struct fib6_info");
     ("aca_next", PtrTo "struct ifacaddr6"); ("aca_addr_lst", struct_hlist_node);
     ("aca_users", U32); ("aca_refcnt", typedef_refcount_t); ("aca_cstamp", U64);
     ("aca_tstamp", U64); ("rcu", struct_callback_head)].

Definition struct_icmpv6_mib_device : cty :=
  Struct
    [("mibs", Array 6 typedef_atomic_long_t)].

Definition struct_icmpv6msg_mib_device : cty :=
  Struct
    [("mibs", Array 512 typedef_atomic_long_t)].

Definition struct_wiphy : cty :=
  Struct
    [("perm_addr", Array 6 typedef_u8); ("addr_mask", Array 6 typedef_u8);
     ("addresses", PtrTo "struct mac_address");
     ("mgmt_stypes", PtrTo "struct ieee80211_txrx_stypes");
     ("iface_combinations", PtrTo "struct ieee80211_iface_combination");
     ("n_iface_combinations", U32); ("software_iftypes", typedef_u16);
     ("n_addresses", typedef_u16); ("interface_modes", typedef_u16);
     ("max_acl_mac_addrs", typedef_u16); ("flags", typedef_u32);
     ("regulatory_flags", typedef_u32); ("features", typedef_u32);
     ("ext_features", Array 5 typedef_u8); ("ap_sme_capa", typedef_u32);
     ("signal_type", Enum); ("bss_priv_size", U32); ("max_scan_ssids", typedef_u8);
     ("max_sched_scan_reqs", typedef_u8); ("max_sched_scan_ssids", typedef_u8);
     ("max_match_sets", typedef_u8); ("max_scan_ie_len", typedef_u16);
     ("max_sched_scan_ie_len", typedef_u16); ("max_sched_scan_plans", typedef_u32);
     ("max_sched_scan_plan_interval", typedef_u32);
     ("max_sched_scan_plan_iterations", typedef_u32); ("n_cipher_suites", U32);
     ("cipher_suites", Ptr); ("n_akm_suites", U32); ("akm_suites", Ptr);
     ("retry_short", typedef_u8); ("retry_long", typedef_u8); ("frag_threshold", typedef_u32);
     ("rts_threshold", typedef_u32); ("coverage_class", typedef_u8);
     ("fw_version", Array 32 U8); ("hw_version", typedef_u32);
     ("wowlan", PtrTo "struct wiphy_wowlan_support");
     ("wowlan_config", PtrTo "struct cfg80211_wowlan");
     ("max_remain_on_channel_duration", typedef_u16); ("max_num_pmkids", typedef_u8);
     ("available_antennas_tx", typedef_u32); ("available_antennas_rx", typedef_u32);
     ("probe_resp_offload", typedef_u32); ("extended_capabilities", Ptr);
     ("extended_capabilities_mask", Ptr); ("extended_capabilities_len", typedef_u8);
     ("iftype_ext_capab", PtrTo "struct wiphy_iftype_ext_capab");
     ("num_iftype_ext_capab", U32); ("privid", Ptr);
     ("bands", Array 4 (PtrTo "struct ieee80211_supported_band")); ("reg_notifier", Ptr);
     ("regd", PtrTo "struct ieee80211_regdomain"); ("dev", struct_device);
     ("registered", typedef_bool); ("debugfsdir", PtrTo "struct dentry");
     ("ht_capa_mod_mask", PtrTo "struct ieee80211_ht_cap");
     ("vht_capa_mod_mask", PtrTo "struct ieee80211_vht_cap"); ("wdev_list", struct_list_head);
     ("_net", typedef_possible_net_t); ("wext", PtrTo "struct iw_handler_def");
     ("coalesce", PtrTo "struct wiphy_coalesce_support");
     ("vendor_commands", PtrTo "struct wiphy_vendor_command");
     ("vendor_events", PtrTo "struct nl80211_vendor_cmd_info"); ("n_vendor_commands", U32);
     ("n_vendor_events", U32); ("max_ap_assoc_sta", typedef_u16);
     ("max_num_csa_counters", typedef_u8); ("max_adj_channel_rssi_comp", typedef_u8);
     ("bss_select_support", typedef_u32); ("nan_supported_bands", typedef_u8);
     ("txq_limit", typedef_u32); ("txq_memory_limit", typedef_u32);
     ("txq_quantum", typedef_u32); ("support_mbssid", Bits 1 1);
     ("support_only_he_mbssid", Bits 1 1);
     ("pmsr_capa", PtrTo "struct cfg80211_pmsr_capabilities"); ("priv", Array 0 U8)].

Definition struct_ieee80211_channel : cty :=
  Struct
    [("band", Enum); ("center_freq", typedef_u32); ("hw_value", typedef_u16);
     ("flags", typedef_u32); ("max_antenna_gain", U32); ("max_power", U32);
     ("max_reg_power", U32); ("beacon_found", typedef_bool); ("orig_flags", typedef_u32);
     ("orig_mag", U32); ("orig_mpwr", U32); ("dfs_state", Enum); ("dfs_state_entered", U64);
     ("dfs_cac_ms", U32)].

Definition struct_key_params : cty :=
  Struct
    [("key", Ptr); ("seq", Ptr); ("key_len", U32); ("seq_len", U32); ("cipher", typedef_u32);
     ("mode", Enum)].

Definition struct_wpan_phy_supported : cty :=
  Struct
    [("channels", Array 32 typedef_u32); ("cca_modes", typedef_u32);
     ("cca_opts", typedef_u32); ("iftypes", typedef_u32); ("lbt", Enum);
     ("min_minbe", typedef_u8); ("max_minbe", typedef_u8); ("min_maxbe", typedef_u8);
     ("max_maxbe", typedef_u8); ("min_csma_backoffs", typedef_u8);
     ("max_csma_backoffs", typedef_u8); ("min_frame_retries", typedef_s8);
     ("max_frame_retries", typedef_s8); ("tx_powers_size", typedef_size_t);
     ("cca_ed_levels_size", typedef_size_t); ("tx_powers", Ptr); ("cca_ed_levels", Ptr)].

Definition struct_wpan_phy_cca : cty :=
  Struct
    [("mode", Enum); ("opt", Enum)].

Definition struct_wpan_phy : cty :=
  Struct
    [("privid", Ptr); ("flags", typedef_u32); ("current_channel", typedef_u8);
     ("current_page", typedef_u8); ("supported", struct_wpan_phy_supported);
     ("transmit_power", typedef_s32); ("cca", struct_wpan_phy_cca);
     ("perm_extended_addr", typedef___le64); ("cca_ed_level", typedef_s32);
     ("symbol_duration", typedef_u8); ("lifs_period", typedef_u16);
     ("sifs_period", typedef_u16); ("dev", struct_device); ("_net", typedef_possible_net_t);
     ("", Pad 8 64); ("", Pad 8 64); ("priv", Array 0 U8)].

Definition struct_wpan_dev_header_ops : cty :=
  Struct
    [("create", Ptr)].

Definition struct_rps_map : cty :=
  Struct
    [("len", U32); ("rcu", struct_callback_head); ("cpus", Array 0 typedef_u16)].

Definition struct_rps_dev_flow : cty :=
  Struct
    [("cpu", typedef_u16); ("filter", typedef_u16); ("last_qtail", U32)].

Definition struct_rps_dev_flow_table : cty :=
  Struct
    [("mask", U32); ("rcu", struct_callback_head); ("flows", Array 0 struct_rps_dev_flow)].

Definition struct_xdp_umem : cty :=
  Struct
    [("fq", PtrTo "struct xsk_queue"); ("cq", PtrTo "struct xsk_queue");
     ("pages", PtrTo "struct xdp_umem_page"); ("chunk_mask", typedef_u64);
     ("size", typedef_u64); ("headroom", typedef_u32); ("chunk_size_nohr", typedef_u32);
     ("user", PtrTo "struct user_struct"); ("address", U64); ("users", typedef_refcount_t);
     ("work", struct_work_struct); ("pgs", Pointer 2 "struct page"); ("npgs", typedef_u32);
     ("queue_id", typedef_u16); ("need_wakeup", typedef_u8); ("flags", typedef_u8);
     ("id", U32); ("dev", PtrTo "struct net_device");
     ("fq_reuse", PtrTo "struct xdp_umem_fq_reuse"); ("zc", typedef_bool);
     ("xsk_list_lock", typedef_spinlock_t); ("xsk_list", struct_list_head)].

Definition struct_tcf_proto : cty :=
  Struct
    [("next", PtrTo "struct tcf_proto"); ("root", Ptr); ("classify", Ptr);
     ("protocol", typedef___be16); ("prio", typedef_u32); ("data", Ptr);
     ("ops", PtrTo "struct tcf_proto_ops"); ("chain", PtrTo "struct tcf_chain");
     ("lock", typedef_spinlock_t); ("deleting", typedef_bool); ("refcnt", typedef_refcount_t);
     ("rcu", struct_callback_head); ("destroy_ht_node", struct_hlist_node)].

Definition struct_gnet_stats_basic_cpu : cty :=
  Struct
    [("bstats", struct_gnet_stats_basic_packed); ("syncp", struct_u64_stats_sync);
     ("", Pad 8 0)].

Definition struct_Qdisc_ops : cty :=
  Struct
    [("next", PtrTo "struct Qdisc_ops"); ("cl_ops", PtrTo "struct Qdisc_class_ops");
     ("id", Array 16 U8); ("priv_size", U32); ("static_flags", U32); ("enqueue", Ptr);
     ("dequeue", Ptr); ("peek", Ptr); ("init", Ptr); ("reset", Ptr); ("destroy", Ptr);
     ("change", Ptr); ("attach", Ptr); ("change_tx_queue_len", Ptr); ("dump", Ptr);
     ("dump_stats", Ptr); ("ingress_block_set", Ptr); ("egress_block_set", Ptr);
     ("ingress_block_get", Ptr); ("egress_block_get", Ptr); ("owner", PtrTo "struct module")].

Definition struct_tc_sizespec : cty :=
  Struct
    [("cell_log", U8); ("size_log", U8); ("cell_align", U16); ("overhead", U32);
     ("linklayer", U32); ("mpu", U32); ("mtu", U32); ("tsize", U32)].

Definition struct_qdisc_size_table : cty :=
  Struct
    [("rcu", struct_callback_head); ("list", struct_list_head);
     ("szopts", struct_tc_sizespec); ("refcnt", U32); ("data", Array 0 typedef_u16)].

Definition struct_net_rate_estimator : cty :=
  Struct
    [("bstats", PtrTo "struct gnet_stats_basic_packed");
     ("stats_lock", PtrTo "struct spinlock"); ("running", PtrTo "struct seqcount");
     ("cpu_bstats", PtrTo "struct gnet_stats_basic_cpu"); ("ewma_log", typedef_u8);
     ("intvl_log", typedef_u8); ("seq", typedef_seqcount_t); ("last_packets", typedef_u32);
     ("last_bytes", typedef_u64); ("avpps", typedef_u64); ("avbps", typedef_u64);
     ("next_jiffies", U64); ("timer", struct_timer_list); ("rcu", struct_callback_head)].

Definition struct_xps_map : cty :=
  Struct
    [("len", U32); ("alloc_len", U32); ("rcu", struct_callback_head);
     ("queues", Array 0 typedef_u16)].

Definition union_inet_addr : cty :=
  Union
    [("all", Array 4 typedef___u32); ("ip", typedef___be32); ("ip6", Array 4 typedef___be32);
     ("in", struct_in_addr); ("in6", struct_in6_addr)].

Definition struct_netpoll : cty :=
  Struct
    [("dev", PtrTo "struct net_device"); ("dev_name", Array 16 U8); ("name", Ptr);
     ("local_ip", union_inet_addr); ("remote_ip", union_inet_addr); ("ipv6", typedef_bool);
     ("local_port", typedef_u16); ("remote_port", typedef_u16);
     ("remote_mac", Array 6 typedef_u8)].

Definition struct_mii_bus : cty :=
  Struct
    [("owner", PtrTo "struct module"); ("name", Ptr); ("id", Array 61 U8); ("priv", Ptr);
     ("read", Ptr); ("write", Ptr); ("reset", Ptr); ("mdio_lock", struct_mutex);
     ("parent", PtrTo "struct device"); ("state", Enum); ("dev", struct_device);
     ("mdio_map", Array 32 (PtrTo "struct mdio_device")); ("phy_mask", typedef_u32);
     ("phy_ignore_ta_mask", typedef_u32); ("irq", Array 32 U32); ("reset_delay_us", U32);
     ("reset_gpiod", PtrTo "struct gpio_desc")].

Definition struct_gpio_desc : cty :=
  Struct
    [("gdev", PtrTo "struct gpio_device"); ("flags", U64); ("label", Ptr); ("name", Ptr)].

Definition struct_mdio_driver_common : cty :=
  Struct
    [("driver", struct_device_driver); ("flags", U32)].

Definition struct_phy_driver : cty :=
  Struct
    [("mdiodrv", struct_mdio_driver_common); ("phy_id", typedef_u32); ("name", Ptr);
     ("phy_id_mask", typedef_u32); ("features", Ptr); ("flags", typedef_u32);
     ("driver_data", Ptr); ("soft_reset", Ptr); ("config_init", Ptr); ("probe", Ptr);
     ("get_features", Ptr); ("suspend", Ptr); ("resume", Ptr); ("config_aneg", Ptr);
     ("aneg_done", Ptr); ("read_status", Ptr); ("ack_interrupt", Ptr); ("config_intr", Ptr);
     ("did_interrupt", Ptr); ("handle_interrupt", Ptr); ("remove", Ptr);
     ("match_phy_device", Ptr); ("ts_info", Ptr); ("hwtstamp", Ptr); ("rxtstamp", Ptr);
     ("txtstamp", Ptr); ("set_wol", Ptr); ("get_wol", Ptr); ("link_change_notify", Ptr);
     ("read_mmd", Ptr); ("write_mmd", Ptr); ("read_page", Ptr); ("write_page", Ptr);
     ("module_info", Ptr); ("module_eeprom", Ptr); ("get_sset_count", Ptr);
     ("get_strings", Ptr); ("get_stats", Ptr); ("get_tunable", Ptr); ("set_tunable", Ptr);
     ("set_loopback", Ptr)].

Definition struct_fib_nh : cty :=
  Struct
    [("nh_common", struct_fib_nh_common); ("nh_hash", struct_hlist_node);
     ("nh_parent", PtrTo "struct fib_info"); ("nh_tclassid", typedef___u32);
     ("nh_saddr", typedef___be32); ("nh_saddr_genid", U32)].

Definition struct_nh_info : cty :=
  Struct
    [("dev_hash", struct_hlist_node); ("nh_parent", PtrTo "struct nexthop");
     ("family", typedef_u8); ("reject_nh", typedef_bool); ("", Union
     [("fib_nhc", struct_fib_nh_common); ("fib_nh", struct_fib_nh);
     ("fib6_nh", struct_fib6_nh)])].

Definition struct_nh_grp_entry : cty :=
  Struct
    [("nh", PtrTo "struct nexthop"); ("weight", typedef_u8);
     ("upper_bound", typedef_atomic_t); ("nh_list", struct_list_head);
     ("nh_parent", PtrTo "struct nexthop")].

Definition struct_nh_group : cty :=
  Struct
    [("spare", PtrTo "struct nh_group"); ("num_nh", typedef_u16); ("mpath", typedef_bool);
     ("has_v4", typedef_bool); ("nh_entries", Array 0 struct_nh_grp_entry)].

Definition struct_fib_nh_exception : cty :=
  Struct
    [("fnhe_next", PtrTo "struct fib_nh_exception"); ("fnhe_genid", U32);
     ("fnhe_daddr", typedef___be32); ("fnhe_pmtu", typedef_u32);
     ("fnhe_mtu_locked", typedef_bool); ("fnhe_gw", typedef___be32); ("fnhe_expires", U64);
     ("fnhe_rth_input", PtrTo "struct rtable"); ("fnhe_rth_output", PtrTo "struct rtable");
     ("fnhe_stamp", U64); ("rcu", struct_callback_head)].

Definition struct_bpf_map_ops : cty :=
  Struct
    [("map_alloc_check", Ptr); ("map_alloc", Ptr); ("map_release", Ptr); ("map_free", Ptr);
     ("map_get_next_key", Ptr); ("map_release_uref", Ptr); ("map_lookup_elem_sys_only", Ptr);
     ("map_lookup_elem", Ptr); ("map_update_elem", Ptr); ("map_delete_elem", Ptr);
     ("map_push_elem", Ptr); ("map_pop_elem", Ptr); ("map_peek_elem", Ptr);
     ("map_fd_get_ptr", Ptr); ("map_fd_put_ptr", Ptr); ("map_gen_lookup", Ptr);
     ("map_fd_sys_lookup_elem", Ptr); ("map_seq_show_elem", Ptr); ("map_check_btf", Ptr);
     ("map_direct_value_addr", Ptr); ("map_direct_value_meta", Ptr); ("map_meta_equal", Ptr)].

Definition struct_bucket___2 : cty :=
  Struct
    [("list", struct_hlist_head); ("lock", typedef_raw_spinlock_t)].

Definition struct_wait_page_queue : cty :=
  Struct
    [("page", PtrTo "struct page"); ("bit_nr", U32); ("wait", typedef_wait_queue_entry_t)].

Definition struct_irq_chip : cty :=
  Struct
    [("parent_device", PtrTo "struct device"); ("name", Ptr); ("irq_startup", Ptr);
     ("irq_shutdown", Ptr); ("irq_enable", Ptr); ("irq_disable", Ptr); ("irq_ack", Ptr);
     ("irq_mask", Ptr); ("irq_mask_ack", Ptr); ("irq_unmask", Ptr); ("irq_eoi", Ptr);
     ("irq_set_affinity", Ptr); ("irq_retrigger", Ptr); ("irq_set_type", Ptr);
     ("irq_set_wake", Ptr); ("irq_bus_lock", Ptr); ("irq_bus_sync_unlock", Ptr);
     ("irq_cpu_online", Ptr); ("irq_cpu_offline", Ptr); ("irq_suspend", Ptr);
     ("irq_resume", Ptr); ("irq_pm_shutdown", Ptr); ("irq_calc_mask", Ptr);
     ("irq_print_chip", Ptr); ("irq_request_resources", Ptr); ("irq_release_resources", Ptr);
     ("irq_compose_msi_msg", Ptr); ("irq_write_msi_msg", Ptr); ("irq_get_irqchip_state", Ptr);
     ("irq_set_irqchip_state", Ptr); ("irq_set_vcpu_affinity", Ptr); ("ipi_send_single", Ptr);
     ("ipi_send_mask", Ptr); ("irq_nmi_setup", Ptr); ("irq_nmi_teardown", Ptr);
     ("flags", U64)].

Definition struct_irq_chip_regs : cty :=
  Struct
    [("enable", U64); ("disable", U64); ("mask", U64); ("ack", U64); ("eoi", U64);
     ("type", U64); ("polarity", U64)].

Definition typedef_irq_flow_handler_t : cty := Ptr.

Definition struct_irq_chip_type : cty :=
  Struct
    [("chip", struct_irq_chip); ("regs", struct_irq_chip_regs);
     ("handler", typedef_irq_flow_handler_t); ("type", typedef_u32);
     ("mask_cache_priv", typedef_u32); ("mask_cache", Ptr)].

Definition struct_irq_chip_generic : cty :=
  Struct
    [("lock", typedef_raw_spinlock_t); ("reg_base", Ptr); ("reg_readl", Ptr);
     ("reg_writel", Ptr); ("suspend", Ptr); ("resume", Ptr); ("irq_base", U32);
     ("irq_cnt", U32); ("mask_cache", typedef_u32); ("type_cache", typedef_u32);
     ("polarity_cache", typedef_u32); ("wake_enabled", typedef_u32);
     ("wake_active", typedef_u32); ("num_ct", U32); ("private", Ptr); ("installed", U64);
     ("unused", U64); ("domain", PtrTo "struct irq_domain"); ("list", struct_list_head);
     ("chip_types", Array 0 struct_irq_chip_type)].

Definition struct_vm_operations_struct___2 : cty :=
  Struct
    [("open", Ptr); ("close", Ptr); ("split", Ptr); ("mremap", Ptr); ("fault", Ptr);
     ("huge_fault", Ptr); ("map_pages", Ptr); ("pagesize", Ptr); ("page_mkwrite", Ptr);
     ("pfn_mkwrite", Ptr); ("access", Ptr); ("name", Ptr); ("set_policy", Ptr);
     ("get_policy", Ptr); ("find_special_page", Ptr)].

Definition struct_upid___2 : cty :=
  Struct
    [("nr", U32); ("ns", PtrTo "struct pid_namespace___2")].

Definition struct_pid___2 : cty :=
  Struct
    [("count", typedef_refcount_t); ("level", U32); ("tasks", Array 4 struct_hlist_head);
     ("wait_pidfd", typedef_wait_queue_head_t); ("rcu", struct_callback_head);
     ("numbers", Array 1 struct_upid___2)].

Definition struct_cred___2 : cty :=
  Struct
    [("usage", typedef_atomic_t); ("uid", typedef_kuid_t); ("gid", typedef_kgid_t);
     ("suid", typedef_kuid_t); ("sgid", typedef_kgid_t); ("euid", typedef_kuid_t);
     ("egid", typedef_kgid_t); ("fsuid", typedef_kuid_t); ("fsgid", typedef_kgid_t);
     ("securebits", U32); ("cap_inheritable", typedef_kernel_cap_t);
     ("cap_permitted", typedef_kernel_cap_t); ("cap_effective", typedef_kernel_cap_t);
     ("cap_bset", typedef_kernel_cap_t); ("cap_ambient", typedef_kernel_cap_t);
     ("jit_keyring", U8); ("session_keyring", PtrTo "struct key");
     ("process_keyring", PtrTo "struct key"); ("thread_keyring", PtrTo "struct key");
     ("request_key_auth", PtrTo "struct key"); ("security", Ptr);
     ("user", PtrTo "struct user_struct"); ("user_ns", PtrTo "struct user_namespace___2");
     ("group_info", PtrTo "struct group_info"); ("", Union [("non_rcu", U32);
     ("rcu", struct_callback_head)])].

Definition struct_nsproxy___2 : cty :=
  Struct
    [("count", typedef_atomic_t); ("uts_ns", PtrTo "struct uts_namespace");
     ("ipc_ns", PtrTo "struct ipc_namespace"); ("mnt_ns", PtrTo "struct mnt_namespace");
     ("pid_ns_for_children", PtrTo "struct pid_namespace___2");
     ("net_ns", PtrTo "struct net___2"); ("cgroup_ns", PtrTo "struct cgroup_namespace___2")].

Definition struct_signal_struct___2 : cty :=
  Struct
    [("sigcnt", typedef_refcount_t); ("live", typedef_atomic_t); ("nr_threads", U32);
     ("thread_head", struct_list_head); ("wait_chldexit", typedef_wait_queue_head_t);
     ("curr_target", PtrTo "struct task_struct___2"); ("shared_pending", struct_sigpending);
     ("multiprocess", struct_hlist_head); ("group_exit_code", U32); ("notify_count", U32);
     ("group_exit_task", PtrTo "struct task_struct___2"); ("group_stop_count", U32);
     ("flags", U32); ("is_child_subreaper", Bits 4 1); ("has_child_subreaper", Bits 4 1);
     ("posix_timer_id", U32); ("posix_timers", struct_list_head);
     ("real_timer", struct_hrtimer); ("it_real_incr", typedef_ktime_t);
     ("it", Array 2 struct_cpu_itimer); ("cputimer", struct_thread_group_cputimer);
     ("posix_cputimers", struct_posix_cputimers); ("pids", Array 4 (PtrTo "struct pid___2"));
     ("tick_dep_mask", typedef_atomic_t); ("tty_old_pgrp", PtrTo "struct pid___2");
     ("leader", U32); ("tty", PtrTo "struct tty_struct");
     ("autogroup", PtrTo "struct autogroup"); ("stats_lock", typedef_seqlock_t);
     ("utime", typedef_u64); ("stime", typedef_u64); ("cutime", typedef_u64);
     ("cstime", typedef_u64); ("gtime", typedef_u64); ("cgtime", typedef_u64);
     ("prev_cputime", struct_prev_cputime); ("nvcsw", U64); ("nivcsw", U64); ("cnvcsw", U64);
     ("cnivcsw", U64); ("min_flt", U64); ("maj_flt", U64); ("cmin_flt", U64);
     ("cmaj_flt", U64); ("inblock", U64); ("oublock", U64); ("cinblock", U64);
     ("coublock", U64); ("maxrss", U64); ("cmaxrss", U64);
     ("ioac", struct_task_io_accounting); ("sum_sched_runtime", U64);
     ("rlim", Array 16 struct_rlimit); ("pacct", struct_pacct_struct);
     ("stats", PtrTo "struct taskstats"); ("audit_tty", U32);
     ("tty_audit_buf", PtrTo "struct tty_audit_buf"); ("oom_flag_origin", typedef_bool);
     ("oom_score_adj", U16); ("oom_score_adj_min", U16);
     ("oom_mm", PtrTo "struct mm_struct___2"); ("cred_guard_mutex", struct_mutex);
     ("exec_update_lock", struct_rw_semaphore)].

Definition struct_css_set___2 : cty :=
  Struct
    [("subsys", Array 12 (PtrTo "struct cgroup_subsys_state___2"));
     ("refcount", typedef_refcount_t); ("dom_cset", PtrTo "struct css_set___2");
     ("dfl_cgrp", PtrTo "struct cgroup___2"); ("nr_tasks", U32); ("tasks", struct_list_head);
     ("mg_tasks", struct_list_head); ("dying_tasks", struct_list_head);
     ("task_iters", struct_list_head); ("e_cset_node", Array 12 struct_list_head);
     ("threaded_csets", struct_list_head); ("threaded_csets_node", struct_list_head);
     ("hlist", struct_hlist_node); ("cgrp_links", struct_list_head);
     ("mg_preload_node", struct_list_head); ("mg_node", struct_list_head);
     ("mg_src_cgrp", PtrTo "struct cgroup___2"); ("mg_dst_cgrp", PtrTo "struct cgroup___2");
     ("mg_dst_cset", PtrTo "struct css_set___2"); ("dead", typedef_bool);
     ("callback_head", struct_callback_head)].

Definition struct_perf_event_context___2 : cty :=
  Struct
    [("pmu", PtrTo "struct pmu___2"); ("lock", typedef_raw_spinlock_t);
     ("mutex", struct_mutex); ("active_ctx_list", struct_list_head);
     ("pinned_groups", struct_perf_event_groups);
     ("flexible_groups", struct_perf_event_groups); ("event_list", struct_list_head);
     ("pinned_active", struct_list_head); ("flexible_active", struct_list_head);
     ("nr_events", U32); ("nr_active", U32); ("is_active", U32); ("nr_stat", U32);
     ("nr_freq", U32); ("rotate_disable", U32); ("rotate_necessary", U32);
     ("refcount", typedef_refcount_t); ("task", PtrTo "struct task_struct___2");
     ("time", typedef_u64); ("timestamp", typedef_u64);
     ("parent_ctx", PtrTo "struct perf_event_context___2"); ("parent_gen", typedef_u64);
     ("generation", typedef_u64); ("pin_count", U32); ("nr_cgroups", U32);
     ("task_ctx_data", Ptr); ("callback_head", struct_callback_head)].

Definition struct_vm_struct___2 : cty :=
  Struct
    [("next", PtrTo "struct vm_struct___2"); ("addr", Ptr); ("size", U64); ("flags", U64);
     ("pages", Pointer 2 "struct page___2"); ("nr_pages", U32);
     ("phys_addr", typedef_phys_addr_t); ("caller", Ptr)].

Definition struct_hw_perf_event___2 : cty :=
  Struct
    [("", Union [("", Struct [("config", typedef_u64); ("last_tag", typedef_u64);
     ("config_base", U64); ("event_base", U64); ("event_base_rdpmc", U32); ("idx", U32);
     ("last_cpu", U32); ("flags", U32); ("extra_reg", struct_hw_perf_event_extra);
     ("branch_reg", struct_hw_perf_event_extra)]); ("", Struct [("hrtimer", struct_hrtimer)]);
     ("", Struct [("tp_list", struct_list_head)]); ("", Struct [("pwr_acc", typedef_u64);
     ("ptsc", typedef_u64)]); ("", Struct [("info", struct_arch_hw_breakpoint);
     ("bp_list", struct_list_head)]); ("", Struct [("iommu_bank", typedef_u8);
     ("iommu_cntr", typedef_u8); ("padding", typedef_u16); ("conf", typedef_u64);
     ("conf1", typedef_u64)])]); ("target", PtrTo "struct task_struct___2");
     ("addr_filters", Ptr); ("addr_filters_gen", U64); ("state", U32);
     ("prev_count", typedef_local64_t); ("sample_period", typedef_u64); ("", Union
     [("", Struct [("last_period", typedef_u64); ("period_left", typedef_local64_t)]);
     ("", Struct [("saved_metric", typedef_u64); ("saved_slots", typedef_u64)])]);
     ("interrupts_seq", typedef_u64); ("interrupts", typedef_u64);
     ("freq_time_stamp", typedef_u64); ("freq_count_stamp", typedef_u64)].

Definition typedef_perf_overflow_handler_t___2 : cty := Ptr.

Definition struct_perf_event___2 : cty :=
  Struct
    [("event_entry", struct_list_head); ("sibling_list", struct_list_head);
     ("active_list", struct_list_head); ("group_node", struct_rb_node);
     ("group_index", typedef_u64); ("migrate_entry", struct_list_head);
     ("hlist_entry", struct_hlist_node); ("active_entry", struct_list_head);
     ("nr_siblings", U32); ("event_caps", U32); ("group_caps", U32);
     ("group_leader", PtrTo "struct perf_event___2"); ("pmu", PtrTo "struct pmu___2");
     ("pmu_private", Ptr); ("state", Enum); ("attach_state", U32);
     ("count", typedef_local64_t); ("child_count", typedef_atomic64_t);
     ("total_time_enabled", typedef_u64); ("total_time_running", typedef_u64);
     ("tstamp", typedef_u64); ("shadow_ctx_time", typedef_u64);
     ("attr", struct_perf_event_attr); ("header_size", typedef_u16);
     ("id_header_size", typedef_u16); ("read_size", typedef_u16);
     ("hw", struct_hw_perf_event___2); ("ctx", PtrTo "struct perf_event_context___2");
     ("refcount", typedef_atomic_long_t); ("child_total_time_enabled", typedef_atomic64_t);
     ("child_total_time_running", typedef_atomic64_t); ("child_mutex", struct_mutex);
     ("child_list", struct_list_head); ("parent", PtrTo "struct perf_event___2");
     ("oncpu", U32); ("cpu", U32); ("owner_entry", struct_list_head);
     ("owner", PtrTo "struct task_struct___2"); ("mmap_mutex", struct_mutex);
     ("mmap_count", typedef_atomic_t); ("rb", PtrTo "struct ring_buffer___2");
     ("rb_entry", struct_list_head); ("rcu_batches", U64); ("rcu_pending", U32);
     ("waitq", typedef_wait_queue_head_t); ("fasync", PtrTo "struct fasync_struct___2");
     ("pending_wakeup", U32); ("pending_kill", U32); ("pending_disable", U32);
     ("pending", struct_irq_work); ("event_limit", typedef_atomic_t);
     ("addr_filters", struct_perf_addr_filters_head);
     ("addr_filter_ranges", PtrTo "struct perf_addr_filter_range"); ("addr_filters_gen", U64);
     ("aux_event", PtrTo "struct perf_event___2"); ("destroy", Ptr);
     ("callback_head", struct_callback_head); ("ns", PtrTo "struct pid_namespace___2");
     ("id", typedef_u64); ("clock", Ptr);
     ("overflow_handler", typedef_perf_overflow_handler_t___2);
     ("overflow_handler_context", Ptr);
     ("orig_overflow_handler", typedef_perf_overflow_handler_t___2);
     ("prog", PtrTo "struct bpf_prog___2"); ("tp_event", PtrTo "struct trace_event_call___2");
     ("filter", PtrTo "struct event_filter"); ("ftrace_ops", struct_ftrace_ops);
     ("cgrp", PtrTo "struct perf_cgroup___2"); ("sb_list", struct_list_head)].

Definition struct_proc_ns_operations___2 : cty :=
  Struct
    [("name", Ptr); ("real_ns_name", Ptr); ("type", U32); ("get", Ptr); ("put", Ptr);
     ("install", Ptr); ("owner", Ptr); ("get_parent", Ptr)].

Definition struct_ucounts___2 : cty :=
  Struct
    [("node", struct_hlist_node); ("ns", PtrTo "struct user_namespace___2");
     ("uid", typedef_kuid_t); ("count", U32); ("ucount", Array 9 typedef_atomic_t)].

Definition struct_em_perf_domain : cty := Struct [].

Definition struct_sched_group_capacity : cty :=
  Struct
    [("ref", typedef_atomic_t); ("capacity", U64); ("min_capacity", U64);
     ("max_capacity", U64); ("next_update", U64); ("imbalance", U32); ("id", U32);
     ("cpumask", Array 0 U64)].

Definition struct_bpf_storage_buffer : cty :=
  Struct
    [("rcu", struct_callback_head); ("data", Array 0 U8)].

Definition struct_bpf_cgroup_storage_map : cty :=
  Struct
    [("map", struct_bpf_map); ("lock", typedef_spinlock_t); ("prog", PtrTo "struct bpf_prog");
     ("root", struct_rb_root); ("list", struct_list_head); ("", Pad 8 64); ("", Pad 8 64);
     ("", Pad 8 64)].

Definition struct_kset___2 : cty :=
  Struct
    [("list", struct_list_head); ("list_lock", typedef_spinlock_t);
     ("kobj", struct_kobject___2); ("uevent_ops", PtrTo "struct kset_uevent_ops___2")].

Definition struct_kobj_type___2 : cty :=
  Struct
    [("release", Ptr); ("sysfs_ops", PtrTo "struct sysfs_ops___2");
     ("default_attrs", Pointer 2 "struct attribute");
     ("default_groups", Pointer 2 "struct attribute_group___2"); ("child_ns_type", Ptr);
     ("namespace", Ptr); ("get_ownership", Ptr)].

Definition struct_kernfs_elem_dir___2 : cty :=
  Struct
    [("subdirs", U64); ("children", struct_rb_root);
     ("root", PtrTo "struct kernfs_root___2")].

Definition struct_kernfs_elem_symlink___2 : cty :=
  Struct
    [("target_kn", PtrTo "struct kernfs_node___2")].

Definition struct_kernfs_elem_attr___2 : cty :=
  Struct
    [("ops", PtrTo "struct kernfs_ops___2"); ("open", PtrTo "struct kernfs_open_node");
     ("size", typedef_loff_t); ("notify_next", PtrTo "struct kernfs_node___2")].

Definition struct_kernfs_node___2 : cty :=
  Struct
    [("count", typedef_atomic_t); ("active", typedef_atomic_t);
     ("parent", PtrTo "struct kernfs_node___2"); ("name", Ptr); ("rb", struct_rb_node);
     ("ns", Ptr); ("hash", U32); ("", Union [("dir", struct_kernfs_elem_dir___2);
     ("symlink", struct_kernfs_elem_symlink___2); ("attr", struct_kernfs_elem_attr___2)]);
     ("priv", Ptr); ("id", union_kernfs_node_id); ("flags", U16); ("mode", typedef_umode_t);
     ("iattr", PtrTo "struct kernfs_iattrs")].

Definition struct_module_attribute___2 : cty :=
  Struct
    [("attr", struct_attribute); ("show", Ptr); ("store", Ptr); ("setup", Ptr); ("test", Ptr);
     ("free", Ptr)].

Definition struct_kernel_param___2 : cty :=
  Struct
    [("name", Ptr); ("mod", PtrTo "struct module___2");
     ("ops", PtrTo "struct kernel_param_ops___2"); ("perm", typedef_u16);
     ("level", typedef_s8); ("flags", typedef_u8); ("", Union [("arg", Ptr);
     ("str", PtrTo "struct kparam_string"); ("arr", PtrTo "struct kparam_array___2")])].

Definition struct_trace_event_call___2 : cty :=
  Struct
    [("list", struct_list_head); ("class", PtrTo "struct trace_event_class___2"); ("", Union
     [("name", Ptr); ("tp", PtrTo "struct tracepoint")]); ("event", struct_trace_event);
     ("print_fmt", Ptr); ("filter", PtrTo "struct event_filter"); ("mod", Ptr); ("data", Ptr);
     ("flags", U32); ("perf_refcount", U32); ("perf_events", PtrTo "struct hlist_head");
     ("prog_array", PtrTo "struct bpf_prog_array___2"); ("perf_perm", Ptr)].

Definition struct_dev_pagemap___2 : cty :=
  Struct
    [("altmap", struct_vmem_altmap); ("res", struct_resource);
     ("ref", PtrTo "struct percpu_ref"); ("internal_ref", struct_percpu_ref);
     ("done", struct_completion); ("type", Enum); ("flags", U32);
     ("ops", PtrTo "struct dev_pagemap_ops___2")].

Definition struct_pipe_buf_operations___2 : cty :=
  Struct
    [("confirm", Ptr); ("release", Ptr); ("steal", Ptr); ("get", Ptr)].

Definition struct_inotify_group_private_data : cty :=
  Struct
    [("idr_lock", typedef_spinlock_t); ("idr", struct_idr);
     ("ucounts", PtrTo "struct ucounts")].

Definition struct_fanotify_group_private_data : cty :=
  Struct
    [("access_list", struct_list_head); ("access_waitq", typedef_wait_queue_head_t);
     ("flags", U32); ("f_flags", U32); ("max_marks", U32);
     ("user", PtrTo "struct user_struct")].

Definition struct_fsnotify_group : cty :=
  Struct
    [("ops", PtrTo "struct fsnotify_ops"); ("refcnt", typedef_refcount_t);
     ("notification_lock", typedef_spinlock_t); ("notification_list", struct_list_head);
     ("notification_waitq", typedef_wait_queue_head_t); ("q_len", U32); ("max_events", U32);
     ("priority", U32); ("shutdown", typedef_bool); ("mark_mutex", struct_mutex);
     ("num_marks", typedef_atomic_t); ("user_waits", typedef_atomic_t);
     ("marks_list", struct_list_head); ("fsn_fa", PtrTo "struct fasync_struct");
     ("overflow_event", PtrTo "struct fsnotify_event"); ("memcg", PtrTo "struct mem_cgroup");
     ("", Union [("private", Ptr); ("inotify_data", struct_inotify_group_private_data);
     ("fanotify_data", struct_fanotify_group_private_data)])].

Definition struct_bpf_offload_dev : cty :=
  Struct
    [("ops", PtrTo "struct bpf_prog_offload_ops"); ("netdevs", struct_list_head);
     ("priv", Ptr)].

Definition struct_btf_type : cty :=
  Struct
    [("name_off", typedef___u32); ("info", typedef___u32); ("", Union
     [("size", typedef___u32); ("type", typedef___u32)])].

Definition struct_ftrace_event_field : cty :=
  Struct
    [("link", struct_list_head); ("name", Ptr); ("type", Ptr); ("filter_type", U32);
     ("offset", U32); ("size", U32); ("is_signed", U32)].

Definition struct_ip_sf_list : cty :=
  Struct
    [("sf_next", PtrTo "struct ip_sf_list"); ("sf_count", Array 2 U64);
     ("sf_inaddr", typedef___be32); ("sf_gsresp", U8); ("sf_oldin", U8); ("sf_crcount", U8)].

Definition struct_neigh_table : cty :=
  Struct
    [("family", U32); ("entry_size", U32); ("key_len", U32); ("protocol", typedef___be16);
     ("hash", Ptr); ("key_eq", Ptr); ("constructor", Ptr); ("pconstructor", Ptr);
     ("pdestructor", Ptr); ("proxy_redo", Ptr); ("is_multicast", Ptr); ("allow_add", Ptr);
     ("id", Ptr); ("parms", struct_neigh_parms); ("parms_list", struct_list_head);
     ("gc_interval", U32); ("gc_thresh1", U32); ("gc_thresh2", U32); ("gc_thresh3", U32);
     ("last_flush", U64); ("gc_work", struct_delayed_work);
     ("proxy_timer", struct_timer_list); ("proxy_queue", struct_sk_buff_head);
     ("entries", typedef_atomic_t); ("gc_entries", typedef_atomic_t);
     ("gc_list", struct_list_head); ("lock", typedef_rwlock_t); ("last_rand", U64);
     ("stats", PtrTo "struct neigh_statistics"); ("nht", PtrTo "struct neigh_hash_table");
     ("phash_buckets", Pointer 2 "struct pneigh_entry")].

Definition struct_ip6_sf_list : cty :=
  Struct
    [("sf_next", PtrTo "struct ip6_sf_list"); ("sf_addr", struct_in6_addr);
     ("sf_count", Array 2 U64); ("sf_gsresp", U8); ("sf_oldin", U8); ("sf_crcount", U8)].

Definition struct_mac_address : cty :=
  Struct
    [("addr", Array 6 typedef_u8)].

Definition struct_ieee80211_txrx_stypes : cty :=
  Struct
    [("tx", typedef_u16); ("rx", typedef_u16)].

Definition struct_ieee80211_iface_combination : cty :=
  Struct
    [("limits", PtrTo "struct ieee80211_iface_limit");
     ("num_different_channels", typedef_u32); ("max_interfaces", typedef_u16);
     ("n_limits", typedef_u8); ("beacon_int_infra_match", typedef_bool);
     ("radar_detect_widths", typedef_u8); ("radar_detect_regions", typedef_u8);
     ("beacon_int_min_gcd", typedef_u32)].

Definition struct_wiphy_wowlan_support : cty :=
  Struct
    [("flags", typedef_u32); ("n_patterns", U32); ("pattern_max_len", U32);
     ("pattern_min_len", U32); ("max_pkt_offset", U32); ("max_nd_match_sets", U32);
     ("tcp", PtrTo "struct wiphy_wowlan_tcp_support")].

Definition struct_cfg80211_wowlan : cty :=
  Struct
    [("any", typedef_bool); ("disconnect", typedef_bool); ("magic_pkt", typedef_bool);
     ("gtk_rekey_failure", typedef_bool); ("eap_identity_req", typedef_bool);
     ("four_way_handshake", typedef_bool); ("rfkill_release", typedef_bool);
     ("patterns", PtrTo "struct cfg80211_pkt_pattern");
     ("tcp", PtrTo "struct cfg80211_wowlan_tcp"); ("n_patterns", U32);
     ("nd_config", PtrTo "struct cfg80211_sched_scan_request")].

Definition struct_wiphy_iftype_ext_capab : cty :=
  Struct
    [("iftype", Enum); ("extended_capabilities", Ptr); ("extended_capabilities_mask", Ptr);
     ("extended_capabilities_len", typedef_u8)].

Definition struct_ieee80211_sta_ht_cap : cty :=
  Packed
    [("cap", typedef_u16); ("ht_supported", typedef_bool); ("ampdu_factor", typedef_u8);
     ("ampdu_density", typedef_u8); ("mcs", struct_ieee80211_mcs_info); ("", Pad 2 0)].

Definition struct_ieee80211_sta_vht_cap : cty :=
  Struct
    [("vht_supported", typedef_bool); ("cap", typedef_u32);
     ("vht_mcs", struct_ieee80211_vht_mcs_info)].

Definition struct_ieee80211_supported_band : cty :=
  Struct
    [("channels", PtrTo "struct ieee80211_channel");
     ("bitrates", PtrTo "struct ieee80211_rate"); ("band", Enum); ("n_channels", U32);
     ("n_bitrates", U32); ("ht_cap", struct_ieee80211_sta_ht_cap);
     ("vht_cap", struct_ieee80211_sta_vht_cap); ("edmg_cap", struct_ieee80211_edmg);
     ("n_iftype_data", typedef_u16);
     ("iftype_data", PtrTo "struct ieee80211_sband_iftype_data")].

Definition struct_ieee80211_freq_range : cty :=
  Struct
    [("start_freq_khz", typedef_u32); ("end_freq_khz", typedef_u32);
     ("max_bandwidth_khz", typedef_u32)].

Definition struct_ieee80211_power_rule : cty :=
  Struct
    [("max_antenna_gain", typedef_u32); ("max_eirp", typedef_u32)].

Definition struct_ieee80211_wmm_ac : cty :=
  Struct
    [("cw_min", typedef_u16); ("cw_max", typedef_u16); ("cot", typedef_u16);
     ("aifsn", typedef_u8)].

Definition struct_ieee80211_wmm_rule : cty :=
  Struct
    [("client", Array 4 struct_ieee80211_wmm_ac); ("ap", Array 4 struct_ieee80211_wmm_ac)].

Definition struct_ieee80211_reg_rule : cty :=
  Struct
    [("freq_range", struct_ieee80211_freq_range); ("power_rule", struct_ieee80211_power_rule);
     ("wmm_rule", struct_ieee80211_wmm_rule); ("flags", typedef_u32);
     ("dfs_cac_ms", typedef_u32); ("has_wmm", typedef_bool)].

Definition struct_ieee80211_regdomain : cty :=
  Struct
    [("callback_head", struct_callback_head); ("n_reg_rules", typedef_u32);
     ("alpha2", Array 3 U8); ("dfs_region", Enum);
     ("reg_rules", Array 0 struct_ieee80211_reg_rule)].

Definition struct_wiphy_coalesce_support : cty :=
  Struct
    [("n_rules", U32); ("max_delay", U32); ("n_patterns", U32); ("pattern_max_len", U32);
     ("pattern_min_len", U32); ("max_pkt_offset", U32)].

Definition struct_nl80211_vendor_cmd_info : cty :=
  Struct
    [("vendor_id", typedef___u32); ("subcmd", typedef___u32)].

Definition struct_wiphy_vendor_command : cty :=
  Struct
    [("info", struct_nl80211_vendor_cmd_info); ("flags", typedef_u32); ("doit", Ptr);
     ("dumpit", Ptr); ("policy", PtrTo "struct nla_policy"); ("maxattr", U32)].

Definition struct_cfg80211_pmsr_capabilities : cty :=
  Struct
    [("max_peers", U32); ("report_ap_tsf", Bits 1 1); ("randomize_mac_addr", Bits 1 1);
     ("ftm", Struct [("preambles", typedef_u32); ("bandwidths", typedef_u32);
     ("max_bursts_exponent", typedef_s8); ("max_ftms_per_burst", typedef_u8);
     ("supported", Bits 1 1); ("asap", Bits 1 1); ("non_asap", Bits 1 1);
     ("request_lci", Bits 1 1); ("request_civicloc", Bits 1 1)])].

Definition struct_xsk_queue : cty :=
  Struct
    [("chunk_mask", typedef_u64); ("size", typedef_u64); ("ring_mask", typedef_u32);
     ("nentries", typedef_u32); ("prod_head", typedef_u32); ("prod_tail", typedef_u32);
     ("cons_head", typedef_u32); ("cons_tail", typedef_u32);
     ("ring", PtrTo "struct xdp_ring"); ("invalid_descs", typedef_u64)].

Definition struct_xdp_umem_page : cty :=
  Struct
    [("addr", Ptr); ("dma", typedef_dma_addr_t)].

Definition struct_xdp_umem_fq_reuse : cty :=
  Struct
    [("nentries", typedef_u32); ("length", typedef_u32); ("handles", Array 0 typedef_u64)].

Definition struct_tcf_proto_ops : cty :=
  Struct
    [("head", struct_list_head); ("kind", Array 16 U8); ("classify", Ptr); ("init", Ptr);
     ("destroy", Ptr); ("get", Ptr); ("put", Ptr); ("change", Ptr); ("delete", Ptr);
     ("delete_empty", Ptr); ("walk", Ptr); ("reoffload", Ptr); ("hw_add", Ptr);
     ("hw_del", Ptr); ("bind_class", Ptr); ("tmplt_create", Ptr); ("tmplt_destroy", Ptr);
     ("dump", Ptr); ("tmplt_dump", Ptr); ("owner", PtrTo "struct module"); ("flags", U32)].

Definition struct_tcf_chain : cty :=
  Struct
    [("filter_chain_lock", struct_mutex); ("filter_chain", PtrTo "struct tcf_proto");
     ("list", struct_list_head); ("block", PtrTo "struct tcf_block"); ("index", typedef_u32);
     ("refcnt", U32); ("action_refcnt", U32); ("explicitly_created", typedef_bool);
     ("flushing", typedef_bool); ("tmplt_ops", PtrTo "struct tcf_proto_ops");
     ("tmplt_priv", Ptr); ("rcu", struct_callback_head)].

Definition struct_Qdisc_class_ops : cty :=
  Struct
    [("flags", U32); ("select_queue", Ptr); ("graft", Ptr); ("leaf", Ptr);
     ("qlen_notify", Ptr); ("find", Ptr); ("change", Ptr); ("delete", Ptr); ("walk", Ptr);
     ("tcf_block", Ptr); ("bind_tcf", Ptr); ("unbind_tcf", Ptr); ("dump", Ptr);
     ("dump_stats", Ptr)].

Definition struct_gpio_device : cty :=
  Struct
    [("id", U32); ("dev", struct_device); ("chrdev", struct_cdev);
     ("mockdev", PtrTo "struct device"); ("owner", PtrTo "struct module");
     ("chip", PtrTo "struct gpio_chip"); ("descs", PtrTo "struct gpio_desc"); ("base", U32);
     ("ngpio", typedef_u16); ("label", Ptr); ("data", Ptr); ("list", struct_list_head);
     ("pin_ranges", struct_list_head)].

Definition struct_fib_info : cty :=
  Struct
    [("fib_hash", struct_hlist_node); ("fib_lhash", struct_hlist_node);
     ("nh_list", struct_list_head); ("fib_net", PtrTo "struct net"); ("fib_treeref", U32);
     ("fib_clntref", typedef_refcount_t); ("fib_flags", U32); ("fib_dead", U8);
     ("fib_protocol", U8); ("fib_scope", U8); ("fib_type", U8);
     ("fib_prefsrc", typedef___be32); ("fib_tb_id", typedef_u32);
     ("fib_priority", typedef_u32); ("fib_metrics", PtrTo "struct dst_metrics");
     ("fib_nhs", U32); ("fib_nh_is_v6", typedef_bool); ("nh_updated", typedef_bool);
     ("nh", PtrTo "struct nexthop"); ("rcu", struct_callback_head);
     ("fib_nh", Array 0 struct_fib_nh)].

Definition struct_pid_namespace___2 : cty :=
  Struct
    [("kref", struct_kref); ("idr", struct_idr); ("rcu", struct_callback_head);
     ("pid_allocated", U32); ("child_reaper", PtrTo "struct task_struct___2");
     ("pid_cachep", PtrTo "struct kmem_cache"); ("level", U32);
     ("parent", PtrTo "struct pid_namespace___2"); ("proc_mnt", PtrTo "struct vfsmount___2");
     ("proc_self", PtrTo "struct dentry___2");
     ("proc_thread_self", PtrTo "struct dentry___2"); ("bacct", PtrTo "struct fs_pin");
     ("user_ns", PtrTo "struct user_namespace___2"); ("ucounts", PtrTo "struct ucounts___2");
     ("proc_work", struct_work_struct); ("pid_gid", typedef_kgid_t); ("hide_pid", U32);
     ("reboot", U32); ("ns", struct_ns_common___2)].

Definition struct_netns_ipv4___2 : cty :=
  Struct
    [("forw_hdr", PtrTo "struct ctl_table_header");
     ("frags_hdr", PtrTo "struct ctl_table_header");
     ("ipv4_hdr", PtrTo "struct ctl_table_header");
     ("route_hdr", PtrTo "struct ctl_table_header");
     ("xfrm4_hdr", PtrTo "struct ctl_table_header");
     ("devconf_all", PtrTo "struct ipv4_devconf");
     ("devconf_dflt", PtrTo "struct ipv4_devconf"); ("ra_chain", PtrTo "struct ip_ra_chain");
     ("ra_mutex", struct_mutex); ("rules_ops", PtrTo "struct fib_rules_ops");
     ("fib_has_custom_rules", typedef_bool); ("fib_rules_require_fldissect", U32);
     ("fib_main", PtrTo "struct fib_table"); ("fib_default", PtrTo "struct fib_table");
     ("fib_has_custom_local_routes", typedef_bool); ("fib_num_tclassid_users", U32);
     ("fib_table_hash", PtrTo "struct hlist_head"); ("fib_offload_disabled", typedef_bool);
     ("fibnl", PtrTo "struct sock"); ("icmp_sk", Pointer 2 "struct sock");
     ("mc_autojoin_sk", PtrTo "struct sock"); ("peers", PtrTo "struct inet_peer_base");
     ("tcp_sk", Pointer 2 "struct sock"); ("fqdir", PtrTo "struct fqdir___2");
     ("iptable_filter", PtrTo "struct xt_table"); ("iptable_mangle", PtrTo "struct xt_table");
     ("iptable_raw", PtrTo "struct xt_table"); ("arptable_filter", PtrTo "struct xt_table");
     ("iptable_security", PtrTo "struct xt_table"); ("nat_table", PtrTo "struct xt_table");
     ("sysctl_icmp_echo_ignore_all", U32); ("sysctl_icmp_echo_ignore_broadcasts", U32);
     ("sysctl_icmp_ignore_bogus_error_responses", U32); ("sysctl_icmp_ratelimit", U32);
     ("sysctl_icmp_ratemask", U32); ("sysctl_icmp_errors_use_inbound_ifaddr", U32);
     ("ip_local_ports", struct_local_ports); ("sysctl_tcp_ecn", U32);
     ("sysctl_tcp_ecn_fallback", U32); ("sysctl_ip_default_ttl", U32);
     ("sysctl_ip_no_pmtu_disc", U32); ("sysctl_ip_fwd_use_pmtu", U32);
     ("sysctl_ip_fwd_update_priority", U32); ("sysctl_ip_nonlocal_bind", U32);
     ("sysctl_ip_dynaddr", U32); ("sysctl_ip_early_demux", U32);
     ("sysctl_raw_l3mdev_accept", U32); ("sysctl_tcp_early_demux", U32);
     ("sysctl_udp_early_demux", U32); ("sysctl_fwmark_reflect", U32);
     ("sysctl_tcp_fwmark_accept", U32); ("sysctl_tcp_l3mdev_accept", U32);
     ("sysctl_tcp_mtu_probing", U32); ("sysctl_tcp_mtu_probe_floor", U32);
     ("sysctl_tcp_base_mss", U32); ("sysctl_tcp_min_snd_mss", U32);
     ("sysctl_tcp_probe_threshold", U32); ("sysctl_tcp_probe_interval", typedef_u32);
     ("sysctl_tcp_keepalive_time", U32); ("sysctl_tcp_keepalive_probes", U32);
     ("sysctl_tcp_keepalive_intvl", U32); ("sysctl_tcp_syn_retries", U32);
     ("sysctl_tcp_synack_retries", U32); ("sysctl_tcp_syncookies", U32);
     ("sysctl_tcp_reordering", U32); ("sysctl_tcp_retries1", U32);
     ("sysctl_tcp_retries2", U32); ("sysctl_tcp_orphan_retries", U32);
     ("sysctl_tcp_fin_timeout", U32); ("sysctl_tcp_notsent_lowat", U32);
     ("sysctl_tcp_tw_reuse", U32); ("sysctl_tcp_sack", U32);
     ("sysctl_tcp_window_scaling", U32); ("sysctl_tcp_timestamps", U32);
     ("sysctl_tcp_early_retrans", U32); ("sysctl_tcp_recovery", U32);
     ("sysctl_tcp_thin_linear_timeouts", U32); ("sysctl_tcp_slow_start_after_idle", U32);
     ("sysctl_tcp_retrans_collapse", U32); ("sysctl_tcp_stdurg", U32);
     ("sysctl_tcp_rfc1337", U32); ("sysctl_tcp_abort_on_overflow", U32);
     ("sysctl_tcp_fack", U32); ("sysctl_tcp_max_reordering", U32); ("sysctl_tcp_dsack", U32);
     ("sysctl_tcp_app_win", U32); ("sysctl_tcp_adv_win_scale", U32); ("sysctl_tcp_frto", U32);
     ("sysctl_tcp_nometrics_save", U32); ("sysctl_tcp_moderate_rcvbuf", U32);
     ("sysctl_tcp_tso_win_divisor", U32); ("sysctl_tcp_workaround_signed_windows", U32);
     ("sysctl_tcp_limit_output_bytes", U32); ("sysctl_tcp_challenge_ack_limit", U32);
     ("sysctl_tcp_min_tso_segs", U32); ("sysctl_tcp_min_rtt_wlen", U32);
     ("sysctl_tcp_autocorking", U32); ("sysctl_tcp_invalid_ratelimit", U32);
     ("sysctl_tcp_pacing_ss_ratio", U32); ("sysctl_tcp_pacing_ca_ratio", U32);
     ("sysctl_tcp_wmem", Array 3 U32); ("sysctl_tcp_rmem", Array 3 U32);
     ("sysctl_tcp_comp_sack_nr", U32); ("sysctl_tcp_init_cwnd", U32);
     ("sysctl_tcp_loss_init_cwnd", U32); ("sysctl_tcp_handshake_ts", U32);
     ("sysctl_tcp_tw_timeout", U32); ("sysctl_tcp_comp_sack_delay_ns", U64); ("", Pad 8 64);
     ("", Pad 8 64); ("", Pad 8 64); ("", Pad 8 64); ("", Pad 8 64);
     ("tcp_death_row", struct_inet_timewait_death_row); ("sysctl_max_syn_backlog", U32);
     ("sysctl_tcp_fastopen", U32);
     ("tcp_congestion_control", PtrTo "struct tcp_congestion_ops");
     ("tcp_fastopen_ctx", PtrTo "struct tcp_fastopen_context");
     ("tcp_fastopen_ctx_lock", typedef_spinlock_t);
     ("sysctl_tcp_fastopen_blackhole_timeout", U32);
     ("tfo_active_disable_times", typedef_atomic_t); ("tfo_active_disable_stamp", U64);
     ("sysctl_udp_wmem_min", U32); ("sysctl_udp_rmem_min", U32);
     ("sysctl_udp_l3mdev_accept", U32); ("sysctl_igmp_max_memberships", U32);
     ("sysctl_igmp_max_msf", U32); ("sysctl_igmp_llm_reports", U32); ("sysctl_igmp_qrv", U32);
     ("ping_group_range", struct_ping_group_range); ("dev_addr_genid", typedef_atomic_t);
     ("sysctl_local_reserved_ports", Ptr); ("sysctl_ip_prot_sock", U32);
     ("mr_tables", struct_list_head); ("mr_rules_ops", PtrTo "struct fib_rules_ops");
     ("sysctl_fib_multipath_use_neigh", U32); ("sysctl_fib_multipath_hash_policy", U32);
     ("notifier_ops", PtrTo "struct fib_notifier_ops"); ("fib_seq", U32);
     ("ipmr_notifier_ops", PtrTo "struct fib_notifier_ops"); ("ipmr_seq", U32);
     ("rt_genid", typedef_atomic_t); ("ip_id_key", typedef_siphash_key_t)].

Definition struct_dst_ops___2 : cty :=
  Struct
    [("family", U16); ("gc_thresh", U32); ("gc", Ptr); ("check", Ptr);
     ("default_advmss", Ptr); ("mtu", Ptr); ("cow_metrics", Ptr); ("destroy", Ptr);
     ("ifdown", Ptr); ("negative_advice", Ptr); ("link_failure", Ptr); ("update_pmtu", Ptr);
     ("redirect", Ptr); ("local_out", Ptr); ("neigh_lookup", Ptr); ("confirm_neigh", Ptr);
     ("kmem_cachep", PtrTo "struct kmem_cache"); ("pcpuc_entries", struct_percpu_counter);
     ("", Pad 8 64); ("", Pad 8 64); ("", Pad 8 64)].

Definition struct_netns_ipv6___2 : cty :=
  Struct
    [("sysctl", struct_netns_sysctl_ipv6); ("devconf_all", PtrTo "struct ipv6_devconf");
     ("devconf_dflt", PtrTo "struct ipv6_devconf"); ("peers", PtrTo "struct inet_peer_base");
     ("fqdir", PtrTo "struct fqdir___2"); ("ip6table_filter", PtrTo "struct xt_table");
     ("ip6table_mangle", PtrTo "struct xt_table"); ("ip6table_raw", PtrTo "struct xt_table");
     ("ip6table_security", PtrTo "struct xt_table");
     ("ip6table_nat", PtrTo "struct xt_table"); ("fib6_null_entry", PtrTo "struct fib6_info");
     ("ip6_null_entry", PtrTo "struct rt6_info");
     ("rt6_stats", PtrTo "struct rt6_statistics"); ("ip6_fib_timer", struct_timer_list);
     ("fib_table_hash", PtrTo "struct hlist_head");
     ("fib6_main_tbl", PtrTo "struct fib6_table"); ("fib6_walkers", struct_list_head);
     ("", Pad 8 64); ("", Pad 8 64); ("ip6_dst_ops", struct_dst_ops___2);
     ("fib6_walker_lock", typedef_rwlock_t); ("fib6_gc_lock", typedef_spinlock_t);
     ("ip6_rt_gc_expire", U32); ("ip6_rt_last_gc", U64);
     ("fib6_rules_require_fldissect", U32); ("fib6_has_custom_rules", typedef_bool);
     ("ip6_prohibit_entry", PtrTo "struct rt6_info");
     ("ip6_blk_hole_entry", PtrTo "struct rt6_info");
     ("fib6_local_tbl", PtrTo "struct fib6_table");
     ("fib6_rules_ops", PtrTo "struct fib_rules_ops"); ("icmp_sk", Pointer 2 "struct sock");
     ("ndisc_sk", PtrTo "struct sock"); ("tcp_sk", PtrTo "struct sock");
     ("igmp_sk", PtrTo "struct sock"); ("mc_autojoin_sk", PtrTo "struct sock");
     ("mr6_tables", struct_list_head); ("mr6_rules_ops", PtrTo "struct fib_rules_ops");
     ("dev_addr_genid", typedef_atomic_t); ("fib6_sernum", typedef_atomic_t);
     ("seg6_data", PtrTo "struct seg6_pernet_data");
     ("notifier_ops", PtrTo "struct fib_notifier_ops");
     ("ip6mr_notifier_ops", PtrTo "struct fib_notifier_ops"); ("ipmr_seq", U32);
     ("ip6addrlbl_table", Struct [("head", struct_hlist_head); ("lock", typedef_spinlock_t);
     ("seq", typedef_u32)]); ("", Pad 8 64)].

Definition struct_netns_ieee802154_lowpan___2 : cty :=
  Struct
    [("sysctl", struct_netns_sysctl_lowpan); ("fqdir", PtrTo "struct fqdir___2")].

Definition struct_netns_nf_frag___2 : cty :=
  Struct
    [("fqdir", PtrTo "struct fqdir___2")].

Definition struct_sk_buff_head___2 : cty :=
  Struct
    [("next", PtrTo "struct sk_buff___2"); ("prev", PtrTo "struct sk_buff___2");
     ("qlen", typedef___u32); ("lock", typedef_spinlock_t)].

Definition struct_netns_xfrm___2 : cty :=
  Struct
    [("state_all", struct_list_head); ("state_bydst", PtrTo "struct hlist_head");
     ("state_bysrc", PtrTo "struct hlist_head"); ("state_byspi", PtrTo "struct hlist_head");
     ("state_hmask", U32); ("state_num", U32); ("state_hash_work", struct_work_struct);
     ("policy_all", struct_list_head); ("policy_byidx", PtrTo "struct hlist_head");
     ("policy_idx_hmask", U32); ("policy_inexact", Array 3 struct_hlist_head);
     ("policy_bydst", Array 3 struct_xfrm_policy_hash); ("policy_count", Array 6 U32);
     ("policy_hash_work", struct_work_struct); ("policy_hthresh", struct_xfrm_policy_hthresh);
     ("inexact_bins", struct_list_head); ("nlsk", PtrTo "struct sock");
     ("nlsk_stash", PtrTo "struct sock"); ("sysctl_aevent_etime", typedef_u32);
     ("sysctl_aevent_rseqth", typedef_u32); ("sysctl_larval_drop", U32);
     ("sysctl_acq_expires", typedef_u32); ("sysctl_hdr", PtrTo "struct ctl_table_header");
     ("", Pad 8 64); ("", Pad 8 64); ("", Pad 8 64); ("", Pad 8 64); ("", Pad 8 64);
     ("xfrm4_dst_ops", struct_dst_ops___2); ("xfrm6_dst_ops", struct_dst_ops___2);
     ("xfrm_state_lock", typedef_spinlock_t);
     ("xfrm_state_hash_generation", typedef_seqcount_t);
     ("xfrm_policy_lock", typedef_spinlock_t); ("xfrm_cfg_mutex", struct_mutex);
     ("", Pad 8 64); ("", Pad 8 64)].

Definition struct_net___2 : cty :=
  Struct
    [("passive", typedef_refcount_t); ("count", typedef_refcount_t);
     ("rules_mod_lock", typedef_spinlock_t); ("dev_unreg_count", U32); ("dev_base_seq", U32);
     ("ifindex", U32); ("nsid_lock", typedef_spinlock_t); ("fnhe_genid", typedef_atomic_t);
     ("list", struct_list_head); ("exit_list", struct_list_head);
     ("cleanup_list", struct_llist_node); ("key_domain", PtrTo "struct key_tag");
     ("user_ns", PtrTo "struct user_namespace___2"); ("ucounts", PtrTo "struct ucounts___2");
     ("netns_ids", struct_idr); ("ns", struct_ns_common___2);
     ("dev_base_head", struct_list_head); ("proc_net", PtrTo "struct proc_dir_entry");
     ("proc_net_stat", PtrTo "struct proc_dir_entry"); ("sysctls", struct_ctl_table_set);
     ("rtnl", PtrTo "struct sock"); ("genl_sock", PtrTo "struct sock");
     ("uevent_sock", PtrTo "struct uevent_sock");
     ("dev_name_head", PtrTo "struct hlist_head");
     ("dev_index_head", PtrTo "struct hlist_head"); ("hash_mix", typedef_u32);
     ("loopback_dev", PtrTo "struct net_device___2"); ("rules_ops", struct_list_head);
     ("core", struct_netns_core); ("mib", struct_netns_mib); ("packet", struct_netns_packet);
     ("unx", struct_netns_unix); ("nexthop", struct_netns_nexthop); ("", Pad 8 64);
     ("ipv4", struct_netns_ipv4___2); ("ipv6", struct_netns_ipv6___2);
     ("ieee802154_lowpan", struct_netns_ieee802154_lowpan___2); ("sctp", struct_netns_sctp);
     ("dccp", struct_netns_dccp); ("nf", struct_netns_nf); ("xt", struct_netns_xt);
     ("ct", struct_netns_ct); ("nft", struct_netns_nftables);
     ("nf_frag", struct_netns_nf_frag___2);
     ("nf_frag_frags_hdr", PtrTo "struct ctl_table_header"); ("nfnl", PtrTo "struct sock");
     ("nfnl_stash", PtrTo "struct sock"); ("nfnl_acct_list", struct_list_head);
     ("nfct_timeout_list", struct_list_head); ("wext_nlevents", struct_sk_buff_head___2);
     ("gen", PtrTo "struct net_generic");
     ("flow_dissector_prog", PtrTo "struct bpf_prog___2"); ("", Pad 8 64); ("", Pad 8 64);
     ("", Pad 8 64); ("", Pad 8 64); ("", Pad 8 64); ("xfrm", struct_netns_xfrm___2);
     ("ipvs", PtrTo "struct netns_ipvs"); ("mpls", struct_netns_mpls);
     ("can", struct_netns_can); ("xdp", struct_netns_xdp);
     ("crypto_nlsk", PtrTo "struct sock"); ("diag_nlsk", PtrTo "struct sock"); ("", Pad 8 64);
     ("", Pad 8 64); ("", Pad 8 64); ("", Pad 8 64); ("", Pad 8 64); ("", Pad 8 64);
     ("", Pad 8 64)].

Definition struct_cgroup_namespace___2 : cty :=
  Struct
    [("count", typedef_refcount_t); ("ns", struct_ns_common___2);
     ("user_ns", PtrTo "struct user_namespace___2"); ("ucounts", PtrTo "struct ucounts___2");
     ("root_cset", PtrTo "struct css_set___2")].

Definition struct_cgroup_subsys_state___2 : cty :=
  Struct
    [("cgroup", PtrTo "struct cgroup___2"); ("ss", PtrTo "struct cgroup_subsys___2");
     ("refcnt", struct_percpu_ref); ("sibling", struct_list_head);
     ("children", struct_list_head); ("rstat_css_node", struct_list_head); ("id", U32);
     ("flags", U32); ("serial_nr", typedef_u64); ("online_cnt", typedef_atomic_t);
     ("destroy_work", struct_work_struct); ("destroy_rwork", struct_rcu_work);
     ("parent", PtrTo "struct cgroup_subsys_state___2")].

Definition struct_cgroup_file___2 : cty :=
  Struct
    [("kn", PtrTo "struct kernfs_node___2"); ("notified_at", U64);
     ("notify_timer", struct_timer_list)].

Definition struct_psi_group___2 : cty :=
  Struct
    [("avgs_lock", struct_mutex); ("pcpu", PtrTo "struct psi_group_cpu");
     ("avg_total", Array 6 typedef_u64); ("avg_last_update", typedef_u64);
     ("avg_next_update", typedef_u64); ("avgs_work", struct_delayed_work);
     ("total", Array 12 typedef_u64); ("avg", Array 18 U64);
     ("poll_task", PtrTo "struct task_struct___2"); ("poll_timer", struct_timer_list);
     ("poll_wait", typedef_wait_queue_head_t); ("poll_wakeup", typedef_atomic_t);
     ("trigger_lock", struct_mutex); ("triggers", struct_list_head);
     ("nr_triggers", Array 6 typedef_u32); ("poll_states", typedef_u32);
     ("poll_min_period", typedef_u64); ("polling_total", Array 6 typedef_u64);
     ("polling_next_update", typedef_u64); ("polling_until", typedef_u64)].

Definition struct_cgroup_bpf___2 : cty :=
  Struct
    [("effective", Array 35 (PtrTo "struct bpf_prog_array___2"));
     ("progs", Array 35 struct_list_head); ("flags", Array 35 typedef_u32);
     ("inactive", PtrTo "struct bpf_prog_array___2"); ("refcnt", struct_percpu_ref);
     ("release_work", struct_work_struct)].

Definition struct_cgroup___2 : cty :=
  Struct
    [("self", struct_cgroup_subsys_state___2); ("flags", U64); ("id", U32); ("level", U32);
     ("max_depth", U32); ("nr_descendants", U32); ("nr_dying_descendants", U32);
     ("max_descendants", U32); ("nr_populated_csets", U32);
     ("nr_populated_domain_children", U32); ("nr_populated_threaded_children", U32);
     ("nr_threaded_children", U32); ("kn", PtrTo "struct kernfs_node___2");
     ("procs_file", struct_cgroup_file___2); ("events_file", struct_cgroup_file___2);
     ("subtree_control", typedef_u16); ("subtree_ss_mask", typedef_u16);
     ("old_subtree_control", typedef_u16); ("old_subtree_ss_mask", typedef_u16);
     ("subsys", Array 12 (PtrTo "struct cgroup_subsys_state___2"));
     ("root", PtrTo "struct cgroup_root___2"); ("cset_links", struct_list_head);
     ("e_csets", Array 12 struct_list_head); ("dom_cgrp", PtrTo "struct cgroup___2");
     ("old_dom_cgrp", PtrTo "struct cgroup___2");
     ("rstat_cpu", PtrTo "struct cgroup_rstat_cpu___2"); ("rstat_css_list", struct_list_head);
     ("last_bstat", struct_cgroup_base_stat); ("bstat", struct_cgroup_base_stat);
     ("prev_cputime", struct_prev_cputime); ("pidlists", struct_list_head);
     ("pidlist_mutex", struct_mutex); ("offline_waitq", typedef_wait_queue_head_t);
     ("release_agent_work", struct_work_struct); ("psi", struct_psi_group___2);
     ("bpf", struct_cgroup_bpf___2); ("congestion_count", typedef_atomic_t);
     ("freezer", struct_cgroup_freezer_state); ("ancestor_ids", Array 0 U32)].

Definition struct_pmu___2 : cty :=
  Struct
    [("entry", struct_list_head); ("module", PtrTo "struct module___2");
     ("dev", PtrTo "struct device___2");
     ("attr_groups", Pointer 2 "struct attribute_group___2");
     ("attr_update", Pointer 2 "struct attribute_group___2"); ("name", Ptr); ("type", U32);
     ("capabilities", U32); ("pmu_disable_count", Ptr);
     ("pmu_cpu_context", PtrTo "struct perf_cpu_context___2");
     ("exclusive_cnt", typedef_atomic_t); ("task_ctx_nr", U32); ("hrtimer_interval_ms", U32);
     ("nr_addr_filters", U32); ("pmu_enable", Ptr); ("pmu_disable", Ptr); ("event_init", Ptr);
     ("event_mapped", Ptr); ("event_unmapped", Ptr); ("add", Ptr); ("del", Ptr);
     ("start", Ptr); ("stop", Ptr); ("read", Ptr); ("start_txn", Ptr); ("commit_txn", Ptr);
     ("cancel_txn", Ptr); ("event_idx", Ptr); ("sched_task", Ptr);
     ("task_ctx_size", typedef_size_t); ("setup_aux", Ptr); ("free_aux", Ptr);
     ("addr_filters_validate", Ptr); ("addr_filters_sync", Ptr); ("aux_output_match", Ptr);
     ("filter_match", Ptr); ("check_period", Ptr)].

Definition struct_ring_buffer___2 : cty :=
  Struct
    [("refcount", typedef_refcount_t); ("callback_head", struct_callback_head);
     ("nr_pages", U32); ("overwrite", U32); ("paused", U32); ("poll", typedef_atomic_t);
     ("head", typedef_local_t); ("nest", U32); ("events", typedef_local_t);
     ("wakeup", typedef_local_t); ("lost", typedef_local_t); ("watermark", U64);
     ("aux_watermark", U64); ("event_lock", typedef_spinlock_t);
     ("event_list", struct_list_head); ("mmap_count", typedef_atomic_t); ("mmap_locked", U64);
     ("mmap_user", PtrTo "struct user_struct"); ("aux_head", U64); ("aux_nest", U32);
     ("aux_wakeup", U64); ("aux_pgoff", U64); ("aux_nr_pages", U32); ("aux_overwrite", U32);
     ("aux_mmap_count", typedef_atomic_t); ("aux_mmap_locked", U64); ("free_aux", Ptr);
     ("aux_refcount", typedef_refcount_t); ("aux_pages", Ptr); ("aux_priv", Ptr);
     ("user_page", PtrTo "struct perf_event_mmap_page"); ("data_pages", Array 0 Ptr)].

Definition struct_bpf_prog___2 : cty :=
  Struct
    [("pages", typedef_u16); ("jited", Bits 2 1); ("jit_requested", Bits 2 1);
     ("gpl_compatible", Bits 2 1); ("cb_access", Bits 2 1); ("dst_needed", Bits 2 1);
     ("blinded", Bits 2 1); ("is_func", Bits 2 1); ("kprobe_override", Bits 2 1);
     ("has_callchain_buf", Bits 2 1); ("enforce_expected_attach_type", Bits 2 1);
     ("type", Enum); ("expected_attach_type", Enum); ("len", typedef_u32);
     ("jited_len", typedef_u32); ("tag", Array 8 typedef_u8);
     ("aux", PtrTo "struct bpf_prog_aux___2"); ("orig_prog", PtrTo "struct sock_fprog_kern");
     ("bpf_func", Ptr); ("", Union [("insns", Array 0 struct_sock_filter);
     ("insnsi", Array 0 struct_bpf_insn)])].

Definition struct_perf_cgroup___2 : cty :=
  Struct
    [("css", struct_cgroup_subsys_state___2); ("info", PtrTo "struct perf_cgroup_info")].

Definition struct_kset_uevent_ops___2 : cty :=
  Struct
    [("filter", Ptr); ("name", Ptr); ("uevent", Ptr)].

Definition struct_sysfs_ops___2 : cty :=
  Struct
    [("show", Ptr); ("store", Ptr)].

Definition struct_attribute_group___2 : cty :=
  Struct
    [("name", Ptr); ("is_visible", Ptr); ("is_bin_visible", Ptr);
     ("attrs", Pointer 2 "struct attribute");
     ("bin_attrs", Pointer 2 "struct bin_attribute___2")].

Definition struct_kernfs_root___2 : cty :=
  Struct
    [("kn", PtrTo "struct kernfs_node___2"); ("flags", U32); ("ino_idr", struct_idr);
     ("last_ino", typedef_u32); ("next_generation", typedef_u32);
     ("syscall_ops", PtrTo "struct kernfs_syscall_ops___2"); ("supers", struct_list_head);
     ("deactivate_waitq", typedef_wait_queue_head_t)].

Definition struct_kernfs_ops___2 : cty :=
  Struct
    [("open", Ptr); ("release", Ptr); ("seq_show", Ptr); ("seq_start", Ptr);
     ("seq_next", Ptr); ("seq_stop", Ptr); ("read", Ptr);
     ("atomic_write_len", typedef_size_t); ("prealloc", typedef_bool); ("write", Ptr);
     ("poll", Ptr); ("mmap", Ptr)].

Definition struct_kernel_param_ops___2 : cty :=
  Struct
    [("flags", U32); ("set", Ptr); ("get", Ptr); ("free", Ptr)].

Definition struct_kparam_array___2 : cty :=
  Struct
    [("max", U32); ("elemsize", U32); ("num", Ptr);
     ("ops", PtrTo "struct kernel_param_ops___2"); ("elem", Ptr)].

Definition struct_trace_event_class___2 : cty :=
  Struct
    [("system", Ptr); ("probe", Ptr); ("perf_probe", Ptr); ("reg", Ptr);
     ("define_fields", Ptr); ("get_fields", Ptr); ("fields", struct_list_head);
     ("raw_init", Ptr)].

Definition struct_bpf_prog_array_item___2 : cty :=
  Struct
    [("prog", PtrTo "struct bpf_prog___2");
     ("cgroup_storage", Array 2 (PtrTo "struct bpf_cgroup_storage"))].

Definition struct_bpf_prog_array___2 : cty :=
  Struct
    [("rcu", struct_callback_head); ("items", Array 0 struct_bpf_prog_array_item___2)].

Definition struct_dev_pagemap_ops___2 : cty :=
  Struct
    [("page_free", Ptr); ("kill", Ptr); ("cleanup", Ptr); ("migrate_to_ram", Ptr)].

Definition struct_fsnotify_ops : cty :=
  Struct
    [("handle_event", Ptr); ("free_group_priv", Ptr); ("freeing_mark", Ptr);
     ("free_event", Ptr); ("free_mark", Ptr)].

Definition struct_fsnotify_event : cty :=
  Struct
    [("list", struct_list_head); ("objectid", U64)].

Definition struct_bpf_prog_offload_ops : cty :=
  Struct
    [("insn_hook", Ptr); ("finalize", Ptr); ("replace_insn", Ptr); ("remove_insns", Ptr);
     ("prepare", Ptr); ("translate", Ptr); ("destroy", Ptr)].

Definition struct_neigh_statistics : cty :=
  Struct
    [("allocs", U64); ("destroys", U64); ("hash_grows", U64); ("res_failed", U64);
     ("lookups", U64); ("hits", U64); ("rcv_probes_mcast", U64); ("rcv_probes_ucast", U64);
     ("periodic_gc_runs", U64); ("forced_gc_runs", U64); ("unres_discards", U64);
     ("table_fulls", U64)].

Definition struct_neigh_hash_table : cty :=
  Struct
    [("hash_buckets", Pointer 2 "struct neighbour"); ("hash_shift", U32);
     ("hash_rnd", Array 4 typedef___u32); ("rcu", struct_callback_head)].

Definition struct_pneigh_entry : cty :=
  Struct
    [("next", PtrTo "struct pneigh_entry"); ("net", typedef_possible_net_t);
     ("dev", PtrTo "struct net_device"); ("flags", typedef_u8); ("protocol", typedef_u8);
     ("key", Array 0 typedef_u8)].

Definition struct_ieee80211_iface_limit : cty :=
  Struct
    [("max", typedef_u16); ("types", typedef_u16)].

Definition struct_wiphy_wowlan_tcp_support : cty :=
  Struct
    [("tok", PtrTo "struct nl80211_wowlan_tcp_data_token_feature");
     ("data_payload_max", typedef_u32); ("data_interval_max", typedef_u32);
     ("wake_payload_max", typedef_u32); ("seq", typedef_bool)].

Definition struct_cfg80211_pkt_pattern : cty :=
  Struct
    [("mask", Ptr); ("pattern", Ptr); ("pattern_len", U32); ("pkt_offset", U32)].

Definition struct_nl80211_wowlan_tcp_data_seq : cty :=
  Struct
    [("start", typedef___u32); ("offset", typedef___u32); ("len", typedef___u32)].

Definition struct_nl80211_wowlan_tcp_data_token : cty :=
  Struct
    [("offset", typedef___u32); ("len", typedef___u32);
     ("token_stream", Array 0 typedef___u8)].

Definition struct_cfg80211_wowlan_tcp : cty :=
  Struct
    [("sock", PtrTo "struct socket"); ("src", typedef___be32); ("dst", typedef___be32);
     ("src_port", typedef_u16); ("dst_port", typedef_u16); ("dst_mac", Array 6 typedef_u8);
     ("payload_len", U32); ("payload", Ptr);
     ("payload_seq", struct_nl80211_wowlan_tcp_data_seq); ("data_interval", typedef_u32);
     ("wake_len", typedef_u32); ("wake_data", Ptr); ("wake_mask", Ptr);
     ("tokens_size", typedef_u32); ("payload_tok", struct_nl80211_wowlan_tcp_data_token)].

Definition struct_cfg80211_sched_scan_request : cty :=
  Struct
    [("reqid", typedef_u64); ("ssids", PtrTo "struct cfg80211_ssid"); ("n_ssids", U32);
     ("n_channels", typedef_u32); ("scan_width", Enum); ("ie", Ptr);
     ("ie_len", typedef_size_t); ("flags", typedef_u32);
     ("match_sets", PtrTo "struct cfg80211_match_set"); ("n_match_sets", U32);
     ("min_rssi_thold", typedef_s32); ("delay", typedef_u32);
     ("scan_plans", PtrTo "struct cfg80211_sched_scan_plan"); ("n_scan_plans", U32);
     ("mac_addr", Array 6 typedef_u8); ("mac_addr_mask", Array 6 typedef_u8);
     ("relative_rssi_set", typedef_bool); ("relative_rssi", typedef_s8);
     ("rssi_adjust", struct_cfg80211_bss_select_adjust); ("wiphy", PtrTo "struct wiphy");
     ("dev", PtrTo "struct net_device"); ("scan_start", U64);
     ("report_results", typedef_bool); ("callback_head", struct_callback_head);
     ("owner_nlportid", typedef_u32); ("nl_owner_dead", typedef_bool);
     ("list", struct_list_head); ("channels", Array 0 (PtrTo "struct ieee80211_channel"))].

Definition struct_ieee80211_rate : cty :=
  Struct
    [("flags", typedef_u32); ("bitrate", typedef_u16); ("hw_value", typedef_u16);
     ("hw_value_short", typedef_u16)].

Definition struct_ieee80211_he_cap_elem : cty :=
  Struct
    [("mac_cap_info", Array 6 typedef_u8); ("phy_cap_info", Array 11 typedef_u8)].

Definition struct_ieee80211_he_mcs_nss_supp : cty :=
  Struct
    [("rx_mcs_80", typedef___le16); ("tx_mcs_80", typedef___le16);
     ("rx_mcs_160", typedef___le16); ("tx_mcs_160", typedef___le16);
     ("rx_mcs_80p80", typedef___le16); ("tx_mcs_80p80", typedef___le16)].

Definition struct_ieee80211_sta_he_cap : cty :=
  Packed
    [("has_he", typedef_bool); ("he_cap_elem", struct_ieee80211_he_cap_elem);
     ("he_mcs_nss_supp", struct_ieee80211_he_mcs_nss_supp);
     ("ppe_thres", Array 25 typedef_u8)].

Definition struct_ieee80211_sband_iftype_data : cty :=
  Struct
    [("types_mask", typedef_u16); ("he_cap", struct_ieee80211_sta_he_cap)].

Definition struct_xdp_ring : cty :=
  Struct
    [("producer", typedef_u32); ("", Pad 8 64); ("", Pad 8 64); ("", Pad 8 64);
     ("", Pad 8 64); ("", Pad 8 64); ("", Pad 8 64); ("", Pad 8 64);
     ("consumer", typedef_u32); ("flags", typedef_u32); ("", Pad 8 64); ("", Pad 8 64);
     ("", Pad 8 64); ("", Pad 8 64); ("", Pad 8 64); ("", Pad 8 64); ("", Pad 8 64)].

Definition struct_flow_block : cty :=
  Struct
    [("cb_list", struct_list_head)].

Definition struct_tcf_block : cty :=
  Struct
    [("lock", struct_mutex); ("chain_list", struct_list_head); ("index", typedef_u32);
     ("classid", typedef_u32); ("refcnt", typedef_refcount_t); ("net", PtrTo "struct net");
     ("q", PtrTo "struct Qdisc"); ("cb_lock", struct_rw_semaphore);
     ("flow_block", struct_flow_block); ("owner_list", struct_list_head);
     ("keep_dst", typedef_bool); ("offloadcnt", typedef_atomic_t); ("nooffloaddevcnt", U32);
     ("lockeddevcnt", U32); ("chain0", Struct [("chain", PtrTo "struct tcf_chain");
     ("filter_chain_list", struct_list_head)]); ("rcu", struct_callback_head);
     ("proto_destroy_ht", Array 128 struct_hlist_head); ("proto_destroy_lock", struct_mutex)].

Definition struct_gpio_irq_chip : cty :=
  Struct
    [("chip", PtrTo "struct irq_chip"); ("domain", PtrTo "struct irq_domain");
     ("domain_ops", PtrTo "struct irq_domain_ops"); ("fwnode", PtrTo "struct fwnode_handle");
     ("parent_domain", PtrTo "struct irq_domain"); ("child_to_parent_hwirq", Ptr);
     ("populate_parent_fwspec", Ptr); ("child_offset_to_irq", Ptr);
     ("child_irq_domain_ops", struct_irq_domain_ops); ("handler", typedef_irq_flow_handler_t);
     ("default_type", U32); ("lock_key", PtrTo "struct lock_class_key");
     ("request_key", PtrTo "struct lock_class_key");
     ("parent_handler", typedef_irq_flow_handler_t); ("parent_handler_data", Ptr);
     ("num_parents", U32); ("parents", Ptr); ("map", Ptr); ("threaded", typedef_bool);
     ("init_hw", Ptr); ("init_valid_mask", Ptr); ("valid_mask", Ptr); ("first", U32);
     ("irq_enable", Ptr); ("irq_disable", Ptr)].

Definition struct_gpio_chip : cty :=
  Struct
    [("label", Ptr); ("gpiodev", PtrTo "struct gpio_device");
     ("parent", PtrTo "struct device"); ("owner", PtrTo "struct module"); ("request", Ptr);
     ("free", Ptr); ("get_direction", Ptr); ("direction_input", Ptr);
     ("direction_output", Ptr); ("get", Ptr); ("get_multiple", Ptr); ("set", Ptr);
     ("set_multiple", Ptr); ("set_config", Ptr); ("to_irq", Ptr); ("dbg_show", Ptr);
     ("init_valid_mask", Ptr); ("base", U32); ("ngpio", typedef_u16); ("names", Ptr);
     ("can_sleep", typedef_bool); ("read_reg", Ptr); ("write_reg", Ptr);
     ("be_bits", typedef_bool); ("reg_dat", Ptr); ("reg_set", Ptr); ("reg_clr", Ptr);
     ("reg_dir_out", Ptr); ("reg_dir_in", Ptr); ("bgpio_dir_unreadable", typedef_bool);
     ("bgpio_bits", U32); ("bgpio_lock", typedef_spinlock_t); ("bgpio_data", U64);
     ("bgpio_dir", U64); ("irq", struct_gpio_irq_chip); ("valid_mask", Ptr)].

Definition typedef_possible_net_t___2 : cty :=
  Struct
    [("net", PtrTo "struct net___2")].

Definition struct_dev_pm_info___2 : cty :=
  Struct
    [("power_state", typedef_pm_message_t); ("can_wakeup", Bits 4 1);
     ("async_suspend", Bits 4 1); ("in_dpm_list", Bits 1 1); ("is_prepared", Bits 1 1);
     ("is_suspended", Bits 1 1); ("is_noirq_suspended", Bits 1 1);
     ("is_late_suspended", Bits 1 1); ("no_pm", Bits 1 1); ("early_init", Bits 1 1);
     ("direct_complete", Bits 1 1); ("driver_flags", typedef_u32);
     ("lock", typedef_spinlock_t); ("entry", struct_list_head);
     ("completion", struct_completion); ("wakeup", PtrTo "struct wakeup_source___2");
     ("wakeup_path", Bits 1 1); ("syscore", Bits 1 1); ("no_pm_callbacks", Bits 1 1);
     ("must_resume", Bits 4 1); ("may_skip_resume", Bits 4 1);
     ("suspend_timer", struct_hrtimer); ("timer_expires", typedef_u64);
     ("work", struct_work_struct); ("wait_queue", typedef_wait_queue_head_t);
     ("wakeirq", PtrTo "struct wake_irq"); ("usage_count", typedef_atomic_t);
     ("child_count", typedef_atomic_t); ("disable_depth", Bits 4 3);
     ("idle_notification", Bits 4 1); ("request_pending", Bits 4 1);
     ("deferred_resume", Bits 4 1); ("needs_force_resume", Bits 4 1);
     ("runtime_auto", Bits 4 1); ("ignore_children", Bits 1 1); ("no_callbacks", Bits 4 1);
     ("irq_safe", Bits 4 1); ("use_autosuspend", Bits 4 1); ("timer_autosuspends", Bits 4 1);
     ("memalloc_noio", Bits 4 1); ("links_count", U32); ("request", Enum);
     ("runtime_status", Enum); ("runtime_error", U32); ("autosuspend_delay", U32);
     ("last_busy", typedef_u64); ("active_time", typedef_u64);
     ("suspended_time", typedef_u64); ("accounting_timestamp", typedef_u64);
     ("subsys_data", PtrTo "struct pm_subsys_data"); ("set_latency_tolerance", Ptr);
     ("qos", PtrTo "struct dev_pm_qos")].

Definition struct_device___2 : cty :=
  Struct
    [("kobj", struct_kobject___2); ("parent", PtrTo "struct device___2");
     ("p", PtrTo "struct device_private"); ("init_name", Ptr);
     ("type", PtrTo "struct device_type___2"); ("bus", PtrTo "struct bus_type___2");
     ("driver", PtrTo "struct device_driver___2"); ("platform_data", Ptr);
     ("driver_data", Ptr); ("mutex", struct_mutex); ("links", struct_dev_links_info);
     ("power", struct_dev_pm_info___2); ("pm_domain", PtrTo "struct dev_pm_domain___2");
     ("msi_domain", PtrTo "struct irq_domain"); ("pins", PtrTo "struct dev_pin_info");
     ("msi_lock", typedef_raw_spinlock_t); ("msi_list", struct_list_head);
     ("dma_ops", PtrTo "struct dma_map_ops___2"); ("dma_mask", Ptr);
     ("coherent_dma_mask", typedef_u64); ("bus_dma_mask", typedef_u64);
     ("dma_pfn_offset", U64); ("dma_parms", PtrTo "struct device_dma_parameters");
     ("dma_pools", struct_list_head); ("archdata", struct_dev_archdata);
     ("of_node", PtrTo "struct device_node___2");
     ("fwnode", PtrTo "struct fwnode_handle___2"); ("numa_node", U32);
     ("devt", typedef_dev_t); ("id", typedef_u32); ("devres_lock", typedef_spinlock_t);
     ("devres_head", struct_list_head); ("class", PtrTo "struct class___2");
     ("groups", Pointer 2 "struct attribute_group___2"); ("release", Ptr);
     ("iommu_group", PtrTo "struct iommu_group");
     ("iommu_fwspec", PtrTo "struct iommu_fwspec");
     ("iommu_param", PtrTo "struct iommu_param"); ("offline_disabled", Bits 1 1);
     ("offline", Bits 1 1); ("of_node_reused", Bits 1 1)].

Definition struct_net_device___2 : cty :=
  Struct
    [("name", Array 16 U8); ("name_hlist", struct_hlist_node);
     ("ifalias", PtrTo "struct dev_ifalias"); ("mem_end", U64); ("mem_start", U64);
     ("base_addr", U64); ("irq", U32); ("state", U64); ("dev_list", struct_list_head);
     ("napi_list", struct_list_head); ("unreg_list", struct_list_head);
     ("close_list", struct_list_head); ("ptype_all", struct_list_head);
     ("ptype_specific", struct_list_head); ("adj_list", Struct [("upper", struct_list_head);
     ("lower", struct_list_head)]); ("features", typedef_netdev_features_t);
     ("hw_features", typedef_netdev_features_t);
     ("wanted_features", typedef_netdev_features_t);
     ("vlan_features", typedef_netdev_features_t);
     ("hw_enc_features", typedef_netdev_features_t);
     ("mpls_features", typedef_netdev_features_t);
     ("gso_partial_features", typedef_netdev_features_t); ("ifindex", U32); ("group", U32);
     ("stats", struct_net_device_stats); ("rx_dropped", typedef_atomic_long_t);
     ("tx_dropped", typedef_atomic_long_t); ("rx_nohandler", typedef_atomic_long_t);
     ("carrier_up_count", typedef_atomic_t); ("carrier_down_count", typedef_atomic_t);
     ("wireless_handlers", PtrTo "struct iw_handler_def");
     ("wireless_data", PtrTo "struct iw_public_data");
     ("netdev_ops", PtrTo "struct net_device_ops___2");
     ("ethtool_ops", PtrTo "struct ethtool_ops___2");
     ("l3mdev_ops", PtrTo "struct l3mdev_ops"); ("ndisc_ops", PtrTo "struct ndisc_ops");
     ("xfrmdev_ops", PtrTo "struct xfrmdev_ops___2");
     ("header_ops", PtrTo "struct header_ops___2"); ("flags", U32); ("priv_flags", U32);
     ("gflags", U16); ("padded", U16); ("operstate", U8); ("link_mode", U8); ("if_port", U8);
     ("dma", U8); ("mtu", U32); ("min_mtu", U32); ("max_mtu", U32); ("type", U16);
     ("hard_header_len", U16); ("min_header_len", U8); ("needed_headroom", U16);
     ("needed_tailroom", U16); ("perm_addr", Array 32 U8); ("addr_assign_type", U8);
     ("addr_len", U8); ("upper_level", U8); ("lower_level", U8); ("neigh_priv_len", U16);
     ("dev_id", U16); ("dev_port", U16); ("addr_list_lock", typedef_spinlock_t);
     ("name_assign_type", U8); ("uc_promisc", typedef_bool);
     ("uc", struct_netdev_hw_addr_list); ("mc", struct_netdev_hw_addr_list);
     ("dev_addrs", struct_netdev_hw_addr_list); ("queues_kset", PtrTo "struct kset___2");
     ("promiscuity", U32); ("allmulti", U32); ("vlan_info", PtrTo "struct vlan_info");
     ("tipc_ptr", PtrTo "struct tipc_bearer"); ("atalk_ptr", Ptr);
     ("ip_ptr", PtrTo "struct in_device"); ("dn_ptr", PtrTo "struct dn_dev");
     ("ip6_ptr", PtrTo "struct inet6_dev"); ("ax25_ptr", Ptr);
     ("ieee80211_ptr", PtrTo "struct wireless_dev");
     ("ieee802154_ptr", PtrTo "struct wpan_dev"); ("mpls_ptr", PtrTo "struct mpls_dev");
     ("dev_addr", Ptr); ("_rx", PtrTo "struct netdev_rx_queue___2"); ("num_rx_queues", U32);
     ("real_num_rx_queues", U32); ("xdp_prog", PtrTo "struct bpf_prog___2");
     ("gro_flush_timeout", U64); ("rx_handler", Ptr); ("rx_handler_data", Ptr);
     ("miniq_ingress", PtrTo "struct mini_Qdisc___2");
     ("ingress_queue", PtrTo "struct netdev_queue___2");
     ("nf_hooks_ingress", PtrTo "struct nf_hook_entries"); ("broadcast", Array 32 U8);
     ("rx_cpu_rmap", PtrTo "struct cpu_rmap"); ("index_hlist", struct_hlist_node);
     ("", Pad 8 64); ("", Pad 8 64); ("_tx", PtrTo "struct netdev_queue___2");
     ("num_tx_queues", U32); ("real_num_tx_queues", U32); ("qdisc", PtrTo "struct Qdisc___2");
     ("qdisc_hash", Array 16 struct_hlist_head); ("tx_queue_len", U32);
     ("tx_global_lock", typedef_spinlock_t); ("watchdog_timeo", U32);
     ("xps_cpus_map", PtrTo "struct xps_dev_maps");
     ("xps_rxqs_map", PtrTo "struct xps_dev_maps");
     ("miniq_egress", PtrTo "struct mini_Qdisc___2"); ("watchdog_timer", struct_timer_list);
     ("pcpu_refcnt", Ptr); ("todo_list", struct_list_head);
     ("link_watch_list", struct_list_head); ("reg_state", Bits 4 8);
     ("dismantle", typedef_bool); ("rtnl_link_state", Bits 4 16);
     ("needs_free_netdev", typedef_bool); ("priv_destructor", Ptr);
     ("npinfo", PtrTo "struct netpoll_info"); ("nd_net", typedef_possible_net_t___2);
     ("ml_priv", Ptr); ("ml_priv_type", Enum); ("", Union
     [("lstats", PtrTo "struct pcpu_lstats"); ("tstats", PtrTo "struct pcpu_sw_netstats");
     ("dstats", PtrTo "struct pcpu_dstats")]); ("garp_port", PtrTo "struct garp_port");
     ("mrp_port", PtrTo "struct mrp_port"); ("dev", struct_device___2);
     ("sysfs_groups", Array 4 (PtrTo "struct attribute_group___2"));
     ("sysfs_rx_queue_group", PtrTo "struct attribute_group___2");
     ("rtnl_link_ops", PtrTo "struct rtnl_link_ops___2"); ("gso_max_size", U32);
     ("gso_max_segs", typedef_u16); ("dcbnl_ops", PtrTo "struct dcbnl_rtnl_ops___2");
     ("num_tc", typedef_s16); ("tc_to_txq", Array 16 struct_netdev_tc_txq);
     ("prio_tc_map", Array 16 typedef_u8); ("fcoe_ddp_xid", U32);
     ("priomap", PtrTo "struct netprio_map"); ("phydev", PtrTo "struct phy_device");
     ("sfp_bus", PtrTo "struct sfp_bus"); ("qdisc_tx_busylock_key", struct_lock_class_key);
     ("qdisc_running_key", struct_lock_class_key);
     ("qdisc_xmit_lock_key", struct_lock_class_key);
     ("addr_list_lock_key", struct_lock_class_key); ("proto_down", typedef_bool);
     ("wol_enabled", Bits 4 1); ("", Pad 8 64); ("", Pad 8 64); ("", Pad 8 64)].

Definition struct_fqdir___2 : cty :=
  Struct
    [("high_thresh", U64); ("low_thresh", U64); ("timeout", U32); ("max_dist", U32);
     ("f", PtrTo "struct inet_frags___2"); ("net", PtrTo "struct net___2");
     ("dead", typedef_bool); ("", Pad 8 64); ("", Pad 8 64);
     ("rhashtable", struct_rhashtable); ("", Pad 8 64); ("", Pad 8 64); ("", Pad 8 64);
     ("", Pad 8 64); ("", Pad 8 64); ("", Pad 8 64); ("", Pad 8 64);
     ("mem", typedef_atomic_long_t); ("destroy_work", struct_work_struct); ("", Pad 8 64);
     ("", Pad 8 64); ("", Pad 8 64)].

Definition struct_sk_buff___2 : cty :=
  Struct
    [("", Union [("", Struct [("next", PtrTo "struct sk_buff___2");
     ("prev", PtrTo "struct sk_buff___2"); ("", Union [("dev", PtrTo "struct net_device___2");
     ("dev_scratch", U64)])]); ("rbnode", struct_rb_node); ("list", struct_list_head)]);
     ("", Union [("sk", PtrTo "struct sock"); ("ip_defrag_offset", U32)]); ("", Union
     [("tstamp", typedef_ktime_t); ("skb_mstamp_ns", typedef_u64)]); ("cb", Array 64 U8);
     ("", Union [("", Struct [("_skb_refdst", U64); ("destructor", Ptr)]);
     ("tcp_tsorted_anchor", struct_list_head)]); ("_nfct", U64); ("len", U32);
     ("data_len", U32); ("mac_len", typedef___u16); ("hdr_len", typedef___u16);
     ("queue_mapping", typedef___u16); ("__cloned_offset", Array 0 typedef___u8);
     ("cloned", Bits 1 1); ("nohdr", Bits 1 1); ("fclone", Bits 1 2); ("peeked", Bits 1 1);
     ("head_frag", Bits 1 1); ("pfmemalloc", Bits 1 1); ("active_extensions", typedef___u8);
     ("headers_start", Array 0 typedef___u32); ("__pkt_type_offset", Array 0 typedef___u8);
     ("pkt_type", Bits 1 3); ("ignore_df", Bits 1 1); ("nf_trace", Bits 1 1);
     ("ip_summed", Bits 1 2); ("ooo_okay", Bits 1 1); ("l4_hash", Bits 1 1);
     ("sw_hash", Bits 1 1); ("wifi_acked_valid", Bits 1 1); ("wifi_acked", Bits 1 1);
     ("no_fcs", Bits 1 1); ("encapsulation", Bits 1 1); ("encap_hdr_csum", Bits 1 1);
     ("csum_valid", Bits 1 1); ("__pkt_vlan_present_offset", Array 0 typedef___u8);
     ("vlan_present", Bits 1 1); ("csum_complete_sw", Bits 1 1); ("csum_level", Bits 1 2);
     ("csum_not_inet", Bits 1 1); ("dst_pending_confirm", Bits 1 1);
     ("ndisc_nodetype", Bits 1 2); ("ipvs_property", Bits 1 1);
     ("inner_protocol_type", Bits 1 1); ("remcsum_offload", Bits 1 1);
     ("offload_fwd_mark", Bits 1 1); ("offload_l3_fwd_mark", Bits 1 1);
     ("tc_skip_classify", Bits 1 1); ("tc_at_ingress", Bits 1 1); ("redirected", Bits 1 1);
     ("from_ingress", Bits 1 1); ("tc_index", typedef___u16); ("", Union
     [("csum", typedef___wsum); ("", Struct [("csum_start", typedef___u16);
     ("csum_offset", typedef___u16)])]); ("priority", typedef___u32); ("skb_iif", U32);
     ("hash", typedef___u32); ("vlan_proto", typedef___be16); ("vlan_tci", typedef___u16);
     ("", Union [("napi_id", U32); ("sender_cpu", U32)]); ("secmark", typedef___u32);
     ("", Union [("mark", typedef___u32); ("reserved_tailroom", typedef___u32)]); ("", Union
     [("inner_protocol", typedef___be16); ("inner_ipproto", typedef___u8)]);
     ("inner_transport_header", typedef___u16); ("inner_network_header", typedef___u16);
     ("inner_mac_header", typedef___u16); ("protocol", typedef___be16);
     ("transport_header", typedef___u16); ("network_header", typedef___u16);
     ("mac_header", typedef___u16); ("headers_end", Array 0 typedef___u32);
     ("tail", typedef_sk_buff_data_t); ("end", typedef_sk_buff_data_t); ("head", Ptr);
     ("data", Ptr); ("truesize", U32); ("users", typedef_refcount_t);
     ("tcpa_skb_priv", Array 32 U8); ("extensions", PtrTo "struct skb_ext")].

Definition struct_cgroup_subsys___2 : cty :=
  Struct
    [("css_alloc", Ptr); ("css_online", Ptr); ("css_offline", Ptr); ("css_released", Ptr);
     ("css_free", Ptr); ("css_reset", Ptr); ("css_rstat_flush", Ptr);
     ("css_extra_stat_show", Ptr); ("can_attach", Ptr); ("cancel_attach", Ptr);
     ("attach", Ptr); ("post_attach", Ptr); ("can_fork", Ptr); ("cancel_fork", Ptr);
     ("fork", Ptr); ("exit", Ptr); ("release", Ptr); ("bind", Ptr); ("early_init", Bits 1 1);
     ("implicit_on_dfl", Bits 1 1); ("threaded", Bits 1 1); ("broken_hierarchy", Bits 1 1);
     ("warned_broken_hierarchy", Bits 1 1); ("id", U32); ("name", Ptr); ("legacy_name", Ptr);
     ("root", PtrTo "struct cgroup_root___2"); ("css_idr", struct_idr);
     ("cfts", struct_list_head); ("dfl_cftypes", PtrTo "struct cftype___2");
     ("legacy_cftypes", PtrTo "struct cftype___2"); ("depends_on", U32)].

Definition struct_cgroup_root___2 : cty :=
  Struct
    [("kf_root", PtrTo "struct kernfs_root___2"); ("subsys_mask", U32); ("hierarchy_id", U32);
     ("cgrp", struct_cgroup___2); ("cgrp_ancestor_id_storage", U32);
     ("nr_cgrps", typedef_atomic_t); ("root_list", struct_list_head); ("flags", U32);
     ("cgroup_idr", struct_idr); ("release_agent_path", Array 4096 U8);
     ("name", Array 64 U8)].

Definition struct_cgroup_rstat_cpu___2 : cty :=
  Struct
    [("bsync", struct_u64_stats_sync); ("bstat", struct_cgroup_base_stat);
     ("last_bstat", struct_cgroup_base_stat); ("updated_children", PtrTo "struct cgroup___2");
     ("updated_next", PtrTo "struct cgroup___2")].

Definition struct_perf_cpu_context___2 : cty :=
  Struct
    [("ctx", struct_perf_event_context___2);
     ("task_ctx", PtrTo "struct perf_event_context___2"); ("active_oncpu", U32);
     ("exclusive", U32); ("hrtimer_lock", typedef_raw_spinlock_t);
     ("hrtimer", struct_hrtimer); ("hrtimer_interval", typedef_ktime_t);
     ("hrtimer_active", U32); ("cgrp", PtrTo "struct perf_cgroup___2");
     ("cgrp_cpuctx_entry", struct_list_head); ("sched_cb_entry", struct_list_head);
     ("sched_cb_usage", U32); ("online", U32)].

Definition struct_perf_event_mmap_page : cty :=
  Struct
    [("version", typedef___u32); ("compat_version", typedef___u32); ("lock", typedef___u32);
     ("index", typedef___u32); ("offset", typedef___s64); ("time_enabled", typedef___u64);
     ("time_running", typedef___u64); ("", Union [("capabilities", typedef___u64); ("", Struct
     [("cap_bit0", Bits 8 1); ("cap_bit0_is_deprecated", Bits 8 1);
     ("cap_user_rdpmc", Bits 8 1); ("cap_user_time", Bits 8 1);
     ("cap_user_time_zero", Bits 8 1); ("cap_____res", Bits 8 59)])]);
     ("pmc_width", typedef___u16); ("time_shift", typedef___u16);
     ("time_mult", typedef___u32); ("time_offset", typedef___u64);
     ("time_zero", typedef___u64); ("size", typedef___u32);
     ("__reserved", Array 948 typedef___u8); ("data_head", typedef___u64);
     ("data_tail", typedef___u64); ("data_offset", typedef___u64);
     ("data_size", typedef___u64); ("aux_head", typedef___u64); ("aux_tail", typedef___u64);
     ("aux_offset", typedef___u64); ("aux_size", typedef___u64)].

Definition struct_bpf_prog_aux___2 : cty :=
  Struct
    [("refcnt", typedef_atomic_t); ("used_map_cnt", typedef_u32);
     ("max_ctx_offset", typedef_u32); ("max_pkt_offset", typedef_u32);
     ("max_tp_access", typedef_u32); ("stack_depth", typedef_u32); ("id", typedef_u32);
     ("func_cnt", typedef_u32); ("func_idx", typedef_u32); ("verifier_zext", typedef_bool);
     ("offload_requested", typedef_bool); ("func", Pointer 2 "struct bpf_prog___2");
     ("jit_data", Ptr); ("ksym_tnode", struct_latch_tree_node);
     ("ksym_lnode", struct_list_head); ("ops", PtrTo "struct bpf_prog_ops___2");
     ("used_maps", Pointer 2 "struct bpf_map___2"); ("prog", PtrTo "struct bpf_prog___2");
     ("user", PtrTo "struct user_struct"); ("load_time", typedef_u64);
     ("cgroup_storage", Array 2 (PtrTo "struct bpf_map___2")); ("name", Array 16 U8);
     ("security", Ptr); ("offload", PtrTo "struct bpf_prog_offload___2");
     ("btf", PtrTo "struct btf"); ("func_info", PtrTo "struct bpf_func_info");
     ("linfo", PtrTo "struct bpf_line_info"); ("jited_linfo", Ptr);
     ("func_info_cnt", typedef_u32); ("nr_linfo", typedef_u32); ("linfo_idx", typedef_u32);
     ("stats", PtrTo "struct bpf_prog_stats"); ("", Union [("work", struct_work_struct);
     ("rcu", struct_callback_head)])].

Definition struct_bin_attribute___2 : cty :=
  Struct
    [("attr", struct_attribute); ("size", typedef_size_t); ("private", Ptr); ("read", Ptr);
     ("write", Ptr); ("mmap", Ptr)].

Definition struct_kernfs_syscall_ops___2 : cty :=
  Struct
    [("show_options", Ptr); ("mkdir", Ptr); ("rmdir", Ptr); ("rename", Ptr);
     ("show_path", Ptr)].

Definition struct_hh_cache : cty :=
  Struct
    [("hh_len", U32); ("hh_lock", typedef_seqlock_t); ("hh_data", Array 16 U64)].

Definition struct_neighbour : cty :=
  Struct
    [("next", PtrTo "struct neighbour"); ("tbl", PtrTo "struct neigh_table");
     ("parms", PtrTo "struct neigh_parms"); ("confirmed", U64); ("updated", U64);
     ("lock", typedef_rwlock_t); ("refcnt", typedef_refcount_t); ("arp_queue_len_bytes", U32);
     ("arp_queue", struct_sk_buff_head); ("timer", struct_timer_list); ("used", U64);
     ("probes", typedef_atomic_t); ("flags", typedef___u8); ("nud_state", typedef___u8);
     ("type", typedef___u8); ("dead", typedef___u8); ("protocol", typedef_u8);
     ("ha_lock", typedef_seqlock_t); ("", Pad 8 0); ("ha", Array 32 U8);
     ("hh", struct_hh_cache); ("output", Ptr); ("ops", PtrTo "struct neigh_ops");
     ("gc_list", struct_list_head); ("rcu", struct_callback_head);
     ("dev", PtrTo "struct net_device"); ("primary_key", Array 0 typedef_u8)].

Definition struct_nl80211_wowlan_tcp_data_token_feature : cty :=
  Struct
    [("min_len", typedef___u32); ("max_len", typedef___u32); ("bufsize", typedef___u32)].

Definition struct_cfg80211_ssid : cty :=
  Struct
    [("ssid", Array 32 typedef_u8); ("ssid_len", typedef_u8)].

Definition struct_cfg80211_match_set : cty :=
  Struct
    [("ssid", struct_cfg80211_ssid); ("bssid", Array 6 typedef_u8);
     ("rssi_thold", typedef_s32); ("per_band_rssi_thold", Array 4 typedef_s32)].

Definition struct_cfg80211_sched_scan_plan : cty :=
  Struct
    [("interval", typedef_u32); ("iterations", typedef_u32)].

Definition struct_net_device_ops___2 : cty :=
  Struct
    [("ndo_init", Ptr); ("ndo_uninit", Ptr); ("ndo_open", Ptr); ("ndo_stop", Ptr);
     ("ndo_start_xmit", Ptr); ("ndo_features_check", Ptr); ("ndo_select_queue", Ptr);
     ("ndo_change_rx_flags", Ptr); ("ndo_set_rx_mode", Ptr); ("ndo_set_mac_address", Ptr);
     ("ndo_validate_addr", Ptr); ("ndo_do_ioctl", Ptr); ("ndo_set_config", Ptr);
     ("ndo_change_mtu", Ptr); ("ndo_neigh_setup", Ptr); ("ndo_tx_timeout", Ptr);
     ("ndo_get_stats64", Ptr); ("ndo_has_offload_stats", Ptr); ("ndo_get_offload_stats", Ptr);
     ("ndo_get_stats", Ptr); ("ndo_vlan_rx_add_vid", Ptr); ("ndo_vlan_rx_kill_vid", Ptr);
     ("ndo_poll_controller", Ptr); ("ndo_netpoll_setup", Ptr); ("ndo_netpoll_cleanup", Ptr);
     ("ndo_set_vf_mac", Ptr); ("ndo_set_vf_vlan", Ptr); ("ndo_set_vf_rate", Ptr);
     ("ndo_set_vf_spoofchk", Ptr); ("ndo_set_vf_trust", Ptr); ("ndo_get_vf_config", Ptr);
     ("ndo_set_vf_link_state", Ptr); ("ndo_get_vf_stats", Ptr); ("ndo_set_vf_port", Ptr);
     ("ndo_get_vf_port", Ptr); ("ndo_set_vf_guid", Ptr); ("ndo_set_vf_rss_query_en", Ptr);
     ("ndo_setup_tc", Ptr); ("ndo_fcoe_enable", Ptr); ("ndo_fcoe_disable", Ptr);
     ("ndo_fcoe_ddp_setup", Ptr); ("ndo_fcoe_ddp_done", Ptr); ("ndo_fcoe_ddp_target", Ptr);
     ("ndo_fcoe_get_hbainfo", Ptr); ("ndo_fcoe_get_wwn", Ptr); ("ndo_rx_flow_steer", Ptr);
     ("ndo_add_slave", Ptr); ("ndo_del_slave", Ptr); ("ndo_fix_features", Ptr);
     ("ndo_set_features", Ptr); ("ndo_neigh_construct", Ptr); ("ndo_neigh_destroy", Ptr);
     ("ndo_fdb_add", Ptr); ("ndo_fdb_del", Ptr); ("ndo_fdb_dump", Ptr); ("ndo_fdb_get", Ptr);
     ("ndo_bridge_setlink", Ptr); ("ndo_bridge_getlink", Ptr); ("ndo_bridge_dellink", Ptr);
     ("ndo_change_carrier", Ptr); ("ndo_get_phys_port_id", Ptr);
     ("ndo_get_port_parent_id", Ptr); ("ndo_get_phys_port_name", Ptr);
     ("ndo_udp_tunnel_add", Ptr); ("ndo_udp_tunnel_del", Ptr); ("ndo_dfwd_add_station", Ptr);
     ("ndo_dfwd_del_station", Ptr); ("ndo_set_tx_maxrate", Ptr); ("ndo_get_iflink", Ptr);
     ("ndo_change_proto_down", Ptr); ("ndo_fill_metadata_dst", Ptr);
     ("ndo_set_rx_headroom", Ptr); ("ndo_bpf", Ptr); ("ndo_xdp_xmit", Ptr);
     ("ndo_xsk_wakeup", Ptr); ("ndo_get_devlink_port", Ptr); ("ndo_get_peer_dev", Ptr)].

Definition struct_ethtool_ops___2 : cty :=
  Struct
    [("get_drvinfo", Ptr); ("get_regs_len", Ptr); ("get_regs", Ptr); ("get_wol", Ptr);
     ("set_wol", Ptr); ("get_msglevel", Ptr); ("set_msglevel", Ptr); ("nway_reset", Ptr);
     ("get_link", Ptr); ("get_eeprom_len", Ptr); ("get_eeprom", Ptr); ("set_eeprom", Ptr);
     ("get_coalesce", Ptr); ("set_coalesce", Ptr); ("get_ringparam", Ptr);
     ("set_ringparam", Ptr); ("get_pauseparam", Ptr); ("set_pauseparam", Ptr);
     ("self_test", Ptr); ("get_strings", Ptr); ("set_phys_id", Ptr);
     ("get_ethtool_stats", Ptr); ("begin", Ptr); ("complete", Ptr); ("get_priv_flags", Ptr);
     ("set_priv_flags", Ptr); ("get_sset_count", Ptr); ("get_rxnfc", Ptr); ("set_rxnfc", Ptr);
     ("flash_device", Ptr); ("reset", Ptr); ("get_rxfh_key_size", Ptr);
     ("get_rxfh_indir_size", Ptr); ("get_rxfh", Ptr); ("set_rxfh", Ptr);
     ("get_rxfh_context", Ptr); ("set_rxfh_context", Ptr); ("get_channels", Ptr);
     ("set_channels", Ptr); ("get_dump_flag", Ptr); ("get_dump_data", Ptr); ("set_dump", Ptr);
     ("get_ts_info", Ptr); ("get_module_info", Ptr); ("get_module_eeprom", Ptr);
     ("get_eee", Ptr); ("set_eee", Ptr); ("get_tunable", Ptr); ("set_tunable", Ptr);
     ("get_per_queue_coalesce", Ptr); ("set_per_queue_coalesce", Ptr);
     ("get_link_ksettings", Ptr); ("set_link_ksettings", Ptr); ("get_fecparam", Ptr);
     ("set_fecparam", Ptr); ("get_ethtool_phy_stats", Ptr)].

Definition struct_xfrmdev_ops___2 : cty :=
  Struct
    [("xdo_dev_state_add", Ptr); ("xdo_dev_state_delete", Ptr); ("xdo_dev_state_free", Ptr);
     ("xdo_dev_offload_ok", Ptr); ("xdo_dev_state_advance_esn", Ptr)].

Definition struct_header_ops___2 : cty :=
  Struct
    [("create", Ptr); ("parse", Ptr); ("cache", Ptr); ("cache_update", Ptr);
     ("validate", Ptr); ("parse_protocol", Ptr)].

Definition struct_xdp_rxq_info___2 : cty :=
  Struct
    [("dev", PtrTo "struct net_device___2"); ("queue_index", typedef_u32);
     ("reg_state", typedef_u32); ("mem", struct_xdp_mem_info); ("", Pad 8 64); ("", Pad 8 64);
     ("", Pad 8 64); ("", Pad 8 64); ("", Pad 8 64)].

Definition struct_netdev_rx_queue___2 : cty :=
  Struct
    [("rps_map", PtrTo "struct rps_map");
     ("rps_flow_table", PtrTo "struct rps_dev_flow_table"); ("rps_single_flow_flags", U64);
     ("kobj", struct_kobject___2); ("dev", PtrTo "struct net_device___2"); ("", Pad 8 64);
     ("", Pad 8 64); ("", Pad 8 64); ("", Pad 8 64); ("xdp_rxq", struct_xdp_rxq_info___2);
     ("umem", PtrTo "struct xdp_umem"); ("", Pad 8 64); ("", Pad 8 64); ("", Pad 8 64);
     ("", Pad 8 64); ("", Pad 8 64); ("", Pad 8 64); ("", Pad 8 64)].

Definition struct_mini_Qdisc___2 : cty :=
  Struct
    [("filter_list", PtrTo "struct tcf_proto___2");
     ("cpu_bstats", PtrTo "struct gnet_stats_basic_cpu");
     ("cpu_qstats", PtrTo "struct gnet_stats_queue"); ("rcu", struct_callback_head)].

Definition struct_netdev_queue___2 : cty :=
  Struct
    [("dev", PtrTo "struct net_device___2"); ("qdisc", PtrTo "struct Qdisc___2");
     ("qdisc_sleeping", PtrTo "struct Qdisc___2"); ("kobj", struct_kobject___2);
     ("numa_node", U32); ("tx_maxrate", U64); ("trans_timeout", U64);
     ("sb_dev", PtrTo "struct net_device___2"); ("umem", PtrTo "struct xdp_umem");
     ("_xmit_lock", typedef_spinlock_t); ("xmit_lock_owner", U32); ("trans_start", U64);
     ("state", U64); ("", Pad 8 64); ("", Pad 8 64); ("", Pad 8 64); ("", Pad 8 64);
     ("", Pad 8 64); ("dql", struct_dql)].

Definition struct_qdisc_skb_head___2 : cty :=
  Struct
    [("head", PtrTo "struct sk_buff___2"); ("tail", PtrTo "struct sk_buff___2");
     ("qlen", typedef___u32); ("lock", typedef_spinlock_t)].

Definition struct_Qdisc___2 : cty :=
  Struct
    [("enqueue", Ptr); ("dequeue", Ptr); ("flags", U32); ("limit", typedef_u32);
     ("ops", PtrTo "struct Qdisc_ops___2"); ("stab", PtrTo "struct qdisc_size_table");
     ("hash", struct_hlist_node); ("handle", typedef_u32); ("parent", typedef_u32);
     ("dev_queue", PtrTo "struct netdev_queue___2");
     ("rate_est", PtrTo "struct net_rate_estimator");
     ("cpu_bstats", PtrTo "struct gnet_stats_basic_cpu");
     ("cpu_qstats", PtrTo "struct gnet_stats_queue"); ("padded", U32);
     ("refcnt", typedef_refcount_t); ("", Pad 8 64); ("", Pad 8 64); ("", Pad 8 64);
     ("gso_skb", struct_sk_buff_head___2); ("q", struct_qdisc_skb_head___2);
     ("bstats", struct_gnet_stats_basic_packed); ("running", typedef_seqcount_t);
     ("qstats", struct_gnet_stats_queue); ("state", U64);
     ("next_sched", PtrTo "struct Qdisc___2"); ("skb_bad_txq", struct_sk_buff_head___2);
     ("busylock", typedef_spinlock_t); ("seqlock", typedef_spinlock_t);
     ("empty", typedef_bool); ("rcu", struct_callback_head); ("", Pad 8 64); ("", Pad 8 64);
     ("", Pad 8 64); ("", Pad 8 64)].

Definition struct_device_type___2 : cty :=
  Struct
    [("name", Ptr); ("groups", Pointer 2 "struct attribute_group___2"); ("uevent", Ptr);
     ("devnode", Ptr); ("release", Ptr); ("pm", PtrTo "struct dev_pm_ops___2")].

Definition struct_bus_type___2 : cty :=
  Struct
    [("name", Ptr); ("dev_name", Ptr); ("dev_root", PtrTo "struct device___2");
     ("bus_groups", Pointer 2 "struct attribute_group___2");
     ("dev_groups", Pointer 2 "struct attribute_group___2");
     ("drv_groups", Pointer 2 "struct attribute_group___2"); ("match", Ptr); ("uevent", Ptr);
     ("probe", Ptr); ("remove", Ptr); ("shutdown", Ptr); ("online", Ptr); ("offline", Ptr);
     ("suspend", Ptr); ("resume", Ptr); ("num_vf", Ptr); ("dma_configure", Ptr);
     ("pm", PtrTo "struct dev_pm_ops___2"); ("iommu_ops", PtrTo "struct iommu_ops");
     ("p", PtrTo "struct subsys_private"); ("lock_key", struct_lock_class_key);
     ("need_parent_lock", typedef_bool)].

Definition struct_device_driver___2 : cty :=
  Struct
    [("name", Ptr); ("bus", PtrTo "struct bus_type___2");
     ("owner", PtrTo "struct module___2"); ("mod_name", Ptr);
     ("suppress_bind_attrs", typedef_bool); ("probe_type", Enum);
     ("of_match_table", PtrTo "struct of_device_id");
     ("acpi_match_table", PtrTo "struct acpi_device_id"); ("probe", Ptr); ("remove", Ptr);
     ("shutdown", Ptr); ("suspend", Ptr); ("resume", Ptr);
     ("groups", Pointer 2 "struct attribute_group___2");
     ("dev_groups", Pointer 2 "struct attribute_group___2");
     ("pm", PtrTo "struct dev_pm_ops___2"); ("coredump", Ptr);
     ("p", PtrTo "struct driver_private")].

Definition struct_wakeup_source___2 : cty :=
  Struct
    [("name", Ptr); ("id", U32); ("entry", struct_list_head); ("lock", typedef_spinlock_t);
     ("wakeirq", PtrTo "struct wake_irq"); ("timer", struct_timer_list);
     ("timer_expires", U64); ("total_time", typedef_ktime_t); ("max_time", typedef_ktime_t);
     ("last_time", typedef_ktime_t); ("start_prevent_time", typedef_ktime_t);
     ("prevent_sleep_time", typedef_ktime_t); ("event_count", U64); ("active_count", U64);
     ("relax_count", U64); ("expire_count", U64); ("wakeup_count", U64);
     ("dev", PtrTo "struct device___2"); ("active", Bits 1 1);
     ("autosleep_enabled", Bits 1 1)].

Definition struct_dev_pm_ops___2 : cty :=
  Struct
    [("prepare", Ptr); ("complete", Ptr); ("suspend", Ptr); ("resume", Ptr); ("freeze", Ptr);
     ("thaw", Ptr); ("poweroff", Ptr); ("restore", Ptr); ("suspend_late", Ptr);
     ("resume_early", Ptr); ("freeze_late", Ptr); ("thaw_early", Ptr); ("poweroff_late", Ptr);
     ("restore_early", Ptr); ("suspend_noirq", Ptr); ("resume_noirq", Ptr);
     ("freeze_noirq", Ptr); ("thaw_noirq", Ptr); ("poweroff_noirq", Ptr);
     ("restore_noirq", Ptr); ("runtime_suspend", Ptr); ("runtime_resume", Ptr);
     ("runtime_idle", Ptr)].

Definition struct_dev_pm_domain___2 : cty :=
  Struct
    [("ops", struct_dev_pm_ops___2); ("detach", Ptr); ("activate", Ptr); ("sync", Ptr);
     ("dismiss", Ptr)].

Definition struct_dma_map_ops___2 : cty :=
  Struct
    [("alloc", Ptr); ("free", Ptr); ("mmap", Ptr); ("get_sgtable", Ptr); ("map_page", Ptr);
     ("unmap_page", Ptr); ("map_sg", Ptr); ("unmap_sg", Ptr); ("map_resource", Ptr);
     ("unmap_resource", Ptr); ("sync_single_for_cpu", Ptr); ("sync_single_for_device", Ptr);
     ("sync_sg_for_cpu", Ptr); ("sync_sg_for_device", Ptr); ("cache_sync", Ptr);
     ("dma_supported", Ptr); ("get_required_mask", Ptr); ("max_mapping_size", Ptr);
     ("get_merge_boundary", Ptr)].

Definition struct_fwnode_handle___2 : cty :=
  Struct
    [("secondary", PtrTo "struct fwnode_handle___2");
     ("ops", PtrTo "struct fwnode_operations___2")].

Definition struct_device_node___2 : cty :=
  Struct
    [("name", Ptr); ("phandle", typedef_phandle); ("full_name", Ptr);
     ("fwnode", struct_fwnode_handle___2); ("properties", PtrTo "struct property");
     ("deadprops", PtrTo "struct property"); ("parent", PtrTo "struct device_node___2");
     ("child", PtrTo "struct device_node___2"); ("sibling", PtrTo "struct device_node___2");
     ("_flags", U64); ("data", Ptr)].

Definition struct_class___2 : cty :=
  Struct
    [("name", Ptr); ("owner", PtrTo "struct module___2");
     ("class_groups", Pointer 2 "struct attribute_group___2");
     ("dev_groups", Pointer 2 "struct attribute_group___2");
     ("dev_kobj", PtrTo "struct kobject___2"); ("dev_uevent", Ptr); ("devnode", Ptr);
     ("class_release", Ptr); ("dev_release", Ptr); ("shutdown_pre", Ptr);
     ("ns_type", PtrTo "struct kobj_ns_type_operations"); ("namespace", Ptr);
     ("get_ownership", Ptr); ("pm", PtrTo "struct dev_pm_ops___2");
     ("p", PtrTo "struct subsys_private")].

Definition struct_rtnl_link_ops___2 : cty :=
  Struct
    [("list", struct_list_head); ("kind", Ptr); ("priv_size", typedef_size_t); ("setup", Ptr);
     ("netns_refund", typedef_bool); ("maxtype", U32); ("policy", PtrTo "struct nla_policy");
     ("validate", Ptr); ("newlink", Ptr); ("changelink", Ptr); ("dellink", Ptr);
     ("get_size", Ptr); ("fill_info", Ptr); ("get_xstats_size", Ptr); ("fill_xstats", Ptr);
     ("get_num_tx_queues", Ptr); ("get_num_rx_queues", Ptr); ("slave_maxtype", U32);
     ("slave_policy", PtrTo "struct nla_policy"); ("slave_changelink", Ptr);
     ("get_slave_size", Ptr); ("fill_slave_info", Ptr); ("get_link_net", Ptr);
     ("get_linkxstats_size", Ptr); ("fill_linkxstats", Ptr)].

Definition struct_dcbnl_rtnl_ops___2 : cty :=
  Struct
    [("ieee_getets", Ptr); ("ieee_setets", Ptr); ("ieee_getmaxrate", Ptr);
     ("ieee_setmaxrate", Ptr); ("ieee_getqcn", Ptr); ("ieee_setqcn", Ptr);
     ("ieee_getqcnstats", Ptr); ("ieee_getpfc", Ptr); ("ieee_setpfc", Ptr);
     ("ieee_getapp", Ptr); ("ieee_setapp", Ptr); ("ieee_delapp", Ptr);
     ("ieee_peer_getets", Ptr); ("ieee_peer_getpfc", Ptr); ("getstate", Ptr);
     ("setstate", Ptr); ("getpermhwaddr", Ptr); ("setpgtccfgtx", Ptr); ("setpgbwgcfgtx", Ptr);
     ("setpgtccfgrx", Ptr); ("setpgbwgcfgrx", Ptr); ("getpgtccfgtx", Ptr);
     ("getpgbwgcfgtx", Ptr); ("getpgtccfgrx", Ptr); ("getpgbwgcfgrx", Ptr);
     ("setpfccfg", Ptr); ("getpfccfg", Ptr); ("setall", Ptr); ("getcap", Ptr);
     ("getnumtcs", Ptr); ("setnumtcs", Ptr); ("getpfcstate", Ptr); ("setpfcstate", Ptr);
     ("getbcncfg", Ptr); ("setbcncfg", Ptr); ("getbcnrp", Ptr); ("setbcnrp", Ptr);
     ("setapp", Ptr); ("getapp", Ptr); ("getfeatcfg", Ptr); ("setfeatcfg", Ptr);
     ("getdcbx", Ptr); ("setdcbx", Ptr); ("peer_getappinfo", Ptr); ("peer_getapptable", Ptr);
     ("cee_peer_getpg", Ptr); ("cee_peer_getpfc", Ptr); ("dcbnl_getbuffer", Ptr);
     ("dcbnl_setbuffer", Ptr)].

Definition struct_inet_frags___2 : cty :=
  Struct
    [("qsize", U32); ("constructor", Ptr); ("destructor", Ptr); ("frag_expire", Ptr);
     ("frags_cachep", PtrTo "struct kmem_cache"); ("frags_cache_name", Ptr);
     ("rhash_params", struct_rhashtable_params); ("refcnt", typedef_refcount_t);
     ("completion", struct_completion)].

Definition struct_cftype___2 : cty :=
  Struct
    [("name", Array 64 U8); ("private", U64); ("max_write_len", typedef_size_t);
     ("flags", U32); ("file_offset", U32); ("ss", PtrTo "struct cgroup_subsys___2");
     ("node", struct_list_head); ("kf_ops", PtrTo "struct kernfs_ops___2"); ("open", Ptr);
     ("release", Ptr); ("read_u64", Ptr); ("read_s64", Ptr); ("seq_show", Ptr);
     ("seq_start", Ptr); ("seq_next", Ptr); ("seq_stop", Ptr); ("write_u64", Ptr);
     ("write_s64", Ptr); ("write", Ptr); ("poll", Ptr)].

Definition struct_bpf_prog_ops___2 : cty :=
  Struct
    [("test_run", Ptr)].

Definition struct_bpf_map___2 : cty :=
  Struct
    [("ops", PtrTo "struct bpf_map_ops___2"); ("inner_map_meta", PtrTo "struct bpf_map___2");
     ("security", Ptr); ("map_type", Enum); ("key_size", typedef_u32);
     ("value_size", typedef_u32); ("max_entries", typedef_u32); ("map_flags", typedef_u32);
     ("spin_lock_off", U32); ("id", typedef_u32); ("numa_node", U32);
     ("btf_key_type_id", typedef_u32); ("btf_value_type_id", typedef_u32);
     ("btf", PtrTo "struct btf"); ("memory", struct_bpf_map_memory);
     ("unpriv_array", typedef_bool); ("frozen", typedef_bool); ("", Pad 8 64); ("", Pad 8 64);
     ("", Pad 8 64); ("", Pad 8 64); ("refcnt", typedef_atomic_t);
     ("usercnt", typedef_atomic_t); ("work", struct_work_struct); ("name", Array 16 U8);
     ("", Pad 8 64)].

Definition struct_bpf_prog_offload___2 : cty :=
  Struct
    [("prog", PtrTo "struct bpf_prog___2"); ("netdev", PtrTo "struct net_device___2");
     ("offdev", PtrTo "struct bpf_offload_dev"); ("dev_priv", Ptr);
     ("offloads", struct_list_head); ("dev_state", typedef_bool);
     ("opt_failed", typedef_bool); ("jited_image", Ptr); ("jited_len", typedef_u32)].

Definition struct_neigh_ops : cty :=
  Struct
    [("family", U32); ("solicit", Ptr); ("error_report", Ptr); ("output", Ptr);
     ("connected_output", Ptr)].

Definition struct_tcf_proto___2 : cty :=
  Struct
    [("next", PtrTo "struct tcf_proto___2"); ("root", Ptr); ("classify", Ptr);
     ("protocol", typedef___be16); ("prio", typedef_u32); ("data", Ptr);
     ("ops", PtrTo "struct tcf_proto_ops___2"); ("chain", PtrTo "struct tcf_chain___2");
     ("lock", typedef_spinlock_t); ("deleting", typedef_bool); ("refcnt", typedef_refcount_t);
     ("rcu", struct_callback_head); ("destroy_ht_node", struct_hlist_node)].

Definition struct_Qdisc_ops___2 : cty :=
  Struct
    [("next", PtrTo "struct Qdisc_ops___2"); ("cl_ops", PtrTo "struct Qdisc_class_ops___2");
     ("id", Array 16 U8); ("priv_size", U32); ("static_flags", U32); ("enqueue", Ptr);
     ("dequeue", Ptr); ("peek", Ptr); ("init", Ptr); ("reset", Ptr); ("destroy", Ptr);
     ("change", Ptr); ("attach", Ptr); ("change_tx_queue_len", Ptr); ("dump", Ptr);
     ("dump_stats", Ptr); ("ingress_block_set", Ptr); ("egress_block_set", Ptr);
     ("ingress_block_get", Ptr); ("egress_block_get", Ptr);
     ("owner", PtrTo "struct module___2")].

Definition struct_fwnode_operations___2 : cty :=
  Struct
    [("get", Ptr); ("put", Ptr); ("device_is_available", Ptr); ("device_get_match_data", Ptr);
     ("property_present", Ptr); ("property_read_int_array", Ptr);
     ("property_read_string_array", Ptr); ("get_parent", Ptr); ("get_next_child_node", Ptr);
     ("get_named_child_node", Ptr); ("get_reference_args", Ptr);
     ("graph_get_next_endpoint", Ptr); ("graph_get_remote_endpoint", Ptr);
     ("graph_get_port_parent", Ptr); ("graph_parse_endpoint", Ptr)].

Definition struct_bpf_map_ops___2 : cty :=
  Struct
    [("map_alloc_check", Ptr); ("map_alloc", Ptr); ("map_release", Ptr); ("map_free", Ptr);
     ("map_get_next_key", Ptr); ("map_release_uref", Ptr); ("map_lookup_elem_sys_only", Ptr);
     ("map_lookup_elem", Ptr); ("map_update_elem", Ptr); ("map_delete_elem", Ptr);
     ("map_push_elem", Ptr); ("map_pop_elem", Ptr); ("map_peek_elem", Ptr);
     ("map_fd_get_ptr", Ptr); ("map_fd_put_ptr", Ptr); ("map_gen_lookup", Ptr);
     ("map_fd_sys_lookup_elem", Ptr); ("map_seq_show_elem", Ptr); ("map_check_btf", Ptr);
     ("map_direct_value_addr", Ptr); ("map_direct_value_meta", Ptr); ("map_meta_equal", Ptr)].

Definition struct_tcf_proto_ops___2 : cty :=
  Struct
    [("head", struct_list_head); ("kind", Array 16 U8); ("classify", Ptr); ("init", Ptr);
     ("destroy", Ptr); ("get", Ptr); ("put", Ptr); ("change", Ptr); ("delete", Ptr);
     ("delete_empty", Ptr); ("walk", Ptr); ("reoffload", Ptr); ("hw_add", Ptr);
     ("hw_del", Ptr); ("bind_class", Ptr); ("tmplt_create", Ptr); ("tmplt_destroy", Ptr);
     ("dump", Ptr); ("tmplt_dump", Ptr); ("owner", PtrTo "struct module___2");
     ("flags", U32)].

Definition struct_tcf_chain___2 : cty :=
  Struct
    [("filter_chain_lock", struct_mutex); ("filter_chain", PtrTo "struct tcf_proto___2");
     ("list", struct_list_head); ("block", PtrTo "struct tcf_block___2");
     ("index", typedef_u32); ("refcnt", U32); ("action_refcnt", U32);
     ("explicitly_created", typedef_bool); ("flushing", typedef_bool);
     ("tmplt_ops", PtrTo "struct tcf_proto_ops___2"); ("tmplt_priv", Ptr);
     ("rcu", struct_callback_head)].

Definition struct_Qdisc_class_ops___2 : cty :=
  Struct
    [("flags", U32); ("select_queue", Ptr); ("graft", Ptr); ("leaf", Ptr);
     ("qlen_notify", Ptr); ("find", Ptr); ("change", Ptr); ("delete", Ptr); ("walk", Ptr);
     ("tcf_block", Ptr); ("bind_tcf", Ptr); ("unbind_tcf", Ptr); ("dump", Ptr);
     ("dump_stats", Ptr)].

Definition struct_tcf_block___2 : cty :=
  Struct
    [("lock", struct_mutex); ("chain_list", struct_list_head); ("index", typedef_u32);
     ("classid", typedef_u32); ("refcnt", typedef_refcount_t);
     ("net", PtrTo "struct net___2"); ("q", PtrTo "struct Qdisc___2");
     ("cb_lock", struct_rw_semaphore); ("flow_block", struct_flow_block);
     ("owner_list", struct_list_head); ("keep_dst", typedef_bool);
     ("offloadcnt", typedef_atomic_t); ("nooffloaddevcnt", U32); ("lockeddevcnt", U32);
     ("chain0", Struct [("chain", PtrTo "struct tcf_chain___2");
     ("filter_chain_list", struct_list_head)]); ("rcu", struct_callback_head);
     ("proto_destroy_ht", Array 128 struct_hlist_head); ("proto_destroy_lock", struct_mutex)].

(** The types by name. *)
Definition reached_types4 : list (string * cty) :=
    [("struct kernel_param_ops", struct_kernel_param_ops);
     ("struct kparam_string", struct_kparam_string);
     ("struct kparam_array", struct_kparam_array); ("struct elf64_shdr", struct_elf64_shdr);
     ("struct fs_parameter_spec", struct_fs_parameter_spec);
     ("struct fs_parameter_enum", struct_fs_parameter_enum); ("struct ida", struct_ida);
     ("struct worker_pool", struct_worker_pool); ("struct iommu_ops", struct_iommu_ops);
     ("struct subsys_private", struct_subsys_private);
     ("struct of_device_id", struct_of_device_id);
     ("struct acpi_device_id", struct_acpi_device_id);
     ("struct driver_private", struct_driver_private);
     ("struct pm_domain_data", struct_pm_domain_data);
     ("struct pm_qos_flags_request", struct_pm_qos_flags_request);
     ("struct dev_pm_qos_request", struct_dev_pm_qos_request);
     ("struct irq_domain_ops", struct_irq_domain_ops);
     ("struct irq_domain_chip_generic", struct_irq_domain_chip_generic);
     ("struct pinctrl", struct_pinctrl); ("struct pinctrl_state", struct_pinctrl_state);
     ("struct fwnode_operations", struct_fwnode_operations);
     ("struct property", struct_property);
     ("struct kobj_ns_type_operations", struct_kobj_ns_type_operations);
     ("struct iommu_domain_geometry", struct_iommu_domain_geometry);
     ("struct iommu_domain", struct_iommu_domain);
     ("struct iommu_fault_param", struct_iommu_fault_param); ("struct pr_ops", struct_pr_ops);
     ("struct kernfs_syscall_ops", struct_kernfs_syscall_ops);
     ("struct vm_area_struct___2", struct_vm_area_struct___2);
     ("struct core_thread___2", struct_core_thread___2);
     ("struct core_state___2", struct_core_state___2);
     ("struct vmacache___2", struct_vmacache___2);
     ("struct page_frag___2", struct_page_frag___2);
     ("struct thread_struct___2", struct_thread_struct___2);
     ("struct task_struct___2", struct_task_struct___2);
     ("struct ns_common___2", struct_ns_common___2);
     ("struct user_namespace___2", struct_user_namespace___2);
     ("struct fown_struct___2", struct_fown_struct___2); ("struct file___2", struct_file___2);
     ("struct kioctx_cpu", struct_kioctx_cpu); ("struct ctx_rq_wait", struct_ctx_rq_wait);
     ("struct cpudl_item", struct_cpudl_item); ("struct perf_domain", struct_perf_domain);
     ("struct sched_group", struct_sched_group);
     ("struct sched_domain_shared", struct_sched_domain_shared);
     ("struct bpf_cgroup_storage", struct_bpf_cgroup_storage);
     ("struct file_system_type___2", struct_file_system_type___2);
     ("struct super_operations___2", struct_super_operations___2);
     ("struct dquot_operations___2", struct_dquot_operations___2);
     ("struct quotactl_ops___2", struct_quotactl_ops___2);
     ("struct quota_format_type___2", struct_quota_format_type___2);
     ("struct quota_format_ops___2", struct_quota_format_ops___2);
     ("struct kobject___2", struct_kobject___2);
     ("struct module_kobject___2", struct_module_kobject___2);
     ("struct mod_tree_node___2", struct_mod_tree_node___2);
     ("struct module_layout___2", struct_module_layout___2);
     ("struct module___2", struct_module___2); ("struct page___2", struct_page___2);
     ("struct fasync_struct___2", struct_fasync_struct___2);
     ("struct pipe_buffer___2", struct_pipe_buffer___2);
     ("struct rhash_lock_head", struct_rhash_lock_head); ("struct mnt_pcp", struct_mnt_pcp);
     ("struct mountpoint", struct_mountpoint); ("struct tty_ldisc_ops", struct_tty_ldisc_ops);
     ("struct tty_port_operations", struct_tty_port_operations);
     ("struct tty_port_client_operations", struct_tty_port_client_operations);
     ("struct fsnotify_mark", struct_fsnotify_mark); ("struct audit_tree", struct_audit_tree);
     ("struct bpf_prog_ops", struct_bpf_prog_ops);
     ("struct bpf_prog_offload", struct_bpf_prog_offload);
     ("struct btf_header", struct_btf_header); ("struct btf", struct_btf);
     ("struct bpf_prog_stats", struct_bpf_prog_stats);
     ("struct per_cpu_pages", struct_per_cpu_pages);
     ("struct per_cpu_pageset", struct_per_cpu_pageset);
     ("struct per_cpu_nodestat", struct_per_cpu_nodestat);
     ("struct elv_fs_entry", struct_elv_fs_entry);
     ("struct blk_mq_debugfs_attr", struct_blk_mq_debugfs_attr);
     ("struct sbq_wait_state", struct_sbq_wait_state);
     ("struct blkcg_policy_data", struct_blkcg_policy_data);
     ("struct rchan_callbacks", struct_rchan_callbacks);
     ("struct rchan_buf", struct_rchan_buf);
     ("struct buffer_data_page", struct_buffer_data_page);
     ("struct buffer_page", struct_buffer_page);
     ("struct static_key_mod", struct_static_key_mod);
     ("struct tracepoint_func", struct_tracepoint_func); ("struct regex", struct_regex);
     ("struct filter_pred", struct_filter_pred); ("struct iw_priv_args", struct_iw_priv_args);
     ("struct iw_quality", struct_iw_quality); ("struct iw_spy_data", struct_iw_spy_data);
     ("struct in_ifaddr", struct_in_ifaddr); ("struct ip_mc_list", struct_ip_mc_list);
     ("struct neigh_parms", struct_neigh_parms); ("struct ifmcaddr6", struct_ifmcaddr6);
     ("struct ifacaddr6", struct_ifacaddr6);
     ("struct icmpv6_mib_device", struct_icmpv6_mib_device);
     ("struct icmpv6msg_mib_device", struct_icmpv6msg_mib_device);
     ("struct wiphy", struct_wiphy); ("struct ieee80211_channel", struct_ieee80211_channel);
     ("struct key_params", struct_key_params);
     ("struct wpan_phy_supported", struct_wpan_phy_supported);
     ("struct wpan_phy_cca", struct_wpan_phy_cca); ("struct wpan_phy", struct_wpan_phy);
     ("struct wpan_dev_header_ops", struct_wpan_dev_header_ops);
     ("struct rps_map", struct_rps_map); ("struct rps_dev_flow", struct_rps_dev_flow);
     ("struct rps_dev_flow_table", struct_rps_dev_flow_table);
     ("struct xdp_umem", struct_xdp_umem); ("struct tcf_proto", struct_tcf_proto);
     ("struct gnet_stats_basic_cpu", struct_gnet_stats_basic_cpu);
     ("struct Qdisc_ops", struct_Qdisc_ops); ("struct tc_sizespec", struct_tc_sizespec);
     ("struct qdisc_size_table", struct_qdisc_size_table);
     ("struct net_rate_estimator", struct_net_rate_estimator);
     ("struct xps_map", struct_xps_map); ("union inet_addr", union_inet_addr);
     ("struct netpoll", struct_netpoll); ("struct mii_bus", struct_mii_bus);
     ("struct gpio_desc", struct_gpio_desc);
     ("struct mdio_driver_common", struct_mdio_driver_common);
     ("struct phy_driver", struct_phy_driver); ("struct fib_nh", struct_fib_nh);
     ("struct nh_info", struct_nh_info); ("struct nh_grp_entry", struct_nh_grp_entry);
     ("struct nh_group", struct_nh_group);
     ("struct fib_nh_exception", struct_fib_nh_exception);
     ("struct bpf_map_ops", struct_bpf_map_ops); ("struct bucket___2", struct_bucket___2);
     ("struct wait_page_queue", struct_wait_page_queue); ("struct irq_chip", struct_irq_chip);
     ("struct irq_chip_regs", struct_irq_chip_regs);
     ("struct irq_chip_type", struct_irq_chip_type);
     ("struct irq_chip_generic", struct_irq_chip_generic);
     ("struct vm_operations_struct___2", struct_vm_operations_struct___2);
     ("struct upid___2", struct_upid___2); ("struct pid___2", struct_pid___2);
     ("struct cred___2", struct_cred___2); ("struct nsproxy___2", struct_nsproxy___2);
     ("struct signal_struct___2", struct_signal_struct___2);
     ("struct css_set___2", struct_css_set___2);
     ("struct perf_event_context___2", struct_perf_event_context___2);
     ("struct vm_struct___2", struct_vm_struct___2);
     ("struct hw_perf_event___2", struct_hw_perf_event___2);
     ("struct perf_event___2", struct_perf_event___2);
     ("struct proc_ns_operations___2", struct_proc_ns_operations___2);
     ("struct ucounts___2", struct_ucounts___2);
     ("struct em_perf_domain", struct_em_perf_domain);
     ("struct sched_group_capacity", struct_sched_group_capacity);
     ("struct bpf_storage_buffer", struct_bpf_storage_buffer);
     ("struct bpf_cgroup_storage_map", struct_bpf_cgroup_storage_map);
     ("struct kset___2", struct_kset___2); ("struct kobj_type___2", struct_kobj_type___2);
     ("struct kernfs_elem_dir___2", struct_kernfs_elem_dir___2);
     ("struct kernfs_elem_symlink___2", struct_kernfs_elem_symlink___2);
     ("struct kernfs_elem_attr___2", struct_kernfs_elem_attr___2);
     ("struct kernfs_node___2", struct_kernfs_node___2);
     ("struct module_attribute___2", struct_module_attribute___2);
     ("struct kernel_param___2", struct_kernel_param___2);
     ("struct trace_event_call___2", struct_trace_event_call___2);
     ("struct dev_pagemap___2", struct_dev_pagemap___2);
     ("struct pipe_buf_operations___2", struct_pipe_buf_operations___2);
     ("struct inotify_group_private_data", struct_inotify_group_private_data);
     ("struct fanotify_group_private_data", struct_fanotify_group_private_data);
     ("struct fsnotify_group", struct_fsnotify_group);
     ("struct bpf_offload_dev", struct_bpf_offload_dev); ("struct btf_type", struct_btf_type);
     ("struct ftrace_event_field", struct_ftrace_event_field);
     ("struct ip_sf_list", struct_ip_sf_list); ("struct neigh_table", struct_neigh_table);
     ("struct ip6_sf_list", struct_ip6_sf_list); ("struct mac_address", struct_mac_address);
     ("struct ieee80211_txrx_stypes", struct_ieee80211_txrx_stypes);
     ("struct ieee80211_iface_combination", struct_ieee80211_iface_combination);
     ("struct wiphy_wowlan_support", struct_wiphy_wowlan_support);
     ("struct cfg80211_wowlan", struct_cfg80211_wowlan);
     ("struct wiphy_iftype_ext_capab", struct_wiphy_iftype_ext_capab);
     ("struct ieee80211_sta_ht_cap", struct_ieee80211_sta_ht_cap);
     ("struct ieee80211_sta_vht_cap", struct_ieee80211_sta_vht_cap);
     ("struct ieee80211_supported_band", struct_ieee80211_supported_band);
     ("struct ieee80211_freq_range", struct_ieee80211_freq_range);
     ("struct ieee80211_power_rule", struct_ieee80211_power_rule);
     ("struct ieee80211_wmm_ac", struct_ieee80211_wmm_ac);
     ("struct ieee80211_wmm_rule", struct_ieee80211_wmm_rule);
     ("struct ieee80211_reg_rule", struct_ieee80211_reg_rule);
     ("struct ieee80211_regdomain", struct_ieee80211_regdomain);
     ("struct wiphy_coalesce_support", struct_wiphy_coalesce_support);
     ("struct nl80211_vendor_cmd_info", struct_nl80211_vendor_cmd_info);
     ("struct wiphy_vendor_command", struct_wiphy_vendor_command);
     ("struct cfg80211_pmsr_capabilities", struct_cfg80211_pmsr_capabilities);
     ("struct xsk_queue", struct_xsk_queue); ("struct xdp_umem_page", struct_xdp_umem_page);
     ("struct xdp_umem_fq_reuse", struct_xdp_umem_fq_reuse);
     ("struct tcf_proto_ops", struct_tcf_proto_ops); ("struct tcf_chain", struct_tcf_chain);
     ("struct Qdisc_class_ops", struct_Qdisc_class_ops);
     ("struct gpio_device", struct_gpio_device); ("struct fib_info", struct_fib_info);
     ("struct pid_namespace___2", struct_pid_namespace___2);
     ("struct netns_ipv4___2", struct_netns_ipv4___2);
     ("struct dst_ops___2", struct_dst_ops___2);
     ("struct netns_ipv6___2", struct_netns_ipv6___2);
     ("struct netns_ieee802154_lowpan___2", struct_netns_ieee802154_lowpan___2);
     ("struct netns_nf_frag___2", struct_netns_nf_frag___2);
     ("struct sk_buff_head___2", struct_sk_buff_head___2);
     ("struct netns_xfrm___2", struct_netns_xfrm___2); ("struct net___2", struct_net___2);
     ("struct cgroup_namespace___2", struct_cgroup_namespace___2);
     ("struct cgroup_subsys_state___2", struct_cgroup_subsys_state___2);
     ("struct cgroup_file___2", struct_cgroup_file___2);
     ("struct psi_group___2", struct_psi_group___2);
     ("struct cgroup_bpf___2", struct_cgroup_bpf___2);
     ("struct cgroup___2", struct_cgroup___2); ("struct pmu___2", struct_pmu___2);
     ("struct ring_buffer___2", struct_ring_buffer___2);
     ("struct bpf_prog___2", struct_bpf_prog___2);
     ("struct perf_cgroup___2", struct_perf_cgroup___2);
     ("struct kset_uevent_ops___2", struct_kset_uevent_ops___2);
     ("struct sysfs_ops___2", struct_sysfs_ops___2);
     ("struct attribute_group___2", struct_attribute_group___2);
     ("struct kernfs_root___2", struct_kernfs_root___2);
     ("struct kernfs_ops___2", struct_kernfs_ops___2);
     ("struct kernel_param_ops___2", struct_kernel_param_ops___2);
     ("struct kparam_array___2", struct_kparam_array___2);
     ("struct trace_event_class___2", struct_trace_event_class___2);
     ("struct bpf_prog_array_item___2", struct_bpf_prog_array_item___2);
     ("struct bpf_prog_array___2", struct_bpf_prog_array___2);
     ("struct dev_pagemap_ops___2", struct_dev_pagemap_ops___2);
     ("struct fsnotify_ops", struct_fsnotify_ops);
     ("struct fsnotify_event", struct_fsnotify_event);
     ("struct bpf_prog_offload_ops", struct_bpf_prog_offload_ops);
     ("struct neigh_statistics", struct_neigh_statistics);
     ("struct neigh_hash_table", struct_neigh_hash_table);
     ("struct pneigh_entry", struct_pneigh_entry);
     ("struct ieee80211_iface_limit", struct_ieee80211_iface_limit);
     ("struct wiphy_wowlan_tcp_support", struct_wiphy_wowlan_tcp_support);
     ("struct cfg80211_pkt_pattern", struct_cfg80211_pkt_pattern);
     ("struct nl80211_wowlan_tcp_data_seq", struct_nl80211_wowlan_tcp_data_seq);
     ("struct nl80211_wowlan_tcp_data_token", struct_nl80211_wowlan_tcp_data_token);
     ("struct cfg80211_wowlan_tcp", struct_cfg80211_wowlan_tcp);
     ("struct cfg80211_sched_scan_request", struct_cfg80211_sched_scan_request);
     ("struct ieee80211_rate", struct_ieee80211_rate);
     ("struct ieee80211_he_cap_elem", struct_ieee80211_he_cap_elem);
     ("struct ieee80211_he_mcs_nss_supp", struct_ieee80211_he_mcs_nss_supp);
     ("struct ieee80211_sta_he_cap", struct_ieee80211_sta_he_cap);
     ("struct ieee80211_sband_iftype_data", struct_ieee80211_sband_iftype_data);
     ("struct xdp_ring", struct_xdp_ring); ("struct flow_block", struct_flow_block);
     ("struct tcf_block", struct_tcf_block); ("struct gpio_irq_chip", struct_gpio_irq_chip);
     ("struct gpio_chip", struct_gpio_chip);
     ("possible_net_t___2", typedef_possible_net_t___2);
     ("struct dev_pm_info___2", struct_dev_pm_info___2);
     ("struct device___2", struct_device___2);
     ("struct net_device___2", struct_net_device___2); ("struct fqdir___2", struct_fqdir___2);
     ("struct sk_buff___2", struct_sk_buff___2);
     ("struct cgroup_subsys___2", struct_cgroup_subsys___2);
     ("struct cgroup_root___2", struct_cgroup_root___2);
     ("struct cgroup_rstat_cpu___2", struct_cgroup_rstat_cpu___2);
     ("struct perf_cpu_context___2", struct_perf_cpu_context___2);
     ("struct perf_event_mmap_page", struct_perf_event_mmap_page);
     ("struct bpf_prog_aux___2", struct_bpf_prog_aux___2);
     ("struct bin_attribute___2", struct_bin_attribute___2);
     ("struct kernfs_syscall_ops___2", struct_kernfs_syscall_ops___2);
     ("struct hh_cache", struct_hh_cache); ("struct neighbour", struct_neighbour);
     ("struct nl80211_wowlan_tcp_data_token_feature", struct_nl80211_wowlan_tcp_data_token_feature);
     ("struct cfg80211_ssid", struct_cfg80211_ssid);
     ("struct cfg80211_match_set", struct_cfg80211_match_set);
     ("struct cfg80211_sched_scan_plan", struct_cfg80211_sched_scan_plan);
     ("struct net_device_ops___2", struct_net_device_ops___2);
     ("struct ethtool_ops___2", struct_ethtool_ops___2);
     ("struct xfrmdev_ops___2", struct_xfrmdev_ops___2);
     ("struct header_ops___2", struct_header_ops___2);
     ("struct xdp_rxq_info___2", struct_xdp_rxq_info___2);
     ("struct netdev_rx_queue___2", struct_netdev_rx_queue___2);
     ("struct mini_Qdisc___2", struct_mini_Qdisc___2);
     ("struct netdev_queue___2", struct_netdev_queue___2);
     ("struct qdisc_skb_head___2", struct_qdisc_skb_head___2);
     ("struct Qdisc___2", struct_Qdisc___2);
     ("struct device_type___2", struct_device_type___2);
     ("struct bus_type___2", struct_bus_type___2);
     ("struct device_driver___2", struct_device_driver___2);
     ("struct wakeup_source___2", struct_wakeup_source___2);
     ("struct dev_pm_ops___2", struct_dev_pm_ops___2);
     ("struct dev_pm_domain___2", struct_dev_pm_domain___2);
     ("struct dma_map_ops___2", struct_dma_map_ops___2);
     ("struct fwnode_handle___2", struct_fwnode_handle___2);
     ("struct device_node___2", struct_device_node___2);
     ("struct class___2", struct_class___2);
     ("struct rtnl_link_ops___2", struct_rtnl_link_ops___2);
     ("struct dcbnl_rtnl_ops___2", struct_dcbnl_rtnl_ops___2);
     ("struct inet_frags___2", struct_inet_frags___2);
     ("struct cftype___2", struct_cftype___2);
     ("struct bpf_prog_ops___2", struct_bpf_prog_ops___2);
     ("struct bpf_map___2", struct_bpf_map___2);
     ("struct bpf_prog_offload___2", struct_bpf_prog_offload___2);
     ("struct neigh_ops", struct_neigh_ops); ("struct tcf_proto___2", struct_tcf_proto___2);
     ("struct Qdisc_ops___2", struct_Qdisc_ops___2);
     ("struct fwnode_operations___2", struct_fwnode_operations___2);
     ("struct bpf_map_ops___2", struct_bpf_map_ops___2);
     ("struct tcf_proto_ops___2", struct_tcf_proto_ops___2);
     ("struct tcf_chain___2", struct_tcf_chain___2);
     ("struct Qdisc_class_ops___2", struct_Qdisc_class_ops___2);
     ("struct tcf_block___2", struct_tcf_block___2)].

Lemma reached_types4_complete : forallb (fun nt => complete nt.2) reached_types4 = true.
Proof. by_vm. Qed.

End ReachedTypes4.
