(* ===== verification/Enums.v ===== *)
(** * The enumerations of the reached types: src/ebpf/src/kernel/vmlinux.h

    The enumerations that are types of members of the structs in HelperTypes and
    ReachedTypes, with the values the header gives.  A compiler stores an
    enumeration in four bytes as long as its values fit, which these do; so the
    members are words. *)

From Stdlib Require Import ZArith Lia String.
From stdpp Require Import base list strings.
From S2P Require Import Prelude CTypes KernelTypes HelperTypes.
Import CTypes KernelTypes HelperTypes.

Local Open Scope string_scope.
Local Open Scope Z_scope.

Module Enums.

Definition enum_timespec_type : enum :=
    [("TT_NONE", 0); ("TT_NATIVE", 1); ("TT_COMPAT", 2)].

Definition enum_hrtimer_restart : enum :=
    [("HRTIMER_NORESTART", 0); ("HRTIMER_RESTART", 1)].

Definition enum_vtime_state : enum :=
    [("VTIME_INACTIVE", 0); ("VTIME_USER", 1); ("VTIME_SYS", 2)].

Definition enum_dl_dev_state : enum :=
    [("DL_DEV_NO_DRIVER", 0); ("DL_DEV_PROBING", 1); ("DL_DEV_DRIVER_BOUND", 2);
     ("DL_DEV_UNBINDING", 3)].

Definition enum_rpm_request : enum :=
    [("RPM_REQ_NONE", 0); ("RPM_REQ_IDLE", 1); ("RPM_REQ_SUSPEND", 2);
     ("RPM_REQ_AUTOSUSPEND", 3); ("RPM_REQ_RESUME", 4)].

Definition enum_rpm_status : enum :=
    [("RPM_ACTIVE", 0); ("RPM_RESUMING", 1); ("RPM_SUSPENDED", 2); ("RPM_SUSPENDING", 3)].

Definition enum_uprobe_task_state : enum :=
    [("UTASK_RUNNING", 0); ("UTASK_SSTEP", 1); ("UTASK_SSTEP_ACK", 2);
     ("UTASK_SSTEP_TRAPPED", 3)].

Definition enum_memory_type : enum :=
    [("MEMORY_DEVICE_PRIVATE", 1); ("MEMORY_DEVICE_FS_DAX", 2); ("MEMORY_DEVICE_DEVDAX", 3);
     ("MEMORY_DEVICE_PCI_P2PDMA", 4)].

Definition enum_rw_hint : enum :=
    [("WRITE_LIFE_NOT_SET", 0); ("WRITE_LIFE_NONE", 1); ("WRITE_LIFE_SHORT", 2);
     ("WRITE_LIFE_MEDIUM", 3); ("WRITE_LIFE_LONG", 4); ("WRITE_LIFE_EXTREME", 5)].

Definition enum_pid_type : enum :=
    [("PIDTYPE_PID", 0); ("PIDTYPE_TGID", 1); ("PIDTYPE_PGID", 2); ("PIDTYPE_SID", 3);
     ("PIDTYPE_MAX", 4)].

Definition enum_zone_type : enum :=
    [("ZONE_DMA", 0); ("ZONE_DMA32", 1); ("ZONE_NORMAL", 2); ("ZONE_MOVABLE", 3);
     ("ZONE_DEVICE", 4); ("__MAX_NR_ZONES", 5)].

Definition enum_migrate_mode : enum :=
    [("MIGRATE_ASYNC", 0); ("MIGRATE_SYNC_LIGHT", 1); ("MIGRATE_SYNC", 2);
     ("MIGRATE_SYNC_NO_COPY", 3)].

Definition enum_kobj_ns_type : enum :=
    [("KOBJ_NS_TYPE_NONE", 0); ("KOBJ_NS_TYPE_NET", 1); ("KOBJ_NS_TYPES", 2)].

Definition enum_probe_type : enum :=
    [("PROBE_DEFAULT_STRATEGY", 0); ("PROBE_PREFER_ASYNCHRONOUS", 1);
     ("PROBE_FORCE_SYNCHRONOUS", 2)].

Definition enum_perf_event_state : enum :=
    [("PERF_EVENT_STATE_DEAD", 4294967292); ("PERF_EVENT_STATE_EXIT", 4294967293);
     ("PERF_EVENT_STATE_ERROR", 4294967294); ("PERF_EVENT_STATE_OFF", 4294967295);
     ("PERF_EVENT_STATE_INACTIVE", 0); ("PERF_EVENT_STATE_ACTIVE", 1)].

Definition enum_module_state : enum :=
    [("MODULE_STATE_LIVE", 0); ("MODULE_STATE_COMING", 1); ("MODULE_STATE_GOING", 2);
     ("MODULE_STATE_UNFORMED", 3)].

Definition enum_memcg_kmem_state : enum :=
    [("KMEM_NONE", 0); ("KMEM_ALLOCATED", 1); ("KMEM_ONLINE", 2)].

Definition enum_wb_reason : enum :=
    [("WB_REASON_BACKGROUND", 0); ("WB_REASON_VMSCAN", 1); ("WB_REASON_SYNC", 2);
     ("WB_REASON_PERIODIC", 3); ("WB_REASON_LAPTOP_TIMER", 4); ("WB_REASON_FREE_MORE_MEM", 5);
     ("WB_REASON_FS_FREE_SPACE", 6); ("WB_REASON_FORKER_THREAD", 7);
     ("WB_REASON_FOREIGN_FLUSH", 8); ("WB_REASON_MAX", 9)].

Definition enum_blk_zoned_model : enum :=
    [("BLK_ZONED_NONE", 0); ("BLK_ZONED_HA", 1); ("BLK_ZONED_HM", 2)].

Definition enum_irq_domain_bus_token : enum :=
    [("DOMAIN_BUS_ANY", 0); ("DOMAIN_BUS_WIRED", 1); ("DOMAIN_BUS_GENERIC_MSI", 2);
     ("DOMAIN_BUS_PCI_MSI", 3); ("DOMAIN_BUS_PLATFORM_MSI", 4); ("DOMAIN_BUS_NEXUS", 5);
     ("DOMAIN_BUS_IPI", 6); ("DOMAIN_BUS_FSL_MC_MSI", 7); ("DOMAIN_BUS_TI_SCI_INTA_MSI", 8)].

Definition enum_print_line_t : enum :=
    [("TRACE_TYPE_PARTIAL_LINE", 0); ("TRACE_TYPE_HANDLED", 1); ("TRACE_TYPE_UNHANDLED", 2);
     ("TRACE_TYPE_NO_CONSUME", 3)].

Definition enum_mq_rq_state : enum :=
    [("MQ_RQ_IDLE", 0); ("MQ_RQ_IN_FLIGHT", 1); ("MQ_RQ_COMPLETE", 2)].

Definition enum_netdev_ml_priv_type : enum :=
    [("ML_PRIV_NONE", 0); ("ML_PRIV_CAN", 1)].

Definition enum_nf_log_type : enum :=
    [("NF_LOG_TYPE_LOG", 0); ("NF_LOG_TYPE_ULOG", 1); ("NF_LOG_TYPE_MAX", 2)].

Definition enum_socket_state : enum :=
    [("SS_FREE", 0); ("SS_UNCONNECTED", 1); ("SS_CONNECTING", 2); ("SS_CONNECTED", 3);
     ("SS_DISCONNECTING", 4)].

Definition enum_irq_gc_flags : enum :=
    [("IRQ_GC_INIT_MASK_CACHE", 1); ("IRQ_GC_INIT_NESTED_LOCK", 2);
     ("IRQ_GC_MASK_CACHE_PER_TYPE", 4); ("IRQ_GC_NO_MASK", 8); ("IRQ_GC_BE_IO", 16)].

Definition enum_pm_qos_type : enum :=
    [("PM_QOS_UNITIALIZED", 0); ("PM_QOS_MAX", 1); ("PM_QOS_MIN", 2); ("PM_QOS_SUM", 3)].

Definition enum_dev_pm_qos_req_type : enum :=
    [("DEV_PM_QOS_RESUME_LATENCY", 1); ("DEV_PM_QOS_LATENCY_TOLERANCE", 2);
     ("DEV_PM_QOS_FLAGS", 3)].

Definition enum_fs_parameter_type : enum :=
    [("__fs_param_wasnt_defined", 0); ("fs_param_is_flag", 1); ("fs_param_is_bool", 2);
     ("fs_param_is_u32", 3); ("fs_param_is_u32_octal", 4); ("fs_param_is_u32_hex", 5);
     ("fs_param_is_s32", 6); ("fs_param_is_u64", 7); ("fs_param_is_enum", 8);
     ("fs_param_is_string", 9); ("fs_param_is_blob", 10); ("fs_param_is_blockdev", 11);
     ("fs_param_is_path", 12); ("fs_param_is_fd", 13); ("nr__fs_parameter_type", 14)].

Definition enum_audit_state : enum :=
    [("AUDIT_DISABLED", 0); ("AUDIT_BUILD_CONTEXT", 1); ("AUDIT_RECORD_CONTEXT", 2)].

Definition enum_userfaultfd_state : enum :=
    [("UFFD_STATE_WAIT_API", 0); ("UFFD_STATE_RUNNING", 1)].

Definition enum_rq_qos_id : enum :=
    [("RQ_QOS_WBT", 0); ("RQ_QOS_LATENCY", 1); ("RQ_QOS_COST", 2); ("RQ_QOS_IOTRACE", 3)].

Definition enum_phy_state : enum :=
    [("PHY_DOWN", 0); ("PHY_READY", 1); ("PHY_HALTED", 2); ("PHY_UP", 3); ("PHY_RUNNING", 4);
     ("PHY_NOLINK", 5)].

Definition enum_phy_interface_t : enum :=
    [("PHY_INTERFACE_MODE_NA", 0); ("PHY_INTERFACE_MODE_INTERNAL", 1);
     ("PHY_INTERFACE_MODE_MII", 2); ("PHY_INTERFACE_MODE_GMII", 3);
     ("PHY_INTERFACE_MODE_SGMII", 4); ("PHY_INTERFACE_MODE_TBI", 5);
     ("PHY_INTERFACE_MODE_REVMII", 6); ("PHY_INTERFACE_MODE_RMII", 7);
     ("PHY_INTERFACE_MODE_RGMII", 8); ("PHY_INTERFACE_MODE_RGMII_ID", 9);
     ("PHY_INTERFACE_MODE_RGMII_RXID", 10); ("PHY_INTERFACE_MODE_RGMII_TXID", 11);
     ("PHY_INTERFACE_MODE_RTBI", 12); ("PHY_INTERFACE_MODE_SMII", 13);
     ("PHY_INTERFACE_MODE_XGMII", 14); ("PHY_INTERFACE_MODE_MOCA", 15);
     ("PHY_INTERFACE_MODE_QSGMII", 16); ("PHY_INTERFACE_MODE_TRGMII", 17);
     ("PHY_INTERFACE_MODE_1000BASEX", 18); ("PHY_INTERFACE_MODE_2500BASEX", 19);
     ("PHY_INTERFACE_MODE_RXAUI", 20); ("PHY_INTERFACE_MODE_XAUI", 21);
     ("PHY_INTERFACE_MODE_10GKR", 22); ("PHY_INTERFACE_MODE_USXGMII", 23);
     ("PHY_INTERFACE_MODE_MAX", 24)].

Definition enum_nl802154_cca_modes : enum :=
    [("__NL802154_CCA_INVALID", 0); ("NL802154_CCA_ENERGY", 1); ("NL802154_CCA_CARRIER", 2);
     ("NL802154_CCA_ENERGY_CARRIER", 3); ("NL802154_CCA_ALOHA", 4);
     ("NL802154_CCA_UWB_SHR", 5); ("NL802154_CCA_UWB_MULTIPLEXED", 6);
     ("__NL802154_CCA_ATTR_AFTER_LAST", 7); ("NL802154_CCA_ATTR_MAX", 6)].

Definition enum_nl802154_cca_opts : enum :=
    [("NL802154_CCA_OPT_ENERGY_CARRIER_AND", 0); ("NL802154_CCA_OPT_ENERGY_CARRIER_OR", 1);
     ("__NL802154_CCA_OPT_ATTR_AFTER_LAST", 2); ("NL802154_CCA_OPT_ATTR_MAX", 1)].

Definition enum_nl802154_supported_bool_states : enum :=
    [("NL802154_SUPPORTED_BOOL_FALSE", 0); ("NL802154_SUPPORTED_BOOL_TRUE", 1);
     ("__NL802154_SUPPORTED_BOOL_INVALD", 2); ("NL802154_SUPPORTED_BOOL_BOTH", 3);
     ("__NL802154_SUPPORTED_BOOL_AFTER_LAST", 4); ("NL802154_SUPPORTED_BOOL_MAX", 3)].

Definition enum_nl80211_iftype : enum :=
    [("NL80211_IFTYPE_UNSPECIFIED", 0); ("NL80211_IFTYPE_ADHOC", 1);
     ("NL80211_IFTYPE_STATION", 2); ("NL80211_IFTYPE_AP", 3); ("NL80211_IFTYPE_AP_VLAN", 4);
     ("NL80211_IFTYPE_WDS", 5); ("NL80211_IFTYPE_MONITOR", 6);
     ("NL80211_IFTYPE_MESH_POINT", 7); ("NL80211_IFTYPE_P2P_CLIENT", 8);
     ("NL80211_IFTYPE_P2P_GO", 9); ("NL80211_IFTYPE_P2P_DEVICE", 10);
     ("NL80211_IFTYPE_OCB", 11); ("NL80211_IFTYPE_NAN", 12); ("NUM_NL80211_IFTYPES", 13);
     ("NL80211_IFTYPE_MAX", 12)].

Definition enum_ieee80211_bss_type : enum :=
    [("IEEE80211_BSS_TYPE_ESS", 0); ("IEEE80211_BSS_TYPE_PBSS", 1);
     ("IEEE80211_BSS_TYPE_IBSS", 2); ("IEEE80211_BSS_TYPE_MBSS", 3);
     ("IEEE80211_BSS_TYPE_ANY", 4)].

Definition enum_nl80211_chan_width : enum :=
    [("NL80211_CHAN_WIDTH_20_NOHT", 0); ("NL80211_CHAN_WIDTH_20", 1);
     ("NL80211_CHAN_WIDTH_40", 2); ("NL80211_CHAN_WIDTH_80", 3);
     ("NL80211_CHAN_WIDTH_80P80", 4); ("NL80211_CHAN_WIDTH_160", 5);
     ("NL80211_CHAN_WIDTH_5", 6); ("NL80211_CHAN_WIDTH_10", 7)].

Definition enum_ieee80211_edmg_bw_config : enum :=
    [("IEEE80211_EDMG_BW_CONFIG_4", 4); ("IEEE80211_EDMG_BW_CONFIG_5", 5);
     ("IEEE80211_EDMG_BW_CONFIG_6", 6); ("IEEE80211_EDMG_BW_CONFIG_7", 7);
     ("IEEE80211_EDMG_BW_CONFIG_8", 8); ("IEEE80211_EDMG_BW_CONFIG_9", 9);
     ("IEEE80211_EDMG_BW_CONFIG_10", 10); ("IEEE80211_EDMG_BW_CONFIG_11", 11);
     ("IEEE80211_EDMG_BW_CONFIG_12", 12); ("IEEE80211_EDMG_BW_CONFIG_13", 13);
     ("IEEE80211_EDMG_BW_CONFIG_14", 14); ("IEEE80211_EDMG_BW_CONFIG_15", 15)].

Definition enum_nl80211_auth_type : enum :=
    [("NL80211_AUTHTYPE_OPEN_SYSTEM", 0); ("NL80211_AUTHTYPE_SHARED_KEY", 1);
     ("NL80211_AUTHTYPE_FT", 2); ("NL80211_AUTHTYPE_NETWORK_EAP", 3);
     ("NL80211_AUTHTYPE_SAE", 4); ("NL80211_AUTHTYPE_FILS_SK", 5);
     ("NL80211_AUTHTYPE_FILS_SK_PFS", 6); ("NL80211_AUTHTYPE_FILS_PK", 7);
     ("__NL80211_AUTHTYPE_NUM", 8); ("NL80211_AUTHTYPE_MAX", 7);
     ("NL80211_AUTHTYPE_AUTOMATIC", 8)].

Definition enum_nl80211_mfp : enum :=
    [("NL80211_MFP_NO", 0); ("NL80211_MFP_REQUIRED", 1); ("NL80211_MFP_OPTIONAL", 2)].

Definition enum_nl80211_bss_select_attr : enum :=
    [("__NL80211_BSS_SELECT_ATTR_INVALID", 0); ("NL80211_BSS_SELECT_ATTR_RSSI", 1);
     ("NL80211_BSS_SELECT_ATTR_BAND_PREF", 2); ("NL80211_BSS_SELECT_ATTR_RSSI_ADJUST", 3);
     ("__NL80211_BSS_SELECT_ATTR_AFTER_LAST", 4); ("NL80211_BSS_SELECT_ATTR_MAX", 3)].

Definition enum_nl80211_band : enum :=
    [("NL80211_BAND_2GHZ", 0); ("NL80211_BAND_5GHZ", 1); ("NL80211_BAND_60GHZ", 2);
     ("NL80211_BAND_6GHZ", 3); ("NUM_NL80211_BANDS", 4)].

Definition enum_nl80211_dfs_regions : enum :=
    [("NL80211_DFS_UNSET", 0); ("NL80211_DFS_FCC", 1); ("NL80211_DFS_ETSI", 2);
     ("NL80211_DFS_JP", 3)].

Definition enum_nl80211_key_mode : enum :=
    [("NL80211_KEY_RX_TX", 0); ("NL80211_KEY_NO_TX", 1); ("NL80211_KEY_SET_TX", 2)].

Definition enum_nl80211_bss_scan_width : enum :=
    [("NL80211_BSS_CHAN_WIDTH_20", 0); ("NL80211_BSS_CHAN_WIDTH_10", 1);
     ("NL80211_BSS_CHAN_WIDTH_5", 2)].

Definition enum_nl80211_dfs_state : enum :=
    [("NL80211_DFS_USABLE", 0); ("NL80211_DFS_UNAVAILABLE", 1); ("NL80211_DFS_AVAILABLE", 2)].

Definition enum_cfg80211_signal_type : enum :=
    [("CFG80211_SIGNAL_TYPE_NONE", 0); ("CFG80211_SIGNAL_TYPE_MBM", 1);
     ("CFG80211_SIGNAL_TYPE_UNSPEC", 2)].

(** The enumerations of this file. *)
Definition member_enums : list enum :=
    [enum_timespec_type; enum_hrtimer_restart; enum_vtime_state; enum_dl_dev_state;
     enum_rpm_request; enum_rpm_status; enum_uprobe_task_state; enum_memory_type;
     enum_rw_hint; enum_pid_type; enum_zone_type; enum_migrate_mode; enum_kobj_ns_type;
     enum_probe_type; enum_perf_event_state; enum_module_state; enum_memcg_kmem_state;
     enum_wb_reason; enum_blk_zoned_model; enum_irq_domain_bus_token; enum_print_line_t;
     enum_mq_rq_state; enum_netdev_ml_priv_type; enum_nf_log_type; enum_socket_state;
     enum_irq_gc_flags; enum_pm_qos_type; enum_dev_pm_qos_req_type; enum_fs_parameter_type;
     enum_audit_state; enum_userfaultfd_state; enum_rq_qos_id; enum_phy_state;
     enum_phy_interface_t; enum_nl802154_cca_modes; enum_nl802154_cca_opts;
     enum_nl802154_supported_bool_states; enum_nl80211_iftype; enum_ieee80211_bss_type;
     enum_nl80211_chan_width; enum_ieee80211_edmg_bw_config; enum_nl80211_auth_type;
     enum_nl80211_mfp; enum_nl80211_bss_select_attr; enum_nl80211_band;
     enum_nl80211_dfs_regions; enum_nl80211_key_mode; enum_nl80211_bss_scan_width;
     enum_nl80211_dfs_state; enum_cfg80211_signal_type].

(** All values fit a signed or an unsigned integer of [bits] bits. *)
Definition fits_bits (bits : Z) (e : enum) : bool :=
  forallb (fun c => (0 <=? c.2) && (c.2 <? 2 ^ bits)) e
  || forallb (fun c => (- 2 ^ (bits - 1) <=? c.2) && (c.2 <? 2 ^ (bits - 1))) e.

Lemma enums_fit : forallb (fits_bits (csize Enum)) member_enums = true.
Proof. by_vm. Qed.

End Enums.
