(* ===== verification/TypeGraph.v ===== *)
(** * The types a program can reach: src/ebpf/src/headers/bpf_helper_defs.h
    and src/ebpf/src/kernel/vmlinux.h

    From the structs a helper takes or returns a program can follow pointers.
    This file puts the declarations of KernelTypes, HelperTypes and ReachedTypes
    in one table and shows that every chain of pointers stays in it, or ends in
    a type the header does not declare; and that the socket casts keep the
    members all sockets share where they are. *)

From Stdlib Require Import ZArith Lia String.
From stdpp Require Import base gmap list strings.
From S2P Require Import Prelude CTypes Helpers HelperDefs KernelTypes HelperTypes ReachedTypes1 ReachedTypes2 ReachedTypes3 ReachedTypes4.
Import CTypes KernelTypes HelperTypes ReachedTypes1 ReachedTypes2 ReachedTypes3 ReachedTypes4.

Local Open Scope string_scope.
Local Open Scope Z_scope.

Module TypeGraph.

(** ** The types of a helper's signature *)

(** The structs a type of a declaration names. *)
Fixpoint struct_tags (t : Helpers.ctype) : list string :=
  match t with
  | Helpers.Struct name => ["struct " ++ name]
  | Helpers.Ptr _ t' => struct_tags t'
  | _ => []
  end.

Definition helper_tags (h : Helpers.helper) : list string :=
  (struct_tags (Helpers.h_ret h) ++ concat (map (fun p => struct_tags p.1) (Helpers.h_params h)))%list.

(** ** The declarations by name *)

Definition types : list (string * cty) :=
  (kernel_types ++ helper_types ++ reached_types1 ++ reached_types2 ++ reached_types3 ++ reached_types4)%list.

Definition type_map : gmap string cty := list_to_map types.

Definition declared (name : string) : option cty := type_map !! name.

(** Types that the headers name and vmlinux.h does not declare: those of
    helpers its kernel does not have, and types private to one of the kernel's
    own files.  A program can only pass on pointers to them. *)
Definition incomplete_helper_types : list string :=
    ["struct bpf_pidns_info"; "struct bpf_sk_lookup"; "struct bpf_timer"; "struct btf_ptr";
     "struct tcp6_sock"; "struct udp6_sock"; "struct xdp_md"].

Definition incomplete_pointees : list string :=
    ["struct assoc_array_ptr"; "struct can_dev_rcv_lists"; "struct can_pkg_stats";
     "struct can_rcv_lists_stats"; "struct cfg80211_cached_keys"; "struct cfg80211_conn";
     "struct cfg80211_cqm_config"; "struct cfg80211_internal_bss"; "struct dn_dev";
     "struct ebt_table"; "struct garp_port"; "struct libipw_device"; "struct mpls_dev";
     "struct mpls_route"; "struct mrp_port"; "struct mtd_info"; "struct netns_ipvs"; "struct pcpu_dstats";
     "struct phylink"; "struct reset_control"; "struct sctp_mib"; "struct sfp_bus";
     "struct tipc_bearer"].

Definition incomplete : list string := (incomplete_helper_types ++ incomplete_pointees)%list.

(** [reaches a b]: a chain of pointers, each a member of what the one before
    points to, leads from type [a] to type [b]. *)
Inductive reaches : string -> string -> Prop :=
  | reaches_here a : reaches a a
  | reaches_follow a t b c : declared a = Some t -> b ∈ pointees t -> reaches b c -> reaches a c.

(** ** Lemmas *)

Lemma types_complete : forallb (fun nt => complete nt.2) types = true.
Proof.
  unfold types. rewrite !forallb_app. by rewrite kernel_types_complete, helper_types_complete,
    reached_types1_complete, reached_types2_complete, reached_types3_complete, reached_types4_complete.
Qed.

Lemma declared_elem name t : declared name = Some t -> (name, t) ∈ types.
Proof. exact (elem_of_list_to_map_2 (M := gmap string) types name t). Qed.

Lemma declared_complete name t : declared name = Some t -> complete t = true.
Proof. intros Hin%declared_elem. exact (complete_table _ _ _ types_complete Hin). Qed.

Lemma existsb_eqb (name : string) (names : list string) :
  existsb (String.eqb name) names = true <-> name ∈ names.
Proof.
  rewrite existsb_exists, list_elem_of_In. split.
  - intros (x & Hx & ->%String.eqb_eq). done.
  - intros Hx. exists name. by rewrite String.eqb_refl.
Qed.

(** Either a type has a declaration or it is an incomplete one. *)
Definition resolved (name : string) : bool :=
  match declared name with
  | Some _ => negb (existsb (String.eqb name) incomplete)
  | None => existsb (String.eqb name) incomplete
  end.

Lemma helper_tags_resolved :
  forallb (fun h => forallb resolved (helper_tags h)) HelperDefs.helper_table = true.
Proof. by_vm. Qed.

Lemma pointees_resolved : forallb (fun nt => forallb resolved (pointees nt.2)) types = true.
Proof. by_vm. Qed.

(** From here on the table is only computed with by the kernel. *)
#[local] Opaque types type_map.

Lemma resolved_cases name : resolved name = true ->
  (name ∈ incomplete /\ declared name = None) \/
  exists t, name ∉ incomplete /\ declared name = Some t /\ complete t = true.
Proof.
  unfold resolved. destruct (declared name) as [t|] eqn:Et; intros Hr.
  - right. exists t. apply negb_true_iff in Hr. split_and!; [by rewrite <- existsb_eqb, Hr|done|].
    by apply (declared_complete name).
  - left. split; [by apply existsb_eqb|done].
Qed.

Lemma helper_tag_resolved h name :
  h ∈ HelperDefs.helper_table -> name ∈ helper_tags h -> resolved name = true.
Proof.
  intros Hh Ht. pose proof (HelperDefs.helper_table_forall _ helper_tags_resolved h Hh) as H.
  rewrite forallb_forall in H. by apply H, list_elem_of_In.
Qed.

Lemma pointee_resolved name t to :
  declared name = Some t -> to ∈ pointees t -> resolved to = true.
Proof.
  intros Hin%declared_elem Hto. pose proof pointees_resolved as H. rewrite forallb_forall in H.
  apply list_elem_of_In in Hin. specialize (H (name, t) Hin). rewrite forallb_forall in H.
  by apply H, list_elem_of_In.
Qed.

Lemma reaches_resolved a b : reaches a b -> resolved a = true -> resolved b = true.
Proof. induction 1 as [|a t b c Ha Hb _ IH]; [done|]. intros _. by eapply IH, pointee_resolved. Qed.

(** Sizes the kernel's own code relies on. *)
Example type_sizes :
  map sizeof [struct_list_head; typedef_atomic_t; typedef_spinlock_t; struct_mutex; struct_rw_semaphore;
              struct_callback_head; struct_cpumask; struct_sock_common; struct_orc_entry]
  = [16; 4; 4; 32; 40; 16; 64; 136; 6].
Proof. by_vm. Qed.

(** ** Socket casts *)

(** The helpers that turn a socket into a particular one. *)
Definition is_skc_cast (h : Helpers.helper) : bool := String.prefix "bpf_skc_to_" (Helpers.h_name h).

(** What they return, with its declaration. *)
Definition skc_structs : list (string * option cty) :=
  [("struct tcp_sock", Some struct_tcp_sock); ("struct tcp_timewait_sock", Some struct_tcp_timewait_sock);
   ("struct tcp_request_sock", Some struct_tcp_request_sock); ("struct unix_sock", Some struct_unix_sock);
   ("struct tcp6_sock", None); ("struct udp6_sock", None)].

Lemma skc_tags :
  forallb (fun h => implb (is_skc_cast h)
    (forallb (fun name => existsb (String.eqb name) skc_structs.*1) (struct_tags (Helpers.h_ret h))))
    HelperDefs.helper_table = true.
Proof. by_vm. Qed.

Lemma skc_structs_of name d : (name, d) ∈ skc_structs -> declared name = d.
Proof.
  unfold skc_structs. rewrite !elem_of_cons.
  intros H. repeat destruct H as [[= -> ->]|H]; [by_vm..|by apply not_elem_of_nil in H].
Qed.

Lemma skc_structs_start name t : (name, Some t) ∈ skc_structs -> starts_with t struct_sock_common.
Proof.
  unfold skc_structs. rewrite !elem_of_cons.
  intros [[= -> ->]|[[= -> ->]|[[= -> ->]|[[= -> ->]|[[=]|[[=]|H%not_elem_of_nil]]]]]];
    [..|done]; repeat constructor.
Qed.

Lemma skc_cast_starts h name t :
  h ∈ HelperDefs.helper_table -> is_skc_cast h = true -> name ∈ struct_tags (Helpers.h_ret h) ->
  declared name = Some t -> starts_with t struct_sock_common.
Proof.
  intros Hh Hc Ht Hs. pose proof (HelperDefs.helper_table_forall _ skc_tags h Hh) as H.
  cbv beta in H. rewrite Hc in H. cbn [implb] in H. rewrite forallb_forall in H.
  specialize (H name (proj1 (list_elem_of_In _ _) Ht)). apply existsb_eqb in H.
  apply list_elem_of_fmap in H as ([name' d] & Ename & Hin). cbn [fst] in Ename. subst name'.
  pose proof (skc_structs_of name d Hin) as Ed. apply (skc_structs_start name t).
  rewrite <- Hs, Ed. exact Hin.
Qed.

(** ** Properties *)

(** Whatever pointers a program follows from a struct a helper takes or returns,
    it arrives at a type vmlinux.h declares, or at one of the incomplete ones,
    which it can only pass on. *)
Theorem helper_pointers_stay_declared (h : Helpers.helper) (name to : string) :
  h ∈ HelperDefs.helper_table -> name ∈ helper_tags h -> reaches name to ->
  (to ∈ incomplete /\ declared to = None) \/
  exists t, to ∉ incomplete /\ declared to = Some t /\ laid_out t.
Proof.
  intros Hh Ht Hto. pose proof (helper_tag_resolved h name Hh Ht) as Hr.
  destruct (resolved_cases to) as [?|(t & Hni & Hd & Hc)]; [by eapply reaches_resolved|by left|].
  right. exists t. split_and!; [done..|]. by apply complete_laid_out.
Qed.

(** From a socket, through its network namespace and the routes of MPLS, which
    are behind a pointer to pointers, to a type that is not declared. *)
Example tcp_sock_reaches_mpls_route :
  reaches "struct tcp_sock" "struct mpls_route" /\ declared "struct mpls_route" = None.
Proof.
  split; [|by_vm].
  apply (reaches_follow _ struct_tcp_sock "struct net"); [by_vm|apply existsb_eqb; by_vm|].
  apply (reaches_follow _ struct_net "struct mpls_route"); [by_vm|apply existsb_eqb; by_vm|].
  apply reaches_here.
Qed.

(** C40. The socket casts return the pointer they are given.  What they return is
    declared as a struct whose first scalars are those of [struct sock_common],
    at the same positions and of the same sizes, and which is not shorter, or it
    is not declared at all: so a program reads the same members through the cast
    pointer as through the original one. *)
Theorem skc_casts_keep_common (h : Helpers.helper) (name : string) :
  h ∈ HelperDefs.helper_table -> is_skc_cast h = true -> name ∈ struct_tags (Helpers.h_ret h) ->
  declared name = None \/
  exists t path rest, declared name = Some t /\
    csize struct_sock_common <= csize t /\
    leaves "" 0 t = (leaves path 0 struct_sock_common ++ rest)%list.
Proof.
  intros Hh Hskc Hret. destruct (declared name) as [t|] eqn:Hd; [right|by left].
  pose proof (skc_cast_starts h name t Hh Hskc Hret Hd) as Hst.
  pose proof (declared_complete name t Hd) as [Hwf _]%andb_true_iff.
  destruct (starts_with_leaves t struct_sock_common "" 0 Hst Hwf) as (path & rest & E).
  exists t, path, rest. split_and!; [done| |done]. exact (starts_with_size t struct_sock_common Hst Hwf).
Qed.

Lemma skc_casts_keep_common_witness :
  declared "struct tcp_sock" = None \/
  exists t path rest, declared "struct tcp_sock" = Some t /\
    csize struct_sock_common <= csize t /\
    leaves "" 0 t = (leaves path 0 struct_sock_common ++ rest)%list.
Proof.
  refine (skc_casts_keep_common HelperDefs.bpf_skc_to_tcp_sock "struct tcp_sock" _ _ _).
  - apply list_elem_of_lookup. exists 136%nat. by_vm.
  - by_vm.
  - apply list_elem_of_lookup. exists 0%nat. by_vm.
Defined.

End TypeGraph.
