(* ===== verification/Connect4.v ===== *)
(** * The eBPF program: src/ebpf/src/service.c

    [connect4] runs in the kernel on every IPv4 [connect] of a process of the
    cgroup.  It looks the destination up in the services map, picks one of the
    service's slots with a random word, looks the slot up in the backends map
    and rewrites the destination.  The socket types come from
    src/ebpf/src/kernel/socket.h, the context from [struct bpf_sock_addr] of
    src/ebpf/src/kernel/vmlinux.h. *)

From Stdlib Require Import ZArith Lia String Ascii.
From stdpp Require Import base gmap list list_numbers strings.
From S2P Require Import Prelude Layout BpfMap.
Import Layout BpfMap.

Local Open Scope Z_scope.
Local Open Scope word_scope.

Module Connect4.

(** ** Data *)

(** Socket types of socket.h. *)
Definition SOCK_STREAM : Z := 1.
Definition SOCK_DGRAM : Z := 2.
Definition SOCK_RAW : Z := 3.
Definition SOCK_RDM : Z := 4.
Definition SOCK_SEQPACKET : Z := 5.
Definition SOCK_PACKET : Z := 10.

(** The context of a [cgroup/connect4] program. *)
Record bpf_sock_addr := mk_sock_addr {
  user_family : Z;
  user_ip4 : Z;
  user_ip6 : list Z;
  user_port : Z;
  family : Z;
  type : Z;
  protocol : Z;
  msg_src_ip4 : Z;
  msg_src_ip6 : list Z;
  sk : Z
}.

Definition set_user_ip4 (v : Z) (c : bpf_sock_addr) : bpf_sock_addr :=
  mk_sock_addr (user_family c) v (user_ip6 c) (user_port c) (family c) (type c)
    (protocol c) (msg_src_ip4 c) (msg_src_ip6 c) (sk c).
Definition set_user_port (v : Z) (c : bpf_sock_addr) : bpf_sock_addr :=
  mk_sock_addr (user_family c) (user_ip4 c) (user_ip6 c) v (family c) (type c)
    (protocol c) (msg_src_ip4 c) (msg_src_ip6 c) (sk c).

(** The capacities of the two maps. *)
Definition CILIUM_LB_SERVICE_MAP_MAX_ENTRIES : nat := 256 * 256.
Definition CILIUM_LB_BACKENDS_MAP_MAX_ENTRIES : nat := 256 * 256.

(** The [\n] of a C format string. *)
Definition newline : string := String (Ascii.ascii_of_nat 10) "".

(** A line written by [bpf_printk]. *)
Record trace_line := bpf_printk { fmt : string; args : list Z }.

(** ** The program *)

(** [key] is zero-initialised, then its fields are assigned; the port and the
    protocol are 32-bit fields of the context and are truncated. *)
Definition service_key (ctx : bpf_sock_addr) : lb4_key :=
  mk_lb4_key (user_ip4 ctx) (uwrap 16 (user_port ctx)) (uwrap 8 (protocol ctx)) 0.

(** [(bpf_get_prandom_u32() % count) + 1] in a [__u16]. *)
Definition slot_index (prandom count : Z) : Z := uwrap 16 (prandom mod count + 1).

(** [value->service_id << 16 | index] in a [__u32]; the shift is done in a
    32-bit register. *)
Definition backend_id (service_id index : Z) : Z :=
  uwrap 32 ((service_id <<[32] 16) .| index).

Section program.
Context {SM BM : Type} `{!MapOps lb4_key lb4_service SM} `{!MapOps Z lb4_backend BM}.

Definition connect4 (eproxy_lb4_services : SM) (eproxy_lb4_backends : BM)
    (prandom : Z) (ctx : bpf_sock_addr) : Z * bpf_sock_addr * list trace_line :=
  let ret := 1 in
  if negb (type ctx =? SOCK_STREAM) && negb (type ctx =? SOCK_DGRAM)
  then (ret, ctx, [bpf_printk "unkonw socket type" []])
  else
    let key := service_key ctx in
    let log1 := bpf_printk ("before user ip %lu, port:%d,protocol: %d, " ++ newline)%string
                  [user_ip4 ctx; user_port ctx; protocol ctx] in
    match map_lookup eproxy_lb4_services key with
    | None => (1, ctx, [log1])
    | Some value =>
        let count := Layout.count value in
        if count =? 0 then (1, ctx, [log1])
        else
          let index := slot_index prandom count in
          let blackend_id := backend_id (service_id value) index in
          let log2 := bpf_printk "query endpoint id: %d" [blackend_id] in
          match map_lookup eproxy_lb4_backends blackend_id with
          | None => (1, ctx, [log1; log2])
          | Some end_value =>
              let ctx := set_user_ip4 (backend_address end_value) ctx in
              let ctx := set_user_port (backend_port end_value) ctx in
              let log3 := bpf_printk ("after user ip %lu, port:%d" ++ newline)%string
                            [user_ip4 ctx; user_port ctx] in
              (1, ctx, [log1; log2; log3])
          end
    end.

Definition connect4_ret s b r ctx : Z := (connect4 s b r ctx).1.1.
Definition connect4_ctx s b r ctx : bpf_sock_addr := (connect4 s b r ctx).1.2.
End program.

(** ** Abstract specification: a load balancer

    A table gives for a destination the list of its backends; a connection of
    a supported socket type goes to the backend the random word selects, any
    other connection is left alone. *)

Definition lb_table : Type := lb4_key -> option (list lb4_backend).

Definition supported (ctx : bpf_sock_addr) : bool :=
  (type ctx =? SOCK_STREAM) || (type ctx =? SOCK_DGRAM).

Definition redirect (b : lb4_backend) (ctx : bpf_sock_addr) : bpf_sock_addr :=
  set_user_port (backend_port b) (set_user_ip4 (backend_address b) ctx).

Definition lb_connect (T : lb_table) (prandom : Z) (ctx : bpf_sock_addr) : bpf_sock_addr :=
  if supported ctx then
    match T (service_key ctx) with
    | Some bs =>
        match bs !! Z.to_nat (prandom mod Z.of_nat (length bs)) with
        | Some b => redirect b ctx
        | None => ctx
        end
    | None => ctx
    end
  else ctx.

Section refinement.
Context {SM BM : Type} `{!MapOps lb4_key lb4_service SM} `{!MapOps Z lb4_backend BM}.

(** The maps represent the table: a service entry with [count] backends has
    its slots 1 to [count] filled in order. *)
Definition service_slots (b : BM) (v : lb4_service) (bs : list lb4_backend) : Prop :=
  in_u 16 (service_id v) /\
  count v = Z.of_nat (length bs) /\ in_u 16 (count v) /\
  forall i x, bs !! i = Some x ->
    map_lookup b (backend_id (service_id v) (Z.of_nat i + 1)) = Some x.

Definition represents (s : SM) (b : BM) (T : lb_table) : Prop :=
  forall k, match map_lookup s k, T k with
            | None, None => True
            | Some v, Some bs => service_slots b v bs
            | _, _ => False
            end.
End refinement.

(** ** Lemmas on slots and backend ids *)

Lemma slot_index_range r n : 0 <= r -> 0 < n -> in_u 16 n -> 1 <= slot_index r n <= n.
Proof.
  intros Hr Hn Hn16. pose proof (Z.mod_pos_bound r n ltac:(lia)).
  unfold slot_index. rewrite uwrap_small; [lia|]. unfold in_u in *. lia.
Qed.

Lemma slot_index_eq r n : 0 <= r -> 0 < n -> in_u 16 n -> slot_index r n = r mod n + 1.
Proof.
  intros Hr Hn Hn16. pose proof (Z.mod_pos_bound r n ltac:(lia)).
  unfold slot_index. apply uwrap_small. unfold in_u in *. lia.
Qed.

Lemma backend_id_bits sid idx i :
  in_u 16 sid -> in_u 16 idx -> 0 <= i ->
  Z.testbit (backend_id sid idx) i =
  if i <? 16 then Z.testbit idx i else Z.testbit sid (i - 16).
Proof.
  intros Hs Hi Hi0. unfold backend_id, shl.
  rewrite testbit_uwrap, Z.lor_spec, testbit_uwrap, Z.shiftl_spec by lia.
  destruct (Z.ltb_spec i 16).
  - rewrite (Z.testbit_neg_r sid) by lia. split_ltb. done.
  - rewrite (testbit_in_u 16 idx) by (done || lia). rewrite orb_false_r.
    destruct (Z.ltb_spec i 32); [done|].
    rewrite (testbit_in_u 16 sid) by (done || lia). done.
Qed.

Lemma backend_id_low sid idx :
  in_u 16 sid -> in_u 16 idx -> uwrap 16 (backend_id sid idx) = idx.
Proof.
  intros Hs Hi. apply Z.bits_inj'. intros i Hi0.
  rewrite testbit_uwrap, backend_id_bits by (done || lia).
  destruct (Z.ltb_spec i 16); [done|]. by rewrite (testbit_in_u 16 idx) by (done || lia).
Qed.

Lemma backend_id_high sid idx :
  in_u 16 sid -> in_u 16 idx -> backend_id sid idx >> 16 = sid.
Proof.
  intros Hs Hi. apply Z.bits_inj'. intros i Hi0. unfold shr.
  rewrite Z.shiftr_spec, backend_id_bits by (done || lia).
  destruct (Z.ltb_spec (i + 16) 16); [lia|]. f_equal. lia.
Qed.

Lemma backend_id_inj sid idx sid' idx' :
  in_u 16 sid -> in_u 16 idx -> in_u 16 sid' -> in_u 16 idx' ->
  backend_id sid idx = backend_id sid' idx' -> sid = sid' /\ idx = idx'.
Proof.
  intros Hs Hi Hs' Hi' E. split.
  - by rewrite <- (backend_id_high sid idx), E, backend_id_high.
  - by rewrite <- (backend_id_low sid idx), E, backend_id_low.
Qed.

(** ** Counting the random words that select a slot *)

Definition picks (words n i : Z) : nat :=
  length (filter (fun r => slot_index r n = i + 1) (seqZ 0 words)).

Lemma picks_step w n i :
  0 <= w ->
  picks (w + 1) n i = (picks w n i + if decide (slot_index w n = (i + 1)%Z) then 1 else 0)%nat.
Proof.
  intros Hw. unfold picks. rewrite seqZ_app by lia.
  rewrite filter_app, length_app. f_equal.
  assert (seqZ (0 + w) 1 = [w]) as -> by (unfold seqZ; simpl; f_equal; lia).
  rewrite filter_cons, filter_nil. by case_decide.
Qed.

(** Among the first [w] words, slot [i] is selected once per full round and
    once more when the last round has passed it. *)
Lemma picks_count w n i :
  0 <= w -> 0 <= i < n -> in_u 16 n ->
  Z.of_nat (picks w n i) = w / n + (if i <? w mod n then 1 else 0).
Proof.
  intros Hw Hi Hn. pattern w. apply natlike_ind; [|clear w Hw; intros w Hw IH|done].
  - unfold picks. rewrite Z.mod_0_l by lia. destruct (Z.ltb_spec i 0); [lia|done].
  - replace (Z.succ w) with (w + 1) by lia. rewrite picks_step, Nat2Z.inj_add, IH by lia.
    rewrite slot_index_eq by (done || lia).
    pose proof (Z.mod_pos_bound w n ltac:(lia)). pose proof (Z.div_mod w n ltac:(lia)).
    destruct (decide (w mod n = n - 1)) as [E|E].
    + assert ((w + 1) / n = w / n + 1) as -> by (symmetry; apply Z.div_unique_pos with 0; lia).
      assert ((w + 1) mod n = 0) as ->
        by (symmetry; apply Z.mod_unique_pos with (w / n + 1); lia).
      case_decide; split_ltb; lia.
    + assert ((w + 1) / n = w / n) as ->
        by (symmetry; apply Z.div_unique_pos with (w mod n + 1); lia).
      assert ((w + 1) mod n = w mod n + 1) as ->
        by (symmetry; apply Z.mod_unique_pos with (w / n); lia).
      case_decide; split_ltb; lia.
Qed.

Section properties.
Context {SM BM : Type} `{!MapOps lb4_key lb4_service SM} `{!MapOps Z lb4_backend BM}.

(** What a run does to the context: nothing, or the redirection to the entry of
    the backends map that the random word selects. *)
Lemma connect4_ctx_cases (s : SM) (b : BM) (r : Z) (ctx : bpf_sock_addr) :
  connect4_ctx s b r ctx = ctx \/
  exists v x, supported ctx = true /\ map_lookup s (service_key ctx) = Some v /\ count v <> 0 /\
    map_lookup b (backend_id (service_id v) (slot_index r (count v))) = Some x /\
    connect4_ctx s b r ctx = redirect x ctx.
Proof.
  unfold connect4_ctx, connect4, supported.
  destruct (type ctx =? SOCK_STREAM), (type ctx =? SOCK_DGRAM); cbn [negb andb orb]; try by left.
  all: destruct (map_lookup s (service_key ctx)) as [v|]; [|by left].
  all: destruct (Z.eqb_spec (count v) 0); [by left|].
  all: destruct (map_lookup b _) as [x|] eqn:Ex; [|by left].
  all: right; by exists v, x.
Qed.

(** ** Properties *)

(** C8. The program admits every connection (it returns 1) and changes at most
    the destination address and port: when it changes them, the socket type
    is supported, the service of the destination exists with a positive
    count, and the new destination is the entry of the backends map at a
    slot between 1 and that count. *)
Theorem connect4_safe (s : SM) (b : BM) (r : Z) (ctx : bpf_sock_addr) :
  0 <= r -> (forall k v, map_lookup s k = Some v -> in_u 16 (count v)) ->
  connect4_ret s b r ctx = 1 /\
  (connect4_ctx s b r ctx = ctx \/
   exists v i x,
     supported ctx = true /\ map_lookup s (service_key ctx) = Some v /\
     1 <= i <= count v /\ map_lookup b (backend_id (service_id v) i) = Some x /\
     connect4_ctx s b r ctx = redirect x ctx).
Proof.
  intros Hr Hs. split.
  - unfold connect4_ret, connect4. destruct (_ && _); [done|].
    destruct (map_lookup s _) as [v|]; [|done]. destruct (count v =? 0); [done|].
    by destruct (map_lookup b _).
  - destruct (connect4_ctx_cases s b r ctx) as [?|(v & x & Hsup & Ev & Hne & Ex & E)]; [by left|right].
    exists v, (slot_index r (count v)), x. specialize (Hs _ _ Ev).
    pose proof (slot_index_range r (count v) Hr ltac:(unfold in_u in *; lia) Hs).
    split_and!; try done; lia.
Qed.

(** C4. Whatever table the maps represent, running the program is running the
    abstract load balancer on that table: the entry of exactly the destination
    address, port and protocol gives the backends, and a destination without one
    is left alone.  The port is compared like the rest; 0 stands for port 0. *)
Theorem connect4_refines_lb (s : SM) (b : BM) (T : lb_table) (r : Z) (ctx : bpf_sock_addr) :
  represents s b T -> 0 <= r ->
  connect4_ctx s b r ctx = lb_connect T r ctx.
Proof.
  intros HT Hr. specialize (HT (service_key ctx)).
  unfold connect4_ctx, connect4, lb_connect, supported.
  destruct (type ctx =? SOCK_STREAM), (type ctx =? SOCK_DGRAM); cbn [negb andb orb];
    try reflexivity.
  all: destruct (map_lookup s (service_key ctx)) as [v|], (T (service_key ctx)) as [bs|];
    try done.
  all: destruct HT as (Hid & Hc & Hc16 & Hslots).
  all: destruct (Z.eqb_spec (count v) 0) as [E0|E0].
  all: try (assert (bs = []) as -> by (apply length_zero_iff_nil; lia); done).
  all: rewrite slot_index_eq by (unfold in_u in *; lia).
  all: rewrite Hc; pose proof (Z.mod_pos_bound r (Z.of_nat (length bs)) ltac:(lia)).
  all: destruct (lookup_lt_is_Some_2 bs (Z.to_nat (r mod Z.of_nat (length bs)))) as [x Hx];
    [lia|].
  all: rewrite Hx; apply Hslots in Hx; rewrite Z2Nat.id in Hx by lia; by rewrite Hx.
Qed.
End properties.

(** C35. A key with port 0 is no wildcard, although the comment on [dport] in
    kernel/common.h and docs/README.md say so: an entry written for port 0 of an
    address changes nothing for the other ports of that address, so a connection
    to a port without an entry of its own is left alone. *)
Theorem port_zero_is_no_wildcard {SM BM} `{!MapOps lb4_key lb4_service SM} `{!MapSpec lb4_key lb4_service SM}
    `{!MapOps Z lb4_backend BM} (s s' : SM) (b : BM) (v : lb4_service) (r : Z) (ctx : bpf_sock_addr) :
  map_update s (mk_lb4_key (user_ip4 ctx) 0 (uwrap 8 (protocol ctx)) 0) v = inr s' ->
  uwrap 16 (user_port ctx) <> 0 ->
  connect4 s' b r ctx = connect4 s b r ctx /\
  (map_lookup s (service_key ctx) = None -> connect4_ctx s' b r ctx = ctx).
Proof.
  intros E Hp.
  assert (map_lookup s' (service_key ctx) = map_lookup s (service_key ctx)) as L.
  { apply (lookup_update_ne _ _ _ _ _ E). unfold service_key. intros [= H]. done. }
  assert (connect4 s' b r ctx = connect4 s b r ctx) as Ec by (unfold connect4; by rewrite L).
  split; [done|]. intros Hn. unfold connect4_ctx, connect4. rewrite L, Hn.
  by destruct (_ && _).
Qed.

(** C36. With [n] backends, each of them is selected by the same number of the 2^32
    random words, up to one. *)
Theorem slot_index_fair (n i : Z) :
  0 <= i < n -> in_u 16 n ->
  2 ^ 32 / n <= Z.of_nat (picks (2 ^ 32) n i) <= 2 ^ 32 / n + 1.
Proof.
  intros Hi Hn. rewrite picks_count by (done || lia).
  destruct (i <? 2 ^ 32 mod n); lia.
Qed.

Lemma slot_index_fair_witness :
  2 ^ 32 / 3 <= Z.of_nat (picks (2 ^ 32) 3 2) <= 2 ^ 32 / 3 + 1.
Proof. apply slot_index_fair; [lia|by vm_compute]. Defined.

(** A backend id holds the service id in its high half and the slot in its low
    half, so distinct (service, slot) pairs never share an entry. *)
Theorem backend_id_halves (sid idx sid' idx' : Z) :
  in_u 16 sid -> in_u 16 idx -> in_u 16 sid' -> in_u 16 idx' ->
  backend_id sid idx >> 16 = sid /\ uwrap 16 (backend_id sid idx) = idx /\
  (backend_id sid idx = backend_id sid' idx' <-> sid = sid' /\ idx = idx').
Proof.
  intros Hs Hi Hs' Hi'. split_and!; [by apply backend_id_high|by apply backend_id_low|].
  split; [by apply backend_id_inj|]. by intros [-> ->].
Qed.

Lemma backend_id_halves_witness :
  backend_id 40000 7 >> 16 = 40000 /\ uwrap 16 (backend_id 40000 7) = 7 /\
  (backend_id 40000 7 = backend_id 40000 8 <-> 40000 = 40000 /\ 7 = 8).
Proof. apply backend_id_halves; by vm_compute. Defined.

(** ** A concrete service: 10.96.0.10:80/TCP with two backends *)

Definition ex_key : lb4_key := mk_lb4_key 167796746 20480 6 0.
Definition ex_backends : list lb4_backend :=
  [mk_lb4_backend 33554442 36895 0 0; mk_lb4_backend 50331658 36895 0 0].
Definition ex_services_map : hmap lb4_key lb4_service :=
  mk_hmap {[ex_key := mk_lb4_service 1 2]} CILIUM_LB_SERVICE_MAP_MAX_ENTRIES.
Definition ex_backends_map : hmap Z lb4_backend :=
  mk_hmap {[65537 := mk_lb4_backend 33554442 36895 0 0;
            65538 := mk_lb4_backend 50331658 36895 0 0]} CILIUM_LB_BACKENDS_MAP_MAX_ENTRIES.
Definition ex_ctx : bpf_sock_addr :=
  mk_sock_addr 2 167796746 [0; 0; 0; 0] 20480 2 SOCK_STREAM 6 0 [0; 0; 0; 0] 0.
Definition ex_table : lb_table := fun k => if decide (ex_key = k) then Some ex_backends else None.

Lemma ex_services_lookup k v :
  map_lookup ex_services_map k = Some v -> k = ex_key /\ v = mk_lb4_service 1 2.
Proof.
  cbn [map_lookup hmap_ops ex_services_map entries].
  intros [<- <-]%lookup_singleton_Some. done.
Qed.

Lemma ex_represents : represents ex_services_map ex_backends_map ex_table.
Proof.
  intros k. unfold ex_table. case_decide as E.
  - subst k. change (map_lookup ex_services_map ex_key) with (Some (mk_lb4_service 1 2)).
    split_and!; [by vm_compute|done|by vm_compute|].
    intros [|[|i]] x Hx; simplify_eq/=; by_vm.
  - destruct (map_lookup ex_services_map k) eqn:L; [|done].
    apply ex_services_lookup in L as [-> _]. done.
Qed.

Lemma connect4_safe_witness :
  connect4_ret ex_services_map ex_backends_map 5 ex_ctx = 1 /\
  (connect4_ctx ex_services_map ex_backends_map 5 ex_ctx = ex_ctx \/
   exists v i x,
     supported ex_ctx = true /\ map_lookup ex_services_map (service_key ex_ctx) = Some v /\
     1 <= i <= count v /\ map_lookup ex_backends_map (backend_id (service_id v) i) = Some x /\
     connect4_ctx ex_services_map ex_backends_map 5 ex_ctx = redirect x ex_ctx).
Proof.
  apply connect4_safe; [lia|]. intros k v [_ ->]%ex_services_lookup. by vm_compute.
Defined.

(** The service's entry for port 0 does not serve its port 443. *)
Definition ex_port_zero : hmap lb4_key lb4_service :=
  mk_hmap {[mk_lb4_key 167796746 0 6 0 := mk_lb4_service 1 2]} CILIUM_LB_SERVICE_MAP_MAX_ENTRIES.

Lemma port_zero_is_no_wildcard_witness :
  connect4_ctx ex_port_zero ex_backends_map 5 (set_user_port 47873 ex_ctx) = set_user_port 47873 ex_ctx.
Proof.
  apply (port_zero_is_no_wildcard (mk_hmap ∅ CILIUM_LB_SERVICE_MAP_MAX_ENTRIES) ex_port_zero ex_backends_map
    (mk_lb4_service 1 2) 5 (set_user_port 47873 ex_ctx)); [by_vm|by vm_compute|by_vm].
Defined.

Lemma connect4_refines_lb_witness :
  connect4_ctx ex_services_map ex_backends_map 5 ex_ctx
  = redirect (mk_lb4_backend 50331658 36895 0 0) ex_ctx.
Proof.
  transitivity (lb_connect ex_table 5 ex_ctx); [|by_vm].
  apply connect4_refines_lb; [apply ex_represents|lia].
Defined.

End Connect4.
