(* ===== verification/Socket.v ===== *)
(** * Socket constants: src/ebpf/src/kernel/socket.h

    The macros of the header, which service.c includes after vmlinux.h: a macro
    with the name of an enumerator of the kernel takes its place in the program,
    so the two have to agree. *)

From Stdlib Require Import ZArith Lia String.
From stdpp Require Import base gmap list strings.
From S2P Require Import Prelude CTypes KernelTypes Connect4.
Import CTypes KernelTypes.

Local Open Scope string_scope.
Local Open Scope Z_scope.

Module Socket.

(** A macro expands to a number or to another macro. *)
Inductive expansion := Literal (v : Z) | Alias (name : string).

(** Control messages. *)
Definition control_messages : list (string * expansion) :=
    [("SCM_RIGHTS", Literal 1)].

(** Socket types. *)
Definition socket_types : list (string * expansion) :=
    [("SOCK_STREAM", Literal 1); ("SOCK_DGRAM", Literal 2); ("SOCK_RAW", Literal 3);
     ("SOCK_RDM", Literal 4); ("SOCK_SEQPACKET", Literal 5); ("SOCK_PACKET", Literal 10)].

(** Address families. *)
Definition address_families : list (string * expansion) :=
    [("AF_UNSPEC", Literal 0); ("AF_UNIX", Literal 1); ("AF_INET", Literal 2);
     ("AF_AX25", Literal 3); ("AF_IPX", Literal 4); ("AF_APPLETALK", Literal 5);
     ("AF_NETROM", Literal 6); ("AF_BRIDGE", Literal 7); ("AF_AAL5", Literal 8);
     ("AF_X25", Literal 9); ("AF_INET6", Literal 10); ("AF_MAX", Literal 12)].

(** Protocol families. *)
Definition protocol_families : list (string * expansion) :=
    [("PF_UNSPEC", Alias "AF_UNSPEC"); ("PF_UNIX", Alias "AF_UNIX");
     ("PF_INET", Alias "AF_INET"); ("PF_AX25", Alias "AF_AX25"); ("PF_IPX", Alias "AF_IPX");
     ("PF_APPLETALK", Alias "AF_APPLETALK"); ("PF_NETROM", Alias "AF_NETROM");
     ("PF_BRIDGE", Alias "AF_BRIDGE"); ("PF_AAL5", Alias "AF_AAL5");
     ("PF_X25", Alias "AF_X25"); ("PF_INET6", Alias "AF_INET6"); ("PF_MAX", Alias "AF_MAX")].

(** The queue of [listen]. *)
Definition listen_queue : list (string * expansion) :=
    [("SOMAXCONN", Literal 128)].

(** Flags of [send] and [recv]. *)
Definition message_flags : list (string * expansion) :=
    [("MSG_OOB", Literal 1); ("MSG_PEEK", Literal 2); ("MSG_DONTROUTE", Literal 4);
     ("MSG_PROXY", Literal 16)].

(** Levels of [setsockopt]. *)
Definition socket_levels : list (string * expansion) :=
    [("SOL_IP", Literal 0); ("SOL_IPX", Literal 256); ("SOL_AX25", Literal 257);
     ("SOL_ATALK", Literal 258); ("SOL_NETROM", Literal 259); ("SOL_TCP", Literal 6);
     ("SOL_UDP", Literal 17)].

(** IP options. *)
Definition ip_options : list (string * expansion) :=
    [("IP_TOS", Literal 1); ("IPTOS_LOWDELAY", Literal 16); ("IPTOS_THROUGHPUT", Literal 8);
     ("IPTOS_RELIABILITY", Literal 4); ("IP_TTL", Literal 2); ("IP_HDRINCL", Literal 3);
     ("IP_OPTIONS", Literal 4)].

(** Multicast options. *)
Definition multicast_options : list (string * expansion) :=
    [("IP_MULTICAST_IF", Literal 32); ("IP_MULTICAST_TTL", Literal 33);
     ("IP_MULTICAST_LOOP", Literal 34); ("IP_ADD_MEMBERSHIP", Literal 35);
     ("IP_DROP_MEMBERSHIP", Literal 36)].

(** Multicast defaults. *)
Definition multicast_defaults : list (string * expansion) :=
    [("IP_DEFAULT_MULTICAST_TTL", Literal 1); ("IP_DEFAULT_MULTICAST_LOOP", Literal 1);
     ("IP_MAX_MEMBERSHIPS", Literal 20)].

(** IPX options. *)
Definition ipx_options : list (string * expansion) :=
    [("IPX_TYPE", Literal 1)].

(** TCP options. *)
Definition tcp_options : list (string * expansion) :=
    [("TCP_NODELAY", Literal 1); ("TCP_MAXSEG", Literal 2)].

(** Priorities. *)
Definition priorities : list (string * expansion) :=
    [("SOPRI_INTERACTIVE", Literal 0); ("SOPRI_NORMAL", Literal 1);
     ("SOPRI_BACKGROUND", Literal 2)].

(** The rest. *)
Definition other_macros : list (string * expansion) :=
    [("ETH_P_IP", Literal 2048); ("BPF_F_INDEX_MASK", Literal 4294967295);
     ("BPF_F_CURRENT_CPU", Alias "BPF_F_INDEX_MASK")].

Definition socket_macros : list (string * expansion) :=
  (control_messages ++ socket_types ++ address_families ++ protocol_families ++ listen_queue
  ++ message_flags ++ socket_levels ++ ip_options ++ multicast_options ++ multicast_defaults
  ++ ipx_options ++ tcp_options ++ priorities ++ other_macros)%list.

Definition macro (name : string) : option expansion :=
  snd <$> List.find (fun e => String.eqb e.1 name) socket_macros.

(** The preprocessor: an alias is expanded again; no alias of the header goes
    further than one step, so two suffice. *)
Fixpoint expand (fuel : nat) (name : string) : option Z :=
  match fuel with
  | O => None
  | S fuel' =>
      match macro name with
      | Some (Literal v) => Some v
      | Some (Alias a) => expand fuel' a
      | None => None
      end
  end.

Definition macro_value (name : string) : option Z := expand 2 name.

(** ** The kernel's enumerations of the same names *)

Definition enum_sock_type : enum :=
    [("SOCK_STREAM", 1); ("SOCK_DGRAM", 2); ("SOCK_RAW", 3); ("SOCK_RDM", 4);
     ("SOCK_SEQPACKET", 5); ("SOCK_DCCP", 6); ("SOCK_PACKET", 10)].

Definition enum_IPPROTO_IP : enum :=
    [("IPPROTO_IP", 0); ("IPPROTO_ICMP", 1); ("IPPROTO_IGMP", 2); ("IPPROTO_IPIP", 4);
     ("IPPROTO_TCP", 6); ("IPPROTO_EGP", 8); ("IPPROTO_PUP", 12); ("IPPROTO_UDP", 17);
     ("IPPROTO_IDP", 22); ("IPPROTO_TP", 29); ("IPPROTO_DCCP", 33); ("IPPROTO_IPV6", 41);
     ("IPPROTO_RSVP", 46); ("IPPROTO_GRE", 47); ("IPPROTO_ESP", 50); ("IPPROTO_AH", 51);
     ("IPPROTO_MTP", 92); ("IPPROTO_BEETPH", 94); ("IPPROTO_ENCAP", 98); ("IPPROTO_PIM", 103);
     ("IPPROTO_COMP", 108); ("IPPROTO_SCTP", 132); ("IPPROTO_UDPLITE", 136);
     ("IPPROTO_MPLS", 137); ("IPPROTO_RAW", 255); ("IPPROTO_MAX", 256)].

Definition kernel_enumerators : enum :=
  (enum_sock_type ++ enum_IPPROTO_IP ++ enum_BPF_F_INDEX_MASK)%list.

Definition enumerator (name : string) : option Z :=
  snd <$> List.find (fun e => String.eqb e.1 name) kernel_enumerators.

(** A use of the name in service.c: the macro comes first. *)
Definition constant (name : string) : option Z :=
  match macro_value name with Some v => Some v | None => enumerator name end.

(** ** Lemmas *)

Lemma macro_in name x : macro name = Some x -> (name, x) ∈ socket_macros.
Proof.
  unfold macro. destruct (List.find _ _) as [[n y]|] eqn:E; [|done]. cbn. intros [= ->].
  apply find_some in E as [Hin Heq%String.eqb_eq]. cbn in Heq. subst. by apply list_elem_of_In.
Qed.

Lemma enumerator_in name v : enumerator name = Some v ->
  (name, v) ∈ kernel_enumerators.
Proof.
  unfold enumerator. destruct (List.find _ _) as [[n y]|] eqn:E; [|done]. cbn. intros [= ->].
  apply find_some in E as [Hin Heq%String.eqb_eq]. cbn in Heq. subst. by apply list_elem_of_In.
Qed.

(** Every macro has a value: expansion terminates within the two steps. *)
Lemma macros_expand : Forall (fun e => is_Some (macro_value e.1)) socket_macros.
Proof. apply (bool_decide_unpack _). vm_compute. exact I. Qed.

(** The macros do not change what a name of the kernel means. *)
Lemma macros_agree_with_kernel :
  Forall (fun e => from_option (Z.eqb e.2) true (macro_value e.1) = true) kernel_enumerators.
Proof. apply (bool_decide_unpack _). vm_compute. exact I. Qed.

(** Families have one number under both names. *)
Definition same_family (af pf : string) : bool := bool_decide (macro_value af = macro_value pf).

Lemma families_agree :
  Forall (fun e => (if e.2 is Alias a then same_family a e.1 && bool_decide (is_Some (macro_value a))
                    else false) = true) protocol_families.
Proof. apply (bool_decide_unpack _). vm_compute. exact I. Qed.

(** Within these groups no number is used twice (the IP options mix options and values). *)
Lemma groups_distinct :
  Forall (fun g => NoDup (omap (fun e => macro_value e.1) g))
    [socket_types; address_families; message_flags; socket_levels; multicast_options;
     tcp_options; priorities].
Proof. apply (bool_decide_unpack _). vm_compute. exact I. Qed.

(** Flags are single bits, so that they can be combined; the levels of the
    protocols are their numbers, as the header's comment asks; [AF_MAX] is
    above every family. *)
Lemma socket_values :
  Forall (fun e => exists i, macro_value e.1 = Some (2 ^ Z.of_nat i)) message_flags /\
  macro_value "SOL_TCP" = enumerator "IPPROTO_TCP" /\ macro_value "SOL_UDP" = enumerator "IPPROTO_UDP" /\
  macro_value "SOL_IP" = enumerator "IPPROTO_IP" /\
  Forall (fun e => default 0 (macro_value e.1) <= default 0 (macro_value "AF_MAX")) address_families.
Proof.
  split_and!; [|by_vm..|].
  - repeat constructor; [by exists 0%nat|by exists 1%nat|by exists 2%nat|by exists 4%nat].
  - apply (bool_decide_unpack _). vm_compute. exact I.
Qed.

(** ** Agreement with the kernel *)

(** Whichever of the macro and the kernel's enumerator of the same name the
    program uses, it is the same number. *)
Lemma socket_constants_agree (name : string) (v : Z) :
  enumerator name = Some v ->
  constant name = Some v /\ (forall x, macro name = Some x -> macro_value name = Some v).
Proof.
  intros He. pose proof (enumerator_in _ _ He) as Hin.
  pose proof (proj1 (Forall_forall _ _) macros_agree_with_kernel _ Hin) as Ha. cbn [fst snd] in Ha.
  split.
  - unfold constant. destruct (macro_value name) as [v'|]; [|done].
    cbn in Ha. apply Z.eqb_eq in Ha. by subst.
  - intros x Hm. pose proof (proj1 (Forall_forall _ _) macros_expand _ (macro_in _ _ Hm)) as [v' Hv'].
    cbn [fst] in Hv'. rewrite Hv' in *. cbn in Ha. apply Z.eqb_eq in Ha. by subst.
Qed.

(** The socket types [connect4] compares with are the kernel's. *)
Example connect4_socket_types :
  constant "SOCK_STREAM" = Some Connect4.SOCK_STREAM /\ constant "IPPROTO_TCP" = Some 6.
Proof.
  split.
  - apply (socket_constants_agree "SOCK_STREAM" Connect4.SOCK_STREAM). by_vm.
  - apply (socket_constants_agree "IPPROTO_TCP" 6). by_vm.
Qed.

End Socket.
