(* ===== verification/Context.v ===== *)
(** * The context of [connect4] in memory

    [Connect4.bpf_sock_addr] is the context as a record; here it is the bytes of
    [struct bpf_sock_addr] of src/ebpf/src/kernel/vmlinux.h, as the kernel lays
    them out.  The program's reads are loads of four bytes at the offsets of
    the members, and its two assignments change these bytes only. *)

From Stdlib Require Import ZArith Lia String.
From stdpp Require Import base gmap list strings.
From S2P Require Import Prelude Layout BpfMap CTypes KernelTypes Connect4.
Import Layout BpfMap CTypes KernelTypes Connect4.

Local Open Scope Z_scope.

Module Context.

(** The scalars of the struct as a flat list of fields. *)
Definition sock_addr_fields : list field :=
  map (fun l => mkField (l_path l) (Z.to_nat (l_bits l / 8))) (leaves "" 0 struct_bpf_sock_addr).

(** The placement of the flat list is the one of the struct. *)
Lemma sock_addr_placement :
  map (fun l => Z.to_nat (l_off l / 8)) (leaves "" 0 struct_bpf_sock_addr)
    = c_offsets 0 sock_addr_fields /\
  Z.of_nat (c_sizeof sock_addr_fields) = sizeof struct_bpf_sock_addr.
Proof. split; by_vm. Qed.

Definition ctx_values (c : bpf_sock_addr) : list Z :=
  [user_family c; user_ip4 c] ++ user_ip6 c ++
  [user_port c; family c; type c; protocol c; msg_src_ip4 c] ++ msg_src_ip6 c ++ [sk c].

(** A context as the kernel passes it: the addresses have four words, and every
    member is in range. *)
Record ctx_ok (c : bpf_sock_addr) : Prop := {
  ctx_ip6 : length (user_ip6 c) = 4%nat;
  ctx_src_ip6 : length (msg_src_ip6 c) = 4%nat;
  ctx_range : in_fields sock_addr_fields (ctx_values c)
}.

Definition ctx_bytes (bo : byte_order) (c : bpf_sock_addr) : list Z :=
  c_encode bo sock_addr_fields (ctx_values c).

(** A load of the word at an offset. *)
Definition load32 (bo : byte_order) (bytes : list Z) (off : Z) : Z :=
  of_mem bo (take 4 (drop (Z.to_nat off) bytes)).

(** ** Lemmas *)

Lemma c_fields_length bo fs off vs vs' :
  length vs = length vs' -> length (c_fields bo off fs vs) = length (c_fields bo off fs vs').
Proof.
  revert off vs vs'. induction fs as [|f fs IH]; intros off [|v vs] [|v' vs'] Hl; try done.
  cbn [c_fields]. rewrite !length_app, !length_mem_bytes. cbn in Hl.
  rewrite (IH _ vs vs'); [done|lia].
Qed.

(** Changing the value of one field leaves the bytes of the others alone. *)
Lemma c_fields_update bo fs off vs k v o f i :
  c_offsets off fs !! k = Some o -> fs !! k = Some f ->
  Forall (fun f => (0 < f_size f)%nat) fs -> ~ (o <= off + i < o + f_size f)%nat ->
  c_fields bo off fs (<[k := v]> vs) !! i = c_fields bo off fs vs !! i.
Proof.
  revert off vs k i. induction fs as [|g fs IH]; intros off vs k i Ho Hf Hsz Hi; [done|].
  destruct vs as [|w vs]; [done|]. apply Forall_cons in Hsz as [Hg Hsz].
  pose proof (align_up_ge off (f_size g) Hg) as Hge.
  cbn [c_offsets] in Ho. set (p := align_up off (f_size g)) in *.
  destruct k as [|k]; cbn [lookup list_lookup] in Ho, Hf.
  - cbn [insert list_insert c_fields]. fold p. injection Ho as <-. injection Hf as <-.
    destruct (decide (i < p - off)%nat) as [H1|H1].
    { rewrite !lookup_app_l by (rewrite repeat_length; lia). done. }
    rewrite !(lookup_app_r (repeat 0 (p - off))) by (rewrite repeat_length; lia).
    rewrite !lookup_app_r by (rewrite length_mem_bytes, repeat_length; lia).
    by rewrite !length_mem_bytes.
  - cbn [insert list_insert c_fields]. fold p.
    change (list_insert k v vs) with (<[k := v]> vs).
    rewrite !(app_assoc (repeat 0 (p - off))).
    set (pre := repeat 0 (p - off) ++ mem_bytes bo (f_size g) w).
    assert (length pre = p - off + f_size g)%nat as Hlen.
    { unfold pre. by rewrite length_app, length_mem_bytes, repeat_length. }
    destruct (decide (i < length pre)%nat) as [H1|H1].
    + by rewrite !lookup_app_l by done.
    + rewrite !lookup_app_r by lia. apply IH; try done. lia.
Qed.

Lemma sock_addr_sizes : Forall (fun f => (0 < f_size f)%nat) sock_addr_fields.
Proof. apply (bool_decide_unpack _). vm_compute. exact I. Qed.

Lemma ctx_bytes_update bo c c' k v o i :
  ctx_values c' = <[k := v]> (ctx_values c) ->
  c_offsets 0 sock_addr_fields !! k = Some o -> fmap f_size (sock_addr_fields !! k) = Some 4%nat ->
  ~ (o <= i < o + 4)%nat -> ctx_bytes bo c' !! i = ctx_bytes bo c !! i.
Proof.
  intros E Ho Hf Hi. unfold ctx_bytes, c_encode. rewrite E.
  destruct (sock_addr_fields !! k) as [f|] eqn:Ef; [|done]. cbn in Hf. injection Hf as Hf.
  set (n := length (c_fields bo 0 sock_addr_fields (ctx_values c))).
  assert (length (c_fields bo 0 sock_addr_fields (<[k := v]> (ctx_values c))) = n) as Hn.
  { apply c_fields_length. by rewrite length_insert. }
  destruct (decide (i < n)%nat).
  - rewrite !lookup_app_l by lia. eapply c_fields_update; [exact Ho|exact Ef|apply sock_addr_sizes|lia].
  - rewrite !lookup_app_r by lia. by rewrite Hn.
Qed.

(** The two assignments of the program. *)
Lemma set_user_ip4_bytes bo c v i :
  ~ (4 <= i < 8)%nat -> ctx_bytes bo (set_user_ip4 v c) !! i = ctx_bytes bo c !! i.
Proof. intros Hi. by apply (ctx_bytes_update bo c _ 1 v 4). Qed.

Lemma set_user_port_bytes bo c v i :
  length (user_ip6 c) = 4%nat ->
  ~ (24 <= i < 28)%nat -> ctx_bytes bo (set_user_port v c) !! i = ctx_bytes bo c !! i.
Proof.
  intros Hl Hi. apply (ctx_bytes_update bo c _ 6 v 24); try done.
  unfold ctx_values. cbn [user_ip6 set_user_port user_family user_ip4].
  destruct (user_ip6 c) as [|a [|b [|d [|e [|]]]]]; done.
Qed.

(** A load at the place of a field gives its value. *)
Lemma load32_field bo c k o v :
  ctx_ok c -> c_offsets 0 sock_addr_fields !! k = Some (Z.to_nat o) ->
  fmap f_size (sock_addr_fields !! k) = Some 4%nat -> ctx_values c !! k = Some v ->
  load32 bo (ctx_bytes bo c) o = v.
Proof.
  intros [_ _ Hr] Ho Hf Hv.
  pose proof (c_decode_encode bo sock_addr_fields (ctx_values c) sock_addr_sizes Hr) as E.
  apply (f_equal (fun l => l !! k)) in E. unfold c_decode in E.
  destruct (sock_addr_fields !! k) as [f|] eqn:Ef; [|done]. cbn in Hf. injection Hf as Hf.
  cbv beta in E. rewrite lookup_zip_with, Ef, Ho, Hv in E.
  cbn [mbind option_bind] in E. rewrite Hf in E. injection E as E. exact E.
Qed.

(** ** Property *)

(** C9. The program and the kernel agree on the memory of the context: the members
    the program reads are words at the offsets the kernel's struct gives them,
    and whatever the maps hold, a run changes no byte of the context but those
    of the destination address and of the destination port. *)
Theorem connect4_context_bytes {SM BM : Type} `{!MapOps lb4_key lb4_service SM}
    `{!MapOps Z lb4_backend BM} (bo : byte_order) (s : SM) (b : BM) (r : Z) (ctx : bpf_sock_addr) :
  ctx_ok ctx ->
  (forall name v, (name, v) ∈ [("user_ip4"%string, user_ip4 ctx); ("user_port"%string, user_port ctx);
                          ("type"%string, type ctx); ("protocol"%string, protocol ctx)] ->
     exists o, offset_of name struct_bpf_sock_addr = Some o /\
               load32 bo (ctx_bytes bo ctx) o = v) /\
  exists ip port, offset_of "user_ip4" struct_bpf_sock_addr = Some (Z.of_nat ip) /\
    offset_of "user_port" struct_bpf_sock_addr = Some (Z.of_nat port) /\
    forall i, ~ (ip <= i < ip + 4)%nat -> ~ (port <= i < port + 4)%nat ->
      ctx_bytes bo (connect4_ctx s b r ctx) !! i = ctx_bytes bo ctx !! i.
Proof.
  intros Hok. destruct Hok as [H6 Hs6 Hr] eqn:E; clear E. split.
  - intros name v Hin. rewrite !elem_of_cons in Hin.
    destruct Hin as [[= -> ->]|[[= -> ->]|[[= -> ->]|[[= -> ->]|Hin%not_elem_of_nil]]]]; [..|done].
    + exists 4. split; [by_vm|]. by apply (load32_field bo ctx 1).
    + exists 24. split; [by_vm|]. apply (load32_field bo ctx 6); [done|by_vm|by_vm|].
      unfold ctx_values. by destruct (user_ip6 ctx) as [|? [|? [|? [|? [|]]]]].
    + exists 32. split; [by_vm|]. apply (load32_field bo ctx 8); [done|by_vm|by_vm|].
      unfold ctx_values. by destruct (user_ip6 ctx) as [|? [|? [|? [|? [|]]]]].
    + exists 36. split; [by_vm|]. apply (load32_field bo ctx 9); [done|by_vm|by_vm|].
      unfold ctx_values. by destruct (user_ip6 ctx) as [|? [|? [|? [|? [|]]]]].
  - exists 4%nat, 24%nat. split; [by_vm|]. split; [by_vm|]. intros i Hip Hport.
    assert (connect4_ctx s b r ctx = ctx \/ exists a p,
      connect4_ctx s b r ctx = set_user_port p (set_user_ip4 a ctx)) as [->|(a & p & ->)].
    { unfold connect4_ctx, connect4. destruct (_ && _); [by left|].
      destruct (map_lookup s _); [|by left]. destruct (_ =? _); [by left|].
      destruct (map_lookup b _); [|by left]. right. by do 2 eexists. }
    + done.
    + rewrite set_user_port_bytes, set_user_ip4_bytes; done.
Qed.

Lemma connect4_context_bytes_witness :
  exists ip port, offset_of "user_ip4" struct_bpf_sock_addr = Some (Z.of_nat ip) /\
    offset_of "user_port" struct_bpf_sock_addr = Some (Z.of_nat port) /\
    forall i, ~ (ip <= i < ip + 4)%nat -> ~ (port <= i < port + 4)%nat ->
      ctx_bytes LittleEndian (connect4_ctx ex_services_map ex_backends_map 0 ex_ctx) !! i
        = ctx_bytes LittleEndian ex_ctx !! i.
Proof.
  apply (connect4_context_bytes LittleEndian ex_services_map ex_backends_map 0 ex_ctx).
  split; [done|done|]. apply (bool_decide_unpack _). vm_compute. exact I.
Defined.

End Context.
