(* ===== verification/Loader.v ===== *)
(** * Loading the program: src/pkg/bpf/bpf.go

    The manager of the eBPF objects: it prepares the file systems, loads the
    compiled program and its maps, attaches the program to the cgroup and keeps
    what the rest of the agent needs.  The eBPF library is an interface; what
    service.c declares in its object file is modelled, so that the names and
    sizes the agent relies on can be compared with it. *)

From Stdlib Require Import ZArith Lia String.
From stdpp Require Import base gmap strings list.
From S2P Require Import Prelude GoPath OS Mounts Layout Helpers BpfMap Connect4.
Import GoPath OS Mounts Layout Helpers BpfMap Connect4.

Local Open Scope string_scope.
Local Open Scope Z_scope.
Local Open Scope go_scope.

Module Loader.

(** ** What service.c declares

    A map is a struct whose members carry its attributes; a program is a
    function in a section. *)

Record btf_map := mkBtfMap {
  map_name : string;
  map_type : string;
  map_key_size : nat;
  map_value_size : nat;
  map_pinning : libbpf_pin_type;
  map_max_entries : nat
}.

Record object_file := mkObject {
  object_maps : list btf_map;
  object_programs : list (string * string)  (* section and function *)
}.

Definition eproxy_lb4_services : btf_map :=
  mkBtfMap "eproxy_lb4_services" "BPF_MAP_TYPE_HASH" (c_sizeof lb4_key_fields)
    (c_sizeof lb4_service_fields) LIBBPF_PIN_BY_NAME CILIUM_LB_SERVICE_MAP_MAX_ENTRIES.

Definition eproxy_lb4_backends : btf_map :=
  mkBtfMap "eproxy_lb4_backends" "BPF_MAP_TYPE_HASH" (c_sizeof backend_id_fields)
    (c_sizeof lb4_backend_fields) LIBBPF_PIN_BY_NAME CILIUM_LB_BACKENDS_MAP_MAX_ENTRIES.

(** The formats [connect4] passes to [bpf_printk].  The macro makes each one a
    static constant of its function (BPF_NO_GLOBAL_DATA is not defined), so the
    compiler puts them in the section .rodata, which is a map of the object too:
    an array with one entry, the section.  Characters need no padding. *)
Definition printk_formats : list string :=
  ["unkonw socket type"; ("before user ip %lu, port:%d,protocol: %d, " ++ newline)%string;
   "query endpoint id: %d"; ("after user ip %lu, port:%d" ++ newline)%string].

Definition rodata : btf_map :=
  mkBtfMap ".rodata" "BPF_MAP_TYPE_ARRAY" 4 (sum_list_with (fun f => S (String.length f)) printk_formats)
    LIBBPF_PIN_NONE 1.

Definition service_object : object_file :=
  mkObject [eproxy_lb4_services; eproxy_lb4_backends; rodata] [("cgroup/connect4", "connect4")].

(** No line [connect4] writes needs another format. *)
Lemma connect4_formats {SM BM} `{!MapOps lb4_key lb4_service SM} `{!MapOps Z lb4_backend BM}
    (sm : SM) (bm : BM) r ctx l :
  l ∈ (connect4 sm bm r ctx).2 -> fmt l ∈ printk_formats.
Proof.
  unfold connect4. destruct (_ && _).
  { cbn [snd]. rewrite list_elem_of_singleton. intros ->. cbn [fmt]. apply list_elem_of_here. }
  destruct (map_lookup sm _) as [v|]; [destruct (Layout.count v =? 0); [|destruct (map_lookup bm _)]|].
  all: cbn [snd fst]; rewrite ?elem_of_cons; intros H; decompose [or] H; subst; cbn [fmt];
    try by (unfold printk_formats; rewrite !elem_of_cons; auto).
  all: by match goal with H : _ ∈ [] |- _ => apply not_elem_of_nil in H end.
Qed.

(** ** The eBPF library

    Programs, maps and links are handles.  A collection holds the programs and
    maps of an object by name. *)

Record Collection (Prog MapT : Type) := mkCollection {
  Programs : gmap string Prog;
  Maps : gmap string MapT
}.
Arguments mkCollection {Prog MapT} _ _.
Arguments Programs {Prog MapT} _.
Arguments Maps {Prog MapT} _.

Inductive AttachType := AttachCGroupInet4Connect.

(** Every call reads and writes the state of the system. *)
Class EbpfOps (W Spec Prog MapT Lnk : Type) := {
  RemoveMemlock : W -> option error * W;
  LoadCollectionSpec : string -> W -> (error + Spec) * W;
  NewCollectionWithOptions : Spec -> string -> W -> (error + Collection Prog MapT) * W;
    (* the string is the path maps are pinned at *)
  AttachCgroup : string -> option Prog -> AttachType -> W -> (error + Lnk) * W;
  link_Close : Lnk -> W -> option error * W;
  collection_Close : Collection Prog MapT -> W -> unit * W;
  spec_object : Spec -> object_file
}.

(** A collection has exactly the maps and programs of its object. *)
Class EbpfSpec (W Spec Prog MapT Lnk : Type) `{!EbpfOps W Spec Prog MapT Lnk} : Prop := {
  collection_maps s pin w c w' n :
    NewCollectionWithOptions s pin w = (inr c, w') ->
    is_Some (Maps c !! n) <-> n ∈ map map_name (object_maps (spec_object s));
  collection_programs s pin w c w' n :
    NewCollectionWithOptions s pin w = (inr c, w') ->
    is_Some (Programs c !! n) <-> n ∈ map snd (object_programs (spec_object s))
}.

Section loader.
Context {W Spec Prog MapT Lnk : Type} `{!OS W} `{!EbpfOps W Spec Prog MapT Lnk}.

(** ** BPFManager *)

Record BPFManager := mkBPFManager {
  ebpffile : string;
  cglink : option Lnk;
  collection : option (Collection Prog MapT);
  service : option MapT;
  endpoint : option MapT
}.

Definition NewBPFManager (file : string) : BPFManager := mkBPFManager file None None None None.

(** The agent's process: the host and the manager. *)
Record Agent := mkAgent { host : Host W; bm : BPFManager }.

Definition on_host {A} (m : GoM (Host W) A) : GoM Agent A :=
  fun s => let (o, h) := m (host s) in (o, mkAgent h (bm s)).
Definition lib {A} (f : W -> A * W) : GoM Agent A := on_host (on_world (call f)).
Definition set_bm (f : BPFManager -> BPFManager) : GoM Agent unit :=
  modify (fun s => mkAgent (host s) (f (bm s))).

Definition set_collection c (b : BPFManager) : BPFManager :=
  mkBPFManager (ebpffile b) (cglink b) c (service b) (endpoint b).
Definition set_cglink l (b : BPFManager) : BPFManager :=
  mkBPFManager (ebpffile b) l (collection b) (service b) (endpoint b).
Definition set_maps s e (b : BPFManager) : BPFManager :=
  mkBPFManager (ebpffile b) (cglink b) (collection b) s e.

(** A Go call that returns a value and an error: the value is nil with an
    error. *)
Definition value_of {A} (r : error + A) : option A := match r with inl _ => None | inr a => Some a end.

(** The last part of [LoadAndAttach], with the collection [c] loaded. *)
Definition attach (c : Collection Prog MapT) : GoM Agent (option error) :=
  let! s := get in
  let! r := lib (AttachCgroup (GetCgroupRoot (host s)) (Programs c !! "connect4")
                   AttachCGroupInet4Connect) in
  set_bm (set_cglink (value_of r)) ;;;
  match r with
  | inl err => ret (Some err)
  | inr _ =>
      set_bm (set_maps (Maps c !! "eproxy_lb4_services") (Maps c !! "eproxy_lb4_backends")) ;;;
      ret None
  end.

Definition LoadAndAttach : GoM Agent (option error) :=
  let! err := lib RemoveMemlock in
  match err with
  | Some err => ret (Some err)
  | None =>
      on_host (CheckOrMountCgrpFS "") ;;;
      on_host (on_world CheckOrMountBtfFS) ;;;
      let! s := get in
      let! spec := lib (LoadCollectionSpec (ebpffile (bm s))) in
      match spec with
      | inl err => ret (Some err)
      | inr spec =>
          let! c := lib (NewCollectionWithOptions spec EProxyPath) in
          set_bm (set_collection (value_of c)) ;;;
          match c with
          | inl err => ret (Some err)
          | inr c => attach c
          end
      end
  end.

Definition Link (b : BPFManager) : option Lnk := cglink b.
Definition ServiceMap (b : BPFManager) : option MapT := service b.
Definition EndpointMap (b : BPFManager) : option MapT := endpoint b.

(** Closing what was never attached or loaded dereferences nil. *)
Definition Close : GoM Agent (option error) :=
  let! s := get in
  match cglink (bm s) with
  | None => panics NilDereference
  | Some l =>
      let! err := lib (link_Close l) in
      match collection (bm s) with
      | None => panics NilDereference
      | Some c => lib (collection_Close c) ;;; ret err
      end
  end.

(** ** What a call has done

    At the root of the BPF file system a file system of another type is
    mounted. *)
Definition foreign_bpffs (w : W) : Prop :=
  mount_point w BPFFSRoot /\ exists t, unix_Statfs w BPFFSRoot = inr t /\ t <> BPF_FS_MAGIC.

(** The calls of [LoadAndAttach], in order, with the states of the system
    between them: first the limit is lifted and the cgroup file system looked
    for, which leaves the host [h]. *)
Definition unlocked (s : Agent) (h : Host W) : Prop :=
  exists w0, RemoveMemlock (world (host s)) = (None, w0) /\
    CheckOrMountCgrpFS "" (mkHost w0 (cgroupRoot (host s)) (cgrpMountOnce (host s)))
      = (Returns tt, h).

(** Then the BPF file system is. *)
Definition prepared (s : Agent) (h : Host W) (w : W) : Prop :=
  unlocked s h /\ ~ foreign_bpffs (world h) /\ CheckOrMountBtfFS (world h) = (Returns tt, w).

(** All of them. *)
Record load_run (s s' : Agent) (spec : Spec) (c : Collection Prog MapT) (l : Lnk) : Prop := {
  run_calls : exists h1 w1 w2 w3 w4,
    prepared s h1 w1 /\
    LoadCollectionSpec (ebpffile (bm s)) w1 = (inr spec, w2) /\
    NewCollectionWithOptions spec EProxyPath w2 = (inr c, w3) /\
    AttachCgroup (GetCgroupRoot h1) (Programs c !! "connect4") AttachCGroupInet4Connect w3
      = (inr l, w4) /\
    host s' = mkHost w4 (cgroupRoot h1) (cgrpMountOnce h1);
  run_manager : bm s' = mkBPFManager (ebpffile (bm s)) (Some l) (Some c)
    (Maps c !! "eproxy_lb4_services") (Maps c !! "eproxy_lb4_backends")
}.

Lemma CheckOrMountCgrpFS_returns (h : Host W) p :
  exists h', CheckOrMountCgrpFS p h = (Returns tt, h').
Proof.
  unfold CheckOrMountCgrpFS, once_Do. destruct (cgrpMountOnce h); [eauto|].
  unfold bind, get. set (root := if String.eqb p "" then _ else _).
  pose proof (cgrpCheckOrMountLocation_root root h) as H.
  destruct (cgrpCheckOrMountLocation root h) as [[e|] h']; [|done]. unfold ret. eauto.
Qed.

(** The mounting code ends the process exactly then, and changes nothing
    before it does. *)
Lemma CheckOrMountBtfFS_cases (w : W) :
  (exists w', CheckOrMountBtfFS w = (Returns tt, w') /\ ~ foreign_bpffs w) \/
  (exists msg, CheckOrMountBtfFS w = (Panics (LogFatal msg), w) /\ foreign_bpffs w).
Proof.
  pose proof (IsMountFS_spec w FilesystemTypeBPFFS BPFFSRoot) as H.
  unfold CheckOrMountBtfFS, bind, foreign_bpffs.
  destruct (IsMountFS w FilesystemTypeBPFFS BPFFSRoot) as [[[] []] [e|]] eqn:E.
  all: first [rewrite (check_error w _ _ _ E) | rewrite (check_ready w E)
             | rewrite (check_other w E) | rewrite (check_absent w _ E);
                 destruct (mountFS_returns w false) as (e0 & w' & ->)]; try done.
  - left. eexists. split; [done|]. destruct H as [_ H]. rewrite H. intros [_ (t & [= <-] & Hne)]. done.
  - left. eexists. split; [done|]. destruct H as (n & _ & _ & H). rewrite H. by intros [_ (t & ? & _)].
  - right. eexists. split; [done|]. exact H.
  - left. eexists. split; [done|]. intros [(d & d' & H1 & H2 & Hne) _].
    destruct H as (q & n & _ & Hq & [[-> _]| ->]); congruence.
  - left. eexists. split; [done|]. intros [(d & d' & H1 & H2 & Hne) _].
    destruct H as [H|(d0 & H3 & H4)]; congruence.
Qed.

(** The calls whose error is the error of [LoadAndAttach]. *)
Definition load_error (s : Agent) (e : error) : Prop :=
  (exists w0, RemoveMemlock (world (host s)) = (Some e, w0)) \/
  exists h1 w1, prepared s h1 w1 /\
    ((exists w2, LoadCollectionSpec (ebpffile (bm s)) w1 = (inl e, w2)) \/
     exists spec w2, LoadCollectionSpec (ebpffile (bm s)) w1 = (inr spec, w2) /\
       ((exists w3, NewCollectionWithOptions spec EProxyPath w2 = (inl e, w3)) \/
        exists c w3 w4, NewCollectionWithOptions spec EProxyPath w2 = (inr c, w3) /\
          AttachCgroup (GetCgroupRoot h1) (Programs c !! "connect4") AttachCGroupInet4Connect w3
            = (inl e, w4))).

(** An error leaves the maps as they were, and leaves no link behind. *)
Definition load_failed (s s' : Agent) (e : error) : Prop :=
  load_error s e /\ service (bm s') = service (bm s) /\ endpoint (bm s') = endpoint (bm s) /\
  (cglink (bm s) = None -> cglink (bm s') = None).

(** The process ends with a message, before anything is loaded. *)
Definition load_exits (s s' : Agent) (p : panic) : Prop :=
  exists h1 msg, unlocked s h1 /\ foreign_bpffs (world h1) /\ p = LogFatal msg /\
    s' = mkAgent h1 (bm s).

Lemma attach_outcome (s : Agent) c :
  let r := AttachCgroup (GetCgroupRoot (host s)) (Programs c !! "connect4")
             AttachCGroupInet4Connect (world (host s)) in
  let h' := mkHost r.2 (cgroupRoot (host s)) (cgrpMountOnce (host s)) in
  attach c s =
    match r.1 with
    | inl err => (Returns (Some err), mkAgent h' (set_cglink None (bm s)))
    | inr l => (Returns None, mkAgent h' (set_maps (Maps c !! "eproxy_lb4_services")
                  (Maps c !! "eproxy_lb4_backends") (set_cglink (Some l) (bm s))))
    end.
Proof.
  unfold attach, bind, get, lib, on_host, on_world, call, set_bm, modify, ret.
  cbn zeta. by destruct (AttachCgroup _ _ _ _) as [[err|l] w].
Qed.

(** [LoadAndAttach] step by step: the first failing step decides. *)
Lemma LoadAndAttach_cases (s : Agent) :
  match LoadAndAttach s with
  | (Returns None, s') => exists spec c l, load_run s s' spec c l
  | (Returns (Some e), s') => load_failed s s' e
  | (Panics p, s') => load_exits s s' p
  end.
Proof.
  unfold LoadAndAttach. unfold bind at 1, lib at 1, on_host at 1, on_world at 1, call at 1.
  destruct (RemoveMemlock (world (host s))) as [[err|] w0] eqn:E0;
    [by split_and!; [left; eexists|..]|].
  unfold bind at 1, on_host at 1. cbn [host bm].
  destruct (CheckOrMountCgrpFS_returns (mkHost w0 (cgroupRoot (host s)) (cgrpMountOnce (host s))) "")
    as (h1 & E1). rewrite E1. cbn [bm host].
  assert (unlocked s h1) as Hu by by exists w0.
  unfold bind at 1, on_host at 1, on_world at 1. cbn [host bm].
  destruct (CheckOrMountBtfFS_cases (world h1)) as [(w1 & E2 & Hf)|(msg & E2 & Hf)]; rewrite E2;
    [|by exists h1, msg; destruct h1].
  assert (prepared s h1 w1) as Hp by done. clear E0 E1 E2 Hu Hf.
  unfold bind at 1, get. unfold bind at 1, lib at 1, on_host at 1, on_world at 1, call at 1.
  cbn [world host bm].
  destruct (LoadCollectionSpec (ebpffile (bm s)) w1) as [[err|spec] w2] eqn:E3;
    [by split_and!; [right; exists h1, w1; eauto|..]|].
  unfold bind at 1, lib at 1, on_host at 1, on_world at 1, call at 1.
  cbn [world host bm cgroupRoot cgrpMountOnce].
  destruct (NewCollectionWithOptions spec EProxyPath w2) as [[err|c] w3] eqn:E4;
    [by split_and!; [right; exists h1, w1; eauto 8|..]|].
  unfold bind, set_bm, modify. rewrite attach_outcome. cbn [host bm world cgroupRoot value_of].
  destruct (AttachCgroup _ _ _ w3) as [[err|l] w4] eqn:E5; cbn [fst snd];
    [by split_and!; [right; exists h1, w1; eauto 12|..]|].
  exists spec, c, l. split; [|done]. exists h1, w1, w2, w3, w4. by split_and!.
Qed.

Lemma Close_outcome (s : Agent) :
  match cglink (bm s), collection (bm s) with
  | Some l, Some c => exists e s', Close s = (Returns e, s')
  | None, _ => Close s = (Panics NilDereference, s)
  | Some _, None => True
  end.
Proof.
  unfold Close, bind, get, lib, on_host, on_world, call, ret, panics.
  destruct (cglink (bm s)) as [l|]; [|done]. destruct (collection (bm s)) as [c|]; [|done].
  destruct (link_Close _ _). cbn [host world]. destruct (collection_Close _ _). eauto.
Qed.

End loader.

(** ** Properties *)

(** C18. When [LoadAndAttach] returns without error, it made the calls of
    [load_run] in their order: the program "connect4" of the file is attached to
    the path the cgroup code chose, and the collection was created with the path
    of the BPF file system for its pins; if the file is the compiled service.c,
    the program exists and both maps are set, so that the agent can write them,
    and [Close] returns.  It does not follow that anything is mounted: a failed
    mount is only logged.  An error is the error of the call that failed, leaves
    the maps unset and, on a new manager, no link, so [Close] would panic.  The
    only other end is the fatal message, and it comes exactly when the root of
    the BPF file system is a mount of another type after the cgroup code ran. *)
Theorem LoadAndAttach_outcome {W Spec Prog MapT Lnk} `{!OS W} `{!EbpfOps W Spec Prog MapT Lnk}
    `{!EbpfSpec W Spec Prog MapT Lnk} (s : Agent) :
  match LoadAndAttach s with
  | (Returns None, s') => exists spec c l, load_run s s' spec c l /\
      (spec_object spec = service_object ->
         is_Some (ServiceMap (bm s')) /\ is_Some (EndpointMap (bm s')) /\
         is_Some (Programs c !! "connect4")) /\
      exists e s'', Close s' = (Returns e, s'')
  | (Returns (Some e), s') => load_failed s s' e /\
      (cglink (bm s) = None -> Close s' = (Panics NilDereference, s'))
  | (Panics p, s') => load_exits s s' p
  end.
Proof.
  pose proof (LoadAndAttach_cases s) as H.
  destruct (LoadAndAttach s) as [[[e|]|p] s']; [| |done].
  - split; [done|]. intros Hn. destruct H as (_ & _ & _ & Hl). specialize (Hl Hn).
    pose proof (Close_outcome s') as Hc. by rewrite Hl in Hc.
  - destruct H as (spec & c & l & Hrun). exists spec, c, l. split; [done|].
    destruct Hrun as [(h1 & w1 & w2 & w3 & w4 & _ & _ & E & _) Hbm]. split.
    + intros Ho. unfold ServiceMap, EndpointMap. rewrite Hbm. cbn [service endpoint].
      rewrite !(collection_maps _ _ _ _ _ _ E), (collection_programs _ _ _ _ _ _ E), Ho.
      cbn. rewrite !elem_of_cons. naive_solver.
    + pose proof (Close_outcome s') as Hc. by rewrite Hbm in Hc.
Qed.

(** The sizes the library computes from the Go types of keys and values are
    those the C program declares. *)
Lemma go_sizes_declared bo k v ek ev :
  length (go_encode bo Service4Key_fields (Service4Key_values k)) = map_key_size eproxy_lb4_services /\
  length (go_encode bo Service4Value_fields (Service4Value_values v))
    = map_value_size eproxy_lb4_services /\
  length (go_encode bo Endpoint4Key_fields (Endpoint4Key_values ek)) = map_key_size eproxy_lb4_backends /\
  length (go_encode bo Endpoint4Value_fields (Endpoint4Value_values ev))
    = map_value_size eproxy_lb4_backends.
Proof.
  unfold go_encode. cbn -[mem_bytes]. rewrite !length_app, !length_mem_bytes. done.
Qed.

(** ** An instance: a library that loads what a file contains

    The system holds the object files by path; handles are names. *)
Record sim_lib := mkSimLib { sim_fs : simfs; objects : gmap string object_file }.

#[export] Instance sim_lib_OS : OS sim_lib := {
  ENOENT := 2;
  BPF_FS_MAGIC := 0xcafe4a11;
  CGROUP2_SUPER_MAGIC := 0x63677270;
  unix_Lstat w p := unix_Lstat (sim_fs w) p;
  unix_Statfs w p := unix_Statfs (sim_fs w) p;
  stat_IsDir w p := stat_IsDir (sim_fs w) p;
  os_MkdirAll p m w := let (e, f) := os_MkdirAll p m (sim_fs w) in (e, mkSimLib f (objects w));
  unix_Mount a b c d e w := let (r, f) := unix_Mount a b c d e (sim_fs w) in (r, mkSimLib f (objects w));
  unix_NameToHandleAt w p := unix_NameToHandleAt (sim_fs w) p
}.

Definition names_of (ns : list string) : gmap string string := list_to_map (map (fun n => (n, n)) ns).

Definition sim_new_collection (o : object_file) (pin : string) (w : sim_lib)
    : (error + Collection string string) * sim_lib :=
  match nodes (sim_fs w) !! pin with
  | Some _ => (inr (mkCollection (names_of (map snd (object_programs o)))
                                 (names_of (map map_name (object_maps o)))), w)
  | None => (inl (PathError "pin" pin (Errno 2)), w)
  end.

#[export] Instance sim_ebpf : EbpfOps sim_lib object_file string string string := {
  RemoveMemlock w := (None, w);
  LoadCollectionSpec f w :=
    (match objects w !! f with Some o => inr o | None => inl (PathError "open" f (Errno 2)) end, w);
  NewCollectionWithOptions := sim_new_collection;
  AttachCgroup path p t w :=
    (match p with Some p => inr p | None => inl (ErrMsg "no program") end, w);
  link_Close l w := (None, w);
  collection_Close c w := (tt, w);
  spec_object o := o
}.

Lemma names_of_lookup ns n : is_Some (names_of ns !! n) <-> n ∈ ns.
Proof.
  unfold names_of. induction ns as [|m ns IH]; cbn.
  - rewrite lookup_empty. split; [by intros []|by intros ?%not_elem_of_nil].
  - rewrite elem_of_cons, <- IH, lookup_insert. case_decide; naive_solver.
Qed.

#[export] Instance sim_ebpf_spec : EbpfSpec sim_lib object_file string string string.
Proof.
  constructor; intros s pin w c w' n; cbn [NewCollectionWithOptions sim_ebpf spec_object];
    unfold sim_new_collection; destruct (nodes (sim_fs w) !! pin); [|done| |done];
    intros E; injection E as <- <-; apply names_of_lookup.
Qed.

(** A host without a BPF file system, and the compiled service.c. *)
Definition ex_lib : sim_lib := mkSimLib ex_tree {[ "service.o" := service_object ]}.
Definition ex_agent : Agent (W := sim_lib) (Prog := string) (MapT := string) (Lnk := string) :=
  mkAgent (initial_host ex_lib) (NewBPFManager "service.o").

Lemma LoadAndAttach_outcome_witness :
  let s' := (LoadAndAttach (Spec := object_file) ex_agent).2 in
  is_Some (ServiceMap (bm s')) /\ is_Some (EndpointMap (bm s')) /\
  exists e s'', Close (Spec := object_file) s' = (Returns e, s'').
Proof.
  pose proof (LoadAndAttach_outcome (Spec := object_file) ex_agent) as H.
  assert ((LoadAndAttach (Spec := object_file) ex_agent).1 = Returns None) as Er by by_vm.
  destruct (LoadAndAttach ex_agent) as [o s']. cbn [fst snd] in *. rewrite Er in H.
  destruct H as (spec & c & l & Hrun & Hmaps & Hclose).
  destruct Hrun as [(h1 & w1 & w2 & w3 & w4 & [(w0 & E0 & E1) [_ E2]] & E3 & _) _].
  assert (spec = service_object) as ->; [|by destruct (Hmaps eq_refl) as (? & ? & _)].
  cbn in E0. injection E0 as <-.
  apply (f_equal snd) in E1. cbn [snd] in E1. subst h1.
  clear - E2 E3.
  assert (objects w1 = {[ "service.o" := service_object ]}) as Ew.
  { apply (f_equal snd) in E2. cbn [snd] in E2. subst w1. by_vm. }
  cbn [LoadCollectionSpec sim_ebpf ebpffile bm ex_agent NewBPFManager] in E3. rewrite Ew in E3. injection E3 as <- _. by_vm.
Defined.

End Loader.
