(* ===== verification/Main.v ===== *)
(** * The process: src/cmd/eproxy/main.go and src/pkg/utils/signals

    Start-up in the order of [main], then two goroutines: the loop of [main],
    which polls the stop channel and sleeps, and the one of
    [SetupSignalHandler], which closes the channel on the first signal and ends
    the process on the second.  Their steps interleave freely. *)

From Stdlib Require Import ZArith Lia String.
From stdpp Require Import base gmap strings list.
From S2P Require Import Prelude OS Mounts Loader.
Import OS Mounts Loader.

Local Open Scope Z_scope.
Local Open Scope go_scope.

Module Main.

(** ** Start-up *)

Section startup.
Context {W Spec Prog MapT Lnk : Type} `{!OS W} `{!EbpfOps W Spec Prog MapT Lnk}.

(** The state [main] works on: the channel that guards the signal handler, and
    the agent. *)
Record Startup := mkStartup {
  onlyOneSignalHandler : bool;  (* closed *)
  agent : Agent (W := W) (Prog := Prog) (MapT := MapT) (Lnk := Lnk)
}.

(** Only the flags that change the control flow. *)
Definition ParseCommand (help : bool) : GoM Startup unit :=
  if help then panics (Exit 1) else ret tt.

Definition SetupSignalHandler : GoM Startup unit :=
  let! s := get in
  if onlyOneSignalHandler s then panics CloseOfClosedChannel
  else put (mkStartup true (agent s)).

Definition on_agent {A} (m : GoM Agent A) : GoM Startup A :=
  fun s => let (o, a) := m (agent s) in (o, mkStartup (onlyOneSignalHandler s) a).

(** [main] up to the construction of the service manager, which gets the two
    maps. *)
Definition main_start (help : bool) (ebpffile : string)
    : GoM Startup (option MapT * option MapT) :=
  ParseCommand help ;;;
  SetupSignalHandler ;;;
  on_agent (set_bm (fun _ => NewBPFManager ebpffile)) ;;;
  let! err := on_agent LoadAndAttach in
  match err with
  | Some err => panics (Exit 1)
  | None => let! s := get in ret (ServiceMap (bm (agent s)), EndpointMap (bm (agent s)))
  end.

(** How start-up ends: [-h] and an error of [LoadAndAttach] end the process with
    1, a panic of the mounting code goes through, and otherwise the manager gets
    the maps. *)
Lemma main_start_cases help file (s : Startup) :
  onlyOneSignalHandler s = false ->
  main_start help file s =
    if help then (Panics (Exit 1), s)
    else match LoadAndAttach (mkAgent (host (agent s)) (NewBPFManager file)) with
         | (Returns (Some err), a) => (Panics (Exit 1), mkStartup true a)
         | (Returns None, a) => (Returns (ServiceMap (bm a), EndpointMap (bm a)), mkStartup true a)
         | (Panics p, a) => (Panics p, mkStartup true a)
         end.
Proof.
  intros Hg. unfold main_start, ParseCommand. destruct help; [done|].
  unfold bind, ret, SetupSignalHandler, bind, get. rewrite Hg. unfold put, on_agent, set_bm, modify. cbn.
  by destruct (LoadAndAttach _) as [[[err|]|p] a].
Qed.

End startup.

(** ** The running process *)

Inductive signal := SIGINT | SIGTERM | SIGHUP.

#[export] Instance signal_eq_dec : EqDecision signal.
Proof. solve_decision. Defined.

(** signal_posix.go, and signal_windows.go *)
Definition shutdownSignals : list signal := [SIGINT; SIGTERM].
Definition shutdownSignals_windows : list signal := [SIGINT].

(** Where the goroutine of the handler is: [<-c; close(stop); <-c; os.Exit(1)]. *)
Inductive handler_pc := WaitFirst | CloseStop | WaitSecond | DoExit.

(** Where [main] is: at the select, asleep, in the branch of the stop channel,
    about to return. *)
Inductive main_pc := AtSelect | Asleep | AtClose | AtReturn.

(** How a process ends: by [os.Exit] or the end of [main], or by a signal. *)
Inductive ending := Exited (code : Z) | KilledBy (s : signal).

Record process := mkProcess {
  pending : list signal;     (* the channel c, of capacity 2 *)
  handler : handler_pc;
  stop_closed : bool;        (* the channel stop *)
  main : main_pc;
  closes : nat;              (* calls of bm.Close *)
  ended : option ending
}.

Definition initial : process := mkProcess [] WaitFirst false AtSelect 0 None.

Inductive action := Deliver (s : signal) | HandlerStep | MainStep.

(** [signal.Notify] does not block: a signal finds room in the channel or is
    dropped.  Others than the shutdown signals are not relayed, and the runtime
    lets them end the process, as SIGHUP does unless the process was started
    with it ignored. *)
Definition deliver (s : signal) (p : process) : process :=
  if decide (s ∈ shutdownSignals) then
    if (length (pending p) <? 2)%nat then
      mkProcess (pending p ++ [s]) (handler p) (stop_closed p) (main p) (closes p) (ended p)
    else p
  else mkProcess (pending p) (handler p) (stop_closed p) (main p) (closes p) (Some (KilledBy s)).

(** A receive blocks while the channel is empty. *)
Definition handler_step (p : process) : option process :=
  match handler p, pending p with
  | WaitFirst, _ :: q =>
      Some (mkProcess q CloseStop (stop_closed p) (main p) (closes p) (ended p))
  | CloseStop, q => Some (mkProcess q WaitSecond true (main p) (closes p) (ended p))
  | WaitSecond, _ :: q =>
      Some (mkProcess q DoExit (stop_closed p) (main p) (closes p) (ended p))
  | DoExit, q => Some (mkProcess q DoExit (stop_closed p) (main p) (closes p) (Some (Exited 1)))
  | _, [] => None
  end.

(** The select has a default branch, so it never blocks; returning from [main]
    ends the process. *)
Definition main_step (p : process) : process :=
  let at_ m c e := mkProcess (pending p) (handler p) (stop_closed p) m c e in
  match main p with
  | AtSelect => if stop_closed p then at_ AtClose (closes p) None else at_ Asleep (closes p) None
  | Asleep => at_ AtSelect (closes p) None
  | AtClose => at_ AtReturn (S (closes p)) None
  | AtReturn => at_ AtReturn (closes p) (Some (Exited 0))
  end.

(** Nothing happens after the end of the process. *)
Definition act (a : action) (p : process) : option process :=
  match ended p with
  | Some _ => None
  | None =>
      match a with
      | Deliver s => Some (deliver s p)
      | HandlerStep => handler_step p
      | MainStep => Some (main_step p)
      end
  end.

Fixpoint exec (tr : list action) (p : process) : option process :=
  match tr with
  | [] => Some p
  | a :: tr' => match act a p with Some p' => exec tr' p' | None => None end
  end.

Definition is_signal (a : action) : bool :=
  match a with Deliver s => bool_decide (s ∈ shutdownSignals) | _ => false end.
Definition internal (a : action) : bool :=
  match a with Deliver _ => false | _ => true end.

Definition count (f : action -> bool) (tr : list action) : nat := length (filter (fun a => f a = true) tr).

(** ** Invariant *)

(** The signals taken from the channel by the handler. *)
Definition taken (h : handler_pc) : nat :=
  match h with WaitFirst => 0 | CloseStop | WaitSecond => 1 | DoExit => 2 end.

(** What holds after [n] shutdown signals. *)
Record inv (n : nat) (p : process) : Prop := {
  inv_signals : (taken (handler p) + length (pending p) <= n)%nat;
  inv_stop : stop_closed p = true <-> handler p = WaitSecond \/ handler p = DoExit;
  inv_main : main p = AtClose \/ main p = AtReturn -> stop_closed p = true;
  inv_closes : closes p = match main p with AtReturn => 1%nat | _ => 0%nat end;
  inv_exit : match ended p with
             | None => True
             | Some (Exited c) => c = 0 /\ main p = AtReturn \/ c = 1 /\ handler p = DoExit
             | Some (KilledBy s) => s ∉ shutdownSignals
             end
}.

Lemma inv_initial : inv 0 initial.
Proof. constructor; cbn; try done; naive_solver. Qed.

Lemma inv_act n a p p' :
  inv n p -> act a p = Some p' -> inv (n + (if is_signal a then 1 else 0)) p'.
Proof.
  intros [Hs Hst Hm Hc He]. unfold act. destruct p as [q h st m c [e|]]; [done|].
  cbn [ended pending handler stop_closed main closes] in *.
  destruct a as [s| |]; cbn [is_signal].
  - intros [= <-]. unfold deliver. case_decide as Hin.
    + rewrite bool_decide_true by done. cbn [pending].
      destruct (Nat.ltb_spec (length q) 2); constructor; cbn; rewrite ?length_app; cbn; try done; lia.
    + rewrite bool_decide_false by done. rewrite Nat.add_0_r. by constructor.
  - unfold handler_step. cbn [pending handler]. rewrite Nat.add_0_r.
    destruct h, q; intros [= <-]; constructor; cbn in *; try lia; naive_solver.
  - intros [= <-]. rewrite Nat.add_0_r. unfold main_step. cbn [main].
    destruct m; cbn [stop_closed]; try destruct st; constructor; cbn in *; try done; naive_solver.
Qed.

Lemma count_cons f a tr : count f (a :: tr) = ((if f a then 1 else 0) + count f tr)%nat.
Proof. unfold count. rewrite filter_cons. by destruct (f a). Qed.

Lemma inv_exec tr n p p' :
  inv n p -> exec tr p = Some p' -> inv (n + count is_signal tr) p'.
Proof.
  revert n p. induction tr as [|a tr IH]; intros n p Hp.
  - intros [= <-]. by rewrite Nat.add_0_r.
  - cbn [exec]. destruct (act a p) as [p1|] eqn:E; [|done]. intros Ht.
    rewrite count_cons, Nat.add_assoc. eapply IH; [by eapply inv_act|done].
Qed.

(** ** Termination *)

(** An upper bound of the internal steps left once the channel is closed. *)
Definition steps_left (p : process) : nat :=
  match ended p with
  | Some _ => 0
  | None =>
      (match main p with Asleep => 4 | AtSelect => 3 | AtClose => 2 | AtReturn => 1 end +
       match handler p with WaitFirst | CloseStop => 0 | WaitSecond => 2 | DoExit => 1 end)%nat
  end.

Lemma act_steps_left n a p p' :
  inv n p -> stop_closed p = true -> act a p = Some p' ->
  stop_closed p' = true /\ (steps_left p' + (if internal a then 1 else 0) <= steps_left p)%nat.
Proof.
  intros [_ Hst _ _ _] Hstop. unfold act.
  destruct p as [q h st m c [e|]]; [done|]. cbn [stop_closed ended handler] in *. subst st.
  destruct a as [s| |]; cbn [internal].
  - intros [= <-]. unfold deliver. case_decide; [|cbn; split; [done|lia]].
    destruct (_ <? _)%nat; cbn; split; (done || lia).
  - unfold handler_step. cbn [handler pending].
    destruct Hst as [Hst _]. destruct (Hst eq_refl) as [->| ->]; destruct q;
      intros [= <-]; cbn; split; (done || destruct m; lia).
  - intros [= <-]. unfold main_step. cbn [main stop_closed].
    destruct m; cbn; split; (done || destruct h; lia).
Qed.

Lemma exec_steps_left tr n p p' :
  inv n p -> stop_closed p = true -> exec tr p = Some p' ->
  (count internal tr <= steps_left p)%nat.
Proof.
  revert n p. induction tr as [|a tr IH]; intros n p Hp Hs; [cbn; lia|].
  cbn [exec]. destruct (act a p) as [p1|] eqn:E; [|done]. intros Ht.
  destruct (act_steps_left n a p p1 Hp Hs E) as [Hs1 Hle].
  rewrite count_cons. specialize (IH _ p1 (inv_act _ _ _ _ Hp E) Hs1 Ht). lia.
Qed.

(** ** Properties *)

(** A process that a signal kills got that signal. *)
Lemma killed_delivered tr p p' s :
  exec tr p = Some p' -> ended p = None -> ended p' = Some (KilledBy s) -> Deliver s ∈ tr.
Proof.
  revert p. induction tr as [|a tr IH]; intros p; [intros [= <-]; by intros ->|].
  cbn [exec]. destruct (act a p) as [p1|] eqn:E; [|done]. intros Htr Hp Hp'.
  destruct (ended p1) as [e|] eqn:E1; [|right; by eapply IH].
  assert (p' = p1) as -> by (destruct tr; [by injection Htr|cbn in Htr; unfold act in Htr; by rewrite E1 in Htr]).
  clear E1. unfold act in E. rewrite Hp in E. destruct a as [s'| |].
  - injection E as <-. unfold deliver in Hp'. case_decide; [|injection Hp' as ->; by left].
    destruct (_ <? _)%nat; cbn in *; congruence.
  - unfold handler_step in E. destruct (handler p), (pending p); try done; injection E as <-; cbn in *; congruence.
  - injection E as <-. unfold main_step in Hp'. destruct (main p); [destruct (stop_closed p)|..]; cbn in Hp'; congruence.
Qed.

(** How the two goroutines end the process, in every interleaving: not at all
    without a signal; with 0 only after a shutdown signal, with the eBPF objects
    closed exactly once; with 1 only after two; by a signal only when it was
    sent one they do not listen to. *)
Theorem process_exits (tr : list action) (p : process) :
  exec tr initial = Some p ->
  match ended p with
  | None => (closes p <= 1)%nat
  | Some (Exited c) => c = 0 /\ (1 <= count is_signal tr)%nat /\ closes p = 1%nat \/
                       c = 1 /\ (2 <= count is_signal tr)%nat
  | Some (KilledBy s) => s ∉ shutdownSignals /\ Deliver s ∈ tr
  end.
Proof.
  intros Ht. destruct (inv_exec tr 0 initial p inv_initial Ht) as [Hs Hst Hm Hc He].
  destruct (ended p) as [[c|s]|] eqn:E; [|split; [done|by eapply killed_delivered]|destruct (main p); lia].
  destruct He as [[-> Hr]|[-> Hx]].
  - left. split; [done|]. rewrite Hr in Hc. split; [|done].
    destruct Hst as [Hst _]. destruct (Hst (Hm (or_intror Hr))) as [E'|E']; rewrite E' in Hs;
      cbn in Hs; lia.
  - right. split; [done|]. rewrite Hx in Hs. cbn in Hs. lia.
Qed.

(** C22. Once the stop channel is closed, the process ends: whatever signals come
    and however the goroutines interleave, they take at most six more steps,
    and as long as the process has not ended [main] can take one. *)
Theorem stop_terminates (tr tr' : list action) (p p' : process) :
  exec tr initial = Some p -> stop_closed p = true -> exec tr' p = Some p' ->
  (count internal tr' <= 6)%nat /\
  (ended p' = None -> exists p'', act MainStep p' = Some p'').
Proof.
  intros Ht Hs Ht'. split.
  - pose proof (exec_steps_left tr' _ p p' (inv_exec tr 0 _ _ inv_initial Ht) Hs Ht') as H.
    unfold steps_left in H. destruct (ended p); [lia|]. destruct (main p), (handler p); lia.
  - intros E. unfold act. rewrite E. eauto.
Qed.

(** [main] returns after one signal, closing the objects. *)
Definition ex_stopped : process := mkProcess [] WaitSecond true Asleep 0 None.
Definition ex_rest : list action := [Deliver SIGINT; MainStep; MainStep; HandlerStep; MainStep].
Definition ex_closing : process := mkProcess [] DoExit true AtReturn 1 None.

Lemma stop_terminates_witness :
  (count internal ex_rest <= 6)%nat /\
  (ended ex_closing = None -> exists p'', act MainStep ex_closing = Some p'').
Proof.
  apply (stop_terminates [MainStep; Deliver SIGTERM; HandlerStep; HandlerStep] _ ex_stopped); by_vm.
Defined.

End Main.
