(* ===== verification/HelperUse.v ===== *)
(** * The helper calls of src/ebpf/src/service.c

    [connect4] prints trace lines with [bpf_printk].  This file follows them
    through the macros of bpf_helpers.h to calls of [bpf_trace_printk] and
    checks their formats against the conversion specifiers that the helper's
    comment in bpf_helper_defs.h lists. *)

From Stdlib Require Import ZArith Lia String Ascii.
From stdpp Require Import base list strings.
From S2P Require Import Prelude Layout BpfMap Helpers HelperDefs Connect4.
Import Layout BpfMap Helpers HelperDefs Connect4.

Local Open Scope Z_scope.

Module HelperUse.

(** The conversion specifiers of a format: a percent sign, any number of [l]s,
    one more character. *)
Fixpoint specifiers (pending : option string) (fmt : string) : list string :=
  match fmt with
  | EmptyString => match pending with Some p => [p] | None => [] end
  | String c rest =>
      match pending with
      | None =>
          if Ascii.eqb c "%" then specifiers (Some (String c EmptyString)) rest
          else specifiers None rest
      | Some p =>
          let p' := (p ++ String c EmptyString)%string in
          if Ascii.eqb c "l" then specifiers (Some p') rest else p' :: specifiers None rest
      end
  end.

(** Those [bpf_trace_printk] accepts. *)
Definition supported_specifiers : list string :=
  ["%d"; "%i"; "%u"; "%x"; "%ld"; "%li"; "%lu"; "%lx"; "%lld"; "%lli"; "%llu"; "%llx"; "%p";
   "%s"]%string.

Definition accepted_format (fmt : string) (nargs : nat) : bool :=
  let specs := specifiers None fmt in
  forallb (fun p => bool_decide (p ∈ supported_specifiers)) specs && (length specs =? nargs)%nat.

Definition accepted_line (junk : nat -> Z) (line : trace_line) : bool :=
  let '(Connect4.bpf_printk fmt args) := line in
  accepted_format fmt (length args) &&
  match Helpers.bpf_printk bpf_trace_printk bpf_trace_vprintk junk fmt args with
  | Some (h, ops) => (h_id h =? 6) && bool_decide (is_Some (compile_call h ops))
  | None => false
  end.

(** Whatever the maps, the random word and the context, every line [connect4]
    prints has only supported specifiers, one per argument, and compiles to a
    call of [bpf_trace_printk] that fits the registers. *)
Theorem connect4_traces_accepted {SM BM} `{!MapOps lb4_key lb4_service SM}
    `{!MapOps Z lb4_backend BM} (junk : nat -> Z) (s : SM) (b : BM) (r : Z) (ctx : bpf_sock_addr) :
  forallb (accepted_line junk) (connect4 s b r ctx).2 = true.
Proof.
  unfold connect4. repeat case_match; cbn [snd]; by vm_compute.
Qed.

End HelperUse.
