(* ===== verification/GoSet.v ===== *)
(** * Sets: src/pkg/utils/set/set.go, union.go and interface.go

    [Typed[T]] is a Go map from [T] to the empty struct; a nil map is the
    read-only set returned by [Empty].  A [range] over a Go map visits its keys
    in an unspecified order, so each iteration takes the order as an argument,
    [ord], a permutation of the members ([order_of]). *)

From Stdlib Require Import ZArith Lia String.
From stdpp Require Import base gmap list strings sets.
From S2P Require Import Prelude.

Local Open Scope go_scope.

Module GoSet.

Section typed.
Context {T : Type} `{Countable T}.

(** [None] is the nil map. *)
Definition Typed : Type := option (gset T).

Definition members (set : Typed) : gset T := default ∅ set.

Definition order_of (set : Typed) (ord : list T) : Prop := ord ≡ₚ elements (members set).

(** ** Constructors and simple operations *)

Definition New : Typed := Some ∅.
Definition Empty : Typed := None.

Definition Len (set : Typed) : nat := size (members set).

(** Writing to a nil map panics. *)
Definition Add (item : T) : GoM Typed unit := fun set =>
  match set with
  | None => (Panics NilMapWrite, None)
  | Some m => (Returns tt, Some ({[item]} ∪ m))
  end.

Fixpoint AddAll (itemArray : list T) : GoM Typed unit :=
  match itemArray with
  | [] => ret tt
  | v :: rest => Add v ;;; AddAll rest
  end.

Definition FromArray (membersArray : list T) : outcome Typed :=
  match AddAll membersArray New with
  | (Returns _, s) => Returns s
  | (Panics p, _) => Panics p
  end.

(** [From] is [FromArray] with its arguments collected by the compiler. *)
Definition From (members : list T) : outcome Typed := FromArray members.

Definition Discard (item : T) : GoM Typed unit := modify (fun set =>
  match set with
  | None => None
  | Some m => Some (m ∖ {[item]})
  end).

Definition Clear : GoM Typed unit := modify (fun set =>
  match set with
  | None => None
  | Some _ => Some ∅
  end).

Definition Contains (set : Typed) (item : T) : bool := bool_decide (item ∈ members set).

(** ** Iteration

    The visitor runs in a state [St] of its own; the set iterated over is the
    first component of the state, so that [RemoveItem] shows. *)

Section iter.
Context {St : Type}.

Definition on_visitor {A} (m : GoM St A) : GoM (Typed * St) A := fun s =>
  let '(o, st) := m s.2 in (o, (s.1, st)).

Definition on_set {A} (m : GoM Typed A) : GoM (Typed * St) A := fun s =>
  let '(o, set) := m s.1 in (o, (set, s.2)).

Fixpoint Iter (visitor : T -> GoM St (option error)) (ord : list T) : GoM (Typed * St) unit :=
  match ord with
  | [] => ret tt
  | item :: rest =>
      let! err := on_visitor (visitor item) in
      match err with
      | Some StopIteration => ret tt
      | Some RemoveItem => on_set (Discard item) ;;; Iter visitor rest
      | None => Iter visitor rest
      | Some err => panics (LogPanic err)
      end
  end.

(** An iteration whose set is not needed afterwards. *)
Definition iter_over (set : Typed) (visitor : T -> GoM St (option error)) (ord : list T)
    : GoM St unit := fun st =>
  let '(o, s) := Iter visitor ord (set, st) in (o, s.2).
End iter.

(** [AddSet] iterates over [other] and adds each item to the set. *)
Definition AddSet (other : Typed) (ord : list T) : GoM Typed unit :=
  iter_over other (fun item => Add item ;;; ret None) ord.

(** [for item := range set { cpy.Add(item) }] into a new set. *)
Definition Copy (ord : list T) : outcome Typed := FromArray ord.

(** [for item := range set { s = append(s, item) }]. *)
Definition Slice (ord : list T) : list T := fold_left (fun s item => s ++ [item]) ord [].

Fixpoint all_contained (other : Typed) (ord : list T) : bool :=
  match ord with
  | [] => true
  | item :: rest => if Contains other item then all_contained other rest else false
  end.

Definition Equals (set other : Typed) (ord : list T) : bool :=
  if negb (Len set =? Len other)%nat then false else all_contained other ord.

(** The captured variable [result] is the visitor's state. *)
Definition ContainsAll (set other : Typed) (ord : list T) : outcome bool * bool :=
  let visitor item : GoM bool (option error) :=
    if negb (Contains set item) then put false ;;; ret (Some StopIteration) else ret None in
  (iter_over other visitor ord ;;; get) true.

(** [String] with [fmt.Fprint] of an item as the argument [show]; the state is
    the captured [first] and the buffer. *)
Definition String (show : T -> string) (set : Typed) (ord : list T) : GoM (bool * string) string :=
  modify (fun s => (s.1, s.2 ++ "set.Set{"))%string ;;;
  iter_over set (fun item =>
    modify (fun s => if negb s.1 then (s.1, s.2 ++ ",") else (false, s.2))%string ;;;
    modify (fun s => (s.1, s.2 ++ show item))%string ;;;
    ret None) ord ;;;
  modify (fun s => (s.1, s.2 ++ "}"))%string ;;;
  let! s := @get (bool * string) in ret s.2.

(** ** IterUnion *)

(** [sort.Slice] sorts fewer than 13 elements by insertion: each element moves
    left while it is smaller than its neighbour.  [less] is "has more
    members". *)
Definition bigger (x y : Typed) : bool := (Len y <? Len x)%nat.

Fixpoint insert_left (x : Typed) (sorted_rev : list Typed) : list Typed :=
  match sorted_rev with
  | [] => [x]
  | y :: ys => if bigger x y then y :: insert_left x ys else x :: sorted_rev
  end.

(** The prefix already sorted is kept reversed, its last element first. *)
Definition sort_sets (sets : list Typed) : list Typed :=
  rev (fold_left (fun acc x => insert_left x acc) sets []).

Section union.
Context {St : Type}.

(** The captured [stop] flag and the state of [f]. *)
Definition call_f (f : T -> GoM St bool) (item : T) : GoM (bool * St) (option error) := fun s =>
  let '(o, st) := f item s.2 in
  match o with
  | Returns true => (Returns None, (s.1, st))
  | Returns false => (Returns (Some StopIteration), (true, st))
  | Panics p => (Panics p, (s.1, st))
  end.

(** The loop over few sets: an item seen in an earlier set is skipped. *)
Fixpoint union_few (f : T -> GoM St bool) (before sets : list Typed) (ords : list (list T))
    : GoM (bool * St) unit :=
  match sets, ords with
  | s1 :: rest, ord :: ords' =>
      iter_over s1 (fun item =>
        if existsb (fun s => Contains s item) before then ret None else call_f f item) ord ;;;
      let! st := @get (bool * St) in
      if st.1 then ret tt else union_few f (before ++ [s1]) rest ords'
  | _, _ => ret tt
  end.

(** The loop over many sets, with the set [seen]; [i] is the index of the set
    and [n] the number of sets. *)
Definition many_visitor (f : T -> GoM St bool) (i n : nat) (item : T)
    : GoM (Typed * (bool * St)) (option error) := fun s =>
  if negb (i =? 0)%nat && Contains s.1 item then (Returns None, s)
  else
    let '(o, st) := call_f f item s.2 in
    match o with
    | Returns None =>
        if (i <? n - 1)%nat
        then let '(o', seen) := Add item s.1 in
             (match o' with Returns _ => Returns None | Panics p => Panics p end, (seen, st))
        else (Returns None, (s.1, st))
    | _ => (o, (s.1, st))
    end.

Fixpoint union_many (f : T -> GoM St bool) (i n : nat) (sets : list Typed) (ords : list (list T))
    : GoM (Typed * (bool * St)) unit :=
  match sets, ords with
  | s :: rest, ord :: ords' =>
      iter_over s (many_visitor f i n) ord ;;;
      let! st := @get (Typed * (bool * St)) in
      if st.2.1 then ret tt else union_many f (S i) n rest ords'
  | _, _ => ret tt
  end.

(** [ords] are the orders in which the sets, as they stand after the sort, are
    ranged over. *)
Definition IterUnion (sets : list Typed) (f : T -> GoM St bool) (ords : list (list T))
    : GoM St unit := fun st =>
  match sets with
  | [] => (Returns tt, st)
  | [s0] =>
      let '(o, r) := iter_over s0 (call_f f) (default [] (head ords)) (false, st) in (o, r.2)
  | _ =>
      if (length sets <? 5)%nat
      then let '(o, r) := union_few f [] (sort_sets sets) ords (false, st) in (o, r.2)
      else let '(o, r) := union_many f 0 (length sets) sets ords (New, (false, st)) in (o, r.2.2)
  end.
End union.

End typed.
Arguments Typed T {_ _}.

(** ** Lemmas *)

Section lemmas.
Context {T : Type} `{Countable T}.
Implicit Types (set other : Typed T) (ord : list T).

Lemma AddAll_members (l : list T) (m : gset T) :
  AddAll l (Some m) = (Returns tt, Some (list_to_set l ∪ m)).
Proof.
  revert m. induction l as [|x l IH]; intros m; cbn.
  - unfold ret. do 2 f_equal. set_solver.
  - unfold bind. cbn. rewrite IH. do 2 f_equal. set_solver.
Qed.

(** One step of an iteration whose set is dropped. *)
Lemma iter_over_cons {St} set (visitor : T -> GoM St (option error)) x ord st :
  iter_over set visitor (x :: ord) st =
  match visitor x st with
  | (Returns None, st') => iter_over set visitor ord st'
  | (Returns (Some StopIteration), st') => (Returns tt, st')
  | (Returns (Some RemoveItem), st') =>
      iter_over (Discard x set).2 visitor ord st'
  | (Returns (Some err), st') => (Panics (LogPanic err), st')
  | (Panics p, st') => (Panics p, st')
  end.
Proof.
  unfold iter_over. cbn [Iter]. unfold bind, on_visitor, on_set. cbn.
  destruct (visitor x st) as [[[[]|]|p] st']; done.
Qed.

(** An iteration preserves what its visitor preserves. *)
Lemma iter_over_preserves {St} (I : St -> Prop) set (visitor : T -> GoM St (option error)) ord :
  (forall x, x ∈ ord -> preserves I (visitor x)) -> preserves I (iter_over set visitor ord).
Proof.
  revert set. induction ord as [|x ord IH]; intros set Hv st Hst; [done|].
  pose proof (Hv x ltac:(left) st Hst) as Hx. rewrite iter_over_cons.
  destruct (visitor x st) as [[[[]|]|p] st']; cbn in Hx |- *; try done.
  all: apply IH; [|done]; intros y Hy; apply Hv; by right.
Qed.

Lemma order_of_elem set ord x : order_of set ord -> x ∈ ord <-> x ∈ members set.
Proof. intros E. unfold order_of in E. rewrite E. apply elem_of_elements. Qed.

Lemma order_of_NoDup set ord : order_of set ord -> NoDup ord.
Proof. intros E. unfold order_of in E. rewrite E. apply NoDup_elements. Qed.

Lemma Contains_false set x : Contains set x = false <-> x ∉ members set.
Proof. unfold Contains. by rewrite bool_decide_eq_false. Qed.

Lemma all_contained_spec other ord :
  all_contained other ord = true <-> Forall (fun x => x ∈ members other) ord.
Proof.
  induction ord as [|x ord IH]; cbn; [done|].
  rewrite Forall_cons, <- IH. unfold Contains. case_bool_decide; naive_solver.
Qed.

(** The set iterated over by the loop of [ContainsAll]. *)
Lemma contains_all_loop set other ord (b : bool) :
  iter_over other (fun item : T =>
    (if negb (Contains set item) then put false ;;; ret (Some StopIteration) else ret None))
    ord b = (Returns tt, b && all_contained set ord).
Proof.
  revert b. induction ord as [|x ord IH]; intros b; [by rewrite andb_true_r|].
  rewrite iter_over_cons. cbn [all_contained]. destruct (Contains set x); cbn.
  - apply IH.
  - by rewrite andb_false_r.
Qed.

(** *** The items a callback is called on *)

(** [take_until g l]: the items up to and including the first on which [g] is
    false. *)
Fixpoint take_until (g : T -> bool) (l : list T) : list T :=
  match l with
  | [] => []
  | x :: l' => x :: if g x then take_until g l' else []
  end.

(** A callback that records its argument and answers [g]. *)
Definition logging (g : T -> bool) (item : T) : GoM (list T) bool :=
  fun log => (Returns (g item), log ++ [item]).

Lemma take_until_app g l1 l2 :
  take_until g (l1 ++ l2) = take_until g l1 ++ if forallb g l1 then take_until g l2 else [].
Proof.
  induction l1 as [|x l1 IH]; cbn; [done|]. f_equal. rewrite IH. by destruct (g x).
Qed.

(** The first occurrences, in the order in which the sets are scanned. *)
Definition fresh_in (before : list (Typed T)) (ord : list T) : list T :=
  filter (fun x => existsb (fun s => Contains s x) before = false) ord.

Fixpoint enum (before sets : list (Typed T)) (ords : list (list T)) : list T :=
  match sets, ords with
  | s :: rest, ord :: ords' => fresh_in before ord ++ enum (before ++ [s]) rest ords'
  | _, _ => []
  end.

Lemma iter_few set g before ord log :
  iter_over set (fun item : T =>
    (if existsb (fun s => Contains s item) before then ret None
     else call_f (logging g) item)) ord (false, log) =
  (Returns tt, (negb (forallb g (fresh_in before ord)),
                log ++ take_until g (fresh_in before ord))).
Proof.
  revert log. induction ord as [|x ord IH]; intros log; [by rewrite app_nil_r|].
  rewrite iter_over_cons. unfold fresh_in. rewrite filter_cons.
  destruct (existsb _ before) eqn:E; cbn [decide_rel]; case_decide; try done.
  - unfold ret. apply IH.
  - unfold call_f, logging. cbn [snd]. destruct (g x) eqn:Eg.
    + cbn [fst]. unfold fresh_in in IH. rewrite IH. cbn [take_until forallb].
      by rewrite Eg, <- app_assoc.
    + cbn [take_until forallb]. by rewrite Eg.
Qed.

Lemma union_few_spec g before sets ords log :
  union_few (logging g) before sets ords (false, log) =
  (Returns tt, (negb (forallb g (enum before sets ords)),
                log ++ take_until g (enum before sets ords))).
Proof.
  revert before ords log. induction sets as [|s sets IH]; intros before [|ord ords] log;
    try (cbn; by rewrite app_nil_r).
  cbn [union_few enum]. unfold bind. rewrite iter_few. unfold get. cbn [fst].
  rewrite forallb_app, take_until_app. destruct (forallb g (fresh_in before ord)); cbn.
  - by rewrite IH, app_assoc.
  - by rewrite app_nil_r.
Qed.

Lemma elem_of_enum before sets ords x :
  Forall2 order_of sets ords ->
  x ∈ enum before sets ords <->
  (exists s, s ∈ sets /\ x ∈ members s) /\ existsb (fun s => Contains s x) before = false.
Proof.
  intros Ho. revert before. induction Ho as [|s ord sets ords Hs Ho IH]; intros before.
  - cbn. rewrite elem_of_nil. set_solver.
  - cbn [enum]. rewrite elem_of_app, IH. unfold fresh_in.
    rewrite list_elem_of_filter, (order_of_elem s ord) by done.
    rewrite existsb_app. cbn. rewrite orb_false_r, orb_false_iff, Contains_false.
    setoid_rewrite elem_of_cons.
    destruct (decide (x ∈ members s)); naive_solver.
Qed.

Lemma NoDup_enum before sets ords :
  Forall2 order_of sets ords -> NoDup (enum before sets ords).
Proof.
  intros Ho. revert before. induction Ho as [|s ord sets ords Hs Ho IH]; intros before.
  - constructor.
  - cbn [enum]. apply NoDup_app. split_and!; [|intros x Hx|done].
    + apply NoDup_filter. by eapply order_of_NoDup.
    + rewrite elem_of_enum by done. intros [_ Hx']. rewrite existsb_app in Hx'.
      apply orb_false_iff in Hx' as [_ Hx']. cbn in Hx'. rewrite orb_false_r, Contains_false in Hx'.
      unfold fresh_in in Hx. apply list_elem_of_filter in Hx as [_ Hx].
      rewrite (order_of_elem s ord) in Hx by done. done.
Qed.
(** *** Many sets: the items already handed out are in [seen] *)

Lemma iter_many set g (i n : nat) (m : gset T) ord log :
  NoDup ord -> (i = 0%nat -> m = ∅) ->
  let l := filter (fun x => x ∉ m) ord in
  exists m' : gset T,
  iter_over set (many_visitor (logging g) i n) ord (Some m, (false, log)) =
  (Returns tt, (Some m', (negb (forallb g l), log ++ take_until g l))) /\
  (forallb g l = true -> (i < n - 1)%nat -> m' = m ∪ list_to_set ord).
Proof.
  intros Hnd Hi0 l. subst l.
  (* the items not to hand out stay those of [m] while [seen] grows *)
  cut (forall (k : gset T) log, (forall x, x ∈ ord -> x ∈ k <-> x ∈ m) -> (i = 0%nat -> k ## list_to_set ord) ->
    exists m' : gset T,
    iter_over set (many_visitor (logging g) i n) ord (Some k, (false, log)) =
    (Returns tt, (Some m', (negb (forallb g (filter (fun x => x ∉ m) ord)),
                            log ++ take_until g (filter (fun x => x ∉ m) ord)))) /\
    (forallb g (filter (fun x => x ∉ m) ord) = true -> (i < n - 1)%nat -> m' = k ∪ list_to_set ord)).
  { intros Hcut. apply Hcut; [done|]. intros E. rewrite (Hi0 E). set_solver. }
  clear Hi0 log. induction Hnd as [|x ord Hx Hnd IH]; intros k log Hk Hd.
  { exists k. split; [by rewrite app_nil_r|]. intros _ _. set_solver. }
  rewrite iter_over_cons. unfold many_visitor at 1. cbn [fst snd]. rewrite filter_cons.
  assert (negb (i =? 0)%nat && Contains (Some k) x = bool_decide (x ∈ m)) as ->.
  { unfold Contains, members. cbn. rewrite (bool_decide_ext _ (x ∈ m)) by (apply Hk; set_solver).
    destruct (Nat.eqb_spec i 0) as [E|]; [|done]. case_bool_decide as Em; [|done].
    apply (Hk x) in Em; [|set_solver]. specialize (Hd E). set_solver. }
  case_bool_decide as Em.
  - rewrite decide_False by naive_solver.
    destruct (IH k log) as (m' & -> & Hm'); [set_solver|set_solver|].
    exists m'. split; [done|]. intros Hg Hin. rewrite (Hm' Hg Hin).
    apply (Hk x) in Em; set_solver.
  - rewrite decide_True by done. unfold call_f, logging. cbn [fst snd forallb take_until].
    destruct (g x) eqn:Eg; cbn [andb negb].
    + destruct (Nat.ltb_spec i (n - 1)).
      * cbn [Add]. destruct (IH ({[x]} ∪ k) (log ++ [x])) as (m' & E & Hm'); [set_solver|set_solver|].
        exists m'. split; [etransitivity; [exact E|]; by rewrite <- app_assoc|].
        intros Hg Hin. rewrite (Hm' Hg Hin). set_solver.
      * destruct (IH k (log ++ [x])) as (m' & E & Hm'); [set_solver|set_solver|].
        exists m'. split; [etransitivity; [exact E|]; by rewrite <- app_assoc|]. intros; lia.
    + exists k. by split.
Qed.

Lemma fresh_in_filter before (m : gset T) ord :
  (forall x, x ∈ m <-> existsb (fun s => Contains s x) before = true) ->
  fresh_in before ord = filter (fun x => x ∉ m) ord.
Proof.
  intros Hm. unfold fresh_in. apply list_filter_iff. intros x. rewrite Hm.
  by destruct (existsb _ before).
Qed.

Lemma union_many_spec g before sets ords (m : gset T) log :
  Forall2 order_of sets ords ->
  (forall x, x ∈ m <-> existsb (fun s => Contains s x) before = true) ->
  exists r, union_many (logging g) (length before) (length before + length sets) sets ords
    (Some m, (false, log)) =
  (Returns tt, (r, (negb (forallb g (enum before sets ords)),
                    log ++ take_until g (enum before sets ords)))).
Proof.
  intros Ho. revert before m log. induction Ho as [|s ord sets ords Hs Ho IH]; intros before m log Hm.
  { cbn. exists (Some m). by rewrite app_nil_r. }
  cbn [union_many enum length]. unfold bind.
  destruct (iter_many s g (length before) (length before + S (length sets)) m ord log)
    as (m' & -> & Hm'); [by eapply order_of_NoDup| |].
  { intros E%length_zero_iff_nil. subst before. apply set_eq. intros x. rewrite Hm. set_solver. }
  rewrite <- (fresh_in_filter before m ord Hm) in *. unfold get. cbn [fst snd].
  rewrite forallb_app, take_until_app. destruct (forallb g (fresh_in before ord)) eqn:Eg; cbn.
  - destruct sets as [|s' sets].
    { inversion Ho; subst. cbn. exists (Some m'). by rewrite !app_nil_r. }
    specialize (Hm' eq_refl). cbn [length] in Hm'. rewrite Hm' by lia.
    destruct (IH (before ++ [s]) (m ∪ list_to_set ord) (log ++ take_until g (fresh_in before ord)))
      as (r & E).
    { intros x. rewrite existsb_app, orb_true_iff, elem_of_union, Hm, elem_of_list_to_set.
      rewrite (order_of_elem s ord) by done. cbn. rewrite orb_false_r. unfold Contains.
      by rewrite bool_decide_eq_true. }
    rewrite length_app in E. cbn [length] in E |- *.
    replace (length before + 1)%nat with (S (length before)) in E by lia.
    replace (S (length before) + S (length sets))%nat
      with (length before + S (S (length sets)))%nat in E by lia.
    exists r. by rewrite E, app_assoc.
  - exists (Some m'). by rewrite app_nil_r.
Qed.

Lemma union_many_all g sets ords :
  Forall2 order_of sets ords ->
  exists r, union_many (logging g) 0 (length sets) sets ords (New, (false, [])) =
  (Returns tt, (r, (negb (forallb g (enum [] sets ords)), take_until g (enum [] sets ords)))).
Proof. intros Ho. apply (union_many_spec g [] sets ords ∅ []); [done|set_solver]. Qed.

(** *** The sort *)

Lemma insert_left_perm x (l : list (Typed T)) : insert_left x l ≡ₚ x :: l.
Proof.
  induction l as [|y l IH]; cbn [insert_left]; [done|]. destruct (bigger x y); [|done].
  rewrite IH. apply Permutation_swap.
Qed.

Lemma sort_sets_perm (sets : list (Typed T)) : sort_sets sets ≡ₚ sets.
Proof.
  unfold sort_sets. rewrite <- Permutation_rev.
  enough (forall acc, fold_left (fun acc x => insert_left x acc) sets acc ≡ₚ sets ++ acc) as ->
    by (by rewrite app_nil_r).
  induction sets as [|s sets IH]; intros acc; cbn; [done|].
  rewrite IH, insert_left_perm. symmetry. apply Permutation_middle.
Qed.

(** The members of some set of the list. *)
Definition union_members (sets : list (Typed T)) : gset T := ⋃ (members <$> sets).

Lemma elem_of_union_members sets x :
  x ∈ union_members sets <-> exists s, s ∈ sets /\ x ∈ members s.
Proof.
  unfold union_members. rewrite elem_of_union_list. setoid_rewrite list_elem_of_fmap.
  naive_solver.
Qed.

Lemma enum_perm sets ords :
  Forall2 order_of sets ords -> enum [] sets ords ≡ₚ elements (union_members sets).
Proof.
  intros Ho. apply NoDup_Permutation; [by apply NoDup_enum|apply NoDup_elements|].
  intros x. rewrite elem_of_enum, elem_of_elements, elem_of_union_members by done. naive_solver.
Qed.
End lemmas.

(** ** Properties *)

Section properties.
Context {T : Type} `{Countable T}.

(** The sets as [IterUnion] scans them: sorted when there are two to four. *)
Definition scanned (sets : list (Typed T)) : list (Typed T) :=
  if (1 <? length sets)%nat && (length sets <? 5)%nat then sort_sets sets else sets.

(** C37. Whatever the number of sets, hence in all three strategies, and whatever
    the iteration orders, [IterUnion] calls its callback on the members of the
    union in some order without repetition, and stops right after the first
    item the callback refuses. *)
Theorem IterUnion_visits_union (sets : list (Typed T)) (ords : list (list T)) (g : T -> bool) :
  Forall2 order_of (scanned sets) ords ->
  exists l, l ≡ₚ elements (union_members sets) /\
    IterUnion sets (logging g) ords [] = (Returns tt, take_until g l).
Proof.
  intros Ho. exists (enum [] (scanned sets) ords). split.
  - rewrite enum_perm by done. apply NoDup_Permutation; try apply NoDup_elements.
    intros x. rewrite !elem_of_elements, !elem_of_union_members. unfold scanned.
    destruct (_ && _); [|done]. setoid_rewrite (sort_sets_perm sets). done.
  - unfold scanned in *. destruct sets as [|s1 [|s2 sets]].
    + cbn. inversion Ho; subst. done.
    + change ((1 <? length [s1])%nat && (length [s1] <? 5)%nat) with false in *.
      apply Forall2_cons_inv_l in Ho as (ord & ords' & Hs & Hn & ->).
      inversion Hn; subst. cbn [IterUnion enum head default id].
      assert (iter_over s1 (call_f (logging g)) ord (false, []) = _) as ->
        by exact (iter_few s1 g [] ord []).
      by rewrite app_nil_r.
    + cbn [IterUnion]. destruct (Nat.ltb_spec (length (s1 :: s2 :: sets)) 5) as [E|E];
        (destruct (Nat.ltb_spec 1 (length (s1 :: s2 :: sets))); [|cbn in *; lia]); cbn [andb] in *.
      * by rewrite union_few_spec.
      * destruct (union_many_all g (s1 :: s2 :: sets) ords Ho) as (r & Er). by rewrite Er.
Qed.

(** [Equals] decides equality of the members, in any iteration order: the
    length test makes the one-sided inclusion loop enough. *)
Theorem Equals_correct (set other : Typed T) (ord : list T) :
  order_of set ord -> Equals set other ord = true <-> members set = members other.
Proof.
  intros Ho. unfold Equals, Len.
  destruct (Nat.eqb_spec (size (members set)) (size (members other))) as [E|E]; cbn [negb].
  - rewrite all_contained_spec, Forall_forall. split.
    + intros Hall. apply set_subseteq_size_eq; [|lia]. intros x Hx.
      apply Hall. by rewrite (order_of_elem set ord).
    + intros <- x Hx. by rewrite (order_of_elem set ord) in Hx.
  - split; [done|]. intros Em. by rewrite Em in E.
Qed.

(** [ContainsAll] decides inclusion, in any iteration order, and never
    panics: the sentinel that stops its loop is handled by [Iter]. *)
Theorem ContainsAll_correct (set other : Typed T) (ord : list T) :
  order_of other ord ->
  (ContainsAll set other ord).1 = Returns (bool_decide (members other ⊆ members set)).
Proof.
  intros Ho. unfold ContainsAll, bind. rewrite contains_all_loop. cbn [andb].
  unfold get. cbn [fst]. f_equal. apply eq_true_iff_eq.
  rewrite all_contained_spec, bool_decide_eq_true, Forall_forall, elem_of_subseteq.
  split; intros Hall x Hx; apply Hall; by apply (order_of_elem other ord x Ho).
Qed.
End properties.

(** ** Concrete runs *)

Definition ex_sets : list (Typed nat) := [Some {[1; 2]}; Some {[2; 3; 4]}; Some {[4; 1]}].

Lemma IterUnion_visits_union_witness :
  exists l, l ≡ₚ elements (union_members ex_sets) /\
    IterUnion ex_sets (logging (fun _ => true))
      [elements (C := gset nat) {[2; 3; 4]}; elements (C := gset nat) {[1; 2]};
       elements (C := gset nat) {[4; 1]}] []
    = (Returns tt, take_until (fun _ => true) l).
Proof.
  apply IterUnion_visits_union. vm_compute (scanned ex_sets). repeat constructor.
Defined.

Lemma Equals_correct_witness :
  Equals (Some {[1; 2]}) (Some {[2; 1]}) (elements (C := gset nat) {[1; 2]}) = true <->
  members (T := nat) (Some {[1; 2]}) = members (Some {[2; 1]}).
Proof. apply Equals_correct. unfold order_of. reflexivity. Defined.

Lemma ContainsAll_correct_witness :
  (ContainsAll (T := nat) (Some {[1; 2; 3]}) (Some {[2; 1]})
     (elements (C := gset nat) {[2; 1]})).1 =
  Returns (bool_decide (members (T := nat) (Some {[2; 1]}) ⊆ members (Some {[1; 2; 3]}))).
Proof. apply ContainsAll_correct. unfold order_of. reflexivity. Defined.

End GoSet.
