(* ===== verification/Manager.v ===== *)
(** * The service manager: src/pkg/manager/service.go and manager.go

    The agent keeps a map from service keys to [*Service] and mirrors it in the
    two BPF maps.  The [*Service] pointers are shared (a pointer can be stored
    under two keys, and [AppendService] writes through it), so the objects live
    in a heap and the map holds locations.  The Kubernetes objects are plain
    data; what the client library computes from them ([IntOrString.IntValue],
    [Time.IsZero]) is a field.  Every loop over [svc.Ports] takes the order in
    which Go ranges over the set. *)

From Stdlib Require Import ZArith Lia String.
From stdpp Require Import base gmap list strings countable.
From S2P Require Import Prelude Endian GoNet Layout BpfMap Connect4 GoSet.
Import Endian GoNet Layout BpfMap Connect4 GoSet.

Local Open Scope Z_scope.
Local Open Scope go_scope.

Module Manager.

(** ** Data *)

Record Ports := mkPorts {
  Protocol : string;
  Port : Z;        (* uint16 *)
  TargetPort : Z   (* uint16 *)
}.

#[export] Instance Ports_eq_dec : EqDecision Ports.
Proof. solve_decision. Defined.
#[export] Instance Ports_countable : Countable Ports.
Proof.
  refine (inj_countable' (fun p => (Protocol p, Port p, TargetPort p))
    (fun '(a, b, c) => mkPorts a b c) _).
  by intros [].
Defined.

(** [IpAddress] is nil for an address [To4] refuses; [Ports] is a nil
    interface in a [Service] literal that does not set it. *)
Record Service := mkService {
  Name : string;
  Namespace : string;
  ServiceId : Z;  (* uint16 *)
  IpAddress : option (list Z);
  SvcPorts : option (Typed Ports);
  Endpoints : list Z  (* []uint32 *)
}.

Definition set_ServiceId (i : Z) (s : Service) : Service :=
  mkService (Name s) (Namespace s) i (IpAddress s) (SvcPorts s) (Endpoints s).
Definition set_Endpoints (eps : list Z) (s : Service) : Service :=
  mkService (Name s) (Namespace s) (ServiceId s) (IpAddress s) (SvcPorts s) eps.

(** *** The Kubernetes objects the manager reads *)

Record ServicePort := mkServicePort {
  sp_Protocol : string;
  sp_Port : Z;                 (* int32 *)
  sp_TargetPort_IntValue : Z   (* the int [TargetPort.IntValue()] returns *)
}.

Record K8sService := mkK8sService {
  ks_Name : string;
  ks_Namespace : string;
  ks_ClusterIP : string;
  ks_Ports : list ServicePort
}.

Record Endpoint := mkEndpoint {
  Addresses : list string;
  Conditions_Ready : option bool  (* *bool *)
}.

Record EndpointSlice := mkEndpointSlice {
  es_Name : string;
  es_Namespace : string;
  es_Labels : gmap string string;     (* a nil map reads like an empty one *)
  es_DeletionTimestamp_IsZero : bool;
  es_Endpoints : list Endpoint
}.

(** ** service.go *)

(** [binary.LittleEndian.Uint32(net.ParseIP(ip).To4())]. *)
Definition address_word (ip : string) : outcome Z := LittleEndian_Uint32 (To4 (ParseIP ip)).

(** The loop over the addresses of an endpoint, keeping those on which [keep]
    holds. *)
Fixpoint collect_addresses (keep : Z -> bool) (addrs : list string) (acc : list Z)
    : outcome (list Z) :=
  match addrs with
  | [] => Returns acc
  | ip :: rest =>
      match address_word ip with
      | Panics p => Panics p
      | Returns w => collect_addresses keep rest (if keep w then acc ++ [w] else acc)
      end
  end.

(** The loop over the endpoints of [NewService]: the readiness pointer is
    dereferenced without a test. *)
Fixpoint collect_endpoints (eps : list Endpoint) (acc : list Z) : outcome (list Z) :=
  match eps with
  | [] => Returns acc
  | e :: rest =>
      match Conditions_Ready e with
      | None => Panics NilDereference
      | Some true =>
          match collect_addresses (fun w => negb (w =? 0)) (Addresses e) acc with
          | Panics p => Panics p
          | Returns acc => collect_endpoints rest acc
          end
      | Some false => collect_endpoints rest acc
      end
  end.

Definition convert_port (p : ServicePort) : Ports :=
  mkPorts (sp_Protocol p) (uwrap 16 (sp_Port p)) (uwrap 16 (sp_TargetPort_IntValue p)).

(** The loop over [service.Spec.Ports]. *)
Fixpoint add_ports (ports : list ServicePort) : GoM (Typed Ports) unit :=
  match ports with
  | [] => ret tt
  | port :: rest => Add (convert_port port) ;;; add_ports rest
  end.

Definition NewService (service : K8sService) (endpointSlice : EndpointSlice) : outcome Service :=
  let ip := To4 (ParseIP (ks_ClusterIP service)) in
  match add_ports (ks_Ports service) New with
  | (Panics p, _) => Panics p
  | (Returns _, ports) =>
      match collect_endpoints (es_Endpoints endpointSlice) [] with
      | Panics p => Panics p
      | Returns eps =>
          Returns (mkService (ks_Name service) (ks_Namespace service) 0 ip (Some ports) eps)
      end
  end.

Definition ServiceKey (s : Service) : string := (Namespace s ++ "/" ++ Name s)%string.

(** ** manager.go *)

Definition loc : Type := nat.
Definition LabelServiceName : string := "kubernetes.io/service-name".

(** [uint32(svc.ServiceId)<<16 | uint32(index)]. *)
Definition endpoint_id (sid index : Z) : Z := Z.lor (shl 32 sid 16) (uwrap 32 index).

(** The Go-side keys and values, as the program sees them (Layout). *)
Definition service_entry_key (ip : Z) (port : Ports) : lb4_key :=
  key_of_go (mkService4Key ip (LittleEndianPort (Port port)) (ParseProto (Protocol port)) 0).
Definition endpoint_entry (eip : Z) (port : Ports) : lb4_backend :=
  backend_of_go (mkEndpoint4Value eip (LittleEndianPort (TargetPort port)) 0 0).

Section manager.
Context {SM BM : Type} `{!MapOps lb4_key lb4_service SM} `{!MapOps Z lb4_backend BM}.

Record ServiceManager := mkManager {
  services : gmap string loc;
  cacheSerivceId : gmap Z bool;
  serviceMap : option SM;    (* *ebpf.Map, nil in a manager without maps *)
  endpointsMap : option BM;
  heap : gmap loc Service
}.

Definition set_services f (s : ServiceManager) : ServiceManager :=
  mkManager (f (services s)) (cacheSerivceId s) (serviceMap s) (endpointsMap s) (heap s).
Definition set_cache f (s : ServiceManager) : ServiceManager :=
  mkManager (services s) (f (cacheSerivceId s)) (serviceMap s) (endpointsMap s) (heap s).
Definition set_serviceMap m (s : ServiceManager) : ServiceManager :=
  mkManager (services s) (cacheSerivceId s) m (endpointsMap s) (heap s).
Definition set_endpointsMap m (s : ServiceManager) : ServiceManager :=
  mkManager (services s) (cacheSerivceId s) (serviceMap s) m (heap s).
Definition set_heap f (s : ServiceManager) : ServiceManager :=
  mkManager (services s) (cacheSerivceId s) (serviceMap s) (endpointsMap s) (f (heap s)).

Definition NewServiceManager (service : option SM) (endpoint : option BM) : ServiceManager :=
  mkManager ∅ ∅ service endpoint ∅.

(** *** Pointers *)

Definition deref (l : loc) : GoM ServiceManager Service := fun s =>
  match heap s !! l with
  | Some svc => (Returns svc, s)
  | None => (Panics NilDereference, s)
  end.
Definition store (l : loc) (svc : Service) : GoM ServiceManager unit :=
  modify (set_heap (<[l := svc]>)).
Definition alloc (svc : Service) : GoM ServiceManager loc := fun s =>
  let l := fresh (dom (heap s)) in (Returns l, set_heap (<[l := svc]>) s).

(** *** Calls to the map library; a method call on a nil map dereferences it *)

Definition serviceMap_Delete (key : lb4_key) : GoM ServiceManager (option error) := fun s =>
  match serviceMap s with
  | None => (Panics NilDereference, s)
  | Some m =>
      match map_delete m key with
      | inl err => (Returns (Some err), s)
      | inr m' => (Returns None, set_serviceMap (Some m') s)
      end
  end.
Definition serviceMap_Update (key : lb4_key) (value : lb4_service)
    : GoM ServiceManager (option error) := fun s =>
  match serviceMap s with
  | None => (Panics NilDereference, s)
  | Some m =>
      match map_update m key value with
      | inl err => (Returns (Some err), s)
      | inr m' => (Returns None, set_serviceMap (Some m') s)
      end
  end.
Definition endpointsMap_Delete (key : Z) : GoM ServiceManager (option error) := fun s =>
  match endpointsMap s with
  | None => (Panics NilDereference, s)
  | Some m =>
      match map_delete m key with
      | inl err => (Returns (Some err), s)
      | inr m' => (Returns None, set_endpointsMap (Some m') s)
      end
  end.
Definition endpointsMap_Update (key : Z) (value : lb4_backend)
    : GoM ServiceManager (option error) := fun s =>
  match endpointsMap s with
  | None => (Panics NilDereference, s)
  | Some m =>
      match map_update m key value with
      | inl err => (Returns (Some err), s)
      | inr m' => (Returns None, set_endpointsMap (Some m') s)
      end
  end.

(** [binary.LittleEndian.Uint32(svc.IpAddress.To4())]. *)
Definition service_word (svc : Service) : GoM ServiceManager Z := fun s =>
  (LittleEndian_Uint32 (To4 (IpAddress svc)), s).

(** [svc.Ports.Iter(visitor)]. *)
Definition iter_ports (svc : Service) (ord : list Ports)
    (visitor : Ports -> GoM ServiceManager (option error)) : GoM ServiceManager unit :=
  match SvcPorts svc with
  | None => panics NilDereference
  | Some ports => iter_over ports visitor ord
  end.

(** *** DeleteService *)

(** [for index, _ := range svc.Endpoints]. *)
Fixpoint delete_endpoints (sid : Z) (eps : list Z) (index : Z)
    : GoM ServiceManager (option error) :=
  match eps with
  | [] => ret None
  | _ :: rest =>
      let! err := endpointsMap_Delete (endpoint_id sid index) in
      match err with
      | Some err => ret (Some err)
      | None => delete_endpoints sid rest (index + 1)
      end
  end.

Definition delete_visitor (svc : Service) (port : Ports) : GoM ServiceManager (option error) :=
  let! ip := service_word svc in
  let! err := serviceMap_Delete (service_entry_key ip port) in
  match err with
  | Some err => ret (Some err)
  | None => delete_endpoints (ServiceId svc) (Endpoints svc) 0
  end.

Definition DeleteService (serviceKey : string) (ord : list Ports)
    : GoM ServiceManager (option error) :=
  let! s := get in
  match services s !! serviceKey with
  | None => ret None
  | Some l =>
      let! svc := deref l in
      iter_ports svc ord (delete_visitor svc) ;;;
      modify (set_services (delete serviceKey)) ;;;
      ret None
  end.

(** *** AppendService *)

(** [for i := 1; i < 65535; i++]: the first id the cache does not hold. *)
Fixpoint find_free (fuel : nat) (i : Z) (cache : gmap Z bool) : option Z :=
  match fuel with
  | O => None
  | S fuel' =>
      if i <? 65535 then
        match cache !! uwrap 16 i with
        | None => Some i
        | Some _ => find_free fuel' (i + 1) cache
        end
      else None
  end.
Definition id_fuel : nat := Z.to_nat 65534.

(** The id in the cache is the one the service had before the assignment. *)
Definition assign_id (l : loc) : GoM ServiceManager unit :=
  let! s := get in
  let! svc := deref l in
  match find_free id_fuel 1 (cacheSerivceId s) with
  | Some i =>
      modify (set_cache (<[ServiceId svc := true]>)) ;;;
      store l (set_ServiceId (uwrap 16 i) svc)
  | None => ret tt
  end.

(** [for index, Eip := range svc.Endpoints]; without an endpoints map the
    visitor returns nil. *)
Fixpoint append_endpoints (sid : Z) (port : Ports) (eps : list Z) (index : Z)
    : GoM ServiceManager (option error) :=
  match eps with
  | [] => ret None
  | Eip :: rest =>
      let! s := get in
      match endpointsMap s with
      | None => ret None
      | Some _ =>
          let! err := endpointsMap_Update (endpoint_id sid (index + 1)) (endpoint_entry Eip port) in
          match err with
          | Some err => ret (Some err)
          | None => append_endpoints sid port rest (index + 1)
          end
      end
  end.

Definition append_visitor (svc : Service) (port : Ports) : GoM ServiceManager (option error) :=
  let! ip := service_word svc in
  let key := service_entry_key ip port in
  let value := service_of_go
    (mkService4Value (ServiceId svc) (uwrap 16 (Z.of_nat (length (Endpoints svc))))) in
  let! s := get in
  match serviceMap s with
  | None => ret None
  | Some _ =>
      let! err := serviceMap_Update key value in
      match err with
      | Some err => ret (Some err)
      | None => append_endpoints (ServiceId svc) port (Endpoints svc) 0
      end
  end.

Definition AppendService (l : loc) (ord : list Ports) : GoM ServiceManager unit :=
  assign_id l ;;;
  let! svc := deref l in
  iter_ports svc ord (append_visitor svc) ;;;
  modify (set_services (<[ServiceKey svc := l]>)).

(** *** UpdateService *)

Definition UpdateService (l : loc) (ord_old ord_new : list Ports)
    : GoM ServiceManager (option error) :=
  let! s := get in
  let! svc := deref l in
  match services s !! ServiceKey svc with
  | None => AppendService l ord_new ;;; ret None
  | Some l_old =>
      let! old := deref l_old in
      let! err := DeleteService (ServiceKey old) ord_old in
      AppendService l ord_new ;;;
      ret err
  end.

(** *** The endpoint-slice callbacks *)

Definition lift_outcome {A} (o : outcome A) : GoM ServiceManager A := fun s => (o, s).

(** The loop of [OnUpdateEndpointSlice], which keeps the addresses whose word
    is zero. *)
Fixpoint slice_endpoints (eps : list Endpoint) (acc : list Z) : outcome (list Z) :=
  match eps with
  | [] => Returns acc
  | e :: rest =>
      match Conditions_Ready e with
      | Some true =>
          match collect_addresses (fun w => w =? 0) (Addresses e) acc with
          | Panics p => Panics p
          | Returns acc => slice_endpoints rest acc
          end
      | _ => slice_endpoints rest acc
      end
  end.

Definition slice_key (svcname : string) (es : EndpointSlice) : string :=
  (svcname ++ "/" ++ es_Namespace es)%string.
Definition slice_service (es : EndpointSlice) : string :=
  default ""%string (es_Labels es !! LabelServiceName).

Definition OnUpdateEndpointSlice (new : EndpointSlice) (ord_old ord_new : list Ports)
    : GoM ServiceManager unit :=
  if decide (es_Labels new = ∅) then ret tt
  else
    let svcname := slice_service new in
    let! s := get in
    let found := services s !! slice_key svcname new in
    let! l := match found with
              | Some l => ret l
              | None => alloc (mkService svcname (es_Namespace new) 0 None None [])
              end in
    let! eps := lift_outcome (slice_endpoints (es_Endpoints new) []) in
    let! svc := deref l in
    match found with
    | Some _ => DeleteService (ServiceKey svc) ord_old ;;; ret tt
    | None => ret tt
    end ;;;
    let! svc := deref l in
    store l (set_Endpoints eps svc) ;;;
    AppendService l ord_new ;;;
    modify (set_services (<[slice_key svcname new := l]>)).

Definition OnDeleteEndpointSlice (endpointSlice : EndpointSlice) (ord : list Ports)
    : GoM ServiceManager unit :=
  let svcname := slice_service endpointSlice in
  let! s := get in
  match services s !! slice_key svcname endpointSlice with
  | None => ret tt
  | Some l =>
      let! svc := deref l in
      DeleteService (ServiceKey svc) ord ;;;
      modify (set_services (delete (slice_key svcname endpointSlice)))
  end.

End manager.
Arguments ServiceManager SM BM : clear implicits.

(** ** Ids *)

Lemma find_free_spec fuel i cache j :
  0 < i -> find_free fuel i cache = Some j ->
  i <= j < 65535 /\ cache !! j = None /\ forall k, i <= k < j -> is_Some (cache !! k).
Proof.
  revert i. induction fuel as [|fuel IH]; intros i Hi; cbn [find_free]; [done|].
  destruct (Z.ltb_spec i 65535) as [Hlt|]; [|done].
  rewrite (uwrap_small 16 i) by (unfold in_u; lia).
  destruct (cache !! i) as [b|] eqn:Ei; intros E.
  - apply IH in E as (Hj & Hn & Hk); [|lia]. split_and!; [lia|lia|done|].
    intros k Hik. destruct (decide (k = i)) as [->|]; [by eexists|]. apply Hk. lia.
  - simplify_eq. split_and!; [lia|lia|done|lia].
Qed.

(** With fuel for every id left, the search fails only when all are taken. *)
Lemma find_free_none fuel i cache :
  0 < i -> 65535 - i <= Z.of_nat fuel -> find_free fuel i cache = None ->
  forall k, i <= k < 65535 -> is_Some (cache !! k).
Proof.
  revert i. induction fuel as [|fuel IH]; intros i Hi Hfuel; [lia|]. cbn [find_free].
  destruct (Z.ltb_spec i 65535) as [Hlt|]; [|lia].
  rewrite (uwrap_small 16 i) by (unfold in_u; lia).
  destruct (cache !! i) as [b|] eqn:Ei; [|done]. intros E k Hk.
  destruct (decide (k = i)) as [->|]; [by eexists|]. eapply IH; [..|exact E|]; lia.
Qed.

Lemma find_free_one cache : cache !! 1 = None -> find_free id_fuel 1 cache = Some 1.
Proof.
  intros E. unfold id_fuel. destruct (Z.to_nat 65534) as [|n] eqn:En; [lia|].
  cbn [find_free]. change (uwrap 16 1) with 1. by rewrite E.
Qed.

Lemma endpoint_id_backend_id sid idx :
  in_u 16 sid -> in_u 16 idx -> endpoint_id sid idx = backend_id sid idx.
Proof.
  intros Hs Hi. unfold endpoint_id, backend_id.
  assert (in_u 32 idx) by (eapply in_u_mono; [|done]; lia).
  rewrite (uwrap_small 32 idx) by done. symmetry. apply uwrap_small.
  apply in_u_lor; [lia| |done]. unfold shl. apply uwrap_in_u. lia.
Qed.

(** ** The writes of [AppendService] *)

Definition service_writes (sid n ip : Z) (ord : list Ports) : list (lb4_key * lb4_service) :=
  map (fun p => (service_entry_key ip p, mk_lb4_service sid n)) ord.

Fixpoint endpoint_writes (sid : Z) (port : Ports) (eps : list Z) (index : Z)
    : list (Z * lb4_backend) :=
  match eps with
  | [] => []
  | e :: rest =>
      (endpoint_id sid (index + 1), endpoint_entry e port) ::
      endpoint_writes sid port rest (index + 1)
  end.

Definition all_endpoint_writes (sid : Z) (eps : list Z) (ord : list Ports) : list (Z * lb4_backend) :=
  concat (map (fun p => endpoint_writes sid p eps 0) ord).

Lemma length_endpoint_writes sid p eps index :
  length (endpoint_writes sid p eps index) = length eps.
Proof. revert index. induction eps as [|e eps IH]; intros; cbn; [done|]. by rewrite IH. Qed.

Lemma length_all_endpoint_writes sid eps ord :
  length (all_endpoint_writes sid eps ord) = (length ord * length eps)%nat.
Proof.
  unfold all_endpoint_writes. induction ord as [|p ord IH]; cbn; [done|].
  rewrite length_app, length_endpoint_writes, IH. lia.
Qed.

Lemma endpoint_writes_lookup sid p eps index j e :
  eps !! j = Some e ->
  (endpoint_id sid (index + Z.of_nat j + 1), endpoint_entry e p) ∈ endpoint_writes sid p eps index.
Proof.
  revert index j. induction eps as [|e' eps IH]; intros index [|j] E; simplify_eq/=.
  - rewrite Z.add_0_r. left.
  - right. replace (index + Z.of_nat (S j) + 1) with (index + 1 + Z.of_nat j + 1) by lia. by apply IH.
Qed.

Lemma endpoint_writes_keys sid p eps index k :
  k ∈ (endpoint_writes sid p eps index).*1 ->
  exists j, (j < length eps)%nat /\ k = endpoint_id sid (index + Z.of_nat j + 1).
Proof.
  revert index. induction eps as [|e eps IH]; intros index Hk; cbn in Hk; [by apply not_elem_of_nil in Hk|].
  apply elem_of_cons in Hk as [->|Hk].
  - exists 0%nat. cbn. split; [lia|]. f_equal. lia.
  - apply IH in Hk as (j & Hj & ->). exists (S j). cbn. split; [lia|]. f_equal. lia.
Qed.

Lemma endpoint_id_inj sid idx idx' :
  in_u 16 sid -> in_u 16 idx -> in_u 16 idx' ->
  endpoint_id sid idx = endpoint_id sid idx' -> idx = idx'.
Proof.
  intros Hs Hi Hi'. rewrite !endpoint_id_backend_id by done.
  intros E. by apply backend_id_inj in E as [_ ?].
Qed.

Lemma NoDup_endpoint_writes sid p eps index :
  in_u 16 sid -> 0 <= index -> index + Z.of_nat (length eps) < 65536 ->
  NoDup (endpoint_writes sid p eps index).*1.
Proof.
  intros Hs. revert index. induction eps as [|e eps IH]; intros index Hi Hlen; cbn in *; [constructor|].
  constructor; [|apply IH; lia].
  intros (j & Hj & E)%endpoint_writes_keys.
  apply endpoint_id_inj in E; [lia|done|unfold in_u; lia|unfold in_u; lia].
Qed.

Section append.
Context {SM BM : Type} `{!MapOps lb4_key lb4_service SM} `{!MapOps Z lb4_backend BM}.
Context `{!MapSpec lb4_key lb4_service SM} `{!MapSpec Z lb4_backend BM}.
Implicit Type s : ServiceManager SM BM.

(** The manager with new maps. *)
Definition with_maps s (sm : SM) (bm : BM) : ServiceManager SM BM :=
  mkManager (services s) (cacheSerivceId s) (Some sm) (Some bm) (heap s).

Lemma append_endpoints_ok sid p eps index s sm bm bm' :
  write_all bm (endpoint_writes sid p eps index) = inr bm' ->
  append_endpoints sid p eps index (with_maps s sm bm) = (Returns None, with_maps s sm bm').
Proof.
  revert index bm. induction eps as [|e eps IH]; intros index bm E; cbn in E.
  - by simplify_eq.
  - cbn [append_endpoints]. unfold bind, get, endpointsMap_Update. cbn [endpointsMap with_maps].
    destruct (map_update bm _ _) as [|bm1] eqn:E1; [done|]. by apply IH.
Qed.

Lemma append_visitor_ok svc ip p s sm bm sm' bm' :
  LittleEndian_Uint32 (To4 (IpAddress svc)) = Returns ip ->
  map_update sm (service_entry_key ip p)
    (mk_lb4_service (ServiceId svc) (uwrap 16 (Z.of_nat (length (Endpoints svc))))) = inr sm' ->
  write_all bm (endpoint_writes (ServiceId svc) p (Endpoints svc) 0) = inr bm' ->
  append_visitor svc p (with_maps s sm bm) = (Returns None, with_maps s sm' bm').
Proof.
  intros Hip Hs Hb. unfold append_visitor, bind, service_word. rewrite Hip.
  unfold get. cbn [serviceMap with_maps]. unfold serviceMap_Update. cbn [serviceMap with_maps].
  unfold service_of_go. cbn [ServiceID Count]. rewrite Hs.
  change (set_serviceMap (Some sm') (with_maps s sm bm)) with (with_maps s sm' bm).
  by apply append_endpoints_ok.
Qed.

Lemma iter_append_ok ports svc ip ord s sm bm sm' bm' :
  LittleEndian_Uint32 (To4 (IpAddress svc)) = Returns ip ->
  write_all sm (service_writes (ServiceId svc) (uwrap 16 (Z.of_nat (length (Endpoints svc)))) ip ord)
    = inr sm' ->
  write_all bm (all_endpoint_writes (ServiceId svc) (Endpoints svc) ord) = inr bm' ->
  iter_over ports (append_visitor svc) ord (with_maps s sm bm) =
  (Returns tt, with_maps s sm' bm').
Proof.
  intros Hip. revert ports sm bm. induction ord as [|p ord IH]; intros ports sm bm Hs Hb.
  - cbn in *. by simplify_eq.
  - cbn in Hs. destruct (map_update sm _ _) as [|sm1] eqn:E1; [done|].
    unfold all_endpoint_writes in Hb. cbn [map concat] in Hb. rewrite write_all_app in Hb.
    destruct (write_all bm _) as [|bm1] eqn:E2; [done|].
    rewrite iter_over_cons. erewrite append_visitor_ok by done. by apply IH.
Qed.

(** What a successful call leaves: the id is taken from the cache, the old id
    is cached, and the maps have received the writes. *)
Lemma AppendService_ok l svc ip i ports ord s sm bm :
  heap s !! l = Some svc ->
  LittleEndian_Uint32 (To4 (IpAddress svc)) = Returns ip -> SvcPorts svc = Some ports ->
  find_free id_fuel 1 (cacheSerivceId s) = Some i ->
  serviceMap s = Some sm -> endpointsMap s = Some bm ->
  (length ord <= map_room sm)%nat ->
  (length ord * length (Endpoints svc) <= map_room bm)%nat ->
  exists sm' bm',
    AppendService l ord s =
      (Returns tt, mkManager (<[ServiceKey svc := l]> (services s))
        (<[ServiceId svc := true]> (cacheSerivceId s)) (Some sm') (Some bm')
        (<[l := set_ServiceId i svc]> (heap s))) /\
    (forall k, map_lookup sm' k =
       after_writes (service_writes i (uwrap 16 (Z.of_nat (length (Endpoints svc)))) ip ord)
         (map_lookup sm) k) /\
    (forall k, map_lookup bm' k =
       after_writes (all_endpoint_writes i (Endpoints svc) ord) (map_lookup bm) k) /\
    (map_room sm <= map_room sm' + length ord)%nat /\
    (map_room bm <= map_room bm' + length ord * length (Endpoints svc))%nat.
Proof.
  intros Hl Hip Hports Hfree Hsm Hbm Hrs Hrb.
  pose proof Hfree as Hi. apply find_free_spec in Hi as (Hi & _ & _); [|lia].
  assert (uwrap 16 i = i) as Ei by (apply uwrap_small; unfold in_u; lia).
  set (n := uwrap 16 (Z.of_nat (length (Endpoints svc)))).
  destruct (write_all_accepted (service_writes i n ip ord) sm) as (sm' & Es & Hls & Hrs').
  { unfold service_writes. by rewrite length_map. }
  destruct (write_all_accepted (all_endpoint_writes i (Endpoints svc) ord) bm) as (bm' & Eb & Hlb & Hrb').
  { by rewrite length_all_endpoint_writes. }
  unfold service_writes in Hrs' at 1. rewrite length_map in Hrs'.
  rewrite length_all_endpoint_writes in Hrb'.
  exists sm', bm'. split_and!; [|done|done|done|done].
  set (s1 := mkManager (services s) (<[ServiceId svc := true]> (cacheSerivceId s))
    (Some sm) (Some bm) (<[l := set_ServiceId i svc]> (heap s))).
  assert (assign_id l s = (Returns tt, s1)) as Ea.
  { unfold assign_id, bind, get, deref. rewrite Hl, Hfree, Ei.
    unfold store, modify, set_heap, set_cache. cbn. subst s1. by rewrite Hsm, Hbm. }
  unfold AppendService, bind at 1. rewrite Ea. unfold bind, deref. cbn [heap s1].
  rewrite lookup_insert_eq. unfold iter_ports. cbn [SvcPorts set_ServiceId]. rewrite Hports.
  change s1 with (with_maps s1 sm bm).
  erewrite iter_append_ok by (cbn [set_ServiceId IpAddress ServiceId Endpoints]; done). done.
Qed.
End append.

End Manager.
