(* ===== verification/ManagerSpec.v ===== *)
(** * Properties of the service manager

    What [AppendService], [DeleteService], [UpdateService] and the
    endpoint-slice callbacks of src/pkg/manager/manager.go do to the BPF maps
    and to the manager, for any maps that keep the promises of BpfMap, and the
    invariant of the states the controller can reach. *)

From Stdlib Require Import ZArith Lia String.
From stdpp Require Import base gmap list strings.
From S2P Require Import Prelude Endian GoNet Layout BpfMap Connect4 GoSet Manager.
Import Endian GoNet Layout BpfMap Connect4 GoSet Manager.

Local Open Scope Z_scope.
Local Open Scope go_scope.

Module ManagerSpec.

(** ** Lemmas on the write lists *)

Lemma after_writes_const {K V} `{EqDecision K} (ws : list (K * V)) old k v :
  Forall (fun w => w.2 = v) ws -> k ∈ ws.*1 -> after_writes ws old k = Some v.
Proof.
  intros Hv. revert old. induction Hv as [|[k' v'] ws Hw Hv IH]; intros old Hk.
  - by apply not_elem_of_nil in Hk.
  - cbn in Hw. subst v'. change ((k', v) :: ws) with ([(k', v)] ++ ws).
    rewrite after_writes_app. destruct (decide (k ∈ ws.*1)) as [Hin|Hin]; [by apply IH|].
    rewrite after_writes_other by done. cbn in Hk. apply elem_of_cons in Hk as [->|Hk]; [|done].
    unfold after_writes. cbn. by rewrite decide_True.
Qed.

Lemma service_writes_keys sid n ip ord :
  (service_writes sid n ip ord).*1 = map (service_entry_key ip) ord.
Proof. unfold service_writes. induction ord as [|p ord IH]; cbn; [done|]. by f_equal. Qed.

Lemma all_endpoint_writes_keys sid eps ord k :
  k ∈ (all_endpoint_writes sid eps ord).*1 ->
  exists j, (j < length eps)%nat /\ k = endpoint_id sid (Z.of_nat j + 1).
Proof.
  unfold all_endpoint_writes. induction ord as [|p ord IH]; cbn; intros Hk.
  - by apply not_elem_of_nil in Hk.
  - rewrite fmap_app in Hk. apply elem_of_app in Hk as [Hk|Hk]; [|by apply IH].
    apply endpoint_writes_keys in Hk as (j & Hj & ->). by exists j.
Qed.

(** The last port visited determines what the slots hold. *)
Lemma all_endpoint_writes_last sid eps ord p old j e :
  in_u 16 sid -> Z.of_nat (length eps) < 65536 -> last ord = Some p -> eps !! j = Some e ->
  after_writes (all_endpoint_writes sid eps ord) old (endpoint_id sid (Z.of_nat j + 1))
  = Some (endpoint_entry e p).
Proof.
  intros Hs Hlen Hlast Hj. apply last_Some in Hlast as [ord' ->].
  unfold all_endpoint_writes. rewrite map_app, concat_app, after_writes_app. cbn [map concat].
  rewrite app_nil_r. apply after_writes_in.
  - apply NoDup_endpoint_writes; [done|lia|lia].
  - exact (endpoint_writes_lookup sid p eps 0 j e Hj).
Qed.

Section properties.
Context {SM BM : Type} `{!MapOps lb4_key lb4_service SM} `{!MapOps Z lb4_backend BM}.
Context `{!MapSpec lb4_key lb4_service SM} `{!MapSpec Z lb4_backend BM}.
Implicit Type s : ServiceManager SM BM.

(** C10. [AppendService] on a service with an IPv4 address, in maps with room:
    it takes the first id the cache does not hold, every port of the service
    gets an entry with that id and the number of endpoints, slot [j + 1] of the
    id holds endpoint [j] with the target port of the port visited last, and no
    other key of either map changes. *)
Theorem AppendService_publishes l svc ip i ports ord p s sm bm :
  heap s !! l = Some svc ->
  LittleEndian_Uint32 (To4 (IpAddress svc)) = Returns ip -> SvcPorts svc = Some ports ->
  order_of ports ord -> last ord = Some p ->
  Z.of_nat (length (Endpoints svc)) < 65536 ->
  find_free id_fuel 1 (cacheSerivceId s) = Some i ->
  serviceMap s = Some sm -> endpointsMap s = Some bm ->
  (length ord <= map_room sm)%nat ->
  (length ord * length (Endpoints svc) <= map_room bm)%nat ->
  exists s' sm' bm',
    AppendService l ord s = (Returns tt, s') /\
    serviceMap s' = Some sm' /\ endpointsMap s' = Some bm' /\
    services s' = <[ServiceKey svc := l]> (services s) /\
    heap s' !! l = Some (set_ServiceId i svc) /\
    (forall q, q ∈ members ports -> map_lookup sm' (service_entry_key ip q) =
       Some (mk_lb4_service i (Z.of_nat (length (Endpoints svc))))) /\
    (forall k, (forall q, q ∈ members ports -> k <> service_entry_key ip q) ->
       map_lookup sm' k = map_lookup sm k) /\
    (forall j e, Endpoints svc !! j = Some e ->
       map_lookup bm' (backend_id i (Z.of_nat j + 1)) = Some (endpoint_entry e p)) /\
    (forall k, (forall j, (j < length (Endpoints svc))%nat -> k <> backend_id i (Z.of_nat j + 1)) ->
       map_lookup bm' k = map_lookup bm k).
Proof.
  intros Hl Hip Hports Hord Hlast Hlen Hfree Hsm Hbm Hrs Hrb.
  destruct (AppendService_ok l svc ip i ports ord s sm bm) as (sm' & bm' & E & Hls & Hlb & _); try done.
  pose proof Hfree as Hi. apply find_free_spec in Hi as (Hi & _ & _); [|lia].
  assert (in_u 16 i) as Hi16 by (unfold in_u; lia).
  assert (forall j, (j < length (Endpoints svc))%nat ->
    backend_id i (Z.of_nat j + 1) = endpoint_id i (Z.of_nat j + 1)) as Hid.
  { intros j Hj. symmetry. apply endpoint_id_backend_id; [done|]. unfold in_u. lia. }
  rewrite (uwrap_small 16) in Hls by (unfold in_u; lia).
  eexists _, sm', bm'. split; [exact E|]. cbn [serviceMap endpointsMap services heap].
  split_and!; try done.
  - by rewrite lookup_insert_eq.
  - intros q Hq. rewrite Hls. apply after_writes_const.
    + unfold service_writes. apply Forall_map, Forall_true. done.
    + rewrite service_writes_keys. apply list_elem_of_fmap. exists q. split; [done|].
      by apply (order_of_elem ports ord).
  - intros k Hk. rewrite Hls. apply after_writes_other. rewrite service_writes_keys.
    intros (q & -> & Hq)%list_elem_of_fmap. apply (order_of_elem ports ord) in Hq; [|done].
    by apply (Hk q).
  - intros j e Hj. pose proof (lookup_lt_Some _ _ _ Hj). rewrite Hlb, Hid by done.
    by apply all_endpoint_writes_last.
  - intros k Hk. rewrite Hlb. apply after_writes_other.
    intros (j & Hj & ->)%all_endpoint_writes_keys. by apply (Hk j); [|rewrite Hid].
Qed.

(** [DeleteService] of an unknown key does nothing. *)
Lemma DeleteService_unknown key ord s :
  services s !! key = None -> DeleteService key ord s = (Returns None, s).
Proof. intros E. unfold DeleteService, bind, get. by rewrite E. Qed.

(** [DeleteService] of a service with a port and an endpoint stops at the
    first slot: slots are numbered from 1 but the loop deletes from 0, the
    missing key is an error, and the set's iterator turns it into a panic.
    The service entry of that first port is gone; every slot, every other
    service entry and the manager's own table are as they were. *)
Theorem DeleteService_with_endpoints_panics key l svc ip ports p ord s sm bm :
  services s !! key = Some l -> heap s !! l = Some svc ->
  LittleEndian_Uint32 (To4 (IpAddress svc)) = Returns ip -> SvcPorts svc = Some ports ->
  Endpoints svc <> [] ->
  serviceMap s = Some sm -> endpointsMap s = Some bm ->
  is_Some (map_lookup sm (service_entry_key ip p)) ->
  map_lookup bm (endpoint_id (ServiceId svc) 0) = None ->
  exists sm',
    DeleteService key (p :: ord) s =
      (Panics (LogPanic ErrKeyNotExist), set_serviceMap (Some sm') s) /\
    (forall k, map_lookup sm' k =
       if decide (service_entry_key ip p = k) then None else map_lookup sm k).
Proof.
  intros Hkey Hl Hip Hports Heps Hsm Hbm Hentry Hslot.
  destruct (delete_present sm _ Hentry) as [sm' Ed]. exists sm'.
  split; [|by apply (lookup_after_delete _ _ _ Ed)].
  unfold DeleteService, bind, get. rewrite Hkey. unfold deref. rewrite Hl.
  unfold iter_ports. rewrite Hports, iter_over_cons.
  unfold delete_visitor, bind, service_word. rewrite Hip.
  unfold serviceMap_Delete. rewrite Hsm, Ed.
  destruct (Endpoints svc) as [|e eps]; [done|]. cbn [delete_endpoints].
  unfold bind, endpointsMap_Delete. cbn [endpointsMap set_serviceMap]. rewrite Hbm.
  by rewrite (delete_missing bm _ Hslot).
Qed.

(** ** What the loops leave alone *)

(** The manager's own tables. *)
Definition same_tables (s0 s : ServiceManager SM BM) : Prop :=
  services s = services s0 /\ cacheSerivceId s = cacheSerivceId s0 /\ heap s = heap s0.

(** Slot 0 of id 1 is empty. *)
Definition no_slot0 s : Prop :=
  forall bm, endpointsMap s = Some bm -> map_lookup bm (endpoint_id 1 0) = None.

Definition loop_inv (s0 s : ServiceManager SM BM) : Prop := same_tables s0 s /\ no_slot0 s.

Lemma serviceMap_Delete_preserves s0 k : preserves (loop_inv s0) (serviceMap_Delete k).
Proof.
  intros s Hs. unfold serviceMap_Delete. destruct (serviceMap s); [|done].
  by destruct (map_delete _ _).
Qed.

Lemma serviceMap_Update_preserves s0 k v : preserves (loop_inv s0) (serviceMap_Update k v).
Proof.
  intros s Hs. unfold serviceMap_Update. destruct (serviceMap s); [|done].
  by destruct (map_update _ _ _).
Qed.

Lemma endpointsMap_Delete_preserves s0 k : preserves (loop_inv s0) (endpointsMap_Delete k).
Proof.
  intros s [Ht Hs]. unfold endpointsMap_Delete. destruct (endpointsMap s) as [bm|] eqn:Eb; [|by split].
  destruct (map_delete bm k) as [|bm'] eqn:Ed; [by split|]. split; [done|].
  cbn. intros bm'' [= <-]. rewrite (lookup_after_delete _ _ _ Ed). case_decide; [done|by apply Hs].
Qed.

Lemma endpointsMap_Update_preserves s0 k v :
  k <> endpoint_id 1 0 -> preserves (loop_inv s0) (endpointsMap_Update k v).
Proof.
  intros Hk s [Ht Hs]. unfold endpointsMap_Update. destruct (endpointsMap s) as [bm|] eqn:Eb; [|by split].
  destruct (map_update bm k v) as [|bm'] eqn:Ed; [by split|]. split; [done|].
  cbn. intros bm'' [= <-]. rewrite (lookup_update_ne _ _ _ _ _ Ed Hk). by apply Hs.
Qed.

Lemma service_word_preserves s0 svc : preserves (loop_inv s0) (service_word svc).
Proof. by intros s. Qed.

#[local] Hint Resolve serviceMap_Delete_preserves serviceMap_Update_preserves
  endpointsMap_Delete_preserves endpointsMap_Update_preserves
  service_word_preserves : go.

Lemma delete_endpoints_preserves s0 sid eps index :
  preserves (loop_inv s0) (delete_endpoints sid eps index).
Proof.
  revert index. induction eps as [|e eps IH]; intros index; cbn [delete_endpoints]; auto with go.
  apply preserves_bind; auto with go. intros [err|]; auto with go.
Qed.

Lemma append_endpoints_preserves s0 p eps index :
  0 <= index -> index + Z.of_nat (length eps) < 65536 ->
  preserves (loop_inv s0) (append_endpoints 1 p eps index).
Proof.
  revert index. induction eps as [|e eps IH]; intros index Hi Hlen; cbn [append_endpoints length] in *;
    auto with go.
  apply preserves_get. intros s. destruct (endpointsMap s); auto with go.
  apply preserves_bind.
  - apply endpointsMap_Update_preserves. intros E.
    apply endpoint_id_inj in E; unfold in_u in *; lia.
  - intros [err|]; [auto with go|]. apply IH; lia.
Qed.

Lemma delete_visitor_preserves s0 svc p : preserves (loop_inv s0) (delete_visitor svc p).
Proof.
  unfold delete_visitor. apply preserves_bind; auto with go. intros ip.
  apply preserves_bind; auto with go. intros [err|]; auto with go.
  apply delete_endpoints_preserves.
Qed.

Lemma append_visitor_preserves s0 svc p :
  ServiceId svc = 1 -> Z.of_nat (length (Endpoints svc)) < 65536 ->
  preserves (loop_inv s0) (append_visitor svc p).
Proof.
  intros Hid Hlen. unfold append_visitor. apply preserves_bind; auto with go. intros ip.
  apply preserves_get. intros s. destruct (serviceMap s); auto with go.
  apply preserves_bind; auto with go. intros [err|]; auto with go.
  rewrite Hid. apply append_endpoints_preserves; lia.
Qed.

Lemma iter_ports_preserves s0 svc ord visitor :
  (forall p, preserves (loop_inv s0) (visitor p)) ->
  preserves (loop_inv s0) (iter_ports svc ord visitor).
Proof.
  intros Hv. unfold iter_ports. destruct (SvcPorts svc); auto with go.
  apply iter_over_preserves. auto.
Qed.

(** ** The states the controller reaches *)

(** The controller hands [UpdateService] a service that [NewService] has just
    built, and calls [DeleteService] with a key; a panic ends the agent. *)
Inductive live : ServiceManager SM BM -> Prop :=
  | live_new sm bm :
      map_lookup bm (endpoint_id 1 0) = None -> live (NewServiceManager (Some sm) (Some bm))
  | live_update s ks es svc l s1 ord ord' r s' :
      live s -> NewService ks es = Returns svc ->
      Z.of_nat (length (Endpoints svc)) < 65536 ->
      alloc svc s = (Returns l, s1) ->
      UpdateService l ord ord' s1 = (Returns r, s') -> live s'
  | live_delete s key ord r s' :
      live s -> DeleteService key ord s = (Returns r, s') -> live s'.

(** The invariant: nothing but 0 is ever cached, every stored service has id
    1 and is stored under its own key, and no slot 0 is written. *)
Definition ids_inv s : Prop :=
  (forall k, is_Some (cacheSerivceId s !! k) -> k = 0) /\
  (forall key l, services s !! key = Some l ->
     exists svc, heap s !! l = Some svc /\ ServiceId svc = 1 /\ ServiceKey svc = key) /\
  no_slot0 s.

Lemma NewService_fields ks es svc :
  NewService ks es = Returns svc -> ServiceId svc = 0 /\ is_Some (SvcPorts svc).
Proof. unfold NewService. intros E. repeat case_match; simplify_eq. split; [done|by eexists]. Qed.

Lemma DeleteService_inv key ord s r s' :
  ids_inv s -> DeleteService key ord s = (Returns r, s') ->
  ids_inv s' /\ heap s' = heap s /\ cacheSerivceId s' = cacheSerivceId s.
Proof.
  intros Hinv E. unfold DeleteService, bind, get in E.
  destruct (services s !! key) as [l|] eqn:Ekey; [|unfold ret in E; injection E as <- <-; auto].
  unfold deref in E. destruct (heap s !! l) as [svc|] eqn:El; [|done].
  pose proof (iter_ports_preserves s svc ord (delete_visitor svc)
    (delete_visitor_preserves s svc) s) as Hit.
  destruct Hinv as (Hc & Hs & H0).
  destruct (iter_ports svc ord (delete_visitor svc) s) as [[u|p] s1]; cbn in E; unfold ret in E;
    [injection E as <- <-|discriminate E].
  destruct Hit as [(Es & Ec & Eh) Hns]; [by split|]. cbn in Es, Ec, Eh, Hns.
  unfold ids_inv, no_slot0. cbn. rewrite Es, Ec, Eh. split_and!; try done.
  intros key' l' Hl'. apply lookup_delete_Some in Hl' as [_ Hl']. by apply Hs.
Qed.

Lemma AppendService_inv l svc ord s s' :
  ids_inv s -> heap s !! l = Some svc -> ServiceId svc = 0 ->
  (forall key, services s !! key <> Some l) ->
  Z.of_nat (length (Endpoints svc)) < 65536 ->
  AppendService l ord s = (Returns tt, s') -> ids_inv s'.
Proof.
  intros (Hc & Hs & H0) Hl Hid Hfresh Hlen E.
  assert (find_free id_fuel 1 (cacheSerivceId s) = Some 1) as Hf.
  { apply find_free_one. destruct (cacheSerivceId s !! 1) eqn:E1; [|done].
    discriminate (Hc 1). by eexists. }
  set (s1 := mkManager (services s) (<[0 := true]> (cacheSerivceId s)) (serviceMap s)
    (endpointsMap s) (<[l := set_ServiceId 1 svc]> (heap s))).
  assert (assign_id l s = (Returns tt, s1)) as Ea.
  { unfold assign_id, bind, get, deref. by rewrite Hl, Hf, Hid. }
  unfold AppendService, bind at 1 in E. rewrite Ea in E. unfold bind, deref in E. cbn [heap s1] in E.
  rewrite lookup_insert_eq in E.
  pose proof (iter_ports_preserves s1 (set_ServiceId 1 svc) ord (append_visitor (set_ServiceId 1 svc))
    (fun p => append_visitor_preserves s1 (set_ServiceId 1 svc) p eq_refl Hlen) s1) as Hit.
  destruct (iter_ports _ ord _ s1) as [[u|p] s2]; cbn in E; unfold modify in E;
    [injection E as <-|discriminate E].
  destruct Hit as [(Es & Ec & Eh) Hns]; [by split|]. cbn in Es, Ec, Eh, Hns.
  unfold ids_inv, no_slot0. cbn. rewrite Es, Ec, Eh. split_and!; try done.
  - intros k [b Hk]. apply lookup_insert_Some in Hk as [[<- _]|[_ Hk]]; [done|]. apply Hc. by eexists.
  - intros key l' Hl'. apply lookup_insert_Some in Hl' as [[<- <-]|[_ Hl']].
    + rewrite lookup_insert_eq. eauto.
    + rewrite lookup_insert_ne by (intros ->; by apply (Hfresh key)). by apply Hs.
Qed.

Lemma alloc_inv svc s l s1 :
  ids_inv s -> alloc svc s = (Returns l, s1) ->
  ids_inv s1 /\ heap s1 !! l = Some svc /\ (forall key, services s1 !! key <> Some l).
Proof.
  intros (Hc & Hs & H0) E. unfold alloc in E. simplify_eq. cbn.
  assert (heap s !! fresh (dom (heap s)) = None) as Hn
    by (apply not_elem_of_dom, is_fresh).
  split_and!.
  - split_and!; try done. cbn. intros key l Hl. destruct (Hs key l Hl) as (svc' & Hsvc & ?).
    exists svc'. split; [|done]. rewrite lookup_insert_ne; [done|]. intros <-; by rewrite Hsvc in Hn.
  - by rewrite lookup_insert_eq.
  - intros key Hl. destruct (Hs _ _ Hl) as (svc' & Hsvc & _). by rewrite Hsvc in Hn.
Qed.

Lemma live_ids_inv s : live s -> ids_inv s.
Proof.
  induction 1 as [sm bm Hb|s ks es svc l s1 ord ord' r s' Hs IH Hnew Hlen Ha Hu|s key ord r s' Hs IH Hd].
  - split_and!; cbn.
    + intros k [b Hk]. done.
    + intros key l Hl. done.
    + intros bm' [= <-]. done.
  - apply NewService_fields in Hnew as [Hid _].
    destruct (alloc_inv _ _ _ _ IH Ha) as (Hinv & Hl & Hfresh).
    unfold UpdateService, bind, get, deref in Hu. rewrite Hl in Hu.
    destruct (services s1 !! ServiceKey svc) as [lo|] eqn:Ekey.
    + destruct (heap s1 !! lo) as [old|]; [|done].
      destruct (DeleteService _ ord s1) as [[r1|p] s2] eqn:Ed; [|done].
      destruct (DeleteService_inv _ _ _ _ _ Hinv Ed) as (Hinv2 & Eh & Ec).
      destruct (AppendService l ord' s2) as [[[]|p] s3] eqn:Ea; cbn in Hu; unfold ret in Hu;
        [injection Hu as <- <-|discriminate Hu].
      eapply AppendService_inv; [exact Hinv2|by rewrite Eh|done| |done|done].
      intros key Hkey. destruct Hinv2 as (_ & Hs2 & _).
      destruct (Hs2 _ _ Hkey) as (svc' & Hsvc' & Hid' & _). rewrite Eh, Hl in Hsvc'. simplify_eq.
      by rewrite Hid in Hid'.
    + destruct (AppendService l ord' s1) as [[[]|p] s3] eqn:Ea; cbn in Hu; unfold ret in Hu;
        [injection Hu as <- <-|discriminate Hu].
      by eapply AppendService_inv.
  - by eapply DeleteService_inv.
Qed.

(** In every state the controller reaches, every service of the manager's
    table has id 1: [AppendService] caches the id a service had before the
    assignment (0 for a new service), so the search finds 1 again each time.
    Ids are therefore not unique once two services are stored. *)
Theorem live_service_ids_are_one s key l :
  live s -> services s !! key = Some l ->
  exists svc, heap s !! l = Some svc /\ ServiceId svc = 1 /\ ServiceKey svc = key.
Proof. intros Hs Hkey. apply live_ids_inv in Hs as (_ & Hs & _). by apply Hs. Qed.

(** Deleting a stored service with at least one port and one endpoint panics:
    slot 0 is never written. *)
Lemma DeleteService_stored_panics s key l old ports ord :
  ids_inv s -> services s !! key = Some l -> heap s !! l = Some old ->
  SvcPorts old = Some ports -> order_of ports ord -> members ports <> ∅ -> Endpoints old <> [] ->
  exists p s', DeleteService key ord s = (Panics p, s').
Proof.
  intros (_ & Hs & H0) Hkey Hold Hports Hord Hne Heps.
  destruct (Hs _ _ Hkey) as (old' & Hold' & Hid & Hk). simplify_eq.
  destruct ord as [|p ord].
  { destruct Hne. apply set_eq. intros q. rewrite <- (order_of_elem ports [] q Hord). set_solver. }
  unfold DeleteService, bind, get. rewrite Hkey. unfold deref. rewrite Hold.
  unfold iter_ports. rewrite Hports, iter_over_cons.
  unfold delete_visitor, bind, service_word.
  destruct (LittleEndian_Uint32 (To4 (IpAddress old))) as [ip|]; [|eauto].
  unfold serviceMap_Delete. destruct (serviceMap s) as [sm|]; [|eauto].
  destruct (map_lookup sm (service_entry_key ip p)) as [v|] eqn:Ev.
  - destruct (delete_present sm (service_entry_key ip p)) as [sm' ->]; [by eexists|].
    destruct (Endpoints old) as [|e eps]; [done|]. cbn [delete_endpoints].
    unfold bind, endpointsMap_Delete. cbn [endpointsMap set_serviceMap]. rewrite Hid.
    destruct (endpointsMap s) as [bm|] eqn:Eb; [|eauto].
    rewrite (delete_missing bm _ (H0 bm Eb)). cbn. eauto.
  - rewrite (delete_missing sm _ Ev). cbn. eauto.
Qed.

(** Updating it deletes it first. *)
Lemma UpdateService_stored_panics s l l_old svc old ports ord_old ord_new :
  ids_inv s -> heap s !! l = Some svc ->
  services s !! ServiceKey svc = Some l_old -> heap s !! l_old = Some old ->
  SvcPorts old = Some ports -> order_of ports ord_old -> members ports <> ∅ ->
  Endpoints old <> [] ->
  exists p s', UpdateService l ord_old ord_new s = (Panics p, s').
Proof.
  intros Hinv Hl Hkey Hold Hports Hord Hne Heps.
  unfold UpdateService, bind, get, deref. rewrite Hl, Hkey, Hold.
  pose proof Hinv as (_ & Hs & _).
  destruct (Hs _ _ Hkey) as (old' & Hold' & _ & Hk). simplify_eq. rewrite Hk.
  destruct (DeleteService_stored_panics s _ _ _ _ _ Hinv Hkey Hold Hports Hord Hne Heps)
    as (p & s' & ->). eauto.
Qed.

(** So a second event for such a service ends the agent, in every state the
    controller reaches. *)
Lemma second_update_panics s l l_old svc old ports ord_old ord_new :
  live s -> heap s !! l = Some svc ->
  services s !! ServiceKey svc = Some l_old -> heap s !! l_old = Some old ->
  SvcPorts old = Some ports -> order_of ports ord_old -> members ports <> ∅ ->
  Endpoints old <> [] ->
  exists p s', UpdateService l ord_old ord_new s = (Panics p, s').
Proof. intros Hlive. by apply UpdateService_stored_panics, live_ids_inv. Qed.

(** Deleting the entries of the ports of a service without endpoints. *)
Lemma iter_delete_ok set svc ip ord s sm :
  LittleEndian_Uint32 (To4 (IpAddress svc)) = Returns ip -> Endpoints svc = [] ->
  serviceMap s = Some sm -> NoDup (map (service_entry_key ip) ord) ->
  (forall q, q ∈ ord -> is_Some (map_lookup sm (service_entry_key ip q))) ->
  exists sm',
    iter_over set (delete_visitor svc) ord s = (Returns tt, set_serviceMap (Some sm') s) /\
    (forall k, map_lookup sm' k =
       if decide (k ∈ map (service_entry_key ip) ord) then None else map_lookup sm k).
Proof.
  intros Hip Heps. revert set s sm. induction ord as [|q ord IH]; intros set s sm Hsm Hnd Hin.
  { exists sm. split; [destruct s; cbn in *; by subst|]. done. }
  cbn [map] in Hnd. apply NoDup_cons in Hnd as [Hq Hnd].
  destruct (delete_present sm (service_entry_key ip q)) as [sm1 E1]; [apply Hin; by left|].
  destruct (IH set (set_serviceMap (Some sm1) s) sm1) as (sm' & E' & Hl); [done|done| |].
  { intros q' Hq'. rewrite (lookup_after_delete _ _ _ E1), decide_False; [apply Hin; by right|].
    intros E. apply Hq. rewrite E. apply list_elem_of_fmap. by exists q'. }
  exists sm'. split.
  - assert (delete_visitor svc q s = (Returns None, set_serviceMap (Some sm1) s)) as Ev.
    { unfold delete_visitor, bind, service_word. rewrite Hip.
      unfold serviceMap_Delete. by rewrite Hsm, E1, Heps. }
    by rewrite iter_over_cons, Ev, E'.
  - intros k. rewrite Hl, (lookup_after_delete _ _ _ E1). cbn [map].
    repeat case_decide; try done; set_solver.
Qed.

(** [DeleteService] of a service without endpoints whose ports have distinct
    entries removes exactly those entries and the service. *)
Theorem DeleteService_without_endpoints key l svc ip ports ord s sm :
  services s !! key = Some l -> heap s !! l = Some svc ->
  LittleEndian_Uint32 (To4 (IpAddress svc)) = Returns ip -> SvcPorts svc = Some ports ->
  Endpoints svc = [] -> serviceMap s = Some sm ->
  NoDup (map (service_entry_key ip) ord) ->
  (forall q, q ∈ ord -> is_Some (map_lookup sm (service_entry_key ip q))) ->
  exists sm',
    DeleteService key ord s =
      (Returns None, set_services (delete key) (set_serviceMap (Some sm') s)) /\
    (forall k, map_lookup sm' k =
       if decide (k ∈ map (service_entry_key ip) ord) then None else map_lookup sm k).
Proof.
  intros Hkey Hl Hip Hports Heps Hsm Hnd Hin.
  destruct (iter_delete_ok ports svc ip ord s sm) as (sm' & E & Hlk); try done.
  exists sm'. split; [|done].
  unfold DeleteService, bind, get. rewrite Hkey. unfold deref. rewrite Hl.
  unfold iter_ports. rewrite Hports, E. done.
Qed.

Lemma assign_id_returns l svc s :
  heap s !! l = Some svc ->
  exists i s', assign_id l s = (Returns tt, s') /\ heap s' !! l = Some (set_ServiceId i svc).
Proof.
  intros Hl. unfold assign_id, bind, get, deref. rewrite Hl.
  destruct (find_free _ _ _) as [i|].
  - eexists (uwrap 16 i), _. split; [done|]. cbn. by rewrite lookup_insert_eq.
  - exists (ServiceId svc), s. split; [done|]. rewrite Hl. by destruct svc.
Qed.

(** C24. The search for an id ends, for every set of ids in use, within the iterations
    of its loop: the service gets the least free id of 1 to 65534 and the cache
    marks the id it had before; when none is free the service keeps the id it
    had and nothing changes.  The id 65535 is never given out. *)
Theorem assign_id_terminates l svc s :
  heap s !! l = Some svc ->
  exists s', assign_id l s = (Returns tt, s') /\
    ((exists i, 1 <= i <= 65534 /\ cacheSerivceId s !! i = None /\
        (forall k, 1 <= k < i -> is_Some (cacheSerivceId s !! k)) /\
        heap s' = <[l := set_ServiceId i svc]> (heap s) /\
        cacheSerivceId s' = <[ServiceId svc := true]> (cacheSerivceId s)) \/
     (forall k, 1 <= k <= 65534 -> is_Some (cacheSerivceId s !! k)) /\ s' = s).
Proof.
  intros Hl. unfold assign_id, bind, get, deref. rewrite Hl.
  destruct (find_free id_fuel 1 (cacheSerivceId s)) as [i|] eqn:E.
  - apply find_free_spec in E as (Hi & Hn & Hk); [|lia]. eexists. split; [done|].
    left. exists i. rewrite (uwrap_small 16 i) by (unfold in_u; lia). split_and!; (done || lia).
  - exists s. split; [done|]. right. split; [|done]. intros k Hk.
    eapply find_free_none; [..|exact E|]; [lia|unfold id_fuel; lia|lia].
Qed.

(** [OnUpdateEndpointSlice] on a labelled slice of a service the manager does
    not hold under "name/namespace" panics: the service it builds has no port
    set. *)
Theorem OnUpdateEndpointSlice_unknown_panics es ord_old ord_new eps s :
  es_Labels es <> ∅ ->
  services s !! slice_key (slice_service es) es = None ->
  slice_endpoints (es_Endpoints es) [] = Returns eps ->
  (OnUpdateEndpointSlice es ord_old ord_new s).1 = Panics NilDereference.
Proof.
  intros Hlab Hnone Heps. unfold OnUpdateEndpointSlice. rewrite decide_False by done.
  unfold bind, get. rewrite Hnone. unfold alloc, lift_outcome. rewrite Heps.
  unfold deref at 1. cbn [heap set_heap]. rewrite lookup_insert_eq. cbn [ret].
  unfold deref at 1. cbn [heap set_heap]. rewrite lookup_insert_eq.
  unfold store, modify.
  set (l := fresh (dom (heap s))).
  set (svc := set_Endpoints eps _). set (s1 := set_heap _ _).
  assert (heap s1 !! l = Some svc) as Hl by (subst s1; cbn; by rewrite lookup_insert_eq).
  destruct (assign_id_returns l svc s1 Hl) as (i & s2 & Ea & Hl2).
  unfold AppendService, bind. rewrite Ea. unfold deref. by rewrite Hl2.
Qed.

(** The key [OnDeleteEndpointSlice] looks up is "name/namespace", but services
    are stored under "namespace/name": in a state the controller reaches, the
    service it finds, if any, is the one whose namespace is the slice's service
    name and whose name is the slice's namespace. *)
Theorem OnDeleteEndpointSlice_finds_swapped s es l svc :
  live s -> services s !! slice_key (slice_service es) es = Some l ->
  heap s !! l = Some svc ->
  no_slash (Namespace svc) = true -> no_slash (slice_service es) = true ->
  Namespace svc = slice_service es /\ Name svc = es_Namespace es.
Proof.
  intros Hlive Hkey Hl Hns Hlab. apply live_ids_inv in Hlive as (_ & Hs & _).
  destruct (Hs _ _ Hkey) as (svc' & Hl' & _ & Hk). simplify_eq.
  unfold ServiceKey, slice_key in Hk. by apply slash_join_inj in Hk.
Qed.
End properties.

(** ** Building a service from the Kubernetes objects *)

(** The IPv4 word of an address, 0 when it has none. *)
Definition word_of (ip : string) : Z :=
  match address_word ip with Returns w => w | Panics _ => 0 end.

Definition is_ipv4 (ip : string) : bool := bool_decide (is_Some (To4 (ParseIP ip))).

(** An endpoint [NewService] can read: its readiness is known, and if it is
    ready all its addresses are IPv4. *)
Definition readable (e : Endpoint) : bool :=
  match Conditions_Ready e with
  | None => false
  | Some false => true
  | Some true => forallb is_ipv4 (Addresses e)
  end.

(** The addresses of the ready endpoints, in order. *)
Definition ready_addresses (eps : list Endpoint) : list string :=
  concat (map (fun e => if decide (Conditions_Ready e = Some true) then Addresses e else []) eps).

Lemma To4_length ip bs : To4 ip = Some bs -> length bs = 4%nat.
Proof.
  unfold To4. destruct ip as [b|]; [|done]. destruct (Nat.eqb_spec (length b) 4).
  - by intros [= <-].
  - destruct (Nat.eqb_spec (length b) 16); cbn [andb]; [|done]. case_bool_decide; [|done].
    intros [= <-]. rewrite length_drop. lia.
Qed.

Lemma address_word_ipv4 ip :
  if is_ipv4 ip then address_word ip = Returns (word_of ip)
  else address_word ip = Panics IndexOutOfRange.
Proof.
  unfold is_ipv4, word_of, address_word, LittleEndian_Uint32.
  destruct (To4 (ParseIP ip)) as [bs|] eqn:E.
  - rewrite bool_decide_eq_true_2 by by eexists. cbn. by rewrite (To4_length _ _ E).
  - by rewrite bool_decide_eq_false_2 by by intros [? ?].
Qed.

Lemma collect_addresses_spec keep addrs acc :
  if forallb is_ipv4 addrs
  then collect_addresses keep addrs acc = Returns (acc ++ filter (fun w => keep w = true) (map word_of addrs))
  else collect_addresses keep addrs acc = Panics IndexOutOfRange.
Proof.
  revert acc. induction addrs as [|ip addrs IH]; intros acc;
    cbn [forallb collect_addresses map]; [by rewrite app_nil_r|].
  pose proof (address_word_ipv4 ip) as Hip. destruct (is_ipv4 ip); cbn [andb]; rewrite Hip; [|done].
  specialize (IH (if keep (word_of ip) then acc ++ [word_of ip] else acc)).
  destruct (forallb is_ipv4 addrs); [|done]. rewrite IH, filter_cons.
  destruct (keep (word_of ip)); case_decide; try done. by rewrite <- app_assoc.
Qed.

Lemma collect_endpoints_spec eps acc :
  if forallb readable eps
  then collect_endpoints eps acc =
    Returns (acc ++ filter (fun w => w <> 0) (map word_of (ready_addresses eps)))
  else exists p, collect_endpoints eps acc = Panics p /\ (p = NilDereference \/ p = IndexOutOfRange).
Proof.
  revert acc. induction eps as [|e eps IH]; intros acc;
    cbn [forallb collect_endpoints]; [by rewrite app_nil_r|].
  unfold readable at 1. unfold ready_addresses. cbn [map concat].
  destruct (Conditions_Ready e) as [[]|] eqn:Er; cbn [andb]; [| |by eauto].
  - pose proof (collect_addresses_spec (fun w => negb (w =? 0)) (Addresses e) acc) as Ha.
    destruct (forallb is_ipv4 (Addresses e)); cbn [andb]; rewrite Ha; [|by eauto].
    specialize (IH (acc ++ filter (fun w => negb (w =? 0) = true) (map word_of (Addresses e)))).
    destruct (forallb readable eps); [|done]. rewrite IH, map_app, filter_app, <- app_assoc.
    do 2 f_equal. f_equal. apply list_filter_iff. intros w.
    rewrite negb_true_iff, Z.eqb_neq. done.
  - specialize (IH acc). rewrite decide_False by done. apply IH.
Qed.

Lemma add_ports_members (l : list ServicePort) :
  add_ports l New = (Returns tt, Some (list_to_set (map convert_port l))).
Proof.
  assert (forall m, add_ports l (Some m) = AddAll (map convert_port l) (Some m)) as E.
  { induction l as [|p l IH]; intros m; [done|]. apply IH. }
  unfold New. rewrite E, AddAll_members. do 2 f_equal. set_solver.
Qed.

(** What [NewService] builds when it returns. *)
Lemma NewService_result ks es svc : NewService ks es = Returns svc ->
  svc = mkService (ks_Name ks) (ks_Namespace ks) 0 (To4 (ParseIP (ks_ClusterIP ks)))
    (Some (Some (list_to_set (map convert_port (ks_Ports ks)))))
    (filter (fun w => w <> 0) (map word_of (ready_addresses (es_Endpoints es)))).
Proof.
  unfold NewService. rewrite add_ports_members.
  pose proof (collect_endpoints_spec (es_Endpoints es) []) as He.
  destruct (forallb readable (es_Endpoints es)).
  - rewrite He. by intros [= <-].
  - destruct He as (p & -> & _). done.
Qed.

(** C27. [NewService] returns exactly when every endpoint has a readiness condition
    and the ready ones have only IPv4 addresses; the service then has the
    object's ports, truncated to 16 bits, and the words of the ready addresses
    in order, 0.0.0.0 left out.  Otherwise it panics. *)
Theorem NewService_spec (ks : K8sService) (es : EndpointSlice) :
  if forallb readable (es_Endpoints es)
  then NewService ks es = Returns (mkService (ks_Name ks) (ks_Namespace ks) 0
         (To4 (ParseIP (ks_ClusterIP ks)))
         (Some (Some (list_to_set (map convert_port (ks_Ports ks)))))
         (filter (fun w => w <> 0) (map word_of (ready_addresses (es_Endpoints es)))))
  else exists p, NewService ks es = Panics p /\ (p = NilDereference \/ p = IndexOutOfRange).
Proof.
  unfold NewService. rewrite add_ports_members.
  pose proof (collect_endpoints_spec (es_Endpoints es) []) as He.
  destruct (forallb readable (es_Endpoints es)).
  - by rewrite He.
  - destruct He as (p & -> & Hp). eauto.
Qed.

(** ** The endpoint-slice callbacks *)

Lemma slice_endpoints_spec eps acc b :
  Forall (fun w => w = 0) acc -> slice_endpoints eps acc = Returns b -> Forall (fun w => w = 0) b.
Proof.
  revert acc. induction eps as [|e eps IH]; intros acc Hacc E; cbn in E; [by simplify_eq|].
  destruct (Conditions_Ready e) as [[]|]; [|by eapply IH|by eapply IH].
  pose proof (collect_addresses_spec (fun w => w =? 0) (Addresses e) acc) as Ha.
  destruct (forallb is_ipv4 (Addresses e)); rewrite Ha in E; [|done].
  eapply IH; [|exact E]. apply Forall_app. split; [done|]. apply Forall_forall.
  intros w [Hw _]%list_elem_of_filter. by apply Z.eqb_eq.
Qed.

(** [OnUpdateEndpointSlice] keeps the addresses whose word is zero and
    [NewService] those whose word is not: from the same slice, what one stores
    the other never does. *)
Theorem slice_callback_keeps_only_zero (es : EndpointSlice) (ks : K8sService) svc eps :
  NewService ks es = Returns svc -> slice_endpoints (es_Endpoints es) [] = Returns eps ->
  Forall (fun w => w <> 0) (Endpoints svc) /\ Forall (fun w => w = 0) eps.
Proof.
  intros Hnew Hs. split; [|by eapply slice_endpoints_spec].
  apply NewService_result in Hnew as ->. cbn. apply Forall_forall. by intros w [Hw _]%list_elem_of_filter.
Qed.

(** ** A concrete agent

    One service "default/web" with a port and two endpoints, the manager before
    it is known ([ex_new]), with the service built ([ex_built]) and after the
    update ([ex_up]). *)

Definition ex_manager : Type := ServiceManager (hmap lb4_key lb4_service) (hmap Z lb4_backend).
Definition ex_new : ex_manager := NewServiceManager (Some (hmap_new 4)) (Some (hmap_new 8)).

Definition ex_ks : K8sService :=
  mkK8sService "web" "default" "10.96.0.10" [mkServicePort "TCP" 80 8080].
Definition ex_es : EndpointSlice :=
  mkEndpointSlice "web-1" "default" {[LabelServiceName := "web"%string]} true
    [mkEndpoint ["10.0.0.1"; "10.0.0.2"]%string (Some true)].
Definition ex_port : Ports := mkPorts "TCP" 80 8080.
Definition ex_ports : Typed Ports := Some (list_to_set [ex_port]).
Definition ex_ip : Z := 167796746.
Definition ex_svc : Service :=
  mkService "web" "default" 0 (Some [10; 96; 0; 10]) (Some ex_ports) [16777226; 33554442].
Definition ex_empty_svc : Service :=
  mkService "idle" "default" 0 (Some [10; 96; 0; 11]) (Some ex_ports) [].

Definition ex_built : ex_manager := set_heap (<[0%nat := ex_svc]>) ex_new.
Definition ex_up : ex_manager := (UpdateService 0%nat [] [ex_port] ex_built).2.

Lemma run_returns {St A} (m : GoM St A) s o : (m s).1 = o -> m s = (o, (m s).2).
Proof. intros <-. by destruct (m s). Qed.

Lemma ex_ports_order : order_of ex_ports [ex_port].
Proof.
  unfold order_of. replace (elements (members ex_ports)) with [ex_port] by by_vm. done.
Qed.

Lemma order_of_nonempty (set : Typed Ports) p ord : order_of set (p :: ord) -> members set <> ∅.
Proof.
  intros Hord E. pose proof (proj1 (order_of_elem set (p :: ord) p Hord) ltac:(by left)) as Hp.
  rewrite E in Hp. by apply elem_of_empty in Hp.
Qed.

Lemma ex_up_live : live ex_up.
Proof.
  apply (live_update ex_new ex_ks ex_es ex_svc 0%nat ex_built [] [ex_port] None).
  - by apply live_new.
  - by_vm.
  - by vm_compute.
  - by_vm.
  - apply run_returns. by_vm.
Qed.

Lemma AppendService_publishes_witness :
  exists s' sm' bm',
    AppendService 0%nat [ex_port] ex_built = (Returns tt, s') /\
    serviceMap s' = Some sm' /\ endpointsMap s' = Some bm' /\
    map_lookup sm' (service_entry_key ex_ip ex_port) = Some (mk_lb4_service 1 2) /\
    map_lookup bm' (backend_id 1 2) = Some (endpoint_entry 33554442 ex_port).
Proof.
  destruct (AppendService_publishes 0%nat ex_svc ex_ip 1 ex_ports [ex_port] ex_port ex_built
    (hmap_new 4) (hmap_new 8)) as (s' & sm' & bm' & E & Es & Eb & _ & _ & Hs & _ & Hb & _);
    try by_vm.
  - exact ex_ports_order.
  - cbn; lia.
  - apply Nat.leb_le. by_vm.
  - apply Nat.leb_le. by_vm.
  - exists s', sm', bm'. split_and!; try done.
    + apply Hs. cbn. set_solver.
    + by apply (Hb 1%nat).
Defined.

Lemma DeleteService_with_endpoints_panics_witness :
  exists s', DeleteService "default/web" [ex_port] ex_up =
    (Panics (LogPanic ErrKeyNotExist), s').
Proof.
  destruct (DeleteService_with_endpoints_panics "default/web" 0%nat (set_ServiceId 1 ex_svc) ex_ip
    ex_ports ex_port [] ex_up
    (mk_hmap {[service_entry_key ex_ip ex_port := mk_lb4_service 1 2]} 4)
    (mk_hmap (<[backend_id 1 2 := endpoint_entry 33554442 ex_port]>
      {[backend_id 1 1 := endpoint_entry 16777226 ex_port]}) 8)) as (sm' & E & _);
    try by_vm.
  - discriminate.
  - exists (mk_lb4_service 1 2). by_vm.
  - eexists. exact E.
Defined.

Lemma live_service_ids_are_one_witness :
  exists svc, heap ex_up !! 0%nat = Some svc /\ ServiceId svc = 1 /\
    ServiceKey svc = "default/web"%string.
Proof. apply (live_service_ids_are_one ex_up "default/web" 0%nat); [exact ex_up_live|by_vm]. Defined.

Lemma second_update_panics_witness :
  exists p s', UpdateService 0%nat [ex_port] [ex_port] ex_up = (Panics p, s').
Proof.
  apply (second_update_panics ex_up 0%nat 0%nat (set_ServiceId 1 ex_svc) (set_ServiceId 1 ex_svc)
    ex_ports [ex_port] [ex_port]); try by_vm.
  - exact ex_up_live.
  - exact ex_ports_order.
  - apply (order_of_nonempty _ _ _ ex_ports_order).
  - discriminate.
Defined.

(** A service without endpoints, appended and then deleted. *)
Definition ex_idle : ex_manager :=
  (AppendService 0%nat [ex_port] (set_heap (<[0%nat := ex_empty_svc]>) ex_new)).2.

Lemma DeleteService_without_endpoints_witness :
  exists s', DeleteService "default/idle" [ex_port] ex_idle = (Returns None, s').
Proof.
  destruct (DeleteService_without_endpoints "default/idle" 0%nat (set_ServiceId 1 ex_empty_svc)
    184573962 ex_ports [ex_port] ex_idle
    (mk_hmap {[service_entry_key 184573962 ex_port := mk_lb4_service 1 0]} 4)) as (sm' & E & _);
    try by_vm.
  - apply NoDup_singleton.
  - intros q ->%list_elem_of_singleton. exists (mk_lb4_service 1 0). by_vm.
  - eexists. exact E.
Defined.

Lemma OnUpdateEndpointSlice_unknown_panics_witness :
  (OnUpdateEndpointSlice ex_es [] [] ex_up).1 = Panics NilDereference.
Proof.
  apply (OnUpdateEndpointSlice_unknown_panics ex_es [] [] []); [|by_vm|by_vm].
  intros E. apply (f_equal (fun m => m !! LabelServiceName)) in E. by vm_compute in E.
Defined.

(** A slice of service "default" in namespace "web" finds "default/web". *)
Definition ex_swapped_es : EndpointSlice :=
  mkEndpointSlice "s" "web" {[LabelServiceName := "default"%string]} true [].

Lemma OnDeleteEndpointSlice_finds_swapped_witness :
  Namespace ex_svc = slice_service ex_swapped_es /\ Name ex_svc = es_Namespace ex_swapped_es.
Proof.
  apply (OnDeleteEndpointSlice_finds_swapped ex_up ex_swapped_es 0%nat (set_ServiceId 1 ex_svc));
    [exact ex_up_live|by_vm..].
Defined.

Lemma slice_callback_keeps_only_zero_witness :
  Forall (fun w => w <> 0) (Endpoints ex_svc).
Proof. apply (slice_callback_keeps_only_zero ex_es ex_ks ex_svc []); by_vm. Defined.

(** Two ids in use. *)
Definition ex_ids : ex_manager := set_cache (fun _ => {[1 := true; 2 := true]}) ex_built.

Lemma assign_id_terminates_witness :
  exists s', assign_id 0%nat ex_ids = (Returns tt, s') /\
    ((exists i, 1 <= i <= 65534 /\ cacheSerivceId ex_ids !! i = None /\
        (forall k, 1 <= k < i -> is_Some (cacheSerivceId ex_ids !! k)) /\
        heap s' = <[0%nat := set_ServiceId i ex_svc]> (heap ex_ids) /\
        cacheSerivceId s' = <[ServiceId ex_svc := true]> (cacheSerivceId ex_ids)) \/
     (forall k, 1 <= k <= 65534 -> is_Some (cacheSerivceId ex_ids !! k)) /\ s' = ex_ids).
Proof. apply assign_id_terminates. by_vm. Defined.

End ManagerSpec.
