(* ===== verification/System.v ===== *)
(** * The agent and the program together

    The manager (src/pkg/manager) writes the two maps that [connect4]
    (src/ebpf/src/service.c) reads.  The theorems of this file follow a
    Kubernetes service from its objects to the destination of a connection:
    the case the code handles, what a connection sees while the manager is
    writing, and what happens with two services or with two ports. *)

From Stdlib Require Import ZArith Lia String.
From stdpp Require Import base gmap list strings.
From S2P Require Import Prelude Endian GoNet Layout BpfMap Connect4 GoSet Manager ManagerSpec.
Import Endian GoNet Layout BpfMap Connect4 GoSet Manager ManagerSpec.

Local Open Scope Z_scope.

Module System.

(** A connection to a port of the service at the address word [ip], as the
    kernel presents it: address and port in network order. *)
Definition connects_to (ctx : bpf_sock_addr) (ip : Z) (q : Ports) : Prop :=
  supported ctx = true /\ user_ip4 ctx = ip /\
  user_port ctx = LittleEndianPort (Port q) /\ protocol ctx = ParseProto (Protocol q).

Lemma ParseProto_u8 p : in_u 8 (ParseProto p).
Proof. unfold ParseProto. repeat case_decide; by vm_compute. Qed.

Lemma LittleEndianPort_u16 port : in_u 16 port -> in_u 16 (LittleEndianPort port).
Proof. intros Hp. rewrite LittleEndianPort_bswap by done. apply (bswap_in_u 2). Qed.

(** The key the program looks up is the key the manager wrote. *)
Lemma connects_to_key ctx ip q :
  in_u 16 (Port q) -> connects_to ctx ip q -> service_key ctx = service_entry_key ip q.
Proof.
  intros Hp (_ & <- & Eport & Eproto). unfold service_key, service_entry_key, key_of_go. cbn.
  rewrite Eport, Eproto.
  rewrite !uwrap_small by auto using ParseProto_u8, LittleEndianPort_u16. done.
Qed.

(** *** The slot writes by position *)





Section system.
Context {SM BM : Type} `{!MapOps lb4_key lb4_service SM} `{!MapOps Z lb4_backend BM}.

(** What the program does when the entry and the selected slot are there. *)
Lemma connect4_redirects (sm : SM) (bm : BM) r ctx sid n x :
  supported ctx = true -> 0 <= r -> 0 < n -> in_u 16 n ->
  map_lookup sm (service_key ctx) = Some (mk_lb4_service sid n) ->
  map_lookup bm (backend_id sid (r mod n + 1)) = x ->
  connect4_ctx sm bm r ctx = match x with Some b => redirect b ctx | None => ctx end.
Proof.
  intros Hsup Hr Hn Hn16 Hs Hb. unfold connect4_ctx, connect4. unfold supported in Hsup.
  assert (negb (type ctx =? SOCK_STREAM) && negb (type ctx =? SOCK_DGRAM) = false) as ->.
  { by destruct (type ctx =? SOCK_STREAM), (type ctx =? SOCK_DGRAM). }
  rewrite Hs. cbn [count service_id]. destruct (Z.eqb_spec n 0); [lia|].
  rewrite slot_index_eq, Hb by (done || lia). by destruct x.
Qed.

Context `{!MapSpec lb4_key lb4_service SM} `{!MapSpec Z lb4_backend BM}.
Implicit Type s : ServiceManager SM BM.


(** ** Connections after [AppendService] *)

Lemma connect_after_append l svc ip i ports ord p q s sm bm ctx r e :
  heap s !! l = Some svc ->
  LittleEndian_Uint32 (To4 (IpAddress svc)) = Returns ip -> SvcPorts svc = Some ports ->
  order_of ports ord -> last ord = Some p -> q ∈ members ports -> in_u 16 (Port q) ->
  Z.of_nat (length (Endpoints svc)) < 65536 ->
  find_free id_fuel 1 (cacheSerivceId s) = Some i ->
  serviceMap s = Some sm -> endpointsMap s = Some bm ->
  (length ord <= map_room sm)%nat ->
  (length ord * length (Endpoints svc) <= map_room bm)%nat ->
  connects_to ctx ip q -> 0 <= r ->
  Endpoints svc !! Z.to_nat (r mod Z.of_nat (length (Endpoints svc))) = Some e ->
  exists s' sm' bm',
    AppendService l ord s = (Returns tt, s') /\
    serviceMap s' = Some sm' /\ endpointsMap s' = Some bm' /\
    connect4_ctx sm' bm' r ctx = redirect (endpoint_entry e p) ctx.
Proof.
  intros Hl Hip Hports Hord Hlast Hq Hpq Hlen Hfree Hsm Hbm Hrs Hrb Hctx Hr He.
  destruct (AppendService_ok l svc ip i ports ord s sm bm) as (sm' & bm' & E & Hls & Hlb & _); try done.
  eexists _, sm', bm'. split; [exact E|]. split; [done|]. split; [done|].
  pose proof Hfree as Hi. apply find_free_spec in Hi as (Hi & _ & _); [|lia].
  pose proof (lookup_lt_Some _ _ _ He) as Hlt.
  set (n := Z.of_nat (length (Endpoints svc))) in *.
  assert (0 < n) by lia. assert (in_u 16 n) as Hn16 by (unfold in_u; lia).
  pose proof (Z.mod_pos_bound r n ltac:(lia)) as Hmod.
  rewrite (connect4_redirects sm' bm' r ctx i n (Some (endpoint_entry e p))); try done.
  - apply Hctx.
  - rewrite Hls, (connects_to_key ctx ip q) by done. rewrite (uwrap_small 16 n) by done.
    apply after_writes_const; [unfold service_writes; by apply Forall_map, Forall_true|].
    rewrite service_writes_keys. apply list_elem_of_fmap. exists q. split; [done|].
    by apply (order_of_elem ports ord).
  - rewrite Hlb, <- endpoint_id_backend_id by (unfold in_u; lia).
    rewrite <- (Z2Nat.id (r mod n)) by lia.
    apply all_endpoint_writes_last; [unfold in_u; lia|lia|done|done].
Qed.

(** ** From the Kubernetes objects to a connection *)

(** On a fresh agent: for a service with an IPv4 cluster address and one port,
    and a slice whose endpoints are readable with [n] ready addresses,
    [NewService] followed by [UpdateService] returns, and a connection to the
    cluster address and port (in network order) is then sent to the ready
    address number [r mod n], on the target port in network order, where [r]
    is the random word the program draws. *)
Lemma fresh_agent_ok (ks : K8sService) (es : EndpointSlice) (sp : ServicePort)
    (a b c d : Z) (sm : SM) (bm : BM) (ctx : bpf_sock_addr) (r : Z) (ws : list Z) :
  ks_ClusterIP ks = dotted_quad a b c d ->
  0 <= a <= 255 -> 0 <= b <= 255 -> 0 <= c <= 255 -> 0 <= d <= 255 ->
  ks_Ports ks = [sp] -> forallb readable (es_Endpoints es) = true ->
  ws = filter (fun w => w <> 0) (map word_of (ready_addresses (es_Endpoints es))) ->
  0 < Z.of_nat (length ws) < 65536 ->
  (1 <= map_room sm)%nat -> (length ws <= map_room bm)%nat ->
  supported ctx = true -> user_ip4 ctx = of_le [a; b; c; d] ->
  user_port ctx = bpf_htons LittleEndian false (uwrap 16 (sp_Port sp)) ->
  protocol ctx = ParseProto (sp_Protocol sp) -> 0 <= r ->
  exists svc l s1 s' sm' bm' w,
    NewService ks es = Returns svc /\
    alloc svc (NewServiceManager (Some sm) (Some bm)) = (Returns l, s1) /\
    UpdateService l [] [convert_port sp] s1 = (Returns None, s') /\
    serviceMap s' = Some sm' /\ endpointsMap s' = Some bm' /\
    ws !! Z.to_nat (r mod Z.of_nat (length ws)) = Some w /\
    user_ip4 (connect4_ctx sm' bm' r ctx) = w /\
    user_port (connect4_ctx sm' bm' r ctx) =
      bpf_htons LittleEndian false (uwrap 16 (sp_TargetPort_IntValue sp)).
Proof.
  intros Hcip Ha Hb Hc Hd Hports Hread -> Hn Hrs Hrb Hsup Hcip4 Hcport Hcproto Hr.
  set (ws := filter _ _) in *.
  destruct (lookup_lt_is_Some_2 ws (Z.to_nat (r mod Z.of_nat (length ws)))) as [w Hw].
  { pose proof (Z.mod_pos_bound r (Z.of_nat (length ws)) ltac:(lia)). lia. }
  set (p := convert_port sp).
  set (svc := mkService (ks_Name ks) (ks_Namespace ks) 0 (Some [a; b; c; d])
    (Some (Some (list_to_set [p]))) ws).
  assert (NewService ks es = Returns svc) as Hnew.
  { unfold NewService. rewrite add_ports_members, Hports, Hcip, ParseIP_dotted by done.
    pose proof (collect_endpoints_spec (es_Endpoints es) []) as He. rewrite Hread in He.
    by rewrite He. }
  set (s0 := NewServiceManager (Some sm) (Some bm)).
  set (l := fresh (dom (heap s0)) : loc). set (s1 := set_heap (<[l := svc]>) s0).
  assert (heap s1 !! l = Some svc) as Hl by (cbn; by rewrite lookup_insert_eq).
  assert (in_u 16 (Port p)) as Hp16 by (cbn; apply uwrap_in_u; lia).
  assert (in_u 16 (TargetPort p)) as Ht16 by (cbn; apply uwrap_in_u; lia).
  assert (order_of (Some (list_to_set [p])) [p]) as Hord.
  { unfold order_of, members. cbn. by rewrite union_empty_r_L, elements_singleton. }
  assert (p ∈ members (Some (list_to_set [p]))) as Hmem by (cbn; set_solver).
  assert (find_free id_fuel 1 (cacheSerivceId s1) = Some 1) as Hfree by by apply find_free_one.
  assert (connects_to ctx (of_le [a; b; c; d]) p) as Hctx.
  { split_and!; [done|done| |done]. rewrite Hcport. symmetry.
    by apply (LittleEndianPort_bswap (Port p)). }
  destruct (connect_after_append l svc (of_le [a; b; c; d]) 1 (Some (list_to_set [p])) [p] p p
    s1 sm bm ctx r w) as (s' & sm' & bm' & E & Esm & Ebm & Hconn); try done; try (cbn; lia).
  - exists svc, l, s1, s', sm', bm', w. split_and!; try done.
    + unfold UpdateService, bind, get, deref. rewrite Hl. cbn [services set_heap NewServiceManager s1 s0].
      by rewrite lookup_empty, E.
    + by rewrite Hconn.
    + rewrite Hconn. by apply (LittleEndianPort_bswap (TargetPort p)).
Qed.

(** ** While the manager is writing *)



(** ** Two services *)

(** C13. Two services appended one after the other to a manager that has not cached
    id 1 get the same id, so the second one's endpoints replace the first
    one's: a connection to the first service that selects a slot the second
    one filled is sent to the second service's endpoint and port. *)
Theorem second_service_captures_first (lA lB : loc) (A B : Manager.Service) ipA ipB portsA portsB
    pA pB s sm bm ctx r e :
  heap s !! lA = Some A -> heap s !! lB = Some B -> lA <> lB ->
  ServiceId A = 0 -> ServiceId B = 0 -> cacheSerivceId s !! 1 = None ->
  LittleEndian_Uint32 (To4 (IpAddress A)) = Returns ipA -> SvcPorts A = Some portsA ->
  LittleEndian_Uint32 (To4 (IpAddress B)) = Returns ipB -> SvcPorts B = Some portsB ->
  service_entry_key ipA pA <> service_entry_key ipB pB ->
  0 < Z.of_nat (length (Endpoints A)) < 65536 -> Z.of_nat (length (Endpoints B)) < 65536 ->
  serviceMap s = Some sm -> endpointsMap s = Some bm ->
  (2 <= map_room sm)%nat -> (length (Endpoints A) + length (Endpoints B) <= map_room bm)%nat ->
  in_u 16 (Port pA) -> connects_to ctx ipA pA -> 0 <= r ->
  Endpoints B !! Z.to_nat (r mod Z.of_nat (length (Endpoints A))) = Some e ->
  exists s1 s2 sm2 bm2,
    AppendService lA [pA] s = (Returns tt, s1) /\ AppendService lB [pB] s1 = (Returns tt, s2) /\
    serviceMap s2 = Some sm2 /\ endpointsMap s2 = Some bm2 /\
    connect4_ctx sm2 bm2 r ctx = redirect (endpoint_entry e pB) ctx.
Proof.
  intros HA HB Hne HidA HidB Hc HipA HpA HipB HpB Hkey HlenA HlenB Hsm Hbm Hrs Hrb Hp16 Hctx Hr He.
  destruct (AppendService_ok lA A ipA 1 portsA [pA] s sm bm)
    as (sm1 & bm1 & E1 & Hls1 & Hlb1 & Hrs1 & Hrb1); try done; try (cbn; lia).
  { by apply find_free_one. }
  set (s1 := mkManager _ _ _ _ _) in E1.
  destruct (AppendService_ok lB B ipB 1 portsB [pB] s1 sm1 bm1)
    as (sm2 & bm2 & E2 & Hls2 & Hlb2 & _); try done; try (cbn in *; lia).
  { cbn. by rewrite lookup_insert_ne. }
  { apply find_free_one. cbn. by rewrite HidA, lookup_insert_ne. }
  eexists s1, _, sm2, bm2. split; [exact E1|]. split; [exact E2|]. split; [done|]. split; [done|].
  pose proof (lookup_lt_Some _ _ _ He) as Hlt. set (n := Z.of_nat (length (Endpoints A))) in *.
  pose proof (Z.mod_pos_bound r n ltac:(lia)) as Hmod.
  assert (map_lookup sm2 (service_key ctx) = Some (mk_lb4_service 1 n)) as Hsvc.
  { rewrite (connects_to_key ctx ipA pA) by done.
    rewrite Hls2, after_writes_other by (cbn; set_solver).
    rewrite Hls1, (uwrap_small 16 n) by (unfold in_u; lia).
    apply after_writes_const; [by constructor|]. cbn. set_solver. }
  assert (map_lookup bm2 (backend_id 1 (r mod n + 1)) = Some (endpoint_entry e pB)) as Hslot.
  { rewrite Hlb2, <- endpoint_id_backend_id by (unfold in_u; lia).
    rewrite <- (Z2Nat.id (r mod n)) by lia. by apply all_endpoint_writes_last. }
  by rewrite (connect4_redirects sm2 bm2 r ctx 1 n _ (proj1 Hctx) Hr ltac:(lia)
    ltac:(unfold in_u; lia) Hsvc Hslot).
Qed.

(** ** Two ports *)

(** C14. The slots of a service are shared by all its ports.  If two of them have
    different target ports, then whatever the order in which Go ranges over
    the ports, connections to one of the two are sent to a wrong target port,
    for every random word. *)
Theorem two_ports_share_slots l svc ip i ports ord q1 q2 s sm bm :
  heap s !! l = Some svc ->
  LittleEndian_Uint32 (To4 (IpAddress svc)) = Returns ip -> SvcPorts svc = Some ports ->
  order_of ports ord -> q1 ∈ members ports -> q2 ∈ members ports ->
  (forall q, q ∈ members ports -> in_u 16 (Port q) /\ in_u 16 (TargetPort q)) ->
  TargetPort q1 <> TargetPort q2 ->
  0 < Z.of_nat (length (Endpoints svc)) < 65536 ->
  find_free id_fuel 1 (cacheSerivceId s) = Some i ->
  serviceMap s = Some sm -> endpointsMap s = Some bm ->
  (length ord <= map_room sm)%nat ->
  (length ord * length (Endpoints svc) <= map_room bm)%nat ->
  exists q, (q = q1 \/ q = q2) /\
    forall ctx r, connects_to ctx ip q -> 0 <= r ->
      exists s' sm' bm', AppendService l ord s = (Returns tt, s') /\
        serviceMap s' = Some sm' /\ endpointsMap s' = Some bm' /\
        user_port (connect4_ctx sm' bm' r ctx) <> LittleEndianPort (TargetPort q).
Proof.
  intros Hl Hip Hports Hord Hq1 Hq2 H16 Hne Hlen Hfree Hsm Hbm Hrs Hrb.
  destruct (last ord) as [p|] eqn:Hlast.
  2: { apply last_None in Hlast. subst ord. apply (order_of_elem ports [] q1 Hord) in Hq1. by apply not_elem_of_nil in Hq1. }
  assert (p ∈ members ports) as Hp.
  { apply (order_of_elem ports ord p Hord). apply last_Some in Hlast as [ord' ->].
    apply elem_of_app. right. by left. }
  assert (exists q, (q = q1 \/ q = q2) /\ TargetPort p <> TargetPort q) as (q & Hq & Hpq).
  { destruct (decide (TargetPort p = TargetPort q1)) as [E|E]; [exists q2|exists q1];
      (split; [auto|congruence]). }
  exists q. split; [done|]. intros ctx r Hctx Hr.
  assert (q ∈ members ports) as Hqin by by destruct Hq as [-> | ->].
  set (n := Z.of_nat (length (Endpoints svc))) in *.
  pose proof (Z.mod_pos_bound r n ltac:(lia)) as Hmod.
  destruct (lookup_lt_is_Some_2 (Endpoints svc) (Z.to_nat (r mod n))) as [e He]; [lia|].
  destruct (connect_after_append l svc ip i ports ord p q s sm bm ctx r e)
    as (s' & sm' & bm' & E & Esm & Ebm & Hconn); try done; try lia; try by apply H16.
  exists s', sm', bm'. split_and!; try done. rewrite Hconn. cbn. intros Eport.
  apply Hpq. rewrite <- (bswap_involutive 2 (TargetPort p)), <- (bswap_involutive 2 (TargetPort q))
    by by apply H16.
  f_equal. rewrite <- (LittleEndianPort_bswap (TargetPort p)), <- (LittleEndianPort_bswap (TargetPort q))
    by by apply H16. done.
Qed.

End system.

(** ** Concrete instances *)

(** A TCP connection to 10.96.0.10:80. *)
Definition ex_ctx : bpf_sock_addr :=
  mk_sock_addr 2 ex_ip [0; 0; 0; 0] 20480 2 SOCK_STREAM 6 0 [0; 0; 0; 0] 0.

Lemma ex_connects : connects_to ex_ctx ex_ip ex_port.
Proof. by split_and!. Qed.

Lemma ex_room (K V : Type) `{Countable K} (n : nat) : map_room (M := hmap K V) (hmap_new n) = n.
Proof. cbn. rewrite map_size_empty. lia. Qed.



Definition ex_db_port : Ports := mkPorts "TCP" 5432 5432.
Definition ex_db : Manager.Service :=
  mkService "db" "default" 0 (Some [10; 96; 0; 11]) (Some (Some (list_to_set [ex_db_port])))
    [50331658; 67108874].
Definition ex_two : ex_manager := set_heap (<[1%nat := ex_db]>) ex_built.

Lemma second_service_captures_first_witness :
  exists s1 s2 sm2 bm2,
    AppendService 0%nat [ex_port] ex_two = (Returns tt, s1) /\
    AppendService 1%nat [ex_db_port] s1 = (Returns tt, s2) /\
    serviceMap s2 = Some sm2 /\ endpointsMap s2 = Some bm2 /\
    connect4_ctx sm2 bm2 7 ex_ctx = redirect (endpoint_entry 67108874 ex_db_port) ex_ctx.
Proof.
  apply (second_service_captures_first 0%nat 1%nat ex_svc ex_db ex_ip 184573962 ex_ports
    (Some (list_to_set [ex_db_port])) ex_port ex_db_port ex_two (hmap_new 4) (hmap_new 8) ex_ctx 7
    67108874); try by_vm; try (rewrite ex_room); try (cbn; lia); try exact ex_connects;
    try (by vm_compute).
Defined.

Definition ex_https : Ports := mkPorts "TCP" 443 8443.
Definition ex_two_ports : Typed Ports := Some (list_to_set [ex_port; ex_https]).
Definition ex_two_port_svc : Manager.Service :=
  mkService "web" "default" 0 (Some [10; 96; 0; 10]) (Some ex_two_ports) [16777226; 33554442].
Definition ex_two_port_state : ex_manager := set_heap (<[0%nat := ex_two_port_svc]>) ex_new.

Lemma two_ports_share_slots_witness :
  exists q, (q = ex_port \/ q = ex_https) /\
    forall ctx r, connects_to ctx ex_ip q -> 0 <= r ->
      exists s' sm' bm',
        AppendService 0%nat (elements (members ex_two_ports)) ex_two_port_state = (Returns tt, s') /\
        serviceMap s' = Some sm' /\ endpointsMap s' = Some bm' /\
        user_port (connect4_ctx sm' bm' r ctx) <> LittleEndianPort (TargetPort q).
Proof.
  assert (length (elements (members ex_two_ports)) = 2%nat) as Hlen by by_vm.
  apply (two_ports_share_slots 0%nat ex_two_port_svc ex_ip 1 ex_two_ports
    (elements (members ex_two_ports)) ex_port ex_https ex_two_port_state (hmap_new 4) (hmap_new 8));
    try by_vm; try (rewrite ex_room, Hlen; cbn; lia); try (cbn; lia); clear Hlen.
  - unfold order_of. reflexivity.
  - unfold ex_two_ports, members. cbn. set_solver.
  - unfold ex_two_ports, members. cbn. set_solver.
  - unfold ex_two_ports, members, default. intros q Hq.
    apply elem_of_list_to_set in Hq. apply elem_of_cons in Hq as [->|Hq]; [by vm_compute|].
    apply list_elem_of_singleton in Hq as ->. by vm_compute.
Defined.

End System.
