(* ===== verification/Controller.v ===== *)
(** * The controller: src/pkg/kubernetes/controller

    Events put keys of the form "type/namespace/name" on a work queue; a worker
    takes a key, runs the handler on it and, when the handler fails, puts it
    back.  The queue is client-go's: its operations are an interface with the
    behaviour its documentation promises, and [wqueue] is an instance.  The
    listers read the informers' stores, which are finite maps. *)

From Stdlib Require Import ZArith Lia String.
From stdpp Require Import base gmap list strings.
From S2P Require Import Prelude GoStrings Layout BpfMap GoSet Manager.
Import GoStrings Layout BpfMap GoSet Manager.

Local Open Scope Z_scope.
Local Open Scope go_scope.

Module Controller.

(** ** The work queue *)

(** Items are of type [interface{}]; the controller only adds strings. *)
Inductive item :=
  | StringItem (key : string)
  | OtherItem (n : nat).

#[export] Instance item_eq_dec : EqDecision item.
Proof. solve_decision. Defined.

(** An item is dirty when it is to be handed out, at once or when the worker
    that has it, and is processing it, is done; it is delayed while the rate
    limiter holds it back.
    [q_get] returns an item, or nothing when the queue is shut down; it is only
    called when it does not block.  [q_elapse] is the passing of time: some
    delays end. *)
Class QueueOps (Q : Type) := {
  q_add : item -> Q -> Q;
  q_get : Q -> option item * Q;
  q_done : item -> Q -> Q;
  q_forget : item -> Q -> Q;
  q_add_rate_limited : item -> Q -> Q;
  q_num_requeues : Q -> item -> Z;
  q_shut_down : Q -> Q;
  q_elapse : Q -> Q;
  q_shutting_down : Q -> bool;
  q_blocks : Q -> bool;
  q_dirty : Q -> item -> Prop;
  q_processing : Q -> item -> Prop;
  q_delayed : Q -> item -> Prop
}.

Definition q_pending `{!QueueOps Q} (q : Q) (x : item) : Prop := q_dirty q x \/ q_delayed q x.

(** Once the queue is shut down, what is added is dropped; what is dirty is
    still handed out. *)
Class QueueSpec (Q : Type) `{!QueueOps Q} : Prop := {
  dirty_add q x y : q_shutting_down q = false ->
    q_dirty (q_add x q) y <-> x = y \/ q_dirty q y;
  delayed_add q x y : q_delayed (q_add x q) y <-> q_delayed q y;
  add_shut q x : q_shutting_down q = true -> q_add x q = q;
  dirty_add_rate_limited q x y : q_dirty (q_add_rate_limited x q) y <-> q_dirty q y;
  delayed_add_rate_limited q x y : q_shutting_down q = false ->
    q_delayed (q_add_rate_limited x q) y <-> x = y \/ q_delayed q y;
  dirty_get q x q' : q_get q = (Some x, q') ->
    q_dirty q x /\ forall y, q_dirty q' y <-> y <> x /\ q_dirty q y;
  delayed_get q x q' : q_get q = (Some x, q') -> forall y, q_delayed q' y <-> q_delayed q y;
  get_nothing q q' : q_get q = (None, q') ->
    q' = q /\ (q_blocks q = false -> q_shutting_down q = true);
  blocks_shut q : q_shutting_down q = true -> q_blocks q = false;
  dirty_done q x y : q_dirty (q_done x q) y <-> q_dirty q y;
  delayed_done q x y : q_delayed (q_done x q) y <-> q_delayed q y;
  dirty_forget q x y : q_dirty (q_forget x q) y <-> q_dirty q y;
  delayed_forget q x y : q_delayed (q_forget x q) y <-> q_delayed q y;
  dirty_elapse q y : q_dirty q y -> q_dirty (q_elapse q) y;
  pending_elapse q y : q_shutting_down q = false -> q_pending (q_elapse q) y <-> q_pending q y;
  elapse_shut q y : q_shutting_down q = true -> q_dirty (q_elapse q) y -> q_dirty q y;
  dirty_shut_down q y : q_dirty (q_shut_down q) y <-> q_dirty q y;
  processing_add q x y : q_processing (q_add x q) y <-> q_processing q y;
  processing_add_rate_limited q x y : q_processing (q_add_rate_limited x q) y <-> q_processing q y;
  processing_get q x q' : q_get q = (Some x, q') ->
    forall y, q_processing q' y <-> y = x \/ q_processing q y;
  processing_done q x y : q_processing (q_done x q) y <-> y <> x /\ q_processing q y;
  processing_forget q x y : q_processing (q_forget x q) y <-> q_processing q y;
  processing_elapse q y : q_processing (q_elapse q) y <-> q_processing q y;
  processing_shut_down q y : q_processing (q_shut_down q) y <-> q_processing q y;
  blocks_processing q y : q_blocks q = true -> q_dirty q y -> q_processing q y;
  dirty_finite q : exists l : list item, forall y, q_dirty q y -> y ∈ l;
  shutting_add q x : q_shutting_down (q_add x q) = q_shutting_down q;
  shutting_add_rate_limited q x :
    q_shutting_down (q_add_rate_limited x q) = q_shutting_down q;
  shutting_get q : q_shutting_down (q_get q).2 = q_shutting_down q;
  shutting_done q x : q_shutting_down (q_done x q) = q_shutting_down q;
  shutting_forget q x : q_shutting_down (q_forget x q) = q_shutting_down q;
  shutting_elapse q : q_shutting_down (q_elapse q) = q_shutting_down q;
  shutting_shut_down q : q_shutting_down (q_shut_down q) = true;
  requeues_add_rate_limited q x y : q_num_requeues (q_add_rate_limited x q) y =
    q_num_requeues q y + (if decide (x = y) then 1 else 0);
  requeues_forget q x y : q_num_requeues (q_forget x q) y =
    if decide (x = y) then 0 else q_num_requeues q y;
  requeues_get q x q' : q_get q = (Some x, q') ->
    forall y, q_num_requeues q' y = q_num_requeues q y;
  requeues_done q x y : q_num_requeues (q_done x q) y = q_num_requeues q y
}.

(** What every operation leaves alone. *)
Create HintDb queue discriminated.
#[export] Hint Rewrite @delayed_add @dirty_add_rate_limited @dirty_done @delayed_done @dirty_forget
  @delayed_forget @dirty_shut_down @processing_add @processing_add_rate_limited @processing_done
  @processing_forget @processing_elapse @processing_shut_down @shutting_add @shutting_add_rate_limited @shutting_get
  @shutting_done @shutting_forget @shutting_elapse @shutting_shut_down @requeues_done
  using typeclasses eauto : queue.

(** ** Objects and keys *)

(** What the informers hand to [Enqueue]: the two kinds of objects, and
    anything else (such as a tombstone of a deletion the watch missed). *)
Inductive object :=
  | ServiceObject (namespace name : string)
  | EndpointSliceObject (namespace name : string)
  | Tombstone (key : string)
  | OtherObject.

Definition ServiceType : string := "Service".
Definition EndpointSliceType : string := "EndpointSlice".

(** [cache.MetaNamespaceKeyFunc]: "namespace/name", or "name" when the
    namespace is empty; an object without metadata is an error. *)
Definition object_meta (o : object) : option (string * string) :=
  match o with
  | ServiceObject ns n | EndpointSliceObject ns n => Some (ns, n)
  | Tombstone _ | OtherObject => None
  end.

Definition meta_key (ns n : string) : string :=
  if String.eqb ns "" then n else (ns ++ "/" ++ n)%string.

Class KeyFunc := MetaNamespaceKeyFunc : object -> error + string.

Class KeyFuncSpec `{!KeyFunc} : Prop := {
  key_of_meta o ns n : object_meta o = Some (ns, n) -> MetaNamespaceKeyFunc o = inr (meta_key ns n);
  no_key_of_meta o : object_meta o = None -> exists err, MetaNamespaceKeyFunc o = inl err
}.

(** A lister: what [Services(namespace).Get(name)] finds in an informer's
    store. *)
Definition lister (A : Type) : Type := string * string -> option A.

Section controller.
Context {SM BM Q : Type} `{!MapOps lb4_key lb4_service SM} `{!MapOps Z lb4_backend BM}.
Context `{!QueueOps Q} `{!KeyFunc}.

(** The fields the operations read or change; the cluster name, the client, the
    controller's name and [Synced] are only logged or handed to client-go. *)
Record Controller := mkController {
  Workqueue : Q;
  MaxRetries : Z;
  serviceManager : ServiceManager SM BM;
  serviceLister : lister K8sService;
  endpointsLister : lister EndpointSlice
}.

Definition set_queue (f : Q -> Q) (c : Controller) : Controller :=
  mkController (f (Workqueue c)) (MaxRetries c) (serviceManager c) (serviceLister c)
    (endpointsLister c).
Definition set_listers (services : lister K8sService) (slices : lister EndpointSlice)
    (c : Controller) : Controller :=
  mkController (Workqueue c) (MaxRetries c) (serviceManager c) services slices.
Definition set_manager (m : ServiceManager SM BM) (c : Controller) : Controller :=
  mkController (Workqueue c) (MaxRetries c) m (serviceLister c) (endpointsLister c).

(** [NewController] leaves [MaxRetries] at its zero value. *)
Definition NewController (q : Q) (service : ServiceManager SM BM)
    (services : lister K8sService)
    (slices : lister EndpointSlice) : Controller :=
  mkController q 0 service services slices.

(** *** Enqueue *)

Definition object_type (o : object) : string :=
  match o with
  | ServiceObject _ _ => ServiceType
  | EndpointSliceObject _ _ => EndpointSliceType
  | Tombstone _ | OtherObject => "Unknown"
  end.

Definition Enqueue (obj : object) : GoM Controller unit :=
  let typep := object_type obj in
  match MetaNamespaceKeyFunc obj with
  | inl err => ret tt
  | inr key => modify (set_queue (q_add (StringItem (typep ++ "/" ++ key))))
  end.

(** The handlers [NewController] registers for both informers. *)
Definition AddFunc (obj : object) : GoM Controller unit := Enqueue obj.
Definition UpdateFunc (old new : object) : GoM Controller unit := Enqueue new.
Definition DeleteFunc (obj : object) : GoM Controller unit := Enqueue obj.

(** *** The handlers *)

Definition ServiceHandler (name namespace : string)
    : GoM (ServiceManager SM BM) (option error) := ret None.

(** [EndpointHandler] from [NewService] on, with the service and the slice the
    listers found. *)
Definition handle_found (svc : K8sService) (endpointSlice : EndpointSlice)
    (ord_old ord_new : list Ports) : GoM (ServiceManager SM BM) (option error) :=
  let! bsvc := lift_outcome (NewService svc endpointSlice) in
  if negb (es_DeletionTimestamp_IsZero endpointSlice) then
    DeleteService (ServiceKey bsvc) ord_old ;;; ret None
  else
    let! l := alloc bsvc in
    UpdateService l ord_old ord_new ;;; ret None.

Definition EndpointHandler (services : lister K8sService)
    (slices : lister EndpointSlice) (namespace name : string)
    (ord_old ord_new : list Ports) : GoM (ServiceManager SM BM) (option error) :=
  match slices (namespace, name) with
  | None => ret (Some ErrNotFound)
  | Some endpointSlice =>
      let svcname := slice_service endpointSlice in
      match services (namespace, svcname) with
      | None => ret (Some ErrNotFound)
      | Some svc => handle_found svc endpointSlice ord_old ord_new
      end
  end.

Definition handler (services : lister K8sService)
    (slices : lister EndpointSlice) (key : string)
    (ord_old ord_new : list Ports) : GoM (ServiceManager SM BM) (option error) :=
  match Split key "/" with
  | [kind; a; b] =>
      if String.eqb kind ServiceType then ServiceHandler a b
      else if String.eqb kind EndpointSliceType then
        EndpointHandler services slices a b ord_old ord_new
      else ret None
  | _ => ret None
  end.

(** *** The worker *)

(** A call on the manager the controller holds. *)
Definition on_manager {A} (m : GoM (ServiceManager SM BM) A) : GoM Controller A := fun c =>
  let '(o, s) := m (serviceManager c) in (o, set_manager s c).

(** [defer]: the cleanup runs when the call returns and when it panics. *)
Definition deferred {A} (m : GoM Controller A) (cleanup : Controller -> Controller)
    : GoM Controller A := fun c => let '(o, c') := m c in (o, cleanup c').

(** What follows the call of the handler on the key of [obj]. *)
Definition settle (obj : item) (err : option error) : GoM Controller (option error) :=
  match err with
  | Some err =>
      let! c := get in
      if (MaxRetries c =? 0) || (q_num_requeues (Workqueue c) obj <? MaxRetries c) then
        modify (set_queue (q_add_rate_limited obj)) ;;; ret (Some err)
      else ret None
  | None => modify (set_queue (q_forget obj)) ;;; ret None
  end.

(** The function literal of [processNextWorkItem], without its [defer]. *)
Definition process_item (obj : item) (ord_old ord_new : list Ports)
    : GoM Controller (option error) :=
  match obj with
  | OtherItem _ => modify (set_queue (q_forget obj)) ;;; ret None
  | StringItem key =>
      let! c := get in
      let! err := on_manager (handler (serviceLister c) (endpointsLister c) key ord_old ord_new) in
      settle obj err
  end.

Definition processNextWorkItem (ord_old ord_new : list Ports) : GoM Controller bool :=
  let! c := get in
  let '(obj, q) := q_get (Workqueue c) in
  modify (set_queue (fun _ => q)) ;;;
  match obj with
  | None => ret false
  | Some obj =>
      let! err := deferred (process_item obj ord_old ord_new) (set_queue (q_done obj)) in
      ret true
  end.

(** [for c.processNextWorkItem() {}], for at most [fuel] items: did the loop
    end? *)
Fixpoint runWorker (fuel : nat) (orders : nat -> list Ports * list Ports) : GoM Controller bool :=
  match fuel with
  | O => ret false
  | S fuel' =>
      let! more := processNextWorkItem (orders fuel').1 (orders fuel').2 in
      if more then runWorker fuel' orders else ret true
  end.

End controller.
Arguments Controller SM BM Q : clear implicits.

(** ** An instance of the queue

    The ready items in order, those being processed, those to be handed out
    again once they are done, those waiting for their delay, the failures the
    rate limiter counts, and whether the queue is shut down. *)

Record wqueue := mk_wqueue {
  ready : list item;
  processing : list item;
  again : list item;
  waiting : list item;
  failures : list (item * Z);
  shutting : bool
}.

Definition count_failures (l : list (item * Z)) (x : item) : Z :=
  match List.find (fun e => bool_decide (e.1 = x)) l with Some e => e.2 | None => 0 end.

Definition add_once (x : item) (l : list item) : list item :=
  if decide (x ∈ l) then l else l ++ [x].

Definition without (x : item) (l : list item) : list item := filter (fun y => y <> x) l.

Definition wadd (x : item) (q : wqueue) : wqueue :=
  if shutting q then q
  else if decide (x ∈ processing q)
  then mk_wqueue (ready q) (processing q) (add_once x (again q)) (waiting q) (failures q) false
  else mk_wqueue (add_once x (ready q)) (processing q) (again q) (waiting q) (failures q) false.

#[export] Instance wqueue_ops : QueueOps wqueue := {
  q_add := wadd;
  q_get q :=
    match ready q with
    | [] => (None, q)
    | x :: _ =>
        (Some x, mk_wqueue (without x (ready q)) (x :: processing q) (without x (again q))
                   (waiting q) (failures q) (shutting q))
    end;
  q_done x q :=
    if decide (x ∈ again q /\ x ∈ processing q)
    then mk_wqueue (add_once x (ready q)) (without x (processing q)) (without x (again q))
           (waiting q) (failures q) (shutting q)
    else mk_wqueue (ready q) (without x (processing q)) (again q) (waiting q) (failures q) (shutting q);
  q_forget x q :=
    mk_wqueue (ready q) (processing q) (again q) (waiting q) ((x, 0) :: failures q) (shutting q);
  q_add_rate_limited x q :=
    mk_wqueue (ready q) (processing q) (again q)
      (if shutting q then waiting q else add_once x (waiting q))
      ((x, count_failures (failures q) x + 1) :: failures q) (shutting q);
  q_num_requeues q x := count_failures (failures q) x;
  q_shut_down q :=
    mk_wqueue (ready q) (processing q) (again q) (waiting q) (failures q) true;
  q_elapse q :=
    foldr wadd (mk_wqueue (ready q) (processing q) (again q) [] (failures q) (shutting q)) (waiting q);
  q_shutting_down := shutting;
  q_blocks q := match ready q with [] => negb (shutting q) | _ => false end;
  q_dirty q x := x ∈ ready q \/ x ∈ again q /\ x ∈ processing q;
  q_processing q x := x ∈ processing q;
  q_delayed q x := x ∈ waiting q
}.

Lemma elem_of_add_once x l y : y ∈ add_once x l <-> x = y \/ y ∈ l.
Proof. unfold add_once. case_decide; set_solver. Qed.

Lemma elem_of_without x l y : y ∈ without x l <-> y <> x /\ y ∈ l.
Proof. unfold without. by rewrite list_elem_of_filter. Qed.

Lemma wadd_dirty q x y : shutting q = false ->
  q_dirty (wadd x q) y <-> x = y \/ q_dirty q y.
Proof.
  intros E. unfold wadd. rewrite E. cbn.
  case_decide as Hx; cbn [ready again processing]; rewrite elem_of_add_once; naive_solver.
Qed.

Lemma wadd_frame q x :
  waiting (wadd x q) = waiting q /\ failures (wadd x q) = failures q /\
  shutting (wadd x q) = shutting q /\ processing (wadd x q) = processing q.
Proof. unfold wadd. destruct (shutting q) eqn:E; [done|]. by case_decide. Qed.

Lemma wadd_shut q x : shutting q = true -> wadd x q = q.
Proof. intros E. unfold wadd. by rewrite E. Qed.

Lemma wadds_frame l q :
  waiting (foldr wadd q l) = waiting q /\ shutting (foldr wadd q l) = shutting q /\
  processing (foldr wadd q l) = processing q.
Proof.
  induction l as [|x l (IHw & IHs & IHp)]; [done|]. cbn [foldr].
  destruct (wadd_frame (foldr wadd q l) x) as (-> & _ & -> & ->). done.
Qed.

Lemma wadds_dirty l q y : shutting q = false ->
  q_dirty (foldr wadd q l) y <-> y ∈ l \/ q_dirty q y.
Proof.
  intros E. induction l as [|x l IH]; cbn [foldr].
  - rewrite elem_of_nil. tauto.
  - rewrite wadd_dirty, IH, elem_of_cons by (by rewrite (proj1 (proj2 (wadds_frame l q)))). naive_solver.
Qed.

Lemma wadds_shut l q : shutting q = true -> foldr wadd q l = q.
Proof. intros E. induction l as [|x l IH]; [done|]. cbn [foldr]. by rewrite IH, wadd_shut. Qed.

Lemma count_failures_cons x n l y :
  count_failures ((x, n) :: l) y = if decide (x = y) then n else count_failures l y.
Proof. unfold count_failures. cbn. by repeat case_decide; case_bool_decide. Qed.

Lemma wget_cases q : match ready q with
  | [] => q_get q = (None, q)
  | x :: _ => exists q', q_get q = (Some x, q') /\ waiting q' = waiting q /\
      failures q' = failures q /\ shutting q' = shutting q /\ processing q' = x :: processing q /\
      q_dirty q x /\
      forall y, q_dirty q' y <-> y <> x /\ q_dirty q y
  end.
Proof.
  cbn [q_get wqueue_ops]. destruct (ready q) as [|x r] eqn:E; [done|].
  eexists. split_and!; try reflexivity; cbn [q_dirty wqueue_ops ready again processing]; rewrite E.
  - left. by left.
  - intros y. rewrite !elem_of_without, !elem_of_cons. tauto.
Qed.

Lemma wget_some q x q' : q_get q = (Some x, q') ->
  waiting q' = waiting q /\ failures q' = failures q /\ processing q' = x :: processing q /\
  q_dirty q x /\ forall y, q_dirty q' y <-> y <> x /\ q_dirty q y.
Proof.
  intros E. pose proof (wget_cases q) as H. destruct (ready q); rewrite E in H; [done|].
  destruct H as (q1 & [= -> ->] & ? & ? & ? & ? & ? & ?). by split_and!.
Qed.

Lemma wdone_dirty q x y : q_dirty (q_done x q) y <-> q_dirty q y.
Proof.
  cbn [q_dirty q_done wqueue_ops]. case_decide; cbn [ready again processing];
    rewrite ?elem_of_add_once, !elem_of_without; destruct (decide (y = x)) as [->|]; naive_solver.
Qed.

Lemma welapse_pending q y : shutting q = false ->
  q_pending (q_elapse q) y <-> q_pending q y.
Proof.
  intros E. unfold q_pending. cbn [q_elapse q_delayed wqueue_ops].
  rewrite (proj1 (wadds_frame _ _)), wadds_dirty by done. cbn [waiting q_dirty wqueue_ops].
  rewrite elem_of_nil. cbn. tauto.
Qed.

#[export] Instance wqueue_spec : QueueSpec wqueue.
Proof.
  constructor; try done.
  - intros. by apply wadd_dirty.
  - intros q x y. cbn. by rewrite (proj1 (wadd_frame q x)).
  - intros. by apply wadd_shut.
  - intros q x y E. cbn. cbn in E. rewrite E. apply elem_of_add_once.
  - intros q x q' (_ & _ & _ & ?)%wget_some. done.
  - intros q x q' (E & _)%wget_some y. cbn. by rewrite E.
  - intros q q' E. pose proof (wget_cases q) as H. cbn [q_blocks q_shutting_down wqueue_ops].
    destruct (ready q) eqn:Er; rewrite E in H; [|by destruct H as (? & ? & _)].
    injection H as ->. by destruct (shutting q).
  - intros q E. cbn in *. rewrite E. by destruct (ready q).
  - intros. apply wdone_dirty.
  - intros q x y. cbn. by case_decide.
  - intros q y Hy. destruct (shutting q) eqn:E; cbn [q_elapse wqueue_ops].
    + by rewrite wadds_shut.
    + rewrite wadds_dirty by done. by right.
  - intros. by apply welapse_pending.
  - intros q y E. cbn [q_elapse wqueue_ops]. by rewrite wadds_shut.
  - intros q x y. cbn. by rewrite (proj2 (proj2 (proj2 (wadd_frame q x)))).
  - intros q x q' (_ & _ & E & _)%wget_some y. cbn. by rewrite E, elem_of_cons.
  - intros q x y. cbn. case_decide; cbn [processing]; by rewrite elem_of_without.
  - intros q y. cbn. by rewrite (proj2 (proj2 (wadds_frame _ _))).
  - intros q y. cbn. destruct (ready q); [|done]. rewrite elem_of_nil. tauto.
  - intros q. exists (ready q ++ again q). intros y Hy. apply elem_of_app. cbn in Hy. tauto.
  - intros q x. apply (wadd_frame q x).
  - intros q. pose proof (wget_cases q) as H. destruct (ready q); [by rewrite H|].
    by destruct H as (q' & -> & _ & _ & ? & _).
  - intros q x. cbn. by case_decide.
  - intros q. cbn [q_shutting_down q_elapse wqueue_ops]. by rewrite (proj1 (proj2 (wadds_frame _ _))).
  - intros q x y. cbn. rewrite count_failures_cons. case_decide; subst; lia.
  - intros q x y. cbn. apply count_failures_cons.
  - intros q x q' (_ & E & _)%wget_some y. cbn. by rewrite E.
  - intros q x y. cbn. by case_decide.
Qed.

End Controller.
