(* ===== verification/ControllerSpec.v ===== *)
(** * Properties of the controller

    What happens to an event: the key it becomes and the handler that key
    reaches, what the worker does on every outcome of the handler, which events
    never reach the manager, and the whole path from an endpoint-slice event to
    a connection. *)

From Stdlib Require Import ZArith Lia String.
From stdpp Require Import base gmap list strings.
From S2P Require Import Prelude Endian GoNet GoStrings Layout BpfMap Connect4 GoSet Manager ManagerSpec System Controller.
Import Endian GoNet GoStrings Layout BpfMap Connect4 GoSet Manager ManagerSpec System Controller.

Local Open Scope Z_scope.
Local Open Scope go_scope.

Module ControllerSpec.

(** ** Keys *)

Definition event_key (kind ns n : string) : string := (kind ++ "/" ++ ns ++ "/" ++ n)%string.

Lemma Split_event_key kind ns n :
  no_slash kind = true -> no_slash ns = true -> no_slash n = true ->
  Split (event_key kind ns n) "/" = [kind; ns; n].
Proof.
  intros Hk Hns Hn. unfold Split, event_key.
  change ("/" ++ ns ++ "/" ++ n)%string with (String.String ch_slash (ns ++ String.String ch_slash n)).
  change "/"%string with (String.String ch_slash "").
  rewrite split_scan_piece, split_scan_piece, split_scan_last by done. done.
Qed.

Section properties.
Context {SM BM Q : Type} `{!MapOps lb4_key lb4_service SM} `{!MapOps Z lb4_backend BM}.
Context `{!MapSpec lb4_key lb4_service SM} `{!MapSpec Z lb4_backend BM}.
Context `{!QueueOps Q} `{!QueueSpec Q} `{!KeyFunc} `{!KeyFuncSpec}.
Implicit Type c : Controller SM BM Q.

Lemma Enqueue_key (obj : object) kind ns n c :
  object_meta obj = Some (ns, n) -> object_type obj = kind -> ns <> ""%string ->
  Enqueue obj c = (Returns tt, set_queue (q_add (StringItem (event_key kind ns n))) c).
Proof.
  intros Hmeta <- Hns. unfold Enqueue. rewrite (key_of_meta obj ns n) by done.
  unfold meta_key. destruct (String.eqb_spec ns ""); [done|]. done.
Qed.

Lemma handler_slice services slices ns n o1 o2 (s : ServiceManager SM BM) :
  no_slash ns = true -> no_slash n = true ->
  handler services slices (event_key EndpointSliceType ns n) o1 o2 s =
  EndpointHandler services slices ns n o1 o2 s.
Proof. intros Hns Hn. unfold handler. by rewrite Split_event_key. Qed.

(** C28. An object in a namespace is queued under a key that reaches its handler
    with its namespace and name; service events do nothing, and a tombstone is
    dropped without a trace. *)
Theorem event_reaches_handler (ns n : string) services slices o1 o2 (s : ServiceManager SM BM) c :
  ns <> ""%string -> no_slash ns = true -> no_slash n = true ->
  (exists key, Enqueue (EndpointSliceObject ns n) c =
       (Returns tt, set_queue (q_add (StringItem key)) c) /\
     handler services slices key o1 o2 s = EndpointHandler services slices ns n o1 o2 s) /\
  (exists key, Enqueue (ServiceObject ns n) c =
       (Returns tt, set_queue (q_add (StringItem key)) c) /\
     handler services slices key o1 o2 s = (Returns None, s)) /\
  (forall k, Enqueue (Tombstone k) c = (Returns tt, c)).
Proof.
  intros Hne Hns Hn. split_and!.
  - exists (event_key EndpointSliceType ns n).
    split; [by apply Enqueue_key|by apply handler_slice].
  - exists (event_key ServiceType ns n).
    split; [by apply Enqueue_key|]. unfold handler. by rewrite Split_event_key.
  - intros k. unfold Enqueue. destruct (no_key_of_meta (Tombstone k)) as [err ->]; done.
Qed.

(** ** The worker *)

Lemma processNextWorkItem_run o1 o2 c key q' :
  q_get (Workqueue c) = (Some (StringItem key), q') ->
  processNextWorkItem o1 o2 c =
  match handler (serviceLister c) (endpointsLister c) key o1 o2 (serviceManager c) with
  | (Panics p, s') =>
      (Panics p, set_queue (q_done (StringItem key)) (set_manager s' (set_queue (fun _ => q') c)))
  | (Returns r, s') =>
      (Returns true, set_queue (fun q =>
         q_done (StringItem key)
           match r with
           | None => q_forget (StringItem key) q
           | Some _ =>
               if (MaxRetries c =? 0) || (q_num_requeues q (StringItem key) <? MaxRetries c)
               then q_add_rate_limited (StringItem key) q else q
           end) (set_manager s' (set_queue (fun _ => q') c)))
  end.
Proof.
  intros Hget. unfold processNextWorkItem, bind, get. rewrite Hget.
  unfold modify, deferred, process_item, settle, bind, get, on_manager.
  cbn [serviceLister endpointsLister serviceManager set_queue].
  destruct (handler _ _ key o1 o2 (serviceManager c)) as [[[err|]|p] s']; try done.
  unfold set_manager, set_queue. cbn [MaxRetries Workqueue].
  by destruct ((MaxRetries c =? 0) || _).
Qed.

(** C15. What the worker does with a key, on every outcome of the handler: success
    forgets its failures; a failure is counted and the key comes back after a
    delay, unless the retries are bounded and used up, in which case it is
    dropped with its count kept, or the queue is shut down; a panic goes
    through.  The key is not ready again before something adds it, and the
    manager is as the handler left it. *)
Theorem worker_outcome o1 o2 c key q' :
  q_get (Workqueue c) = (Some (StringItem key), q') ->
  let '(o, s') := handler (serviceLister c) (endpointsLister c) key o1 o2 (serviceManager c) in
  let '(o', c') := processNextWorkItem o1 o2 c in
  serviceManager c' = s' /\
  match o with
  | Panics p => o' = Panics p
  | Returns r =>
      o' = Returns true /\ ~ q_dirty (Workqueue c') (StringItem key) /\
      let before := q_num_requeues (Workqueue c) (StringItem key) in
      let after := q_num_requeues (Workqueue c') (StringItem key) in
      match r with
      | None => after = 0
      | Some _ =>
          if (MaxRetries c =? 0) || (before <? MaxRetries c)
          then after = before + 1 /\
            (q_shutting_down (Workqueue c) = false -> q_delayed (Workqueue c') (StringItem key))
          else after = before
      end
  end.
Proof.
  intros Hget. pose proof (requeues_get _ _ _ Hget (StringItem key)) as Hreq.
  rewrite (processNextWorkItem_run o1 o2 c key q') by done.
  destruct (dirty_get _ _ _ Hget) as [_ Hd].
  assert (~ q_dirty q' (StringItem key)) as Hno by (rewrite Hd; tauto).
  pose proof (shutting_get (Workqueue c)) as Hs. rewrite Hget in Hs. cbn [snd] in Hs.
  destruct (handler _ _ key o1 o2 (serviceManager c)) as [[[err|]|p] s']; [| |done].
  - cbn [Workqueue set_queue set_manager serviceManager]. rewrite Hreq.
    destruct ((MaxRetries c =? 0) || _); autorewrite with queue; split_and!; try done.
    + by rewrite requeues_add_rate_limited, decide_True, Hreq.
    + intros Hns. rewrite delayed_add_rate_limited by congruence. by left.
  - cbn [Workqueue set_queue set_manager serviceManager]. autorewrite with queue.
    split_and!; try done. by rewrite requeues_forget, decide_True.
Qed.

(** The handler of a slice the lister does not have fails and leaves the
    manager alone. *)
Lemma EndpointHandler_missing services slices ns n o1 o2 (s : ServiceManager SM BM) :
  slices (ns, n) = None ->
  EndpointHandler services slices ns n o1 o2 s = (Returns (Some ErrNotFound), s).
Proof. intros E. unfold EndpointHandler. by rewrite E. Qed.

(** Nothing the worker does changes the listers or the retry bound. *)
Lemma processNextWorkItem_frame o1 o2 c r c' :
  processNextWorkItem o1 o2 c = (Returns r, c') ->
  MaxRetries c' = MaxRetries c /\ endpointsLister c' = endpointsLister c /\
  serviceLister c' = serviceLister c.
Proof.
  destruct (q_get (Workqueue c)) as [[[key|m]|] q'] eqn:Hget.
  - rewrite (processNextWorkItem_run o1 o2 c key q') by done.
    destruct (handler _ _ key o1 o2 (serviceManager c)) as [[r'|p] s']; [|done].
    by intros [= <- <-].
  - unfold processNextWorkItem, bind, get. rewrite Hget. by intros [= <- <-].
  - unfold processNextWorkItem, bind, get. rewrite Hget. by intros [= <- <-].
Qed.

(** The item the worker takes is the only one whose place in the queue
    changes. *)
Lemma processNextWorkItem_others o1 o2 c r c' x y q' :
  q_get (Workqueue c) = (Some x, q') -> q_shutting_down (Workqueue c) = false ->
  processNextWorkItem o1 o2 c = (Returns r, c') -> y <> x ->
  q_pending (Workqueue c') y <-> q_pending (Workqueue c) y.
Proof.
  intros Hget Hns E Hne. unfold q_pending.
  rewrite <- (delayed_get _ _ _ Hget y).
  pose proof (proj2 (dirty_get _ _ _ Hget) y) as Hd.
  assert (q_shutting_down q' = false) as Hns'.
  { rewrite <- Hns. pose proof (shutting_get (Workqueue c)) as Hs. by rewrite Hget in Hs. }
  destruct x as [key|m].
  - rewrite (processNextWorkItem_run o1 o2 c key q') in E by done.
    destruct (handler _ _ key o1 o2 (serviceManager c)) as [[[err|]|p] s']; [| |done];
      injection E as <- <-; cbn [Workqueue set_queue set_manager].
    + destruct ((MaxRetries c =? 0) || _); autorewrite with queue;
        rewrite ?delayed_add_rate_limited by done; naive_solver.
    + autorewrite with queue. naive_solver.
  - unfold processNextWorkItem, bind, get in E. rewrite Hget in E. injection E as <- <-.
    cbn [Workqueue set_queue]. autorewrite with queue. naive_solver.
Qed.

Lemma processNextWorkItem_shutting o1 o2 c o c' :
  processNextWorkItem o1 o2 c = (o, c') ->
  q_shutting_down (Workqueue c') = q_shutting_down (Workqueue c).
Proof.
  intros E. rewrite <- (shutting_get (Workqueue c)).
  destruct (q_get (Workqueue c)) as [[[key|m]|] q'] eqn:Hget; cbn [snd].
  - rewrite (processNextWorkItem_run o1 o2 c key q') in E by done.
    destruct (handler _ _ key o1 o2 (serviceManager c)) as [[[err|]|p] s'];
      injection E as <- <-; cbn [Workqueue set_queue set_manager];
      try destruct ((MaxRetries c =? 0) || _); by autorewrite with queue.
  - unfold processNextWorkItem, bind, get in E. rewrite Hget in E. injection E as <- <-.
    cbn [Workqueue set_queue]. by autorewrite with queue.
  - unfold processNextWorkItem, bind, get in E. rewrite Hget in E. by injection E as <- <-.
Qed.

Lemma processNextWorkItem_pending o1 o2 c r c' ns n :
  MaxRetries c = 0 -> endpointsLister c (ns, n) = None ->
  q_shutting_down (Workqueue c) = false -> no_slash ns = true -> no_slash n = true ->
  q_pending (Workqueue c) (StringItem (event_key EndpointSliceType ns n)) ->
  processNextWorkItem o1 o2 c = (Returns r, c') ->
  q_pending (Workqueue c') (StringItem (event_key EndpointSliceType ns n)).
Proof.
  intros Hm Hl Hs Hns Hn Hp E.
  destruct (q_get (Workqueue c)) as [[x|] q'] eqn:Hget.
  - destruct (decide (StringItem (event_key EndpointSliceType ns n) = x)) as [<-|Hne].
    + rewrite (processNextWorkItem_run o1 o2 c _ q'), handler_slice, EndpointHandler_missing in E
        by done.
      rewrite Hm in E. injection E as <- <-. right. cbn [Workqueue set_queue set_manager].
      pose proof (shutting_get (Workqueue c)) as Hg. rewrite Hget in Hg. cbn [snd] in Hg.
      cbn. autorewrite with queue. rewrite delayed_add_rate_limited by congruence. by left.
    + by apply (processNextWorkItem_others o1 o2 c r c' x _ q').
  - destruct (get_nothing _ _ Hget) as [-> _].
    unfold processNextWorkItem, bind, get in E. rewrite Hget in E. by injection E as <- <-.
Qed.

(** The state after [k] items, all of which the worker took, with events and
    the passing of time in between. *)
Inductive worked : nat -> Controller SM BM Q -> Controller SM BM Q -> Prop :=
  | worked_none c : worked 0 c c
  | worked_one k c c1 c' o1 o2 :
      processNextWorkItem o1 o2 c = (Returns true, c1) -> worked k c1 c' -> worked (S k) c c'
  | worked_event k c c' obj :
      worked k (Enqueue obj c).2 c' -> worked k c c'
  | worked_elapse k c c' : worked k (set_queue q_elapse c) c' -> worked k c c'.

Lemma Enqueue_cases obj c :
  Enqueue obj c = (Returns tt, c) \/
  exists key, Enqueue obj c = (Returns tt, set_queue (q_add (StringItem key)) c).
Proof.
  unfold Enqueue. destruct (MetaNamespaceKeyFunc obj); [by left|]. right. by eexists.
Qed.

(** C16. With [MaxRetries] at 0, as [NewController] leaves it, the key of a slice
    that is gone from the store (a deletion) stays in the queue however many
    items the worker takes, and each time it is its turn the handler fails
    without touching the manager: the entries of its service are never
    removed. *)
Theorem deleted_slice_requeued_forever k ns n c c' :
  worked k c c' -> MaxRetries c = 0 -> endpointsLister c (ns, n) = None ->
  q_shutting_down (Workqueue c) = false -> no_slash ns = true -> no_slash n = true ->
  q_pending (Workqueue c) (StringItem (event_key EndpointSliceType ns n)) ->
  q_pending (Workqueue c') (StringItem (event_key EndpointSliceType ns n)) /\
  forall o1 o2, handler (serviceLister c') (endpointsLister c') (event_key EndpointSliceType ns n)
    o1 o2 (serviceManager c') = (Returns (Some ErrNotFound), serviceManager c').
Proof.
  induction 1 as [c|k c c1 c' o1 o2 E _ IH|k c c' obj _ IH|k c c' _ IH]; intros Hm Hl Hs Hns Hn Hp.
  - split; [done|]. intros. by rewrite handler_slice, EndpointHandler_missing.
  - destruct (processNextWorkItem_frame _ _ _ _ _ E) as (Em & El & _).
    apply IH; try done; [by rewrite Em|by rewrite El|..].
    + by rewrite (processNextWorkItem_shutting _ _ _ _ _ E).
    + by eapply processNextWorkItem_pending.
  - destruct (Enqueue_cases obj c) as [E|[key E]]; rewrite E in IH; apply IH; try done.
    + cbn. by autorewrite with queue.
    + cbn. unfold q_pending. autorewrite with queue. rewrite dirty_add by done.
      destruct Hp; tauto.
  - apply IH; try done; cbn; [by autorewrite with queue|]. by apply pending_elapse.
Qed.

(** ** The end of the worker *)

Lemma processNextWorkItem_dirty o1 o2 c o c' x q' :
  q_get (Workqueue c) = (Some x, q') -> processNextWorkItem o1 o2 c = (o, c') ->
  o <> Returns false /\
  forall y, q_dirty (Workqueue c') y <-> y <> x /\ q_dirty (Workqueue c) y.
Proof.
  intros Hget E. pose proof (proj2 (dirty_get _ _ _ Hget)) as Hd. destruct x as [key|m].
  - rewrite (processNextWorkItem_run o1 o2 c key q') in E by done.
    destruct (handler _ _ key o1 o2 (serviceManager c)) as [[[err|]|p] s'];
      injection E as <- <-; (split; [done|]); intros y; rewrite <- Hd;
      cbn [Workqueue set_queue set_manager];
      try destruct ((MaxRetries c =? 0) || _); by autorewrite with queue.
  - unfold processNextWorkItem, bind, get in E. rewrite Hget in E. injection E as <- <-.
    split; [done|]. intros y. rewrite <- Hd. cbn [Workqueue set_queue]. by autorewrite with queue.
Qed.

Lemma processNextWorkItem_nothing o1 o2 c q' :
  q_get (Workqueue c) = (None, q') -> processNextWorkItem o1 o2 c = (Returns false, c).
Proof.
  intros Hget. unfold processNextWorkItem, bind, get. rewrite Hget.
  destruct (get_nothing _ _ Hget) as [-> _]. by destruct c.
Qed.

(** C26. Once the queue is shut down, the loop of the worker ends: with [l] the
    items still to be handed out, it takes at most as many as [l] has, even if
    their handlers fail, and then returns or has panicked.  What it leaves in
    the queue when it returns is nothing it could take. *)
Theorem drain_terminates (l : list item) (fuel : nat) orders c :
  q_shutting_down (Workqueue c) = true ->
  (forall x, q_dirty (Workqueue c) x -> x ∈ l) -> (length l < fuel)%nat ->
  match runWorker fuel orders c with
  | (Returns ended, c') => ended = true /\ (q_get (Workqueue c')).1 = None
  | (Panics _, _) => True
  end.
Proof.
  revert l c. induction fuel as [|fuel IH]; intros l c Hs Hl Hfuel; [lia|].
  cbn [runWorker]. unfold bind.
  destruct (processNextWorkItem _ _ c) as [o c1] eqn:E.
  destruct (q_get (Workqueue c)) as [[x|] q'] eqn:Hget.
  - destruct (processNextWorkItem_dirty _ _ _ _ _ x q' Hget E) as [Ho Hd].
    destruct o as [[]|p]; [|done|done]. apply (IH (without x l)).
    + by rewrite (processNextWorkItem_shutting _ _ _ _ _ E).
    + intros y [Hne Hy]%Hd. apply elem_of_without. auto.
    + enough (length (without x l) < length l)%nat by lia.
      apply (length_filter_lt _ _ x); [apply Hl, (proj1 (dirty_get _ _ _ Hget))|naive_solver].
  - rewrite (processNextWorkItem_nothing _ _ c q' Hget) in E. injection E as <- <-.
    cbn. by rewrite Hget.
Qed.

(** ** The invariant of the manager under the worker *)

(** The slices of the store build services with fewer than 65536 endpoints. *)
Definition small_slices (slices : lister EndpointSlice) : Prop :=
  forall k es ks svc, slices k = Some es -> NewService ks es = Returns svc ->
    Z.of_nat (length (Endpoints svc)) < 65536.

Lemma handle_found_live ks es o1 o2 (s s' : ServiceManager SM BM) r :
  (forall svc, NewService ks es = Returns svc -> Z.of_nat (length (Endpoints svc)) < 65536) -> live s ->
  handle_found ks es o1 o2 s = (Returns r, s') -> live s'.
Proof.
  intros Hsmall Hs E. unfold handle_found, bind, lift_outcome in E.
  destruct (NewService ks es) as [svc|p] eqn:Hnew; [|discriminate E].
  destruct (negb _).
  - destruct (DeleteService (ServiceKey svc) o1 s) as [[r'|p] s1] eqn:Ed; [|discriminate E].
    unfold ret in E. injection E as <- <-. by eapply live_delete.
  - destruct (alloc svc s) as [[l|p] s1] eqn:Ea; [|discriminate E].
    destruct (UpdateService l o1 o2 s1) as [[r'|p] s2] eqn:Eu; [|discriminate E].
    unfold ret in E. injection E as <- <-.
    eapply live_update; [exact Hs|exact Hnew|by apply Hsmall|exact Ea|exact Eu].
Qed.

Lemma handler_live services slices key o1 o2 (s s' : ServiceManager SM BM) r :
  small_slices slices -> live s ->
  handler services slices key o1 o2 s = (Returns r, s') -> live s'.
Proof.
  intros Hsmall Hs E. unfold handler in E.
  destruct (Split key "/") as [|kind [|ns [|n [|? ?]]]];
    try (unfold ret in E; injection E as <- <-; exact Hs).
  destruct (String.eqb kind ServiceType); [unfold ServiceHandler, ret in E; by injection E as <- <-|].
  destruct (String.eqb kind EndpointSliceType); [|unfold ret in E; by injection E as <- <-].
  unfold EndpointHandler in E.
  destruct (slices (ns, n)) as [es|] eqn:Hes; [|unfold ret in E; by injection E as <- <-].
  destruct (services _) as [ks|]; [|unfold ret in E; by injection E as <- <-].
  eapply handle_found_live; [|exact Hs|exact E]. intros svc. by eapply Hsmall.
Qed.

(** Whatever items the worker takes, the manager stays in the states [live]
    describes, so the invariant proved of those states holds of the running
    agent: every service it stores has id 1. *)
Theorem worker_keeps_live k c c' key l :
  worked k c c' -> small_slices (endpointsLister c) -> live (serviceManager c) ->
  live (serviceManager c') /\
  (services (serviceManager c') !! key = Some l ->
     exists svc, heap (serviceManager c') !! l = Some svc /\ ServiceId svc = 1).
Proof.
  intros Hw Hsmall Hlive. cut (live (serviceManager c')).
  { intros Hl. split; [done|]. intros Hkey. apply live_ids_inv in Hl as (_ & Hs & _).
    destruct (Hs _ _ Hkey) as (svc & ? & ? & _). by exists svc. }
  induction Hw as [c|k c c1 c' o1 o2 E _ IH|k c c' obj _ IH|k c c' _ IH]; [done| |
    by destruct (Enqueue_cases obj c) as [E|[? E]]; rewrite E in IH; apply IH|by apply IH].
  destruct (processNextWorkItem_frame _ _ _ _ _ E) as (_ & El & _).
  apply IH; [by rewrite El|].
  destruct (q_get (Workqueue c)) as [[[key'|m]|] q'] eqn:Hget.
  - rewrite (processNextWorkItem_run o1 o2 c key' q') in E by done.
    destruct (handler _ _ key' o1 o2 (serviceManager c)) as [[r|p] s'] eqn:Eh; [|done].
    injection E as <-. cbn. by eapply handler_live.
  - unfold processNextWorkItem, bind, get in E. rewrite Hget in E. by injection E as <-.
  - unfold processNextWorkItem, bind, get in E. rewrite Hget in E. discriminate E.
Qed.

(** ** From an event to a connection *)

(** C1. On a fresh agent, when the queue hands out the key that the event of an
    endpoint slice was queued under, and both stores have the objects (one
    port, an IPv4 cluster address, readable endpoints with [n] ready
    addresses, not being deleted), the worker returns and a connection to the
    service is then sent to the ready address number [r mod n] on the target
    port. *)
Theorem event_to_connection (ks : K8sService) (es : EndpointSlice) (sp : ServicePort)
    (ns name : string) services slices (a b c d : Z) (sm : SM) (bm : BM) (q q' : Q)
    (ctx : bpf_sock_addr) (r : Z) (ws : list Z) c0 c1 :
  ns <> ""%string -> no_slash ns = true -> no_slash name = true ->
  c0 = NewController q (NewServiceManager (Some sm) (Some bm)) services slices ->
  Enqueue (EndpointSliceObject ns name) c0 = (Returns tt, c1) ->
  q_get (Workqueue c1) = (Some (StringItem (event_key EndpointSliceType ns name)), q') ->
  slices (ns, name) = Some es -> es_DeletionTimestamp_IsZero es = true ->
  services (ns, slice_service es) = Some ks ->
  ks_ClusterIP ks = dotted_quad a b c d ->
  0 <= a <= 255 -> 0 <= b <= 255 -> 0 <= c <= 255 -> 0 <= d <= 255 ->
  ks_Ports ks = [sp] -> forallb readable (es_Endpoints es) = true ->
  ws = filter (fun w => w <> 0) (map word_of (ready_addresses (es_Endpoints es))) ->
  0 < Z.of_nat (length ws) < 65536 ->
  (1 <= map_room sm)%nat -> (length ws <= map_room bm)%nat ->
  supported ctx = true -> user_ip4 ctx = of_le [a; b; c; d] ->
  user_port ctx = bpf_htons LittleEndian false (uwrap 16 (sp_Port sp)) ->
  protocol ctx = ParseProto (sp_Protocol sp) -> 0 <= r ->
  exists c2 sm' bm' w,
    processNextWorkItem [] [convert_port sp] c1 = (Returns true, c2) /\
    serviceMap (serviceManager c2) = Some sm' /\ endpointsMap (serviceManager c2) = Some bm' /\
    ws !! Z.to_nat (r mod Z.of_nat (length ws)) = Some w /\
    user_ip4 (connect4_ctx sm' bm' r ctx) = w /\
    user_port (connect4_ctx sm' bm' r ctx) =
      bpf_htons LittleEndian false (uwrap 16 (sp_TargetPort_IntValue sp)).
Proof.
  intros Hne Hns Hname -> Henq Hget Hes Hdel Hks Hcip Ha Hb Hc Hd Hports Hread Hws Hlen Hrs Hrb
    Hsup Hip Hport Hproto Hr.
  destruct (fresh_agent_ok ks es sp a b c d sm bm ctx r ws)
    as (svc & l & s1 & s' & sm' & bm' & w & Hnew & Halloc & Hupd & Hsm & Hbm & Hw & Hcip' & Hcport);
    try done.
  rewrite (Enqueue_key _ EndpointSliceType ns name) in Henq by done. injection Henq as <-.
  cbn [Workqueue set_queue NewController] in Hget.
  eexists _, sm', bm', w. split_and!; try done.
  - rewrite (processNextWorkItem_run _ _ _ _ q') by exact Hget.
    cbn [serviceLister endpointsLister serviceManager set_queue NewController].
    rewrite handler_slice by done. unfold EndpointHandler. rewrite Hes, Hks. unfold handle_found.
    unfold bind, lift_outcome. rewrite Hnew, Hdel. cbn [negb]. rewrite Halloc, Hupd. reflexivity.
  - exact Hsm.
  - exact Hbm.
Qed.
End properties.

(** ** A concrete controller

    The agent of ManagerSpec's examples: one service and one slice, an empty
    queue, and a slice "gone" that the store does not have. *)

#[local] Instance ex_key_func : KeyFunc := fun o =>
  match object_meta o with
  | Some (ns, n) => inr (meta_key ns n)
  | None => inl (ErrMsg "object has no meta")
  end.

#[local] Instance ex_key_func_spec : KeyFuncSpec.
Proof.
  split.
  - intros o ns n E. unfold MetaNamespaceKeyFunc, ex_key_func. by rewrite E.
  - intros o E. unfold MetaNamespaceKeyFunc, ex_key_func. rewrite E. by eexists.
Qed.

Definition ex_controller : Type :=
  Controller (hmap lb4_key lb4_service) (hmap Z lb4_backend) wqueue.
Definition lister_of {A} (m : gmap (string * string) A) : lister A := fun k => m !! k.
Definition ex_services : lister K8sService := lister_of {[("default", "web")%string := ex_ks]}.
Definition ex_slices : lister EndpointSlice := lister_of {[("default", "web-1")%string := ex_es]}.
Definition ex_queue (l : list item) : wqueue := mk_wqueue l [] [] [] [] false.
Definition ex_start (l : list item) : ex_controller :=
  NewController (ex_queue l) ex_new ex_services ex_slices.
Definition ex_event : item := StringItem (event_key EndpointSliceType "default" "web-1").
Definition ex_gone : item := StringItem (event_key EndpointSliceType "default" "gone").

Lemma event_reaches_handler_witness :
  Enqueue (Tombstone "default/gone") (ex_start []) = (Returns tt, ex_start []).
Proof.
  exact (proj2 (proj2 (event_reaches_handler "default" "web-1" ex_services ex_slices [] []
    ex_new (ex_start []) ltac:(discriminate) eq_refl eq_refl)) "default/gone"%string).
Defined.

Lemma worker_outcome_witness :
  q_pending (Workqueue (processNextWorkItem [] [] (ex_start [ex_gone])).2) ex_gone.
Proof.
  pose proof (worker_outcome [] [] (ex_start [ex_gone])
    (event_key EndpointSliceType "default" "gone") (mk_wqueue [] [ex_gone] [] [] [] false) eq_refl) as H.
  assert (handler (serviceLister (ex_start [ex_gone])) (endpointsLister (ex_start [ex_gone]))
    (event_key EndpointSliceType "default" "gone") [] [] (serviceManager (ex_start [ex_gone]))
    = (Returns (Some ErrNotFound), ex_new)) as Eh by by_vm.
  rewrite Eh in H. destruct (processNextWorkItem [] [] (ex_start [ex_gone])) as [o' c'].
  right. exact (proj2 (proj2 (proj2 (proj2 H))) eq_refl).
Defined.

(** Two items, with a delay and a new event in between. *)
Definition ex_later (c : ex_controller) : ex_controller :=
  (Enqueue (EndpointSliceObject "default" "gone") (set_queue q_elapse c)).2.

Lemma deleted_slice_requeued_forever_witness :
  let c1 := ex_later (processNextWorkItem [] [] (ex_start [ex_gone])).2 in
  q_pending (Workqueue (processNextWorkItem [] [] c1).2) ex_gone.
Proof.
  cbv zeta. refine (proj1 (deleted_slice_requeued_forever 2 "default" "gone" (ex_start [ex_gone]) _ _
    eq_refl _ eq_refl eq_refl eq_refl _)).
  - eapply (worked_one _ _ _ _ [] []); [apply run_returns; by_vm|]. apply worked_elapse.
    apply (worked_event _ _ _ (EndpointSliceObject "default" "gone")).
    eapply worked_one; [|apply worked_none]. apply run_returns. by_vm.
  - by_vm.
  - left. left. by left.
Defined.

(** A shut queue with the slice of a service and one that is gone. *)
Lemma drain_terminates_witness :
  (q_get (Workqueue (runWorker 3 (fun _ => ([], [ex_port]))
    (set_queue q_shut_down (ex_start [ex_gone; ex_event]))).2)).1 = None.
Proof.
  pose proof (drain_terminates [ex_gone; ex_event] 3 (fun _ => ([], [ex_port]))
    (set_queue q_shut_down (ex_start [ex_gone; ex_event])) eq_refl) as H.
  assert ((runWorker 3 (fun _ => ([], [ex_port]))
    (set_queue q_shut_down (ex_start [ex_gone; ex_event]))).1 = Returns true) as Er by by_vm.
  destruct (runWorker 3 _ _) as [o c']. cbn [fst] in Er. subst o.
  apply H; [|cbn; lia]. intros x [Hx|[Hx _]]; [exact Hx|by apply not_elem_of_nil in Hx].
Defined.

Lemma ex_small_slices : small_slices ex_slices.
Proof.
  unfold ex_slices, lister_of. intros k es ks svc [<- <-]%lookup_singleton_Some Hnew. unfold NewService in Hnew.
  rewrite add_ports_members in Hnew.
  change (collect_endpoints (es_Endpoints ex_es) []) with (Returns [16777226; 33554442]) in Hnew.
  injection Hnew as <-. cbn. lia.
Qed.

Lemma worker_keeps_live_witness :
  live (serviceManager (processNextWorkItem [] [ex_port] (ex_start [ex_event])).2).
Proof.
  refine (proj1 (worker_keeps_live 1 (ex_start [ex_event]) _ "default/web" 0%nat _ _ _)).
  - eapply worked_one; [|apply worked_none]. apply run_returns. by_vm.
  - exact ex_small_slices.
  - by apply live_new.
Defined.

Lemma event_to_connection_witness :
  exists c2 sm' bm',
    processNextWorkItem [] [ex_port] (ex_start [ex_event]) = (Returns true, c2) /\
    serviceMap (serviceManager c2) = Some sm' /\ endpointsMap (serviceManager c2) = Some bm' /\
    user_ip4 (connect4_ctx sm' bm' 7 ex_ctx) = 33554442.
Proof.
  destruct (event_to_connection ex_ks ex_es (mkServicePort "TCP" 80 8080) "default" "web-1"
    ex_services ex_slices 10 96 0 10 (hmap_new 4) (hmap_new 8) (ex_queue [])
    (mk_wqueue [] [ex_event] [] [] [] false) ex_ctx 7 [16777226; 33554442] (ex_start []) (ex_start [ex_event]))
    as (c2 & sm' & bm' & w & E & Hsm & Hbm & Hw & Hip & _);
    try by_vm; try (rewrite ex_room); try (cbn; lia); try discriminate.
  exists c2, sm', bm'. split_and!; try done. rewrite Hip. cbn in Hw. by injection Hw.
Defined.

End ControllerSpec.
