(* ===== verification/Closed.v ===== *)
(** * The maps after [main] has closed them

    [bm.Close] releases the agent's descriptors of the two maps; the maps
    themselves stay in the kernel with the attached program.  A worker that is
    not waited for can still call the manager: every operation then fails with
    EBADF.  So what the handler does on closed maps is either what it does on
    open ones without touching them, or a panic of the iteration over the
    service's ports. *)

From Stdlib Require Import ZArith Lia String.
From stdpp Require Import base gmap list strings.
From S2P Require Import Prelude Endian GoNet Layout BpfMap GoSet Manager ManagerSpec Controller.
Import Endian GoNet Layout BpfMap GoSet Manager ManagerSpec Controller.

Local Open Scope Z_scope.
Local Open Scope go_scope.

Module Closed.

(** ** A closed map *)

Definition EBADF : Z := 9.

(** What the library wraps around the error makes no difference to its callers. *)
Definition ErrClosed : error := Errno EBADF.

Record closed (M : Type) := Closed { contents : M }.
Arguments Closed {M} _.
Arguments contents {M} _.

Definition closed_ops {K V M : Type} `{!MapOps K V M} : MapOps K V (closed M) := {|
  map_lookup m k := map_lookup (contents m) k;
  map_update _ _ _ := inl ErrClosed;
  map_delete _ _ := inl ErrClosed;
  map_room m := map_room (contents m)
|}.

Section closed.
Context {SM BM : Type} `{!MapOps lb4_key lb4_service SM} `{!MapOps Z lb4_backend BM}.

#[local] Instance closed_services : MapOps lb4_key lb4_service (closed SM) := closed_ops.
#[local] Instance closed_backends : MapOps Z lb4_backend (closed BM) := closed_ops.

(** The same manager over other maps. *)
Definition with_maps {SM1 BM1 SM2 BM2 : Type} (f : SM1 -> SM2) (g : BM1 -> BM2)
    (m : ServiceManager SM1 BM1) : ServiceManager SM2 BM2 :=
  mkManager (services m) (cacheSerivceId m) (f <$> serviceMap m) (g <$> endpointsMap m) (heap m).

Definition close_maps : ServiceManager SM BM -> ServiceManager (closed SM) (closed BM) :=
  with_maps Closed Closed.
Definition open_maps : ServiceManager (closed SM) (closed BM) -> ServiceManager SM BM :=
  with_maps contents contents.

Lemma open_close m : open_maps (close_maps m) = m.
Proof. by destruct m as [? ? [] [] ?]. Qed.

(** [handle_found] on closed maps. *)
Definition handle_closed (ks : K8sService) (es : EndpointSlice) (o1 o2 : list Ports)
    : GoM (ServiceManager SM BM) (option error) := fun m =>
  let '(o, m') := handle_found ks es o1 o2 (close_maps m) in (o, open_maps m').

(** ** A call that returns has not touched the maps *)

Definition agrees {A} (mc : GoM (ServiceManager (closed SM) (closed BM)) A)
    (mo : GoM (ServiceManager SM BM) A) : Prop :=
  forall m, match mc (close_maps m) with
            | (Returns a, m') => exists m1, m' = close_maps m1 /\ mo m = (Returns a, m1)
            | (Panics _, _) => True
            end.

Lemma agrees_ret {A} (a : A) : agrees (ret a) (ret a).
Proof. intros m. by exists m. Qed.

Lemma agrees_panics {A} p (mo : GoM (ServiceManager SM BM) A) : agrees (panics p) mo.
Proof. done. Qed.

Lemma agrees_bind {A B} mc mo (kc : A -> GoM _ B) ko :
  agrees mc mo -> (forall a, agrees (kc a) (ko a)) -> agrees (bind mc kc) (bind mo ko).
Proof.
  intros Hm Hk m. unfold bind. specialize (Hm m). destruct (mc (close_maps m)) as [[a|p] m']; [|done].
  destruct Hm as (m1 & -> & ->). apply Hk.
Qed.

Lemma agrees_get {A} (kc : _ -> GoM _ A) ko :
  (forall m, agrees (kc (close_maps m)) (ko m)) -> agrees (bind get kc) (bind get ko).
Proof. intros Hk m. apply (Hk m). Qed.

Lemma agrees_modify f g : (forall m, f (close_maps m) = close_maps (g m)) -> agrees (modify f) (modify g).
Proof. intros E m. exists (g m). by rewrite <- E. Qed.

Lemma agrees_deref l : agrees (deref l) (deref l).
Proof. intros m. unfold deref. cbn. destruct (heap m !! l); [by exists m|done]. Qed.

Lemma agrees_alloc svc : agrees (alloc svc) (alloc svc).
Proof. intros m. unfold alloc. cbn. eexists. split; [|done]. done. Qed.

Lemma agrees_lift {A} (o : outcome A) : agrees (lift_outcome o) (lift_outcome o).
Proof. intros m. destruct o; [by exists m|done]. Qed.

#[local] Hint Resolve agrees_ret agrees_panics agrees_bind agrees_get agrees_deref agrees_alloc
  agrees_lift : closed.

(** A visitor that works on a map fails. *)
Definition refused (vc : GoM (ServiceManager (closed SM) (closed BM)) (option error))
    (vo : GoM (ServiceManager SM BM) (option error)) : Prop :=
  forall m, match vc (close_maps m) with
            | (Returns (Some err), _) => err = ErrClosed
            | (Returns None, m') => m' = close_maps m /\ vo m = (Returns None, m)
            | (Panics _, _) => True
            end.

Lemma agrees_iter set vc vo ord : (forall p, refused (vc p) (vo p)) ->
  agrees (iter_over (T := Ports) set vc ord) (iter_over set vo ord).
Proof.
  intros Hv m. revert set. induction ord as [|p ord IH]; intros set; [by exists m|].
  rewrite !iter_over_cons. specialize (Hv p m).
  destruct (vc p (close_maps m)) as [[[err|]|e] m']; [by subst|destruct Hv as [-> ->]; apply IH|done].
Qed.

Lemma agrees_iter_ports svc ord vc vo : (forall p, refused (vc p) (vo p)) ->
  agrees (iter_ports svc ord vc) (iter_ports svc ord vo).
Proof. intros Hv. unfold iter_ports. destruct (SvcPorts svc); [by apply agrees_iter|done]. Qed.

Lemma delete_refused svc p : refused (delete_visitor svc p) (delete_visitor svc p).
Proof.
  intros m. unfold delete_visitor, bind, service_word.
  destruct (LittleEndian_Uint32 _); [|done]. by destruct m as [sv ca [sm|] em hp].
Qed.

Lemma append_refused svc p : refused (append_visitor svc p) (append_visitor svc p).
Proof.
  intros m. unfold append_visitor, bind, service_word.
  destruct (LittleEndian_Uint32 _); [|done]. destruct m as [sv ca [sm|] em hp]; [done|].
  split; [done|]. reflexivity.
Qed.

Lemma agrees_delete key ord : agrees (DeleteService key ord) (DeleteService key ord).
Proof.
  unfold DeleteService. apply agrees_get. intros m. cbn [services close_maps with_maps].
  destruct (services m !! key) as [l|]; auto with closed. apply agrees_bind; auto with closed.
  intros svc. apply agrees_bind; [apply agrees_iter_ports; intros p; apply delete_refused|].
  intros []. apply agrees_bind; auto with closed. by apply agrees_modify.
Qed.

Lemma agrees_append l ord : agrees (AppendService l ord) (AppendService l ord).
Proof.
  unfold AppendService. apply agrees_bind.
  - unfold assign_id. apply agrees_get. intros m. cbn [cacheSerivceId close_maps with_maps].
    apply agrees_bind; auto with closed. intros svc. destruct (find_free _ _ _); auto with closed.
    apply agrees_bind; [by apply agrees_modify|]. intros []. by apply agrees_modify.
  - intros []. apply agrees_bind; auto with closed. intros svc.
    apply agrees_bind; [apply agrees_iter_ports; intros p; apply append_refused|].
    intros []. by apply agrees_modify.
Qed.

#[local] Hint Resolve agrees_delete agrees_append : closed.

Lemma agrees_update l o1 o2 : agrees (UpdateService l o1 o2) (UpdateService l o1 o2).
Proof.
  unfold UpdateService. apply agrees_get. intros m. apply agrees_bind; auto with closed. intros svc.
  cbn [services close_maps with_maps]. destruct (services m !! ServiceKey svc); auto 6 with closed.
Qed.

#[local] Hint Resolve agrees_update : closed.

Lemma agrees_handle ks es o1 o2 : agrees (handle_found ks es o1 o2) (handle_found ks es o1 o2).
Proof.
  unfold handle_found. apply agrees_bind; auto with closed. intros svc.
  destruct (negb _); auto 6 with closed.
Qed.

(** A handler that returns on closed maps would have done the same on open ones. *)
Lemma handle_closed_returns ks es o1 o2 m r m' :
  handle_closed ks es o1 o2 m = (Returns r, m') -> handle_found ks es o1 o2 m = (Returns r, m').
Proof.
  unfold handle_closed. pose proof (agrees_handle ks es o1 o2 m) as H.
  destruct (handle_found ks es o1 o2 (close_maps m)) as [[a|p] mc]; [|done].
  destruct H as (m1 & -> & ->). rewrite open_close. by intros [= -> ->].
Qed.

(** Working on the ports of a stored service panics. *)
Lemma DeleteService_closed_panics key l old ports p ord m :
  services m !! key = Some l -> heap m !! l = Some old -> SvcPorts old = Some ports ->
  exists e m', DeleteService key (p :: ord) (close_maps m) = (Panics e, m').
Proof.
  intros Hkey Hold Hp. destruct m as [sv ca sm em hp]. cbn in Hkey, Hold.
  unfold DeleteService, bind, get. cbn. rewrite Hkey. unfold deref. cbn. rewrite Hold.
  unfold iter_ports. rewrite Hp, iter_over_cons. unfold delete_visitor, bind, service_word.
  destruct (LittleEndian_Uint32 _); [|eauto]. destruct sm; cbn; eauto.
Qed.

End closed.
End Closed.
