(* ===== verification/Informer.v ===== *)
(** * The informers: src/pkg/kubernetes/informers

    [ServiceInformer] and [EndpointSliceInformer] are the same code at two
    object types: every object that comes from the watch is copied without the
    fields the agent does not use, the original is overwritten with the zero
    value to release its memory, and the copy goes to the store and to the
    event handler.  Objects are pointers into a heap, since the conversion
    writes through the pointer it is given.  The store is client-go's indexer,
    an interface with the behaviour its documentation promises; so is its
    controller, which lists and watches the objects and hands their changes to
    [Process] as deltas, one object at a time. *)

From Stdlib Require Import ZArith Lia String.
From stdpp Require Import base gmap list strings.
From S2P Require Import Prelude GoStrings Layout BpfMap GoSet Manager ManagerSpec Controller.
Import GoStrings Layout BpfMap GoSet Manager ManagerSpec Controller.

Local Open Scope Z_scope.
Local Open Scope go_scope.

Module Informer.

(** ** Objects *)

(** [metav1.ObjectMeta]; [m_Other] stands for the fields the conversion drops
    (UID, generation, managed fields and so on). *)
Record ObjectMeta := mkMeta {
  m_Name : string;
  m_Namespace : string;
  m_ResourceVersion : string;
  m_DeletionTimestamp : option Z;
  m_Annotations : gmap string string;
  m_OwnerReferences : list string;
  m_Labels : gmap string string;
  m_Other : list string
}.

(** [v1.Service] and [discovery.EndpointSlice]; [*_Other] stands for the
    remaining fields of the specification and for the status. *)
Record v1_Service := mkV1Service {
  s_TypeMeta : string * string;
  s_Meta : ObjectMeta;
  s_ClusterIP : string;
  s_Ports : list ServicePort;
  s_Type : string;
  s_Other : list string
}.

Record v1_EndpointSlice := mkV1Slice {
  e_TypeMeta : string * string;
  e_Meta : ObjectMeta;
  e_AddressType : string;
  e_Ports : list Z;
  e_Endpoints : list Endpoint
}.

Definition zero_meta : ObjectMeta := mkMeta "" "" "" None ∅ [] ∅ [].

(** The metadata both conversions copy. *)
Definition copy_meta (m : ObjectMeta) : ObjectMeta :=
  mkMeta (m_Name m) (m_Namespace m) (m_ResourceVersion m) (m_DeletionTimestamp m)
    (m_Annotations m) (m_OwnerReferences m) (m_Labels m) [].

(** What an informer needs of its object type: the metadata, the zero value
    and the copy of the conversion. *)
Class Object (T : Type) := {
  obj_meta : T -> ObjectMeta;
  obj_zero : T;
  obj_copy : T -> T
}.

#[export] Instance Service_object : Object v1_Service := {
  obj_meta := s_Meta;
  obj_zero := mkV1Service ("", "")%string zero_meta "" [] "" [];
  obj_copy s := mkV1Service (s_TypeMeta s) (copy_meta (s_Meta s)) (s_ClusterIP s) (s_Ports s)
                  (s_Type s) []
}.

#[export] Instance EndpointSlice_object : Object v1_EndpointSlice := {
  obj_meta := e_Meta;
  obj_zero := mkV1Slice ("", "")%string zero_meta "" [] [];
  obj_copy e := mkV1Slice (e_TypeMeta e) (copy_meta (e_Meta e)) (e_AddressType e) (e_Ports e)
                  (e_Endpoints e)
}.

(** The copy keeps the metadata the agent uses. *)
Class ObjectSpec (T : Type) `{!Object T} : Prop :=
  copy_keeps_key (o : T) : obj_meta (obj_copy o) = copy_meta (obj_meta o).

#[export] Instance Service_object_spec : ObjectSpec v1_Service.
Proof. by intros []. Qed.
#[export] Instance EndpointSlice_object_spec : ObjectSpec v1_EndpointSlice.
Proof. by intros []. Qed.

(** What the manager reads of the objects. *)
Definition k8s_service (s : v1_Service) : K8sService :=
  mkK8sService (m_Name (s_Meta s)) (m_Namespace (s_Meta s)) (s_ClusterIP s) (s_Ports s).

(** [DeletionTimestamp.IsZero()] holds of nil and of the zero time. *)
Definition k8s_slice (e : v1_EndpointSlice) : EndpointSlice :=
  mkEndpointSlice (m_Name (e_Meta e)) (m_Namespace (e_Meta e)) (m_Labels (e_Meta e))
    (match m_DeletionTimestamp (e_Meta e) with None => true | Some t => t =? 0 end)
    (e_Endpoints e).

(** [IsEndpointSliceReady]: a slice is never ready. *)
Definition IsEndpointSliceReady (e : v1_EndpointSlice) : bool :=
  match m_DeletionTimestamp (e_Meta e) with
  | Some _ => false
  | None => false
  end.

(** ** Deltas and events *)

(** The object of a delta: a pointer, a tombstone (whose own object is a
    pointer of the informer's type or something else), or anything else. *)
Inductive delta_object :=
  | Pointer (l : loc)
  | DeletedFinalStateUnknown (key : string) (obj : option loc)
  | Unknown.

Inductive delta_type := Sync | Added | Updated | Replaced | Deleted.

Inductive event :=
  | OnAdd (obj : delta_object)
  | OnUpdate (old obj : delta_object)
  | OnDelete (obj : delta_object).

(** ** The store *)

Class IndexerOps (I : Type) := {
  i_new : I;
  i_get : I -> string -> option delta_object;
  i_put : string -> delta_object -> I -> I;
  i_del : string -> I -> I;
  i_keys : I -> list string;
  i_add_indexers : list string -> I -> option error * I
}.

Class IndexerSpec (I : Type) `{!IndexerOps I} : Prop := {
  get_new k : i_get i_new k = None;
  get_put i k o k' : i_get (i_put k o i) k' = if decide (k = k') then Some o else i_get i k';
  get_del i k k' : i_get (i_del k i) k' = if decide (k = k') then None else i_get i k';
  keys_get i k : k ∈ i_keys i <-> is_Some (i_get i k);
  get_add_indexers names i k : i_get (i_add_indexers names i).2 k = i_get i k
}.

#[export] Instance map_indexer_ops : IndexerOps (gmap string delta_object) := {
  i_new := ∅;
  i_get i k := i !! k;
  i_put k o i := <[k := o]> i;
  i_del k i := delete k i;
  i_keys i := (map_to_list i).*1;
  i_add_indexers names i :=
    (if decide (i = ∅) then None else Some (ErrMsg "cannot add indexers to running index"), i)
}.

#[export] Instance map_indexer_spec : IndexerSpec (gmap string delta_object).
Proof.
  split; cbn; intros; [apply lookup_empty|apply lookup_insert|apply lookup_delete| |done].
  rewrite list_elem_of_fmap. split.
  - intros ([k' o] & -> & Hk%elem_of_map_to_list). by exists o.
  - intros [o Ho]. exists (k, o). split; [done|]. by apply elem_of_map_to_list.
Qed.

(** ** Lists and watches

    The functions of a [cache.ListWatch] call the client of the API server; a
    request is what they ask it. *)

Record ListOptions := mkListOptions {
  LabelSelector : string;
  lo_Other : list string   (* field selector, resource version and so on *)
}.

Inductive verb := List | Watch.

Record request := mkRequest {
  req_verb : verb;
  req_resource : string;
  req_namespace : string;
  req_options : ListOptions
}.

Record ListWatch := mkListWatch {
  ListFunc : ListOptions -> request;
  WatchFunc : ListOptions -> request
}.

(** ** The controller of client-go's cache

    What the API server sends, and the deltas the controller makes of it: for
    a list, also the deletion of every known object the list does not have, as
    a tombstone with the object that is known. *)

Inductive server_event (T : Type) :=
  | Listed (objs : list T)
  | Watched (ty : delta_type) (obj : T).
Arguments Listed {T} _.
Arguments Watched {T} _ _.

Inductive wdelta (T : Type) :=
  | WObject (ty : delta_type) (obj : T)
  | WTombstone (key : string) (known : option loc).
Arguments WObject {T} _ _.
Arguments WTombstone {T} _ _.

(** [cache.Config] and the options of the queue; the known objects are the
    informer's store, and [Process] is the definition below. *)
Record Config := mkConfig {
  EmitDeltaTypeReplaced : bool;
  ListerWatcher : ListWatch;
  FullResyncPeriod : Z;
  RetryOnError : bool;
  WatchErrorHandler : option nat
}.

(** [c_receive known keys e c]: the event [e] arrives while the store has the
    keys [keys] with the pointers [known]; [c_pop]: the deltas of one object.
    [c_first_left] are the keys of the first list not handed out yet, once it
    has arrived; [c_objects] are the objects of the deltas in the queue. *)
Class CacheOps (T C : Type) := {
  c_New : Config -> C;
  c_receive : (string -> option loc) -> list string -> server_event T -> C -> C;
  c_pop : C -> option (list (wdelta T) * C);
  c_HasSynced : C -> bool;
  c_LastSyncResourceVersion : C -> string;
  c_first_left : C -> option (list string);
  c_tombstones : C -> list (string * loc);
  c_objects : C -> list T
}.

Section informer.
Context {T I C : Type} `{!Object T} `{!IndexerOps I} `{!CacheOps T C}.

(** The fields of the Go struct, with the heap of its objects and the calls of
    event handlers so far, oldest first. *)
Record Informer := mkInformer {
  lw : ListWatch;
  indexer : I;
  controller : option C;
  eventhandler : option nat;  (* the one handler, by number *)
  resyncPeriod : Z;
  watchErrorHandler : option nat;
  started : bool;
  stopped : bool;
  i_heap : gmap loc T;
  events : list (nat * event)
}.

(** The state after a change of the heap, the store and the calls. *)
Definition upd (s : Informer) (h : gmap loc T) (i : I) (es : list (nat * event)) : Informer :=
  mkInformer (lw s) i (controller s) (eventhandler s) (resyncPeriod s) (watchErrorHandler s)
    (started s) (stopped s) h es.

Definition read (l : loc) : GoM Informer T := fun s =>
  match i_heap s !! l with
  | Some o => (Returns o, s)
  | None => (Panics NilDereference, s)
  end.
Definition write (l : loc) (o : T) : GoM Informer unit :=
  modify (fun s => upd s (<[l := o]> (i_heap s)) (indexer s) (events s)).
Definition new (o : T) : GoM Informer loc := fun s =>
  let l := fresh (dom (i_heap s)) in
  (Returns l, upd s (<[l := o]> (i_heap s)) (indexer s) (events s)).

(** A call of the handler; without one the interface is nil. *)
Definition notify (e : event) : GoM Informer unit := fun s =>
  match eventhandler s with
  | Some n => (Returns tt, upd s (i_heap s) (indexer s) (events s ++ [(n, e)]))
  | None => (Panics NilDereference, s)
  end.
Definition set_indexer (f : I -> I) : GoM Informer unit :=
  modify (fun s => upd s (i_heap s) (f (indexer s)) (events s)).

(** ** Accessors *)

(** [AddEventHandler]: a handler takes the place of the one before. *)
Definition AddEventHandler (handle : nat) : GoM Informer unit := modify (fun s =>
  mkInformer (lw s) (indexer s) (controller s) (Some handle) (resyncPeriod s) (watchErrorHandler s)
    (started s) (stopped s) (i_heap s) (events s)).

Definition AddEventHandlerWithResyncPeriod (handle : nat) (period : Z) : GoM Informer unit :=
  modify (fun s =>
    mkInformer (lw s) (indexer s) (controller s) (Some handle) period (watchErrorHandler s)
      (started s) (stopped s) (i_heap s) (events s)).

Definition SetWatchErrorHandler (handle : nat) : GoM Informer (option error) :=
  modify (fun s =>
    mkInformer (lw s) (indexer s) (controller s) (eventhandler s) (resyncPeriod s) (Some handle)
      (started s) (stopped s) (i_heap s) (events s)) ;;;
  ret None.

Definition GetStore (s : Informer) : I := indexer s.
Definition GetIndexer (s : Informer) : I := indexer s.
Definition GetController (s : Informer) : option C := controller s.

(** Before [Run] the controller is nil: the method call panics. *)
Definition LastSyncResourceVersion : GoM Informer string :=
  let! s := get in
  match controller s with
  | Some c => ret (c_LastSyncResourceVersion c)
  | None => panics NilDereference
  end.

Definition AddIndexers (names : list string) : GoM Informer (option error) :=
  let! s := get in
  let '(err, i) := i_add_indexers names (indexer s) in
  set_indexer (fun _ => i) ;;;
  ret err.

Definition HasSynced (s : Informer) : bool :=
  match controller s with
  | None => false
  | Some c => c_HasSynced c
  end.

(** ** Process *)

(** The copy of an object and the release of the original. *)
Definition copy_and_clear (l : loc) : GoM Informer loc :=
  let! o := read l in
  let! p := new (obj_copy o) in
  write l obj_zero ;;;
  ret p.

(** [convertToCustomService], [convertToCustomEndpointSlice]. *)
Definition convertToCustom (obj : delta_object) : GoM Informer delta_object :=
  match obj with
  | Pointer l => let! p := copy_and_clear l in ret (Pointer p)
  | DeletedFinalStateUnknown key (Some l) =>
      let! p := copy_and_clear l in ret (DeletedFinalStateUnknown key (Some p))
  | DeletedFinalStateUnknown key None => ret obj
  | Unknown => ret obj
  end.

(** [cache.DeletionHandlingMetaNamespaceKeyFunc], the key function of the
    store. *)
Definition store_key (obj : delta_object) : GoM Informer (error + string) :=
  match obj with
  | Pointer l =>
      let! o := read l in
      ret (inr (meta_key (m_Namespace (obj_meta o)) (m_Name (obj_meta o))))
  | DeletedFinalStateUnknown key _ => ret (inr key)
  | Unknown => ret (inl (ErrMsg "object has no meta"))
  end.

(** One delta of [Process]. *)
Definition process_delta (d : delta_type * delta_object) : GoM Informer (option error) :=
  let! obj := convertToCustom d.2 in
  let! key := store_key obj in
  match d.1 with
  | Sync | Added | Updated | Replaced =>
      match key with
      | inl err => ret (Some err)
      | inr key =>
          let! s := get in
          match i_get (indexer s) key with
          | Some old =>
              set_indexer (i_put key obj) ;;; notify (OnUpdate old obj) ;;; ret None
          | None =>
              set_indexer (i_put key obj) ;;; notify (OnAdd obj) ;;; ret None
          end
      end
  | Deleted =>
      match key with
      | inl err => ret (Some err)
      | inr key => set_indexer (i_del key) ;;; notify (OnDelete obj) ;;; ret None
      end
  end.

Fixpoint Process (deltas : list (delta_type * delta_object)) : GoM Informer (option error) :=
  match deltas with
  | [] => ret None
  | d :: rest =>
      let! err := process_delta d in
      match err with
      | Some err => ret (Some err)
      | None => Process rest
      end
  end.

(** ** Run

    [Run] up to the blocking call of [controller.Run]: the configuration, the
    controller, the flag. *)
Definition run_config (s : Informer) : Config :=
  mkConfig true (lw s) 0 false (watchErrorHandler s).

Definition Run_begin : GoM Informer unit := modify (fun s =>
  mkInformer (lw s) (indexer s) (Some (c_New (run_config s))) (eventhandler s) (resyncPeriod s)
    (watchErrorHandler s) true (stopped s) (i_heap s) (events s)).

(** The deferred function, when [controller.Run] has returned or panicked. *)
Definition Run_end : GoM Informer unit := modify (fun s =>
  mkInformer (lw s) (indexer s) (controller s) (eventhandler s) (resyncPeriod s)
    (watchErrorHandler s) (started s) true (i_heap s) (events s)).

Definition set_controller (c : C) (s : Informer) : Informer :=
  mkInformer (lw s) (indexer s) (Some c) (eventhandler s) (resyncPeriod s) (watchErrorHandler s)
    (started s) (stopped s) (i_heap s) (events s).

End informer.
Arguments Informer T I C : clear implicits.

(** ** Reference: the store as a map of objects *)

Section spec.
Context {T I C : Type} `{!Object T} `{!ObjectSpec T} `{!IndexerOps I} `{!IndexerSpec I}.
Context `{!CacheOps T C}.
Implicit Type s : Informer T I C.

(** The object stored under a key. *)
Definition stored s (k : string) : option T :=
  match i_get (indexer s) k with
  | Some (Pointer l) => i_heap s !! l
  | _ => None
  end.

Definition delta_key (o : T) : string := meta_key (m_Namespace (obj_meta o)) (m_Name (obj_meta o)).

(** A delta as it comes: an object at a pointer of its own, or a tombstone. *)
Inductive rdelta :=
  | RObj (ty : delta_type) (l : loc) (o : T)
  | RTomb (key : string) (known : option loc).

Definition raw (d : rdelta) : delta_type * delta_object :=
  match d with
  | RObj ty l _ => (ty, Pointer l)
  | RTomb key known => (Deleted, DeletedFinalStateUnknown key known)
  end.

Definition rkey (d : rdelta) : string :=
  match d with RObj _ _ o => delta_key o | RTomb key _ => key end.

(** What a delta should leave under its key. *)
Definition rvalue (d : rdelta) : option T :=
  match d with
  | RObj Deleted _ _ | RTomb _ _ => None
  | RObj _ _ o => Some (obj_copy o)
  end.

Definition apply_delta (f : string -> option T) (d : rdelta) : string -> option T :=
  fun k => if decide (rkey d = k) then rvalue d else f k.

(** The pointers of a delta, and the one whose object it needs. *)
Definition pointers (d : rdelta) : list loc :=
  match d with RObj _ l _ => [l] | RTomb _ (Some l) => [l] | RTomb _ None => [] end.
Definition needs (d : rdelta) : list loc :=
  match d with RObj _ l _ => [l] | RTomb _ _ => [] end.

(** Nothing in the store points to the object of a delta still to come; the
    object of a tombstone was stored under its key, if at all. *)
Definition ok_delta s (d : rdelta) : Prop :=
  match d with
  | RObj _ l o => i_heap s !! l = Some o /\ forall k, i_get (indexer s) k <> Some (Pointer l)
  | RTomb key (Some l) => is_Some (i_heap s !! l) /\
      forall k, i_get (indexer s) k = Some (Pointer l) -> k = key
  | RTomb _ None => True
  end.

(** A list of deltas: each object at a pointer of its own. *)
Record deltas_ok s (ds : list rdelta) : Prop := {
  deltas_each : Forall (ok_delta s) ds;
  deltas_distinct : NoDup (concat (map needs ds));
  deltas_known d d' l : d ∈ ds -> d' ∈ ds -> needs d = [] -> l ∈ pointers d -> l ∉ needs d'
}.

(** The store holds pointers to objects. *)
Definition store_ok s : Prop :=
  forall k o, i_get (indexer s) k = Some o -> exists l, o = Pointer l /\ is_Some (i_heap s !! l).

(** No two keys of the store share a pointer. *)
Definition store_distinct s : Prop := forall k k' l,
  i_get (indexer s) k = Some (Pointer l) -> i_get (indexer s) k' = Some (Pointer l) -> k = k'.

(** The object an event hands to [Enqueue]. *)
Definition event_object (e : event) : delta_object :=
  match e with OnAdd obj | OnUpdate _ obj | OnDelete obj => obj end.

(** The event tells of the copy of the object, or is a tombstone. *)
Definition event_ok s (d : rdelta) (e : event) : Prop :=
  match d with
  | RObj _ _ o => exists p, event_object e = Pointer p /\ i_heap s !! p = Some (obj_copy o)
  | RTomb key _ => exists q, event_object e = DeletedFinalStateUnknown key q
  end.

Lemma delta_key_copy o : delta_key (obj_copy o) = delta_key o.
Proof. unfold delta_key. by rewrite copy_keeps_key. Qed.

Lemma fresh_heap (h : gmap loc T) : h !! fresh (dom h) = None.
Proof. apply not_elem_of_dom. apply is_fresh. Qed.

(** The heap after the conversion of the object at [l], copied to [p]. *)
Definition converted (h : gmap loc T) (l p : loc) (o : T) : gmap loc T :=
  <[l := obj_zero]> (<[p := obj_copy o]> h).

Lemma copy_and_clear_run s l o :
  i_heap s !! l = Some o ->
  let p := fresh (dom (i_heap s)) in
  copy_and_clear l s = (Returns p, upd s (converted (i_heap s) l p o) (indexer s) (events s))
  /\ p <> l.
Proof.
  intros Hl p. split.
  - unfold copy_and_clear, bind, read. by rewrite Hl.
  - intros E. pose proof (fresh_heap (i_heap s)) as Hf. fold p in Hf. rewrite E in Hf. by rewrite Hl in Hf.
Qed.

Lemma converted_spec h l o : h !! l = Some o ->
  let p := fresh (dom h) in
  converted h l p o !! p = Some (obj_copy o) /\
  (forall l', l' <> l -> is_Some (h !! l') -> converted h l p o !! l' = h !! l') /\
  (forall l', is_Some (h !! l') -> is_Some (converted h l p o !! l')).
Proof.
  intros Hl p. pose proof (fresh_heap h) as Hf. fold p in Hf.
  assert (p <> l) by (intros ->; by rewrite Hl in Hf). unfold converted. split_and!.
  - by rewrite lookup_insert_ne, lookup_insert_eq by done.
  - intros l' Hne [x Hx]. rewrite lookup_insert_ne by done. apply lookup_insert_ne.
    intros <-. by rewrite Hf in Hx.
  - intros l' Hx. rewrite lookup_insert. case_decide; [done|]. rewrite lookup_insert. by case_decide.
Qed.

(** What a delta leaves alone: the objects it does not point to, and the
    conditions on the other deltas. *)
Record delta_frame s s' (d : rdelta) : Prop := {
  frame_state : exists h i e n, s' = upd s h i (events s ++ [(n, e)]) /\
    eventhandler s = Some n /\ event_ok s' d e;
  frame_heap l : l ∉ pointers d -> is_Some (i_heap s !! l) -> i_heap s' !! l = i_heap s !! l;
  frame_zero l o : i_heap s !! l = Some o -> i_heap s' !! l = Some o \/ i_heap s' !! l = Some obj_zero;
  frame_other k : rkey d <> k -> i_get (indexer s') k = i_get (indexer s) k;
  frame_index k l : i_get (indexer s') k = Some (Pointer l) ->
    i_get (indexer s) k = Some (Pointer l) \/ k = rkey d /\ i_heap s !! l = None
}.

Lemma frame_dom s s' d l : delta_frame s s' d -> is_Some (i_heap s !! l) -> is_Some (i_heap s' !! l).
Proof. intros [_ _ Hz _ _] [o Ho]. destruct (Hz l o Ho) as [->| ->]; by eexists. Qed.

Lemma frame_ok_delta s s' d d' :
  delta_frame s s' d -> (forall l, l ∈ needs d' -> l ∉ pointers d) -> ok_delta s d' -> ok_delta s' d'.
Proof.
  intros Hfr Hdis. pose proof (fun l => frame_dom s s' d l Hfr) as Hd. destruct Hfr as [_ Hh _ _ Hi].
  destruct d' as [ty l o|key [l|]]; cbn; [| |done].
  - intros [Hl Hal]. split.
    + rewrite Hh; [done|apply Hdis; by left|by eexists].
    + intros k [E|[_ E]]%Hi; [by eapply Hal|congruence].
  - intros [Hl Hal]. split; [by apply Hd|].
    intros k [E|[_ E]]%Hi; [by apply Hal|]. destruct Hl; congruence.
Qed.

(** A tombstone without an object. *)
Lemma process_tombstone_none s key n :
  eventhandler s = Some n ->
  process_delta (raw (RTomb key None)) s =
    (Returns None, upd s (i_heap s) (i_del key (indexer s))
       (events s ++ [(n, OnDelete (DeletedFinalStateUnknown key None))])).
Proof. intros Hn. unfold process_delta, bind, notify. cbn. by rewrite Hn. Qed.

(** A delta with an object: the heap, the store and the event. *)
Lemma process_delta_eq s (d : rdelta) l o n :
  eventhandler s = Some n -> pointers d = [l] -> i_heap s !! l = Some o ->
  match d with RObj _ _ o' => o' = o | _ => True end ->
  let p := fresh (dom (i_heap s)) in
  exists e, event_ok (upd s (converted (i_heap s) l p o) (indexer s) []) d e /\
  process_delta (raw d) s =
    (Returns None, upd s (converted (i_heap s) l p o)
       (match rvalue d with
        | Some _ => i_put (rkey d) (Pointer p) (indexer s)
        | None => i_del (rkey d) (indexer s)
        end) (events s ++ [(n, e)])).
Proof.
  intros Hn Hp Hl Ho p. destruct (copy_and_clear_run s l o Hl) as [Ec _]. fold p in Ec.
  pose proof (proj1 (converted_spec _ l o Hl)) as Hcp. cbn zeta in Hcp. fold p in Hcp.
  unfold process_delta, bind. destruct d as [ty l0 o'|key [l0|]]; [| |done]; injection Hp as ->.
  - subst o'. cbn [raw fst snd convertToCustom]. unfold bind. rewrite Ec. cbn [ret].
    unfold store_key, bind, read. cbn [i_heap upd]. rewrite Hcp. cbn [ret].
    fold (delta_key (obj_copy o)). rewrite delta_key_copy.
    unfold get, set_indexer, modify, notify, ret.
    destruct ty; cbn; try destruct (i_get (indexer s) (delta_key o)); cbn; rewrite Hn;
      eexists; (split; [|reflexivity]); exists p; by split.
  - cbn [raw fst snd convertToCustom]. unfold bind. rewrite Ec. cbn.
    unfold notify. cbn. rewrite Hn. eexists. (split; [|reflexivity]). by exists (Some p).
Qed.

(** One delta: what is stored, and the frame. *)
Lemma process_delta_run s (d : rdelta) n :
  eventhandler s = Some n -> ok_delta s d -> store_ok s ->
  exists s', process_delta (raw d) s = (Returns None, s') /\
    (forall k, stored s' k = apply_delta (stored s) d k) /\
    store_ok s' /\ delta_frame s s' d.
Proof.
  intros Hn Hd Hok.
  destruct (decide (pointers d = [])) as [Hnil|Hsome].
  { destruct d as [|key [|]]; [done..|]. eexists. split; [by apply process_tombstone_none|].
    unfold stored, apply_delta, store_ok. cbn [indexer i_heap upd rkey rvalue].
    assert (forall k, i_get (i_del key (indexer s)) k = if decide (key = k) then None
      else i_get (indexer s) k) as Hi by (intros; apply get_del).
    split_and!; [intros k; rewrite Hi; by case_decide|intros k o; rewrite Hi; case_decide; [done|apply Hok]|].
    constructor; cbn [i_heap upd indexer]; [by do 4 eexists; split_and!; [done..|eexists]|done|by left|..].
    - intros k Hk. by rewrite Hi, decide_False.
    - intros k l. rewrite Hi. case_decide; [done|]. by left. }
  assert (exists l o, pointers d = [l] /\ i_heap s !! l = Some o /\
    match d with RObj _ _ o' => o' = o | _ => True end /\
    (forall k, i_get (indexer s) k = Some (Pointer l) -> k = rkey d)) as (l & o & Hp & Hl & Ho & Hal).
  { destruct d as [ty l o|key [l|]]; [| |done].
    - destruct Hd. exists l, o. split_and!; try done. intros k E. by destruct (H0 k).
    - destruct Hd as [[o Hl] Hal]. by exists l, o. }
  destruct (process_delta_eq s d l o n Hn Hp Hl Ho) as (e & He & E). set (p := fresh _) in *.
  destruct (converted_spec _ l o Hl) as (Hcp & Hch & Hcd). fold p in Hcp, Hch, Hcd.
  pose proof (fresh_heap (i_heap s)) as Hf. fold p in Hf.
  set (i' := match rvalue d with Some _ => _ | None => _ end) in *.
  assert (forall k, i_get i' k = if decide (rkey d = k)
    then (match rvalue d with Some _ => Some (Pointer p) | None => None end)
    else i_get (indexer s) k) as Hi.
  { intros k. unfold i'. destruct (rvalue d); [apply get_put|apply get_del]. }
  eexists. split; [exact E|]. unfold stored, apply_delta, store_ok. cbn [indexer i_heap upd].
  split_and!.
  - intros k. rewrite Hi. case_decide as Hk.
    + destruct (rvalue d) eqn:Ev; [|done]. rewrite Hcp, <- Ev.
      destruct d as [[]|]; try done; cbn; by subst.
    + destruct (i_get (indexer s) k) as [o'|] eqn:Ek; [|done].
      destruct (Hok _ _ Ek) as (l' & -> & Hl'). apply Hch; [|done].
      intros ->. apply Hk. symmetry. by apply Hal.
  - intros k o' Ek. rewrite Hi in Ek. case_decide.
    + destruct (rvalue d); [|done]. injection Ek as <-. exists p. split; [done|by eexists].
    + destruct (Hok _ _ Ek) as (l' & -> & Hl'). eauto.
  - constructor; cbn [i_heap upd indexer]; rewrite ?Hp.
    + by do 4 eexists; split_and!.
    + intros l' Hne Hx. apply Hch; [|done]. intros ->. apply Hne. by left.
    + intros l' o' Hl'. destruct (decide (l' = l)) as [->|Hne].
      * right. unfold converted. apply lookup_insert_eq.
      * left. by rewrite Hch.
    + intros k Hk. by rewrite Hi, decide_False.
    + intros k l'. rewrite Hi. case_decide; [|by left].
      destruct (rvalue d); [|done]. intros [= <-]. by right.
Qed.

Lemma frame_distinct s s' d :
  store_ok s -> delta_frame s s' d -> store_distinct s -> store_distinct s'.
Proof.
  intros Hok [_ _ _ _ Hi] Hd k k' l Hk Hk'.
  assert (forall k, i_get (indexer s) k = Some (Pointer l) -> is_Some (i_heap s !! l)) as Hs.
  { intros k0 E. by destruct (Hok _ _ E) as (? & [= <-] & ?). }
  destruct (Hi _ _ Hk) as [E|[-> E]], (Hi _ _ Hk') as [E'|[-> E']]; try done.
  - by eapply Hd.
  - destruct (Hs _ E). congruence.
  - destruct (Hs _ E'). congruence.
Qed.

Lemma apply_delta_ext d f g k : f k = g k -> apply_delta f d k = apply_delta g d k.
Proof. unfold apply_delta. by intros ->. Qed.

Lemma fold_apply_ext ds f g : (forall k, f k = g k) ->
  forall k, fold_left apply_delta ds f k = fold_left apply_delta ds g k.
Proof.
  revert f g. induction ds as [|d ds IH]; intros f g Hfg; cbn; [done|].
  apply IH. intros k. by apply apply_delta_ext.
Qed.

Lemma deltas_ok_step s s' d ds :
  deltas_ok s (d :: ds) -> delta_frame s s' d -> deltas_ok s' ds.
Proof.
  intros [Hds Hnd Hk] Hfr. apply Forall_cons in Hds as [_ Hds].
  cbn [map concat] in Hnd. apply NoDup_app in Hnd as (_ & Hdis & Hnd).
  constructor; [|done|intros d1 d2 l H1 H2; apply Hk; by right].
  apply Forall_forall. intros d' Hd'. rewrite Forall_forall in Hds.
  eapply frame_ok_delta; [exact Hfr| |by apply Hds]. intros l Hl Hlp.
  destruct (needs d) as [|l0 rest] eqn:En.
  - by eapply (Hk d d' l); [by left|by right|done|done|].
  - destruct d as [ty l1 o|]; [|done]. cbn in En, Hlp. injection En as -> <-.
    apply list_elem_of_singleton in Hlp as ->. apply (Hdis l0); [by left|].
    apply list_elem_of_In, in_concat. exists (needs d'). split; apply list_elem_of_In; [|done].
    apply list_elem_of_fmap. by exists d'.
Qed.

Lemma frame_handler s s' d : delta_frame s s' d -> eventhandler s' = eventhandler s.
Proof. by intros [(h & i & e & n & -> & _) _ _ _ _]. Qed.

Lemma Process_run ds s n :
  eventhandler s = Some n -> deltas_ok s ds -> store_ok s ->
  exists s', Process (map raw ds) s = (Returns None, s') /\
    (forall k, stored s' k = fold_left apply_delta ds (stored s) k) /\
    exists es, events s' = events s ++ map (pair n) es /\ length es = length ds.
Proof.
  revert s. induction ds as [|d ds IH]; intros s Hn Hds Hok.
  { exists s. split_and!; [done|done|]. exists []. by rewrite app_nil_r. }
  pose proof (deltas_each _ _ Hds) as [Hd _]%Forall_cons.
  destruct (process_delta_run s d n Hn Hd Hok) as (s1 & E & Hst & Hok1 & Hfr).
  pose proof Hfr as [(h & i & e & n' & Es1 & Hn' & _) _ _ _ _].
  assert (n' = n) as -> by congruence.
  destruct (IH s1) as (s' & E' & Hst' & es & Hev' & Hes);
    [by rewrite (frame_handler _ _ _ Hfr)|by eapply deltas_ok_step|done|].
  exists s'. split_and!.
  - cbn [map Process]. unfold bind. by rewrite E, E'.
  - intros k. rewrite Hst'. cbn [fold_left]. by apply fold_apply_ext.
  - exists (e :: es). rewrite Hev', Es1. cbn. rewrite <- app_assoc. cbn. by rewrite Hes.
Qed.

(** Registering a handler again: the first one is not called any more. *)
Lemma AddEventHandler_replaces s a b :
  (AddEventHandler a ;;; AddEventHandler b) s = AddEventHandler b s.
Proof. done. Qed.

(** Before a handler is registered, an object of the watch panics. *)
Lemma process_delta_no_handler s ty l (o : T) :
  eventhandler s = None -> i_heap s !! l = Some o ->
  (process_delta (raw (RObj ty l o)) s).1 = Panics NilDereference.
Proof.
  intros Hn Hl. destruct (copy_and_clear_run s l o Hl) as [Ec _]. set (p := fresh _) in *.
  pose proof (proj1 (converted_spec _ l o Hl)) as Hcp. cbn zeta in Hcp. fold p in Hcp.
  unfold process_delta, bind. cbn [raw fst snd convertToCustom]. unfold bind. rewrite Ec.
  cbn [ret]. unfold store_key, bind, read. cbn [i_heap upd]. rewrite Hcp. cbn [ret].
  unfold get, set_indexer, modify, notify, ret.
  destruct ty; cbn; try destruct (i_get (indexer s) _); cbn; by rewrite Hn.
Qed.
End spec.
Arguments rdelta T : clear implicits.
Arguments RTomb {T} _ _.

(** ** What client-go's cache promises *)

Section cache.
Context {T : Type} `{!Object T}.

Definition wkey (d : wdelta T) : string :=
  match d with WObject _ o => delta_key o | WTombstone k _ => k end.

(** The objects of an event. *)
Definition event_objects (e : server_event T) : list T :=
  match e with Listed os => os | Watched _ o => [o] end.

(** Deltas are handed out one object at a time; a tombstone's pointer is the
    one the store had; the objects are those of the events; the cache is synced
    when every object of the first list has been handed out. *)
Class CacheSpec (C : Type) `{!CacheOps T C} : Prop := {
  new_first cfg : c_first_left (c_New cfg) = None;
  new_tombstones cfg : c_tombstones (c_New cfg) = [];
  new_objects cfg : c_objects (c_New cfg) = [];
  receive_first known keys os c : c_first_left c = None ->
    c_first_left (c_receive known keys (Listed os) c) = Some (map delta_key os);
  receive_watched known keys ty o c :
    c_first_left (c_receive known keys (Watched ty o) c) = c_first_left c;
  receive_again known keys e c l : c_first_left c = Some l ->
    c_first_left (c_receive known keys e c) = Some l;
  receive_tombstones known keys e c k l : (k, l) ∈ c_tombstones (c_receive known keys e c) ->
    (k, l) ∈ c_tombstones c \/ known k = Some l;
  receive_objects known keys e c o : o ∈ c_objects (c_receive known keys e c) ->
    o ∈ c_objects c \/ o ∈ event_objects e;
  pop_key c ds c' : c_pop c = Some (ds, c') ->
    exists key, ds <> [] /\ Forall (fun d => wkey d = key) ds /\
      c_first_left c' = filter (fun k => k <> key) <$> c_first_left c;
  pop_tombstones c ds c' k l : c_pop c = Some (ds, c') ->
    WTombstone k (Some l) ∈ ds \/ (k, l) ∈ c_tombstones c' -> (k, l) ∈ c_tombstones c;
  pop_objects c ds c' o : c_pop c = Some (ds, c') ->
    (exists ty, WObject ty o ∈ ds) \/ o ∈ c_objects c' -> o ∈ c_objects c;
  synced_first c : c_HasSynced c = true -> c_first_left c = Some []
}.

(** An instance: a queue of the deltas of each object. *)
Record fifo := mkFifo {
  f_queue : list (string * list (wdelta T));
  f_first : option (list string);
  f_version : string
}.

Fixpoint enqueue_delta (d : wdelta T) (q : list (string * list (wdelta T))) :=
  match q with
  | [] => [(wkey d, [d])]
  | (k, ds) :: q' => if decide (k = wkey d) then (k, ds ++ [d]) :: q' else (k, ds) :: enqueue_delta d q'
  end.

Definition tombstones_of (keys listed : list string) (known : string -> option loc) : list (wdelta T) :=
  map (fun k => WTombstone k (known k)) (filter (fun k => k ∉ listed) keys).

Definition deltas_of (known : string -> option loc) (keys : list string) (e : server_event T)
    : list (wdelta T) :=
  match e with
  | Listed os => map (WObject Replaced) os ++ tombstones_of keys (map delta_key os) known
  | Watched ty o => [WObject ty o]
  end.

(** All deltas of the queue, and what they hold. *)
Definition queued (q : list (string * list (wdelta T))) : list (wdelta T) := concat (map snd q).

Definition tombstone_of (d : wdelta T) : option (string * loc) :=
  match d with WTombstone k (Some l) => Some (k, l) | _ => None end.
Definition object_in (d : wdelta T) : option T :=
  match d with WObject _ o => Some o | _ => None end.

#[export] Instance fifo_ops : CacheOps T fifo := {
  c_New cfg := mkFifo [] None "";
  c_receive known keys e c :=
    mkFifo (foldl (fun q d => enqueue_delta d q) (f_queue c) (deltas_of known keys e))
      (match f_first c, e with
       | None, Listed os => Some (map delta_key os)
       | first, _ => first
       end)
      (match e with
       | Listed _ => f_version c
       | Watched _ o => m_ResourceVersion (obj_meta o)
       end);
  c_pop c :=
    match f_queue c with
    | [] => None
    | (k, ds) :: q =>
        if decide (Forall (fun d => wkey d = k) ds /\ ds <> []) then
          Some (ds, mkFifo q (filter (fun k' => k' <> k) <$> f_first c) (f_version c))
        else None
    end;
  c_HasSynced c := bool_decide (f_first c = Some []);
  c_LastSyncResourceVersion := f_version;
  c_first_left := f_first;
  c_tombstones c := omap tombstone_of (queued (f_queue c));
  c_objects c := omap object_in (queued (f_queue c))
}.

Lemma tombstone_of_Some d k l : tombstone_of d = Some (k, l) <-> d = WTombstone k (Some l).
Proof. destruct d as [|k' [l'|]]; cbn; split; congruence. Qed.

Lemma object_in_Some d o : object_in d = Some o <-> exists ty, d = WObject ty o.
Proof.
  destruct d as [ty o'|k p]; cbn; split.
  - intros [= ->]. by exists ty.
  - by intros [ty' [= _ ->]].
  - done.
  - by intros [ty' [=]].
Qed.

Lemma queued_enqueue x d q : x ∈ queued (enqueue_delta d q) -> x ∈ queued q \/ x = d.
Proof.
  unfold queued. induction q as [|[k ds] q IH]; cbn.
  - rewrite elem_of_cons. intros [->|[]%not_elem_of_nil]. by right.
  - case_decide; cbn; rewrite !elem_of_app.
    + rewrite list_elem_of_singleton. tauto.
    + intros [?|[?|?]%IH]; tauto.
Qed.

Lemma queued_receive x ds q :
  x ∈ queued (foldl (fun q d => enqueue_delta d q) q ds) -> x ∈ queued q \/ x ∈ ds.
Proof.
  revert q. induction ds as [|d ds IH]; intros q; cbn; [by left|].
  intros [[?| ->]%queued_enqueue|H]%IH; [by left|right; by left|right; by right].
Qed.

Lemma deltas_of_tombstone known keys e k l : WTombstone k (Some l) ∈ deltas_of known keys e -> known k = Some l.
Proof.
  destruct e as [os|ty o]; cbn; [|by intros ?%list_elem_of_singleton].
  rewrite elem_of_app. intros [H|H]; apply list_elem_of_fmap in H as (? & [=] & _). congruence.
Qed.

Lemma deltas_of_object known keys e ty o : WObject ty o ∈ deltas_of known keys e -> o ∈ event_objects e.
Proof.
  destruct e as [os|ty' o']; cbn.
  - rewrite elem_of_app. intros [H|H]; apply list_elem_of_fmap in H as (? & [=] & ?). congruence.
  - intros [= _ ->]%list_elem_of_singleton. by left.
Qed.

(** The deltas of a pop, and those left, were in the queue. *)
Lemma queued_pop c ds c' x :
  c_pop c = Some (ds, c') -> x ∈ ds \/ x ∈ queued (f_queue c') -> x ∈ queued (f_queue c).
Proof.
  cbn. destruct (f_queue c) as [|[k ds'] q]; [done|]. case_decide; [|done]. intros [= <- <-].
  unfold queued. cbn. by rewrite elem_of_app.
Qed.

#[export] Instance fifo_spec : CacheSpec fifo.
Proof.
  constructor; try done.
  - intros known keys os c E. cbn in *. by rewrite E.
  - intros known keys ty o c. cbn. by destruct (f_first c).
  - intros known keys e c l E. cbn in *. by rewrite E.
  - intros known keys e c k l (d & Hd & ->%tombstone_of_Some)%list_elem_of_omap.
    apply queued_receive in Hd as [Hd|Hd%deltas_of_tombstone]; [left|by right].
    apply list_elem_of_omap. eexists. split; [exact Hd|done].
  - intros known keys e c o (d & Hd & [ty ->]%object_in_Some)%list_elem_of_omap.
    apply queued_receive in Hd as [Hd|Hd%deltas_of_object]; [left|by right].
    apply list_elem_of_omap. eexists. split; [exact Hd|done].
  - intros c ds c'. cbn. destruct (f_queue c) as [|[k ds1] q]; [done|]. case_decide as H; [|done].
    intros [= <- <-]. exists k. by destruct H.
  - intros c ds c' k l E H. apply list_elem_of_omap. exists (WTombstone k (Some l)). split; [|done].
    apply (queued_pop _ _ _ _ E). destruct H as [H|(d & Hd & ->%tombstone_of_Some)%list_elem_of_omap]; auto.
  - intros c ds c' o E H. apply list_elem_of_omap.
    destruct H as [[ty H]|(d & Hd & [ty ->]%object_in_Some)%list_elem_of_omap];
      (exists (WObject ty o); split; [|done]); apply (queued_pop _ _ _ _ E); auto.
  - intros c. cbn. apply bool_decide_eq_true_1.
Qed.
End cache.
Arguments fifo T : clear implicits.

(** ** Properties *)

(** C31. For the endpoint slices (the lemma above is the same for services):
    processing deltas, each with an object at a pointer of its own that the
    store does not hold, or a tombstone whose object was stored under its key:
    no error, the store holds under every key the copy of the last object with
    that key, or nothing if it was deleted, and the event handler, the last one
    registered, is called once per delta. *)
Theorem Process_updates_store {I C} `{!IndexerOps I} `{!IndexerSpec I} `{!CacheOps v1_EndpointSlice C}
    (s : Informer v1_EndpointSlice I C) (ds : list (rdelta v1_EndpointSlice)) (n : nat) :
  eventhandler s = Some n -> deltas_ok s ds -> store_ok s ->
  exists s', Process (map raw ds) s = (Returns None, s') /\
    (forall k, stored s' k = fold_left apply_delta ds (stored s) k) /\
    exists es, events s' = events s ++ map (pair n) es /\ length es = length ds.
Proof. by apply Process_run. Qed.

Definition ex_meta (name : string) : ObjectMeta :=
  mkMeta name "default" "7" None ∅ [] {[LabelServiceName := "web"%string]} ["uid"%string].
Definition ex_slice_obj : v1_EndpointSlice :=
  mkV1Slice ("EndpointSlice", "v1")%string (ex_meta "web-1") "IPv4" [80] (es_Endpoints ex_es).
Definition ex_request (v : verb) (o : ListOptions) : request := mkRequest v "endpointslices" "" o.

(** A store with the object at 1, and the object at 0 arriving. *)
Definition ex_informer : Informer v1_EndpointSlice (gmap string delta_object) (fifo v1_EndpointSlice) :=
  mkInformer (mkListWatch (ex_request List) (ex_request Watch)) {["default/gone"%string := Pointer 1%nat]}
    None (Some 0%nat) 0 None true false {[0%nat := ex_slice_obj; 1%nat := ex_slice_obj]} [].

(** An object is added, and the one in the store turns out to be gone. *)
Lemma Process_updates_store_witness :
  exists s', Process [(Added, Pointer 0%nat);
      (Deleted, DeletedFinalStateUnknown "default/gone" (Some 1%nat))] ex_informer =
    (Returns None, s') /\ stored s' "default/gone" = None /\
    stored s' "default/web-1" = Some (obj_copy ex_slice_obj) /\ length (events s') = 2%nat.
Proof.
  assert (forall k o, i_get (indexer ex_informer) k = Some o ->
    "default/gone"%string = k /\ Pointer 1%nat = o) as Hi.
  { intros k o H. by apply lookup_singleton_Some. }
  destruct (Process_updates_store ex_informer
    [RObj Added 0%nat ex_slice_obj; RTomb "default/gone" (Some 1%nat)] 0%nat)
    as (s' & E & Hst & es & Hev & Hes).
  - done.
  - constructor.
    + repeat constructor; cbn [ok_delta]; [by intros k [_ [=]]%Hi|by eexists|by intros k [-> _]%Hi].
    + apply NoDup_singleton.
    + intros d d' l [->|[->|[]%not_elem_of_nil]%elem_of_cons]%elem_of_cons; [done|].
      intros [->|[->|[]%not_elem_of_nil]%elem_of_cons]%elem_of_cons _ ->%list_elem_of_singleton;
        [by intros ?%list_elem_of_singleton|by apply not_elem_of_nil].
  - intros k o [<- <-]%Hi. exists 1%nat. split; [done|by eexists].
  - exists s'. split_and!; [exact E|rewrite Hst; by_vm..|]. by rewrite Hev, length_app, length_map, Hes.
Defined.

(** The conversions keep everything the manager reads: a service and a slice
    build the same manager service before and after, and the slice keeps its
    labels and its deletion time. *)
Lemma conversion_keeps_service (svc : v1_Service) (es : v1_EndpointSlice) :
  NewService (k8s_service (obj_copy svc)) (k8s_slice (obj_copy es)) =
    NewService (k8s_service svc) (k8s_slice es) /\
  k8s_slice (obj_copy es) = k8s_slice es /\
  obj_copy (obj_copy svc) = obj_copy svc.
Proof. done. Qed.

End Informer.
