(* ===== verification/InformerRun.v ===== *)
(** * The goroutine of an informer

    [Run] of both informers, as steps: the start, the arrival of what the API
    server sends, the deltas of one object taken from the queue, [Process] one
    delta at a time with the call of the event handler in between, and the end.
    The invariant [good] ties the store to the deltas processed so far;
    [objects_step] says that what an informer holds comes from the API server. *)

From Stdlib Require Import ZArith Lia String.
From stdpp Require Import base gmap list strings.
From S2P Require Import Prelude GoStrings Layout BpfMap GoSet Manager ManagerSpec Controller Informer.
Import GoStrings Layout BpfMap GoSet Manager ManagerSpec Controller Informer.

Local Open Scope Z_scope.
Local Open Scope go_scope.

Module InformerRun.

Section goroutine.
Context {T I C : Type} `{!Object T} `{!IndexerOps I} `{!CacheOps T C}.

(** ** Steps *)

(** Where the goroutine is: not scheduled yet, waiting for deltas, in the loop
    of [Process] with deltas left, in a call of the event handler, returned. *)
Inductive inf_pc :=
  | NotStarted
  | Popping
  | InDeltas (ds : list (rdelta T))
  | InHandler (n : nat) (e : event) (ds : list (rdelta T))
  | Returned.

(** With the history: the keys of the first list, the deltas processed. *)
Record goroutine := mkRun {
  inf : Informer T I C;
  pc : inf_pc;
  first_keys : option (list string);
  handled : list (rdelta T)
}.

Definition go_initial (i : Informer T I C) : goroutine := mkRun i NotStarted None [].

Definition set_pc (p : inf_pc) (g : goroutine) : goroutine :=
  mkRun (inf g) p (first_keys g) (handled g).

(** The goroutine runs [Run] up to [controller.Run]. *)
Definition go_begin (g : goroutine) : option goroutine :=
  match pc g with
  | NotStarted => Some (mkRun (Run_begin (inf g)).2 Popping (first_keys g) (handled g))
  | _ => None
  end.

(** What the API server sends reaches the queue. *)
Definition known_pointer (i : I) (k : string) : option loc :=
  match i_get i k with Some (Pointer l) => Some l | _ => None end.

Definition first_list (f : option (list string)) (e : server_event T) : option (list string) :=
  match f, e with
  | None, Listed os => Some (map delta_key os)
  | _, _ => f
  end.

Definition go_receive (e : server_event T) (g : goroutine) : option goroutine :=
  match pc g, controller (inf g) with
  | NotStarted, _ | Returned, _ | _, None => None
  | _, Some c =>
      let c' := c_receive (known_pointer (indexer (inf g))) (i_keys (indexer (inf g))) e c in
      Some (mkRun (set_controller c' (inf g)) (pc g) (first_list (first_keys g) e) (handled g))
  end.

(** The objects of the deltas are decoded into memory of their own. *)
Definition decode (d : wdelta T) : GoM (Informer T I C) (rdelta T) :=
  match d with
  | WObject ty o => let! l := new o in ret (RObj ty l o)
  | WTombstone key known => ret (RTomb key known)
  end.

Fixpoint decode_all (ds : list (wdelta T)) : GoM (Informer T I C) (list (rdelta T)) :=
  match ds with
  | [] => ret []
  | d :: ds' => let! r := decode d in let! rs := decode_all ds' in ret (r :: rs)
  end.

Definition go_pop (g : goroutine) : option goroutine :=
  match pc g, controller (inf g) with
  | Popping, Some c =>
      match c_pop c with
      | Some (ds, c') =>
          match decode_all ds (set_controller c' (inf g)) with
          | (Returns rs, i) => Some (mkRun i (InDeltas rs) (first_keys g) (handled g))
          | (Panics _, _) => None
          end
      | None => None
      end
  | _, _ => None
  end.

(** One delta of [Process].  An error drops the object, since the configuration
    has [RetryOnError] false; a panic ends the process. *)
Definition go_delta (g : goroutine) : option (panic + goroutine) :=
  match pc g with
  | InDeltas [] => Some (inr (set_pc Popping g))
  | InDeltas (d :: ds) =>
      match process_delta (raw d) (inf g) with
      | (Returns None, i) =>
          let p := match last (events i) with
                   | Some (n, e) => InHandler n e ds
                   | None => InDeltas ds
                   end in
          Some (inr (mkRun i p (first_keys g) (handled g ++ [d])))
      | (Returns (Some err), i) => Some (inr (mkRun i Popping (first_keys g) (handled g)))
      | (Panics p, i) => Some (inl p)
      end
  | _ => None
  end.

(** The handler has returned. *)
Definition go_called (g : goroutine) : option goroutine :=
  match pc g with
  | InHandler n e ds => Some (set_pc (InDeltas ds) g)
  | _ => None
  end.

(** [controller.Run] returns when the channel is closed and the queue empty. *)
Definition go_end (stop : bool) (g : goroutine) : option goroutine :=
  match pc g, controller (inf g) with
  | Popping, Some c =>
      match stop, c_pop c with
      | true, None => Some (mkRun (Run_end (inf g)).2 Returned (first_keys g) (handled g))
      | _, _ => None
      end
  | _, _ => None
  end.

(** [HasSynced] as another goroutine sees it: [Pop] calls [Process] with the
    queue's lock held, so the answer waits until [Process] is done. *)
Definition synced (g : goroutine) : bool :=
  match pc g with
  | InDeltas _ | InHandler _ _ _ => false
  | _ => HasSynced (inf g)
  end.

(** A step of the goroutine, or of the API server. *)
Inductive inf_act :=
  | Begin
  | Receive (e : server_event T)
  | Pop
  | Delta
  | Call
  | End.

Definition inf_step (stop : bool) (a : inf_act) (g : goroutine) : option (panic + goroutine) :=
  match a with
  | Begin => inr <$> go_begin g
  | Receive e => inr <$> go_receive e g
  | Pop => inr <$> go_pop g
  | Delta => go_delta g
  | Call => inr <$> go_called g
  | End => inr <$> go_end stop g
  end.

End goroutine.
Arguments inf_act T : clear implicits.
Arguments goroutine T I C : clear implicits.
Arguments inf_pc T : clear implicits.

(** ** The invariant *)

Section good.
Context {T I C : Type} `{!Object T} `{!ObjectSpec T} `{!IndexerOps I} `{!IndexerSpec I}.
Context `{!CacheOps T C} `{!CacheSpec C}.
Implicit Type g : goroutine T I C.

Definition left_deltas g : list (rdelta T) :=
  match pc g with InDeltas ds | InHandler _ _ ds => ds | _ => [] end.

(** A pointer that is in the store under one key at most. *)
Definition known_ok (i : Informer T I C) (k : string) (l : loc) : Prop :=
  is_Some (i_heap i !! l) /\ forall k', i_get (indexer i) k' = Some (Pointer l) -> k' = k.

Record good (h : nat) g : Prop := {
  good_fresh : pc g = NotStarted -> handled g = [] /\ first_keys g = None;
  good_handler : eventhandler (inf g) = Some h;
  good_store : store_ok (inf g);
  good_distinct : store_distinct (inf g);
  good_stored k : stored (inf g) k = fold_left apply_delta (handled g) (fun _ => None) k;
  good_deltas : deltas_ok (inf g) (left_deltas g);
  good_known c k l : controller (inf g) = Some c -> (k, l) ∈ c_tombstones c -> known_ok (inf g) k l;
  good_first : match first_keys g with
    | None => forall c, controller (inf g) = Some c -> c_first_left c = None
    | Some ks => exists c l, controller (inf g) = Some c /\ c_first_left c = Some l /\
        forall k, k ∈ ks -> k ∈ l \/ k ∈ map rkey (left_deltas g) \/ k ∈ map rkey (handled g)
    end;
  good_event : match pc g with
    | InHandler n e _ => n = h /\ exists d hs, handled g = hs ++ [d] /\ event_ok (inf g) d e
    | _ => True
    end
}.

Lemma deltas_ok_nil (i : Informer T I C) : deltas_ok i [].
Proof. constructor; [done|constructor|]. intros ? ? ? []%not_elem_of_nil. Qed.

(** A key some delta of which was processed has an object or lost it. *)
Lemma fold_stored (ds : list (rdelta T)) d f : d ∈ ds ->
  is_Some (fold_left apply_delta ds f (rkey d)) \/
  exists d', d' ∈ ds /\ rkey d' = rkey d /\ rvalue d' = None.
Proof.
  revert f d. induction ds as [|d1 ds IH] using rev_ind; intros f d; [by intros []%not_elem_of_nil|].
  intros Hin. rewrite fold_left_app. cbn [fold_left]. unfold apply_delta at 1.
  case_decide as Hk.
  - destruct (rvalue d1) eqn:Ev; [by left; eexists|]. right. exists d1. split_and!; try done.
    apply elem_of_app. right. by left.
  - apply elem_of_app in Hin as [Hin| ->%list_elem_of_singleton]; [|done].
    destruct (IH f d Hin) as [?|(d' & ? & ? & ?)]; [by left|]. right. exists d'.
    split_and!; try done. apply elem_of_app. by left.
Qed.

Lemma good_begin h g g' : good h g -> go_begin g = Some g' -> good h g'.
Proof.
  intros [H0 Hh Hs Hd Hst Hds Hk Hf He]. unfold go_begin.
  destruct (pc g) eqn:Epc; try done. destruct (H0 eq_refl) as [Hhd Hfk].
  intros [= <-]. constructor; cbn; try done.
  - apply deltas_ok_nil.
  - intros c k l [= <-]. rewrite new_tombstones. by intros []%not_elem_of_nil.
  - rewrite Hfk. intros c [= <-]. apply new_first.
Qed.

Lemma good_receive h e g g' : good h g -> go_receive e g = Some g' -> good h g'.
Proof.
  intros [H0 Hh Hs Hd Hst Hds Hk Hf He] E.
  assert (exists c, pc g <> NotStarted /\ controller (inf g) = Some c /\ g' = mkRun (set_controller
    (c_receive (known_pointer (indexer (inf g))) (i_keys (indexer (inf g))) e c) (inf g))
    (pc g) (first_list (first_keys g) e) (handled g)) as (c & Epc & Ec & ->).
  { unfold go_receive in E. destruct (pc g), (controller (inf g)) as [c|]; try done;
      injection E as <-; by exists c. }
  constructor; try done; cbn [inf set_controller controller first_keys handled].
  - by destruct Hds.
  - intros c' k l [= <-] [Hc|Hkn]%receive_tombstones; [by eapply Hk|].
    unfold known_pointer in Hkn. destruct (i_get (indexer (inf g)) k) as [[l'| |]|] eqn:Ek; try done.
    injection Hkn as ->. destruct (Hs _ _ Ek) as (? & [= <-] & ?).
    split; [done|]. intros k' Ek'. by eapply Hd.
  - destruct (first_keys g) as [ks|] eqn:Efk.
    + cbn. destruct Hf as (c' & l & Ec' & El & Hks). assert (c' = c) as -> by congruence.
      eexists _, l. split_and!; [done| |exact Hks]. by apply receive_again.
    + specialize (Hf c Ec). destruct e as [os|ty o]; cbn.
      * eexists _, _. split_and!; [done|by apply receive_first|]. intros k ?. by left.
      * intros c' [= <-]. by rewrite receive_watched.
Qed.

(** Decoding allocates. *)
Lemma decode_all_run ws (i : Informer T I C) :
  exists rs hp, decode_all ws i = (Returns rs, upd i hp (indexer i) (events i)) /\
    (forall l, is_Some (i_heap i !! l) -> hp !! l = i_heap i !! l) /\
    map rkey rs = map wkey ws /\
    (forall ty l o, RObj ty l o ∈ rs -> hp !! l = Some o /\ i_heap i !! l = None) /\
    NoDup (concat (map needs rs)) /\
    (forall k p, RTomb k p ∈ rs -> WTombstone k p ∈ ws).
Proof.
  revert i. induction ws as [|w ws IH]; intros i.
  { exists [], (i_heap i). split_and!; try done; [by destruct i|by intros ? ? ? []%not_elem_of_nil|
      constructor|by intros ? ? []%not_elem_of_nil]. }
  cbn [decode_all map]. unfold bind. destruct w as [ty o|k p]; cbn [decode].
  - unfold bind, new. set (l := fresh (dom (i_heap i))). cbn [ret].
    pose proof (fresh_heap (i_heap i)) as Hf. fold l in Hf.
    destruct (IH (upd i (<[l:=o]> (i_heap i)) (indexer i) (events i)))
      as (rs & hp & -> & Hfr & Hkeys & Hobj & Hnd & Htomb).
    cbn [i_heap upd] in *.
    assert (hp !! l = Some o) as Hl.
    { rewrite Hfr; rewrite lookup_insert_eq; [done|by eexists]. }
    assert (forall l', is_Some (i_heap i !! l') -> l' <> l) as Hne.
    { intros l' [x Hx] ->. by rewrite Hf in Hx. }
    exists (RObj ty l o :: rs), hp. split_and!.
    + by destruct i.
    + intros l' Hl'. rewrite Hfr; rewrite lookup_insert_ne by (by apply not_eq_sym, Hne); done.
    + cbn. by rewrite Hkeys.
    + intros ty' l' o' [[= -> -> ->]|Hin]%elem_of_cons; [done|].
      destruct (Hobj _ _ _ Hin) as [? Hn]. split; [done|].
      rewrite lookup_insert in Hn. by case_decide.
    + cbn. constructor; [|done]. intros Hin. apply list_elem_of_In, in_concat in Hin as (ns & Hns & Hin).
      apply in_map_iff in Hns as (d & <- & Hd). destruct d as [ty' l' o'|? ?]; [|by destruct Hin].
      destruct Hin as [->|[]]. apply list_elem_of_In in Hd. destruct (Hobj _ _ _ Hd) as [_ Hn].
      by rewrite lookup_insert_eq in Hn.
    + intros k p [[=]|Hin]%elem_of_cons. right. by apply Htomb.
  - cbn [ret]. unfold ret at 1. destruct (IH i) as (rs & hp & -> & Hfr & Hkeys & Hobj & Hnd & Htomb).
    exists (RTomb k p :: rs), hp. split_and!; try done.
    + cbn. by rewrite Hkeys.
    + intros ty' l' o' [[=]|Hin]%elem_of_cons. by eapply Hobj.
    + intros k' p' [[= -> ->]|Hin]%elem_of_cons; [by left|right; by apply Htomb].
Qed.

Lemma stored_heap (i : Informer T I C) hp es k : store_ok i ->
  (forall l, is_Some (i_heap i !! l) -> hp !! l = i_heap i !! l) ->
  stored (upd i hp (indexer i) es) k = stored i k.
Proof.
  intros Hs Hfr. unfold stored. cbn. destruct (i_get (indexer i) k) as [o|] eqn:Ek; [|done].
  destruct (Hs _ _ Ek) as (l & -> & Hl). by apply Hfr.
Qed.

Lemma good_pop h g g' : good h g -> go_pop g = Some g' -> good h g'.
Proof.
  intros [H0 Hh Hs Hd Hst Hds Hk Hf He]. unfold go_pop.
  destruct (pc g) eqn:Epc; try done. destruct (controller (inf g)) as [c|] eqn:Ec; [|done].
  destruct (c_pop c) as [[ws c']|] eqn:Ep; [|done].
  destruct (decode_all_run ws (set_controller c' (inf g)))
    as (rs & hp & -> & Hfr & Hkeys & Hobj & Hnd & Htomb).
  intros [= <-]. cbn [i_heap set_controller] in *.
  assert (forall k l, WTombstone k (Some l) ∈ ws \/ (k, l) ∈ c_tombstones c' ->
    known_ok (inf g) k l) as Hkn.
  { intros k l Hw. apply (Hk c k l eq_refl). by eapply pop_tombstones. }
  assert (forall l, is_Some (i_heap (inf g) !! l) -> is_Some (hp !! l)) as Hdom.
  { intros l Hl. by rewrite Hfr. }
  constructor; cbn [inf eventhandler upd set_controller indexer i_heap pc handled first_keys controller left_deltas].
  - done.
  - done.
  - intros k o Ek. destruct (Hs k o Ek) as (l & -> & Hl). eauto.
  - exact Hd.
  - intros k. rewrite <- Hst. by apply (stored_heap (inf g) hp (events (inf g))).
  - constructor; [|exact Hnd|].
    + apply Forall_forall. intros [ty l o|k [l|]] Hin; cbn; [| |done].
      * destruct (Hobj _ _ _ Hin) as [Hl Hn]. split; [done|]. intros k Ek.
        destruct (Hs _ _ Ek) as (? & [= <-] & Hl'). rewrite Hn in Hl'. by destruct Hl'.
      * destruct (Hkn k l) as [Hl Hal]; [left; by apply Htomb|]. split; [by apply Hdom|done].
    + intros d d' l Hin Hin' Hnil Hl Hneed. destruct d as [|k [l0|]]; [done| |by apply not_elem_of_nil in Hl].
      apply list_elem_of_singleton in Hl as ->.
      destruct (Hkn k l0) as [[x Hx] _]; [left; by apply Htomb|].
      destruct d' as [ty l' o|]; [|by apply not_elem_of_nil in Hneed].
      apply list_elem_of_singleton in Hneed as <-. destruct (Hobj _ _ _ Hin') as [_ Hn]. congruence.
  - intros c0 k l [= <-] Hc. destruct (Hkn k l) as [Hl Hal]; [by right|]. split; [by apply Hdom|done].
  - destruct (first_keys g) as [ks|].
    + destruct Hf as (c0 & l & [= <-] & El & Hks). destruct (pop_key _ _ _ Ep) as (key & Hne & Hw & El').
      rewrite El in El'. cbn in El'. eexists _, _. split_and!; [done|exact El'|].
      intros k Hin. destruct (Hks k Hin) as [Hl|[Hl|Hl]]; [|unfold left_deltas in Hl; rewrite Epc in Hl;
        by apply not_elem_of_nil in Hl|by right; right].
      destruct (decide (k = key)) as [->|Hnk]; [|left; by apply list_elem_of_filter].
      right. left. cbn. rewrite Hkeys. destruct ws as [|w ws]; [done|].
      apply Forall_cons in Hw as [<- _]. by left.
    + intros c0 [= <-]. destruct (pop_key _ _ _ Ep) as (key & _ & _ & El').
      by rewrite (Hf c eq_refl) in El'.
  - done.
Qed.

(** Processing a delta never fails. *)
Lemma good_delta h g r : good h g -> go_delta g = Some r ->
  exists g', r = inr g' /\ good h g' /\
    match left_deltas g with
    | [] => handled g' = handled g /\ inf g' = inf g /\ pc g' = Popping
    | d :: ds => handled g' = handled g ++ [d] /\ exists e, pc g' = InHandler h e ds /\ event_ok (inf g') d e
    end.
Proof.
  intros Hg. pose proof Hg as [H0 Hh Hs Hd Hst Hds Hk Hf He]. unfold go_delta.
  destruct (pc g) as [| |[|d ds]|n e ds|] eqn:Epc; try done.
  - intros [= <-]. exists (set_pc Popping g). split; [done|]. split; [|by unfold left_deltas; rewrite Epc].
    constructor; cbn; try done; [apply deltas_ok_nil|].
    unfold left_deltas in Hf. rewrite Epc in Hf. exact Hf.
  - assert (left_deltas g = d :: ds) as Eld by (unfold left_deltas; by rewrite Epc). rewrite Eld in *.
    pose proof (deltas_each _ _ Hds) as [Hdd _]%Forall_cons.
    destruct (process_delta_run (inf g) d h Hh Hdd Hs) as (i' & E & Hst' & Hs' & Hfr). rewrite E.
    pose proof (fun l => frame_dom _ _ _ l Hfr) as Hdom.
    pose proof Hfr as [(hp & ix & e & n' & Ei & Hn' & Hev) _ _ _ Hidx].
    assert (n' = h) as -> by congruence.
    assert (last (events i') = Some (h, e)) as -> by (rewrite Ei; cbn; by rewrite last_snoc).
    intros [= <-]. eexists. split; [done|]. split; [|split; [done|by exists e]].
    constructor; cbn [inf pc handled first_keys left_deltas].
    + done.
    + by rewrite (frame_handler _ _ _ Hfr).
    + done.
    + exact (frame_distinct _ _ _ Hs Hfr Hd).
    + intros k. rewrite Hst', fold_left_app. cbn [fold_left]. by apply apply_delta_ext.
    + by eapply deltas_ok_step.
    + intros c k l Hc Hin. rewrite Ei in Hc. cbn in Hc. destruct (Hk c k l Hc Hin) as [Hl Hal].
      split; [by apply Hdom|]. intros k' [E1|[_ E1]]%Hidx; [by apply Hal|]. destruct Hl. congruence.
    + destruct (first_keys g) as [ks|].
      * destruct Hf as (c & l & Ec & El & Hks). exists c, l. rewrite Ei. split_and!; [done|done|].
        intros k Hin. rewrite map_app, elem_of_app. destruct (Hks k Hin) as [?|[Hl|?]]; [by left| |tauto].
        apply elem_of_cons in Hl as [->|Hl]; [|tauto]. right. right. right. by left.
      * intros c Hc. apply Hf. by rewrite Ei in Hc.
    + split; [done|]. by exists d, (handled g).
Qed.

Lemma good_called h g g' : good h g -> go_called g = Some g' -> good h g'.
Proof.
  intros [H0 Hh Hs Hd Hst Hds Hk Hf He]. unfold go_called.
  destruct (pc g) eqn:Epc; try done. intros [= <-].
  unfold left_deltas in Hds, Hf. rewrite Epc in Hds, Hf. by constructor.
Qed.

Lemma good_end h stop g g' : good h g -> go_end stop g = Some g' -> good h g'.
Proof.
  intros [H0 Hh Hs Hd Hst Hds Hk Hf He]. unfold go_end.
  destruct (pc g) eqn:Epc; try done. destruct (controller (inf g)) as [c|] eqn:Ec; [|done].
  destruct stop; [|done]. destruct (c_pop c); [done|]. intros [= <-].
  unfold left_deltas in Hds, Hf. rewrite Epc in Hds, Hf. constructor; cbn; try done.
  - apply deltas_ok_nil.
  - intros c' k l Hc. apply (Hk c'). congruence.
  - destruct (first_keys g); [by rewrite Ec|]. intros c' Hc. apply Hf. congruence.
Qed.

(** An informer as it is wired. *)
Lemma good_initial h (i : Informer T I C) :
  eventhandler i = Some h -> controller i = None -> (forall k, i_get (indexer i) k = None) ->
  good h (go_initial i).
Proof.
  intros Hh Hc Hi. constructor; cbn; try done.
  - intros k o. by rewrite Hi.
  - intros k k' l. by rewrite Hi.
  - intros k. unfold stored. by rewrite Hi.
  - apply deltas_ok_nil.
  - intros c k l. by rewrite Hc.
  - intros c. by rewrite Hc.
Qed.

(** How the history grows. *)
Definition extends g g' : Prop :=
  pc g' <> NotStarted /\ (exists ds, handled g' = handled g ++ ds) /\
  (forall ks, first_keys g = Some ks -> first_keys g' = Some ks).

Lemma extends_same g g' :
  pc g' <> NotStarted -> handled g' = handled g -> first_keys g' = first_keys g -> extends g g'.
Proof. intros H1 H2 H3. split_and!; [done| |by rewrite H3]. exists []. by rewrite app_nil_r. Qed.

(** A step of an informer never fails, keeps the invariant and extends the
    history. *)
Lemma good_step h stop a g r :
  good h g -> inf_step stop a g = Some r -> exists g', r = inr g' /\ good h g' /\ extends g g'.
Proof.
  intros Hg. destruct a as [|e| | | |]; cbn [inf_step].
  - destruct (go_begin g) as [g'|] eqn:E; [|done]. intros [= <-]. exists g'. split; [done|].
    split; [by eapply good_begin|]. unfold go_begin in E. destruct (pc g) eqn:Epc; try done.
    injection E as <-. by apply extends_same.
  - destruct (go_receive e g) as [g'|] eqn:E; [|done]. intros [= <-]. exists g'. split; [done|].
    split; [by eapply good_receive|]. unfold go_receive in E.
    destruct (pc g) eqn:Epc, (controller (inf g)); try done; injection E as <-;
      (split; [done|]); (split; [exists []; by rewrite app_nil_r|]); intros ks; cbn; by intros ->.
  - destruct (go_pop g) as [g'|] eqn:E; [|done]. intros [= <-]. exists g'. split; [done|].
    split; [by eapply good_pop|]. unfold go_pop in E.
    destruct (pc g) eqn:Epc; try done. destruct (controller (inf g)) as [c|]; [|done].
    destruct (c_pop c) as [[ds c']|]; [|done].
    destruct (decode_all ds _) as [[rs|] i]; [|done]. injection E as <-. by apply extends_same.
  - intros E. pose proof E as E'. destruct (good_delta _ _ _ Hg E) as (g' & -> & Hg' & Hd).
    exists g'. split; [done|]. split; [done|]. unfold go_delta in E'.
    destruct (pc g) as [| |[|d ds]| |] eqn:Epc; try done.
    + injection E' as <-. by apply extends_same.
    + unfold left_deltas in Hd. rewrite Epc in Hd. destruct Hd as (Eh & e & Ep & _).
      split_and!; [by rewrite Ep|by eexists|]. destruct (process_delta _ _) as [[[err|]|p] i']; try done;
        by injection E' as <-.
  - destruct (go_called g) as [g'|] eqn:E; [|done]. intros [= <-]. exists g'. split; [done|].
    split; [by eapply good_called|]. unfold go_called in E. destruct (pc g) eqn:Epc; try done.
    injection E as <-. by apply extends_same.
  - destruct (go_end stop g) as [g'|] eqn:E; [|done]. intros [= <-]. exists g'. split; [done|].
    split; [by eapply good_end|]. unfold go_end in E. destruct (pc g) eqn:Epc; try done.
    destruct (controller (inf g)) as [c|]; [|done]. destruct stop, (c_pop c); try done.
    injection E as <-. by apply extends_same.
Qed.

(** *** Pointers another goroutine holds

    An object stays as it is or is cleared; the clearing is that of a
    tombstone, for a pointer no delta still to come owns. *)

Definition cleared_by (d : rdelta T) : Prop := match d with RTomb _ (Some _) => True | _ => False end.

(** The pointer is allocated, and not the object of a delta to come. *)
Definition settled g (l : loc) : Prop :=
  is_Some (i_heap (inf g) !! l) /\ l ∉ concat (map needs (left_deltas g)).

Lemma stored_settled h g k l : good h g -> known_pointer (indexer (inf g)) k = Some l -> settled g l.
Proof.
  intros Hg E. unfold known_pointer in E.
  destruct (i_get (indexer (inf g)) k) as [[l'| |]|] eqn:Ek; try done. injection E as ->.
  destruct (good_store _ _ Hg _ _ Ek) as (l' & [= <-] & Hl). split; [done|].
  intros Hin. apply list_elem_of_In, in_concat in Hin as (ns & Hns & Hin).
  apply in_map_iff in Hns as (d & <- & Hd). apply list_elem_of_In in Hd, Hin.
  pose proof (proj1 (Forall_forall _ _) (deltas_each _ _ (good_deltas _ _ Hg)) d Hd) as Hok.
  destruct d as [ty l0 o|]; [|by apply not_elem_of_nil in Hin].
  apply list_elem_of_singleton in Hin as ->. by apply (proj2 Hok k).
Qed.

(** What a step does to the memory. *)
Record memory_step g g' : Prop := {
  memory_kept l o : i_heap (inf g) !! l = Some o ->
    i_heap (inf g') !! l = Some o \/ i_heap (inf g') !! l = Some obj_zero;
  memory_settled l : settled g l -> (forall d, d ∈ handled g' -> ~ cleared_by d) ->
    settled g' l /\ i_heap (inf g') !! l = i_heap (inf g) !! l;
  memory_stored k : known_pointer (indexer (inf g')) k = known_pointer (indexer (inf g)) k \/
    exists d, handled g' = handled g ++ [d] /\ rkey d = k
}.

Lemma memory_same g g' :
  i_heap (inf g') = i_heap (inf g) -> indexer (inf g') = indexer (inf g) ->
  left_deltas g' = left_deltas g \/ left_deltas g' = [] -> memory_step g g'.
Proof.
  intros Eh Ei Ed. constructor; [intros l o; rewrite Eh; by left| |left; by rewrite Ei].
  intros l [Hl Hn] _. unfold settled. rewrite Eh. split; [|done]. split; [done|].
  destruct Ed as [->| ->]; [done|]. apply not_elem_of_nil.
Qed.

Lemma memory_pop g g' : go_pop g = Some g' -> memory_step g g'.
Proof.
  unfold go_pop. destruct (pc g) eqn:Epc; try done. destruct (controller (inf g)) as [c|]; [|done].
  destruct (c_pop c) as [[ws c']|]; [|done].
  destruct (decode_all_run ws (set_controller c' (inf g))) as (rs & hp & -> & Hfr & _ & Hobj & _).
  intros [= <-]. cbn [i_heap set_controller] in *. constructor; cbn.
  - intros l o Hl. left. rewrite Hfr; [done|by eexists].
  - intros l [Hl _] _. split; [|by apply Hfr]. split; [cbn; by rewrite Hfr|].
    intros Hin. apply list_elem_of_In, in_concat in Hin as (ns & Hns & Hin).
    apply in_map_iff in Hns as (d & <- & Hd). apply list_elem_of_In in Hd, Hin.
    destruct d as [ty l0 o|]; [|by apply not_elem_of_nil in Hin].
    apply list_elem_of_singleton in Hin as ->. destruct (Hobj _ _ _ Hd) as [_ Hn].
    rewrite Hn in Hl. by destruct Hl.
  - by left.
Qed.

Lemma memory_delta h g r : good h g -> go_delta g = Some r -> exists g', r = inr g' /\ memory_step g g'.
Proof.
  intros Hg. pose proof Hg as [H0 Hh Hs Hd Hst Hds Hk Hf He]. unfold go_delta.
  destruct (pc g) as [| |[|d ds]|n e ds|] eqn:Epc; try done.
  - intros [= <-]. eexists. split; [done|]. apply memory_same; [done..|by right].
  - assert (left_deltas g = d :: ds) as Eld by (unfold left_deltas; by rewrite Epc). rewrite Eld in *.
    pose proof (deltas_each _ _ Hds) as [Hdd _]%Forall_cons.
    destruct (process_delta_run (inf g) d h Hh Hdd Hs) as (i' & E & _ & _ & Hfr). rewrite E.
    pose proof Hfr as [(hp & ix & e & n' & Ei & Hn' & Hev) Hheap Hz Hoth _].
    assert (last (events i') = Some (n', e)) as -> by (rewrite Ei; cbn; by rewrite last_snoc).
    intros [= <-]. eexists. split; [done|]. constructor; cbn [inf handled left_deltas pc].
    + exact Hz.
    + intros l [Hl Hn] Hno. unfold settled. cbn [inf left_deltas pc]. rewrite Eld in Hn.
      cbn [map concat] in Hn. apply not_elem_of_app in Hn as [Hn1 Hn2].
      assert (i_heap i' !! l = i_heap (inf g) !! l) as El.
      { apply Hheap; [|done]. destruct d as [|k [l0|]]; [done| |apply not_elem_of_nil].
        destruct (Hno (RTomb k (Some l0))); [|done]. apply elem_of_app. right. by left. }
      rewrite El. by split_and!.
    + intros k. destruct (decide (rkey d = k)) as [Hk'|Hne]; [right; by exists d|left].
      unfold known_pointer. by rewrite Hoth.
Qed.

Lemma memory_run h stop a g g' : good h g -> inf_step stop a g = Some (inr g') -> memory_step g g'.
Proof.
  intros Hg. destruct a as [|e| | | |]; cbn [inf_step].
  - unfold go_begin. destruct (pc g) eqn:Epc; try done. intros [= <-]. apply memory_same; [done..|by right].
  - unfold go_receive. destruct (pc g) eqn:Epc, (controller (inf g)); try done; intros [= <-];
      (apply memory_same; [done..|left; unfold left_deltas; cbn; by rewrite ?Epc]).
  - destruct (go_pop g) as [g1|] eqn:E; [|done]. intros [= <-]. by apply memory_pop.
  - intros E. destruct (memory_delta _ _ _ Hg E) as (g1 & [= <-] & ?). done.
  - unfold go_called. destruct (pc g) eqn:Epc; try done. intros [= <-].
    apply memory_same; [done..|left; unfold left_deltas; by rewrite Epc].
  - unfold go_end. destruct (pc g) eqn:Epc; try done. destruct (controller _) as [c|]; [|done].
    destruct stop, (c_pop c); try done. intros [= <-]. apply memory_same; [done..|by right].
Qed.

(** Every object of the first list has been processed. *)
Definition first_done g : Prop :=
  exists ks, first_keys g = Some ks /\ forall k, k ∈ ks -> exists d, d ∈ handled g /\ rkey d = k.

Lemma extends_first_done g g' : extends g g' -> first_done g -> first_done g'.
Proof.
  intros (_ & [ds E] & Hf) (ks & Hks & H). exists ks. split; [by apply Hf|].
  intros k Hk. destruct (H k Hk) as (d & Hd & ?). exists d. split; [|done].
  rewrite E. apply elem_of_app. by left.
Qed.

(** When [HasSynced] holds, the first list has been processed. *)
Lemma good_synced h g : good h g -> synced g = true -> first_done g.
Proof.
  intros [H0 Hh Hs Hd Hst Hds Hk Hf He] Hsyn.
  assert (HasSynced (inf g) = true /\ left_deltas g = []) as [Hhs Hnil].
  { unfold synced, left_deltas in *. by destruct (pc g). }
  unfold HasSynced in Hhs. destruct (controller (inf g)) as [c|] eqn:Ec; [|done].
  pose proof (synced_first c Hhs) as Hfl.
  destruct (first_keys g) as [ks|] eqn:Ek; [|by rewrite (Hf c eq_refl) in Hfl].
  exists ks. split; [done|]. intros k Hin. destruct Hf as (c' & l & [= <-] & El & Hks).
  rewrite Hfl in El. injection El as <-. rewrite Hnil in Hks.
  destruct (Hks k Hin) as [[]%not_elem_of_nil|[[]%not_elem_of_nil|Hh']].
  apply list_elem_of_fmap in Hh' as (d & -> & Hdin). by exists d.
Qed.

(** What was processed is stored, unless it was deleted. *)
Lemma good_handled h g d : good h g -> d ∈ handled g ->
  is_Some (stored (inf g) (rkey d)) \/
  exists d', d' ∈ handled g /\ rkey d' = rkey d /\ rvalue d' = None.
Proof. intros Hg Hd. rewrite (good_stored _ _ Hg). by apply fold_stored. Qed.

End good.
(** ** What an informer holds comes from the API server *)

(** A property of objects that the zero value has and the copy keeps: if all
    objects the API server sends have it, all objects in memory do. *)
Section objects.
Context {T I C : Type} `{!Object T} `{!IndexerOps I} `{!CacheOps T C} `{!ObjectSpec T} `{!CacheSpec C}.
Context (P : T -> Prop) (P_zero : P obj_zero) (P_copy : forall o, P o -> P (obj_copy o)).

Record objects_ok (i : Informer T I C) : Prop := {
  objects_heap l o : i_heap i !! l = Some o -> P o;
  objects_queue c : controller i = Some c -> Forall P (c_objects c)
}.

Lemma objects_upd i h ix es : objects_ok i -> (forall l o, h !! l = Some o -> P o) ->
  objects_ok (upd i h ix es).
Proof. intros [_ Hq] Hh. by constructor. Qed.

Lemma new_objects_ok o : P o -> preserves objects_ok (new (I := I) (C := C) o).
Proof.
  intros Ho s Hs. apply objects_upd; [done|]. intros l o'. rewrite lookup_insert_Some.
  intros [[_ <-]|[_ ?]]; [done|by eapply objects_heap].
Qed.

Lemma write_objects_ok l o : P o -> preserves objects_ok (write (I := I) (C := C) l o).
Proof.
  intros Ho s Hs. apply objects_upd; [done|]. intros l' o'. rewrite lookup_insert_Some.
  intros [[_ <-]|[_ ?]]; [done|by eapply objects_heap].
Qed.

Lemma read_objects_ok {A} l (k : T -> GoM (Informer T I C) A) :
  (forall o, P o -> preserves objects_ok (k o)) -> preserves objects_ok (bind (read l) k).
Proof.
  intros Hk s Hs. unfold bind, read. destruct (i_heap s !! l) as [o|] eqn:Hl; [|done].
  apply Hk; [by eapply objects_heap|done].
Qed.

Lemma notify_objects_ok e : preserves objects_ok (notify (T := T) (I := I) (C := C) e).
Proof.
  intros s Hs. unfold notify. destruct (eventhandler s); [|done]. apply objects_upd; [done|].
  by apply objects_heap.
Qed.

Lemma set_indexer_objects_ok f : preserves objects_ok (set_indexer (T := T) (I := I) (C := C) f).
Proof. intros s Hs. apply objects_upd; [done|]. by apply objects_heap. Qed.

#[local] Hint Resolve new_objects_ok write_objects_ok read_objects_ok notify_objects_ok
  set_indexer_objects_ok P_zero P_copy : go.

Lemma copy_and_clear_objects l : preserves objects_ok (copy_and_clear (I := I) (C := C) l).
Proof. unfold copy_and_clear. auto 8 with go. Qed.
#[local] Hint Resolve copy_and_clear_objects : go.

Lemma process_delta_objects d : preserves objects_ok (process_delta (I := I) (C := C) d).
Proof.
  unfold process_delta. apply preserves_bind.
  { unfold convertToCustom. destruct d.2 as [l|key [l|]|]; auto with go. }
  intros obj. apply preserves_bind; [unfold store_key; destruct obj; auto with go|].
  intros [err|key]; destruct d.1; auto with go;
    apply preserves_get; intros s; destruct (i_get (indexer s) key); auto 6 with go.
Qed.

Lemma decode_all_objects ws : Forall (fun w => forall ty o, w = WObject ty o -> P o) ws ->
  preserves objects_ok (decode_all (I := I) (C := C) ws).
Proof.
  induction 1 as [|w ws Hw _ IH]; cbn [decode_all]; [auto with go|].
  apply preserves_bind; [|intros r; apply preserves_bind; auto with go].
  destruct w as [ty o|k p]; cbn [decode]; [|auto with go].
  apply preserves_bind; [|auto with go]. apply new_objects_ok. by eapply Hw.
Qed.

Lemma objects_step stop a g g' :
  (forall e, a = Receive e -> Forall P (event_objects e)) ->
  objects_ok (inf g) -> inf_step stop a g = Some (inr g') -> objects_ok (inf g').
Proof.
  intros Ha Hg. pose proof Hg as [Hh Hq]. destruct a as [|e| | | |]; cbn [inf_step]; intros E.
  - unfold go_begin in E. destruct (pc g); try done. injection E as <-. constructor; [done|].
    intros c [= <-]. by rewrite new_objects.
  - unfold go_receive in E. destruct (pc g), (controller (inf g)) as [c|] eqn:Ec; try done;
      injection E as <-; (constructor; [done|]); intros c' [= <-]; apply Forall_forall;
      intros o [Ho|Ho]%receive_objects; revert o Ho; apply Forall_forall; auto.
  - unfold go_pop in E. destruct (pc g); try done. destruct (controller (inf g)) as [c|] eqn:Ec; [|done].
    destruct (c_pop c) as [[ws c']|] eqn:Ep; [|done]. specialize (Hq c eq_refl).
    assert (forall o, (exists ty, WObject ty o ∈ ws) \/ o ∈ c_objects c' -> P o) as Hp.
    { intros o Ho. revert Hq. rewrite Forall_forall. intros Hq. apply Hq. by eapply pop_objects. }
    assert (Forall (fun w => forall ty o, w = WObject ty o -> P o) ws) as Hws.
    { apply Forall_forall. intros w Hw ty o ->. apply Hp. left. by exists ty. }
    assert (objects_ok (set_controller c' (inf g))) as Hg'.
    { constructor; [done|]. intros c0 [= <-]. apply Forall_forall. auto. }
    pose proof (decode_all_objects ws Hws _ Hg') as Hd.
    destruct (decode_all ws (set_controller c' (inf g))) as [[rs|p] i]; [|done]. by injection E as <-.
  - unfold go_delta in E. destruct (pc g) as [| |[|d ds]| |]; try done; [by injection E as <-|].
    pose proof (process_delta_objects (raw d) (inf g) Hg) as Hd.
    destruct (process_delta (raw d) (inf g)) as [[[err|]|p] i]; [| |done]; by injection E as <-.
  - unfold go_called in E. destruct (pc g); try done. by injection E as <-.
  - unfold go_end in E. destruct (pc g); try done. destruct (controller (inf g)) as [c|] eqn:Ec; [|done].
    destruct stop, (c_pop c); try done. injection E as <-.
    constructor; [exact Hh|]. intros c' Hc. apply Hq. cbn in Hc. congruence.
Qed.
End objects.

End InformerRun.
