(* ===== verification/Resources.v ===== *)
(** * The wiring of the agent: informers/informer.go, NewController and main.go

    The two custom informers are registered with client-go's informer factory
    in place of its own, the controller registers its handlers with them, and
    the factory starts them.  The factory, the client configuration and the
    label selectors are client-go's: interfaces with the behaviour their
    documentation promises. *)

From Stdlib Require Import ZArith Lia String Ascii.
From stdpp Require Import base gmap list strings.
From S2P Require Import Prelude GoStrings Layout BpfMap GoSet Manager Controller Informer.
Import GoStrings Layout BpfMap GoSet Manager Controller Informer.

Local Open Scope string_scope.
Local Open Scope Z_scope.
Local Open Scope go_scope.

Module Resources.

#[local] Arguments String.append : simpl nomatch.

(** ** Label selectors

    [Selects sel labels]: what the API server makes of a selector in a
    request. *)

Inductive selection_operator := Equals.

Class LabelOps (R : Type) := {
  NewRequirement : string -> selection_operator -> list string -> error + R;
  SelectorString : list R -> string;
  Selects : string -> gmap string string -> bool
}.

Class LabelSpec (R : Type) `{!LabelOps R} : Prop := {
  selects_equal key value r labels :
    NewRequirement key Equals [value] = inr r ->
    Selects (SelectorString [r]) labels = bool_decide (labels !! key = Some value)
}.

Definition LabelServiceProxyName : string := "service.kubernetes.io/service-proxy-name".
Definition ProxyName : string := "eproxy".
Definition SvccontrollerName : string := "svc-controller".

(** ** The informer factory

    [f_InformerFor] registers the constructor it is given for an object type
    that has none, and answers with the registered one; [f_Start] starts what
    is registered and not started yet. *)

Inductive kind := KService | KEndpointSlice.
Inductive maker := CustomInformer | StandardInformer.

#[export] Instance kind_eq_dec : EqDecision kind.
Proof. solve_decision. Defined.
#[export] Instance maker_eq_dec : EqDecision maker.
Proof. solve_decision. Defined.

Class FactoryOps (F : Type) := {
  f_New : F;
  f_registered : F -> kind -> option maker;
  f_started : F -> kind -> bool;
  f_InformerFor : kind -> maker -> F -> maker * F;
  f_Start : F -> list (kind * maker) * F
}.

Class FactorySpec (F : Type) `{!FactoryOps F} : Prop := {
  registered_new k : f_registered f_New k = None;
  started_new k : f_started f_New k = false;
  informer_for k m f :
    let (m', f') := f_InformerFor k m f in
    m' = default m (f_registered f k) /\
    (forall k', f_registered f' k' = if decide (k = k') then Some m' else f_registered f k') /\
    (forall k', f_started f' k' = f_started f k');
  start_all f k m : (k, m) ∈ (f_Start f).1 <-> f_registered f k = Some m /\ f_started f k = false;
  start_started f k : f_started (f_Start f).2 k = f_started f k || bool_decide (is_Some (f_registered f k))
}.

(** ** Construction *)

Section wiring.
Context {IS CS CE F R : Type} `{!IndexerOps IS}.
Context `{!CacheOps v1_Service CS} `{!CacheOps v1_EndpointSlice CE} `{!FactoryOps F} `{!LabelOps R}.

(** What the construction works on: the factory, and the custom informers
    once they are made. *)
Record Wiring := mkWiring {
  factory : option F;
  service_informer : option (Informer v1_Service IS CS);
  slice_informer : option (Informer v1_EndpointSlice IS CE)
}.

Definition nothing_wired : Wiring := mkWiring None None None.

(** The list and watch functions of [defaultCustomServiceInformer] and
    [defaultCustomEndpointSliceInformer]: the label selector is set, all
    namespaces are asked for. *)
Definition select (proxy : R) (options : ListOptions) : ListOptions :=
  mkListOptions (SelectorString [proxy]) (lo_Other options).

Definition list_watch (resource : string) (proxy : R) : ListWatch :=
  mkListWatch (fun options => mkRequest List resource "" (select proxy options))
    (fun options => mkRequest Watch resource "" (select proxy options)).

Definition new_informer {T C} (lw : ListWatch) (resync : Z) : Informer T IS C :=
  mkInformer lw i_new None None resync None false false ∅ [].

Definition proxy_requirement : GoM Wiring R :=
  match NewRequirement LabelServiceProxyName Equals [ProxyName] with
  | inl err => panics (PanicValue err)
  | inr r => ret r
  end.

Definition defaultCustomServiceInformer (resync : Z) : GoM Wiring (Informer v1_Service IS CS) :=
  let! eProxyName := proxy_requirement in
  ret (new_informer (list_watch "services" eProxyName) resync).

Definition defaultCustomEndpointSliceInformer (resync : Z)
    : GoM Wiring (Informer v1_EndpointSlice IS CE) :=
  let! eProxyName := proxy_requirement in
  ret (new_informer (list_watch "endpointslices" eProxyName) resync).

(** A call of the factory's [InformerFor]; the constructor runs when there is
    no informer of the kind yet.  With the standard constructor the informer
    is client-go's own, which nothing here models. *)
Definition InformerFor (k : kind) (m : maker) : GoM Wiring maker :=
  let! w := get in
  match factory w with
  | None => panics NilDereference
  | Some f =>
      let made := bool_decide (f_registered f k = None) in
      let '(m', f') := f_InformerFor k m f in
      (match made, m, k with
       | true, CustomInformer, KService =>
           let! i := defaultCustomServiceInformer 0 in
           put (mkWiring (factory w) (Some i) (slice_informer w))
       | true, CustomInformer, KEndpointSlice =>
           let! i := defaultCustomEndpointSliceInformer 0 in
           put (mkWiring (factory w) (service_informer w) (Some i))
       | _, _, _ => ret tt
       end) ;;;
      modify (fun w => mkWiring (Some f') (service_informer w) (slice_informer w)) ;;;
      ret m'
  end.

(** The configuration is read and the client built, or the agent panics;
    [config] is what [BuildConfigFromFlags] returns, [client] what the client
    library makes of it. *)
Definition NewResources (config : error + unit) (client : option error) : GoM Wiring unit :=
  match config, client with
  | inl err, _ => panics (PanicValue err)
  | _, Some err => panics (PanicValue err)
  | inr _, None =>
      modify (fun w => mkWiring (Some f_New) (service_informer w) (slice_informer w)) ;;;
      InformerFor KEndpointSlice CustomInformer ;;;
      InformerFor KService CustomInformer ;;;
      ret tt
  end.

(** [resources.ServiceInformer().Informer()], and the other one. *)
Definition ServiceInformer_Informer : GoM Wiring maker := InformerFor KService StandardInformer.
Definition EndpointSliceInfomer_Informer : GoM Wiring maker :=
  InformerFor KEndpointSlice StandardInformer.

(** A method call on a custom informer. *)
Definition on_service {A} (m : GoM (Informer v1_Service IS CS) A) : GoM Wiring A := fun w =>
  match service_informer w with
  | Some i => let (o, i') := m i in (o, mkWiring (factory w) (Some i') (slice_informer w))
  | None => (Panics NilDereference, w)
  end.
Definition on_slice {A} (m : GoM (Informer v1_EndpointSlice IS CE) A) : GoM Wiring A := fun w =>
  match slice_informer w with
  | Some i => let (o, i') := m i in (o, mkWiring (factory w) (service_informer w) (Some i'))
  | None => (Panics NilDereference, w)
  end.

(** The number of the handler [NewController] registers. *)
Definition controller_handler : nat := 0.

(** The part of [NewController] that touches the informers: the [HasSynced]
    methods and the listers are taken from them, then the handlers are
    registered.  The answer says whose the informers are. *)
Definition NewController_wiring : GoM Wiring (maker * maker) :=
  let! endpointinformer := EndpointSliceInfomer_Informer in
  let! serviceinformer := ServiceInformer_Informer in
  (match serviceinformer with
   | CustomInformer => on_service (AddEventHandler controller_handler)
   | StandardInformer => ret tt
   end) ;;;
  (match endpointinformer with
   | CustomInformer => on_slice (AddEventHandler controller_handler)
   | StandardInformer => ret tt
   end) ;;;
  ret (serviceinformer, endpointinformer).

(** [StartListenEventFromKubernetes]: the informers whose [Run] gets a
    goroutine. *)
Definition StartListenEventFromKubernetes : GoM Wiring (list (kind * maker)) :=
  let! w := get in
  match factory w with
  | None => panics NilDereference
  | Some f =>
      let '(started, f') := f_Start f in
      put (mkWiring (Some f') (service_informer w) (slice_informer w)) ;;;
      ret started
  end.

(** [main] from [NewResources] to the loop. *)
Definition main_wire (config : error + unit) (client : option error)
    : GoM Wiring ((maker * maker) * list (kind * maker)) :=
  NewResources config client ;;;
  let! informers := NewController_wiring in
  let! started := StartListenEventFromKubernetes in
  ret (informers, started).

End wiring.
Arguments Wiring IS CS CE F : clear implicits.

(** ** What the construction leaves *)

Section outcome.
Context {IS CS CE F R : Type} `{!IndexerOps IS}.
Context `{!CacheOps v1_Service CS} `{!CacheOps v1_EndpointSlice CE}.
Context `{!FactoryOps F} `{!FactorySpec F} `{!LabelOps R}.
Implicit Type w : Wiring IS CS CE F.

(** An informer as [NewController] leaves it: made by the repository's
    constructor, with the controller's handler, not yet running. *)
Definition wired_informer {T C} (resource : string) (r : R) : Informer T IS C :=
  mkInformer (list_watch resource r) i_new None (Some controller_handler) 0 None false false ∅ [].

(** A kind that is registered: its informer is the answer, nothing is made. *)
Lemma InformerFor_registered w f k m m' :
  factory w = Some f -> f_registered f k = Some m' ->
  exists f', InformerFor (R := R) k m w = (Returns m', mkWiring (Some f') (service_informer w) (slice_informer w)) /\
    (forall k', f_registered f' k' = f_registered f k') /\
    (forall k', f_started f' k' = f_started f k').
Proof.
  intros Hf Hr. pose proof (informer_for k m f) as H. unfold InformerFor, bind, get. rewrite Hf.
  destruct (f_InformerFor k m f) as [m1 f'] eqn:E. rewrite Hr in H. cbn [default] in H.
  destruct H as (-> & Hreg & Hst). exists f'.
  rewrite bool_decide_eq_false_2 by (by rewrite Hr). split_and!; [done| |done].
  intros k'. rewrite Hreg. case_decide; by subst.
Qed.

(** A kind that is not: the custom constructor runs. *)
Lemma InformerFor_custom w f k r :
  factory w = Some f -> f_registered f k = None ->
  NewRequirement LabelServiceProxyName Equals [ProxyName] = inr r ->
  exists f', InformerFor (R := R) k CustomInformer w =
      (Returns CustomInformer, mkWiring (Some f')
         (match k with KService => Some (new_informer (list_watch "services" r) 0)
                     | KEndpointSlice => service_informer w end)
         (match k with KEndpointSlice => Some (new_informer (list_watch "endpointslices" r) 0)
                     | KService => slice_informer w end)) /\
    (forall k', f_registered f' k' = if decide (k = k') then Some CustomInformer else f_registered f k') /\
    (forall k', f_started f' k' = f_started f k').
Proof.
  intros Hf Hr Hreq. pose proof (informer_for k CustomInformer f) as H.
  unfold InformerFor, bind, get. rewrite Hf.
  destruct (f_InformerFor k CustomInformer f) as [m1 f'] eqn:E. rewrite Hr in H. cbn [default] in H.
  destruct H as (-> & Hreg & Hst). exists f'. rewrite bool_decide_eq_true_2 by done.
  split; [|done]. destruct k; cbn;
    unfold defaultCustomServiceInformer, defaultCustomEndpointSliceInformer, proxy_requirement, bind;
    by rewrite Hreq.
Qed.

(** Both custom informers end up with the controller's handler, before the
    factory starts them. *)
Lemma main_wire_run config client r :
  config = inr tt -> client = None ->
  NewRequirement LabelServiceProxyName Equals [ProxyName] = inr r ->
  exists started f, main_wire (R := R) config client (nothing_wired : Wiring IS CS CE F) =
    (Returns ((CustomInformer, CustomInformer), started),
     mkWiring (Some f) (Some (wired_informer "services" r)) (Some (wired_informer "endpointslices" r))) /\
    (forall k m, (k, m) ∈ started <-> m = CustomInformer).
Proof.
  intros -> -> Hreq. unfold main_wire, NewResources, bind, modify.
  destruct (InformerFor_custom (mkWiring (Some f_New) None None) f_New KEndpointSlice r)
    as (f1 & E1 & Hr1 & Hs1); [done|apply registered_new|done|].
  cbn [service_informer slice_informer nothing_wired] in *. rewrite E1.
  match type of E1 with _ = (_, ?w1) =>
    destruct (InformerFor_custom w1 f1 KService r) as (f2 & E2 & Hr2 & Hs2);
      [done|by rewrite Hr1, registered_new|done|] end.
  cbn [service_informer slice_informer] in E2. rewrite E2. cbn [ret].
  unfold NewController_wiring, EndpointSliceInfomer_Informer, ServiceInformer_Informer, bind.
  match type of E2 with _ = (_, ?w2) =>
    destruct (InformerFor_registered w2 f2 KEndpointSlice StandardInformer CustomInformer)
      as (f3 & E3 & Hr3 & Hs3); [done|by rewrite Hr2, Hr1|] end.
  rewrite E3.
  match type of E3 with _ = (_, ?w3) =>
    destruct (InformerFor_registered w3 f3 KService StandardInformer CustomInformer)
      as (f4 & E4 & Hr4 & Hs4); [done|by rewrite Hr3, Hr2|] end.
  rewrite E4. cbn. unfold StartListenEventFromKubernetes, bind, get. cbn [factory].
  destruct (f_Start f4) as [started f5] eqn:E5. exists started, f5. split; [done|].
  intros k m. pose proof (start_all f4 k m) as H. rewrite E5 in H. cbn [fst] in H. rewrite H.
  rewrite Hr4, Hr3, Hr2, Hr1, Hs4, Hs3, Hs2, Hs1, registered_new, started_new.
  destruct k; cbn; naive_solver.
Qed.

(** A list or watch of a wired informer asks for the objects, in any namespace,
    whose label names this proxy, whatever selector the options had; the rest
    of the options is passed on. *)
Lemma requests_select_proxy `{!LabelSpec R} resource r options :
  NewRequirement LabelServiceProxyName Equals [ProxyName] = inr r ->
  Forall (fun req => req_namespace req = "" /\ req_resource req = resource /\
      lo_Other (req_options req) = lo_Other options /\
      forall labels, Selects (LabelSelector (req_options req)) labels =
        bool_decide (labels !! LabelServiceProxyName = Some ProxyName))
    [ListFunc (list_watch resource r) options; WatchFunc (list_watch resource r) options].
Proof.
  intros Hreq. repeat constructor; cbn; try done; intros labels; by apply selects_equal.
Qed.

(** C30. The start of the agent's Kubernetes side: a configuration or a client
    that cannot be built, or a label that is no label, panics; otherwise the
    informers the controller gets its listers and [HasSynced] from are the
    repository's, not client-go's, both have the controller's handler before
    the factory starts them, exactly these two are started, and they ask the
    API server for the objects whose label names this proxy. *)
Theorem main_wire_outcome `{!LabelSpec R} (config : error + unit) (client : option error) :
  let wired := main_wire (R := R) config client (nothing_wired : Wiring IS CS CE F) in
  match config, client, NewRequirement (R := R) LabelServiceProxyName Equals [ProxyName] with
  | inl err, _, _ | inr _, Some err, _ | inr _, None, inl err => wired.1 = Panics (PanicValue err)
  | inr _, None, inr r =>
      exists started f, wired = (Returns ((CustomInformer, CustomInformer), started),
        mkWiring (Some f) (Some (wired_informer "services" r)) (Some (wired_informer "endpointslices" r))) /\
      (forall k m, (k, m) ∈ started <-> m = CustomInformer) /\
      forall resource options, Forall (fun req => req_namespace req = "" /\
          forall labels, Selects (LabelSelector (req_options req)) labels =
            bool_decide (labels !! LabelServiceProxyName = Some ProxyName))
        [ListFunc (list_watch resource r) options; WatchFunc (list_watch resource r) options]
  end.
Proof.
  destruct config as [err|[]]; [done|]. destruct client as [err|]; [done|].
  destruct (NewRequirement _ _ _) as [err|r] eqn:Hreq.
  - unfold main_wire, NewResources, bind, modify, InformerFor, get. cbn [factory nothing_wired bind].
    pose proof (informer_for KEndpointSlice CustomInformer f_New) as H.
    destruct (f_InformerFor _ _ f_New) as [m f'] eqn:E. rewrite registered_new in H.
    rewrite bool_decide_eq_true_2 by apply registered_new. cbn.
    unfold defaultCustomEndpointSliceInformer, proxy_requirement, bind. by rewrite Hreq.
  - destruct (main_wire_run (inr tt) None r) as (started & f & E & Hst); try done.
    exists started, f. split_and!; [exact E|exact Hst|]. intros resource options.
    eapply Forall_impl; [by apply requests_select_proxy|]. cbn. tauto.
Qed.

End outcome.

(** ** Instances *)

(** A factory as two functions. *)
Record table := mkTable { registered : kind -> option maker; running : kind -> bool }.

#[export] Instance table_ops : FactoryOps table := {
  f_New := mkTable (fun _ => None) (fun _ => false);
  f_registered := registered;
  f_started := running;
  f_InformerFor k m f :=
    let m' := default m (registered f k) in
    (m', mkTable (fun k' => if decide (k = k') then Some m' else registered f k') (running f));
  f_Start f :=
    (flat_map (fun k => match registered f k, running f k with
                        | Some m, false => [(k, m)]
                        | _, _ => []
                        end) [KService; KEndpointSlice],
     mkTable (registered f) (fun k => running f k || bool_decide (is_Some (registered f k))))
}.

#[export] Instance table_spec : FactorySpec table.
Proof.
  constructor; try done. intros f k m. cbn [f_Start f_registered f_started table_ops fst].
  rewrite list_elem_of_In, in_flat_map. split.
  - intros (k' & _ & H). destruct (registered f k') eqn:E, (running f k') eqn:E'; cbn in H; try done.
    destruct H as [[= -> ->]|[]]. done.
  - intros [E E']. exists k. split; [destruct k; cbn; tauto|]. cbn in E, E'. rewrite E, E'. by left.
Qed.

(** Requirements "key=value" of a key and a value without the separator. *)
Definition requirement : Type := { kv : string * string | no_char "="%char kv.1 = true /\ no_char "="%char kv.2 = true }.

#[export] Instance requirement_ops : LabelOps requirement := {
  NewRequirement key op values :=
    match values with
    | [v] =>
        match decide (no_char "="%char key = true /\ no_char "="%char v = true) with
        | left H => inr (exist _ (key, v) H)
        | right _ => inl (ErrMsg "invalid label")
        end
    | _ => inl (ErrMsg "values")
    end;
  SelectorString rs := Join (map (fun r : requirement => (proj1_sig r).1 ++ "=" ++ (proj1_sig r).2) rs) ",";
  Selects sel labels :=
    match Split sel "=" with [k; v] => bool_decide (labels !! k = Some v) | _ => false end
}.

#[export] Instance requirement_spec : LabelSpec requirement.
Proof.
  constructor. intros key v r labels. cbn [NewRequirement requirement_ops].
  destruct (decide _) as [[Hk Hv]|]; [|done]. intros [= <-].
  cbn [Selects SelectorString requirement_ops map Join proj1_sig fst snd].
  change (key ++ "=" ++ v) with (key ++ String.String "="%char v).
  unfold Split. change "=" with (String.String "="%char ""). 
  by rewrite split_scan_piece, split_scan_last.
Qed.

Lemma main_wire_outcome_witness :
  exists started w, main_wire (R := requirement) (inr tt) None
    (nothing_wired : Wiring (gmap string delta_object) (fifo v1_Service) (fifo v1_EndpointSlice) table) =
    (Returns ((CustomInformer, CustomInformer), started), w) /\ (KService, CustomInformer) ∈ started.
Proof.
  pose proof (main_wire_outcome (IS := gmap string delta_object) (CS := fifo v1_Service)
    (CE := fifo v1_EndpointSlice) (F := table) (R := requirement) (inr tt) None) as H. cbv zeta in H.
  destruct (NewRequirement (R := requirement) LabelServiceProxyName Equals [ProxyName]) as [err|r] eqn:Hr.
  - exfalso. revert Hr. cbn [NewRequirement requirement_ops].
    destruct (decide _) as [|[]]; [done|]. by vm_compute.
  - destruct H as (started & f & E & Hst & _). exists started. eexists. split; [exact E|]. by apply Hst.
Defined.

End Resources.
