(* ===== verification/Running.v ===== *)
(** * The running agent: controller.Run, the workers, the informers and main

    After start-up the agent is a set of goroutines: the loop of [main] and the
    signal handler (Main), [Run] of the two informers (InformerRun), [Run] of
    the controller and the workers it starts.  A state holds where each of them
    is and what they share: the informers' stores, the work queue, the service
    manager.  An action is a step of one of them, in any order. *)

From Stdlib Require Import ZArith Lia String.
From stdpp Require Import base gmap list strings.
From S2P Require Import Prelude GoStrings Layout BpfMap GoSet Manager ManagerSpec Main Controller ControllerSpec Closed Informer InformerRun Resources.
Import GoStrings Layout BpfMap GoSet Manager ManagerSpec Controller ControllerSpec Closed Informer InformerRun Resources.

Local Open Scope Z_scope.
Local Open Scope go_scope.

Module Running.

Section running.
Context {SM BM Q I CS CE : Type} `{!MapOps lb4_key lb4_service SM} `{!MapOps Z lb4_backend BM}.
Context `{!QueueOps Q} `{!KeyFunc} `{!IndexerOps I}.
Context `{!CacheOps v1_Service CS} `{!CacheOps v1_EndpointSlice CE}.

(** ** State *)

(** Where [BaseController.Run] is. *)
Inductive run_pc :=
  | WaitSync                         (* in WaitForCacheSync *)
  | Spawning (n : nat)               (* in the loop that starts the workers *)
  | WaitStop                         (* at the receive from stopCh *)
  | RunReturned (err : option error).

(** Where a worker is: in [wait.Until] between two calls of [runWorker], at the
    queue, with an item, with the pointer to a slice the lister returned, with
    that and the pointer to the service, with the result of the handler, with
    the result acted upon, returned.  The pointers are those of the stores, so
    what they point to is read when the handler reads it. *)
Inductive worker_pc :=
  | AtSelect
  | Idle
  | Taken (obj : item)
  | Looked (key : string) (slice : loc)
  | Found (key : string) (slice service : loc)
  | Handled (obj : item) (err : option error)
  | Settled (obj : item)
  | Finished.

(** [seen] and [lost] are history: the slice the handler last succeeded on,
    and the keys of the deletions that came as tombstones. *)
Record running := mkRunning {
  proc : Main.process;
  svc : goroutine v1_Service I CS;
  slc : goroutine v1_EndpointSlice I CE;
  ctl : Controller SM BM Q;
  run : run_pc;
  workers : list worker_pc;
  crashed : option panic;
  seen : string -> option EndpointSlice;
  lost : list string
}.

Definition set_proc p s :=
  mkRunning p (svc s) (slc s) (ctl s) (run s) (workers s) (crashed s) (seen s) (lost s).
Definition set_svc g s :=
  mkRunning (proc s) g (slc s) (ctl s) (run s) (workers s) (crashed s) (seen s) (lost s).
Definition set_slc g s :=
  mkRunning (proc s) (svc s) g (ctl s) (run s) (workers s) (crashed s) (seen s) (lost s).
Definition set_ctl c s :=
  mkRunning (proc s) (svc s) (slc s) c (run s) (workers s) (crashed s) (seen s) (lost s).
Definition set_run r s :=
  mkRunning (proc s) (svc s) (slc s) (ctl s) r (workers s) (crashed s) (seen s) (lost s).
Definition set_workers w s :=
  mkRunning (proc s) (svc s) (slc s) (ctl s) (run s) w (crashed s) (seen s) (lost s).
Definition crash p s :=
  mkRunning (proc s) (svc s) (slc s) (ctl s) (run s) (workers s) (Some p) (seen s) (lost s).
Definition set_seen f s :=
  mkRunning (proc s) (svc s) (slc s) (ctl s) (run s) (workers s) (crashed s) f (lost s).
Definition set_lost l s :=
  mkRunning (proc s) (svc s) (slc s) (ctl s) (run s) (workers s) (crashed s) (seen s) l.

Definition queue_of (s : running) : Q := Workqueue (ctl s).
Definition stop_closed (s : running) : bool := Main.stop_closed (proc s).

(** ** The listers

    [Services(namespace).Get(name)] looks up "namespace/name" in the store and
    returns the pointer it finds. *)
Definition service_pointer (s : running) (ns n : string) : option loc :=
  known_pointer (indexer (inf (svc s))) (ns ++ "/" ++ n)%string.
Definition slice_pointer (s : running) (ns n : string) : option loc :=
  known_pointer (indexer (inf (slc s))) (ns ++ "/" ++ n)%string.

Definition service_at (s : running) (l : loc) : option v1_Service := i_heap (inf (svc s)) !! l.
Definition slice_at (s : running) (l : loc) : option v1_EndpointSlice := i_heap (inf (slc s)) !! l.

(** The objects themselves, for a call of the handler that nothing interrupts. *)
Definition store_lister {T A} `{!Object T} {C} `{!CacheOps T C} (f : T -> A) (i : Informer T I C)
    : lister A := fun k => f <$> stored i (k.1 ++ "/" ++ k.2)%string.

Definition service_lister (s : running) : lister K8sService := store_lister k8s_service (inf (svc s)).
Definition slice_lister (s : running) : lister EndpointSlice := store_lister k8s_slice (inf (slc s)).

(** ** Event handlers *)

(** What [Enqueue] finds in the object of an event. *)
Definition object_of {T} `{!Object T} {C} `{!CacheOps T C} (mk : string -> string -> Controller.object)
    (i : Informer T I C) (obj : delta_object) : Controller.object :=
  match obj with
  | Pointer l =>
      match i_heap i !! l with
      | Some o => mk (m_Namespace (obj_meta o)) (m_Name (obj_meta o))
      | None => OtherObject
      end
  | DeletedFinalStateUnknown key _ => Tombstone key
  | Unknown => OtherObject
  end.

(** The functions [NewController] registers. *)
Definition handle_event (convert : delta_object -> Controller.object) (e : event)
    : GoM (Controller SM BM Q) unit :=
  match e with
  | OnAdd obj => AddFunc (convert obj)
  | OnUpdate old obj => UpdateFunc (convert old) (convert obj)
  | OnDelete obj => DeleteFunc (convert obj)
  end.

Definition tombstone_key (e : event) : list string :=
  match event_object e with DeletedFinalStateUnknown key _ => [key] | _ => [] end.

(** The call an informer is in. *)
Definition call_service (s : running) : running :=
  match pc (svc s) with
  | InHandler n e _ =>
      if decide (n = controller_handler) then
        set_ctl (handle_event (object_of ServiceObject (inf (svc s))) e (ctl s)).2 s
      else s
  | _ => s
  end.

Definition call_slice (s : running) : running :=
  match pc (slc s) with
  | InHandler n e _ =>
      if decide (n = controller_handler) then
        set_lost (tombstone_key e ++ lost s)
          (set_ctl (handle_event (object_of EndpointSliceObject (inf (slc s))) e (ctl s)).2 s)
      else s
  | _ => s
  end.

(** ** Steps *)

Definition service_step (a : inf_act v1_Service) (s : running) : option running :=
  match inf_step (stop_closed s) a (svc s) with
  | None => None
  | Some (inl p) => Some (crash p s)
  | Some (inr g) => Some (set_svc g (match a with Call => call_service s | _ => s end))
  end.

Definition slice_step (a : inf_act v1_EndpointSlice) (s : running) : option running :=
  match inf_step (stop_closed s) a (slc s) with
  | None => None
  | Some (inl p) => Some (crash p s)
  | Some (inr g) => Some (set_slc g (match a with Call => call_slice s | _ => s end))
  end.

(** [BaseController.Run].  [WaitForCacheSync] answers true when every
    [HasSynced] it was given does, and false when the channel is closed; it may
    find either first.  Returning shuts the queue down. *)
Definition all_synced (s : running) : bool := synced (slc s) && synced (svc s).

Definition shut_down (err : option error) (s : running) : running :=
  set_run (RunReturned err) (set_ctl (set_queue q_shut_down (ctl s)) s).

Definition sync_error : error :=
  ErrMsg ("failed to wait for caches to sync for: " ++ SvccontrollerName).

Definition run_step (threadiness : nat) (ok : bool) (s : running) : option running :=
  match run s with
  | WaitSync =>
      if ok then if all_synced s then Some (set_run (Spawning threadiness) s) else None
      else if stop_closed s then Some (shut_down (Some sync_error) s) else None
  | Spawning (S n) => Some (set_run (Spawning n) (set_workers (workers s ++ [AtSelect]) s))
  | Spawning O => Some (set_run WaitStop s)
  | WaitStop => if stop_closed s then Some (shut_down None s) else None
  | RunReturned _ => None
  end.

(** The slice a key asks for. *)
Definition key_slice (key : string) : option (string * string) :=
  match Split key "/" with
  | [kind; ns; n] =>
      if String.eqb kind ServiceType then None
      else if String.eqb kind EndpointSliceType then Some (ns, n) else None
  | _ => None
  end.

Definition see (key : string) (es : EndpointSlice) (f : string -> option EndpointSlice)
    : string -> option EndpointSlice :=
  match key_slice key with
  | Some (ns, n) => fun k => if decide (k = ns ++ "/" ++ n)%string then Some es else f k
  | None => f
  end.

(** [handler] on a key, up to the lookup of the slice: keys that ask for no
    slice are done with. *)
Definition look_slice (s : running) (key : string) : worker_pc :=
  match key_slice key with
  | None => Handled (StringItem key) None
  | Some (ns, n) =>
      match slice_pointer s ns n with
      | Some l => Looked key l
      | None => Handled (StringItem key) (Some ErrNotFound)
      end
  end.

(** The label of the slice is read and the service looked up. *)
Definition look_service (s : running) (key : string) (l : loc) (es : EndpointSlice) : worker_pc :=
  match service_pointer s (default ""%string (fst <$> key_slice key)) (slice_service es) with
  | Some l' => Found key l l'
  | None => Handled (StringItem key) (Some ErrNotFound)
  end.

(** The rest of the handler, on maps that [main] may have closed. *)
Definition handle_objects (s : running) (ks : K8sService) (es : EndpointSlice) (ord_old ord_new : list Ports)
    : outcome (option error) * ServiceManager SM BM :=
  if decide (Main.closes (proc s) = 0%nat)
  then handle_found ks es ord_old ord_new (serviceManager (ctl s))
  else handle_closed ks es ord_old ord_new (serviceManager (ctl s)).

(** The handler looks the slice up, reads its label and looks the service up,
    then reads both objects and works on the manager: three steps, between
    which the informers may replace the objects in the stores, or clear them
    where they are.  A panic of the handler ends the process. *)
Definition worker_step (ord_old ord_new : list Ports) (w : worker_pc) (s : running)
    : option (panic + worker_pc * running) :=
  match w with
  | AtSelect => Some (inr (if stop_closed s then Finished else Idle, s))
  | Idle =>
      if q_blocks (queue_of s) then None
      else
        let '(obj, q) := q_get (queue_of s) in
        let s' := set_ctl (set_queue (fun _ => q) (ctl s)) s in
        match obj with
        | None => Some (inr (AtSelect, s'))
        | Some obj => Some (inr (Taken obj, s'))
        end
  | Taken (OtherItem n) => Some (inr (Settled (OtherItem n), set_ctl (set_queue (q_forget (OtherItem n)) (ctl s)) s))
  | Taken (StringItem key) => Some (inr (look_slice s key, s))
  | Looked key l =>
      match slice_at s l with
      | None => Some (inl NilDereference)
      | Some o => Some (inr (look_service s key l (k8s_slice o), s))
      end
  | Found key l l' =>
      match slice_at s l, service_at s l' with
      | Some o, Some o' =>
          match handle_objects s (k8s_service o') (k8s_slice o) ord_old ord_new with
          | (Returns err, m) =>
              let s' := set_ctl (set_manager m (ctl s)) s in
              Some (inr (Handled (StringItem key) err,
                         match err with
                         | None => set_seen (see key (k8s_slice o) (seen s')) s'
                         | Some _ => s'
                         end))
          | (Panics p, m) => Some (inl p)
          end
      | _, _ => Some (inl NilDereference)
      end
  | Handled obj err => Some (inr (Settled obj, set_ctl (settle obj err (ctl s)).2 s))
  | Settled obj => Some (inr (Idle, set_ctl (set_queue (q_done obj) (ctl s)) s))
  | Finished => None
  end.

Definition work (i : nat) (ord_old ord_new : list Ports) (s : running) : option running :=
  match workers s !! i with
  | None => None
  | Some w =>
      match worker_step ord_old ord_new w s with
      | None => None
      | Some (inl p) => Some (crash p s)
      | Some (inr (w', s')) => Some (set_workers (<[i := w']> (workers s')) s')
      end
  end.

Inductive act :=
  | AProcess (a : Main.action)
  | AService (a : inf_act v1_Service)
  | ASlice (a : inf_act v1_EndpointSlice)
  | ARun (ok : bool)
  | AWorker (i : nat) (ord_old ord_new : list Ports)
  | AElapse.

(** [main] runs the controller with one worker. *)
Definition threads : nat := 1.

Definition step (a : act) (s : running) : option running :=
  match crashed s, Main.ended (proc s) with
  | None, None =>
      match a with
      | AProcess a => (fun p => set_proc p s) <$> Main.act a (proc s)
      | AService a => service_step a s
      | ASlice a => slice_step a s
      | ARun ok => run_step threads ok s
      | AWorker i o1 o2 => work i o1 o2 s
      | AElapse => Some (set_ctl (set_queue q_elapse (ctl s)) s)
      end
  | _, _ => None
  end.

Fixpoint exec (tr : list act) (s : running) : option running :=
  match tr with
  | [] => Some s
  | a :: tr' => match step a s with Some s' => exec tr' s' | None => None end
  end.

(** The agent when [main] enters its loop: what [main_wire] made of the
    informers, and a new controller over a new manager. *)
Definition start (services : Informer v1_Service I CS) (slices : Informer v1_EndpointSlice I CE)
    (q : Q) (m : ServiceManager SM BM) : running :=
  mkRunning Main.initial (go_initial services) (go_initial slices)
    (NewController q m (fun _ => None) (fun _ => None)) WaitSync [] None (fun _ => None) [].

Definition agent_start {R} `{!LabelOps R} (r : R) (q : Q) (m : ServiceManager SM BM) : running :=
  start (wired_informer "services" r) (wired_informer "endpointslices" r) q m.

End running.
Arguments running SM BM Q I CS CE : clear implicits.

End Running.
