(* ===== verification/RunningInv.v ===== *)
(** * The invariant of the running agent

    What every step of the agent keeps: the informers' invariants, how far
    [controller.Run] and the workers are, when the queue is shut down, what the
    stores and the queue hold. *)

From Stdlib Require Import ZArith Lia String.
From stdpp Require Import base gmap list strings.
From S2P Require Import Prelude GoStrings Layout BpfMap GoSet Manager ManagerSpec Main Controller ControllerSpec Closed Informer InformerRun Resources Running.
Import GoStrings Layout BpfMap GoSet Manager ManagerSpec Controller ControllerSpec Closed Informer InformerRun Resources Running.

Local Open Scope Z_scope.
Local Open Scope go_scope.

Module RunningInv.

Section properties.
Context {SM BM Q I CS CE : Type} `{!MapOps lb4_key lb4_service SM} `{!MapOps Z lb4_backend BM}.
Context `{!QueueOps Q} `{!QueueSpec Q} `{!KeyFunc} `{!KeyFuncSpec} `{!IndexerOps I} `{!IndexerSpec I}.
Context `{!CacheOps v1_Service CS} `{!CacheOps v1_EndpointSlice CE}.
Context `{!CacheSpec CS} `{!CacheSpec CE}.
Implicit Type s : running SM BM Q I CS CE.

(** ** Steps *)

Lemma exec_app tr tr' s : exec (tr ++ tr') s = exec tr s ≫= exec tr'.
Proof. revert s. induction tr as [|a tr IH]; intros s; cbn; [done|]. destruct (step a s); [apply IH|done]. Qed.

(** Every action of the run has the property [A] in the state it is taken in. *)
Fixpoint along (A : act -> running SM BM Q I CS CE -> bool) (tr : list act) s : bool :=
  match tr with
  | [] => true
  | a :: tr' => A a s && match step a s with Some s' => along A tr' s' | None => true end
  end.

(** A property that holds at the start and that every step keeps, given what
    [A] says of its action and state and [B] of its action, holds in every state. *)
Lemma exec_invariant_along A (B : act -> Prop) (P : running SM BM Q I CS CE -> Prop) tr s s' :
  (forall a s s', A a s = true -> B a -> P s -> step a s = Some s' -> P s') ->
  along A tr s = true -> Forall B tr -> P s -> exec tr s = Some s' -> P s'.
Proof.
  intros Hstep Ha Hb. revert s Ha. induction Hb as [|a tr Hb _ IH]; intros s; cbn.
  - intros _ Hs. by intros [= <-].
  - intros [Ha Hal]%andb_true_iff Hs. destruct (step a s) as [s1|] eqn:E; [|done].
    apply IH; [done|]. by eapply Hstep.
Qed.

Lemma along_true tr s : along (fun _ _ => true) tr s = true.
Proof. revert s. induction tr as [|a tr IH]; intros s; cbn; [done|]. by destruct (step a s). Qed.

Lemma exec_invariant_given (B : act -> Prop) (P : running SM BM Q I CS CE -> Prop) tr s s' :
  (forall a s s', B a -> P s -> step a s = Some s' -> P s') ->
  Forall B tr -> P s -> exec tr s = Some s' -> P s'.
Proof.
  intros Hstep. apply (exec_invariant_along (fun _ _ => true)); [by eauto|by apply along_true].
Qed.

Lemma exec_invariant (P : running SM BM Q I CS CE -> Prop) tr s s' :
  (forall a s s', P s -> step a s = Some s' -> P s') -> P s -> exec tr s = Some s' -> P s'.
Proof.
  intros Hstep. apply (exec_invariant_given (fun _ => True)); [by eauto|by apply Forall_true].
Qed.

(** What the shared controller goes through in a step that does not shut the
    queue down. *)
Definition quiet (c c' : Controller SM BM Q) : Prop :=
  MaxRetries c' = MaxRetries c /\ q_shutting_down (Workqueue c') = q_shutting_down (Workqueue c).

Lemma quiet_refl c : quiet c c.
Proof. done. Qed.

Lemma quiet_queue c f : q_shutting_down (f (Workqueue c)) = q_shutting_down (Workqueue c) ->
  quiet c (set_queue f c).
Proof. by intros E. Qed.

Lemma settle_cases obj err (c : Controller SM BM Q) :
  (settle obj err c).2 = set_queue (match err with
    | None => q_forget obj
    | Some _ => if (MaxRetries c =? 0) || (q_num_requeues (Workqueue c) obj <? MaxRetries c)
                then q_add_rate_limited obj else id
    end) c.
Proof.
  unfold settle, bind, get, modify, ret. destruct err as [err|]; [|done].
  destruct ((MaxRetries c =? 0) || _); [done|by destruct c].
Qed.

(** The handlers of the controller put at most a key on the queue. *)
Lemma handle_event_cases convert e (c : Controller SM BM Q) :
  (handle_event convert e c).2 = c \/
  exists key, (handle_event convert e c).2 = set_queue (q_add (StringItem key)) c.
Proof.
  assert (exists obj, handle_event convert e c = Enqueue obj c) as [obj ->] by (destruct e; by eexists).
  destruct (Enqueue_cases obj c) as [->|[key ->]]; [by left|right; by exists key].
Qed.

Lemma call_service_cases s : exists c, call_service s = set_ctl c s /\
  (c = ctl s \/ exists key, c = set_queue (q_add (StringItem key)) (ctl s)).
Proof.
  assert (s = set_ctl (ctl s) s) as Es by by destruct s.
  unfold call_service. destruct (pc (svc s)) as [| | |n e ds|]; try (exists (ctl s); by split; [|left]).
  case_decide; [|exists (ctl s); by split; [|left]].
  eexists. split; [done|]. apply handle_event_cases.
Qed.

Lemma call_slice_cases s : exists c l, call_slice s = set_lost (l ++ lost s) (set_ctl c s) /\
  (c = ctl s \/ exists key, c = set_queue (q_add (StringItem key)) (ctl s)).
Proof.
  assert (s = set_lost ([] ++ lost s) (set_ctl (ctl s) s)) as Es by by destruct s.
  unfold call_slice. destruct (pc (slc s)) as [| | |n e ds|]; try (exists (ctl s), []; by split; [|left]).
  case_decide; [|exists (ctl s), []; by split; [|left]].
  eexists _, _. split; [done|]. apply handle_event_cases.
Qed.

Lemma add_quiet c c' : c' = c \/ (exists key, c' = set_queue (q_add (StringItem key)) c) -> quiet c c'.
Proof. intros [->|[key ->]]; [done|]. apply quiet_queue. by autorewrite with queue. Qed.

(** *** Steps of a worker

    [moved]: a worker at [w] goes on to [w'], with the controller [c] and the
    history [f] afterwards; a worker that cannot panic. *)
Inductive moved (o1 o2 : list Ports) s :
    worker_pc -> worker_pc -> Controller SM BM Q -> (string -> option EndpointSlice) -> Prop :=
  | MSelect : moved o1 o2 s AtSelect (if stop_closed s then Finished else Idle) (ctl s) (seen s)
  | MGet obj q : q_blocks (queue_of s) = false -> q_get (queue_of s) = (Some obj, q) ->
      moved o1 o2 s Idle (Taken obj) (set_queue (fun _ => q) (ctl s)) (seen s)
  | MQuit : q_blocks (queue_of s) = false -> q_shutting_down (queue_of s) = true ->
      moved o1 o2 s Idle AtSelect (ctl s) (seen s)
  | MOther n :
      moved o1 o2 s (Taken (OtherItem n)) (Settled (OtherItem n))
        (set_queue (q_forget (OtherItem n)) (ctl s)) (seen s)
  | MLook key : moved o1 o2 s (Taken (StringItem key)) (look_slice s key) (ctl s) (seen s)
  | MFind key l o : slice_at s l = Some o ->
      moved o1 o2 s (Looked key l) (look_service s key l (k8s_slice o)) (ctl s) (seen s)
  | MHandle key l l' o o' err m : slice_at s l = Some o -> service_at s l' = Some o' ->
      handle_found (k8s_service o') (k8s_slice o) o1 o2 (serviceManager (ctl s)) = (Returns err, m) ->
      moved o1 o2 s (Found key l l') (Handled (StringItem key) err) (set_manager m (ctl s))
        (match err with None => see key (k8s_slice o) (seen s) | Some _ => seen s end)
  | MSettle obj err :
      moved o1 o2 s (Handled obj err) (Settled obj)
        (set_queue (match err with
           | None => q_forget obj
           | Some _ => if (MaxRetries (ctl s) =? 0) || (q_num_requeues (queue_of s) obj <? MaxRetries (ctl s))
                       then q_add_rate_limited obj else id
           end) (ctl s)) (seen s)
  | MDone obj : moved o1 o2 s (Settled obj) Idle (set_queue (q_done obj) (ctl s)) (seen s).

(** The state in which the worker [i] is at [w], with the controller [c]. *)
Definition with_worker s i w c f : running SM BM Q I CS CE :=
  set_workers (<[i := w]> (workers s)) (set_seen f (set_ctl c s)).

(** On closed maps, a handler that returns does what it does on open ones. *)
Lemma handle_objects_returns s ks es o1 o2 err m :
  handle_objects s ks es o1 o2 = (Returns err, m) ->
  handle_found ks es o1 o2 (serviceManager (ctl s)) = (Returns err, m).
Proof. unfold handle_objects. case_decide; [done|]. apply handle_closed_returns. Qed.

Lemma worker_step_moved o1 o2 w s w' s' :
  worker_step o1 o2 w s = Some (inr (w', s')) ->
  exists c f, s' = set_seen f (set_ctl c s) /\ moved o1 o2 s w w' c f.
Proof.
  assert (s = set_seen (seen s) (set_ctl (ctl s) s)) as Es by by destruct s.
  destruct w as [| |[key|n]|key l|key l l'|obj err|obj|]; cbn [worker_step]; try done.
  - intros [= <- <-]. exists (ctl s), (seen s). split; [done|constructor].
  - destruct (q_blocks (queue_of s)) eqn:Eb; [done|].
    destruct (q_get (queue_of s)) as [[obj|] q] eqn:Eg; intros [= <- <-].
    + eexists _, (seen s). split; [done|by constructor].
    + destruct (get_nothing _ _ Eg) as [-> Hs]. exists (ctl s), (seen s).
      split; [by destruct s as [? ? ? []]|constructor; [done|by apply Hs]].
  - intros [= <- <-]. exists (ctl s), (seen s). split; [done|constructor].
  - intros [= <- <-]. eexists _, (seen s). split; [done|constructor].
  - destruct (slice_at s l) as [o|] eqn:El; [|done]. intros [= <- <-].
    exists (ctl s), (seen s). split; [done|by constructor].
  - destruct (slice_at s l) as [o|] eqn:El; [|done]. destruct (service_at s l') as [o'|] eqn:El'; [|done].
    destruct (handle_objects _ _ _ _ _) as [[err|p] m] eqn:Eh; [|done]. intros [= <- <-].
    exists (set_manager m (ctl s)), (match err with None => see key (k8s_slice o) (seen s) | Some _ => seen s end).
    split; [by destruct err|]. econstructor; [done..|]. by apply handle_objects_returns.
  - rewrite settle_cases. intros [= <- <-]. eexists _, (seen s). split; [done|constructor].
  - intros [= <- <-]. eexists _, (seen s). split; [done|constructor].
Qed.

(** Only a worker with a pointer panics. *)
Lemma worker_step_panics o1 o2 w s p : worker_step o1 o2 w s = Some (inl p) ->
  (exists key l, w = Looked key l) \/ exists key l l', w = Found key l l'.
Proof.
  destruct w as [| |[key|n]|key l|key l l'|obj err|obj|]; cbn [worker_step]; try done; [|eauto..|].
  - destruct (q_blocks (queue_of s)); [done|]. by destruct (q_get (queue_of s)) as [[|] ?].
  - right. by eexists _, _, _.
Qed.

Lemma work_cases i o1 o2 s s' : work i o1 o2 s = Some s' ->
  exists w, workers s !! i = Some w /\
    ((exists p, s' = crash p s /\ worker_step o1 o2 w s = Some (inl p)) \/
     (exists w' c f, moved o1 o2 s w w' c f /\ s' = with_worker s i w' c f)).
Proof.
  unfold work. destruct (workers s !! i) as [w|]; [|done]. intros E. exists w. split; [done|].
  destruct (worker_step o1 o2 w s) as [[p|[w' s1]]|] eqn:Es; [| |done]; injection E as <-.
  - left. by exists p.
  - right. destruct (worker_step_moved _ _ _ _ _ _ Es) as (c & f & -> & Hm). by exists w', c, f.
Qed.

Lemma moved_quiet o1 o2 s w w' c f : moved o1 o2 s w w' c f -> quiet (ctl s) c.
Proof.
  destruct 1 as [|obj q _ Eg| | | | | |obj err|]; try done; apply quiet_queue.
  - pose proof (shutting_get (queue_of s)) as Hs. by rewrite Eg in Hs.
  - by autorewrite with queue.
  - destruct err; [destruct ((MaxRetries _ =? 0) || _)|]; by autorewrite with queue.
  - by autorewrite with queue.
Qed.

(** ** The pointers of a worker

    What a worker has got from a store stays allocated: it is the object that
    was looked up, or it has been cleared since. *)

(** Every entry of a store points to an object of its type and its key. *)
Definition store_typed {T C} `{!Object T} `{!CacheOps T C} (g : goroutine T I C) : Prop :=
  forall k o, i_get (indexer (inf g)) k = Some o ->
    exists l v, o = Pointer l /\ i_heap (inf g) !! l = Some v /\ delta_key v = k.

Lemma fold_key {T} `{!Object T} `{!ObjectSpec T} (ds : list (rdelta T)) k v :
  fold_left apply_delta ds (fun _ => None) k = Some v -> delta_key v = k.
Proof.
  revert k v. induction ds as [|d ds IH] using rev_ind; intros k v; [done|].
  rewrite fold_left_app. cbn [fold_left]. unfold apply_delta at 1. case_decide as Hk; [|apply IH].
  subst k. destruct d as [[] l o|]; try done; intros [= <-]; by rewrite delta_key_copy.
Qed.

Lemma good_typed {T C} `{!Object T} `{!ObjectSpec T} `{!CacheOps T C} h (g : goroutine T I C) :
  good h g -> store_typed g.
Proof.
  intros Hg k o Hk. destruct (good_store _ _ Hg _ _ Hk) as (l & -> & v & Hv). exists l, v.
  split_and!; try done. apply (fold_key (handled g)). rewrite <- (good_stored _ _ Hg).
  unfold stored. by rewrite Hk.
Qed.

Lemma pointer_typed {T C} `{!Object T} `{!ObjectSpec T} `{!CacheOps T C} h (g : goroutine T I C) k l :
  good h g -> known_pointer (indexer (inf g)) k = Some l ->
  exists o, i_heap (inf g) !! l = Some o /\ delta_key o = k.
Proof.
  intros Hg%good_typed. unfold known_pointer. destruct (i_get (indexer (inf g)) k) as [d|] eqn:Ek; [|done].
  destruct (Hg _ _ Ek) as (l' & o & -> & Ho & Hk). intros [= ->]. by exists o.
Qed.

Definition slice_for (key : string) (o : v1_EndpointSlice) : Prop :=
  exists ns n, key_slice key = Some (ns, n) /\ delta_key o = (ns ++ "/" ++ n)%string.
Definition service_for (key : string) (o : v1_EndpointSlice) (o' : v1_Service) : Prop :=
  exists ns n, key_slice key = Some (ns, n) /\ delta_key o' = (ns ++ "/" ++ slice_service (k8s_slice o))%string.

Definition pointers_ok s (w : worker_pc) : Prop :=
  match w with
  | Looked key l => exists o, slice_at s l = Some o /\ key_slice key <> None /\ (o = obj_zero \/ slice_for key o)
  | Found key l l' => exists o o', slice_at s l = Some o /\ service_at s l' = Some o' /\
      (o = obj_zero \/ slice_for key o) /\ (o = obj_zero \/ o' = obj_zero \/ service_for key o o')
  | _ => True
  end.

Lemma pointers_keep s s' w :
  (forall l o, slice_at s l = Some o -> slice_at s' l = Some o \/ slice_at s' l = Some obj_zero) ->
  (forall l o, service_at s l = Some o -> service_at s' l = Some o \/ service_at s' l = Some obj_zero) ->
  pointers_ok s w -> pointers_ok s' w.
Proof.
  intros Hl Hv. destruct w as [| | |key l|key l l'| | |]; try done; cbn.
  - intros (o & Ho & Hk & Hf). destruct (Hl l o Ho) as [E|E]; rewrite E; eexists; eauto.
  - intros (o & o' & Ho & Ho' & Hf & Hf').
    destruct (Hl l o Ho) as [E|E], (Hv l' o' Ho') as [E'|E']; rewrite E, E'; eexists _, _; eauto 8.
Qed.

Lemma pointers_same s s' w : svc s' = svc s -> slc s' = slc s -> pointers_ok s w -> pointers_ok s' w.
Proof. intros E1 E2. apply pointers_keep; unfold slice_at, service_at; rewrite ?E1, ?E2; by left. Qed.

(** ** The invariant *)

Definition returned s : Prop := exists err, run s = RunReturned err.

Record inv s : Prop := {
  inv_svc : good controller_handler (svc s);
  inv_slc : good controller_handler (slc s);
  inv_retries : MaxRetries (ctl s) = 0;
  inv_synced : (match run s with Spawning _ | WaitStop => True | _ => workers s <> [] end) ->
    first_done (svc s) /\ first_done (slc s);
  inv_workers : match run s with
    | WaitSync => workers s = []
    | Spawning n => (length (workers s) + n = threads)%nat
    | _ => (length (workers s) <= threads)%nat
    end;
  inv_shut : q_shutting_down (queue_of s) = true <-> returned s;
  inv_stop : returned s -> stop_closed s = true;
  inv_crash p : crashed s = Some p -> exists i key l l', workers s !! i = Some (Found key l l');
  inv_pointers w : w ∈ workers s -> pointers_ok s w
}.

Lemma act_stop_closed a p p' :
  Main.act a p = Some p' -> Main.stop_closed p = true -> Main.stop_closed p' = true.
Proof.
  unfold Main.act. destruct (Main.ended p); [done|]. destruct a as [sg| |]; intros E Hs.
  - injection E as <-. unfold Main.deliver. by repeat case_match.
  - unfold Main.handler_step in E. destruct (Main.handler p), (Main.pending p); by simplify_eq.
  - injection E as <-. unfold Main.main_step. by repeat case_match.
Qed.

(** What a worker gets from a store, it gets with the object's key. *)
Lemma moved_pointers o1 o2 s w w' c f :
  good controller_handler (svc s) -> good controller_handler (slc s) ->
  moved o1 o2 s w w' c f -> pointers_ok s w -> pointers_ok s w'.
Proof.
  intros Hv Hl Hm. destruct Hm as [| | | |key|key l o Ho| | |]; try done.
  - by destruct (stop_closed s).
  - intros _. unfold look_slice. destruct (key_slice key) as [[ns n]|] eqn:Ek; [|done].
    destruct (slice_pointer s ns n) as [l|] eqn:El; [|done].
    destruct (pointer_typed _ _ _ _ Hl El) as (o & Ho & Hk). exists o. split_and!; [done|by rewrite Ek|].
    right. by exists ns, n.
  - intros (o1' & Ho1 & Hk & Hf). unfold look_service. destruct (key_slice key) as [[ns n]|] eqn:Ek; [|done].
    cbn. destruct (service_pointer s ns _) as [l'|] eqn:El'; [|done].
    assert (o1' = o) as -> by (unfold slice_at in *; congruence).
    destruct (pointer_typed _ _ _ _ Hv El') as (o' & Ho' & Hk'). exists o, o'. split_and!; try done.
    right. right. by exists ns, n.
Qed.

(** With its pointers, only the work on both objects can panic. *)
Lemma pointers_panics o1 o2 s w p : pointers_ok s w -> worker_step o1 o2 w s = Some (inl p) ->
  exists key l l' o o', w = Found key l l' /\ slice_at s l = Some o /\ service_at s l' = Some o' /\
    (handle_objects s (k8s_service o') (k8s_slice o) o1 o2).1 = Panics p.
Proof.
  intros Hw E. destruct (worker_step_panics _ _ _ _ _ E) as [(key & l & ->)|(key & l & l' & ->)]; cbn in E.
  - destruct Hw as (o & Ho & _). by rewrite Ho in E.
  - destruct Hw as (o & o' & Ho & Ho' & _). rewrite Ho, Ho' in E.
    destruct (handle_objects _ _ _ _ _) as [[err|p'] m] eqn:Eh; [done|]. injection E as ->.
    exists key, l, l', o, o'. by rewrite Eh.
Qed.

Lemma inv_same s s' :
  inv s -> svc s' = svc s -> slc s' = slc s -> quiet (ctl s) (ctl s') -> run s' = run s ->
  length (workers s') = length (workers s) -> (forall w, w ∈ workers s' -> pointers_ok s w) ->
  (stop_closed s = true -> stop_closed s' = true) -> crashed s' = None -> inv s'.
Proof.
  intros [H1 H2 H3 H4 H5 H6 H7 H8 H9] E1 E2 [E3 E4] E5 E6 Hw E7 E8. unfold returned, queue_of in *.
  assert (workers s' <> [] <-> workers s <> []) as Ew.
  { rewrite <- !length_zero_iff_nil. by rewrite E6. }
  constructor; unfold returned, queue_of; rewrite ?E1, ?E2, ?E3, ?E4, ?E5, ?E6, ?E8; try done.
  - destruct (run s); tauto.
  - destruct (run s); try done. apply length_zero_iff_nil. by rewrite E6, H5.
  - auto.
  - intros w Hin. apply (pointers_same s); auto.
Qed.

(** A step of an informer that changes the controller by an event at most. *)
Lemma inv_informers s s' :
  inv s -> good controller_handler (svc s') -> good controller_handler (slc s') ->
  (first_done (svc s) -> first_done (svc s')) -> (first_done (slc s) -> first_done (slc s')) ->
  svc s' = svc s \/ memory_step (svc s) (svc s') -> slc s' = slc s \/ memory_step (slc s) (slc s') ->
  quiet (ctl s) (ctl s') -> run s' = run s -> workers s' = workers s -> proc s' = proc s ->
  crashed s' = None -> inv s'.
Proof.
  intros [H1 H2 H3 H4 H5 H6 H7 H8 H9] G1 G2 F1 F2 M1 M2 [E3 E4] E5 E6 E7 E8.
  constructor; unfold returned, queue_of, stop_closed in *;
    rewrite ?E3, ?E4, ?E5, ?E6, ?E7, ?E8; try done.
  - intros Hrun. destruct (H4 Hrun). auto.
  - intros w Hin. apply (pointers_keep s); [..|by apply H9].
    + intros l o. unfold slice_at. destruct M2 as [->|M2]; [by left|by apply memory_kept].
    + intros l o. unfold service_at. destruct M1 as [->|M1]; [by left|by apply memory_kept].
Qed.

Lemma inv_run_step ok s s' : inv s -> crashed s = None -> run_step threads ok s = Some s' -> inv s'.
Proof.
  intros [H1 H2 H3 H4 H5 H6 H7 H8 H9] Hc. unfold run_step.
  assert (forall err, stop_closed s = true -> (match run s with WaitSync | WaitStop => True | _ => False end) ->
    inv (shut_down err s)) as Hshut.
  { intros err Hst Hr. constructor; unfold returned, queue_of; cbn; try done.
    - destruct (run s); [|done|tauto|done]. intros []. done.
    - destruct (run s); [by rewrite H5; cbn; lia|done..].
    - autorewrite with queue. split; [by eexists|done]. }
  assert (forall r ws, (forall err, run s <> RunReturned err) ->
    (forall err, r <> RunReturned err) -> first_done (svc s) /\ first_done (slc s) ->
    match r with WaitSync => ws = [] | Spawning n => (length ws + n = threads)%nat
               | _ => (length ws <= threads)%nat end ->
    (forall w, w ∈ ws -> pointers_ok s w) -> inv (set_run r (set_workers ws s))) as Hset.
  { intros r ws Hnr Hr Hf Hw Hp. constructor; unfold returned, queue_of in *; cbn; try done.
    - rewrite H6. split; intros [err Herr]; exfalso; [exact (Hnr err Herr)|exact (Hr err Herr)].
    - intros [err Herr]. exfalso. by eapply Hr.
    - by rewrite Hc. }
  assert (s = set_workers (workers s) s) as Es by by destruct s.
  destruct (run s) as [|[|n]| |] eqn:Er; [destruct ok| | | |done].
  - unfold all_synced. destruct (synced (slc s)) eqn:Ss, (synced (svc s)) eqn:Sv; try done.
    intros [= <-]. rewrite Es. apply Hset; try done.
    + split; by eapply good_synced.
    + rewrite H5. done.
  - destruct (stop_closed s) eqn:Est; [|done]. intros [= <-]. by apply Hshut.
  - intros [= <-]. rewrite Es. apply Hset; try done; [by apply H4|lia].
  - intros [= <-]. apply Hset; try done; [by apply H4|rewrite length_app; cbn; lia|].
    intros w [?| ->%list_elem_of_singleton]%elem_of_app; [by apply H9|done].
  - destruct (stop_closed s) eqn:Est; [|done]. intros [= <-]. by apply Hshut.
Qed.

Lemma inv_work i o1 o2 s s' : inv s -> crashed s = None -> work i o1 o2 s = Some s' -> inv s'.
Proof.
  intros Hs Hc (w & Hw & [(p & -> & Hp)|(w' & c & f & Hm & ->)])%work_cases;
    pose proof (inv_pointers _ Hs w (list_elem_of_lookup_2 _ _ _ Hw)) as Hok.
  - destruct (pointers_panics _ _ _ _ _ Hok Hp) as (key & l & l' & _ & _ & -> & _).
    destruct Hs as [H1 H2 H3 H4 H5 H6 H7 H8 H9]. constructor; cbn; try done. by eauto.
  - eapply inv_same; [exact Hs|..]; try done; [by eapply moved_quiet|cbn; apply length_insert|].
    intros w0 [->|Hin]%elem_of_list_insert; [|by apply Hs].
    eapply moved_pointers; [apply Hs..|exact Hm|exact Hok].
Qed.

Lemma inv_step a s s' : inv s -> step a s = Some s' -> inv s'.
Proof.
  intros Hs. unfold step. destruct (crashed s) eqn:Hc; [done|].
  destruct (Main.ended (proc s)); [done|]. destruct a as [a|a|a|ok|i o1 o2|].
  - destruct (Main.act a (proc s)) as [p|] eqn:E; [|done]. intros [= <-].
    eapply inv_same; try done; [apply Hs|by eapply act_stop_closed].
  - unfold service_step. destruct (inf_step _ a (svc s)) as [r|] eqn:E; [|done].
    destruct (good_step _ _ _ _ _ (inv_svc _ Hs) E) as (g & -> & Hg & Hx). intros [= <-].
    pose proof (memory_run _ _ _ _ _ (inv_svc _ Hs) E) as Hmem.
    destruct (call_service_cases s) as (c & Ec & Hcq).
    destruct a; try rewrite Ec; eapply inv_informers; try done; try apply Hs;
      try (by apply extends_first_done); try (by left); try (by right); by apply add_quiet.
  - unfold slice_step. destruct (inf_step _ a (slc s)) as [r|] eqn:E; [|done].
    destruct (good_step _ _ _ _ _ (inv_slc _ Hs) E) as (g & -> & Hg & Hx). intros [= <-].
    pose proof (memory_run _ _ _ _ _ (inv_slc _ Hs) E) as Hmem.
    destruct (call_slice_cases s) as (c & l & Ec & Hcq).
    destruct a; try rewrite Ec; eapply inv_informers; try done; try apply Hs;
      try (by apply extends_first_done); try (by left); try (by right); by apply add_quiet.
  - by apply inv_run_step.
  - by apply inv_work.
  - intros [= <-]. eapply inv_same; try done; [apply quiet_queue; by autorewrite with queue|apply Hs].
Qed.

(** The deltas processed are never forgotten. *)
Lemma handled_step a s s' : inv s -> step a s = Some s' ->
  (exists ds, handled (svc s') = handled (svc s) ++ ds) /\ (exists ds, handled (slc s') = handled (slc s) ++ ds).
Proof.
  intros Hi E. unfold step in E. destruct (crashed s); [done|]. destruct (Main.ended (proc s)); [done|].
  assert (forall s1, svc s1 = svc s -> slc s1 = slc s -> (exists ds, handled (svc s1) = handled (svc s) ++ ds) /\
    (exists ds, handled (slc s1) = handled (slc s) ++ ds)) as Hsame.
  { intros s1 -> ->. split; exists []; by rewrite app_nil_r. }
  destruct a as [a|a|a|ok|i o1 o2|]; cbn in E.
  - destruct (Main.act a (proc s)); [|done]. injection E as <-. by apply Hsame.
  - unfold service_step in E. destruct (inf_step _ a (svc s)) as [r|] eqn:Es; [|done].
    destruct (good_step _ _ _ _ _ (inv_svc _ Hi) Es) as (g & -> & _ & _ & Hx & _). injection E as <-.
    split; [done|]. exists []. rewrite app_nil_r. destruct (call_service_cases s) as (c & Ec & _).
    by destruct a; try rewrite Ec.
  - unfold slice_step in E. destruct (inf_step _ a (slc s)) as [r|] eqn:Es; [|done].
    destruct (good_step _ _ _ _ _ (inv_slc _ Hi) Es) as (g & -> & _ & _ & Hx & _). injection E as <-.
    split; [|done]. exists []. rewrite app_nil_r. destruct (call_slice_cases s) as (c & l & Ec & _).
    by destruct a; try rewrite Ec.
  - unfold run_step in E.
    destruct (run s) as [|[|k]| |]; [destruct ok; [destruct (all_synced s)|destruct (stop_closed s)]|..
      |destruct (stop_closed s)|]; try done; injection E as <-; by apply Hsame.
  - apply work_cases in E as (w & _ & [(p & -> & _)|(w' & c & f & _ & ->)]); by apply Hsame.
  - injection E as <-. by apply Hsame.
Qed.

Lemma step_returned a s s' : step a s = Some s' -> returned s -> returned s'.
Proof.
  unfold step. destruct (crashed s); [done|]. destruct (Main.ended (proc s)); [done|].
  intros E [err Herr]. destruct a as [a|a|a|ok|i o1 o2|]; cbn in E.
  - destruct (Main.act a (proc s)); [|done]. injection E as <-. by exists err.
  - unfold service_step in E. destruct (inf_step _ a (svc s)) as [[p|g]|]; [| |done]; injection E as <-;
      [by exists err|]. exists err. cbn. destruct (call_service_cases s) as (c & Ec & _).
    destruct a; try done. by rewrite Ec.
  - unfold slice_step in E. destruct (inf_step _ a (slc s)) as [[p|g]|]; [| |done]; injection E as <-;
      [by exists err|]. exists err. cbn. destruct (call_slice_cases s) as (c & l & Ec & _).
    destruct a; try done. by rewrite Ec.
  - unfold run_step in E. by rewrite Herr in E.
  - apply work_cases in E as (w & _ & [(p & -> & _)|(w' & c & f & _ & ->)]); by exists err.
  - injection E as <-. by exists err.
Qed.

Lemma shutting_step a s s' : inv s -> inv s' -> step a s = Some s' ->
  q_shutting_down (queue_of s') = false -> q_shutting_down (queue_of s) = false.
Proof.
  intros Hs Hs' E Hn. apply not_true_iff_false. intros Ht. apply (inv_shut _ Hs) in Ht.
  apply (step_returned _ _ _ E), (inv_shut _ Hs') in Ht. congruence.
Qed.

(** ** Well-typed states *)

Definition is_key (x : item) : Prop := exists key, x = StringItem key.

Definition item_of (w : worker_pc) : list item :=
  match w with Taken x | Handled x _ | Settled x => [x] | _ => [] end.

(** Items are values of type [interface{}]; all of them are strings. *)
Record keys_only s : Prop := {
  keys_dirty x : q_dirty (queue_of s) x -> is_key x;
  keys_delayed x : q_shutting_down (queue_of s) = false -> q_delayed (queue_of s) x -> is_key x;
  keys_workers w x : w ∈ workers s -> x ∈ item_of w -> is_key x
}.

Lemma keys_only_keep s s' :
  keys_only s -> (forall x, q_dirty (queue_of s') x -> q_dirty (queue_of s) x \/ is_key x) ->
  (q_shutting_down (queue_of s') = false -> q_shutting_down (queue_of s) = false /\
     forall x, q_delayed (queue_of s') x -> q_pending (queue_of s) x \/ is_key x) ->
  (forall w x, w ∈ workers s' -> x ∈ item_of w -> w ∈ workers s \/ is_key x) -> keys_only s'.
Proof.
  intros [K1 K2 K3] H1 H2 H3. constructor.
  - intros x [?|?]%H1; auto.
  - intros x Hs Hx. destruct (H2 Hs) as [Hs' Hd]. destruct (Hd x Hx) as [[?|?]|?]; auto.
  - intros w x Hw Hx. destruct (H3 w x Hw Hx) as [?|?]; [by eapply K3|done].
Qed.

Lemma keys_only_same s s' :
  keys_only s -> queue_of s' = queue_of s -> workers s' = workers s -> keys_only s'.
Proof.
  intros Hk Eq Ew. apply (keys_only_keep s); [done|..]; rewrite ?Eq, ?Ew; [by left| |by left].
  intros ?. split; [done|]. intros x ?. left. by right.
Qed.

Lemma keys_event s c :
  keys_only s -> c = ctl s \/ (exists key, c = set_queue (q_add (StringItem key)) (ctl s)) ->
  keys_only (set_ctl c s).
Proof.
  intros Hk [->|[key ->]]; [by apply (keys_only_same s)|].
  apply (keys_only_keep s); [done|..|by left].
  - intros x. unfold queue_of. cbn. destruct (q_shutting_down (Workqueue (ctl s))) eqn:Es.
    + rewrite add_shut by done. by left.
    + rewrite dirty_add by done. intros [<-|?]; [right; by eexists|by left].
  - unfold queue_of. cbn. autorewrite with queue. intros Hs. split; [done|].
    intros x. autorewrite with queue. intros ?. left. by right.
Qed.

(** A step of a worker hands out a dirty item, adds no dirty one, and only
    delays the item it has. *)
Lemma moved_pending o1 o2 s w w' c f :
  moved o1 o2 s w w' c f ->
  (forall x, q_dirty (Workqueue c) x -> q_dirty (queue_of s) x) /\
  (q_shutting_down (queue_of s) = false -> forall x, q_delayed (Workqueue c) x ->
     q_delayed (queue_of s) x \/ x ∈ item_of w) /\
  (forall x, x ∈ item_of w' -> x ∈ item_of w \/ q_dirty (queue_of s) x \/ is_key x).
Proof.
  destruct 1 as [|obj q _ Eg| | |key|key l o _|key l l' o o' err m _ _ _|obj err|obj];
    (split_and!; [intros x; try (by autorewrite with queue)|intros Hs x; cbn; try (autorewrite with queue; tauto)
      |intros x Hx; try (by left)]); cbn in *; auto.
  - destruct (stop_closed s); by apply not_elem_of_nil in Hx.
  - intros Hx. by apply (dirty_get _ _ _ Eg).
  - intros Hx. left. by apply (delayed_get _ _ _ Eg).
  - apply list_elem_of_singleton in Hx as ->. right. left. exact (proj1 (dirty_get _ _ _ Eg)).
  - by autorewrite with queue.
  - left. unfold look_slice in Hx. destruct (key_slice key) as [[ns n]|]; [|done].
    destruct (slice_pointer s ns n); [by apply not_elem_of_nil in Hx|done].
  - right. right. unfold look_service in Hx.
    destruct (service_pointer s _ _); [by apply not_elem_of_nil in Hx|].
    apply list_elem_of_singleton in Hx as ->. by eexists.
  - apply list_elem_of_singleton in Hx as ->. right. right. by eexists.
  - destruct err; [destruct ((MaxRetries _ =? 0) || _)|]; by autorewrite with queue.
  - destruct err; [destruct ((MaxRetries _ =? 0) || _)|]; cbn [id]; autorewrite with queue; auto.
    rewrite delayed_add_rate_limited by done. intros [<-|?]; [right; by left|by left].
  - by autorewrite with queue.
  - by apply not_elem_of_nil in Hx.
Qed.

Lemma keys_work i o1 o2 s s' : keys_only s -> work i o1 o2 s = Some s' -> keys_only s'.
Proof.
  intros Hk (w & Hw & [(p & -> & _)|(w' & c & f & Hm & ->)])%work_cases;
    [by apply (keys_only_same s)|].
  pose proof (list_elem_of_lookup_2 _ _ _ Hw) as Hin.
  destruct (moved_quiet _ _ _ _ _ _ _ Hm) as [_ Hq].
  destruct (moved_pending _ _ _ _ _ _ _ Hm) as (Hd & Hdel & Hit).
  assert (forall x, x ∈ item_of w -> is_key x) as Hw0 by (intros x; by apply (keys_workers _ Hk w)).
  apply (keys_only_keep s); [done| | |].
  - intros x Hx. left. by apply Hd.
  - intros Hs. change (q_shutting_down (Workqueue c) = false) in Hs. unfold queue_of in *. rewrite <- Hq.
    split; [done|]. intros x [?|?]%Hdel; [left; by right|right; auto|congruence].
  - intros w0 x [->|?]%elem_of_list_insert Hx; [right|by left].
    destruct (Hit x Hx) as [?|[?|?]]; auto. by apply (keys_dirty _ Hk).
Qed.

Lemma keys_step a s s' : keys_only s -> step a s = Some s' -> keys_only s'.
Proof.
  intros Hk E. unfold step in E. destruct (crashed s); [done|]. destruct (Main.ended (proc s)); [done|].
  pose proof (keys_only_same s) as Hsame.
  destruct a as [a|a|a|ok|i o1 o2|]; cbn in E.
  - destruct (Main.act a (proc s)); [|done]. injection E as <-. by apply Hsame.
  - unfold service_step in E. destruct (inf_step _ a (svc s)) as [[p|g]|]; [| |done]; injection E as <-;
      [by apply Hsame|]. destruct (call_service_cases s) as (c & Ec & Hcq).
    destruct a; try (by apply Hsame). rewrite Ec. by destruct (keys_event s c Hk Hcq).
  - unfold slice_step in E. destruct (inf_step _ a (slc s)) as [[p|g]|]; [| |done]; injection E as <-;
      [by apply Hsame|]. destruct (call_slice_cases s) as (c & l1 & Ec & Hcq).
    destruct a; try (by apply Hsame). rewrite Ec. by destruct (keys_event s c Hk Hcq).
  - unfold run_step in E.
    assert (forall err, keys_only (shut_down err s)) as Hshut.
    { intros err. apply (keys_only_keep s); [done|..|by left]; unfold queue_of; cbn; [|by autorewrite with queue].
      intros x. autorewrite with queue. by left. }
    destruct (run s) as [|[|k]| |]; [destruct ok; [destruct (all_synced s)|destruct (stop_closed s)]|..
      |destruct (stop_closed s)|]; try done; injection E as <-; try (by apply Hsame); try apply Hshut.
    apply (keys_only_keep s); [done|by left|intros ?; split; [done|]; intros x ?; left; by right|].
    intros w x [?| ->%list_elem_of_singleton]%elem_of_app Hx; [by left|by apply not_elem_of_nil in Hx].
  - by apply (keys_work i o1 o2 s).
  - injection E as <-. apply (keys_only_keep s); [done|..|by left]; unfold queue_of; cbn.
    + intros x. destruct (q_shutting_down (Workqueue (ctl s))) eqn:Es; [left; by apply elapse_shut|].
      intros Hx. assert (q_pending (Workqueue (ctl s)) x) as [?|?]; [|by left|].
      * apply pending_elapse; [done|]. by left.
      * right. by apply (keys_delayed _ Hk).
    + autorewrite with queue. intros Hs. split; [done|]. intros x Hx. left.
      apply pending_elapse; [done|]. by right.
Qed.

(** ** From the start *)

Context {R : Type} `{!LabelOps R}.

Lemma inv_start (r : R) (q : Q) (m : ServiceManager SM BM) :
  q_shutting_down q = false -> inv (agent_start r q m).
Proof.
  intros Hq. constructor; try done.
  - apply good_initial; try done. intros k. apply get_new.
  - apply good_initial; try done. intros k. apply get_new.
  - unfold queue_of. cbn. rewrite Hq. split; [done|]. by intros [err [=]].
  - by intros [err [=]].
  - by intros w []%not_elem_of_nil.
Qed.

Lemma reachable_inv tr (r : R) (q : Q) (m : ServiceManager SM BM) s :
  q_shutting_down q = false -> exec tr (agent_start r q m) = Some s -> inv s.
Proof. intros Hq. apply exec_invariant; [apply inv_step|by apply inv_start]. Qed.

End properties.
End RunningInv.
