(* ===== verification/RunningSpec.v ===== *)
(** * Properties of the running agent

    What holds in every interleaving of the agent's goroutines: the workers
    start after the first lists are in the stores; no change of a slice is
    lost; only the handler can crash the process; after the stop the queue is
    drained in a bounded number of steps. *)

From Stdlib Require Import ZArith Lia String.
From stdpp Require Import base gmap list strings.
From S2P Require Import Prelude Endian GoNet GoStrings Layout BpfMap Connect4 GoSet Manager ManagerSpec System Main Controller ControllerSpec Closed Informer InformerRun Resources Running RunningInv.
Import Endian GoNet GoStrings Layout BpfMap Connect4 GoSet Manager ManagerSpec System Controller ControllerSpec Closed Informer InformerRun Resources Running RunningInv.

Local Open Scope Z_scope.
Local Open Scope go_scope.

Module RunningSpec.

Section properties.
Context {SM BM Q I CS CE : Type} `{!MapOps lb4_key lb4_service SM} `{!MapOps Z lb4_backend BM}.
Context `{!QueueOps Q} `{!QueueSpec Q} `{!KeyFunc} `{!KeyFuncSpec} `{!IndexerOps I} `{!IndexerSpec I}.
Context `{!CacheOps v1_Service CS} `{!CacheOps v1_EndpointSlice CE}.
Context `{!CacheSpec CS} `{!CacheSpec CE}.
Implicit Type s : running SM BM Q I CS CE.

(** ** No change of a slice is lost *)

Definition slice_key_of (ns n : string) : string := (ns ++ "/" ++ n)%string.
Definition slice_item (k : string) : item := StringItem (EndpointSliceType ++ "/" ++ k).

(** What the store holds for a slice, as the handler would read it. *)
Definition current s (k : string) : option EndpointSlice := k8s_slice <$> stored (inf (slc s)) k.

(** The informer is in the call of the handler for the key. *)
Definition dispatching s (k : string) : Prop :=
  match pc (slc s) with
  | InHandler _ _ _ => exists d hs, handled (slc s) = hs ++ [d] /\ rkey d = k
  | _ => False
  end.

(** There is work left for the key, or its deletion came as a tombstone, which
    the handlers drop. *)
Definition outstanding s (k : string) : Prop :=
  k ∈ lost s \/ q_pending (queue_of s) (slice_item k) \/ dispatching s k.

(** A worker has the key, and will look the slice up, has found it as it is
    now, or failed; a worker that has found it has found it as it is now. *)
Definition busy (x : item) (f : loc -> Prop) (w : worker_pc) : Prop :=
  match w with
  | Taken obj | Handled obj (Some _) => obj = x
  | Looked key l | Found key l _ => StringItem key = x /\ f l
  | _ => False
  end.
Definition up_to_date (x : item) (f : loc -> Prop) (w : worker_pc) : Prop :=
  match w with Looked key l | Found key l _ => StringItem key = x -> f l | _ => True end.

(** The pointer is the one the store has. *)
Definition is_now s (ns n : string) (l : loc) : Prop := slice_pointer s ns n = Some l.

(** The store has the same for the slice as before. *)
Definition unchanged s s' (ns n : string) : Prop :=
  current s' (slice_key_of ns n) = current s (slice_key_of ns n) /\
  slice_pointer s' ns n = slice_pointer s ns n.

Definition tracked s (ns n : string) : Prop :=
  let k := slice_key_of ns n in
  outstanding s k \/
  ((exists w, w ∈ workers s /\ busy (slice_item k) (is_now s ns n) w) \/ seen s k = current s k) /\
  forall w, w ∈ workers s -> up_to_date (slice_item k) (is_now s ns n) w.

Lemma tracked_keep s s' ns n :
  (outstanding s (slice_key_of ns n) -> outstanding s' (slice_key_of ns n)) ->
  unchanged s s' ns n \/ outstanding s' (slice_key_of ns n) ->
  workers s' = workers s \/ workers s' = workers s ++ [AtSelect] ->
  seen s' = seen s -> tracked s ns n -> tracked s' ns n.
Proof.
  intros Ho [Hc|?] Hw Hse Ht; [|by left]. destruct Ht as [?|[Hb Hst]]; [left; auto|].
  destruct Hc as [Hc Hn]. unfold tracked, is_now. rewrite Hc, Hn, Hse. right. destruct Hw as [->| ->]; [done|]. split.
  - destruct Hb as [(w & Hin & Hw)|?]; [|by right]. left. exists w. rewrite elem_of_app. tauto.
  - intros w [Hin| ->%list_elem_of_singleton]%elem_of_app; [by apply Hst|done].
Qed.

Lemma pending_set_queue s f k : outstanding s k ->
  (q_pending (queue_of s) (slice_item k) -> q_pending (f (queue_of s)) (slice_item k)) ->
  outstanding (set_ctl (set_queue f (ctl s)) s) k.
Proof. intros [?|[?|?]] Hf; [by left|right; left; by apply Hf|by right; right]. Qed.

Lemma add_pending (q : Q) x y : q_shutting_down q = false -> q_pending q y -> q_pending (q_add x q) y.
Proof. intros Hs. unfold q_pending. rewrite dirty_add, delayed_add by done. tauto. Qed.

Lemma event_pending s c k :
  q_shutting_down (queue_of s) = false ->
  c = ctl s \/ (exists key, c = set_queue (q_add (StringItem key)) (ctl s)) ->
  q_pending (queue_of s) (slice_item k) -> q_pending (Workqueue c) (slice_item k).
Proof. intros Hs [->|[key ->]] Hp; [done|]. by apply add_pending. Qed.

(** What is stored is a function of the deltas processed. *)
Lemma current_handled s s' k : inv s -> inv s' -> handled (slc s') = handled (slc s) ->
  current s' k = current s k.
Proof.
  intros Hs Hs' E. unfold current.
  by rewrite (good_stored _ _ (inv_slc _ Hs)), (good_stored _ _ (inv_slc _ Hs')), E.
Qed.

Lemma unchanged_handled s s' ns n : inv s -> inv s' -> memory_step (slc s) (slc s') ->
  handled (slc s') = handled (slc s) -> unchanged s s' ns n.
Proof.
  intros Hs Hs' Hm E. split; [by apply current_handled|]. unfold slice_pointer.
  destruct (memory_stored _ _ Hm (ns ++ "/" ++ n)%string) as [?|(d & Ed & _)]; [done|].
  rewrite E in Ed. apply (f_equal length) in Ed. rewrite length_app in Ed. cbn in Ed. lia.
Qed.

(** What the store's pointer points to is what the store holds. *)
Lemma current_pointer s ns n l o :
  slice_pointer s ns n = Some l -> slice_at s l = Some o ->
  current s (slice_key_of ns n) = Some (k8s_slice o).
Proof.
  unfold slice_pointer, slice_at, current, stored, known_pointer, slice_key_of.
  destruct (i_get _ _) as [[l'| |]|]; try done. by intros [= ->] ->.
Qed.

(** The call of the handler for a delta queues its key, or loses it. *)
Lemma call_slice_outstanding s n e ds :
  inv s -> pc (slc s) = InHandler n e ds -> q_shutting_down (queue_of s) = false ->
  forall k, dispatching s k -> k ∈ lost (call_slice s) \/ q_pending (queue_of (call_slice s)) (slice_item k).
Proof.
  intros Hs Epc Hns k. unfold dispatching, call_slice. rewrite Epc. intros (d & hs & Ehs & <-).
  pose proof (good_event _ _ (inv_slc _ Hs)) as He. rewrite Epc in He.
  destruct He as (-> & d' & hs' & Ehs' & Hev). rewrite Ehs in Ehs'.
  apply app_inj_tail in Ehs' as [_ <-]. rewrite decide_True by done.
  destruct d as [ty l o|key p]; cbn in Hev.
  - destruct Hev as (p & Ep & Hp). right. cbn [queue_of ctl set_lost set_ctl].
    assert (handle_event (object_of EndpointSliceObject (inf (slc s))) e (ctl s) =
      Enqueue (EndpointSliceObject (m_Namespace (e_Meta o)) (m_Name (e_Meta o))) (ctl s)) as ->.
    { destruct e; cbn in Ep; subst; cbn [handle_event object_of]; by rewrite Hp. }
    unfold Enqueue. rewrite (key_of_meta _ (m_Namespace (e_Meta o)) (m_Name (e_Meta o))) by done.
    left. cbn. apply dirty_add; [done|]. by left.
  - destruct Hev as [q Eq]. left. cbn. unfold tombstone_key. rewrite Eq. by left.
Qed.

(** A step of the slice informer outside [Process]. *)
Lemma tracked_slice_quiet s g ns n :
  inv s -> inv (set_slc g s) -> memory_step (slc s) g -> handled g = handled (slc s) ->
  (pc g = pc (slc s) \/ forall n' e ds, pc (slc s) <> InHandler n' e ds) ->
  tracked s ns n -> tracked (set_slc g s) ns n.
Proof.
  intros Hs Hs' Hm Eh Hp. apply tracked_keep; [|left; by apply unchanged_handled|by left|done].
  intros [?|[?|Hd]]; [by left|right; by left|]. right. right. unfold dispatching in *. cbn.
  rewrite Eh. destruct Hp as [->|Hp]; [done|]. destruct (pc (slc s)); try done. by edestruct Hp.
Qed.

Lemma tracked_slice a s s' ns n :
  inv s -> inv s' -> q_shutting_down (queue_of s) = false ->
  slice_step a s = Some s' -> tracked s ns n -> tracked s' ns n.
Proof.
  intros Hs Hs' Hns. unfold slice_step. destruct (inf_step _ a (slc s)) as [r|] eqn:E; [|done].
  destruct (good_step _ _ _ _ _ (inv_slc _ Hs) E) as (g & -> & Hg & Hx). intros [= <-].
  pose proof (memory_run _ _ _ _ _ (inv_slc _ Hs) E) as Hm.
  destruct a as [|e| | | |]; cbn [inf_step] in E.
  - destruct (go_begin (slc s)) as [g'|] eqn:E'; [|done]. injection E as ->. unfold go_begin in E'.
    destruct (pc (slc s)) eqn:Epc; try done. injection E' as <-.
    apply tracked_slice_quiet; try done. right. by rewrite Epc.
  - destruct (go_receive e (slc s)) as [g'|] eqn:E'; [|done]. injection E as ->. unfold go_receive in E'.
    destruct (pc (slc s)) eqn:Epc, (controller (inf (slc s))); try done; injection E' as <-;
      (apply tracked_slice_quiet; try done; left; by rewrite Epc).
  - destruct (go_pop (slc s)) as [g'|] eqn:E'; [|done]. injection E as ->. unfold go_pop in E'.
    destruct (pc (slc s)) eqn:Epc; try done. destruct (controller _) as [c|]; [|done].
    destruct (c_pop c) as [[ds c']|]; [|done]. destruct (decode_all ds _) as [[rs|] i]; [|done].
    injection E' as <-. apply tracked_slice_quiet; try done. right. by rewrite Epc.
  - destruct (good_delta _ _ _ (inv_slc _ Hs) E) as (g' & [= <-] & _ & Hd).
    assert (forall n' e' ds', pc (slc s) <> InHandler n' e' ds') as Hnot.
    { intros n' e' ds' Ep. unfold go_delta in E. by rewrite Ep in E. }
    destruct (left_deltas (slc s)) as [|d ds]; [destruct Hd as (Eh & _); apply tracked_slice_quiet; try done; by right|].
    destruct Hd as (Eh & e & Ep & _). destruct (decide (rkey d = slice_key_of ns n)) as [Hk|Hk].
    + intros _. left. right. right. unfold dispatching. cbn. rewrite Ep. by exists d, (handled (slc s)).
    + apply tracked_keep; [|left|by left|done].
      * intros [?|[?|Hdis]]; [by left|right; by left|]. unfold dispatching in Hdis.
        destruct (pc (slc s)); try done. by edestruct Hnot.
      * split.
        -- unfold current. rewrite (good_stored _ _ (inv_slc _ Hs)), (good_stored _ _ (inv_slc _ Hs')).
           cbn [slc set_slc]. rewrite Eh, fold_left_app. cbn [fold_left]. unfold apply_delta at 1.
           by rewrite decide_False.
        -- destruct (memory_stored _ _ Hm (ns ++ "/" ++ n)%string) as [?|(d' & Ed & Ek)]; [done|].
           rewrite Eh in Ed. by apply app_inj_tail in Ed as [_ <-].
  - destruct (go_called (slc s)) as [g'|] eqn:E'; [|done]. injection E as ->. unfold go_called in E'.
    destruct (pc (slc s)) as [| | |n' e ds|] eqn:Epc; try done. injection E' as <-.
    pose proof (call_slice_outstanding s n' e ds Hs Epc Hns) as Hcall.
    destruct (call_slice_cases s) as (c & l & Ec & Hcq). rewrite Ec in *.
    apply tracked_keep; [|left; by apply unchanged_handled|by left|done].
    intros [Hl|[Hp|Hd]].
    + left. cbn. apply elem_of_app. by right.
    + right. left. cbn. by apply (event_pending s).
    + destruct (Hcall _ Hd) as [?|?]; [by left|right; by left].
  - destruct (go_end _ (slc s)) as [g'|] eqn:E'; [|done]. injection E as ->. unfold go_end in E'.
    destruct (pc (slc s)) eqn:Epc; try done. destruct (controller _) as [c|]; [|done].
    destruct (stop_closed s), (c_pop c); try done. injection E' as <-.
    apply tracked_slice_quiet; try done. right. by rewrite Epc.
Qed.

(** The key of a slice, and the keys that ask for it. *)
Lemma key_slice_item ns n : no_slash ns = true -> no_slash n = true ->
  key_slice (EndpointSliceType ++ "/" ++ slice_key_of ns n) = Some (ns, n).
Proof.
  intros Hns Hn. unfold key_slice, slice_key_of.
  pose proof (Split_event_key EndpointSliceType ns n) as E. unfold event_key in E. by rewrite E.
Qed.

Lemma key_slice_key key ns n : key_slice key = Some (ns, n) ->
  StringItem key = slice_item (slice_key_of ns n).
Proof.
  unfold key_slice.
  assert (Join (Split key "/") "/" = key) as Hj by exact (Join_split_scan "/" "" key ltac:(done)).
  destruct (Split key "/") as [|kind [|a [|b [|? ?]]]]; try done.
  destruct (String.eqb kind ServiceType); [done|].
  destruct (String.eqb_spec kind EndpointSliceType) as [->|]; [|done]. intros [= -> ->].
  unfold slice_item, slice_key_of. by rewrite <- Hj.
Qed.

(** What a step of the one worker owes to the key [k]: what is outstanding stays
    so, and otherwise, if the worker was busy with it, it still is, or has seen
    it as it is now, or it is outstanding. *)
Lemma tracked_worker s w w' c f ns n :
  let x := slice_item (slice_key_of ns n) in
  let now := is_now s ns n in
  workers s = [w] ->
  (q_pending (queue_of s) x -> q_pending (Workqueue c) x \/ w' = Taken x) ->
  (up_to_date x now w -> up_to_date x now w' /\
     (busy x now w \/ f (slice_key_of ns n) = seen s (slice_key_of ns n))) ->
  (busy x now w -> busy x now w' \/
     f (slice_key_of ns n) = current s (slice_key_of ns n) \/ q_pending (Workqueue c) x) ->
  tracked s ns n -> tracked (set_workers [w'] (set_seen f (set_ctl c s))) ns n.
Proof.
  cbn zeta. set (x := slice_item _). set (now := is_now s ns n). intros Hw Hp Hst Hb Ht.
  destruct Ht as [[?|[Hq|?]]|[Hbs Hns]].
  - left. by left.
  - destruct (Hp Hq) as [?| ->]; [left; right; by left|]. right. split.
    + left. eexists. split; [by left|done].
    + by intros w0 ->%list_elem_of_singleton.
  - left. right. by right.
  - rewrite Hw in Hbs, Hns. destruct (Hst (Hns w ltac:(by left))) as [Hst' Hf].
    assert (busy x now w \/ f (slice_key_of ns n) = current s (slice_key_of ns n)) as [Hbw|Hse].
    { destruct Hbs as [(w0 & ->%list_elem_of_singleton & ?)|<-]; [by left|]. tauto. }
    2: { right. split; [by right|]. by intros w0 ->%list_elem_of_singleton. }
    destruct (Hb Hbw) as [?|[?|?]]; [| |left; right; by left]; right;
      (split; [|by intros w0 ->%list_elem_of_singleton]); [left|by right].
    exists w'. split; [by left|done].
Qed.

Lemma see_other key es f ns n : StringItem key <> slice_item (slice_key_of ns n) ->
  see key es f (slice_key_of ns n) = f (slice_key_of ns n).
Proof.
  intros Hne. unfold see. destruct (key_slice key) as [[ns' n']|] eqn:E; [|done].
  apply key_slice_key in E. rewrite decide_False; [done|]. intros Ek. apply Hne. rewrite E.
  f_equal. symmetry. exact Ek.
Qed.

Lemma see_same es f ns n : no_slash ns = true -> no_slash n = true ->
  see (EndpointSliceType ++ "/" ++ slice_key_of ns n) es f (slice_key_of ns n) = Some es.
Proof. intros Hns Hn. unfold see. rewrite key_slice_item by done. by rewrite decide_True. Qed.

(** The agent has one worker. *)
Lemma single_worker i w s : inv s -> workers s !! i = Some w -> workers s = [w] /\ i = 0%nat.
Proof.
  intros Hs Ew. assert (length (workers s) <= threads)%nat as Hl.
  { pose proof (inv_workers _ Hs) as Hl. unfold threads in *. destruct (run s); [by rewrite Hl; cbn; lia|lia..]. }
  unfold threads in Hl. destruct (workers s) as [|w0 [|? ?]]; [done| |cbn in Hl; lia].
  destruct i; [|done]. by injection Ew as ->.
Qed.

(** The lookup of a slice finds it as it is now. *)
Lemma look_slice_now s key ns n : no_slash ns = true -> no_slash n = true ->
  up_to_date (slice_item (slice_key_of ns n)) (is_now s ns n) (look_slice s key).
Proof.
  intros Hns Hn. unfold look_slice. destruct (key_slice key) as [[ns' n']|] eqn:Ek; [|done].
  destruct (slice_pointer s ns' n') as [l|] eqn:El; [|done]. intros [= ->].
  rewrite key_slice_item in Ek by done. by injection Ek as <- <-.
Qed.

Lemma look_slice_busy s ns n : no_slash ns = true -> no_slash n = true ->
  busy (slice_item (slice_key_of ns n)) (is_now s ns n)
    (look_slice s (EndpointSliceType ++ "/" ++ slice_key_of ns n)).
Proof.
  intros Hns Hn. unfold look_slice. rewrite key_slice_item by done.
  by destruct (slice_pointer s ns n) eqn:El.
Qed.

Lemma moved_tracked o1 o2 s w w' c f ns n :
  inv s -> q_shutting_down (queue_of s) = false -> no_slash ns = true -> no_slash n = true ->
  workers s = [w] -> moved o1 o2 s w w' c f -> tracked s ns n ->
  tracked (set_workers [w'] (set_seen f (set_ctl c s))) ns n.
Proof.
  intros Hs Hnsd Hsl1 Hsl2 Hw Hm. set (x := slice_item (slice_key_of ns n)).
  destruct Hm as [|obj q _ Eg| |m|key|key l o _|key l l' o o' err m Ho _ _|obj err|obj];
    apply (tracked_worker s _ _ _ _ ns n Hw); try done; try (by left); try (split; [done|by right]).
  - split; [by destruct (stop_closed s)|by right].
  - intros [Hd|Hd]; destruct (decide (obj = x)) as [->|Hne]; [by right| |by right|]; left; cbn.
    + left. by apply (dirty_get _ _ _ Eg).
    + right. by apply (delayed_get _ _ _ Eg).
  - left. cbn. unfold q_pending in *. by autorewrite with queue.
  - intros _. split; [|by right]. by apply look_slice_now.
  - intros [= ->]. left. by apply look_slice_busy.
  - intros Hu. split; [|by right]. unfold look_service. by destruct (service_pointer s _ _).
  - intros Hb. left. unfold look_service. destruct (service_pointer s _ _); [done|]. apply Hb.
  - intros Hu. split; [done|]. destruct err; [by right|].
    destruct (decide (StringItem key = x)) as [Ek|Hne]; [left; by split; [|apply Hu]|right].
    by apply see_other.
  - intros [Ek Hl]. destruct err; [by left|]. right. left. injection Ek as ->. rewrite see_same by done.
    symmetry. by eapply current_pointer.
  - left. cbn. rewrite (inv_retries _ Hs). cbn [Z.eqb orb]. unfold q_pending in *.
    destruct err; autorewrite with queue; [|done]. rewrite delayed_add_rate_limited by done. tauto.
  - intros Hb. right. right. destruct err; [|done]. cbn in Hb. subst obj. right. cbn.
    rewrite (inv_retries _ Hs). cbn [Z.eqb orb]. rewrite delayed_add_rate_limited by done. by left.
  - left. cbn. unfold q_pending in *. by autorewrite with queue.
Qed.

Lemma tracked_work i o1 o2 s s' ns n :
  inv s -> q_shutting_down (queue_of s) = false -> no_slash ns = true -> no_slash n = true ->
  work i o1 o2 s = Some s' -> crashed s' = None -> tracked s ns n -> tracked s' ns n.
Proof.
  intros Hs Hnsd Hsl1 Hsl2 (w & Ew & [(p & -> & _)|(w' & c & f & Hm & ->)])%work_cases; [done|].
  destruct (single_worker _ _ _ Hs Ew) as [Hw ->]. intros _ Ht.
  unfold with_worker. rewrite Hw. by apply (moved_tracked o1 o2 s w).
Qed.

#[local] Hint Extern 1 (unchanged _ _ _ _) => split; reflexivity : core.

Lemma tracked_step a s s' ns n :
  inv s -> step a s = Some s' -> q_shutting_down (queue_of s') = false -> crashed s' = None ->
  no_slash ns = true -> no_slash n = true -> tracked s ns n -> tracked s' ns n.
Proof.
  intros Hs E Hns' Hnc Hsl1 Hsl2. pose proof (inv_step _ _ _ Hs E) as Hs'.
  pose proof (shutting_step _ _ _ Hs Hs' E Hns') as Hns.
  unfold step in E. destruct (crashed s); [done|]. destruct (Main.ended (proc s)); [done|].
  destruct a as [a|a|a|ok|i o1 o2|]; cbn in E.
  - destruct (Main.act a (proc s)); [|done]. injection E as <-. by apply tracked_keep; auto.
  - unfold service_step in E. destruct (inf_step _ a (svc s)) as [[p|g]|]; [by injection E as <-| |done].
    injection E as <-. destruct (call_service_cases s) as (c & Ec & Hcq).
    destruct a; try (by apply tracked_keep; auto). rewrite Ec in *. apply tracked_keep; [|by left..|done].
    intros [?|[Hp|?]]; [by left| |by right; right]. right. left. by apply (event_pending s).
  - by apply (tracked_slice a).
  - unfold run_step in E. destruct (run s) as [|[|k]| |] eqn:Er; [destruct ok| | | |done].
    + destruct (all_synced s); [|done]. injection E as <-. by apply tracked_keep; auto.
    + destruct (stop_closed s); [|done]. injection E as <-. unfold queue_of in Hns'. cbn in Hns'.
      by autorewrite with queue in Hns'.
    + injection E as <-. by apply tracked_keep; auto.
    + injection E as <-. by apply tracked_keep; auto.
    + destruct (stop_closed s); [|done]. injection E as <-. unfold queue_of in Hns'. cbn in Hns'.
      by autorewrite with queue in Hns'.
  - by apply (tracked_work i o1 o2 s).
  - injection E as <-. apply tracked_keep; [|by left..|done].
    intros Ho. apply pending_set_queue; [done|]. by apply pending_elapse.
Qed.

Context {R : Type} `{!LabelOps R}.

(** An object of the first list is stored, or a delta has deleted it. *)
Definition accounted {T C} `{!Object T} `{!CacheOps T C} (g : goroutine T I C) (k : string) : Prop :=
  is_Some (stored (inf g) k) \/ exists d, d ∈ handled g /\ rkey d = k /\ rvalue d = None.

Lemma first_done_accounted {T C} `{!Object T} `{!ObjectSpec T} `{!CacheOps T C} h (g : goroutine T I C) :
  good h g -> first_done g ->
  exists ks, first_keys g = Some ks /\ forall k, k ∈ ks -> accounted g k.
Proof.
  intros Hg (ks & Hks & Hd). exists ks. split; [done|]. intros k Hk.
  destruct (Hd k Hk) as (d & Hin & <-). by eapply good_handled.
Qed.

(** C11. The controller's workers only exist after both informers have got and
    processed their first list: when a worker runs, the stores its handler
    looks services and slices up in hold every object of the first lists that
    was not deleted since. *)
Theorem workers_after_first_lists tr (r : R) (q : Q) (m : ServiceManager SM BM) s :
  q_shutting_down q = false -> exec tr (agent_start r q m) = Some s -> workers s <> [] ->
  (exists ks, first_keys (svc s) = Some ks /\ forall k, k ∈ ks -> accounted (svc s) k) /\
  (exists ks, first_keys (slc s) = Some ks /\ forall k, k ∈ ks -> accounted (slc s) k).
Proof.
  intros Hq Htr Hw. pose proof (reachable_inv _ _ _ _ _ Hq Htr) as Hi.
  destruct (inv_synced _ Hi) as [H1 H2]; [by destruct (run s)|].
  split; eapply first_done_accounted; try done; apply Hi.
Qed.

(** C7. The only thing that can end the agent with a panic is the handler working
    on the objects it looked up: no delta, no event, no lookup and no step of
    the controller panics. *)
Theorem only_handler_crashes tr (r : R) (q : Q) (m : ServiceManager SM BM) a s s' p :
  q_shutting_down q = false -> exec tr (agent_start r q m) = Some s ->
  step a s = Some s' -> crashed s' = Some p ->
  exists i o1 o2 key l l' o o', a = AWorker i o1 o2 /\
    workers s !! i = Some (Found key l l') /\ slice_at s l = Some o /\ service_at s l' = Some o' /\
    (handle_objects s (k8s_service o') (k8s_slice o) o1 o2).1 = Panics p.
Proof.
  intros Hq Htr E Hc. pose proof (reachable_inv _ _ _ _ _ Hq Htr) as Hi.
  unfold step in E. destruct (crashed s) eqn:Ec; [done|]. destruct (Main.ended (proc s)); [done|].
  destruct a as [a|a|a|ok|i o1 o2|]; cbn in E.
  - destruct (Main.act a (proc s)); [|done]. injection E as <-. cbn in Hc. congruence.
  - unfold service_step in E. destruct (inf_step _ a (svc s)) as [r'|] eqn:Es; [|done].
    destruct (good_step _ _ _ _ _ (inv_svc _ Hi) Es) as (g & -> & _). injection E as <-.
    destruct (call_service_cases s) as (c & Ex & _). destruct a; try rewrite Ex in Hc; cbn in Hc; congruence.
  - unfold slice_step in E. destruct (inf_step _ a (slc s)) as [r'|] eqn:Es; [|done].
    destruct (good_step _ _ _ _ _ (inv_slc _ Hi) Es) as (g & -> & _). injection E as <-.
    destruct (call_slice_cases s) as (c & l & Ex & _). destruct a; try rewrite Ex in Hc; cbn in Hc; congruence.
  - unfold run_step in E. destruct (run s) as [|[|k]| |]; try done.
    + destruct ok; [destruct (all_synced s)|destruct (stop_closed s)]; try done;
        injection E as <-; cbn in Hc; congruence.
    + injection E as <-. cbn in Hc. congruence.
    + injection E as <-. cbn in Hc. congruence.
    + destruct (stop_closed s); [|done]. injection E as <-. cbn in Hc. congruence.
  - apply work_cases in E as (w & Hw & [(p' & -> & Hp)|(w' & c & f & _ & ->)]); cbn in Hc; [|congruence].
    injection Hc as ->.
    destruct (pointers_panics _ _ _ _ _ (inv_pointers _ Hi w (list_elem_of_lookup_2 _ _ _ Hw)) Hp)
      as (key & l & l' & o & o' & -> & ? & ? & ?). by exists i, o1, o2, key, l, l', o, o'.
  - injection E as <-. cbn in Hc. congruence.
Qed.

(** What main and the signal goroutine do in a run. *)
Definition process_acts (tr : list act) : list Main.action :=
  omap (fun a => match a with AProcess a => Some a | _ => None end) tr.

Lemma step_proc a s s' : step a s = Some s' ->
  match a with AProcess a => Main.act a (proc s) = Some (proc s') | _ => proc s' = proc s end.
Proof.
  intros E. unfold step in E. destruct (crashed s); [done|]. destruct (Main.ended (proc s)); [done|].
  destruct a as [a|a|a|ok|i o1 o2|]; cbn in E.
  - destruct (Main.act a (proc s)); [|done]. by injection E as <-.
  - unfold service_step in E. destruct (inf_step _ a (svc s)) as [[p|g]|]; [| |done]; injection E as <-; [done|].
    destruct (call_service_cases s) as (c & Ec & _). by destruct a; try rewrite Ec.
  - unfold slice_step in E. destruct (inf_step _ a (slc s)) as [[p|g]|]; [| |done]; injection E as <-; [done|].
    destruct (call_slice_cases s) as (c & l & Ec & _). by destruct a; try rewrite Ec.
  - unfold run_step in E.
    destruct (run s) as [|[|k]| |]; [destruct ok; [destruct (all_synced s)|destruct (stop_closed s)]|..
      |destruct (stop_closed s)|]; try done; by injection E as <-.
  - by apply work_cases in E as (w & _ & [(p & -> & _)|(w' & c & f & _ & ->)]).
  - by injection E as <-.
Qed.

Lemma exec_process tr s s' :
  exec tr s = Some s' -> Main.exec (process_acts tr) (proc s) = Some (proc s').
Proof.
  revert s. induction tr as [|a tr IH]; intros s; [by intros [= ->]|].
  cbn [exec]. destruct (step a s) as [s1|] eqn:E; [|done]. intros Htr. apply step_proc in E.
  destruct a; cbn; try rewrite <- E; try by apply IH. rewrite E. by apply IH.
Qed.

(** The worker whose handler panicked is still at the objects. *)
Definition crash_site s : Prop := forall p, crashed s = Some p -> Main.ended (proc s) = None /\
  exists i key l l' o o' o1 o2, workers s !! i = Some (Found key l l') /\
    slice_at s l = Some o /\ service_at s l' = Some o' /\
    (handle_objects s (k8s_service o') (k8s_slice o) o1 o2).1 = Panics p.

Lemma crash_site_step a s s' : inv s -> step a s = Some s' -> crash_site s'.
Proof.
  intros Hi E p Hp. unfold step in E. destruct (crashed s) eqn:Hc; [done|]. destruct (Main.ended (proc s)) eqn:He; [done|].
  destruct a as [a|a|a|ok|i o1 o2|]; cbn in E.
  - destruct (Main.act a (proc s)); [|done]. injection E as <-. cbn in Hp. congruence.
  - unfold service_step in E. destruct (inf_step _ a (svc s)) as [r'|] eqn:Es; [|done].
    destruct (good_step _ _ _ _ _ (inv_svc _ Hi) Es) as (g & -> & _). injection E as <-.
    destruct (call_service_cases s) as (c & Ex & _). destruct a; try rewrite Ex in Hp; cbn in Hp; congruence.
  - unfold slice_step in E. destruct (inf_step _ a (slc s)) as [r'|] eqn:Es; [|done].
    destruct (good_step _ _ _ _ _ (inv_slc _ Hi) Es) as (g & -> & _). injection E as <-.
    destruct (call_slice_cases s) as (c & l & Ex & _). destruct a; try rewrite Ex in Hp; cbn in Hp; congruence.
  - unfold run_step in E.
    destruct (run s) as [|[|k]| |]; [destruct ok; [destruct (all_synced s)|destruct (stop_closed s)]|..
      |destruct (stop_closed s)|]; try done; injection E as <-; cbn in Hp; congruence.
  - apply work_cases in E as (w & Hw & [(p' & -> & Hp')|(w' & c & f & _ & ->)]); cbn in Hp; [|congruence].
    injection Hp as ->. split; [done|].
    destruct (pointers_panics _ _ _ _ _ (inv_pointers _ Hi w (list_elem_of_lookup_2 _ _ _ Hw)) Hp')
      as (key & l & l' & o & o' & -> & ? & ? & ?). by exists i, key, l, l', o, o', o1, o2.
  - injection E as <-. cbn in Hp. congruence.
Qed.

(** C23. How the process of the running agent ends, in every interleaving: it runs
    on until a signal comes or the handler panics; it exits with 0 only after a
    shutdown signal, with the eBPF objects closed exactly once, and with 1 only
    after two; a signal that ends it is one it does not listen to; otherwise the
    handler panicked on the slice and the service a worker had looked up.
    Start-up ends the process on its own account ([Main.main_start_cases]). *)
Theorem agent_process_ends tr (r : R) (q : Q) (m : ServiceManager SM BM) s :
  q_shutting_down q = false -> exec tr (agent_start r q m) = Some s ->
  match crashed s, Main.ended (proc s) with
  | None, None => (Main.closes (proc s) <= 1)%nat
  | None, Some (Main.Exited c) =>
      c = 0 /\ (1 <= Main.count Main.is_signal (process_acts tr))%nat /\ Main.closes (proc s) = 1%nat \/
      c = 1 /\ (2 <= Main.count Main.is_signal (process_acts tr))%nat
  | None, Some (Main.KilledBy sg) => sg ∉ Main.shutdownSignals /\ AProcess (Main.Deliver sg) ∈ tr
  | Some p, e => e = None /\ exists i key l l' o o' o1 o2, workers s !! i = Some (Found key l l') /\
      slice_at s l = Some o /\ service_at s l' = Some o' /\
      (handle_objects s (k8s_service o') (k8s_slice o) o1 o2).1 = Panics p
  end.
Proof.
  intros Hq Htr. pose proof (Main.process_exits _ _ (exec_process _ _ _ Htr)) as He.
  assert (crash_site s) as Hs.
  { enough (inv s /\ crash_site s) as [_ ?] by done. revert Htr.
    apply (exec_invariant (fun s => inv s /\ crash_site s)); [|by split; [apply inv_start|]].
    intros a s1 s2 [Hi _] E. split; [by eapply inv_step|by eapply crash_site_step]. }
  destruct (crashed s) as [p|] eqn:Hc; [by apply Hs|].
  destruct (Main.ended (proc s)) as [[c|sg]|]; [exact He| |exact He].
  destruct He as [Hn Hin]. split; [done|].
  apply list_elem_of_omap in Hin as (a & Ha & Ea). destruct a; try done. by injection Ea as ->.
Qed.

(** C29. Types the source does not check hold in every reachable state: what the
    stores hold are pointers to objects of the informer's type under the
    object's own key, so the listers' type assertions succeed; the items of the
    queue, of type [interface{}], are strings, so the branch of the worker for
    other items is never taken. *)
Theorem agent_well_typed tr (r : R) (q : Q) (m : ServiceManager SM BM) s :
  q_shutting_down q = false -> (forall x, ~ q_pending q x) ->
  exec tr (agent_start r q m) = Some s ->
  store_typed (svc s) /\ store_typed (slc s) /\ keys_only s.
Proof.
  intros Hq Hp Htr. pose proof (reachable_inv _ _ _ _ _ Hq Htr) as Hi.
  split_and!; [eapply good_typed; apply Hi..|].
  revert Htr. apply exec_invariant; [apply keys_step|]. constructor.
  - intros x Hx. destruct (Hp x). by left.
  - intros x _ Hx. destruct (Hp x). by right.
  - by intros w x []%not_elem_of_nil.
Qed.

Lemma tracked_reachable tr (r : R) (q : Q) (m : ServiceManager SM BM) s ns n :
  q_shutting_down q = false -> exec tr (agent_start r q m) = Some s ->
  q_shutting_down (queue_of s) = false -> no_slash ns = true -> no_slash n = true ->
  crashed s = None -> tracked s ns n.
Proof.
  intros Hq Htr Hns Hsl1 Hsl2 Hnc.
  enough (inv s /\ (q_shutting_down (queue_of s) = false -> crashed s = None -> tracked s ns n)) as [_ Ht] by auto.
  revert Htr. apply (exec_invariant (fun s => inv s /\
    (q_shutting_down (queue_of s) = false -> crashed s = None -> tracked s ns n))).
  - intros a s1 s2 [Hi Ht] E. pose proof (inv_step _ _ _ Hi E) as Hi2. split; [done|].
    intros Hns2 Hnc2. apply (tracked_step a s1); try done. apply Ht; [by eapply shutting_step|].
    unfold step in E. by destruct (crashed s1).
  - split; [by apply inv_start|]. intros _ _. right. split; [right|by intros w []%not_elem_of_nil].
    unfold current, stored. cbn. by rewrite get_new.
Qed.

(** C5. No change of a slice is lost, in any interleaving: as long as the queue is
    not shut down, for every slice the key of which no tombstone deleted, there
    is work left (its key is in the queue or with the worker, or the informer
    is about to queue it), or the last time the handler succeeded on it, it saw
    the slice as the store has it now. *)
Theorem no_update_lost tr (r : R) (q : Q) (m : ServiceManager SM BM) s ns n :
  q_shutting_down q = false -> exec tr (agent_start r q m) = Some s ->
  q_shutting_down (queue_of s) = false -> no_slash ns = true -> no_slash n = true ->
  crashed s = None -> slice_key_of ns n ∉ lost s ->
  let x := slice_item (slice_key_of ns n) in
  q_pending (queue_of s) x \/ dispatching s (slice_key_of ns n) \/
  (exists w, w ∈ workers s /\ busy x (is_now s ns n) w) \/
  seen s (slice_key_of ns n) = current s (slice_key_of ns n).
Proof.
  cbn zeta. intros Hq Htr Hns Hsl1 Hsl2 Hnc Hlost.
  destruct (tracked_reachable _ _ _ _ _ ns n Hq Htr Hns Hsl1 Hsl2 Hnc) as [[?|[?|?]]|[[?|?] _]]; tauto.
Qed.

(** ** The worker without interruption *)

Lemma step_worker s i o1 o2 :
  crashed s = None -> Main.ended (proc s) = None ->
  step (AWorker i o1 o2) s = work i o1 o2 s.
Proof. intros Hc He. unfold step. by rewrite Hc, He. Qed.

Lemma exec_work s i o1 o2 w w' s1 tr :
  crashed s = None -> Main.ended (proc s) = None -> workers s !! i = Some w ->
  worker_step o1 o2 w s = Some (inr (w', s1)) ->
  exec (AWorker i o1 o2 :: tr) s = exec tr (set_workers (<[i := w']> (workers s1)) s1).
Proof.
  intros Hc He Hw E. cbn [exec]. rewrite step_worker by done. unfold work. by rewrite Hw, E.
Qed.

Lemma with_worker_work s i w c f o1 o2 w' c' f' tr :
  crashed s = None -> Main.ended (proc s) = None -> (i < length (workers s))%nat ->
  worker_step o1 o2 w (with_worker s i w c f) =
    Some (inr (w', set_seen f' (set_ctl c' (with_worker s i w c f)))) ->
  exec (AWorker i o1 o2 :: tr) (with_worker s i w c f) = exec tr (with_worker s i w' c' f').
Proof.
  intros Hc He Hi E. erewrite exec_work; [|done|done| |exact E].
  - unfold with_worker. cbn. by rewrite list_insert_insert_eq.
  - cbn. by apply list_lookup_insert_eq.
Qed.

(** [handler] with the stores as they are, by its lookups. *)
Lemma handler_looks s key o1 o2 (m : ServiceManager SM BM) : inv s ->
  handler (service_lister s) (slice_lister s) key o1 o2 m =
  match key_slice key with
  | None => (Returns None, m)
  | Some (ns, n) =>
      match slice_pointer s ns n ≫= slice_at s with
      | None => (Returns (Some ErrNotFound), m)
      | Some o =>
          match service_pointer s ns (slice_service (k8s_slice o)) ≫= service_at s with
          | None => (Returns (Some ErrNotFound), m)
          | Some o' => handle_found (k8s_service o') (k8s_slice o) o1 o2 m
          end
      end
  end.
Proof.
  intros Hi.
  assert (forall ns n, slice_lister s (ns, n) = k8s_slice <$> (slice_pointer s ns n ≫= slice_at s)) as El.
  { intros ns n. unfold slice_lister, store_lister, stored, slice_pointer, known_pointer, slice_at. cbn.
    by destruct (i_get _ _) as [[]|]. }
  assert (forall ns n, service_lister s (ns, n) = k8s_service <$> (service_pointer s ns n ≫= service_at s)) as Ev.
  { intros ns n. unfold service_lister, store_lister, stored, service_pointer, known_pointer, service_at. cbn.
    by destruct (i_get _ _) as [[]|]. }
  unfold handler, key_slice. destruct (Split key "/") as [|kind [|ns [|n [|? ?]]]]; try done.
  destruct (String.eqb kind ServiceType); [done|]. destruct (String.eqb kind EndpointSliceType); [|done].
  unfold EndpointHandler. rewrite El. destruct (slice_pointer s ns n ≫= slice_at s) as [o|]; [|done].
  cbn [fmap option_fmap option_map]. rewrite Ev. by destruct (service_pointer s ns _ ≫= service_at s).
Qed.

(** From the result of the handler to the queue. *)
Lemma settle_steps s i o1 o2 key err c f :
  crashed s = None -> Main.ended (proc s) = None -> (i < length (workers s))%nat ->
  exec (replicate 2 (AWorker i o1 o2)) (with_worker s i (Handled (StringItem key) err) c f) =
    Some (with_worker s i Idle (set_queue (q_done (StringItem key)) (settle (StringItem key) err c).2) f).
Proof.
  intros Hc He Hi. cbn [replicate].
  rewrite (with_worker_work s i _ _ _ o1 o2 (Settled (StringItem key)) (settle (StringItem key) err c).2 f) by done.
  by rewrite (with_worker_work s i _ _ _ o1 o2 Idle
    (set_queue (q_done (StringItem key)) (settle (StringItem key) err c).2) f).
Qed.

(** The lookups and the rest of the handler, uninterrupted: a worker that has
    taken a key gets to the result of the handler, or the agent crashes. *)
Lemma handler_steps s i o1 o2 key c :
  inv s -> crashed s = None -> Main.ended (proc s) = None -> Main.closes (proc s) = 0%nat ->
  (i < length (workers s))%nat -> serviceManager c = serviceManager (ctl s) ->
  match handler (service_lister s) (slice_lister s) key o1 o2 (serviceManager (ctl s)) with
  | (Returns err, m) => exists k f, (1 <= k <= 3)%nat /\ forall tr,
      exec (replicate k (AWorker i o1 o2) ++ tr) (with_worker s i (Taken (StringItem key)) c (seen s)) =
      exec tr (with_worker s i (Handled (StringItem key) err) (set_manager m c) f)
  | (Panics p, _) => exists s', crashed s' = Some p /\
      exec (replicate 3 (AWorker i o1 o2)) (with_worker s i (Taken (StringItem key)) c (seen s)) = Some s'
  end.
Proof.
  intros Hi Hc He Hcl Hlen Hm. rewrite handler_looks by done.
  assert (set_manager (serviceManager (ctl s)) c = c) as Ec by (rewrite <- Hm; by destruct c).
  set (s1 := with_worker s i (Taken (StringItem key)) c (seen s)).
  assert (forall tr, exec (AWorker i o1 o2 :: tr) s1 = exec tr (with_worker s i (look_slice s key) c (seen s))) as E1.
  { intros tr. exact (with_worker_work s i (Taken (StringItem key)) c (seen s) o1 o2 (look_slice s key) c (seen s) tr Hc He Hlen eq_refl). }
  unfold look_slice in E1. destruct (key_slice key) as [[ns n]|] eqn:Ek.
  2: { exists 1%nat, (seen s). rewrite Ec. split; [lia|apply E1]. }
  destruct (slice_pointer s ns n) as [l|] eqn:El; cbn [mbind option_bind].
  2: { exists 1%nat, (seen s). rewrite Ec. split; [lia|apply E1]. }
  destruct (pointer_typed _ _ _ _ (inv_slc _ Hi) El) as (o & Ho & _). fold (slice_at s l) in Ho. rewrite Ho.
  assert (forall tr, exec (AWorker i o1 o2 :: tr) (with_worker s i (Looked key l) c (seen s)) =
    exec tr (with_worker s i (look_service s key l (k8s_slice o)) c (seen s))) as E2.
  { intros tr. apply with_worker_work; try done. cbn [worker_step].
    change (slice_at (with_worker s i (Looked key l) c (seen s)) l) with (slice_at s l). by rewrite Ho. }
  unfold look_service in E2. rewrite Ek in E2.
  change (default ""%string (fst <$> Some (ns, n))) with ns in E2.
  destruct (service_pointer s ns _) as [l'|] eqn:El'; cbn [mbind option_bind].
  2: { exists 2%nat, (seen s). rewrite Ec. split; [lia|]. intros tr. cbn [replicate app]. rewrite E1. apply E2. }
  destruct (pointer_typed _ _ _ _ (inv_svc _ Hi) El') as (o' & Ho' & _). fold (service_at s l') in Ho'. rewrite Ho'.
  set (s3 := with_worker s i (Found key l l') c (seen s)) in *.
  assert (worker_step o1 o2 (Found key l l') s3 =
    match handle_found (k8s_service o') (k8s_slice o) o1 o2 (serviceManager (ctl s)) with
    | (Returns err, m) => Some (inr (Handled (StringItem key) err, set_seen (match err with
        | None => see key (k8s_slice o) (seen s) | Some _ => seen s end) (set_ctl (set_manager m c) s3)))
    | (Panics p, _) => Some (inl p)
    end) as E3.
  { cbn [worker_step]. change (slice_at s3 l) with (slice_at s l). change (service_at s3 l') with (service_at s l').
    rewrite Ho, Ho'. unfold handle_objects. rewrite decide_True by done.
    change (ctl s3) with c. rewrite Hm. destruct (handle_found _ _ _ _ _) as [[[err|]|p] m]; done. }
  destruct (handle_found _ _ _ _ _) as [[err|p] m].
  - eexists 3%nat, _. split; [lia|]. intros tr. cbn [replicate app]. rewrite E1, E2.
    by apply with_worker_work.
  - exists (crash p s3). split; [done|]. cbn [replicate]. rewrite E1, E2. cbn [exec].
    rewrite step_worker by done. unfold work.
    assert (workers s3 !! i = Some (Found key l l')) as -> by by apply list_lookup_insert_eq.
    by rewrite E3.
Qed.

(** The steps of a worker, uninterrupted, are the function of the source: from
    an idle worker to the next time it is idle, they do to the controller what
    [processNextWorkItem] does with the stores as the listers, and when that
    panics the agent crashes with the same panic.  This is for the keys the
    queue holds ([agent_well_typed]) and open maps. *)
Theorem worker_steps_refine (s : running SM BM Q I CS CE) i o1 o2 key q' :
  inv s -> crashed s = None -> Main.ended (proc s) = None -> Main.closes (proc s) = 0%nat ->
  workers s !! i = Some Idle -> q_blocks (queue_of s) = false ->
  q_get (queue_of s) = (Some (StringItem key), q') ->
  let c := set_listers (service_lister s) (slice_lister s) (ctl s) in
  match processNextWorkItem o1 o2 c with
  | (Returns more, c') => more = true /\ exists k f c'', (k <= 6)%nat /\
      exec (replicate k (AWorker i o1 o2)) s = Some (with_worker s i Idle c'' f) /\
      c' = set_listers (service_lister s) (slice_lister s) c''
  | (Panics p, _) => exists s', exec (replicate 4 (AWorker i o1 o2)) s = Some s' /\ crashed s' = Some p
  end.
Proof.
  cbn zeta. intros Hinv Hc He Hcl Hw Hb Hget.
  assert (i < length (workers s))%nat as Hi by by eapply lookup_lt_Some.
  rewrite (processNextWorkItem_run o1 o2 _ key q') by exact Hget.
  cbn [serviceLister endpointsLister serviceManager set_listers MaxRetries].
  set (c1 := set_queue (fun _ => q') (ctl s)).
  assert (forall tr, exec (AWorker i o1 o2 :: tr) s =
    exec tr (with_worker s i (Taken (StringItem key)) c1 (seen s))) as E1.
  { intros tr. assert (s = with_worker s i Idle (ctl s) (seen s)) as Es.
    { unfold with_worker. rewrite list_insert_id by done. by destruct s. }
    rewrite Es at 1. apply with_worker_work; try done.
    cbn [worker_step]. unfold queue_of. cbn. fold (queue_of s). by rewrite Hb, Hget. }
  pose proof (handler_steps s i o1 o2 key c1 Hinv Hc He Hcl Hi eq_refl) as Hh.
  destruct (handler _ _ key o1 o2 (serviceManager (ctl s))) as [[err|p] m].
  - split; [done|]. destruct Hh as (k & f & Hk & Eh).
    exists (1 + (k + 2))%nat, f. eexists. split; [lia|]. split.
    + rewrite !replicate_add. cbn [replicate app]. rewrite E1, Eh. by apply settle_steps.
    + rewrite settle_cases. unfold set_queue, set_manager, set_listers, c1. cbn.
      destruct err; [|done]. by destruct ((MaxRetries (ctl s) =? 0) || _).
  - destruct Hh as (s' & Hp & Eh). exists s'. split; [|done]. cbn [replicate]. rewrite E1. exact Eh.
Qed.

(** ** The end of the workers *)

(** An upper bound of the steps a worker has left once the queue is shut down,
    but for the items still in it. *)
Definition rank (w : worker_pc) : nat :=
  match w with
  | Finished => 0 | AtSelect => 1 | Idle => 2 | Settled _ => 3 | Handled _ _ => 4
  | Found _ _ _ => 5 | Looked _ _ => 6 | Taken _ => 7
  end.

Definition work_left s (l : list item) : nat :=
  match crashed s with
  | Some _ => 0
  | None => 6 * length l + sum_list_with rank (workers s)
  end.

Definition is_work (a : act) : bool := match a with AWorker _ _ _ => true | _ => false end.
Definition count_work (tr : list act) : nat := length (filter (fun a => is_work a = true) tr).

Lemma count_work_cons a tr : count_work (a :: tr) = ((if is_work a then 1 else 0) + count_work tr)%nat.
Proof. unfold count_work. rewrite filter_cons. by destruct (is_work a). Qed.

Lemma sum_insert (f : worker_pc -> nat) i w w' (ws : list worker_pc) : ws !! i = Some w ->
  (sum_list_with f (<[i := w']> ws) + f w = sum_list_with f ws + f w')%nat.
Proof.
  revert i. induction ws as [|w0 ws IH]; intros [|i]; [done..| |].
  - cbn. intros [= ->]. lia.
  - intros Hi. specialize (IH i Hi).
    change (<[S i := w']> (w0 :: ws)) with (w0 :: <[i := w']> ws). cbn [sum_list_with]. lia.
Qed.

Lemma sum_le (f : worker_pc -> nat) k (ws : list worker_pc) :
  (forall w, f w <= k)%nat -> (sum_list_with f ws <= k * length ws)%nat.
Proof.
  intros Hf. induction ws as [|w ws IH]; [cbn; lia|]. cbn [sum_list_with length]. specialize (Hf w). lia.
Qed.

Lemma rank_le w : (rank w <= 7)%nat.
Proof. destruct w; cbn; lia. Qed.

(** The dirty items of a queue that is shut down only leave it. *)
Lemma event_dirty s c x : q_shutting_down (queue_of s) = true ->
  c = ctl s \/ (exists key, c = set_queue (q_add (StringItem key)) (ctl s)) ->
  q_dirty (Workqueue c) x -> q_dirty (queue_of s) x.
Proof. intros Hs [->|[key ->]]; [done|]. cbn. by rewrite add_shut. Qed.

(** Where the lookups lead. *)
Lemma look_slice_next s key : (exists err, look_slice s key = Handled (StringItem key) err) \/
  exists l, look_slice s key = Looked key l.
Proof.
  unfold look_slice. destruct (key_slice key) as [[ns n]|]; [|eauto]. destruct (slice_pointer s ns n); eauto.
Qed.

Lemma look_service_next s key l es : (exists err, look_service s key l es = Handled (StringItem key) err) \/
  exists l', look_service s key l es = Found key l l'.
Proof. unfold look_service. destruct (service_pointer s _ _); eauto. Qed.

(** What a step of a worker costs. *)
Lemma moved_rank o1 o2 s w w' c f (l : list item) :
  stop_closed s = true -> moved o1 o2 s w w' c f -> (forall x, q_dirty (queue_of s) x -> x ∈ l) ->
  exists l', (forall x, q_dirty (Workqueue c) x -> x ∈ l') /\
    (6 * length l' + rank w' < 6 * length l + rank w)%nat.
Proof.
  intros Hst Hm Hl. destruct (moved_pending _ _ _ _ _ _ _ Hm) as (Hd & _).
  destruct Hm as [|obj q _ Eg| | |key|key l0 o _| | |]; try (exists l; split; [auto|cbn; lia]).
  - exists l. split; [auto|]. rewrite Hst. cbn. lia.
  - destruct (dirty_get _ _ _ Eg) as [Hx Hdq]. exists (without obj l). split.
    + intros y Hy. apply Hdq in Hy as [? Hy]. apply elem_of_without. auto.
    + enough (length (without obj l) < length l)%nat by (cbn; lia).
      apply (length_filter_lt _ _ obj); [by apply Hl|naive_solver].
  - exists l. split; [auto|]. destruct (look_slice_next s key) as [[err E]|[l' E]]; rewrite E; cbn; lia.
  - exists l. split; [auto|]. destruct (look_service_next s key l0 (k8s_slice o)) as [[err E]|[l' E]]; rewrite E; cbn; lia.
Qed.

Lemma worker_work_left s i o1 o2 s' (l : list item) :
  inv s -> returned s -> crashed s = None -> work i o1 o2 s = Some s' ->
  (forall x, q_dirty (queue_of s) x -> x ∈ l) ->
  exists l', (forall x, q_dirty (queue_of s') x -> x ∈ l') /\ (S (work_left s' l') <= work_left s l)%nat.
Proof.
  intros Hi Hr Hc (w & Hw & [(p & -> & Hp)|(w' & c & f & Hm & ->)])%work_cases Hl;
    unfold work_left; rewrite Hc; cbn [crashed crash].
  - exists l. split; [done|]. pose proof (sum_insert rank i _ Finished _ Hw) as Hs.
    destruct (worker_step_panics _ _ _ _ _ Hp) as [(key & l0 & ->)|(key & l0 & l1 & ->)]; cbn [rank] in Hs; lia.
  - destruct (moved_rank _ _ _ _ _ _ _ l (inv_stop _ Hi Hr) Hm Hl) as (l' & Hl' & Hlt).
    exists l'. split; [done|]. cbn. rewrite Hc. pose proof (sum_insert rank i w w' _ Hw). lia.
Qed.

Lemma step_work_left a s s' (l : list item) :
  inv s -> returned s -> step a s = Some s' -> (forall x, q_dirty (queue_of s) x -> x ∈ l) ->
  exists l', (forall x, q_dirty (queue_of s') x -> x ∈ l') /\
    ((if is_work a then 1 else 0) + work_left s' l' <= work_left s l)%nat.
Proof.
  intros Hi Hr E Hl. pose proof (proj2 (inv_shut _ Hi) Hr) as Hs.
  assert (forall s', (forall x, q_dirty (queue_of s') x -> q_dirty (queue_of s) x) ->
    workers s' = workers s -> crashed s = None -> is_work a = false ->
    exists l', (forall x, q_dirty (queue_of s') x -> x ∈ l') /\
      ((if is_work a then 1 else 0) + work_left s' l' <= work_left s l)%nat) as Hsame.
  { intros s1 Hd Hw Hc ->. exists l. split; [auto|]. unfold work_left. rewrite Hc, Hw.
    destruct (crashed s1); lia. }
  unfold step in E. destruct (crashed s) eqn:Hc; [done|]. destruct (Main.ended (proc s)); [done|].
  destruct a as [a|a|a|ok|i o1 o2|]; cbn [is_work] in *.
  - cbn in E. destruct (Main.act a (proc s)); [|done]. injection E as <-. by apply Hsame.
  - unfold service_step in E. destruct (inf_step _ a (svc s)) as [[p|g]|]; [| |done]; injection E as <-;
      [by apply Hsame|]. destruct (call_service_cases s) as (c & Ec & Hcq).
    destruct a; try (by apply Hsame). rewrite Ec. apply Hsame; try done. intros x. by apply event_dirty.
  - unfold slice_step in E. destruct (inf_step _ a (slc s)) as [[p|g]|]; [| |done]; injection E as <-;
      [by apply Hsame|]. destruct (call_slice_cases s) as (c & l1 & Ec & Hcq).
    destruct a; try (by apply Hsame). rewrite Ec. apply Hsame; try done. intros x. by apply event_dirty.
  - unfold run_step in E. destruct Hr as [err Hr]. by rewrite Hr in E.
  - by apply (worker_work_left s i o1 o2).
  - injection E as <-. apply Hsame; try done. intros x. by apply elapse_shut.
Qed.

(** A worker is not blocked except at the queue. *)
Lemma worker_enabled s w o1 o2 : worker_step o1 o2 w s = None ->
  w = Finished \/ (w = Idle /\ q_blocks (queue_of s) = true).
Proof.
  destruct w as [| |[|]|key l|key l l'| | |]; cbn [worker_step]; try done; try (by left).
  - destruct (q_blocks (queue_of s)); [by right|]. by destruct (q_get (queue_of s)) as [[|] ?].
  - by destruct (slice_at s l).
  - destruct (slice_at s l); [|done]. destruct (service_at s l'); [|done].
    by destruct (handle_objects _ _ _ _ _) as [[|] ?].
Qed.

(** C20. After the stop, when the controller's [Run] has returned, the workers end:
    in every interleaving they take at most six steps per item still to be
    handed out and seven more each, whatever events and failures come, and as
    long as the process has not ended, a worker that has not returned can take
    its next step, also when [main] has closed the maps already. *)
Theorem shutdown_drains tr tr' (r : R) (q : Q) (m : ServiceManager SM BM) s s' (l : list item) :
  q_shutting_down q = false -> exec tr (agent_start r q m) = Some s -> returned s ->
  (forall x, q_dirty (queue_of s) x -> x ∈ l) -> exec tr' s = Some s' ->
  (count_work tr' <= 6 * length l + 7 * length (workers s))%nat /\
  (crashed s' = None -> Main.ended (proc s') = None ->
   forall i w, workers s' !! i = Some w ->
     w = Finished \/ forall o1 o2, exists s'', step (AWorker i o1 o2) s' = Some s'').
Proof.
  intros Hq Htr Hr Hl Htr'. pose proof (reachable_inv _ _ _ _ _ Hq Htr) as Hi. split.
  - enough (count_work tr' <= work_left s l)%nat as Hle.
    { unfold work_left in Hle. pose proof (sum_le rank 7 (workers s) rank_le). destruct (crashed s); lia. }
    clear Htr. revert s l Hi Hr Hl Htr'. induction tr' as [|a tr' IH]; intros s l Hi Hr Hl; [cbn; lia|].
    cbn [exec]. destruct (step a s) as [s1|] eqn:E; [|done]. intros Htr'.
    destruct (step_work_left a s s1 l Hi Hr E Hl) as (l' & Hl' & Hle).
    specialize (IH s1 l' (inv_step _ _ _ Hi E) (step_returned _ _ _ E Hr) Hl' Htr').
    rewrite count_work_cons. lia.
  - intros Hc He i w Hw.
    assert (inv s' /\ returned s') as [Hi' Hr'].
    { revert Htr'. apply (exec_invariant (fun s => inv s /\ returned s)); [|done].
      intros a s1 s2 [H1 H2] E. split; [by eapply inv_step|by eapply step_returned]. }
    assert (w = Finished \/ w <> Finished) as [->|Hf] by (destruct w; auto); [by left|right]. intros o1 o2.
    rewrite step_worker by done. unfold work. rewrite Hw.
    destruct (worker_step o1 o2 w s') as [[p|[w' s1]]|] eqn:E; [by eexists..|].
    destruct (worker_enabled _ _ _ _ E) as [?|[_ Hb]]; [done|].
    by rewrite (blocks_shut _ (proj2 (inv_shut _ Hi') Hr')) in Hb.
Qed.

End properties.

(** ** A run of the agent

    The service and the slice of the examples are in the first lists. *)

#[local] Existing Instance ex_key_func.
#[local] Existing Instance ex_key_func_spec.

Definition ex_proxy : requirement := exist _ (LabelServiceProxyName, ProxyName) (conj eq_refl eq_refl).

Definition ex_running : Type :=
  running (hmap lb4_key lb4_service) (hmap Z lb4_backend) wqueue (gmap string delta_object)
    (fifo v1_Service) (fifo v1_EndpointSlice).
Definition ex_agent : ex_running := agent_start ex_proxy (ex_queue []) ex_new.

Definition ex_service_obj : v1_Service :=
  mkV1Service ("Service", "v1")%string (ex_meta "web") "10.96.0.10" [mkServicePort "TCP" 80 8080]
    "ClusterIP" [].

Definition informer_round (n : nat) {T} (e : server_event T) : list (inf_act T) :=
  [Receive e; Pop] ++ concat (replicate n [Delta; Call]) ++ [Delta].

Definition ex_lists : list act :=
  map AService (Begin :: informer_round 1 (Listed [ex_service_obj])) ++
  map ASlice (Begin :: informer_round 1 (Listed [ex_slice_obj])).
Definition ex_run_up : list act := [ARun true; ARun true; ARun true; AWorker 0 [] []].
(** The worker on a key of a service, and on one of a slice. *)
Definition ex_item : list act := replicate 4 (AWorker 0 [] [ex_port]).
Definition ex_slice_item : list act := replicate 6 (AWorker 0 [] [ex_port]).
Definition ex_served : list act := ex_lists ++ ex_run_up ++ ex_item ++ ex_slice_item.

Definition ex_after (tr : list act) : ex_running := default ex_agent (exec tr ex_agent).

Definition runs (tr : list act) (s : ex_running) : bool := bool_decide (is_Some (exec tr s)).

Lemma ex_exec tr : runs tr ex_agent = true -> exec tr ex_agent = Some (ex_after tr).
Proof. unfold runs, ex_after. intros [s ->]%bool_decide_eq_true_1. done. Qed.

(** From the first lists to a connection: the agent with an empty queue lists
    one service and its slice, starts its worker, which works on both events;
    then a connection to the service's address reaches the slice's second
    endpoint when the random word is odd. *)
Theorem agent_serves :
  exists s sm bm, exec ex_served ex_agent = Some s /\
    serviceMap (serviceManager (ctl s)) = Some sm /\ endpointsMap (serviceManager (ctl s)) = Some bm /\
    user_ip4 (connect4_ctx sm bm 7 System.ex_ctx) = 33554442 /\
    seen s "default/web-1" = current s "default/web-1".
Proof.
  set (m := serviceManager (ctl (ex_after ex_served))).
  exists (ex_after ex_served), (default (hmap_new 4) (serviceMap m)), (default (hmap_new 8) (endpointsMap m)).
  split; [apply ex_exec; by_vm|]. split_and!; by_vm.
Qed.

Definition ex_update : list act := map ASlice (informer_round 1 (Watched Updated ex_slice_obj)).
Definition ex_crash : list act :=
  ex_served ++ ex_update ++ replicate 4 (AWorker 0 [ex_port] [ex_port]).

(** The next event of the same slice ends the agent: the update of a service
    with endpoints deletes it first, which panics, and nothing recovers. *)
Theorem update_crashes_agent :
  exists s, exec ex_crash ex_agent = Some s /\ crashed s = Some (LogPanic ErrKeyNotExist) /\
    forall a, step a s = None.
Proof.
  exists (ex_after ex_crash). split; [apply ex_exec; by_vm|].
  assert (crashed (ex_after ex_crash) = Some (LogPanic ErrKeyNotExist)) as E by by_vm.
  split; [exact E|]. intros a. unfold step. by rewrite E.
Qed.

(** The informer clears the slice the worker is about to read: a list without it
    comes after the worker has looked both objects up. *)
Definition ex_race : list act :=
  ex_lists ++ ex_run_up ++ ex_item ++ replicate 3 (AWorker 0 [] [ex_port]) ++
  map ASlice [Receive (Listed []); Pop; Delta] ++ replicate 1 (AWorker 0 [] [ex_port]).

(** The handler does not notice: it succeeds, the service is stored without
    endpoints, and its entry in the map counts none, so connections to it are
    left alone. *)
Theorem cleared_slice_published :
  exists s sm v, exec ex_race ex_agent = Some s /\
    serviceMap (serviceManager (ctl s)) = Some sm /\
    map_lookup sm (service_entry_key ex_ip ex_port) = Some v /\ count v = 0 /\
    forall r (bm : hmap Z lb4_backend), connect4_ctx sm bm r System.ex_ctx = System.ex_ctx.
Proof.
  set (m := serviceManager (ctl (ex_after ex_race))).
  set (sm := default (hmap_new 4) (serviceMap m)).
  exists (ex_after ex_race), sm, (default (mk_lb4_service 0 0) (map_lookup sm (service_entry_key ex_ip ex_port))).
  split; [apply ex_exec; by_vm|].
  split; [by_vm|]. split; [by_vm|]. split; [by_vm|]. intros r bm. by_vm.
Qed.

Lemma no_update_lost_witness :
  let s := ex_after ex_served in
  let x := slice_item "default/web-1" in
  q_pending (queue_of s) x \/ dispatching s "default/web-1" \/
  (exists w, w ∈ workers s /\ busy x (is_now s "default" "web-1") w) \/
  seen s "default/web-1" = current s "default/web-1".
Proof.
  apply (no_update_lost ex_served ex_proxy (ex_queue []) ex_new (ex_after ex_served) "default" "web-1");
    [by_vm|apply ex_exec; by_vm|by_vm..|].
  assert (lost (ex_after ex_served) = []) as -> by by_vm. by apply not_elem_of_nil.
Defined.

Lemma agent_well_typed_witness : keys_only (ex_after ex_served) /\ store_typed (slc (ex_after ex_served)).
Proof.
  destruct (agent_well_typed ex_served ex_proxy (ex_queue []) ex_new (ex_after ex_served))
    as (_ & H1 & H2); [by_vm| |apply ex_exec; by_vm|by split].
  by intros x [[Hx|[Hx _]]|Hx]; apply not_elem_of_nil in Hx.
Defined.

Lemma workers_after_first_lists_witness :
  exists ks, first_keys (slc (ex_after ex_served)) = Some ks /\
    forall k, k ∈ ks -> accounted (slc (ex_after ex_served)) k.
Proof.
  apply (workers_after_first_lists ex_served ex_proxy (ex_queue []) ex_new (ex_after ex_served));
    [by_vm|apply ex_exec; by_vm|].
  assert (workers (ex_after ex_served) = [Idle]) as -> by by_vm. done.
Defined.

(** The state before the crash. *)
Definition ex_before : list act :=
  ex_served ++ ex_update ++ replicate 3 (AWorker 0 [ex_port] [ex_port]).

Lemma only_handler_crashes_witness :
  exists i o1 o2 key l l' o o', AWorker 0 [ex_port] [ex_port] = AWorker i o1 o2 /\
    workers (ex_after ex_before) !! i = Some (Found key l l') /\
    slice_at (ex_after ex_before) l = Some o /\ service_at (ex_after ex_before) l' = Some o' /\
    (handle_objects (ex_after ex_before) (k8s_service o') (k8s_slice o) o1 o2).1 = Panics (LogPanic ErrKeyNotExist).
Proof.
  apply (only_handler_crashes ex_before ex_proxy (ex_queue []) ex_new (AWorker 0 [ex_port] [ex_port])
    (ex_after ex_before) (default ex_agent (step (AWorker 0 [ex_port] [ex_port]) (ex_after ex_before))));
    [by_vm|apply ex_exec; by_vm| |by_vm].
  assert (bool_decide (is_Some (step (AWorker 0 [ex_port] [ex_port]) (ex_after ex_before))) = true) as Hs by by_vm.
  apply bool_decide_eq_true_1 in Hs as [s' ->]. done.
Defined.

(** The agent gets SIGTERM, and then a signal it does not listen to. *)
Definition ex_hangup : list act :=
  ex_served ++ [AProcess (Main.Deliver Main.SIGTERM); AProcess Main.HandlerStep; AProcess (Main.Deliver Main.SIGHUP)].

Lemma agent_process_ends_witness :
  Main.ended (proc (ex_after ex_hangup)) = Some (Main.KilledBy Main.SIGHUP) /\
  Main.SIGHUP ∉ Main.shutdownSignals /\ AProcess (Main.Deliver Main.SIGHUP) ∈ ex_hangup.
Proof.
  pose proof (agent_process_ends ex_hangup ex_proxy (ex_queue []) ex_new (ex_after ex_hangup)) as H.
  assert (Main.ended (proc (ex_after ex_hangup)) = Some (Main.KilledBy Main.SIGHUP)) as E by by_vm.
  assert (crashed (ex_after ex_hangup) = None) as Ec by by_vm.
  rewrite E, Ec in H. split; [exact E|]. apply H; [by_vm|apply ex_exec; by_vm].
Defined.

(** The worker at the queue with the slice's key. *)
Definition ex_idle_run : list act := ex_lists ++ ex_run_up ++ ex_item.

Lemma wqueue_dirty (q : wqueue) l : ready q = l -> again q = [] -> forall x, q_dirty q x -> x ∈ l.
Proof. intros <- Ha x [Hx|[Hx _]]; [done|]. rewrite Ha in Hx. by apply not_elem_of_nil in Hx. Qed.

(** The stop comes while an event is in the queue. *)
Definition ex_stop : list act :=
  ex_idle_run ++ [AProcess (Main.Deliver Main.SIGTERM); AProcess Main.HandlerStep; AProcess Main.HandlerStep;
    ARun true].
Definition ex_drain : list act := replicate 8 (AWorker 0 [] [ex_port]).

Lemma shutdown_drains_witness :
  workers (default ex_agent (exec ex_drain (ex_after ex_stop))) = [Finished] /\ (count_work ex_drain <= 13)%nat.
Proof.
  split; [by_vm|].
  refine (proj1 (shutdown_drains ex_stop ex_drain ex_proxy (ex_queue []) ex_new (ex_after ex_stop)
    (default ex_agent (exec ex_drain (ex_after ex_stop))) [slice_item "default/web-1"] _ _ _ _ _)).
  - by_vm.
  - apply ex_exec. by_vm.
  - exists None. by_vm.
  - apply wqueue_dirty; by_vm.
  - assert (runs ex_drain (ex_after ex_stop) = true) as Hr by by_vm. unfold runs in Hr.
    apply bool_decide_eq_true_1 in Hr as [s' ->]. done.
Defined.

End RunningSpec.
