(* ===== verification/RunningProgress.v ===== *)
(** * Progress of the running agent

    Left to itself, without a delay of the rate limiter ending, the worker
    stops after a bounded number of steps, and when it can take no other it has
    caught up with the informer's store.  For this the queue and the worker have
    to agree on which items are being processed ([holding]). *)

From Stdlib Require Import ZArith Lia String.
From stdpp Require Import base gmap list strings.
From S2P Require Import Prelude GoStrings Layout BpfMap GoSet Manager ManagerSpec Main Controller ControllerSpec Closed Informer InformerRun Resources Running RunningInv RunningSpec.
Import GoStrings Layout BpfMap GoSet Manager ManagerSpec Controller ControllerSpec Closed Informer InformerRun Resources Running RunningInv RunningSpec.

Local Open Scope Z_scope.
Local Open Scope go_scope.

Module RunningProgress.

Section properties.
Context {SM BM Q I CS CE : Type} `{!MapOps lb4_key lb4_service SM} `{!MapOps Z lb4_backend BM}.
Context `{!QueueOps Q} `{!QueueSpec Q} `{!KeyFunc} `{!KeyFuncSpec} `{!IndexerOps I} `{!IndexerSpec I}.
Context `{!CacheOps v1_Service CS} `{!CacheOps v1_EndpointSlice CE}.
Context `{!CacheSpec CS} `{!CacheSpec CE}.
Implicit Type s : running SM BM Q I CS CE.

(** ** What is being processed *)

Definition has (x : item) (w : worker_pc) : Prop :=
  match w with
  | Taken y | Handled y _ | Settled y => y = x
  | Looked key _ | Found key _ _ => StringItem key = x
  | AtSelect | Idle | Finished => False
  end.

(** The items the queue takes for being processed are with a worker; a worker
    only returns when it is to stop. *)
Record holding s : Prop := {
  holding_processing x : q_processing (queue_of s) x -> exists w, w ∈ workers s /\ has x w;
  holding_finished : Finished ∈ workers s -> stop_closed s = true
}.

Lemma holding_keep s s' :
  holding s -> (forall x, q_processing (queue_of s') x -> q_processing (queue_of s) x) ->
  workers s' = workers s \/ workers s' = workers s ++ [AtSelect] ->
  (stop_closed s = true -> stop_closed s' = true) -> holding s'.
Proof.
  intros [H1 H2] Hp Hw Hst. constructor.
  - intros x Hx%Hp%H1. destruct Hx as (w & Hin & Hh). exists w. split; [|done].
    destruct Hw as [->| ->]; [done|]. apply elem_of_app. by left.
  - intros Hf. apply Hst, H2. destruct Hw as [Hw|Hw]; rewrite Hw in Hf; [done|].
    by apply elem_of_app in Hf as [?|[=]%list_elem_of_singleton].
Qed.

Lemma moved_holding o1 o2 s w w' c f :
  moved o1 o2 s w w' c f -> (forall x, q_processing (queue_of s) x -> has x w) ->
  forall x, q_processing (Workqueue c) x -> has x w'.
Proof.
  intros Hm Hp x. destruct Hm as [|obj q _ Eg| | |key|key l o _|key l l' o o' err m _ _ _|obj err|obj];
    cbn [Workqueue set_queue set_manager]; try (by intros Hx%Hp).
  - intros [->|Hx%Hp]%(processing_get _ _ _ Eg); [done|by destruct Hx].
  - rewrite processing_forget. by intros Hx%Hp.
  - intros Hx%Hp. destruct (look_slice_next s key) as [[err E]|[l' E]]; by rewrite E.
  - intros Hx%Hp. destruct (look_service_next s key l (k8s_slice o)) as [[err E]|[l' E]]; by rewrite E.
  - destruct err; [destruct ((MaxRetries _ =? 0) || _)|]; cbn [id]; autorewrite with queue; by intros Hx%Hp.
  - rewrite processing_done. intros [Hne Hx%Hp]. by destruct Hne.
Qed.

Lemma holding_work i o1 o2 s s' :
  inv s -> holding s -> work i o1 o2 s = Some s' -> holding s'.
Proof.
  intros Hi Hh (w & Hw & [(p & -> & _)|(w' & c & f & Hm & ->)])%work_cases;
    [by apply (holding_keep s); auto|].
  destruct (single_worker _ _ _ Hi Hw) as [Ew ->]. destruct Hh as [H1 _]. rewrite Ew in H1.
  unfold with_worker. rewrite Ew. constructor.
  - intros x Hx. exists w'. split; [by left|]. eapply moved_holding; [exact Hm| |exact Hx].
    intros y Hy. by destruct (H1 y Hy) as (w0 & ->%list_elem_of_singleton & ?).
  - intros Hf%list_elem_of_singleton. subst w'. inversion Hm as [Hst| | | |key Ek Es|key l o _ Ek Es| | |].
    + change (stop_closed s = true). by destruct (stop_closed s).
    + destruct (look_slice_next s key) as [[err E]|[l' E]]; congruence.
    + destruct (look_service_next s key l (k8s_slice o)) as [[err E]|[l' E]]; congruence.
Qed.

Lemma holding_event s c :
  c = ctl s \/ (exists key, c = set_queue (q_add (StringItem key)) (ctl s)) ->
  forall x, q_processing (Workqueue c) x -> q_processing (queue_of s) x.
Proof. intros [->|[key ->]] x; [done|]. cbn. by rewrite processing_add. Qed.

Lemma holding_step a s s' : inv s -> holding s -> step a s = Some s' -> holding s'.
Proof.
  intros Hi Hh E. unfold step in E. destruct (crashed s); [done|]. destruct (Main.ended (proc s)); [done|].
  pose proof (holding_keep s) as Hsame.
  destruct a as [a|a|a|ok|i o1 o2|]; cbn in E.
  - destruct (Main.act a (proc s)) eqn:Ea; [|done]. injection E as <-. apply Hsame; auto.
    by apply (act_stop_closed a).
  - unfold service_step in E. destruct (inf_step _ a (svc s)) as [[p|g]|]; [| |done]; injection E as <-;
      [by apply Hsame; auto|]. destruct (call_service_cases s) as (c & Ec & Hcq).
    destruct a; try (by apply Hsame; auto). rewrite Ec. apply Hsame; auto. by apply holding_event.
  - unfold slice_step in E. destruct (inf_step _ a (slc s)) as [[p|g]|]; [| |done]; injection E as <-;
      [by apply Hsame; auto|]. destruct (call_slice_cases s) as (c & l1 & Ec & Hcq).
    destruct a; try (by apply Hsame; auto). rewrite Ec. apply Hsame; auto. by apply holding_event.
  - unfold run_step in E.
    assert (forall err, holding (shut_down err s)) as Hshut.
    { intros err. apply Hsame; auto. intros x. unfold queue_of. cbn. by rewrite processing_shut_down. }
    destruct (run s) as [|[|k]| |]; [destruct ok; [destruct (all_synced s)|destruct (stop_closed s)]|..
      |destruct (stop_closed s)|]; try done; injection E as <-; auto; apply Hsame; auto.
  - by apply (holding_work i o1 o2 s).
  - injection E as <-. apply Hsame; auto. intros x. unfold queue_of. cbn. by rewrite processing_elapse.
Qed.

(** ** How many steps the worker has left *)

Definition stage (w : worker_pc) : nat :=
  match w with
  | Finished => 0 | Idle => 1 | AtSelect | Settled _ => 2 | Handled _ _ => 3
  | Found _ _ _ => 4 | Looked _ _ => 5 | Taken _ => 6
  end.

Lemma stage_le w : (stage w <= 6)%nat.
Proof. destruct w; cbn; lia. Qed.

(** Workers still to be started. *)
Definition to_spawn (r : run_pc) : nat :=
  match r with WaitSync => threads | Spawning n => n | _ => 0 end.

Definition effort s (l : list item) : nat :=
  match crashed s with
  | Some _ => 0
  | None => 6 * length l + 2 * to_spawn (run s) + sum_list_with stage (workers s)
  end.

Lemma effort_le s l : inv s -> (effort s l <= 6 * length l + 6 * threads)%nat.
Proof.
  intros Hi. unfold effort. destruct (crashed s); [lia|]. pose proof (inv_workers _ Hi) as Hw.
  pose proof (sum_le stage 6 (workers s) stage_le). unfold to_spawn, threads in *.
  destruct (run s); [rewrite Hw in *; cbn in *|..]; lia.
Qed.

(** A list that covers what is to be handed out. *)
Definition covers (l : list item) (q : Q) : Prop := forall x, q_dirty q x -> x ∈ l.

Definition is_call (a : act) : bool :=
  match a with AService Call | ASlice Call => true | _ => false end.
Definition count_calls (tr : list act) : nat := length (filter (fun a => is_call a = true) tr).

Lemma count_calls_cons a tr : count_calls (a :: tr) = ((if is_call a then 1 else 0) + count_calls tr)%nat.
Proof. unfold count_calls. rewrite filter_cons. by destruct (is_call a). Qed.

Definition no_elapse (a : act) : Prop := a <> AElapse.

Lemma moved_stage o1 o2 s w w' c f (l : list item) :
  q_shutting_down (queue_of s) = false -> moved o1 o2 s w w' c f -> covers l (queue_of s) ->
  exists l', covers l' (Workqueue c) /\ (6 * length l' + stage w' < 6 * length l + stage w)%nat.
Proof.
  intros Hns Hm Hl. destruct (moved_pending _ _ _ _ _ _ _ Hm) as (Hd & _).
  assert (covers l (Workqueue c)) as Hl' by (intros x Hx; auto).
  destruct Hm as [|obj q _ Eg| | |key|key l0 o _| | |]; try (exists l; split; [done|cbn; lia]).
  - exists l. split; [done|]. destruct (stop_closed s); cbn; lia.
  - destruct (dirty_get _ _ _ Eg) as [Hx Hdq]. exists (without obj l). split.
    + intros y Hy. apply Hdq in Hy as [? Hy]. apply elem_of_without. auto.
    + enough (length (without obj l) < length l)%nat by (cbn; lia).
      apply (length_filter_lt _ _ obj); [by apply Hl|naive_solver].
  - congruence.
  - exists l. split; [done|]. destruct (look_slice_next s key) as [[err E]|[l' E]]; rewrite E; cbn; lia.
  - exists l. split; [done|]. destruct (look_service_next s key l0 (k8s_slice o)) as [[err E]|[l' E]]; rewrite E; cbn; lia.
Qed.

Lemma work_effort i o1 o2 s s' l :
  inv s -> crashed s = None -> q_shutting_down (queue_of s) = false -> work i o1 o2 s = Some s' ->
  covers l (queue_of s) ->
  exists l', covers l' (queue_of s') /\ (S (effort s' l') <= effort s l)%nat.
Proof.
  intros Hi Hc Hns (w & Hw & [(p & -> & Hp)|(w' & c & f & Hm & ->)])%work_cases Hl;
    unfold effort; rewrite Hc; cbn [crashed crash].
  - exists l. split; [done|]. pose proof (sum_insert stage i _ Finished _ Hw) as Hs.
    destruct (worker_step_panics _ _ _ _ _ Hp) as [(key & l0 & ->)|(key & l0 & l1 & ->)]; cbn [stage] in Hs; lia.
  - destruct (moved_stage _ _ _ _ _ _ _ l Hns Hm Hl) as (l' & Hl' & Hlt).
    exists l'. split; [done|]. cbn. rewrite Hc. pose proof (sum_insert stage i w w' _ Hw). lia.
Qed.

Lemma event_covers s c l :
  q_shutting_down (queue_of s) = false ->
  c = ctl s \/ (exists key, c = set_queue (q_add (StringItem key)) (ctl s)) -> covers l (queue_of s) ->
  exists l', covers l' (Workqueue c) /\ (length l' <= S (length l))%nat.
Proof.
  intros Hns [->|[key ->]] Hl; [exists l; split; [done|lia]|].
  exists (StringItem key :: l). split; [|done]. intros x. cbn. rewrite dirty_add by done.
  intros [<-|?]; [by left|right; auto].
Qed.

Lemma spawn_effort ok s s' l :
  inv s -> crashed s = None -> run_step threads ok s = Some s' ->
  q_shutting_down (queue_of s') = false -> (effort s' l <= effort s l)%nat /\ queue_of s' = queue_of s.
Proof.
  intros Hi Hc E Hns'. unfold run_step in E.
  assert (forall err, q_shutting_down (queue_of (shut_down err s)) = true) as Hshut.
  { intros err. unfold queue_of. cbn. by autorewrite with queue. }
  unfold effort. rewrite Hc. destruct (run s) as [|[|k]| |] eqn:Er.
  - destruct ok; [destruct (all_synced s); [|done]|destruct (stop_closed s); [|done]]; injection E as <-;
      [cbn; rewrite Hc; split; [lia|done]|by rewrite Hshut in Hns'].
  - injection E as <-. cbn. rewrite Hc. split; [lia|done].
  - injection E as <-. cbn. rewrite Hc, sum_list_with_app. cbn. split; [lia|done].
  - destruct (stop_closed s); [|done]. injection E as <-. by rewrite Hshut in Hns'.
  - done.
Qed.

Lemma step_effort a s s' l :
  inv s -> no_elapse a -> step a s = Some s' -> q_shutting_down (queue_of s') = false ->
  covers l (queue_of s) ->
  exists l', covers l' (queue_of s') /\
    ((if is_work a then 1 else 0) + effort s' l' <= effort s l + 6 * (if is_call a then 1 else 0))%nat.
Proof.
  intros Hi Ha E Hns' Hl. pose proof (shutting_step _ _ _ Hi (inv_step _ _ _ Hi E) E Hns') as Hns.
  unfold step in E. destruct (crashed s) eqn:Hc; [done|]. destruct (Main.ended (proc s)); [done|].
  assert (forall s1 l1, run s1 = run s -> workers s1 = workers s -> (length l1 <= S (length l))%nat ->
    (effort s1 l1 <= effort s l + 6)%nat /\ (l1 = l -> (effort s1 l1 <= effort s l)%nat)) as Hsame.
  { intros s1 l1 Er Ew Hlen. unfold effort. rewrite Er, Ew, Hc. destruct (crashed s1); [lia|].
    split; [lia|]. by intros ->. }
  assert (forall s1, run s1 = run s -> workers s1 = workers s -> queue_of s1 = queue_of s ->
    exists l', covers l' (queue_of s1) /\ (0 + effort s1 l' <= effort s l + 6 * 0)%nat) as Hquiet.
  { intros s1 Er Ew Eq. exists l. rewrite Eq. split; [done|].
    destruct (Hsame s1 l Er Ew ltac:(lia)) as [_ H1]. specialize (H1 eq_refl). lia. }
  destruct a as [a|a|a|ok|i o1 o2|]; cbn [is_work is_call]; cbn in E.
  - destruct (Main.act a (proc s)); [|done]. injection E as <-. by apply Hquiet.
  - unfold service_step in E. destruct (inf_step _ a (svc s)) as [[p|g]|]; [| |done]; injection E as <-.
    { exists l. split; [done|]. unfold effort. cbn. lia. }
    destruct (call_service_cases s) as (c & Ec & Hcq).
    destruct a; try (by apply Hquiet). rewrite Ec. destruct (event_covers s c l Hns Hcq Hl) as (l' & Hl' & Hlen).
    exists l'. split; [done|]. destruct (Hsame (set_svc g (set_ctl c s)) l'); [done..|]. lia.
  - unfold slice_step in E. destruct (inf_step _ a (slc s)) as [[p|g]|]; [| |done]; injection E as <-.
    { exists l. split; [done|]. unfold effort. cbn. lia. }
    destruct (call_slice_cases s) as (c & l1 & Ec & Hcq).
    destruct a; try (by apply Hquiet). rewrite Ec. destruct (event_covers s c l Hns Hcq Hl) as (l' & Hl' & Hlen).
    exists l'. split; [done|]. destruct (Hsame (set_slc g (set_lost (l1 ++ lost s) (set_ctl c s))) l'); [done..|]. lia.
  - destruct (spawn_effort ok s s' l Hi Hc E Hns') as [Hle Eq]. exists l. rewrite Eq. split; [done|]. lia.
  - destruct (work_effort i o1 o2 s s' l Hi Hc Hns E Hl) as (l' & Hl' & Hle). exists l'. split; [done|]. lia.
  - done.
Qed.

Lemma exec_effort tr s s' l :
  inv s -> Forall no_elapse tr -> exec tr s = Some s' -> q_shutting_down (queue_of s') = false ->
  covers l (queue_of s) -> (count_work tr <= effort s l + 6 * count_calls tr)%nat.
Proof.
  intros Hi Htr. revert s l Hi. induction Htr as [|a tr Ha Htr IH]; intros s l Hi; [cbn; lia|].
  cbn [exec]. destruct (step a s) as [s1|] eqn:E; [|done]. intros Hex Hns' Hl.
  pose proof (inv_step _ _ _ Hi E) as Hi1.
  assert (q_shutting_down (queue_of s1) = false) as Hns1.
  { enough (inv s' /\ (q_shutting_down (queue_of s1) = true -> q_shutting_down (queue_of s') = true)) as [_ H1].
    { destruct (q_shutting_down (queue_of s1)); [|done]. rewrite H1 in Hns' by done. done. }
    revert Hex. apply (exec_invariant (fun s2 => inv s2 /\
      (q_shutting_down (queue_of s1) = true -> q_shutting_down (queue_of s2) = true))); [|done].
    intros a' s2 s3 [H2 H3] E'. pose proof (inv_step _ _ _ H2 E') as H4. split; [done|]. intros Hs.
    apply (inv_shut _ H4), (step_returned _ _ _ E'), (inv_shut _ H2). auto. }
  destruct (step_effort a s s1 l Hi Ha E Hns1 Hl) as (l' & Hl' & Hle).
  specialize (IH s1 l' Hi1 Hex Hns' Hl'). rewrite count_work_cons, count_calls_cons. lia.
Qed.

(** ** When the worker can take no step *)

(** The agent is up, and its worker can take no step. *)
Record resting s : Prop := {
  resting_queue : q_shutting_down (queue_of s) = false;
  resting_crashed : crashed s = None;
  resting_exit : Main.ended (proc s) = None;
  resting_stop : stop_closed s = false;
  resting_workers : workers s <> [];
  resting_steps i o1 o2 : step (AWorker i o1 o2) s = None
}.

(** The one worker waits at the queue, and the queue has nothing to hand out. *)
Lemma resting_waits s :
  inv s -> holding s -> resting s -> workers s = [Idle] /\ forall x, ~ q_dirty (queue_of s) x.
Proof.
  intros Hi Hh [_ Hc He Hst Hne Hstuck]. destruct (workers s) as [|w ws] eqn:Ews; [done|].
  destruct (single_worker 0 w s Hi ltac:(by rewrite Ews)) as [Ew _].
  rewrite Ews in Ew. injection Ew as ->. specialize (Hstuck 0%nat [] []).
  rewrite step_worker in Hstuck by done. unfold work in Hstuck. rewrite Ews in Hstuck. cbn [lookup list_lookup] in Hstuck.
  destruct (worker_step [] [] w s) as [[p|[w' s1]]|] eqn:Es; [done..|].
  destruct (worker_enabled _ _ _ _ Es) as [->|[-> Hb]].
  - pose proof (holding_finished _ Hh) as Hf. rewrite Ews, Hst in Hf. specialize (Hf ltac:(by left)). done.
  - split; [done|]. intros x Hx. apply (blocks_processing _ _ Hb), (holding_processing _ Hh) in Hx.
    destruct Hx as (w & Hw & Hhas). rewrite Ews in Hw. by apply list_elem_of_singleton in Hw as ->.
Qed.

(** ** Properties *)

Context {R : Type} `{!LabelOps R}.

Lemma reachable_holding tr (r : R) (q : Q) (m : ServiceManager SM BM) s :
  q_shutting_down q = false -> (forall x, ~ q_processing q x) ->
  exec tr (agent_start r q m) = Some s -> holding s.
Proof.
  intros Hq Hp Htr. enough (inv s /\ holding s) as [_ ?] by done.
  revert Htr. apply (exec_invariant (fun s => inv s /\ holding s)).
  - intros a s1 s2 [H1 H2] E. split; [by eapply inv_step|by eapply holding_step].
  - split; [by apply inv_start|]. constructor; [intros x Hx; by destruct (Hp x)|].
    by intros []%not_elem_of_nil.
Qed.

(** What a resting worker leaves undone. *)
Lemma resting_caught_up tr (r : R) (q : Q) (m : ServiceManager SM BM) s ns n :
  q_shutting_down q = false -> (forall x, ~ q_processing q x) ->
  exec tr (agent_start r q m) = Some s -> resting s ->
  no_slash ns = true -> no_slash n = true -> slice_key_of ns n ∉ lost s ->
  q_delayed (queue_of s) (slice_item (slice_key_of ns n)) \/ dispatching s (slice_key_of ns n) \/
  seen s (slice_key_of ns n) = current s (slice_key_of ns n).
Proof.
  intros Hq Hp Htr Hrest Hsl1 Hsl2 Hlost.
  destruct (resting_waits s (reachable_inv _ _ _ _ _ Hq Htr) (reachable_holding _ _ _ _ _ Hq Hp Htr) Hrest)
    as [Ew Hd].
  destruct (tracked_reachable _ _ _ _ _ ns n Hq Htr (resting_queue _ Hrest) Hsl1 Hsl2 (resting_crashed _ Hrest))
    as [[?|[[Hx|?]|?]]|[[Hb|?] _]]; [done| |auto..| |auto].
  - by destruct (Hd _ Hx).
  - destruct Hb as (w & Hw & Hb). rewrite Ew in Hw. by apply list_elem_of_singleton in Hw as ->.
Qed.

(** C6. The worker keeps up: in any interleaving in which no delay ends and the
    controller is not stopped, it takes at most six steps for every item to be
    handed out at first and every event that comes, and six more; and when it
    can take no other step, every slice no tombstone deleted is waiting for the
    delay after a failure, or about to be queued by its informer, or the handler
    last succeeded on it as the store has it now. *)
Theorem agent_catches_up tr tr' (r : R) (q : Q) (m : ServiceManager SM BM) s s' l :
  q_shutting_down q = false -> (forall x, ~ q_processing q x) ->
  exec tr (agent_start r q m) = Some s -> covers l (queue_of s) ->
  Forall no_elapse tr' -> exec tr' s = Some s' -> q_shutting_down (queue_of s') = false ->
  (count_work tr' <= 6 * (length l + count_calls tr' + threads))%nat /\
  (resting s' ->
   forall ns n, no_slash ns = true -> no_slash n = true -> slice_key_of ns n ∉ lost s' ->
   q_delayed (queue_of s') (slice_item (slice_key_of ns n)) \/ dispatching s' (slice_key_of ns n) \/
   seen s' (slice_key_of ns n) = current s' (slice_key_of ns n)).
Proof.
  intros Hq Hp Htr Hl Hel Htr' Hns. pose proof (reachable_inv _ _ _ _ _ Hq Htr) as Hi. split.
  - pose proof (exec_effort _ _ _ _ Hi Hel Htr' Hns Hl). pose proof (effort_le s l Hi). lia.
  - intros Hrest ns n. apply (resting_caught_up (tr ++ tr') r q m); [done..| |done].
    by rewrite exec_app, Htr.
Qed.

End properties.
(** ** Witness *)

#[local] Existing Instance ex_key_func.
#[local] Existing Instance ex_key_func_spec.

Lemma ex_exec_from tr tr' :
  runs (tr ++ tr') ex_agent = true -> exec tr' (ex_after tr) = Some (ex_after (tr ++ tr')).
Proof.
  intros H. pose proof (ex_exec _ H) as E. rewrite exec_app in E. unfold ex_after at 1.
  by destruct (exec tr ex_agent).
Qed.

Lemma ex_resting (s : ex_running) :
  shutting (queue_of s) = false -> crashed s = None -> Main.ended (proc s) = None ->
  stop_closed s = false -> workers s = [Idle] ->
  q_blocks (queue_of s) = true -> resting s.
Proof.
  intros Hq Hc He Hs Hw Hb. constructor; try done; [by rewrite Hw|].
  intros i o1 o2. unfold step. destruct (crashed s); [done|]. destruct (Main.ended (proc s)); [done|].
  unfold work. rewrite Hw. destruct i as [|i]; [|done]. cbn [lookup list_lookup worker_step]. by rewrite Hb.
Qed.

(** Both events of the first lists are queued and the worker is at the queue. *)
Definition ex_queued : list act := ex_lists ++ ex_run_up.
Definition ex_keys : list item :=
  [StringItem (ServiceType ++ "/default/web"); slice_item (slice_key_of "default" "web-1")].
Definition ex_both : list act := ex_item ++ ex_slice_item.

Lemma agent_catches_up_witness :
  (count_work ex_both <= 18)%nat /\
  let s := ex_after (ex_queued ++ ex_both) in
  q_delayed (queue_of s) (slice_item (slice_key_of "default" "web-1")) \/
  dispatching s (slice_key_of "default" "web-1") \/
  seen s (slice_key_of "default" "web-1") = current s (slice_key_of "default" "web-1").
Proof.
  destruct (agent_catches_up ex_queued ex_both ex_proxy (ex_queue []) ex_new (ex_after ex_queued)
    (ex_after (ex_queued ++ ex_both)) ex_keys) as [Hn Hs].
  - by_vm.
  - by intros x []%not_elem_of_nil.
  - apply ex_exec. by_vm.
  - unfold covers. apply wqueue_dirty; by_vm.
  - by repeat constructor.
  - apply ex_exec_from. by_vm.
  - by_vm.
  - split; [exact Hn|]. apply Hs; [apply ex_resting; by_vm|by_vm|by_vm|].
    assert (lost (ex_after (ex_queued ++ ex_both)) = []) as -> by by_vm. apply not_elem_of_nil.
Defined.

End RunningProgress.
