(* ===== verification/RunningLive.v ===== *)
(** * The manager of the running agent

    How an invariant of the manager is lifted to the running agent ([lifted]).
    The invariant of the manager's reachable states (ManagerSpec) holds of the
    manager in every state of the running agent, when no slice the API server
    sends has 65536 addresses; and what an event of a slice does whose service
    is stored already. *)

From Stdlib Require Import ZArith Lia String.
From stdpp Require Import base gmap list strings.
From S2P Require Import Prelude GoStrings GoNet Layout BpfMap GoSet Manager ManagerSpec Main Controller ControllerSpec Closed Informer InformerRun Resources Running RunningInv RunningSpec.
Import GoStrings GoNet Layout BpfMap GoSet Manager ManagerSpec Controller ControllerSpec Closed Informer InformerRun Resources Running RunningInv RunningSpec.

Local Open Scope Z_scope.
Local Open Scope go_scope.

Module RunningLive.

(** ** The size of a slice *)

Definition addresses (eps : list Endpoint) : nat := length (concat (map Addresses eps)).

(** A slice of at most 65535 addresses. *)
Definition small (o : v1_EndpointSlice) : Prop := Z.of_nat (addresses (e_Endpoints o)) < 65536.

Lemma small_zero : small obj_zero.
Proof. done. Qed.
Lemma small_copy o : small o -> small (obj_copy o).
Proof. done. Qed.

Lemma collect_addresses_length keep addrs acc l :
  collect_addresses keep addrs acc = Returns l -> (length l <= length acc + length addrs)%nat.
Proof.
  revert acc. induction addrs as [|ip addrs IH]; intros acc; cbn; [intros [= ->]; lia|].
  destruct (address_word ip) as [w|]; [|done]. intros E%IH.
  destruct (keep w); [rewrite length_app in E; cbn in E|]; lia.
Qed.

Lemma collect_endpoints_length eps acc l :
  collect_endpoints eps acc = Returns l -> (length l <= length acc + addresses eps)%nat.
Proof.
  unfold addresses. revert acc. induction eps as [|e eps IH]; intros acc; cbn; [intros [= ->]; lia|].
  rewrite length_app. destruct (Conditions_Ready e) as [[]|]; [| |done].
  - destruct (collect_addresses _ _ acc) as [acc'|] eqn:Ea; [|done].
    apply collect_addresses_length in Ea. intros E%IH. lia.
  - intros E%IH. lia.
Qed.

Lemma NewService_length ks es svc :
  NewService ks es = Returns svc -> (length (Endpoints svc) <= addresses (es_Endpoints es))%nat.
Proof.
  unfold NewService. destruct (add_ports _ _) as [[u|] ports]; [|done].
  destruct (collect_endpoints _ []) as [eps|] eqn:E; [|done]. intros [= <-].
  by apply collect_endpoints_length in E.
Qed.

Section properties.
Context {SM BM Q I CS CE : Type} `{!MapOps lb4_key lb4_service SM} `{!MapOps Z lb4_backend BM}.
Context `{!MapSpec lb4_key lb4_service SM} `{!MapSpec Z lb4_backend BM}.
Context `{!QueueOps Q} `{!QueueSpec Q} `{!KeyFunc} `{!KeyFuncSpec} `{!IndexerOps I} `{!IndexerSpec I}.
Context `{!CacheOps v1_Service CS} `{!CacheOps v1_EndpointSlice CE}.
Context `{!CacheSpec CS} `{!CacheSpec CE}.
Implicit Type s : running SM BM Q I CS CE.

(** What an action brings from the API server. *)
Definition received (a : act) : list v1_EndpointSlice :=
  match a with ASlice (Receive e) => event_objects e | _ => [] end.

Definition received_services (a : act) : list v1_Service :=
  match a with AService (Receive e) => event_objects e | _ => [] end.

Definition small_act (a : act) : Prop := Forall small (received a).

(** ** Lifting invariants of the manager

    [Psvc] and [Pslc] hold of every object the API server sends, of the zero
    value and of copies; [M] is a property of the manager that the handler
    keeps when it works on such objects.  [A] restricts the actions of the
    run. *)

Section lift.
Context (Psvc : v1_Service -> Prop) (Pslc : v1_EndpointSlice -> Prop).
Context (svc_zero : Psvc obj_zero) (svc_copy : forall o, Psvc o -> Psvc (obj_copy o)).
Context (slc_zero : Pslc obj_zero) (slc_copy : forall o, Pslc o -> Pslc (obj_copy o)).
Context (M : ServiceManager SM BM -> Prop) (A : act -> running SM BM Q I CS CE -> bool).
Context (M_handler : forall s i key l l' o o' o1 o2 err m, A (AWorker i o1 o2) s = true ->
  workers s !! i = Some (Found key l l') -> pointers_ok s (Found key l l') ->
  slice_at s l = Some o -> service_at s l' = Some o' -> Psvc o' -> Pslc o -> M (serviceManager (ctl s)) ->
  handle_found (k8s_service o') (k8s_slice o) o1 o2 (serviceManager (ctl s)) = (Returns err, m) -> M m).

Record lifted s : Prop := {
  lifted_svc : objects_ok Psvc (inf (svc s));
  lifted_slc : objects_ok Pslc (inf (slc s));
  lifted_manager : M (serviceManager (ctl s))
}.

Lemma lifted_same s s' :
  lifted s -> objects_ok Psvc (inf (svc s')) -> objects_ok Pslc (inf (slc s')) ->
  serviceManager (ctl s') = serviceManager (ctl s) -> lifted s'.
Proof. intros [_ _ H3] H1 H2 Em. constructor; [done..|by rewrite Em]. Qed.

Lemma event_manager (c c' : Controller SM BM Q) :
  c' = c \/ (exists key, c' = set_queue (q_add (StringItem key)) c) ->
  serviceManager c' = serviceManager c.
Proof. by intros [->|[key ->]]. Qed.

Lemma lifted_worker i o1 o2 w s w' c f :
  A (AWorker i o1 o2) s = true -> inv s -> lifted s -> workers s !! i = Some w ->
  moved o1 o2 s w w' c f -> M (serviceManager c).
Proof.
  intros Ha Hi [H1 H2 H3] Hin Hm.
  pose proof (inv_pointers _ Hi w (list_elem_of_lookup_2 _ _ _ Hin)) as Hok.
  destruct Hm as [| | | | | |key l l' o o' err m Ho Ho' Eh| |]; try done.
  eapply (M_handler s i key l l' o o'); try done; [by apply (objects_heap _ _ H1 l')|by apply (objects_heap _ _ H2 l)].
Qed.

Definition received_ok (a : act) : Prop := Forall Psvc (received_services a) /\ Forall Pslc (received a).

Lemma lifted_step a s s' :
  A a s = true -> received_ok a -> inv s -> lifted s -> step a s = Some s' -> lifted s'.
Proof.
  intros Ha [Hrv Hrl] Hi Hs. unfold step. destruct (crashed s); [done|].
  destruct (Main.ended (proc s)); [done|].
  pose proof Hs as [Ho1 Ho2 _]. destruct a as [a|a|a|ok|i o1 o2|]; cbn.
  - destruct (Main.act a (proc s)); [|done]. intros [= <-]. by apply (lifted_same s).
  - unfold service_step. destruct (inf_step _ a (svc s)) as [[p|g]|] eqn:E; [| |done]; intros [= <-];
      [by apply (lifted_same s)|].
    assert (objects_ok Psvc (inf g)) as Hg by (eapply objects_step; [..|exact Ho1|exact E]; try done; by intros e ->).
    destruct (call_service_cases s) as (c & Ec & Hc%event_manager).
    destruct a; try rewrite Ec; by apply (lifted_same s).
  - unfold slice_step. destruct (inf_step _ a (slc s)) as [[p|g]|] eqn:E; [| |done]; intros [= <-];
      [by apply (lifted_same s)|].
    assert (objects_ok Pslc (inf g)) as Hg by (eapply objects_step; [..|exact Ho2|exact E]; try done; by intros e ->).
    destruct (call_slice_cases s) as (c & l & Ec & Hc%event_manager).
    destruct a; try rewrite Ec; by apply (lifted_same s).
  - unfold run_step. destruct (run s) as [|[|n]| |]; [destruct ok| | | |done].
    + destruct (all_synced s); [|done]. intros [= <-]. by apply (lifted_same s).
    + destruct (stop_closed s); [|done]. intros [= <-]. by apply (lifted_same s).
    + intros [= <-]. by apply (lifted_same s).
    + intros [= <-]. by apply (lifted_same s).
    + destruct (stop_closed s); [|done]. intros [= <-]. by apply (lifted_same s).
  - intros (w & Ew & [(p & -> & _)|(w' & c & f & Hm & ->)])%work_cases; [by apply (lifted_same s)|].
    pose proof (lifted_worker i o1 o2 w s w' c f Ha Hi Hs Ew Hm) as HM. by constructor.
  - intros [= <-]. by apply (lifted_same s).
Qed.

(** Every state of a run of the agent. *)
Lemma lifted_reachable {R} `{!LabelOps R} tr (r : R) (q : Q) m s :
  M m -> q_shutting_down q = false -> along A tr (agent_start r q m) = true -> Forall received_ok tr ->
  exec tr (agent_start r q m) = Some s -> lifted s.
Proof.
  intros Hm Hq Hal Htr E. enough (inv s /\ lifted s) as [_ ?] by done.
  revert E. apply (exec_invariant_along A received_ok (fun s => inv s /\ lifted s)); [|done..|].
  { intros a s1 s2 Ha Hb [Hi Hs] Es. split; [by eapply inv_step|by eapply lifted_step]. }
  split; [by apply inv_start|].
  constructor; cbn; [constructor; [intros l o; cbn; by rewrite lookup_empty|done]..|done].
Qed.

End lift.

Lemma small_service o ks svc : small o -> NewService ks (k8s_slice o) = Returns svc ->
  Z.of_nat (length (Endpoints svc)) < 65536.
Proof. intros Ho Hnew%NewService_length. unfold small in Ho. cbn [k8s_slice es_Endpoints] in Hnew. lia. Qed.

(** ** What an event of a stored service does *)

(** The service is stored with at least one port and one endpoint; [ord] is the
    order in which the ports are visited. *)
Definition stored_with (m : ServiceManager SM BM) (key : string) (ord : list Ports) : Prop :=
  exists l old ports, services m !! key = Some l /\ heap m !! l = Some old /\
    SvcPorts old = Some ports /\ order_of ports ord /\ members ports <> ∅ /\ Endpoints old <> [].

Lemma NewService_key ks es svc : NewService ks es = Returns svc ->
  ServiceKey svc = (ks_Namespace ks ++ "/" ++ ks_Name ks)%string.
Proof. unfold NewService. by repeat case_match; intros; simplify_eq. Qed.

(** Another object on the heap leaves what is stored. *)
Lemma alloc_stored (m m1 : ServiceManager SM BM) svc l key l0 old :
  alloc svc m = (Returns l, m1) -> services m !! key = Some l0 -> heap m !! l0 = Some old ->
  services m1 !! key = Some l0 /\ heap m1 !! l0 = Some old.
Proof.
  intros Ea Hl Hold. unfold alloc in Ea. injection Ea as <- <-. cbn. split; [done|].
  rewrite lookup_insert_ne; [done|]. intros Ef.
  assert (heap m !! fresh (dom (heap m)) = None) as Hf by apply not_elem_of_dom, is_fresh. congruence.
Qed.

Lemma handle_found_stored (m : ServiceManager SM BM) ks es o1 o2 :
  ids_inv m -> stored_with m (ks_Namespace ks ++ "/" ++ ks_Name ks)%string o1 ->
  exists p m', handle_found ks es o1 o2 m = (Panics p, m').
Proof.
  intros Hinv (l & old & ports & Hl & Hold & Hports & Hord & Hne & Heps).
  unfold handle_found, bind, lift_outcome.
  destruct (NewService ks es) as [svc|p] eqn:Hnew; [|by eexists _, _].
  rewrite <- (NewService_key _ _ _ Hnew) in Hl. destruct (negb _).
  - destruct (DeleteService_stored_panics m _ _ _ _ _ Hinv Hl Hold Hports Hord Hne Heps) as (p & m' & ->).
    by eexists _, _.
  - destruct (alloc svc m) as [[l'|p] m1] eqn:Ea; [|by eexists _, _].
    destruct (alloc_inv _ _ _ _ Hinv Ea) as (Hinv1 & Hl' & Hfr).
    destruct (alloc_stored _ _ _ _ _ _ _ Ea Hl Hold) as [Hl1 Hold1].
    destruct (UpdateService_stored_panics m1 _ _ _ _ _ o1 o2 Hinv1 Hl' Hl1 Hold1 Hports Hord Hne Heps)
      as (p & m' & ->). by eexists _, _.
Qed.

(** The same on closed maps. *)
Lemma handle_closed_stored (m : ServiceManager SM BM) ks es o1 o2 :
  ids_inv m -> stored_with m (ks_Namespace ks ++ "/" ++ ks_Name ks)%string o1 ->
  exists p m', handle_closed ks es o1 o2 m = (Panics p, m').
Proof.
  intros (_ & Hids & _) (l & old & ports & Hl & Hold & Hports & Hord & Hne & _).
  destruct o1 as [|p0 o1].
  { destruct Hne. apply set_eq. intros q. rewrite <- (order_of_elem ports [] q Hord). set_solver. }
  destruct (Hids _ _ Hl) as (old' & Hold' & _ & Hk). assert (old' = old) as -> by congruence.
  unfold handle_closed. enough (exists p m', handle_found ks es (p0 :: o1) o2 (close_maps m) = (Panics p, m'))
    as (p & m' & ->) by eauto.
  unfold handle_found. unfold bind at 1, lift_outcome.
  destruct (NewService ks es) as [svc|p] eqn:Hnew; [|eauto].
  rewrite <- (NewService_key _ _ _ Hnew) in Hl, Hk. destruct (negb _).
  - unfold bind. destruct (DeleteService_closed_panics _ _ _ _ p0 o1 m Hl Hold Hports) as (p & m' & ->). eauto.
  - unfold bind at 1. destruct (alloc svc m) as [[l'|p] m1] eqn:Ea; [|discriminate Ea].
    assert (alloc svc (close_maps m) = (Returns l', close_maps m1)) as -> by
      (unfold alloc in *; injection Ea as <- <-; done).
    destruct (alloc_stored _ _ _ _ _ _ _ Ea Hl Hold) as [Hl1 Hold1].
    assert (heap m1 !! l' = Some svc) as Hl' by (unfold alloc in Ea; injection Ea as <- <-; apply lookup_insert_eq).
    unfold UpdateService, bind, get, deref. cbn [heap services close_maps with_maps].
    rewrite Hl', Hl1. change (heap (close_maps m1)) with (heap m1). rewrite Hold1, Hk.
    destruct (DeleteService_closed_panics _ _ _ _ p0 o1 m1 Hl1 Hold1 Hports) as (p & m' & ->). eauto.
Qed.

(** ** Properties *)

Context {R : Type} `{!LabelOps R}.

Lemma reachable_manager tr (r : R) (q : Q) sm bm s :
  q_shutting_down q = false -> map_lookup bm (endpoint_id 1 0) = None -> Forall small_act tr ->
  exec tr (agent_start r q (NewServiceManager (Some sm) (Some bm))) = Some s ->
  live (serviceManager (ctl s)).
Proof.
  intros Hq Hbm Htr E. apply (lifted_manager (fun _ => True) small live).
  eapply (lifted_reachable (fun _ => True) small Logic.I (fun _ _ => Logic.I) small_zero small_copy live
    (fun _ _ => true)); [..|exact E].
  - intros s0 i key l l' o o' o1 o2 err m _ _ _ _ _ _ Ho Hl. apply handle_found_live; [|done].
    intros svc. by apply small_service.
  - by apply live_new.
  - done.
  - by apply along_true.
  - eapply Forall_impl; [exact Htr|]. intros a Ha. split; [by apply Forall_true|exact Ha].
Qed.

(** C12. In every state of the running agent, whatever the interleaving, as long as
    the slices the API server sent have fewer than 65536 addresses: every
    service the manager stores has id 1 and is stored under its own key, and
    slot 0 of id 1, the first one [DeleteService] deletes, is never written. *)
Theorem agent_service_ids_are_one tr (r : R) (q : Q) sm bm s :
  q_shutting_down q = false -> map_lookup bm (endpoint_id 1 0) = None -> Forall small_act tr ->
  exec tr (agent_start r q (NewServiceManager (Some sm) (Some bm))) = Some s ->
  (forall key l, services (serviceManager (ctl s)) !! key = Some l ->
     exists svc, heap (serviceManager (ctl s)) !! l = Some svc /\ ServiceId svc = 1 /\ ServiceKey svc = key) /\
  (forall bm', endpointsMap (serviceManager (ctl s)) = Some bm' -> map_lookup bm' (endpoint_id 1 0) = None).
Proof.
  intros Hq Hbm Htr E. pose proof (reachable_manager _ _ _ _ _ _ Hq Hbm Htr E) as Hs.
  destruct (live_ids_inv _ Hs) as (_ & Hids & Hslot). by split.
Qed.

(** C17. In every state of the running agent: when the worker has looked up a slice
    and its service, and the service it found reads as one that the manager
    stores with a port and an endpoint already, the worker's next step ends the
    agent with a panic, and no step follows.  It does not matter what the slice
    reads as, changed, being deleted or cleared since, nor whether the maps are
    closed.  The maps the agent started with have no slot 0 of id 1, and no slice
    has 65536 addresses. *)
Theorem served_slice_event_crashes tr (r : R) (q : Q) sm bm s i key l l' o' o1 o2 :
  q_shutting_down q = false -> map_lookup bm (endpoint_id 1 0) = None -> Forall small_act tr ->
  exec tr (agent_start r q (NewServiceManager (Some sm) (Some bm))) = Some s ->
  crashed s = None -> Main.ended (proc s) = None ->
  workers s !! i = Some (Found key l l') -> service_at s l' = Some o' ->
  stored_with (serviceManager (ctl s)) (m_Namespace (s_Meta o') ++ "/" ++ m_Name (s_Meta o'))%string o1 ->
  exists s' p, step (AWorker i o1 o2) s = Some s' /\ crashed s' = Some p /\ forall a, step a s' = None.
Proof.
  intros Hq Hbm Htr E Hc He Hw Ho' Hst.
  pose proof (reachable_manager _ _ _ _ _ _ Hq Hbm Htr E) as Hs%live_ids_inv.
  pose proof (inv_pointers _ (reachable_inv _ _ _ _ _ Hq E) _ (list_elem_of_lookup_2 _ _ _ Hw)) as (o & _ & Ho & _).
  assert (exists p m', handle_objects s (k8s_service o') (k8s_slice o) o1 o2 = (Panics p, m')) as (p & m' & Eh).
  { unfold handle_objects. case_decide; [by apply handle_found_stored|by apply handle_closed_stored]. }
  exists (crash p s), p. split; [|split; [done|by intros a]].
  unfold step. rewrite Hc, He. unfold work. rewrite Hw. cbn [worker_step]. by rewrite Ho, Ho', Eh.
Qed.

End properties.

(** ** Witnesses *)

#[local] Existing Instance ex_key_func.
#[local] Existing Instance ex_key_func_spec.

(** The agent that serves a slice, and the same when the worker has looked up
    the slice of a second event. *)
Definition ex_second : list act := ex_served ++ ex_update ++ replicate 3 (AWorker 0 [ex_port] [ex_port]).

Lemma ex_small tr : forallb (fun a => forallb (fun o => Z.of_nat (addresses (e_Endpoints o)) <? 65536) (received a)) tr = true ->
  Forall small_act tr.
Proof.
  intros H. apply Forall_forall. intros a Ha. apply Forall_forall. intros o Ho.
  rewrite forallb_forall in H. specialize (H a ltac:(by apply list_elem_of_In)).
  rewrite forallb_forall in H. specialize (H o ltac:(by apply list_elem_of_In)).
  unfold small. lia.
Qed.

Lemma agent_service_ids_are_one_witness :
  exists l svc, services (serviceManager (ctl (ex_after ex_served))) !! "default/web"%string = Some l /\
    heap (serviceManager (ctl (ex_after ex_served))) !! l = Some svc /\ ServiceId svc = 1.
Proof.
  destruct (agent_service_ids_are_one ex_served ex_proxy (ex_queue []) (hmap_new 4) (hmap_new 8)
    (ex_after ex_served)) as [H _]; [by_vm|by_vm|apply ex_small; by_vm|apply ex_exec; by_vm|].
  destruct (H "default/web"%string (default 0%nat (services (serviceManager (ctl (ex_after ex_served))) !! "default/web"%string)))
    as (svc & Hl & Hid & _); [by_vm|].
  eexists _, svc. split_and!; [|exact Hl|exact Hid]. by_vm.
Defined.

(** The pointers of a worker that has found both objects. *)
Definition found_pointers (w : option worker_pc) : string * loc * loc :=
  match w with Some (Found key l l') => (key, l, l') | _ => (""%string, 0%nat, 0%nat) end.

(** The worker has looked up the slice of a second event, and its service. *)
Lemma served_slice_event_crashes_witness :
  exists s' p, step (AWorker 0 [ex_port] [ex_port]) (ex_after ex_second) = Some s' /\
    crashed s' = Some p /\ forall a, step a s' = None.
Proof.
  set (w := found_pointers (workers (ex_after ex_second) !! 0%nat)).
  apply (served_slice_event_crashes ex_second ex_proxy (ex_queue []) (hmap_new 4) (hmap_new 8)
    (ex_after ex_second) 0 w.1.1 w.1.2 w.2 (obj_copy ex_service_obj)).
  - by_vm.
  - by_vm.
  - apply ex_small. by_vm.
  - apply ex_exec. by_vm.
  - by_vm.
  - by_vm.
  - by_vm.
  - by_vm.
  - exists 0%nat, (set_ServiceId 1 ex_svc), ex_ports. split_and!; try by_vm.
    + exact ex_ports_order.
    + apply (order_of_nonempty _ _ _ ex_ports_order).
    + discriminate.
Defined.

End RunningLive.
