(* ===== verification/EndToEnd.v ===== *)
(** * From the API server to a connection

    What the agent writes to the maps comes from the objects the API server
    sent, so a connection that [connect4] redirects goes to a ready address of
    a slice and to a target port of a service, and was made to the cluster
    address and a port of a service.  This composes the informers, the
    controller, the manager and the eBPF program, in every interleaving. *)

From Stdlib Require Import ZArith Lia String.
From stdpp Require Import base gmap list strings.
From S2P Require Import Prelude Endian GoStrings GoNet Layout BpfMap Connect4 GoSet Manager ManagerSpec Main Controller ControllerSpec Closed Informer InformerRun Resources System Running RunningInv RunningSpec RunningLive.
Import Endian GoStrings GoNet Layout BpfMap Connect4 GoSet Manager ManagerSpec Controller ControllerSpec Closed Informer InformerRun Resources Running RunningInv RunningSpec RunningLive.

Local Open Scope Z_scope.
Local Open Scope go_scope.

Module EndToEnd.

(** ** The manager's entries and where they come from *)

Section manager.
Context {SM BM : Type} `{!MapOps lb4_key lb4_service SM} `{!MapOps Z lb4_backend BM}.
Context `{!MapSpec lb4_key lb4_service SM} `{!MapSpec Z lb4_backend BM}.
Implicit Type m : ServiceManager SM BM.

(** The pairs of a cluster address word and a port that may occur, and those of
    an endpoint word and a port. *)
Context (vip : Z -> Ports -> Prop) (backend : Z -> Ports -> Prop).

Record sourced (svc : Service) : Prop := {
  sourced_backends w ports p : w ∈ Endpoints svc -> SvcPorts svc = Some ports ->
    p ∈ members ports -> backend w p;
  sourced_ports ip ports p : LittleEndian_Uint32 (To4 (IpAddress svc)) = Returns ip ->
    SvcPorts svc = Some ports -> p ∈ members ports -> vip ip p
}.

Definition service_sourced (k : lb4_key) : Prop := exists ip p, vip ip p /\ k = service_entry_key ip p.
Definition backend_sourced (x : lb4_backend) : Prop := exists w p, backend w p /\ x = endpoint_entry w p.

(** The manager while a loop runs that leaves the heap alone. *)
Record entries_ok (h : gmap loc Service) m : Prop := {
  entries_services sm k v : serviceMap m = Some sm -> map_lookup sm k = Some v -> service_sourced k;
  entries_backends bm k x : endpointsMap m = Some bm -> map_lookup bm k = Some x -> backend_sourced x;
  entries_heap : heap m = h
}.

Definition all_sourced (h : gmap loc Service) : Prop := forall l svc, h !! l = Some svc -> sourced svc.

Lemma entries_same h m m' : entries_ok h m -> serviceMap m' = serviceMap m ->
  endpointsMap m' = endpointsMap m -> heap m' = heap m -> entries_ok h m'.
Proof. intros [H1 H2 H3] E1 E2 E3. constructor; [by rewrite E1|by rewrite E2|by rewrite E3]. Qed.

Lemma entries_serviceMap_Delete h k : preserves (entries_ok h) (serviceMap_Delete k).
Proof.
  intros m Hm. pose proof Hm as [H1 H2 H3]. unfold serviceMap_Delete. destruct (serviceMap m) as [sm|] eqn:Es; [|done].
  destruct (map_delete sm k) as [err|sm'] eqn:Ed; [done|].
  constructor; [|done..]. intros sm0 k' v [= <-]. rewrite (lookup_after_delete _ _ _ Ed).
  case_decide; [done|]. by apply H1.
Qed.

Lemma entries_endpointsMap_Delete h k : preserves (entries_ok h) (endpointsMap_Delete k).
Proof.
  intros m Hm. pose proof Hm as [H1 H2 H3]. unfold endpointsMap_Delete. destruct (endpointsMap m) as [bm|] eqn:Es; [|done].
  destruct (map_delete bm k) as [err|bm'] eqn:Ed; [done|].
  constructor; [done| |done]. intros bm0 k' v [= <-]. rewrite (lookup_after_delete _ _ _ Ed).
  case_decide; [done|]. by apply H2.
Qed.

Lemma entries_serviceMap_Update h k v :
  service_sourced k -> preserves (entries_ok h) (serviceMap_Update k v).
Proof.
  intros Hk m Hm. pose proof Hm as [H1 H2 H3]. unfold serviceMap_Update.
  destruct (serviceMap m) as [sm|] eqn:Es; [|done].
  destruct (map_update sm k v) as [err|sm'] eqn:Ed; [done|].
  constructor; [|done..]. intros sm0 k' v' [= <-]. rewrite (lookup_after_update _ _ _ _ Ed).
  case_decide; [by subst|]. by apply H1.
Qed.

Lemma entries_endpointsMap_Update h k x :
  backend_sourced x -> preserves (entries_ok h) (endpointsMap_Update k x).
Proof.
  intros Hx m Hm. pose proof Hm as [H1 H2 H3]. unfold endpointsMap_Update.
  destruct (endpointsMap m) as [bm|] eqn:Es; [|done].
  destruct (map_update bm k x) as [err|bm'] eqn:Ed; [done|].
  constructor; [done| |done]. intros bm0 k' v' [= <-]. rewrite (lookup_after_update _ _ _ _ Ed).
  case_decide; [by intros [= <-]|]. by apply H2.
Qed.

(** A use of the service's address word. *)
Lemma service_word_bind {A} h svc (k : Z -> GoM (ServiceManager SM BM) A) :
  (forall ip, LittleEndian_Uint32 (To4 (IpAddress svc)) = Returns ip -> preserves (entries_ok h) (k ip)) ->
  preserves (entries_ok h) (bind (service_word svc) k).
Proof.
  intros Hk m Hm. unfold bind, service_word.
  destruct (LittleEndian_Uint32 _) as [ip|p] eqn:E; [by apply Hk|done].
Qed.

#[local] Hint Resolve entries_serviceMap_Delete entries_endpointsMap_Delete entries_serviceMap_Update
  entries_endpointsMap_Update service_word_bind : go.

Lemma entries_delete_endpoints h sid eps index : preserves (entries_ok h) (delete_endpoints sid eps index).
Proof.
  revert index. induction eps as [|e eps IH]; intros index; cbn [delete_endpoints]; auto with go.
  apply preserves_bind; auto with go. intros [err|]; auto with go.
Qed.

Lemma entries_append_endpoints h sid p eps index :
  Forall (fun w => backend w p) eps -> preserves (entries_ok h) (append_endpoints sid p eps index).
Proof.
  intros Heps. revert index. induction Heps as [|e eps He _ IH]; intros index; cbn [append_endpoints]; auto with go.
  apply preserves_get. intros m. destruct (endpointsMap m); auto with go.
  apply preserves_bind; [|intros [err|]; auto with go].
  apply entries_endpointsMap_Update. by exists e, p.
Qed.

Lemma entries_delete_visitor h svc p : preserves (entries_ok h) (delete_visitor svc p).
Proof.
  unfold delete_visitor. apply service_word_bind. intros ip _. apply preserves_bind; auto with go.
  intros [err|]; auto using entries_delete_endpoints with go.
Qed.

Lemma entries_append_visitor h svc ports p :
  sourced svc -> SvcPorts svc = Some ports -> p ∈ members ports ->
  preserves (entries_ok h) (append_visitor svc p).
Proof.
  intros [Heps Hports] Hp Hin. unfold append_visitor. apply service_word_bind. intros ip Hip.
  pose proof (Hports ip ports p Hip Hp Hin) as Ht.
  apply preserves_get. intros m. destruct (serviceMap m); auto with go.
  apply preserves_bind; [apply entries_serviceMap_Update; by exists ip, p|].
  intros [err|]; auto with go. apply entries_append_endpoints, Forall_forall. eauto.
Qed.

(** ** The operations *)

(** The order visits ports of the service only. *)
Definition visits (svc : Service) (ord : list Ports) : Prop :=
  forall ports p, SvcPorts svc = Some ports -> p ∈ ord -> p ∈ members ports.

Lemma entries_DeleteService h key ord : preserves (entries_ok h) (DeleteService key ord).
Proof.
  unfold DeleteService. apply preserves_get. intros m0. destruct (services m0 !! key) as [l|]; auto with go.
  apply preserves_bind. { intros m Hm. unfold deref. by destruct (heap m !! l). }
  intros svc. apply preserves_bind.
  { unfold iter_ports. destruct (SvcPorts svc); auto with go. apply iter_over_preserves.
    intros p _. apply entries_delete_visitor. }
  intros _. apply preserves_bind; auto with go. intros m Hm. by eapply entries_same.
Qed.

Lemma entries_AppendService l svc ord m o m' :
  all_sourced (heap m) -> entries_ok (heap m) m -> heap m !! l = Some svc -> visits svc ord ->
  AppendService l ord m = (o, m') -> all_sourced (heap m') /\ entries_ok (heap m') m'.
Proof.
  intros Hall Hm Hl Hord E. unfold AppendService, bind in E.
  destruct (assign_id l m) as [oa m1] eqn:Ea.
  assert (exists svc1, heap m1 !! l = Some svc1 /\ Endpoints svc1 = Endpoints svc /\
    IpAddress svc1 = IpAddress svc /\ SvcPorts svc1 = SvcPorts svc /\ all_sourced (heap m1) /\
    entries_ok (heap m1) m1) as (svc1 & Hl1 & Ee & Ei & Ep & Hall1 & Hm1).
  { unfold assign_id, bind, get, deref in Ea. rewrite Hl in Ea.
    destruct (find_free id_fuel 1 _) as [i|]; injection Ea as <- <-; [|by exists svc].
    exists (set_ServiceId (uwrap 16 i) svc). cbn. rewrite lookup_insert_eq. split_and!; try done.
    - intros l' svc'. rewrite lookup_insert_Some. intros [[<- <-]|[_ ?]]; [|by eapply Hall].
      by destruct (Hall l svc Hl).
    - by destruct Hm. }
  assert (sourced svc1) as Hs1 by by eapply Hall1.
  destruct oa as [[]|p]; [|by injection E as <- <-].
  unfold deref in E. rewrite Hl1 in E.
  assert (preserves (entries_ok (heap m1)) (iter_ports svc1 ord (append_visitor svc1))) as Hit.
  { unfold iter_ports. destruct (SvcPorts svc1) as [ports|] eqn:Esp; [|auto with go].
    apply iter_over_preserves. intros p Hin. apply (entries_append_visitor _ _ ports); [done..|].
    apply (Hord ports p); [congruence|done]. }
  specialize (Hit m1 Hm1). destruct (iter_ports _ _ _ m1) as [[[]|p] m2]; cbn in Hit, E; injection E as <- <-;
    pose proof (entries_heap _ _ Hit) as Eh; cbn [heap set_services]; rewrite Eh; (split; [done|]);
    [|done]. by apply (entries_same _ m2).
Qed.

Definition manager_sourced m : Prop := all_sourced (heap m) /\ entries_ok (heap m) m.

Lemma DeleteService_sourced key ord m o m' : manager_sourced m ->
  DeleteService key ord m = (o, m') -> manager_sourced m' /\ heap m' = heap m.
Proof.
  intros [Hall Hm] E. pose proof (entries_DeleteService (heap m) key ord m Hm) as Hd.
  rewrite E in Hd. cbn in Hd. pose proof (entries_heap _ _ Hd) as Eh. unfold manager_sourced. by rewrite Eh.
Qed.

Lemma UpdateService_sourced l svc o1 o2 m o m' :
  manager_sourced m -> heap m !! l = Some svc -> visits svc o2 ->
  UpdateService l o1 o2 m = (o, m') -> manager_sourced m'.
Proof.
  intros Hm Hl Hord E. unfold UpdateService, bind, get, deref in E. rewrite Hl in E.
  assert (forall m1 oa m2, manager_sourced m1 -> heap m1 = heap m -> AppendService l o2 m1 = (oa, m2) ->
    manager_sourced m2) as Happ.
  { intros m1 oa m2 [Ha He] Eh Ea. apply (entries_AppendService l svc o2 m1 oa); try done. by rewrite Eh. }
  destruct (services m !! ServiceKey svc) as [lo|].
  - destruct (heap m !! lo) as [old|]; [|by injection E as <- <-].
    destruct (DeleteService _ o1 m) as [od m1] eqn:Ed.
    destruct (DeleteService_sourced _ _ _ _ _ Hm Ed) as [Hm1 Eh].
    destruct od as [r|p]; [|by injection E as <- <-].
    destruct (AppendService l o2 m1) as [oa m2] eqn:Ea. specialize (Happ _ _ _ Hm1 Eh Ea).
    by destruct oa as [[]|p]; injection E as <- <-.
  - destruct (AppendService l o2 m) as [oa m2] eqn:Ea. specialize (Happ _ _ _ Hm eq_refl Ea).
    by destruct oa as [[]|p]; injection E as <- <-.
Qed.

Lemma alloc_sourced svc m l m1 : manager_sourced m -> sourced svc ->
  alloc svc m = (Returns l, m1) -> manager_sourced m1 /\ heap m1 !! l = Some svc.
Proof.
  intros [Hall [H1 H2 H3]] Hs E. unfold alloc in E. injection E as <- <-. cbn. rewrite lookup_insert_eq.
  split; [|done]. split; [|by constructor]. intros l' svc'. cbn. rewrite lookup_insert_Some.
  intros [[_ <-]|[_ ?]]; [done|by eapply Hall].
Qed.

Lemma handle_found_sourced ks es o1 o2 m o m' :
  manager_sourced m -> (forall svc, NewService ks es = Returns svc -> sourced svc /\ visits svc o2) ->
  handle_found ks es o1 o2 m = (o, m') -> manager_sourced m'.
Proof.
  intros Hm Hh E. unfold handle_found, bind, lift_outcome in E.
  destruct (NewService ks es) as [svc|p]; [|by injection E as <- <-].
  destruct (Hh svc eq_refl) as [Hsvc Hord]. destruct (negb _).
  - destruct (DeleteService _ o1 m) as [od m1] eqn:Ed.
    destruct (DeleteService_sourced _ _ _ _ _ Hm Ed) as [Hm1 _]. by destruct od; injection E as <- <-.
  - destruct (alloc svc m) as [[l|p] m1] eqn:Ea; [|discriminate Ea].
    destruct (alloc_sourced _ _ _ _ Hm Hsvc Ea) as [Hm1 Hl].
    destruct (UpdateService l o1 o2 m1) as [ou m2] eqn:Eu.
    pose proof (UpdateService_sourced _ _ _ _ _ _ _ Hm1 Hl Hord Eu). by destruct ou; injection E as <- <-.
Qed.

End manager.

(** ** The objects the API server sent *)

(** The cluster address word and a port of a service. *)
Definition listed_port (services : list v1_Service) (ip : Z) (p : Ports) : Prop :=
  exists o sp, o ∈ services /\ address_word (s_ClusterIP o) = Returns ip /\ sp ∈ s_Ports o /\
    p = convert_port sp.

(** The word of a ready address of a slice, and a port of the service the
    slice's label names, in the namespace the slice is stored under. *)
Definition listed_backend (services : list v1_Service) (slices : list v1_EndpointSlice)
    (w : Z) (p : Ports) : Prop :=
  exists o o' a sp ns n, o ∈ services /\ o' ∈ slices /\
    delta_key o' = (ns ++ "/" ++ n)%string /\
    delta_key o = (ns ++ "/" ++ slice_service (k8s_slice o'))%string /\
    a ∈ ready_addresses (e_Endpoints o') /\ address_word a = Returns w /\
    sp ∈ s_Ports o /\ p = convert_port sp.

(** An object with nothing in it, or one the API server sent, up to what the
    agent does not read. *)
Definition from_services (services : list v1_Service) (o : v1_Service) : Prop :=
  s_Ports o = [] \/ exists o1, o1 ∈ services /\ k8s_service o1 = k8s_service o.
Definition from_slices (slices : list v1_EndpointSlice) (o : v1_EndpointSlice) : Prop :=
  e_Endpoints o = [] \/ exists o1, o1 ∈ slices /\ k8s_slice o1 = k8s_slice o.

Lemma To4_To4 ip : To4 (To4 ip) = To4 ip.
Proof.
  destruct (To4 ip) as [bs|] eqn:E; [|done]. apply To4_length in E. unfold To4. by rewrite E.
Qed.

(** The slice is in the namespace it is stored under, and the service is the one
    its label names. *)
Definition paired (o : v1_Service) (o' : v1_EndpointSlice) : Prop :=
  exists ns n, delta_key o' = (ns ++ "/" ++ n)%string /\
    delta_key o = (ns ++ "/" ++ slice_service (k8s_slice o'))%string.

Lemma NewService_sourced services slices (o : v1_Service) (o' : v1_EndpointSlice) svc :
  from_services services o -> from_slices slices o' ->
  o' = obj_zero \/ o = obj_zero \/ paired o o' ->
  NewService (k8s_service o) (k8s_slice o') = Returns svc ->
  sourced (listed_port services) (listed_backend services slices) svc.
Proof.
  intros Ho Ho' Hpair ->%NewService_result.
  assert (forall p, p ∈ members (Some (list_to_set (map convert_port (s_Ports o)))) ->
    exists sp, p = convert_port sp /\ sp ∈ s_Ports o) as Hport.
  { intros p Hp. by apply elem_of_list_to_set, list_elem_of_fmap in Hp. }
  assert (forall (sp : ServicePort), sp ∈ s_Ports o -> exists o1, o1 ∈ services /\ k8s_service o1 = k8s_service o) as Hsvc.
  { intros sp Hsp. destruct Ho as [Ho|?]; [|done]. rewrite Ho in Hsp. by apply not_elem_of_nil in Hsp. }
  constructor; cbn [Endpoints SvcPorts IpAddress].
  - intros w ports p [Hw (a & -> & Ha)%list_elem_of_fmap]%list_elem_of_filter [= <-] Hp.
    destruct (Hport p Hp) as (sp & -> & Hsp). destruct (Hsvc sp Hsp) as (o1 & Hin & E1).
    destruct Ho' as [Ho'|(o2 & Hin2 & E2)]; [cbn in Ha; rewrite Ho' in Ha; by apply not_elem_of_nil in Ha|].
    destruct Hpair as [->|[->|(ns & n & Hk' & Hk)]]; [by apply not_elem_of_nil in Ha|by apply not_elem_of_nil in Hsp|].
    exists o1, o2, a, sp, ns, n. unfold delta_key in *. rewrite E2.
    unfold k8s_service, k8s_slice in E1, E2. cbn. injection E1 as En1 Ens1 _ Ep1.
    injection E2 as En2 Ens2 _ _ Ee2. cbn in Hk, Hk'. rewrite En1, Ens1, En2, Ens2, Ep1, Ee2.
    split_and!; try done. unfold word_of in *. by destruct (address_word a).
  - intros ip ports p Hip [= <-] Hp. rewrite To4_To4 in Hip.
    destruct (Hport p Hp) as (sp & -> & Hsp). destruct (Hsvc sp Hsp) as (o1 & Hin & E1).
    exists o1, sp. unfold k8s_service in E1. injection E1 as _ _ Eip Ep. rewrite Eip, Ep. by split_and!.
Qed.

(** ** The running agent *)

Section properties.
Context {SM BM Q I CS CE : Type} `{!MapOps lb4_key lb4_service SM} `{!MapOps Z lb4_backend BM}.
Context `{!MapSpec lb4_key lb4_service SM} `{!MapSpec Z lb4_backend BM}.
Context `{!QueueOps Q} `{!QueueSpec Q} `{!KeyFunc} `{!KeyFuncSpec} `{!IndexerOps I} `{!IndexerSpec I}.
Context `{!CacheOps v1_Service CS} `{!CacheOps v1_EndpointSlice CE}.
Context `{!CacheSpec CS} `{!CacheSpec CE}.
Implicit Type s : running SM BM Q I CS CE.

(** Go ranges over the ports of a service in any order, but over its ports: the
    orders of a worker's step are those of the set it ranges over. *)
Definition ranges (svc : Service) (ord : list Ports) : bool :=
  match SvcPorts svc with
  | Some ports => bool_decide (NoDup ord) && bool_decide (list_to_set ord = members ports)
  | None => true
  end.

Definition go_orders (a : act) s : bool :=
  match a with
  | AWorker i o1 o2 =>
      match workers s !! i with
      | Some (Found key l l') =>
          match slice_at s l, service_at s l' with
          | Some o, Some o' =>
              match NewService (k8s_service o') (k8s_slice o) with
              | Returns svc =>
                  ranges svc o2 &&
                  match services (serviceManager (ctl s)) !! ServiceKey svc with
                  | Some lo => match heap (serviceManager (ctl s)) !! lo with
                               | Some old => ranges old o1
                               | None => true
                               end
                  | None => true
                  end
              | Panics _ => true
              end
          | _, _ => true
          end
      | _ => true
      end
  | _ => true
  end.

(** What [go_orders] says of a step that works on both objects. *)
Lemma go_orders_found i o1 o2 s key l l' o o' svc :
  go_orders (AWorker i o1 o2) s = true -> workers s !! i = Some (Found key l l') ->
  slice_at s l = Some o -> service_at s l' = Some o' ->
  NewService (k8s_service o') (k8s_slice o) = Returns svc ->
  ranges svc o2 = true /\ forall lo old, services (serviceManager (ctl s)) !! ServiceKey svc = Some lo ->
    heap (serviceManager (ctl s)) !! lo = Some old -> ranges old o1 = true.
Proof.
  intros Ha Hw Ho Ho' Hn. cbn [go_orders] in Ha. rewrite Hw, Ho, Ho', Hn in Ha.
  apply andb_true_iff in Ha as [H2 H1]. split; [done|]. intros lo old Hlo Hold. by rewrite Hlo, Hold in H1.
Qed.

Lemma ranges_visits svc ord : ranges svc ord = true -> visits svc ord.
Proof.
  unfold ranges, visits. intros Hr ports p E. rewrite E in Hr.
  apply andb_true_iff in Hr as [_ <-%bool_decide_eq_true_1]. intros Hp. by apply elem_of_list_to_set.
Qed.

Definition all_services (tr : list act) : list v1_Service := concat (map received_services tr).
Definition all_slices (tr : list act) : list v1_EndpointSlice := concat (map received tr).

Lemma pointers_paired s key l l' o o' : pointers_ok s (Found key l l') ->
  slice_at s l = Some o -> service_at s l' = Some o' -> o = obj_zero \/ o' = obj_zero \/ paired o' o.
Proof.
  intros (o1 & o1' & Ho1 & Ho1' & Hf & Hf') Ho Ho'.
  assert (o1 = o) as -> by congruence. assert (o1' = o') as -> by congruence.
  destruct Hf as [?|(ns & n & Ek & Hk)]; [by left|]. destruct Hf' as [?|[?|(ns' & n' & Ek' & Hk')]]; [by left|by auto|].
  assert (ns' = ns) as -> by congruence. right. right. by exists ns, n.
Qed.

Lemma reachable_sourced {R} `{!LabelOps R} tr (r : R) (q : Q) sm bm s :
  q_shutting_down q = false ->
  (forall k, map_lookup sm k = None) -> (forall k, map_lookup bm k = None) ->
  let s0 := agent_start r q (NewServiceManager (Some sm) (Some bm)) in
  along go_orders tr s0 = true -> exec tr s0 = Some s ->
  manager_sourced (listed_port (all_services tr)) (listed_backend (all_services tr) (all_slices tr)) (serviceManager (ctl s)).
Proof.
  cbn zeta. intros Hq Hsm Hbm Hal E.
  assert (from_services (all_services tr) obj_zero) as Hz by by left.
  assert (from_slices (all_slices tr) obj_zero) as Hz' by by left.
  eapply (lifted_manager (from_services (all_services tr)) (from_slices (all_slices tr))).
  eapply (lifted_reachable (from_services (all_services tr)) (from_slices (all_slices tr))
    Hz (fun o Ho => Ho) Hz' (fun o Ho => Ho)
    (manager_sourced (listed_port (all_services tr)) (listed_backend (all_services tr) (all_slices tr))) go_orders);
    [|..|exact E].
  - intros s1 i key l l' o o' o1 o2 err m Ha Hw Hp Ho Ho' Hv Hl Hm Eh.
    eapply handle_found_sourced; [exact Hm| |exact Eh]. intros svc Hsvc. split.
    + eapply NewService_sourced; [exact Hv|exact Hl|by eapply pointers_paired|exact Hsvc].
    + destruct (go_orders_found _ _ _ _ _ _ _ _ _ _ Ha Hw Ho Ho' Hsvc) as [Hv2 _]. by apply ranges_visits.
  - split; [done|]. constructor; [..|done]; cbn; intros m k v [= <-]; by rewrite ?Hsm, ?Hbm.
  - done.
  - done.
  - apply Forall_forall. intros a Ha. split; apply Forall_forall.
    + intros o Ho. right. exists o. split; [|done]. unfold all_services.
      apply list_elem_of_In, in_concat. eexists. split; [apply in_map, list_elem_of_In, Ha|by apply list_elem_of_In].
    + intros o Ho. right. exists o. split; [|done]. unfold all_slices.
      apply list_elem_of_In, in_concat. eexists. split; [apply in_map, list_elem_of_In, Ha|by apply list_elem_of_In].
Qed.

(** ** Properties *)

(** C3. From the API server to a connection: in every state of the running agent
    that started with empty maps, whatever the interleaving, a connection is left
    alone, or it was made to the cluster address and a port of a service the API
    server sent, and then it is sent to a ready address of a slice the API server
    sent, at the target port of a port of the service this slice belongs to. *)
Theorem connections_reach_listed_endpoints {R} `{!LabelOps R} tr (r : R) (q : Q) sm bm s sm' bm' prandom ctx :
  q_shutting_down q = false ->
  (forall k, map_lookup sm k = None) -> (forall k, map_lookup bm k = None) ->
  let s0 := agent_start r q (NewServiceManager (Some sm) (Some bm)) in
  along go_orders tr s0 = true -> exec tr s0 = Some s ->
  serviceMap (serviceManager (ctl s)) = Some sm' -> endpointsMap (serviceManager (ctl s)) = Some bm' ->
  connect4_ctx sm' bm' prandom ctx = ctx \/
  exists p w p',
    listed_port (all_services tr) (user_ip4 ctx) p /\
    uwrap 16 (user_port ctx) = LittleEndianPort (Port p) /\
    uwrap 8 (protocol ctx) = ParseProto (Protocol p) /\
    listed_backend (all_services tr) (all_slices tr) w p' /\
    connect4_ctx sm' bm' prandom ctx =
      set_user_port (LittleEndianPort (TargetPort p')) (set_user_ip4 w ctx).
Proof.
  cbn zeta. intros Hq Hsm Hbm Hal E Es Eb.
  destruct (reachable_sourced tr r q sm bm s Hq Hsm Hbm Hal E) as [_ Hm].
  destruct (connect4_ctx_cases sm' bm' prandom ctx) as [?|(v & x & _ & Ev & _ & Ex & ->)]; [by left|right].
  destruct (entries_services _ _ _ _ Hm _ _ _ Es Ev) as (ip & p & Hp & Hk).
  destruct (entries_backends _ _ _ _ Hm _ _ _ Eb Ex) as (w & p' & Hw & ->).
  unfold service_key, service_entry_key, key_of_go in Hk. cbn in Hk. injection Hk as <- E1 E2.
  exists p, w, p'. by split_and!.
Qed.

End properties.

(** ** Witness *)

#[local] Existing Instance ex_key_func.
#[local] Existing Instance ex_key_func_spec.

(** The run of RunningSpec that serves a slice: the connection is redirected, so
    it goes to a listed endpoint. *)
Lemma connections_reach_listed_endpoints_witness :
  let m := serviceManager (ctl (ex_after ex_served)) in
  let ctx' := connect4_ctx (default (hmap_new 4) (serviceMap m)) (default (hmap_new 8) (endpointsMap m)) 7 System.ex_ctx in
  user_ip4 ctx' <> user_ip4 System.ex_ctx /\ exists p, listed_backend (all_services ex_served) (all_slices ex_served) (user_ip4 ctx') p.
Proof.
  cbn zeta. set (ctx' := connect4_ctx _ _ _ _).
  assert (user_ip4 ctx' =? user_ip4 System.ex_ctx = false) as Hne%Z.eqb_neq by by_vm.
  split; [exact Hne|].
  destruct (connections_reach_listed_endpoints ex_served ex_proxy (ex_queue []) (hmap_new 4) (hmap_new 8)
    (ex_after ex_served) (default (hmap_new 4) (serviceMap (serviceManager (ctl (ex_after ex_served)))))
    (default (hmap_new 8) (endpointsMap (serviceManager (ctl (ex_after ex_served))))) 7 System.ex_ctx)
    as [E|(p & w & p' & _ & _ & _ & Hw & E)].
  - by_vm.
  - intros k. apply lookup_empty.
  - intros k. apply lookup_empty.
  - by_vm.
  - apply ex_exec. by_vm.
  - by_vm.
  - by_vm.
  - destruct (Hne (f_equal user_ip4 E)).
  - exists p'. exact (eq_ind_r (fun w => listed_backend (all_services ex_served) (all_slices ex_served) w p') Hw
      (f_equal user_ip4 E : user_ip4 ctx' = w)).
Defined.

End EndToEnd.
