(* ===== verification/Served.v ===== *)
(** * One service, served

    When the API server sends versions of one service with one port, and slices
    that can be served with it, the agent serves them in every interleaving:
    whenever the worker rests and has nothing left to do for a slice, [connect4]
    balances the connections to a version of the service over the ready
    addresses the slice has now.  An event that would make the agent serve
    anything else ends it (RunningLive).  Tombstones are excluded: they clear
    the objects the worker may be holding. *)

From Stdlib Require Import ZArith Lia String.
From stdpp Require Import base gmap list strings.
From S2P Require Import Prelude Endian GoStrings GoNet Layout BpfMap Connect4 GoSet Manager ManagerSpec Main Controller ControllerSpec Closed Informer InformerRun Resources System Running RunningInv RunningSpec RunningProgress RunningLive EndToEnd.
Import Endian GoStrings GoNet Layout BpfMap Connect4 GoSet Manager ManagerSpec System Controller ControllerSpec Closed Informer InformerRun Resources Running RunningInv RunningSpec RunningProgress RunningLive EndToEnd.

Local Open Scope Z_scope.
Local Open Scope go_scope.

Module Served.

(** ** The manager *)

Section manager.
Context {SM BM : Type} `{!MapOps lb4_key lb4_service SM} `{!MapOps Z lb4_backend BM}.
Context `{!MapSpec lb4_key lb4_service SM} `{!MapSpec Z lb4_backend BM}.
Implicit Type m : ServiceManager SM BM.

(** A service with one port and an IPv4 cluster address, a slice with [ws] as
    the words of its ready addresses, and maps with room for them. *)
Record servable (ks : K8sService) (es : EndpointSlice) (sp : ServicePort) (a b c d : Z)
    (ws : list Z) (sm : SM) (bm : BM) : Prop := {
  servable_ip : ks_ClusterIP ks = dotted_quad a b c d;
  servable_bytes : 0 <= a <= 255 /\ 0 <= b <= 255 /\ 0 <= c <= 255 /\ 0 <= d <= 255;
  servable_port : ks_Ports ks = [sp];
  servable_live : es_DeletionTimestamp_IsZero es = true;
  servable_readable : forallb readable (es_Endpoints es) = true;
  servable_words : ws = filter (fun w => w <> 0) (map word_of (ready_addresses (es_Endpoints es)));
  servable_count : 0 < Z.of_nat (length ws) < 65536;
  servable_services : (1 <= map_room sm)%nat;
  servable_backends : (length ws <= map_room bm)%nat;
  servable_slot : map_lookup bm (endpoint_id 1 0) = None
}.

(** A TCP or UDP connection to the service. *)
Definition connects (sp : ServicePort) (a b c d : Z) (ctx : bpf_sock_addr) : Prop :=
  supported ctx = true /\ user_ip4 ctx = of_le [a; b; c; d] /\
  user_port ctx = bpf_htons LittleEndian false (uwrap 16 (sp_Port sp)) /\
  protocol ctx = ParseProto (sp_Protocol sp).

Section one.
Context (ks : K8sService) (es : EndpointSlice) (sp : ServicePort) (a b c d : Z) (ws : list Z).
Context (sm : SM) (bm : BM) (Hs : servable ks es sp a b c d ws sm bm).

Definition fresh_manager : ServiceManager SM BM := NewServiceManager (Some sm) (Some bm).

(** The service was built from the two objects and handed to a fresh manager. *)
Definition serving m : Prop :=
  exists svc l s1, NewService ks es = Returns svc /\ alloc svc fresh_manager = (Returns l, s1) /\
    exists err, UpdateService l [] [convert_port sp] s1 = (Returns err, m).

Lemma serving_connects m ctx r : serving m -> connects sp a b c d ctx -> 0 <= r ->
  exists sm' bm' w, serviceMap m = Some sm' /\ endpointsMap m = Some bm' /\
    ws !! Z.to_nat (r mod Z.of_nat (length ws)) = Some w /\
    user_ip4 (connect4_ctx sm' bm' r ctx) = w /\
    user_port (connect4_ctx sm' bm' r ctx) =
      bpf_htons LittleEndian false (uwrap 16 (sp_TargetPort_IntValue sp)).
Proof.
  intros (svc & l & s1 & Hnew & Ha & err & Hu) (Hsup & Hip & Hport & Hproto) Hr.
  destruct Hs as [H1 (H2 & H3 & H4 & H5) H6 H7 H8 H9 H10 H11 H12 _].
  destruct (fresh_agent_ok ks es sp a b c d sm bm ctx r ws)
    as (svc' & l' & s1' & s' & sm' & bm' & w & Hnew' & Ha' & Hu' & ?); try done.
  unfold fresh_manager in Ha. rewrite Hnew in Hnew'. injection Hnew' as <-.
  rewrite Ha in Ha'. injection Ha' as <- <-. rewrite Hu in Hu'. injection Hu' as _ <-.
  by exists sm', bm', w.
Qed.

Lemma built svc : NewService ks es = Returns svc ->
  svc = mkService (ks_Name ks) (ks_Namespace ks) 0 (Some [a; b; c; d])
    (Some (Some (list_to_set [convert_port sp]))) ws.
Proof.
  intros ->%NewService_result. destruct Hs as [H1 (H2 & H3 & H4 & H5) H6 H7 H8 H9 _ _ _ _].
  by rewrite H1, H6, ParseIP_dotted, H9.
Qed.

Lemma serving_live m : serving m -> live m.
Proof.
  intros (svc & l & s1 & Hnew & Ha & err & Hu). eapply live_update; [|exact Hnew| |exact Ha|exact Hu].
  - apply live_new. by destruct Hs.
  - rewrite (built _ Hnew). cbn. by destruct (servable_count _ _ _ _ _ _ _ _ _ _ Hs).
Qed.

Lemma serving_stored m : serving m -> exists l old,
  services m !! (ks_Namespace ks ++ "/" ++ ks_Name ks)%string = Some l /\ heap m !! l = Some old /\
  SvcPorts old = Some (Some (list_to_set [convert_port sp])) /\ Endpoints old = ws.
Proof.
  intros (svc & l & s1 & Hnew & Ha & err & Hu). pose proof (built _ Hnew) as ->. clear Hnew.
  set (svc := mkService _ _ _ _ _ _) in *.
  assert (heap s1 !! l = Some svc /\ services s1 = ∅ /\ cacheSerivceId s1 = ∅ /\
    serviceMap s1 = Some sm /\ endpointsMap s1 = Some bm) as (Hl & Hsv & Hc & Hsm & Hbm).
  { unfold alloc in Ha. injection Ha as <- <-. cbn. by rewrite lookup_insert_eq. }
  clear Ha. unfold UpdateService, bind, get, deref in Hu. rewrite Hl, Hsv, lookup_empty in Hu.
  destruct (AppendService_ok l svc (of_le [a; b; c; d]) 1 (Some (list_to_set [convert_port sp]))
    [convert_port sp] s1 sm bm) as (sm' & bm' & E & _); try done.
  - apply find_free_one. by rewrite Hc.
  - cbn. apply (servable_services _ _ _ _ _ _ _ _ _ _ Hs).
  - cbn. pose proof (servable_backends _ _ _ _ _ _ _ _ _ _ Hs). lia.
  - rewrite E in Hu. injection Hu as _ <-. exists l, (set_ServiceId 1 svc). cbn [services heap].
    change (ks_Namespace ks ++ "/" ++ ks_Name ks)%string with (ServiceKey svc).
    by rewrite !lookup_insert_eq.
Qed.

(** An order of the service's one port. *)
Lemma ranges_one svc ord :
  SvcPorts svc = Some (Some (list_to_set [convert_port sp])) -> ranges svc ord = true ->
  ord = [convert_port sp].
Proof.
  intros Hp. unfold ranges. rewrite Hp. intros [Hnd Hset]%andb_true_iff.
  apply bool_decide_eq_true_1 in Hnd, Hset.
  assert (forall x, x ∈ ord <-> x = convert_port sp) as Hin.
  { intros x. rewrite <- (elem_of_list_to_set (C := gset Ports) x ord), Hset.
    change (members (Some ?y)) with y. by rewrite elem_of_list_to_set, list_elem_of_singleton. }
  destruct ord as [|p [|p' ord]].
  - by destruct (not_elem_of_nil (convert_port sp)); apply Hin.
  - f_equal. apply Hin. by left.
  - apply NoDup_cons in Hnd as [Hni _]. destruct Hni.
    rewrite (proj1 (Hin p)), (proj1 (Hin p')); [by left|right; by left|by left].
Qed.

(** ** The handler *)

Lemma UpdateService_fresh svc l s1 o1 :
  alloc svc fresh_manager = (Returns l, s1) ->
  UpdateService l o1 [convert_port sp] s1 = UpdateService l [] [convert_port sp] s1.
Proof.
  intros Ha. unfold alloc in Ha. injection Ha as <- <-. unfold UpdateService, bind, get, deref.
  cbn [heap set_heap services fresh_manager NewServiceManager].
  destruct (<[_ := svc]> _ !! _); [|done]. by rewrite lookup_empty.
Qed.

(** The first call serves the two objects. *)
Lemma handle_found_fresh o1 o2 err m :
  (forall svc, NewService ks es = Returns svc -> ranges svc o2 = true) ->
  handle_found ks es o1 o2 fresh_manager = (Returns err, m) -> serving m.
Proof.
  intros Ho E. unfold handle_found, bind, lift_outcome in E.
  destruct (NewService ks es) as [svc|p] eqn:Hnew; [|done]. pose proof (built _ Hnew) as Esvc.
  rewrite (servable_live _ _ _ _ _ _ _ _ _ _ Hs) in E. cbn [negb] in E.
  destruct (alloc svc fresh_manager) as [[l|p] s1] eqn:Ea; [|discriminate Ea].
  specialize (Ho svc eq_refl). apply ranges_one in Ho; [|by rewrite Esvc]. subst o2.
  rewrite (UpdateService_fresh svc l s1 o1) in E by done.
  destruct (UpdateService l [] _ s1) as [[r|p] m2] eqn:Eu; [|done]. injection E as <- <-.
  exists svc, l, s1. split_and!; [done..|]. by exists r.
Qed.

(** Another one, with whatever version of the service, panics. *)
Lemma serving_panics ks1 es1 o1 o2 m :
  ks_Namespace ks1 = ks_Namespace ks -> ks_Name ks1 = ks_Name ks -> serving m ->
  (forall l old, services m !! (ks_Namespace ks ++ "/" ++ ks_Name ks)%string = Some l ->
     heap m !! l = Some old -> ranges old o1 = true) ->
  exists p m', handle_found ks1 es1 o1 o2 m = (Panics p, m').
Proof.
  intros En En' Hm Hr. destruct (serving_stored m Hm) as (l & old & Hl & Hold & Hp & He).
  apply handle_found_stored; [by apply live_ids_inv, serving_live|]. rewrite En, En'.
  exists l, old, (Some (list_to_set [convert_port sp])). specialize (Hr l old Hl Hold).
  apply (ranges_one old o1 Hp) in Hr as ->. split_and!; try done.
  - unfold order_of, members. cbn. by rewrite union_empty_r_L, elements_singleton.
  - cbn. set_solver.
  - rewrite He. intros ->. pose proof (servable_count _ _ _ _ _ _ _ _ _ _ Hs). cbn in *. lia.
Qed.

End one.
End manager.
(** ** The running agent *)

Section properties.
Context {SM BM Q I CS CE : Type} `{!MapOps lb4_key lb4_service SM} `{!MapOps Z lb4_backend BM}.
Context `{!MapSpec lb4_key lb4_service SM} `{!MapSpec Z lb4_backend BM}.
Context `{!QueueOps Q} `{!QueueSpec Q} `{!KeyFunc} `{!KeyFuncSpec} `{!IndexerOps I} `{!IndexerSpec I}.
Context `{!CacheOps v1_Service CS} `{!CacheOps v1_EndpointSlice CE}.
Context `{!CacheSpec CS} `{!CacheSpec CE}.
Implicit Type s : running SM BM Q I CS CE.

(** Only a call of the handler that returns changes the manager or the history. *)
Lemma step_history a s s' : step a s = Some s' ->
  (serviceManager (ctl s') = serviceManager (ctl s) /\ seen s' = seen s) \/
  exists i o1 o2 key l l' o o' err, a = AWorker i o1 o2 /\ workers s !! i = Some (Found key l l') /\
    slice_at s l = Some o /\ service_at s l' = Some o' /\
    handle_found (k8s_service o') (k8s_slice o) o1 o2 (serviceManager (ctl s)) =
      (Returns err, serviceManager (ctl s')) /\
    seen s' = match err with None => see key (k8s_slice o) (seen s) | Some _ => seen s end.
Proof.
  intros E. unfold step in E. destruct (crashed s); [done|]. destruct (Main.ended (proc s)); [done|].
  destruct a as [a|a|a|ok|i o1 o2|]; cbn in E.
  - destruct (Main.act a (proc s)); [|done]. injection E as <-. by left.
  - unfold service_step in E. destruct (inf_step _ a (svc s)) as [[p|g]|]; [| |done]; injection E as <-; [by left|].
    destruct (call_service_cases s) as (c & Ec & Hc%event_manager). left. destruct a; try rewrite Ec; done.
  - unfold slice_step in E. destruct (inf_step _ a (slc s)) as [[p|g]|]; [| |done]; injection E as <-; [by left|].
    destruct (call_slice_cases s) as (c & l & Ec & Hc%event_manager). left. destruct a; try rewrite Ec; done.
  - unfold run_step in E.
    destruct (run s) as [|[|k]| |]; [destruct ok; [destruct (all_synced s)|destruct (stop_closed s)]|..
      |destruct (stop_closed s)|]; try done; injection E as <-; by left.
  - apply work_cases in E as (w & Hw & [(p & -> & _)|(w' & c & f & Hm & ->)]); [by left|].
    destruct Hm as [| | | | | |key l l' o o' err m Ho Ho' Eh| |]; try by left.
    right. by exists i, o1, o2, key, l, l', o, o', err.
  - injection E as <-. by left.
Qed.

(** ** What the worker holds without tombstones *)

(** No tombstone has cleared an object. *)
Definition no_clear s : Prop :=
  (forall d, d ∈ handled (svc s) -> ~ cleared_by d) /\ (forall d, d ∈ handled (slc s) -> ~ cleared_by d).

(** The objects are as they were looked up. *)
Definition held s (w : worker_pc) : Prop :=
  match w with
  | Looked key l => settled (slc s) l /\ exists o, slice_at s l = Some o /\ slice_for key o
  | Found key l l' => settled (slc s) l /\ settled (svc s) l' /\
      exists o o', slice_at s l = Some o /\ service_at s l' = Some o' /\ slice_for key o /\ service_for key o o'
  | _ => True
  end.

Lemma held_keep s s' w : no_clear s' ->
  svc s' = svc s \/ memory_step (svc s) (svc s') -> slc s' = slc s \/ memory_step (slc s) (slc s') ->
  held s w -> held s' w.
Proof.
  intros [Nv Nl] Mv Ml.
  assert (forall l, settled (slc s) l -> settled (slc s') l /\ slice_at s' l = slice_at s l) as Hl.
  { intros l Hl. unfold slice_at. destruct Ml as [E|Ml]; [by rewrite E|]. by apply memory_settled. }
  assert (forall l, settled (svc s) l -> settled (svc s') l /\ service_at s' l = service_at s l) as Hv.
  { intros l Hv. unfold service_at. destruct Mv as [E|Mv]; [by rewrite E|]. by apply memory_settled. }
  destruct w as [| | |key l|key l l'| | |]; try done; cbn.
  - intros (H1 & o & Ho & Hf). destruct (Hl l H1) as [? E]. split; [done|]. exists o. by rewrite E.
  - intros (H1 & H2 & o & o' & Ho & Ho' & Hf). destruct (Hl l H1) as [? E], (Hv l' H2) as [? E'].
    split_and!; [done..|]. exists o, o'. by rewrite E, E'.
Qed.

Lemma moved_held o1 o2 s w w' c f : inv s -> moved o1 o2 s w w' c f -> held s w -> held s w'.
Proof.
  intros Hi Hm. destruct Hm as [| | | |key|key l o Ho| | |]; try done.
  - by destruct (stop_closed s).
  - intros _. unfold look_slice. destruct (key_slice key) as [[ns n]|] eqn:Ek; [|done].
    destruct (slice_pointer s ns n) as [l|] eqn:El; [|done].
    destruct (pointer_typed _ _ _ _ (inv_slc _ Hi) El) as (o & Ho & Hk).
    split; [by apply (stored_settled _ _ _ _ (inv_slc _ Hi) El)|]. exists o. split; [done|]. by exists ns, n.
  - intros (H1 & o0 & Ho0 & Hf). assert (o0 = o) as -> by congruence.
    destruct Hf as (ns & n & Ek & Hk). unfold look_service. rewrite Ek. cbn.
    destruct (service_pointer s ns _) as [l'|] eqn:El'; [|done].
    destruct (pointer_typed _ _ _ _ (inv_svc _ Hi) El') as (o' & Ho' & Hk').
    split_and!; [done|by apply (stored_settled _ _ _ _ (inv_svc _ Hi) El')|]. exists o, o'.
    split_and!; [done..|by exists ns, n|by exists ns, n].
Qed.

Lemma held_step a s s' : inv s -> step a s = Some s' -> no_clear s' ->
  (forall w, w ∈ workers s -> held s w) -> forall w, w ∈ workers s' -> held s' w.
Proof.
  intros Hi E Hn Hh. unfold step in E. destruct (crashed s); [done|]. destruct (Main.ended (proc s)); [done|].
  assert (forall s1, no_clear s1 -> svc s1 = svc s \/ memory_step (svc s) (svc s1) ->
    slc s1 = slc s \/ memory_step (slc s) (slc s1) -> workers s1 = workers s ->
    forall w, w ∈ workers s1 -> held s1 w) as Hsame.
  { intros s1 N1 V1 L1 Ew w. rewrite Ew. intros Hw. apply (held_keep s); auto. }
  destruct a as [a|a|a|ok|i o1 o2|]; cbn in E.
  - destruct (Main.act a (proc s)); [|done]. injection E as <-. apply Hsame; auto.
  - unfold service_step in E. destruct (inf_step _ a (svc s)) as [[p|g]|] eqn:Es; [| |done]; injection E as <-;
      [apply Hsame; auto|]. pose proof (memory_run _ _ _ _ _ (inv_svc _ Hi) Es).
    destruct (call_service_cases s) as (c & Ec & _). destruct a; try rewrite Ec in *; apply Hsame; auto.
  - unfold slice_step in E. destruct (inf_step _ a (slc s)) as [[p|g]|] eqn:Es; [| |done]; injection E as <-;
      [apply Hsame; auto|]. pose proof (memory_run _ _ _ _ _ (inv_slc _ Hi) Es).
    destruct (call_slice_cases s) as (c & l & Ec & _). destruct a; try rewrite Ec in *; apply Hsame; auto.
  - unfold run_step in E.
    destruct (run s) as [|[|k]| |]; [destruct ok; [destruct (all_synced s)|destruct (stop_closed s)]|..
      |destruct (stop_closed s)|]; try done; injection E as <-; try (apply Hsame; by auto).
    intros w [Hw| ->%list_elem_of_singleton]%elem_of_app; [|done]. by apply (held_keep s); auto.
  - apply work_cases in E as (w & Hw & [(p & -> & _)|(w' & c & f & Hm & ->)]); [apply Hsame; auto|].
    intros w0 [->|Hin]%elem_of_list_insert; apply (held_keep s); auto.
    eapply moved_held; [exact Hi|exact Hm|]. apply Hh. by eapply list_elem_of_lookup_2.
  - injection E as <-. apply Hsame; auto.
Qed.

Lemma no_clear_step a s s' : inv s -> step a s = Some s' -> no_clear s' -> no_clear s.
Proof.
  intros Hi E. destruct (handled_step a s s' Hi E) as [[ds Ev] [ds' El]]. unfold no_clear. rewrite Ev, El.
  intros [H1 H2]. split; intros d Hd; [apply H1|apply H2]; apply elem_of_app; by left.
Qed.

(** ** Versions *)

Section versions.
Context (KS : K8sService -> Prop) (ES : EndpointSlice -> Prop) (sm : SM) (bm : BM).
Context (KS_one : forall ks ks', KS ks -> KS ks' -> ks_Namespace ks' = ks_Namespace ks /\ ks_Name ks' = ks_Name ks).
Context (servable_all : forall ks es, KS ks -> ES es ->
  exists sp a b c d ws, servable ks es sp a b c d ws sm bm).

(** An object that reads as a version, or has no name. *)
Definition version {T A} `{!Object T} (f : T -> A) (P : A -> Prop) (o : T) : Prop := P (f o) \/ delta_key o = "".

Lemma version_named {T A} `{!Object T} (f : T -> A) (P : A -> Prop) (o : T) ns n :
  version f P o -> delta_key o = (ns ++ "/" ++ n)%string -> P (f o).
Proof. intros [?|E] Hk; [done|]. rewrite E in Hk. by destruct ns. Qed.

(** The API server sends versions only. *)
Definition sends_only (act : act) : Prop :=
  Forall (fun o => KS (k8s_service o)) (received_services act) /\
  Forall (fun o => ES (k8s_slice o)) (received act).

(** The manager is new and no slice was handled, or it serves a version of the
    service with the one slice that was. *)
Definition fresh_or_serving s : Prop :=
  (serviceManager (ctl s) = fresh_manager sm bm /\ forall k, seen s k = None) \/
  exists ks es sp a b c d ws, KS ks /\ ES es /\ servable ks es sp a b c d ws sm bm /\
    serving ks es sp sm bm (serviceManager (ctl s)) /\ forall k es', seen s k = Some es' -> es' = es.

Definition served s : Prop :=
  inv s /\ lifted (version k8s_service KS) (version k8s_slice ES) (fun _ => True) s /\
  (no_clear s -> (forall w, w ∈ workers s -> held s w) /\ fresh_or_serving s).

Lemma see_cases key es f k es' : see key es f k = Some es' -> es' = es \/ f k = Some es'.
Proof. unfold see. destruct (key_slice key) as [[ns n]|]; [case_decide; [left; congruence|]|]; by right. Qed.

(** The call of the handler on both objects. *)
Lemma found_step i o1 o2 key l l' o o' err m s :
  go_orders (AWorker i o1 o2) s = true -> workers s !! i = Some (Found key l l') ->
  slice_at s l = Some o -> service_at s l' = Some o' -> KS (k8s_service o') -> ES (k8s_slice o) ->
  fresh_or_serving s ->
  handle_found (k8s_service o') (k8s_slice o) o1 o2 (serviceManager (ctl s)) = (Returns err, m) ->
  (forall k, seen s k = None) /\ exists sp a b c d ws, servable (k8s_service o') (k8s_slice o) sp a b c d ws sm bm /\
    serving (k8s_service o') (k8s_slice o) sp sm bm m.
Proof.
  intros Ha Hw Ho Ho' Hks Hes Hf Eh.
  destruct (servable_all _ _ Hks Hes) as (sp & a & b & c & d & ws & Hs).
  destruct Hf as [[Em Hn]|(ks0 & es0 & sp0 & a0 & b0 & c0 & d0 & ws0 & Hks0 & _ & Hs0 & Hm & _)].
  - split; [done|]. exists sp, a, b, c, d, ws. split; [done|]. rewrite Em in Eh.
    eapply handle_found_fresh; [exact Hs| |exact Eh]. intros svc Hsvc.
    by destruct (go_orders_found _ _ _ _ _ _ _ _ _ _ Ha Hw Ho Ho' Hsvc).
  - destruct (KS_one _ _ Hks0 Hks) as [En En'].
    destruct (NewService (k8s_service o') (k8s_slice o)) as [svc|p] eqn:Hsvc;
      [|unfold handle_found, bind, lift_outcome in Eh; by rewrite Hsvc in Eh].
    destruct (serving_panics _ _ _ _ _ _ _ _ _ _ Hs0 (k8s_service o') (k8s_slice o) o1 o2 _ En En' Hm) as (p & m' & Ep);
      [|by rewrite Ep in Eh].
    intros lo old Hl Hold. apply (proj2 (go_orders_found _ _ _ _ _ _ _ _ _ _ Ha Hw Ho Ho' Hsvc) lo); [|done].
    by rewrite (NewService_key _ _ _ Hsvc), En, En'.
Qed.

Lemma served_step act s s' :
  go_orders act s = true -> sends_only act -> served s -> step act s = Some s' -> served s'.
Proof.
  intros Ho [Hv Hl] (Hi & Hlift & Hrest) E. split; [by eapply inv_step|]. split.
  - eapply (lifted_step (version k8s_service KS) (version k8s_slice ES)) with (A := fun _ _ => true); [..|exact Hi|exact Hlift|exact E];
      try done; try (by right); try (intros o; unfold version; by rewrite delta_key_copy).
    split; (eapply Forall_impl; [eassumption|]); intros o ?; by left.
  - intros Hn. destruct (Hrest (no_clear_step _ _ _ Hi E Hn)) as [Hh Hf].
    split; [by eapply held_step|].
    destruct (step_history _ _ _ E) as [[Em Es]|(i & o1 & o2 & key & l & l' & o & o' & err & -> & Hw & Eo & Eo' & Eh & Es)].
    { unfold fresh_or_serving. by rewrite Em, Es. }
    destruct Hlift as [L1 L2 _]. destruct (Hh _ (list_elem_of_lookup_2 _ _ _ Hw)) as
      (_ & _ & o0 & o0' & Eo0 & Eo0' & (ns & n & _ & Hk) & (ns' & n' & _ & Hk')).
    assert (o0 = o) as -> by congruence. assert (o0' = o') as -> by congruence.
    assert (KS (k8s_service o')) as Hks by exact (version_named k8s_service KS o' _ _ (objects_heap _ _ L1 l' o' Eo') Hk').
    assert (ES (k8s_slice o)) as Hes by exact (version_named k8s_slice ES o _ _ (objects_heap _ _ L2 l o Eo) Hk).
    destruct (found_step _ _ _ _ _ _ _ _ _ _ _ Ho Hw Eo Eo' Hks Hes Hf Eh) as (Hseen & sp & a & b & c & d & ws & Hs & Hm).
    right. exists (k8s_service o'), (k8s_slice o), sp, a, b, c, d, ws. split_and!; [done..|].
    intros k es'. rewrite Es. destruct err; [by rewrite Hseen|].
    intros [?|Hk0]%see_cases; [done|]. by rewrite Hseen in Hk0.
Qed.

End versions.

(** ** Properties *)

Context {R : Type} `{!LabelOps R}.

(** C2. An agent whose API server sends versions of a service ([KS]), each with one
    port and a cluster address of its own, and of slices ([ES]), each with ready
    addresses the maps have room for and none being deleted, serves them in
    every interleaving: whenever its worker rests and a slice is in the store,
    not about to be queued and not held back after a failure, there is a version
    of the service such that every TCP or UDP connection to its address and port
    is sent to the ready address number [r mod n] the slice has now, on the
    version's target port, [r] being the random word the program draws.  The
    versions may differ in addresses, ports and endpoints; they can change until
    one is published, since the next event of its slice ends the agent.  This is for runs in
    which no tombstone came: neither cleared an object nor deleted the slice. *)
Theorem resting_agent_serves (KS : K8sService -> Prop) (ES : EndpointSlice -> Prop)
    tr (r0 : R) (q : Q) sm bm s ns n es :
  q_shutting_down q = false -> (forall x, ~ q_processing q x) ->
  (forall ks ks', KS ks -> KS ks' -> ks_Namespace ks' = ks_Namespace ks /\ ks_Name ks' = ks_Name ks) ->
  (forall ks es, KS ks -> ES es -> exists sp a b c d ws, servable ks es sp a b c d ws sm bm) ->
  Forall (sends_only KS ES) tr ->
  let s0 := agent_start r0 q (NewServiceManager (Some sm) (Some bm)) in
  along go_orders tr s0 = true -> exec tr s0 = Some s -> no_clear s -> resting s ->
  no_slash ns = true -> no_slash n = true -> slice_key_of ns n ∉ lost s ->
  current s (slice_key_of ns n) = Some es -> ~ dispatching s (slice_key_of ns n) ->
  ~ q_delayed (queue_of s) (slice_item (slice_key_of ns n)) ->
  exists ks sp a b c d ws, KS ks /\ servable ks es sp a b c d ws sm bm /\
    forall ctx r, connects sp a b c d ctx -> 0 <= r -> exists sm' bm' w,
      serviceMap (serviceManager (ctl s)) = Some sm' /\ endpointsMap (serviceManager (ctl s)) = Some bm' /\
      ws !! Z.to_nat (r mod Z.of_nat (length ws)) = Some w /\
      user_ip4 (connect4_ctx sm' bm' r ctx) = w /\
      user_port (connect4_ctx sm' bm' r ctx) =
        bpf_htons LittleEndian false (uwrap 16 (sp_TargetPort_IntValue sp)).
Proof.
  cbn zeta. intros Hq Hp H1 Hall Htr Hal E Hn Hrest Hsl1 Hsl2 Hlost Hcur Hdis Hdel.
  assert (served KS ES sm bm s) as (_ & _ & Hseen).
  { revert E. apply (exec_invariant_along go_orders (sends_only KS ES) (served KS ES sm bm)); [|done..|].
    - intros act s1 s2 Ha Hb Hs E. by eapply served_step.
    - split; [by apply inv_start|]. split.
      + constructor; cbn; [constructor; [intros l o; cbn; by rewrite lookup_empty|done]..|done].
      + intros _. split; [by intros w []%not_elem_of_nil|by left]. }
  destruct (Hseen Hn) as [_ [[_ Hnone]|(ks & es' & sp & a & b & c & d & ws & Hks & _ & Hs & Hm & Hone)]];
    destruct (resting_caught_up _ _ _ _ _ ns n Hq Hp E Hrest Hsl1 Hsl2 Hlost) as [?|[?|Es]]; try done;
    rewrite Hcur in Es; [by rewrite Hnone in Es|].
  rewrite (Hone _ _ Es) in *. exists ks, sp, a, b, c, d, ws. split_and!; [done..|]. intros ctx r Hctx Hr.
  by eapply serving_connects.
Qed.

End properties.

(** ** Witness *)

#[local] Existing Instance ex_key_func.
#[local] Existing Instance ex_key_func_spec.

Definition ex_sp : ServicePort := mkServicePort "TCP" 80 8080.

Lemma ex_servable :
  servable (k8s_service ex_service_obj) (k8s_slice ex_slice_obj) ex_sp 10 96 0 10 [16777226; 33554442]
    (hmap_new (K := lb4_key) (V := lb4_service) 4) (hmap_new (K := Z) (V := lb4_backend) 8).
Proof. constructor; try by_vm; try (rewrite ex_room); cbn; lia. Qed.

Lemma sends_only_all KS ES tr :
  Forall (fun o => KS (k8s_service o)) (all_services tr) ->
  Forall (fun o => ES (k8s_slice o)) (all_slices tr) -> Forall (sends_only KS ES) tr.
Proof.
  unfold all_services, all_slices. rewrite !Forall_concat, !Forall_map. intros Hv Hl.
  apply Forall_forall. intros act Hin. split;
    [exact (proj1 (Forall_forall _ _) Hv act Hin)|exact (proj1 (Forall_forall _ _) Hl act Hin)].
Qed.

Lemma ex_not_dispatching (s : ex_running) k : pc (slc s) = Popping -> ~ dispatching s k.
Proof. unfold dispatching. intros -> []. Qed.

Lemma ex_not_delayed (q : wqueue) x : waiting q = [] -> ~ q_delayed q x.
Proof. cbn. intros ->. apply not_elem_of_nil. Qed.

(** The slice changes before the worker gets to it. *)
Definition ex_slice2_obj : v1_EndpointSlice :=
  mkV1Slice ("EndpointSlice", "v1")%string (ex_meta "web-1") "IPv4" [80] [mkEndpoint ["10.0.0.3"%string] (Some true)].
Definition ex_changed : list act :=
  ex_lists ++ map ASlice (informer_round 1 (Watched Updated ex_slice2_obj)) ++ ex_run_up ++ ex_item ++ ex_slice_item.

Definition ex_services (ks : K8sService) : Prop := ks = k8s_service ex_service_obj.
Definition ex_slices (es : EndpointSlice) : Prop := es = k8s_slice ex_slice_obj \/ es = k8s_slice ex_slice2_obj.

Lemma ex_servable_all ks es : ex_services ks -> ex_slices es ->
  exists sp a b c d ws, servable ks es sp a b c d ws
    (hmap_new (K := lb4_key) (V := lb4_service) 4) (hmap_new (K := Z) (V := lb4_backend) 8).
Proof.
  intros -> [->| ->]; exists ex_sp, 10, 96, 0, 10.
  - exists [16777226; 33554442]. constructor; try by_vm; try (rewrite ex_room); cbn; lia.
  - exists [50331658]. constructor; try by_vm; try (rewrite ex_room); cbn; lia.
Qed.

Definition tombless {T} (ds : list (rdelta T)) : bool :=
  forallb (fun d => match d with RTomb _ (Some _) => false | _ => true end) ds.

Lemma tombless_spec {T} (ds : list (rdelta T)) : tombless ds = true -> forall d, d ∈ ds -> ~ cleared_by d.
Proof.
  unfold tombless. rewrite forallb_forall. intros H d Hd%list_elem_of_In. specialize (H d Hd).
  destruct d as [|k [l|]]; [by intros []|done|by intros []].
Qed.

Lemma ex_no_clear (s : ex_running) :
  tombless (handled (svc s)) = true -> tombless (handled (slc s)) = true -> no_clear s.
Proof. intros Hv Hl. split; by apply tombless_spec. Qed.

Lemma ex_connects_to es sp a b c d ws (sm : hmap lb4_key lb4_service) (bm : hmap Z lb4_backend) :
  servable (k8s_service ex_service_obj) es sp a b c d ws sm bm -> connects sp a b c d System.ex_ctx.
Proof.
  intros [H1 (Ha & Hb & Hc & Hd) H3 _ _ _ _ _ _ _]. change [mkServicePort "TCP" 80 8080] with [ex_sp] in H3.
  injection H3 as <-. pose proof (ParseIP_dotted a b c d Ha Hb Hc Hd) as Hp. rewrite <- H1 in Hp.
  assert (ParseIP (ks_ClusterIP (k8s_service ex_service_obj)) = Some (v4InV6Prefix ++ [10; 96; 0; 10])) as E by by_vm.
  rewrite E in Hp. injection Hp as <- <- <- <-. split_and!; by_vm.
Qed.

Lemma resting_agent_serves_witness :
  exists sm' bm' w, serviceMap (serviceManager (ctl (ex_after ex_changed))) = Some sm' /\
    endpointsMap (serviceManager (ctl (ex_after ex_changed))) = Some bm' /\
    user_ip4 (connect4_ctx sm' bm' 7 System.ex_ctx) = w.
Proof.
  destruct (resting_agent_serves ex_services ex_slices ex_changed ex_proxy (ex_queue []) (hmap_new 4) (hmap_new 8)
    (ex_after ex_changed) "default" "web-1" (k8s_slice (obj_copy ex_slice2_obj)))
    as (ks & sp & a & b & c & d & ws & Hks & Hs & Hall).
  - by_vm.
  - by intros x []%not_elem_of_nil.
  - by intros ks ks' -> ->.
  - exact ex_servable_all.
  - assert (all_services ex_changed = [ex_service_obj]) as Ev by by_vm.
    assert (all_slices ex_changed = [ex_slice_obj; ex_slice2_obj]) as El by by_vm.
    apply sends_only_all; [rewrite Ev|rewrite El]; repeat constructor; by right.
  - by_vm.
  - apply ex_exec. by_vm.
  - apply ex_no_clear; by_vm.
  - apply ex_resting; by_vm.
  - by_vm.
  - by_vm.
  - assert (lost (ex_after ex_changed) = []) as -> by by_vm. apply not_elem_of_nil.
  - by_vm.
  - apply ex_not_dispatching. by_vm.
  - apply ex_not_delayed. by_vm.
  - rewrite Hks in Hs.
    destruct (Hall System.ex_ctx 7) as (sm' & bm' & w & E1 & E2 & _ & Hip & _); 
      [exact (ex_connects_to _ _ _ _ _ _ _ _ _ Hs)|lia|].
    exists sm', bm', w. exact (conj E1 (conj E2 Hip)).
Defined.

End Served.
